(* ===== verification/_CoqProject ===== *)
-Q . S2P
Prelude.v
DmlTypes.v
Platform.v
Data.v
Sysevents.v
Controller.v
ParallelScan.v
DataFacts.v
ParallelFacts.v
ParallelSpec.v
ParallelMoves.v
ParallelTransitions.v
ParallelInv.v
ParallelPass.v
Sample.v
ParallelProps.v
Failover.v
FailoverFacts.v
FailoverMark.v
FailoverInv.v
FailoverProps.v
System.v
SystemProps.v
Inet.v
Addresses.v
Mapt.v
MaptSetup.v
MaptFacts.v
MaptRuns.v
MaptProps.v
AutoPolicy.v
AutoFacts.v
AutoEffect.v
AutoPass.v
AutoScan.v
AutoProps.v
PsmConfig.v
PsmFacts.v
PsmProps.v
Dhcp.v
Leases.v
LeasesV6.v
Handlers.v
HandlerFacts.v
HandlerSafe.v
BootProps.v
IfaceHelpers.v
Status.v
IfaceActions.v
IfaceAddresses.v
IfaceTransitions.v
IfaceSM.v
IfaceFacts.v
IfaceKeeps.v
StatusSafe.v
IfaceSafe.v
IfaceMoves.v
IfaceDown.v
IfacePass.v
MachineSystem.v
HandlerProps.v
IfaceProps.v
WanService.v
AutoWan.v
AutoWanStates.v
BackupWan.v
AutoWanFacts.v
AutoWanPass.v
AutoWanEdges.v
BackupEdges.v
AutoWanThreads.v
AutoWanSample.v
AutoWanProps.v
BackupProps.v
BackupTimer.v
AutoWanChecks.v
AutoWanMode.v
AutoWanWitnesses.v
