(* ===== verification/Prelude.v ===== *)
(** * RDK WAN Manager

    The WAN manager brings up the wide-area interfaces of a gateway and keeps
    exactly one of them in service.  It is one process of many threads around
    one data base, [gWanMgrDataBase]:

    - one {e policy} thread per interface group selects the best interface of
      its group (it writes [SelectedInterface] of the group and
      [Selection.Status] of the interfaces);
    - the {e failover} thread activates the selected interface of the best group
      and moves the activation between groups;
    - one {e state machine} thread per virtual interface brings the link, the
      VLAN, the addresses and the routes of an interface up and down, and
      reports in [VirtIfList->Status];
    - the data model (TR-181) and the bus write configuration, and the DHCP
      clients report leases.

    ** Files and sources (under [src/source/])

    - [Prelude]: C integers and decimal text, the state-and-error monad with its
      weakest-precondition rules, records, the tactics and hint data bases.
    - [DmlTypes]: the data model, [TR-181/include/wanmgr_dml.h] and the records
      of [WanManager/wanmgr_data.h]; one inductive type or record per C type.
    - [Platform]: the state a thread works on, the calls out of the model, the
      compile-time switches.
    - [Data]: [WanManager/wanmgr_data.c].  [Sysevents]: the setters of
      [wanmgr_sysevents.c].  [Controller]: [wanmgr_controller.c] and the helpers
      the threads share.  [DataFacts]: the lock discipline and the rules to run
      a locked section.
    - [ParallelScan]: [wanmgr_policy_parallel_scan_impl.c], one definition per
      function; its facts in [ParallelFacts] (crash freedom and locks),
      [ParallelSpec] (what is the best interface), [ParallelMoves] (what a pass
      leaves alone), [ParallelTransitions], [ParallelInv] (the invariant),
      [ParallelPass] and the properties in [ParallelProps].
    - [Failover]: [wanmgr_wan_failover.c]; its facts in [FailoverFacts],
      [FailoverMark] (the specification of [MarkHighPriorityGroup]),
      [FailoverInv] and the properties in [FailoverProps].
    - [System], [SystemProps]: the failover thread, the policy threads and the
      other writers interleaved.
    - [AutoPolicy]: [wanmgr_policy_auto_impl.c], the policy that tries the
      interfaces of its group one at a time; its facts in [AutoFacts] (crash
      freedom), [AutoEffect] (the edges, what a pass changes), [AutoPass] (a pass
      runs to its end) and [AutoScan] (the order of the tries), the properties in
      [AutoProps].
    - [PsmConfig]: the configuration in PSM, the persistent store: what the
      start-up reads and the tables it builds ([wanmgr_data.c]), what is written
      back ([TR-181/middle_layer_src/wanmgr_rdkbus_apis.c]) and the repair of the
      store ([wanmgr_dhcp_legacy_apis.c]); a store that keeps what is written in
      [PsmFacts], the properties in [PsmProps]; the data base the program starts
      on, with its rows numbered, in [BootProps].
    - [Inet]: [inet_pton] and the address formats of the C library, with their
      round trips.  [Addresses]: the address checks of [wanmgr_net_utils.c].
    - [Mapt], [MaptSetup]: the MAP-T arithmetic and procedures of
      [wanmgr_net_utils.c] and the sysevents of [wanmgr_sysevents.c]; their
      facts in [MaptFacts] and [MaptRuns], the properties in [MaptProps].
    - [Sample]: a concrete build and data base, for the witnesses.
    - [Dhcp]: the start and stop of the DHCP clients, of
      [wanmgr_net_utils.c] and [wanmgr_rbus_dhcp_client_events.c].  [Leases],
      [LeasesV6]: the lease events of [wanmgr_dhcpv4_apis.c] and
      [wanmgr_dhcpv6_apis.c], the addresses of the cellular and PPP managers.
    - [Status]: the texts of the data model that summarise the interfaces, of
      [TR-181/middle_layer_src/wanmgr_rdkbus_apis.c].
    - [IfaceHelpers], [IfaceActions], [IfaceAddresses], [IfaceTransitions],
      [IfaceSM]: [wanmgr_interface_sm.c], one definition per state, transition
      and helper; its facts in [IfaceFacts] and [IfaceKeeps] (what a pass leaves
      alone), [IfaceSafe] and [IfacePass] (crash freedom, locks, the pass runs to
      its end), [IfaceMoves] (the edges of the machine, the status UP),
      [IfaceDown] (the way down); the properties in [IfaceProps].
    - [MachineSystem]: the state machines interleaved with the threads of
      [System].
    - [WanService]: the sysevents of the WAN service, the default route, the
      monitor of the addresses and the requests to the components of the
      interfaces, of [wanmgr_sysevents.c], [wanmgr_net_utils.c] and
      [TR-181/middle_layer_src/wanmgr_rdkbus_utils.c].  [AutoWan],
      [AutoWanStates], [BackupWan]: [wanmgr_policy_autowan_impl.c], which selects
      in the builds without WAN unification: its actions, the states of the
      fixed modes and of the automatic mode, and the thread of the backup WAN.
      Its facts in [AutoWanFacts] and [AutoWanPass] (crash freedom, locks),
      [AutoWanEdges] and [BackupEdges] (the diagrams), [AutoWanThreads] (the two
      threads interleaved); a build and a run for the witnesses in
      [AutoWanSample]; the properties in [AutoWanProps], [BackupProps],
      [BackupTimer], [AutoWanChecks] and [AutoWanMode], their witnesses in
      [AutoWanWitnesses].
    - [Handlers]: the requests of the data model on the interfaces, their virtual
      interfaces, their VLAN rows, the groups and the manager
      ([TR-181/middle_layer_src/wanmgr_dml_iface_v2_apis.c], [wanmgr_dml_apis.c]);
      a handle is the position of its object, a value returned through a pointer
      an option.  Their facts in [HandlerFacts] (rows that carry their numbers,
      [keyed]) and [HandlerSafe] (every request as one type, [DmRequest], runs to
      its end), the properties in [HandlerProps].

    ** How the state and the operations correspond

    A C function is a definition of the same name in the monad [M (St C)]: it
    passes the controller of its thread ([ctl], a record with the fields of the
    C structure), the data base ([db]), the sysevent store ([sys]) and the calls
    made so far ([trace]), and stops ([None]) where C would dereference [NULL]
    or compute something undefined.  A pointer into the data base is an index;
    the recursive [gDataMutex] is its depth, so that a leaked lock is a depth
    that grew; an unlock at depth 0 fails (EPERM) and changes nothing.  A call to code outside [src/] (PSM, the bus, the clock, the
    shell, thread creation, the C library's parsers of foreign text) is recorded
    and answered by an oracle, the class [Platform], which may depend on all
    earlier calls.  The class [Build] holds the compile-time switches.  A theorem
    holds for every oracle and every choice of the switches but for what its
    hypotheses say; the section on hypotheses below lists them.
    A thread is its part before the loop, the body of the loop, and its end
    ([fo_start], [fo_iteration]; [ps_start], [ps_iteration], [ps_finish];
    [aw_start], [aw_iteration], and [ps_finish] again; [ism_start], [ism_iteration];
    [bw_start], [bw_iteration]); each loop is a sequence of passes.  The thread of
    the AutoWAN policy has several endless loops one in another: [AutoWanPhase]
    says in which it is, and [policy_step] is one round of that loop.

    ** What the theorems show

    - [SystemProps]: under every interleaving of passes at most one interface is
      active and its policy owns it; the program refines an abstract machine in
      which an interface is activated only while none is, and no selection
      changes under an active interface; and no thread ever dereferences [NULL],
      so that each can always take its next pass, and gives back the mutex unless
      the pass ends in the failed start of a state machine.
    - [FailoverProps]: break before make, the restoration delay, COLDSWAP, the
      choice of the group against an exact specification of the search, the edges
      of the machine, and a reset request that is dropped.
    - [ParallelProps]: the selection against a specification, the invariant of a
      policy thread, what it promises to the others, the effect of its
      transitions, and the errors on its rare paths.
    - [AutoProps]: a pass of the auto policy follows the edges of its machine,
      runs to its end and changes no selection but its own; a scan tries every
      interface the policy may try, once, in the order of the priorities; and an
      interface given up while the group still selects it.
    - [BootProps]: whatever PSM holds beside a switch and sound counts, the
      start-up ends and leaves the data base the theorems on the threads assume.
      [PsmProps]: what is stored of an interface is read back after a restart; a
      VLAN name that is stored under the key of a marking.
    - [HandlerProps]: a request of the data model is a step of the composed
      threads, in any state they reach; priorities stay distinct; an interface
      that moves between groups is in the available set of its group only; what
      is set is read back and what is refused changes nothing; and a row that is not
      there leaves the mutex locked.
    - [Addresses], [MaptProps]: the extraction of the PSID and the IPv4 index
      against bit slices of the prefix, with the exact bits lost where the C
      parameter is too narrow; the ports of a PSID; round trips of the computed
      addresses; the buffers; and all-or-nothing publication of the firewall's
      view.
    - [MachineSystem]: every run of the threads with the state machines is a run
      of the world of [System], whose guarantees it keeps; and the pass of every
      machine whose interface is configured runs to its end and gives the mutex
      back.
    - [IfaceProps]: the edges of the machine of an interface; it is UP only while
      its interface is the active one; the way down and the exit; the effect of
      a DHCPv4 event; the VLAN discovery, which tries every VLAN; the order of the
      published interfaces.

    - [AutoWanProps]: under every interleaving of the AutoWAN policy, its backup
      thread and the others, each loop is in a state of its own diagram, its next
      round runs to its end, and the mutex is given back.  [BackupProps]: the
      remote interface carries the traffic only when the primary WAN is gone, and
      becomes active exactly when its default route is there at one of nine checks.
      [BackupTimer]: when the timer of the delay before the traffic goes back is
      started, kept and stopped, and what its end does.  [AutoWanMode]: the mode
      that is recorded, and the requests to reboot.  [AutoWanChecks]: the alternate
      interface, the restart of the health checks, which unlocks the mutex too
      often, and the end of the monitor of the addresses.

    ** Hypotheses

    - The tables: the theorems on single passes take a well-formed data base
      ([db_wf]: no index out of range, a virtual interface in every row) whose
      counts fit their 32-bit indices ([bounded]); those on runs take one on which
      nothing is selected, the mutex is free and nothing is active ([bootable]),
      which [BootProps] proves of the start-up.
    - The other threads: [System] knows the parallel-scan policies and the failover
      thread, and of every other writer only that it keeps the shape and bounds of
      the tables, gives the mutex back, selects nothing, moves no interface to
      another group and makes none active ([others]).  [MachineSystem] proves this of
      the state machines, [HandlerProps] of the requests of the data model but for
      a new value of Selection.Group.  Alone, the failover thread takes [env_step],
      a policy of a group [ps_env], and the AutoWAN threads [settled] for what
      happens between their passes.
    - The start of a state machine may fail.  A scanning pass of a parallel-scan
      policy then keeps the mutex ([parallel_new_interface_leaks_lock]): the
      theorems say so with [start_failed], the last call of the pass being a failed
      [malloc] or [pthread_create], and that the mutex is free is proved of the runs
      without such a pass ([smooth_reach]).  No theorem takes that threads start.
    - Memory: that a pass of a state machine or of the AutoWAN threads ends takes
      that the three allocations whose result the code does not check succeed
      ([memory_available]) and that [resolv.conf] has the format of its manual page
      ([resolv_conf_readable]); the code crashes otherwise.  The start-up takes that
      its memory is available, and [BootProps] and [PsmProps] that memory comes
      cleared.
    - Switches: [MachineSystem] ends the passes of the builds without MAP-T;
      [ism_off_goes_down] is for those without the DHCP manager, [auto_scan_order]
      for those without XB6_CBR2_PRODUCT_REQ, [backup_restoration_timer] for those
      without the health check.
    - Data from outside: that PSM gives back what it was given ([PsmProps]), that
      the stored counts are in range ([BootProps]), that the MAP-T options parse and
      their port ranges fit the caller's buffer ([MaptProps]), that values are of
      the type of their parameter ([HandlerProps]).

    ** Abstractions, bounds and fuel

    - A pass takes the mutex at once: that a thread waits while another one holds
      it is not modelled.  Between the passes of a run without failed starts the
      mutex is free ([system_progress]), so that nobody waits for long; after a
      scanning pass that has kept it, the other threads of the program wait for
      ever, and what the theorems say of their further passes is about passes that
      are not made.
    - A pass of a thread is atomic.  The C threads take the mutex several times
      in a pass and release it in between; a theorem on the interleaving of
      passes does not cover a writer between two locked sections of one pass.
    - The data model is, for the interleaving theorems, any step that keeps the
      shape of the data base and moves no interface between groups; [System] says
      so of the state machines too, and [MachineSystem] proves it of them.  The data model can change
      the group of an interface; the theorems on runs say nothing of one in which
      it does so.
    - A group never has two policy threads.  The group monitor does not check
      for a thread that has not ended yet; the theorems assume its start waits.
    - Times are their seconds.  A [char *] buffer is its text; the bounds of a
      buffer are theorems where the code formats into one.
    - Integers have their C width ([u32], [s32]); [int] is 32 bits and [long] 64.
    - The recursions with fuel are the bit count of the LAN mask, for which 32
      rounds are enough, the monitor of the addresses, for which 241 are (both
      proved), and the retries of the default route, whose fuel is the bound of
      the C loop.
    - In the AutoWAN files a function with a test that C makes twice in a row on
      locked data, such as [isAnyRemoteInterfaceActive], makes it once; the tests
      of a condition that only read are made whether C reaches them or not.

    ** Not modelled

    - The policies [fm], [fmob], [pp] and [ppob], which no Makefile compiles.
    - The AutoWAN policy is not a thread of [System]: a build has either.  What
      the other threads do to it is any step that keeps the tables.
    - The auto policy is not a thread of [System]: it may give up an interface
      that the failover thread has activated ([auto_stale_selection]), which
      breaks what the other threads are promised there.
    - Of the state machine, the builds for Deutsche Telekom, 464XLAT, IVI and the
      LAN-side health check; the calls [dhcpv6_assign_global_ip],
      [getGloballyUniqueIfAddr6] and [WanMgr_SendMsgToIHC] are recorded and
      answered by the oracle, and so is an [in_addr] that C leaves uninitialised.
    - The thread that receives the events of the DHCP manager.
    - The recovery after a restart of the process, the sysevent listener thread.
    - Of the data model, the 802.1p marking table, the tables of the DHCP clients,
      the handlers of the builds without WAN unification, and the handlers that
      only return a constant.
    - The web configuration and the IPC server, which move parameters in and out
      of the data base. *)

From stdpp Require Export base gmap strings list option pretty.
From Stdlib Require Export Ascii ZArith Lia ZifyBool.

#[global] Open Scope Z_scope.

(** * C integers *)

(** The value of [x] stored in a 32-bit [UINT]. *)
Definition u32 (x : Z) : Z := x mod 2 ^ 32.

(** The value of [x] stored in a 32-bit [INT]. *)
Definition s32 (x : Z) : Z := (x + 2 ^ 31) mod 2 ^ 32 - 2 ^ 31.

Lemma u32_range x : 0 <= u32 x < 2 ^ 32.
Proof. apply Z.mod_pos_bound. lia. Qed.

Lemma u32_small x : 0 <= x < 2 ^ 32 -> u32 x = x.
Proof. apply Z.mod_small. Qed.

Lemma s32_small x : - 2 ^ 31 <= x < 2 ^ 31 -> s32 x = x.
Proof. intros H. unfold s32. rewrite Z.mod_small; lia. Qed.

Lemma u32_neg x : - 2 ^ 32 <= x < 0 -> u32 x = x + 2 ^ 32.
Proof.
  intros H. unfold u32. rewrite <- (Z_mod_plus_full x 1 (2 ^ 32)).
  rewrite Z.mul_1_l. apply Z.mod_small. lia.
Qed.

(** * Boolean tests *)

Declare Scope wan_scope.
Delimit Scope wan_scope with wan.
#[global] Open Scope wan_scope.

(** The C tests [a == b] and [a != b]. *)
Notation "a ≟ b" := (bool_decide (a = b)) (at level 70, no associativity) : wan_scope.
Notation "a ≠? b" := (negb (bool_decide (a = b))) (at level 70, no associativity) : wan_scope.

(** [strstr(hay, needle) != NULL]. *)
Definition strstr (hay needle : string) : bool :=
  match String.index 0 needle hay with Some _ => true | None => false end.

(** Decimal text, and the [sscanf(s, "%d")] / [atoi] reading of it. *)
Definition dec (n : Z) : string := pretty n.

Fixpoint read_digits (l : list ascii) (acc : Z) : Z :=
  match l with
  | [] => acc
  | c :: l' =>
      let n := Z.of_nat (Ascii.nat_of_ascii c) in
      if (48 <=? n) && (n <=? 57) then read_digits l' (10 * acc + (n - 48)) else acc
  end.
Definition is_digit (c : ascii) : bool :=
  let n := Z.of_nat (Ascii.nat_of_ascii c) in (48 <=? n) && (n <=? 57).
(** [None]: no conversion was made and the target keeps its value. *)
Definition sscanf_d (s : string) : option Z :=
  match String.list_ascii_of_string s with
  | [] => None
  | c :: l =>
      if is_digit c then Some (s32 (read_digits (c :: l) 0))
      else if c ≟ "-"%char then
        match l with
        | d :: _ => if is_digit d then Some (s32 (- read_digits l 0)) else None
        | [] => None
        end
      else None
  end.

(** ** Reading back decimal text *)

Lemma pretty_char_digit (k : N) : (k < 10)%N ->
  is_digit (pretty_N_char k) = true /\ Z.of_nat (Ascii.nat_of_ascii (pretty_N_char k)) = 48 + Z.of_N k.
Proof.
  intros Hk. assert (k = 0 \/ k = 1 \/ k = 2 \/ k = 3 \/ k = 4 \/ k = 5 \/ k = 6 \/ k = 7 \/ k = 8 \/ k = 9)%N as E by lia.
  by repeat destruct E as [->|E]; [..|subst k].
Qed.
Lemma read_digits_go (x : N) s :
  read_digits (String.list_ascii_of_string (pretty_N_go x s)) 0 =
    read_digits (String.list_ascii_of_string s) (Z.of_N x).
Proof.
  revert s. induction (N.lt_wf_0 x) as [x _ IH]; intros s.
  destruct (decide (x = 0%N)) as [->|Hx]; [by rewrite pretty_N_go_0|].
  assert (x mod 10 < 10)%N as Hm by (apply N.mod_lt; lia).
  destruct (pretty_char_digit _ Hm) as [Hd Hv].
  rewrite pretty_N_go_step by lia.
  rewrite IH by (apply N.div_lt; lia). cbn [String.list_ascii_of_string read_digits].
  unfold is_digit in Hd. rewrite Hd. rewrite Hv. f_equal.
  rewrite N2Z.inj_div, N2Z.inj_mod. pose proof (Z.div_mod (Z.of_N x) 10). lia.
Qed.
Lemma read_dec n : 0 <= n -> read_digits (String.list_ascii_of_string (dec n)) 0 = n.
Proof.
  intros Hn. destruct n as [|p|p]; [done| |lia].
  change (dec (Z.pos p)) with (pretty_N_go (N.pos p) ""). by rewrite read_digits_go.
Qed.

(** Decimal text starts with a digit. *)
Lemma pretty_go_head x s : (0 < x)%N -> exists c t, pretty_N_go x s = String c t /\ is_digit c = true.
Proof.
  revert s. induction (N.lt_wf_0 x) as [x _ IH]; intros s Hx.
  assert (x mod 10 < 10)%N as Hm by (apply N.mod_lt; lia).
  rewrite pretty_N_go_step by lia. destruct (decide (x / 10 = 0)%N) as [->|Hd].
  - rewrite pretty_N_go_0. do 2 eexists. split; [done|]. by apply pretty_char_digit.
  - apply IH; [apply N.div_lt; lia | by apply N.neq_0_lt_0].
Qed.
Lemma dec_head n : 0 <= n -> exists c t, dec n = String c t /\ is_digit c = true.
Proof.
  intros Hn. destruct n as [|p|p]; [by do 2 eexists | by apply pretty_go_head | lia].
Qed.

(** [sscanf(s, "%d")] reads back what [%d] printed. *)
Lemma sscanf_dec n : 0 <= n < 2 ^ 31 -> sscanf_d (dec n) = Some n.
Proof.
  intros Hn. pose proof (read_dec n ltac:(lia)) as Hr. destruct (dec_head n ltac:(lia)) as (c & t & E & Hc).
  rewrite E in *. unfold sscanf_d. cbn [String.list_ascii_of_string] in *. rewrite Hc, Hr.
  f_equal. apply s32_small. lia.
Qed.

(** * Functional record update

    A record type declares the list of its projections once
    ([Settable]); [r <| f := v |>] then updates the field [f]. *)

Class Settable (R : Type) := settable_eta : R -> R.
Class Setter {R E : Type} (getter : R -> E) := set : (E -> E) -> R -> R.
Arguments set {R E} getter {_} _ _ : simpl never.

Notation "'settable!' mk < f1 ; .. ; fn >" :=
  (fun x => .. (mk (f1 x)) .. (fn x))
  (at level 0, mk at level 10, f1, fn at level 10, only parsing) : wan_scope.

Ltac build_setter eta getter :=
  let e := eval red in eta in
  match eval pattern getter in e with
  | ?body getter =>
      let t := eval cbv beta in (fun f => body (fun r => f (getter r))) in
      exact t
  end.

#[global] Hint Extern 1 (@Setter ?R ?E ?getter) =>
  let eta := constr:(_ : Settable R) in
  let eta := match eta with ?h => h end in
  build_setter eta getter : typeclass_instances.

Notation "r <| f := v |>" := (set f (fun _ => v) r)
  (at level 1, left associativity, f at level 0, v at level 200,
   format "r  <| f  :=  v |>") : wan_scope.
Notation "r <| f ; g := v |>" := (set f (set g (fun _ => v)) r)
  (at level 1, left associativity, f at level 0, g at level 0, v at level 200,
   format "r  <| f ; g  :=  v |>") : wan_scope.

Notation "r <| f ::= g |>" := (set f g r)
  (at level 1, left associativity, f at level 0, g at level 200,
   format "r  <| f  ::=  g |>") : wan_scope.

(** [rsimpl] computes the projections of updated records, one at a time. *)
Ltac rsimpl_once :=
  match goal with
  | |- context [?g (@set ?R ?E ?h ?i ?f ?r)] =>
      first [ change (g (@set R E h i f r)) with (f (g r))
            | change (g (@set R E h i f r)) with (g r) ]; cbv beta
  end.
Ltac rsimpl := repeat rsimpl_once.

(** [for i in 0 .. n-1] *)
Definition range (n : Z) : list Z := Z.of_nat <$> seq 0 (Z.to_nat n).

Lemma elem_of_range n i : i ∈ range n <-> 0 <= i < n.
Proof.
  unfold range. rewrite list_elem_of_fmap. setoid_rewrite elem_of_seq. split.
  - intros (k & -> & H). lia.
  - intros H. exists (Z.to_nat i). lia.
Qed.
Lemma range_NoDup n : NoDup (range n).
Proof. unfold range. apply (NoDup_fmap_2 Z.of_nat), NoDup_seq. Qed.

(** * The state monad with failure

    [M S A] is a computation over a state [S]; [None] is the dereference of a
    NULL pointer, on which the process dies. *)

Definition M (S A : Type) : Type := S -> option (A * S).

Section Monad.
Context {S : Type}.

Definition ret {A} (a : A) : M S A := fun s => Some (a, s).
Definition bind {A B} (m : M S A) (k : A -> M S B) : M S B :=
  fun s => match m s with Some (a, s') => k a s' | None => None end.
Definition gets {A} (f : S -> A) : M S A := fun s => Some (f s, s).
Definition modify (f : S -> S) : M S unit := fun s => Some (tt, f s).
Definition crash {A} : M S A := fun _ => None.
(** Dereference of a possibly NULL pointer. *)
Definition deref {A} (p : option A) : M S A :=
  match p with Some a => ret a | None => crash end.
Definition when (b : bool) (m : M S unit) : M S unit := if b then m else ret tt.

(** [for (x in l) body(x)] *)
Fixpoint for_each {A} (l : list A) (body : A -> M S unit) : M S unit :=
  match l with
  | [] => ret tt
  | x :: l' => bind (body x) (fun _ => for_each l' body)
  end.

(** A loop whose body can leave it early: with [Some r] (a [return r] or a
    [break]) the remaining iterations are not run. *)
Fixpoint for_break {A R} (l : list A) (body : A -> M S (option R)) : M S (option R) :=
  match l with
  | [] => ret None
  | x :: l' => bind (body x) (fun o =>
      match o with Some r => ret (Some r) | None => for_break l' body end)
  end.

(** A loop with local variables [acc] that its body may leave early. *)
Fixpoint for_acc {A B R} (l : list A) (acc : B) (body : A -> B -> M S (B * option R))
    : M S (B * option R) :=
  match l with
  | [] => ret (acc, None)
  | x :: l' => bind (body x acc) (fun r =>
      match snd r with Some _ => ret r | None => for_acc l' (fst r) body end)
  end.
End Monad.

Notation "x <- m ;; k" := (bind m (fun x => k))
  (at level 100, m at next level, right associativity) : wan_scope.
Notation "m ;; k" := (bind m (fun _ => k))
  (at level 100, right associativity) : wan_scope.

(** ** What a computation leaves unchanged, returns, and whether it fails *)

(** Every successful run of [m] leaves the view [f] of the state unchanged. *)
Class Keeps {S A B} (f : S -> B) (m : M S A) : Prop :=
  keeps : forall s a s', m s = Some (a, s') -> f s' = f s.

(** Every value [m] returns satisfies [P]. *)
Class Returns {S A} (P : A -> Prop) (m : M S A) : Prop :=
  returns : forall s a s', m s = Some (a, s') -> P a.

(** [m] never dereferences NULL. *)
Class Total {S A} (m : M S A) : Prop :=
  total_run : forall s, exists a s', m s = Some (a, s').

(** Every successful run of [m] relates its initial and final states by [R]. *)
Definition Moves {S A} (R : S -> S -> Prop) (m : M S A) : Prop :=
  forall s a s', m s = Some (a, s') -> R s s'.

(** [m] runs from [s] without dereferencing NULL, and its result satisfies [Q]. *)
Definition wp {S A} (m : M S A) (Q : A -> S -> Prop) (s : S) : Prop :=
  match m s with Some (a, s') => Q a s' | None => False end.

Section MonadFacts.
Context {S : Type}.

Lemma bind_Some {A B} (m : M S A) (k : A -> M S B) s b s' :
  bind m k s = Some (b, s') <->
  exists a s1, m s = Some (a, s1) /\ k a s1 = Some (b, s').
Proof.
  unfold bind. destruct (m s) as [[a s1]|]; naive_solver.
Qed.

Lemma bind_assoc {A B C} (m : M S A) (k : A -> M S B) (h : B -> M S C) s :
  bind (bind m k) h s = bind m (fun a => bind (k a) h) s.
Proof. unfold bind. by destruct (m s) as [[a s1]|]. Qed.

Lemma ret_bind {A B} (a : A) (k : A -> M S B) : bind (ret a) k = k a.
Proof. reflexivity. Qed.

Lemma keeps_ret {A B} (f : S -> B) (a : A) : Keeps f (ret a).
Proof. intros s x s' [= <- <-]. done. Qed.
Lemma keeps_gets {A B} (f : S -> B) (g : S -> A) : Keeps f (gets g).
Proof. intros s x s' [= <- <-]. done. Qed.
Lemma keeps_crash {A B} (f : S -> B) : Keeps f (crash (A := A)).
Proof. intros s x s'. done. Qed.
Lemma keeps_modify {B} (f : S -> B) (g : S -> S) :
  (forall s, f (g s) = f s) -> Keeps f (modify g).
Proof. intros H s x s' [= <- <-]. done. Qed.
Lemma keeps_deref {A B} (f : S -> B) (p : option A) : Keeps f (deref p).
Proof. destruct p; [apply keeps_ret | apply keeps_crash]. Qed.
Lemma keeps_when {B} (f : S -> B) b m : Keeps f m -> Keeps f (when b m).
Proof. destruct b; [done | intros _; apply keeps_ret]. Qed.
Lemma keeps_bind {A B C} (f : S -> C) (m : M S A) (k : A -> M S B) :
  Keeps f m -> (forall a, Keeps f (k a)) -> Keeps f (bind m k).
Proof.
  intros Hm Hk s b s' (a & s1 & H1 & H2)%bind_Some.
  rewrite (Hk a _ _ _ H2). by apply (Hm _ _ _ H1).
Qed.
Lemma keeps_for_each {A B} (f : S -> B) (l : list A) body :
  (forall x, Keeps f (body x)) -> Keeps f (for_each l body).
Proof.
  intros H. induction l as [|x l IH]; simpl; [apply keeps_ret|].
  apply keeps_bind; [apply H | intros _; exact IH].
Qed.
Lemma keeps_for_break {A B R} (f : S -> B) (l : list A) (body : A -> M S (option R)) :
  (forall x, Keeps f (body x)) -> Keeps f (for_break l body).
Proof.
  intros H. induction l as [|x l IH]; simpl; [apply keeps_ret|].
  apply keeps_bind; [apply H | intros [r|]; [apply keeps_ret | exact IH]].
Qed.
Lemma keeps_for_acc {A B C R} (f : S -> C) (l : list A) (acc : B)
    (body : A -> B -> M S (B * option R)) :
  (forall x b, Keeps f (body x b)) -> Keeps f (for_acc l acc body).
Proof.
  intros H. revert acc. induction l as [|x l IH]; intros acc; simpl; [apply keeps_ret|].
  apply keeps_bind; [apply H | intros [b [r|]]; [apply keeps_ret | apply IH]].
Qed.
Section MovesFacts.
Context (R : S -> S -> Prop) `{!PreOrder R}.
Lemma moves_keeps {A B} (f : S -> B) (m : M S A) :
  (forall s s', f s' = f s -> R s s') -> Keeps f m -> Moves R m.
Proof. intros HR Hk s a s' E. by apply HR, (Hk _ _ _ E). Qed.
Lemma moves_ret {A} (a : A) : Moves R (ret a).
Proof. by intros s x s' [= _ <-]. Qed.
Lemma moves_gets {A} (f : S -> A) : Moves R (gets f).
Proof. by intros s x s' [= _ <-]. Qed.
Lemma moves_deref {A} (p : option A) : Moves R (deref p).
Proof. destruct p; [apply moves_ret | by intros s x s']. Qed.
Lemma moves_modify f : (forall s, R s (f s)) -> Moves R (modify f).
Proof. by intros HR s x s' [= _ <-]. Qed.
Lemma moves_when b (m : M S unit) : Moves R m -> Moves R (when b m).
Proof. destruct b; [done | intros _; apply moves_ret]. Qed.
Lemma moves_bind {A B} (m : M S A) (k : A -> M S B) :
  Moves R m -> (forall a, Moves R (k a)) -> Moves R (bind m k).
Proof.
  intros Hm Hk s b s' (a & s1 & H1 & H2)%bind_Some. transitivity s1; [by eapply Hm | by eapply Hk].
Qed.
Lemma moves_for_each {A} (l : list A) body :
  (forall x, Moves R (body x)) -> Moves R (for_each l body).
Proof.
  intros H. induction l as [|x l IH]; simpl; [apply moves_ret | by apply moves_bind].
Qed.
Lemma moves_for_break {A C} (l : list A) (body : A -> M S (option C)) :
  (forall x, Moves R (body x)) -> Moves R (for_break l body).
Proof.
  intros H. induction l as [|x l IH]; simpl; [apply moves_ret|].
  apply moves_bind; [done | intros [r|]; [apply moves_ret | exact IH]].
Qed.
Lemma moves_for_acc {A B C} (l : list A) (acc : B) (body : A -> B -> M S (B * option C)) :
  (forall x b, Moves R (body x b)) -> Moves R (for_acc l acc body).
Proof.
  intros H. revert acc. induction l as [|x l IH]; intros acc; simpl; [apply moves_ret|].
  apply moves_bind; [apply H | intros [b [r|]]; [apply moves_ret | apply IH]].
Qed.
End MovesFacts.
(** A coarser view of a kept view is kept. *)
Lemma keeps_coarser {A B C} (f : S -> B) (h : B -> C) (m : M S A) :
  Keeps f m -> Keeps (fun s => h (f s)) m.
Proof. intros H s a s' E. simpl. by rewrite (H _ _ _ E). Qed.

Lemma returns_ret {A} (P : A -> Prop) (a : A) : P a -> Returns P (ret (S := S) a).
Proof. intros H s x s' [= <- <-]. done. Qed.
Lemma returns_crash {A} (P : A -> Prop) : Returns P (crash (S := S)).
Proof. intros s x s'. done. Qed.
Lemma returns_bind {A B} (P : B -> Prop) (m : M S A) (k : A -> M S B) :
  (forall a, Returns P (k a)) -> Returns P (bind m k).
Proof. intros Hk s b s' (a & s1 & H1 & H2)%bind_Some. by apply (Hk a _ _ _ H2). Qed.
Lemma returns_bind_val {A B} (Q : A -> Prop) (P : B -> Prop) (m : M S A) (k : A -> M S B) :
  Returns Q m -> (forall a, Q a -> Returns P (k a)) -> Returns P (bind m k).
Proof.
  intros Hm Hk s b s' (a & s1 & H1 & H2)%bind_Some.
  apply (Hk a (Hm _ _ _ H1) _ _ _ H2).
Qed.

Lemma total_ret {A} (a : A) : Total (ret (S := S) a).
Proof. intros s. by do 2 eexists. Qed.
Lemma total_gets {A} (f : S -> A) : Total (gets f).
Proof. intros s. by do 2 eexists. Qed.
Lemma total_modify (f : S -> S) : Total (modify f).
Proof. intros s. by do 2 eexists. Qed.
Lemma total_bind {A B} (m : M S A) (k : A -> M S B) :
  Total m -> (forall a, Total (k a)) -> Total (bind m k).
Proof.
  intros Hm Hk s. destruct (Hm s) as (a & s1 & E). destruct (Hk a s1) as (b & s2 & E2).
  exists b, s2. apply bind_Some. eauto.
Qed.
Lemma total_for_each {A} (l : list A) (body : A -> M S unit) :
  (forall x, Total (body x)) -> Total (for_each l body).
Proof.
  intros H. induction l as [|x l IH]; simpl; [apply total_ret|].
  apply total_bind; [apply H | intros _; exact IH].
Qed.
Lemma total_for_break {A R} (l : list A) (body : A -> M S (option R)) :
  (forall x, Total (body x)) -> Total (for_break l body).
Proof.
  intros H. induction l as [|x l IH]; simpl; [apply total_ret|].
  apply total_bind; [apply H | intros [r|]; [apply total_ret | exact IH]].
Qed.

(** *** Running a computation *)

Lemma wp_returns {A} (P : A -> Prop) (m : M S A) Q s :
  Returns P m -> wp m Q s -> wp m (fun a s' => P a /\ Q a s') s.
Proof.
  unfold wp. intros Hr. destruct (m s) as [[a s']|] eqn:E; [|done]. split; [by apply (Hr _ _ _ E) | done].
Qed.
Lemma wp_intro {A} (m : M S A) Q s a s' : m s = Some (a, s') -> Q a s' -> wp m Q s.
Proof. unfold wp. by intros ->. Qed.
Lemma wp_run {A} (m : M S A) Q s :
  wp m Q s <-> exists a s', m s = Some (a, s') /\ Q a s'.
Proof.
  unfold wp. split.
  - destruct (m s) as [[a s']|]; [eauto | done].
  - by intros (a & s' & -> & HQ).
Qed.
Lemma wp_result {A} (m : M S A) (P : S -> Prop) a s :
  wp m (fun r s' => r = a /\ P s') s -> exists s', m s = Some (a, s') /\ P s'.
Proof. unfold wp. destruct (m s) as [[r s']|]; [|done]. intros [-> HP]. by exists s'. Qed.
Lemma wp_use {A} (m : M S A) Q s a s' : m s = Some (a, s') -> wp m Q s -> Q a s'.
Proof. unfold wp. by intros ->. Qed.
Lemma wp_mono {A} (m : M S A) (P Q : A -> S -> Prop) s :
  wp m P s -> (forall a s', P a s' -> Q a s') -> wp m Q s.
Proof. unfold wp. destruct (m s) as [[a s']|]; auto. Qed.
Lemma wp_and {A} (m : M S A) (P Q : A -> S -> Prop) s :
  wp m P s -> wp m Q s -> wp m (fun a s' => P a s' /\ Q a s') s.
Proof. unfold wp. destruct (m s) as [[a s']|]; auto. Qed.
Lemma wp_bind {A B} (m : M S A) (k : A -> M S B) Q s :
  wp m (fun a s1 => wp (k a) Q s1) s -> wp (bind m k) Q s.
Proof. unfold wp, bind. by destruct (m s) as [[a s1]|]. Qed.
Lemma wp_ret {A} (a : A) Q (s : S) : Q a s -> wp (ret a) Q s.
Proof. done. Qed.
Lemma wp_gets {A} (f : S -> A) Q s : Q (f s) s -> wp (gets f) Q s.
Proof. done. Qed.
Lemma wp_modify (f : S -> S) Q s : Q tt (f s) -> wp (modify f) Q s.
Proof. done. Qed.
Lemma wp_deref {A} (p : option A) a Q (s : S) : p = Some a -> Q a s -> wp (deref p) Q s.
Proof. by intros ->. Qed.
Lemma wp_when (b : bool) m Q (s : S) :
  (b = true -> wp m Q s) -> (b = false -> Q tt s) -> wp (when b m) Q s.
Proof. destruct b; intros H1 H2; [by apply H1 | by apply wp_ret, H2]. Qed.
Lemma wp_if {A} (b : bool) (m1 m2 : M S A) Q (s : S) :
  (b = true -> wp m1 Q s) -> (b = false -> wp m2 Q s) -> wp (if b then m1 else m2) Q s.
Proof. destruct b; auto. Qed.
(** A loop with an invariant over what is still to be visited. *)
Lemma wp_for_each {A} (Inv : list A -> S -> Prop) (body : A -> M S unit) l s (Q : unit -> S -> Prop) :
  Inv l s ->
  (forall x l' s, Inv (x :: l') s -> wp (body x) (fun _ s' => Inv l' s') s) ->
  (forall s, Inv [] s -> Q tt s) ->
  wp (for_each l body) Q s.
Proof.
  intros H0 Hstep Hend. revert s H0. induction l as [|x l IH]; intros s H0; simpl.
  - by apply wp_ret, Hend.
  - apply wp_bind. eapply wp_mono; [by apply Hstep|]. intros ? s' HI. by apply IH.
Qed.
Lemma wp_for_break {A R} (Inv : list A -> S -> Prop) (body : A -> M S (option R)) l s
    (Q : option R -> S -> Prop) :
  Inv l s ->
  (forall x l' s, Inv (x :: l') s ->
    wp (body x) (fun o s' => match o with Some r => Q (Some r) s' | None => Inv l' s' end) s) ->
  (forall s, Inv [] s -> Q None s) ->
  wp (for_break l body) Q s.
Proof.
  intros H0 Hstep Hend. revert s H0. induction l as [|x l IH]; intros s H0; simpl.
  - by apply wp_ret, Hend.
  - apply wp_bind. eapply wp_mono; [by apply Hstep|].
    intros [r|] s' HI; [by apply wp_ret | by apply IH].
Qed.
Lemma wp_for_acc {A B R} (Inv : list A -> B -> S -> Prop) (body : A -> B -> M S (B * option R)) l b s
    (Q : B * option R -> S -> Prop) :
  Inv l b s ->
  (forall x l' b s, Inv (x :: l') b s ->
    wp (body x b) (fun r s' =>
      match snd r with Some _ => Q r s' | None => Inv l' (fst r) s' end) s) ->
  (forall b s, Inv [] b s -> Q (b, None) s) ->
  wp (for_acc l b body) Q s.
Proof.
  intros H0 Hstep Hend. revert b s H0. induction l as [|x l IH]; intros b s H0; simpl.
  - by apply wp_ret, Hend.
  - apply wp_bind. eapply wp_mono; [by apply Hstep|].
    intros [b' [r|]] s' HI; [by apply wp_ret | by apply IH].
Qed.
(** What a run keeps may be added to its postcondition. *)
Lemma wp_keep {A B} (f : S -> B) (m : M S A) (Q : A -> S -> Prop) s :
  Keeps f m -> wp m Q s -> wp m (fun a s' => f s' = f s /\ Q a s') s.
Proof.
  unfold wp. intros Hk. destruct (m s) as [[a s']|] eqn:E; [|done].
  intros HQ. split; [by apply (Hk _ _ _ E) | done].
Qed.
Lemma wp_total {A B} (f : S -> B) (m : M S A) s :
  Total m -> Keeps f m -> wp m (fun _ s' => f s' = f s) s.
Proof.
  intros Ht Hk. destruct (Ht s) as (a & s' & E). eapply wp_intro; [done|].
  by apply (Hk _ _ _ E).
Qed.
Lemma total_wp {A} (m : M S A) : (forall s, wp m (fun _ _ => True) s) -> Total m.
Proof. intros Hw s. destruct (proj1 (wp_run _ _ _) (Hw s)) as (a & s' & E & _). eauto. Qed.
End MonadFacts.

(** The databases of the facts proved about each operation. *)
Create HintDb keeps discriminated.
Create HintDb moves discriminated.
Create HintDb total discriminated.
Create HintDb returns discriminated.

#[export] Hint Resolve keeps_ret keeps_gets keeps_crash keeps_deref : keeps.
#[export] Hint Resolve keeps_when : keeps.
#[export] Hint Resolve total_ret total_gets total_modify : total.

(** Case analysis on the test the computation is about to make. *)
Ltac split_test :=
  match goal with
  | |- context [match ?x with _ => _ end] =>
      lazymatch x with
      | context [match _ with _ => _ end] => fail
      | _ => destruct x
      end
  end.

Ltac keeps_step :=
  first
  [ solve [auto 3 with keeps nocore]
  | apply keeps_bind; [| intros ?]
  | apply keeps_for_each; intros ?
  | apply keeps_for_break; intros ?
  | apply keeps_modify; intros ?; reflexivity
  | apply keeps_when
  | split_test
  | progress cbv beta zeta
  | progress autounfold with monad ].
Ltac keeps_tac := repeat keeps_step.

Ltac total_step :=
  first
  [ solve [auto 3 with total nocore]
  | apply total_bind; [| intros ?]
  | apply total_for_each; intros ?
  | apply total_for_break; intros ?
  | lazymatch goal with |- Total (when ?b _) => unfold when end
  | split_test
  | progress cbv beta zeta
  | progress autounfold with monad ].
Ltac total_tac := repeat total_step.

Ltac returns_step :=
  first
  [ solve [auto 3 with returns nocore]
  | apply returns_ret; first [ done | set_solver | auto; done ]
  | apply returns_crash
  | apply returns_bind; intros ?
  | split_test
  | progress cbv beta zeta ].
Ltac returns_tac := repeat returns_step.

(** [mrun H] decomposes a run [H : m s = Some (a, s')] one bind further. *)
Ltac mrun H :=
  let s1 := fresh "s" in let a := fresh "a" in let E := fresh "E" in
  apply bind_Some in H as (a & s1 & E & H).


(** The rounds [k .. n-1] of a counting loop. *)
Definition range_from (k n : Z) : list Z := Z.of_nat <$> seq (Z.to_nat k) (Z.to_nat n - Z.to_nat k).
Lemma range_from_0 n : range n = range_from 0 n.
Proof. unfold range, range_from. by rewrite Nat.sub_0_r. Qed.
Lemma range_from_cons k n x l :
  0 <= k -> x :: l = range_from k n -> x = k /\ k < n /\ l = range_from (k + 1) n.
Proof.
  unfold range_from. intros Hk E. destruct (Z.to_nat n - Z.to_nat k)%nat as [|m] eqn:Em; [done|].
  injection E as -> ->. split; [lia|]. split; [lia|].
  replace (Z.to_nat (k + 1)) with (Datatypes.S (Z.to_nat k)) by lia. do 2 f_equal. lia.
Qed.
Lemma range_from_nil k n : [] = range_from k n -> 0 <= k <= Z.max 0 n -> k = Z.max 0 n.
Proof.
  unfold range_from. destruct (Z.to_nat n - Z.to_nat k)%nat eqn:E; [|done]. lia.
Qed.

(** Counting loops, with an invariant over the number of rounds done. *)
Section RangeLoops.
Context {S : Type}.

(** The invariant of the rounds done as one of the rounds left. *)
Definition rounds (n : Z) (Inv : Z -> S -> Prop) (l : list Z) (s : S) : Prop :=
  exists k, 0 <= k <= Z.max 0 n /\ l = range_from k n /\ Inv k s.
Lemma rounds_start n Inv s : Inv 0 s -> rounds n Inv (range n) s.
Proof. intros H0. exists 0. rewrite range_from_0. split; [lia | done]. Qed.
Lemma rounds_step n Inv x l s :
  rounds n Inv (x :: l) s ->
  0 <= x < n /\ Inv x s /\ forall s', Inv (x + 1) s' -> rounds n Inv l s'.
Proof.
  intros (k & Hk & E & HI). apply range_from_cons in E as (-> & Hlt & ->); [|lia].
  split; [lia|]. split; [done|]. intros s' HI'. exists (k + 1). split; [lia | done].
Qed.
Lemma rounds_end n Inv s : rounds n Inv [] s -> Inv (Z.max 0 n) s.
Proof. intros (k & Hk & E & HI). by rewrite <- (range_from_nil k n). Qed.

Lemma wp_for_each_range (Inv : Z -> S -> Prop) (body : Z -> M S unit) n s (Q : unit -> S -> Prop) :
  Inv 0 s ->
  (forall k s, 0 <= k < n -> Inv k s -> wp (body k) (fun _ s' => Inv (k + 1) s') s) ->
  (forall s, Inv (Z.max 0 n) s -> Q tt s) ->
  wp (for_each (range n) body) Q s.
Proof.
  intros H0 Hstep Hend. apply (wp_for_each (rounds n Inv)); [by apply rounds_start | |].
  - intros x l s1 (Hx & HI & Hl)%rounds_step. eapply wp_mono; [by apply Hstep | auto].
  - intros s1 HI. by apply Hend, rounds_end.
Qed.
Lemma wp_for_break_range {R} (Inv : Z -> S -> Prop) (body : Z -> M S (option R)) n s
    (Q : option R -> S -> Prop) :
  Inv 0 s ->
  (forall k s, 0 <= k < n -> Inv k s ->
    wp (body k) (fun o s' => match o with Some r => Q (Some r) s' | None => Inv (k + 1) s' end) s) ->
  (forall s, Inv (Z.max 0 n) s -> Q None s) ->
  wp (for_break (range n) body) Q s.
Proof.
  intros H0 Hstep Hend. apply (wp_for_break (rounds n Inv)); [by apply rounds_start | |].
  - intros x l s1 (Hx & HI & Hl)%rounds_step. eapply wp_mono; [by apply Hstep|].
    intros [r|]; auto.
  - intros s1 HI. by apply Hend, rounds_end.
Qed.
Lemma wp_for_acc_range {B R} (Inv : Z -> B -> S -> Prop) (body : Z -> B -> M S (B * option R)) n b s
    (Q : B * option R -> S -> Prop) :
  Inv 0 b s ->
  (forall k b s, 0 <= k < n -> Inv k b s ->
    wp (body k b) (fun r s' =>
      match snd r with Some _ => Q r s' | None => Inv (k + 1) (fst r) s' end) s) ->
  (forall b s, Inv (Z.max 0 n) b s -> Q (b, None) s) ->
  wp (for_acc (range n) b body) Q s.
Proof.
  intros H0 Hstep Hend.
  apply (wp_for_acc (fun l b => rounds n (fun k => Inv k b) l)); [by apply rounds_start | |].
  - intros x l b1 s1 (k & Hk & E & HI). apply range_from_cons in E as (-> & Hlt & ->); [|lia].
    eapply wp_mono; [apply Hstep; [lia | done]|]. intros [b2 [r|]] s2; simpl; [done|].
    intros HI2. exists (k + 1). split; [lia | done].
  - intros b1 s1 HI. apply Hend. by apply (rounds_end n (fun k => Inv k b1)) in HI.
Qed.
End RangeLoops.

(** One step of a run; [wp] holds the rules of the operations. *)
Create HintDb wp discriminated.
Create HintDb monad discriminated.

Ltac wp_step :=
  first
  [ progress cbv beta zeta
  | apply wp_bind
  | apply wp_ret
  | apply wp_gets
  | apply wp_modify
  | progress autounfold with monad ].
Ltac wp_tac := repeat wp_step.
