(* ===== verification/DmlTypes.v ===== *)
(** The data model of [source/TR-181/include/wanmgr_dml.h]: the enumerations
    and structures the components share.

    Every C enumeration is an inductive type with the constructors of the
    source; every structure is a record whose fields carry the name of the C
    field behind a short prefix naming the structure ([v_] for
    [DML_VIRTUAL_IFACE], [ip_] for [DML_WANIFACE_IP], and so on).  A linked
    list is a [list] in the order of its [next] pointers, a [struct timespec]
    is its [tv_sec], and a character array is the string it holds. *)

From S2P Require Export Prelude.

(** * Enumerations *)

Inductive WANMGR_IFACE_SELECTION :=
| WAN_IFACE_UNKNOWN
| WAN_IFACE_NOT_SELECTED
| WAN_IFACE_VALIDATING
| WAN_IFACE_SELECTED
| WAN_IFACE_ACTIVE.
#[export] Instance WANMGR_IFACE_SELECTION_eq_dec : EqDecision WANMGR_IFACE_SELECTION.
Proof. solve_decision. Defined.

Inductive DML_WAN_POLICY :=
| FIXED_MODE_ON_BOOTUP
| FIXED_MODE
| PRIMARY_PRIORITY_ON_BOOTUP
| PRIMARY_PRIORITY
| MULTIWAN_MODE
| AUTOWAN_MODE
| PARALLEL_SCAN.
#[export] Instance DML_WAN_POLICY_eq_dec : EqDecision DML_WAN_POLICY.
Proof. solve_decision. Defined.

Inductive DEVICE_NETWORKING_MODE :=
| GATEWAY_MODE
| MODEM_MODE.
#[export] Instance DEVICE_NETWORKING_MODE_eq_dec : EqDecision DEVICE_NETWORKING_MODE.
Proof. solve_decision. Defined.

Inductive DML_WAN_IFACE_OPER_STATUS :=
| WAN_OPERSTATUS_UNKNOWN
| WAN_OPERSTATUS_OPERATIONAL
| WAN_OPERSTATUS_NOT_OPERATIONAL.
#[export] Instance DML_WAN_IFACE_OPER_STATUS_eq_dec : EqDecision DML_WAN_IFACE_OPER_STATUS.
Proof. solve_decision. Defined.

Inductive DML_WAN_IFACE_SCAN_STATUS :=
| WAN_IFACE_STATUS_NOT_SCANNED
| WAN_IFACE_STATUS_SCANNED.
#[export] Instance DML_WAN_IFACE_SCAN_STATUS_eq_dec : EqDecision DML_WAN_IFACE_SCAN_STATUS.
Proof. solve_decision. Defined.

Inductive DML_WAN_IFACE_TYPE :=
| WAN_IFACE_TYPE_UNCONFIGURED
| WAN_IFACE_TYPE_PRIMARY
| WAN_IFACE_TYPE_SECONDARY.
#[export] Instance DML_WAN_IFACE_TYPE_eq_dec : EqDecision DML_WAN_IFACE_TYPE.
Proof. solve_decision. Defined.

Inductive DML_WAN_IFACE_STATUS :=
| WAN_IFACE_STATUS_DISABLED
| WAN_IFACE_STATUS_INITIALISING
| WAN_IFACE_STATUS_VALIDATING
| WAN_IFACE_STATUS_VALID
| WAN_IFACE_STATUS_UP
| WAN_IFACE_STATUS_INVALID
| WAN_IFACE_STATUS_STANDBY.
#[export] Instance DML_WAN_IFACE_STATUS_eq_dec : EqDecision DML_WAN_IFACE_STATUS.
Proof. solve_decision. Defined.

Inductive DML_WAN_IFACE_LINKSTATUS :=
| WAN_IFACE_LINKSTATUS_DOWN
| WAN_IFACE_LINKSTATUS_CONFIGURING
| WAN_IFACE_LINKSTATUS_UP.
#[export] Instance DML_WAN_IFACE_LINKSTATUS_eq_dec : EqDecision DML_WAN_IFACE_LINKSTATUS.
Proof. solve_decision. Defined.

Inductive DML_WAN_IFACE_PHY_STATUS :=
| WAN_IFACE_PHY_STATUS_DOWN
| WAN_IFACE_PHY_STATUS_INITIALIZING
| WAN_IFACE_PHY_STATUS_UP
| WAN_IFACE_PHY_STATUS_UNKNOWN.
#[export] Instance DML_WAN_IFACE_PHY_STATUS_eq_dec : EqDecision DML_WAN_IFACE_PHY_STATUS.
Proof. solve_decision. Defined.

Inductive DML_WAN_IFACE_IPV4_STATUS :=
| WAN_IFACE_IPV4_STATE_UP
| WAN_IFACE_IPV4_STATE_DOWN
| WAN_IFACE_IPV4_STATE_UNKNOWN.
#[export] Instance DML_WAN_IFACE_IPV4_STATUS_eq_dec : EqDecision DML_WAN_IFACE_IPV4_STATUS.
Proof. solve_decision. Defined.

Inductive DML_WAN_IFACE_IPV6_STATUS :=
| WAN_IFACE_IPV6_STATE_UP
| WAN_IFACE_IPV6_STATE_DOWN
| WAN_IFACE_IPV6_STATE_UNKNOWN.
#[export] Instance DML_WAN_IFACE_IPV6_STATUS_eq_dec : EqDecision DML_WAN_IFACE_IPV6_STATUS.
Proof. solve_decision. Defined.

Inductive DML_WAN_IFACE_MAPT_STATUS :=
| WAN_IFACE_MAPT_STATE_UP
| WAN_IFACE_MAPT_STATE_DOWN.
#[export] Instance DML_WAN_IFACE_MAPT_STATUS_eq_dec : EqDecision DML_WAN_IFACE_MAPT_STATUS.
Proof. solve_decision. Defined.

Inductive DML_WAN_IFACE_DSLITE_STATUS :=
| WAN_IFACE_DSLITE_STATE_UP
| WAN_IFACE_DSLITE_STATE_DOWN.
#[export] Instance DML_WAN_IFACE_DSLITE_STATUS_eq_dec : EqDecision DML_WAN_IFACE_DSLITE_STATUS.
Proof. solve_decision. Defined.

Inductive DML_WAN_IP_SOURCE :=
| DML_WAN_IP_SOURCE_STATIC
| DML_WAN_IP_SOURCE_DHCP
| DML_WAN_IP_SOURCE_PPP.
#[export] Instance DML_WAN_IP_SOURCE_eq_dec : EqDecision DML_WAN_IP_SOURCE.
Proof. solve_decision. Defined.

Inductive DML_WAN_IP_MODE :=
| DML_WAN_IP_MODE_IPV4_ONLY
| DML_WAN_IP_MODE_IPV6_ONLY
| DML_WAN_IP_MODE_DUAL_STACK
| DML_WAN_IP_MODE_NO_IP.
#[export] Instance DML_WAN_IP_MODE_eq_dec : EqDecision DML_WAN_IP_MODE.
Proof. solve_decision. Defined.

Inductive DML_WAN_IP_PREFERRED_MODE :=
| DUAL_STACK_MODE
| MAPT_MODE
| MAPE_MODE
| DSLITE_MODE.
#[export] Instance DML_WAN_IP_PREFERRED_MODE_eq_dec : EqDecision DML_WAN_IP_PREFERRED_MODE.
Proof. solve_decision. Defined.

Inductive WANMGR_DHCPC_STATUS :=
| DHCPC_STATE_UNKNOWN
| DHCPC_STARTED
| DHCPC_STOPPED
| DHCPC_FAILED.
#[export] Instance WANMGR_DHCPC_STATUS_eq_dec : EqDecision WANMGR_DHCPC_STATUS.
Proof. solve_decision. Defined.

Inductive TIMER_STATUS :=
| NOTSTARTED
| EXPIRED
| RUNNING
| COMPLETE.
#[export] Instance TIMER_STATUS_eq_dec : EqDecision TIMER_STATUS.
Proof. solve_decision. Defined.

Inductive DML_WAN_IFACE_IPCP_STATUS :=
| WAN_IFACE_IPCP_STATUS_DOWN
| WAN_IFACE_IPCP_STATUS_UP.
#[export] Instance DML_WAN_IFACE_IPCP_STATUS_eq_dec : EqDecision DML_WAN_IFACE_IPCP_STATUS.
Proof. solve_decision. Defined.

Inductive DML_WAN_IFACE_IPV6CP_STATUS :=
| WAN_IFACE_IPV6CP_STATUS_DOWN
| WAN_IFACE_IPV6CP_STATUS_UP.
#[export] Instance DML_WAN_IFACE_IPV6CP_STATUS_eq_dec : EqDecision DML_WAN_IFACE_IPV6CP_STATUS.
Proof. solve_decision. Defined.

Inductive DML_WAN_IFACE_PPP_LINK_STATUS :=
| WAN_IFACE_PPP_LINK_STATUS_DOWN
| WAN_IFACE_PPP_LINK_STATUS_CONFIGURING
| WAN_IFACE_PPP_LINK_STATUS_UP.
#[export] Instance DML_WAN_IFACE_PPP_LINK_STATUS_eq_dec : EqDecision DML_WAN_IFACE_PPP_LINK_STATUS.
Proof. solve_decision. Defined.

Inductive IFACE_TYPE :=
| LOCAL_IFACE
| REMOTE_IFACE.
#[export] Instance IFACE_TYPE_eq_dec : EqDecision IFACE_TYPE.
Proof. solve_decision. Defined.

Inductive WAN_IFACE_GROUP_STATUS :=
| STATE_GROUP_UNKNOWN
| STATE_GROUP_RUNNING
| STATE_GROUP_STOPPED
| STATE_GROUP_DEACTIVATED.
#[export] Instance WAN_IFACE_GROUP_STATUS_eq_dec : EqDecision WAN_IFACE_GROUP_STATUS.
Proof. solve_decision. Defined.

Inductive FAILOVER_TYPE :=
| HOTSWAP
| COLDSWAP.
#[export] Instance FAILOVER_TYPE_eq_dec : EqDecision FAILOVER_TYPE.
Proof. solve_decision. Defined.

Inductive CONNECTIVITY_STATUS :=
| WAN_CONNECTION_UNKNOWN
| WAN_CONNECTIVITY_UP
| WAN_CONNECTIVITY_DOWN.
#[export] Instance CONNECTIVITY_STATUS_eq_dec : EqDecision CONNECTIVITY_STATUS.
Proof. solve_decision. Defined.

Inductive CONNECTIVITY_CHECK_TYPE :=
| WAN_CONNECTIVITY_TYPE_NO_CHECK
| WAN_CONNECTIVITY_TYPE_IHC
| WAN_CONNECTIVITY_TYPE_TAD.
#[export] Instance CONNECTIVITY_CHECK_TYPE_eq_dec : EqDecision CONNECTIVITY_CHECK_TYPE.
Proof. solve_decision. Defined.

Inductive CONNECTION_TYPE :=
| CONNECTION_MSG_IPV4
| CONNECTION_MSG_IPV6.
#[export] Instance CONNECTION_TYPE_eq_dec : EqDecision CONNECTION_TYPE.
Proof. solve_decision. Defined.

Inductive WCC_EVENT :=
| WCC_STOP
| WCC_START
| WCC_RESTART.
#[export] Instance WCC_EVENT_eq_dec : EqDecision WCC_EVENT.
Proof. solve_decision. Defined.

Inductive eWanState_t :=
| WAN_STATE_EXIT
| WAN_STATE_VLAN_CONFIGURING
| WAN_STATE_PPP_CONFIGURING
| WAN_STATE_VALIDATING_WAN
| WAN_STATE_OBTAINING_IP_ADDRESSES
| WAN_STATE_IPV4_LEASED
| WAN_STATE_IPV6_LEASED
| WAN_STATE_DUAL_STACK_ACTIVE
| WAN_STATE_MAPT_ACTIVE
| WAN_STATE_REFRESHING_WAN
| WAN_STATE_DECONFIGURING_WAN
| WAN_STATE_STANDBY.
#[export] Instance eWanState_t_eq_dec : EqDecision eWanState_t.
Proof. solve_decision. Defined.

(** The numeric value of a [DML_WAN_IFACE_PHY_STATUS], for the comparisons by
    order. *)
Definition phy_status_val (s : DML_WAN_IFACE_PHY_STATUS) : Z :=
  match s with
  | WAN_IFACE_PHY_STATUS_DOWN => 1
  | WAN_IFACE_PHY_STATUS_INITIALIZING => 2
  | WAN_IFACE_PHY_STATUS_UP => 3
  | WAN_IFACE_PHY_STATUS_UNKNOWN => 4
  end.

(** * Structures *)

Record WANMGR_IPV4_DATA := mk_WANMGR_IPV4_DATA {
  v4_ifname : string;
  v4_ip : string;
  v4_mask : string;
  v4_gateway : string;
  v4_dnsServer : string;
  v4_dnsServer1 : string;
  v4_mtuSize : Z;
  v4_leaseReceivedTime : Z;
  v4_timeOffset : Z;
  v4_isTimeOffsetAssigned : bool;
  v4_timeZone : string;
  v4_upstreamCurrRate : Z;
  v4_downstreamCurrRate : Z;
  v4_dhcpServerId : string;
  v4_dhcpState : string;
  v4_leaseTime : Z
}.
#[export] Instance WANMGR_IPV4_DATA_settable : Settable WANMGR_IPV4_DATA :=
  settable! mk_WANMGR_IPV4_DATA
  <v4_ifname; v4_ip; v4_mask; v4_gateway; v4_dnsServer; v4_dnsServer1; v4_mtuSize; v4_leaseReceivedTime; v4_timeOffset; v4_isTimeOffsetAssigned; v4_timeZone; v4_upstreamCurrRate; v4_downstreamCurrRate; v4_dhcpServerId; v4_dhcpState; v4_leaseTime>.

Record WANMGR_IPV6_DATA := mk_WANMGR_IPV6_DATA {
  v6_ifname : string;
  v6_address : string;
  v6_pdIfAddress : string;
  v6_nameserver : string;
  v6_nameserver1 : string;
  v6_domainName : string;
  v6_sitePrefix : string;
  v6_prefixPltime : Z;
  v6_prefixVltime : Z;
  v6_sitePrefixOld : string;
  v6_ipv6_TimeOffset : Z;
  v6_addrAssigned : bool;
  v6_addrCmd : Z;
  v6_prefixAssigned : bool;
  v6_prefixCmd : Z;
  v6_domainNameAssigned : bool
}.
#[export] Instance WANMGR_IPV6_DATA_settable : Settable WANMGR_IPV6_DATA :=
  settable! mk_WANMGR_IPV6_DATA
  <v6_ifname; v6_address; v6_pdIfAddress; v6_nameserver; v6_nameserver1; v6_domainName; v6_sitePrefix; v6_prefixPltime; v6_prefixVltime; v6_sitePrefixOld; v6_ipv6_TimeOffset; v6_addrAssigned; v6_addrCmd; v6_prefixAssigned; v6_prefixCmd; v6_domainNameAssigned>.

Record WANMGR_IPV6_RA_DATA := mk_WANMGR_IPV6_RA_DATA {
  ra_defaultRoute : string;
  ra_defRouteLifeTime : Z
}.
#[export] Instance WANMGR_IPV6_RA_DATA_settable : Settable WANMGR_IPV6_RA_DATA :=
  settable! mk_WANMGR_IPV6_RA_DATA
  <ra_defaultRoute; ra_defRouteLifeTime>.

(** The DHCP messages are structures of the external IPC header; the records
    have the fields the source reads. *)
Record ipc_mapt_data_t := mk_ipc_mapt_data_t {
  mt_pdIPv6Prefix : string;
  mt_ruleIPv4Prefix : string;
  mt_ruleIPv6Prefix : string;
  mt_brIPv6Prefix : string;
  mt_iapdPrefixLen : Z;
  mt_v6Len : Z;
  mt_v4Len : Z;
  mt_eaLen : Z;
  mt_psidOffset : Z;
  mt_psidLen : Z;
  mt_psid : Z;
  mt_ratio : Z;
  mt_isFMR : bool
}.
#[export] Instance ipc_mapt_data_t_settable : Settable ipc_mapt_data_t :=
  settable! mk_ipc_mapt_data_t
  <mt_pdIPv6Prefix; mt_ruleIPv4Prefix; mt_ruleIPv6Prefix; mt_brIPv6Prefix; mt_iapdPrefixLen; mt_v6Len; mt_v4Len; mt_eaLen; mt_psidOffset; mt_psidLen; mt_psid; mt_ratio; mt_isFMR>.
#[export] Instance ipc_mapt_data_t_eq_dec : EqDecision ipc_mapt_data_t.
Proof. solve_decision. Defined.

Definition zero_ipc_mapt_data_t : ipc_mapt_data_t :=
  let e := EmptyString in mk_ipc_mapt_data_t e e e e 0 0 0 0 0 0 0 0 false.

Record WANMGR_MAPT_CONFIG_DATA := mk_WANMGR_MAPT_CONFIG_DATA {
  mc_psidValue : Z;
  mc_ipAddressString : string;
  mc_ipLANAddressString : string;
  mc_psidLen : Z
}.
#[export] Instance WANMGR_MAPT_CONFIG_DATA_settable : Settable WANMGR_MAPT_CONFIG_DATA :=
  settable! mk_WANMGR_MAPT_CONFIG_DATA
  <mc_psidValue; mc_ipAddressString; mc_ipLANAddressString; mc_psidLen>.

Record ipc_dhcpv4_data_t := mk_ipc_dhcpv4_data_t {
  i4_dhcpcInterface : string;
  i4_addressAssigned : bool;
  i4_isExpired : bool;
  i4_ip : string;
  i4_mask : string;
  i4_gateway : string;
  i4_dnsServer : string;
  i4_dnsServer1 : string;
  i4_isTimeOffsetAssigned : bool;
  i4_timeOffset : Z;
  i4_timeZone : string;
  i4_leaseTime : Z;
  i4_upstreamCurrRate : Z;
  i4_downstreamCurrRate : Z;
  i4_dhcpServerId : string;
  i4_dhcpState : string;
  i4_mtuAssigned : bool;
  i4_mtuSize : Z
}.
#[export] Instance ipc_dhcpv4_data_t_settable : Settable ipc_dhcpv4_data_t :=
  settable! mk_ipc_dhcpv4_data_t
  <i4_dhcpcInterface; i4_addressAssigned; i4_isExpired; i4_ip; i4_mask; i4_gateway; i4_dnsServer; i4_dnsServer1; i4_isTimeOffsetAssigned; i4_timeOffset; i4_timeZone; i4_leaseTime; i4_upstreamCurrRate; i4_downstreamCurrRate; i4_dhcpServerId; i4_dhcpState; i4_mtuAssigned; i4_mtuSize>.

Record ipc_dhcpv6_data_t := mk_ipc_dhcpv6_data_t {
  i6_ifname : string;
  i6_address : string;
  i6_pdIfAddress : string;
  i6_nameserver : string;
  i6_nameserver1 : string;
  i6_domainName : string;
  i6_sitePrefix : string;
  i6_prefixPltime : Z;
  i6_prefixVltime : Z;
  i6_sitePrefixOld : string;
  i6_addrAssigned : bool;
  i6_addrCmd : Z;
  i6_prefixAssigned : bool;
  i6_prefixCmd : Z;
  i6_domainNameAssigned : bool;
  i6_isExpired : bool;
  i6_maptAssigned : bool;
  i6_mapt : ipc_mapt_data_t
}.
#[export] Instance ipc_dhcpv6_data_t_settable : Settable ipc_dhcpv6_data_t :=
  settable! mk_ipc_dhcpv6_data_t
  <i6_ifname; i6_address; i6_pdIfAddress; i6_nameserver; i6_nameserver1; i6_domainName; i6_sitePrefix; i6_prefixPltime; i6_prefixVltime; i6_sitePrefixOld; i6_addrAssigned; i6_addrCmd; i6_prefixAssigned; i6_prefixCmd; i6_domainNameAssigned; i6_isExpired; i6_maptAssigned; i6_mapt>.

Record DML_WANIFACE_IP := mk_DML_WANIFACE_IP {
  ip_Interface : string;
  ip_DHCPv4Iface : string;
  ip_DHCPv6Iface : string;
  ip_Ipv4Status : DML_WAN_IFACE_IPV4_STATUS;
  ip_Ipv6Status : DML_WAN_IFACE_IPV6_STATUS;
  ip_ConnectivityCheckType : CONNECTIVITY_CHECK_TYPE;
  ip_Ipv4ConnectivityStatus : CONNECTIVITY_STATUS;
  ip_Ipv6ConnectivityStatus : CONNECTIVITY_STATUS;
  ip_IPv4Source : DML_WAN_IP_SOURCE;
  ip_IPv6Source : DML_WAN_IP_SOURCE;
  ip_ConnectivityCheckRunning : bool;
  ip_RestartConnectivityCheck : bool;
  ip_WCC_TypeChanged : bool;
  ip_RefreshDHCP : bool;
  ip_Mode : DML_WAN_IP_MODE;
  ip_PreferredMode : DML_WAN_IP_PREFERRED_MODE;
  ip_SelectedMode : DML_WAN_IP_PREFERRED_MODE;
  ip_SelectedModeTimerStart : Z;
  ip_SelectedModeTimerStatus : TIMER_STATUS;
  ip_ModeForceEnable : bool;
  ip_Ipv4Changed : bool;
  ip_Ipv6Changed : bool;
  ip_Ipv4Renewed : bool;
  ip_Ipv6Renewed : bool;
  ip_Ipv4Data : WANMGR_IPV4_DATA;
  ip_Ipv6Data : WANMGR_IPV6_DATA;
  ip_Ipv6Route : WANMGR_IPV6_RA_DATA;
  ip_pIpcIpv4Data : option ipc_dhcpv4_data_t;
  ip_pIpcIpv6Data : option ipc_dhcpv6_data_t;
  ip_Dhcp4cPid : Z;
  ip_Dhcp4cStatus : WANMGR_DHCPC_STATUS;
  ip_Dhcp6cPid : Z;
  ip_Dhcp6cStatus : WANMGR_DHCPC_STATUS
}.
#[export] Instance DML_WANIFACE_IP_settable : Settable DML_WANIFACE_IP :=
  settable! mk_DML_WANIFACE_IP
  <ip_Interface; ip_DHCPv4Iface; ip_DHCPv6Iface; ip_Ipv4Status; ip_Ipv6Status; ip_ConnectivityCheckType; ip_Ipv4ConnectivityStatus; ip_Ipv6ConnectivityStatus; ip_IPv4Source; ip_IPv6Source; ip_ConnectivityCheckRunning; ip_RestartConnectivityCheck; ip_WCC_TypeChanged; ip_RefreshDHCP; ip_Mode; ip_PreferredMode; ip_SelectedMode; ip_SelectedModeTimerStart; ip_SelectedModeTimerStatus; ip_ModeForceEnable; ip_Ipv4Changed; ip_Ipv6Changed; ip_Ipv4Renewed; ip_Ipv6Renewed; ip_Ipv4Data; ip_Ipv6Data; ip_Ipv6Route; ip_pIpcIpv4Data; ip_pIpcIpv6Data; ip_Dhcp4cPid; ip_Dhcp4cStatus; ip_Dhcp6cPid; ip_Dhcp6cStatus>.

Record DATAMODEL_PPP := mk_DATAMODEL_PPP {
  ppp_Enable : bool;
  ppp_Interface : string;
  ppp_IPCPStatus : DML_WAN_IFACE_IPCP_STATUS;
  ppp_IPV6CPStatus : DML_WAN_IFACE_IPV6CP_STATUS;
  ppp_IPCPStatusChanged : bool;
  ppp_IPV6CPStatusChanged : bool;
  ppp_LinkStatus : DML_WAN_IFACE_PPP_LINK_STATUS
}.
#[export] Instance DATAMODEL_PPP_settable : Settable DATAMODEL_PPP :=
  settable! mk_DATAMODEL_PPP
  <ppp_Enable; ppp_Interface; ppp_IPCPStatus; ppp_IPV6CPStatus; ppp_IPCPStatusChanged; ppp_IPV6CPStatusChanged; ppp_LinkStatus>.

Record DML_WANIFACE_MAP := mk_DML_WANIFACE_MAP {
  map_MaptStatus : DML_WAN_IFACE_MAPT_STATUS;
  map_Path : string;
  map_MaptChanged : bool;
  map_dhcp6cMAPTparameters : ipc_mapt_data_t;
  map_MaptConfig : WANMGR_MAPT_CONFIG_DATA
}.
#[export] Instance DML_WANIFACE_MAP_settable : Settable DML_WANIFACE_MAP :=
  settable! mk_DML_WANIFACE_MAP
  <map_MaptStatus; map_Path; map_MaptChanged; map_dhcp6cMAPTparameters; map_MaptConfig>.

Record DML_WANIFACE_DSLITE := mk_DML_WANIFACE_DSLITE {
  dsl_Path : string;
  dsl_Status : DML_WAN_IFACE_DSLITE_STATUS;
  dsl_Changed : bool
}.
#[export] Instance DML_WANIFACE_DSLITE_settable : Settable DML_WANIFACE_DSLITE :=
  settable! mk_DML_WANIFACE_DSLITE
  <dsl_Path; dsl_Status; dsl_Changed>.

Record DML_VIRTIF_MARKING := mk_DML_VIRTIF_MARKING {
  mk_VirtMarkingInstanceNumber : Z;
  mk_VirIfIdx : Z;
  mk_baseIfIdx : Z;
  mk_Entry : Z
}.
#[export] Instance DML_VIRTIF_MARKING_settable : Settable DML_VIRTIF_MARKING :=
  settable! mk_DML_VIRTIF_MARKING
  <mk_VirtMarkingInstanceNumber; mk_VirIfIdx; mk_baseIfIdx; mk_Entry>.

Record DML_VLAN_IFACE_TABLE := mk_DML_VLAN_IFACE_TABLE {
  vt_Index : Z;
  vt_VirIfIdx : Z;
  vt_baseIfIdx : Z;
  vt_Interface : string
}.
#[export] Instance DML_VLAN_IFACE_TABLE_settable : Settable DML_VLAN_IFACE_TABLE :=
  settable! mk_DML_VLAN_IFACE_TABLE
  <vt_Index; vt_VirIfIdx; vt_baseIfIdx; vt_Interface>.

Record DML_VIRTUALIF_VLAN := mk_DML_VIRTUALIF_VLAN {
  vlan_Enable : bool;
  vlan_VLANInUse : string;
  vlan_ActiveIndex : Z;
  vlan_Timeout : Z;
  vlan_NoOfInterfaceEntries : Z;
  vlan_InterfaceList : list DML_VLAN_IFACE_TABLE;
  vlan_NoOfMarkingEntries : Z;
  vlan_VirtMarking : list DML_VIRTIF_MARKING;
  vlan_Status : DML_WAN_IFACE_LINKSTATUS;
  vlan_Expired : bool;
  vlan_Reset : bool;
  vlan_TimerStart : Z
}.
#[export] Instance DML_VIRTUALIF_VLAN_settable : Settable DML_VIRTUALIF_VLAN :=
  settable! mk_DML_VIRTUALIF_VLAN
  <vlan_Enable; vlan_VLANInUse; vlan_ActiveIndex; vlan_Timeout; vlan_NoOfInterfaceEntries; vlan_InterfaceList; vlan_NoOfMarkingEntries; vlan_VirtMarking; vlan_Status; vlan_Expired; vlan_Reset; vlan_TimerStart>.

Record DML_VIRTUAL_IFACE := mk_DML_VIRTUAL_IFACE {
  v_VirIfIdx : Z;
  v_baseIfIdx : Z;
  v_Name : string;
  v_Alias : string;
  v_Enable : bool;
  v_EnableMAPT : bool;
  v_EnableDSLite : bool;
  v_Status : DML_WAN_IFACE_STATUS;
  v_RemoteStatus : DML_WAN_IFACE_STATUS;
  v_VLAN : DML_VIRTUALIF_VLAN;
  v_Reset : bool;
  v_OperationalStatus : DML_WAN_IFACE_OPER_STATUS;
  v_IP : DML_WANIFACE_IP;
  v_PPP : DATAMODEL_PPP;
  v_MAP : DML_WANIFACE_MAP;
  v_DSLite : DML_WANIFACE_DSLITE;
  v_eCurrentState : eWanState_t;
  v_Interface_SM_Running : bool
}.
#[export] Instance DML_VIRTUAL_IFACE_settable : Settable DML_VIRTUAL_IFACE :=
  settable! mk_DML_VIRTUAL_IFACE
  <v_VirIfIdx; v_baseIfIdx; v_Name; v_Alias; v_Enable; v_EnableMAPT; v_EnableDSLite; v_Status; v_RemoteStatus; v_VLAN; v_Reset; v_OperationalStatus; v_IP; v_PPP; v_MAP; v_DSLite; v_eCurrentState; v_Interface_SM_Running>.

Record DML_IFACE_SELECTION := mk_DML_IFACE_SELECTION {
  sel_Enable : bool;
  sel_Priority : Z;
  sel_Timeout : Z;
  sel_Status : WANMGR_IFACE_SELECTION;
  sel_ActiveLink : bool;
  sel_Group : Z;
  sel_RequiresReboot : bool;
  sel_RebootTriggerStatus : bool
}.
#[export] Instance DML_IFACE_SELECTION_settable : Settable DML_IFACE_SELECTION :=
  settable! mk_DML_IFACE_SELECTION
  <sel_Enable; sel_Priority; sel_Timeout; sel_Status; sel_ActiveLink; sel_Group; sel_RequiresReboot; sel_RebootTriggerStatus>.

Record DML_WAN_IFACE := mk_DML_WAN_IFACE {
  if_uiIfaceIdx : Z;
  if_uiInstanceNumber : Z;
  if_Name : string;
  if_DisplayName : string;
  if_AliasName : string;
  if_MonitorOperStatus : bool;
  if_WanConfigEnabled : bool;
  if_VirtIfChanged : bool;
  if_CustomConfigEnable : bool;
  if_CustomConfigPath : string;
  if_InterfaceScanStatus : DML_WAN_IFACE_SCAN_STATUS;
  if_RemoteCPEMac : string;
  if_BaseInterface : string;
  if_Type : DML_WAN_IFACE_TYPE;
  if_BaseInterfaceStatus : DML_WAN_IFACE_PHY_STATUS;
  if_Selection : DML_IFACE_SELECTION;
  if_IfaceType : IFACE_TYPE;
  if_BaseInterfaceStatusSub : Z;
  if_WanStatusSub : Z;
  if_WanLinkStatusSub : Z;
  if_NoOfVirtIfs : Z;
  if_VirtIfList : list DML_VIRTUAL_IFACE
}.
#[export] Instance DML_WAN_IFACE_settable : Settable DML_WAN_IFACE :=
  settable! mk_DML_WAN_IFACE
  <if_uiIfaceIdx; if_uiInstanceNumber; if_Name; if_DisplayName; if_AliasName; if_MonitorOperStatus; if_WanConfigEnabled; if_VirtIfChanged; if_CustomConfigEnable; if_CustomConfigPath; if_InterfaceScanStatus; if_RemoteCPEMac; if_BaseInterface; if_Type; if_BaseInterfaceStatus; if_Selection; if_IfaceType; if_BaseInterfaceStatusSub; if_WanStatusSub; if_WanLinkStatusSub; if_NoOfVirtIfs; if_VirtIfList>.

Record WANMGR_IFACE_GROUP := mk_WANMGR_IFACE_GROUP {
  g_ThreadId : Z;
  g_State : WAN_IFACE_GROUP_STATUS;
  g_groupIdx : Z;
  g_InterfaceAvailable : Z;
  g_SelectedInterface : Z;
  g_SelectionTimeOut : Z;
  g_ActivationCount : Z;
  g_PersistSelectedIface : bool;
  g_Policy : DML_WAN_POLICY;
  g_ConfigChanged : bool;
  g_ResetSelectedInterface : bool;
  g_InitialScanComplete : bool
}.
#[export] Instance WANMGR_IFACE_GROUP_settable : Settable WANMGR_IFACE_GROUP :=
  settable! mk_WANMGR_IFACE_GROUP
  <g_ThreadId; g_State; g_groupIdx; g_InterfaceAvailable; g_SelectedInterface; g_SelectionTimeOut; g_ActivationCount; g_PersistSelectedIface; g_Policy; g_ConfigChanged; g_ResetSelectedInterface; g_InitialScanComplete>.

Record DML_WANMGR_CONFIG := mk_DML_WANMGR_CONFIG {
  cfg_Enable : bool;
  cfg_DeviceNwMode : DEVICE_NETWORKING_MODE;
  cfg_DeviceNwModeChanged : bool;
  cfg_ResetFailOverScan : bool;
  cfg_AllowRemoteInterfaces : bool;
  cfg_BootToWanUp : bool;
  cfg_InterfaceAvailableStatus : string;
  cfg_InterfaceActiveStatus : string;
  cfg_CurrentActiveInterface : string;
  cfg_CurrentStatus : string;
  cfg_CurrentStandbyInterface : string;
  cfg_RestorationDelay : Z;
  cfg_CurrentActiveDNS : string;
  cfg_BackupWanDnsSupport : bool;
  cfg_IPv6EUI64FormatSupport : bool;
  cfg_ConfigureWANIPv6OnLANBridgeSupport : bool;
  cfg_UseWANMACForManagementServices : bool;
  cfg_InterfaceVLANMarkingSupport : bool
}.
#[export] Instance DML_WANMGR_CONFIG_settable : Settable DML_WANMGR_CONFIG :=
  settable! mk_DML_WANMGR_CONFIG
  <cfg_Enable; cfg_DeviceNwMode; cfg_DeviceNwModeChanged; cfg_ResetFailOverScan; cfg_AllowRemoteInterfaces; cfg_BootToWanUp; cfg_InterfaceAvailableStatus; cfg_InterfaceActiveStatus; cfg_CurrentActiveInterface; cfg_CurrentStatus; cfg_CurrentStandbyInterface; cfg_RestorationDelay; cfg_CurrentActiveDNS; cfg_BackupWanDnsSupport; cfg_IPv6EUI64FormatSupport; cfg_ConfigureWANIPv6OnLANBridgeSupport; cfg_UseWANMACForManagementServices; cfg_InterfaceVLANMarkingSupport>.

(** [gDataMutex] is recursive: its model is its lock depth.  [w_remotePriority]
    is the function static of [WanMgr_Remote_IfaceData_Update],
    [w_isDefaultGatewayAdded] the file static of [wanmgr_sysevents.c],
    [w_PrevWanStatus] the function static of [WanMgr_Publish_WanStatus] and
    [w_mapt_feature_enable_changed] the global of [wanmgr_sysevents.c]. *)
Record WANMGR_DATA_ST := mk_WANMGR_DATA_ST {
  w_gDataMutex : nat;
  w_Config : DML_WANMGR_CONFIG;
  w_ulTotalNumbWanInterfaces : Z;
  w_pIface : list DML_WAN_IFACE;
  w_update : Z;
  w_ulTotalNumbWanIfaceGroup : Z;
  w_Group : list WANMGR_IFACE_GROUP;
  w_remotePriority : Z;
  w_isDefaultGatewayAdded : bool;
  w_ipv6AddressString : string;
  w_g_UPnPIGDServiceStopped : bool;
  w_PrevWanStatus : Z;
  w_mapt_feature_enable_changed : bool
}.
#[export] Instance WANMGR_DATA_ST_settable : Settable WANMGR_DATA_ST :=
  settable! mk_WANMGR_DATA_ST
  <w_gDataMutex; w_Config; w_ulTotalNumbWanInterfaces; w_pIface; w_update; w_ulTotalNumbWanIfaceGroup; w_Group; w_remotePriority; w_isDefaultGatewayAdded; w_ipv6AddressString; w_g_UPnPIGDServiceStopped; w_PrevWanStatus; w_mapt_feature_enable_changed>.
