(* ===== verification/Platform.v ===== *)
(** The state one thread of the manager works on, and the world around it.

    [St C] is what a thread sees: its own controller [C], the shared data base
    [gWanMgrDataBase], the sysevent store and the calls made so far.  A call to
    code outside the model (PSM, the bus, the DHCP clients, a thread start, the
    clock) is recorded in [trace] and answered by an oracle that may depend on
    everything called before. *)

From S2P Require Export DmlTypes.

(** * The build *)

(** The compile-time switches the modelled code tests. *)
Class Build := {
  FEATURE_RDKB_CONFIGURABLE_WAN_INTERFACE : bool;
  FEATURE_RDKB_DHCP_MANAGER : bool;
  FEATURE_MAPT : bool;
  FEATURE_IPOE_HEALTH_CHECK : bool;
  FEATURE_RDKB_LED_MANAGER : bool;
  (** [_XB6_PRODUCT_REQ_] or [_CBR2_PRODUCT_REQ_]. *)
  XB6_CBR2_PRODUCT_REQ : bool;
  RDKB_GLOBAL_PRODUCT_REQ : bool;
  (** The name of the mesh bridge, a macro of the platform. *)
  MESH_IFNAME : string
}.

(** * Calls to code outside the model *)

Inductive Ext :=
| ClockGettime
| PthreadCreate (entry : string) (arg : list Z)
| PsmGet (name : string)
| PsmSet (name value : string)
| SyseventSet (name value : string)
| ExtCall (fn : string) (args : list string).
#[export] Instance Ext_eq_dec : EqDecision Ext.
Proof. solve_decision. Defined.

(** The answers: a number (a return code, a reading) and a string (an output
    buffer), given the earlier calls, newest first. *)
Class Platform := {
  answer : list Ext -> Ext -> Z;
  answer_s : list Ext -> Ext -> string;
  (** The descriptor of the sysevent daemon, -1 before it is opened. *)
  sysevent_fd : Z
}.

(** * The state of a thread *)

Record St (C : Type) := mk_St {
  ctl : C;
  db : WANMGR_DATA_ST;
  sys : gmap string string;
  trace : list Ext
}.
Arguments mk_St {C} _ _ _ _.
Arguments ctl {C} _.
Arguments db {C} _.
Arguments sys {C} _.
Arguments trace {C} _.
#[export] Instance St_settable C : Settable (St C) :=
  settable! (@mk_St C) <ctl; db; sys; trace>.

Section Platform.
Context `{Platform} {C : Type}.

(** Call [e] and return its answer. *)
Definition call (e : Ext) : M (St C) Z :=
  fun s => Some (answer (trace s) e, s <| trace := e :: trace s |>).
(** The same with the string it writes. *)
Definition call_s (e : Ext) : M (St C) (Z * string) :=
  fun s => Some ((answer (trace s) e, answer_s (trace s) e),
                 s <| trace := e :: trace s |>).
Definition call_ (e : Ext) : M (St C) unit := call e ;; ret tt.

(** [clock_gettime(CLOCK_MONOTONIC_RAW)], in seconds. *)
Definition clock_gettime : M (St C) Z := call ClockGettime.

Definition sysevent_set (name value : string) : M (St C) unit :=
  modify (fun s => s <| sys := <[name := value]> (sys s) |>
                     <| trace := SyseventSet name value :: trace s |>).
(** An unset name reads as the empty string. *)
Definition sysevent_get (name : string) : M (St C) string :=
  gets (fun s => default EmptyString (sys s !! name)).

Definition get_ctl {A} (f : C -> A) : M (St C) A := gets (fun s => f (ctl s)).
Definition get_controller : M (St C) C := gets ctl.
Definition set_ctl (f : C -> C) : M (St C) unit := modify (fun s => s <| ctl := f (ctl s) |>).
Definition get_db {A} (f : WANMGR_DATA_ST -> A) : M (St C) A := gets (fun s => f (db s)).
Definition set_db (f : WANMGR_DATA_ST -> WANMGR_DATA_ST) : M (St C) unit :=
  modify (fun s => s <| db := f (db s) |>).
End Platform.

(** * What these keep *)

Section PlatformFacts.
Context `{Platform} {C : Type}.

Lemma keeps_call {B} (f : St C -> B) e :
  (forall s t, f (s <| trace := t |>) = f s) -> Keeps f (call e).
Proof. intros Hf s a s' [= _ <-]. apply Hf. Qed.
Lemma keeps_call_s {B} (f : St C -> B) e :
  (forall s t, f (s <| trace := t |>) = f s) -> Keeps f (call_s e).
Proof. intros Hf s a s' [= _ <-]. apply Hf. Qed.
Lemma wp_call e (Q : Z -> St C -> Prop) s :
  (forall r, Q r (s <| trace := e :: trace s |>)) -> wp (call e) Q s.
Proof. intros HQ. apply HQ. Qed.
Lemma wp_call_s e (Q : Z * string -> St C -> Prop) s :
  (forall r, Q r (s <| trace := e :: trace s |>)) -> wp (call_s e) Q s.
Proof. intros HQ. apply HQ. Qed.
Lemma total_call e : Total (call (C := C) e).
Proof. intros s. by do 2 eexists. Qed.
Lemma total_call_s e : Total (call_s (C := C) e).
Proof. intros s. by do 2 eexists. Qed.
End PlatformFacts.

#[export] Hint Extern 2 (Keeps _ (call _)) => (apply keeps_call; reflexivity) : keeps.
#[export] Hint Extern 2 (Keeps _ (call_s _)) => (apply keeps_call_s; reflexivity) : keeps.
#[export] Hint Resolve total_call total_call_s : total.
#[export] Hint Unfold call_ clock_gettime sysevent_set sysevent_get get_controller get_ctl set_ctl get_db set_db : monad.
