(* ===== verification/Data.v ===== *)
(** [source/WanManager/wanmgr_data.c]: the data base [gWanMgrDataBase], its
    accessors that return with [gDataMutex] held, their releases, the searches,
    and the creation of interface entries.

    A pointer to an interface entry is its index in [pIface]; a pointer to a
    virtual interface is that index with a position in [VirtIfList]; a group
    pointer is an index in [Group].  [NULL] is [None].  The recursive mutex is
    its depth: a function that returns with the lock held leaves the depth one
    higher, so "no lock is leaked" is "the depth is what it was".  An unlock of a
    mutex that is not held returns EPERM and changes nothing. *)

From S2P Require Export Platform.

Inductive ANSC_STATUS := ANSC_STATUS_SUCCESS | ANSC_STATUS_FAILURE | ANSC_STATUS_BAD_PARAMETER.
#[export] Instance ANSC_STATUS_eq_dec : EqDecision ANSC_STATUS.
Proof. solve_decision. Defined.

Definition MAX_WAN_INTERFACE_ENTRY : Z := 32.
Definition MAX_INTERFACE_GROUP : Z := 2.
Definition REMOTE_INTERFACE_NAME : string := "brRWAN".
Definition REMOTE_INTERFACE_GROUP : Z := 2.

Definition iface_ptr := nat.
Definition vif_ptr : Type := nat * nat.

(** * Linked lists *)

(** The walk to the last node, and the new node linked there. *)
Fixpoint append_last {A} (head : list A) (newNode : A) : list A :=
  match head with
  | [] => [newNode]
  | x :: next => x :: append_last next newNode
  end.

Definition add_to_list {A} (head : list A) (newNode : option A) : ANSC_STATUS * list A :=
  match newNode with
  | None => (ANSC_STATUS_FAILURE, head)
  | Some n => (ANSC_STATUS_SUCCESS, append_last head n)
  end.
Definition WanMgr_AddVirtVlanIfToList := @add_to_list DML_VLAN_IFACE_TABLE.
Definition WanMgr_AddVirtMarkingToList := @add_to_list DML_VIRTIF_MARKING.
Definition WanMgr_AddVirtualToList := @add_to_list DML_VIRTUAL_IFACE.

(** [while(p != NULL) { if(test(p)) return p; p = p->next; } return NULL;] *)
Fixpoint list_search {A} (test : A -> bool) (p : list A) : option nat :=
  match p with
  | [] => None
  | x :: next => if test x then Some 0%nat else S <$> list_search test next
  end.
Definition WanMgr_getVirtVlanIfById (vlanIf : list DML_VLAN_IFACE_TABLE) (inst : Z) : option nat :=
  list_search (fun x => vt_Index x =? inst) vlanIf.
Definition WanMgr_getVirtMakingById (marking : list DML_VIRTIF_MARKING) (inst : Z) : option nat :=
  list_search (fun x => mk_VirtMarkingInstanceNumber x =? inst) marking.
Definition WanMgr_getVirtualIfaceById (virIface : list DML_VIRTUAL_IFACE) (inst : Z) : option nat :=
  list_search (fun x => v_VirIfIdx x =? inst) virIface.

(** * Defaults *)

Definition WanMgr_SetConfigData_Default (c : DML_WANMGR_CONFIG) : DML_WANMGR_CONFIG :=
  c <| cfg_Enable := true |>
    <| cfg_ResetFailOverScan := false |>
    <| cfg_AllowRemoteInterfaces := false |>
    <| cfg_InterfaceAvailableStatus := EmptyString |>
    <| cfg_InterfaceActiveStatus := EmptyString |>
    <| cfg_CurrentStatus := "Down" |>
    <| cfg_CurrentActiveInterface := EmptyString |>
    <| cfg_CurrentActiveDNS := EmptyString |>
    <| cfg_DeviceNwMode := GATEWAY_MODE |>
    <| cfg_DeviceNwModeChanged := false |>
    <| cfg_BootToWanUp := false |>
    <| cfg_BackupWanDnsSupport := true |>
    <| cfg_IPv6EUI64FormatSupport := true |>
    <| cfg_ConfigureWANIPv6OnLANBridgeSupport := false |>
    <| cfg_UseWANMACForManagementServices := false |>
    <| cfg_InterfaceVLANMarkingSupport := false |>.

Definition WanMgr_SetIfaceGroup_Default (d : WANMGR_DATA_ST) : WANMGR_DATA_ST :=
  d <| w_ulTotalNumbWanIfaceGroup := MAX_INTERFACE_GROUP |>.
Definition WanMgr_SetIfaceCtrl_Default (d : WANMGR_DATA_ST) : WANMGR_DATA_ST :=
  d <| w_ulTotalNumbWanInterfaces := 0 |> <| w_pIface := [] |>.
(** [AnscFreeMemory] gives the array back; the pointer becomes [NULL]. *)
Definition WanMgr_IfaceCtrl_Delete (d : WANMGR_DATA_ST) : WANMGR_DATA_ST :=
  let d := d <| w_ulTotalNumbWanInterfaces := 0 |> in
  match w_pIface d with [] => d | _ :: _ => d <| w_pIface := [] |> end.

Definition zero_WANMGR_IPV4_DATA : WANMGR_IPV4_DATA :=
  let e := EmptyString in
  mk_WANMGR_IPV4_DATA e e e e e e 0 0 0 false e 0 0 e e 0.
Definition zero_WANMGR_IPV6_DATA : WANMGR_IPV6_DATA :=
  let e := EmptyString in
  mk_WANMGR_IPV6_DATA e e e e e e e 0 0 e 0 false 0 false 0 false.

Definition WanMgr_IfaceData_Init (I : DML_WAN_IFACE) (iface_index : Z) : DML_WAN_IFACE :=
  I <| if_MonitorOperStatus := false |>
    <| if_WanConfigEnabled := false |>
    <| if_CustomConfigEnable := false |>
    <| if_CustomConfigPath := EmptyString |>
    <| if_RemoteCPEMac := EmptyString |>
    <| if_uiIfaceIdx := iface_index |>
    <| if_uiInstanceNumber := u32 (iface_index + 1) |>
    <| if_Name := EmptyString |>
    <| if_DisplayName := EmptyString |>
    <| if_AliasName := EmptyString |>
    <| if_BaseInterface := EmptyString |>
    <| if_BaseInterfaceStatus := WAN_IFACE_PHY_STATUS_DOWN |>
    <| if_VirtIfChanged := false |>
    <| if_Selection; sel_Enable := false |>
    <| if_Selection; sel_Priority := -1 |>
    <| if_Selection; sel_Timeout := 0 |>
    <| if_IfaceType := LOCAL_IFACE |>
    <| if_Selection; sel_ActiveLink := false |>
    <| if_Selection; sel_Status := WAN_IFACE_NOT_SELECTED |>
    <| if_Selection; sel_RequiresReboot := false |>
    <| if_Selection; sel_RebootTriggerStatus := false |>
    <| if_Selection; sel_Group := 1 |>
    <| if_InterfaceScanStatus := WAN_IFACE_STATUS_NOT_SCANNED |>
    <| if_BaseInterfaceStatusSub := 0 |>
    <| if_WanStatusSub := 0 |>
    <| if_WanLinkStatusSub := 0 |>
    <| if_NoOfVirtIfs := 1 |>
    <| if_Type := WAN_IFACE_TYPE_UNCONFIGURED |>.

Definition WanMgr_VirtIface_Init (v : DML_VIRTUAL_IFACE) (iface_index : Z) : DML_VIRTUAL_IFACE :=
  v <| v_VirIfIdx := iface_index |>
    <| v_Name := EmptyString |>
    <| v_Alias := EmptyString |>
    <| v_OperationalStatus := WAN_OPERSTATUS_UNKNOWN |>
    <| v_EnableMAPT := false |>
    <| v_EnableDSLite := false |>
    <| v_Status := WAN_IFACE_STATUS_DISABLED |>
    <| v_RemoteStatus := WAN_IFACE_STATUS_DISABLED |>
    <| v_VLAN ::= fun w => w
         <| vlan_Status := WAN_IFACE_LINKSTATUS_DOWN |>
         <| vlan_Enable := false |>
         <| vlan_NoOfMarkingEntries := 0 |>
         <| vlan_Timeout := 0 |>
         <| vlan_ActiveIndex := u32 (-1) |>
         <| vlan_NoOfInterfaceEntries := 0 |>
         <| vlan_VLANInUse := EmptyString |> |>
    <| v_Reset := false |>
    <| v_IP ::= fun p => p
         <| ip_RefreshDHCP := false |>
         <| ip_Interface := EmptyString |>
         <| ip_DHCPv4Iface := EmptyString |>
         <| ip_DHCPv6Iface := EmptyString |>
         <| ip_Ipv4Status := WAN_IFACE_IPV4_STATE_DOWN |>
         <| ip_Ipv6Status := WAN_IFACE_IPV6_STATE_DOWN |>
         <| ip_IPv4Source := DML_WAN_IP_SOURCE_DHCP |>
         <| ip_IPv6Source := DML_WAN_IP_SOURCE_DHCP |>
         <| ip_ConnectivityCheckType := WAN_CONNECTIVITY_TYPE_NO_CHECK |>
         <| ip_Ipv4ConnectivityStatus := WAN_CONNECTIVITY_DOWN |>
         <| ip_Ipv6ConnectivityStatus := WAN_CONNECTIVITY_DOWN |>
         <| ip_Mode := DML_WAN_IP_MODE_DUAL_STACK |>
         <| ip_Ipv4Changed := false |>
         <| ip_Ipv6Changed := false |>
         <| ip_PreferredMode := DUAL_STACK_MODE |>
         <| ip_SelectedMode := DUAL_STACK_MODE |>
         <| ip_ModeForceEnable := false |>
         <| ip_SelectedModeTimerStatus := NOTSTARTED |>
         <| ip_SelectedModeTimerStart := 0 |>
         <| ip_Ipv4Renewed := false |>
         <| ip_Ipv6Renewed := false |>
         <| ip_Dhcp4cStatus := DHCPC_STATE_UNKNOWN |>
         <| ip_Dhcp6cStatus := DHCPC_STATE_UNKNOWN |>
         <| ip_Ipv4Data := zero_WANMGR_IPV4_DATA |>
         <| ip_Ipv6Data := zero_WANMGR_IPV6_DATA |>
         <| ip_pIpcIpv4Data := None |>
         <| ip_pIpcIpv6Data := None |> |>
    <| v_MAP ::= fun m => m
         <| map_MaptStatus := WAN_IFACE_MAPT_STATE_DOWN |>
         <| map_Path := EmptyString |>
         <| map_MaptChanged := false |> |>
    <| v_DSLite ::= fun d => d
         <| dsl_Path := EmptyString |>
         <| dsl_Status := WAN_IFACE_DSLITE_STATE_DOWN |>
         <| dsl_Changed := false |> |>
    <| v_PPP ::= fun p => p
         <| ppp_Enable := false |>
         <| ppp_LinkStatus := WAN_IFACE_PPP_LINK_STATUS_DOWN |>
         <| ppp_IPCPStatus := WAN_IFACE_IPCP_STATUS_DOWN |>
         <| ppp_IPV6CPStatus := WAN_IFACE_IPV6CP_STATUS_DOWN |>
         <| ppp_IPCPStatusChanged := false |>
         <| ppp_IPV6CPStatusChanged := false |>
         <| ppp_Interface := EmptyString |> |>.

(** * The lock and the accessors *)

Section Accessors.
Context `{Platform} {C : Type}.
#[local] Abbreviation M := (Prelude.M (St C)).

(** Locking the recursive mutex never fails. *)
Definition pthread_mutex_lock : M unit :=
  set_db (fun d => d <| w_gDataMutex := S (w_gDataMutex d) |>).
Definition pthread_mutex_unlock : M unit :=
  set_db (fun d => d <| w_gDataMutex := pred (w_gDataMutex d) |>).

Definition WanMgrDml_GetIfaceData_release : M unit := pthread_mutex_unlock.
Definition WanMgr_VirtualIfaceData_release : M unit := pthread_mutex_unlock.
Definition WanMgrDml_GetIfaceGroup_release : M unit := pthread_mutex_unlock.
Definition WanMgr_VlanIfaceMutex_release : M unit := pthread_mutex_unlock.
Definition WanMgr_VirtMarkingMutex_release : M unit := pthread_mutex_unlock.

(** The configuration is a static object: never [NULL]. *)
Definition WanMgr_GetConfigData_locked : M unit := pthread_mutex_lock.
Definition WanMgrDml_GetConfigData_release : M unit := pthread_mutex_unlock.

Definition WanMgr_IfaceData_GetTotalWanIface : M Z :=
  pthread_mutex_lock ;;
  TotalIfaces <- get_db w_ulTotalNumbWanInterfaces ;;
  WanMgrDml_GetIfaceData_release ;;
  ret TotalIfaces.

Definition WanMgr_GetTotalNoOfGroups : M Z :=
  pthread_mutex_lock ;;
  groupCount <- get_db w_ulTotalNumbWanIfaceGroup ;;
  WanMgrDml_GetIfaceData_release ;;
  ret groupCount.

(** [pIface != NULL] *)
Definition pIface_set : M bool :=
  get_db (fun d => match w_pIface d with [] => false | _ => true end).

Definition WanMgr_GetIfaceData_locked (iface_index : Z) : M (option iface_ptr) :=
  pthread_mutex_lock ;;
  total <- get_db w_ulTotalNumbWanInterfaces ;;
  some <- pIface_set ;;
  if (iface_index <? total) && some
  then ret (Some (Z.to_nat iface_index))
  else WanMgrDml_GetIfaceData_release ;; ret None.

Definition WanMgr_GetIfaceGroup_locked (iface_index : Z) : M (option nat) :=
  pthread_mutex_lock ;;
  total <- get_db w_ulTotalNumbWanIfaceGroup ;;
  some <- get_db (fun d => match w_Group d with [] => false | _ => true end) ;;
  if (iface_index <? total) && some
  then ret (Some (Z.to_nat iface_index))
  else WanMgrDml_GetIfaceData_release ;; ret None.

(** Reads and writes through the pointers. *)
Definition get_iface (i : iface_ptr) : M DML_WAN_IFACE :=
  p <- get_db (fun d => w_pIface d !! i) ;; deref p.
Definition upd_iface (i : iface_ptr) (f : DML_WAN_IFACE -> DML_WAN_IFACE) : M unit :=
  get_iface i ;; set_db (fun d => d <| w_pIface := alter f i (w_pIface d) |>).
Definition get_group (i : nat) : M WANMGR_IFACE_GROUP :=
  p <- get_db (fun d => w_Group d !! i) ;; deref p.
Definition upd_group (i : nat) (f : WANMGR_IFACE_GROUP -> WANMGR_IFACE_GROUP) : M unit :=
  get_group i ;; set_db (fun d => d <| w_Group := alter f i (w_Group d) |>).
Definition get_vif (p : vif_ptr) : M DML_VIRTUAL_IFACE :=
  I <- get_iface p.1 ;; deref (if_VirtIfList I !! p.2).
Definition upd_vif (p : vif_ptr) (f : DML_VIRTUAL_IFACE -> DML_VIRTUAL_IFACE) : M unit :=
  get_vif p ;; upd_iface p.1 (fun I => I <| if_VirtIfList ::= alter f p.2 |>).

(** The pattern
    [p = ..._locked(index); if(p != NULL) { body; ..._release(p); }] *)
Definition with_iface {A} (none : A) (index : Z) (body : iface_ptr -> M A) : M A :=
  p <- WanMgr_GetIfaceData_locked index ;;
  match p with
  | Some i => a <- body i ;; WanMgrDml_GetIfaceData_release ;; ret a
  | None => ret none
  end.
Definition with_group {A} (none : A) (index : Z) (body : nat -> M A) : M A :=
  p <- WanMgr_GetIfaceGroup_locked index ;;
  match p with
  | Some i => a <- body i ;; WanMgrDml_GetIfaceGroup_release ;; ret a
  | None => ret none
  end.
Definition with_config {A} (body : M A) : M A :=
  WanMgr_GetConfigData_locked ;;
  a <- body ;; WanMgrDml_GetConfigData_release ;; ret a.

(** [return WanMgr_getVirtualIfaceById(...)] is executed with the lock held,
    whether it found the virtual interface or not. *)
Definition WanMgr_getVirtualIface_locked (baseIfidx virtIfIdx : Z) : M (option vif_ptr) :=
  p <- WanMgr_GetIfaceData_locked baseIfidx ;;
  match p with
  | None => ret None
  | Some i =>
      I <- get_iface i ;;
      ret (pair i <$> WanMgr_getVirtualIfaceById (if_VirtIfList I) virtIfIdx)
  end.

(** The virtual interface is dereferenced without a test. *)
Definition WanMgr_getVlanIface_locked (baseIfidx virtIfIdx vlanid : Z)
    : M (option (vif_ptr * nat)) :=
  p <- WanMgr_GetIfaceData_locked baseIfidx ;;
  match p with
  | None => ret None
  | Some i =>
      I <- get_iface i ;;
      k <- deref (WanMgr_getVirtualIfaceById (if_VirtIfList I) virtIfIdx) ;;
      v <- get_vif (i, k) ;;
      ret (pair (i, k) <$> WanMgr_getVirtVlanIfById (vlan_InterfaceList (v_VLAN v)) vlanid)
  end.
Definition WanMgr_getVirtualMarking_locked (baseIfidx virtIfIdx Markingid : Z)
    : M (option (vif_ptr * nat)) :=
  p <- WanMgr_GetIfaceData_locked baseIfidx ;;
  match p with
  | None => ret None
  | Some i =>
      I <- get_iface i ;;
      k <- deref (WanMgr_getVirtualIfaceById (if_VirtIfList I) virtIfIdx) ;;
      v <- get_vif (i, k) ;;
      ret (pair (i, k) <$> WanMgr_getVirtMakingById (vlan_VirtMarking (v_VLAN v)) Markingid)
  end.

(** The searches over all interfaces: the lock is kept on the result and
    released when there is none. *)
Definition search_ifaces {R} (test : iface_ptr -> M (option R)) : M (option R) :=
  pthread_mutex_lock ;;
  some <- pIface_set ;;
  total <- get_db w_ulTotalNumbWanInterfaces ;;
  r <- (if some then for_break (range total) (fun idx => test (Z.to_nat idx)) else ret None) ;;
  match r with
  | Some p => ret (Some p)
  | None => WanMgrDml_GetIfaceData_release ;; ret None
  end.
Definition search_vifs (test : DML_VIRTUAL_IFACE -> bool) : M (option vif_ptr) :=
  search_ifaces (fun i =>
    I <- get_iface i ;;
    ret (pair i <$> list_search test (if_VirtIfList I))).

Definition WanMgr_GetIfaceDataByName_locked (iface_name : string) : M (option iface_ptr) :=
  search_ifaces (fun i =>
    I <- get_iface i ;;
    v <- deref (head (if_VirtIfList I)) ;;
    ret (if iface_name ≟ v_Name v then Some i else None)).

Definition WanMgr_GetVirtualIfaceByName_locked (iface_name : option string) : M (option vif_ptr) :=
  match iface_name with
  | None => ret None
  | Some name =>
      if (String.length name <=? 0)%nat then ret None
      else search_vifs (fun v => name ≟ v_Name v)
  end.

Definition WanMgr_GetVIfByName_VISM_running_locked (iface_name : option string)
    : M (option vif_ptr) :=
  match iface_name with
  | None => ret None
  | Some name =>
      if (String.length name <=? 0)%nat then ret None
      else search_vifs (fun v => (name ≟ v_Name v) && v_Interface_SM_Running v)
  end.

Definition WanMgr_GetVirtIfDataByAlias_locked (Alias : option string) : M (option vif_ptr) :=
  match Alias with
  | None => ret None
  | Some a => search_vifs (fun v => a ≟ v_Alias v)
  end.

(** Returns [VirtIfList], which may itself be [NULL], with the lock held. *)
Definition WanMgr_GetActiveVirtIfData_locked : M (option (option vif_ptr)) :=
  search_ifaces (fun i =>
    I <- get_iface i ;;
    ret (if sel_Status (if_Selection I) ≟ WAN_IFACE_ACTIVE
         then Some (match if_VirtIfList I with [] => None | _ => Some (i, 0%nat) end)
         else None)).

Definition WanMgr_GetIfaceAliasNameByIndex (iface_index : Z) (AliasName : string) : M string :=
  with_iface AliasName iface_index (fun i =>
    I <- get_iface i ;; ret (if_AliasName I)).

(** The last match wins: the loop does not stop. *)
Definition WanMgr_GetIfaceIndexByAliasName (AliasName : string) : M Z :=
  if (String.length AliasName <=? 0)%nat then ret 0
  else
    pthread_mutex_lock ;;
    some <- pIface_set ;;
    total <- get_db w_ulTotalNumbWanInterfaces ;;
    index <- (if some then
      (fix loop (l : list Z) (index : Z) : M Z :=
         match l with
         | [] => ret index
         | idx :: l' =>
             I <- get_iface (Z.to_nat idx) ;;
             if (0 <? String.length (if_AliasName I))%nat && strstr AliasName (if_AliasName I)
             then loop l' (idx + 1) else loop l' index
         end) (range total) 0
      else ret 0) ;;
    WanMgrDml_GetIfaceData_release ;;
    ret index.
End Accessors.

(** * Creation of groups and interfaces *)

(** Enumerators read back from PSM.  An integer that is no enumerator leaves
    the field with a value equal to none of them; it is read as the value the
    code treats the same way (no check, and the default policy). *)
Definition CONNECTIVITY_CHECK_TYPE_of (n : Z) : CONNECTIVITY_CHECK_TYPE :=
  if n =? 1 then WAN_CONNECTIVITY_TYPE_IHC
  else if n =? 2 then WAN_CONNECTIVITY_TYPE_TAD
  else WAN_CONNECTIVITY_TYPE_NO_CHECK.
Definition DML_WAN_POLICY_of (n : Z) : DML_WAN_POLICY :=
  match n with
  | 1 => FIXED_MODE_ON_BOOTUP
  | 2 => FIXED_MODE
  | 3 => PRIMARY_PRIORITY_ON_BOOTUP
  | 4 => PRIMARY_PRIORITY
  | 5 => MULTIWAN_MODE
  | 7 => PARALLEL_SCAN
  | _ => AUTOWAN_MODE
  end.

Section Creation.
Context `{Platform} {C : Type}.
#[local] Abbreviation M := (Prelude.M (St C)).
(** The contents [AnscAllocateMemory] hands out. *)
Context (fresh_vif : DML_VIRTUAL_IFACE) (fresh_group : WANMGR_IFACE_GROUP).

Definition CCSP_SUCCESS : Z := 100.

(** [NULL] is 0. *)
Definition AnscAllocateMemory (what : string) : M bool :=
  p <- call (ExtCall "AnscAllocateMemory" [what]) ;; ret (negb (p =? 0)).

(** [if(WanMgr_RdkBus_GetParamValuesFromDB(..) == CCSP_SUCCESS)
       sscanf(param_value, "%d", &x)] *)
Definition psm_get_int (name : string) : M (option Z) :=
  r <- call_s (PsmGet name) ;;
  ret (if fst r =? CCSP_SUCCESS then sscanf_d (snd r) else None).

Definition DmlGetTotalNoOfGroups : M (option Z) := psm_get_int "dmsb.wanmanager.group.Count".

Definition WanMgr_Read_GroupConf_FromPSM (g : WANMGR_IFACE_GROUP) (groupId : Z)
    : M WANMGR_IFACE_GROUP :=
  r <- call_s (PsmGet ("dmsb.wanmanager.group." +:+ dec (groupId + 1) +:+ ".policy")) ;;
  g <- (if (fst r =? CCSP_SUCCESS) && (snd r ≠? EmptyString)
        then ret (g <| g_Policy := DML_WAN_POLICY_of (default 0 (sscanf_d (snd r))) |>)
        else ret g) ;;
  call_s (PsmGet ("dmsb.wanmanager.group." +:+ dec (groupId + 1)
                  +:+ ".PersistSelectedInterface")) ;;
  ret g.

Definition group_default (g : WANMGR_IFACE_GROUP) (i : Z) : WANMGR_IFACE_GROUP :=
  g <| g_groupIdx := i |> <| g_ThreadId := 0 |>
    <| g_State := STATE_GROUP_STOPPED |>
    <| g_InterfaceAvailable := 0 |> <| g_SelectedInterface := 0 |>
    <| g_SelectionTimeOut := 0 |> <| g_ActivationCount := 0 |>
    <| g_ConfigChanged := false |> <| g_PersistSelectedIface := false |>
    <| g_ResetSelectedInterface := false |> <| g_InitialScanComplete := false |>
    <| g_Policy := AUTOWAN_MODE |>.

(** An early return leaves the mutex locked. *)
Definition WanMgr_Group_Configure : M ANSC_STATUS :=
  pthread_mutex_lock ;;
  n <- DmlGetTotalNoOfGroups ;;
  (match n with
   | Some n => set_db (fun d => d <| w_ulTotalNumbWanIfaceGroup := u32 n |>)
   | None => ret tt
   end) ;;
  total <- get_db w_ulTotalNumbWanIfaceGroup ;;
  ok <- AnscAllocateMemory "WANMGR_IFACE_GROUP" ;;
  if negb ok then
    set_db (fun d => d <| w_Group := [] |>) ;; ret ANSC_STATUS_FAILURE
  else
    set_db (fun d => d <| w_Group := replicate (Z.to_nat total) fresh_group |>) ;;
    for_each (range total) (fun i =>
      g <- get_group (Z.to_nat i) ;;
      g <- WanMgr_Read_GroupConf_FromPSM (group_default g i) i ;;
      upd_group (Z.to_nat i) (fun _ => g)) ;;
    WanMgrDml_GetIfaceData_release ;;
    ret ANSC_STATUS_SUCCESS.

Definition get_Remote_Virtual_Interface_FromPSM (instancenum virtInsNum : Z)
    (v : DML_VIRTUAL_IFACE) : M DML_VIRTUAL_IFACE :=
  n <- psm_get_int ("dmsb.wanmanager.if." +:+ dec instancenum +:+ ".VirtualInterface."
                    +:+ dec (virtInsNum + 1) +:+ ".IP.ConnectivityCheckType") ;;
  ret (match n with
       | Some n => v <| v_IP; ip_ConnectivityCheckType := CONNECTIVITY_CHECK_TYPE_of n |>
       | None => v
       end).

Definition WanMgr_Remote_IfaceData_Update (i : iface_ptr) : M unit :=
  remotePriority <- get_db w_remotePriority ;;
  upd_iface i (fun I => I
    <| if_Name := REMOTE_INTERFACE_NAME |>
    <| if_DisplayName := "REMOTE" |>
    <| if_Selection; sel_Enable := true |>
    <| if_Selection; sel_Priority := remotePriority |>
    <| if_IfaceType := REMOTE_IFACE |>
    <| if_Selection; sel_Group := REMOTE_INTERFACE_GROUP |>) ;;
  I <- get_iface i ;;
  with_group tt (u32 (sel_Group (if_Selection I) - 1)) (fun g =>
    upd_group g (fun G => G <| g_InterfaceAvailable :=
      u32 (Z.lor (g_InterfaceAvailable G) (Z.shiftl 1 (if_uiIfaceIdx I))) |>) ;;
    G <- get_group g ;;
    when (g_State G ≠? STATE_GROUP_DEACTIVATED)
      (upd_group g (fun G => G <| g_ConfigChanged := true |>))) ;;
  set_db (fun d => d <| w_remotePriority := s32 (remotePriority + 1) |>).

(** The second component is what is written to [*iface_index].  The full
    table and the failed allocation return with the mutex locked. *)
Definition WanMgr_Remote_IfaceData_configure (remoteCPEMac : string)
    : M (ANSC_STATUS * option Z) :=
  pthread_mutex_lock ;;
  total <- get_db w_ulTotalNumbWanInterfaces ;;
  if total <? MAX_WAN_INTERFACE_ENTRY then
    let i := Z.to_nat total in
    upd_iface i (fun I => WanMgr_IfaceData_Init I total) ;;
    I <- get_iface i ;;
    failed <- for_break (range (if_NoOfVirtIfs I)) (fun k =>
      ok <- AnscAllocateMemory "DML_VIRTUAL_IFACE" ;;
      if negb ok then ret (Some tt)
      else
        v <- get_Remote_Virtual_Interface_FromPSM 1 k
          ((WanMgr_VirtIface_Init fresh_vif k)
             <| v_baseIfIdx := total |>
             <| v_Enable := true |>
             <| v_IP; ip_IPv6Source := DML_WAN_IP_SOURCE_STATIC |>
             <| v_Name := REMOTE_INTERFACE_NAME |>) ;;
        upd_iface i (fun I => I <| if_VirtIfList ::= fun l =>
          snd (WanMgr_AddVirtualToList l (Some v)) |>) ;;
        ret None) ;;
    match failed with
    | Some _ => ret (ANSC_STATUS_FAILURE, None)
    | None =>
        WanMgr_Remote_IfaceData_Update i ;;
        upd_iface i (fun I => I <| if_RemoteCPEMac := remoteCPEMac |>) ;;
        set_db (fun d => d <| w_ulTotalNumbWanInterfaces := total + 1 |>) ;;
        set_db (fun d => d <| w_update := 0 |>) ;;
        WanMgrDml_GetIfaceData_release ;;
        ret (ANSC_STATUS_SUCCESS, Some total)
    end
  else ret (ANSC_STATUS_FAILURE, None).
End Creation.

(** [WanMgr_Data_Init]: the defaults, with the mutex created unlocked. *)
Definition WanMgr_Data_Init (d : WANMGR_DATA_ST) : WANMGR_DATA_ST :=
  let d := d <| w_Config ::= WanMgr_SetConfigData_Default |> in
  let d := WanMgr_SetIfaceCtrl_Default d in
  let d := WanMgr_SetIfaceGroup_Default d in
  d <| w_gDataMutex := 0%nat |>.
