(* ===== verification/Sysevents.v ===== *)
(** The parts of [source/WanManager/wanmgr_sysevents.c] the state machines
    call: the LED events, the IPv4 and IPv6 sysevents of an interface, and the
    router-advertisement settings of an interface. *)

From S2P Require Export Data.

(** A sysevent name with one [%s]. *)
Definition SYSEVENT_IPV4 (ifname field : string) : string := "ipv4_" +:+ ifname +:+ "_" +:+ field.

Definition WAN_LINK_DOWN_STATE : string := "rdkb_wan_link_down".
Definition WAN_LINK_UP_STATE : string := "rdkb_wan_link_up".
Definition DSL_TRAINING : string := "rdkb_dsl_training".

(** The states [wanmgr_setWanLedState] reports, with the IPv4, IPv6 and MAP-T
    bits; the other states are not reported. *)
Definition led_bits (state : eWanState_t) : option (bool * bool * bool) :=
  match state with
  | WAN_STATE_DUAL_STACK_ACTIVE => Some (true, true, false)
  | WAN_STATE_IPV6_LEASED => Some (false, true, false)
  | WAN_STATE_IPV4_LEASED => Some (true, false, false)
  | WAN_STATE_MAPT_ACTIVE => Some (false, true, true)
  | WAN_STATE_OBTAINING_IP_ADDRESSES | WAN_STATE_EXIT => Some (false, false, false)
  | _ => None
  end.

Definition up_down (b : bool) : string := if b then "up" else "down".

Section Sysevents.
Context `{Platform} `{Build} {C : Type}.
#[local] Abbreviation M := (Prelude.M (St C)).

Definition wanmgr_sysevents_setWanState (LedState : string) : M unit :=
  if sysevent_fd =? -1 then ret tt else sysevent_set "led_event" LedState.

Definition wanmgr_sysevent_hw_reconfig_reboot : M unit :=
  if sysevent_fd =? -1 then ret tt else sysevent_set "wanmanager_reboot_status" "1".

Definition wanmgr_setWanLedState (state : eWanState_t) : M unit :=
  if sysevent_fd =? -1 then ret tt
  else match led_bits state with
  | None => ret tt
  | Some (ipv4_state, ipv6_state, mapt_state) =>
      sysevent_set "rdkb_wan_status"
        ("ipv4_state:" +:+ up_down ipv4_state +:+ ",ipv6_state:" +:+ up_down ipv6_state
         +:+ ",mapt_state:" +:+ up_down mapt_state) ;;
      when (state ≟ WAN_STATE_OBTAINING_IP_ADDRESSES)
        (wanmgr_sysevents_setWanState WAN_LINK_UP_STATE)
  end.

Definition syscfg_set_string (name value : string) : M unit :=
  call_ (ExtCall "syscfg_set_commit" [name; value]).
Definition v_secure_system (cmd : string) : M unit :=
  call_ (ExtCall "v_secure_system" [cmd]).

Definition wanmgr_sysevents_ipv6Info_init : M unit :=
  sysevent_set "ipv6_domain" EmptyString ;;
  sysevent_set "ipv6_connection_state" "down" ;;
  sysevent_set "ipv6-status" "down" ;;
  syscfg_set_string "ipv6_prefix_address" EmptyString.

Definition wanmgr_sysevents_ipv4Info_set (d : ipc_dhcpv4_data_t) (wanIfName : string) : M unit :=
  sysevent_set (SYSEVENT_IPV4 wanIfName "ds_current_rate_0") (dec (i4_downstreamCurrRate d)) ;;
  sysevent_set (SYSEVENT_IPV4 wanIfName "us_current_rate_0") (dec (i4_upstreamCurrRate d)) ;;
  when (i4_isTimeOffsetAssigned d) (
    sysevent_set "ipv4-timeoffset" ("@" +:+ dec (i4_timeOffset d)) ;;
    sysevent_set "dhcpv4_time_offset" "set") ;;
  sysevent_set "ipv4_timezone" (i4_timeZone d) ;;
  sysevent_set (SYSEVENT_IPV4 (i4_dhcpcInterface d) "dhcp_server") (i4_dhcpServerId d) ;;
  sysevent_set (SYSEVENT_IPV4 (i4_dhcpcInterface d) "dhcp_state") (i4_dhcpState d) ;;
  sysevent_set (SYSEVENT_IPV4 (i4_dhcpcInterface d) "lease_time") (dec (i4_leaseTime d)).

(** Which MAC is published depends on the product. *)
Definition publish_wan_mac (ifname : string) : M unit :=
  use <- (if RDKB_GLOBAL_PRODUCT_REQ
          then with_config (get_db (fun d => cfg_UseWANMACForManagementServices (w_Config d)))
          else ret (negb XB6_CBR2_PRODUCT_REQ)) ;;
  when use (
    r <- call_s (ExtCall "WanManager_get_interface_mac" [ifname]) ;;
    when (fst r =? 0) (sysevent_set "eth_wan_mac" (snd r))).

Definition wanmgr_set_Ipv4Sysevent (d : WANMGR_IPV4_DATA) (DeviceNwMode : DEVICE_NETWORKING_MODE)
    : M unit :=
  name <- sysevent_get "current_wan_ifname" ;;
  name <- (if DeviceNwMode ≟ GATEWAY_MODE then
    when (((name ≟ EmptyString) || (name ≠? v4_ifname d)) && (v4_ifname d ≠? EmptyString))
      (sysevent_set "current_wan_ifname" (v4_ifname d)) ;;
    ret (SYSEVENT_IPV4 (v4_ifname d) "ipaddr")
  else
    when ((name ≟ EmptyString) || (name ≠? MESH_IFNAME))
      (sysevent_set "current_wan_ifname" MESH_IFNAME) ;;
    ret (SYSEVENT_IPV4 MESH_IFNAME "ipaddr")) ;;
  sysevent_set name (v4_ip d) ;;
  publish_wan_mac (v4_ifname d) ;;
  sysevent_set "ipv4_wan_ipaddr" (v4_ip d) ;;
  sysevent_set (SYSEVENT_IPV4 (v4_ifname d) "subnet") (v4_mask d) ;;
  sysevent_set "ipv4_wan_subnet" (v4_mask d) ;;
  sysevent_set (SYSEVENT_IPV4 (v4_ifname d) "gw_number") "1" ;;
  sysevent_set (SYSEVENT_IPV4 (v4_ifname d) "gw_0") (v4_gateway d) ;;
  sysevent_set "default_router" (v4_gateway d) ;;
  sysevent_set (SYSEVENT_IPV4 (v4_ifname d) "mtu") (dec (v4_mtuSize d)) ;;
  when FEATURE_RDKB_CONFIGURABLE_WAN_INTERFACE (
    sysevent_set (SYSEVENT_IPV4 (v4_ifname d) "ds_current_rate_0") (dec (v4_downstreamCurrRate d)) ;;
    sysevent_set (SYSEVENT_IPV4 (v4_ifname d) "us_current_rate_0") (dec (v4_upstreamCurrRate d)) ;;
    when (v4_isTimeOffsetAssigned d) (
      sysevent_set "ipv4-timeoffset" ("@" +:+ dec (v4_timeOffset d)) ;;
      sysevent_set "dhcpv4_time_offset" "set") ;;
    sysevent_set "ipv4_timezone" (v4_timeZone d) ;;
    sysevent_set (SYSEVENT_IPV4 (v4_ifname d) "dhcp_server") (v4_dhcpServerId d) ;;
    sysevent_set (SYSEVENT_IPV4 (v4_ifname d) "dhcp_state") (v4_dhcpState d) ;;
    sysevent_set (SYSEVENT_IPV4 (v4_ifname d) "lease_time") (dec (v4_leaseTime d))).

Definition zero_ipc_dhcpv4_data : ipc_dhcpv4_data_t :=
  let e := EmptyString in
  mk_ipc_dhcpv4_data_t e false false e e e e e false 0 e 0 0 0 e e false 0.

Definition WANMNGR_INTERFACE_DEFAULT_MTU_SIZE : Z := 1500.

Definition wanmgr_sysevents_ipv4Info_init (wanIfName : string)
    (DeviceNwMode : DEVICE_NETWORKING_MODE) : M unit :=
  sysevent_set "current_wan_ipaddr" "0.0.0.0" ;;
  sysevent_set (SYSEVENT_IPV4 wanIfName "start_time") "0" ;;
  wanmgr_sysevents_ipv4Info_set (zero_ipc_dhcpv4_data <| i4_dhcpcInterface := wanIfName |>)
    wanIfName ;;
  wanmgr_set_Ipv4Sysevent
    (zero_WANMGR_IPV4_DATA <| v4_ifname := wanIfName |> <| v4_ip := "0.0.0.0" |>
       <| v4_mask := "0.0.0.0" |> <| v4_gateway := "0.0.0.0" |>
       <| v4_dnsServer := "0.0.0.0" |> <| v4_dnsServer1 := "0.0.0.0" |>
       <| v4_mtuSize := WANMNGR_INTERFACE_DEFAULT_MTU_SIZE |>)
    DeviceNwMode.

Definition set_isDefaultGatewayAdded (b : bool) : M unit :=
  set_db (fun d => d <| w_isDefaultGatewayAdded := b |>).

Definition Force_IPv6_toggle (wanInterface : string) : M unit :=
  call_ (ExtCall "sysctl_iface_set" ["/proc/sys/net/ipv6/conf/%s/disable_ipv6"; wanInterface; "1"]) ;;
  call_ (ExtCall "sysctl_iface_set" ["/proc/sys/net/ipv6/conf/%s/disable_ipv6"; wanInterface; "0"]) ;;
  set_isDefaultGatewayAdded true.

Definition WanMgr_Configure_accept_ra (v : DML_VIRTUAL_IFACE) (EnableRa : bool) : M unit :=
  if ppp_Enable (v_PPP v) then ret tt
  else
    let conf := "sysctl -w net.ipv6.conf." +:+ v_Name v in
    v_secure_system (conf +:+ ".accept_ra=2") ;;
    v_secure_system (conf +:+ ".accept_ra_pinfo=0") ;;
    if EnableRa then
      v_secure_system (conf +:+ ".router_solicitations=3") ;;
      v_secure_system (conf +:+ ".forwarding=1") ;;
      v_secure_system (conf +:+ ".accept_ra_defrtr=1") ;;
      v_secure_system "sysctl -w net.ipv6.conf.all.forwarding=1"
    else
      v_secure_system (conf +:+ ".router_solicitations=0") ;;
      v_secure_system (conf +:+ ".accept_ra_defrtr=0").
End Sysevents.
