(* ===== verification/Controller.v ===== *)
(** What the selection policies share: the policy controller of
    [source/WanManager/wanmgr_controller.c], and the helpers they call in
    [wanmgr_wan_failover.c], [wanmgr_interface_sm.c], [wanmgr_net_utils.c],
    [wanmgr_rdkbus_apis.c] and [wanmgr_rdkbus_utils.c]. *)

From S2P Require Export Sysevents.

(** Times are their seconds; [pWanActiveIfaceData] is the index of the
    interface it points to. *)
Record WanMgr_Policy_Controller_t := mk_Policy_Controller {
  pc_WanEnable : bool;
  pc_activeInterfaceIdx : Z;
  pc_selSecondaryInterfaceIdx : Z;
  pc_pWanActiveIfaceData : option iface_ptr;
  pc_SelectionTimeOutStart : Z;
  pc_SelectionTimeOutEnd : Z;
  pc_InterfaceSelectionTimeOut : Z;
  pc_TotalIfaces : Z;
  pc_WanOperationalMode : Z;
  pc_GroupCfgChanged : bool;
  pc_GroupPersistSelectedIface : bool;
  pc_ResetSelectedInterface : bool;
  pc_AllowRemoteInterfaces : bool;
  pc_GroupIfaceList : Z;
  pc_GroupInst : Z
}.
#[export] Instance Policy_Controller_settable : Settable WanMgr_Policy_Controller_t :=
  settable! mk_Policy_Controller
  <pc_WanEnable; pc_activeInterfaceIdx; pc_selSecondaryInterfaceIdx; pc_pWanActiveIfaceData;
   pc_SelectionTimeOutStart; pc_SelectionTimeOutEnd; pc_InterfaceSelectionTimeOut;
   pc_TotalIfaces; pc_WanOperationalMode; pc_GroupCfgChanged; pc_GroupPersistSelectedIface;
   pc_ResetSelectedInterface; pc_AllowRemoteInterfaces; pc_GroupIfaceList; pc_GroupInst>.

(** The fields it does not name keep the contents of the stack. *)
Definition WanMgr_Controller_PolicyCtrlInit (c : WanMgr_Policy_Controller_t) :
    ANSC_STATUS * WanMgr_Policy_Controller_t :=
  (ANSC_STATUS_SUCCESS,
   c <| pc_WanEnable := false |>
     <| pc_activeInterfaceIdx := -1 |>
     <| pc_selSecondaryInterfaceIdx := -1 |>
     <| pc_pWanActiveIfaceData := None |>
     <| pc_SelectionTimeOutStart := 0 |>
     <| pc_SelectionTimeOutEnd := 0 |>
     <| pc_InterfaceSelectionTimeOut := 0 |>
     <| pc_TotalIfaces := 0 |>
     <| pc_WanOperationalMode := -1 |>
     <| pc_GroupIfaceList := 0 |>
     <| pc_GroupInst := 0 |>
     <| pc_GroupCfgChanged := false |>
     <| pc_ResetSelectedInterface := false |>).

Definition ETH_COMPONENT_NAME : string := "eRT.com.cisco.spvtg.ccsp.ethagent".
Definition ETH_COMPONENT_PATH : string := "/com/cisco/spvtg/ccsp/ethagent".
Definition PAM_COMPONENT_NAME : string := "eRT.com.cisco.spvtg.ccsp.pam".
Definition PAM_DBUS_PATH : string := "/com/cisco/spvtg/ccsp/pam".
Definition SET_MAX_RETRY_COUNT : Z := 10.

Definition bool_text (b : bool) : string := if b then "true" else "false".

(** [sscanf(s, "%*[^0-9]%d", &n)]: at least one non-digit, then a number;
    [None] when [n] keeps its value. *)
Fixpoint skip_non_digits (l : list ascii) : list ascii :=
  match l with
  | [] => []
  | c :: l' => if is_digit c then l else skip_non_digits l'
  end.
Definition sscanf_skip_d (s : string) : option Z :=
  match String.list_ascii_of_string s with
  | [] => None
  | c :: l =>
      if is_digit c then None
      else match skip_non_digits l with
           | [] => None
           | d => Some (s32 (read_digits d 0))
           end
  end.

(** [strncasecmp(s, "true", 5) == 0] *)
Definition lower (c : ascii) : ascii :=
  let n := Ascii.nat_of_ascii c in
  if ((65 <=? n) && (n <=? 90))%nat then Ascii.ascii_of_nat (n + 32) else c.
Definition is_true_text (s : string) : bool :=
  (lower <$> String.list_ascii_of_string s) ≟ String.list_ascii_of_string "true".

Section Controller.
Context `{Platform} `{Build} {C : Type}.
#[local] Abbreviation M := (Prelude.M (St C)).

(** Also sets [InitialScanComplete]. *)
Definition WanMgr_SetGroupSelectedIface (GroupInst IfaceInst : Z) : M ANSC_STATUS :=
  with_group tt (u32 (GroupInst - 1)) (fun g =>
    upd_group g (fun G => G <| g_SelectedInterface := IfaceInst |>
                            <| g_InitialScanComplete := true |>)) ;;
  ret ANSC_STATUS_SUCCESS.

Definition psm_ActiveLink (uiInterfaceIdx : Z) : string :=
  "dmsb.wanmanager.if." +:+ dec (s32 (uiInterfaceIdx + 1)) +:+ ".Selection.ActiveLink".
Definition DmlSetWanActiveLinkInPSMDB (uiInterfaceIdx : Z) (storeValue : bool) : M ANSC_STATUS :=
  r <- call (PsmSet (psm_ActiveLink uiInterfaceIdx) (if storeValue then "TRUE" else "FALSE")) ;;
  ret (if r =? CCSP_SUCCESS then ANSC_STATUS_SUCCESS else ANSC_STATUS_FAILURE).

(** A set request to another component, and a get request with its value. *)
Definition WanMgr_RdkBus_SetParamValues (component path name value : string) : M ANSC_STATUS :=
  r <- call (ExtCall "CcspBaseIf_setParameterValues" [component; path; name; value]) ;;
  ret (if r =? CCSP_SUCCESS then ANSC_STATUS_SUCCESS else ANSC_STATUS_FAILURE).
Definition WanMgr_RdkBus_GetParamValues (component path name : string) : M (option string) :=
  r <- call_s (ExtCall "CcspBaseIf_getParameterValues" [component; path; name]) ;;
  ret (if fst r =? CCSP_SUCCESS then Some (snd r) else None).

Definition WanMgr_RdkBus_AddIntfToLanBridge (PhyPath : string) (AddToBridge : bool)
    : M ANSC_STATUS :=
  if negb (strstr PhyPath "Ethernet") then ret ANSC_STATUS_SUCCESS
  else
    r <- for_break (range SET_MAX_RETRY_COUNT) (fun _ =>
      r <- WanMgr_RdkBus_SetParamValues ETH_COMPONENT_NAME ETH_COMPONENT_PATH
             (PhyPath +:+ ".AddToLanBridge") (bool_text AddToBridge) ;;
      ret (if r ≟ ANSC_STATUS_SUCCESS then Some tt else None)) ;;
    ret (match r with Some _ => ANSC_STATUS_SUCCESS | None => ANSC_STATUS_FAILURE end).

(** The last reboot reason is kept; the reboot goes through the PAM component. *)
Definition Wanmgr_TriggerReboot : M unit :=
  r <- call_s (ExtCall "syscfg_get" ["X_RDKCENTRAL-COM_LastRebootReason"]) ;;
  when ((fst r =? 0) && (snd r ≠? EmptyString)) (
    syscfg_set_string "X_RDKCENTRAL-COM_LastRebootReason" (snd r) ;;
    syscfg_set_string "X_RDKCENTRAL-COM_LastRebootCounter" "1") ;;
  wanmgr_sysevent_hw_reconfig_reboot ;;
  WanMgr_RdkBus_SetParamValues PAM_COMPONENT_NAME PAM_DBUS_PATH
    "Device.X_CISCO_COM_DeviceControl.RebootDevice" "Device" ;;
  ret tt.

(** [WanMgr_IfaceSM_Init] and [WanMgr_StartInterfaceStateMachine]: a copy of
    the controller is handed to a new thread; the result is 0 when the state
    machine of virtual interface [VirIfIdx] was started. *)
Definition WanMgr_StartInterfaceStateMachine (iface_idx VirIfIdx : Z) : M Z :=
  p <- call (ExtCall "malloc" ["WanMgr_IfaceSM_Controller_t"]) ;;
  if p =? 0 then ret (-1)
  else call (PthreadCreate "WanMgr_InterfaceSMThread" [iface_idx; VirIfIdx]).

(** The pattern
    [p = WanMgr_getVirtualIface_locked(b, v); if(p != NULL) { body; ..._release(p); }] *)
Definition with_virtual {A} (none : A) (baseIfidx virtIfIdx : Z) (body : vif_ptr -> M A) : M A :=
  p <- WanMgr_getVirtualIface_locked baseIfidx virtIfIdx ;;
  match p with
  | Some v => a <- body v ;; WanMgr_VirtualIfaceData_release ;; ret a
  | None => ret none
  end.
End Controller.
