(* ===== verification/ParallelScan.v ===== *)
(** [source/WanManager/wanmgr_policy_parallel_scan_impl.c]: the selection
    policy of a group that brings up all its interfaces at once and selects the
    best one that is valid.

    One thread runs per group; [ps_start], [ps_iteration] and [ps_finish] are
    the parts of [WanMgr_ParallelScanSelectionProcess] before, inside and after
    its loop.  [pWanActiveIfaceData] is taken with the lock at the head of a
    pass and released at its end. *)

From S2P Require Export Controller.

Inductive WcPsPolicyState_t :=
| STATE_PARALLEL_SCAN_SCANNING_INTERFACE
| STATE_PARALLEL_SCAN_CHECK_RECONFIGURATION
| STATE_PARALLEL_SCAN_RECONFIGURE_PLATFORM
| STATE_PARALLEL_SCAN_REBOOT
| STATE_PARALLEL_SCAN_SELECTED_INTERFACE_UP
| STATE_PARALLEL_SCAN_SELECTED_INTERFACE_DOWN
| STATE_PARALLEL_SCAN_INTERFACE_TEAR_DOWN
| STATE_PARALLEL_SCAN_POLICY_EXIT
| STATE_PARALLEL_SCAN_POLICY_ERROR.
#[export] Instance WcPsPolicyState_t_eq_dec : EqDecision WcPsPolicyState_t.
Proof. solve_decision. Defined.

Definition MAX_PRIORITY_VALUE : Z := 255.

(** The [UINT] loop counter compared with the [INT] index. *)
Definition is_active (c : WanMgr_Policy_Controller_t) (uiLoopCount : Z) : bool :=
  uiLoopCount =? u32 (pc_activeInterfaceIdx c).
(** The interface belongs to the group of the policy. *)
Definition in_group (c : WanMgr_Policy_Controller_t) (I : DML_WAN_IFACE) : bool :=
  pc_GroupInst c =? sel_Group (if_Selection I).
Definition is_ethernet (I : DML_WAN_IFACE) : bool := strstr (if_BaseInterface I) "Ethernet".

Definition ETH_HW_CONFIGURATION_DM (index : Z) : string :=
  "Device.Ethernet.Interface." +:+ dec (s32 index) +:+ ".Upstream".

(** The first virtual interface is up, on standby or valid. *)
Definition link_usable (v : DML_VIRTUAL_IFACE) : bool :=
  (v_Status v ≟ WAN_IFACE_STATUS_UP) || (v_Status v ≟ WAN_IFACE_STATUS_STANDBY)
  || (v_Status v ≟ WAN_IFACE_STATUS_VALID).

(** The local variables of the selection loop. *)
Record scan_locals := mk_scan_locals {
  sc_highPriorityValidIface : Z;
  sc_highPriorityValue : Z;
  sc_highPriorityActiveValue : Z;
  sc_lastSelectedIfaceFound : bool
}.
#[export] Instance scan_locals_settable : Settable scan_locals :=
  settable! mk_scan_locals <sc_highPriorityValidIface; sc_highPriorityValue;
    sc_highPriorityActiveValue; sc_lastSelectedIfaceFound>.

Section ParallelScan.
Context `{Platform} `{Build}.
#[local] Abbreviation M := (Prelude.M (St WanMgr_Policy_Controller_t)).

Definition WanMgr_UpdateControllerData : M unit :=
  with_config (
    cfg <- get_db w_Config ;;
    set_ctl (fun c => c <| pc_WanEnable := cfg_Enable cfg |>
                        <| pc_AllowRemoteInterfaces := cfg_AllowRemoteInterfaces cfg |>)) ;;
  n <- WanMgr_IfaceData_GetTotalWanIface ;;
  set_ctl (fun c => c <| pc_TotalIfaces := n |>) ;;
  c <- get_controller ;;
  with_group tt (u32 (pc_GroupInst c - 1)) (fun g =>
    G <- get_group g ;;
    set_ctl (fun c => c <| pc_GroupCfgChanged := g_ConfigChanged G |>
                        <| pc_GroupPersistSelectedIface := g_PersistSelectedIface G |>
                        <| pc_ResetSelectedInterface := g_ResetSelectedInterface G |>)).

(** [index] is declared outside the loop and keeps its value when the name of
    the interface has no number. *)
Definition WanMgr_CheckIfPlatformReconfiguringRequired : M bool :=
  n <- get_ctl pc_TotalIfaces ;;
  r <- for_acc (range n) 0 (fun uiLoopCount index =>
    with_iface (index, None) uiLoopCount (fun p =>
      I <- get_iface p ;;
      c <- get_controller ;;
      if in_group c I && is_ethernet I then
        let index := default index (u32 <$> sscanf_skip_d (if_BaseInterface I)) in
        dmValue <- WanMgr_RdkBus_GetParamValues ETH_COMPONENT_NAME ETH_COMPONENT_PATH
                     (ETH_HW_CONFIGURATION_DM index) ;;
        match dmValue with
        | None => ret (index, Some false)
        | Some dmValue =>
            when (negb (is_active c uiLoopCount))
              (WanMgr_RdkBus_AddIntfToLanBridge (if_BaseInterface I) true ;; ret tt) ;;
            if is_active c uiLoopCount && negb (is_true_text dmValue) then ret (index, Some true)
            else if negb (is_active c uiLoopCount) && is_true_text dmValue
            then ret (index, Some true)
            else ret (index, None)
        end
      else ret (index, None))) ;;
  ret (default false (snd r)).

Definition WanMgr_CheckRescanRequired : M bool :=
  c <- get_controller ;;
  a <- deref (pc_pWanActiveIfaceData c) ;;
  A <- get_iface a ;;
  down <- (if if_BaseInterfaceStatus A ≠? WAN_IFACE_PHY_STATUS_UP then ret true
           else v <- deref (head (if_VirtIfList A)) ;; ret (v_Status v ≠? WAN_IFACE_STATUS_UP)) ;;
  if (down : bool) then ret true
  else
    higher <- for_break (range (pc_TotalIfaces c)) (fun uiLoopCount =>
      with_iface None uiLoopCount (fun p =>
        I <- get_iface p ;;
        A <- get_iface a ;;
        ret (if in_group c I && sel_Enable (if_Selection I)
                && negb (is_active c uiLoopCount)
                && (sel_Priority (if_Selection I) <? sel_Priority (if_Selection A))
             then Some tt else None))) ;;
    match higher with
    | Some _ => ret true
    | None =>
        with_group tt (u32 (pc_GroupInst c - 1)) (fun g =>
          upd_group g (fun G => G <| g_ResetSelectedInterface := false |>) ;;
          set_ctl (fun c => c <| pc_ResetSelectedInterface := false |>)) ;;
        ret false
    end.

(** ** Transitions *)

(** [if(Timeout > InterfaceSelectionTimeOut) InterfaceSelectionTimeOut = Timeout;] *)
Definition max_timeout (I : DML_WAN_IFACE) : M unit :=
  t <- get_ctl pc_InterfaceSelectionTimeOut ;;
  when (t <? sel_Timeout (if_Selection I))
    (set_ctl (fun c => c <| pc_InterfaceSelectionTimeOut := sel_Timeout (if_Selection I) |>)).

Definition start_SelectionTimer : M unit :=
  now <- clock_gettime ;; set_ctl (fun c => c <| pc_SelectionTimeOutStart := now |>).

(** [Selection.ActiveLink == FALSE;] is a comparison without effect: only PSM
    is written. *)
Definition Transition_Start : M WcPsPolicyState_t :=
  n <- get_ctl pc_TotalIfaces ;;
  for_each (range n) (fun uiLoopCount =>
    with_iface tt uiLoopCount (fun p =>
      I <- get_iface p ;;
      c <- get_controller ;;
      when (in_group c I) (
        (if sel_Enable (if_Selection I) then max_timeout I
         else when (sel_ActiveLink (if_Selection I))
           (DmlSetWanActiveLinkInPSMDB uiLoopCount false ;; ret tt)) ;;
        when (is_ethernet I)
          (WanMgr_RdkBus_AddIntfToLanBridge (if_BaseInterface I) false ;; ret tt)))) ;;
  c <- get_controller ;;
  with_group tt (u32 (pc_GroupInst c - 1)) (fun g =>
    upd_group g (fun G => G <| g_InitialScanComplete := true |>)) ;;
  start_SelectionTimer ;;
  ret STATE_PARALLEL_SCAN_SCANNING_INTERFACE.

(** The body of the loops that start the state machines of the enabled virtual
    interfaces; [Some tt] is the early return on a failure. *)
Definition start_virtual (IfaceId VirtId : Z) : M (option unit) :=
  enabled <- with_virtual true IfaceId VirtId (fun p => v <- get_vif p ;; ret (v_Enable v)) ;;
  if negb enabled then ret None
  else
    r <- WanMgr_StartInterfaceStateMachine (s32 IfaceId) VirtId ;;
    ret (if r =? 0 then None else Some tt).

(** The early return leaves the interface locked. *)
Definition Transition_NewInterfaceConnected (IfaceId : Z) : M WcPsPolicyState_t :=
  p <- WanMgr_GetIfaceData_locked IfaceId ;;
  match p with
  | None => ret STATE_PARALLEL_SCAN_SCANNING_INTERFACE
  | Some i =>
      upd_iface i (fun I => I <| if_Selection; sel_Status := WAN_IFACE_VALIDATING |>
                              <| if_VirtIfChanged := false |>) ;;
      I <- get_iface i ;;
      failed <- for_break (range (if_NoOfVirtIfs I)) (start_virtual IfaceId) ;;
      match failed with
      | Some _ => ret STATE_PARALLEL_SCAN_SCANNING_INTERFACE
      | None =>
          WanMgrDml_GetIfaceData_release ;;
          ret STATE_PARALLEL_SCAN_SCANNING_INTERFACE
      end
  end.

Definition selection_as (st : WANMGR_IFACE_SELECTION) (link : bool) (I : DML_WAN_IFACE) : DML_WAN_IFACE :=
  I <| if_Selection; sel_Status := st |> <| if_Selection; sel_ActiveLink := link |>.
Definition set_selection (i : iface_ptr) (st : WANMGR_IFACE_SELECTION) (link : bool) : M unit :=
  upd_iface i (selection_as st link).

Definition Transition_SelectingInterface : M WcPsPolicyState_t :=
  set_ctl (fun c => c <| pc_SelectionTimeOutStart := 0 |>) ;;
  c <- get_controller ;;
  for_each (range (pc_TotalIfaces c)) (fun uiLoopCount =>
    with_iface tt uiLoopCount (fun p =>
      I <- get_iface p ;;
      when (in_group c I && sel_Enable (if_Selection I)) (
        (if is_active c uiLoopCount
         then set_selection p WAN_IFACE_SELECTED true
         else set_selection p WAN_IFACE_NOT_SELECTED false) ;;
        DmlSetWanActiveLinkInPSMDB uiLoopCount (is_active c uiLoopCount) ;; ret tt))) ;;
  WanMgr_SetGroupSelectedIface (pc_GroupInst c) (u32 (pc_activeInterfaceIdx c + 1)) ;;
  ret STATE_PARALLEL_SCAN_CHECK_RECONFIGURATION.

(** [ethWanPort] is uninitialised before the loop. *)
Definition Transition_ReconfiguringPlatfrom : M WcPsPolicyState_t :=
  ethWanPort <- call (ExtCall "uninitialised" ["ethWanPort"]) ;;
  c <- get_controller ;;
  r <- for_acc (R := unit) (range (pc_TotalIfaces c)) (u32 ethWanPort, EmptyString)
    (fun uiLoopCount acc =>
      with_iface (acc, None) uiLoopCount (fun p =>
        I <- get_iface p ;;
        ret (if in_group c I && is_ethernet I
             then (default (fst acc) (u32 <$> sscanf_skip_d (if_BaseInterface I)),
                   bool_text (is_active c uiLoopCount), None)
             else (acc, None)))) ;;
  WanMgr_RdkBus_SetParamValues ETH_COMPONENT_NAME ETH_COMPONENT_PATH
    (ETH_HW_CONFIGURATION_DM (fst (fst r))) (snd (fst r)) ;;
  ret STATE_PARALLEL_SCAN_RECONFIGURE_PLATFORM.

Definition Transition_InterfaceSelected : M WcPsPolicyState_t :=
  ret STATE_PARALLEL_SCAN_SELECTED_INTERFACE_UP.
Definition Transition_SelectedInterfaceDown : M WcPsPolicyState_t :=
  ret STATE_PARALLEL_SCAN_SELECTED_INTERFACE_DOWN.

Definition Transition_SelectedInterfaceUp : M WcPsPolicyState_t :=
  c <- get_controller ;;
  match pc_pWanActiveIfaceData c with
  | None => ret STATE_PARALLEL_SCAN_POLICY_ERROR
  | Some a =>
      A <- get_iface a ;;
      failed <- for_break (range (if_NoOfVirtIfs A)) (start_virtual (u32 (pc_activeInterfaceIdx c))) ;;
      match failed with
      | Some _ => ret STATE_PARALLEL_SCAN_SELECTED_INTERFACE_DOWN
      | None =>
          upd_iface a (fun I => I <| if_VirtIfChanged := false |>) ;;
          ret STATE_PARALLEL_SCAN_SELECTED_INTERFACE_UP
      end
  end.

Definition restart_iface (c : WanMgr_Policy_Controller_t) (uiLoopCount : Z) (p : iface_ptr) : M unit :=
  I <- get_iface p ;;
  when (in_group c I) (
    upd_iface p (fun I => I <| if_Selection; sel_ActiveLink := false |>) ;;
    DmlSetWanActiveLinkInPSMDB uiLoopCount false ;;
    when (sel_Enable (if_Selection I)) (max_timeout I) ;;
    when (is_ethernet I)
      (WanMgr_RdkBus_AddIntfToLanBridge (if_BaseInterface I) false ;; ret tt)).

Definition Transition_RestartScan : M WcPsPolicyState_t :=
  c <- get_controller ;;
  match pc_pWanActiveIfaceData c with
  | None => ret STATE_PARALLEL_SCAN_POLICY_ERROR
  | Some a =>
      upd_iface a (fun I => I <| if_Selection; sel_Status := WAN_IFACE_VALIDATING |>) ;;
      WanMgr_SetGroupSelectedIface (pc_GroupInst c) 0 ;;
      set_ctl (fun c => c <| pc_InterfaceSelectionTimeOut := 0 |>
                          <| pc_activeInterfaceIdx := -1 |>) ;;
      for_each (range (pc_TotalIfaces c)) (fun uiLoopCount =>
        with_iface tt uiLoopCount (restart_iface c uiLoopCount)) ;;
      with_group tt (u32 (pc_GroupInst c - 1)) (fun g =>
        upd_group g (fun G => G <| g_ResetSelectedInterface := false |>) ;;
        set_ctl (fun c => c <| pc_ResetSelectedInterface := false |>)) ;;
      with_config (set_db (fun d => d <| w_Config; cfg_ResetFailOverScan := true |>)) ;;
      start_SelectionTimer ;;
      ret STATE_PARALLEL_SCAN_SCANNING_INTERFACE
  end.

(** The first virtual interface, [pWanIfaceData->VirtIfList]. *)
Definition upd_first_vif (f : DML_VIRTUAL_IFACE -> DML_VIRTUAL_IFACE) (I : DML_WAN_IFACE) :
    DML_WAN_IFACE :=
  I <| if_VirtIfList ::= alter f 0%nat |>.

Definition tear_down_iface (c : WanMgr_Policy_Controller_t) (uiLoopCount : Z) (p : iface_ptr) : M unit :=
  I <- get_iface p ;;
  when (in_group c I) (
    upd_iface p (fun I => I <| if_Selection; sel_Status := WAN_IFACE_NOT_SELECTED |>) ;;
    v <- deref (head (if_VirtIfList I)) ;;
    when (v_Status v ≟ WAN_IFACE_STATUS_INVALID)
      (upd_iface p (upd_first_vif (fun v => v <| v_Status := WAN_IFACE_STATUS_DISABLED |>))) ;;
    when (pc_GroupCfgChanged c) (
      upd_iface p (fun I => I <| if_Selection; sel_ActiveLink := false |>) ;;
      DmlSetWanActiveLinkInPSMDB uiLoopCount false ;; ret tt)).

Definition Transition_TearingDown : M WcPsPolicyState_t :=
  c <- get_controller ;;
  match pc_pWanActiveIfaceData c with
  | None => ret STATE_PARALLEL_SCAN_POLICY_ERROR
  | Some _ =>
      for_each (range (pc_TotalIfaces c)) (fun uiLoopCount =>
        with_iface tt uiLoopCount (tear_down_iface c uiLoopCount)) ;;
      WanMgr_SetGroupSelectedIface (pc_GroupInst c) 0 ;;
      ret STATE_PARALLEL_SCAN_INTERFACE_TEAR_DOWN
  end.

Definition Transition_Reboot : M WcPsPolicyState_t :=
  Wanmgr_TriggerReboot ;; ret STATE_PARALLEL_SCAN_REBOOT.

(** ** States *)

(** [WanEnable == FALSE || GroupCfgChanged == TRUE] *)
Definition tear_down_requested (c : WanMgr_Policy_Controller_t) : bool :=
  negb (pc_WanEnable c) || pc_GroupCfgChanged c.

(** One iteration of the selection loop; [Some tt] is the [break]. *)
Definition scan_iface (uiLoopCount : Z) (l : scan_locals) : M (scan_locals * option unit) :=
  with_iface (l, None) uiLoopCount (fun p =>
    I <- get_iface p ;;
    c <- get_controller ;;
    if in_group c I && sel_Enable (if_Selection I) then
      v <- deref (head (if_VirtIfList I)) ;;
      let active := sel_ActiveLink (if_Selection I) in
      let l := if active then l <| sc_lastSelectedIfaceFound := true |>
                                <| sc_highPriorityValidIface := uiLoopCount |>
                                <| sc_highPriorityValue := u32 (-1) |>
               else l in
      if active && link_usable v then
        set_ctl (fun c => c <| pc_activeInterfaceIdx := s32 uiLoopCount |>) ;;
        ret (l, Some tt)
      else
        let priority := u32 (sel_Priority (if_Selection I)) in
        let l := if priority <=? sc_highPriorityValue l
                 then l <| sc_highPriorityValidIface := uiLoopCount |>
                        <| sc_highPriorityValue := priority |>
                 else l in
        if link_usable v && (priority <=? sc_highPriorityActiveValue l) then
          set_ctl (fun c => c <| pc_activeInterfaceIdx := s32 uiLoopCount |>) ;;
          ret (l <| sc_highPriorityActiveValue := priority |>, None)
        else ret (l, None)
    else ret (l, None)).

(** A connected interface whose state machine is not running; with
    [PersistSelectedIface], only the last selected one. *)
Definition new_interface (last : bool) (uiLoopCount : Z) : M (option Z) :=
  with_iface None uiLoopCount (fun p =>
    I <- get_iface p ;;
    c <- get_controller ;;
    if in_group c I && sel_Enable (if_Selection I)
       && (if_BaseInterfaceStatus I ≟ WAN_IFACE_PHY_STATUS_UP) then
      v <- deref (head (if_VirtIfList I)) ;;
      ret (if (v_Status v ≟ WAN_IFACE_STATUS_DISABLED)
              && negb (pc_GroupPersistSelectedIface c && last
                       && negb (sel_ActiveLink (if_Selection I)))
           then Some uiLoopCount else None)
    else ret None).

Definition State_ScanningInterface : M WcPsPolicyState_t :=
  c <- get_controller ;;
  if tear_down_requested c then Transition_TearingDown
  else
    r <- for_acc (range (pc_TotalIfaces c))
           (mk_scan_locals (u32 (-1)) MAX_PRIORITY_VALUE MAX_PRIORITY_VALUE false) scan_iface ;;
    now <- clock_gettime ;;
    c <- get_controller ;;
    let l := fst r in
    if negb (sc_highPriorityValidIface l =? u32 (-1)) && negb (pc_activeInterfaceIdx c =? -1)
       && ((sc_highPriorityValidIface l =? u32 (pc_activeInterfaceIdx c))
           || (pc_InterfaceSelectionTimeOut c <? now - pc_SelectionTimeOutStart c))
    then Transition_SelectingInterface
    else
      when (negb (sc_highPriorityValidIface l =? u32 (-1)) && negb (pc_activeInterfaceIdx c =? -1))
        (set_ctl (fun c => c <| pc_activeInterfaceIdx := -1 |>)) ;;
      new <- for_break (range (pc_TotalIfaces c)) (new_interface (sc_lastSelectedIfaceFound l)) ;;
      match new with
      | Some uiLoopCount => Transition_NewInterfaceConnected uiLoopCount
      | None => ret STATE_PARALLEL_SCAN_SCANNING_INTERFACE
      end.

Definition State_CheckReconfiguration : M WcPsPolicyState_t :=
  c <- get_controller ;;
  if tear_down_requested c then Transition_TearingDown
  else
    required <- WanMgr_CheckIfPlatformReconfiguringRequired ;;
    if required then Transition_ReconfiguringPlatfrom else Transition_InterfaceSelected.

Definition State_ReconfigurePaltform : M WcPsPolicyState_t :=
  c <- get_controller ;;
  match pc_pWanActiveIfaceData c with
  | None => ret STATE_PARALLEL_SCAN_POLICY_ERROR
  | Some a =>
      A <- get_iface a ;;
      if sel_RequiresReboot (if_Selection A) then Transition_Reboot else Transition_InterfaceSelected
  end.

(** The state machines of the virtual interfaces enabled since. *)
Definition start_changed_virtual (VirtId : Z) : M unit :=
  c <- get_controller ;;
  with_virtual tt (u32 (pc_activeInterfaceIdx c)) VirtId (fun p =>
    v <- get_vif p ;;
    when (v_Enable v && negb (v_Interface_SM_Running v))
      (WanMgr_StartInterfaceStateMachine (pc_activeInterfaceIdx c) VirtId ;; ret tt)).

Definition start_changed (a : iface_ptr) (A : DML_WAN_IFACE) : M unit :=
  when (if_VirtIfChanged A) (
    for_each (range (if_NoOfVirtIfs A)) start_changed_virtual ;;
    upd_iface a (fun I => I <| if_VirtIfChanged := false |>)).

Definition State_SelectedInterfaceUp : M WcPsPolicyState_t :=
  c <- get_controller ;;
  match pc_pWanActiveIfaceData c with
  | None => ret STATE_PARALLEL_SCAN_POLICY_ERROR
  | Some a =>
      if tear_down_requested c then Transition_TearingDown
      else
        rescan <- (if pc_ResetSelectedInterface c then WanMgr_CheckRescanRequired else ret false) ;;
        if (rescan : bool) then Transition_RestartScan
        else
          A <- get_iface a ;;
          if (if_BaseInterfaceStatus A ≠? WAN_IFACE_PHY_STATUS_UP)
             || negb (sel_Enable (if_Selection A))
          then Transition_SelectedInterfaceDown
          else
            start_changed a A ;;
            ret STATE_PARALLEL_SCAN_SELECTED_INTERFACE_UP
  end.

Definition State_SelectedInterfaceDown : M WcPsPolicyState_t :=
  c <- get_controller ;;
  match pc_pWanActiveIfaceData c with
  | None => ret STATE_PARALLEL_SCAN_POLICY_ERROR
  | Some a =>
      if tear_down_requested c then Transition_TearingDown
      else if pc_ResetSelectedInterface c then Transition_RestartScan
      else
        A <- get_iface a ;;
        v <- deref (head (if_VirtIfList A)) ;;
        if v_Status v ≠? WAN_IFACE_STATUS_DISABLED
        then ret STATE_PARALLEL_SCAN_SELECTED_INTERFACE_DOWN
        else if (if_BaseInterfaceStatus A ≟ WAN_IFACE_PHY_STATUS_UP)
                && sel_Enable (if_Selection A)
        then Transition_SelectedInterfaceUp
        else ret STATE_PARALLEL_SCAN_SELECTED_INTERFACE_DOWN
  end.

Definition State_Reboot : M WcPsPolicyState_t := ret STATE_PARALLEL_SCAN_REBOOT.

Definition State_InterfaceTearDown : M WcPsPolicyState_t :=
  c <- get_controller ;;
  match pc_pWanActiveIfaceData c with
  | None => ret STATE_PARALLEL_SCAN_POLICY_ERROR
  | Some _ =>
      r <- for_acc (R := unit) (range (pc_TotalIfaces c)) false (fun uiLoopCount running =>
        with_iface (running, None) uiLoopCount (fun p =>
          I <- get_iface p ;;
          if in_group c I then
            v <- deref (head (if_VirtIfList I)) ;;
            ret (running || (v_Status v ≠? WAN_IFACE_STATUS_DISABLED), None)
          else ret (running, None))) ;;
      ret (if fst r then STATE_PARALLEL_SCAN_INTERFACE_TEAR_DOWN
           else STATE_PARALLEL_SCAN_POLICY_EXIT)
  end.

(** ** The thread *)

Definition ps_dispatch (ps_sm_state : WcPsPolicyState_t) : M (option WcPsPolicyState_t) :=
  match ps_sm_state with
  | STATE_PARALLEL_SCAN_SCANNING_INTERFACE => s <- State_ScanningInterface ;; ret (Some s)
  | STATE_PARALLEL_SCAN_CHECK_RECONFIGURATION => s <- State_CheckReconfiguration ;; ret (Some s)
  | STATE_PARALLEL_SCAN_RECONFIGURE_PLATFORM => s <- State_ReconfigurePaltform ;; ret (Some s)
  | STATE_PARALLEL_SCAN_REBOOT => s <- State_Reboot ;; ret (Some s)
  | STATE_PARALLEL_SCAN_SELECTED_INTERFACE_UP => s <- State_SelectedInterfaceUp ;; ret (Some s)
  | STATE_PARALLEL_SCAN_SELECTED_INTERFACE_DOWN => s <- State_SelectedInterfaceDown ;; ret (Some s)
  | STATE_PARALLEL_SCAN_INTERFACE_TEAR_DOWN => s <- State_InterfaceTearDown ;; ret (Some s)
  | STATE_PARALLEL_SCAN_POLICY_EXIT | STATE_PARALLEL_SCAN_POLICY_ERROR => ret None
  end.

(** Lock the active interface, when there is one, and cache its pointer. *)
Definition ps_lock_active : M unit :=
  c <- get_controller ;;
  when (negb (pc_activeInterfaceIdx c =? -1)
        && match pc_pWanActiveIfaceData c with None => true | Some _ => false end) (
    p <- WanMgr_GetIfaceData_locked (u32 (pc_activeInterfaceIdx c)) ;;
    set_ctl (fun c => c <| pc_pWanActiveIfaceData := p |>)).
Definition ps_release_active : M unit :=
  c <- get_controller ;;
  match pc_pWanActiveIfaceData c with
  | Some _ =>
      WanMgrDml_GetIfaceData_release ;;
      set_ctl (fun c => c <| pc_pWanActiveIfaceData := None |>)
  | None => ret tt
  end.

(** One pass of the loop; [None] is [bRunning = false]. *)
Definition ps_iteration (ps_sm_state : WcPsPolicyState_t) : M (option WcPsPolicyState_t) :=
  WanMgr_UpdateControllerData ;;
  ps_lock_active ;;
  o <- ps_dispatch ps_sm_state ;;
  ps_release_active ;;
  ret o.

(** What runs before the loop; [arg] is the group of the thread. *)
Definition ps_start (arg : Z) : M (option WcPsPolicyState_t) :=
  c <- get_controller ;;
  let r := WanMgr_Controller_PolicyCtrlInit c in
  if fst r ≠? ANSC_STATUS_SUCCESS then ret None
  else
    set_ctl (fun _ => snd r) ;;
    set_ctl (fun c => c <| pc_GroupInst := u32 arg |>) ;;
    WanMgr_UpdateControllerData ;;
    c <- get_controller ;;
    when (negb (pc_activeInterfaceIdx c =? -1)) (
      p <- WanMgr_GetIfaceData_locked (u32 (pc_activeInterfaceIdx c)) ;;
      set_ctl (fun c => c <| pc_pWanActiveIfaceData := p |>)) ;;
    st <- Transition_Start ;;
    ret (Some st).

(** What runs after the loop. *)
Definition ps_finish : M unit :=
  c <- get_controller ;;
  when (pc_GroupCfgChanged c)
    (with_config (set_db (fun d => d <| w_Config; cfg_ResetFailOverScan := true |>))) ;;
  with_group tt (u32 (pc_GroupInst c - 1)) (fun g =>
    upd_group g (fun G => G <| g_ThreadId := 0 |> <| g_SelectedInterface := 0 |>
                            <| g_ConfigChanged := false |>) ;;
    G <- get_group g ;;
    when (g_State G ≠? STATE_GROUP_DEACTIVATED)
      (upd_group g (fun G => G <| g_State := STATE_GROUP_STOPPED |>))).
End ParallelScan.
