(* ===== verification/DataFacts.v ===== *)
(** Facts on the data base: the lists, the searches, the lock discipline, and
    the rules by which the [..._locked]/[..._release] sections are run. *)

From S2P Require Export Controller.

(** * Lists *)

Lemma append_last_app {A} (l : list A) x : append_last l x = l ++ [x].
Proof. induction l as [|y l IH]; simpl; [done | by rewrite IH]. Qed.

Lemma list_alter_at {A} (f : A -> A) (l : list A) k x : l !! k = Some x -> alter f k l = <[k := f x]> l.
Proof.
  revert k. induction l as [|y l IH]; intros [|k] Hx; simpl in *; [done..| |].
  - by injection Hx as ->.
  - unfold alter, insert in IH. simpl in IH. f_equal. by apply IH.
Qed.

(** [list_search] finds the first element that passes the test. *)
Lemma list_search_Some {A} (test : A -> bool) l k :
  list_search test l = Some k <->
  (exists x, l !! k = Some x /\ test x = true) /\
  (forall j x, (j < k)%nat -> l !! j = Some x -> test x = false).
Proof.
  revert k. induction l as [|y l IH]; intros k; simpl.
  - split; [done | intros [(x & Hx & _) _]; by rewrite lookup_nil in Hx].
  - destruct (test y) eqn:Ey.
    + split.
      * intros [= <-]. split; [by exists y | lia].
      * intros [_ Hmin]. destruct k as [|k]; [done|].
        specialize (Hmin 0%nat y ltac:(lia) eq_refl). congruence.
    + rewrite fmap_Some. split.
      * intros (j & Hj & ->). apply IH in Hj as [Hx Hmin]. split; [done|].
        intros [|i] x Hi; simpl; [by intros [= <-] | apply Hmin; lia].
      * intros [(x & Hx & Ht) Hmin]. destruct k as [|k].
        { simpl in Hx. congruence. }
        exists k. split; [|done]. apply IH. split; [by exists x|].
        intros i z Hi Hz. apply (Hmin (S i) z); [lia | done].
Qed.

Lemma list_search_None {A} (test : A -> bool) l :
  list_search test l = None <-> forall x, x ∈ l -> test x = false.
Proof.
  induction l as [|y l IH]; simpl.
  - split; [set_solver | done].
  - destruct (test y) eqn:Ey.
    + split; [done | intros Hn]. rewrite (Hn y) in Ey; [done | set_solver].
    + rewrite fmap_None, IH. set_solver.
Qed.

(** Searching after an insertion at the end. *)
Lemma list_search_append {A} (test : A -> bool) l x :
  list_search test (append_last l x) =
  match list_search test l with
  | Some k => Some k
  | None => if test x then Some (length l) else None
  end.
Proof.
  induction l as [|y l IH]; simpl; [done|].
  destruct (test y); [done|]. rewrite IH.
  destruct (list_search test l); [done|]. by destruct (test x).
Qed.

(** * Views of the state *)

Section Views.
Context {C : Type}.
Implicit Type s : St C.

Definition depth s : nat := w_gDataMutex (db s).
Definition ifaces s : list DML_WAN_IFACE := w_pIface (db s).
Definition groups s : list WANMGR_IFACE_GROUP := w_Group (db s).
Definition config s : DML_WANMGR_CONFIG := w_Config (db s).
Definition counts s : Z * Z := (w_ulTotalNumbWanInterfaces (db s), w_ulTotalNumbWanIfaceGroup (db s)).

Definition locked s : St C := s <| db ::= fun d => d <| w_gDataMutex := S (w_gDataMutex d) |> |>.
Definition unlocked s : St C := s <| db ::= fun d => d <| w_gDataMutex := pred (w_gDataMutex d) |> |>.

Lemma unlocked_locked s : unlocked (locked s) = s.
Proof.
  destruct s as [c d sy tr]. by destruct d.
Qed.
End Views.

(** A view that does not look at the lock. *)
Class LockFree {C B} (f : St C -> B) : Prop := {
  lock_free_locked s : f (locked s) = f s;
  lock_free_unlocked s : f (unlocked s) = f s
}.
#[export] Hint Extern 1 (LockFree _) => (constructor; reflexivity) : typeclass_instances.

(** ** The critical sections *)

Definition guarded {C A} (ok : bool) (none : A) (body : M (St C) A) : M (St C) A := fun s =>
  if ok then
    match body (locked s) with Some (a, s') => Some (a, unlocked s') | None => None end
  else Some (none, s).

Section LockFacts.
Context {C : Type}.
Implicit Type s : St C.

Definition iface_ok s (idx : Z) : bool :=
  (idx <? w_ulTotalNumbWanInterfaces (db s)) && match ifaces s with [] => false | _ => true end.
Definition group_ok s (idx : Z) : bool :=
  (idx <? w_ulTotalNumbWanIfaceGroup (db s)) && match groups s with [] => false | _ => true end.

Lemma with_iface_eq {A} none idx (body : iface_ptr -> M (St C) A) s :
  with_iface none idx body s =
  guarded (iface_ok s idx) none (body (Z.to_nat idx)) s.
Proof.
  unfold with_iface, WanMgr_GetIfaceData_locked, guarded.
  set (L := pthread_mutex_lock). unfold pIface_set, bind, get_db, gets, ret. cbn iota beta.
  change (L s) with (Some (tt, locked s)). cbn iota beta.
  change (iface_ok s idx) with
    ((idx <? w_ulTotalNumbWanInterfaces (db (locked s))) &&
     match w_pIface (db (locked s)) with [] => false | _ => true end).
  destruct (_ && _).
  - destruct (body (Z.to_nat idx) (locked s)) as [[a s1]|]; reflexivity.
  - change (Some (none, unlocked (locked s)) = Some (none, s)). by rewrite unlocked_locked.
Qed.

Lemma with_group_eq {A} none idx (body : nat -> M (St C) A) s :
  with_group none idx body s =
  guarded (group_ok s idx) none (body (Z.to_nat idx)) s.
Proof.
  unfold with_group, WanMgr_GetIfaceGroup_locked, guarded.
  set (L := pthread_mutex_lock). unfold bind, get_db, gets, ret. cbn iota beta.
  change (L s) with (Some (tt, locked s)). cbn iota beta.
  change (group_ok s idx) with
    ((idx <? w_ulTotalNumbWanIfaceGroup (db (locked s))) &&
     match w_Group (db (locked s)) with [] => false | _ => true end).
  destruct (_ && _).
  - destruct (body (Z.to_nat idx) (locked s)) as [[a s1]|]; reflexivity.
  - change (Some (none, unlocked (locked s)) = Some (none, s)). by rewrite unlocked_locked.
Qed.

Lemma with_config_eq {A} (none : A) (body : M (St C) A) s :
  with_config body s = guarded true none body s.
Proof.
  unfold with_config, guarded, bind, ret.
  change (WanMgr_GetConfigData_locked s) with (Some (tt, locked s)). simpl.
  by destruct (body (locked s)) as [[a s']|].
Qed.

Lemma with_virtual_eq {A} none idx k (body : vif_ptr -> M (St C) A) s :
  with_virtual none idx k body s =
  (if iface_ok s idx then
     match (I <- get_iface (Z.to_nat idx) ;;
            match WanMgr_getVirtualIfaceById (if_VirtIfList I) k with
            | Some j => a <- body (Z.to_nat idx, j) ;; ret (Some a)
            | None => ret None
            end) (locked s) with
     | Some (Some a, s') => Some (a, unlocked s')
     | Some (None, s') => Some (none, s')
     | None => None
     end
   else Some (none, s)).
Proof.
  unfold with_virtual, WanMgr_getVirtualIface_locked, WanMgr_GetIfaceData_locked.
  set (L := pthread_mutex_lock). unfold pIface_set, bind, get_db, gets, ret. cbn iota beta.
  change (L s) with (Some (tt, locked s)). cbn iota beta.
  change (iface_ok s idx) with
    ((idx <? w_ulTotalNumbWanInterfaces (db (locked s))) &&
     match w_pIface (db (locked s)) with [] => false | _ => true end).
  destruct (_ && _).
  - destruct (get_iface _ _) as [[I s1]|]; [|done].
    destruct (WanMgr_getVirtualIfaceById _ _) as [j|]; simpl; [|done].
    destruct (body _ s1) as [[a s2]|]; reflexivity.
  - change (Some (none, unlocked (locked s)) = Some (none, s)). by rewrite unlocked_locked.
Qed.

Lemma iface_ok_lt s idx : iface_ok s idx = true -> idx < w_ulTotalNumbWanInterfaces (db s).
Proof. intros [Hi _]%andb_prop. lia. Qed.
Lemma wp_with_virtual {A} none idx k (body : vif_ptr -> M (St C) A) Q s :
  (iface_ok s idx = true -> exists I j, ifaces s !! Z.to_nat idx = Some I
    /\ WanMgr_getVirtualIfaceById (if_VirtIfList I) k = Some j
    /\ wp (body (Z.to_nat idx, j)) (fun a s' => Q a (unlocked s')) (locked s)) ->
  (iface_ok s idx = false -> Q none s) ->
  wp (with_virtual none idx k body) Q s.
Proof.
  intros H1 H2. unfold wp. rewrite with_virtual_eq. destruct (iface_ok s idx); [|by apply H2].
  destruct (H1 eq_refl) as (I & j & HI & Hj & HW).
  unfold bind at 1, get_iface at 1, get_db, bind at 1, gets.
  change (w_pIface (db (locked s)) !! Z.to_nat idx) with (ifaces s !! Z.to_nat idx).
  rewrite HI. simpl. rewrite Hj. unfold wp in HW. unfold bind.
  by destruct (body _ (locked s)) as [[a s1]|].
Qed.

Lemma get_total_eq s :
  WanMgr_IfaceData_GetTotalWanIface s = Some (w_ulTotalNumbWanInterfaces (db s), s).
Proof. change (Some (w_ulTotalNumbWanInterfaces (db s), unlocked (locked s)) =
  Some (w_ulTotalNumbWanInterfaces (db s), s)). by rewrite unlocked_locked. Qed.
Lemma get_groups_eq s :
  WanMgr_GetTotalNoOfGroups s = Some (w_ulTotalNumbWanIfaceGroup (db s), s).
Proof. change (Some (w_ulTotalNumbWanIfaceGroup (db s), unlocked (locked s)) =
  Some (w_ulTotalNumbWanIfaceGroup (db s), s)). by rewrite unlocked_locked. Qed.

(** *** What a critical section keeps *)

Lemma keeps_guarded {A B} (f : St C -> B) (ok : St C -> bool) (none : A) (body : M (St C) A) :
  LockFree f -> Keeps f body -> Keeps f (fun s => guarded (ok s) none body s).
Proof.
  intros HL Hb s a s'. unfold guarded. destruct (ok s); [|by intros [= _ <-]].
  destruct (body (locked s)) as [[b s1]|] eqn:E; [|done]. intros [= <- <-].
  rewrite lock_free_unlocked, (Hb _ _ _ E). apply lock_free_locked.
Qed.
Lemma depth_guarded {A} (ok : St C -> bool) (none : A) (body : M (St C) A) :
  Keeps depth body -> Keeps depth (fun s => guarded (ok s) none body s).
Proof.
  intros Hb s a s'. unfold guarded. destruct (ok s); [|by intros [= _ <-]].
  destruct (body (locked s)) as [[b s1]|] eqn:E; [|done]. intros [= <- <-].
  specialize (Hb _ _ _ E). unfold depth, locked, unlocked in *. revert Hb. rsimpl. lia.
Qed.

Lemma keeps_ext {A B} (f : St C -> B) (m1 m2 : M (St C) A) :
  (forall s, m1 s = m2 s) -> Keeps f m2 -> Keeps f m1.
Proof. intros He Hk s a s'. rewrite He. apply Hk. Qed.

Lemma keeps_with_iface {A B} (f : St C -> B) none idx (body : iface_ptr -> M (St C) A) :
  LockFree f -> (forall i, Keeps f (body i)) -> Keeps f (with_iface none idx body).
Proof. intros. eapply keeps_ext; [apply with_iface_eq|]. by apply keeps_guarded. Qed.
Lemma keeps_with_group {A B} (f : St C -> B) none idx (body : nat -> M (St C) A) :
  LockFree f -> (forall i, Keeps f (body i)) -> Keeps f (with_group none idx body).
Proof. intros. eapply keeps_ext; [apply with_group_eq|]. by apply keeps_guarded. Qed.
Lemma keeps_with_config {A B} (f : St C -> B) (body : M (St C) A) :
  LockFree f -> Keeps f body -> Keeps f (with_config body).
Proof.
  intros HL Hb s a s' E. rewrite (with_config_eq a) in E.
  exact (keeps_guarded f (fun _ => true) a body HL Hb s a s' E).
Qed.
Lemma depth_with_iface {A} none idx (body : iface_ptr -> M (St C) A) :
  (forall i, Keeps depth (body i)) -> Keeps depth (with_iface none idx body).
Proof. intros. eapply keeps_ext; [apply with_iface_eq|]. by apply depth_guarded. Qed.
Lemma depth_with_group {A} none idx (body : nat -> M (St C) A) :
  (forall i, Keeps depth (body i)) -> Keeps depth (with_group none idx body).
Proof. intros. eapply keeps_ext; [apply with_group_eq|]. by apply depth_guarded. Qed.
Lemma depth_with_config {A} (body : M (St C) A) :
  Keeps depth body -> Keeps depth (with_config body).
Proof.
  intros Hb s a s' E. rewrite (with_config_eq a) in E.
  exact (depth_guarded (fun _ => true) a body Hb s a s' E).
Qed.
Lemma keeps_get_total {B} (f : St C -> B) : Keeps f WanMgr_IfaceData_GetTotalWanIface.
Proof. intros s a s'. rewrite get_total_eq. by intros [= _ <-]. Qed.
Lemma keeps_get_groups {B} (f : St C -> B) : Keeps f WanMgr_GetTotalNoOfGroups.
Proof. intros s a s'. rewrite get_groups_eq. by intros [= _ <-]. Qed.

Lemma keeps_lock {B} (f : St C -> B) : LockFree f -> Keeps f pthread_mutex_lock.
Proof. intros HL s a s' [= _ <-]. apply (lock_free_locked (f := f)). Qed.
Lemma keeps_unlock {B} (f : St C -> B) : LockFree f -> Keeps f pthread_mutex_unlock.
Proof. intros HL s a s' [= _ <-]. apply (lock_free_unlocked (f := f)). Qed.
Lemma keeps_get_locked {B} (f : St C -> B) i : LockFree f -> Keeps f (WanMgr_GetIfaceData_locked i).
Proof.
  intros HL. unfold WanMgr_GetIfaceData_locked, pIface_set.
  apply keeps_bind; [by apply keeps_lock | intros _].
  do 2 (apply keeps_bind; [apply keeps_gets | intros ?]).
  destruct (_ && _); [apply keeps_ret|].
  apply keeps_bind; [by apply keeps_unlock | intros _; apply keeps_ret].
Qed.
Lemma keeps_get_iface {B} (f : St C -> B) i : Keeps f (get_iface i).
Proof. apply keeps_bind; [apply keeps_gets | intros; apply keeps_deref]. Qed.
Lemma keeps_get_group {B} (f : St C -> B) i : Keeps f (get_group i).
Proof. apply keeps_bind; [apply keeps_gets | intros; apply keeps_deref]. Qed.
Lemma keeps_get_vif {B} (f : St C -> B) p : Keeps f (get_vif p).
Proof. apply keeps_bind; [apply keeps_get_iface | intros; apply keeps_deref]. Qed.
Lemma keeps_with_virtual {A B} (f : St C -> B) none i k (body : vif_ptr -> M (St C) A) :
  LockFree f -> (forall p, Keeps f (body p)) -> Keeps f (with_virtual none i k body).
Proof.
  intros HL Hb. unfold with_virtual, WanMgr_getVirtualIface_locked.
  apply keeps_bind; [apply keeps_bind; [by apply keeps_get_locked|] |].
  - intros [p|]; [|apply keeps_ret].
    apply keeps_bind; [apply keeps_get_iface | intros; apply keeps_ret].
  - intros [p|]; [|apply keeps_ret]. apply keeps_bind; [done | intros a].
    apply keeps_bind; [by apply keeps_unlock | intros; apply keeps_ret].
Qed.
Lemma keeps_upd_iface {B} (f : St C -> B) i g :
  (forall s l, f (s <| db ::= fun d => d <| w_pIface := l |> |>) = f s) -> Keeps f (upd_iface i g).
Proof.
  intros Hf. apply keeps_bind; [apply keeps_get_iface | intros _].
  apply keeps_modify. intros s. apply (Hf s (alter g i (ifaces s))).
Qed.
Lemma keeps_upd_group {B} (f : St C -> B) i g :
  (forall s l, f (s <| db ::= fun d => d <| w_Group := l |> |>) = f s) -> Keeps f (upd_group i g).
Proof.
  intros Hf. apply keeps_bind; [apply keeps_get_group | intros _].
  apply keeps_modify. intros s. apply (Hf s (alter g i (groups s))).
Qed.
End LockFacts.

#[export] Hint Extern 2 (Keeps _ (WanMgr_GetIfaceData_locked _)) =>
  (apply keeps_get_locked; typeclasses eauto) : keeps.
#[export] Hint Extern 2 (Keeps _ WanMgrDml_GetIfaceData_release) =>
  (apply keeps_unlock; typeclasses eauto) : keeps.
#[export] Hint Resolve keeps_get_total keeps_get_groups keeps_get_iface keeps_get_group
  keeps_get_vif : keeps.
#[export] Hint Extern 2 (Keeps _ (upd_iface _ _)) =>
  (apply keeps_upd_iface; reflexivity) : keeps.
#[export] Hint Extern 2 (Keeps _ (upd_group _ _)) =>
  (apply keeps_upd_group; reflexivity) : keeps.

Ltac keeps_step ::=
  first
  [ solve [auto 3 with keeps nocore]
  | lazymatch goal with
    | |- Keeps _ (bind _ _) => apply keeps_bind; [| intros ?]
    | |- Keeps _ (for_each _ _) => apply keeps_for_each; intros ?
    | |- Keeps _ (for_break _ _) => apply keeps_for_break; intros ?
    | |- Keeps _ (for_acc _ _ _) => apply keeps_for_acc; intros ? ?
    | |- Keeps _ (modify _) => apply keeps_modify; intros ?; reflexivity
    | |- Keeps _ (when _ _) => apply keeps_when
    | |- Keeps depth (with_iface _ _ _) => apply depth_with_iface; intros ?
    | |- Keeps depth (with_group _ _ _) => apply depth_with_group; intros ?
    | |- Keeps depth (with_config _) => apply depth_with_config
    | |- Keeps _ (with_iface _ _ _) => apply keeps_with_iface; [typeclasses eauto | intros ?]
    | |- Keeps _ (with_group _ _ _) => apply keeps_with_group; [typeclasses eauto | intros ?]
    | |- Keeps _ (with_config _) => apply keeps_with_config; [typeclasses eauto |]
    | |- Keeps _ (with_virtual _ _ _ _) => apply keeps_with_virtual; [typeclasses eauto | intros ?]
    end
  | split_test
  | progress cbv beta zeta
  | progress autounfold with monad ].

(** * Well-formed data bases and crash freedom

    What the handlers rely on: the counters stay within the allocated tables,
    every configured interface has a first virtual interface, and its virtual
    interfaces are numbered from 0 to [NoOfVirtIfs - 1]. *)

(** Of an interface: [NoOfVirtIfs] and the numbers in [VirtIfList]. *)
Definition vifs_of (I : DML_WAN_IFACE) : Z * list Z := (if_NoOfVirtIfs I, v_VirIfIdx <$> if_VirtIfList I).

Definition Shape : Type := Z * Z * list (Z * list Z) * nat.
Definition shape_of (d : WANMGR_DATA_ST) : Shape :=
  (w_ulTotalNumbWanInterfaces d, w_ulTotalNumbWanIfaceGroup d,
   vifs_of <$> w_pIface d, length (w_Group d)).

Definition wf_vifs (n : Z * list Z) : Prop :=
  n.2 <> [] /\ forall k, 0 <= k < n.1 -> k ∈ n.2.
Definition wf_shape (sh : Shape) : Prop :=
  let '(total, ngroups, vifs, gs) := sh in
  0 <= total <= Z.of_nat (length vifs)
  /\ (forall i n, Z.of_nat i < total -> vifs !! i = Some n -> wf_vifs n)
  /\ 0 <= ngroups <= Z.of_nat gs.

Definition db_wf (d : WANMGR_DATA_ST) : Prop := wf_shape (shape_of d).

(** The same as a test, for concrete data bases. *)
Definition wf_vifsb (n : Z * list Z) : bool :=
  match n.2 with [] => false | _ => true end
  && forallb (fun k => bool_decide (k ∈ n.2)) (range n.1).
Definition db_wfb (d : WANMGR_DATA_ST) : bool :=
  let total := w_ulTotalNumbWanInterfaces d in
  (0 <=? total) && (total <=? Z.of_nat (length (w_pIface d)))
  && forallb (fun I => wf_vifsb (vifs_of I)) (take (Z.to_nat total) (w_pIface d))
  && (0 <=? w_ulTotalNumbWanIfaceGroup d)
  && (w_ulTotalNumbWanIfaceGroup d <=? Z.of_nat (length (w_Group d))).

Lemma wf_vifsb_wf n : wf_vifsb n = true -> wf_vifs n.
Proof.
  unfold wf_vifsb, wf_vifs. intros [H1 H2]%andb_prop. split; [by destruct n.2|].
  intros k Hk. rewrite forallb_forall in H2.
  eapply bool_decide_eq_true_1, H2, list_elem_of_In, elem_of_range. lia.
Qed.
Lemma db_wfb_wf d : db_wfb d = true -> db_wf d.
Proof.
  unfold db_wfb, db_wf, wf_shape, shape_of. rewrite !andb_true_iff, length_fmap.
  intros ((((H1 & H2) & H3) & H4) & H5). split; [lia|]. split; [|lia].
  intros i n Hi Hn. rewrite list_lookup_fmap in Hn.
  destruct (w_pIface d !! i) as [J|] eqn:E; [|done]. injection Hn as <-.
  rewrite forallb_forall in H3. apply wf_vifsb_wf, (H3 J).
  apply list_elem_of_In, (list_elem_of_lookup_2 _ i).
  rewrite lookup_take_lt; [done | lia].
Qed.

Lemma counts_shape {C} (s s' : St C) : shape_of (db s') = shape_of (db s) -> counts s' = counts s.
Proof. intros Hsh. exact (f_equal (fun x => fst (fst x)) Hsh). Qed.
Lemma shape_alter_iface {C} (s : St C) i f :
  (forall I, vifs_of (f I) = vifs_of I) ->
  shape_of (db (s <| db ::= fun d => d <| w_pIface := alter f i (w_pIface d) |> |>)) = shape_of (db s).
Proof.
  intros Hf. unfold shape_of. rsimpl. do 2 f_equal.
  apply list_eq. intros j. rewrite !list_lookup_fmap, list_lookup_alter.
  destruct (decide _) as [->|]; [|done]. destruct (w_pIface (db s) !! j); simpl; [by rewrite Hf | done].
Qed.

(** A configured interface, a configured group, in a data base of that shape. *)
Definition valid_iface (sh : Shape) (i : nat) : Prop :=
  let '(total, _, vifs, _) := sh in exists n, vifs !! i = Some n /\ wf_vifs n.
Definition valid_group (sh : Shape) (g : nat) : Prop :=
  let '(_, _, _, gs) := sh in (g < gs)%nat.

Definition iface_in (sh : Shape) (i : nat) (I : DML_WAN_IFACE) : Prop :=
  sh.1.2 !! i = Some (vifs_of I) /\ wf_vifs (vifs_of I).
Definition valid_vif (sh : Shape) (p : vif_ptr) : Prop :=
  exists n, sh.1.2 !! p.1 = Some n /\ wf_vifs n /\ (p.2 < length n.2)%nat.

(** What a thread knows of its controller throughout, such as the interface
    pointer it caches. *)
Class Anchor (C : Type) := anchored : C -> Prop.

(** [m] never dereferences [NULL] on a data base of shape [sh] and leaves its
    shape, the lock depth and what is known of the controller as they were; [P]
    holds of what it returns. *)
Definition framed {C} `{Anchor C} (sh : Shape) (s : St C) : Prop :=
  shape_of (db s) = sh /\ anchored (ctl s).
Definition Safe {C A} `{Anchor C} (sh : Shape) (P : A -> Prop) (m : M (St C) A) : Prop :=
  forall s, framed sh s ->
    wp m (fun a s' => (framed sh s' /\ depth s' = depth s) /\ P a) s.

Section Safe.
Context {C : Type} `{Anchor C} (sh : Shape).
Implicit Type s : St C.

Lemma safe_wp {A} (P : A -> Prop) (m : M (St C) A) Q s :
  Safe sh P m -> framed sh s ->
  (forall a s', framed sh s' -> depth s' = depth s -> P a -> Q a s') -> wp m Q s.
Proof. intros Hm Hs HQ. eapply wp_mono; [by apply Hm|]. intros a s' [[? ?] ?]. by apply HQ. Qed.

(** A safe computation, with a view it keeps. *)
Lemma safe_keeps {A B} (P : A -> Prop) (f : St C -> B) (m : M (St C) A) Q s :
  Safe sh P m -> Keeps f m -> framed sh s ->
  (forall a s', framed sh s' -> depth s' = depth s -> f s' = f s -> P a -> Q a s') ->
  wp m Q s.
Proof.
  intros Hm Hk Hs HQ. pose proof (Hm s Hs) as HW. unfold wp in *.
  destruct (m s) as [[a s']|] eqn:E; [|done]. destruct HW as [[? ?] ?].
  apply HQ; [done.. | by apply (Hk _ _ _ E) | done].
Qed.
Lemma safe_weaken {A} (P Q : A -> Prop) (m : M (St C) A) :
  Safe sh P m -> (forall a, P a -> Q a) -> Safe sh Q m.
Proof. intros Hm HPQ s Hs. eapply wp_mono; [by apply Hm|]. intros a s' [? ?]. auto. Qed.
Lemma safe_ret {A} (P : A -> Prop) a : P a -> Safe sh P (ret (S := St C) a).
Proof. intros HP s Hs. by apply wp_ret. Qed.
Lemma safe_bind {A B} (P : A -> Prop) (Q : B -> Prop) (m : M (St C) A) k :
  Safe sh P m -> (forall a, P a -> Safe sh Q (k a)) -> Safe sh Q (bind m k).
Proof.
  intros Hm Hk s Hs. apply wp_bind. eapply safe_wp; [done..|].
  intros a s1 Hs1 Hd1 HP. eapply wp_mono; [by apply Hk|].
  intros b s2 [[Hs2 Hd2] HQ]. split; [split; [done | congruence] | done].
Qed.
(** Nothing is needed of the value. *)
Lemma safe_bind_any {A B} (Q : B -> Prop) (m : M (St C) A) k :
  Safe sh (fun _ => True) m -> (forall a, Safe sh Q (k a)) -> Safe sh Q (bind m k).
Proof. intros Hm Hk. by eapply safe_bind. Qed.
Lemma safe_gets {A} (f : St C -> A) : Safe sh (fun _ => True) (gets f).
Proof. intros s Hs. by apply wp_gets. Qed.
Lemma safe_modify (f : St C -> St C) :
  (forall s, shape_of (db (f s)) = shape_of (db s)) -> (forall s, depth (f s) = depth s) ->
  (forall s, anchored (ctl s) -> anchored (ctl (f s))) ->
  Safe sh (fun _ => True) (modify f).
Proof.
  intros H1 H2 H3 s [Hs Ha]. apply wp_modify. unfold framed. rewrite H1, H2. auto.
Qed.
Lemma safe_get_controller : Safe (C := C) sh (fun c => anchored c) get_controller.
Proof. intros s Hs. apply wp_gets. by destruct Hs. Qed.
Lemma safe_call `{Platform} e : Safe (C := C) sh (fun _ => True) (call e).
Proof. intros s Hs. by eapply wp_intro. Qed.
Lemma safe_call_s `{Platform} e : Safe (C := C) sh (fun _ => True) (call_s e).
Proof. intros s Hs. by eapply wp_intro. Qed.
Lemma safe_when (b : bool) (m : M (St C) unit) :
  (b = true -> Safe sh (fun _ => True) m) -> Safe sh (fun _ => True) (when b m).
Proof. destruct b; intros Hm; [by apply Hm | by apply safe_ret]. Qed.
Lemma safe_deref_head i I :
  iface_in sh i I -> Safe sh (fun _ => True) (deref (S := St C) (head (if_VirtIfList I))).
Proof.
  unfold iface_in, wf_vifs, vifs_of. simpl. intros [_ [Hne _]]. destruct (if_VirtIfList I); [done|].
  intros s Hs. by apply wp_ret.
Qed.
Lemma safe_for_each {A} (l : list A) (body : A -> M (St C) unit) :
  (forall x, x ∈ l -> Safe sh (fun _ => True) (body x)) ->
  Safe sh (fun _ => True) (for_each l body).
Proof.
  induction l as [|x l IH]; intros Hb; simpl; [by apply safe_ret|].
  apply safe_bind_any; [apply Hb; constructor | intros _; apply IH; intros y Hy].
  apply Hb. by constructor.
Qed.
(** What holds of the result of every round and of [None] holds of the loop's. *)
Lemma safe_for_break_post {A R} (P : option R -> Prop) (l : list A) (body : A -> M (St C) (option R)) :
  P None -> (forall x, x ∈ l -> Safe sh P (body x)) -> Safe sh P (for_break l body).
Proof.
  intros HN. induction l as [|x l IH]; intros Hb; simpl; [by apply safe_ret|].
  eapply safe_bind; [apply Hb; constructor|].
  intros [r|] HP; [by apply safe_ret | apply IH; intros y Hy]. apply Hb. by constructor.
Qed.
Lemma safe_for_break {A R} (l : list A) (body : A -> M (St C) (option R)) :
  (forall x, x ∈ l -> Safe sh (fun _ => True) (body x)) ->
  Safe sh (fun _ => True) (for_break l body).
Proof. by apply safe_for_break_post. Qed.
Lemma safe_for_break_through {A R} (l : list A) (body : A -> M (St C) (option R)) :
  (forall x, x ∈ l -> Safe sh (fun o => o = None) (body x)) ->
  Safe sh (fun o => o = None) (for_break l body).
Proof.
  induction l as [|x l IH]; intros Hb; simpl; [by apply safe_ret|].
  eapply safe_bind; [apply Hb; constructor|]. intros o ->.
  apply IH. intros y Hy. apply Hb. by constructor.
Qed.
Lemma safe_for_acc {A B R} (l : list A) (acc : B) (body : A -> B -> M (St C) (B * option R)) :
  (forall x b, x ∈ l -> Safe sh (fun _ => True) (body x b)) ->
  Safe sh (fun _ => True) (for_acc l acc body).
Proof.
  revert acc. induction l as [|x l IH]; intros acc Hb; simpl; [by apply safe_ret|].
  apply safe_bind_any; [apply Hb; constructor|].
  intros [b [r|]]; [by apply safe_ret | apply IH; intros y b' Hy]. apply Hb. by constructor.
Qed.

Lemma safe_guarded {A} (P : A -> Prop) (ok : St C -> bool) none (body : M (St C) A) :
  P none -> ((exists s, framed sh s /\ ok s = true) -> Safe sh P body) ->
  Safe sh P (fun s => guarded (ok s) none body s).
Proof.
  intros Hn Hb s Hs. unfold guarded, wp. destruct (ok s) eqn:E; [|done].
  specialize (Hb (ex_intro _ s (conj Hs E)) (locked s) Hs).
  unfold wp in Hb. destruct (body (locked s)) as [[a s']|]; [|done].
  destruct Hb as [[H1 H2] H3]. split; [split; [done|] | done].
  unfold depth, locked, unlocked in *. revert H2. rsimpl. lia.
Qed.

Lemma safe_ext {A} (P : A -> Prop) (m1 m2 : M (St C) A) :
  (forall s, m1 s = m2 s) -> Safe sh P m2 -> Safe sh P m1.
Proof. intros He Hm s Hs. unfold wp. rewrite He. by apply Hm. Qed.

Lemma iface_ok_valid s idx :
  wf_shape sh -> shape_of (db s) = sh -> 0 <= idx -> iface_ok s idx = true -> valid_iface sh (Z.to_nat idx).
Proof.
  intros Hwf Hs Hi [Hlt _]%andb_prop. revert Hwf. unfold valid_iface. rewrite <- Hs. simpl.
  intros (Ht & Hv & _). apply Z.ltb_lt in Hlt.
  destruct (lookup_lt_is_Some_2 (vifs_of <$> w_pIface (db s)) (Z.to_nat idx)) as [n Hn]; [lia|].
  exists n. split; [done|]. apply (Hv (Z.to_nat idx)); [lia | done].
Qed.
Lemma group_ok_valid s idx :
  wf_shape sh -> shape_of (db s) = sh -> 0 <= idx -> group_ok s idx = true -> valid_group sh (Z.to_nat idx).
Proof.
  intros Hwf Hs Hi [Hlt _]%andb_prop. revert Hwf. unfold valid_group. rewrite <- Hs. simpl.
  intros (_ & _ & Hg). apply Z.ltb_lt in Hlt. lia.
Qed.

Lemma safe_with_iface {A} (P : A -> Prop) none idx (body : iface_ptr -> M (St C) A) :
  wf_shape sh -> 0 <= idx -> P none -> (forall i, valid_iface sh i -> Safe sh P (body i)) ->
  Safe sh P (with_iface none idx body).
Proof.
  intros Hwf Hi Hn Hb. eapply safe_ext; [apply with_iface_eq|].
  apply (safe_guarded P (fun s => iface_ok s idx)); [done|].
  intros (s & [Hs _] & Hok). apply Hb. by eapply iface_ok_valid.
Qed.
Lemma safe_with_group {A} (P : A -> Prop) none idx (body : nat -> M (St C) A) :
  wf_shape sh -> 0 <= idx -> P none -> (forall g, valid_group sh g -> Safe sh P (body g)) ->
  Safe sh P (with_group none idx body).
Proof.
  intros Hwf Hi Hn Hb. eapply safe_ext; [apply with_group_eq|].
  apply (safe_guarded P (fun s => group_ok s idx)); [done|].
  intros (s & [Hs _] & Hok). apply Hb. by eapply group_ok_valid.
Qed.
Lemma safe_with_config {A} (body : M (St C) A) :
  Safe sh (fun _ => True) body -> Safe sh (fun _ => True) (with_config body).
Proof.
  intros Hb s Hs. unfold wp. destruct (with_config body s) as [[a s']|] eqn:E.
  - rewrite (with_config_eq a) in E.
    pose proof (safe_guarded (fun _ => True) (fun _ => true) a body I (fun _ => Hb) s Hs) as HW.
    unfold wp in HW. by rewrite E in HW.
  - exfalso. specialize (Hb (locked s) Hs). unfold wp in Hb.
    unfold with_config, bind in E. change (WanMgr_GetConfigData_locked s) with (Some (tt, locked s)) in E.
    cbn iota beta in E. by destruct (body (locked s)) as [[a s1]|].
Qed.
Lemma safe_get_total : wf_shape sh -> Safe (C := C) sh (fun n => 0 <= n) WanMgr_IfaceData_GetTotalWanIface.
Proof.
  intros Hwf s Hs. eapply wp_intro; [apply get_total_eq|]. split; [by split|].
  destruct Hs as [Hs _]. revert Hwf. rewrite <- Hs. simpl. tauto.
Qed.
Lemma safe_get_groups : wf_shape sh -> Safe (C := C) sh (fun n => 0 <= n) WanMgr_GetTotalNoOfGroups.
Proof.
  intros Hwf s Hs. eapply wp_intro; [apply get_groups_eq|]. split; [by split|].
  destruct Hs as [Hs _]. revert Hwf. rewrite <- Hs. simpl. tauto.
Qed.
Lemma safe_get_iface i :
  valid_iface sh i -> Safe (C := C) sh (fun I => iface_in sh i I) (get_iface i).
Proof.
  unfold valid_iface. intros Hv s Hs. destruct (Hs) as [Hsh _]. rewrite <- Hsh in Hv. simpl in Hv.
  destruct Hv as (n & Hn & Hpos). rewrite list_lookup_fmap in Hn.
  destruct (w_pIface (db s) !! i) as [I|] eqn:E; [|done].
  injection Hn as <-. unfold get_iface. apply wp_bind, wp_gets.
  eapply wp_deref; [done|]. split; [by split|]. split; [|done].
  rewrite <- Hsh. simpl. by rewrite list_lookup_fmap, E.
Qed.
Lemma safe_get_vif p : valid_vif sh p -> Safe (C := C) sh (fun _ => True) (get_vif p).
Proof.
  intros (n & Hn & _ & Hk) s Hs. destruct (Hs) as [Hsh _]. rewrite <- Hsh in Hn. simpl in Hn.
  rewrite list_lookup_fmap in Hn.
  destruct (w_pIface (db s) !! p.1) as [I|] eqn:E; [|done]. injection Hn as <-.
  unfold vifs_of in Hk. simpl in Hk. rewrite length_fmap in Hk.
  destruct (lookup_lt_is_Some_2 _ _ Hk) as [v Hv].
  unfold get_vif, get_iface. apply wp_bind, wp_bind, wp_gets.
  eapply wp_deref; [done|]. by eapply wp_deref.
Qed.
(** The virtual interface of a number the interface has; the lock is held only
    inside the body. *)
Lemma safe_with_virtual {A} (P : A -> Prop) none idx k (body : vif_ptr -> M (St C) A) :
  wf_shape sh -> 0 <= idx -> P none ->
  (idx < sh.1.1.1 -> exists n, sh.1.2 !! Z.to_nat idx = Some n /\ k ∈ n.2) ->
  (forall p, valid_vif sh p -> Safe sh P (body p)) ->
  Safe sh P (with_virtual none idx k body).
Proof.
  intros Hwf Hi Hn Hk Hb s Hs. apply wp_with_virtual; [|by intros _]. intros Hok.
  destruct Hs as [Hs Ha]. destruct Hk as (n & Hnth & Hin).
  { apply iface_ok_lt in Hok. by rewrite <- Hs. }
  rewrite <- Hs in Hnth. simpl in Hnth. rewrite list_lookup_fmap in Hnth.
  destruct (w_pIface (db s) !! Z.to_nat idx) as [I|] eqn:HI; [|done]. injection Hnth as <-.
  unfold vifs_of in Hin. simpl in Hin.
  destruct (WanMgr_getVirtualIfaceById (if_VirtIfList I) k) as [j|] eqn:E.
  2: { exfalso. apply list_elem_of_fmap in Hin as (v & -> & Hin).
    pose proof (proj1 (list_search_None _ _) E v Hin) as E'. simpl in E'. lia. }
  exists I, j. split; [done|]. split; [done|].
  apply list_search_Some in E as [(v & Hj & _) _].
  assert (valid_vif sh (Z.to_nat idx, j)) as Hv.
  { exists (vifs_of I). rewrite <- Hs. simpl. rewrite list_lookup_fmap, HI. split; [done|].
    split; [|unfold vifs_of; simpl; rewrite length_fmap; by eapply lookup_lt_Some].
    pose proof (iface_ok_valid s idx Hwf Hs Hi Hok) as Hvi. unfold valid_iface in Hvi.
    rewrite <- Hs in Hvi. simpl in Hvi. destruct Hvi as (n & Hvi & Hw).
    rewrite list_lookup_fmap, HI in Hvi. by injection Hvi as <-. }
  eapply wp_mono; [apply (Hb _ Hv (locked s)); by split|].
  intros a s' [[Hf Hd] HP]. split; [split; [done|] | done].
  unfold depth, locked, unlocked in *. revert Hd. rsimpl. lia.
Qed.
Lemma safe_get_group g : valid_group sh g -> Safe (C := C) sh (fun _ => True) (get_group g).
Proof.
  unfold valid_group. intros Hv s Hs. destruct (Hs) as [Hsh _]. rewrite <- Hsh in Hv. simpl in Hv.
  destruct (lookup_lt_is_Some_2 _ _ Hv) as [G HG].
  unfold get_group. apply wp_bind, wp_gets. by eapply wp_deref.
Qed.
Lemma safe_upd_iface i f :
  valid_iface sh i -> (forall I, vifs_of (f I) = vifs_of I) ->
  Safe (C := C) sh (fun _ => True) (upd_iface i f).
Proof.
  intros Hv Hf. eapply safe_bind; [by apply safe_get_iface | intros I _].
  apply safe_modify; [|done..]. intros s. by apply shape_alter_iface.
Qed.
Lemma safe_upd_group g f :
  valid_group sh g -> Safe (C := C) sh (fun _ => True) (upd_group g f).
Proof.
  intros Hv. eapply safe_bind; [by apply safe_get_group | intros G _].
  apply safe_modify; [|done..]. intros s. unfold shape_of. rsimpl. by rewrite length_alter.
Qed.
Lemma vifs_of_alter f k I :
  (forall v, v_VirIfIdx (f v) = v_VirIfIdx v) -> vifs_of (I <| if_VirtIfList ::= alter f k |>) = vifs_of I.
Proof.
  intros Hf. unfold vifs_of. rsimpl. f_equal. apply list_eq. intros j.
  rewrite !list_lookup_fmap, list_lookup_alter. destruct (decide _) as [->|]; [|done].
  destruct (if_VirtIfList I !! j); simpl; [by rewrite Hf | done].
Qed.
Lemma safe_upd_vif p f :
  valid_vif sh p -> (forall v, v_VirIfIdx (f v) = v_VirIfIdx v) ->
  Safe (C := C) sh (fun _ => True) (upd_vif p f).
Proof.
  intros Hv Hf. apply safe_bind_any; [by apply safe_get_vif | intros _].
  apply safe_upd_iface; [|intros I; by apply vifs_of_alter].
  destruct Hv as (n & Hn & Hw & _), sh as [[[? ?] ?] ?]. by exists n.
Qed.
(** A virtual interface of a number the interface has. *)
Lemma safe_deref_vif {A} i I n Q (k : nat -> M (St C) A) :
  iface_in sh i I -> n ∈ v_VirIfIdx <$> if_VirtIfList I ->
  (forall j, valid_vif sh (i, j) -> Safe sh Q (k j)) ->
  Safe sh Q (bind (deref (WanMgr_getVirtualIfaceById (if_VirtIfList I) n)) k).
Proof.
  intros [Hi Hw] Hn Hk. destruct (WanMgr_getVirtualIfaceById (if_VirtIfList I) n) as [j|] eqn:E.
  - apply Hk. exists (vifs_of I). split; [done|]. split; [done|].
    apply list_search_Some in E as [(v & Hj & _) _]. apply lookup_lt_Some in Hj.
    unfold vifs_of. simpl. by rewrite length_fmap.
  - exfalso. apply list_elem_of_fmap in Hn as (v & -> & Hin).
    pose proof (proj1 (list_search_None _ _) E v Hin) as E'. simpl in E'. lia.
Qed.
Lemma iface_in_range i I J n :
  iface_in sh i I -> iface_in sh i J -> n ∈ range (if_NoOfVirtIfs I) -> n ∈ v_VirIfIdx <$> if_VirtIfList J.
Proof.
  intros [HI [_ Hw]] [HJ _] Hn%elem_of_range. assert (vifs_of I = vifs_of J) as E by congruence.
  pose proof (Hw n Hn) as Hin. rewrite E in Hin. exact Hin.
Qed.

Lemma valid_first_vif i : valid_iface sh i -> valid_vif sh (i, 0%nat).
Proof.
  destruct sh as [[[t n] vs] g]. intros (l & Hl & Hw). exists l. split; [done|]. split; [done|].
  destruct Hw as [Hne _]. destruct l as [m [|x l]]; [done | simpl; lia].
Qed.
End Safe.

Create HintDb safe discriminated.
#[export] Hint Resolve safe_gets safe_call safe_call_s safe_get_groups safe_get_total
  safe_get_vif safe_get_group safe_upd_group : safe.
#[export] Hint Extern 1 (0 <= u32 _) => (apply u32_range) : safe.
#[export] Hint Extern 1 (Safe _ _ (modify _)) =>
  (apply safe_modify; [intros; reflexivity | intros; reflexivity | let Ha := fresh in intros ? Ha; first [exact I | exact Ha]]) : safe.
#[export] Hint Extern 1 (Safe _ _ (upd_iface _ _)) =>
  (apply safe_upd_iface; [assumption | intros; first [reflexivity | by apply vifs_of_alter]]) : safe.
#[export] Hint Extern 1 (Safe _ _ (upd_vif _ _)) =>
  (apply safe_upd_vif; [assumption | intros; reflexivity]) : safe.

Ltac safe_side :=
  solve
  [ done
  | apply u32_range
  | match goal with H : _ ∈ range _ |- 0 <= _ => apply elem_of_range in H; lia end
  | match goal with H : _ ∈ filter _ (range _) |- 0 <= _ =>
      apply list_elem_of_filter in H as [_ H]; apply elem_of_range in H; lia end
  | lia ].

Ltac safe_step :=
  first
  [ solve [auto 3 with safe nocore]
  | lazymatch goal with
    | |- Safe _ _ (bind (get_iface _) _) =>
        eapply safe_bind; [apply safe_get_iface; assumption | intros ? ?]
    | |- Safe _ _ (bind (deref (head _)) _) =>
        eapply safe_bind; [eapply safe_deref_head; eassumption | intros ? _]
    | |- Safe _ _ (bind get_controller _) =>
        eapply safe_bind; [apply safe_get_controller | intros ? ?]
    | |- Safe _ _ (bind WanMgr_IfaceData_GetTotalWanIface _) =>
        eapply safe_bind; [apply safe_get_total; assumption | intros ? ?]
    | |- Safe _ _ (bind WanMgr_GetTotalNoOfGroups _) =>
        eapply safe_bind; [apply safe_get_groups; assumption | intros ? ?]
    | |- Safe _ _ (bind _ _) => apply safe_bind_any; [| intros ?]
    | |- Safe _ _ (ret _) => apply safe_ret; exact I
    | |- Safe _ _ (when _ _) => apply safe_when; intros ?
    | |- Safe _ _ (for_each _ _) => apply safe_for_each; intros ? ?
    | |- Safe _ _ (for_break _ _) => apply safe_for_break; intros ? ?
    | |- Safe _ _ (for_acc _ _ _) => apply safe_for_acc; intros ? ? ?
    | |- Safe _ _ (with_iface _ _ _) =>
        apply safe_with_iface; [assumption | safe_side | exact I | intros ? ?]
    | |- Safe _ _ (with_group _ _ _) =>
        apply safe_with_group; [assumption | safe_side | exact I | intros ? ?]
    | |- Safe _ _ (with_config _) => apply safe_with_config
    | |- Safe _ _ (if ?b then _ else _) => destruct b eqn:?
    | |- Safe _ _ (match ?o with _ => _ end) => destruct o eqn:?
    end
  | progress cbv beta zeta
  | progress autounfold with monad ].
Ltac safe_tac := repeat safe_step.

(** * The sysevent helpers *)

Section SyseventFacts.
Context `{Platform} `{Build} {C : Type} `{Anchor C} (sh : Shape).
#[local] Abbreviation safe m := (Safe (C := C) sh (fun _ => True) m).

Lemma safe_setWanState l : safe (wanmgr_sysevents_setWanState l).
Proof. unfold wanmgr_sysevents_setWanState. safe_tac. Qed.
#[local] Hint Resolve safe_setWanState : safe.
Lemma safe_setWanLedState l : safe (wanmgr_setWanLedState l).
Proof. unfold wanmgr_setWanLedState. safe_tac. Qed.

Lemma keeps_setWanState {B} (f : St C -> B) l :
  (forall s y t, f (s <| sys := y |> <| trace := t |>) = f s) ->
  Keeps f (wanmgr_sysevents_setWanState l).
Proof.
  intros Hf. unfold wanmgr_sysevents_setWanState. destruct (_ =? _); [apply keeps_ret|].
  apply keeps_modify. intros s. apply Hf.
Qed.
Lemma keeps_setWanLedState {B} (f : St C -> B) l :
  (forall s y t, f (s <| sys := y |> <| trace := t |>) = f s) ->
  Keeps f (wanmgr_setWanLedState l).
Proof.
  intros Hf. unfold wanmgr_setWanLedState.
  destruct (_ =? _); [apply keeps_ret|].
  destruct (led_bits l) as [[[b4 b6] bm]|]; [|apply keeps_ret].
  apply keeps_bind; [apply keeps_modify; intros s; apply Hf | intros _].
  apply keeps_when. by apply keeps_setWanState.
Qed.
End SyseventFacts.

#[export] Hint Resolve safe_setWanState safe_setWanLedState : safe.
#[export] Hint Extern 2 (Keeps _ (wanmgr_sysevents_setWanState _)) =>
  (apply keeps_setWanState; reflexivity) : keeps.
#[export] Hint Extern 2 (Keeps _ (wanmgr_setWanLedState _)) =>
  (apply keeps_setWanLedState; reflexivity) : keeps.

(** * Running the critical sections *)

Section Run.
Context {C : Type}.
Implicit Type s : St C.

Lemma wp_with_iface {A} none idx (body : iface_ptr -> M (St C) A) Q s :
  (iface_ok s idx = true ->
    wp (body (Z.to_nat idx)) (fun a s' => Q a (unlocked s')) (locked s)) ->
  (iface_ok s idx = false -> Q none s) ->
  wp (with_iface none idx body) Q s.
Proof.
  intros H1 H2. unfold wp. rewrite with_iface_eq. unfold guarded.
  destruct (iface_ok s idx); [|by apply H2]. specialize (H1 eq_refl). unfold wp in H1.
  by destruct (body _ _) as [[a s']|].
Qed.
Lemma wp_with_group {A} none idx (body : nat -> M (St C) A) Q s :
  (group_ok s idx = true ->
    wp (body (Z.to_nat idx)) (fun a s' => Q a (unlocked s')) (locked s)) ->
  (group_ok s idx = false -> Q none s) ->
  wp (with_group none idx body) Q s.
Proof.
  intros H1 H2. unfold wp. rewrite with_group_eq. unfold guarded.
  destruct (group_ok s idx); [|by apply H2]. specialize (H1 eq_refl). unfold wp in H1.
  by destruct (body _ _) as [[a s']|].
Qed.
Lemma wp_with_config {A} (body : M (St C) A) Q s :
  wp body (fun a s' => Q a (unlocked s')) (locked s) -> wp (with_config body) Q s.
Proof.
  unfold wp, with_config, bind, ret.
  change (WanMgr_GetConfigData_locked s) with (Some (tt, locked s)). cbn iota beta.
  by destruct (body (locked s)) as [[a s']|].
Qed.
Lemma wp_get_locked idx Q s :
  (iface_ok s idx = true -> Q (Some (Z.to_nat idx)) (locked s)) ->
  (iface_ok s idx = false -> Q None s) ->
  wp (WanMgr_GetIfaceData_locked idx) Q s.
Proof.
  intros H1 H2. unfold WanMgr_GetIfaceData_locked, pIface_set.
  apply wp_bind, (wp_intro _ _ _ tt (locked s)); [done|].
  apply wp_bind, wp_gets, wp_bind, wp_gets, wp_if; intros Hok.
  - by apply wp_ret, H1.
  - apply wp_bind, (wp_intro _ _ _ tt (unlocked (locked s))); [done|].
    apply wp_ret. rewrite unlocked_locked. by apply H2.
Qed.
Lemma wp_get_total Q s :
  Q (w_ulTotalNumbWanInterfaces (db s)) s -> wp WanMgr_IfaceData_GetTotalWanIface Q s.
Proof. intros HQ. eapply wp_intro; [apply get_total_eq | done]. Qed.
Lemma wp_get_groups Q s :
  Q (w_ulTotalNumbWanIfaceGroup (db s)) s -> wp WanMgr_GetTotalNoOfGroups Q s.
Proof. intros HQ. eapply wp_intro; [apply get_groups_eq | done]. Qed.
Lemma wp_get_iface i I Q s : ifaces s !! i = Some I -> Q I s -> wp (get_iface i) Q s.
Proof. intros HI HQ. apply wp_bind, wp_gets. by eapply wp_deref. Qed.
Lemma wp_get_group g G Q s : groups s !! g = Some G -> Q G s -> wp (get_group g) Q s.
Proof. intros HG HQ. apply wp_bind, wp_gets. by eapply wp_deref. Qed.
Lemma wp_upd_iface i f I Q s :
  ifaces s !! i = Some I ->
  Q tt (s <| db ::= fun d => d <| w_pIface := alter f i (w_pIface d) |> |>) ->
  wp (upd_iface i f) Q s.
Proof. intros HI HQ. apply wp_bind. eapply wp_get_iface; [done|]. by apply wp_modify. Qed.
Lemma wp_upd_group g f G Q s :
  groups s !! g = Some G ->
  Q tt (s <| db ::= fun d => d <| w_Group := alter f g (w_Group d) |> |>) ->
  wp (upd_group g f) Q s.
Proof. intros HG HQ. apply wp_bind. eapply wp_get_group; [done|]. by apply wp_modify. Qed.

Lemma shape_alter_group s g f :
  shape_of (db (s <| db ::= fun d => d <| w_Group := alter f g (w_Group d) |> |>)) = shape_of (db s).
Proof. unfold shape_of. rsimpl. by rewrite length_alter. Qed.
Lemma groups_alter s g f k :
  groups (s <| db ::= fun d => d <| w_Group := alter f g (w_Group d) |> |>) !! k =
  if decide (g = k) then f <$> groups s !! k else groups s !! k.
Proof.
  unfold groups. rsimpl. rewrite list_lookup_alter. by destruct (decide (g = k)) as [->|].
Qed.
Lemma groups_alter_eq s g f G :
  groups s !! g = Some G ->
  groups (s <| db ::= fun d => d <| w_Group := alter f g (w_Group d) |> |>) !! g = Some (f G).
Proof. intros HG. rewrite groups_alter, decide_True, HG; done. Qed.

(** A configured index denotes an interface with a first virtual interface. *)
Lemma iface_ok_lookup s idx :
  db_wf (db s) -> 0 <= idx -> iface_ok s idx = true ->
  exists I v l, ifaces s !! Z.to_nat idx = Some I /\ if_VirtIfList I = v :: l.
Proof.
  intros Hwf Hi Hok. destruct (iface_ok_valid _ s idx Hwf eq_refl Hi Hok) as (n & Hn & Hpos).
  rewrite list_lookup_fmap in Hn. unfold ifaces.
  destruct (w_pIface (db s) !! Z.to_nat idx) as [I|]; [|done]. injection Hn as <-.
  destruct Hpos as [Hne _]. unfold vifs_of in Hne. simpl in Hne.
  destruct (if_VirtIfList I) as [|v l] eqn:E; [done|]. by exists I, v, l.
Qed.
Lemma group_ok_lookup s idx :
  db_wf (db s) -> 0 <= idx -> group_ok s idx = true -> exists G, groups s !! Z.to_nat idx = Some G.
Proof.
  intros Hwf Hi Hok. pose proof (group_ok_valid _ s idx Hwf eq_refl Hi Hok) as Hv.
  by apply lookup_lt_is_Some_2.
Qed.
Lemma group_ok_in s idx :
  db_wf (db s) -> 0 <= idx < w_ulTotalNumbWanIfaceGroup (db s) -> group_ok s idx = true.
Proof.
  intros (_ & _ & Hg) Hi. unfold group_ok. apply andb_true_intro. split; [lia|].
  unfold groups. destruct (w_Group (db s)); [simpl in Hg; lia | done].
Qed.
Lemma iface_ok_in s idx :
  db_wf (db s) -> 0 <= idx < w_ulTotalNumbWanInterfaces (db s) -> iface_ok s idx = true.
Proof.
  intros (Hg & _) Hi. unfold iface_ok. apply andb_true_intro. split; [lia|].
  unfold ifaces. rewrite length_fmap in Hg. destruct (w_pIface (db s)); [simpl in Hg; lia | done].
Qed.
(** A loop over the first [n] interfaces that rewrites each by [F]; [V] is a view
    the rounds keep. *)
Definition update_ifaces (n : Z) (F : Z -> DML_WAN_IFACE -> DML_WAN_IFACE) (l : list DML_WAN_IFACE)
    : list DML_WAN_IFACE :=
  imap (fun j I => if Z.of_nat j <? n then F (Z.of_nat j) I else I) l.

Lemma update_ifaces_lookup n F l j :
  update_ifaces n F l !! j = (fun I => if Z.of_nat j <? n then F (Z.of_nat j) I else I) <$> l !! j.
Proof. unfold update_ifaces. by rewrite list_lookup_imap. Qed.

Lemma shape_update_ifaces s s' n F :
  counts s' = counts s -> groups s' = groups s -> ifaces s' = update_ifaces n F (ifaces s) ->
  (forall k I, vifs_of (F k I) = vifs_of I) -> shape_of (db s') = shape_of (db s).
Proof.
  intros Hc HG HI HF. unfold shape_of. injection Hc as -> ->.
  change (w_Group (db s')) with (groups s'). change (w_pIface (db s')) with (ifaces s').
  rewrite HG, HI. do 2 f_equal. apply list_eq. intros j.
  rewrite !list_lookup_fmap, update_ifaces_lookup. unfold ifaces.
  destruct (w_pIface (db s) !! j); simpl; [|done]. by destruct (_ <? _); [rewrite HF|].
Qed.

Lemma wp_update_ifaces {B} (V : St C -> B) `{!LockFree V} n F body s (Q : unit -> St C -> Prop) :
  db_wf (db s) -> n <= w_ulTotalNumbWanInterfaces (db s) ->
  (forall k I s1, 0 <= k < n -> ifaces s !! Z.to_nat k = Some I -> ifaces s1 !! Z.to_nat k = Some I ->
    counts s1 = counts s -> V s1 = V s ->
    wp (body k (Z.to_nat k)) (fun _ s' => counts s' = counts s1 /\ V s' = V s1
      /\ ifaces s' = <[Z.to_nat k := F k I]> (ifaces s1)) s1) ->
  (forall s', counts s' = counts s -> V s' = V s ->
    ifaces s' = update_ifaces n F (ifaces s) -> Q tt s') ->
  wp (for_each (range n) (fun k => with_iface tt k (body k))) Q s.
Proof.
  intros Hwf Hn Hstep HQ.
  apply (wp_for_each_range (fun k s' => counts s' = counts s /\ V s' = V s
    /\ ifaces s' = update_ifaces k F (ifaces s))).
  - do 2 (split; [done|]). apply list_eq. intros j. rewrite update_ifaces_lookup.
    replace (Z.of_nat j <? 0) with false by lia. by destruct (ifaces s !! j).
  - intros k s1 Hk (Hc & HV & HI).
    destruct (iface_ok_lookup s k Hwf) as (I & v & l & HIk & _); [lia | by apply iface_ok_in; [done|lia] |].
    assert (ifaces s1 !! Z.to_nat k = Some I) as HI1.
    { rewrite HI, update_ifaces_lookup, HIk. simpl. by replace (_ <? k) with false by lia. }
    apply wp_with_iface; intros Hok.
    + eapply wp_mono; [apply (Hstep k I (locked s1)); try done; by rewrite lock_free_locked|].
      intros ? s2 (Hc2 & HV2 & HI2). split; [by transitivity (counts s1)|].
      rewrite lock_free_unlocked, HV2, lock_free_locked. split; [done|].
      change (ifaces s2 = update_ifaces (k + 1) F (ifaces s)). rewrite HI2.
      change (ifaces (locked s1)) with (ifaces s1). rewrite HI. apply list_eq. intros j.
      rewrite update_ifaces_lookup. destruct (decide (Z.to_nat k = j)) as [<-|Hne].
      * rewrite list_lookup_insert_eq by (rewrite <- HI; by eapply lookup_lt_Some).
        rewrite HIk. simpl. replace (_ <? _) with true by lia. by rewrite Z2Nat.id by lia.
      * rewrite list_lookup_insert_ne, update_ifaces_lookup by done.
        destruct (ifaces s !! j); simpl; [|done]. f_equal.
        by replace (Z.of_nat j <? k + 1) with (Z.of_nat j <? k) by lia.
    + exfalso. revert Hok. unfold iface_ok. injection Hc as Hc _. rewrite Hc.
      rewrite (proj2 (Z.ltb_lt k (w_ulTotalNumbWanInterfaces (db s)))) by lia. simpl.
      destruct (ifaces s1); [by rewrite lookup_nil in HI1 | done].
  - intros s1 (Hc & HV & HI). apply HQ; [done..|]. rewrite HI.
    unfold update_ifaces. apply imap_ext. intros j I _.
    by assert ((Z.of_nat j <? Z.max 0 n) = (Z.of_nat j <? n)) as -> by lia.
Qed.

(** Reading and writing an interface, as functions. *)
Lemma get_iface_run (i : nat) s : get_iface i s = (fun I => (I, s)) <$> ifaces s !! i.
Proof. unfold get_iface, get_db, bind, gets, ifaces, iface_ptr. by destruct (w_pIface (db s) !! i). Qed.
Lemma upd_iface_run (i : nat) f s :
  upd_iface i f s = (fun _ => (tt, s <| db ::= fun d => d <| w_pIface := alter f i (w_pIface d) |> |>)) <$> ifaces s !! i.
Proof. unfold upd_iface, bind. rewrite get_iface_run. by destruct (ifaces s !! i). Qed.

Lemma db_wf_locked s : db_wf (db s) -> db_wf (db (locked s)).
Proof. done. Qed.
End Run.

(** * The selection of interfaces and groups *)

Definition nifaces {C} (s : St C) : Z := w_ulTotalNumbWanInterfaces (db s).
Definition ngroups {C} (s : St C) : Z := w_ulTotalNumbWanIfaceGroup (db s).
Definition selected {C} (s : St C) : list Z := g_SelectedInterface <$> groups s.
Definition statuses {C} (s : St C) : list WANMGR_IFACE_SELECTION :=
  (fun I => sel_Status (if_Selection I)) <$> ifaces s.
Definition act_view {C} (s : St C) := (shape_of (db s), selected s, statuses s).

(** An active interface is the selected interface of group [g]; with [g = 0],
    no interface is active. *)
Definition only_active {C} (g : Z) (s : St C) : Prop :=
  forall i, Z.of_nat i < nifaces s -> statuses s !! i = Some WAN_IFACE_ACTIVE ->
    0 < g /\ selected s !! Z.to_nat (g - 1) = Some (Z.of_nat i + 1).

(** The counters and the selections are [UINT]s. *)
Definition bounded {C} (s : St C) : Prop :=
  ngroups s < 2 ^ 32 /\ Forall (fun n => 0 <= n < 2 ^ 32) (selected s).

Definition boundedb {C} (s : St C) : bool :=
  (ngroups s <? 2 ^ 32) && forallb (fun n => (0 <=? n) && (n <? 2 ^ 32)) (selected s).
Lemma boundedb_bounded {C} (s : St C) : boundedb s = true -> bounded s.
Proof.
  unfold boundedb. intros [H1 H2]%andb_prop. split; [lia|].
  apply Forall_forall. intros n Hn%list_elem_of_In. rewrite forallb_forall in H2.
  apply H2 in Hn. lia.
Qed.
(** No interface is active. *)
Definition none_activeb {C} (s : St C) : bool :=
  forallb (fun st => st ≠? WAN_IFACE_ACTIVE) (statuses s).
Lemma none_activeb_only {C} (s : St C) : none_activeb s = true -> only_active 0 s.
Proof.
  unfold none_activeb. rewrite forallb_forall. intros Hn i Hi Ha.
  apply list_elem_of_lookup_2, list_elem_of_In, Hn in Ha. by apply negb_true_iff, bool_decide_eq_false in Ha.
Qed.

Lemma only_active_view {C D} (s : St C) (s' : St D) g :
  act_view s' = act_view s -> only_active g s -> only_active g s'.
Proof.
  intros [= Ht _ _ _ Hsel Hst] Hoa i Hi Ha. unfold nifaces in *.
  rewrite Hsel. apply Hoa; [unfold nifaces; lia | by rewrite <- Hst].
Qed.
Lemma only_active_alone {C} g (s : St C) i j :
  only_active g s -> Z.of_nat i < nifaces s -> Z.of_nat j < nifaces s ->
  statuses s !! i = Some WAN_IFACE_ACTIVE -> statuses s !! j = Some WAN_IFACE_ACTIVE -> i = j.
Proof.
  intros Hoa Hi Hj H1 H2. apply Hoa in H1 as [_ H1]; [|done]. apply Hoa in H2 as [_ H2]; [|done].
  rewrite H1 in H2. injection H2. lia.
Qed.

Lemma statuses_alter {C} (s : St C) i f j :
  statuses (s <| db ::= fun d => d <| w_pIface := alter f i (w_pIface d) |> |>) !! j =
  if decide (i = j) then (fun I => sel_Status (if_Selection (f I))) <$> ifaces s !! i
  else statuses s !! j.
Proof.
  unfold statuses, ifaces. rsimpl. rewrite !list_lookup_fmap, list_lookup_alter.
  destruct (decide (i = j)) as [->|]; [|done]. by destruct (w_pIface (db s) !! j).
Qed.

Lemma selected_lookup {C} (s : St C) g G :
  groups s !! g = Some G -> selected s !! g = Some (g_SelectedInterface G).
Proof. unfold selected. intros HG. by rewrite list_lookup_fmap, HG. Qed.

Lemma bounded_selected {C} (s : St C) g G :
  bounded s -> groups s !! g = Some G -> 0 <= g_SelectedInterface G < 2 ^ 32.
Proof. intros [_ Hb] HG%selected_lookup. by eapply (Forall_lookup_1 _ _ _ _ Hb). Qed.

Lemma keeps_upd_group_view {C B} (f : St C -> B) g h :
  (forall s, f (s <| db ::= fun d => d <| w_Group := alter h g (w_Group d) |> |>) = f s) ->
  Keeps f (upd_group g h).
Proof.
  intros Hf. apply keeps_bind; [apply keeps_get_group | intros _]. apply keeps_modify, Hf.
Qed.
Lemma selected_alter_same {C} (s : St C) g h :
  (forall G, g_SelectedInterface (h G) = g_SelectedInterface G) ->
  selected (s <| db ::= fun d => d <| w_Group := alter h g (w_Group d) |> |>) = selected s.
Proof.
  intros Hh. unfold selected, groups. rsimpl. apply list_eq. intros j.
  rewrite !list_lookup_fmap, list_lookup_alter. destruct (decide _) as [->|]; [|done].
  destruct (w_Group (db s) !! j); simpl; [by rewrite Hh | done].
Qed.
Lemma act_view_alter_group {C} (s : St C) g h :
  (forall G, g_SelectedInterface (h G) = g_SelectedInterface G) ->
  act_view (s <| db ::= fun d => d <| w_Group := alter h g (w_Group d) |> |>) = act_view s.
Proof.
  intros Hh. unfold act_view. rewrite selected_alter_same by done. unfold shape_of. rsimpl.
  by rewrite length_alter.
Qed.

(** [wp_tac] runs the goal; the branches of the conditionals it meets are left
    with their test as a hypothesis. *)
Ltac wp_step ::=
  lazymatch goal with
  | |- wp (bind _ _) _ _ => apply wp_bind
  | |- wp (ret _) _ _ => apply wp_ret
  | |- wp (gets _) _ _ => apply wp_gets
  | |- wp (modify _) _ _ => apply wp_modify
  | |- wp (when _ _) _ _ => apply wp_when; intros ?
  | |- wp (if _ then _ else _) _ _ => apply wp_if; intros ?
  | |- wp WanMgr_IfaceData_GetTotalWanIface _ _ => apply wp_get_total
  | |- wp WanMgr_GetTotalNoOfGroups _ _ => apply wp_get_groups
  | |- wp (get_iface _) _ _ => eapply wp_get_iface; [eassumption|]
  | |- wp (get_group _) _ _ => eapply wp_get_group; [eassumption|]
  | |- wp (upd_iface _ _) _ _ => eapply wp_upd_iface; [eassumption|]
  | |- wp (upd_group _ _) _ _ => eapply wp_upd_group; [eassumption|]
  | |- wp _ _ _ => progress autounfold with monad
  | |- (fun _ => _) _ => progress cbv beta
  | |- (fun _ _ => _) _ _ => progress cbv beta
  end.
