(* ===== verification/ParallelFacts.v ===== *)
(** The parallel-scan policy never dereferences [NULL] and gives back every
    lock, unless its last call is the start of a state machine that fails. *)

From S2P Require Export DataFacts ParallelScan.

#[local] Abbreviation PC := WanMgr_Policy_Controller_t.

(** The last call was one of a start of a state machine, and it failed: there
    was no memory for its controller, or no thread for it. *)
Definition start_failed `{Platform} (t : list Ext) : bool :=
  match t with
  | [] => false
  | e :: h =>
      match e with
      | ExtCall f args =>
          bool_decide (f = "malloc" /\ args = ["WanMgr_IfaceSM_Controller_t"]) && (answer h e =? 0)
      | PthreadCreate f _ => bool_decide (f = "WanMgr_InterfaceSMThread") && negb (answer h e =? 0)
      | _ => false
      end
  end.
(** The mutex is given back as often as it was taken, but once after such a
    failure. *)
Definition gives_back `{Platform} {C D} (s : St C) (s' : St D) : Prop :=
  depth s' = depth s \/ depth s' = S (depth s) /\ start_failed (trace s') = true.

(** The cached pointer is [an], and it is that of [activeInterfaceIdx] while
    there is one. *)
Definition caches (an : option iface_ptr) : Anchor PC := fun c =>
  pc_pWanActiveIfaceData c = an
  /\ (an = None \/ pc_activeInterfaceIdx c = -1 \/ an = Some (Z.to_nat (u32 (pc_activeInterfaceIdx c)))).

(** * The helpers, for any controller *)

Section ControllerSafe.
Context `{Platform} `{Build} {C : Type} `{Anchor C} (sh : Shape) (Hwf : wf_shape sh).
#[local] Abbreviation safe m := (Safe (C := C) sh (fun _ => True) m).

Lemma safe_set_group_selected g i : safe (WanMgr_SetGroupSelectedIface g i).
Proof. unfold WanMgr_SetGroupSelectedIface. safe_tac. Qed.
Lemma safe_set_active_link i b : safe (DmlSetWanActiveLinkInPSMDB i b).
Proof. unfold DmlSetWanActiveLinkInPSMDB. safe_tac. Qed.
Lemma safe_set_param a b c d : safe (WanMgr_RdkBus_SetParamValues a b c d).
Proof. unfold WanMgr_RdkBus_SetParamValues. safe_tac. Qed.
Lemma safe_get_param a b c : safe (WanMgr_RdkBus_GetParamValues a b c).
Proof. unfold WanMgr_RdkBus_GetParamValues. safe_tac. Qed.
#[local] Hint Resolve safe_set_param : safe.
Lemma safe_lan_bridge p b : safe (WanMgr_RdkBus_AddIntfToLanBridge p b).
Proof. unfold WanMgr_RdkBus_AddIntfToLanBridge. safe_tac. Qed.
Lemma safe_trigger_reboot : safe Wanmgr_TriggerReboot.
Proof.
  unfold Wanmgr_TriggerReboot, syscfg_set_string, wanmgr_sysevent_hw_reconfig_reboot. safe_tac.
Qed.
Lemma safe_start_ism i k : safe (WanMgr_StartInterfaceStateMachine i k).
Proof. unfold WanMgr_StartInterfaceStateMachine. safe_tac. Qed.
(** A start is safe, and it is the last call when it fails. *)
Lemma wp_start_ism i k s :
  framed sh s -> wp (WanMgr_StartInterfaceStateMachine i k) (fun r s' =>
    framed sh s' /\ depth s' = depth s /\ (r = 0 \/ start_failed (trace s') = true)) s.
Proof.
  intros Hf. unfold WanMgr_StartInterfaceStateMachine.
  apply wp_bind. eapply wp_intro; [reflexivity|]. destruct (_ =? 0) eqn:E.
  - apply wp_ret. do 2 (split; [done|]). right. simpl. by rewrite E.
  - eapply wp_intro; [reflexivity|]. do 2 (split; [done|]).
    destruct (Z.eqb_spec (answer (trace (s <| trace := ExtCall "malloc" ["WanMgr_IfaceSM_Controller_t"] :: trace s |>))
      (PthreadCreate "WanMgr_InterfaceSMThread" [i; k])) 0) as [Ez|Ez]; [by left | right].
    simpl in *. by rewrite (proj2 (Z.eqb_neq _ _) Ez).
Qed.

(** A run that may leave the lock after a failed start. *)
Definition Leaky {A} (m : M (St C) A) : Prop :=
  forall s, framed sh s -> wp m (fun _ s' => framed sh s' /\ gives_back s s') s.
Lemma leaky_safe {A} (P : A -> Prop) (m : M (St C) A) : Safe sh P m -> Leaky m.
Proof. intros Hm s Hs. eapply wp_mono; [by apply Hm|]. intros a s' [[? ?] _]. split; [done | by left]. Qed.
Lemma leaky_bind {A B} (P : A -> Prop) (m : M (St C) A) (k : A -> M (St C) B) :
  Safe sh P m -> (forall a, P a -> Leaky (k a)) -> Leaky (bind m k).
Proof.
  intros Hm Hk s Hs. apply wp_bind. eapply safe_wp; [done..|]. intros a s1 Hs1 Hd1 HP.
  eapply wp_mono; [by apply (Hk a HP)|]. intros b s2 [Hs2 Hg]. split; [done|].
  unfold gives_back in *. by rewrite <- Hd1.
Qed.
Lemma leaky_map {A B} (f : A -> B) (m : M (St C) A) : Leaky m -> Leaky (r <- m ;; ret (f r)).
Proof. intros Hm s Hs. apply wp_bind. eapply wp_mono; [by apply Hm|]. intros a s' ?. by apply wp_ret. Qed.
End ControllerSafe.
#[export] Hint Resolve safe_set_group_selected safe_set_active_link safe_set_param safe_get_param
  safe_lan_bridge safe_trigger_reboot safe_start_ism : safe.

(** * The transitions and the states *)

Section ParallelSafe.
Context `{Platform} `{Build} (sh : Shape) (Hwf : wf_shape sh) (an : option iface_ptr).
Context (Hsmall : sh.1.1.1 < 2 ^ 32 - 1) (Han : forall a, an = Some a -> valid_iface sh a).
#[local] Instance ps_anchor : Anchor PC := caches an.
#[local] Abbreviation safe m := (Safe (C := PC) sh (fun _ => True) m).

Lemma safe_ps_update : safe WanMgr_UpdateControllerData.
Proof. unfold WanMgr_UpdateControllerData. safe_tac. Qed.
Lemma safe_check_platform : safe WanMgr_CheckIfPlatformReconfiguringRequired.
Proof. unfold WanMgr_CheckIfPlatformReconfiguringRequired. safe_tac. Qed.
(** The cached interface is a configured one. *)
Lemma cached_valid c a : anchored c -> pc_pWanActiveIfaceData c = Some a -> valid_iface sh a.
Proof. intros [Hp _] Ha. apply Han. by rewrite <- Hp. Qed.

(** A read of the cached pointer. *)
Lemma safe_cached {A} (P : A -> Prop) c k :
  anchored c -> an <> None -> (forall a, valid_iface sh a -> an = Some a -> Safe (C := PC) sh P (k a)) ->
  Safe (C := PC) sh P (bind (deref (pc_pWanActiveIfaceData c)) k).
Proof.
  intros [Hc _] Hne Hk. rewrite Hc. destruct an as [a|] eqn:E; [|done].
  change (bind (deref (Some a)) k) with (k a). apply Hk; [by apply Han | done].
Qed.

Lemma safe_check_rescan : an <> None -> safe WanMgr_CheckRescanRequired.
Proof.
  intros Hne. unfold WanMgr_CheckRescanRequired.
  eapply safe_bind; [apply safe_get_controller | intros c Hc].
  apply safe_cached; [done | done | intros a Hv _]. safe_tac.
Qed.
Lemma safe_max_timeout I : safe (max_timeout I).
Proof. unfold max_timeout. safe_tac. Qed.
Lemma safe_start_timer : safe start_SelectionTimer.
Proof. unfold start_SelectionTimer. safe_tac. Qed.
#[local] Hint Resolve safe_max_timeout safe_start_timer : safe.
Lemma safe_ps_Transition_Start : safe Transition_Start.
Proof. unfold Transition_Start. safe_tac. Qed.
Lemma safe_set_selection i st b : valid_iface sh i -> safe (set_selection i st b).
Proof. intros Hv. unfold set_selection. safe_tac. Qed.
#[local] Hint Resolve safe_set_selection : safe.
Lemma safe_Transition_SelectingInterface : safe Transition_SelectingInterface.
Proof. unfold Transition_SelectingInterface. safe_tac. Qed.
Lemma safe_Transition_ReconfiguringPlatfrom : safe Transition_ReconfiguringPlatfrom.
Proof. unfold Transition_ReconfiguringPlatfrom. safe_tac. Qed.

(** Starting the state machine of a virtual interface of the base interface. *)
Definition starts_kept {R} (s : St PC) (o : option R) (s' : St PC) : Prop :=
  framed sh s' /\ depth s' = depth s /\ (o = None \/ start_failed (trace s') = true).
Lemma wp_start_virtual idx k s :
  0 <= idx -> (idx < sh.1.1.1 -> exists n, sh.1.2 !! Z.to_nat idx = Some n /\ k ∈ n.2) -> framed sh s ->
  wp (start_virtual idx k) (starts_kept s) s.
Proof.
  intros Hi Hk Hs. unfold start_virtual. apply wp_bind. eapply (safe_wp sh (fun _ => True)); [|exact Hs|].
  - apply safe_with_virtual; [done | done | done | done |]. intros p Hp. safe_tac.
  - intros e s1 Hs1 Hd1 _. apply wp_if; intros _; [apply wp_ret; split; [done|]; split; [done | by left]|].
    apply wp_bind. eapply wp_mono; [by apply wp_start_ism|]. intros r s2 (Hs2 & Hd2 & Hr).
    apply wp_ret. split; [done|]. split; [congruence|]. destruct Hr as [->|Hr]; [by left | by right].
Qed.
(** All of them. *)
Lemma wp_start_all idx i I s :
  0 <= idx -> iface_in sh i I -> (idx < sh.1.1.1 -> Z.to_nat idx = i) -> framed sh s ->
  wp (for_break (range (if_NoOfVirtIfs I)) (start_virtual idx)) (starts_kept s) s.
Proof.
  intros Hi [HI [_ Hk]] Heq. assert (Hin : forall k, k ∈ range (if_NoOfVirtIfs I) ->
    idx < sh.1.1.1 -> exists n, sh.1.2 !! Z.to_nat idx = Some n /\ k ∈ n.2).
  { intros k Hin Hlt. exists (vifs_of I). rewrite Heq by done.
    split; [done|]. apply Hk. by apply elem_of_range in Hin. }
  revert Hin s. induction (range _) as [|k l IH]; intros Hin s Hs; simpl.
  - apply wp_ret. split; [done|]. split; [done | by left].
  - apply wp_bind. eapply wp_mono; [apply wp_start_virtual; [done | apply Hin, list_elem_of_here | done]|].
    intros [u|] s1 (Hs1 & Hd1 & Ho1); [by apply wp_ret|].
    eapply wp_mono; [apply IH; [intros j Hj; apply Hin; by apply list_elem_of_further | done]|].
    intros o s2 (Hs2 & Hd2 & Ho2). split; [done|]. split; [congruence | done].
Qed.
Lemma safe_start_all idx i I :
  0 <= idx -> iface_in sh i I -> (idx < sh.1.1.1 -> Z.to_nat idx = i) ->
  safe (for_break (range (if_NoOfVirtIfs I)) (start_virtual idx)).
Proof.
  intros Hi HI Heq s Hs. eapply wp_mono; [by eapply wp_start_all|]. by intros o s' (? & ? & _).
Qed.
Lemma leaky_Transition_NewInterfaceConnected idx :
  0 <= idx -> Leaky (C := PC) sh (Transition_NewInterfaceConnected idx).
Proof.
  intros Hi s Hs. unfold Transition_NewInterfaceConnected.
  apply wp_bind, wp_get_locked; intros Hok; [|by apply wp_ret; split; [|left]].
  assert (valid_iface sh (Z.to_nat idx)) as Hv
    by (eapply iface_ok_valid; [done | by destruct Hs | done | done]).
  apply wp_bind. eapply (safe_wp sh (fun _ => True)); [safe_tac | done |]. intros ? s1 Hs1 Hd1 _.
  apply wp_bind. eapply safe_wp; [by apply safe_get_iface | done |]. intros I s2 Hs2 Hd2 HI.
  apply wp_bind. eapply wp_mono; [by eapply wp_start_all|]. intros o s3 (Hs3 & Hd3 & Ho).
  assert (depth s3 = S (depth s)) as Hd by (rewrite Hd3, Hd2, Hd1; done).
  destruct o as [u|].
  - apply wp_ret. split; [done|]. destruct Ho as [?|Ho]; [done|]. by right.
  - apply wp_bind, wp_modify, wp_ret. split; [exact Hs3|]. left.
    change (pred (depth s3) = depth s). by rewrite Hd.
Qed.

(** The index of the cached interface, as the base interface of its virtual
    interfaces: without a selection it is out of range. *)
Lemma cached_index c a i I :
  anchored c -> pc_pWanActiveIfaceData c = Some a -> an = Some i -> iface_in sh i I ->
  u32 (pc_activeInterfaceIdx c) < sh.1.1.1 -> Z.to_nat (u32 (pc_activeInterfaceIdx c)) = i.
Proof.
  intros [Hc Hor] Ha Hi HI Hlt. destruct Hor as [?|[Hm|Hs]]; [congruence | | congruence].
  rewrite Hm, u32_neg in Hlt; lia.
Qed.

Lemma safe_Transition_SelectedInterfaceUp : safe Transition_SelectedInterfaceUp.
Proof.
  unfold Transition_SelectedInterfaceUp. eapply safe_bind; [apply safe_get_controller | intros c Hc].
  destruct (pc_pWanActiveIfaceData c) as [a|] eqn:Ha; [|by apply safe_ret].
  assert (an = Some a) as Hana by (by rewrite <- Ha, (proj1 Hc)).
  assert (valid_iface sh a) as Hv by by apply Han.
  eapply safe_bind; [by apply safe_get_iface | intros I HI].
  eapply safe_bind.
  { eapply (safe_start_all _ a); [apply u32_range | done |]. by eapply cached_index. }
  intros ? _. safe_tac.
Qed.
Lemma safe_forget_active :
  safe (set_ctl (fun c => c <| pc_InterfaceSelectionTimeOut := 0 |> <| pc_activeInterfaceIdx := -1 |>)).
Proof.
  apply safe_modify; [done..|]. intros s [Hc _]. split; [exact Hc|]. right. by left.
Qed.
#[local] Hint Resolve safe_forget_active : safe.
Lemma safe_Transition_RestartScan : safe Transition_RestartScan.
Proof.
  unfold Transition_RestartScan. eapply safe_bind; [apply safe_get_controller | intros c Hc].
  destruct (pc_pWanActiveIfaceData c) as [a|] eqn:Ha; [|by apply safe_ret].
  pose proof (cached_valid _ _ Hc Ha) as Hv. unfold restart_iface. safe_tac.
Qed.
Lemma safe_Transition_TearingDown : safe Transition_TearingDown.
Proof. unfold Transition_TearingDown, tear_down_iface. safe_tac. Qed.
#[local] Hint Resolve safe_Transition_SelectingInterface safe_Transition_ReconfiguringPlatfrom
  safe_Transition_SelectedInterfaceUp safe_Transition_RestartScan safe_Transition_TearingDown
  safe_check_platform : safe.
Lemma safe_State_CheckReconfiguration : safe State_CheckReconfiguration.
Proof. unfold State_CheckReconfiguration, Transition_InterfaceSelected. safe_tac. Qed.
Lemma safe_State_ReconfigurePaltform : safe State_ReconfigurePaltform.
Proof.
  unfold State_ReconfigurePaltform, Transition_Reboot, Transition_InterfaceSelected.
  eapply safe_bind; [apply safe_get_controller | intros c Hc].
  destruct (pc_pWanActiveIfaceData c) as [a|] eqn:Ha; [|by apply safe_ret].
  pose proof (cached_valid _ _ Hc Ha) as Hv. safe_tac.
Qed.
Lemma safe_State_InterfaceTearDown : safe State_InterfaceTearDown.
Proof. unfold State_InterfaceTearDown. safe_tac. Qed.
Lemma safe_State_SelectedInterfaceDown : safe State_SelectedInterfaceDown.
Proof.
  unfold State_SelectedInterfaceDown. eapply safe_bind; [apply safe_get_controller | intros c Hc].
  destruct (pc_pWanActiveIfaceData c) as [a|] eqn:Ha; [|by apply safe_ret].
  pose proof (cached_valid _ _ Hc Ha) as Hv. safe_tac.
Qed.

Lemma safe_start_changed_virtual a I k :
  an = Some a -> iface_in sh a I -> 0 <= k < if_NoOfVirtIfs I -> safe (start_changed_virtual k).
Proof.
  intros Ha HI Hk. unfold start_changed_virtual.
  eapply safe_bind; [apply safe_get_controller | intros c Hc].
  apply safe_with_virtual; [done | apply u32_range | done | | intros p Hp; safe_tac].
  intros Hlt. exists (vifs_of I).
  assert (Z.to_nat (u32 (pc_activeInterfaceIdx c)) = a) as ->.
  { eapply cached_index; [done | by rewrite (proj1 Hc) | done..]. }
  split; [apply HI | by apply HI].
Qed.
Lemma safe_start_changed a I :
  an = Some a -> valid_iface sh a -> iface_in sh a I -> safe (start_changed a I).
Proof.
  intros Ha Hv HI. unfold start_changed.
  apply safe_when. intros _. apply safe_bind_any; [|intros _; safe_tac].
  apply safe_for_each. intros k Hk%elem_of_range. by eapply safe_start_changed_virtual.
Qed.
Lemma safe_State_SelectedInterfaceUp : safe State_SelectedInterfaceUp.
Proof.
  unfold State_SelectedInterfaceUp. eapply safe_bind; [apply safe_get_controller | intros c Hc].
  destruct (pc_pWanActiveIfaceData c) as [a|] eqn:Ha; [|by apply safe_ret].
  assert (an = Some a) as Hana by (by rewrite <- Ha, (proj1 Hc)).
  pose proof (cached_valid _ _ Hc Ha) as Hv.
  assert (safe WanMgr_CheckRescanRequired) by (apply safe_check_rescan; congruence).
  destruct (tear_down_requested c); [safe_tac|].
  apply safe_bind_any; [safe_tac | intros [|]]; [safe_tac|].
  eapply safe_bind; [by apply safe_get_iface | intros I HI].
  destruct (_ || _); [by apply safe_ret|].
  apply safe_bind_any; [by apply safe_start_changed | intros _; by apply safe_ret].
Qed.
End ParallelSafe.

(** The scanning state is only entered without a cached interface. *)
Section ScanSafe.
Context `{Platform} `{Build} (sh : Shape) (Hwf : wf_shape sh).
Context (Hsmall : sh.1.1.1 < 2 ^ 32 - 1).
#[local] Instance scan_anchor : Anchor PC := caches None.
#[local] Abbreviation safe m := (Safe (C := PC) sh (fun _ => True) m).

Lemma safe_set_active k : safe (set_ctl (fun c => c <| pc_activeInterfaceIdx := k |>)).
Proof. apply safe_modify; [done..|]. intros s [Hc _]. split; [exact Hc | by left]. Qed.
#[local] Hint Resolve safe_set_active : safe.
Lemma safe_scan_iface k l : 0 <= k -> safe (scan_iface k l).
Proof. intros Hk. unfold scan_iface. safe_tac. Qed.
Lemma safe_new_interface last k :
  0 <= k -> Safe (C := PC) sh (fun o => forall n, o = Some n -> n = k) (new_interface last k).
Proof.
  intros Hk. unfold new_interface. apply safe_with_iface; [done | done | done |]. intros i Hi.
  eapply safe_bind; [by apply safe_get_iface | intros I HI].
  eapply safe_bind; [apply safe_get_controller | intros c Hc].
  destruct (_ && _); [|by apply safe_ret].
  eapply safe_bind; [by eapply safe_deref_head | intros v _].
  apply safe_ret. intros n. by destruct (_ && _); [intros [= <-]|].
Qed.
Lemma leaky_scan_new last n :
  Leaky (C := PC) sh (new <- for_break (range n) (new_interface last) ;;
        match new with
        | Some uiLoopCount => Transition_NewInterfaceConnected uiLoopCount
        | None => ret STATE_PARALLEL_SCAN_SCANNING_INTERFACE
        end).
Proof.
  eapply (leaky_bind _ (fun o => forall n, o = Some n -> 0 <= n)).
  - apply safe_for_break_post; [done|]. intros k Hk%elem_of_range.
    eapply safe_weaken; [apply safe_new_interface; lia|]. intros o Ho m Hm. apply Ho in Hm. lia.
  - intros [m|] Hm; [|by eapply leaky_safe, (safe_ret _ (fun _ => True))].
    apply leaky_Transition_NewInterfaceConnected; auto; done.
Qed.
Lemma leaky_State_ScanningInterface : Leaky sh State_ScanningInterface.
Proof.
  unfold State_ScanningInterface. eapply leaky_bind; [apply safe_get_controller | intros c Hc].
  destruct (tear_down_requested c); [by eapply leaky_safe, safe_Transition_TearingDown|].
  apply (leaky_bind _ (fun _ => True)); [|intros r _].
  { apply safe_for_acc. intros k l Hk%elem_of_range. apply safe_scan_iface. lia. }
  apply (leaky_bind _ (fun _ => True)); [unfold clock_gettime; safe_tac | intros now _].
  eapply leaky_bind; [apply safe_get_controller | intros c' Hc'].
  destruct (_ && _); [by eapply leaky_safe, safe_Transition_SelectingInterface|].
  apply (leaky_bind _ (fun _ => True)); [apply safe_when; intros _; apply safe_set_active | intros _ _].
  by apply leaky_scan_new.
Qed.
End ScanSafe.
