(* ===== verification/ParallelSpec.v ===== *)
(** What the parallel-scan policy selects: the specification of its selection
    loop, and the effect of its transitions on the interface table. *)

From S2P Require Export ParallelFacts.

#[local] Abbreviation PC := WanMgr_Policy_Controller_t.

(** * The best interface of a group *)

(** Interface [k] takes part in the selection of group [g]. *)
Definition candidate (g : Z) (l : list DML_WAN_IFACE) (k : Z) (I : DML_WAN_IFACE) : Prop :=
  l !! Z.to_nat k = Some I /\ sel_Group (if_Selection I) = g /\ sel_Enable (if_Selection I) = true.
(** Its link can carry traffic. *)
Definition usable (I : DML_WAN_IFACE) : bool :=
  match if_VirtIfList I with v :: _ => link_usable v | [] => false end.
(** Its priority as the comparisons read it. *)
Definition priority (I : DML_WAN_IFACE) : Z := u32 (sel_Priority (if_Selection I)).

(** [i] is the last of the candidates below [n] in [P] with the least priority
    value [p]; [none] and 255 when no candidate in [P] has a value within 255. *)
Definition best (none : Z) (g : Z) (l : list DML_WAN_IFACE) (P : DML_WAN_IFACE -> bool) (n i p : Z)
    : Prop :=
  (i = none /\ p = MAX_PRIORITY_VALUE
   /\ forall j J, 0 <= j < n -> candidate g l j J -> P J = true -> MAX_PRIORITY_VALUE < priority J)
  \/ (0 <= i < n /\ p <= MAX_PRIORITY_VALUE /\ exists I, candidate g l i I /\ P I = true /\ priority I = p
      /\ forall j J, 0 <= j < n -> candidate g l j J -> P J = true ->
           p <= priority J /\ (i < j -> p < priority J)).

Lemma best_start none g l P : best none g l P 0 none MAX_PRIORITY_VALUE.
Proof. left. split_and!; [done | done | lia]. Qed.

(** The comparison [priority <= value] of the code keeps [best]. *)
Lemma best_take none g l P n i p I :
  best none g l P n i p -> 0 <= n -> candidate g l n I -> P I = true -> priority I <= p ->
  best none g l P (n + 1) n (priority I).
Proof.
  intros Hb Hn HI HP Hle. right. split; [lia|].
  destruct Hb as [(-> & -> & Hall)|(Hi & Hp & J & HJ & HPJ & HpJ & Hall)].
  - split; [done|]. exists I. do 3 (split; [done|]). intros j J Hj HJ HPJ.
    destruct (decide (j = n)) as [->|]; [|specialize (Hall j J ltac:(lia) HJ HPJ); lia].
    destruct HI as (HI & _), HJ as (HJ & _). rewrite HI in HJ. injection HJ as <-. lia.
  - split; [lia|]. exists I. do 3 (split; [done|]). intros j J' Hj HJ' HPJ'.
    destruct (decide (j = n)) as [->|]; [|specialize (Hall j J' ltac:(lia) HJ' HPJ'); lia].
    destruct HI as (HI & _), HJ' as (HJ' & _). rewrite HI in HJ'. injection HJ' as <-. lia.
Qed.
Lemma best_skip none g l P n i p :
  best none g l P n i p ->
  (forall I, candidate g l n I -> P I = true -> p < priority I) ->
  best none g l P (n + 1) i p.
Proof.
  intros Hb Hskip. destruct Hb as [(-> & -> & Hall)|(Hi & Hp & J & HJ & HPJ & HpJ & Hall)].
  - left. do 2 (split; [done|]). intros j J Hj HJ HPJ.
    destruct (decide (j = n)) as [->|]; [by apply Hskip | apply (Hall j); [lia | done..]].
  - right. split; [lia|]. split; [done|]. exists J. do 3 (split; [done|]). intros j J' Hj HJ' HPJ'.
    destruct (decide (j = n)) as [->|]; [|apply (Hall j); [lia | done..]].
    specialize (Hskip J' HJ' HPJ'). lia.
Qed.

(** * The selection loop *)

(** After [k] rounds that met no connected last-active interface: [a] is
    [activeInterfaceIdx], [l] the local variables. *)
Definition scan_inv (g : Z) (L : list DML_WAN_IFACE) (k a : Z) (l : scan_locals) : Prop :=
  best (-1) g L usable k a (sc_highPriorityActiveValue l)
  /\ (forall j J, 0 <= j < k -> candidate g L j J -> sel_ActiveLink (if_Selection J) = true ->
        usable J = false)
  /\ (if sc_lastSelectedIfaceFound l
      then 0 <= sc_highPriorityValidIface l < k
        /\ exists j J, 0 <= j < k /\ candidate g L j J /\ sel_ActiveLink (if_Selection J) = true
      else best (u32 (-1)) g L (fun _ => true) k (sc_highPriorityValidIface l) (sc_highPriorityValue l)
        /\ forall j J, 0 <= j < k -> candidate g L j J -> sel_ActiveLink (if_Selection J) = false).

(** The loop left early at [k]: the first connected last-active interface. *)
Definition scan_preferred (g : Z) (L : list DML_WAN_IFACE) (k : Z) : Prop :=
  (exists I, candidate g L k I /\ sel_ActiveLink (if_Selection I) = true /\ usable I = true)
  /\ (forall j J, 0 <= j < k -> candidate g L j J -> sel_ActiveLink (if_Selection J) = true ->
        usable J = false).

Definition with_active (a : Z) (s : St PC) : St PC := s <| ctl ::= fun c => c <| pc_activeInterfaceIdx := a |> |>.

Definition start_locals : scan_locals :=
  mk_scan_locals (u32 (-1)) MAX_PRIORITY_VALUE MAX_PRIORITY_VALUE false.

Lemma scan_inv_start g L : scan_inv g L 0 (-1) start_locals.
Proof.
  split; [apply best_start|]. split; [lia|]. split; [apply best_start | lia].
Qed.

(** The two updates of a round that does not break, as a function. *)
Definition scan_update (k : Z) (I : DML_WAN_IFACE) (a : Z) (l : scan_locals) : Z * scan_locals :=
  let l := if sel_ActiveLink (if_Selection I)
           then l <| sc_lastSelectedIfaceFound := true |> <| sc_highPriorityValidIface := k |>
                  <| sc_highPriorityValue := u32 (-1) |>
           else l in
  let l := if priority I <=? sc_highPriorityValue l
           then l <| sc_highPriorityValidIface := k |> <| sc_highPriorityValue := priority I |>
           else l in
  if usable I && (priority I <=? sc_highPriorityActiveValue l)
  then (k, l <| sc_highPriorityActiveValue := priority I |>) else (a, l).

Lemma scan_inv_skip g L k a l :
  (forall I, ~ candidate g L k I) -> scan_inv g L k a l -> scan_inv g L (k + 1) a l.
Proof.
  intros Hno (Hb & Hpref & Hlast). split.
  { apply best_skip; [done|]. intros I HI. by apply Hno in HI. }
  assert (forall j J, 0 <= j < k + 1 -> candidate g L j J -> 0 <= j < k) as Hlt.
  { intros j J Hj HJ. destruct (decide (j = k)) as [->|]; [by apply Hno in HJ | lia]. }
  split; [intros j J Hj HJ; eauto|].
  destruct (sc_lastSelectedIfaceFound l).
  - destruct Hlast as [? (j & J & Hj & HJ)]. split; [lia|]. exists j, J. split; [lia | done].
  - destruct Hlast as [Hv Hnone]. split; [|intros j J Hj HJ; eauto].
    apply best_skip; [done|]. intros I HI. by apply Hno in HI.
Qed.

Lemma scan_inv_update g L k I a l :
  0 <= k -> candidate g L k I -> scan_inv g L k a l ->
  (sel_ActiveLink (if_Selection I) = true -> usable I = false) ->
  let '(a', l') := scan_update k I a l in scan_inv g L (k + 1) a' l'.
Proof.
  intros Hk HI (Hb & Hpref & Hlast) Hnp.
  assert (forall J, candidate g L k J -> J = I) as Hsame.
  { intros J (HJ & _). destruct HI as (HI & _). congruence. }
  assert (forall j J, 0 <= j < k + 1 -> candidate g L j J -> 0 <= j < k \/ j = k /\ J = I) as Hcase.
  { intros j J Hj HJ. destruct (decide (j = k)) as [->|]; [right; auto | left; lia]. }
  assert (forall j J, 0 <= j < k + 1 -> candidate g L j J -> sel_ActiveLink (if_Selection J) = true ->
    usable J = false) as Hpref'.
  { intros j J Hj HJ. destruct (Hcase j J Hj HJ) as [?|[-> ->]]; [by apply (Hpref j) | done]. }
  assert (Hact : let hv := sc_highPriorityActiveValue l in
    if usable I && (priority I <=? hv) then best (-1) g L usable (k + 1) k (priority I)
    else best (-1) g L usable (k + 1) a hv).
  { simpl. destruct (usable I && _) eqn:E.
    - apply andb_prop in E as [E1 E2]. eapply best_take; [done.. | lia].
    - apply best_skip; [done|]. intros J ->%Hsame HU. rewrite HU in E. simpl in E. lia. }
  unfold scan_inv, scan_update. set (hv := sc_highPriorityActiveValue l) in *.
  destruct (sel_ActiveLink (if_Selection I)) eqn:EA.
  - rewrite (Hnp eq_refl) in *. simpl.
    replace (priority I <=? u32 (-1)) with true by (pose proof (u32_range (sel_Priority (if_Selection I)));
      unfold priority; change (u32 (-1)) with 4294967295; lia).
    split; [exact Hact|]. split; [done|]. split; [simpl; rsimpl; lia|].
    exists k, I. split; [lia | done].
  - assert (Hvalid : forall v p,
      (v, p) = (if priority I <=? sc_highPriorityValue l then (k, priority I)
                else (sc_highPriorityValidIface l, sc_highPriorityValue l)) ->
      if sc_lastSelectedIfaceFound l
      then 0 <= v < k + 1
        /\ exists j J, 0 <= j < k + 1 /\ candidate g L j J /\ sel_ActiveLink (if_Selection J) = true
      else best (u32 (-1)) g L (fun _ => true) (k + 1) v p
        /\ forall j J, 0 <= j < k + 1 -> candidate g L j J -> sel_ActiveLink (if_Selection J) = false).
    { intros v p Hl'. destruct (sc_lastSelectedIfaceFound l).
      - destruct Hlast as [? (j & J & Hj & HJ)]. split; [|exists j, J; split; [lia | done]].
        destruct (_ <=? _); injection Hl' as -> _; lia.
      - destruct Hlast as [Hv Hnone]. split.
        + destruct (priority I <=? sc_highPriorityValue l) eqn:E; injection Hl' as -> ->.
          * eapply best_take; [done.. | lia].
          * apply best_skip; [done|]. intros J ->%Hsame _. lia.
        + intros j J Hj HJ. destruct (Hcase j J Hj HJ) as [?|[-> ->]]; [by eapply Hnone | done]. }
    simpl in Hact. destruct (priority I <=? sc_highPriorityValue l) eqn:E; simpl; fold hv;
      destruct (usable I && (priority I <=? hv)) eqn:E2; rsimpl; fold hv;
      (split; [exact Hact|]; split; [exact Hpref'|]; by apply Hvalid).
Qed.

Section Scan.
Context `{Platform} `{Build}.
Implicit Type s : St PC.

Definition grp s : Z := pc_GroupInst (ctl s).

Lemma set_active_unlocked a b s :
  unlocked (locked (with_active a s)
    <| ctl := (ctl (locked (with_active a s))) <| pc_activeInterfaceIdx := b |> |>)
  = with_active b s.
Proof. apply (unlocked_locked (with_active b s)). Qed.

Lemma usable_head I v l : if_VirtIfList I = v :: l -> usable I = link_usable v.
Proof. unfold usable. by intros ->. Qed.

(** The locals when the loop is left early at [k]. *)
Definition preferred_locals (k : Z) (l : scan_locals) : scan_locals :=
  l <| sc_lastSelectedIfaceFound := true |> <| sc_highPriorityValidIface := k |>
    <| sc_highPriorityValue := u32 (-1) |>.

Lemma wp_scan_iface k l a s (Q : scan_locals * option unit -> St PC -> Prop) :
  db_wf (db s) -> 0 <= k < nifaces s -> nifaces s < 2 ^ 31 ->
  (forall I, candidate (grp s) (ifaces s) k I -> sel_ActiveLink (if_Selection I) = true ->
     usable I = true -> Q (preferred_locals k l, Some tt) (with_active k s)) ->
  (forall I, candidate (grp s) (ifaces s) k I ->
     (sel_ActiveLink (if_Selection I) = true -> usable I = false) ->
     Q (snd (scan_update k I a l), None) (with_active (fst (scan_update k I a l)) s)) ->
  ((forall I, ~ candidate (grp s) (ifaces s) k I) -> Q (l, None) (with_active a s)) ->
  wp (scan_iface k l) Q (with_active a s).
Proof.
  intros Hwf Hk Hsmall HP HU HN. unfold scan_iface. unfold nifaces in *.
  destruct (iface_ok_lookup s k) as (I & v & l0 & HI & Hv); [done | lia | by apply iface_ok_in |].
  apply wp_with_iface; intros Hok.
  2: { change (iface_ok s k = false) in Hok. by rewrite iface_ok_in in Hok. }
  apply wp_bind. eapply wp_get_iface; [exact HI|]. apply wp_bind, wp_gets.
  change (in_group (ctl (locked (with_active a s))) I) with (grp s =? sel_Group (if_Selection I)).
  apply wp_if; intros HG.
  - apply andb_prop in HG as [Hg He].
    assert (candidate (grp s) (ifaces s) k I) as HC by (split_and!; [done | lia | done]).
    rewrite Hv. apply wp_bind, (wp_deref _ v); [done|]. rewrite <- (usable_head _ _ _ Hv).
    rewrite s32_small by lia. specialize (HP I HC). specialize (HU I HC).
    fold (priority I).
    destruct (sel_ActiveLink (if_Selection I)) eqn:EA, (usable I) eqn:EU; simpl.
    1: { apply wp_bind, wp_modify, wp_ret.
         refine (eq_ind_r (Q _) _ (set_active_unlocked a k s)). by apply HP. }
    all: specialize (HU ltac:(auto)); unfold scan_update in HU; rewrite EA, EU in HU; simpl in HU.
    + apply wp_ret. rewrite unlocked_locked. exact HU.
    + destruct (priority I <=? sc_highPriorityActiveValue _) eqn:E2; simpl in HU.
      * apply wp_bind, wp_modify, wp_ret.
        refine (eq_ind_r (Q _) _ (set_active_unlocked a k s)). exact HU.
      * apply wp_ret. rewrite unlocked_locked. exact HU.
    + apply wp_ret. rewrite unlocked_locked. exact HU.
  - apply wp_ret. rewrite unlocked_locked. apply HN. intros J (HJ & Hg & He).
    change (ifaces (locked (with_active a s))) with (ifaces s) in HI. rewrite HI in HJ.
    injection HJ as <-. rewrite He in HG. lia.
Qed.

(** The whole loop: it leaves only [activeInterfaceIdx] changed. *)
Lemma wp_scan_loop n s (Q : scan_locals * option unit -> St PC -> Prop) :
  db_wf (db s) -> n = nifaces s -> nifaces s < 2 ^ 31 -> pc_activeInterfaceIdx (ctl s) = -1 ->
  (forall k l, 0 <= k < n -> sc_highPriorityValidIface l = k ->
     scan_preferred (grp s) (ifaces s) k -> Q (l, Some tt) (with_active k s)) ->
  (forall a l, scan_inv (grp s) (ifaces s) n a l -> Q (l, None) (with_active a s)) ->
  wp (for_acc (range n) start_locals scan_iface) Q s.
Proof.
  intros Hwf -> Hsmall Ha HP HN.
  assert (0 <= nifaces s) as Hpos by (destruct Hwf as ((? & _) & _); unfold nifaces; lia).
  apply (wp_for_acc_range (fun k l s' => exists a, s' = with_active a s /\
    scan_inv (grp s) (ifaces s) k a l)).
  - exists (-1). split; [|apply scan_inv_start]. destruct s as [c ? ? ?]. simpl in Ha.
    unfold with_active. destruct c. simpl in Ha. by subst.
  - intros k l s1 Hk (a & -> & HI). apply wp_scan_iface; [done..| | |]; simpl.
    + intros I HC HA HU. apply HP; [done | done |]. split; [by exists I | apply HI].
    + intros I HC Hnp. eexists. split; [done|].
      assert (let '(a', l') := scan_update k I a l in scan_inv (grp s) (ifaces s) (k + 1) a' l') as HU.
      { apply scan_inv_update; [lia | done..]. }
      by destruct (scan_update k I a l).
    + intros Hno. exists a. split; [done|]. by apply scan_inv_skip.
  - intros l s1 (a & -> & HI). rewrite Z.max_r in HI by lia. by apply HN.
Qed.
End Scan.
