(* ===== verification/ParallelMoves.v ===== *)
(** What a pass of a selection policy leaves to the other threads: it makes no
    interface active, moves no interface between groups and writes the
    selection of no group but its own. *)

From S2P Require Export ParallelSpec.

#[local] Abbreviation PC := WanMgr_Policy_Controller_t.

(** * The relation *)

Section Relation.
Context {C : Type}.
Implicit Type s : St C.

(** The groups the interfaces are configured for. *)
Definition ifgroups s : list Z := (fun I => sel_Group (if_Selection I)) <$> ifaces s.

(** No interface becomes active and none moves; the selections satisfy [P]. *)
Definition selections (P : list Z -> list Z -> Prop) s s' : Prop :=
  (ifgroups s' = ifgroups s /\ counts s' = counts s)
  /\ (forall i, statuses s' !! i = Some WAN_IFACE_ACTIVE -> statuses s !! i = Some WAN_IFACE_ACTIVE)
  /\ P (selected s) (selected s').
Definition same_but (g : Z) (l l' : list Z) : Prop :=
  forall j, j <> Z.to_nat (g - 1) -> l' !! j = l !! j.

#[export] Instance same_but_preorder g : PreOrder (same_but g).
Proof.
  split; [by intros l j|]. intros l1 l2 l3 H1 H2 j Hj. by rewrite H2, H1.
Qed.
#[export] Instance selections_preorder P `{!PreOrder P} : PreOrder (selections P).
Proof.
  split; [by intros s; split|]. intros s1 s2 s3 ([H1 H1'] & H2 & H3) ([H4 H4'] & H5 & H6).
  split; [split; congruence|]. split; [auto | by etransitivity].
Qed.

Definition sel_view s := (selected s, statuses s, (ifgroups s, counts s)).
Lemma selections_view P `{!PreOrder P} s s' : sel_view s' = sel_view s -> selections P s s'.
Proof.
  intros Hv. assert (selected s' = selected s) as E1 by exact (f_equal (fun x => fst (fst x)) Hv).
  assert (statuses s' = statuses s) as E2 by exact (f_equal (fun x => snd (fst x)) Hv).
  assert (ifgroups s' = ifgroups s) as E3 by exact (f_equal (fun x => fst (snd x)) Hv).
  assert (counts s' = counts s) as E4 by exact (f_equal (fun x => snd (snd x)) Hv).
  unfold selections. rewrite E1, E2, E3, E4. by split_and!.
Qed.

Context (P : list Z -> list Z -> Prop) `{!PreOrder P}.
#[local] Abbreviation R := (selections P).

Lemma moves_sel {A} (m : M (St C) A) : Keeps sel_view m -> Moves R m.
Proof. apply moves_keeps. intros s s'. by apply selections_view. Qed.

Lemma moves_guarded {A} (ok : St C -> bool) none (body : M (St C) A) :
  Moves R body -> Moves R (fun s => guarded (ok s) none body s).
Proof.
  intros Hb s a s'. unfold guarded. destruct (ok s); [|by intros [= _ <-]].
  destruct (body (locked s)) as [[b s1]|] eqn:E; [|done]. intros [= _ <-].
  apply Hb in E. exact E.
Qed.
Lemma moves_ext {A} (m1 m2 : M (St C) A) : (forall s, m1 s = m2 s) -> Moves R m2 -> Moves R m1.
Proof. intros He Hm s a s'. rewrite He. apply Hm. Qed.
Lemma moves_with_iface {A} none idx (body : iface_ptr -> M (St C) A) :
  (forall i, Moves R (body i)) -> Moves R (with_iface none idx body).
Proof. intros. eapply moves_ext; [apply with_iface_eq | by apply moves_guarded]. Qed.
Lemma moves_with_group {A} none idx (body : nat -> M (St C) A) :
  (forall i, Moves R (body i)) -> Moves R (with_group none idx body).
Proof. intros. eapply moves_ext; [apply with_group_eq | by apply moves_guarded]. Qed.
Lemma moves_with_config {A} (body : M (St C) A) : Moves R body -> Moves R (with_config body).
Proof.
  intros Hb s a s' E. rewrite (with_config_eq a) in E.
  by apply (moves_guarded (fun _ => true) a body Hb s a s').
Qed.
Lemma moves_upd_iface i f :
  (forall I, sel_Group (if_Selection (f I)) = sel_Group (if_Selection I)) ->
  (forall I, sel_Status (if_Selection (f I)) = WAN_IFACE_ACTIVE ->
     sel_Status (if_Selection I) = WAN_IFACE_ACTIVE) ->
  Moves R (upd_iface i f).
Proof.
  intros Hg Hs. apply moves_bind; [typeclasses eauto | apply moves_sel, keeps_get_iface | intros _].
  apply moves_modify. intros s. split; [split; [|done]|].
  { unfold ifgroups, ifaces. rsimpl. apply list_eq. intros j.
    rewrite !list_lookup_fmap, list_lookup_alter. destruct (decide _) as [->|]; [|done].
    destruct (w_pIface (db s) !! j); simpl; [by rewrite Hg | done]. }
  split; [|done]. intros j Ha. pose proof (eq_trans (eq_sym (statuses_alter s i f j)) Ha) as X.
  destruct (decide _) as [->|]; [|exact X]. unfold statuses. rewrite list_lookup_fmap.
  destruct (ifaces s !! j); simpl in *; [|done]. f_equal. apply Hs. by injection X.
Qed.
Lemma moves_upd_group i f :
  (forall G, g_SelectedInterface (f G) = g_SelectedInterface G) -> Moves R (upd_group i f).
Proof.
  intros Hf. apply moves_bind; [typeclasses eauto | apply moves_sel, keeps_get_group | intros _].
  apply moves_modify. intros s. apply selections_view; [done|]. unfold sel_view.
  refine (f_equal (fun x => (x, statuses s, (ifgroups s, counts s))) _).
  exact (f_equal (fun x => snd (fst x)) (act_view_alter_group s i f Hf)).
Qed.
End Relation.

#[export] Hint Resolve moves_ret moves_gets moves_deref : moves.
#[export] Hint Extern 2 (Moves (selections _) (upd_iface _ _)) =>
  (apply moves_upd_iface; [typeclasses eauto | intros; reflexivity
    | intros ?; rsimpl; first [done | intros; assumption]]) : moves.
#[export] Hint Extern 2 (Moves (selections _) (upd_group _ _)) =>
  (apply moves_upd_group; [typeclasses eauto | intros; reflexivity]) : moves.
#[export] Hint Extern 3 (Moves (selections _) _) =>
  (apply moves_sel; [typeclasses eauto | solve [keeps_tac]]) : moves.

Ltac moves_step :=
  first
  [ solve [auto 3 with moves nocore typeclass_instances]
  | lazymatch goal with
    | |- Moves _ (bind _ _) => apply moves_bind; [typeclasses eauto | | intros ?]
    | |- Moves _ (for_each _ _) => apply moves_for_each; [typeclasses eauto | intros ?]
    | |- Moves _ (for_break _ _) => apply moves_for_break; [typeclasses eauto | intros ?]
    | |- Moves _ (for_acc _ _ _) => apply moves_for_acc; [typeclasses eauto | intros ? ?]
    | |- Moves _ (when _ _) => apply moves_when; [typeclasses eauto |]
    | |- Moves _ (with_iface _ _ _) => apply moves_with_iface; [typeclasses eauto | intros ?]
    | |- Moves _ (with_group _ _ _) => apply moves_with_group; [typeclasses eauto | intros ?]
    | |- Moves _ (with_config _) => apply moves_with_config; [typeclasses eauto |]
    | |- Moves _ (match ?x with _ => _ end) => destruct x
    end
  | progress cbv beta zeta
  | progress autounfold with monad ].
Ltac moves_tac := repeat moves_step.

(** * The policy *)

Section Policy.
Context `{Platform} `{Build}.
Context (P : list Z -> list Z -> Prop) `{!PreOrder P}.
#[local] Abbreviation moves m := (Moves (selections (C := PC) P) m).

Lemma moves_ps_update : moves WanMgr_UpdateControllerData.
Proof. unfold WanMgr_UpdateControllerData. moves_tac. Qed.
Lemma moves_set_active_link i b : moves (DmlSetWanActiveLinkInPSMDB i b).
Proof. unfold DmlSetWanActiveLinkInPSMDB. moves_tac. Qed.
Lemma moves_lan_bridge p b : moves (WanMgr_RdkBus_AddIntfToLanBridge p b).
Proof. unfold WanMgr_RdkBus_AddIntfToLanBridge, WanMgr_RdkBus_SetParamValues. moves_tac. Qed.
#[local] Hint Resolve moves_set_active_link moves_lan_bridge : moves.
Lemma moves_check_platform : moves WanMgr_CheckIfPlatformReconfiguringRequired.
Proof.
  unfold WanMgr_CheckIfPlatformReconfiguringRequired, WanMgr_RdkBus_GetParamValues. moves_tac.
Qed.
Lemma moves_check_rescan : moves WanMgr_CheckRescanRequired.
Proof. unfold WanMgr_CheckRescanRequired. moves_tac. Qed.
Lemma moves_Transition_Start : moves Transition_Start.
Proof. unfold Transition_Start, max_timeout, start_SelectionTimer. moves_tac. Qed.
Lemma moves_start_virtual i k : moves (start_virtual i k).
Proof.
  unfold start_virtual, WanMgr_StartInterfaceStateMachine. moves_tac.
Qed.
#[local] Hint Resolve moves_start_virtual : moves.
Lemma moves_Transition_NewInterfaceConnected i : moves (Transition_NewInterfaceConnected i).
Proof.
  unfold Transition_NewInterfaceConnected. moves_tac.
Qed.
Lemma moves_Transition_ReconfiguringPlatfrom : moves Transition_ReconfiguringPlatfrom.
Proof. unfold Transition_ReconfiguringPlatfrom, WanMgr_RdkBus_SetParamValues. moves_tac. Qed.
Lemma moves_Transition_SelectedInterfaceUp : moves Transition_SelectedInterfaceUp.
Proof. unfold Transition_SelectedInterfaceUp. moves_tac. Qed.
End Policy.
