(* ===== verification/ParallelTransitions.v ===== *)
(** What the transitions of the parallel-scan policy that write the selection of
    its group do to the interface table. *)

From S2P Require Export ParallelMoves.

#[local] Abbreviation PC := WanMgr_Policy_Controller_t.

(** * The transitions that write the selection of the group *)

Section Transitions.
Context `{Platform} `{Build}.
#[local] Instance any_anchor : Anchor PC := fun _ => True.
Implicit Type s : St PC.

Definition active_idx s : Z := pc_activeInterfaceIdx (ctl s).
(** The part of the controller the selection depends on. *)
Definition pol_ctl s : Z * Z := (grp s, active_idx s).

Lemma selected_alter s g f :
  selected (s <| db ::= fun d => d <| w_Group := alter f g (w_Group d) |> |>)
  = g_SelectedInterface <$> alter f g (groups s).
Proof. reflexivity. Qed.

(** Writing the selection of an existing group. *)
Lemma wp_set_group_selected g v s (Q : ANSC_STATUS -> St PC -> Prop) :
  db_wf (db s) -> 1 <= g <= ngroups s -> ngroups s < 2 ^ 32 ->
  (forall s', ctl s' = ctl s -> ifaces s' = ifaces s -> config s' = config s ->
     shape_of (db s') = shape_of (db s) ->
     groups s' = alter (fun G => G <| g_SelectedInterface := v |> <| g_InitialScanComplete := true |>)
                   (Z.to_nat (g - 1)) (groups s) ->
     selected s' !! Z.to_nat (g - 1) = Some v -> same_but g (selected s) (selected s') ->
     Q ANSC_STATUS_SUCCESS s') ->
  wp (WanMgr_SetGroupSelectedIface g v) Q s.
Proof.
  intros Hwf Hg Hn HQ. unfold WanMgr_SetGroupSelectedIface. rewrite u32_small by lia.
  apply wp_bind, wp_with_group; intros Hok.
  2: { rewrite group_ok_in in Hok; [done | done | unfold ngroups in *; lia]. }
  destruct (group_ok_lookup s (g - 1)) as [G HG]; [done | lia | done |].
  eapply wp_upd_group; [exact HG|]. apply wp_ret, HQ; [done.. | apply (shape_alter_group (locked s)) | done | |].
  - unfold selected, unlocked, locked, groups in *. rsimpl.
    rewrite list_lookup_fmap, list_lookup_alter_eq, HG. done.
  - intros j Hj. unfold selected, unlocked, locked, groups in *. rsimpl.
    by rewrite !list_lookup_fmap, list_lookup_alter_ne.
Qed.

(** The interfaces of the group after a selection of [a]. *)
Definition select_iface (g a k : Z) (I : DML_WAN_IFACE) : DML_WAN_IFACE :=
  if (g =? sel_Group (if_Selection I)) && sel_Enable (if_Selection I) then
    if k =? u32 a
    then selection_as WAN_IFACE_SELECTED true I
    else selection_as WAN_IFACE_NOT_SELECTED false I
  else I.

Definition ready s : Prop :=
  db_wf (db s) /\ bounded s /\ nifaces s < 2 ^ 31 /\ 1 <= grp s <= ngroups s
  /\ pc_TotalIfaces (ctl s) = nifaces s.

Lemma db_wf_nifaces s : db_wf (db s) -> 0 <= nifaces s.
Proof. intros ((? & _) & _). done. Qed.

Lemma wp_Transition_SelectingInterface s (Q : WcPsPolicyState_t -> St PC -> Prop) :
  ready s ->
  (forall s', ifaces s' = update_ifaces (nifaces s) (select_iface (grp s) (active_idx s)) (ifaces s) ->
     config s' = config s -> ctl s' = (ctl s) <| pc_SelectionTimeOutStart := 0 |> ->
     groups s' = alter (fun G => G <| g_SelectedInterface := u32 (active_idx s + 1) |>
                                   <| g_InitialScanComplete := true |>)
                   (Z.to_nat (grp s - 1)) (groups s) ->
     selected s' !! Z.to_nat (grp s - 1) = Some (u32 (active_idx s + 1)) ->
     same_but (grp s) (selected s) (selected s') -> shape_of (db s') = shape_of (db s) ->
     Q STATE_PARALLEL_SCAN_CHECK_RECONFIGURATION s') ->
  wp Transition_SelectingInterface Q s.
Proof.
  intros (Hwf & [Hn _] & Hsm & Hg & Ht) HQ. unfold Transition_SelectingInterface.
  apply wp_bind, wp_modify. set (s0 := s <| ctl := _ |>).
  apply wp_bind, wp_gets, wp_bind. change (pc_TotalIfaces (ctl s0)) with (pc_TotalIfaces (ctl s)). rewrite Ht.
  apply (wp_update_ifaces (fun s => (ctl s, groups s, config s)) _
    (select_iface (grp s) (active_idx s))); [done | done | |].
  - intros k I s1 Hk HI0 HI Hc HV. apply wp_bind. eapply wp_get_iface; [exact HI|].
    change (in_group (ctl s0) I) with (grp s =? sel_Group (if_Selection I)).
    unfold select_iface. apply wp_when; intros Ht1; rewrite Ht1.
    2: { by rewrite list_insert_id. }
    unfold set_selection, DmlSetWanActiveLinkInPSMDB. apply wp_bind.
    change (is_active (ctl s0) k) with (k =? u32 (active_idx s)).
    destruct (k =? u32 (active_idx s)); (eapply wp_upd_iface; [exact HI|]);
      apply wp_bind; (eapply wp_intro; [reflexivity|]); apply wp_ret; (split; [done|]; split; [done|]);
      exact (list_alter_at (selection_as _ _) _ _ _ HI).
  - intros s1 Hc1 HV1 HI1.
    assert (ctl s1 = ctl s0) as Ec by exact (f_equal (fun x => fst (fst x)) HV1).
    assert (groups s1 = groups s) as EG by exact (f_equal (fun x => snd (fst x)) HV1).
    assert (selected s1 = selected s) as ES by (unfold selected; by rewrite EG).
    assert (shape_of (db s1) = shape_of (db s)) as Esh.
    { eapply (shape_update_ifaces s0); [exact Hc1 | exact EG | exact HI1 |].
      intros k I. unfold select_iface. by destruct (_ && _); [destruct (_ =? _)|]. }
    assert (ngroups s1 = ngroups s) as En by (by injection Hc1).
    change (pc_GroupInst (ctl s0)) with (grp s). change (pc_activeInterfaceIdx (ctl s0)) with (active_idx s).
    apply wp_bind, wp_set_group_selected; [unfold db_wf; by rewrite Esh | lia | lia |].
    intros s2 Hc2 Hi2 Hcfg2 Esh2 HG2 HS2 Hsb. apply wp_ret, HQ.
    + by rewrite Hi2, HI1.
    + rewrite Hcfg2. exact (f_equal snd HV1).
    + by rewrite Hc2, Ec.
    + by rewrite HG2, EG.
    + exact HS2.
    + by rewrite <- ES.
    + by rewrite Esh2, Esh.
Qed.

(** *** [Transition_RestartScan] *)

Definition unlink_iface (g : Z) (I : DML_WAN_IFACE) : DML_WAN_IFACE :=
  if g =? sel_Group (if_Selection I) then I <| if_Selection; sel_ActiveLink := false |> else I.
Definition set_status (st : WANMGR_IFACE_SELECTION) (I : DML_WAN_IFACE) : DML_WAN_IFACE :=
  I <| if_Selection; sel_Status := st |>.

(** The controller but for its time-out and its reset request. *)
Definition fixed_ctl s := (pc_GroupInst (ctl s), pc_activeInterfaceIdx (ctl s), pc_TotalIfaces (ctl s),
  pc_pWanActiveIfaceData (ctl s)).

(** A round that rewrites its interface first, and then keeps the table. *)
Lemma wp_round {A} (V : St PC -> A) F (m : M (St PC) unit) k I s (Q : unit -> St PC -> Prop) :
  ifaces s !! k = Some I ->
  (forall s', counts s' = counts s -> ifaces s' = <[k := F I]> (ifaces s) -> V s' = V s -> Q tt s') ->
  (forall s1, (counts (s1 <| db ::= fun d => d <| w_pIface := alter F k (w_pIface d) |> |>),
               V (s1 <| db ::= fun d => d <| w_pIface := alter F k (w_pIface d) |> |>)) = (counts s1, V s1)) ->
  Total m -> Keeps (fun s => (counts s, ifaces s, V s)) m ->
  wp (upd_iface k F ;; m) Q s.
Proof.
  intros HI HQ HV Ht Hk. apply wp_bind. eapply wp_upd_iface; [exact HI|].
  set (s1 := s <| db ::= _ |>). specialize (HV s).
  eapply wp_mono; [by apply (wp_total _ _ s1 Ht Hk)|]. intros [] s2 E. apply HQ.
  - transitivity (counts s1); [exact (f_equal (fun x => fst (fst x)) E) | exact (f_equal fst HV)].
  - transitivity (ifaces s1); [exact (f_equal (fun x => snd (fst x)) E)|].
    exact (list_alter_at F _ _ _ HI).
  - transitivity (V s1); [exact (f_equal snd E) | exact (f_equal snd HV)].
Qed.

Lemma wp_restart_loop c n s (Q : unit -> St PC -> Prop) :
  db_wf (db s) -> n <= nifaces s ->
  (forall s', ifaces s' = update_ifaces n (fun _ => unlink_iface (pc_GroupInst c)) (ifaces s) ->
     groups s' = groups s -> fixed_ctl s' = fixed_ctl s -> shape_of (db s') = shape_of (db s) -> Q tt s') ->
  wp (for_each (range n) (fun k => with_iface tt k (restart_iface c k))) Q s.
Proof.
  intros Hwf Hn HQ.
  apply (wp_update_ifaces (fun s => (fixed_ctl s, groups s)) _ (fun _ => unlink_iface (pc_GroupInst c)));
    [done | done | |].
  - intros k I s1 Hk _ HI Hcnt HV. apply wp_bind. eapply wp_get_iface; [exact HI|].
    unfold in_group, unlink_iface. apply wp_when; intros Hin; rewrite Hin; [|by rewrite list_insert_id].
    eapply (wp_round (fun s => (fixed_ctl s, groups s))); [exact HI | | done | |].
    + intros s2 Hcnt2 HI2 HV2. do 2 (split; [done|]). exact HI2.
    + unfold DmlSetWanActiveLinkInPSMDB, max_timeout, WanMgr_RdkBus_AddIntfToLanBridge,
        WanMgr_RdkBus_SetParamValues. total_tac.
    + unfold DmlSetWanActiveLinkInPSMDB, max_timeout, WanMgr_RdkBus_AddIntfToLanBridge,
        WanMgr_RdkBus_SetParamValues. keeps_tac.
  - intros s1 Hcnt HV HI. pose proof (f_equal snd HV) as HG. apply HQ; [done | done | exact (f_equal fst HV) |].
    apply (shape_update_ifaces s s1 _ _ Hcnt HG HI).
    intros k I. unfold unlink_iface. by destruct (_ =? _).
Qed.

Lemma wp_Transition_RestartScan a I0 s (Q : WcPsPolicyState_t -> St PC -> Prop) :
  ready s -> pc_pWanActiveIfaceData (ctl s) = Some a -> ifaces s !! a = Some I0 ->
  (forall s', ifaces s' = update_ifaces (nifaces s) (fun _ => unlink_iface (grp s))
                (<[a := set_status WAN_IFACE_VALIDATING I0]> (ifaces s)) ->
     cfg_ResetFailOverScan (config s') = true -> grp s' = grp s -> active_idx s' = -1 ->
     selected s' !! Z.to_nat (grp s - 1) = Some 0 -> same_but (grp s) (selected s) (selected s') ->
     shape_of (db s') = shape_of (db s) -> Q STATE_PARALLEL_SCAN_SCANNING_INTERFACE s') ->
  wp Transition_RestartScan Q s.
Proof.
  intros (Hwf & [Hn _] & Hsm & Hg & Ht) Hp HI0 HQ. unfold Transition_RestartScan.
  apply wp_bind, wp_gets. rewrite Hp.
  apply wp_bind. eapply wp_upd_iface; [exact HI0|]. set (s1 := s <| db ::= _ |>).
  assert (shape_of (db s1) = shape_of (db s)) as Esh1 by by apply shape_alter_iface.
  apply wp_bind, wp_set_group_selected; [unfold db_wf; by rewrite Esh1 | done | done |].
  intros s2 Hc2 Hi2 _ Esh2 HG2 HS2 Hsb2. apply wp_bind, wp_modify. set (s3 := s2 <| ctl := _ |>).
  rewrite Esh1 in Esh2. apply wp_bind. rewrite Ht. apply wp_restart_loop.
  { unfold db_wf. change (db s3) with (db s2). by rewrite Esh2. }
  { assert (nifaces s3 = nifaces s) as -> by (by injection Esh2). done. }
  intros s4 HI4 HG4 Hf4 Esh4. assert (shape_of (db s4) = shape_of (db s)) by (rewrite Esh4; exact Esh2).
  apply wp_bind. eapply (safe_keeps (shape_of (db s)) (fun _ => True)
    (fun s => (ifaces s, selected s, fixed_ctl s))).
  { assert (wf_shape (shape_of (db s))) by done. safe_tac. }
  { keeps_tac. apply keeps_upd_group_view. intros s5.
    refine (f_equal (fun x => (ifaces s5, x, fixed_ctl s5)) _). by apply selected_alter_same. }
  { done. }
  intros _ s5 [Esh5 _] _ HV5 _. apply wp_bind, wp_with_config, wp_modify, wp_bind, wp_bind.
  eapply wp_intro; [reflexivity|]. apply wp_modify, wp_ret.
  assert (ifaces s5 = ifaces s4) as E1 by exact (f_equal (fun x => fst (fst x)) HV5).
  assert (selected s5 = selected s4) as E2 by exact (f_equal (fun x => snd (fst x)) HV5).
  assert (fixed_ctl s5 = fixed_ctl s3) as E3 by (rewrite <- Hf4; exact (f_equal snd HV5)).
  assert (selected s4 = selected s2) as E4 by (unfold selected; by rewrite HG4).
  rewrite E4 in E2. apply HQ.
  - transitivity (ifaces s5); [done|]. rewrite E1, HI4.
    change (ifaces s3) with (ifaces s2). rewrite Hi2. f_equal. by apply (list_alter_at (set_status _)).
  - done.
  - transitivity (pc_GroupInst (ctl s2)); [|by rewrite Hc2].
    exact (f_equal (fun x => fst (fst (fst x))) E3).
  - exact (f_equal (fun x => snd (fst (fst x))) E3).
  - change (selected s5 !! Z.to_nat (grp s - 1) = Some 0). by rewrite E2.
  - change (same_but (grp s) (selected s) (selected s5)). by rewrite E2.
  - exact Esh5.
Qed.

(** *** [Transition_TearingDown] *)

Definition disable_invalid (I : DML_WAN_IFACE) : DML_WAN_IFACE :=
  match if_VirtIfList I with
  | v :: _ => if v_Status v ≟ WAN_IFACE_STATUS_INVALID
              then upd_first_vif (fun v => v <| v_Status := WAN_IFACE_STATUS_DISABLED |>) I else I
  | [] => I
  end.
Definition torn_iface (c : PC) (I : DML_WAN_IFACE) : DML_WAN_IFACE :=
  if in_group c I then
    let I := disable_invalid (set_status WAN_IFACE_NOT_SELECTED I) in
    if pc_GroupCfgChanged c then I <| if_Selection; sel_ActiveLink := false |> else I
  else I.

Lemma vifs_of_torn c I : vifs_of (torn_iface c I) = vifs_of I.
Proof.
  unfold torn_iface, disable_invalid, set_status. destruct (in_group c I); [|done].
  simpl. unfold set at 1. simpl. destruct (if_VirtIfList I) as [|v l] eqn:E; simpl.
  { by destruct (pc_GroupCfgChanged c). }
  assert (vifs_of (upd_first_vif (fun v => v <| v_Status := WAN_IFACE_STATUS_DISABLED |>) I) = vifs_of I)
    as Hv by by apply vifs_of_alter.
  destruct (_ ≟ _), (pc_GroupCfgChanged c); try done; exact Hv.
Qed.

Lemma disable_invalid_sel I : if_Selection (disable_invalid I) = if_Selection I.
Proof. unfold disable_invalid. destruct (if_VirtIfList I); [done|]. by destruct (_ ≟ _). Qed.
(** The selection of an interface that is torn down. *)
Lemma torn_sel c I :
  if_Selection (torn_iface c I) =
  if in_group c I then
    let S := (if_Selection I) <| sel_Status := WAN_IFACE_NOT_SELECTED |> in
    if pc_GroupCfgChanged c then S <| sel_ActiveLink := false |> else S
  else if_Selection I.
Proof.
  unfold torn_iface. destruct (in_group c I); [|done]. simpl.
  set (J := disable_invalid _). assert (if_Selection J = if_Selection (set_status WAN_IFACE_NOT_SELECTED I))
    as E by apply disable_invalid_sel.
  destruct (pc_GroupCfgChanged c); [|exact E]. unfold set at 1. simpl. by rewrite E.
Qed.
Lemma torn_group c I : sel_Group (if_Selection (torn_iface c I)) = sel_Group (if_Selection I).
Proof. rewrite torn_sel. by destruct (in_group c I), (pc_GroupCfgChanged c). Qed.
Lemma torn_status c I :
  sel_Status (if_Selection (torn_iface c I)) =
  if in_group c I then WAN_IFACE_NOT_SELECTED else sel_Status (if_Selection I).
Proof. rewrite torn_sel. by destruct (in_group c I), (pc_GroupCfgChanged c). Qed.

(** What an update of an interface leaves alone. *)
Definition rest s := (ctl s, groups s, config s, counts s).
Lemma wp_upd_iface_at k f I s (Q : unit -> St PC -> Prop) :
  ifaces s !! k = Some I ->
  (forall s', ifaces s' = <[k := f I]> (ifaces s) -> rest s' = rest s -> Q tt s') ->
  wp (upd_iface k f) Q s.
Proof.
  intros HI HQ. eapply wp_upd_iface; [exact HI|]. apply HQ; [|done]. exact (list_alter_at f _ _ _ HI).
Qed.

Lemma wp_tear_down_round c k i I v l s (Q : unit -> St PC -> Prop) :
  ifaces s !! i = Some I -> if_VirtIfList I = v :: l ->
  (forall s', ifaces s' = <[i := torn_iface c I]> (ifaces s) -> rest s' = rest s -> Q tt s') ->
  wp (tear_down_iface c k i) Q s.
Proof.
  intros HI Hv HQ. assert (i < length (ifaces s))%nat as Hi by (by eapply lookup_lt_Some).
  unfold tear_down_iface. apply wp_bind. eapply wp_get_iface; [exact HI|].
  apply wp_when; intros Hin.
  2: { apply HQ; [|done]. unfold torn_iface. rewrite Hin. by rewrite list_insert_id. }
  apply wp_bind. eapply wp_upd_iface_at; [exact HI|]. intros s1 HI1 HR1.
  rewrite Hv. apply wp_bind, (wp_deref _ v); [done|]. apply wp_bind.
  set (I1 := set_status WAN_IFACE_NOT_SELECTED I) in *.
  apply (wp_mono _ (fun _ s2 => ifaces s2 = <[i := disable_invalid I1]> (ifaces s) /\ rest s2 = rest s)).
  - assert (disable_invalid I1 = (if v_Status v ≟ WAN_IFACE_STATUS_INVALID then
      upd_first_vif (fun v => v <| v_Status := WAN_IFACE_STATUS_DISABLED |>) I1 else I1)) as ->.
    { unfold disable_invalid. change (if_VirtIfList I1) with (if_VirtIfList I). by rewrite Hv. }
    apply wp_when; intros E; rewrite E; [|by rewrite HI1, HR1].
    eapply wp_upd_iface_at; [rewrite HI1; by apply list_lookup_insert_eq|].
    intros s2 HI2 HR2. rewrite HI2, HI1, list_insert_insert_eq. split; [done | congruence].
  - intros _ s2 [HI2 HR2]. unfold torn_iface in HQ. rewrite Hin in HQ. fold I1 in HQ.
    apply wp_when; intros E; rewrite E in HQ; [|by apply HQ].
    apply wp_bind. eapply wp_upd_iface_at; [rewrite HI2; by apply list_lookup_insert_eq|].
    intros s3 HI3 HR3. apply wp_bind. eapply wp_intro; [reflexivity|]. apply wp_ret, HQ.
    + transitivity (ifaces s3); [done|]. rewrite HI3, HI2. by apply list_insert_insert_eq.
    + transitivity (rest s3); [done | congruence].
Qed.

Lemma wp_Transition_TearingDown s (Q : WcPsPolicyState_t -> St PC -> Prop) :
  ready s -> pc_pWanActiveIfaceData (ctl s) <> None ->
  (forall s', ifaces s' = update_ifaces (nifaces s) (fun _ => torn_iface (ctl s)) (ifaces s) ->
     config s' = config s -> ctl s' = ctl s ->
     selected s' !! Z.to_nat (grp s - 1) = Some 0 -> same_but (grp s) (selected s) (selected s') ->
     shape_of (db s') = shape_of (db s) -> Q STATE_PARALLEL_SCAN_INTERFACE_TEAR_DOWN s') ->
  wp Transition_TearingDown Q s.
Proof.
  intros (Hwf & [Hn _] & Hsm & Hg & Ht) Hp HQ. unfold Transition_TearingDown.
  apply wp_bind, wp_gets. destruct (pc_pWanActiveIfaceData (ctl s)) as [a|]; [|done].
  apply wp_bind. rewrite Ht.
  apply (wp_update_ifaces (fun s => (ctl s, groups s, config s)) _ (fun _ => torn_iface (ctl s)));
    [done | done | |].
  - intros k I s1 Hk HI0 HI Hcnt HV.
    destruct (iface_ok_lookup s k) as (I' & v & l & HI' & Hv);
      [done | lia | apply iface_ok_in; [done | unfold nifaces in *; lia] |].
    rewrite HI0 in HI'. injection HI' as <-.
    eapply wp_tear_down_round; [exact HI | exact Hv |]. intros s2 HI2 HR2.
    split; [exact (f_equal snd HR2)|]. split; [exact (f_equal fst HR2) | done].
  - intros s1 Hcnt HV HI1.
    assert (groups s1 = groups s) as HG1 by exact (f_equal (fun x => snd (fst x)) HV).
    assert (selected s1 = selected s) as HS1 by (unfold selected; by rewrite HG1).
    assert (shape_of (db s1) = shape_of (db s)) as Esh.
    { apply (shape_update_ifaces s s1 _ _ Hcnt HG1 HI1). intros. apply vifs_of_torn. }
    assert (ngroups s1 = ngroups s) as En by (by injection Hcnt).
    apply wp_bind, wp_set_group_selected; [unfold db_wf; by rewrite Esh | unfold grp in *; lia | lia |].
    intros s2 Hc2 Hi2 Hcfg2 Esh2 _ HS2 Hsb. apply wp_ret, HQ.
    + by rewrite Hi2, HI1.
    + rewrite Hcfg2. exact (f_equal snd HV).
    + rewrite Hc2. exact (f_equal (fun x => fst (fst x)) HV).
    + exact HS2.
    + by rewrite <- HS1.
    + by rewrite Esh2, Esh.
Qed.
End Transitions.
