(* ===== verification/ParallelInv.v ===== *)
(** The invariant of a parallel-scan thread, preserved by a pass of its loop:
    its group selects the active interface exactly in the states after a
    selection. *)

From S2P Require Export ParallelTransitions.

#[local] Abbreviation PC := WanMgr_Policy_Controller_t.

Section Invariant.
Context `{Platform} `{Build}.
Implicit Type s : St PC.

(** The states in which an interface of the group is selected. *)
Definition settled (st : WcPsPolicyState_t) : bool :=
  match st with
  | STATE_PARALLEL_SCAN_CHECK_RECONFIGURATION | STATE_PARALLEL_SCAN_RECONFIGURE_PLATFORM
  | STATE_PARALLEL_SCAN_REBOOT | STATE_PARALLEL_SCAN_SELECTED_INTERFACE_UP
  | STATE_PARALLEL_SCAN_SELECTED_INTERFACE_DOWN => true
  | _ => false
  end.

Definition own_selection s : option Z := selected s !! Z.to_nat (grp s - 1).

Definition sel_inv (st : WcPsPolicyState_t) s : Prop :=
  if settled st then
    0 <= active_idx s < nifaces s /\ ifgroups s !! Z.to_nat (active_idx s) = Some (grp s)
    /\ own_selection s = Some (active_idx s + 1)
  else own_selection s = Some 0
    /\ (st = STATE_PARALLEL_SCAN_SCANNING_INTERFACE -> active_idx s = -1).

(** What a state function does to the selections. *)
Definition sel_post s (r : WcPsPolicyState_t) s' : Prop :=
  selections (same_but (grp s)) s s' /\ grp s' = grp s /\ sel_inv r s'
  /\ (forall i, statuses s' !! i = Some WAN_IFACE_ACTIVE -> own_selection s = Some (Z.of_nat i + 1) ->
        own_selection s' = Some (Z.of_nat i + 1)).

(** A run that leaves the selections and the choice of the policy alone. *)
Definition quiet s s' : Prop :=
  selections eq s s' /\ fixed_ctl s' = fixed_ctl s /\ shape_of (db s') = shape_of (db s).

Lemma quiet_sel_post st r s s' :
  sel_inv st s -> settled r = settled st ->
  (r = STATE_PARALLEL_SCAN_SCANNING_INTERFACE -> st = STATE_PARALLEL_SCAN_SCANNING_INTERFACE) ->
  quiet s s' -> sel_post s r s'.
Proof.
  intros Hinv Hr Hns (([Hg Hc] & Ha & Hs) & Hp & _).
  assert (grp s' = grp s) as Eg by exact (f_equal (fun x => fst (fst (fst x))) Hp).
  assert (active_idx s' = active_idx s) as Ea by exact (f_equal (fun x => snd (fst (fst x))) Hp).
  assert (own_selection s' = own_selection s) as Eo by (unfold own_selection; by rewrite Eg, Hs).
  assert (nifaces s' = nifaces s) as En by (by injection Hc).
  split; [split; [done|]; split; [done|]; by rewrite Hs|]. split; [done|]. split.
  - unfold sel_inv in *. rewrite Hr, Eo, Ea, Eg, Hg, En.
    destruct (settled st) eqn:E; [done|]. split; [apply Hinv|]. intros ->. apply Hinv. by apply Hns.
  - intros i _ Hi. by rewrite Eo.
Qed.

(** The quiet runs, from what is known of each function. *)
Lemma wp_quiet_run {A} `{Anchor PC} sh (P : A -> Prop) (m : M (St PC) A) s (Q : A -> St PC -> Prop) :
  Leaky sh m -> framed sh s -> Moves (selections eq) m -> Keeps fixed_ctl m ->
  (forall a s', m s = Some (a, s') -> P a) ->
  (forall a s', quiet s s' -> P a -> Q a s') -> wp m Q s.
Proof.
  intros Hs Hf Hm Hk Hr HQ. pose proof (Hs s Hf) as HW. unfold wp in *.
  destruct (m s) as [[a s']|] eqn:E; [|done].
  apply HQ; [|by apply (Hr a s')]. split; [by apply (Hm _ _ _ E)|].
  split; [by apply (Hk _ _ _ E)|]. destruct HW as [[-> _] _]. by destruct Hf as [-> _].
Qed.
Lemma wp_quiet {A} `{Anchor PC} sh (P : A -> Prop) (m : M (St PC) A) s (Q : A -> St PC -> Prop) :
  Safe sh (fun _ => True) m -> framed sh s -> Moves (selections eq) m -> Keeps fixed_ctl m -> Returns P m ->
  (forall a s', quiet s s' -> P a -> Q a s') -> wp m Q s.
Proof.
  intros Hs Hf Hm Hk Hr. apply (wp_quiet_run sh P); [by eapply leaky_safe | done..|]. intros a s'. apply Hr.
Qed.
(** A quiet run of a state after a selection. *)
Lemma wp_settled_run `{Anchor PC} sh st (m : M (St PC) WcPsPolicyState_t) s :
  sel_inv st s -> settled st = true -> Safe sh (fun _ => True) m -> framed sh s ->
  Moves (selections eq) m -> Keeps fixed_ctl m ->
  (forall r s', m s = Some (r, s') -> settled r = true) ->
  wp m (sel_post s) s.
Proof.
  intros Hinv Hst Hs Hf Hm Hk Hr. apply (wp_quiet_run sh _ m s _ (leaky_safe _ _ _ Hs) Hf Hm Hk Hr).
  intros r s' Hq Hset. eapply quiet_sel_post; [done | congruence | | done]. by intros ->.
Qed.
Lemma wp_quiet_settled `{Anchor PC} sh st (m : M (St PC) WcPsPolicyState_t) s :
  sel_inv st s -> settled st = true -> Safe sh (fun _ => True) m -> framed sh s ->
  Moves (selections eq) m -> Keeps fixed_ctl m -> Returns (fun r => settled r = true) m ->
  wp m (sel_post s) s.
Proof. intros Hinv Hst Hs Hf Hm Hk Hr. apply (wp_settled_run sh st); [done..|]. intros r s'. apply Hr. Qed.
(** The precondition of the transitions survives a quiet run. *)
Lemma quiet_ready s s' : quiet s s' -> ready s -> ready s'.
Proof.
  intros ((_ & _ & Hs) & Hf & Hsh) (Hwf & [Hn Hb] & Hsm & Hg & Ht).
  assert (counts s' = counts s) as Hc by by apply counts_shape.
  assert (nifaces s' = nifaces s /\ ngroups s' = ngroups s) as [En Eg] by (by injection Hc).
  assert (grp s' = grp s) as Egr by exact (f_equal (fun x => fst (fst (fst x))) Hf).
  assert (pc_TotalIfaces (ctl s') = pc_TotalIfaces (ctl s)) as Et by exact (f_equal (fun x => snd (fst x)) Hf).
  unfold ready, bounded, db_wf. by rewrite Hsh, En, Eg, Egr, Et, <- Hs.
Qed.
Lemma quiet_sel_inv st s s' : quiet s s' -> sel_inv st s -> sel_inv st s'.
Proof.
  intros (([Hg Hc] & _ & Hs) & Hf & _). unfold sel_inv, own_selection.
  assert (grp s' = grp s) as -> by exact (f_equal (fun x => fst (fst (fst x))) Hf).
  assert (active_idx s' = active_idx s) as -> by exact (f_equal (fun x => snd (fst (fst x))) Hf).
  assert (nifaces s' = nifaces s) as -> by (by injection Hc).
  by rewrite Hg, Hs.
Qed.
Lemma quiet_then_post r s s' s'' : quiet s s' -> sel_post s' r s'' -> sel_post s r s''.
Proof.
  intros (([Hg Hc] & Ha & Hs) & Hf & _) (([Hg' Hc'] & Ha' & Hs') & Hgr & Hinv & Hown).
  assert (grp s' = grp s) as Eg by exact (f_equal (fun x => fst (fst (fst x))) Hf).
  assert (own_selection s' = own_selection s) as Eo by (unfold own_selection; by rewrite Eg, Hs).
  rewrite Eg in Hs', Hgr. rewrite Eo in Hown. rewrite <- Hs in Hs'.
  split; [|done]. split; [split; congruence|]. auto.
Qed.

(** ** The transitions that select or give up an interface *)

(** The interfaces after such a transition: rewritten one by one, none made
    active, none moved. *)
Lemma selections_update (P : list Z -> list Z -> Prop) s s' n F l :
  ifaces s' = update_ifaces n F l -> counts s' = counts s -> P (selected s) (selected s') ->
  (fun I => sel_Group (if_Selection I)) <$> l = ifgroups s ->
  (forall i, (fun I => sel_Status (if_Selection I)) <$> l !! i = Some WAN_IFACE_ACTIVE ->
     statuses s !! i = Some WAN_IFACE_ACTIVE) ->
  (forall k I, sel_Group (if_Selection (F k I)) = sel_Group (if_Selection I)) ->
  (forall k I, sel_Status (if_Selection (F k I)) = WAN_IFACE_ACTIVE ->
     sel_Status (if_Selection I) = WAN_IFACE_ACTIVE) ->
  selections P s s'.
Proof.
  intros HI Hc HP Hl Hs HFg HFs. split; [split; [|done]|]; [|split; [|done]].
  - unfold ifgroups at 1. rewrite HI, <- Hl. apply list_eq. intros j.
    rewrite !list_lookup_fmap, update_ifaces_lookup.
    destruct (l !! j); simpl; [|done]. by destruct (_ <? _); [rewrite HFg|].
  - intros i Hi. apply Hs. unfold statuses in Hi. rewrite HI, list_lookup_fmap, update_ifaces_lookup in Hi.
    destruct (l !! i) as [I|]; simpl in *; [|done]. f_equal. injection Hi as Hi.
    destruct (_ <? _); eauto.
Qed.

Lemma sel_post_TearingDown st s :
  ready s -> sel_inv st s -> settled st = true ->
  pc_pWanActiveIfaceData (ctl s) <> None -> wp Transition_TearingDown (sel_post s) s.
Proof.
  intros Hr Hinv Hst Hp. apply wp_Transition_TearingDown; [done..|].
  intros s' HI _ Hc HS Hsb Hsh.
  assert (grp s' = grp s) as Eg by (unfold grp; by rewrite Hc).
  unfold sel_inv in Hinv. rewrite Hst in Hinv. destruct Hinv as (Hrange & Hgrp & Hown).
  split; [|split; [done|]; split].
  - eapply selections_update; [exact HI | by apply counts_shape | done | done | | |].
    + intros i. unfold statuses. by rewrite list_lookup_fmap.
    + intros k I. apply torn_group.
    + intros k I. cbv beta. rewrite torn_status. by case_match.
  - split; [|done]. unfold own_selection. by rewrite Eg.
  - intros i Hi Ho. exfalso. rewrite Ho in Hown. injection Hown as Hai.
    unfold statuses in Hi. rewrite HI, list_lookup_fmap, update_ifaces_lookup in Hi.
    replace (Z.to_nat (active_idx s)) with i in Hgrp by lia.
    unfold ifgroups in Hgrp. rewrite list_lookup_fmap in Hgrp.
    destruct (ifaces s !! i) as [I|]; simpl in *; [|done]. injection Hgrp as Hgrp.
    rewrite (proj2 (Z.ltb_lt _ _)) in Hi by lia. injection Hi as Hi. rewrite torn_status in Hi.
    unfold in_group in Hi. change (pc_GroupInst (ctl s)) with (grp s) in Hi.
    by rewrite Hgrp, Z.eqb_refl in Hi.
Qed.

Lemma sel_post_RestartScan st s :
  ready s -> sel_inv st s -> settled st = true ->
  pc_pWanActiveIfaceData (ctl s) = Some (Z.to_nat (active_idx s)) ->
  wp Transition_RestartScan (sel_post s) s.
Proof.
  intros Hr Hinv Hst Hp. unfold sel_inv in Hinv. rewrite Hst in Hinv.
  destruct Hinv as (Hrange & Hgrp & Hown).
  assert (exists I0, ifaces s !! Z.to_nat (active_idx s) = Some I0) as [I0 HI0].
  { unfold ifgroups in Hgrp. rewrite list_lookup_fmap in Hgrp.
    destruct (ifaces s !! _) as [I0|]; [by exists I0 | done]. }
  eapply wp_Transition_RestartScan; [done | exact Hp | exact HI0 |].
  intros s' HI _ Eg Ea HS Hsb Hsh.
  split; [|split; [done|]; split].
  - eapply selections_update; [exact HI | by apply counts_shape | done | | | |].
    + rewrite list_fmap_insert. unfold ifgroups. apply list_insert_id.
      rewrite list_lookup_fmap, HI0. done.
    + intros i. unfold statuses. rewrite list_lookup_fmap.
      destruct (decide (Z.to_nat (active_idx s) = i)) as [<-|]; [|by rewrite list_lookup_insert_ne].
      by rewrite list_lookup_insert_eq by (by eapply lookup_lt_Some).
    + intros k I. unfold unlink_iface. by repeat case_match.
    + intros k I. unfold unlink_iface. by repeat case_match.
  - split; [|done]. unfold own_selection. by rewrite Eg.
  - intros i Hi Ho. exfalso. rewrite Ho in Hown. injection Hown as Hai.
    replace (Z.to_nat (active_idx s)) with i in HI, HI0 by lia.
    unfold statuses in Hi. rewrite HI, list_lookup_fmap, update_ifaces_lookup in Hi.
    rewrite list_lookup_insert_eq in Hi by (by eapply lookup_lt_Some). simpl in Hi.
    injection Hi as Hi. unfold unlink_iface in Hi. revert Hi. by repeat case_match.
Qed.

(** The selection of a candidate: the group had selected none. *)
Lemma sel_post_SelectingInterface s :
  ready s -> own_selection s = Some 0 -> 0 <= active_idx s < nifaces s ->
  ifgroups s !! Z.to_nat (active_idx s) = Some (grp s) ->
  wp Transition_SelectingInterface (sel_post s) s.
Proof.
  intros Hr Hown Hrange Hgrp. pose proof Hr as (_ & _ & Hsm & _).
  apply wp_Transition_SelectingInterface; [done|].
  intros s' HI _ Hc _ HS Hsb Hsh. rewrite u32_small in HS by lia.
  assert (grp s' = grp s) as Eg by (unfold grp; by rewrite Hc).
  assert (active_idx s' = active_idx s) as Ea by (unfold active_idx; by rewrite Hc).
  assert (nifaces s' = nifaces s) as En by (by injection Hsh).
  assert (selections (same_but (grp s)) s s') as Hsel.
  { eapply selections_update; [exact HI | by apply counts_shape | done | done | | |].
    - intros i. unfold statuses. by rewrite list_lookup_fmap.
    - intros k I. unfold select_iface. by repeat case_match.
    - intros k I. unfold select_iface. by repeat case_match. }
  split; [done|]. split; [done|]. split.
  - unfold sel_inv. simpl. rewrite Ea, En, Eg. split; [done|].
    destruct Hsel as [[-> _] _]. split; [done|]. unfold own_selection. by rewrite Eg.
  - intros i _ Ho. rewrite Hown in Ho. injection Ho. lia.
Qed.

(** ** The states *)

(** What the lock at the head of the pass leaves in the controller. *)
Definition locked_at (st : WcPsPolicyState_t) s : Prop :=
  if settled st then pc_pWanActiveIfaceData (ctl s) = Some (Z.to_nat (active_idx s))
  else st = STATE_PARALLEL_SCAN_SCANNING_INTERFACE -> pc_pWanActiveIfaceData (ctl s) = None.

Definition cached s : Anchor PC := caches (pc_pWanActiveIfaceData (ctl s)).

Lemma framed_cached st s :
  ready s -> sel_inv st s -> locked_at st s -> settled st = true ->
  @framed PC (cached s) (shape_of (db s)) s.
Proof.
  intros (_ & _ & Hsm & _) Hinv Hl Hst. split; [done|]. split; [done|]. right. right.
  unfold locked_at, sel_inv in *. rewrite Hst in *. rewrite Hl.
  change (pc_activeInterfaceIdx (ctl s)) with (active_idx s). by rewrite u32_small by lia.
Qed.

(** The facts a settled state runs with. *)
Lemma cached_ok st s :
  ready s -> sel_inv st s -> locked_at st s -> settled st = true ->
  forall a, pc_pWanActiveIfaceData (ctl s) = Some a -> valid_iface (shape_of (db s)) a.
Proof.
  intros (Hwf & _) Hinv Hl Hst a Ha. unfold locked_at, sel_inv in *. rewrite Hst in *.
  rewrite Hl in Ha. injection Ha as <-. destruct Hinv as (Hrange & _).
  apply (iface_ok_valid _ s); [done | done | lia |]. apply iface_ok_in; [done | done].
Qed.
Lemma small_shape s : ready s -> (shape_of (db s)).1.1.1 < 2 ^ 32 - 1.
Proof. intros (_ & _ & Hsm & _). unfold nifaces in Hsm. simpl. lia. Qed.

Lemma wp_State_CheckReconfiguration s :
  ready s -> sel_inv STATE_PARALLEL_SCAN_CHECK_RECONFIGURATION s ->
  locked_at STATE_PARALLEL_SCAN_CHECK_RECONFIGURATION s ->
  wp State_CheckReconfiguration (sel_post s) s.
Proof.
  intros Hr Hinv Hl. pose proof (framed_cached _ _ Hr Hinv Hl eq_refl) as Hf.
  unfold State_CheckReconfiguration. apply wp_bind, wp_gets, wp_if; intros Htd.
  { eapply sel_post_TearingDown; [done.. | by rewrite Hl]. }
  eapply wp_quiet_settled; [done | done | | exact Hf | | |].
  - destruct Hr as (Hwf & _). pose proof (safe_check_platform _ Hwf (pc_pWanActiveIfaceData (ctl s))).
    pose proof (safe_Transition_ReconfiguringPlatfrom _ Hwf (pc_pWanActiveIfaceData (ctl s))).
    unfold Transition_InterfaceSelected. safe_tac.
  - pose proof (moves_check_platform eq). pose proof (moves_Transition_ReconfiguringPlatfrom eq).
    unfold Transition_InterfaceSelected. moves_tac.
  - unfold WanMgr_CheckIfPlatformReconfiguringRequired, WanMgr_RdkBus_GetParamValues,
      WanMgr_RdkBus_AddIntfToLanBridge, Transition_ReconfiguringPlatfrom, WanMgr_RdkBus_SetParamValues,
      Transition_InterfaceSelected. keeps_tac.
  - unfold Transition_ReconfiguringPlatfrom, Transition_InterfaceSelected. returns_tac.
Qed.

Lemma wp_State_ReconfigurePaltform s :
  ready s -> sel_inv STATE_PARALLEL_SCAN_RECONFIGURE_PLATFORM s ->
  locked_at STATE_PARALLEL_SCAN_RECONFIGURE_PLATFORM s ->
  wp State_ReconfigurePaltform (sel_post s) s.
Proof.
  intros Hr Hinv Hl. pose proof (framed_cached _ _ Hr Hinv Hl eq_refl) as Hf.
  pose proof (cached_ok _ _ Hr Hinv Hl eq_refl _ Hl) as Hok. unfold locked_at in Hl. simpl in Hl.
  unfold State_ReconfigurePaltform, Transition_Reboot, Transition_InterfaceSelected,
      Wanmgr_TriggerReboot, syscfg_set_string, wanmgr_sysevent_hw_reconfig_reboot,
      WanMgr_RdkBus_SetParamValues.
  apply wp_bind, wp_gets. rewrite Hl. eapply wp_quiet_settled; [done | done | | exact Hf | | |].
  - safe_tac.
  - moves_tac.
  - keeps_tac.
  - returns_tac.
Qed.

(** A transition after a quiet run. *)
Lemma wp_after_quiet (m : M (St PC) WcPsPolicyState_t) s s1 :
  quiet s s1 -> wp m (sel_post s1) s1 -> wp m (sel_post s) s1.
Proof. intros Hq HW. eapply wp_mono; [exact HW|]. intros r s2. by apply quiet_then_post. Qed.
Lemma quiet_locked st s s1 : quiet s s1 -> locked_at st s -> locked_at st s1.
Proof.
  intros (_ & Hf & _). unfold locked_at.
  assert (active_idx s1 = active_idx s) as -> by exact (f_equal (fun x => snd (fst (fst x))) Hf).
  by assert (pc_pWanActiveIfaceData (ctl s1) = pc_pWanActiveIfaceData (ctl s)) as -> by exact (f_equal snd Hf).
Qed.

Lemma wp_State_SelectedInterfaceUp s :
  ready s -> sel_inv STATE_PARALLEL_SCAN_SELECTED_INTERFACE_UP s ->
  locked_at STATE_PARALLEL_SCAN_SELECTED_INTERFACE_UP s ->
  wp State_SelectedInterfaceUp (sel_post s) s.
Proof.
  intros Hr Hinv Hl. pose proof (framed_cached _ _ Hr Hinv Hl eq_refl) as Hf.
  pose proof (cached_ok _ _ Hr Hinv Hl eq_refl) as Hok. pose proof Hl as Hp. unfold locked_at in Hp. simpl in Hp.
  unfold State_SelectedInterfaceUp. apply wp_bind, wp_gets. rewrite Hp. apply wp_if; intros Htd.
  { eapply sel_post_TearingDown; [done.. | by rewrite Hp]. }
  apply wp_bind. eapply (wp_quiet _ (fun _ => True)); [| exact Hf | | | by intros ? |].
  { destruct (pc_ResetSelectedInterface _); [|by apply safe_ret].
    apply safe_check_rescan; [by destruct Hr | done | by rewrite Hp]. }
  { destruct (pc_ResetSelectedInterface _); [apply moves_check_rescan; apply _ | apply moves_ret; apply _]. }
  { destruct (pc_ResetSelectedInterface _); [unfold WanMgr_CheckRescanRequired; keeps_tac | apply keeps_ret]. }
  intros rescan s1 Hq _. apply (wp_after_quiet _ _ _ Hq).
  pose proof (quiet_ready _ _ Hq Hr) as Hr1. pose proof (quiet_sel_inv _ _ _ Hq Hinv) as Hinv1.
  pose proof (quiet_locked _ _ _ Hq Hl) as Hl1. apply wp_if; intros _.
  { by eapply sel_post_RestartScan. }
  pose proof (framed_cached _ _ Hr1 Hinv1 Hl1 eq_refl) as Hf1.
  pose proof (cached_ok _ _ Hr1 Hinv1 Hl1 eq_refl) as Hok1. pose proof Hl1 as Hp1.
  unfold locked_at in Hp1. simpl in Hp1.
  assert (active_idx s1 = active_idx s) as Ea
    by (destruct Hq as (_ & Hfx & _); exact (f_equal (fun x => snd (fst (fst x))) Hfx)).
  rewrite <- Ea. eapply wp_quiet_settled; [done | done | | exact Hf1 | | |].
  - pose proof (Hok1 _ Hp1) as Hv. eapply safe_bind; [by apply safe_get_iface | intros I HI].
    pose proof (safe_start_changed _ (proj1 Hr1) _ (small_shape _ Hr1) _ I Hp1 Hv HI) as Hsc.
    unfold Transition_SelectedInterfaceDown. safe_tac.
  - unfold Transition_SelectedInterfaceDown, start_changed, start_changed_virtual,
      WanMgr_StartInterfaceStateMachine. moves_tac.
  - unfold Transition_SelectedInterfaceDown, start_changed, start_changed_virtual,
      WanMgr_StartInterfaceStateMachine. keeps_tac.
  - unfold Transition_SelectedInterfaceDown. returns_tac.
Qed.

(** With the active interface cached, its return is not an error. *)
Lemma settled_Transition_SelectedInterfaceUp s r s' :
  pc_pWanActiveIfaceData (ctl s) <> None ->
  Transition_SelectedInterfaceUp s = Some (r, s') -> settled r = true.
Proof.
  intros Hp E. unfold Transition_SelectedInterfaceUp in E.
  apply bind_Some in E as (c & s1 & [= <- <-] & E).
  destruct (pc_pWanActiveIfaceData (ctl s)); [|done].
  refine ((_ : Returns (fun r => settled r = true) _) _ _ _ E). returns_tac.
Qed.

Lemma wp_State_SelectedInterfaceDown s :
  ready s -> sel_inv STATE_PARALLEL_SCAN_SELECTED_INTERFACE_DOWN s ->
  locked_at STATE_PARALLEL_SCAN_SELECTED_INTERFACE_DOWN s ->
  wp State_SelectedInterfaceDown (sel_post s) s.
Proof.
  intros Hr Hinv Hl. pose proof (framed_cached _ _ Hr Hinv Hl eq_refl) as Hf.
  pose proof (cached_ok _ _ Hr Hinv Hl eq_refl) as Hok. pose proof Hl as Hp.
  unfold locked_at in Hp. simpl in Hp. pose proof (Hok _ Hp) as Hv.
  unfold State_SelectedInterfaceDown. apply wp_bind, wp_gets. rewrite Hp. apply wp_if; intros Htd.
  { eapply sel_post_TearingDown; [done.. | by rewrite Hp]. }
  apply wp_if; intros _; [by eapply sel_post_RestartScan|].
  eapply wp_settled_run; [done | done | | exact Hf | | |].
  - pose proof (safe_Transition_SelectedInterfaceUp _ (proj1 Hr) _ (small_shape _ Hr) Hok). safe_tac.
  - pose proof (moves_Transition_SelectedInterfaceUp eq). moves_tac.
  - unfold Transition_SelectedInterfaceUp, start_virtual, WanMgr_StartInterfaceStateMachine. keeps_tac.
  - intros r s' E. mrun E. apply (keeps_get_iface fixed_ctl) in E0. mrun E.
    apply (keeps_deref fixed_ctl) in E1. rewrite E0 in E1.
    assert (pc_pWanActiveIfaceData (ctl s1) = pc_pWanActiveIfaceData (ctl s)) as Hp1 by exact (f_equal snd E1).
    destruct (_ ≠? _); [by injection E as <- _|].
    destruct (_ && _); [|by injection E as <- _].
    eapply settled_Transition_SelectedInterfaceUp; [|exact E]. congruence.
Qed.

Lemma wp_State_InterfaceTearDown st s :
  db_wf (db s) -> sel_inv st s -> settled st = false -> wp State_InterfaceTearDown (sel_post s) s.
Proof.
  intros Hwf Hinv Hst.
  eapply (wp_quiet (H1 := fun _ => True) (shape_of (db s))
    (fun r => settled r = false /\ r <> STATE_PARALLEL_SCAN_SCANNING_INTERFACE)).
  - unfold State_InterfaceTearDown. safe_tac.
  - done.
  - unfold State_InterfaceTearDown. moves_tac.
  - unfold State_InterfaceTearDown. keeps_tac.
  - unfold State_InterfaceTearDown. returns_tac.
  - intros r s' Hq [Hr1 Hr2]. eapply quiet_sel_post; [done | congruence | done | done].
Qed.

(** *** The scanning state *)

Lemma sel_post_from r s s1 s' :
  grp s1 = grp s -> sel_view s1 = sel_view s -> sel_post s1 r s' -> sel_post s r s'.
Proof.
  intros Eg Hv (Hsel & Hgr & Hinv & Hown).
  assert (selected s1 = selected s) as Es by exact (f_equal (fun x => fst (fst x)) Hv).
  assert (own_selection s1 = own_selection s) as Eo by (unfold own_selection; by rewrite Eg, Es).
  rewrite Eg in Hsel, Hgr. rewrite Eo in Hown.
  split; [|done]. transitivity s1; [|done]. by apply selections_view; [apply _|].
Qed.

(** With a last-active interface or not, what the loop selects is a candidate,
    and when it selects one it has also found a highest priority. *)
Lemma scan_inv_chosen g L n a l :
  scan_inv g L n a l -> n < 2 ^ 31 -> a <> -1 ->
  (exists I, candidate g L a I /\ 0 <= a < n /\ usable I = true)
  /\ sc_highPriorityValidIface l <> u32 (-1).
Proof.
  intros (Hb & _ & Hlast) Hn Ha.
  destruct Hb as [(-> & _)|(Hr & Hp & I & HI & HU & HpI & _)]; [done|].
  split; [by exists I|]. change (u32 (-1)) with 4294967295 in *.
  destruct (sc_lastSelectedIfaceFound l); [lia|].
  destruct Hlast as [[(_ & _ & Hno)|(Hv & _)] _]; [|lia].
  specialize (Hno a I Hr HI eq_refl). lia.
Qed.

Lemma candidate_group g s a I :
  candidate g (ifaces s) a I -> ifgroups s !! Z.to_nat a = Some g.
Proof. intros (HI & Hg & _). unfold ifgroups. rewrite list_lookup_fmap, HI. simpl. by rewrite Hg. Qed.

(** The search for a new interface, from a state without a choice. *)
Lemma wp_scan_new last n s :
  ready s -> sel_inv STATE_PARALLEL_SCAN_SCANNING_INTERFACE s -> pc_pWanActiveIfaceData (ctl s) = None ->
  wp (new <- for_break (range n) (new_interface last) ;;
      match new with
      | Some uiLoopCount => Transition_NewInterfaceConnected uiLoopCount
      | None => ret STATE_PARALLEL_SCAN_SCANNING_INTERFACE
      end) (sel_post s) s.
Proof.
  intros Hr Hinv Hp.
  eapply (wp_quiet_run (H1 := caches None) (shape_of (db s)) (fun r => r = STATE_PARALLEL_SCAN_SCANNING_INTERFACE)).
  - by apply leaky_scan_new; apply (proj1 Hr).
  - split; [done|]. split; [done | by left].
  - pose proof (moves_Transition_NewInterfaceConnected eq). unfold new_interface. moves_tac.
  - unfold new_interface, Transition_NewInterfaceConnected, start_virtual,
      WanMgr_StartInterfaceStateMachine. keeps_tac.
  - intros r s' E. refine ((_ : Returns (fun r => r = STATE_PARALLEL_SCAN_SCANNING_INTERFACE) _) _ _ _ E).
    unfold Transition_NewInterfaceConnected. returns_tac.
  - intros r s' Hq ->. by eapply quiet_sel_post.
Qed.

(** The choice of the loop, or none, after the clock is read. *)
Lemma sel_post_same r s s1 s' : db s1 = db s -> grp s1 = grp s -> sel_post s1 r s' -> sel_post s r s'.
Proof.
  intros Hd Hg. apply sel_post_from; [done|].
  unfold sel_view, selected, statuses, ifgroups, counts, ifaces, groups. by rewrite Hd.
Qed.
Lemma ready_same s s1 : ready s -> db s1 = db s -> grp s1 = grp s ->
  pc_TotalIfaces (ctl s1) = pc_TotalIfaces (ctl s) -> ready s1.
Proof.
  unfold ready, bounded, selected, ngroups, nifaces, counts, groups, ifaces. by intros ? -> -> ->.
Qed.
Lemma wp_chosen a s s1 :
  ready s -> sel_inv STATE_PARALLEL_SCAN_SCANNING_INTERFACE s -> 0 <= a < nifaces s ->
  ifgroups s !! Z.to_nat a = Some (grp s) ->
  db s1 = db s -> ctl s1 = ctl (with_active a s) ->
  wp Transition_SelectingInterface (sel_post s) s1.
Proof.
  intros Hr [Hown _] Ha Hgr Hd Hc.
  assert (grp s1 = grp s) as Eg by (unfold grp; by rewrite Hc).
  assert (active_idx s1 = a) as Ea by (unfold active_idx; by rewrite Hc).
  eapply wp_mono; [apply (sel_post_SelectingInterface s1)|].
  - eapply ready_same; [done..|]. by rewrite Hc.
  - unfold own_selection, selected, groups in *. by rewrite Eg, Hd.
  - unfold nifaces, counts in *. by rewrite Ea, Hd.
  - unfold ifgroups, ifaces in *. by rewrite Ea, Eg, Hd.
  - intros r s'. by apply sel_post_same.
Qed.
Lemma wp_not_chosen last n s s1 :
  ready s -> sel_inv STATE_PARALLEL_SCAN_SCANNING_INTERFACE s -> pc_pWanActiveIfaceData (ctl s) = None ->
  db s1 = db s -> ctl s1 = ctl s ->
  wp (new <- for_break (range n) (new_interface last) ;;
      match new with
      | Some uiLoopCount => Transition_NewInterfaceConnected uiLoopCount
      | None => ret STATE_PARALLEL_SCAN_SCANNING_INTERFACE
      end) (sel_post s) s1.
Proof.
  intros Hr Hinv Hp Hd Hc. assert (grp s1 = grp s) as Eg by (unfold grp; by rewrite Hc).
  eapply wp_mono; [apply wp_scan_new|].
  - eapply ready_same; [done..|]. by rewrite Hc.
  - unfold sel_inv, own_selection, active_idx, selected, groups in *. by rewrite Eg, Hd, Hc.
  - by rewrite Hc.
  - intros r s'. by apply sel_post_same.
Qed.

Lemma active_restored s a t : active_idx s = -1 ->
  ctl ((with_active a s) <| trace := t |> <| ctl ::= fun c => c <| pc_activeInterfaceIdx := -1 |> |>) = ctl s.
Proof. destruct s as [[] ? ? ?]. unfold active_idx. simpl. by intros ->. Qed.
Lemma active_same s a t : active_idx s = a -> ctl ((with_active a s) <| trace := t |>) = ctl s.
Proof. destruct s as [[] ? ? ?]. unfold active_idx. simpl. by intros ->. Qed.

Lemma wp_State_ScanningInterface s :
  ready s -> sel_inv STATE_PARALLEL_SCAN_SCANNING_INTERFACE s ->
  locked_at STATE_PARALLEL_SCAN_SCANNING_INTERFACE s ->
  wp State_ScanningInterface (sel_post s) s.
Proof.
  intros Hr Hinv Hl. pose proof (Hl eq_refl) as Hp.
  assert (active_idx s = -1) as Ha by by apply Hinv.
  unfold State_ScanningInterface. apply wp_bind, wp_gets, wp_if; intros Htd.
  { unfold Transition_TearingDown. apply wp_bind, wp_gets. rewrite Hp. apply wp_ret.
    split; [done|]. split; [done|]. split; [|done]. split; [apply Hinv | done]. }
  pose proof Hr as (Hwf & Hb & Hsm & Hg & Ht).
  apply wp_bind, wp_scan_loop; [done.. | |]; intros a l; unfold clock_gettime; rewrite Ht.
  - intros Hk Hv [(I & HC & _) _]. apply wp_bind. eapply wp_intro; [reflexivity|].
    apply wp_bind, wp_gets, wp_if; intros Hc.
    { eapply wp_chosen; [done | done | exact Hk | by eapply candidate_group | done..]. }
    exfalso. revert Hc. change (u32 (-1)) with 4294967295. simpl. rsimpl. rewrite Hv, u32_small; lia.
  - intros HI. apply wp_bind. eapply wp_intro; [reflexivity|].
    apply wp_bind, wp_gets, wp_if; intros Hc.
    + apply andb_prop in Hc as [[_ Hc]%andb_prop _].
      destruct (scan_inv_chosen _ _ _ _ _ HI Hsm) as [(I & HC & Hk & _) _]; [simpl in Hc; lia|].
      eapply wp_chosen; [done | done | exact Hk | by eapply candidate_group | done..].
    + apply wp_bind, wp_when; intros Hn.
      * apply wp_modify. apply wp_not_chosen; [done.. | by apply active_restored].
      * apply wp_not_chosen; [done.. | apply active_same]. rewrite Ha.
        destruct (decide (a = -1)) as [->|Hne]; [done|].
        apply (scan_inv_chosen _ _ _ _ _ HI Hsm) in Hne as [_ Hne]. simpl in Hn. lia.
Qed.
End Invariant.
