(* ===== verification/ParallelPass.v ===== *)
(** A thread of the parallel-scan policy: its start, the passes of its loop and
    its end. *)

From S2P Require Export ParallelInv.

#[local] Abbreviation PC := WanMgr_Policy_Controller_t.

Section Pass.
Context `{Platform} `{Build}.
Implicit Type s : St PC.

(** ** The head and the end of a pass *)

Definition pol_view s := (grp s, active_idx s, pc_pWanActiveIfaceData (ctl s)).

Lemma unlocked_ctl s c : unlocked (locked s <| ctl := c |>) = s <| ctl := c |>.
Proof. apply (unlocked_locked (s <| ctl := c |>)). Qed.

(** The controller is refreshed from the data; the choice stays. *)
Lemma wp_UpdateControllerData s (Q : unit -> St PC -> Prop) :
  db_wf (db s) ->
  (forall s1, db s1 = db s -> sys s1 = sys s -> pol_view s1 = pol_view s ->
     pc_TotalIfaces (ctl s1) = nifaces s -> pc_WanEnable (ctl s1) = cfg_Enable (config s) -> Q tt s1) ->
  wp WanMgr_UpdateControllerData Q s.
Proof.
  intros Hwf HQ. unfold WanMgr_UpdateControllerData, get_db.
  apply wp_bind, wp_with_config, wp_bind, wp_gets, wp_modify.
  refine (eq_ind_r (fun s1 => wp _ _ s1) _ (unlocked_ctl s _)).
  apply wp_bind, wp_get_total, wp_bind, wp_modify, wp_bind, wp_gets.
  set (s1 := s <| ctl := _ |> <| ctl := _ |>).
  apply wp_with_group; intros Hok; [|by apply HQ].
  destruct (group_ok_lookup s1 (u32 (pc_GroupInst (ctl s1) - 1))) as [G HG]; [done | apply u32_range | done |].
  apply wp_bind. eapply wp_get_group; [exact HG|]. apply wp_modify.
  refine (eq_ind_r (Q tt) _ (unlocked_ctl s1 _)). by apply HQ.
Qed.

(** Locking the active interface: its pointer is cached, or no lock is held. *)
Lemma wp_ps_lock_active s (Q : unit -> St PC -> Prop) :
  pc_pWanActiveIfaceData (ctl s) = None ->
  (active_idx s <> -1 -> iface_ok s (u32 (active_idx s)) = true ->
     Q tt (locked s <| ctl ::= fun c => c <| pc_pWanActiveIfaceData := Some (Z.to_nat (u32 (active_idx s))) |> |>)) ->
  ((active_idx s = -1 \/ iface_ok s (u32 (active_idx s)) = false) -> Q tt s) ->
  wp ps_lock_active Q s.
Proof.
  intros Hp H1 H2. unfold ps_lock_active. apply wp_bind, wp_gets. rewrite Hp.
  fold (active_idx s). apply wp_when; intros Ha; [|apply H2; lia].
  apply wp_bind, wp_get_locked; intros Hok; apply wp_modify; [apply H1; [lia | done]|].
  replace (s <| ctl := _ |>) with s; [apply H2; by right|].
  destruct s as [[] ? ? ?]. simpl in Hp. by rewrite Hp.
Qed.

Lemma wp_ps_release_active s (Q : unit -> St PC -> Prop) :
  (forall a, pc_pWanActiveIfaceData (ctl s) = Some a ->
     Q tt (unlocked s <| ctl ::= fun c => c <| pc_pWanActiveIfaceData := None |> |>)) ->
  (pc_pWanActiveIfaceData (ctl s) = None -> Q tt s) ->
  wp ps_release_active Q s.
Proof.
  intros H1 H2. unfold ps_release_active. apply wp_bind, wp_gets.
  destruct (pc_pWanActiveIfaceData (ctl s)) eqn:E; [|by apply wp_ret, H2].
  apply wp_bind. eapply wp_intro; [reflexivity|]. apply wp_modify. by eapply H1.
Qed.

(** ** The dispatch *)

Lemma safe_ps_dispatch sh an st :
  wf_shape sh -> sh.1.1.1 < 2 ^ 32 - 1 -> (forall a, an = Some a -> valid_iface sh a) ->
  st <> STATE_PARALLEL_SCAN_SCANNING_INTERFACE -> Safe (H := caches an) sh (fun _ => True) (ps_dispatch st).
Proof.
  intros Hwf Hsm Han Hsc.
  destruct st; simpl; try (by apply safe_ret); (apply safe_bind_any; [|intros r; by apply safe_ret]).
  - done.
  - by apply safe_State_CheckReconfiguration.
  - by apply safe_State_ReconfigurePaltform.
  - by apply safe_State_SelectedInterfaceUp.
  - by apply safe_State_SelectedInterfaceDown.
  - by apply safe_State_InterfaceTearDown.
Qed.
(** Only a scanning pass may leave the lock. *)
Definition returns_lock (st : WcPsPolicyState_t) s s' : Prop :=
  depth s' = depth s
  \/ st = STATE_PARALLEL_SCAN_SCANNING_INTERFACE /\ depth s' = S (depth s) /\ start_failed (trace s') = true.
Lemma returns_lock_gives st s s' : returns_lock st s s' -> gives_back s s'.
Proof. intros [?|(_ & ?)]; [by left | by right]. Qed.
Lemma wp_dispatch_lock sh an st s :
  wf_shape sh -> sh.1.1.1 < 2 ^ 32 - 1 -> (forall a, an = Some a -> valid_iface sh a) ->
  (st = STATE_PARALLEL_SCAN_SCANNING_INTERFACE -> an = None) -> framed (H := caches an) sh s ->
  wp (ps_dispatch st) (fun _ s' => framed (H := caches an) sh s' /\ returns_lock st s s') s.
Proof.
  intros Hwf Hsm Han Hsc Hf. destruct (decide (st = STATE_PARALLEL_SCAN_SCANNING_INTERFACE)) as [->|Hne].
  - rewrite Hsc in * by done. eapply wp_mono.
    { by apply (leaky_map (H1 := caches None) sh Some), Hf; apply leaky_State_ScanningInterface. }
    intros o s' [? [?|?]]; (split; [done|]); [by left | by right].
  - eapply wp_mono; [by apply (safe_ps_dispatch sh an st)|]. intros o s' [[? ?] _]. split; [done | by left].
Qed.

Definition ended (st : WcPsPolicyState_t) : bool :=
  match st with STATE_PARALLEL_SCAN_POLICY_EXIT | STATE_PARALLEL_SCAN_POLICY_ERROR => true | _ => false end.

Lemma wp_ps_dispatch st s :
  ready s -> sel_inv st s -> locked_at st s ->
  wp (ps_dispatch st) (fun o s' => sel_post s (default st o) s' /\ (o = None <-> ended st = true)) s.
Proof.
  intros Hr Hinv Hl.
  assert (Hdo : forall m, ended st = false -> wp m (sel_post s) s ->
    wp (r <- m ;; ret (Some r)) (fun o s' => sel_post s (default st o) s' /\ (o = None <-> ended st = true)) s).
  { intros m He HW. apply wp_bind. eapply wp_mono; [exact HW|]. intros r s' Hpost.
    apply wp_ret. split; [exact Hpost|]. rewrite He. by split. }
  assert (Hstay : sel_post s st s) by (split; [done|]; split; [done|]; by split).
  destruct st; simpl; try (apply Hdo; [done|]).
  - by apply wp_State_ScanningInterface.
  - by apply wp_State_CheckReconfiguration.
  - by apply wp_State_ReconfigurePaltform.
  - exact Hstay.
  - by apply wp_State_SelectedInterfaceUp.
  - by apply wp_State_SelectedInterfaceDown.
  - by eapply wp_State_InterfaceTearDown; [apply (proj1 Hr) | ..].
  - by split.
  - by split.
Qed.

(** ** A pass *)

(** What holds between two passes. *)
Definition ps_inv (st : WcPsPolicyState_t) s : Prop :=
  db_wf (db s) /\ bounded s /\ nifaces s < 2 ^ 31 /\ 1 <= grp s <= ngroups s
  /\ pc_pWanActiveIfaceData (ctl s) = None /\ sel_inv st s.

(** What another thread sees of a pass of the policy of group [g]. *)
Definition ps_rely (g : Z) s s' : Prop :=
  shape_of (db s') = shape_of (db s) /\ selections (same_but g) s s'
  /\ (forall i, statuses s' !! i = Some WAN_IFACE_ACTIVE -> selected s !! Z.to_nat (g - 1) = Some (Z.of_nat i + 1) ->
        selected s' !! Z.to_nat (g - 1) = Some (Z.of_nat i + 1)).

Lemma own_bounded st s : nifaces s < 2 ^ 31 -> sel_inv st s ->
  exists n, own_selection s = Some n /\ 0 <= n < 2 ^ 32.
Proof.
  intros Hn Hinv. unfold sel_inv in Hinv. destruct (settled st).
  - destruct Hinv as (? & _ & ?). eexists. split; [done | lia].
  - destruct Hinv as [? _]. eexists. split; [done | lia].
Qed.

Lemma sel_post_inv r s s' :
  ready s -> shape_of (db s') = shape_of (db s) -> sel_post s r s' ->
  db_wf (db s') /\ bounded s' /\ nifaces s' < 2 ^ 31 /\ 1 <= grp s' <= ngroups s' /\ sel_inv r s'.
Proof.
  intros (Hwf & [Hn Hb] & Hsm & Hg & Ht) Hsh ((_ & _ & Hsb) & Eg & Hinv & _).
  assert (counts s' = counts s) as Hc by by apply counts_shape.
  assert (nifaces s' = nifaces s /\ ngroups s' = ngroups s) as [Ei En] by (by injection Hc).
  split; [unfold db_wf; by rewrite Hsh|]. split; [|rewrite Ei, En, Eg; done].
  split; [by rewrite En|]. apply Forall_lookup_2. intros j n Hj.
  destruct (decide (j = Z.to_nat (grp s - 1))) as [->|Hne].
  - destruct (own_bounded r s') as (m & Hm & ?); [lia | done|].
    unfold own_selection in Hm. rewrite Eg, Hj in Hm. by injection Hm as ->.
  - apply (Forall_lookup_1 _ _ j n Hb). by rewrite <- Hsb.
Qed.

(** The controller and the lock at the dispatch. *)
Lemma ps_locked st s (Q : unit -> St PC -> Prop) :
  ps_inv st s ->
  (forall s1 an, ready s1 -> sel_inv st s1 -> locked_at st s1 -> framed (H := caches an) (shape_of (db s)) s1 ->
     (forall a, an = Some a -> valid_iface (shape_of (db s)) a) ->
     (st = STATE_PARALLEL_SCAN_SCANNING_INTERFACE -> an = None) ->
     grp s1 = grp s -> sel_view s1 = sel_view s ->
     depth s1 = ((if an then 1 else 0) + depth s)%nat -> Q tt s1) ->
  wp WanMgr_UpdateControllerData (fun _ => wp ps_lock_active Q) s.
Proof.
  intros (Hwf & Hb & Hsm & Hg & Hp & Hinv) HQ. apply wp_UpdateControllerData; [done|].
  intros s1 Hd Hs Hv Ht _.
  assert (grp s1 = grp s) as Eg by exact (f_equal (fun x => fst (fst x)) Hv).
  assert (active_idx s1 = active_idx s) as Ea by exact (f_equal (fun x => snd (fst x)) Hv).
  assert (pc_pWanActiveIfaceData (ctl s1) = None) as Hp1 by (rewrite <- Hp; exact (f_equal snd Hv)).
  assert (nifaces s1 = nifaces s) as En by (unfold nifaces; by rewrite Hd).
  assert (ready s1) as Hr.
  { unfold ready, bounded, selected, ngroups, nifaces, groups in *. rewrite Eg, Ht, Hd. done. }
  assert (sel_inv st s1) as Hinv1.
  { unfold sel_inv, own_selection, selected, groups, ifgroups, ifaces in *. by rewrite Eg, Ea, En, Hd. }
  assert (sel_view s1 = sel_view s) as Evw
    by (unfold sel_view, selected, statuses, ifgroups, counts, ifaces, groups; by rewrite Hd).
  apply wp_ps_lock_active; [done | |].
  - intros Hne Hok. apply (HQ _ (Some (Z.to_nat (u32 (active_idx s1))))); try done.
    + unfold locked_at. destruct (settled st) eqn:E.
      * refine (f_equal (fun n => Some (Z.to_nat n)) (u32_small (active_idx s1) _)). unfold sel_inv in Hinv1. rewrite E in Hinv1.
        unfold nifaces in *. rewrite Hd in Hinv1. lia.
      * intros ->. by destruct Hinv1 as [_ Hinv1]; destruct Hne; apply Hinv1.
    + split; [by rewrite <- Hd|]. split; [done|]. right. by right.
    + intros a [= <-]. rewrite <- Hd. apply (iface_ok_valid _ s1); [apply (proj1 Hr) | done | apply u32_range | done].
    + intros ->. by destruct Hinv1 as [_ Hinv1]; destruct Hne; apply Hinv1.
    + unfold depth. rewrite <- Hd. done.
  - intros Hno. apply (HQ _ None); try done.
    + unfold locked_at. destruct (settled st) eqn:E; [|done]. exfalso.
      unfold sel_inv in Hinv1. rewrite E in Hinv1. destruct Hno as [?|Hno]; [lia|].
      rewrite u32_small, iface_ok_in in Hno by (first [apply Hr | unfold nifaces in *; lia]). done.
    + split; [by rewrite <- Hd|]. split; [done | by left].
    + unfold depth. rewrite Hd. lia.
Qed.

Lemma wp_ps_iteration st s :
  ps_inv st s ->
  wp (ps_iteration st) (fun o s' =>
    ps_inv (default st o) s' /\ (o = None <-> ended st = true)
    /\ grp s' = grp s /\ returns_lock st s s' /\ ps_rely (grp s) s s') s.
Proof.
  intros Hinv. unfold ps_iteration. apply wp_bind.
  eapply wp_mono; [|intros ? s0; apply wp_bind]. apply (ps_locked st); [done|].
  intros s1 an Hr Hinv1 Hl Hf Han Hsc Eg Hv Hd.
  apply wp_bind. eapply wp_mono.
  { apply wp_and; [by apply (wp_ps_dispatch st)|].
    apply (wp_dispatch_lock (shape_of (db s)) an st); [| | done | done | exact Hf];
      rewrite <- (proj1 Hf); [apply Hr | by apply small_shape]. }
  intros o s2 [[Hpost Ho] [Hf2 Hd2]].
  destruct Hf as [Hsh1 _], Hf2 as [Hsh2 [Hp2 _]]. rewrite <- Hsh1 in Hsh2.
  pose proof (sel_post_inv _ _ _ Hr Hsh2 Hpost) as (Hwf2 & Hb2 & Hsm2 & Hg2 & Hinv2).
  pose proof (sel_post_from _ _ _ _ Eg Hv Hpost) as (Hsel & Egr & _ & Hown).
  assert (ps_rely (grp s) s s2) as Hrely.
  { split; [congruence|]. split; [done|]. unfold own_selection in Hown. by rewrite Egr in Hown. }
  apply wp_bind, wp_ps_release_active; [intros a Ha | intros Hn]; apply wp_ret; (split; [|split; [done|]; split; [done|]; split; [|done]]).
  - done.
  - rewrite Ha in Hp2. destruct an; [|done]. simpl in Hd.
    destruct Hd2 as [Hd2|(Hst & Hd2 & Hfl)]; [left | right; split; [exact Hst | split; [|exact Hfl]]];
      [change (pred (depth s2) = depth s) | change (pred (depth s2) = S (depth s))]; by rewrite Hd2, Hd.
  - done.
  - rewrite Hn in Hp2. destruct an; [done|]. simpl in Hd. unfold returns_lock in *. by rewrite <- Hd.
Qed.

(** ** The start and the end of the thread *)

(** Entering the loop with the group's selection cleared. *)
Lemma wp_ps_start arg s :
  db_wf (db s) -> bounded s -> nifaces s < 2 ^ 31 -> 1 <= arg <= ngroups s ->
  selected s !! Z.to_nat (arg - 1) = Some 0 ->
  wp (ps_start arg) (fun o s' =>
    o = Some STATE_PARALLEL_SCAN_SCANNING_INTERFACE /\ ps_inv STATE_PARALLEL_SCAN_SCANNING_INTERFACE s'
    /\ grp s' = arg /\ depth s' = depth s /\ ps_rely arg s s') s.
Proof.
  intros Hwf Hb Hsm Hg Hown. unfold ps_start. apply wp_bind, wp_gets. simpl.
  apply wp_bind, wp_modify, wp_bind, wp_modify. set (s0 := s <| ctl := _ |> <| ctl := _ |>).
  assert (grp s0 = arg) as Eg0 by (apply u32_small; destruct Hb; lia).
  apply wp_bind, wp_UpdateControllerData; [done|]. intros s1 Hd _ Hv Ht _.
  assert (grp s1 = arg) as Eg by (rewrite <- Eg0; exact (f_equal (fun x => fst (fst x)) Hv)).
  assert (active_idx s1 = -1) as Ea by exact (f_equal (fun x => snd (fst x)) Hv).
  assert (pc_pWanActiveIfaceData (ctl s1) = None) as Hp1 by exact (f_equal snd Hv).
  apply wp_bind, wp_gets, wp_bind. fold (active_idx s1). rewrite Ea. apply wp_when; intros Hne; [done|].
  assert (db s1 = db s) as Hds by exact Hd.
  assert (@framed _ (caches None) (shape_of (db s)) s1) as Hf
    by (split; [by rewrite Hds | split; [done | by left]]).
  assert (Safe (H := caches None) (shape_of (db s)) (fun _ => True) Transition_Start) as Hsafe
    by (apply safe_ps_Transition_Start; done).
  apply wp_bind. eapply wp_mono.
  { apply wp_and; [|exact (Hsafe _ Hf)].
    apply (wp_quiet (H1 := caches None) (shape_of (db s)) (fun r => r = STATE_PARALLEL_SCAN_SCANNING_INTERFACE)
      _ _ (fun r s' => quiet s1 s' /\ r = STATE_PARALLEL_SCAN_SCANNING_INTERFACE)); [done | done | | | | done].
    - apply (moves_Transition_Start eq).
    - unfold Transition_Start, max_timeout, start_SelectionTimer, DmlSetWanActiveLinkInPSMDB,
        WanMgr_RdkBus_AddIntfToLanBridge, WanMgr_RdkBus_SetParamValues. keeps_tac.
    - unfold Transition_Start. returns_tac. }
  intros r s2 [[Hq ->] [[_ Hdep] _]]. apply wp_ret. split; [done|].
  assert (own_selection s1 = Some 0) as Ho by (unfold own_selection, selected, groups; by rewrite Eg, Hds).
  assert (sel_post s1 STATE_PARALLEL_SCAN_SCANNING_INTERFACE s2) as Hpost
    by (by apply (quiet_sel_post STATE_PARALLEL_SCAN_SCANNING_INTERFACE); [split|..]).
  assert (ready s1) as Hr.
  { unfold ready, bounded, selected, ngroups, nifaces, groups in *. rewrite Eg, Ht, Hds. done. }
  destruct Hq as (_ & Hfx & Hsh).
  pose proof (sel_post_inv _ _ _ Hr Hsh Hpost) as (Hwf2 & Hb2 & Hsm2 & Hg2 & Hinv2).
  destruct Hpost as (Hsel & Egr & _ & Hkeep).
  split; [|split; [congruence|split; [by rewrite Hdep; unfold depth; rewrite Hds|]]].
  - do 4 (split; [done|]). split; [|done]. rewrite <- Hp1. exact (f_equal snd Hfx).
  - assert (sel_view s1 = sel_view s) as Evw
      by (unfold sel_view, selected, statuses, ifgroups, counts, ifaces, groups; by rewrite Hds).
    split; [by rewrite Hsh, Hds|]. rewrite Eg in Hsel. split.
    + etransitivity; [|exact Hsel]. by apply selections_view; [apply _|].
    + intros j _ Hj. rewrite Hown in Hj. injection Hj. lia.
Qed.

(** The end of the thread: its group is released. *)
Definition released (G : WANMGR_IFACE_GROUP) : WANMGR_IFACE_GROUP :=
  let G := G <| g_ThreadId := 0 |> <| g_SelectedInterface := 0 |> <| g_ConfigChanged := false |> in
  if g_State G ≠? STATE_GROUP_DEACTIVATED then G <| g_State := STATE_GROUP_STOPPED |> else G.

Lemma wp_ps_finish s (Q : unit -> St PC -> Prop) :
  db_wf (db s) -> 1 <= grp s <= ngroups s -> ngroups s < 2 ^ 32 ->
  (forall s', ifaces s' = ifaces s -> groups s' = alter released (Z.to_nat (grp s - 1)) (groups s) ->
     counts s' = counts s -> depth s' = depth s -> ctl s' = ctl s ->
     config s' = (if pc_GroupCfgChanged (ctl s)
                  then (config s) <| cfg_ResetFailOverScan := true |> else config s) ->
     Q tt s') ->
  wp ps_finish Q s.
Proof.
  intros Hwf Hg Hn HQ. unfold ps_finish. apply wp_bind, wp_gets.
  set (s1 := if pc_GroupCfgChanged (ctl s)
             then s <| db ::= fun d => d <| w_Config; cfg_ResetFailOverScan := true |> |> else s).
  apply wp_bind, (wp_mono _ (fun _ s' => s' = s1)).
  { subst s1. apply wp_when; intros Hc; rewrite Hc; [|done]. apply wp_with_config, wp_modify.
    exact (unlocked_locked (s <| db ::= fun d => d <| w_Config; cfg_ResetFailOverScan := true |> |>)). }
  intros [] s' ->.
  assert (groups s1 = groups s /\ ifaces s1 = ifaces s /\ counts s1 = counts s /\ depth s1 = depth s /\ ctl s1 = ctl s
    /\ config s1 = (if pc_GroupCfgChanged (ctl s) then (config s) <| cfg_ResetFailOverScan := true |> else config s)
    /\ db_wf (db s1)) as (EG & EI & Ec & Edp & Ectl & Ecfg & Hwf1)
    by (subst s1; by destruct (pc_GroupCfgChanged (ctl s))).
  clearbody s1. change (pc_GroupInst (ctl s)) with (grp s). rewrite u32_small by lia.
  assert (1 <= grp s <= w_ulTotalNumbWanIfaceGroup (db s1)) as Hg1
    by (injection Ec as _ Ec; unfold ngroups in *; lia).
  apply wp_with_group; intros Hok; [|rewrite group_ok_in in Hok; [done | done | lia]].
  destruct (group_ok_lookup s1 (grp s - 1)) as [G HG]; [done | lia | done |].
  apply wp_bind. eapply wp_upd_group; [exact HG|]. set (f := fun G : WANMGR_IFACE_GROUP => _ <| g_ConfigChanged := false |>).
  apply wp_bind. eapply (wp_get_group _ (f G)).
  { unfold groups, locked in *. rsimpl. by rewrite list_lookup_alter_eq, HG. }
  assert (Halt : alter released (Z.to_nat (grp s - 1)) (groups s) = <[Z.to_nat (grp s - 1) := released G]> (groups s))
    by (apply list_alter_at; rewrite <- EG; exact HG).
  assert (Hf : alter f (Z.to_nat (grp s - 1)) (groups s1) = <[Z.to_nat (grp s - 1) := f G]> (groups s))
    by (rewrite <- EG; by apply list_alter_at).
  assert (Hrel : released G = (if g_State (f G) ≠? STATE_GROUP_DEACTIVATED
    then (f G) <| g_State := STATE_GROUP_STOPPED |> else f G)) by done.
  apply wp_when; intros Hst; rewrite Hst in Hrel.
  - eapply wp_upd_group.
    { unfold groups, locked in *. rsimpl. by rewrite list_lookup_alter_eq, HG. }
    apply HQ; [done | | done | transitivity (pred (S (depth s1))); [done | lia] | done | done].
    rewrite Halt, Hrel. transitivity (alter (fun G => G <| g_State := STATE_GROUP_STOPPED |>)
      (Z.to_nat (grp s - 1)) (alter f (Z.to_nat (grp s - 1)) (groups s1))); [done|].
    rewrite Hf. erewrite list_alter_at by (apply list_lookup_insert_eq; rewrite <- EG; by eapply lookup_lt_Some).
    by rewrite list_insert_insert_eq.
  - apply HQ; [done | | done | transitivity (pred (S (depth s1))); [done | lia] | done | done].
    rewrite Halt, Hrel. exact Hf.
Qed.
End Pass.
