(* ===== verification/Sample.v ===== *)
(** A concrete build, platform and data base, on which the witnesses evaluate
    the handlers. *)

From S2P Require Export Data.

#[local] Abbreviation e := EmptyString.

Definition sample_build : Build :=
  {| FEATURE_RDKB_CONFIGURABLE_WAN_INTERFACE := true;
     FEATURE_RDKB_DHCP_MANAGER := false;
     FEATURE_MAPT := true;
     FEATURE_IPOE_HEALTH_CHECK := false;
     FEATURE_RDKB_LED_MANAGER := true;
     XB6_CBR2_PRODUCT_REQ := false;
     RDKB_GLOBAL_PRODUCT_REQ := false;
     MESH_IFNAME := "br403" |}.

(** Every call succeeds, PSM holds nothing, and the clock reads [t]. *)
Definition sample_platform (t : Z) : Platform :=
  {| answer := fun _ c => match c with
       | ClockGettime => t
       | PsmGet _ => CCSP_SUCCESS
       | ExtCall fn _ =>
           if bool_decide (fn ∈ ["AnscAllocateMemory"; "malloc"; "calloc"]%string) then 1
           else if bool_decide (fn = "CcspBaseIf_setParameterValues"%string) then CCSP_SUCCESS else 0
       | _ => 0
       end;
     answer_s := fun _ _ => e;
     sysevent_fd := 3 |}.

Definition zero_ip : DML_WANIFACE_IP :=
  mk_DML_WANIFACE_IP e e e WAN_IFACE_IPV4_STATE_DOWN WAN_IFACE_IPV6_STATE_DOWN
    WAN_CONNECTIVITY_TYPE_NO_CHECK WAN_CONNECTION_UNKNOWN WAN_CONNECTION_UNKNOWN
    DML_WAN_IP_SOURCE_DHCP DML_WAN_IP_SOURCE_DHCP false false false false
    DML_WAN_IP_MODE_DUAL_STACK DUAL_STACK_MODE DUAL_STACK_MODE 0 NOTSTARTED false
    false false false false zero_WANMGR_IPV4_DATA zero_WANMGR_IPV6_DATA
    (mk_WANMGR_IPV6_RA_DATA e 0) None None 0 DHCPC_STATE_UNKNOWN 0 DHCPC_STATE_UNKNOWN.
Definition zero_vlan : DML_VIRTUALIF_VLAN :=
  mk_DML_VIRTUALIF_VLAN false e 0 0 0 [] 0 [] WAN_IFACE_LINKSTATUS_DOWN false false 0.
Definition zero_vif : DML_VIRTUAL_IFACE :=
  mk_DML_VIRTUAL_IFACE 0 0 e e false false false WAN_IFACE_STATUS_DISABLED
    WAN_IFACE_STATUS_DISABLED zero_vlan false WAN_OPERSTATUS_UNKNOWN zero_ip
    (mk_DATAMODEL_PPP false e WAN_IFACE_IPCP_STATUS_DOWN WAN_IFACE_IPV6CP_STATUS_DOWN false false
       WAN_IFACE_PPP_LINK_STATUS_DOWN)
    (mk_DML_WANIFACE_MAP WAN_IFACE_MAPT_STATE_DOWN e false zero_ipc_mapt_data_t
       (mk_WANMGR_MAPT_CONFIG_DATA 0 e e 0))
    (mk_DML_WANIFACE_DSLITE e WAN_IFACE_DSLITE_STATE_DOWN false) WAN_STATE_EXIT false.
Definition zero_iface : DML_WAN_IFACE :=
  mk_DML_WAN_IFACE 0 0 e e e false false false false e WAN_IFACE_STATUS_NOT_SCANNED e e
    WAN_IFACE_TYPE_UNCONFIGURED WAN_IFACE_PHY_STATUS_DOWN
    (mk_DML_IFACE_SELECTION false 0 0 WAN_IFACE_NOT_SELECTED false 1 false false)
    LOCAL_IFACE 0 0 0 0 [].
Definition zero_group : WANMGR_IFACE_GROUP :=
  mk_WANMGR_IFACE_GROUP 0 STATE_GROUP_STOPPED 0 0 0 0 0 false AUTOWAN_MODE false false false.

(** A virtual interface whose link is in the given status, checked up. *)
Definition sample_vif (st : DML_WAN_IFACE_STATUS) : DML_VIRTUAL_IFACE :=
  (WanMgr_VirtIface_Init zero_vif 0)
    <| v_Name := "erouter0" |> <| v_Enable := true |> <| v_Status := st |>
    <| v_IP; ip_Ipv4ConnectivityStatus := WAN_CONNECTIVITY_UP |>.
Definition sample_iface (idx group : Z) (sel : WANMGR_IFACE_SELECTION) (st : DML_WAN_IFACE_STATUS)
    : DML_WAN_IFACE :=
  (WanMgr_IfaceData_Init zero_iface idx)
    <| if_Selection; sel_Enable := true |> <| if_Selection; sel_Priority := idx |>
    <| if_Selection; sel_Timeout := 20 |> <| if_Selection; sel_Status := sel |>
    <| if_Selection; sel_Group := group |>
    <| if_BaseInterfaceStatus := WAN_IFACE_PHY_STATUS_UP |>
    <| if_VirtIfList := [sample_vif st] |>.
(** A group with interface [sel] selected, its initial scan done. *)
Definition sample_group (sel : Z) : WANMGR_IFACE_GROUP :=
  zero_group <| g_State := STATE_GROUP_RUNNING |> <| g_InterfaceAvailable := 1 |>
    <| g_SelectedInterface := sel |> <| g_InitialScanComplete := true |>.
Definition sample_config : DML_WANMGR_CONFIG :=
  WanMgr_SetConfigData_Default
    (mk_DML_WANMGR_CONFIG false GATEWAY_MODE false false false false e e e e e 60 e
       false false false false false).

Definition sample_db (ifs : list DML_WAN_IFACE) (gs : list WANMGR_IFACE_GROUP) : WANMGR_DATA_ST :=
  mk_WANMGR_DATA_ST 0 sample_config (Z.of_nat (length ifs))
    (ifs ++ replicate (32 - length ifs) zero_iface) 0 (Z.of_nat (length gs)) gs 100 false e false 0 false.

Definition sample_state {C} (c : C) (d : WANMGR_DATA_ST) : St C := mk_St c d ∅ [].

