(* ===== verification/ParallelProps.v ===== *)
(** The properties of the parallel-scan policy. *)

From S2P Require Export ParallelPass Sample.

#[local] Abbreviation PC := WanMgr_Policy_Controller_t.

(** * Runs of a policy thread among the others *)

(** What the others may do between two passes: they keep the shape of the data
    base and the groups of the interfaces, and leave the selection of the group
    to its policy. *)
Definition ps_env (s s' : St PC) : Prop :=
  ctl s' = ctl s /\ shape_of (db s') = shape_of (db s) /\ bounded s'
  /\ own_selection s' = own_selection s /\ ifgroups s' = ifgroups s.

Inductive ps_reach `{Platform} `{Build} (g : Z) (s0 : St PC) : WcPsPolicyState_t -> St PC -> Prop :=
| ps_reach_start st s : ps_start g s0 = Some (Some st, s) -> ps_reach g s0 st s
| ps_reach_pass st st' s s' :
    ps_reach g s0 st s -> ps_iteration st s = Some (Some st', s') -> ps_reach g s0 st' s'
| ps_reach_env st s s' : ps_reach g s0 st s -> ps_env s s' -> ps_reach g s0 st s'.

(** A state the thread of group [g] may be started in. *)
Definition ps_startable (g : Z) {C} (s : St C) : Prop :=
  db_wf (db s) /\ bounded s /\ nifaces s < 2 ^ 31 /\ 1 <= g <= ngroups s
  /\ selected s !! Z.to_nat (g - 1) = Some 0.

Section Runs.
Context `{Platform} `{Build}.
Implicit Type s : St PC.

Lemma ps_env_inv st s s' : ps_env s s' -> ps_inv st s -> ps_inv st s'.
Proof.
  intros (Hc & Hsh & Hb & Ho & Hg) (Hwf & _ & Hsm & Hgr & Hp & Hinv).
  assert (counts s' = counts s) as Hcnt by by apply counts_shape.
  assert (nifaces s' = nifaces s /\ ngroups s' = ngroups s) as [Ei En] by (by injection Hcnt).
  unfold ps_inv, sel_inv, grp, active_idx in *. rewrite Hc, Ei, En, Ho, Hg.
  split; [unfold db_wf; by rewrite Hsh | done].
Qed.

Lemma ps_reach_inv g s0 st s :
  ps_startable g s0 -> ps_reach g s0 st s -> ps_inv st s /\ grp s = g.
Proof.
  intros (Hwf & Hb & Hsm & Hg & Hsel) Hr. induction Hr as [st s E | st st' s s' _ IH E | st s s' _ IH He].
  - destruct (wp_use _ _ _ _ _ E (wp_ps_start g s0 Hwf Hb Hsm Hg Hsel)) as (Est & Hinv & Hgr & _).
    injection Est as ->. by split.
  - destruct IH as [Hinv Hgr].
    destruct (wp_use _ _ _ _ _ E (wp_ps_iteration _ _ Hinv)) as (Hinv' & _ & Hgr' & _).
    split; [exact Hinv' | congruence].
  - destruct IH as [Hinv <-]. split; [by eapply ps_env_inv|]. unfold grp. by rewrite (proj1 He).
Qed.
End Runs.

(** * Properties *)

Section Properties.
Context `{Platform} `{Build}.
Implicit Type s : St PC.

(** C19: when the other threads keep, between its passes, the shape and bounds of the
    tables, the groups of the interfaces and the selection of its group, the policy
    of a group keeps the group's selection at 0 while it scans and tears down, and in
    the states after a selection it is the one interface the policy works on: a
    configured interface of that group. *)
Theorem parallel_selection_inv g s0 st s :
  ps_startable g s0 -> ps_reach g s0 st s ->
  exists a, own_selection s = Some (a + 1)
    /\ if settled st then a = active_idx s /\ 0 <= a < nifaces s /\ ifgroups s !! Z.to_nat a = Some g
       else a = -1.
Proof.
  intros Hs0 Hr. destruct (ps_reach_inv _ _ _ _ Hs0 Hr) as [(_ & _ & _ & _ & _ & Hinv) Hg].
  unfold sel_inv in Hinv. destruct (settled st).
  - destruct Hinv as (Ha & Hgr & Ho). exists (active_idx s). by rewrite <- Hg.
  - destruct Hinv as [Ho _]. by exists (-1).
Qed.

(** C21: in every state of its machine a pass of the policy runs to its end
    without dereferencing [NULL] and leaves the tables well formed; the loop ends
    exactly from the exit and error states.  The pass returns every lock it takes,
    unless it scans and its last call is the start of a state machine that fails
    for want of memory or of a thread: then it may keep the mutex once.  The other threads are
    only known to keep the shape and the bounds of the tables, the groups of the
    interfaces and the selection of this group. *)
Theorem parallel_pass_safe g s0 st s :
  ps_startable g s0 -> ps_reach g s0 st s ->
  exists o s', ps_iteration st s = Some (o, s') /\ returns_lock st s s' /\ db_wf (db s')
    /\ (o = None <-> st = STATE_PARALLEL_SCAN_POLICY_EXIT \/ st = STATE_PARALLEL_SCAN_POLICY_ERROR).
Proof.
  intros Hs0 Hr. destruct (ps_reach_inv _ _ _ _ Hs0 Hr) as [Hinv _].
  destruct (proj1 (wp_run _ _ _) (wp_ps_iteration _ _ Hinv)) as (o & s' & E & Hinv' & Ho & _ & Hd & _).
  exists o, s'. split; [done|]. split; [done|]. split; [apply Hinv'|].
  rewrite Ho. split; [by destruct st; auto | by intros [-> | ->]].
Qed.

(** A pass of the policy of group [g] writes the selection of no other
    group, moves no interface, makes no interface active, and never withdraws
    the group's selection from an interface it leaves active: the promise the
    failover thread relies on. *)
Theorem parallel_pass_rely g s0 st s o s' :
  ps_startable g s0 -> ps_reach g s0 st s -> ps_iteration st s = Some (o, s') ->
  ifgroups s' = ifgroups s
  /\ (forall j, j <> Z.to_nat (g - 1) -> selected s' !! j = selected s !! j)
  /\ forall i, statuses s' !! i = Some WAN_IFACE_ACTIVE ->
       statuses s !! i = Some WAN_IFACE_ACTIVE
       /\ (own_selection s = Some (Z.of_nat i + 1) -> own_selection s' = own_selection s).
Proof.
  intros Hs0 Hr E. destruct (ps_reach_inv _ _ _ _ Hs0 Hr) as [Hinv Hg].
  destruct (wp_use _ _ _ _ _ E (wp_ps_iteration _ _ Hinv))
    as (_ & _ & Eg & _ & _ & ([Hgr _] & Ha & Hsb) & Hown). rewrite Hg in *.
  split; [done|]. split; [exact Hsb|]. intros i Hi. split; [by apply Ha|].
  unfold own_selection. rewrite Eg, Hg. intros Ho. rewrite Ho. by apply Hown.
Qed.

(** *** The scan *)

(** The selection time-out of the policy has run out. *)
Definition expired s : bool :=
  pc_InterfaceSelectionTimeOut (ctl s) <? answer (trace s) ClockGettime - pc_SelectionTimeOutStart (ctl s).
(** No interface of the group that was selected last has a usable link. *)
Definition no_preferred s : Prop := forall j J, 0 <= j < nifaces s -> candidate (grp s) (ifaces s) j J ->
  sel_ActiveLink (if_Selection J) = true -> usable J = false.
(** [a] may be selected without a last-selected interface to prefer. *)
Definition best_choice s (a : Z) (I : DML_WAN_IFACE) : Prop :=
  best (-1) (grp s) (ifaces s) usable (nifaces s) a (priority I)
  /\ (expired s = true
      \/ (exists j J, candidate (grp s) (ifaces s) j J /\ sel_ActiveLink (if_Selection J) = true)
      \/ best (u32 (-1)) (grp s) (ifaces s) (fun _ => true) (nifaces s) a (priority I)).

Definition scan_selected s s' : Prop := exists a I,
  0 <= a < nifaces s /\ candidate (grp s) (ifaces s) a I /\ usable I = true
  /\ own_selection s' = Some (a + 1)
  /\ (scan_preferred (grp s) (ifaces s) a \/ no_preferred s /\ best_choice s a I).
Definition scan_waits s s' : Prop :=
  own_selection s' = Some 0 /\ no_preferred s
  /\ (expired s = true -> forall j J, 0 <= j < nifaces s -> candidate (grp s) (ifaces s) j J ->
        usable J = true -> MAX_PRIORITY_VALUE < priority J).

Lemma wp_choose a s s1 (Q : WcPsPolicyState_t -> St PC -> Prop) :
  ready s -> 0 <= a < nifaces s -> db s1 = db s -> ctl s1 = ctl (with_active a s) ->
  (forall s', own_selection s' = Some (a + 1) -> Q STATE_PARALLEL_SCAN_CHECK_RECONFIGURATION s') ->
  wp Transition_SelectingInterface Q s1.
Proof.
  intros Hr Ha Hd Hc HQ. assert (grp s1 = grp s) as Eg by (unfold grp; by rewrite Hc).
  assert (active_idx s1 = a) as Ea by (unfold active_idx; by rewrite Hc).
  apply wp_Transition_SelectingInterface; [eapply ready_same; [done..|]; by rewrite Hc|].
  intros s' _ _ Hc' _ HS _ _. apply HQ. destruct Hr as (_ & _ & Hsm & _).
  rewrite Ea, u32_small in HS by lia. unfold own_selection, grp. rewrite Hc'. exact HS.
Qed.

Lemma wp_waits last n s s1 :
  ready s -> sel_inv STATE_PARALLEL_SCAN_SCANNING_INTERFACE s ->
  pc_pWanActiveIfaceData (ctl s) = None -> db s1 = db s -> ctl s1 = ctl s ->
  wp (new <- for_break (range n) (new_interface last) ;;
      match new with
      | Some uiLoopCount => Transition_NewInterfaceConnected uiLoopCount
      | None => ret STATE_PARALLEL_SCAN_SCANNING_INTERFACE
      end) (fun r s' => r = STATE_PARALLEL_SCAN_SCANNING_INTERFACE /\ own_selection s' = Some 0) s1.
Proof.
  intros Hr Hinv Hp Hd Hc. eapply wp_mono.
  { apply (wp_returns (fun r => r = STATE_PARALLEL_SCAN_SCANNING_INTERFACE));
      [|by apply (wp_not_chosen last n s)].
    unfold Transition_NewInterfaceConnected. returns_tac. }
  intros r s' [-> (_ & _ & [Ho _] & _)]. by split.
Qed.

(** The choice the loop leaves, when it is taken, and when it is not. *)
Lemma scan_choice s a l :
  scan_inv (grp s) (ifaces s) (nifaces s) a l -> nifaces s < 2 ^ 31 -> a <> -1 ->
  (sc_highPriorityValidIface l =? u32 a) || expired s = true ->
  exists I, 0 <= a < nifaces s /\ candidate (grp s) (ifaces s) a I /\ usable I = true
    /\ no_preferred s /\ best_choice s a I.
Proof.
  intros (Hb & Hpref & Hlast) Hsm Ha Hc.
  pose proof Hb as [(-> & _)|(Hr & Hp & I & HI & HU & HpI & _)]; [done|].
  exists I. do 4 (split; [done|]). unfold best_choice. rewrite HpI. split; [done|].
  apply orb_prop in Hc as [Hc|Hc]; [right | by left]. rewrite u32_small in Hc by lia.
  apply Z.eqb_eq in Hc. destruct (sc_lastSelectedIfaceFound l).
  - left. destruct Hlast as (_ & j & J & _ & HJ). by exists j, J.
  - right. destruct Hlast as [Hv _]. rewrite Hc in Hv.
    pose proof Hv as [(-> & _)|(_ & _ & J & [HJ _] & _ & HpJ & _)].
    { change (u32 (-1)) with 4294967295 in *. lia. }
    destruct HI as [HI _]. rewrite HI in HJ. injection HJ as <-. rewrite <- HpI, HpJ. exact Hv.
Qed.
Lemma scan_no_choice s a l :
  scan_inv (grp s) (ifaces s) (nifaces s) a l -> nifaces s < 2 ^ 31 ->
  (a = -1 \/ expired s = false) ->
  no_preferred s /\ (expired s = true -> forall j J, 0 <= j < nifaces s ->
    candidate (grp s) (ifaces s) j J -> usable J = true -> MAX_PRIORITY_VALUE < priority J).
Proof.
  intros (Hb & Hpref & Hlast) Hsm Hno. split; [exact Hpref|]. intros He.
  destruct Hno as [->|?]; [|congruence]. destruct Hb as [(_ & _ & Hall)|(? & _)]; [exact Hall | lia].
Qed.


(** *** The transitions *)

(** Selecting an interface marks it [SELECTED] with its last-active mark,
    takes both from every other enabled interface of the group, leaves all the
    other interfaces as they were, and makes it the group's selection. *)
Theorem parallel_selecting s :
  ready s -> 0 <= active_idx s < nifaces s ->
  exists s', Transition_SelectingInterface s = Some (STATE_PARALLEL_SCAN_CHECK_RECONFIGURATION, s')
    /\ own_selection s' = Some (active_idx s + 1)
    /\ forall k I, 0 <= k < nifaces s -> ifaces s !! Z.to_nat k = Some I ->
         exists I', ifaces s' !! Z.to_nat k = Some I'
           /\ if (sel_Group (if_Selection I) =? grp s) && sel_Enable (if_Selection I)
              then sel_Status (if_Selection I')
                     = (if k =? active_idx s then WAN_IFACE_SELECTED else WAN_IFACE_NOT_SELECTED)
                   /\ sel_ActiveLink (if_Selection I') = (k =? active_idx s)
              else I' = I.
Proof.
  intros Hr Ha. pose proof Hr as (_ & _ & Hsm & _).
  apply wp_result, wp_Transition_SelectingInterface; [done|].
  intros s' HI _ Hc _ HS _ _. split; [done|]. rewrite u32_small in HS by lia. split.
  { unfold own_selection, grp. rewrite Hc. exact HS. }
  intros k I Hk HkI. eexists. split; [by rewrite HI, update_ifaces_lookup, HkI|]. rewrite Z2Nat.id by lia.
  replace (k <? nifaces s) with true by lia. unfold select_iface. rewrite (Z.eqb_sym (grp s)), u32_small by lia.
  destruct (_ && _); [|done]. by destruct (k =? active_idx s).
Qed.

(** Restarting the scan clears the group's selection and the choice of the
    policy, takes the last-active mark from every interface of the group, puts
    the interface that was selected back to [VALIDATING], leaves the interfaces
    of other groups as they were, and asks for a new failover scan. *)
Theorem parallel_restart_scan s a :
  ready s -> pc_pWanActiveIfaceData (ctl s) = Some a -> Z.of_nat a < nifaces s ->
  exists s', Transition_RestartScan s = Some (STATE_PARALLEL_SCAN_SCANNING_INTERFACE, s')
    /\ own_selection s' = Some 0 /\ active_idx s' = -1 /\ cfg_ResetFailOverScan (config s') = true
    /\ forall k I, 0 <= k < nifaces s -> ifaces s !! Z.to_nat k = Some I ->
         exists I', ifaces s' !! Z.to_nat k = Some I'
           /\ sel_ActiveLink (if_Selection I')
              = negb (sel_Group (if_Selection I) =? grp s) && sel_ActiveLink (if_Selection I)
           /\ sel_Status (if_Selection I')
              = (if decide (Z.to_nat k = a) then WAN_IFACE_VALIDATING else sel_Status (if_Selection I)).
Proof.
  intros Hr Hp Ha. pose proof Hr as (Hwf & _).
  destruct (iface_ok_lookup s (Z.of_nat a)) as (I0 & _ & _ & HI0 & _);
    [done | lia | apply iface_ok_in; [done | unfold nifaces in *; lia] |]. rewrite Nat2Z.id in HI0.
  apply wp_result. eapply wp_Transition_RestartScan; [done | exact Hp | exact HI0 |].
  intros s' HI Hcfg Eg Ea HS _ _. split; [done|]. split; [unfold own_selection; by rewrite Eg|].
  do 2 (split; [done|]). intros k I Hk HkI. rewrite HI. setoid_rewrite update_ifaces_lookup.
  rewrite Z2Nat.id by lia. replace (k <? nifaces s) with true by lia.
  destruct (decide (Z.to_nat k = a)) as [<-|Hne].
  - rewrite HI0 in HkI. injection HkI as ->.
    rewrite list_lookup_insert_eq by (by eapply lookup_lt_Some). eexists. split; [done|].
    unfold unlink_iface. rewrite (Z.eqb_sym _ (grp s)). simpl. by destruct (grp s =? _).
  - rewrite list_lookup_insert_ne, HkI by done. eexists. split; [done|].
    unfold unlink_iface. rewrite (Z.eqb_sym _ (grp s)). by destruct (grp s =? _).
Qed.

Lemma disable_invalid_head I v :
  head (if_VirtIfList (disable_invalid I)) = Some v -> v_Status v <> WAN_IFACE_STATUS_INVALID.
Proof.
  unfold disable_invalid. destruct (if_VirtIfList I) as [|v0 l] eqn:E; [by rewrite E|].
  destruct (v_Status v0 ≟ WAN_IFACE_STATUS_INVALID) eqn:Ev.
  - unfold upd_first_vif. rsimpl. rewrite E. by intros [= <-].
  - rewrite E. simpl. intros [= <-] Hi. by rewrite Hi in Ev.
Qed.

(** Tearing down takes every interface of the group out of the selection,
    disables those whose link never came up, drops the last-active marks when
    the group's configuration changed, leaves the interfaces of other groups as
    they were, and clears the group's selection. *)
Theorem parallel_tearing_down s :
  ready s -> pc_pWanActiveIfaceData (ctl s) <> None ->
  exists s', Transition_TearingDown s = Some (STATE_PARALLEL_SCAN_INTERFACE_TEAR_DOWN, s')
    /\ own_selection s' = Some 0
    /\ forall k I, 0 <= k < nifaces s -> ifaces s !! Z.to_nat k = Some I ->
         exists I', ifaces s' !! Z.to_nat k = Some I'
           /\ if sel_Group (if_Selection I) =? grp s then
                sel_Status (if_Selection I') = WAN_IFACE_NOT_SELECTED
                /\ sel_ActiveLink (if_Selection I')
                   = negb (pc_GroupCfgChanged (ctl s)) && sel_ActiveLink (if_Selection I)
                /\ (forall v, head (if_VirtIfList I') = Some v -> v_Status v <> WAN_IFACE_STATUS_INVALID)
              else I' = I.
Proof.
  intros Hr Hp. apply wp_result, wp_Transition_TearingDown; [done|done|].
  intros s' HI _ Hc HS _ _. split; [done|]. split; [unfold own_selection, grp; by rewrite Hc|].
  intros k I Hk HkI. eexists. split; [by rewrite HI, update_ifaces_lookup, HkI|]. rewrite Z2Nat.id by lia.
  replace (k <? nifaces s) with true by lia. rewrite (Z.eqb_sym _ (grp s)).
  pose proof (torn_status (ctl s) I) as Hst. pose proof (torn_sel (ctl s) I) as Hsel.
  unfold in_group in Hst, Hsel. change (pc_GroupInst (ctl s)) with (grp s) in Hst, Hsel.
  destruct (grp s =? sel_Group (if_Selection I)) eqn:Eg.
  - split; [exact Hst|]. split; [rewrite Hsel; by destruct (pc_GroupCfgChanged (ctl s))|].
    intros v. unfold torn_iface, in_group. change (pc_GroupInst (ctl s)) with (grp s). rewrite Eg.
    destruct (pc_GroupCfgChanged (ctl s)); apply disable_invalid_head.
  - unfold torn_iface, in_group. change (pc_GroupInst (ctl s)) with (grp s). by rewrite Eg.
Qed.

(** A pass without a cached interface, once the WAN is disabled. *)
Lemma wp_disabled_pass st s (Q : option WcPsPolicyState_t -> St PC -> Prop) :
  db_wf (db s) -> pc_pWanActiveIfaceData (ctl s) = None -> active_idx s = -1 -> cfg_Enable (config s) = false ->
  (forall s1, db s1 = db s -> pc_pWanActiveIfaceData (ctl s1) = None -> active_idx s1 = -1 ->
     tear_down_requested (ctl s1) = true -> exists o, ps_dispatch st s1 = Some (o, s1) /\ Q o s1) ->
  wp (ps_iteration st) Q s.
Proof.
  intros Hwf Hp Ha He HQ. unfold ps_iteration. apply wp_bind, wp_UpdateControllerData; [done|].
  intros s1 Hd _ Hv _ Hen.
  assert (active_idx s1 = -1) as Ha1 by (rewrite <- Ha; exact (f_equal (fun x => snd (fst x)) Hv)).
  assert (pc_pWanActiveIfaceData (ctl s1) = None) as Hp1 by (rewrite <- Hp; exact (f_equal snd Hv)).
  apply wp_bind, wp_ps_lock_active; [done | by intros [] |]. intros _.
  destruct (HQ s1) as (o & E & HQo); [done..| unfold tear_down_requested; by rewrite Hen, He |].
  apply wp_bind. eapply wp_intro; [exact E|]. apply wp_bind, wp_ps_release_active.
  - intros a Hcontra. congruence.
  - intros _. by apply wp_ret.
Qed.
Lemma scanning_stopped s :
  pc_pWanActiveIfaceData (ctl s) = None -> tear_down_requested (ctl s) = true ->
  State_ScanningInterface s = Some (STATE_PARALLEL_SCAN_POLICY_ERROR, s).
Proof.
  intros Hp Htd. unfold State_ScanningInterface, Transition_TearingDown, bind, get_controller, gets.
  by rewrite Htd, Hp.
Qed.

(** When the policy is told to stop while it scans, its thread ends with an
    error and leaves the data base as it is: no state machine of the group is
    told to stop. *)
Theorem parallel_stop_while_scanning s :
  ps_inv STATE_PARALLEL_SCAN_SCANNING_INTERFACE s -> cfg_Enable (config s) = false ->
  exists s1, ps_iteration STATE_PARALLEL_SCAN_SCANNING_INTERFACE s = Some (Some STATE_PARALLEL_SCAN_POLICY_ERROR, s1)
    /\ db s1 = db s
    /\ exists s2, ps_iteration STATE_PARALLEL_SCAN_POLICY_ERROR s1 = Some (None, s2) /\ db s2 = db s.
Proof.
  intros (Hwf & _ & _ & _ & Hp & _ & Ha) He. specialize (Ha eq_refl).
  apply wp_result, wp_disabled_pass; [done..|]. intros s1 Hd1 Hp1 Ha1 Htd.
  exists (Some STATE_PARALLEL_SCAN_POLICY_ERROR). split.
  { simpl. unfold bind. by rewrite scanning_stopped. }
  do 2 (split; [done|]). apply wp_result, wp_disabled_pass; [by rewrite Hd1 | done | done | |].
  { unfold config. by rewrite Hd1. }
  intros s2 Hd2 _ _ _. exists None. split; [done|]. split; [done | congruence].
Qed.

(** A critical section that only reads its interface. *)
Lemma with_iface_read {A} (none r : A) k I v l (body : iface_ptr -> M (St PC) A) s :
  db_wf (db s) -> 0 <= k < nifaces s -> ifaces s !! Z.to_nat k = Some I -> if_VirtIfList I = v :: l ->
  body (Z.to_nat k) (locked s) = Some (r, locked s) -> with_iface none k body s = Some (r, s).
Proof.
  intros Hwf Hk HI Hv Hb. rewrite with_iface_eq. unfold guarded. rewrite iface_ok_in by done.
  rewrite Hb. by rewrite unlocked_locked.
Qed.
Lemma get_iface_eq i I s : ifaces s !! i = Some I -> get_iface i s = Some (I, s).
Proof. intros HI. unfold get_iface, get_db, bind, gets. unfold ifaces in HI. by rewrite HI. Qed.
(** A loop that looks at the interfaces of the table in turn: [J] over the number
    of rounds and the locals. *)
Lemma wp_look_at_ifaces {B R} (Inv : Z -> B -> Prop) (f : Z -> DML_WAN_IFACE -> B -> B * option R)
    (body : Z -> B -> M (St PC) (B * option R)) n s b (Q : B * option R -> St PC -> Prop) :
  db_wf (db s) -> n = nifaces s -> Inv 0 b ->
  (forall k b I v l, 0 <= k < n -> ifaces s !! Z.to_nat k = Some I -> if_VirtIfList I = v :: l ->
     body k b s = Some (f k I b, s)) ->
  (forall k b I v l, 0 <= k < n -> Inv k b -> ifaces s !! Z.to_nat k = Some I -> if_VirtIfList I = v :: l ->
     match snd (f k I b) with Some _ => Q (f k I b) s | None => Inv (k + 1) (fst (f k I b)) end) ->
  (forall b, Inv n b -> Q (b, None) s) ->
  wp (for_acc (range n) b body) Q s.
Proof.
  intros Hwf -> Hinit Hb Hstep Hend. assert (0 <= nifaces s) by by apply db_wf_nifaces.
  apply (wp_for_acc_range (fun k b s' => s' = s /\ Inv k b)); [done | |].
  - intros k b1 s1 Hk [-> HI].
    destruct (iface_ok_lookup s k) as (I & v & l & HkI & Hv);
      [done | lia | apply iface_ok_in; [done | unfold nifaces in *; lia] |].
    eapply wp_intro; [by eapply Hb|]. specialize (Hstep k b1 I v l Hk HI HkI Hv).
    destruct (snd (f k I b1)); [exact Hstep | by split].
  - intros b1 s1 [-> HI]. rewrite Z.max_r in HI by lia. by apply Hend.
Qed.

(** The thread leaves the tearing-down state exactly when the first virtual
    interface of every interface of the group is disabled; until then, and
    after, the data base is as it was. *)
Theorem parallel_tear_down_ends s :
  db_wf (db s) -> pc_TotalIfaces (ctl s) = nifaces s -> pc_pWanActiveIfaceData (ctl s) <> None ->
  exists st, State_InterfaceTearDown s = Some (st, s)
    /\ (st = STATE_PARALLEL_SCAN_POLICY_EXIT \/ st = STATE_PARALLEL_SCAN_INTERFACE_TEAR_DOWN)
    /\ (st = STATE_PARALLEL_SCAN_POLICY_EXIT <->
        forall k I v, 0 <= k < nifaces s -> ifaces s !! Z.to_nat k = Some I ->
          sel_Group (if_Selection I) = grp s -> head (if_VirtIfList I) = Some v ->
          v_Status v = WAN_IFACE_STATUS_DISABLED).
Proof.
  intros Hwf Ht Hp.
  set (P := fun (n : Z) => forall k I v, 0 <= k < n -> ifaces s !! Z.to_nat k = Some I ->
    sel_Group (if_Selection I) = grp s -> head (if_VirtIfList I) = Some v ->
    v_Status v = WAN_IFACE_STATUS_DISABLED).
  assert (wp State_InterfaceTearDown (fun st s' => s' = s
    /\ (st = STATE_PARALLEL_SCAN_POLICY_EXIT \/ st = STATE_PARALLEL_SCAN_INTERFACE_TEAR_DOWN)
    /\ (st = STATE_PARALLEL_SCAN_POLICY_EXIT <-> P (nifaces s))) s) as HW.
  2: { apply wp_run in HW as (st & s' & E & -> & HW). by exists st. }
  unfold State_InterfaceTearDown. apply wp_bind, wp_gets.
  destruct (pc_pWanActiveIfaceData (ctl s)) as [a|]; [|done]. rewrite Ht. apply wp_bind.
  apply (wp_look_at_ifaces (fun k running => running = false <-> P k)
    (fun k I running => (running || ((sel_Group (if_Selection I) =? grp s) &&
      match head (if_VirtIfList I) with Some v => v_Status v ≠? WAN_IFACE_STATUS_DISABLED | None => false end), None)));
    [done | done | | | |].
  - split; [intros _ k I v Hk; lia | done].
  - intros k b I v l Hk HkI Hv. eapply with_iface_read; [done..|].
    unfold bind. rewrite (get_iface_eq _ I (locked s)) by exact HkI. rewrite Hv. simpl. unfold in_group. change (pc_GroupInst (ctl s)) with (grp s).
    rewrite (Z.eqb_sym (grp s)). destruct (_ =? _); simpl; [done|]. by rewrite orb_false_r.
  - intros k b I v l Hk HI HkI Hv. simpl. rewrite orb_false_iff, HI, Hv. simpl. split.
    + intros [HP Hb] j J w Hj HJ HG HW. destruct (decide (j = k)) as [->|]; [|apply (HP j J); [lia | done..]].
      rewrite HkI in HJ. injection HJ as <-. rewrite Hv in HW. injection HW as <-.
      rewrite HG, Z.eqb_refl in Hb. simpl in Hb. by destruct (v_Status v).
    + intros HP. split; [intros j J w Hj; apply HP; lia|].
      destruct (sel_Group (if_Selection I) =? grp s) eqn:EG; [|done].
      rewrite (HP k I v); [done | lia | done | lia | by rewrite Hv].
  - intros b HI. apply wp_ret. split; [done|]. simpl. rewrite <- HI. destruct b; split; auto; by split.
Qed.

(** An enabled interface of the group other than the active one with a lower
    priority value than [A]. *)
Definition outranked s (A : DML_WAN_IFACE) (n : Z) : Prop :=
  exists k I, 0 <= k < n /\ candidate (grp s) (ifaces s) k I /\ k <> u32 (active_idx s)
    /\ sel_Priority (if_Selection I) < sel_Priority (if_Selection A).

(** A round of the comparison with the active interface. *)
Lemma outranked_round s a A k :
  db_wf (db s) -> ifaces s !! a = Some A -> 0 <= k < nifaces s ->
  exists b : bool, with_iface None k (fun p =>
        I <- get_iface p ;;
        A <- get_iface a ;;
        ret (if in_group (ctl s) I && sel_Enable (if_Selection I)
                && negb (is_active (ctl s) k)
                && (sel_Priority (if_Selection I) <? sel_Priority (if_Selection A))
             then Some tt else None)) s = Some (if b then Some tt else None, s)
    /\ (b = true -> outranked s A (nifaces s))
    /\ (b = false -> ~ outranked s A k -> ~ outranked s A (k + 1)).
Proof.
  intros Hwf HA Hk. destruct (iface_ok_lookup s k) as (I & v & l & HkI & Hv);
    [done | lia | apply iface_ok_in; [done | unfold nifaces in *; lia] |].
  exists (in_group (ctl s) I && sel_Enable (if_Selection I) && negb (is_active (ctl s) k)
    && (sel_Priority (if_Selection I) <? sel_Priority (if_Selection A))).
  unfold in_group, is_active, candidate. change (pc_GroupInst (ctl s)) with (grp s).
  change (pc_activeInterfaceIdx (ctl s)) with (active_idx s). split; [|split].
  - eapply with_iface_read; [done..|]. unfold bind.
    rewrite (get_iface_eq _ I (locked s)), (get_iface_eq _ A (locked s)) by done. done.
  - intros [[[Hg He]%andb_prop Hne]%andb_prop Hlt]%andb_prop.
    exists k, I. split; [done|]. split; [split; [done | split; [lia | done]]|]. split; lia.
  - intros Hb Hno (j & J & Hj & (HJ & HG & HE) & Hne & Hlt). apply Hno.
    destruct (decide (j = k)) as [->|]; [|by exists j, J; split; [lia|]].
    rewrite HkI in HJ. injection HJ as <-. rewrite HE in Hb. lia.
Qed.

(** A requested rescan is needed exactly when the active interface lost its
    carrier or its link, or another enabled interface of the group outranks it;
    when it is not needed the request is withdrawn and nothing else changes. *)
Theorem parallel_rescan_required s a A v l :
  ready s -> pc_pWanActiveIfaceData (ctl s) = Some a -> ifaces s !! a = Some A -> if_VirtIfList A = v :: l ->
  exists r s', WanMgr_CheckRescanRequired s = Some (r, s') /\ ifaces s' = ifaces s
    /\ (r = true <-> if_BaseInterfaceStatus A <> WAN_IFACE_PHY_STATUS_UP
          \/ v_Status v <> WAN_IFACE_STATUS_UP \/ outranked s A (nifaces s))
    /\ if r then s' = s
       else pc_ResetSelectedInterface (ctl s') = false
         /\ groups s' = alter (fun G => G <| g_ResetSelectedInterface := false |>) (Z.to_nat (grp s - 1)) (groups s).
Proof.
  intros (Hwf & [Hn _] & _ & Hg & Ht) Hp HA Hv. apply wp_run.
  unfold WanMgr_CheckRescanRequired. apply wp_bind, wp_gets. rewrite Hp.
  apply wp_bind, (wp_deref _ a); [done|]. apply wp_bind. eapply wp_get_iface; [exact HA|].
  apply wp_bind.
  set (down := (if_BaseInterfaceStatus A ≠? WAN_IFACE_PHY_STATUS_UP) || (v_Status v ≠? WAN_IFACE_STATUS_UP)).
  apply (wp_mono _ (fun b s' => b = down /\ s' = s)).
  { unfold down. rewrite Hv. destruct (_ ≠? _); [done|]. by apply wp_bind, (wp_deref _ v). }
  intros b s' [-> ->]. assert (down = true <-> if_BaseInterfaceStatus A <> WAN_IFACE_PHY_STATUS_UP
    \/ v_Status v <> WAN_IFACE_STATUS_UP) as Hdown.
  { unfold down. rewrite orb_true_iff. destruct (if_BaseInterfaceStatus A), (v_Status v); simpl; naive_solver. }
  apply wp_if; intros Hd.
  { apply wp_ret. split; [done|]. split; [|done]. rewrite Hdown in Hd. tauto. }
  rewrite Ht. apply wp_bind.
  assert (0 <= nifaces s) as Hpos by by apply db_wf_nifaces.
  apply (wp_for_break_range (fun k s' => s' = s /\ ~ outranked s A k)).
  - split; [done|]. intros (k & I & Hk & _). lia.
  - intros k s1 Hk [-> Hno]. destruct (outranked_round s a A k Hwf HA Hk) as (b & E & Ht1 & Hf1).
    eapply wp_intro; [exact E|]. destruct b; [|by split; [|auto]].
    apply wp_ret. split; [done|]. split; [|done]. split; [intros _; right; right; auto | done].
  - intros s1 [-> Hno]. rewrite Z.max_r in Hno by lia. unfold ngroups in *. rewrite u32_small by (unfold grp in *; lia).
    apply wp_bind, wp_with_group; intros Hok; [|rewrite group_ok_in in Hok; [done | done | unfold grp in *; lia]].
    destruct (group_ok_lookup s (grp s - 1)) as [G HG]; [done | lia | done |].
    apply wp_bind. eapply wp_upd_group; [exact HG|]. apply wp_modify, wp_ret.
    split; [done|]. split; [|done]. split; [done|]. intros [?|[?|?]]; [| |done]; exfalso.
    + assert (down = true) by tauto. congruence.
    + assert (down = true) by tauto. congruence.
Qed.

(** *** The start, the edges and the end *)

(** What the start of the policy keeps in every round. *)
Definition start_view s := (ifaces s, counts s, (grp s, groups s)).
(** The record of external calls only grows. *)
Definition logged (e : Ext) s : Prop := e ∈ trace s.
Definition still (e : Ext) s s' : Prop := start_view s' = start_view s /\ (logged e s -> logged e s').
#[local] Instance still_preorder e : PreOrder (still e).
Proof.
  split; [by intros s|]. intros s1 s2 s3 [E1 H1] [E2 H2]. split; [congruence | auto].
Qed.
Lemma moves_still_call {A} e (m : M (St PC) A) : Keeps (fun s => (start_view s, trace s)) m -> Moves (still e) m.
Proof.
  apply moves_keeps. intros s s' E. split; [exact (f_equal fst E)|].
  unfold logged. by assert (trace s' = trace s) as -> by exact (f_equal snd E).
Qed.
Lemma moves_still_ext e f : Moves (still e) (call (C := PC) f).
Proof. intros s a s' [= _ <-]. split; [done|]. intros Hl. by apply list_elem_of_further. Qed.
Lemma moves_still_set_active e i b : Moves (still e) (DmlSetWanActiveLinkInPSMDB (C := PC) i b).
Proof.
  unfold DmlSetWanActiveLinkInPSMDB. apply moves_bind; [apply _ | apply moves_still_ext | intros r].
  by apply moves_ret; apply _.
Qed.
Lemma moves_still_lan e p b : Moves (still e) (WanMgr_RdkBus_AddIntfToLanBridge (C := PC) p b).
Proof.
  unfold WanMgr_RdkBus_AddIntfToLanBridge, WanMgr_RdkBus_SetParamValues.
  destruct (negb _); [apply moves_ret; apply _|].
  apply moves_bind; [apply _ | | intros; apply moves_ret; apply _].
  apply moves_for_break; [apply _ | intros _].
  apply moves_bind; [apply _ | | intros; apply moves_ret; apply _].
  apply moves_bind; [apply _ | apply moves_still_ext | intros; apply moves_ret; apply _].
Qed.
Lemma wp_still {A} e (m : M (St PC) A) s (Q : A -> St PC -> Prop) :
  Total m -> Moves (still e) m -> (forall a s', still e s s' -> Q a s') -> wp m Q s.
Proof.
  intros Ht Hm HQ. destruct (Ht s) as (a & s' & E). eapply wp_intro; [exact E|]. apply HQ. by eapply Hm.
Qed.
(** The two parts of a round on interface [I]. *)
Definition start_link (k : Z) (I : DML_WAN_IFACE) : M (St PC) unit :=
  if sel_Enable (if_Selection I) then max_timeout I
  else when (sel_ActiveLink (if_Selection I)) (DmlSetWanActiveLinkInPSMDB k false ;; ret tt).
Definition start_bridge (I : DML_WAN_IFACE) : M (St PC) unit :=
  when (is_ethernet I) (WanMgr_RdkBus_AddIntfToLanBridge (if_BaseInterface I) false ;; ret tt).
Lemma still_start_link e k I : Total (start_link k I) /\ Moves (still e) (start_link k I).
Proof.
  unfold start_link, max_timeout. destruct (sel_Enable _); split.
  - total_tac.
  - apply moves_still_call. keeps_tac.
  - unfold DmlSetWanActiveLinkInPSMDB. total_tac.
  - apply moves_when; [apply _|]. apply moves_bind; [apply _ | apply moves_still_set_active |].
    intros; apply moves_ret; apply _.
Qed.
Lemma still_start_bridge e I : Total (start_bridge I) /\ Moves (still e) (start_bridge I).
Proof.
  unfold start_bridge. split.
  - unfold WanMgr_RdkBus_AddIntfToLanBridge, WanMgr_RdkBus_SetParamValues. total_tac.
  - apply moves_when; [apply _|]. apply moves_bind; [apply _ | apply moves_still_lan |].
    intros; apply moves_ret; apply _.
Qed.

(** A round, on the interface [I] of its table. *)
Lemma wp_start_round e (P : Prop) j I s (Q : unit -> St PC -> Prop) :
  ifaces s !! Z.to_nat j = Some I ->
  (P -> sel_Group (if_Selection I) = grp s /\ sel_Enable (if_Selection I) = false
        /\ sel_ActiveLink (if_Selection I) = true /\ e = PsmSet (psm_ActiveLink j) "FALSE") ->
  (forall s', start_view s' = start_view s -> (logged e s \/ P -> logged e s') -> Q tt s') ->
  wp (I <- get_iface (Z.to_nat j) ;; c <- get_controller ;;
      when (in_group c I) (start_link j I ;; start_bridge I)) Q s.
Proof.
  intros HI HP HQ. apply wp_bind. eapply wp_get_iface; [exact HI|]. apply wp_bind, wp_gets, wp_when.
  2: { intros Hin. apply HQ; [done|]. intros [?|HPt]; [done|]. destruct (HP HPt) as [HG _].
       unfold in_group in Hin. change (pc_GroupInst (ctl s)) with (grp s) in Hin. lia. }
  intros _. destruct (still_start_link e j I) as [Ht1 Hm1], (still_start_bridge e I) as [Ht2 Hm2].
  apply wp_bind, (wp_mono _ (fun _ s' => still e s s' /\ (P -> logged e s'))).
  - assert (wp (start_link j I) (fun _ s' => P -> logged e s') s) as HW.
    2: { eapply wp_mono; [apply wp_and; [exact HW|]|].
         - apply (wp_still e); [done|done|]. intros a s'. exact (fun Hs => Hs).
         - intros a s' [H1 H2]. by split. }
    destruct (Ht1 s) as ([] & s' & E). eapply wp_intro; [exact E|]. intros HPt.
    destruct (HP HPt) as (_ & HE & HL & ->). unfold start_link in E. rewrite HE, HL in E.
    injection E as <-. apply list_elem_of_here.
  - intros _ s1 [[Hv1 Hl1] HP1]. apply (wp_still e); [done|done|]. intros [] s2 [Hv2 Hl2].
    apply HQ; [congruence|]. intros [?|?]; auto.
Qed.

(** Starting the policy tells the persistent store that a disabled interface
    of the group is no longer the last selected one, but the mark in the data
    base stays: [Transition_Start] changes no interface. *)
Theorem parallel_start_keeps_marks s k I :
  ready s -> 0 <= k < nifaces s -> ifaces s !! Z.to_nat k = Some I ->
  sel_Group (if_Selection I) = grp s -> sel_Enable (if_Selection I) = false ->
  sel_ActiveLink (if_Selection I) = true ->
  exists s', Transition_Start s = Some (STATE_PARALLEL_SCAN_SCANNING_INTERFACE, s')
    /\ ifaces s' = ifaces s /\ PsmSet (psm_ActiveLink k) "FALSE" ∈ trace s'.
Proof.
  intros (Hwf & [Hn _] & Hsm & Hg & Ht) Hk HI HG HE HL. apply wp_result.
  unfold Transition_Start. apply wp_bind, wp_gets, wp_bind. rewrite Ht.
  set (e := PsmSet (psm_ActiveLink k) "FALSE").
  apply (wp_for_each_range (fun j s' => start_view s' = start_view s /\ (k < j -> logged e s'))).
  - split; [done | lia].
  - intros j s1 Hj [Hv Hlog].
    destruct (iface_ok_lookup s j) as (J & _ & _ & HJ & _);
      [done | lia | apply iface_ok_in; [done | unfold nifaces in *; lia] |].
    apply wp_with_iface; intros Hok.
    + apply (wp_start_round e (k = j) j J (locked s1)).
      * rewrite <- HJ. exact (f_equal (fun x => fst (fst x) !! Z.to_nat j) Hv).
      * intros ->. rewrite HI in HJ. injection HJ as <-. split; [|done].
        rewrite HG. symmetry. exact (f_equal (fun x => fst (snd x)) Hv).
      * intros s2 Hv2 Hl2. split; [transitivity (start_view s1); [exact Hv2 | done]|]. intros Hkj.
        apply Hl2. destruct (decide (k = j)); [by right | left; apply Hlog; lia].
    + exfalso. assert (iface_ok s1 j = iface_ok s j) as E.
      { unfold iface_ok. rewrite (f_equal (fun x => fst (fst x)) Hv : ifaces s1 = ifaces s).
        by rewrite (f_equal (fun x => fst (snd (fst x))) Hv : w_ulTotalNumbWanInterfaces (db s1) = _). }
      rewrite E, iface_ok_in in Hok by (first [done | unfold nifaces in *; lia]). done.
  - intros s1 [Hv Hlog]. rewrite Z.max_r in Hlog by lia. specialize (Hlog ltac:(lia)).
    assert (ifaces s1 = ifaces s) as EI by exact (f_equal (fun x => fst (fst x)) Hv).
    assert (grp s1 = grp s) as Eg by exact (f_equal (fun x => fst (snd x)) Hv).
    assert (groups s1 = groups s) as EG by exact (f_equal (fun x => snd (snd x)) Hv).
    apply wp_bind, wp_gets, wp_bind. change (pc_GroupInst (ctl s1)) with (grp s1). rewrite Eg, u32_small by lia.
    destruct (group_ok_lookup s (grp s - 1)) as [G HG1];
      [done | lia | apply group_ok_in; [done | unfold ngroups in *; lia] |].
    apply wp_with_group; intros _.
    + eapply wp_upd_group; [change (groups (locked s1)) with (groups s1); rewrite EG; exact HG1|].
      apply wp_bind, wp_bind. eapply wp_intro; [reflexivity|]. apply wp_modify, wp_ret.
      split; [done|]. split; [exact EI | by apply list_elem_of_further].
    + apply wp_bind, wp_bind. eapply wp_intro; [reflexivity|]. apply wp_modify, wp_ret.
      split; [done|]. split; [exact EI | by apply list_elem_of_further].
Qed.

(** When the state machine of a new interface cannot be started, the policy
    goes on scanning with the mutex of the data base still locked. *)
Theorem parallel_new_interface_leaks_lock s k I j v :
  db_wf (db s) -> 0 <= k < nifaces s -> ifaces s !! Z.to_nat k = Some I -> 0 < if_NoOfVirtIfs I ->
  WanMgr_getVirtualIfaceById (if_VirtIfList I) 0 = Some j -> if_VirtIfList I !! j = Some v ->
  v_Enable v = true ->
  (forall h, answer h (ExtCall "malloc" ["WanMgr_IfaceSM_Controller_t"]) = 0) ->
  exists s', Transition_NewInterfaceConnected k s = Some (STATE_PARALLEL_SCAN_SCANNING_INTERFACE, s')
    /\ depth s' = S (depth s) /\ start_failed (trace s') = true.
Proof.
  intros Hwf Hk HI Hn Hj Hv He Hmalloc. apply wp_result. unfold Transition_NewInterfaceConnected.
  apply wp_bind, wp_get_locked; intros Hok;
    [|rewrite iface_ok_in in Hok; [done | done | unfold nifaces in *; lia]].
  apply wp_bind. eapply wp_upd_iface; [exact HI|]. set (s1 := _ <| db ::= _ |>).
  set (f := fun I : DML_WAN_IFACE => I <| if_Selection; sel_Status := WAN_IFACE_VALIDATING |>
                                       <| if_VirtIfChanged := false |>).
  assert (ifaces s1 !! Z.to_nat k = Some (f I)) as HI1.
  { unfold ifaces, s1, locked in *. rsimpl. by rewrite list_lookup_alter_eq, HI. }
  apply wp_bind. eapply wp_get_iface; [exact HI1|]. change (if_NoOfVirtIfs (f I)) with (if_NoOfVirtIfs I).
  apply wp_bind. rewrite range_from_0. unfold range_from. replace (Z.to_nat (if_NoOfVirtIfs I) - Z.to_nat 0)%nat
    with (S (Nat.pred (Z.to_nat (if_NoOfVirtIfs I)))) by lia.
  apply wp_bind. unfold start_virtual at 1. apply wp_bind, wp_with_virtual; intros Hok1.
  - exists (f I), j. do 2 (split; [done|]). unfold get_vif.
    apply wp_bind, wp_bind. eapply wp_get_iface; [exact HI1|]. apply (wp_deref _ v); [exact Hv|].
    apply wp_ret. rewrite He. apply wp_bind. unfold WanMgr_StartInterfaceStateMachine.
    apply wp_bind. eapply wp_intro; [reflexivity|]. rewrite Hmalloc. simpl. apply wp_ret.
    apply wp_ret, wp_ret. split; [done|]. split.
    + transitivity (depth (unlocked (locked s1))); [done|]. by rewrite unlocked_locked.
    + simpl. by rewrite !Hmalloc.
  - exfalso. revert Hok1. unfold iface_ok. destruct (ifaces s1); [done|].
    change (w_ulTotalNumbWanInterfaces (db s1)) with (nifaces s). by rewrite (proj2 (Z.ltb_lt _ _)) by lia.
Qed.

(** The end of a policy thread releases its group: it selects nothing, has
    no thread and no pending change, and is stopped unless the failover thread
    deactivated it; the end asks for a failover scan when the thread was ended
    by a change of the group's configuration. *)
Theorem parallel_finish s G :
  db_wf (db s) -> bounded s -> 1 <= grp s <= ngroups s -> groups s !! Z.to_nat (grp s - 1) = Some G ->
  exists s' G', ps_finish s = Some (tt, s') /\ groups s' !! Z.to_nat (grp s - 1) = Some G'
    /\ g_ThreadId G' = 0 /\ g_SelectedInterface G' = 0 /\ g_ConfigChanged G' = false
    /\ g_State G' = (if g_State G ≟ STATE_GROUP_DEACTIVATED then STATE_GROUP_DEACTIVATED else STATE_GROUP_STOPPED)
    /\ cfg_ResetFailOverScan (config s') = pc_GroupCfgChanged (ctl s) || cfg_ResetFailOverScan (config s)
    /\ ifaces s' = ifaces s
    /\ forall j, j <> Z.to_nat (grp s - 1) -> groups s' !! j = groups s !! j.
Proof.
  intros Hwf [Hn _] Hg HG.
  assert (wp ps_finish (fun _ s' => ifaces s' = ifaces s
    /\ groups s' = alter released (Z.to_nat (grp s - 1)) (groups s)
    /\ cfg_ResetFailOverScan (config s') = pc_GroupCfgChanged (ctl s) || cfg_ResetFailOverScan (config s)) s) as HW.
  { apply wp_ps_finish; [done..|]. intros s' HI HGs _ _ _ Hc. do 2 (split; [done|]). rewrite Hc.
    by destruct (pc_GroupCfgChanged (ctl s)). }
  apply wp_run in HW as ([] & s' & E & HI & HGs & Hc).
  exists s', (released G). split; [done|]. split; [by rewrite HGs, list_lookup_alter_eq, HG|].
  assert (g_ThreadId (released G) = 0 /\ g_SelectedInterface (released G) = 0 /\ g_ConfigChanged (released G) = false
    /\ g_State (released G) = (if g_State G ≟ STATE_GROUP_DEACTIVATED then STATE_GROUP_DEACTIVATED
                               else STATE_GROUP_STOPPED)) as (H1 & H2 & H3 & H4).
  { unfold released. cbv zeta. rsimpl. by destruct G as [? [] ]. }
  do 6 (split; [done|]). intros j Hj. rewrite HGs.
  by apply list_lookup_alter_ne.
Qed.
End Properties.

(** * Witnesses *)

#[local] Instance the_build : Build := sample_build.
#[local] Instance the_platform : Platform := sample_platform 100.

(** The stack of a thread before its controller is initialised. *)
Definition sample_pc : PC :=
  mk_Policy_Controller false 7 7 None 0 0 0 0 0 false false false false 0 0.
(** Two interfaces of group 1. *)
Definition sample_pair (st1 st2 : DML_WAN_IFACE_STATUS) : list DML_WAN_IFACE :=
  [sample_iface 0 1 WAN_IFACE_NOT_SELECTED st1; sample_iface 1 1 WAN_IFACE_NOT_SELECTED st2].
Definition sample_idle : St PC :=
  sample_state sample_pc (sample_db (sample_pair WAN_IFACE_STATUS_STANDBY WAN_IFACE_STATUS_STANDBY)
    [sample_group 0]).
Lemma sample_idle_startable : ps_startable 1 sample_idle.
Proof.
  split; [by apply db_wfb_wf|]. split; [by apply boundedb_bounded|]. by vm_compute.
Qed.

(** The thread [n] passes after its start. *)
Fixpoint passes (n : nat) (o : option (option WcPsPolicyState_t * St PC)) : option (WcPsPolicyState_t * St PC) :=
  match o, n with
  | Some (Some st, s), O => Some (st, s)
  | Some (Some st, s), S n => passes n (ps_iteration st s)
  | _, _ => None
  end.
Lemma passes_reach g s0 n st s :
  passes n (ps_start g s0) = Some (st, s) -> ps_reach g s0 st s.
Proof.
  assert (forall o st s, (forall st0 s1, o = Some (Some st0, s1) -> ps_reach g s0 st0 s1) ->
    passes n o = Some (st, s) -> ps_reach g s0 st s) as Hgen.
  { induction n as [|n IH]; intros [[[st0|] s1]|] st1 s2 Ho; simpl; try done.
    - intros [= <- <-]. by apply Ho.
    - apply IH. intros st2 s3 E. eapply ps_reach_pass; [by apply Ho | exact E]. }
  apply Hgen. intros st0 s1 E. by apply ps_reach_start.
Qed.
Lemma passes_one o st' s' : passes 1 o = Some (st', s') ->
  exists st s, passes 0 o = Some (st, s) /\ ps_iteration st s = Some (Some st', s').
Proof.
  destruct o as [[[st|] s]|]; simpl; [|done..].
  destruct (ps_iteration st s) as [[[st1|] s1]|] eqn:E; [|done..]. intros [= <- <-]. by exists st, s.
Qed.

(** The policy of group 1 with the choice [a], its interface cached at [p]. *)
Definition sample_at (a : Z) (p : option nat) (st1 st2 : DML_WAN_IFACE_STATUS) (sel : Z) : St PC :=
  sample_state (mk_Policy_Controller true a (-1) p 90 0 20 2 0 false false true false 0 1)
    (sample_db (sample_pair st1 st2) [sample_group sel]).
Lemma sample_ready a p st1 st2 sel : 0 <= sel < 2 ^ 32 -> ready (sample_at a p st1 st2 sel).
Proof.
  intros Hs. split; [|split; [split; [done|]|]].
  - by apply db_wfb_wf; destruct st1, st2.
  - exact (Forall_cons_2 _ _ _ Hs (Forall_nil_2 _)).
  - by vm_compute.
Qed.

Lemma parallel_selection_inv_witness :
  exists st s, passes 1 (ps_start 1 sample_idle) = Some (st, s)
    /\ st = STATE_PARALLEL_SCAN_CHECK_RECONFIGURATION
    /\ exists a, own_selection s = Some (a + 1)
      /\ if settled st then a = active_idx s /\ 0 <= a < nifaces s /\ ifgroups s !! Z.to_nat a = Some 1
         else a = -1.
Proof.
  assert (fst <$> passes 1 (ps_start 1 sample_idle) = Some STATE_PARALLEL_SCAN_CHECK_RECONFIGURATION) as Ev by by vm_compute.
  destruct (passes 1 _) as [[st s]|] eqn:E; [|done]. injection Ev as Hst.
  exists st, s. split; [done|]. split; [done|].
  apply (parallel_selection_inv 1 sample_idle); [apply sample_idle_startable |].
  by eapply passes_reach.
Defined.

Lemma parallel_pass_safe_witness :
  exists st s, passes 2 (ps_start 1 sample_idle) = Some (st, s)
    /\ st = STATE_PARALLEL_SCAN_SELECTED_INTERFACE_UP
    /\ exists o s', ps_iteration st s = Some (o, s') /\ returns_lock st s s' /\ db_wf (db s')
      /\ (o = None <-> st = STATE_PARALLEL_SCAN_POLICY_EXIT \/ st = STATE_PARALLEL_SCAN_POLICY_ERROR).
Proof.
  assert (fst <$> passes 2 (ps_start 1 sample_idle) = Some STATE_PARALLEL_SCAN_SELECTED_INTERFACE_UP) as Ev by by vm_compute.
  destruct (passes 2 _) as [[st s]|] eqn:E; [|done]. injection Ev as Hst.
  exists st, s. split; [done|]. split; [done|].
  apply (parallel_pass_safe 1 sample_idle); [apply sample_idle_startable |].
  by eapply passes_reach.
Defined.

Lemma parallel_pass_rely_witness :
  exists st s o s', passes 0 (ps_start 1 sample_idle) = Some (st, s) /\ ps_iteration st s = Some (o, s')
    /\ own_selection s <> own_selection s'
    /\ ifgroups s' = ifgroups s.
Proof.
  assert ((fun x => own_selection (snd x)) <$> passes 0 (ps_start 1 sample_idle) = Some (Some 0)) as Ev by by vm_compute.
  assert ((fun x => own_selection (snd x)) <$> passes 1 (ps_start 1 sample_idle) = Some (Some 1)) as Ev' by by vm_compute.
  destruct (passes 1 _) as [[st' s']|] eqn:E1; [|done]. injection Ev' as Ho'.
  destruct (passes_one _ _ _ E1) as (st & s & E0 & E). rewrite E0 in Ev. injection Ev as Ho.
  exists st, s, (Some st'), s'. split; [done|]. split; [exact E|]. split; [congruence|].
  apply (parallel_pass_rely 1 sample_idle st s (Some st') s');
    [apply sample_idle_startable | by eapply passes_reach | exact E].
Defined.


Lemma parallel_selecting_witness :
  exists s', Transition_SelectingInterface (sample_at 1 None WAN_IFACE_STATUS_DISABLED WAN_IFACE_STATUS_UP 0)
      = Some (STATE_PARALLEL_SCAN_CHECK_RECONFIGURATION, s')
    /\ own_selection s' = Some 2.
Proof.
  destruct (parallel_selecting (sample_at 1 None WAN_IFACE_STATUS_DISABLED WAN_IFACE_STATUS_UP 0))
    as (s' & E & Ho & _); [by apply sample_ready | done |]. by exists s'.
Defined.

Lemma parallel_restart_scan_witness :
  exists s', Transition_RestartScan (sample_at 1 (Some 1%nat) WAN_IFACE_STATUS_DISABLED WAN_IFACE_STATUS_UP 2)
      = Some (STATE_PARALLEL_SCAN_SCANNING_INTERFACE, s')
    /\ own_selection s' = Some 0 /\ active_idx s' = -1.
Proof.
  destruct (parallel_restart_scan (sample_at 1 (Some 1%nat) WAN_IFACE_STATUS_DISABLED WAN_IFACE_STATUS_UP 2) 1%nat)
    as (s' & E & Ho & Ha & _); [by apply sample_ready | done | done |]. by exists s'.
Defined.

Lemma parallel_tearing_down_witness :
  exists s', Transition_TearingDown (sample_at 1 (Some 1%nat) WAN_IFACE_STATUS_INVALID WAN_IFACE_STATUS_UP 2)
      = Some (STATE_PARALLEL_SCAN_INTERFACE_TEAR_DOWN, s')
    /\ own_selection s' = Some 0.
Proof.
  destruct (parallel_tearing_down (sample_at 1 (Some 1%nat) WAN_IFACE_STATUS_INVALID WAN_IFACE_STATUS_UP 2))
    as (s' & E & Ho & _); [by apply sample_ready | done |]. by exists s'.
Defined.

(** The WAN disabled while the policy scans. *)
Definition sample_disabled : St PC :=
  (sample_at (-1) None WAN_IFACE_STATUS_UP WAN_IFACE_STATUS_UP 0)
    <| db ::= fun d => d <| w_Config; cfg_Enable := false |> |>.
Lemma parallel_stop_while_scanning_witness :
  exists s1, ps_iteration STATE_PARALLEL_SCAN_SCANNING_INTERFACE sample_disabled
      = Some (Some STATE_PARALLEL_SCAN_POLICY_ERROR, s1)
    /\ db s1 = db sample_disabled
    /\ exists s2, ps_iteration STATE_PARALLEL_SCAN_POLICY_ERROR s1 = Some (None, s2) /\ db s2 = db sample_disabled.
Proof.
  apply parallel_stop_while_scanning; [|done].
  split; [by apply db_wfb_wf|]. split; [by apply boundedb_bounded|]. split; [by vm_compute|].
  split; [by vm_compute|]. split; [done | by split].
Defined.

Lemma parallel_tear_down_ends_witness :
  exists st, State_InterfaceTearDown (sample_at 1 (Some 1%nat) WAN_IFACE_STATUS_DISABLED WAN_IFACE_STATUS_UP 0)
      = Some (st, sample_at 1 (Some 1%nat) WAN_IFACE_STATUS_DISABLED WAN_IFACE_STATUS_UP 0)
    /\ (st = STATE_PARALLEL_SCAN_POLICY_EXIT \/ st = STATE_PARALLEL_SCAN_INTERFACE_TEAR_DOWN).
Proof.
  destruct (parallel_tear_down_ends (sample_at 1 (Some 1%nat) WAN_IFACE_STATUS_DISABLED WAN_IFACE_STATUS_UP 0))
    as (st & E & Hst & _); [by apply sample_ready | done | done |]. by exists st.
Defined.

Lemma parallel_rescan_required_witness :
  exists r s', WanMgr_CheckRescanRequired (sample_at 1 (Some 1%nat) WAN_IFACE_STATUS_DISABLED WAN_IFACE_STATUS_UP 2)
      = Some (r, s') /\ r = true.
Proof.
  destruct (parallel_rescan_required (sample_at 1 (Some 1%nat) WAN_IFACE_STATUS_DISABLED WAN_IFACE_STATUS_UP 2) 1%nat
    (sample_iface 1 1 WAN_IFACE_NOT_SELECTED WAN_IFACE_STATUS_UP) (sample_vif WAN_IFACE_STATUS_UP) [])
    as (r & s' & E & _ & Hr & _); [by apply sample_ready | done | done | done |].
  exists r, s'. split; [exact E|]. apply Hr. right. right.
  exists 0, (sample_iface 0 1 WAN_IFACE_NOT_SELECTED WAN_IFACE_STATUS_DISABLED). by vm_compute.
Defined.

(** A disabled interface that was the last one selected. *)
Definition sample_stale : DML_WAN_IFACE :=
  (sample_iface 1 1 WAN_IFACE_NOT_SELECTED WAN_IFACE_STATUS_DISABLED)
    <| if_Selection; sel_Enable := false |> <| if_Selection; sel_ActiveLink := true |>.
Definition sample_stale_state : St PC :=
  (sample_at (-1) None WAN_IFACE_STATUS_DISABLED WAN_IFACE_STATUS_DISABLED 0)
    <| db ::= fun d => d <| w_pIface := <[1%nat := sample_stale]> (w_pIface d) |> |>.
Lemma parallel_start_keeps_marks_witness :
  exists s', Transition_Start sample_stale_state = Some (STATE_PARALLEL_SCAN_SCANNING_INTERFACE, s')
    /\ ifaces s' = ifaces sample_stale_state
    /\ PsmSet "dmsb.wanmanager.if.2.Selection.ActiveLink" "FALSE" ∈ trace s'.
Proof.
  apply (parallel_start_keeps_marks sample_stale_state 1 sample_stale); [|done..].
  split; [by apply db_wfb_wf|]. split; [by apply boundedb_bounded | by vm_compute].
Defined.

Lemma parallel_finish_witness :
  exists s' G', ps_finish (sample_at 1 None WAN_IFACE_STATUS_DISABLED WAN_IFACE_STATUS_UP 2) = Some (tt, s')
    /\ groups s' !! 0%nat = Some G' /\ g_SelectedInterface G' = 0 /\ g_State G' = STATE_GROUP_STOPPED.
Proof.
  destruct (parallel_finish (sample_at 1 None WAN_IFACE_STATUS_DISABLED WAN_IFACE_STATUS_UP 2) (sample_group 2))
    as (s' & G' & E & HG & _ & HS & _ & Hst & _).
  - by apply (sample_ready 1 None WAN_IFACE_STATUS_DISABLED WAN_IFACE_STATUS_UP 2).
  - by apply (sample_ready 1 None WAN_IFACE_STATUS_DISABLED WAN_IFACE_STATUS_UP 2).
  - by vm_compute.
  - done.
  - by exists s', G'.
Defined.

(** An interface that was selected last, without a link, of the worse priority. *)
Definition sample_overtaken : St PC :=
  (sample_at (-1) None WAN_IFACE_STATUS_DISABLED WAN_IFACE_STATUS_STANDBY 0)
    <| db ::= fun d => d <| w_pIface ::= alter (fun I => I <| if_Selection; sel_ActiveLink := true |>
                                                  <| if_Selection; sel_Priority := 5 |>) 0%nat |> |>.
(** The interface that was selected last does not keep its precedence while
    its link is down: a connected interface with a lower priority value is
    selected before the selection time-out, and so the mark moves to it. *)
Theorem parallel_last_selected_overtaken :
  exists s', State_ScanningInterface sample_overtaken = Some (STATE_PARALLEL_SCAN_CHECK_RECONFIGURATION, s')
    /\ expired sample_overtaken = false /\ own_selection s' = Some 2
    /\ (fun I => sel_ActiveLink (if_Selection I)) <$> take 2 (ifaces s') = [false; true].
Proof.
  assert ((fun x => (fst x, own_selection (snd x),
      (fun I => sel_ActiveLink (if_Selection I)) <$> take 2 (ifaces (snd x)))) <$> State_ScanningInterface sample_overtaken
    = Some (STATE_PARALLEL_SCAN_CHECK_RECONFIGURATION, Some 2, [false; true])) as Ev by by vm_compute.
  destruct (State_ScanningInterface sample_overtaken) as [[st s']|]; [|done].
  injection Ev as -> Ho Hl. exists s'. split; [done|]. split; [by vm_compute|]. by split.
Qed.

(** No memory is left for a new state machine. *)
Section Starved.
#[local] Instance starved_platform : Platform :=
  {| answer := fun _ _ => 0; answer_s := fun _ _ => EmptyString; sysevent_fd := 3 |}.
Lemma parallel_new_interface_leaks_lock_witness :
  exists s', Transition_NewInterfaceConnected 1 (sample_at (-1) None WAN_IFACE_STATUS_DISABLED WAN_IFACE_STATUS_DISABLED 0)
      = Some (STATE_PARALLEL_SCAN_SCANNING_INTERFACE, s')
    /\ depth s' = 1%nat /\ start_failed (trace s') = true.
Proof.
  apply (parallel_new_interface_leaks_lock (sample_at (-1) None WAN_IFACE_STATUS_DISABLED WAN_IFACE_STATUS_DISABLED 0)
    1 (sample_iface 1 1 WAN_IFACE_NOT_SELECTED WAN_IFACE_STATUS_DISABLED) 0 (sample_vif WAN_IFACE_STATUS_DISABLED));
    [by apply sample_ready | done..].
Defined.
End Starved.
