(* ===== verification/Failover.v ===== *)
(** [source/WanManager/wanmgr_wan_failover.c]: the failover thread, which
    activates the selected interface of the highest-priority interface group
    and moves the activation between groups.

    One [Definition] per C function; [fo_iteration] is the body of the thread's
    [while] loop.  The policy threads, which write [SelectedInterface] and
    [Selection.Status], and the interface state machines, which write
    [VirtIfList->Status], run between two iterations. *)

From S2P Require Export Sysevents.

Inductive TelemetryEvent_t :=
| WAN_FAILOVER_SUCCESS
| WAN_FAILOVER_FAIL
| WAN_RESTORE_SUCCESS
| WAN_RESTORE_FAIL.
#[export] Instance TelemetryEvent_t_eq_dec : EqDecision TelemetryEvent_t.
Proof. solve_decision. Defined.

Inductive WcFailOverState_t :=
| STATE_FAILOVER_SCANNING_GROUP
| STATE_FAILOVER_GROUP_ACTIVE
| STATE_FAILOVER_RESTORATION_WAIT
| STATE_FAILOVER_DEACTIVATE_GROUP
| STATE_FAILOVER_EXIT
| STATE_FAILOVER_ERROR.
#[export] Instance WcFailOverState_t_eq_dec : EqDecision WcFailOverState_t.
Proof. solve_decision. Defined.

(** [TelemetryEvent] 0 and [ActiveIfaceState] -1 are [None]; the last field is
    the function static [lastEvent] of [WanMgr_TelemetryEventTrigger]. *)
Record WanMgr_FailOver_Controller_t := mk_FailOver_Controller {
  fo_WanEnable : bool;
  fo_FailOverType : FAILOVER_TYPE;
  fo_CurrentActiveGroup : Z;
  fo_HighestValidGroup : Z;
  fo_GroupSelectionTimer : Z;
  fo_FailOverTimer : Z;
  fo_RestorationDelay : Z;
  fo_ResetScan : bool;
  fo_PhyState : DML_WAN_IFACE_PHY_STATUS;
  fo_ActiveIfaceState : option eWanState_t;
  fo_TelemetryEvent : option TelemetryEvent_t;
  fo_AllowRemoteInterfaces : bool;
  fo_lastEvent : option TelemetryEvent_t
}.
#[export] Instance FailOver_Controller_settable : Settable WanMgr_FailOver_Controller_t :=
  settable! mk_FailOver_Controller
  <fo_WanEnable; fo_FailOverType; fo_CurrentActiveGroup; fo_HighestValidGroup;
   fo_GroupSelectionTimer; fo_FailOverTimer; fo_RestorationDelay; fo_ResetScan;
   fo_PhyState; fo_ActiveIfaceState; fo_TelemetryEvent; fo_AllowRemoteInterfaces;
   fo_lastEvent>.

Definition TelemetryEventStr (e : TelemetryEvent_t) : string :=
  match e with
  | WAN_FAILOVER_SUCCESS => "WAN_FAILOVER_SUCCESS_COUNT"
  | WAN_FAILOVER_FAIL => "WAN_FAILOVER_FAIL_COUNT"
  | WAN_RESTORE_SUCCESS => "WAN_RESTORE_SUCCESS_COUNT"
  | WAN_RESTORE_FAIL => "WAN_RESTORE_FAIL_COUNT"
  end.

Section Failover.
Context `{Platform} `{Build}.
#[local] Abbreviation M := (Prelude.M (St WanMgr_FailOver_Controller_t)).

(** The events sent with [ENABLE_FEATURE_TELEMETRY2_0]; elapsed times in
    whole seconds. *)
Definition t2_event_d (event : string) : M unit := call_ (ExtCall "t2_event_d" [event; "1"]).

Definition WanMgr_TelemetryEventTrigger : M unit :=
  last <- get_ctl fo_lastEvent ;;
  ev <- get_ctl fo_TelemetryEvent ;;
  when (last ≠? ev) (
    (if ev ≟ Some WAN_FAILOVER_SUCCESS then
       now <- clock_gettime ;; start <- get_ctl fo_FailOverTimer ;;
       t2_event_d ("WFO_FAILOVER_SUCCESS: Total Time Taken in " +:+ dec (now - start))
     else if ev ≟ Some WAN_RESTORE_SUCCESS then
       now <- clock_gettime ;; start <- get_ctl fo_FailOverTimer ;;
       delay <- get_ctl fo_RestorationDelay ;;
       t2_event_d ("WFO_RESTORE_SUCCESS: Total Time Taken in " +:+ dec (now - start - delay))
     else ret tt) ;;
    set_ctl (fun c => c <| fo_lastEvent := ev |>) ;;
    match ev with Some e => t2_event_d (TelemetryEventStr e) | None => ret tt end).

Definition WanMgr_FailOverCtrlInit : M ANSC_STATUS :=
  set_ctl (fun c => c
    <| fo_WanEnable := false |>
    <| fo_FailOverType := HOTSWAP |>
    <| fo_CurrentActiveGroup := 0 |>
    <| fo_HighestValidGroup := 0 |>
    <| fo_RestorationDelay := 0 |>
    <| fo_TelemetryEvent := None |>
    <| fo_AllowRemoteInterfaces := false |>
    <| fo_ActiveIfaceState := None |>
    <| fo_PhyState := WAN_IFACE_PHY_STATUS_UNKNOWN |>) ;;
  TotalIfaces <- WanMgr_IfaceData_GetTotalWanIface ;;
  for_each (range TotalIfaces) (fun i =>
    with_iface tt i (fun p =>
      I <- get_iface p ;;
      with_group tt (u32 (sel_Group (if_Selection I) - 1)) (fun g =>
        upd_group g (fun G => G <| g_InterfaceAvailable :=
          u32 (Z.lor (g_InterfaceAvailable G) (Z.shiftl 1 i)) |>)))) ;;
  r <- call_s (PsmGet "dmsb.wanmanager.FailOverType") ;;
  when (fst r =? CCSP_SUCCESS) (
    match sscanf_d (snd r) with
    | Some n => set_ctl (fun c => c <| fo_FailOverType := if n =? 2 then COLDSWAP else HOTSWAP |>)
    | None => ret tt
    end) ;;
  ret ANSC_STATUS_SUCCESS.

(** The reset request is copied and cleared in one critical section. *)
Definition WanMgr_UpdateFOControllerData : M unit :=
  with_config (
    cfg <- get_db w_Config ;;
    set_ctl (fun c => c
      <| fo_WanEnable := cfg_Enable cfg |>
      <| fo_RestorationDelay := cfg_RestorationDelay cfg |>
      <| fo_ResetScan := cfg_ResetFailOverScan cfg |>
      <| fo_AllowRemoteInterfaces := cfg_AllowRemoteInterfaces cfg |>) ;;
    set_db (fun d => d <| w_Config; cfg_ResetFailOverScan := false |>)).

Definition WanMgr_DeactivateGroup (groupId : Z) : M ANSC_STATUS :=
  with_group tt (u32 (groupId - 1)) (fun g =>
    G <- get_group g ;;
    when (negb (g_SelectedInterface G =? 0)) (
      with_iface tt (u32 (g_SelectedInterface G - 1)) (fun i =>
        I <- get_iface i ;;
        when (sel_Status (if_Selection I) ≟ WAN_IFACE_ACTIVE)
          (upd_iface i (fun I => I <| if_Selection; sel_Status := WAN_IFACE_SELECTED |>))))) ;;
  ret ANSC_STATUS_SUCCESS.

Definition WanMgr_ActivateGroup (groupId : Z) : M ANSC_STATUS :=
  with_group tt (u32 (groupId - 1)) (fun g =>
    G <- get_group g ;;
    when (negb (g_SelectedInterface G =? 0)) (
      with_iface tt (u32 (g_SelectedInterface G - 1)) (fun i =>
        I <- get_iface i ;;
        when (sel_Status (if_Selection I) ≟ WAN_IFACE_SELECTED) (
          upd_iface i (fun I => I <| if_Selection; sel_Status := WAN_IFACE_ACTIVE |>) ;;
          upd_group g (fun G => G <| g_ActivationCount := u32 (g_ActivationCount G + 1) |>))))) ;;
  ret ANSC_STATUS_SUCCESS.

(** The selection thread started for a group: its entry point and its policy. *)
Definition group_thread (p : DML_WAN_POLICY) : string * DML_WAN_POLICY :=
  if FEATURE_RDKB_CONFIGURABLE_WAN_INTERFACE && (p ≟ PARALLEL_SCAN)
  then ("WanMgr_ParallelScanSelectionProcess", PARALLEL_SCAN)
  else ("WanMgr_AutoWanSelectionProcess", AUTOWAN_MODE).

Definition monitor_group (i : Z) (g : nat) : M unit :=
  G <- get_group g ;;
  when (negb (g_InterfaceAvailable G =? 0)
        && (g_State G ≠? STATE_GROUP_RUNNING) && (g_State G ≠? STATE_GROUP_DEACTIVATED)) (
    upd_group g (fun G => G
      <| g_SelectionTimeOut := 0 |>
      <| g_InitialScanComplete := false |>
      <| g_ActivationCount := 0 |>) ;;
    TotalIfaces <- WanMgr_IfaceData_GetTotalWanIface ;;
    for_each (range TotalIfaces) (fun k =>
      with_iface tt k (fun p =>
        I <- get_iface p ;;
        G <- get_group g ;;
        when ((i + 1 =? sel_Group (if_Selection I))
              && (g_SelectionTimeOut G <? sel_Timeout (if_Selection I)))
          (upd_group g (fun G => G <| g_SelectionTimeOut := sel_Timeout (if_Selection I) |>)))) ;;
    upd_group g (fun G => G <| g_ConfigChanged := false |>) ;;
    G <- get_group g ;;
    upd_group g (fun G => G <| g_Policy := snd (group_thread (g_Policy G)) |>) ;;
    r <- call (PthreadCreate (fst (group_thread (g_Policy G))) [i + 1]) ;;
    when (r =? 0) (upd_group g (fun G => G <| g_State := STATE_GROUP_RUNNING |>))).

Definition WanMgr_FO_IfaceGroupMonitor : M unit :=
  n <- WanMgr_GetTotalNoOfGroups ;;
  for_each (range n) (fun i => with_group tt i (monitor_group i)).

(** A DSL interface: its base interface names a PTM or ATM link. *)
Definition is_dsl (I : DML_WAN_IFACE) : bool :=
  strstr (if_BaseInterface I) "PTM" || strstr (if_BaseInterface I) "ATM".

Definition led_of_phy (st : DML_WAN_IFACE_PHY_STATUS) : string :=
  match st with
  | WAN_IFACE_PHY_STATUS_UP => WAN_LINK_UP_STATE
  | WAN_IFACE_PHY_STATUS_INITIALIZING => DSL_TRAINING
  | _ => WAN_LINK_DOWN_STATE
  end.

Definition led_selected (i : iface_ptr) : M unit :=
  I <- get_iface i ;;
  v <- deref (head (if_VirtIfList I)) ;;
  c <- get_controller ;;
  if (v_eCurrentState v ≠? WAN_STATE_EXIT)
     && (Some (v_eCurrentState v) ≠? fo_ActiveIfaceState c) then
    wanmgr_setWanLedState (v_eCurrentState v) ;;
    set_ctl (fun c => c <| fo_ActiveIfaceState := Some (v_eCurrentState v) |>
                        <| fo_PhyState := WAN_IFACE_PHY_STATUS_UP |>)
  else when ((v_eCurrentState v ≟ WAN_STATE_EXIT)
             && ((Some (v_eCurrentState v) ≠? fo_ActiveIfaceState c)
                 || (if_BaseInterfaceStatus I ≠? fo_PhyState c))) (
    wanmgr_setWanLedState (v_eCurrentState v) ;;
    (if if_BaseInterfaceStatus I ≟ WAN_IFACE_PHY_STATUS_UP
     then wanmgr_sysevents_setWanState WAN_LINK_UP_STATE
     else if (if_BaseInterfaceStatus I ≟ WAN_IFACE_PHY_STATUS_INITIALIZING) && is_dsl I
     then wanmgr_sysevents_setWanState DSL_TRAINING
     else wanmgr_sysevents_setWanState WAN_LINK_DOWN_STATE) ;;
    set_ctl (fun c => c <| fo_ActiveIfaceState := Some (v_eCurrentState v) |>
                        <| fo_PhyState := if_BaseInterfaceStatus I |>)).

(** The accumulation of the best physical status over all interfaces. *)
Definition led_best (best : DML_WAN_IFACE_PHY_STATUS) (I : DML_WAN_IFACE) :
    DML_WAN_IFACE_PHY_STATUS :=
  let st := if_BaseInterfaceStatus I in
  if (phy_status_val best <? phy_status_val st) && (st ≠? WAN_IFACE_PHY_STATUS_UNKNOWN)
  then if (st ≠? WAN_IFACE_PHY_STATUS_INITIALIZING)
          || ((st ≟ WAN_IFACE_PHY_STATUS_INITIALIZING) && is_dsl I)
       then st else best
  else best.
Fixpoint led_scan (l : list Z) (best : DML_WAN_IFACE_PHY_STATUS) : M DML_WAN_IFACE_PHY_STATUS :=
  match l with
  | [] => ret best
  | k :: l' =>
      best <- with_iface best k (fun i => I <- get_iface i ;; ret (led_best best I)) ;;
      led_scan l' best
  end.

Definition UpdateLedStatus : M unit :=
  cur <- get_ctl fo_CurrentActiveGroup ;;
  if negb (cur =? 0) then
    with_group tt (u32 (cur - 1)) (fun g =>
      G <- get_group g ;;
      when (0 <? g_SelectedInterface G)
        (with_iface tt (u32 (g_SelectedInterface G - 1)) led_selected))
  else
    uiTotalIfaces <- WanMgr_IfaceData_GetTotalWanIface ;;
    best <- led_scan (range uiTotalIfaces) WAN_IFACE_PHY_STATUS_DOWN ;;
    phy <- get_ctl fo_PhyState ;;
    when (best ≠? phy) (wanmgr_sysevents_setWanState (led_of_phy best)) ;;
    set_ctl (fun c => c <| fo_PhyState := best |>).

(** ** Transitions *)

Definition start_GroupSelectionTimer : M unit :=
  now <- clock_gettime ;; set_ctl (fun c => c <| fo_GroupSelectionTimer := now |>).
Definition start_FailOverTimer : M unit :=
  now <- clock_gettime ;; set_ctl (fun c => c <| fo_FailOverTimer := now |>).

Definition Transition_Start : M WcFailOverState_t :=
  set_ctl (fun c => c <| fo_CurrentActiveGroup := 0 |> <| fo_HighestValidGroup := 0 |>) ;;
  start_GroupSelectionTimer ;;
  type <- get_ctl fo_FailOverType ;;
  when (type ≟ COLDSWAP) (
    n <- WanMgr_GetTotalNoOfGroups ;;
    for_each (range n) (fun i => with_group tt i (fun g =>
      upd_group g (fun G => G <| g_State := STATE_GROUP_DEACTIVATED |>)))) ;;
  ret STATE_FAILOVER_SCANNING_GROUP.

(** The virtual interface passes traffic: it is up or on standby, a remote one
    is up remotely too, and one of its connectivity checks is up. *)
Definition vif_valid (I : DML_WAN_IFACE) (v : DML_VIRTUAL_IFACE) : bool :=
  ((v_Status v ≟ WAN_IFACE_STATUS_STANDBY) || (v_Status v ≟ WAN_IFACE_STATUS_UP))
  && negb ((if_IfaceType I ≟ REMOTE_IFACE) && (v_RemoteStatus v ≠? WAN_IFACE_STATUS_UP))
  && ((ip_Ipv4ConnectivityStatus (v_IP v) ≟ WAN_CONNECTIVITY_UP)
      || (ip_Ipv6ConnectivityStatus (v_IP v) ≟ WAN_CONNECTIVITY_UP)).

(** The first [if] of the loop body: group [i + 1] becomes the highest valid
    group when its selected interface qualifies. *)
Definition mark_candidate (i : Z) (G : WANMGR_IFACE_GROUP) : M unit :=
  c <- get_controller ;;
  when (negb (g_SelectedInterface G =? 0) && (fo_HighestValidGroup c =? 0)) (
    with_iface tt (u32 (g_SelectedInterface G - 1)) (fun p =>
      I <- get_iface p ;;
      v <- deref (head (if_VirtIfList I)) ;;
      if vif_valid I v then
        set_ctl (fun c => c <| fo_HighestValidGroup := i + 1 |>)
      else when ((fo_CurrentActiveGroup c =? i + 1) && v_Reset v)
        (set_ctl (fun c => c <| fo_HighestValidGroup := fo_CurrentActiveGroup c |>)))).

(** One iteration of the loop; [Some tt] is a [break]. *)
Definition mark_group (WaitForHigherGroup : bool) (i : Z) (g : nat) : M (option unit) :=
  G <- get_group g ;;
  mark_candidate i G ;;
  c <- get_controller ;;
  when ((fo_FailOverType c ≟ COLDSWAP) && (fo_HighestValidGroup c =? 0)
        && (g_State G ≟ STATE_GROUP_DEACTIVATED))
    (upd_group g (fun G => G <| g_State := STATE_GROUP_STOPPED |>)) ;;
  if g_ConfigChanged G then
    set_ctl (fun c => c <| fo_HighestValidGroup := fo_CurrentActiveGroup c |>) ;;
    ret (Some tt)
  else if WaitForHigherGroup then
    now <- clock_gettime ;;
    start <- get_ctl fo_GroupSelectionTimer ;;
    ret (if (now - start <? g_SelectionTimeOut G) || negb (g_InitialScanComplete G)
         then Some tt else None)
  else ret None.

Definition MarkHighPriorityGroup (WaitForHigherGroup : bool) : M ANSC_STATUS :=
  set_ctl (fun c => c <| fo_HighestValidGroup := 0 |>) ;;
  n <- WanMgr_GetTotalNoOfGroups ;;
  for_break (range n) (fun i => with_group None i (mark_group WaitForHigherGroup i)) ;;
  ret ANSC_STATUS_SUCCESS.

Definition Transition_ActivateGroup : M WcFailOverState_t :=
  c <- get_controller ;;
  if negb (fo_HighestValidGroup c =? 0) then
    when (negb (fo_CurrentActiveGroup c =? 0)) (
      if fo_CurrentActiveGroup c <? fo_HighestValidGroup c
      then set_ctl (fun c => c <| fo_TelemetryEvent := Some WAN_FAILOVER_SUCCESS |>)
      else when (fo_HighestValidGroup c <? fo_CurrentActiveGroup c)
        (set_ctl (fun c => c <| fo_TelemetryEvent := Some WAN_RESTORE_SUCCESS |>))) ;;
    r <- WanMgr_ActivateGroup (fo_HighestValidGroup c) ;;
    if r ≠? ANSC_STATUS_SUCCESS then ret STATE_FAILOVER_SCANNING_GROUP
    else
      set_ctl (fun c => c <| fo_CurrentActiveGroup := fo_HighestValidGroup c |>) ;;
      c <- get_controller ;;
      when (fo_FailOverType c ≟ COLDSWAP) (
        n <- WanMgr_GetTotalNoOfGroups ;;
        for_each (filter (fun i => fo_CurrentActiveGroup c <= i) (range n)) (fun i =>
          with_group tt i (fun g =>
            G <- get_group g ;;
            when (g_State G ≟ STATE_GROUP_RUNNING)
              (upd_group g (fun G => G <| g_State := STATE_GROUP_DEACTIVATED |>
                                       <| g_ConfigChanged := true |>))))) ;;
      ret STATE_FAILOVER_GROUP_ACTIVE
  else ret STATE_FAILOVER_GROUP_ACTIVE.

Definition Transition_DeactivateGroup : M WcFailOverState_t :=
  cur <- get_ctl fo_CurrentActiveGroup ;;
  if negb (cur =? 0) then
    r <- WanMgr_DeactivateGroup cur ;;
    ret (if r ≠? ANSC_STATUS_SUCCESS then STATE_FAILOVER_GROUP_ACTIVE
         else STATE_FAILOVER_DEACTIVATE_GROUP)
  else ret STATE_FAILOVER_DEACTIVATE_GROUP.

Definition Transition_Restoration : M WcFailOverState_t :=
  start_GroupSelectionTimer ;; ret STATE_FAILOVER_RESTORATION_WAIT.

Definition Transition_RestorationFail : M WcFailOverState_t :=
  set_ctl (fun c => c <| fo_TelemetryEvent := Some WAN_RESTORE_FAIL |>) ;;
  ret STATE_FAILOVER_GROUP_ACTIVE.

Definition Transition_ResetScan : M WcFailOverState_t :=
  cur <- get_ctl fo_CurrentActiveGroup ;;
  when (negb (cur =? 0)) (WanMgr_DeactivateGroup cur ;; ret tt) ;;
  set_ctl (fun c => c <| fo_CurrentActiveGroup := 0 |> <| fo_HighestValidGroup := 0 |>
                      <| fo_ResetScan := false |>) ;;
  wanmgr_setWanLedState WAN_STATE_EXIT ;;
  set_ctl (fun c => c <| fo_ActiveIfaceState := None |>
                      <| fo_PhyState := WAN_IFACE_PHY_STATUS_UNKNOWN |>) ;;
  start_GroupSelectionTimer ;;
  ret STATE_FAILOVER_SCANNING_GROUP.

(** ** States *)

Definition State_ScanningGroup : M WcFailOverState_t :=
  enable <- get_ctl fo_WanEnable ;;
  if negb enable then ret STATE_FAILOVER_EXIT
  else
    MarkHighPriorityGroup true ;;
    high <- get_ctl fo_HighestValidGroup ;;
    if negb (high =? 0) then Transition_ActivateGroup
    else ret STATE_FAILOVER_SCANNING_GROUP.

Definition State_GroupActive : M WcFailOverState_t :=
  c <- get_controller ;;
  if negb (fo_WanEnable c) then Transition_DeactivateGroup
  else if fo_ResetScan c then Transition_ResetScan
  else
    MarkHighPriorityGroup false ;;
    c <- get_controller ;;
    if negb (fo_HighestValidGroup c =? 0) then
      count <- with_group (u32 (-1)) (u32 (fo_HighestValidGroup c - 1))
                 (fun g => G <- get_group g ;; ret (g_ActivationCount G)) ;;
      if (fo_CurrentActiveGroup c <? fo_HighestValidGroup c)
         || ((count =? 0) && (fo_HighestValidGroup c <? fo_CurrentActiveGroup c)) then
        start_FailOverTimer ;; Transition_DeactivateGroup
      else if fo_HighestValidGroup c <? fo_CurrentActiveGroup c then
        start_FailOverTimer ;; Transition_Restoration
      else ret STATE_FAILOVER_GROUP_ACTIVE
    else
      when ((fo_CurrentActiveGroup c =? 1) && fo_AllowRemoteInterfaces c)
        (set_ctl (fun c => c <| fo_TelemetryEvent := Some WAN_FAILOVER_FAIL |>)) ;;
      ret STATE_FAILOVER_GROUP_ACTIVE.

Definition State_RestorationWait : M WcFailOverState_t :=
  c <- get_controller ;;
  if negb (fo_WanEnable c) then Transition_DeactivateGroup
  else
    down <- with_group false (u32 (fo_HighestValidGroup c - 1)) (fun g =>
      G <- get_group g ;;
      if negb (g_SelectedInterface G =? 0) then
        with_iface false (u32 (g_SelectedInterface G - 1)) (fun i =>
          I <- get_iface i ;;
          v <- deref (head (if_VirtIfList I)) ;;
          ret ((v_Status v ≠? WAN_IFACE_STATUS_STANDBY) && (v_Status v ≠? WAN_IFACE_STATUS_UP)))
      else ret false) ;;
    if (down : bool) then Transition_RestorationFail
    else
      now <- clock_gettime ;;
      if fo_RestorationDelay c <? now - fo_GroupSelectionTimer c
      then Transition_DeactivateGroup
      else ret STATE_FAILOVER_RESTORATION_WAIT.

Definition State_DeactivateGroup : M WcFailOverState_t :=
  c <- get_controller ;;
  deactivated <- (if fo_CurrentActiveGroup c =? 0 then ret true
    else with_group false (u32 (fo_CurrentActiveGroup c - 1)) (fun g =>
      G <- get_group g ;;
      if negb (g_SelectedInterface G =? 0) then
        with_iface false (u32 (g_SelectedInterface G - 1)) (fun i =>
          I <- get_iface i ;;
          v <- deref (head (if_VirtIfList I)) ;;
          ret (v_Status v ≠? WAN_IFACE_STATUS_UP))
      else ret true)) ;;
  if (deactivated : bool) then
    if negb (fo_WanEnable c) then ret STATE_FAILOVER_EXIT
    else Transition_ActivateGroup
  else ret STATE_FAILOVER_DEACTIVATE_GROUP.

(** ** The thread *)

Definition fo_dispatch (fo_sm_state : WcFailOverState_t) : M (option WcFailOverState_t) :=
  match fo_sm_state with
  | STATE_FAILOVER_SCANNING_GROUP => s <- State_ScanningGroup ;; ret (Some s)
  | STATE_FAILOVER_GROUP_ACTIVE => s <- State_GroupActive ;; ret (Some s)
  | STATE_FAILOVER_RESTORATION_WAIT => s <- State_RestorationWait ;; ret (Some s)
  | STATE_FAILOVER_DEACTIVATE_GROUP => s <- State_DeactivateGroup ;; ret (Some s)
  | STATE_FAILOVER_EXIT | STATE_FAILOVER_ERROR => ret None
  end.

(** One pass of the loop of [WanMgr_FailOverThread]; [None] is
    [bRunning = false]. *)
Definition fo_iteration (fo_sm_state : WcFailOverState_t) : M (option WcFailOverState_t) :=
  WanMgr_UpdateFOControllerData ;;
  WanMgr_FO_IfaceGroupMonitor ;;
  when FEATURE_RDKB_LED_MANAGER UpdateLedStatus ;;
  WanMgr_TelemetryEventTrigger ;;
  fo_dispatch fo_sm_state.

(** What runs before the loop: the state it starts in, or the early return. *)
Definition fo_start : M (option WcFailOverState_t) :=
  r <- WanMgr_FailOverCtrlInit ;;
  if r ≠? ANSC_STATUS_SUCCESS then ret None
  else
    WanMgr_UpdateFOControllerData ;;
    st <- Transition_Start ;;
    WanMgr_FO_IfaceGroupMonitor ;;
    ret (Some st).

(** One round of the final wait: whether a selection thread still runs. *)
Fixpoint fo_wait_round (l : list Z) (running : bool) : M bool :=
  match l with
  | [] => ret running
  | i :: l' =>
      running <- with_group running i (fun g =>
        G <- get_group g ;;
        ret (running || (g_State G ≟ STATE_GROUP_RUNNING))) ;;
      fo_wait_round l' running
  end.
Definition fo_selectionThreadRunning : M bool :=
  n <- WanMgr_GetTotalNoOfGroups ;; fo_wait_round (range n) false.
End Failover.
