(* ===== verification/FailoverFacts.v ===== *)
(** The failover thread never dereferences [NULL] and gives back every lock;
    what activating and deactivating a group does to the active interfaces. *)

From S2P Require Export DataFacts Failover.

(** * Crash freedom and the lock *)

(** The failover thread caches nothing. *)
#[export] Instance fo_anchor : Anchor WanMgr_FailOver_Controller_t :=
  fun _ => True.

Section FailoverSafe.
Context `{Platform} `{Build} (sh : Shape) (Hwf : wf_shape sh).
#[local] Abbreviation safe m := (Safe (C := WanMgr_FailOver_Controller_t) sh (fun _ => True) m).

Lemma safe_telemetry : safe WanMgr_TelemetryEventTrigger.
Proof. unfold WanMgr_TelemetryEventTrigger, t2_event_d. safe_tac. Qed.
Lemma safe_fo_init : safe WanMgr_FailOverCtrlInit.
Proof. unfold WanMgr_FailOverCtrlInit. safe_tac. Qed.
Lemma safe_update_controller : safe WanMgr_UpdateFOControllerData.
Proof. unfold WanMgr_UpdateFOControllerData. safe_tac. Qed.
Lemma safe_deactivate g : safe (WanMgr_DeactivateGroup g).
Proof. unfold WanMgr_DeactivateGroup. safe_tac. Qed.
Lemma safe_activate g : safe (WanMgr_ActivateGroup g).
Proof. unfold WanMgr_ActivateGroup. safe_tac. Qed.
Lemma safe_monitor : safe WanMgr_FO_IfaceGroupMonitor.
Proof. unfold WanMgr_FO_IfaceGroupMonitor, monitor_group. safe_tac. Qed.
Lemma safe_led_scan l best :
  (forall k, k ∈ l -> 0 <= k) -> safe (led_scan l best).
Proof.
  revert best. induction l as [|k l IH]; intros best Hl; simpl; [by apply safe_ret|].
  apply safe_bind_any.
  - apply safe_with_iface; [done | apply Hl; constructor | done | intros i Hi].
    safe_tac.
  - intros best'. apply IH. intros j Hj. apply Hl. by constructor.
Qed.
Lemma safe_led_selected i : valid_iface sh i -> safe (led_selected i).
Proof. intros Hi. unfold led_selected. safe_tac. Qed.
#[local] Hint Resolve safe_led_selected safe_deactivate safe_activate : safe.
Lemma safe_led_scan_range n best : safe (led_scan (range n) best).
Proof. apply safe_led_scan. intros k Hk%elem_of_range. lia. Qed.
#[local] Hint Resolve safe_led_scan_range : safe.
Lemma safe_led : safe UpdateLedStatus.
Proof. unfold UpdateLedStatus. safe_tac. Qed.
Lemma safe_mark_group w i g : valid_group sh g -> safe (mark_group w i g).
Proof. intros Hg. unfold mark_group, mark_candidate. safe_tac. Qed.
#[local] Hint Resolve safe_mark_group : safe.
Lemma safe_mark w : safe (MarkHighPriorityGroup w).
Proof. unfold MarkHighPriorityGroup. safe_tac. Qed.
Lemma safe_Transition_Start : safe Transition_Start.
Proof. unfold Transition_Start, start_GroupSelectionTimer. safe_tac. Qed.
Lemma safe_Transition_ActivateGroup : safe Transition_ActivateGroup.
Proof. unfold Transition_ActivateGroup. safe_tac. Qed.
Lemma safe_Transition_DeactivateGroup : safe Transition_DeactivateGroup.
Proof. unfold Transition_DeactivateGroup. safe_tac. Qed.
Lemma safe_Transition_ResetScan : safe Transition_ResetScan.
Proof. unfold Transition_ResetScan, start_GroupSelectionTimer. safe_tac. Qed.
#[local] Hint Resolve safe_mark safe_Transition_ActivateGroup safe_Transition_DeactivateGroup
  safe_Transition_ResetScan safe_telemetry safe_update_controller safe_monitor safe_led
  safe_fo_init safe_Transition_Start : safe.
Lemma safe_dispatch st : safe (fo_dispatch st).
Proof.
  unfold fo_dispatch, State_ScanningGroup, State_GroupActive, State_RestorationWait,
    State_DeactivateGroup, Transition_Restoration, Transition_RestorationFail,
    start_GroupSelectionTimer, start_FailOverTimer.
  safe_tac.
Qed.
#[local] Hint Resolve safe_dispatch : safe.
Lemma safe_iteration st : safe (fo_iteration st).
Proof. unfold fo_iteration. safe_tac. Qed.
Lemma safe_fo_start : safe fo_start.
Proof. unfold fo_start. safe_tac. Qed.
End FailoverSafe.

(** * At most one interface is active *)

Section Active.
Context `{Platform} `{Build}.
#[local] Abbreviation FO := WanMgr_FailOver_Controller_t.
Implicit Type s : St FO.

(** Deactivating the group of the active interface leaves none active. *)
Lemma wp_deactivate g s :
  db_wf (db s) -> bounded s -> 0 < g <= ngroups s -> only_active g s ->
  wp (WanMgr_DeactivateGroup g) (fun r s' => r = ANSC_STATUS_SUCCESS /\ only_active 0 s') s.
Proof.
  intros Hwf Hb Hg Hoa. unfold WanMgr_DeactivateGroup. wp_tac.
  rewrite u32_small by (destruct Hb; lia). apply wp_with_group; intros Hok.
  2: { rewrite group_ok_in in Hok; [done | done | unfold ngroups in *; lia]. }
  destruct (group_ok_lookup s (g - 1)) as [G HG]; [done | lia | done |].
  pose proof (bounded_selected _ _ _ Hb HG) as Hsel.
  pose proof (selected_lookup _ _ _ HG) as HS.
  wp_tac.
  - apply negb_true_iff, Z.eqb_neq in H1. rewrite u32_small by lia.
    apply wp_with_iface; intros Hiok.
    + destruct (iface_ok_lookup (locked s) (g_SelectedInterface G - 1))
        as (I & v & l & HI & Hv); [done | lia | done |].
      wp_tac; (split; [done|]); intros i Hi Ha; exfalso.
      * change (statuses ((locked (locked s)) <| db ::= fun d => d <| w_pIface := alter
          (fun I => I <| if_Selection; sel_Status := WAN_IFACE_SELECTED |>)
          (Z.to_nat (g_SelectedInterface G - 1)) (w_pIface d) |> |>) !! i
          = Some WAN_IFACE_ACTIVE) in Ha.
        rewrite statuses_alter in Ha. destruct (decide _) as [|Hne].
        { change (ifaces (locked (locked s))) with (ifaces (locked s)) in Ha.
          by rewrite HI in Ha. }
        apply Hoa in Ha as [_ Ha]; [|done]. rewrite HS in Ha. injection Ha. lia.
      * apply bool_decide_eq_false in H2. pose proof Ha as Ha'.
        apply Hoa in Ha as [_ Ha]; [|done]. rewrite HS in Ha. injection Ha as Ha.
        change (statuses s !! i = Some WAN_IFACE_ACTIVE) in Ha'.
        unfold statuses in Ha'. rewrite list_lookup_fmap in Ha'.
        replace i with (Z.to_nat (g_SelectedInterface G - 1)) in Ha' by lia.
        change (ifaces (locked s)) with (ifaces s) in HI. rewrite HI in Ha'.
        by injection Ha'.
    + wp_tac. split; [done|]. intros i Hi Ha. exfalso.
      apply Hoa in Ha as [_ Ha]; [|done]. rewrite HS in Ha. injection Ha as Ha.
      change (iface_ok s (g_SelectedInterface G - 1) = false) in Hiok.
      rewrite iface_ok_in in Hiok; [done | done | change (Z.of_nat i < nifaces s) in Hi; unfold nifaces in Hi; lia].
  - split; [done|]. intros i Hi Ha. exfalso. apply Hoa in Ha as [_ Ha]; [|done].
    rewrite HS in Ha. injection Ha as Ha. apply negb_false_iff in H1. lia.
Qed.

(** Activating a group when none is active leaves only its interface active. *)
Lemma wp_activate g s :
  db_wf (db s) -> bounded s -> 0 < g <= ngroups s -> only_active 0 s ->
  wp (WanMgr_ActivateGroup g) (fun r s' => r = ANSC_STATUS_SUCCESS /\ only_active g s') s.
Proof.
  intros Hwf Hb Hg Hoa. unfold WanMgr_ActivateGroup. wp_tac.
  assert (forall s', act_view s' = act_view s -> only_active g s') as Hnone.
  { intros s' Hs'. eapply only_active_view; [done|]. intros i Hi Ha.
    apply Hoa in Ha; [lia | done]. }
  rewrite u32_small by (destruct Hb; lia). apply wp_with_group; intros Hok.
  2: { wp_tac. split; [done|]. by apply Hnone. }
  destruct (group_ok_lookup s (g - 1)) as [G HG]; [done | lia | done |].
  pose proof (bounded_selected _ _ _ Hb HG) as Hsel.
  pose proof (selected_lookup _ _ _ HG) as HS.
  wp_tac; [|by split; [|apply Hnone]].
  apply negb_true_iff, Z.eqb_neq in H1. rewrite u32_small by lia.
  apply wp_with_iface; intros Hiok; [|by wp_tac; split; [|apply Hnone]].
  destruct (iface_ok_lookup (locked s) (g_SelectedInterface G - 1))
    as (I & v & l & HI & Hv); [done | lia | done |].
  wp_tac; (split; [done|]); [|by apply Hnone].
  set (f := fun I => I <| if_Selection; sel_Status := WAN_IFACE_ACTIVE |>).
  set (s1 := s <| db ::= fun d => d <| w_pIface :=
    alter f (Z.to_nat (g_SelectedInterface G - 1)) (w_pIface d) |> |>).
  intros i Hi Ha. change (statuses s1 !! i = Some WAN_IFACE_ACTIVE) in Ha.
  unfold s1 in Ha. rewrite statuses_alter in Ha. destruct (decide _) as [<-|Hne].
  - split; [lia|]. unfold selected, groups, locked, unlocked. rsimpl.
    rewrite list_lookup_fmap, list_lookup_alter_eq. unfold groups in HG. rewrite HG.
    simpl. unfold set. simpl. f_equal. lia.
  - apply Hoa in Ha; [lia | done].
Qed.
End Active.
