(* ===== verification/FailoverMark.v ===== *)
(** The specification of [MarkHighPriorityGroup]: the group it chooses is the
    first that qualifies, and the initial scan waits for the groups above it. *)

From S2P Require Export FailoverFacts.

(** * The choice of the group *)

Section Mark.
Context `{Platform} `{Build}.
#[local] Abbreviation FO := WanMgr_FailOver_Controller_t.
Implicit Type s : St FO.

Definition cur s : Z := fo_CurrentActiveGroup (ctl s).
Definition high s : Z := fo_HighestValidGroup (ctl s).

(** Group [k + 1] qualifies: its selected interface is configured, and its
    first virtual interface is valid, or it is being reset while its group is
    the active one. *)
Definition group_candidate s (k : Z) : bool :=
  match groups s !! Z.to_nat k with
  | None => false
  | Some G =>
      negb (g_SelectedInterface G =? 0) && (g_SelectedInterface G - 1 <? nifaces s) &&
      match ifaces s !! Z.to_nat (g_SelectedInterface G - 1) with
      | Some iface =>
          match if_VirtIfList iface with
          | v :: _ => vif_valid iface v || ((cur s =? k + 1) && v_Reset v)
          | [] => false
          end
      | None => false
      end
  end.

(** What the search reads and leaves unchanged. *)
Definition mark_view s :=
  (ifaces s, shape_of (db s), cur s,
   (fun G => (g_SelectedInterface G, g_ConfigChanged G, g_InitialScanComplete G,
              g_SelectionTimeOut G)) <$> groups s).

Lemma group_candidate_view s s' k :
  mark_view s' = mark_view s -> group_candidate s' k = group_candidate s k.
Proof.
  intros [= Hi Ht _ _ _ Hc Hg]. unfold group_candidate, nifaces. rewrite Hi, Ht, Hc.
  apply (f_equal (fun l => l !! Z.to_nat k)) in Hg. rewrite !list_lookup_fmap in Hg.
  destruct (groups s' !! _), (groups s !! _); try done. by injection Hg as -> _ _ _.
Qed.
Lemma mark_view_group s s' k G :
  mark_view s' = mark_view s -> groups s' !! k = Some G ->
  exists G0, groups s !! k = Some G0 /\ g_SelectedInterface G0 = g_SelectedInterface G /\
    g_ConfigChanged G0 = g_ConfigChanged G /\ g_InitialScanComplete G0 = g_InitialScanComplete G /\
    g_SelectionTimeOut G0 = g_SelectionTimeOut G.
Proof.
  intros [= _ _ _ _ _ _ Hg] HG.
  apply (f_equal (fun l => l !! k)) in Hg. rewrite !list_lookup_fmap, HG in Hg.
  destruct (groups s !! k) as [G0|]; [|done]. injection Hg as H1 H2 H3 H4. by exists G0.
Qed.

Definition set_high (h : Z) s : St FO := s <| ctl; fo_HighestValidGroup := h |>.
Lemma set_high_same s : set_high (high s) s = s.
Proof. by destruct s as [[] ? ? ?]. Qed.
Lemma set_high_locked h s : unlocked (set_high h (locked s)) = set_high h s.
Proof.
  change (set_high h (unlocked (locked s)) = set_high h s). by rewrite unlocked_locked.
Qed.

Lemma wp_mark_candidate i G s :
  db_wf (db s) -> bounded s -> 0 <= i -> groups s !! Z.to_nat i = Some G ->
  wp (mark_candidate i G) (fun _ s' =>
    s' = set_high (if (high s =? 0) && group_candidate s i then i + 1 else high s) s) s.
Proof.
  intros Hwf Hb Hi HG. unfold mark_candidate. wp_tac.
  - apply andb_prop in H1 as [Hs Hh]. change ((high s =? 0) = true) in Hh. rewrite Hh. unfold group_candidate. rewrite HG, Hs. simpl.
    pose proof (bounded_selected _ _ _ Hb HG) as Hsel.
    apply negb_true_iff, Z.eqb_neq in Hs. rewrite u32_small by lia.
    apply wp_with_iface; intros Hok.
    + destruct (iface_ok_lookup s (g_SelectedInterface G - 1)) as (I & v & l & HI & Hv);
        [done | lia | done |].
      rewrite HI, Hv, (proj2 (Z.ltb_lt _ (nifaces s)) (iface_ok_lt _ _ Hok)). simpl.
      assert (ifaces (locked s) !! Z.to_nat (g_SelectedInterface G - 1) = Some I) as HI' by done.
      wp_tac. rewrite Hv. apply (wp_deref _ v); [done|]. wp_tac.
      * rewrite H1. simpl. apply set_high_locked.
      * rewrite H1. simpl. unfold cur. rewrite H2.
        apply andb_prop in H2 as [->%Z.eqb_eq _]. apply set_high_locked.
      * rewrite H1. simpl. unfold cur. rewrite H2. rewrite unlocked_locked. symmetry. apply set_high_same.
    + rewrite (proj2 (Z.ltb_ge _ (nifaces s))); [symmetry; apply set_high_same|].
      destruct (Z.lt_ge_cases (g_SelectedInterface G - 1) (nifaces s)); [|done].
      rewrite iface_ok_in in Hok; [done | done | unfold nifaces in *; lia].
  - apply andb_false_iff in H1 as [Hs | Hh].
    + unfold group_candidate. rewrite HG, Hs, andb_false_r. symmetry. apply set_high_same.
    + change ((high s =? 0) = false) in Hh. rewrite Hh. symmetry. apply set_high_same.
Qed.

(** Group [k + 1] has completed its initial scan, and some reading of the clock
    found its selection time over. *)
Definition scan_over s (k : Z) : Prop :=
  forall G, groups s !! Z.to_nat k = Some G ->
    g_InitialScanComplete G = true /\
    exists h, g_SelectionTimeOut G <= answer h ClockGettime - fo_GroupSelectionTimer (ctl s).
(** Group [k + 1] is not done with it, for some reading of the clock. *)
Definition scanning s (k : Z) : Prop :=
  exists G, groups s !! Z.to_nat k = Some G /\
    (g_InitialScanComplete G = false
     \/ exists h, answer h ClockGettime - fo_GroupSelectionTimer (ctl s) < g_SelectionTimeOut G).
Definition config_changing s (k : Z) : bool :=
  match groups s !! Z.to_nat k with Some G => g_ConfigChanged G | None => false end.

(** The first candidate among the groups below [n]. *)
Definition first_candidate s (n h : Z) : Prop :=
  (h = 0 /\ forall j, 0 <= j < n -> group_candidate s j = false)
  \/ (1 <= h <= n /\ group_candidate s (h - 1) = true
      /\ forall j, 0 <= j < h - 1 -> group_candidate s j = false).

(** The search goes over the first [n] groups: none of them is being changed and,
    in the initial scan, they have completed theirs. *)
Definition searched (w : bool) s (n : Z) : Prop :=
  forall j, 0 <= j < n -> config_changing s j = false /\ (w = true -> scan_over s j).

(** What [MarkHighPriorityGroup] leaves in [HighestValidGroup] of a search
    started in [s]: the search ends after the last group, at the first group that
    is being changed, or, in the initial scan, after the first that is still
    scanning. *)
Definition marked (w : bool) s (h : Z) : Prop := exists n, searched w s n /\
  (n = ngroups s /\ first_candidate s n h
   \/ 0 <= n < ngroups s /\ config_changing s n = true /\ h = cur s
   \/ 0 <= n < ngroups s /\ config_changing s n = false /\ w = true /\ scanning s n /\ first_candidate s (n + 1) h).

(** The loop invariant after [k] groups. *)
Definition mark_inv (w : bool) (s0 : St FO) (k : Z) (s : St FO) : Prop :=
  mark_view s = mark_view s0 /\ ctl s = ctl (set_high (high s) s0) /\ depth s = depth s0
  /\ first_candidate s0 k (high s) /\ searched w s0 k.

Lemma mark_view_wf s s' : mark_view s' = mark_view s -> db_wf (db s) -> db_wf (db s').
Proof. intros [= _ Ht Hg Hv Hl _ _]. unfold db_wf, shape_of. by rewrite Ht, Hg, Hv, Hl. Qed.
Lemma mark_view_bounded s s' : mark_view s' = mark_view s -> bounded s -> bounded s'.
Proof.
  intros [= _ _ Hg _ _ _ HG] [Hn Hb]. unfold bounded, ngroups in *. rewrite Hg. split; [done|].
  apply (f_equal (fmap (fun x => fst (fst (fst x))))) in HG. rewrite <- !list_fmap_compose in HG.
  change (selected s' = selected s) in HG. by rewrite HG.
Qed.

Lemma first_candidate_step s k h :
  0 <= k -> first_candidate s k h ->
  first_candidate s (k + 1) (if (h =? 0) && group_candidate s k then k + 1 else h).
Proof.
  intros Hk [[-> Hn] | (Hh & Hc & Hn)].
  - simpl. destruct (group_candidate s k) eqn:E; [right | left].
    + replace (k + 1 - 1) with k by lia. split_and!; [lia | lia | done |]. intros j Hj. apply Hn. lia.
    + split; [done|]. intros j Hj. destruct (decide (j = k)) as [->|]; [done|]. apply Hn. lia.
  - right. replace (h =? 0) with false by lia. simpl. split_and!; [lia | lia | done..].
Qed.

Lemma group_upd_view s g f :
  (forall G, (g_SelectedInterface (f G), g_ConfigChanged (f G), g_InitialScanComplete (f G),
              g_SelectionTimeOut (f G)) =
             (g_SelectedInterface G, g_ConfigChanged G, g_InitialScanComplete G,
              g_SelectionTimeOut G)) ->
  mark_view (s <| db ::= fun d => d <| w_Group := alter f g (w_Group d) |> |>) = mark_view s.
Proof.
  intros Hf. unfold mark_view, ifaces, shape_of, cur, groups. rsimpl.
  rewrite length_alter. f_equal. apply list_eq. intros j.
  rewrite !list_lookup_fmap, list_lookup_alter. destruct (decide _) as [->|]; [|done].
  destruct (w_Group (db s) !! j); simpl; [by rewrite Hf | done].
Qed.

Lemma wp_mark_group w s0 k s :
  db_wf (db s0) -> bounded s0 -> 0 <= k < ngroups s0 -> mark_inv w s0 k s ->
  wp (with_group None k (mark_group w k)) (fun o s' =>
    mark_view s' = mark_view s0 /\ ctl s' = ctl (set_high (high s') s0) /\ depth s' = depth s0 /\
    match o with Some _ => marked w s0 (high s') | None => mark_inv w s0 (k + 1) s' end) s.
Proof.
  intros Hwf Hb Hk (Hv & Hc & Hd & Hf & Hw).
  pose proof (mark_view_wf _ _ Hv Hwf) as Hwf1. pose proof (mark_view_bounded _ _ Hv Hb) as Hb1.
  assert (ngroups s = ngroups s0) as Hng by (by injection Hv).
  apply wp_with_group; intros Hok.
  2: { rewrite group_ok_in in Hok; [done | done | unfold ngroups in *; lia]. }
  destruct (group_ok_lookup s k) as [G HG]; [done | lia | done |].
  destruct (mark_view_group _ _ _ _ Hv HG) as (G0 & HG0 & HS & HCC & HIS & HTO).
  unfold mark_group. wp_tac. eapply wp_mono;
    [apply wp_mark_candidate; [done | done | lia | done] |].
  intros ? s1 ->.
  rewrite (group_candidate_view s0) by done.
  change (high (locked s)) with (high s).
  pose proof (first_candidate_step _ _ _ (proj1 Hk) Hf) as Hf'.
  set (h' := if (high s =? 0) && group_candidate s0 k then k + 1 else high s) in *.
  apply wp_bind, wp_gets, wp_bind.
  eapply (wp_mono _ (fun _ s2 => mark_view s2 = mark_view s0 /\
    ctl s2 = ctl (set_high h' s0) /\ depth s2 = S (depth s0))).
  { assert (ctl (set_high h' (locked s)) = ctl (set_high h' s0)) as Hc'.
    { unfold set_high, locked. rsimpl. by rewrite Hc. }
    apply wp_when; intros _; [|by rewrite <- Hd].
    eapply wp_upd_group; [exact HG|]. rewrite group_upd_view by done. by rewrite <- Hd. }
  intros ? s2 (Hv2 & Hc2 & Hd2).
  assert (depth (unlocked s2) = depth s0) as Hd3.
  { unfold depth, unlocked in *. rsimpl. lia. }
  assert (Hh2 : high s2 = h') by (unfold high; by rewrite Hc2).
  destruct (g_ConfigChanged G) eqn:EC.
  - wp_tac. split_and!; [done | | done |].
    + unfold unlocked, high. rsimpl. by rewrite Hc2.
    + exists k. split; [exact Hw|]. right; left. split; [done|]. split; [by unfold config_changing; rewrite HG0, HCC|].
      unfold high, cur, unlocked. rsimpl. by rewrite Hc2.
  - assert (config_changing s0 k = false) as HC0 by (unfold config_changing; by rewrite HG0, HCC).
    destruct w.
    + wp_tac. apply (wp_intro _ _ _ (answer (trace s2) ClockGettime)
        (s2 <| trace := ClockGettime :: trace s2 |>)); [done|].
      wp_tac.
      split_and!; [exact Hv2 | unfold high, unlocked; rsimpl; by rewrite Hc2 | exact Hd3 |].
      set (s3 := unlocked _). assert (high s3 = h') as Hh3 by exact Hh2.
      assert (answer (trace s2) ClockGettime - fo_GroupSelectionTimer (ctl s2)
        = answer (trace s2) ClockGettime - fo_GroupSelectionTimer (ctl s0)) as Ht0 by (rsimpl; by rewrite Hc2).
      destruct (_ || _) eqn:EB.
      * exists k. split; [exact Hw|]. right; right. split; [done|]. split; [done|]. split; [done|].
        split; [|by rewrite Hh3]. exists G0. split; [done|].
        apply orb_true_elim in EB as [EB|EB]; [right; exists (trace s2) | left; apply negb_true_iff in EB; congruence].
        revert EB. rsimpl. rewrite Hc2.
        change (fo_GroupSelectionTimer (ctl (set_high h' s0))) with (fo_GroupSelectionTimer (ctl s0)). lia.
      * apply orb_false_elim in EB as [Ht Hi]. apply negb_false_iff in Hi.
        split_and!; [exact Hv2 | unfold high, s3, unlocked; rsimpl; by rewrite Hc2 | exact Hd3
          | by rewrite Hh3 |].
        intros j Hj. destruct (decide (j = k)) as [->|]; [|apply Hw; lia]. split; [done|].
        intros _ G1 HG1. rewrite HG0 in HG1. injection HG1 as <-.
        rewrite HIS, HTO. split; [done|]. exists (trace s2). revert Ht. rsimpl. rewrite Hc2.
        change (fo_GroupSelectionTimer (ctl (set_high h' s0))) with
          (fo_GroupSelectionTimer (ctl s0)). lia.
    + wp_tac. assert (high (unlocked s2) = h') as Hh3 by exact Hh2.
      assert (ctl (unlocked s2) = ctl (set_high (high (unlocked s2)) s0)) as Hc3.
      { rewrite Hh3. exact Hc2. }
      split_and!; [done | done | done |]. split_and!; [done | done | done | by rewrite Hh3 |].
      intros j Hj. destruct (decide (j = k)) as [->|]; [done | apply Hw; lia].
Qed.

(** *** The specification of [MarkHighPriorityGroup] *)
Lemma wp_mark w s :
  db_wf (db s) -> bounded s ->
  wp (MarkHighPriorityGroup w) (fun r s' => r = ANSC_STATUS_SUCCESS /\
    mark_view s' = mark_view s /\ ctl s' = ctl (set_high (high s') s) /\ depth s' = depth s /\
    marked w s (high s')) s.
Proof.
  intros Hwf Hb. unfold MarkHighPriorityGroup. wp_tac.
  set (s1 := set_high 0 s). assert (mark_view s1 = mark_view s) as Hv1 by done.
  apply (wp_for_break_range (mark_inv w s)).
  - split_and!; [done | done | done | left; split; [done | intros; lia] | intros ? ?; lia].
  - intros k s2 Hk HI. eapply wp_mono; [apply (wp_mark_group w s); done|].
    intros [r|] s3 (Hv & Hc & Hd & HQ); [|done]. by wp_tac.
  - intros s2 (Hv & Hc & Hd & Hf & Hw). wp_tac. split_and!; [done..|].
    assert (0 <= ngroups s) as Hn by (destruct Hwf as (_ & _ & ? & _); done).
    change (w_ulTotalNumbWanIfaceGroup (db _)) with (ngroups s) in Hf, Hw.
    rewrite (Z.max_r 0 (ngroups s)) in Hf, Hw by done.
    exists (ngroups s). split; [exact Hw | by left].
Qed.
End Mark.
