(* ===== verification/FailoverInv.v ===== *)
(** The invariant of the failover thread, preserved by each state function and
    by a pass of its loop. *)

From S2P Require Export FailoverMark.

(** * The invariant of the thread *)

Section Invariant.
Context `{Platform} `{Build}.
#[local] Abbreviation FO := WanMgr_FailOver_Controller_t.
Implicit Type s : St FO.

(** The group whose interface may be active in a state of the machine. *)
Definition active_group (st : WcFailOverState_t) s : Z :=
  match st with
  | STATE_FAILOVER_GROUP_ACTIVE | STATE_FAILOVER_RESTORATION_WAIT => cur s
  | _ => 0
  end.

Definition fo_inv (st : WcFailOverState_t) s : Prop :=
  db_wf (db s) /\ bounded s /\ 0 <= cur s <= ngroups s /\ 0 <= high s <= ngroups s
  /\ only_active (active_group st s) s
  /\ (st = STATE_FAILOVER_SCANNING_GROUP -> cur s = 0).

(** All the invariant looks at. *)
Definition fo_view s := (act_view s, cur s, high s).

Lemma act_view_bounded {C D} (s : St C) (s' : St D) :
  act_view s' = act_view s -> bounded s -> bounded s'.
Proof. intros [= _ Hg _ _ Hsel _] [Hn Hb]. unfold bounded, ngroups in *. by rewrite Hg, Hsel. Qed.
Lemma act_view_wf {C D} (s : St C) (s' : St D) :
  act_view s' = act_view s -> db_wf (db s) -> db_wf (db s').
Proof.
  intros Hv. pose proof (f_equal (fun x => fst (fst x)) Hv) as E. simpl in E.
  unfold db_wf. by rewrite E.
Qed.
Lemma fo_view_inv st s s' : fo_view s' = fo_view s -> fo_inv st s -> fo_inv st s'.
Proof.
  intros Hv (Hwf & Hb & Hc & Hh & Ho & Hs).
  assert (act_view s' = act_view s) as Ha by exact (f_equal (fun x => fst (fst x)) Hv).
  assert (cur s' = cur s) as Ec by exact (f_equal (fun x => snd (fst x)) Hv).
  assert (high s' = high s) as Eh by exact (f_equal snd Hv).
  assert (ngroups s' = ngroups s) as En by (by injection Ha).
  assert (active_group st s' = active_group st s) as Eg by (by destruct st).
  unfold fo_inv. rewrite Ec, Eh, En, Eg.
  split; [by eapply act_view_wf|]. split; [by eapply act_view_bounded|].
  do 2 (split; [done|]). split; [by eapply only_active_view | done].
Qed.

#[local] Hint Extern 3 (Keeps act_view (upd_group _ _)) =>
  (apply keeps_upd_group_view; intros; apply act_view_alter_group; reflexivity) : keeps.

Lemma keeps_upd_group_fo_view g h :
  (forall G, g_SelectedInterface (h G) = g_SelectedInterface G) -> Keeps fo_view (upd_group g h).
Proof.
  intros Hh. apply keeps_upd_group_view. intros s. unfold fo_view, cur, high. rsimpl.
  by rewrite act_view_alter_group.
Qed.
#[local] Hint Extern 2 (Keeps fo_view (upd_group _ _)) =>
  (apply keeps_upd_group_fo_view; intros; reflexivity) : keeps.

Lemma fo_view_telemetry : Keeps fo_view WanMgr_TelemetryEventTrigger.
Proof. unfold WanMgr_TelemetryEventTrigger, t2_event_d. keeps_tac. Qed.
Lemma fo_view_update : Keeps fo_view WanMgr_UpdateFOControllerData.
Proof. unfold WanMgr_UpdateFOControllerData. keeps_tac. Qed.
Lemma fo_view_monitor : Keeps fo_view WanMgr_FO_IfaceGroupMonitor.
Proof. unfold WanMgr_FO_IfaceGroupMonitor, monitor_group. keeps_tac. Qed.
Lemma fo_view_led_scan l best : Keeps fo_view (led_scan l best).
Proof.
  revert best. induction l as [|k l IH]; intros best; simpl; [apply keeps_ret|].
  apply keeps_bind; [keeps_tac | done].
Qed.
#[local] Hint Resolve fo_view_led_scan : keeps.
Lemma fo_view_led : Keeps fo_view UpdateLedStatus.
Proof. unfold UpdateLedStatus, led_selected. keeps_tac. Qed.

(** The activation and the deactivation, with all they keep. *)
Lemma keeps_activate_ctl g : Keeps (fun s : St FO => (ctl s, selected s)) (WanMgr_ActivateGroup g).
Proof.
  unfold WanMgr_ActivateGroup. keeps_tac.
  apply keeps_upd_group_view. intros s. unfold selected, groups. rsimpl. f_equal.
  apply list_eq. intros j. rewrite !list_lookup_fmap, list_lookup_alter.
  destruct (decide _) as [->|]; [|done]. by destruct (w_Group (db s) !! j).
Qed.
Lemma keeps_deactivate_ctl g :
  Keeps (fun s : St FO => (ctl s, selected s)) (WanMgr_DeactivateGroup g).
Proof. unfold WanMgr_DeactivateGroup. keeps_tac. Qed.

Lemma bounded_selected_eq s s' :
  shape_of (db s') = shape_of (db s) -> selected s' = selected s -> bounded s -> bounded s'.
Proof. intros [= _ Hg _ _] Hs [Hn Hb]. unfold bounded, ngroups in *. by rewrite Hg, Hs. Qed.

Lemma wp_activate_full g s Q :
  db_wf (db s) -> bounded s -> 0 < g <= ngroups s -> only_active 0 s ->
  (forall s', shape_of (db s') = shape_of (db s) -> depth s' = depth s -> ctl s' = ctl s ->
    bounded s' -> only_active g s' -> Q ANSC_STATUS_SUCCESS s') ->
  wp (WanMgr_ActivateGroup g) Q s.
Proof.
  intros Hwf Hb Hg Ho HQ.
  pose proof (wp_keep _ _ _ _ (keeps_activate_ctl g) (wp_activate g s Hwf Hb Hg Ho)) as H1.
  pose proof (safe_activate _ Hwf g s (conj eq_refl I)) as H2.
  pose proof (wp_and _ _ _ _ H1 H2) as H3. clear H1 H2.
  eapply wp_mono; [exact H3|]. intros r s' [[[= Hc Hs] [-> Hoa]] [[[Hsh _] Hd] _]].
  apply HQ; [done.. | by eapply bounded_selected_eq | done].
Qed.
Lemma wp_deactivate_full g s Q :
  db_wf (db s) -> bounded s -> 0 < g <= ngroups s -> only_active g s ->
  (forall s', shape_of (db s') = shape_of (db s) -> depth s' = depth s -> ctl s' = ctl s ->
    bounded s' -> only_active 0 s' -> Q ANSC_STATUS_SUCCESS s') ->
  wp (WanMgr_DeactivateGroup g) Q s.
Proof.
  intros Hwf Hb Hg Ho HQ.
  pose proof (wp_keep _ _ _ _ (keeps_deactivate_ctl g) (wp_deactivate g s Hwf Hb Hg Ho)) as H1.
  pose proof (safe_deactivate _ Hwf g s (conj eq_refl I)) as H2.
  pose proof (wp_and _ _ _ _ H1 H2) as H3. clear H1 H2.
  eapply wp_mono; [exact H3|]. intros r s' [[[= Hc Hs] [-> Hoa]] [[[Hsh _] Hd] _]].
  apply HQ; [done.. | by eapply bounded_selected_eq | done].
Qed.

Lemma only_active_0 {C} g (s : St C) : only_active 0 s -> only_active g s.
Proof. intros Ho i Hi Ha. apply Ho in Ha; [lia | done]. Qed.

(** The transitions, from what holds when they are taken. *)
Definition fo_pre g s : Prop :=
  db_wf (db s) /\ bounded s /\ 0 <= cur s <= ngroups s /\ 0 <= high s <= ngroups s
  /\ only_active g s.

Lemma fo_view_pre g s s' : fo_view s' = fo_view s -> fo_pre g s -> fo_pre g s'.
Proof.
  intros Hv (Hwf & Hb & Hc & Hh & Ho).
  assert (act_view s' = act_view s) as Ha by exact (f_equal (fun x => fst (fst x)) Hv).
  assert (cur s' = cur s) as Ec by exact (f_equal (fun x => snd (fst x)) Hv).
  assert (high s' = high s) as Eh by exact (f_equal snd Hv).
  assert (ngroups s' = ngroups s) as En by (by injection Ha).
  unfold fo_pre. rewrite Ec, Eh, En.
  split; [by eapply act_view_wf|]. split; [by eapply act_view_bounded|].
  do 2 (split; [done|]). by eapply only_active_view.
Qed.

Lemma fo_inv_pre st s :
  fo_pre (active_group st s) s -> (st = STATE_FAILOVER_SCANNING_GROUP -> cur s = 0) -> fo_inv st s.
Proof. intros (? & ? & ? & ? & ?) Hc. by do 5 (split; [done|]). Qed.

(** The swapping of the lower groups does not touch what the invariant reads. *)
Lemma wp_fo_view (m : M (St FO) unit) Q s :
  Safe (shape_of (db s)) (fun _ => True) m -> Keeps fo_view m ->
  (forall s', fo_view s' = fo_view s -> Q tt s') -> wp m Q s.
Proof.
  intros Hs Hk HQ. eapply safe_keeps; [done..|]. intros [] s' _ _ Hv _. by apply HQ.
Qed.

Lemma wp_Transition_ActivateGroup s :
  fo_pre 0 s ->
  wp Transition_ActivateGroup (fun r s' => r = STATE_FAILOVER_GROUP_ACTIVE /\ fo_inv r s'
    /\ cur s' = (if high s =? 0 then cur s else high s)) s.
Proof.
  intros Hpre. unfold Transition_ActivateGroup. apply wp_bind, wp_gets, wp_if; intros H1.
  - apply wp_bind, wp_fo_view; [safe_tac | keeps_tac |]. intros s1 Hv1.
    pose proof (fo_view_pre _ _ _ Hv1 Hpre) as (Hwf & Hb & Hc & Hh & Ho).
    assert (high s1 = high s) as Eh by exact (f_equal snd Hv1).
    apply negb_true_iff in H1. change ((high s =? 0) = false) in H1.
    change (fo_HighestValidGroup (ctl s)) with (high s).
    apply wp_bind, wp_activate_full; [done | done | lia | done |].
    intros s2 Hsh2 _ Hc2 Hb2 Ho2. apply wp_if; [done | intros _].
    apply wp_bind, wp_modify, wp_bind, wp_gets, wp_bind.
    apply wp_fo_view; [|keeps_tac|].
    { assert (wf_shape (shape_of (db s2))) by (by rewrite Hsh2). safe_tac. }
    intros s3 Hv3. wp_tac. split; [done|].
    assert (cur s3 = high s1) as Ec3.
    { transitivity (fo_HighestValidGroup (ctl s2)); [exact (f_equal (fun x => snd (fst x)) Hv3)|].
      unfold high. by rewrite Hc2. }
    split; [|by rewrite H1, Ec3, Eh].
    apply fo_inv_pre; [|done]. simpl. rewrite Ec3, Eh. eapply fo_view_pre; [exact Hv3|].
    assert (ngroups s2 = ngroups s1) as En by (by injection Hsh2).
    unfold fo_pre, cur, high, ngroups in *. rsimpl. rewrite Hc2.
    split; [unfold db_wf; by rewrite Hsh2|]. split; [exact Hb2|].
    do 2 (split; [lia|]). exact Ho2.
  - wp_tac. apply negb_false_iff in H1. change ((high s =? 0) = true) in H1. rewrite H1.
    split; [done|]. split; [|done]. destruct Hpre as (? & ? & ? & ? & ?).
    apply fo_inv_pre; [|done]. unfold fo_pre. do 4 (split; [done|]). by apply only_active_0.
Qed.

Lemma wp_Transition_DeactivateGroup s :
  fo_pre (cur s) s ->
  wp Transition_DeactivateGroup (fun r s' =>
    r = STATE_FAILOVER_DEACTIVATE_GROUP /\ fo_inv r s' /\ ctl s' = ctl s) s.
Proof.
  intros (Hwf & Hb & Hc & Hh & Ho). unfold Transition_DeactivateGroup. wp_tac.
  - apply negb_true_iff in H1. change ((cur s =? 0) = false) in H1.
    change (fo_CurrentActiveGroup (ctl s)) with (cur s).
    apply wp_deactivate_full; [done | done | lia | done |].
    intros s1 Hsh Hd Hc1 Hb1 Ho1. wp_tac. split; [done|]. split; [|done].
    assert (ngroups s1 = ngroups s) as En by (by injection Hsh).
    apply fo_inv_pre; [|done]. unfold fo_pre, cur, high in *. rewrite Hc1, En.
    split; [unfold db_wf; by rewrite Hsh|]. done.
  - split; [done|]. split; [|done]. apply fo_inv_pre; [|done].
    apply negb_false_iff in H1. change ((cur s =? 0) = true) in H1.
    apply Z.eqb_eq in H1. rewrite H1 in Ho. done.
Qed.

Lemma wp_Transition_ResetScan s :
  fo_pre (cur s) s ->
  wp Transition_ResetScan (fun r s' =>
    r = STATE_FAILOVER_SCANNING_GROUP /\ fo_inv r s' /\ fo_ResetScan (ctl s') = false) s.
Proof.
  intros Hpre. unfold Transition_ResetScan. apply wp_bind, wp_gets, wp_bind.
  eapply (wp_mono _ (fun _ s1 => fo_pre 0 s1)).
  { destruct Hpre as (Hwf & Hb & Hc & Hh & Ho). wp_tac.
    - apply negb_true_iff in H1. change ((cur s =? 0) = false) in H1.
      change (fo_CurrentActiveGroup (ctl s)) with (cur s).
      apply wp_deactivate_full; [done | done | lia | done |].
      intros s1 Hsh Hd Hc1 Hb1 Ho1. wp_tac.
      assert (ngroups s1 = ngroups s) as En by (by injection Hsh).
      unfold fo_pre, cur, high in *. rewrite Hc1, En.
      split; [unfold db_wf; by rewrite Hsh|]. done.
    - apply negb_false_iff in H1. change ((cur s =? 0) = true) in H1.
      apply Z.eqb_eq in H1. rewrite H1 in Ho. done. }
  intros ? s1 (Hwf & Hb & Hc & Hh & Ho). apply wp_bind, wp_modify.
  set (s2 := s1 <| ctl := _ |>).
  assert (Hpre2 : fo_pre 0 s2).
  { unfold fo_pre, s2, cur, high, ngroups in *. rsimpl. do 2 (split; [done|]).
    do 2 (split; [lia|]). done. }
  set (m := bind (wanmgr_setWanLedState _) _).
  eapply (safe_keeps _ _ (fun s => (fo_view s, fo_ResetScan (ctl s)))).
  - apply (safe_weaken _ (fun r => r = STATE_FAILOVER_SCANNING_GROUP)); [|intros ? H1; exact H1].
    unfold m, start_GroupSelectionTimer. do 3 (apply safe_bind_any; [safe_tac | intros ?]).
    by apply safe_ret.
  - unfold m, start_GroupSelectionTimer. keeps_tac.
  - done.
  - intros r s3 _ _ Hvr ->. assert (fo_view s3 = fo_view s2) as Hv by exact (f_equal fst Hvr).
    split; [done|]. split; [|exact (f_equal snd Hvr)].
    apply fo_inv_pre; [by eapply fo_view_pre|].
    intros _. exact (f_equal (fun x => snd (fst x)) Hv).
Qed.

Lemma mark_view_act s s' : mark_view s' = mark_view s -> act_view s' = act_view s.
Proof.
  intros Hv. unfold act_view, statuses.
  assert (ifaces s' = ifaces s) as -> by exact (f_equal (fun x => fst (fst (fst x))) Hv).
  assert (shape_of (db s') = shape_of (db s)) as ->
    by exact (f_equal (fun x => snd (fst (fst x))) Hv).
  assert (selected s' = selected s) as ->; [|done].
  pose proof (f_equal (fun x => (fun y => fst (fst (fst y))) <$> snd x) Hv) as HG.
  simpl in HG. rewrite <- !list_fmap_compose in HG. exact HG.
Qed.

Lemma wp_mark_pre w g s Q :
  fo_pre g s ->
  (forall s', fo_pre g s' -> cur s' = cur s -> Q ANSC_STATUS_SUCCESS s') ->
  wp (MarkHighPriorityGroup w) Q s.
Proof.
  intros (Hwf & Hb & Hc & Hh & Ho) HQ.
  eapply wp_mono; [by apply wp_mark|].
  intros r s' (-> & Hv & Hctl & Hd & Hm). pose proof (mark_view_act _ _ Hv) as Ha.
  assert (cur s' = cur s) as Ec by exact (f_equal (fun x => snd (fst x)) Hv).
  assert (ngroups s' = ngroups s) as En by (by injection Ha).
  apply HQ; [|done]. unfold fo_pre. rewrite Ec, En.
  split; [by eapply mark_view_wf|]. split; [by eapply mark_view_bounded|].
  split; [done|]. split; [|by eapply only_active_view].
  destruct Hm as (n & _ & [[-> [[-> _]|(? & _)]] | [(? & _ & ->) | (? & _ & _ & _ & [[-> _]|(? & _)])]]); lia.
Qed.

(** Runs that keep all the invariant looks at. *)
Lemma wp_keep_pre {A} g (P : A -> Prop) (m : M (St FO) A) Q s :
  fo_pre g s -> Safe (shape_of (db s)) P m -> Keeps (fun s => (fo_view s, fo_WanEnable (ctl s))) m ->
  (forall a s', P a -> fo_pre g s' -> cur s' = cur s -> high s' = high s -> Q a s') -> wp m Q s.
Proof.
  intros Hpre Hs Hk HQ. eapply safe_keeps; [done..|]. intros a s' _ _ Hv Ha.
  assert (fo_view s' = fo_view s) as Hv1 by exact (f_equal fst Hv).
  apply HQ; [done | by eapply fo_view_pre | exact (f_equal (fun x => snd (fst x)) Hv1)
    | exact (f_equal snd Hv1)].
Qed.

Lemma wp_State_ScanningGroup s :
  fo_inv STATE_FAILOVER_SCANNING_GROUP s -> wp State_ScanningGroup fo_inv s.
Proof.
  intros (Hwf & Hb & Hc & Hh & Ho & Hcur). unfold State_ScanningGroup. simpl in Ho.
  apply wp_bind, wp_gets, wp_if; intros _; [by apply wp_ret, fo_inv_pre|].
  apply wp_bind, (wp_mark_pre _ 0); [done|]. intros s1 Hpre1 Hc1.
  apply wp_bind, wp_gets, wp_if; intros _.
  - eapply wp_mono; [by apply wp_Transition_ActivateGroup|]. by intros r s2 (_ & ? & _).
  - apply wp_ret, fo_inv_pre; [done|]. intros _. rewrite Hc1. by apply Hcur.
Qed.

Lemma wp_State_GroupActive s :
  fo_inv STATE_FAILOVER_GROUP_ACTIVE s -> wp State_GroupActive fo_inv s.
Proof.
  intros (Hwf & Hb & Hc & Hh & Ho & _). unfold State_GroupActive. simpl in Ho.
  assert (fo_pre (cur s) s) as Hpre by done.
  apply wp_bind, wp_gets, wp_if; intros _.
  { eapply wp_mono; [by apply wp_Transition_DeactivateGroup|]. by intros r s2 (_ & ? & _). }
  apply wp_if; intros _.
  { eapply wp_mono; [by apply wp_Transition_ResetScan|]. by intros r s2 (_ & ? & _). }
  apply wp_bind, (wp_mark_pre _ (cur s)); [done|]. intros s1 Hpre1 Hc1. rewrite <- Hc1 in Hpre1.
  assert (wf_shape (shape_of (db s1))) as Hwf1 by (by destruct Hpre1).
  apply wp_bind, wp_gets, wp_if; intros _.
  - apply wp_bind, (wp_keep_pre (cur s1) (fun _ => True)); [done | safe_tac | keeps_tac |].
    intros n s2 _ Hpre2 Hc2 _. rewrite <- Hc2 in Hpre2.
    assert (wf_shape (shape_of (db s2))) as Hwf2 by (by destruct Hpre2).
    apply wp_if; intros _; [|apply wp_if; intros _].
    + apply wp_bind, (wp_keep_pre (cur s2) (fun _ => True));
        [done | unfold start_FailOverTimer; safe_tac | unfold start_FailOverTimer; keeps_tac |].
      intros [] s3 _ Hpre3 Hc3 _. rewrite <- Hc3 in Hpre3.
      eapply wp_mono; [by apply wp_Transition_DeactivateGroup|]. by intros r s4 (_ & ? & _).
    + eapply (wp_keep_pre (cur s2) (fun r => r = STATE_FAILOVER_RESTORATION_WAIT)); [done | | |].
      * unfold start_FailOverTimer, Transition_Restoration, start_GroupSelectionTimer.
        do 2 (apply safe_bind_any; [safe_tac | intros ?]). by apply safe_ret.
      * unfold start_FailOverTimer, Transition_Restoration, start_GroupSelectionTimer. keeps_tac.
      * intros r s3 -> Hpre3 Hc3 _. apply fo_inv_pre; [simpl; by rewrite Hc3 | done].
    + by apply wp_ret, fo_inv_pre.
  - eapply (wp_keep_pre (cur s1) (fun r => r = STATE_FAILOVER_GROUP_ACTIVE)); [done | | keeps_tac |].
    + apply safe_bind_any; [safe_tac | intros _; by apply safe_ret].
    + intros r s2 -> Hpre2 Hc2 _. apply fo_inv_pre; [simpl; by rewrite Hc2 | done].
Qed.

Lemma wp_State_RestorationWait s :
  fo_inv STATE_FAILOVER_RESTORATION_WAIT s -> wp State_RestorationWait fo_inv s.
Proof.
  intros (Hwf & Hb & Hc & Hh & Ho & _). unfold State_RestorationWait. simpl in Ho.
  assert (fo_pre (cur s) s) as Hpre by done.
  apply wp_bind, wp_gets, wp_if; intros _.
  { eapply wp_mono; [by apply wp_Transition_DeactivateGroup|]. by intros r s2 (_ & ? & _). }
  apply wp_bind, (wp_keep_pre (cur s) (fun _ => True)); [done | safe_tac | keeps_tac |].
  intros down s1 _ Hpre1 Hc1 _. rewrite <- Hc1 in Hpre1.
  assert (wf_shape (shape_of (db s1))) as Hwf1 by (by destruct Hpre1).
  apply wp_if; intros _.
  - unfold Transition_RestorationFail. apply wp_bind, wp_modify, wp_ret.
    apply fo_inv_pre; [|done]. by apply (fo_view_pre _ s1).
  - apply wp_bind, (wp_keep_pre (cur s1) (fun _ => True)); [done | safe_tac | keeps_tac |].
    intros now s2 _ Hpre2 Hc2 _. rewrite <- Hc2 in Hpre2. apply wp_if; intros _.
    + eapply wp_mono; [by apply wp_Transition_DeactivateGroup|]. by intros r s3 (_ & ? & _).
    + by apply wp_ret, fo_inv_pre.
Qed.

Lemma wp_State_DeactivateGroup s :
  fo_inv STATE_FAILOVER_DEACTIVATE_GROUP s -> wp State_DeactivateGroup fo_inv s.
Proof.
  intros (Hwf & Hb & Hc & Hh & Ho & _). unfold State_DeactivateGroup. simpl in Ho.
  assert (fo_pre 0 s) as Hpre by done.
  apply wp_bind, wp_gets, wp_bind, (wp_keep_pre 0 (fun _ => True)); [done | safe_tac | keeps_tac |].
  intros d s1 _ Hpre1 Hc1 _. apply wp_if; intros _; [apply wp_if; intros _|].
  - by apply wp_ret, fo_inv_pre.
  - eapply wp_mono; [by apply wp_Transition_ActivateGroup|]. by intros r s2 (_ & ? & _).
  - by apply wp_ret, fo_inv_pre.
Qed.

Lemma wp_fo_iteration st s :
  fo_inv st s ->
  wp (fo_iteration st) (fun o s' =>
    match o with Some st' => fo_inv st' s' | None => fo_inv st s' end) s.
Proof.
  intros Hinv. unfold fo_iteration.
  assert (Hkeep : forall (m : M (St FO) unit) Q s, fo_inv st s ->
    Safe (shape_of (db s)) (fun _ => True) m -> Keeps fo_view m ->
    (forall s', fo_inv st s' -> Q tt s') -> wp m Q s).
  { intros m Q s0 Hi Hs Hk HQ. apply wp_fo_view; [done..|]. intros s' Hv.
    apply HQ. by eapply fo_view_inv. }
  assert (forall s, fo_inv st s -> wf_shape (shape_of (db s))) as Hwf by (by intros ? []).
  apply wp_bind, Hkeep; [done | apply safe_update_controller; auto | apply fo_view_update |].
  intros s1 Hi1. apply wp_bind, Hkeep; [done | apply safe_monitor; auto | apply fo_view_monitor |].
  intros s2 Hi2. apply wp_bind, Hkeep; [done | | apply keeps_when, fo_view_led |].
  { apply safe_when. intros _. apply safe_led; auto. }
  intros s3 Hi3. apply wp_bind, Hkeep; [done | apply safe_telemetry; auto | apply fo_view_telemetry |].
  intros s4 Hi4. unfold fo_dispatch. destruct st; try by apply wp_ret.
  - apply wp_bind. eapply wp_mono; [by apply wp_State_ScanningGroup|]. intros st s5 Hi. by apply wp_ret.
  - apply wp_bind. eapply wp_mono; [by apply wp_State_GroupActive|]. intros st s5 Hi. by apply wp_ret.
  - apply wp_bind. eapply wp_mono; [by apply wp_State_RestorationWait|]. intros st s5 Hi. by apply wp_ret.
  - apply wp_bind. eapply wp_mono; [by apply wp_State_DeactivateGroup|]. intros st s5 Hi. by apply wp_ret.
Qed.
End Invariant.

(** * Reading the link of a group *)

Section GroupLink.
Context `{Platform} `{Build}.
#[local] Abbreviation FO := WanMgr_FailOver_Controller_t.
Implicit Type s : St FO.

(** The selection of group [g], 0 when it has none. *)
Definition group_selection s (g : Z) : Z :=
  match selected s !! Z.to_nat (g - 1) with Some n => n | None => 0 end.
(** The status of the first virtual interface of its selected interface. *)
Definition group_link s (g : Z) : option DML_WAN_IFACE_STATUS :=
  let n := group_selection s g in
  if (n =? 0) || negb (n - 1 <? nifaces s) then None
  else match ifaces s !! Z.to_nat (n - 1) with
       | Some iface => v_Status <$> head (if_VirtIfList iface)
       | None => None
       end.

Lemma wp_group_link {A} (none unset : A) (f : DML_WAN_IFACE_STATUS -> A) g s Q :
  db_wf (db s) -> bounded s -> 0 < g <= ngroups s ->
  Q (if group_selection s g =? 0 then unset
     else match group_link s g with Some st => f st | None => none end) s ->
  wp (with_group none (u32 (g - 1)) (fun gi =>
    G <- get_group gi ;;
    if negb (g_SelectedInterface G =? 0) then
      with_iface none (u32 (g_SelectedInterface G - 1)) (fun i =>
        I <- get_iface i ;;
        v <- deref (head (if_VirtIfList I)) ;;
        ret (f (v_Status v)))
    else ret unset)) Q s.
Proof.
  intros Hwf Hb Hg HQ. rewrite u32_small by (destruct Hb; lia). apply wp_with_group; intros Hok.
  2: { rewrite group_ok_in in Hok; [done | done | unfold ngroups in *; lia]. }
  destruct (group_ok_lookup s (g - 1)) as [G HG]; [done | lia | done |].
  pose proof (bounded_selected _ _ _ Hb HG) as Hsel.
  pose proof (selected_lookup _ _ _ HG) as HS.
  assert (group_selection s g = g_SelectedInterface G) as E by (unfold group_selection; by rewrite HS).
  unfold group_link in HQ. rewrite E in HQ. apply wp_bind. eapply wp_get_group; [exact HG|].
  apply wp_if; intros Hz.
  - apply negb_true_iff in Hz. rewrite Hz in HQ. simpl in HQ. rewrite u32_small by lia.
    apply wp_with_iface; intros Hiok.
    + destruct (iface_ok_lookup s (g_SelectedInterface G - 1)) as (I & v & l & HI & Hv);
        [done | lia | done |].
      rewrite (proj2 (Z.ltb_lt _ (nifaces s)) (iface_ok_lt _ _ Hiok)), HI, Hv in HQ. simpl in HQ.
      apply wp_bind. eapply wp_get_iface; [exact HI|]. rewrite Hv.
      apply wp_bind, (wp_deref _ v); [done|]. apply wp_ret.
      change (unlocked (unlocked (locked (locked s)))) with
        (unlocked (unlocked (locked (locked s)))). by rewrite !unlocked_locked.
    + rewrite (proj2 (Z.ltb_ge _ (nifaces s))) in HQ.
      { simpl in HQ. by rewrite unlocked_locked. }
      destruct (Z.lt_ge_cases (g_SelectedInterface G - 1) (nifaces s)); [|done].
      change (iface_ok s (g_SelectedInterface G - 1) = false) in Hiok.
      rewrite iface_ok_in in Hiok; [done | done | unfold nifaces in *; lia].
  - apply negb_false_iff in Hz. rewrite Hz in HQ. apply wp_ret. by rewrite unlocked_locked.
Qed.
End GroupLink.
