(* ===== verification/FailoverProps.v ===== *)
(** The properties of the failover thread. *)

From S2P Require Export FailoverInv Sample.

#[local] Abbreviation FO := WanMgr_FailOver_Controller_t.

(** * Runs of the thread among the others *)

(** What the other threads may do between two passes: they keep the shape of
    the data base and the bounds of its counters, they make no interface active
    and leave the selection of the active group alone while its interface is
    active. *)
Definition env_step (s s' : St FO) : Prop :=
  ctl s' = ctl s /\ shape_of (db s') = shape_of (db s) /\ bounded s'
  /\ forall i, Z.of_nat i < nifaces s -> statuses s' !! i = Some WAN_IFACE_ACTIVE ->
       statuses s !! i = Some WAN_IFACE_ACTIVE
       /\ selected s' !! Z.to_nat (cur s - 1) = selected s !! Z.to_nat (cur s - 1).

Inductive fo_reach `{Platform} `{Build} (s0 : St FO) : WcFailOverState_t -> St FO -> Prop :=
| fo_reach_start st s : fo_start s0 = Some (Some st, s) -> fo_reach s0 st s
| fo_reach_pass st st' s s' :
    fo_reach s0 st s -> fo_iteration st s = Some (Some st', s') -> fo_reach s0 st' s'
| fo_reach_env st s s' : fo_reach s0 st s -> env_step s s' -> fo_reach s0 st s'.

Section Runs.
Context `{Platform} `{Build}.
Implicit Type s : St FO.

Lemma env_step_inv st s s' : env_step s s' -> fo_inv st s -> fo_inv st s'.
Proof.
  intros (Hc & Hsh & Hb & Hact) (Hwf & Hb0 & Hcur & Hh & Ho & Hs).
  assert (ngroups s' = ngroups s /\ nifaces s' = nifaces s) as [En Et] by (by injection Hsh).
  assert (active_group st s' = active_group st s) as Eg
    by (unfold active_group, cur; by rewrite Hc).
  assert (cur s' = cur s /\ high s' = high s) as [Ec Eh] by (unfold cur, high; by rewrite Hc).
  unfold fo_inv. rewrite Eg, Ec, Eh, En.
  split; [unfold db_wf; by rewrite Hsh|]. do 3 (split; [done|]). split; [|done].
  intros i Hi Ha. rewrite Et in Hi. apply Hact in Ha as [Ha Hsel]; [|done].
  destruct (Ho i Hi Ha) as [Hg HS]. split; [done|].
  destruct st; simpl in *; try lia; by rewrite Hsel.
Qed.

Lemma fo_start_inv s0 st s :
  db_wf (db s0) -> bounded s0 -> only_active 0 s0 -> fo_start s0 = Some (Some st, s) ->
  st = STATE_FAILOVER_SCANNING_GROUP /\ fo_inv st s.
Proof.
  intros Hwf Hb Ho E.
  assert (wp fo_start (fun o s' => forall st, o = Some st ->
    st = STATE_FAILOVER_SCANNING_GROUP /\ fo_inv st s') s0) as HW.
  2: { unfold wp in HW. rewrite E in HW. by apply HW. }
  clear E. unfold fo_start.
  assert (forall s1 (m : M (St FO) unit) Q, shape_of (db s1) = shape_of (db s0) ->
    act_view s1 = act_view s0 -> Safe (shape_of (db s0)) (fun _ => True) m -> Keeps act_view m ->
    (forall s2, shape_of (db s2) = shape_of (db s0) -> act_view s2 = act_view s0 -> Q tt s2) ->
    wp m Q s1) as Hkeep.
  { intros s1 m Q Hs1 Ha1 Hm Hk HQ. eapply safe_keeps; [exact Hm | exact Hk | done |].
    intros [] s2 [Hs2 _] _ Ha2 _. apply HQ; [done | by rewrite Ha2]. }
  apply wp_bind. eapply (safe_keeps _ (fun _ => True) act_view); [by apply safe_fo_init | | done |].
  { unfold WanMgr_FailOverCtrlInit. keeps_tac. apply keeps_upd_group_view. intros s1.
    by apply act_view_alter_group. }
  intros r s1 [Hs1 _] _ Ha1 _. apply wp_if; intros _; [by apply wp_ret|].
  apply wp_bind, Hkeep; [done | done | by apply safe_update_controller | |].
  { unfold WanMgr_UpdateFOControllerData. keeps_tac. }
  intros s2 Hs2 Ha2. unfold Transition_Start.
  apply wp_bind, wp_bind, wp_modify.
  set (s3 := s2 <| ctl := _ |>).
  assert (Hpre : fo_pre 0 s3 /\ cur s3 = 0).
  { split; [|done]. unfold fo_pre. split; [change (db_wf (db s2)); unfold db_wf; by rewrite Hs2|].
    split; [by eapply (act_view_bounded s0)|].
    assert (0 <= ngroups s3). { destruct Hwf as (_ & _ & Hn). change (ngroups s3) with (ngroups s2).
      assert (ngroups s2 = ngroups s0) as -> by (by injection Hs2). destruct Hn. done. }
    change (0 <= 0 <= ngroups s3 /\ 0 <= 0 <= ngroups s3 /\ only_active 0 s3).
    split; [lia|]. split; [lia|].
    by eapply (only_active_view s0). }
  destruct Hpre as [Hpre Hc3].
  eapply (safe_keeps _ (fun r => r = STATE_FAILOVER_SCANNING_GROUP) fo_view).
  - instantiate (1 := shape_of (db s0)). unfold start_GroupSelectionTimer.
    do 3 (apply safe_bind_any; [safe_tac | intros ?]). by apply safe_ret.
  - unfold start_GroupSelectionTimer. keeps_tac. by apply keeps_upd_group_fo_view.
  - done.
  - intros r0 s4 [Hs4 _] _ Hv4 ->. apply wp_bind.
    eapply (safe_keeps _ (fun _ => True) fo_view);
      [by apply safe_monitor | apply fo_view_monitor | done |].
    intros [] s5 _ _ Hv5 _. apply wp_ret. intros st1 [= <-]. split; [done|].
    rewrite Hv4 in Hv5. apply fo_inv_pre; [by eapply fo_view_pre|]. intros _.
    rewrite <- Hc3. exact (f_equal (fun x => snd (fst x)) Hv5).
Qed.

Lemma fo_reach_inv s0 st s :
  db_wf (db s0) -> bounded s0 -> only_active 0 s0 -> fo_reach s0 st s -> fo_inv st s.
Proof.
  intros Hwf Hb Ho Hr. induction Hr as [st s E | st st' s s' _ IH E | st s s' _ IH He].
  - by eapply fo_start_inv.
  - pose proof (wp_fo_iteration _ _ IH) as HW. unfold wp in HW. by rewrite E in HW.
  - by eapply env_step_inv.
Qed.
End Runs.

(** * The sample world *)

Definition sample_fo : FO :=
  mk_FailOver_Controller true HOTSWAP 1 0 0 0 60 false WAN_IFACE_PHY_STATUS_UP None None false None.

(** Two groups with one interface each: the first up and active, the second on
    standby and selected. *)
Definition sample_two (st1 st2 : DML_WAN_IFACE_STATUS) : St FO :=
  sample_state sample_fo
    (sample_db [sample_iface 0 1 WAN_IFACE_ACTIVE st1; sample_iface 1 2 WAN_IFACE_SELECTED st2]
       [(sample_group 1) <| g_ActivationCount := 1 |>; sample_group 2]).
(** The same before anything was activated. *)
Definition sample_boot : St FO :=
  sample_state (sample_fo <| fo_CurrentActiveGroup := 0 |>)
    (sample_db [sample_iface 0 1 WAN_IFACE_SELECTED WAN_IFACE_STATUS_STANDBY;
                sample_iface 1 2 WAN_IFACE_SELECTED WAN_IFACE_STATUS_STANDBY]
       [sample_group 1; sample_group 2]).

(** The invariant of a concrete state. *)
Lemma sample_two_inv st st1 st2 :
  st <> STATE_FAILOVER_SCANNING_GROUP -> active_group st (sample_two st1 st2) = 1 ->
  fo_inv st (sample_two st1 st2).
Proof.
  intros Hst Hg. unfold fo_inv. split; [by apply db_wfb_wf|]. split; [by apply boundedb_bounded|].
  split; [by vm_compute|]. split; [by vm_compute|]. split; [|done]. rewrite Hg.
  intros i Hi Ha. split; [lia|]. change (Z.of_nat i < 2) in Hi.
  destruct i as [|[|i]]; [done | done | lia].
Qed.

(** * Properties *)

Section Properties.
Context `{Platform} `{Build}.
Implicit Type s : St FO.

(** C18: from a boot state without active interface, in every run where the other
    threads, between the passes of the failover thread, keep the shape and the bounds
    of the tables, never make an interface active and never withdraw or change the
    selection of the group whose interface is active ([env_step], which the
    parallel-scan policies keep and the auto policy does not promise), at most one
    interface is ever in [WAN_IFACE_ACTIVE], and it is the selected interface of the
    group the thread holds active. *)
Theorem failover_one_active s0 st s i :
  db_wf (db s0) -> bounded s0 -> only_active 0 s0 -> fo_reach s0 st s ->
  Z.of_nat i < nifaces s -> statuses s !! i = Some WAN_IFACE_ACTIVE ->
  (forall j, Z.of_nat j < nifaces s -> statuses s !! j = Some WAN_IFACE_ACTIVE -> j = i)
  /\ group_selection s (cur s) = Z.of_nat i + 1
  /\ (st = STATE_FAILOVER_GROUP_ACTIVE \/ st = STATE_FAILOVER_RESTORATION_WAIT).
Proof.
  intros Hwf Hb Ho Hr Hi Ha. destruct (fo_reach_inv _ _ _ Hwf Hb Ho Hr) as (_ & _ & _ & _ & Ho' & _).
  destruct (Ho' i Hi Ha) as [Hg HS]. split_and!.
  - intros j Hj Hja. by eapply only_active_alone.
  - unfold group_selection. destruct st; simpl in *; (lia || by rewrite HS).
  - destruct st; simpl in Hg; (lia || auto).
Qed.

(** On every well-formed data base a pass of the failover loop runs to
    its end without dereferencing [NULL], in every state of the machine; it
    returns every lock it takes and leaves the tables well formed. *)
Theorem failover_pass_safe st s :
  db_wf (db s) ->
  exists o s', fo_iteration st s = Some (o, s') /\ depth s' = depth s /\ db_wf (db s').
Proof.
  intros Hwf. pose proof (safe_iteration _ Hwf st s (conj eq_refl I)) as HW.
  apply wp_run in HW as (o & s' & E & [[Hsh _] Hd] & _). exists o, s'.
  split; [done|]. split; [done|]. unfold db_wf. by rewrite Hsh.
Qed.

(** C27: [MarkHighPriorityGroup] writes no interface and leaves the active group
    and the mutex.  It searches the groups in their order and leaves in
    [HighestValidGroup] the first of the searched groups whose selected interface
    qualifies, or 0: the search covers every group, unless it comes to a group whose
    list is being changed, where the active group is taken instead, or, in the
    initial scan ([w]), to a group that has not completed its scan or outlived its
    selection time, after which it ends.  The table of groups is well formed and
    fits its 32-bit indices. *)
Theorem mark_highest_priority w s :
  db_wf (db s) -> bounded s ->
  exists s' n, MarkHighPriorityGroup w s = Some (ANSC_STATUS_SUCCESS, s')
    /\ ifaces s' = ifaces s /\ cur s' = cur s /\ depth s' = depth s
    /\ (forall j, 0 <= j < n -> config_changing s j = false /\ (w = true -> scan_over s j))
    /\ (n = ngroups s /\ first_candidate s n (high s')
        \/ 0 <= n < ngroups s /\ config_changing s n = true /\ high s' = cur s
        \/ 0 <= n < ngroups s /\ config_changing s n = false /\ w = true /\ scanning s n
             /\ first_candidate s (n + 1) (high s')).
Proof.
  intros Hwf Hb. pose proof (wp_mark w s Hwf Hb) as HW.
  apply wp_run in HW as (r & s' & E & -> & Hv & _ & Hd & n & Hn & Hm). exists s', n.
  assert (ifaces s' = ifaces s) as Hi by exact (f_equal (fun x => fst (fst (fst x))) Hv).
  assert (cur s' = cur s) as Hc by exact (f_equal (fun x => snd (fst x)) Hv). done.
Qed.

(** Break before make.  In [STATE_FAILOVER_DEACTIVATE_GROUP] the thread
    activates the next group, or exits when the manager is disabled, exactly
    when the virtual interface of the current group is no longer up (or the
    group lost its selection); while it is up the thread waits and changes
    nothing. *)
Theorem failover_break_before_make s :
  fo_inv STATE_FAILOVER_DEACTIVATE_GROUP s ->
  let released := (cur s =? 0) || (group_selection s (cur s) =? 0)
    || match group_link s (cur s) with Some st => st ≠? WAN_IFACE_STATUS_UP | None => false end in
  wp State_DeactivateGroup (fun r s' =>
    if released then
      if fo_WanEnable (ctl s)
      then r = STATE_FAILOVER_GROUP_ACTIVE /\ cur s' = (if high s =? 0 then cur s else high s)
      else r = STATE_FAILOVER_EXIT /\ s' = s
    else r = STATE_FAILOVER_DEACTIVATE_GROUP /\ s' = s) s.
Proof.
  intros (Hwf & Hb & Hc & Hh & Ho & _) released. unfold State_DeactivateGroup.
  apply wp_bind, wp_gets, wp_bind.
  apply (wp_mono _ (fun d s1 => d = released /\ s1 = s)).
  { change (fo_CurrentActiveGroup (ctl s)) with (cur s). unfold released.
    apply wp_if; intros E; rewrite E; [by apply wp_ret|].
    pose (f := fun st : DML_WAN_IFACE_STATUS => st ≠? WAN_IFACE_STATUS_UP).
    apply (wp_group_link false true f); [done | done | lia |].
    simpl. destruct (group_selection s (cur s) =? 0); [done|]. by destruct (group_link s (cur s)). }
  intros d s1 [-> ->]. destruct released; [|by apply wp_ret].
  destruct (fo_WanEnable (ctl s)); simpl; [|by apply wp_ret].
  eapply wp_mono; [by apply wp_Transition_ActivateGroup|]. by intros r s2 (-> & _ & ->).
Qed.

(** C28: in [STATE_FAILOVER_RESTORATION_WAIT], in every state that satisfies the
    invariant of the thread, the thread deactivates the group at once when the
    manager is disabled; else it gives up when the link of the higher group is
    neither up nor on standby, switches when more than [RestorationDelay]
    seconds have passed since the timer was started, and otherwise waits. *)
Theorem failover_restoration_wait s :
  fo_inv STATE_FAILOVER_RESTORATION_WAIT s ->
  let down := (0 <? high s) && negb (group_selection s (high s) =? 0)
    && match group_link s (high s) with
       | Some st => (st ≠? WAN_IFACE_STATUS_STANDBY) && (st ≠? WAN_IFACE_STATUS_UP)
       | None => false
       end in
  let elapsed := answer (trace s) ClockGettime - fo_GroupSelectionTimer (ctl s) in
  wp State_RestorationWait (fun r s' =>
    if negb (fo_WanEnable (ctl s)) then r = STATE_FAILOVER_DEACTIVATE_GROUP /\ only_active 0 s'
    else if down then r = STATE_FAILOVER_GROUP_ACTIVE /\ db s' = db s
      /\ fo_TelemetryEvent (ctl s') = Some WAN_RESTORE_FAIL
    else if fo_RestorationDelay (ctl s) <? elapsed
      then r = STATE_FAILOVER_DEACTIVATE_GROUP /\ only_active 0 s'
      else r = STATE_FAILOVER_RESTORATION_WAIT /\ db s' = db s) s.
Proof.
  intros (Hwf & Hb & Hc & Hh & Ho & _) down elapsed. unfold State_RestorationWait.
  apply wp_bind, wp_gets. apply wp_if; intros He; rewrite He.
  { eapply wp_mono; [by apply wp_Transition_DeactivateGroup|].
    intros r s2 (-> & (_ & _ & _ & _ & Ho2 & _) & _). by split. }
  apply wp_bind.
  apply (wp_mono _ (fun d s1 => d = down /\ s1 = s)).
  { change (fo_HighestValidGroup (ctl s)) with (high s). unfold down.
    pose (f := fun st : DML_WAN_IFACE_STATUS =>
      (st ≠? WAN_IFACE_STATUS_STANDBY) && (st ≠? WAN_IFACE_STATUS_UP)).
    destruct (Z.ltb_spec 0 (high s)) as [Hpos|Hz].
    2: { assert (high s = 0) as -> by lia. apply wp_with_group; intros Hok; [|by split].
         unfold group_ok in Hok. change (u32 (0 - 1)) with (2 ^ 32 - 1) in Hok.
         destruct Hb as [Hb _]. unfold ngroups in Hb. lia. }
    apply (wp_group_link false false f); [done | done | lia |].
    simpl. destruct (group_selection s (high s) =? 0); [done|]. by destruct (group_link s (high s)). }
  intros d s1 [-> ->]. destruct down; [by unfold Transition_RestorationFail; wp_tac|].
  apply wp_bind. apply (wp_intro _ _ _ (answer (trace s) ClockGettime)
    (s <| trace := ClockGettime :: trace s |>)); [done|].
  change (fo_RestorationDelay (ctl s) <? _) with (fo_RestorationDelay (ctl s) <? elapsed).
  destruct (_ <? elapsed); [|by apply wp_ret].
  eapply wp_mono; [by apply wp_Transition_DeactivateGroup|].
  intros r s2 (-> & (_ & _ & _ & _ & Ho2 & _) & _). by split.
Qed.

(** The edges of the machine, with what they require of [WanEnable]. *)
Definition fo_edge (enable : bool) (st st' : WcFailOverState_t) : bool :=
  match st, st' with
  | STATE_FAILOVER_SCANNING_GROUP, STATE_FAILOVER_EXIT => negb enable
  | STATE_FAILOVER_SCANNING_GROUP,
    (STATE_FAILOVER_SCANNING_GROUP | STATE_FAILOVER_GROUP_ACTIVE) => enable
  | STATE_FAILOVER_GROUP_ACTIVE, STATE_FAILOVER_DEACTIVATE_GROUP => true
  | STATE_FAILOVER_GROUP_ACTIVE,
    (STATE_FAILOVER_GROUP_ACTIVE | STATE_FAILOVER_RESTORATION_WAIT
     | STATE_FAILOVER_SCANNING_GROUP) => enable
  | STATE_FAILOVER_RESTORATION_WAIT, STATE_FAILOVER_DEACTIVATE_GROUP => true
  | STATE_FAILOVER_RESTORATION_WAIT,
    (STATE_FAILOVER_GROUP_ACTIVE | STATE_FAILOVER_RESTORATION_WAIT) => enable
  | STATE_FAILOVER_DEACTIVATE_GROUP, STATE_FAILOVER_DEACTIVATE_GROUP => true
  | STATE_FAILOVER_DEACTIVATE_GROUP, STATE_FAILOVER_GROUP_ACTIVE => enable
  | STATE_FAILOVER_DEACTIVATE_GROUP, STATE_FAILOVER_EXIT => negb enable
  | _, _ => false
  end.

Lemma returns_activate g : Returns (fun r => r = ANSC_STATUS_SUCCESS) (WanMgr_ActivateGroup g).
Proof. unfold WanMgr_ActivateGroup. apply returns_bind. intros ?. by apply returns_ret. Qed.
Lemma returns_deactivate g : Returns (fun r => r = ANSC_STATUS_SUCCESS) (WanMgr_DeactivateGroup g).
Proof. unfold WanMgr_DeactivateGroup. apply returns_bind. intros ?. by apply returns_ret. Qed.
Lemma returns_Transition_ActivateGroup :
  Returns (fun r => r = STATE_FAILOVER_GROUP_ACTIVE) Transition_ActivateGroup.
Proof.
  unfold Transition_ActivateGroup. apply returns_bind. intros c.
  destruct (negb _); [|by apply returns_ret]. apply returns_bind. intros _.
  eapply returns_bind_val; [apply returns_activate|]. intros ? ->. returns_tac.
Qed.
Lemma returns_Transition_DeactivateGroup :
  Returns (fun r => r = STATE_FAILOVER_DEACTIVATE_GROUP) Transition_DeactivateGroup.
Proof.
  unfold Transition_DeactivateGroup. apply returns_bind. intros c.
  destruct (negb _); [|by apply returns_ret].
  eapply returns_bind_val; [apply returns_deactivate|]. intros ? ->. by apply returns_ret.
Qed.
Lemma returns_imp {A} (P Q : A -> Prop) (m : M (St FO) A) :
  Returns P m -> (forall a, P a -> Q a) -> Returns Q m.
Proof. intros Hm HPQ s a s' E. by eapply HPQ, Hm. Qed.
#[local] Hint Extern 2 (Returns _ Transition_ActivateGroup) =>
  (eapply returns_imp; [apply returns_Transition_ActivateGroup | intros ? ->; auto]) : returns.
#[local] Hint Extern 2 (Returns _ Transition_DeactivateGroup) =>
  (eapply returns_imp; [apply returns_Transition_DeactivateGroup | intros ? ->; auto]) : returns.

Lemma returns_use {A} (P : A -> Prop) (m : M (St FO) A) s a s' :
  m s = Some (a, s') -> Returns P m -> P a.
Proof. intros E Hm. by eapply Hm. Qed.

Lemma keeps_led_config : Keeps config UpdateLedStatus.
Proof.
  assert (forall l best, Keeps config (led_scan l best)) as Hl.
  { intros l. induction l as [|k l IH]; intros best; simpl; [apply keeps_ret|].
    apply keeps_bind; [keeps_tac | done]. }
  unfold UpdateLedStatus, led_selected. keeps_tac; apply Hl.
Qed.

Lemma fo_dispatch_edge st st' s s' :
  fo_dispatch st s = Some (Some st', s') -> fo_edge (fo_WanEnable (ctl s)) st st' = true.
Proof.
  assert (forall (m : M (St FO) WcFailOverState_t),
    (c <- m ;; ret (Some c)) s = Some (Some st', s') -> exists s1, m s = Some (st', s1)) as Hret.
  { intros m (x & s1 & E & [= -> _])%bind_Some. by exists s1. }
  unfold fo_dispatch. destruct st; intros E; try discriminate E; apply Hret in E as [s1 E].
  - unfold State_ScanningGroup in E. apply bind_Some in E as (en & s2 & [= <- <-] & E).
    destruct (fo_WanEnable (ctl s)); simpl in E; [|by injection E as <- _].
    apply (returns_use (fun r => fo_edge true STATE_FAILOVER_SCANNING_GROUP r = true) _ _ _ _ E).
    returns_tac.
  - unfold State_GroupActive in E. apply bind_Some in E as (c & s2 & [= <- <-] & E).
    destruct (fo_WanEnable (ctl s)); simpl in E.
    + apply (returns_use (fun r => fo_edge true STATE_FAILOVER_GROUP_ACTIVE r = true) _ _ _ _ E).
      unfold Transition_ResetScan, Transition_Restoration. returns_tac.
    + apply (returns_use (fun r => fo_edge false STATE_FAILOVER_GROUP_ACTIVE r = true) _ _ _ _ E).
      returns_tac.
  - unfold State_RestorationWait in E. apply bind_Some in E as (c & s2 & [= <- <-] & E).
    destruct (fo_WanEnable (ctl s)); simpl in E.
    + apply (returns_use (fun r => fo_edge true STATE_FAILOVER_RESTORATION_WAIT r = true) _ _ _ _ E).
      unfold Transition_RestorationFail. returns_tac.
    + apply (returns_use (fun r => fo_edge false STATE_FAILOVER_RESTORATION_WAIT r = true) _ _ _ _ E).
      returns_tac.
  - unfold State_DeactivateGroup in E. apply bind_Some in E as (c & s2 & [= <- <-] & E).
    destruct (fo_WanEnable (ctl s)); simpl in E.
    + apply (returns_use (fun r => fo_edge true STATE_FAILOVER_DEACTIVATE_GROUP r = true) _ _ _ _ E).
      returns_tac.
    + apply (returns_use (fun r => fo_edge false STATE_FAILOVER_DEACTIVATE_GROUP r = true) _ _ _ _ E).
      returns_tac.
Qed.

(** The thread moves only along the edges of its machine: it exits only
    when the manager is disabled, and leaves an active group only through
    deactivation or a reset scan. *)
Theorem failover_edges st st' s s' :
  fo_dispatch st s = Some (Some st', s') -> fo_edge (fo_WanEnable (ctl s)) st st' = true.
Proof. apply fo_dispatch_edge. Qed.

(** A reset scan releases the active group and starts over: no interface
    stays active, no group is current, the request is consumed and the LED
    state is forgotten. *)
Theorem failover_reset_scan s :
  fo_inv STATE_FAILOVER_GROUP_ACTIVE s -> fo_WanEnable (ctl s) = true -> fo_ResetScan (ctl s) = true ->
  wp State_GroupActive (fun r s' => r = STATE_FAILOVER_SCANNING_GROUP
    /\ only_active 0 s' /\ cur s' = 0 /\ fo_ResetScan (ctl s') = false) s.
Proof.
  intros (Hwf & Hb & Hc & Hh & Ho & _) He Hr. unfold State_GroupActive.
  apply wp_bind, wp_gets. rewrite He, Hr. simpl.
  eapply wp_mono; [by apply wp_Transition_ResetScan|].
  intros r s1 (-> & (_ & _ & _ & _ & Ho1 & Hc1) & Hr1). auto.
Qed.

(** A [ResetFailOverScan] request that arrives outside
    [STATE_FAILOVER_GROUP_ACTIVE] is dropped: the pass clears it in the
    configuration, and the machine does not return to scanning. *)
Theorem failover_reset_request_dropped s o s' :
  cfg_ResetFailOverScan (config s) = true ->
  fo_iteration STATE_FAILOVER_RESTORATION_WAIT s = Some (o, s') ->
  cfg_ResetFailOverScan (config s') = false /\ o <> Some STATE_FAILOVER_SCANNING_GROUP.
Proof.
  intros Hreq E. unfold fo_iteration in E.
  apply bind_Some in E as (u1 & s1 & E0 & E). apply bind_Some in E as (u2 & s2 & E1 & E).
  apply bind_Some in E as (u3 & s3 & E2 & E). apply bind_Some in E as (u4 & s4 & E3 & E).
  assert (config s1 = (config s) <| cfg_ResetFailOverScan := false |>) as C1.
  { unfold WanMgr_UpdateFOControllerData in E0. rewrite (with_config_eq tt) in E0.
    by injection E0 as _ <-. }
  assert (config s2 = config s1) as C2.
  { apply (fun K : Keeps config WanMgr_FO_IfaceGroupMonitor => K _ _ _ E1).
    unfold WanMgr_FO_IfaceGroupMonitor, monitor_group. keeps_tac. }
  assert (config s3 = config s2) as C3.
  { apply (fun K : Keeps config (when FEATURE_RDKB_LED_MANAGER UpdateLedStatus) => K _ _ _ E2).
    apply keeps_when, keeps_led_config. }
  assert (config s4 = config s3) as C4.
  { apply (fun K : Keeps config WanMgr_TelemetryEventTrigger => K _ _ _ E3).
    unfold WanMgr_TelemetryEventTrigger, t2_event_d. keeps_tac. }
  split.
  - assert (config s' = config s4) as C5; [|by rewrite C5, C4, C3, C2, C1].
    apply (fun K : Keeps config (fo_dispatch STATE_FAILOVER_RESTORATION_WAIT) => K _ _ _ E).
    unfold fo_dispatch, State_RestorationWait, Transition_DeactivateGroup, WanMgr_DeactivateGroup,
      Transition_RestorationFail. keeps_tac.
  - intros ->. pose proof (fo_dispatch_edge _ _ _ _ E) as HE. by destruct (fo_WanEnable (ctl s4)).
Qed.

(** What stopping a lower group does to it. *)
Definition stop_group (G : WANMGR_IFACE_GROUP) : WANMGR_IFACE_GROUP :=
  if g_State G ≟ STATE_GROUP_RUNNING
  then G <| g_State := STATE_GROUP_DEACTIVATED |> <| g_ConfigChanged := true |> else G.

Definition frame s s' : Prop :=
  ctl s' = ctl s /\ ifaces s' = ifaces s /\ shape_of (db s') = shape_of (db s).

Lemma wp_stop_one x s :
  db_wf (db s) -> 0 <= x < ngroups s ->
  wp (with_group tt x (fun g =>
    G <- get_group g ;;
    when (g_State G ≟ STATE_GROUP_RUNNING)
      (upd_group g (fun G => G <| g_State := STATE_GROUP_DEACTIVATED |>
                               <| g_ConfigChanged := true |>))))
    (fun _ s' => frame s s' /\ forall k, groups s' !! k =
       if decide (Z.to_nat x = k) then stop_group <$> groups s !! k else groups s !! k) s.
Proof.
  intros Hwf Hx. apply wp_with_group; intros Hok.
  2: { rewrite group_ok_in in Hok; [done | done | unfold ngroups in *; lia]. }
  destruct (group_ok_lookup s x) as [G HG]; [done | lia | done |].
  assert (groups (locked s) !! Z.to_nat x = Some G) as HG' by done.
  wp_tac.
  - split.
    { unfold frame. split; [done|]. split; [done|]. apply (shape_alter_group (locked s)). }
    intros k. set (f := fun G => G <| g_State := _ |> <| g_ConfigChanged := _ |>).
    transitivity (groups ((locked s) <| db ::= fun d => d <| w_Group :=
      alter f (Z.to_nat x) (w_Group d) |> |>) !! k); [done|].
    rewrite groups_alter. change (groups (locked s)) with (groups s).
    destruct (decide _) as [<-|]; [|done]. rewrite HG. simpl. unfold stop_group. by rewrite H1.
  - rewrite unlocked_locked. split; [done|]. intros k.
    destruct (decide _) as [<-|]; [|done]. rewrite HG. simpl. unfold stop_group. by rewrite H1.
Qed.

Lemma wp_stop_groups l s :
  db_wf (db s) -> NoDup l -> (forall k, k ∈ l -> 0 <= k < ngroups s) ->
  wp (for_each l (fun i => with_group tt i (fun g =>
    G <- get_group g ;;
    when (g_State G ≟ STATE_GROUP_RUNNING)
      (upd_group g (fun G => G <| g_State := STATE_GROUP_DEACTIVATED |>
                               <| g_ConfigChanged := true |>)))))
    (fun _ s' => frame s s' /\ forall k, groups s' !! k =
       if decide (Z.of_nat k ∈ l) then stop_group <$> groups s !! k else groups s !! k) s.
Proof.
  revert s. induction l as [|x l IH]; intros s Hwf Hnd Hl; simpl.
  - apply wp_ret. split; [done|]. done.
  - apply NoDup_cons in Hnd as [Hx Hnd]. pose proof (Hl x ltac:(left)) as Hxr.
    apply wp_bind. eapply wp_mono; [by apply wp_stop_one|]. intros _ s1 [(Hc & Hi & Hsh) Hg].
    assert (ngroups s1 = ngroups s) as En by (by injection Hsh).
    eapply wp_mono.
    + apply IH; [unfold db_wf; by rewrite Hsh | done |]. intros k Hk. rewrite En. apply Hl. by right.
    + intros _ s2 [(Hc2 & Hi2 & Hsh2) Hg2]. split; [split_and!; congruence|].
      intros k. rewrite Hg2, Hg.
      destruct (decide (Z.to_nat x = k)) as [<-|Hne].
      * replace (Z.of_nat (Z.to_nat x)) with x by lia.
        rewrite decide_False by done. by rewrite decide_True by left.
      * destruct (decide (Z.of_nat k ∈ l)).
        -- by rewrite decide_True by (by right).
        -- rewrite decide_False; [done|]. rewrite elem_of_cons. intros [?|?]; [lia | done].
Qed.

Definition swap_view s := (g_State <$> groups s, fo_FailOverType (ctl s), high s).
Lemma swap_view_activate g : Keeps swap_view (WanMgr_ActivateGroup g).
Proof.
  unfold WanMgr_ActivateGroup. keeps_tac.
  apply keeps_upd_group_view. intros s. unfold swap_view, groups, high. rsimpl. do 2 f_equal.
  apply list_eq. intros j. rewrite !list_lookup_fmap, list_lookup_alter.
  case_decide as Hd; [subst|done]. by destruct (w_Group (db s) !! j).
Qed.

(** With [COLDSWAP], activating a group stops every running group of lower
    priority (it is deactivated and its policy thread told so) and touches no
    group of equal or higher priority; with [HOTSWAP] no group state
    changes. *)
Theorem failover_coldswap s :
  fo_pre 0 s -> high s <> 0 ->
  wp Transition_ActivateGroup (fun r s' => r = STATE_FAILOVER_GROUP_ACTIVE /\ forall k,
    g_State <$> groups s' !! k =
    if decide (fo_FailOverType (ctl s) = COLDSWAP /\ high s <= Z.of_nat k < ngroups s)
    then (g_State ∘ stop_group) <$> groups s !! k
    else g_State <$> groups s !! k) s.
Proof.
  intros (Hwf & Hb & Hc & Hh & Ho) Hne. unfold Transition_ActivateGroup.
  apply wp_bind, wp_gets. change (fo_HighestValidGroup (ctl s)) with (high s).
  rewrite (proj2 (Z.eqb_neq _ _) Hne). simpl.
  apply wp_bind. eapply (safe_keeps _ (fun _ => True) swap_view);
    [safe_tac | keeps_tac | done |].
  intros ? s1 Hs1 _ Hv1 _.
  apply wp_bind. eapply (safe_keeps _ (fun r => r = ANSC_STATUS_SUCCESS) swap_view).
  { instantiate (1 := shape_of (db s)). unfold WanMgr_ActivateGroup. apply safe_bind_any; [safe_tac | intros ?; by apply safe_ret]. }
  { apply swap_view_activate. }
  { done. }
  intros ? s2 [Hs2 _] _ Hv2 ->. rewrite Hv1 in Hv2. simpl.
  assert (db_wf (db s2)) as Hwf2 by (unfold db_wf; by rewrite Hs2).
  assert (g_State <$> groups s2 = g_State <$> groups s) as Est
    by exact (f_equal (fun x => fst (fst x)) Hv2).
  assert (fo_FailOverType (ctl s2) = fo_FailOverType (ctl s)) as Ety
    by exact (f_equal (fun x => snd (fst x)) Hv2).
  assert (high s2 = high s) as Eh by exact (f_equal snd Hv2).
  assert (ngroups s2 = ngroups s) as En by (by injection Hs2).
  apply wp_bind, wp_modify, wp_bind, wp_gets, wp_bind.
  set (s3 := s2 <| ctl := _ |>).
  change (fo_FailOverType (ctl s3)) with (fo_FailOverType (ctl s2)).
  change (fo_CurrentActiveGroup (ctl s3)) with (high s2). rewrite Ety, Eh.
  assert (forall k, g_State <$> groups s3 !! k = g_State <$> groups s !! k) as Hst.
  { intros k. apply (f_equal (fun l => l !! k)) in Est. by rewrite !list_lookup_fmap in Est. }
  apply wp_when; intros Hty.
  - apply bool_decide_eq_true in Hty. apply wp_bind, wp_get_groups.
    change (w_ulTotalNumbWanIfaceGroup (db s3)) with (ngroups s2). rewrite En.
    eapply wp_mono; [apply wp_stop_groups; [done | apply NoDup_filter, range_NoDup |]|].
    { intros k [_ Hk%elem_of_range]%list_elem_of_filter. change (ngroups s3) with (ngroups s2). lia. }
    intros _ s4 [_ Hg]. apply wp_ret. split; [done|]. intros k. rewrite Hg.
    assert (Z.of_nat k ∈ filter (fun i => high s <= i) (range (ngroups s)) <->
      fo_FailOverType (ctl s) = COLDSWAP /\ high s <= Z.of_nat k < ngroups s) as Hin.
    { rewrite list_elem_of_filter, elem_of_range. split; [intros [? ?] | intros [_ ?]]; [split; [done|]|]; lia. }
    destruct (decide (Z.of_nat k ∈ _)) as [Hk|Hk].
    + rewrite decide_True by (by apply Hin). specialize (Hst k).
      destruct (groups s3 !! k) as [G3|], (groups s !! k) as [G0|]; try done. simpl in *.
      injection Hst as Hst. unfold compose, stop_group. f_equal. rewrite Hst.
      by destruct (bool_decide _).
    + rewrite decide_False by (by intros ?%Hin). apply Hst.
  - apply bool_decide_eq_false in Hty. apply wp_ret. split; [done|]. intros k.
    rewrite decide_False by (by intros [? _]). apply Hst.
Qed.

(** [T] is the largest [Timeout] among the first [n] interfaces configured for
    group [i + 1], 0 if there is none. *)
Definition longest_timeout (l : list DML_WAN_IFACE) (i n T : Z) : Prop :=
  (forall j I, Z.of_nat j < n -> l !! j = Some I -> sel_Group (if_Selection I) = i + 1 ->
     sel_Timeout (if_Selection I) <= T)
  /\ (T = 0 \/ exists j I, Z.of_nat j < n /\ l !! j = Some I
        /\ sel_Group (if_Selection I) = i + 1 /\ T = sel_Timeout (if_Selection I)).

Lemma wp_group_timeout i g G s (Q : unit -> St FO -> Prop) :
  db_wf (db s) -> groups s !! g = Some G -> g_SelectionTimeOut G = 0 ->
  (forall s' T, longest_timeout (ifaces s) i (nifaces s) T -> ctl s' = ctl s ->
    ifaces s' = ifaces s -> trace s' = trace s -> shape_of (db s') = shape_of (db s) ->
    groups s' = <[g := G <| g_SelectionTimeOut := T |>]> (groups s) -> Q tt s') ->
  wp (for_each (range (nifaces s)) (fun k =>
      with_iface tt k (fun p =>
        I <- get_iface p ;;
        G <- get_group g ;;
        when ((i + 1 =? sel_Group (if_Selection I))
              && (g_SelectionTimeOut G <? sel_Timeout (if_Selection I)))
          (upd_group g (fun G => G <| g_SelectionTimeOut := sel_Timeout (if_Selection I) |>)))))
    Q s.
Proof.
  intros Hwf HG H0T HQ.
  assert (g < length (groups s))%nat as Hlt by (by apply lookup_lt_Some in HG).
  apply (wp_for_each_range (fun k s' => exists T, longest_timeout (ifaces s) i k T
    /\ ctl s' = ctl s /\ ifaces s' = ifaces s /\ trace s' = trace s
    /\ shape_of (db s') = shape_of (db s)
    /\ groups s' = <[g := G <| g_SelectionTimeOut := T |>]> (groups s))).
  - exists 0. split; [split; [lia | by left]|]. do 4 (split; [done|]).
    symmetry. apply list_insert_id. rewrite HG. f_equal. rewrite <- H0T. by destruct G.
  - intros k s1 Hk (T & HT & Hc & Hi & Htr & Hsh & Hg).
    assert (db_wf (db s1)) as Hwf1 by (unfold db_wf; by rewrite Hsh).
    assert (nifaces s1 = nifaces s) as En by (by injection Hsh).
    apply wp_with_iface; intros Hok.
    2: { rewrite iface_ok_in in Hok; [done | done | unfold nifaces in *; lia]. }
    destruct (iface_ok_lookup s1 k) as (I & v & l & HI & _); [done | lia | done |].
    assert (ifaces (locked s1) !! Z.to_nat k = Some I) as HI' by done.
    assert (ifaces s !! Z.to_nat k = Some I) as HI0 by (by rewrite <- Hi).
    assert (groups (locked s1) !! g = Some (G <| g_SelectionTimeOut := T |>)) as HG1.
    { change (groups s1 !! g = Some (G <| g_SelectionTimeOut := T |>)). rewrite Hg.
      by apply list_lookup_insert_eq. }
    destruct HT as [Hub Hmax].
    assert (forall T', T <= T' -> (sel_Group (if_Selection I) = i + 1 -> sel_Timeout (if_Selection I) <= T') ->
      forall j J, Z.of_nat j < k + 1 -> ifaces s !! j = Some J -> sel_Group (if_Selection J) = i + 1 ->
      sel_Timeout (if_Selection J) <= T') as Hub'.
    { intros T' HTT Hk' j J Hj HJ HgJ. destruct (decide (Z.of_nat j = k)) as [<-|].
      - rewrite Nat2Z.id in HI0. rewrite HI0 in HJ. injection HJ as <-. auto.
      - transitivity T; [|done]. apply (Hub j J); [lia | done..]. }
    wp_tac.
    + apply andb_prop in H1 as [Hg1%Z.eqb_eq Ht1%Z.ltb_lt]. revert Ht1. rsimpl. intros Ht1.
      exists (sel_Timeout (if_Selection I)). split; [split|].
      * apply Hub'; [lia | done].
      * right. exists (Z.to_nat k), I. split_and!; [lia | done | lia | done].
      * do 3 (split; [done|]). split.
        { rewrite <- Hsh. apply (shape_alter_group (locked s1)). }
        unfold unlocked, locked, groups in *. rsimpl. rewrite Hg.
        apply list_eq. intros j. rewrite list_lookup_alter.
        destruct (decide (g = j)) as [<-|]; [|by rewrite !list_lookup_insert_ne].
        by rewrite !list_lookup_insert_eq.
    + exists T. rewrite unlocked_locked. split; [split|done].
      * apply Hub'; [done|]. intros Hgi. apply andb_false_iff in H1 as [?|Ht1]; [lia|].
        revert Ht1. rsimpl. lia.
      * destruct Hmax as [?|(j & J & ? & ? & ? & ?)]; [by left|]. right.
        exists j, J. split_and!; [lia | done..].
  - intros s1 (T & HT & Hc & Hi & Htr & Hsh & Hg). apply (HQ s1 T); try done.
    rewrite Z.max_r in HT; [done|]. destruct Hwf as (? & _). unfold nifaces. lia.
Qed.

(** The group monitor starts the selection thread of a stopped group that
    has interfaces: its selection time-out becomes the longest [Timeout] of
    its interfaces, its scan and its counters start afresh, its policy is one
    the build supports, and the group runs; no other group changes. *)
Theorem failover_monitor_starts i G s :
  db_wf (db s) -> 0 <= i -> groups s !! Z.to_nat i = Some G -> i < ngroups s ->
  g_InterfaceAvailable G <> 0 -> g_State G = STATE_GROUP_STOPPED ->
  (forall h e a, answer h (PthreadCreate e a) = 0) ->
  wp (with_group tt i (monitor_group i)) (fun _ s' => exists T,
    longest_timeout (ifaces s) i (nifaces s) T
    /\ groups s' = <[Z.to_nat i := G <| g_SelectionTimeOut := T |>
         <| g_InitialScanComplete := false |> <| g_ActivationCount := 0 |>
         <| g_ConfigChanged := false |> <| g_Policy := snd (group_thread (g_Policy G)) |>
         <| g_State := STATE_GROUP_RUNNING |>]> (groups s)
    /\ ifaces s' = ifaces s
    /\ trace s' = PthreadCreate (fst (group_thread (g_Policy G))) [i + 1] :: trace s) s.
Proof.
  intros Hwf Hi HG Hn Hav Hst Hth. apply wp_with_group; intros Hok.
  2: { rewrite group_ok_in in Hok; [done | done | unfold ngroups in *; lia]. }
  assert (Z.to_nat i < length (groups s))%nat as Hlt by (by apply lookup_lt_Some in HG).
  unfold monitor_group. apply wp_bind. eapply wp_get_group; [exact HG|].
  rewrite (proj2 (Z.eqb_neq _ _) Hav), Hst. simpl. apply wp_bind.
  eapply wp_upd_group; [exact HG|]. apply wp_bind, wp_get_total.
  set (s1 := (locked s) <| db ::= _ |>).
  set (G1 := G <| g_SelectionTimeOut := 0 |> <| g_InitialScanComplete := false |>
               <| g_ActivationCount := 0 |>).
  assert (groups s1 !! Z.to_nat i = Some G1) as HG1.
  { exact (groups_alter_eq (locked s) _ _ _ HG). }
  change (w_ulTotalNumbWanInterfaces (db s1)) with (nifaces s1). apply wp_bind.
  eapply wp_group_timeout; [ | exact HG1 | done |].
  { unfold db_wf. assert (shape_of (db s1) = shape_of (db s)) as ->; [|done].
    apply (shape_alter_group (locked s)). }
  intros s2 T HT _ Hi2 Htr2 Hsh2 Hg2.
  set (G2 := G1 <| g_SelectionTimeOut := T |>) in *.
  assert (groups s2 !! Z.to_nat i = Some G2) as HG2.
  { rewrite Hg2. apply list_lookup_insert_eq. unfold s1, locked, groups in *. rsimpl.
    by rewrite length_alter. }
  apply wp_bind. eapply wp_upd_group; [exact HG2|].
  set (s3 := s2 <| db ::= _ |>). set (G3 := G2 <| g_ConfigChanged := false |>).
  assert (groups s3 !! Z.to_nat i = Some G3) as HG3.
  { exact (groups_alter_eq s2 _ _ _ HG2). }
  apply wp_bind. eapply wp_get_group; [exact HG3|]. apply wp_bind.
  eapply wp_upd_group; [exact HG3|].
  set (s4 := s3 <| db ::= _ |>).
  set (G4 := G3 <| g_Policy := snd (group_thread (g_Policy G3)) |>).
  assert (groups s4 !! Z.to_nat i = Some G4) as HG4.
  { exact (groups_alter_eq s3 _ _ _ HG3). }
  apply wp_bind. eapply wp_intro; [reflexivity|]. rewrite Hth. simpl.
  eapply wp_upd_group; [exact HG4|].
  exists T. split; [exact HT|]. split.
  - apply list_eq. intros j. etransitivity; [apply (groups_alter (s4 <| trace := _ |>))|].
    change (groups (s4 <| trace := _ |>)) with (groups s4). unfold s4, s3.
    rewrite !groups_alter, Hg2. destruct (decide (Z.to_nat i = j)) as [<-|Hne].
    + rewrite list_lookup_insert_eq.
      * by rewrite list_lookup_insert_eq.
      * by apply lookup_lt_Some in HG1.
    + rewrite !list_lookup_insert_ne by done. unfold s1.
      rewrite groups_alter, decide_False by done. done.
  - split; [exact Hi2|]. unfold unlocked, s4, s3. rsimpl. by rewrite Htr2.
Qed.
End Properties.

(** * Witnesses *)

#[local] Instance the_build : Build := sample_build.
#[local] Instance the_platform : Platform := sample_platform 100.

(** The boot state after the start and two passes: group 1 is active. *)
Definition boot_two_passes : option (WcFailOverState_t * St FO) :=
  match fo_start sample_boot with
  | Some (Some st, s) =>
      match fo_iteration st s with
      | Some (Some st1, s1) => Some (st1, s1)
      | _ => None
      end
  | _ => None
  end.

Lemma boot_two_passes_reach st s : boot_two_passes = Some (st, s) -> fo_reach sample_boot st s.
Proof.
  unfold boot_two_passes. destruct (fo_start _) as [[[st0|] s0]|] eqn:E0; [|done..].
  destruct (fo_iteration _ _) as [[[st1|] s1]|] eqn:E1; [|done..]. intros [= <- <-].
  eapply fo_reach_pass; [by apply fo_reach_start | exact E1].
Qed.

Lemma failover_one_active_witness :
  exists st s, boot_two_passes = Some (st, s) /\ statuses s !! 0%nat = Some WAN_IFACE_ACTIVE
    /\ group_selection s (cur s) = 1.
Proof.
  assert ((fun x => (statuses (snd x) !! 0%nat, nifaces (snd x))) <$> boot_two_passes
      = Some (Some WAN_IFACE_ACTIVE, 2)) as Ev by by vm_compute.
  destruct boot_two_passes as [[st s]|] eqn:E; [|done]. injection Ev as Ha Hn.
  exists st, s. split; [done|]. split; [done|].
  apply (failover_one_active sample_boot st s 0);
    [by apply db_wfb_wf | by apply boundedb_bounded | by apply none_activeb_only
    | by apply boot_two_passes_reach | rewrite Hn; lia | done].
Defined.

Lemma failover_pass_safe_witness :
  exists o s', fo_iteration STATE_FAILOVER_GROUP_ACTIVE
    (sample_two WAN_IFACE_STATUS_UP WAN_IFACE_STATUS_STANDBY) = Some (o, s')
    /\ depth s' = 0%nat /\ db_wf (db s').
Proof.
  apply (failover_pass_safe STATE_FAILOVER_GROUP_ACTIVE
    (sample_two WAN_IFACE_STATUS_UP WAN_IFACE_STATUS_STANDBY)). by apply db_wfb_wf.
Defined.

Lemma mark_highest_priority_witness :
  exists s', MarkHighPriorityGroup false (sample_two WAN_IFACE_STATUS_INVALID WAN_IFACE_STATUS_STANDBY)
    = Some (ANSC_STATUS_SUCCESS, s') /\ high s' = 2
    /\ group_candidate (sample_two WAN_IFACE_STATUS_INVALID WAN_IFACE_STATUS_STANDBY) 0 = false.
Proof.
  destruct (mark_highest_priority false
    (sample_two WAN_IFACE_STATUS_INVALID WAN_IFACE_STATUS_STANDBY)) as (s' & n & E & _ & _ & _ & _ & Hc).
  - by apply db_wfb_wf.
  - by apply boundedb_bounded.
  - exists s'. split; [done|].
    assert (high s' = 2) as Hh.
    { assert ((fun r => high (snd r)) <$> MarkHighPriorityGroup false
        (sample_two WAN_IFACE_STATUS_INVALID WAN_IFACE_STATUS_STANDBY) = Some 2) as Ev by by vm_compute.
      rewrite E in Ev. by injection Ev. }
    split; [done|]. rewrite Hh in Hc.
    destruct Hc as [[_ [[? _]|(_ & _ & Hj)]] | [(_ & Hk & _) | (_ & _ & ? & _)]]; [done | apply Hj; lia | | done].
    revert Hk. unfold config_changing. by destruct (Z.to_nat n) as [|[|m]].
Defined.

Lemma failover_break_before_make_witness :
  wp State_DeactivateGroup (fun r s' => r = STATE_FAILOVER_DEACTIVATE_GROUP)
    ((sample_two WAN_IFACE_STATUS_UP WAN_IFACE_STATUS_STANDBY)
       <| db; w_pIface := [sample_iface 0 1 WAN_IFACE_SELECTED WAN_IFACE_STATUS_UP;
                           sample_iface 1 2 WAN_IFACE_SELECTED WAN_IFACE_STATUS_STANDBY] |>).
Proof.
  eapply wp_mono.
  - apply failover_break_before_make. unfold fo_inv.
    split; [by apply db_wfb_wf|]. split; [by apply boundedb_bounded|].
    split; [by vm_compute|]. split; [by vm_compute|]. split; [by apply none_activeb_only | done].
  - by intros r s' [-> _].
Defined.

Lemma failover_restoration_wait_witness :
  wp State_RestorationWait (fun r s' => r = STATE_FAILOVER_DEACTIVATE_GROUP)
    ((sample_two WAN_IFACE_STATUS_UP WAN_IFACE_STATUS_STANDBY)
       <| ctl; fo_HighestValidGroup := 1 |> ).
Proof.
  eapply wp_mono.
  - apply failover_restoration_wait.
    unfold fo_inv. split; [by apply db_wfb_wf|]. split; [by apply boundedb_bounded|].
    split; [by vm_compute|]. split; [by vm_compute|]. split; [|done].
    intros i Hi Ha. split; [by vm_compute|]. change (Z.of_nat i < 2) in Hi.
    destruct i as [|[|i]]; [done | done | lia].
  - by intros r s' [-> _].
Defined.

Lemma failover_edges_witness :
  fo_edge true STATE_FAILOVER_GROUP_ACTIVE STATE_FAILOVER_DEACTIVATE_GROUP = true.
Proof.
  assert (fst <$> fo_dispatch STATE_FAILOVER_GROUP_ACTIVE
      (sample_two WAN_IFACE_STATUS_INVALID WAN_IFACE_STATUS_STANDBY)
      = Some (Some STATE_FAILOVER_DEACTIVATE_GROUP)) as Ev by by vm_compute.
  destruct (fo_dispatch _ _) as [[o s]|] eqn:E in Ev; [|done]. injection Ev as ->.
  exact (failover_edges _ _ _ _ E).
Defined.

Lemma failover_reset_scan_witness :
  wp State_GroupActive (fun r s' => r = STATE_FAILOVER_SCANNING_GROUP)
    ((sample_two WAN_IFACE_STATUS_UP WAN_IFACE_STATUS_STANDBY) <| ctl; fo_ResetScan := true |>).
Proof.
  eapply wp_mono.
  - apply failover_reset_scan; [|done | done].
    unfold fo_inv. split; [by apply db_wfb_wf|]. split; [by apply boundedb_bounded|].
    split; [by vm_compute|]. split; [by vm_compute|]. split; [|done].
    intros i Hi Ha. split; [by vm_compute|]. change (Z.of_nat i < 2) in Hi.
    destruct i as [|[|i]]; [done | done | lia].
  - by intros r s' [-> _].
Defined.

Definition sample_reset_request : St FO :=
  (sample_two WAN_IFACE_STATUS_UP WAN_IFACE_STATUS_STANDBY)
    <| ctl; fo_HighestValidGroup := 1 |>
    <| db ::= fun d => d <| w_Config; cfg_ResetFailOverScan := true |> |>.

Lemma failover_reset_request_dropped_witness :
  exists o s', fo_iteration STATE_FAILOVER_RESTORATION_WAIT sample_reset_request = Some (o, s')
    /\ cfg_ResetFailOverScan (config s') = false /\ o <> Some STATE_FAILOVER_SCANNING_GROUP.
Proof.
  assert ((fun _ => tt) <$> fo_iteration STATE_FAILOVER_RESTORATION_WAIT sample_reset_request = Some tt)
    as Ev by by vm_compute.
  destruct (fo_iteration _ _) as [[o s']|] eqn:E; [|done].
  exists o, s'. split; [done|]. by apply (failover_reset_request_dropped sample_reset_request o s').
Defined.

Lemma failover_coldswap_witness :
  wp Transition_ActivateGroup (fun r s' => g_State <$> groups s' !! 1%nat = Some STATE_GROUP_DEACTIVATED)
    (sample_boot <| ctl; fo_HighestValidGroup := 1 |> <| ctl; fo_FailOverType := COLDSWAP |>).
Proof.
  eapply wp_mono.
  - apply failover_coldswap; [|by vm_compute].
    unfold fo_pre. split; [by apply db_wfb_wf|]. split; [by apply boundedb_bounded|].
    split; [by vm_compute|]. split; [by vm_compute|]. by apply none_activeb_only.
  - intros r s' [_ Hg]. by rewrite (Hg 1%nat).
Defined.

Definition sample_stopped : St FO :=
  sample_state sample_fo
    (sample_db [sample_iface 0 1 WAN_IFACE_NOT_SELECTED WAN_IFACE_STATUS_DISABLED]
       [(sample_group 0) <| g_State := STATE_GROUP_STOPPED |>]).

Lemma failover_monitor_starts_witness :
  wp (with_group tt 0 (monitor_group 0))
    (fun _ s' => g_State <$> groups s' !! 0%nat = Some STATE_GROUP_RUNNING) sample_stopped.
Proof.
  eapply wp_mono.
  - eapply (failover_monitor_starts 0);
      [by apply db_wfb_wf | done | reflexivity | done | done | done | done].
  - intros _ s' (T & _ & -> & _). reflexivity.
Defined.
