(* ===== verification/System.v ===== *)
(** The failover thread and the policy threads together: the runs of the
    program that interleave their passes with the other writers of the data base,
    and the guarantees the threads give each other. *)

From S2P Require Export FailoverProps ParallelProps.

#[local] Abbreviation FO := WanMgr_FailOver_Controller_t.
#[local] Abbreviation PC := WanMgr_Policy_Controller_t.

(** * What a pass of the failover thread leaves to the policies *)

Section FailoverKeeps.
Context `{Platform} `{Build}.

(** The groups of the interfaces and the selections of the groups. *)
Definition group_view {C} (s : St C) := (selected s, ifgroups s).

Lemma group_view_upd_iface {C} i f :
  (forall I, sel_Group (if_Selection (f I)) = sel_Group (if_Selection I)) ->
  Keeps (group_view (C := C)) (upd_iface i f).
Proof.
  intros Hf. apply keeps_bind; [apply keeps_get_iface | intros _]. apply keeps_modify. intros s.
  unfold group_view. refine (f_equal (fun x => (selected s, x)) _).
  unfold ifgroups, ifaces. rsimpl. apply list_eq. intros j. rewrite !list_lookup_fmap, list_lookup_alter.
  destruct (decide _) as [->|]; [|done]. by destruct (w_pIface (db s) !! j); simpl; [rewrite Hf|].
Qed.
Lemma group_view_upd_group {C} g f :
  (forall G, g_SelectedInterface (f G) = g_SelectedInterface G) -> Keeps (group_view (C := C)) (upd_group g f).
Proof.
  intros Hf. apply keeps_upd_group_view. intros s. unfold group_view.
  exact (f_equal (fun x => (x, ifgroups s)) (selected_alter_same s g f Hf)).
Qed.
#[local] Hint Extern 2 (Keeps group_view (upd_iface _ _)) =>
  (apply group_view_upd_iface; reflexivity) : keeps.
#[local] Hint Extern 2 (Keeps group_view (upd_group _ _)) =>
  (apply group_view_upd_group; reflexivity) : keeps.

Lemma group_view_activate g : Keeps (group_view (C := FO)) (WanMgr_ActivateGroup g).
Proof. unfold WanMgr_ActivateGroup. keeps_tac. Qed.
Lemma group_view_deactivate g : Keeps (group_view (C := FO)) (WanMgr_DeactivateGroup g).
Proof. unfold WanMgr_DeactivateGroup. keeps_tac. Qed.
Lemma group_view_mark w : Keeps (group_view (C := FO)) (MarkHighPriorityGroup w).
Proof. unfold MarkHighPriorityGroup, mark_group, mark_candidate. keeps_tac. Qed.
Lemma group_view_led_scan l best : Keeps (group_view (C := FO)) (led_scan l best).
Proof.
  revert best. induction l as [|k l IH]; intros best; simpl; [apply keeps_ret|].
  apply keeps_bind; [keeps_tac | done].
Qed.
#[local] Hint Resolve group_view_led_scan : keeps.
Lemma group_view_led : Keeps (group_view (C := FO)) UpdateLedStatus.
Proof. unfold UpdateLedStatus, led_selected. keeps_tac. Qed.
#[local] Hint Resolve group_view_activate group_view_deactivate group_view_mark group_view_led : keeps.
Lemma group_view_dispatch st : Keeps (group_view (C := FO)) (fo_dispatch st).
Proof.
  destruct st; simpl; unfold State_ScanningGroup, State_GroupActive, State_RestorationWait, State_DeactivateGroup,
    Transition_ActivateGroup, Transition_DeactivateGroup, Transition_Restoration, Transition_RestorationFail,
    Transition_ResetScan, start_FailOverTimer, start_GroupSelectionTimer.
  all: keeps_tac.
Qed.
Lemma group_view_iteration st : Keeps (group_view (C := FO)) (fo_iteration st).
Proof.
  unfold fo_iteration, WanMgr_UpdateFOControllerData, WanMgr_FO_IfaceGroupMonitor, monitor_group,
    WanMgr_TelemetryEventTrigger, t2_event_d. pose proof (group_view_dispatch st). keeps_tac.
Qed.
Lemma group_view_start : Keeps (group_view (C := FO)) fo_start.
Proof.
  unfold fo_start, WanMgr_FailOverCtrlInit, WanMgr_UpdateFOControllerData, Failover.Transition_Start,
    start_GroupSelectionTimer, WanMgr_FO_IfaceGroupMonitor, monitor_group. keeps_tac.
Qed.
End FailoverKeeps.

(** * The world *)

(** The state of the program between two passes: the data base and the calls
    made so far, the failover thread with the state of its machine, and the
    policy threads that run, by their group. *)
Record World := mk_World {
  wd_db : WANMGR_DATA_ST;
  wd_sys : gmap string string;
  wd_trace : list Ext;
  wd_fo : WcFailOverState_t * FO;
  wd_fo_running : bool;
  wd_ps : gmap Z (WcPsPolicyState_t * PC)
}.
(** The world as a thread with controller [c] sees it. *)
Definition seen_by {C} (c : C) (w : World) : St C := mk_St c (wd_db w) (wd_sys w) (wd_trace w).
(** The world after a pass that ended in [s]. *)
Definition after_fo (o : option WcFailOverState_t) (s : St FO) (w : World) : World :=
  mk_World (db s) (sys s) (trace s) (default (fst (wd_fo w)) o, ctl s)
    (match o with Some _ => true | None => false end) (wd_ps w).
Definition after_ps (g : Z) (o : option WcPsPolicyState_t) (s : St PC) (w : World) : World :=
  mk_World (db s) (sys s) (trace s) (wd_fo w) (wd_fo_running w)
    (match o with Some st => <[g := (st, ctl s)]> (wd_ps w) | None => delete g (wd_ps w) end).
Definition after_env (s : St unit) (w : World) : World :=
  mk_World (db s) (sys s) (trace s) (wd_fo w) (wd_fo_running w) (wd_ps w).

(** What the other writers of the data base do: the state machines of the
    interfaces and the data model keep its shape and its bounds, give back the
    lock, select nothing, move no interface and make none active. *)
Definition others (s s' : St unit) : Prop :=
  shape_of (db s') = shape_of (db s) /\ bounded s' /\ depth s' = depth s
  /\ group_view s' = group_view s
  /\ forall i, statuses s' !! i = Some WAN_IFACE_ACTIVE -> statuses s !! i = Some WAN_IFACE_ACTIVE.

(** The world of a failover thread about to enter its loop. *)
Definition booted (st : WcFailOverState_t) (s : St FO) : World :=
  mk_World (db s) (sys s) (trace s) (st, ctl s) true ∅.

Section Runs.
Context `{Platform} `{Build}.

(** A step of the policy of group [g]: a pass of its thread, the last pass and
    the end of the thread, or the start of a thread on any stack [c].  A group
    without a thread may be given one at any time. *)
Inductive policy_step (w : World) (g : Z) : option WcPsPolicyState_t -> St PC -> Prop :=
| policy_pass st c st' s :
    wd_ps w !! g = Some (st, c) -> ps_iteration st (seen_by c w) = Some (Some st', s) ->
    policy_step w g (Some st') s
| policy_end st c s s' :
    wd_ps w !! g = Some (st, c) -> ps_iteration st (seen_by c w) = Some (None, s) ->
    ps_finish s = Some (tt, s') -> policy_step w g None s'
| policy_start c st s :
    1 <= g <= w_ulTotalNumbWanIfaceGroup (wd_db w) -> wd_ps w !! g = None ->
    ps_start g (seen_by c w) = Some (Some st, s) -> policy_step w g (Some st) s.

(** A step of the world: a pass of the failover thread, a step of a policy, or
    one of another writer. *)
#[local] Unset Elimination Schemes.
Inductive world_step (w : World) : World -> Prop :=
| step_fo o s :
    wd_fo_running w = true -> fo_iteration (fst (wd_fo w)) (seen_by (snd (wd_fo w)) w) = Some (o, s) ->
    world_step w (after_fo o s w)
| step_policy g o s : policy_step w g o s -> world_step w (after_ps g o s w)
| step_other s : others (seen_by tt w) s -> world_step w (after_env s w).

#[local] Set Elimination Schemes.

(** A step in which no start of a state machine failed. *)
Definition smooth_step (w w' : World) : Prop := world_step w w' /\ start_failed (wd_trace w') = false.

(** The worlds reached once the failover thread entered its loop on data base
    [d], by the steps [R]; by any steps; by smooth ones. *)
Definition reach_by (R : World -> World -> Prop) (d : WANMGR_DATA_ST) (w : World) : Prop :=
  exists (c0 : FO) y t st s,
    fo_start (mk_St c0 d y t) = Some (Some st, s) /\ rtc R (booted st s) w.
Definition world_reach := reach_by world_step.
Definition smooth_reach := reach_by smooth_step.

(** What holds in every reachable world: the failover thread and every policy
    thread have their invariants, and a group without a thread selects nothing. *)
Record world_inv (w : World) : Prop := {
  wi_fo : fo_inv (fst (wd_fo w)) (seen_by (snd (wd_fo w)) w);
  wi_small : nifaces (seen_by tt w) < 2 ^ 31;
  wi_ps : forall g st c, wd_ps w !! g = Some (st, c) -> ps_inv st (seen_by c w) /\ pc_GroupInst c = g;
  wi_idle : forall g, 1 <= g <= ngroups (seen_by tt w) -> wd_ps w !! g = None ->
    selected (seen_by tt w) !! Z.to_nat (g - 1) = Some 0
}.

(** The invariant of a policy, seen from a data base with the same selection. *)
Lemma ps_inv_seen {C} (s : St C) st c w :
  shape_of (db s) = shape_of (wd_db w) -> bounded s -> ifgroups s = ifgroups (seen_by tt w) ->
  selected s !! Z.to_nat (pc_GroupInst c - 1) = selected (seen_by tt w) !! Z.to_nat (pc_GroupInst c - 1) ->
  ps_inv st (seen_by c w) -> ps_inv st (mk_St c (db s) (sys s) (trace s)).
Proof. intros Hsh Hb Hg Hs. apply ps_env_inv. by split_and!. Qed.

Lemma shape_counts {C} (s : St C) w :
  shape_of (db s) = shape_of (wd_db w) ->
  nifaces s = nifaces (seen_by tt w) /\ ngroups s = ngroups (seen_by tt w).
Proof. intros Hsh. split; [exact (f_equal (fun x => fst (fst (fst x))) Hsh) | exact (f_equal (fun x => snd (fst (fst x))) Hsh)]. Qed.

Lemma fo_pass st s :
  fo_inv st s -> wp (fo_iteration st) (fun o s' =>
    fo_inv (default st o) s' /\ shape_of (db s') = shape_of (db s) /\ depth s' = depth s
    /\ group_view s' = group_view s) s.
Proof.
  intros Hinv. eapply wp_mono.
  { apply wp_and; [by apply (wp_fo_iteration st)|].
    apply (wp_keep group_view); [apply group_view_iteration|].
    apply (safe_iteration (shape_of (db s)) (proj1 Hinv) st s). by split. }
  intros o s' [Hi [Hv [[[Hsh _] Hd] _]]]. split; [by destruct o | done].
Qed.

(** A step that is not a pass of a policy keeps what the policies rely on. *)
Lemma world_inv_kept {C} w (s : St C) :
  world_inv w -> shape_of (db s) = shape_of (wd_db w) -> bounded s ->
  group_view s = group_view (seen_by tt w) ->
  forall fo b, fo_inv (fst fo) (mk_St (snd fo) (db s) (sys s) (trace s)) ->
  world_inv (mk_World (db s) (sys s) (trace s) fo b (wd_ps w)).
Proof.
  intros [_ Hsm Hps Hidle] Hsh Hb Hv fo b Hfo. destruct (shape_counts s w Hsh) as [En Eg].
  assert (selected s = selected (seen_by tt w)) as Es by exact (f_equal fst Hv).
  assert (ifgroups s = ifgroups (seen_by tt w)) as Ei by exact (f_equal snd Hv).
  split; simpl.
  - exact Hfo.
  - change (nifaces s < 2 ^ 31). lia.
  - intros g st c Hg. destruct (Hps g st c Hg) as [Hi Hc]. split; [|done].
    apply (ps_inv_seen s st c w); [done.. | by rewrite Es | done].
  - intros g Hg Hno. change (selected s !! Z.to_nat (g - 1) = Some 0). rewrite Es. apply Hidle; [|done].
    rewrite <- Eg. exact Hg.
Qed.

(** A pass of a policy, as the failover thread relies on it. *)
Lemma ps_rely_env g (s s' : St FO) st :
  fo_inv st s -> 1 <= g -> ctl s' = ctl s -> shape_of (db s') = shape_of (db s) -> bounded s' ->
  (forall i, statuses s' !! i = Some WAN_IFACE_ACTIVE -> statuses s !! i = Some WAN_IFACE_ACTIVE) ->
  same_but g (selected s) (selected s') ->
  (forall i, statuses s' !! i = Some WAN_IFACE_ACTIVE -> selected s !! Z.to_nat (g - 1) = Some (Z.of_nat i + 1) ->
     selected s' !! Z.to_nat (g - 1) = Some (Z.of_nat i + 1)) ->
  env_step s s'.
Proof.
  intros (_ & _ & _ & _ & Ho & _) Hg Hc Hsh Hb Ha Hsb Hown. do 3 (split; [done|]). intros i Hi Hi'.
  pose proof (Ha i Hi') as Hia. split; [done|]. destruct (Ho i Hi Hia) as [Hcur Hsel].
  assert (active_group st s = cur s) as E by (destruct st; simpl in *; (done || lia)). rewrite E in *.
  destruct (decide (cur s = g)) as [Heq|Hne]; [|apply Hsb; lia].
  rewrite Heq in *. rewrite Hsel. by apply Hown.
Qed.

(** The promise of a policy's pass, between a data base and the next. *)
Definition ps_promise (g : Z) {C D} (s : St C) (s' : St D) : Prop :=
  shape_of (db s') = shape_of (db s) /\ bounded s' /\ gives_back s s' /\ ifgroups s' = ifgroups s
  /\ (forall i, statuses s' !! i = Some WAN_IFACE_ACTIVE -> statuses s !! i = Some WAN_IFACE_ACTIVE)
  /\ same_but g (selected s) (selected s')
  /\ (forall i, statuses s' !! i = Some WAN_IFACE_ACTIVE -> selected s !! Z.to_nat (g - 1) = Some (Z.of_nat i + 1) ->
        selected s' !! Z.to_nat (g - 1) = Some (Z.of_nat i + 1)).

Lemma world_inv_after_ps w g o (s : St PC) :
  world_inv w -> 1 <= g -> ps_promise g (seen_by tt w) s ->
  (match o with
   | Some st => ps_inv st s /\ grp s = g
   | None => selected s !! Z.to_nat (g - 1) = Some 0
   end) -> world_inv (after_ps g o s w).
Proof.
  intros [Hfo Hsm Hps Hidle] Hg (Hsh & Hb & Hd & Hig & Ha & Hsb & Hown) Ho.
  destruct (shape_counts s w Hsh) as [En Eg]. split; simpl.
  - eapply env_step_inv; [|exact Hfo]. by eapply (ps_rely_env g _ _ _ Hfo).
  - change (nifaces s < 2 ^ 31). lia.
  - intros g' st c Hl. destruct (decide (g' = g)) as [->|Hne].
    + destruct o as [st'|]; [|by rewrite lookup_delete_eq in Hl].
      rewrite lookup_insert_eq in Hl. injection Hl as <- <-. exact Ho.
    + assert (wd_ps w !! g' = Some (st, c)) as Hl'.
      { destruct o; [by rewrite lookup_insert_ne in Hl | by rewrite lookup_delete_ne in Hl]. }
      destruct (Hps g' st c Hl') as [Hi Hc]. split; [|done].
      apply (ps_inv_seen s st c w); [done.. | | done]. apply Hsb. rewrite Hc.
      destruct Hi as (_ & _ & _ & Hgr & _). unfold grp in Hgr. simpl in Hgr. lia.
  - intros g' Hg' Hl. change (1 <= g' <= ngroups s) in Hg'. rewrite Eg in Hg'.
    change (selected s !! Z.to_nat (g' - 1) = Some 0).
    destruct (decide (g' = g)) as [->|Hne].
    + destruct o as [st'|]; [by rewrite lookup_insert_eq in Hl | done].
    + rewrite Hsb by lia. apply Hidle; [done|].
      destruct o; [by rewrite lookup_insert_ne in Hl | by rewrite lookup_delete_ne in Hl].
Qed.

Lemma ps_rely_promise g s s' : ps_rely g s s' -> bounded s' -> gives_back s s' -> ps_promise g s s'.
Proof. intros (Hsh & ([Hig _] & Ha & Hsb) & Hown) Hb Hd. by split_and!. Qed.

(** The last pass of a policy, and its end. *)
Lemma ps_end_promise st s s1 s2 :
  ps_inv st s -> ps_iteration st s = Some (None, s1) -> ps_finish s1 = Some (tt, s2) ->
  ps_promise (grp s) s s2 /\ selected s2 !! Z.to_nat (grp s - 1) = Some 0.
Proof.
  intros Hi E1 E2.
  destruct (wp_use _ _ _ _ _ E1 (wp_ps_iteration _ _ Hi)) as (Hi1 & Hend & Eg & Hd1 & Hr1).
  simpl in Hi1. assert (ended st = true) as He by by apply Hend.
  assert (own_selection s1 = Some 0) as Ho.
  { destruct Hi1 as (_ & _ & _ & _ & _ & Hs). unfold sel_inv in Hs. by destruct st; destruct Hs. }
  destruct Hi1 as (Hwf1 & Hb1 & Hsm1 & Hg1 & _).
  assert (wp ps_finish (fun _ s2 => ps_promise (grp s) s s2 /\ selected s2 !! Z.to_nat (grp s - 1) = Some 0) s1) as HW.
  2: { exact (wp_use _ _ _ _ _ E2 HW). }
  apply wp_ps_finish; [done | done | apply Hb1 |]. intros s3 HI HG Hc Hd3 _ _.
  assert (depth s1 = depth s) as Hds by (destruct Hd1 as [?|[-> _]]; done).
  destruct (ps_rely_promise _ _ _ Hr1 Hb1 (or_introl Hds)) as (Hsh & _ & _ & Hig & Ha & Hsb & Hown).
  assert (HS : forall j, selected s3 !! j = if decide (Z.to_nat (grp s - 1) = j) then (fun _ => 0) <$> selected s1 !! j
    else selected s1 !! j).
  { intros j. unfold selected. rewrite HG, Eg, !list_lookup_fmap, list_lookup_alter.
    destruct (decide _) as [<-|]; [|done]. destruct (groups s1 !! _) as [G|]; [|done]. simpl. f_equal.
    unfold released. cbv zeta. by destruct (_ ≠? _). }
  unfold own_selection in Ho. rewrite Eg in Ho.
  assert (selected s3 !! Z.to_nat (grp s - 1) = Some 0) as H3 by (rewrite HS, decide_True by done; by rewrite Ho).
  split; [|exact H3]. assert (statuses s3 = statuses s1) as Est by (unfold statuses; by rewrite HI).
  assert (shape_of (db s3) = shape_of (db s1)) as Esh3.
  { unfold shape_of. unfold ifaces, groups, counts in *. rewrite HI, HG. injection Hc as -> ->.
    by rewrite length_alter. }
  rewrite <- Esh3 in Hsh. split; [done|]. split; [|split; [|split; [|split; [|split]]]].
  - split; [destruct Hb1; unfold ngroups in *; by injection Hc as _ ->|].
    apply Forall_lookup_2. intros j n. rewrite HS. destruct (decide _) as [<-|].
    + rewrite Ho. simpl. intros [= <-]. lia.
    + intros Hj. by apply (Forall_lookup_1 _ _ j n (proj2 Hb1)).
  - left. congruence.
  - unfold ifgroups in *. by rewrite HI.
  - intros i. rewrite Est. apply Ha.
  - intros j Hj. rewrite HS, decide_False by done. by apply Hsb.
  - intros i Hi3 Hsel. rewrite Est in Hi3. pose proof (Hown i Hi3 Hsel) as Hc'. rewrite Ho in Hc'.
    injection Hc'. lia.
Qed.

(** A step of a policy keeps its promise and its invariant. *)
Lemma policy_step_promise w g o s :
  world_inv w -> policy_step w g o s ->
  1 <= g <= ngroups (seen_by tt w) /\ ps_promise g (seen_by tt w) s
  /\ match o with
     | Some st => ps_inv st s /\ grp s = g
     | None => selected s !! Z.to_nat (g - 1) = Some 0
     end.
Proof.
  intros [Hfo Hsm Hps Hidle] Hst.
  assert (Hg : forall st c, wd_ps w !! g = Some (st, c) ->
    ps_inv st (seen_by c w) /\ grp (seen_by c w) = g /\ 1 <= g <= ngroups (seen_by tt w)).
  { intros st c Hl. destruct (Hps g st c Hl) as [Hi Hc]. split; [done|]. split; [done|]. rewrite <- Hc. apply Hi. }
  destruct Hst as [st c st' s Hl E | st c s s' Hl E E' | c st s Hr Hl E].
  - destruct (Hg st c Hl) as (Hi & Hc & Hr).
    destruct (wp_use _ _ _ _ _ E (wp_ps_iteration _ _ Hi)) as (Hi' & _ & Eg & Hd & Hrely).
    rewrite Hc in *. split; [done|]. split; [|done].
    apply (ps_rely_promise g (seen_by c w)); [done | apply Hi' | by eapply returns_lock_gives].
  - destruct (Hg st c Hl) as (Hi & Hc & Hr).
    destruct (ps_end_promise _ _ _ _ Hi E E') as [Hp Hz]. rewrite Hc in *. done.
  - assert (selected (seen_by tt w) !! Z.to_nat (g - 1) = Some 0) as Hz by by apply Hidle.
    destruct (wp_use _ _ _ _ _ E (wp_ps_start g (seen_by c w) (proj1 Hfo) (proj1 (proj2 Hfo)) Hsm Hr Hz))
      as (Est & Hi & Eg & Hd & Hrely). injection Est as ->. split; [done|]. split; [|done].
    apply (ps_rely_promise g (seen_by c w)); [done | apply Hi | by left].
Qed.

Lemma world_step_inv w w' : world_inv w -> world_step w w' -> world_inv w'.
Proof.
  intros Hw Hst. pose proof (wi_fo _ Hw) as Hfo. destruct Hst as [o s Hrun E | g o s Hp | s Hs].
  - destruct (wp_use _ _ _ _ _ E (fo_pass _ _ Hfo)) as (Hi & Hsh & Hd & Hv).
    apply world_inv_kept; [done | done | apply Hi | exact Hv | exact Hi].
  - destruct (policy_step_promise _ _ _ _ Hw Hp) as ([Hg _] & Hpr & Ho). by apply world_inv_after_ps.
  - destruct Hs as (Hsh & Hb & Hd & Hv & Ha).
    apply world_inv_kept; [done..|]. eapply env_step_inv; [|exact Hfo].
    do 3 (split; [done|]). intros i _ Hi. split; [by apply Ha|].
    exact (f_equal (fun x => fst x !! Z.to_nat (cur (seen_by (snd (wd_fo w)) w) - 1)) Hv).
Qed.

(** A step gives back the mutex, or ends with a start of a state machine that
    failed. *)
Lemma world_step_lock w w' : world_inv w -> world_step w w' -> gives_back (seen_by tt w) (seen_by tt w').
Proof.
  intros Hw Hst. pose proof (wi_fo _ Hw) as Hfo. destruct Hst as [o s Hrun E | g o s Hp | s Hs].
  - destruct (wp_use _ _ _ _ _ E (fo_pass _ _ Hfo)) as (_ & _ & Hd & _). by left.
  - by destruct (policy_step_promise _ _ _ _ Hw Hp) as (_ & (_ & _ & Hd & _) & _).
  - left. apply Hs.
Qed.

(** A data base the program may start on. *)
Definition bootable (d : WANMGR_DATA_ST) : Prop :=
  let s := mk_St tt d ∅ [] in
  db_wf d /\ bounded s /\ nifaces s < 2 ^ 31 /\ w_gDataMutex d = 0%nat /\ only_active 0 s
  /\ Forall (fun n => n = 0) (selected s).

Lemma world_reach_inv d w : bootable d -> world_reach d w -> world_inv w.
Proof.
  intros (Hwf & Hb & Hsm & Hd & Ho & Hz) (c0 & y & t & st & s & E & Hr).
  assert (world_inv (booted st s)) as Hw.
  { destruct (fo_start_inv (mk_St c0 d y t) st s) as [-> Hi]; [done..|].
    pose proof (group_view_start _ _ _ E) as Hv.
    destruct (wp_use _ _ _ _ _ E (safe_fo_start _ Hwf (mk_St c0 d y t) (conj eq_refl I))) as [[[Hsh _] Hdep] _].
    split; simpl.
    - exact Hi.
    - assert (w_ulTotalNumbWanInterfaces (db s) = w_ulTotalNumbWanInterfaces d) as En by (by injection Hsh).
      unfold nifaces in *. simpl in *. lia.
    - done.
    - intros g Hg _. assert (selected s = selected (mk_St tt d ∅ [])) as Es by exact (f_equal fst Hv).
      change (selected s !! Z.to_nat (g - 1) = Some 0). rewrite Es.
      assert (ngroups s = ngroups (mk_St tt d ∅ [])) as En by (by injection Hsh).
      change (1 <= g <= ngroups s) in Hg.
      destruct (group_ok_lookup (mk_St tt d ∅ []) (g - 1)) as [G HG];
        [done | lia | apply group_ok_in; [done | unfold ngroups in *; simpl in *; lia] |].
      apply selected_lookup in HG. rewrite HG. f_equal. exact (Forall_lookup_1 _ _ _ _ Hz HG). }
  clear E. induction Hr as [w|w1 w2 w3 Hst _ IH]; [done|]. apply IH. by eapply world_step_inv.
Qed.

Lemma smooth_reach_free d w : bootable d -> smooth_reach d w -> depth (seen_by tt w) = 0%nat.
Proof.
  intros Hd (c0 & y & t & st & s & E & Hr).
  assert (world_inv (booted st s)) as Hw by (apply (world_reach_inv d); [done | by exists c0, y, t, st, s]).
  assert (depth (seen_by tt (booted st s)) = 0%nat) as Hz.
  { destruct Hd as (Hwf & _ & _ & Hz & _).
    destruct (wp_use _ _ _ _ _ E (safe_fo_start _ Hwf (mk_St c0 d y t) (conj eq_refl I))) as [[_ Hdep] _].
    by transitivity (depth (mk_St c0 d y t)). }
  clear E. induction Hr as [w|w1 w2 w3 [Hst Hf] _ IH]; [done|]. apply IH; [by eapply world_step_inv|].
  destruct (world_step_lock _ _ Hw Hst) as [Hl|[_ Hl]]; [congruence|].
  change (start_failed (wd_trace w2) = true) in Hl. congruence.
Qed.
End Runs.
