(* ===== verification/SystemProps.v ===== *)
(** The properties of the threads together: at most one active interface, owned
    by the policy that selected it; refinement of an abstract machine of
    selections and activations; and progress of every thread. *)

From S2P Require Export System.

#[local] Abbreviation FO := WanMgr_FailOver_Controller_t.
#[local] Abbreviation PC := WanMgr_Policy_Controller_t.

(** * The abstract machine

    Its state is the selection of every group, with 0 for none, and the active
    interface; [gs] are the groups of the interfaces.  An interface is activated
    only while none is active, and only as the selection of its group; the
    selection of a group does not change while its interface is active. *)
Definition Spec : Type := list Z * option nat.
Inductive spec_step (gs : list Z) : Spec -> Spec -> Prop :=
| spec_activate sel g i :
    1 <= g -> gs !! i = Some g -> sel !! Z.to_nat (g - 1) = Some (Z.of_nat i + 1) ->
    spec_step gs (sel, None) (sel, Some i)
| spec_deactivate sel i : spec_step gs (sel, Some i) (sel, None)
| spec_select sel a g n :
    1 <= g -> (n = 0 \/ 0 < n /\ gs !! Z.to_nat (n - 1) = Some g) ->
    (forall i, a = Some i -> sel !! Z.to_nat (g - 1) <> Some (Z.of_nat i + 1)) ->
    spec_step gs (sel, a) (<[Z.to_nat (g - 1) := n]> sel, a).

(** The abstract state of a data base. *)
Definition abstracts {C} (s : St C) (a : Spec) : Prop :=
  fst a = selected s
  /\ (forall i, snd a = Some i <-> Z.of_nat i < nifaces s /\ statuses s !! i = Some WAN_IFACE_ACTIVE).

Section Refinement.
Context `{Platform} `{Build}.

(** ** The failover thread activates only what nothing else is active *)

Section FailoverMoves.
#[local] Abbreviation moves m := (Moves (selections (C := FO) eq) m).
Lemma moves_led_scan l best : moves (led_scan l best).
Proof.
  apply moves_sel; [apply _|]. revert best. induction l as [|k l IH]; intros best; simpl; [apply keeps_ret|].
  apply keeps_bind; [keeps_tac | done].
Qed.
Lemma moves_deactivate g : moves (WanMgr_DeactivateGroup g).
Proof. unfold WanMgr_DeactivateGroup. moves_tac. Qed.
Lemma moves_mark w : moves (MarkHighPriorityGroup w).
Proof. unfold MarkHighPriorityGroup, mark_group, mark_candidate. moves_tac. Qed.
#[local] Hint Resolve moves_led_scan moves_deactivate moves_mark : moves.
Lemma moves_fo_active st :
  st <> STATE_FAILOVER_SCANNING_GROUP -> st <> STATE_FAILOVER_DEACTIVATE_GROUP -> moves (fo_iteration st).
Proof.
  intros H1 H2. unfold fo_iteration, WanMgr_UpdateFOControllerData, WanMgr_FO_IfaceGroupMonitor, monitor_group,
    WanMgr_TelemetryEventTrigger, t2_event_d, UpdateLedStatus, led_selected.
  destruct st; try done; simpl; unfold State_GroupActive, State_RestorationWait, Transition_DeactivateGroup,
    Transition_Restoration, Transition_RestorationFail, Transition_ResetScan, start_FailOverTimer, start_GroupSelectionTimer.
  all: moves_tac.
Qed.
End FailoverMoves.

(** ** The abstract state of a world *)

(** The interface the failover invariant lets be active belongs to its group, and
    the policy of that group holds it selected. *)
Lemma active_owner w i :
  world_inv w -> Z.of_nat i < nifaces (seen_by tt w) ->
  statuses (seen_by tt w) !! i = Some WAN_IFACE_ACTIVE ->
  let g := fo_CurrentActiveGroup (snd (wd_fo w)) in
  1 <= g /\ selected (seen_by tt w) !! Z.to_nat (g - 1) = Some (Z.of_nat i + 1)
  /\ ifgroups (seen_by tt w) !! i = Some g
  /\ (fst (wd_fo w) = STATE_FAILOVER_GROUP_ACTIVE \/ fst (wd_fo w) = STATE_FAILOVER_RESTORATION_WAIT)
  /\ exists st c, wd_ps w !! g = Some (st, c) /\ settled st = true /\ pc_activeInterfaceIdx c = Z.of_nat i.
Proof.
  intros [(Hwf & _ & Hcur & _ & Ho & _) Hsm Hps Hidle] Hi Ha g.
  destruct (Ho i Hi Ha) as [Hpos Hsel]. change (0 <= g <= ngroups (seen_by tt w)) in Hcur.
  assert (active_group (fst (wd_fo w)) (seen_by (snd (wd_fo w)) w) = g
    /\ (fst (wd_fo w) = STATE_FAILOVER_GROUP_ACTIVE \/ fst (wd_fo w) = STATE_FAILOVER_RESTORATION_WAIT)) as [Eg Hst].
  { destruct (fst (wd_fo w)); simpl in *; (lia || auto). }
  rewrite Eg in Hpos, Hsel. change (selected (seen_by tt w) !! Z.to_nat (g - 1) = Some (Z.of_nat i + 1)) in Hsel.
  destruct (wd_ps w !! g) as [[st c]|] eqn:El.
  2: { rewrite Hidle in Hsel; [injection Hsel; lia | lia | done]. }
  destruct (Hps g st c El) as [(_ & _ & _ & _ & _ & Hinv) Hc].
  unfold sel_inv, own_selection in Hinv. change (grp (seen_by c w)) with (pc_GroupInst c) in Hinv. rewrite Hc in Hinv.
  change (selected (seen_by c w)) with (selected (seen_by tt w)) in Hinv. rewrite Hsel in Hinv.
  destruct (settled st) eqn:Hs; [|destruct Hinv as [Hinv _]; injection Hinv; lia].
  destruct Hinv as (_ & Hgr & Hown). injection Hown as Hown. change (active_idx (seen_by c w)) with (pc_activeInterfaceIdx c) in *.
  assert (pc_activeInterfaceIdx c = Z.of_nat i) as Ei by lia. rewrite Ei, Nat2Z.id in Hgr.
  split_and!; [lia | done | exact Hgr | done | by exists st, c].
Qed.

Lemma abstract_exists w : world_inv w -> exists a, abstracts (seen_by tt w) (selected (seen_by tt w), a).
Proof.
  intros Hw. set (n := Z.to_nat (nifaces (seen_by tt w))).
  destruct (decide (WAN_IFACE_ACTIVE ∈ take n (statuses (seen_by tt w)))) as [Hin|Hno].
  - apply list_elem_of_lookup in Hin as [i Hi]. apply lookup_take_Some in Hi as [Hi Hlt].
    exists (Some i). split; [done|]. intros j. split.
    + intros [= <-]. split; [unfold n in Hlt; lia | done].
    + intros [Hj Ha]. simpl. f_equal. unfold n in Hlt.
      destruct (active_owner w i Hw) as (_ & Hsi & _); [lia | done|].
      destruct (active_owner w j Hw) as (_ & Hsj & _); [done | done|].
      assert (Z.of_nat i + 1 = Z.of_nat j + 1) by congruence. lia.
  - exists None. split; [done|]. intros j. split; [done|]. intros [Hj Ha]. exfalso. apply Hno.
    apply list_elem_of_lookup. exists j. apply lookup_take_Some. split; [exact Ha | unfold n; lia].
Qed.

(** A step that makes no interface active and changes the selection of one group
    only, which is not that of an interface that stays active. *)
Lemma refine_policy {C D} gs g n (s : St C) (s' : St D) a a' :
  abstracts s a -> abstracts s' a' -> nifaces s' = nifaces s -> 1 <= g ->
  (forall i, statuses s' !! i = Some WAN_IFACE_ACTIVE -> statuses s !! i = Some WAN_IFACE_ACTIVE) ->
  same_but g (selected s) (selected s') -> length (selected s') = length (selected s) ->
  selected s' !! Z.to_nat (g - 1) = Some n ->
  (n = 0 \/ 0 < n /\ gs !! Z.to_nat (n - 1) = Some g) ->
  (forall i, statuses s' !! i = Some WAN_IFACE_ACTIVE -> selected s !! Z.to_nat (g - 1) = Some (Z.of_nat i + 1) ->
     selected s' !! Z.to_nat (g - 1) = Some (Z.of_nat i + 1)) ->
  rtc (spec_step gs) a a'.
Proof.
  intros [E1 H1] [E2 H2] Hn Hg Ha Hsb Hlen Hsel Hnew Hown. destruct a as [l o], a' as [l' o']. simpl in *. subst l l'.
  assert (selected s' = <[Z.to_nat (g - 1) := n]> (selected s)) as ->.
  { apply list_eq. intros j. destruct (decide (j = Z.to_nat (g - 1))) as [->|Hne].
    - rewrite Hsel, list_lookup_insert_eq; [done|]. rewrite <- Hlen. by eapply lookup_lt_Some.
    - rewrite list_lookup_insert_ne by done. by apply Hsb. }
  assert (rtc (spec_step gs) (selected s, o) (selected s, o')) as Hact.
  { destruct o' as [i|].
    - destruct (proj1 (H2 i) eq_refl) as [Hi Hai]. assert (o = Some i) as -> by (apply H1; split; [lia | by apply Ha]).
      done.
    - destruct o as [i|]; [|done]. apply rtc_once. constructor. }
  etransitivity; [exact Hact|].
  assert ((forall i, o' = Some i -> selected s !! Z.to_nat (g - 1) <> Some (Z.of_nat i + 1))
    \/ selected s !! Z.to_nat (g - 1) = Some n) as [Hfree|Hsame].
  { destruct o' as [i|]; [|by left]. destruct (decide (selected s !! Z.to_nat (g - 1) = Some (Z.of_nat i + 1))) as [Hs|Hs].
    - right. destruct (proj1 (H2 i) eq_refl) as [_ Hai]. rewrite (Hown i Hai Hs) in Hsel. congruence.
    - left. by intros j [= <-]. }
  - apply rtc_once. by constructor.
  - by rewrite list_insert_id.
Qed.

(** The selection of a group is none or an interface of the group. *)
Lemma world_selection w g : world_inv w -> 1 <= g <= ngroups (seen_by tt w) ->
  exists n, selected (seen_by tt w) !! Z.to_nat (g - 1) = Some n
    /\ (n = 0 \/ 0 < n /\ ifgroups (seen_by tt w) !! Z.to_nat (n - 1) = Some g).
Proof.
  intros [_ Hsm Hps Hidle] Hg. destruct (wd_ps w !! g) as [[st c]|] eqn:El.
  - destruct (Hps g st c El) as [(_ & _ & _ & _ & _ & Hinv) Hc]. unfold sel_inv, own_selection in Hinv.
    change (grp (seen_by c w)) with (pc_GroupInst c) in Hinv. rewrite Hc in Hinv.
    destruct (settled st).
    + destruct Hinv as (Hr & Hgr & Hown). eexists. split; [exact Hown|]. right. split; [lia|].
      rewrite Z.add_simpl_r. exact Hgr.
    + exists 0. split; [apply Hinv | by left].
  - exists 0. split; [by apply Hidle | by left].
Qed.

(** What a step may do to the active interface and to the selections. *)
Lemma step_effect w w' : world_inv w -> world_step w w' ->
  (exists g, 1 <= g <= ngroups (seen_by tt w) /\ ps_promise g (seen_by tt w) (seen_by tt w'))
  \/ (group_view (seen_by tt w') = group_view (seen_by tt w) /\ shape_of (wd_db w') = shape_of (wd_db w)
      /\ ((forall i, statuses (seen_by tt w') !! i = Some WAN_IFACE_ACTIVE -> statuses (seen_by tt w) !! i = Some WAN_IFACE_ACTIVE)
          \/ forall i, Z.of_nat i < nifaces (seen_by tt w) -> statuses (seen_by tt w) !! i <> Some WAN_IFACE_ACTIVE)).
Proof.
  intros Hw Hst. pose proof (wi_fo _ Hw) as Hfo. destruct Hst as [o s Hrun E | g o s Hp | s Hs].
  - right. destruct (wp_use _ _ _ _ _ E (fo_pass _ _ Hfo)) as (Hi & Hsh & Hd & Hv).
    split; [exact Hv|]. split; [exact Hsh|].
    assert (fst (wd_fo w) = STATE_FAILOVER_SCANNING_GROUP \/ fst (wd_fo w) = STATE_FAILOVER_DEACTIVATE_GROUP
      \/ fst (wd_fo w) <> STATE_FAILOVER_SCANNING_GROUP /\ fst (wd_fo w) <> STATE_FAILOVER_DEACTIVATE_GROUP) as Hc
      by (destruct (fst (wd_fo w)); auto).
    destruct Hfo as (_ & _ & _ & _ & Ho & _).
    destruct Hc as [Ec|[Ec|[N1 N2]]].
    + right. intros i Hlt Ha. destruct (Ho i Hlt Ha) as [Hpos _]. rewrite Ec in Hpos. simpl in Hpos. lia.
    + right. intros i Hlt Ha. destruct (Ho i Hlt Ha) as [Hpos _]. rewrite Ec in Hpos. simpl in Hpos. lia.
    + left. exact (proj1 (proj2 (moves_fo_active _ N1 N2 _ _ _ E))).
  - left. exists g. destruct (policy_step_promise _ _ _ _ Hw Hp) as (Hg & Hpr & _). by split.
  - right. destruct Hs as (Hsh & _ & _ & Hv & Ha). split; [exact Hv|]. split; [exact Hsh | by left].
Qed.

(** A step that keeps the selections. *)
Lemma refine_kept w w' a a' :
  world_inv w' -> abstracts (seen_by tt w) a -> abstracts (seen_by tt w') a' ->
  group_view (seen_by tt w') = group_view (seen_by tt w) -> shape_of (wd_db w') = shape_of (wd_db w) ->
  ((forall i, statuses (seen_by tt w') !! i = Some WAN_IFACE_ACTIVE -> statuses (seen_by tt w) !! i = Some WAN_IFACE_ACTIVE)
   \/ forall i, Z.of_nat i < nifaces (seen_by tt w) -> statuses (seen_by tt w) !! i <> Some WAN_IFACE_ACTIVE) ->
  rtc (spec_step (ifgroups (seen_by tt w))) a a'.
Proof.
  intros Hw' [E1 H1] [E2 H2] Hv Hsh Hact. destruct a as [l o], a' as [l' o']. simpl in *.
  assert (l' = l) as -> by (rewrite E1, E2; exact (f_equal fst Hv)).
  assert (nifaces (seen_by tt w') = nifaces (seen_by tt w)) as En by exact (f_equal (fun x => fst (fst (fst x))) Hsh).
  destruct o as [i|], o' as [i'|]; [| by apply rtc_once, spec_deactivate | | done].
  - destruct (proj1 (H1 i) eq_refl) as [Hi Hai], (proj1 (H2 i') eq_refl) as [Hi' Hai'].
    destruct Hact as [Hact|Hno]; [|by destruct (Hno i Hi)].
    assert (Some i = Some i') as [= <-]; [|done]. apply H1. split; [lia | by apply Hact].
  - destruct (proj1 (H2 i') eq_refl) as [Hi' Hai'].
    destruct (active_owner w' i' Hw' Hi' Hai') as (Hg & Hsel & Hgr & _).
    apply rtc_once, (spec_activate _ _ _ _ Hg).
    + assert (ifgroups (seen_by tt w') = ifgroups (seen_by tt w)) as <- by exact (f_equal snd Hv). exact Hgr.
    + rewrite E1. assert (selected (seen_by tt w') = selected (seen_by tt w)) as <- by exact (f_equal fst Hv). exact Hsel.
Qed.

Lemma refine_step w w' a :
  world_inv w -> world_step w w' -> abstracts (seen_by tt w) a ->
  exists a', abstracts (seen_by tt w') a' /\ rtc (spec_step (ifgroups (seen_by tt w))) a a'.
Proof.
  intros Hw Hst Ha. pose proof (world_step_inv _ _ Hw Hst) as Hw'.
  destruct (abstract_exists w' Hw') as [o' Ha']. eexists. split; [exact Ha'|].
  destruct (step_effect w w' Hw Hst) as [(g & Hg & Hsh & _ & _ & Hig & Hact & Hsb & Hown)|(Hv & Hsh & Hact)].
  - destruct (shape_counts (seen_by tt w') w Hsh) as [En Eg]. rewrite <- Eg in Hg.
    destruct (world_selection w' g Hw' Hg) as (n & Hn & Hval). rewrite Hig in Hval.
    eapply (refine_policy _ g n (seen_by tt w) (seen_by tt w')); [done | done | done | lia | done | done | | done | done | done].
    unfold selected. rewrite !length_fmap. exact (f_equal snd Hsh).
  - by eapply refine_kept.
Qed.
End Refinement.

(** * Properties *)

Section Properties.
Context `{Platform} `{Build}.

(** C1: the system is the failover thread, the parallel-scan policies of the groups
    (the auto policy is not part of it) and the other writers, which keep the tables,
    give the mutex back, select nothing, move no interface to another group and make
    none active ([others]).  Started on a data base on which nothing is selected
    ([bootable]), in every world that passes of the threads reach in any order at
    most one interface is active; it belongs to the group the failover thread holds
    active, and the policy thread of that group runs, is past its selection and works
    on that very interface.  The mutex need not be free, and state machines may fail
    to start. *)
Theorem system_one_active d w i :
  bootable d -> world_reach d w -> Z.of_nat i < nifaces (seen_by tt w) ->
  statuses (seen_by tt w) !! i = Some WAN_IFACE_ACTIVE ->
  (forall j, Z.of_nat j < nifaces (seen_by tt w) -> statuses (seen_by tt w) !! j = Some WAN_IFACE_ACTIVE -> j = i)
  /\ exists g st c, fo_CurrentActiveGroup (snd (wd_fo w)) = g
    /\ (fst (wd_fo w) = STATE_FAILOVER_GROUP_ACTIVE \/ fst (wd_fo w) = STATE_FAILOVER_RESTORATION_WAIT)
    /\ ifgroups (seen_by tt w) !! i = Some g
    /\ wd_ps w !! g = Some (st, c) /\ settled st = true /\ pc_activeInterfaceIdx c = Z.of_nat i.
Proof.
  intros Hd Hr Hi Ha. pose proof (world_reach_inv _ _ Hd Hr) as Hw.
  destruct (active_owner w i Hw Hi Ha) as (_ & Hsi & Hg & Hst & st & c & Hl & Hs & Hc). split.
  - intros j Hj Haj. destruct (active_owner w j Hw Hj Haj) as (_ & Hsj & _).
    assert (Z.of_nat i + 1 = Z.of_nat j + 1) by congruence. lia.
  - by exists (fo_CurrentActiveGroup (snd (wd_fo w))), st, c.
Qed.


(** C3: in every reachable world of the system of C1 every thread that runs can make
    its pass: it ends without dereferencing [NULL], and so does the end of a policy
    thread whose loop is left.  The pass gives back the mutex of the data base,
    unless it is a scanning pass of a policy whose last call is the start of a state
    machine that fails; where no start failed on the way ([smooth_reach]), the mutex
    is free.  (That the other threads wait for a mutex which such a pass has kept is
    not modelled.) *)
Theorem system_progress d w :
  bootable d -> world_reach d w ->
  (smooth_reach d w -> w_gDataMutex (wd_db w) = 0%nat)
  /\ (exists o s, fo_iteration (fst (wd_fo w)) (seen_by (snd (wd_fo w)) w) = Some (o, s)
       /\ w_gDataMutex (db s) = w_gDataMutex (wd_db w))
  /\ forall g st c, wd_ps w !! g = Some (st, c) -> exists o s, ps_iteration st (seen_by c w) = Some (o, s)
       /\ returns_lock st (seen_by c w) s
       /\ exists s', ps_finish s = Some (tt, s') /\ w_gDataMutex (db s') = w_gDataMutex (db s).
Proof.
  intros Hd Hr. pose proof (world_reach_inv _ _ Hd Hr) as Hw. split; [|split].
  - intros Hq. exact (smooth_reach_free _ _ Hd Hq).
  - destruct (proj1 (wp_run _ _ _) (fo_pass _ _ (wi_fo _ Hw))) as (o & s & E & _ & _ & Hdep & _). by exists o, s.
  - intros g st c Hl. destruct (wi_ps _ Hw g st c Hl) as [Hi _].
    destruct (proj1 (wp_run _ _ _) (wp_ps_iteration _ _ Hi)) as (o & s & E & Hi' & _ & _ & Hdep & _).
    exists o, s. split; [done|]. split; [exact Hdep|].
    destruct Hi' as (Hwf & [Hn _] & _ & Hg & _).
    assert (wp ps_finish (fun _ s' => depth s' = depth s) s) as HW by (by apply wp_ps_finish).
    apply wp_run in HW as ([] & s' & E' & ?). by exists s'.
Qed.
End Properties.

(** * Witnesses *)

(** Runs of the world, computed. *)
Section Runs.
Context `{Platform} `{Build}.
Definition boot (d : WANMGR_DATA_ST) : option World :=
  match fo_start (mk_St sample_fo d ∅ []) with Some (Some st, s) => Some (booted st s) | _ => None end.
Definition do_fo (w : World) : option World :=
  if wd_fo_running w then
    match fo_iteration (fst (wd_fo w)) (seen_by (snd (wd_fo w)) w) with
    | Some (o, s) => Some (after_fo o s w) | None => None end
  else None.
Definition do_start (g : Z) (w : World) : option World :=
  if (1 <=? g) && (g <=? w_ulTotalNumbWanIfaceGroup (wd_db w)) then
    match wd_ps w !! g with
    | Some _ => None
    | None => match ps_start g (seen_by sample_pc w) with
              | Some (Some st, s) => Some (after_ps g (Some st) s w) | _ => None end
    end
  else None.
Definition do_pass (g : Z) (w : World) : option World :=
  match wd_ps w !! g with
  | Some (st, c) => match ps_iteration st (seen_by c w) with
                    | Some (Some st', s) => Some (after_ps g (Some st') s w) | _ => None end
  | None => None
  end.
Definition then_step (o : option World) (f : World -> option World) : option World :=
  match o with Some w => f w | None => None end.
Lemma do_fo_step w w' : do_fo w = Some w' -> world_step w w'.
Proof.
  unfold do_fo. destruct (wd_fo_running w) eqn:Er; [|done].
  destruct (fo_iteration _ _) as [[o s]|] eqn:E; [|done]. intros [= <-]. by apply step_fo.
Qed.
Lemma do_start_step g w w' : do_start g w = Some w' -> world_step w w'.
Proof.
  unfold do_start. destruct (_ && _) eqn:Eg; [|done]. destruct (wd_ps w !! g) eqn:El; [done|].
  destruct (ps_start g _) as [[[st|] s]|] eqn:E; [|done..]. intros [= <-].
  apply step_policy. eapply policy_start; [lia | done | exact E].
Qed.
Lemma do_pass_step g w w' : do_pass g w = Some w' -> world_step w w'.
Proof.
  unfold do_pass. destruct (wd_ps w !! g) as [[st c]|] eqn:El; [|done].
  destruct (ps_iteration st _) as [[[st'|] s]|] eqn:E; [|done..]. intros [= <-].
  apply step_policy. eapply policy_pass; [exact El | exact E].
Qed.
Lemma then_steps_by R d o fs w :
  (forall w, o = Some w -> reach_by R d w) ->
  Forall (fun f => forall w w', f w = Some w' -> R w w') fs ->
  foldl then_step o fs = Some w -> reach_by R d w.
Proof.
  revert o. induction fs as [|f fs IH]; intros o Ho Hfs; simpl; [apply Ho|].
  apply Forall_cons in Hfs as [Hf Hfs]. apply IH; [|done]. intros w1 E.
  destruct o as [w0|]; [|done]. destruct (Ho w0 eq_refl) as (c0 & y & t & st & s & E0 & Hr).
  exists c0, y, t, st, s. split; [done|]. eapply rtc_r; [exact Hr | by apply Hf].
Qed.
Lemma then_steps_reach d o fs w :
  (forall w, o = Some w -> world_reach d w) ->
  Forall (fun f => forall w w', f w = Some w' -> world_step w w') fs ->
  foldl then_step o fs = Some w -> world_reach d w.
Proof. exact (then_steps_by world_step d o fs w). Qed.
Lemma boot_reach R d w : boot d = Some w -> reach_by R d w.
Proof.
  unfold boot. destruct (fo_start _) as [[[st|] s]|] eqn:E; [|done..]. intros [= <-].
  by exists sample_fo, ∅, [], st, s.
Qed.
(** A step, when no start failed in it. *)
Definition smooth (f : World -> option World) (w : World) : option World :=
  match f w with Some w' => if start_failed (wd_trace w') then None else Some w' | None => None end.
Lemma smooth_steps f :
  (forall w w', f w = Some w' -> world_step w w') -> forall w w', smooth f w = Some w' -> smooth_step w w'.
Proof.
  intros Hf w w'. unfold smooth. destruct (f w) as [w1|] eqn:E; [|done].
  destruct (start_failed _) eqn:Es; [done|]. intros [= <-]. split; [by apply Hf | done].
Qed.
Lemma smooth_world d w : smooth_reach d w -> world_reach d w.
Proof.
  intros (c0 & y & t & st & s & E & Hr). exists c0, y, t, st, s. split; [done|].
  eapply rtc_subrel; [|exact Hr]. by intros ? ? [? _].
Qed.
End Runs.

#[local] Instance the_build : Build := sample_build.
#[local] Instance the_platform : Platform := sample_platform 100.

(** One group of two interfaces, nothing selected. *)
Definition sample_world_db : WANMGR_DATA_ST :=
  sample_db (sample_pair WAN_IFACE_STATUS_STANDBY WAN_IFACE_STATUS_STANDBY)
    [(sample_group 0) <| g_State := STATE_GROUP_RUNNING |>].

(** The policy of group 1 selects, then [n] passes of the failover thread. *)
Definition sample_selected : option World :=
  foldl then_step (boot sample_world_db) [do_start 1; do_pass 1; do_pass 1].
Definition sample_world (n : nat) : option World := foldl then_step sample_selected (replicate n do_fo).
Lemma sample_world_reach n w : sample_world n = Some w -> world_reach sample_world_db w.
Proof.
  apply then_steps_reach; [intros w1; apply then_steps_reach|].
  - intros w0. apply boot_reach.
  - apply Forall_cons; split; [exact (do_start_step 1)|].
    apply Forall_cons; split; [exact (do_pass_step 1)|].
    apply Forall_cons; split; [exact (do_pass_step 1) | apply Forall_nil_2].
  - apply Forall_forall. intros f ->%elem_of_replicate_inv. exact do_fo_step.
Qed.
Lemma then_step_one o f : foldl then_step o (replicate 1 f) = then_step o f.
Proof. reflexivity. Qed.
Lemma sample_world_next : sample_world 1 = then_step (sample_world 0) do_fo.
Proof. exact (then_step_one sample_selected do_fo). Qed.
Lemma sample_world_bootable : bootable sample_world_db.
Proof.
  split; [by apply db_wfb_wf|]. split; [by apply boundedb_bounded|]. split; [by vm_compute|].
  split; [done|]. split; [by apply none_activeb_only|]. by repeat constructor.
Qed.

Lemma system_one_active_witness :
  exists w, sample_world 1 = Some w /\ statuses (seen_by tt w) !! 0%nat = Some WAN_IFACE_ACTIVE
    /\ exists g st c, fo_CurrentActiveGroup (snd (wd_fo w)) = g
    /\ (fst (wd_fo w) = STATE_FAILOVER_GROUP_ACTIVE \/ fst (wd_fo w) = STATE_FAILOVER_RESTORATION_WAIT)
    /\ ifgroups (seen_by tt w) !! 0%nat = Some g
    /\ wd_ps w !! g = Some (st, c) /\ settled st = true /\ pc_activeInterfaceIdx c = 0.
Proof.
  assert ((fun w => (statuses (seen_by tt w) !! 0%nat, nifaces (seen_by tt w))) <$> sample_world 1
    = Some (Some WAN_IFACE_ACTIVE, 2)) as Ev by by vm_compute.
  destruct (sample_world 1) as [w|] eqn:E; [|done]. injection Ev as Ha Hn.
  exists w. split; [done|]. split; [exact Ha|].
  apply (system_one_active sample_world_db w 0); [apply sample_world_bootable
    | by eapply sample_world_reach | rewrite Hn; lia | exact Ha].
Defined.


Definition sample_smooth : option World :=
  foldl then_step (boot sample_world_db) (smooth <$> [do_start 1; do_pass 1; do_pass 1; do_fo]).
Lemma sample_smooth_reach w : sample_smooth = Some w -> smooth_reach sample_world_db w.
Proof.
  apply then_steps_by; [intros w0; apply boot_reach|].
  repeat apply Forall_cons_2; [.. | apply Forall_nil_2]; apply smooth_steps;
    [exact (do_start_step 1) | exact (do_pass_step 1) | exact (do_pass_step 1) | exact do_fo_step].
Qed.
Lemma system_progress_witness :
  exists w, sample_smooth = Some w /\ w_gDataMutex (wd_db w) = 0%nat
    /\ (exists o s, fo_iteration (fst (wd_fo w)) (seen_by (snd (wd_fo w)) w) = Some (o, s)
         /\ w_gDataMutex (db s) = w_gDataMutex (wd_db w))
    /\ exists st c o s, wd_ps w !! 1 = Some (st, c) /\ ps_iteration st (seen_by c w) = Some (o, s)
         /\ returns_lock st (seen_by c w) s.
Proof.
  assert ((fun w => fst <$> (wd_ps w !! 1)) <$> sample_smooth = Some (Some STATE_PARALLEL_SCAN_SELECTED_INTERFACE_UP))
    as Ev by by vm_compute.
  destruct sample_smooth as [w|] eqn:E; [|done]. apply sample_smooth_reach in E.
  apply (inj Some) in Ev. cbv beta in Ev. destruct (wd_ps w !! 1) as [[st c]|] eqn:El; [|done].
  destruct (system_progress sample_world_db w sample_world_bootable (smooth_world _ _ E)) as (Hl & Hf & Hp).
  destruct (Hp 1 st c El) as (o & s & Ep & Hr & _).
  exists w. split; [done|]. split; [exact (Hl E)|]. split; [exact Hf|]. by exists st, c, o, s.
Defined.
