(* ===== verification/Inet.v ===== *)
(** The address text functions of the C library the manager uses: [inet_pton]
    for both families, the [%d.%d.%d.%d] and [%02x] formats, and the round
    trips between them.

    An address is the list of its bytes in network order.  [inet_pton] is the
    one-pass scanner of the GNU C library: [None] is a return value other than
    1, when the output buffer is left as it was. *)

From S2P Require Export Prelude.

(** * Characters *)

Definition code (c : ascii) : Z := Z.of_nat (Ascii.nat_of_ascii c).

Definition hex_digit_value (c : ascii) : option Z :=
  let n := code c in
  if (48 <=? n) && (n <=? 57) then Some (n - 48)
  else if (97 <=? n) && (n <=? 102) then Some (n - 87)
  else if (65 <=? n) && (n <=? 70) then Some (n - 55)
  else None.

(** The digit [d], for [0 <= d < 16], in lower case. *)
Definition hex_char (d : Z) : ascii :=
  Ascii.ascii_of_nat (Z.to_nat (if d <? 10 then 48 + d else 87 + d)).

(** [%02x] of a byte. *)
Definition hex2 (b : Z) : string := String (hex_char (b / 16)) (String (hex_char (b mod 16)) EmptyString).

Definition is_byte (b : Z) : bool := (0 <=? b) && (b <? 256).

(** * IPv4 *)

(** [inet_pton4]: [tp] holds the finished bytes, newest first, and [cur] the
    one being read. *)
Fixpoint inet_pton4_loop (s : string) (octets : Z) (tp : list Z) (cur : Z) (saw_digit : bool)
    : option (list Z) :=
  match s with
  | EmptyString => if octets <? 4 then None else Some (rev (cur :: tp))
  | String ch src =>
      if is_digit ch then
        let new := cur * 10 + (code ch - 48) in
        if saw_digit && (cur =? 0) then None
        else if 255 <? new then None
        else if saw_digit then inet_pton4_loop src octets tp new true
        else if 4 <? octets + 1 then None
        else inet_pton4_loop src (octets + 1) tp new true
      else if (ch ≟ "."%char) && saw_digit then
        if octets =? 4 then None
        else inet_pton4_loop src octets (cur :: tp) 0 false
      else None
  end.
Definition inet_pton4 (s : string) : option (list Z) := inet_pton4_loop s 0 [] 0 false.

(** [%d.%d.%d.%d]. *)
Definition dotted (a b c d : Z) : string :=
  dec a +:+ "." +:+ dec b +:+ "." +:+ dec c +:+ "." +:+ dec d.

(** The number of an IPv4 address in host order: [htonl(s_addr)]. *)
Definition host_order (l : list Z) : Z := foldl (fun acc b => acc * 256 + b) 0 l.

(** * IPv6 *)

(** What follows the loop of [inet_pton6]: the last group, and the zeros of
    [::]. *)
Definition inet_pton6_finish (tp : list Z) (colonp : option nat) (xdigits val : Z) : option (list Z) :=
  match
    (if 0 <? xdigits then
       if 16 <? Z.of_nat (length tp) + 2 then None
       else Some (val mod 256 :: val / 256 :: tp)
     else Some tp)
  with
  | None => None
  | Some tp =>
      let l := rev tp in
      match colonp with
      | Some n =>
          if (length l =? 16)%nat then None
          else Some (take n l ++ replicate (16 - length l) 0 ++ drop n l)
      | None => if (length l =? 16)%nat then Some l else None
      end
  end.

(** The loop of [inet_pton6]: [curtok] is the start of the group being read,
    for a trailing IPv4 address. *)
Fixpoint inet_pton6_loop (s curtok : string) (tp : list Z) (colonp : option nat) (xdigits val : Z)
    : option (list Z) :=
  match s with
  | EmptyString => inet_pton6_finish tp colonp xdigits val
  | String ch src =>
      match hex_digit_value ch with
      | Some digit =>
          if xdigits =? 4 then None
          else inet_pton6_loop src curtok tp colonp (xdigits + 1) (val * 16 + digit)
      | None =>
          if ch ≟ ":"%char then
            if xdigits =? 0 then
              match colonp with
              | Some _ => None
              | None => inet_pton6_loop src src tp (Some (length tp)) 0 val
              end
            else if src ≟ EmptyString then None
            else if 16 <? Z.of_nat (length tp) + 2 then None
            else inet_pton6_loop src src (val mod 256 :: val / 256 :: tp) colonp 0 0
          else if (ch ≟ "."%char) && (Z.of_nat (length tp) + 4 <=? 16) then
            match inet_pton4 curtok with
            | Some q => inet_pton6_finish (rev q ++ tp) colonp 0 val
            | None => None
            end
          else None
      end
  end.

Definition inet_pton6 (s : string) : option (list Z) :=
  match s with
  | EmptyString => None
  | String ch src =>
      if ch ≟ ":"%char then
        match src with
        | EmptyString => None
        | String ch2 _ => if ch2 ≟ ":"%char then inet_pton6_loop src src [] None 0 0 else None
        end
      else inet_pton6_loop s s [] None 0 0
  end.

(** [%02x%02x:%02x%02x:...] over the bytes [l]. *)
Fixpoint groups6 (l : list Z) : string :=
  match l with
  | a :: b :: ((_ :: _) as l') => hex2 a +:+ hex2 b +:+ ":" +:+ groups6 l'
  | a :: b :: [] => hex2 a +:+ hex2 b
  | _ => EmptyString
  end.

(** * Printed addresses *)

Lemma app_cons_s c s t : String c s +:+ t = String c (s +:+ t).
Proof. done. Qed.
Lemma app_nil_s t : EmptyString +:+ t = t.
Proof. done. Qed.
Lemma app_nil_r_s s : s +:+ EmptyString = s.
Proof. induction s as [|c s IH]; [done | by rewrite app_cons_s, IH]. Qed.

Lemma is_byte_spec b : is_byte b = true <-> 0 <= b < 256.
Proof. unfold is_byte. lia. Qed.

(** A boolean test over the first [n] numbers proves it for each. *)
Lemma test_range (P : Z -> bool) n k :
  forallb P (range n) = true -> 0 <= k < n -> P k = true.
Proof.
  rewrite forallb_forall. intros H Hk. apply H, list_elem_of_In, list_elem_of_fmap.
  exists (Z.to_nat k). rewrite elem_of_seq. lia.
Qed.

Lemma hex_digit_value_char d : 0 <= d < 16 -> hex_digit_value (hex_char d) = Some d.
Proof.
  intros Hd. apply (test_range (fun d => hex_digit_value (hex_char d) ≟ Some d) 16) in Hd; [|done].
  by apply bool_decide_eq_true in Hd.
Qed.
Lemma hex_char_not_colon d : 0 <= d < 16 -> hex_char d ≠ ":"%char.
Proof. intros Hd E. apply hex_digit_value_char in Hd. by rewrite E in Hd. Qed.

(** The text of a byte is one, two or three digits, without leading zero. *)
Definition digit_char (d : Z) : ascii := Ascii.ascii_of_nat (Z.to_nat (48 + d)).
Definition byte_text (b : Z) : string :=
  if b <? 10 then String (digit_char b) EmptyString
  else if b <? 100 then String (digit_char (b / 10)) (String (digit_char (b mod 10)) EmptyString)
  else String (digit_char (b / 100))
         (String (digit_char (b / 10 mod 10)) (String (digit_char (b mod 10)) EmptyString)).

Lemma dec_byte b : 0 <= b < 256 -> dec b = byte_text b.
Proof.
  intros Hb. apply (test_range (fun b => dec b ≟ byte_text b) 256) in Hb; [|by vm_compute].
  by apply bool_decide_eq_true in Hb.
Qed.
Lemma digit_char_spec d : 0 <= d < 10 -> is_digit (digit_char d) = true /\ code (digit_char d) = 48 + d.
Proof.
  intros Hd. apply (test_range (fun d => is_digit (digit_char d) && (code (digit_char d) =? 48 + d)) 10)
    in Hd; [|done]. lia.
Qed.
Lemma digit_char_inv c : is_digit c = true -> 0 <= code c - 48 < 10 /\ c = digit_char (code c - 48).
Proof.
  unfold is_digit, digit_char, code. intros Hc. split; [lia|].
  replace (Z.to_nat (48 + (Z.of_nat (Ascii.nat_of_ascii c) - 48))) with (Ascii.nat_of_ascii c) by lia.
  by rewrite Ascii.ascii_nat_embedding.
Qed.

(** ** Reading a printed IPv4 address *)

Lemma pton4_digit d s octets tp cur saw :
  0 <= d < 10 ->
  inet_pton4_loop (String (digit_char d) s) octets tp cur saw =
    if saw && (cur =? 0) then None
    else if 255 <? cur * 10 + d then None
    else if saw then inet_pton4_loop s octets tp (cur * 10 + d) true
    else if 4 <? octets + 1 then None
    else inet_pton4_loop s (octets + 1) tp (cur * 10 + d) true.
Proof.
  intros Hd. destruct (digit_char_spec d Hd) as [E1 E2].
  cbn -[digit_char Z.add Z.mul Z.eqb Z.ltb is_digit code]. rewrite E1, E2.
  by replace (48 + d - 48) with d by lia.
Qed.

Lemma pton4_byte b s octets tp :
  0 <= b < 256 -> octets < 4 ->
  inet_pton4_loop (dec b +:+ s) octets tp 0 false = inet_pton4_loop s (octets + 1) tp b true.
Proof.
  intros Hb Ho. rewrite dec_byte by done. unfold byte_text.
  destruct (b <? 10) eqn:E1; [|destruct (b <? 100) eqn:E2]; rewrite ?app_cons_s, ?app_nil_s, !pton4_digit by (Z.div_mod_to_equations; lia); cbn [andb];
    repeat match goal with
    | |- context [if ?x then None else _] =>
        replace x with false by (Z.div_mod_to_equations; lia)
    end; f_equal; Z.div_mod_to_equations; lia.
Qed.

Lemma pton4_dot s octets tp cur :
  octets <> 4 ->
  inet_pton4_loop (String "." s) octets tp cur true = inet_pton4_loop s octets (cur :: tp) 0 false.
Proof. intros Ho. cbn. by replace (octets =? 4) with false by lia. Qed.

(** [inet_pton] reads back the address [%d.%d.%d.%d] prints. *)
Lemma inet_pton4_dotted a b c d :
  is_byte a -> is_byte b -> is_byte c -> is_byte d ->
  inet_pton4 (dotted a b c d) = Some [a; b; c; d].
Proof.
  rewrite !Is_true_true, !is_byte_spec. intros Ha Hb Hc Hd. unfold inet_pton4, dotted.
  rewrite pton4_byte by lia. rewrite app_cons_s, app_nil_s, pton4_dot by lia.
  rewrite pton4_byte by lia. rewrite app_cons_s, app_nil_s, pton4_dot by lia.
  rewrite pton4_byte by lia. rewrite app_cons_s, app_nil_s, pton4_dot by lia.
  rewrite <- (app_nil_r_s (dec d)). by rewrite pton4_byte by lia.
Qed.

(** ** Every address [inet_pton] reads is printed so *)

Lemma app_assoc_s s t u : (s +:+ t) +:+ u = s +:+ (t +:+ u).
Proof. induction s as [|c s IH]; [done | by rewrite !app_cons_s, IH]. Qed.

(** The text of the finished bytes, newest first. *)
Fixpoint text4 (tp : list Z) : string :=
  match tp with
  | [] => EmptyString
  | b :: tp => text4 tp +:+ dec b +:+ "."
  end.

Lemma dec_extend cur d :
  0 < cur -> 0 <= d < 10 -> cur * 10 + d < 256 ->
  dec (cur * 10 + d) = dec cur +:+ String (digit_char d) EmptyString.
Proof.
  intros Hc Hd Hn.
  assert (0 <= cur * 10 + d < 256) as Hb by lia.
  apply (test_range (fun n => (n <? 10) ||
    (dec n ≟ dec (n / 10) +:+ String (digit_char (n mod 10)) EmptyString)) 256) in Hb; [|by vm_compute].
  rewrite Z.div_add_l, Z.div_small, Z.add_0_r in Hb by lia.
  rewrite Z.add_comm, Z_mod_plus_full, Z.mod_small in Hb by lia.
  rewrite Z.add_comm in Hb. apply orb_true_iff in Hb as [Hb|Hb]; [lia|].
  by apply bool_decide_eq_true in Hb.
Qed.
Lemma dec_digit d : 0 <= d < 10 -> dec d = String (digit_char d) EmptyString.
Proof. intros Hd. rewrite dec_byte by lia. unfold byte_text. by replace (d <? 10) with true by lia. Qed.

(** What the scanner of [inet_pton4] knows of its position. *)
Record pton4_at (octets : Z) (tp : list Z) (cur : Z) (saw : bool) : Prop := {
  at_octets : octets = Z.of_nat (length tp) + (if saw then 1 else 0);
  at_room : Z.of_nat (length tp) <= 3;
  at_bytes : Forall (fun b => is_byte b = true) tp;
  at_cur : 0 <= cur < 256;
  at_fresh : saw = false -> cur = 0
}.

Lemma pton4_loop_text s octets tp cur saw l :
  pton4_at octets tp cur saw ->
  inet_pton4_loop s octets tp cur saw = Some l ->
  exists a b c d, Forall (fun b => is_byte b = true) [a; b; c; d] /\ l = [a; b; c; d] /\
    text4 tp +:+ (if saw then dec cur else EmptyString) +:+ s = dotted a b c d.
Proof.
  revert octets tp cur saw. induction s as [|ch s IH]; intros octets tp cur saw [Ho Hr Hb Hc Hf] E;
    cbn -[Z.mul Z.add Z.eqb Z.ltb is_digit code] in E.
  - destruct (octets <? 4) eqn:E4; [done|]. injection E as <-. destruct saw; [|lia].
    assert (length tp = 3)%nat as Hl by lia.
    destruct tp as [|z [|y [|x [|]]]]; try discriminate Hl. exists x, y, z, cur.
    rewrite !Forall_cons in *. destruct Hb as (? & ? & ? & ?). split; [|split; [done|]].
    { split_and!; try done. unfold is_byte. lia. }
    cbn [text4]. unfold dotted. by rewrite !app_assoc_s, app_nil_r_s.
  - destruct (is_digit ch) eqn:Ed.
    + destruct (digit_char_inv ch Ed) as [Hd Ech]. set (d := code ch - 48) in *.
      destruct (saw && (cur =? 0)) eqn:E1; [done|]. destruct (255 <? cur * 10 + d) eqn:E2; [done|].
      assert (exists o, inet_pton4_loop s o tp (cur * 10 + d) true = Some l /\
                o = Z.of_nat (length tp) + 1) as (o & El & Eo).
      { destruct saw; [by exists octets|]. destruct (4 <? octets + 1); [done|].
        exists (octets + 1). split; [done | lia]. }
      destruct (IH o tp (cur * 10 + d) true ltac:(split; try done; lia) El)
        as (a & b & c & e & Hl & -> & Et).
      exists a, b, c, e. split; [done|]. split; [done|]. rewrite <- Et.
      rewrite Ech. f_equal. destruct saw.
      * rewrite dec_extend by lia. by rewrite app_assoc_s.
      * rewrite Hf by done. by rewrite Z.mul_0_l, Z.add_0_l, dec_digit by lia.
    + destruct ((ch ≟ "."%char) && saw) eqn:Edot; [|done].
      apply andb_true_iff in Edot as [->%bool_decide_eq_true ->].
      destruct (octets =? 4) eqn:E4; [done|].
      destruct (IH octets (cur :: tp) 0 false) as (a & b & c & e & Hl & -> & Et);
        [split; cbn [length]; try done; try lia; constructor; [unfold is_byte; lia | done] | done |].
      exists a, b, c, e. split; [done|]. split; [done|]. rewrite <- Et. cbn [text4]. by rewrite !app_assoc_s.
Qed.

(** [inet_pton] accepts exactly the texts of four bytes. *)
Lemma inet_pton4_Some s l :
  inet_pton4 s = Some l <->
  exists a b c d, Forall (fun b => is_byte b = true) [a; b; c; d] /\ l = [a; b; c; d] /\
    s = dotted a b c d.
Proof.
  split.
  - intros E. apply pton4_loop_text in E; [done|]. split; try done; lia.
  - intros (a & b & c & d & H & -> & ->). rewrite !Forall_cons in H.
    destruct H as (? & ? & ? & ? & _). apply inet_pton4_dotted; by apply Is_true_true.
Qed.

(** ** Reading a printed IPv6 address *)

Lemma pton6_digit d s cur tp colonp n v :
  0 <= d < 16 -> n <> 4 ->
  inet_pton6_loop (String (hex_char d) s) cur tp colonp n v =
    inet_pton6_loop s cur tp colonp (n + 1) (v * 16 + d).
Proof.
  intros Hd Hn. cbn -[hex_char hex_digit_value Z.mul Z.add Z.eqb].
  rewrite hex_digit_value_char by done. by replace (n =? 4) with false by lia.
Qed.

Lemma pton6_group a b s cur tp colonp :
  0 <= a < 256 -> 0 <= b < 256 ->
  inet_pton6_loop (hex2 a +:+ hex2 b +:+ s) cur tp colonp 0 0 =
    inet_pton6_loop s cur tp colonp 4 (a * 256 + b).
Proof.
  intros Ha Hb. unfold hex2. rewrite !app_cons_s, !app_nil_s.
  rewrite !pton6_digit by (Z.div_mod_to_equations; lia).
  f_equal. Z.div_mod_to_equations; lia.
Qed.

Lemma split_group a b : 0 <= a < 256 -> 0 <= b < 256 ->
  (a * 256 + b) mod 256 = b /\ (a * 256 + b) / 256 = a.
Proof. intros Ha Hb. split; Z.div_mod_to_equations; lia. Qed.

Lemma pton6_colon a b s cur tp colonp :
  0 <= a < 256 -> 0 <= b < 256 -> s <> EmptyString -> (length tp <= 14)%nat ->
  inet_pton6_loop (String ":" s) cur tp colonp 4 (a * 256 + b) =
    inet_pton6_loop s s (b :: a :: tp) colonp 0 0.
Proof.
  intros Ha Hb Hs Ht. destruct (split_group a b Ha Hb) as [E1 E2].
  cbn -[Z.mul Z.add Z.div Z.modulo]. rewrite ?(bool_decide_eq_true_2 (":"%char = ":"%char)) by done.
  rewrite (bool_decide_eq_false_2 (s = EmptyString)) by done.
  replace (16 <? Z.of_nat (length tp) + 2) with false by lia. by rewrite E1, E2.
Qed.

Lemma pton6_last a b tp :
  0 <= a < 256 -> 0 <= b < 256 -> length tp = 14%nat ->
  inet_pton6_finish tp None 4 (a * 256 + b) = Some (rev tp ++ [a; b]).
Proof.
  intros Ha Hb Ht. destruct (split_group a b Ha Hb) as [E1 E2].
  unfold inet_pton6_finish. rewrite E1, E2, Ht.
  assert (rev (b :: a :: tp) = rev tp ++ [a; b]) as Er by (cbn [rev]; by rewrite <- app_assoc).
  change (16 <? Z.of_nat 14 + 2) with false. cbv beta iota zeta. change (0 <? 4) with true. cbv beta iota zeta. by rewrite Er, length_app, length_rev, Ht.
Qed.

Lemma groups6_text a b l : groups6 (a :: b :: l) <> EmptyString.
Proof. destruct l; cbn [groups6]; unfold hex2; by rewrite app_cons_s. Qed.

Lemma pton6_groups n l cur tp :
  length l = (2 * n + 2)%nat -> (length tp + length l = 16)%nat ->
  Forall (fun b => is_byte b = true) l ->
  inet_pton6_loop (groups6 l) cur tp None 0 0 = Some (rev tp ++ l).
Proof.
  revert l cur tp. induction n as [|n IH]; intros l cur tp Hn Hl Hb;
    destruct l as [|a [|b l]]; cbn [length] in *; try lia;
    rewrite !Forall_cons, !is_byte_spec in Hb; destruct Hb as (Ha & Hb & Hr).
  - destruct l; [|cbn in Hn; lia]. cbn [groups6]. rewrite <- (app_nil_r_s (hex2 b)).
    rewrite pton6_group by done. cbn [inet_pton6_loop].
    apply pton6_last; [done | done | lia].
  - destruct l as [|c l]; [cbn in Hn; lia|].
    change (groups6 (a :: b :: c :: l)) with (hex2 a +:+ hex2 b +:+ ":" +:+ groups6 (c :: l)).
    rewrite pton6_group by done. rewrite app_cons_s, app_nil_s.
    rewrite pton6_colon; [| done | done | | lia].
    2:{ destruct l as [|d l]; [cbn in Hn; lia | apply groups6_text]. }
    rewrite IH; [| cbn [length] in *; lia | cbn [length] in *; lia | done].
    cbn [rev]. by rewrite <- !app_assoc.
Qed.

(** [inet_pton] reads back the sixteen bytes the eight groups print. *)
Lemma inet_pton6_groups l :
  length l = 16%nat -> Forall (fun b => is_byte b = true) l -> inet_pton6 (groups6 l) = Some l.
Proof.
  intros Hl Hb. destruct l as [|a [|b [|c l]]]; try done.
  assert (inet_pton6 (groups6 (a :: b :: c :: l)) =
    inet_pton6_loop (groups6 (a :: b :: c :: l)) (groups6 (a :: b :: c :: l)) [] None 0 0) as ->.
  { rewrite Forall_cons, is_byte_spec in Hb. cbn. unfold hex2. rewrite app_cons_s. cbn [inet_pton6].
    rewrite bool_decide_eq_false_2; [done|]. apply hex_char_not_colon. Z.div_mod_to_equations; lia. }
  by rewrite (pton6_groups 7).
Qed.
