(* ===== verification/Addresses.v ===== *)
(** The address checks of [source/WanManager/wanmgr_net_utils.c]: which texts
    are IP addresses, zero addresses and usable name servers.

    A [char *] that may be [NULL] is an [option string].  The functions return
    [RETURN_OK] or one of two error codes their callers do not distinguish:
    [ANSC_STATUS_SUCCESS] and [ANSC_STATUS_FAILURE] here. *)

From S2P Require Export Inet Data.

Definition AF_INET : Z := 2.
Definition AF_INET6 : Z := 10.
Definition AF_SELECT_IPV4 : Z := 1.
Definition AF_SELECT_IPV6 : Z := 2.

Definition BROADCAST_IP : string := "255.255.255.255".
Definition LINKLOCAL_RANGE : string := "169.254".
Definition LOOPBACK_RANGE : string := "127".
Definition BUFLEN_40 : Z := 40.

(** [strncmp(p, s, strlen(p)) == 0]. *)
Definition starts_with (p s : string) : bool := String.prefix p s.

(** [strlen]. *)
Definition strlen (s : string) : Z := Z.of_nat (String.length s).

(** [strchr(s, c)]: the text before the first [c] and the text after it. *)
Fixpoint strchr (c : ascii) (s : string) : option (string * string) :=
  match s with
  | EmptyString => None
  | String a s' =>
      if a ≟ c then Some (EmptyString, s')
      else match strchr c s' with
           | Some (l, r) => Some (String a l, r)
           | None => None
           end
  end.

Definition isspace (c : ascii) : bool := (code c =? 32) || ((9 <=? code c) && (code c <=? 13)).
Fixpoint skip_spaces (s : string) : string :=
  match s with
  | String c s' => if isspace c then skip_spaces s' else s
  | EmptyString => s
  end.

(** [atoi]: the [long] [strtol] reads, which saturates, as an [int]. *)
Definition atoi (s : string) : Z :=
  let l := String.list_ascii_of_string (skip_spaces s) in
  let n := match l with
           | c :: l' => if c ≟ "-"%char then - read_digits l' 0
                        else if c ≟ "+"%char then read_digits l' 0 else read_digits l 0
           | [] => 0
           end in
  s32 (Z.max (- 2 ^ 63) (Z.min (2 ^ 63 - 1) n)).

Definition IsValidIpv4Address (ipAddress : string) : bool :=
  match inet_pton4 ipAddress with
  | None => false
  | Some _ => ipAddress ≠? "0.0.0.0"
  end.

Definition IsZeroIpvxAddress (ipvx : Z) (addr : option string) : bool :=
  match addr with
  | None => true
  | Some addr =>
      (addr ≟ EmptyString)
      || ((negb (Z.land ipvx AF_SELECT_IPV4 =? 0) && (addr ≟ "0.0.0.0"))
          || (negb (Z.land ipvx AF_SELECT_IPV6 =? 0)
              && ((addr ≟ "0:0:0:0:0:0:0:0") || (addr ≟ "::")
                  || (addr ≟ "::/128") || (addr ≟ "::/0"))))
  end.

(** The status with [*address] and [*plen]; [malloc_ok] is whether the copy of
    the text could be allocated. *)
Definition ParsePrefixAddress (malloc_ok : bool) (prefixAddr : option string)
    : ANSC_STATUS * string * Z :=
  match prefixAddr with
  | None => (ANSC_STATUS_FAILURE, EmptyString, 128)
  | Some prefixAddr =>
      if negb malloc_ok then (ANSC_STATUS_FAILURE, EmptyString, 128)
      else
        let '(tmpBuf, plen) :=
          match strchr "/" prefixAddr with
          | Some (tmpBuf, separator) => (tmpBuf, u32 (atoi (skip_spaces separator)))
          | None => (prefixAddr, 128)
          end in
        if (strlen tmpBuf <? BUFLEN_40) && (plen <=? 128)
        then (ANSC_STATUS_SUCCESS, tmpBuf, plen)
        else (ANSC_STATUS_FAILURE, EmptyString, plen)
  end.

Definition IsValidIpAddress (malloc_ok : bool) (af : Z) (address : option string) : bool :=
  match address with
  | None => false
  | Some addr =>
      if addr ≟ EmptyString then false
      else if af =? AF_INET6 then
        match ParsePrefixAddress malloc_ok address with
        | (ANSC_STATUS_SUCCESS, addr, _) =>
            match inet_pton6 addr with Some _ => true | None => false end
        | _ => false
        end
      else if af =? AF_INET then IsValidIpv4Address addr
      else false
  end.

Definition IsValidDnsServer (malloc_ok : bool) (af : Z) (nameServer : option string) : ANSC_STATUS :=
  match nameServer with
  | None => ANSC_STATUS_FAILURE
  | Some ns =>
      if ns ≟ EmptyString then ANSC_STATUS_FAILURE
      else if af =? AF_INET then
        if negb (IsValidIpAddress malloc_ok af nameServer) then ANSC_STATUS_FAILURE
        else if IsZeroIpvxAddress AF_SELECT_IPV4 nameServer then ANSC_STATUS_FAILURE
        else if starts_with BROADCAST_IP ns then ANSC_STATUS_FAILURE
        else if starts_with LINKLOCAL_RANGE ns then ANSC_STATUS_FAILURE
        else if starts_with LOOPBACK_RANGE ns then ANSC_STATUS_FAILURE
        else ANSC_STATUS_SUCCESS
      else
        if negb (IsValidIpAddress malloc_ok af nameServer) then ANSC_STATUS_FAILURE
        else if IsZeroIpvxAddress AF_SELECT_IPV6 nameServer then ANSC_STATUS_FAILURE
        else ANSC_STATUS_SUCCESS
  end.

(** * Prefixes of printed addresses *)

(** The texts [p] and [s] differ at a common position. *)
Fixpoint clash (p s : string) : bool :=
  match p, s with
  | String a p', String b s' => negb (a ≟ b) || clash p' s'
  | _, _ => false
  end.

Lemma prefix_nil_s s : String.prefix EmptyString s = true.
Proof. by destruct s. Qed.

Lemma starts_with_app p s t : starts_with p s = true -> starts_with p (s +:+ t) = true.
Proof.
  unfold starts_with. revert s. induction p as [|a p IH]; [by intros; apply prefix_nil_s | intros [|b s]; [done|]].
  rewrite app_cons_s. cbn. destruct (Ascii.ascii_dec a b); [apply IH | done].
Qed.
Lemma starts_with_clash p s t : clash p s = true -> starts_with p (s +:+ t) = false.
Proof.
  unfold starts_with. revert s. induction p as [|a p IH]; [done | intros [|b s]; [done|]].
  rewrite app_cons_s. cbn. destruct (Ascii.ascii_dec a b) as [->|Hn]; [|done].
  rewrite bool_decide_eq_true_2 by done. apply IH.
Qed.
(** A text whose every extension is decided. *)
Lemma starts_with_decided p s t :
  clash p s || starts_with p s = true -> starts_with p (s +:+ t) = starts_with p s.
Proof.
  intros [H|H]%orb_true_iff.
  - rewrite starts_with_clash by done. rewrite <- (app_nil_r_s s). by rewrite starts_with_clash.
  - by rewrite H, starts_with_app.
Qed.

Lemma loopback_prefix a t : 0 <= a < 256 ->
  starts_with LOOPBACK_RANGE (dec a +:+ "." +:+ t) = (a =? 127).
Proof.
  intros Ha. rewrite <- app_assoc_s.
  apply (test_range (fun a => (clash LOOPBACK_RANGE (dec a +:+ ".") || starts_with LOOPBACK_RANGE (dec a +:+ "."))
    && Bool.eqb (starts_with LOOPBACK_RANGE (dec a +:+ ".")) (a =? 127)) 256) in Ha; [|by vm_compute].
  apply andb_true_iff in Ha as [H1 H2%Bool.eqb_prop]. by rewrite starts_with_decided.
Qed.

(** The dots and the second byte of a link-local address. *)
Lemma linklocal_prefix a b t : 0 <= a < 256 -> 0 <= b < 256 ->
  starts_with LINKLOCAL_RANGE (dec a +:+ "." +:+ dec b +:+ "." +:+ t) = (a =? 169) && (b =? 254).
Proof.
  intros Ha Hb. rewrite <- !app_assoc_s.
  set (P a b := let s := ((dec a +:+ ".") +:+ dec b) +:+ "." in
    (clash LINKLOCAL_RANGE s || starts_with LINKLOCAL_RANGE s)
    && Bool.eqb (starts_with LINKLOCAL_RANGE s) ((a =? 169) && (b =? 254))).
  apply (test_range (fun a => forallb (P a) (range 256)) 256) in Ha; [|by vm_compute].
  apply (test_range _ _ b Ha) in Hb.
  apply andb_true_iff in Hb as [H1 H2%Bool.eqb_prop]. by rewrite starts_with_decided.
Qed.

Lemma dotted_inj a b c d a' b' c' d' :
  Forall (fun b => is_byte b = true) [a; b; c; d] ->
  Forall (fun b => is_byte b = true) [a'; b'; c'; d'] ->
  dotted a b c d = dotted a' b' c' d' -> [a; b; c; d] = [a'; b'; c'; d'].
Proof.
  intros H H' E.
  assert (inet_pton4 (dotted a b c d) = Some [a; b; c; d]) as E1 by (apply inet_pton4_Some; eauto 10).
  assert (inet_pton4 (dotted a' b' c' d') = Some [a'; b'; c'; d']) as E2
    by (apply inet_pton4_Some; eauto 10).
  rewrite E, E2 in E1. by injection E1 as -> -> -> ->.
Qed.
Lemma dotted_eq a b c d a' b' c' d' :
  Forall (fun b => is_byte b = true) [a; b; c; d] ->
  Forall (fun b => is_byte b = true) [a'; b'; c'; d'] ->
  bool_decide (dotted a b c d = dotted a' b' c' d') = bool_decide ([a; b; c; d] = [a'; b'; c'; d']).
Proof.
  intros H H'. apply bool_decide_ext. split; [by apply dotted_inj | by intros [= -> -> -> ->]].
Qed.

(** A text of fifteen characters that is a prefix of an address is all of it. *)
Lemma starts_with_long p s :
  starts_with p s = true -> strlen s <= strlen p -> s = p.
Proof.
  unfold starts_with, strlen. revert s.
  induction p as [|a p IH]; intros [|b s]; cbn; try done; try lia.
  destruct (Ascii.ascii_dec a b) as [->|]; [|done]. intros H Hl. f_equal. apply IH; [done | lia].
Qed.
Lemma strlen_app s t : strlen (s +:+ t) = strlen s + strlen t.
Proof.
  unfold strlen. induction s as [|c s IH]; [done|]. rewrite app_cons_s. cbn [String.length]. lia.
Qed.
Lemma strlen_byte b : 0 <= b < 256 -> strlen (dec b) <= 3.
Proof.
  intros Hb. apply (test_range (fun b => strlen (dec b) <=? 3) 256) in Hb; [lia | by vm_compute].
Qed.
Lemma strlen_dotted a b c d :
  Forall (fun b => is_byte b = true) [a; b; c; d] -> strlen (dotted a b c d) <= 15.
Proof.
  rewrite !Forall_cons, !is_byte_spec. intros (Ha & Hb & Hc & Hd & _). unfold dotted.
  rewrite !strlen_app. change (strlen ".") with 1.
  pose proof (strlen_byte a Ha). pose proof (strlen_byte b Hb).
  pose proof (strlen_byte c Hc). pose proof (strlen_byte d Hd). lia.
Qed.
Lemma broadcast_prefix a b c d :
  Forall (fun b => is_byte b = true) [a; b; c; d] ->
  starts_with BROADCAST_IP (dotted a b c d) = bool_decide ([a; b; c; d] = [255; 255; 255; 255]).
Proof.
  intros H. rewrite <- (dotted_eq a b c d 255 255 255 255) by (try done; by repeat constructor).
  change (dotted 255 255 255 255) with BROADCAST_IP.
  apply Bool.eq_bool_prop_intro. rewrite !Is_true_true, bool_decide_eq_true. split; [|by intros ->].
  intros E. apply starts_with_long; [done|]. by apply strlen_dotted.
Qed.

(** * Reading a prefix *)

Lemma digit_not_space c : is_digit c = true -> isspace c = false /\ c <> "-"%char /\ c <> "+"%char.
Proof.
  unfold is_digit, isspace, code. intros H. split; [lia|]. split; intros ->; discriminate H.
Qed.
Lemma skip_spaces_dec n : 0 <= n -> skip_spaces (dec n) = dec n.
Proof.
  intros Hn. destruct (dec_head n Hn) as (c & t & -> & Hc). cbn [skip_spaces].
  destruct (digit_not_space c Hc) as [-> _]. done.
Qed.
Lemma atoi_dec n : 0 <= n < 2 ^ 31 -> atoi (dec n) = n.
Proof.
  intros Hn. unfold atoi. rewrite skip_spaces_dec by lia.
  pose proof (read_dec n ltac:(lia)) as Hr. destruct (dec_head n ltac:(lia)) as (c & t & E & Hc).
  rewrite E in *. cbn [String.list_ascii_of_string] in *.
  destruct (digit_not_space c Hc) as (_ & H1 & H2).
  rewrite !bool_decide_eq_false_2, Hr by done. rewrite s32_small by lia. lia.
Qed.
Lemma strchr_app c s t : strchr c s = None -> strchr c (s +:+ String c t) = Some (s, t).
Proof.
  induction s as [|a s IH]; cbn [strchr].
  - intros _. rewrite app_nil_s. cbn [strchr]. by rewrite bool_decide_eq_true_2.
  - rewrite app_cons_s. cbn [strchr]. case_bool_decide; [done|].
    destruct (strchr c s) as [[]|]; [done|]. intros _. by rewrite IH.
Qed.

(** * Properties *)

(** An IPv4 name server is accepted exactly when its text is four decimal
    bytes without leading zeros that are not the zero address, not the limited
    broadcast address, not link-local (169.254/16) and not loopback (127/8);
    an accepted text never depends on the allocator. *)
Theorem IsValidDnsServer_v4 malloc_ok ns :
  IsValidDnsServer malloc_ok AF_INET (Some ns) = ANSC_STATUS_SUCCESS <->
  exists a b c d, Forall (fun x => is_byte x = true) [a; b; c; d] /\ ns = dotted a b c d /\
    [a; b; c; d] <> [0; 0; 0; 0] /\ [a; b; c; d] <> [255; 255; 255; 255] /\
    ~ (a = 169 /\ b = 254) /\ a <> 127.
Proof.
  unfold IsValidDnsServer. cbn [IsValidIpAddress]. unfold IsValidIpv4Address, IsZeroIpvxAddress.
  change (Z.land AF_SELECT_IPV4 AF_SELECT_IPV4 =? 0) with false.
  change (Z.land AF_SELECT_IPV4 AF_SELECT_IPV6 =? 0) with true.
  change (AF_INET =? AF_INET) with true. change (AF_INET =? AF_INET6) with false.
  cbn [negb andb orb]. rewrite orb_false_r.
  destruct (inet_pton4 ns) as [l|] eqn:E; cycle 1.
  { split; [by repeat case_bool_decide|]. intros (a & b & c & d & H & -> & _).
    assert (inet_pton4 (dotted a b c d) = Some [a; b; c; d]) as E1 by (apply inet_pton4_Some; eauto 10).
    by rewrite E in E1. }
  apply inet_pton4_Some in E as (a & b & c & d & H & -> & ->).
  rewrite (bool_decide_eq_false_2 (dotted a b c d = EmptyString))
    by (intros Ez; assert (inet_pton4 "" = Some [a; b; c; d]) as E1
          by (rewrite <- Ez; apply inet_pton4_Some; eauto 10); discriminate E1).
  rewrite broadcast_prefix by done.
  change "0.0.0.0" with (dotted 0 0 0 0). rewrite (dotted_eq a b c d 0 0 0 0) by (done || by repeat constructor).
  pose proof H as Hb. rewrite !Forall_cons, !is_byte_spec in Hb. destruct Hb as (Ha & Hb & _).
  unfold dotted at 1 2. rewrite loopback_prefix, linklocal_prefix by done.
  split.
  - intros Hs. exists a, b, c, d. split; [done|]. split; [done|].
    repeat case_bool_decide; try done. cbn in Hs.
    destruct ((a =? 169) && (b =? 254)) eqn:E1; [done|]. destruct (a =? 127) eqn:E2; [done|].
    split_and!; try done; lia.
  - intros (a' & b' & c' & d' & H' & E & H1 & H2 & H3 & H4).
    apply dotted_inj in E as [= <- <- <- <-]; [|done..].
    rewrite !bool_decide_eq_false_2 by done. cbn.
    replace ((a =? 169) && (b =? 254)) with false by lia. by replace (a =? 127) with false by lia.
Qed.

(** The prefix text [address/len] is split back into the address and the
    length: any address text of fewer than 40 characters without a slash, any
    length up to 128, and a longer length or address is an error. *)
Theorem ParsePrefixAddress_print (address : string) (len : Z) :
  strchr "/" address = None -> 0 <= len < 2 ^ 31 ->
  ParsePrefixAddress true (Some (address +:+ "/" +:+ dec len)) =
    if (strlen address <? BUFLEN_40) && (len <=? 128)
    then (ANSC_STATUS_SUCCESS, address, len) else (ANSC_STATUS_FAILURE, EmptyString, len).
Proof.
  intros Ha Hl. unfold ParsePrefixAddress. rewrite app_cons_s, app_nil_s, strchr_app by done.
  cbn [negb]. rewrite skip_spaces_dec, atoi_dec, u32_small by lia. done.
Qed.
Lemma ParsePrefixAddress_print_witness :
  strchr "/" "2001:db8::" = None /\ 0 <= 56 < 2 ^ 31 /\
  ParsePrefixAddress true (Some "2001:db8::/56") = (ANSC_STATUS_SUCCESS, "2001:db8::", 56).
Proof.
  split; [reflexivity|]. split; [lia|].
  exact (ParsePrefixAddress_print "2001:db8::" 56 eq_refl ltac:(lia)).
Defined.

(** The zero address of IPv6 is compared as text: another spelling of it is an
    accepted name server. *)
Lemma IsValidDnsServer_v6_zero :
  inet_pton6 "0::0" = inet_pton6 "::" /\
  IsValidDnsServer true AF_INET6 (Some "::") = ANSC_STATUS_FAILURE /\
  IsValidDnsServer true AF_INET6 (Some "0::0") = ANSC_STATUS_SUCCESS.
Proof. split_and!; reflexivity. Qed.
