(* ===== verification/Mapt.v ===== *)
(** The MAP-T configuration of [source/WanManager/wanmgr_net_utils.c]: the
    embedded-address arithmetic, the addresses built from it, the port ranges
    of a PSID, and the sysevents of [maptInfo_set] and [maptInfo_reset]
    ([source/WanManager/wanmgr_sysevents.c]).

    [int] is 32 bits and [unsigned long] 64 bits.  A computation the C standard
    leaves undefined (a shift count outside the width, a byte outside the
    address) is [None]; [<<] on an [int] wraps, as the compiler of the target
    defines it. *)

From S2P Require Export Addresses Sysevents.

Definition u64 (x : Z) : Z := x mod 2 ^ 64.

(** * Embedded-address bits *)

(** The [num] bits of [value] below bit [pos], both included. *)
Definition WanManager_GetMAPTbits (value pos num : Z) : option Z :=
  let n := pos + 1 - num in
  if (0 <=? n) && (n <? 32) && (0 <=? num) && (num <? 32)
  then Some (Z.land (Z.shiftr (u32 value) n) (u32 (Z.lnot (s32 (Z.shiftl (-1) num)))))
  else None.

(** [s6_addr[i]]. *)
Definition s6_addr (a : list Z) (i : Z) : option Z := if i <? 0 then None else a !! Z.to_nat i.

(** A byte shifted as an [int], and one shifted as an [unsigned long]. *)
Definition shl_int (b n : Z) : Z := s32 (Z.shiftl b n).
Definition shl_ulong (b n : Z) : Z := u64 (Z.shiftl b n).

(** [EAbytes] and [tempShift] after the chain of length tests. *)
Definition EA_bytes (a : list Z) (EAStartByte EAlen : Z) : option (Z * Z) :=
  let b i := s6_addr a (EAStartByte + i) in
  if EAlen <=? 8 then
    b0 ← b 0; Some (b0, 8)
  else if EAlen <=? 16 then
    b0 ← b 0; b1 ← b 1; Some (u64 (Z.lor (shl_int b0 8) b1), 16)
  else if EAlen <=? 24 then
    b0 ← b 0; b1 ← b 1; b2 ← b 2;
    Some (u64 (Z.lor (Z.lor (shl_int b0 16) (shl_int b1 8)) b2), 24)
  else if EAlen <=? 32 then
    b0 ← b 0; b1 ← b 1; b2 ← b 2; b3 ← b 3;
    Some (u64 (Z.lor (Z.lor (Z.lor (shl_int b0 24) (shl_int b1 16)) (shl_int b2 8)) b3), 32)
  else if EAlen <=? 40 then
    b0 ← b 0; b1 ← b 1; b2 ← b 2; b3 ← b 3; b4 ← b 4;
    Some (u64 (Z.lor (Z.lor (Z.lor (Z.lor (shl_ulong b0 32) (shl_ulong b1 24)) (shl_int b2 16))
                        (shl_int b3 8)) b4), 40)
  else if EAlen <=? 48 then
    b0 ← b 0; b1 ← b 1; b2 ← b 2; b3 ← b 3; b4 ← b 4; b5 ← b 5;
    Some (u64 (Z.lor (Z.lor (Z.lor (Z.lor (Z.lor (shl_ulong b0 40) (shl_ulong b1 32)) (shl_int b2 24))
                               (shl_int b3 16)) (shl_int b4 8)) b5), 48)
  else Some (0, 0).

Inductive mapt_result :=
| MAPT_RETURN_ERR
| MAPT_RETURN_OK (psidValue ipv4IndexValue psidLen : Z).

(** The prefix lengths are at least 0, where [/] and [%] agree with the floor
    division. *)
Definition WanManager_CalculatePsidAndV4Index (pdIPv6Prefix : string)
    (v6PrefixLen iapdPrefixLen v4PrefixLen : Z) : option mapt_result :=
  let ipv4BitIndexLen := 32 - v4PrefixLen in
  let startV4Offset := v6PrefixLen in
  let EAlen := iapdPrefixLen - startV4Offset in
  let psidBitIndexLen := EAlen - ipv4BitIndexLen in
  if iapdPrefixLen <=? startV4Offset then Some MAPT_RETURN_ERR
  else match inet_pton6 pdIPv6Prefix with
  | None => Some MAPT_RETURN_ERR
  | Some in6Addr =>
      let EAStartByte := startV4Offset / 8 in
      let EAStartByteShift := startV4Offset mod 8 in
      '(EAbytes, tempShift) ← EA_bytes in6Addr EAStartByte EAlen;
      let EAStartPos := tempShift - EAStartByteShift - 1 in
      '(EAbytes, EAStartPos) ←
        (if EAStartByteShift =? 0 then Some (EAbytes, EAStartPos)
         else b ← s6_addr in6Addr (EAStartByte + tempShift / 8);
              Some (Z.lor (shl_ulong EAbytes 8) b, EAStartPos + 8));
      ipv4IndexValue ← WanManager_GetMAPTbits EAbytes EAStartPos ipv4BitIndexLen;
      psidValue ← WanManager_GetMAPTbits EAbytes (EAStartPos - ipv4BitIndexLen) psidBitIndexLen;
      Some (MAPT_RETURN_OK (s32 psidValue) (s32 ipv4IndexValue) psidBitIndexLen)
  end.

(** * The port ranges of a PSID *)

(** The bounds of each range, in the order they are printed; [None] when a
    shift count is outside the width of an [int]. *)
Definition mapt_port_ranges (offset psidLen psid : Z) : option (list (Z * Z)) :=
  let offset := if offset =? 0 then 6 else offset in
  let m := 16 - (psidLen + offset) in
  let ratio := 16 - offset in
  if (0 <=? offset) && (offset <? 32) && (0 <=? m) && (m <? 32) && (0 <=? ratio)
  then
    let a := shl_int 1 offset in
    let contigous_port := shl_int 1 m in
    Some ((fun index =>
      let initialPortValue := s32 (shl_int index ratio + shl_int psid m) in
      (initialPortValue, s32 (initialPortValue + (contigous_port - 1))))
      <$> range_from 1 a)
  else None.

(** ["%d,%d,"] of each range, without the last comma. *)
Fixpoint port_range_text (l : list (Z * Z)) : string :=
  match l with
  | [] => EmptyString
  | [(i, f)] => dec i +:+ "," +:+ dec f
  | (i, f) :: l' => dec i +:+ "," +:+ dec f +:+ "," +:+ port_range_text l'
  end.
Definition WanManager_CalculateMAPTPortRange (offset psidLen psid : Z) : option string :=
  port_range_text <$> mapt_port_ranges offset psidLen psid.

(** * The addresses *)

(** The decimal text of an IPv4 address from its number: the low four bytes of
    [ipValue]. *)
Definition ip_text (ipValue : Z) : string :=
  let byte n := Z.land (Z.shiftr ipValue n) 255 in
  dotted (byte 24) (byte 16) (byte 8) (byte 0).

(** The IPv4 address of the rule with the index added; [old] is what the
    result holds when [inet_pton] rejects the prefix. *)
Definition mapt_ipv4_address (old : Z) (ruleIPv4Prefix : string) (ipv4IndexValue : Z) : string :=
  let base := match inet_pton4 ruleIPv4Prefix with Some l => host_order l | None => old end in
  ip_text (u32 (base + ipv4IndexValue)).

(** The MAP IPv6 address, or [None] for an error. *)
Definition WanManager_ConfigureIpv6Sysevents (old : Z) (pdIPv6Prefix ipAddressString : string)
    (psidValue : Z) : option string :=
  let ipValue := u32 (match inet_pton4 ipAddressString with Some l => host_order l | None => old end) in
  let byte n := Z.land (Z.shiftr ipValue n) 255 in
  in6Addr ← inet_pton6 pdIPv6Prefix;
  Some (groups6 (take 8 in6Addr ++
    [0; 0; byte 24; byte 16; byte 8; byte 0;
     Z.land (Z.shiftr psidValue 8) 255; Z.land psidValue 255])).
