(* ===== verification/MaptSetup.v ===== *)
(** The MAP-T procedures of [source/WanManager/wanmgr_net_utils.c] on the
    NAT46 kernel ([NAT46_KERNEL_SUPPORT] without [IVI_KERNEL_SUPPORT]):
    checking the DHCPv6 options, configuring the [map0] interface, the
    sysevents the firewall reads, and taking the configuration back.

    The options and the computed configuration, which the source passes by
    address, are passed and returned.  The shell commands are calls to
    [util_runCommandInShellBlocking]; the pipes read by [popen] answer whether
    they opened and the first line. *)

From S2P Require Export Mapt Controller.

Definition SYSEVENT_FIREWALL_RESTART : string := "firewall-restart".
Definition MAP_INTERFACE : string := "map0".
Definition MTU_SIZE : Z := 1520.
Definition MTU_DEFAULT_SIZE : Z := 1500.
Definition BUFLEN_1024 : Z := 1024.

(** Compile-time switches of the MAP-T code. *)
Class MaptBuild := {
  MAPT_NAT46_FTP_ACTIVE_MODE : bool;
  (** [_COSA_BCM_ARM_] and [_XB6_PRODUCT_REQ_]. *)
  COSA_BCM_ARM_XB6 : bool
}.

Record MaptData_t := mk_MaptData_t {
  md_maptConfigFlag : string;
  md_ratio : Z;
  md_ipAddressString : string;
  md_ruleIpAddressString : string;
  md_ipv6AddressString : string;
  md_brIpv6PrefixString : string;
  md_ruleIpv6AddressString : string;
  md_psidOffset : Z;
  md_psidValue : Z;
  md_psidLen : Z;
  md_eaLen : Z;
  md_v4Len : Z;
  md_mapeAssigned : bool;
  md_maptAssigned : bool;
  md_isFMR : bool
}.

(** [strtok(line, "\n")] on a line [fgets] read, whose only newline is its
    last character. *)
Definition strtok_line (line : string) : option string :=
  let token := match strchr (Ascii.ascii_of_nat 10) line with Some (t, _) => t | None => line end in
  if token ≟ EmptyString then None else Some token.

(** The bits set in a subnet mask: [while (mask) { count += mask & 1; mask >>= 1; }],
    in at most [fuel] rounds. *)
Fixpoint subnet_count (fuel : nat) (mask count : Z) : option Z :=
  if mask =? 0 then Some count
  else match fuel with
       | O => None
       | S fuel => subnet_count fuel (Z.shiftr mask 1) (u32 (count + Z.land mask 1))
       end.

(** A string formatted into a buffer of [n] bytes. *)
Definition snprintf (n : Z) (s : string) : string := String.substring 0 (Z.to_nat (n - 1)) s.

Section MaptSetup.
Context `{Platform} `{Build} `{MaptBuild} {C : Type}.
#[local] Abbreviation M := (Prelude.M (St C)).

(** Also [WanManager_DoSystemAction], which ignores the status. *)
Definition WanManager_DoSystemActionWithStatus (cmd : string) : M Z :=
  call (ExtCall "util_runCommandInShellBlocking" [cmd]).
Definition WanManager_DoSystemAction (cmd : string) : M unit :=
  WanManager_DoSystemActionWithStatus cmd ;; ret tt.

(** [if ((ret = WanManager_DoSystemActionWithStatus(cmd)) < RETURN_OK) return ret;] *)
Definition run_or_return (cmd : string) (next : M Z) : M Z :=
  r <- WanManager_DoSystemActionWithStatus cmd ;;
  if r <? 0 then ret r else next.

Definition syscfg_get (name : string) : M (option string) :=
  r <- call_s (ExtCall "syscfg_get" [name]) ;;
  ret (if fst r =? 0 then Some (snd r) else None).

(** ** The sysevents *)

Definition maptInfo_set (m : MaptData_t) : M unit :=
  sysevent_set "mapt_config_flag" (md_maptConfigFlag m) ;;
  sysevent_set "mapt_ratio" (dec (s32 (md_ratio m))) ;;
  sysevent_set "mapt_ip_address" (md_ipAddressString m) ;;
  sysevent_set "map_br_ipv6_prefix" (md_brIpv6PrefixString m) ;;
  sysevent_set "map_rule_ip_address" (md_ruleIpAddressString m) ;;
  sysevent_set "mapt_ipv6_address" (md_ipv6AddressString m) ;;
  sysevent_set "map_rule_ipv6_address" (md_ruleIpv6AddressString m) ;;
  sysevent_set "mapt_psid_offset" (dec (s32 (md_psidOffset m))) ;;
  sysevent_set "mapt_psid_value" (dec (s32 (md_psidValue m))) ;;
  sysevent_set "mapt_psid_length" (dec (s32 (md_psidLen m))) ;;
  sysevent_set "map_transport_mode"
    (if md_maptAssigned m then "MAPT" else if md_mapeAssigned m then "MAPE" else "NON-MAP") ;;
  sysevent_set "map_is_fmr" (if md_isFMR m then "TRUE" else "FALSE") ;;
  sysevent_set "map_ea_length" (dec (s32 (md_eaLen m))).

Definition maptInfo_reset : M unit :=
  sysevent_set "mapt_config_flag" "reset" ;;
  sysevent_set "mapt_ratio" "" ;;
  sysevent_set "mapt_ip_address" "" ;;
  sysevent_set "mapt_ipv6_address" "" ;;
  sysevent_set "mapt_psid_offset" "" ;;
  sysevent_set "mapt_psid_value" "" ;;
  sysevent_set "mapt_psid_length" "" ;;
  sysevent_set "map_transport_mode" "NONE" ;;
  sysevent_set "map_is_fmr" "" ;;
  sysevent_set "map_ea_length" "".

(** ** Checking the options *)

(** [inet_network] is asked of the C library. *)
Definition WanManager_GetLANIPAddress : M (option string) :=
  ip <- syscfg_get "lan_ipaddr" ;;
  match ip with
  | None => ret None
  | Some ip =>
      mask <- syscfg_get "lan_netmask" ;;
      match mask with
      | None => ret None
      | Some mask =>
          n <- call (ExtCall "inet_network" [mask]) ;;
          count <- deref (subnet_count 32 (u32 n) 0) ;;
          ret (Some (ip +:+ "/" +:+ dec count))
      end
  end.

Definition WanMgr_RdkBus_ConfigureUPnPIGDService (configure_UPnPIGD : bool) : M unit :=
  stopped <- get_db w_g_UPnPIGDServiceStopped ;;
  if configure_UPnPIGD && stopped then
    WanMgr_RdkBus_SetParamValues PAM_COMPONENT_NAME PAM_DBUS_PATH
      "Device.UPnP.Device.UPnPIGD" "true" ;;
    set_db (fun d => d <| w_g_UPnPIGDServiceStopped := false |>)
  else if negb configure_UPnPIGD then
    r <- call_s (ExtCall "syscfg_get" ["upnp_igd_enabled"]) ;;
    when (starts_with "1" (snd r)) (
      WanMgr_RdkBus_SetParamValues PAM_COMPONENT_NAME PAM_DBUS_PATH
        "Device.UPnP.Device.UPnPIGD" "false" ;;
      set_db (fun d => d <| w_g_UPnPIGDServiceStopped := true |>))
  else ret tt.

(** [old] is what the uninitialised [struct in_addr] holds.  A computation
    that C leaves undefined stops the run. *)
Definition WanManager_VerifyMAPTConfiguration (old : Z)
    (msg : ipc_mapt_data_t) (cfg : WANMGR_MAPT_CONFIG_DATA)
    : M (ANSC_STATUS * ipc_mapt_data_t * WANMGR_MAPT_CONFIG_DATA) :=
  let msg := if mt_ratio msg =? 0 then msg <| mt_ratio := 1 |> else msg in
  r <- (if (0 <? mt_psidLen msg) && (mt_eaLen msg =? 0)
        then ret (MAPT_RETURN_OK (mt_psid msg) 0 (mt_psidLen msg))
        else deref (WanManager_CalculatePsidAndV4Index (mt_pdIPv6Prefix msg) (mt_v6Len msg)
                      (mt_iapdPrefixLen msg) (mt_v4Len msg))) ;;
  match r with
  | MAPT_RETURN_ERR => ret (ANSC_STATUS_FAILURE, msg, cfg)
  | MAPT_RETURN_OK psidValue ipv4IndexValue psidLen =>
      let cfg := cfg <| mc_psidValue := psidValue |> <| mc_psidLen := psidLen |>
                     <| mc_ipAddressString :=
                          mapt_ipv4_address old (mt_ruleIPv4Prefix msg) ipv4IndexValue |> in
      lan <- WanManager_GetLANIPAddress ;;
      match lan with
      | None => ret (ANSC_STATUS_FAILURE, msg, cfg)
      | Some lan =>
          let cfg := cfg <| mc_ipLANAddressString := lan |> in
          match WanManager_ConfigureIpv6Sysevents old (mt_pdIPv6Prefix msg)
                  (mc_ipAddressString cfg) (mc_psidValue cfg) with
          | None => ret (ANSC_STATUS_FAILURE, msg, cfg)
          | Some ipv6 =>
              set_db (fun d => d <| w_ipv6AddressString := ipv6 |>) ;;
              ret (ANSC_STATUS_SUCCESS, msg, cfg)
          end
      end
  end.

(** ** Configuring the interface *)

Definition isModuleLoaded (moduleName : string) : M bool :=
  r <- call_s (ExtCall "v_secure_popen" ["cat /proc/modules | grep " +:+ moduleName]) ;;
  if fst r =? 0 then ret false
  else
    call_ (ExtCall "v_secure_pclose" []) ;;
    ret ((snd r ≠? EmptyString) && strstr (snd r) moduleName).

(** An invalid address is returned before the pipe is closed. *)
Definition get_V6_defgateway_wan_interface : M (option string) :=
  r <- call_s (ExtCall "v_secure_popen"
         ["ip -6 route show default | grep default | awk '{print $3}'"]) ;;
  if fst r =? 0 then ret None
  else
    let token := if snd r ≟ EmptyString then None else strtok_line (snd r) in
    match token with
    | Some token =>
        if inet_pton6 token ≟ None then ret None
        else call_ (ExtCall "v_secure_pclose" []) ;; ret (Some token)
    | None => call_ (ExtCall "v_secure_pclose" []) ;; ret None
    end.

Definition insmod_ftp : string := "insmod /lib/modules/`uname -r`/kernel/net/netfilter/nf_nat_ftp.ko".

(** The netfilter FTP module follows the sharing ratio. *)
Definition mapt_ftp_module (msg : ipc_mapt_data_t) (cfg : WANMGR_MAPT_CONFIG_DATA) : M unit :=
  loaded <- isModuleLoaded "nf_nat_ftp" ;;
  if negb (mt_ratio msg =? 1) then
    when loaded (WanManager_DoSystemAction
      "rmmod -f /lib/modules/`uname -r`/kernel/net/netfilter/nf_nat_ftp.ko") ;;
    when MAPT_NAT46_FTP_ACTIVE_MODE (
      port_range <- deref (WanManager_CalculateMAPTPortRange (mt_psidOffset msg)
                             (mc_psidLen cfg) (mc_psidValue cfg)) ;;
      if BUFLEN_1024 <=? strlen port_range + 1 then crash
      else WanManager_DoSystemAction
             (snprintf BUFLEN_1024 (insmod_ftp +:+ " port_range_array=" +:+ port_range)))
  else when (negb loaded) (WanManager_DoSystemAction insmod_ftp).

(** Twenty attempts, 250 ms apart. *)
Definition mapt_wait_defgateway : M (option string) :=
  r <- for_break (range 20) (fun i =>
    gw <- get_V6_defgateway_wan_interface ;;
    match gw with
    | Some gw => ret (Some (Some gw))
    | None =>
        if 20 - 1 - i =? 0 then ret (Some None)
        else call_ (ExtCall "usleep" ["250000"]) ;; ret None
    end) ;;
  ret (match r with Some (Some gw) => Some gw | _ => None end).

Definition WanManager_DisplayMAPTFeatureStatus : M unit :=
  syscfg_get "upnp_igd_enabled" ;;
  syscfg_get "dmz_enabled" ;;
  syscfg_get "CosaNAT::port_forward_enabled" ;;
  syscfg_get "CosaNAT::port_trigger_enabled" ;;
  r <- syscfg_get "mgmt_wan_httpaccess_ert" ;;
  when (r ≟ None) (syscfg_get "mgmt_wan_httpaccess" ;; ret tt) ;;
  syscfg_get "mgmt_wan_httpsaccess" ;;
  ret tt.

Definition mapt_small_mtu : bool := XB6_CBR2_PRODUCT_REQ && negb RDKB_GLOBAL_PRODUCT_REQ.

Definition link_mtu (dev : string) (mtu : Z) : string :=
  snprintf 64 ("ip link set dev " +:+ dev +:+ " mtu " +:+ dec mtu +:+ " ").

Definition map_interface_config (msg : ipc_mapt_data_t) (sitePrefix : string) : string :=
  "echo config " +:+ MAP_INTERFACE +:+ " local.style MAP local.v4 " +:+ mt_ruleIPv4Prefix msg
    +:+ "/" +:+ dec (mt_v4Len msg) +:+ " local.v6 " +:+ mt_ruleIPv6Prefix msg
    +:+ " local.ea-len " +:+ dec (mt_eaLen msg) +:+ " local.psid-offset " +:+ dec (mt_psidOffset msg)
    +:+ " remote.v4 0.0.0.0/0 remote.v6 " +:+ mt_brIPv6Prefix msg
    +:+ " remote.style RFC6052 remote.ea-len 0 remote.psid-offset 0 debug -1"
    +:+ (if COSA_BCM_ARM_XB6 then " local.pd " +:+ sitePrefix else "")
    +:+ " > /proc/net/nat46/control".

(** The routes and MTUs once the default gateway [gw] is known. *)
Definition mapt_routes (msg : ipc_mapt_data_t) (vlanIf gw ipv6AddressString : string) (mtu : Z)
    : list string :=
  [ "ip route del default";
    link_mtu MAP_INTERFACE mtu;
    "echo " +:+ dec MTU_DEFAULT_SIZE +:+ " > /proc/sys/net/ipv6/conf/" +:+ vlanIf +:+ "/mtu";
    "ip -6 ro change default via " +:+ gw +:+ " dev " +:+ vlanIf +:+ " mtu " +:+ dec MTU_DEFAULT_SIZE;
    "ip ro rep default dev " +:+ MAP_INTERFACE +:+ " mtu "
      +:+ dec (if mapt_small_mtu then MTU_DEFAULT_SIZE - 28 else MTU_DEFAULT_SIZE);
    "ip -6 ro rep " +:+ mt_brIPv6Prefix msg +:+ " via " +:+ gw +:+ " dev " +:+ vlanIf
      +:+ " mtu " +:+ dec mtu;
    "ip -6 ro rep " +:+ ipv6AddressString +:+ "/128 dev " +:+ MAP_INTERFACE +:+ " mtu " +:+ dec mtu ].

(** Commands run in order until one fails. *)
Definition run_all_or_return (cmds : list string) (next : M Z) : M Z :=
  fold_right run_or_return next cmds.

(** The firewall's view of the configuration. *)
Definition mapt_info (msg : ipc_mapt_data_t) (cfg : WANMGR_MAPT_CONFIG_DATA) (ipv6AddressString : string)
    : MaptData_t :=
  {| md_maptConfigFlag := "set";
     md_ratio := mt_ratio msg;
     md_ipAddressString := mc_ipAddressString cfg;
     md_ruleIpAddressString := mt_ruleIPv4Prefix msg;
     md_ipv6AddressString := ipv6AddressString;
     md_brIpv6PrefixString := mt_brIPv6Prefix msg;
     md_ruleIpv6AddressString := mt_ruleIPv6Prefix msg;
     md_psidOffset := mt_psidOffset msg;
     md_psidValue := mc_psidValue cfg;
     md_psidLen := mc_psidLen cfg;
     md_eaLen := mt_eaLen msg;
     md_v4Len := mt_v4Len msg;
     md_mapeAssigned := false;
     md_maptAssigned := true;
     md_isFMR := mt_isFMR msg |}.

Definition WanManager_ProcessMAPTConfiguration (msg : ipc_mapt_data_t) (cfg : WANMGR_MAPT_CONFIG_DATA)
    (baseIf : string) (ipv6Data : WANMGR_IPV6_DATA) : M Z :=
  let vlanIf := v6_ifname ipv6Data in
  partner <- call_s (ExtCall "syscfg_get" ["PartnerID"]) ;;
  let mtu := if negb mapt_small_mtu && (snd partner ≠? "sky-uk") then MTU_SIZE else MTU_DEFAULT_SIZE in
  when (1 <? mt_ratio msg) (WanMgr_RdkBus_ConfigureUPnPIGDService false) ;;
  run_or_return (link_mtu (if baseIf ≟ "dsl0" then "ptm0" else baseIf) mtu) (
  run_or_return (link_mtu vlanIf mtu) (
  mapt_ftp_module msg cfg ;;
  r <- call (ExtCall "sysctl_iface_set" ["/proc/sys/net/ipv4/conf/%s/rp_filter"; vlanIf; "0"]) ;;
  if negb (r =? 0) then ret (-1) else
  run_or_return ("echo add " +:+ MAP_INTERFACE +:+ " > /proc/net/nat46/control") (
  run_or_return (map_interface_config msg (v6_sitePrefix ipv6Data)) (
  run_or_return ("ip link set " +:+ MAP_INTERFACE +:+ " up") (
  gw <- mapt_wait_defgateway ;;
  match gw with
  | None => ret (-1)
  | Some gw =>
      ipv6AddressString <- get_db w_ipv6AddressString ;;
      run_all_or_return (mapt_routes msg vlanIf gw ipv6AddressString mtu) (
      when XB6_CBR2_PRODUCT_REQ (
        v_secure_system "sysctl -w net.netfilter.nf_conntrack_udp_timeout=30" ;;
        v_secure_system "sysctl -w net.netfilter.nf_conntrack_udp_timeout_stream=120") ;;
      maptInfo_set (mapt_info msg cfg ipv6AddressString) ;;
      sysevent_set SYSEVENT_FIREWALL_RESTART "" ;;
      WanManager_DisplayMAPTFeatureStatus ;;
      ret 0)
  end))))).

Definition WanManager_ResetMAPTConfiguration (baseIf vlanIf : string) : M Z :=
  run_or_return (link_mtu baseIf MTU_DEFAULT_SIZE) (
  run_or_return (link_mtu vlanIf MTU_DEFAULT_SIZE) (
  maptInfo_reset ;;
  WanMgr_RdkBus_ConfigureUPnPIGDService true ;;
  sysevent_set SYSEVENT_FIREWALL_RESTART "" ;;
  ret 0)).
End MaptSetup.
