(* ===== verification/MaptFacts.v ===== *)
(** Facts of the MAP-T arithmetic: the bits [GetMAPTbits] selects from the
    bytes of an address, and the ports of a range. *)

From S2P Require Export MaptSetup.

(** * Bits of the address *)

(** The [n] bits of the 128-bit address [a] from bit [start], bit 0 being the
    most significant. *)
Definition addr_slice (a : list Z) (start n : Z) : Z :=
  Z.shiftr (host_order a) (128 - start - n) mod 2 ^ n.

Definition is_addr (a : list Z) : Prop := length a = 16%nat /\ Forall (fun b => is_byte b = true) a.

Lemma foldl_acc_shift (l : list Z) acc :
  foldl (fun acc b => acc * 256 + b) acc l = acc * 256 ^ Z.of_nat (length l) + host_order l.
Proof.
  unfold host_order. revert acc. induction l as [|b l IH]; intros acc; cbn [foldl length]; [lia|].
  rewrite IH, (IH (0 * 256 + b)). rewrite Nat2Z.inj_succ, Z.pow_succ_r by lia. lia.
Qed.
Lemma host_order_app l1 l2 :
  host_order (l1 ++ l2) = host_order l1 * 256 ^ Z.of_nat (length l2) + host_order l2.
Proof. unfold host_order at 1. rewrite foldl_app. by rewrite foldl_acc_shift. Qed.
Lemma host_order_bound l :
  Forall (fun b => is_byte b = true) l -> 0 <= host_order l < 256 ^ Z.of_nat (length l).
Proof.
  induction l as [|b l IH] using rev_ind; [done|].
  rewrite Forall_app, Forall_singleton, is_byte_spec. intros [Hl Hb]. specialize (IH Hl).
  rewrite host_order_app, length_app, Nat2Z.inj_add, Z.pow_add_r by lia. cbn [length host_order foldl].
  change (256 ^ Z.of_nat 1) with 256. nia.
Qed.

(** The number of the bytes [k .. k+m-1] is a slice of the address. *)
Lemma host_order_window (a : list Z) (k m : nat) :
  Forall (fun b => is_byte b = true) a -> (k + m <= length a)%nat ->
  host_order (take m (drop k a)) =
    (host_order a / 256 ^ Z.of_nat (length a - k - m)) mod 256 ^ Z.of_nat m.
Proof.
  intros Ha Hk. set (r := (length a - k - m)%nat).
  assert (host_order a = (host_order (take k a) * 256 ^ Z.of_nat m + host_order (take m (drop k a)))
            * 256 ^ Z.of_nat r + host_order (drop m (drop k a))) as ->.
  { rewrite <- (take_drop k a) at 1. rewrite <- (take_drop m (drop k a)) at 1.
    rewrite !host_order_app, length_app, length_take, !length_drop, Nat2Z.inj_add, Z.pow_add_r by lia.
    replace (m `min` (length a - k))%nat with m by lia. fold r. lia. }
  pose proof (host_order_bound (drop m (drop k a)) ltac:(by apply Forall_drop, Forall_drop)) as Hd.
  pose proof (host_order_bound (take m (drop k a)) ltac:(by apply Forall_take, Forall_drop)) as Ht.
  rewrite !length_drop in Hd. rewrite length_take, length_drop in Ht.
  replace (m `min` (length a - k))%nat with m in Ht by lia. fold r in Hd.
  rewrite Z.div_add_l, (Z.div_small (host_order (drop m (drop k a)))), Z.add_0_r by lia.
  by rewrite Z.add_comm, Z_mod_plus_full, Z.mod_small.
Qed.

Lemma testbit_window a k m i :
  Forall (fun b => is_byte b = true) a -> (k + m <= length a)%nat -> 0 <= i ->
  Z.testbit (host_order (take m (drop k a))) i =
    (i <? 8 * Z.of_nat m) && Z.testbit (host_order a) (i + 8 * Z.of_nat (length a - k - m)).
Proof.
  intros Ha Hk Hi. rewrite host_order_window by done.
  assert (forall n : nat, 256 ^ Z.of_nat n = 2 ^ (8 * Z.of_nat n)) as E
    by (intros n; change 256 with (2 ^ 8); by rewrite <- Z.pow_mul_r by lia).
  rewrite !E. destruct (i <? 8 * Z.of_nat m) eqn:Ei; cbn [andb].
  - rewrite Z.mod_pow2_bits_low by lia. by rewrite Z.div_pow2_bits by lia.
  - by rewrite Z.mod_pow2_bits_high by lia.
Qed.

(** * Wrap-around and the low 32 bits *)

Lemma u32_land x : u32 x = Z.land x (Z.ones 32).
Proof. unfold u32. by rewrite Z.land_ones by lia. Qed.
Lemma u32_lor x y : u32 (Z.lor x y) = Z.lor (u32 x) (u32 y).
Proof. rewrite !u32_land. apply Z.land_lor_distr_l. Qed.
Lemma u32_s32 x : u32 (s32 x) = u32 x.
Proof.
  unfold u32, s32. rewrite Zminus_mod_idemp_l. f_equal. lia.
Qed.
Lemma u32_u64 x : u32 (u64 x) = u32 x.
Proof. unfold u32, u64. change (2 ^ 64) with (2 ^ 32 * 2 ^ 32). rewrite Z.rem_mul_r by lia.
  rewrite Z.mul_comm, Z_mod_plus_full. apply Z.mod_mod. lia. Qed.
Lemma u32_shl_int b n : u32 (shl_int b n) = u32 (Z.shiftl b n).
Proof. apply u32_s32. Qed.
Lemma u32_shl_ulong b n : u32 (shl_ulong b n) = u32 (Z.shiftl b n).
Proof. apply u32_u64. Qed.
Lemma u32_shiftl x y n : 0 <= n -> u32 x = u32 y -> u32 (Z.shiftl x n) = u32 (Z.shiftl y n).
Proof.
  intros Hn E. rewrite !Z.shiftl_mul_pow2 by done. unfold u32 in *.
  by rewrite <- (Z.mul_mod_idemp_l x), E, Z.mul_mod_idemp_l.
Qed.
#[local] Hint Rewrite u32_lor u32_shl_int u32_shl_ulong u32_u64 : u32.

Lemma shiftl_lor_byte x b : 0 <= b < 256 -> x * 256 + b = Z.lor (Z.shiftl x 8) b.
Proof.
  intros Hb. pose proof (Z.add_lor_land (Z.shiftl x 8) b) as E.
  assert (Z.land (Z.shiftl x 8) b = 0) as E0; [|rewrite E0, Z.add_0_r in E; rewrite E, Z.shiftl_mul_pow2; lia].
  apply Z.bits_inj'. intros i Hi. rewrite Z.land_spec, Z.bits_0.
  destruct (decide (i < 8)).
  - by rewrite Z.shiftl_spec_low.
  - rewrite <- (Z.mod_small b (2 ^ 8)) by done. rewrite Z.mod_pow2_bits_high by lia. apply andb_false_r.
Qed.
Lemma host_order_snoc l b : 0 <= b < 256 -> host_order (l ++ [b]) = Z.lor (Z.shiftl (host_order l) 8) b.
Proof. intros Hb. rewrite host_order_app, <- shiftl_lor_byte by done. done. Qed.

(** * [EAbytes] *)

Lemma s6_addr_drop a S i : 0 <= S -> 0 <= i -> s6_addr a (S + i) = drop (Z.to_nat S) a !! Z.to_nat i.
Proof.
  intros HS Hi. unfold s6_addr. replace (S + i <? 0) with false by lia.
  rewrite lookup_drop. f_equal. lia.
Qed.

(** The number of whole bytes the EA bits need. *)
Definition EA_len8 (EAlen : Z) : Z := (EAlen + 7) / 8.

Lemma host_order_1 b : host_order [b] = b.
Proof. unfold host_order. cbn [foldl]. lia. Qed.

(** The bytes of [l], named. *)
Ltac peel l Hd Hb :=
  destruct l as [|? l]; [cbn in Hd; lia|]; cbn [length] in Hd;
  rewrite Forall_cons, is_byte_spec in Hb; destruct Hb as [? Hb].
(** The number of a list of named bytes, as the shifted bytes. *)
Ltac lor_bytes :=
  unfold host_order;
  match goal with |- context [Z.to_nat ?n] =>
    let m := eval vm_compute in (Z.to_nat n) in change (Z.to_nat n) with m end;
  cbn [take]; rewrite take_0; cbn [foldl];
  rewrite ?shiftl_lor_byte by done; rewrite ?Z.shiftl_0_l, ?Z.lor_0_l;
  rewrite ?Z.shiftl_lor, ?Z.shiftl_shiftl by done; autorewrite with u32; done.

Lemma EA_bytes_spec a S EAlen :
  is_addr a -> 0 <= S -> 0 < EAlen <= 48 -> S + EA_len8 EAlen <= 16 ->
  exists v, EA_bytes a S EAlen = Some (v, 8 * EA_len8 EAlen) /\
    u32 v = u32 (host_order (take (Z.to_nat (EA_len8 EAlen)) (drop (Z.to_nat S) a))).
Proof.
  intros [Hl Hb] HS HE Hr. unfold EA_bytes. rewrite !s6_addr_drop by lia.
  pose proof (length_drop a (Z.to_nat S)) as Hd. rewrite Hl in Hd.
  apply (Forall_drop _ (Z.to_nat S)) in Hb. revert Hd Hb. generalize (drop (Z.to_nat S) a). intros l Hd Hb.
  assert (EA_len8 EAlen = 1 /\ EAlen <= 8 \/ EA_len8 EAlen = 2 /\ 8 < EAlen <= 16 \/
    EA_len8 EAlen = 3 /\ 16 < EAlen <= 24 \/ EA_len8 EAlen = 4 /\ 24 < EAlen <= 32 \/
    EA_len8 EAlen = 5 /\ 32 < EAlen <= 40 \/ EA_len8 EAlen = 6 /\ 40 < EAlen <= 48) as Hc
    by (unfold EA_len8 in *; Z.div_mod_to_equations; lia).
  destruct Hc as [[E He]|[[E He]|[[E He]|[[E He]|[[E He]|[E He]]]]]]; rewrite E in *;
    repeat match goal with |- context [EAlen <=? ?n] =>
      first [replace (EAlen <=? n) with false by lia | replace (EAlen <=? n) with true by lia] end.
  all: [> do 1 peel l Hd Hb | do 2 peel l Hd Hb | do 3 peel l Hd Hb | do 4 peel l Hd Hb
    | do 5 peel l Hd Hb | do 6 peel l Hd Hb]; (eexists; split; [reflexivity|]).
  all: lor_bytes.
Qed.

(** ** The bits selected *)

Lemma ones_mask num : 0 <= num < 32 -> u32 (Z.lnot (s32 (Z.shiftl (-1) num))) = Z.ones num.
Proof.
  intros Hn. apply (test_range (fun n => u32 (Z.lnot (s32 (Z.shiftl (-1) n))) =? Z.ones n) 32) in Hn; [|done].
  lia.
Qed.

Lemma GetMAPTbits_testbit v pos num r i :
  WanManager_GetMAPTbits v pos num = Some r -> 0 <= i ->
  Z.testbit r i = (i <? num) && ((i + (pos + 1 - num) <? 32) && Z.testbit v (i + (pos + 1 - num))).
Proof.
  unfold WanManager_GetMAPTbits. destruct (_ && _) eqn:E; [|done]. intros [= <-] Hi.
  rewrite ones_mask, Z.land_spec, Z.shiftr_spec, Z.testbit_ones_nonneg by lia.
  unfold u32. rewrite andb_comm. f_equal. destruct (i + (pos + 1 - num) <? 32) eqn:E2; cbn [andb].
  - apply Z.mod_pow2_bits_low. lia.
  - apply Z.mod_pow2_bits_high. lia.
Qed.
Lemma GetMAPTbits_defined v pos num :
  0 <= num < 32 -> num <= pos + 1 < num + 32 -> exists r, WanManager_GetMAPTbits v pos num = Some r.
Proof. intros Hn Hp. unfold WanManager_GetMAPTbits. destruct (_ && _) eqn:E; [eauto | lia]. Qed.

Lemma addr_slice_testbit a start n i :
  0 <= n -> start + n <= 128 -> 0 <= i ->
  Z.testbit (addr_slice a start n) i = (i <? n) && Z.testbit (host_order a) (i + (128 - start - n)).
Proof.
  intros Hn Hs Hi. unfold addr_slice. destruct (i <? n) eqn:E; cbn [andb].
  - rewrite Z.mod_pow2_bits_low by lia. by rewrite Z.shiftr_spec.
  - by rewrite Z.mod_pow2_bits_high by lia.
Qed.

(** A selection from a window of [m] bytes at byte [S] is a slice of the
    address without the bits the 32-bit parameter drops. *)
Lemma GetMAPTbits_slice a S m v pos num r :
  is_addr a -> 0 <= S -> 0 <= m -> S + m <= 16 -> pos < 8 * m ->
  u32 v = u32 (host_order (take (Z.to_nat m) (drop (Z.to_nat S) a))) ->
  WanManager_GetMAPTbits v pos num = Some r ->
  let lost := Z.max 0 (pos - 31) in
  r = addr_slice a (8 * (S + m) - 1 - pos + lost) (num - lost).
Proof.
  intros [Hl Hb] HS Hm Hr Hp Hv E lost.
  assert (0 <= num < 32 /\ 0 <= pos + 1 - num < 32) as Hd
    by (unfold WanManager_GetMAPTbits in E; destruct (_ && _) eqn:E1; [lia | done]).
  apply Z.bits_inj'. intros i Hi. rewrite (GetMAPTbits_testbit _ _ _ _ _ E Hi).
  rewrite addr_slice_testbit by lia.
  assert (forall j, 0 <= j < 32 -> Z.testbit v j = Z.testbit (u32 v) j) as Hu
    by (intros j Hj; symmetry; apply Z.mod_pow2_bits_low; lia).
  assert (forall j, 0 <= j < 32 -> forall x, Z.testbit (u32 x) j = Z.testbit x j) as Hu2
    by (intros j Hj x; apply Z.mod_pow2_bits_low; lia).
  destruct (i <? num - lost) eqn:Ei.
  - rewrite Hu, Hv, Hu2, testbit_window by (done || lia).
    rewrite Hl. replace (i <? num) with true by lia. cbn [andb].
    repeat match goal with |- context [?x <? ?y] => replace (x <? y) with true by lia end.
    cbn [andb]. f_equal. lia.
  - destruct (i <? num) eqn:E2; cbn [andb]; [|done].
    by replace (i + (pos + 1 - num) <? 32) with false by lia.
Qed.

(** The position of the first EA bit in the bytes [CalculatePsidAndV4Index]
    gathers. *)
Definition EA_start_pos (v6 EAlen : Z) : Z :=
  8 * EA_len8 EAlen - v6 mod 8 - 1 + (if v6 mod 8 =? 0 then 0 else 8).

(** The window of the gathered bytes, the extra one of an unaligned start
    included. *)
Lemma EA_window a v6 EAlen :
  is_addr a -> 0 <= v6 -> 0 < EAlen <= 48 -> v6 + EAlen <= 120 ->
  let m := EA_len8 EAlen + (if v6 mod 8 =? 0 then 0 else 1) in
  v6 / 8 + m <= 16 /\ EA_start_pos v6 EAlen = 8 * m - v6 mod 8 - 1 /\
  exists v t, EA_bytes a (v6 / 8) EAlen = Some (v, t) /\
  exists v', (if v6 mod 8 =? 0 then Some (v, t - v6 mod 8 - 1)
              else b ← s6_addr a (v6 / 8 + t / 8);
                   Some (Z.lor (shl_ulong v 8) b, t - v6 mod 8 - 1 + 8))
               = Some (v', EA_start_pos v6 EAlen) /\
    u32 v' = u32 (host_order (take (Z.to_nat m) (drop (Z.to_nat (v6 / 8)) a))).
Proof.
  intros Ha H6 HE Hr. cbv zeta.
  assert (1 <= EA_len8 EAlen /\ v6 / 8 + EA_len8 EAlen + (if v6 mod 8 =? 0 then 0 else 1) <= 16) as [Hk Hb]
    by (unfold EA_len8; destruct (v6 mod 8 =? 0) eqn:Em; Z.div_mod_to_equations; lia).
  split; [lia|]. split; [unfold EA_start_pos; destruct (v6 mod 8 =? 0); lia|].
  destruct (EA_bytes_spec a (v6 / 8) EAlen Ha) as (v & E & Hv);
    [Z.div_mod_to_equations; lia | done | destruct (v6 mod 8 =? 0); lia|].
  exists v, (8 * EA_len8 EAlen). split; [done|]. unfold EA_start_pos.
  destruct (v6 mod 8 =? 0) eqn:Em.
  { exists v. rewrite !Z.add_0_r. by rewrite Hv. }
  destruct Ha as [Hl Hbytes]. set (k := EA_len8 EAlen) in *.
  rewrite s6_addr_drop by (Z.div_mod_to_equations; lia).
  rewrite (Z.mul_comm 8 k), Z.div_mul by lia.
  set (l := drop (Z.to_nat (v6 / 8)) a) in *.
  assert (is_Some (l !! Z.to_nat k)) as [b Eb].
  { apply lookup_lt_is_Some. unfold l. rewrite length_drop, Hl.
    assert (0 <= v6 / 8) by (Z.div_mod_to_equations; lia). lia. }
  rewrite Eb. cbn. eexists. split; [f_equal; f_equal; lia|].
  assert (is_byte b = true) as Hbb.
  { rewrite Forall_forall in Hbytes. apply Hbytes, (list_elem_of_lookup_2 a (Z.to_nat (v6 / 8) + Z.to_nat k)).
    unfold l in Eb. by rewrite lookup_drop in Eb. }
  replace (Z.to_nat (k + 1)) with (S (Z.to_nat k)) by lia.
  rewrite (take_S_r _ _ _ Eb), host_order_snoc by (by apply is_byte_spec).
  rewrite !u32_lor, u32_shl_ulong. f_equal. by apply u32_shiftl.
Qed.

(** The result of the calculation for any EA length of at most 48 bits. *)
Lemma CalculatePsidAndV4Index_slices s a v6 iapd v4 :
  inet_pton6 s = Some a -> is_addr a ->
  0 <= v6 < iapd -> iapd - v6 <= 48 -> iapd <= 120 -> 1 <= v4 <= 32 ->
  0 <= (iapd - v6) - (32 - v4) < 32 -> EA_start_pos v6 (iapd - v6) - (32 - v4) <= 30 ->
  let lost := Z.max 0 (EA_start_pos v6 (iapd - v6) - 31) in
  WanManager_CalculatePsidAndV4Index s v6 iapd v4 =
    Some (MAPT_RETURN_OK
      (s32 (addr_slice a (v6 + (32 - v4)) ((iapd - v6) - (32 - v4))))
      (s32 (addr_slice a (v6 + lost) (32 - v4 - lost)))
      ((iapd - v6) - (32 - v4))).
Proof.
  intros Ep Ha H6 HE H120 H4 Hq Hpos lost. unfold WanManager_CalculatePsidAndV4Index.
  replace (iapd <=? v6) with false by lia. rewrite Ep.
  destruct (EA_window a v6 (iapd - v6)) as (Hm & Hp & v & t & Eb & v' & Ev & Hv); [done|lia..|].
  rewrite Eb. cbn -[Z.mul Z.add Z.sub Z.div Z.modulo Z.eqb mbind option_bind]. cbn [mbind option_bind].
  rewrite Ev. cbn [mbind option_bind]. set (m := EA_len8 (iapd - v6) + _) in *.
  set (p := EA_start_pos v6 (iapd - v6)) in *.
  assert (0 <= v6 / 8 /\ 0 <= v6 mod 8 < 8 /\ v6 = 8 * (v6 / 8) + v6 mod 8) as H8
    by (Z.div_mod_to_equations; lia).
  assert (iapd - v6 <= p + 1 <= iapd - v6 + 14) as Hlen.
  { unfold p, EA_start_pos, EA_len8. destruct (v6 mod 8 =? 0) eqn:E; Z.div_mod_to_equations; lia. }
  assert (0 <= m /\ p < 8 * m) as Hm2
    by (unfold m, EA_len8 in *; destruct (v6 mod 8 =? 0); Z.div_mod_to_equations; lia).
  destruct (GetMAPTbits_defined v' p (32 - v4)) as [r1 E1]; [lia..|].
  destruct (GetMAPTbits_defined v' (p - (32 - v4)) ((iapd - v6) - (32 - v4))) as [r2 E2]; [lia..|].
  rewrite E1, E2. cbn [mbind option_bind].
  apply (GetMAPTbits_slice a (v6 / 8) m) in E1; [|done|lia..|done].
  apply (GetMAPTbits_slice a (v6 / 8) m) in E2; [|done|lia..|done].
  cbv zeta in E1, E2. fold lost in E1. replace (Z.max 0 (p - (32 - v4) - 31)) with 0 in E2 by lia.
  rewrite E1, E2. do 2 f_equal; do 2 f_equal; lia.
Qed.

(** * Port ranges *)

(** The offset used for 0. *)
Definition psid_offset (offset : Z) : Z := if offset =? 0 then 6 else offset.

Lemma elem_of_range_from k n x : 0 <= k -> x ∈ range_from k n <-> k <= x < n.
Proof.
  intros Hk. unfold range_from. rewrite list_elem_of_fmap. split.
  - intros (y & -> & Hy%elem_of_seq). lia.
  - intros Hx. exists (Z.to_nat x). split; [lia|]. apply elem_of_seq. lia.
Qed.

Lemma shl_int_small b n : 0 <= n -> 0 <= b * 2 ^ n < 2 ^ 31 -> shl_int b n = b * 2 ^ n.
Proof. intros Hn Hb. unfold shl_int. rewrite Z.shiftl_mul_pow2 by done. apply s32_small. lia. Qed.

(** The bounds of the ranges, without the wrap-around. *)
Lemma mapt_port_ranges_eq offset psidLen psid :
  0 <= offset -> 0 <= psidLen -> psidLen + psid_offset offset <= 16 -> 0 <= psid < 2 ^ psidLen ->
  let k := psid_offset offset in let m := 16 - psidLen - k in
  mapt_port_ranges offset psidLen psid =
    Some ((fun j => (j * 2 ^ (16 - k) + psid * 2 ^ m, j * 2 ^ (16 - k) + psid * 2 ^ m + (2 ^ m - 1)))
          <$> range_from 1 (2 ^ k)).
Proof.
  intros Ho Hl Hk Hp k m. unfold mapt_port_ranges.
  change (if offset =? 0 then 6 else offset) with k.
  assert (1 <= k) as Hk1 by (unfold k, psid_offset; destruct (offset =? 0) eqn:E; lia). fold k in Hk.
  replace (16 - (psidLen + k)) with m by lia.
  destruct (_ && _) eqn:E; [|lia]. f_equal.
  assert (2 ^ k * 2 ^ (16 - k) = 2 ^ 16) as E1 by (rewrite <- Z.pow_add_r by lia; f_equal; lia).
  assert (2 ^ psidLen * 2 ^ m = 2 ^ (16 - k)) as E2 by (rewrite <- Z.pow_add_r by lia; f_equal; lia).
  pose proof (Z.pow_pos_nonneg 2 k). pose proof (Z.pow_pos_nonneg 2 (16 - k)).
  pose proof (Z.pow_pos_nonneg 2 m). pose proof (Z.pow_pos_nonneg 2 psidLen).
  assert (2 ^ m <= 2 ^ 16) by (apply Z.pow_le_mono_r; lia).
  assert (2 ^ k <= 2 ^ 16) by (apply Z.pow_le_mono_r; lia).
  change (2 ^ 16) with 65536 in *.
  rewrite !(shl_int_small 1) by lia. rewrite !Z.mul_1_l.
  apply list_fmap_ext. intros i j Hj.
  apply list_elem_of_lookup_2, elem_of_range_from in Hj; [|lia].
  assert (psid * 2 ^ m + 2 ^ m <= 2 ^ (16 - k)) by nia.
  assert (0 <= j * 2 ^ (16 - k) /\ j * 2 ^ (16 - k) + 2 ^ (16 - k) <= 65536) by nia.
  rewrite !shl_int_small by nia. rewrite !s32_small by nia. done.
Qed.

Lemma strlen_pretty_go (d : nat) x s :
  (x < 10 ^ N.of_nat d)%N -> strlen (pretty_N_go x s) <= Z.of_nat d + strlen s.
Proof.
  revert x s. induction d as [|d IH]; intros x s Hx.
  - replace x with 0%N by (change (10 ^ N.of_nat 0)%N with 1%N in Hx; lia). rewrite pretty_N_go_0. lia.
  - destruct (decide (x = 0%N)) as [->|Hn]; [rewrite pretty_N_go_0; lia|].
    rewrite pretty_N_go_step by lia. etransitivity; [apply IH|].
    + rewrite Nat2N.inj_succ, N.pow_succ_r' in Hx. by apply N.Div0.div_lt_upper_bound.
    + unfold strlen. cbn [String.length]. lia.
Qed.
Lemma strlen_port n : 0 <= n < 65536 -> strlen (dec n) <= 5.
Proof.
  intros Hn. destruct n as [|p|p]; [done| |lia].
  change (dec (Z.pos p)) with (pretty_N_go (N.pos p) "").
  etransitivity; [apply (strlen_pretty_go 5)|done]. change (10 ^ N.of_nat 5)%N with 100000%N. lia.
Qed.

(** A range needs at most two ports of five digits and two commas. *)
Lemma strlen_port_ranges l :
  Forall (fun r => 0 <= fst r < 65536 /\ 0 <= snd r < 65536) l ->
  l <> [] -> strlen (port_range_text l) <= 12 * Z.of_nat (length l) - 1.
Proof.
  induction l as [|[i f] l IH]; [done|]. rewrite Forall_cons. intros [[Hi Hf] Hl] _.
  cbn [fst snd] in *. pose proof (strlen_port i Hi). pose proof (strlen_port f Hf).
  destruct l as [|r l].
  - cbn [port_range_text length]. rewrite !strlen_app. change (strlen ",") with 1. lia.
  - change (port_range_text ((i, f) :: r :: l)) with (dec i +:+ "," +:+ dec f +:+ "," +:+ port_range_text (r :: l)).
    rewrite !strlen_app. change (strlen ",") with 1.
    specialize (IH Hl ltac:(done)). cbn [length] in *. lia.
Qed.

(** * [inet_pton] returns sixteen bytes *)

(** What the scanner of [inet_pton6] knows of its position. *)
Record pton6_at (tp : list Z) (colonp : option nat) (xdigits val : Z) : Prop := {
  at6_bytes : Forall (fun b => is_byte b = true) tp;
  at6_room : (length tp <= 16)%nat;
  at6_colon : forall n, colonp = Some n -> (n <= length tp)%nat;
  at6_digits : 0 <= xdigits <= 4;
  at6_val : 0 <= val < 16 ^ xdigits
}.

Lemma group_bytes val xdigits :
  0 <= xdigits <= 4 -> 0 <= val < 16 ^ xdigits -> is_byte (val mod 256) = true /\ is_byte (val / 256) = true.
Proof.
  intros Hx Hv. assert (16 ^ xdigits <= 16 ^ 4) by (apply Z.pow_le_mono_r; lia).
  change (16 ^ 4) with 65536 in *. rewrite !is_byte_spec. split; Z.div_mod_to_equations; lia.
Qed.

Lemma pton6_finish_addr tp colonp xdigits val l :
  pton6_at tp colonp xdigits val -> inet_pton6_finish tp colonp xdigits val = Some l -> is_addr l.
Proof.
  intros [Hb Hr Hc Hx Hv] E. unfold inet_pton6_finish in E.
  destruct (group_bytes val xdigits Hx Hv) as [H1 H2].
  assert (exists tp', Forall (fun b => is_byte b = true) tp' /\ (length tp' <= 16)%nat /\
    (forall n, colonp = Some n -> (n <= length tp')%nat) /\
    match colonp with
    | Some n => if (length (rev tp') =? 16)%nat then None
                else Some (take n (rev tp') ++ replicate (16 - length (rev tp')) 0 ++ drop n (rev tp'))
    | None => if (length (rev tp') =? 16)%nat then Some (rev tp') else None
    end = Some l) as (tp' & Hb' & Hr' & Hc' & E').
  { destruct (0 <? xdigits).
    - destruct (16 <? _) eqn:E16; [done|]. exists (val mod 256 :: val / 256 :: tp).
      split; [by repeat constructor|]. cbn [length]. split; [lia|]. split; [|done].
      intros n Hn. specialize (Hc n Hn). lia.
    - by exists tp. }
  assert (Forall (fun b => is_byte b = true) (rev tp')) as Hrev by (by apply Forall_rev).
  pose proof (length_rev tp') as Hl. destruct colonp as [n|].
  - destruct (_ =? 16)%nat eqn:E16; [done|]. injection E' as <-. specialize (Hc' n eq_refl). split.
    + rewrite !length_app, length_take, length_replicate, length_drop. lia.
    + rewrite !Forall_app. split; [by apply Forall_take|]. split; [|by apply Forall_drop].
      apply Forall_replicate. done.
  - destruct (_ =? 16)%nat eqn:E16; [|done]. injection E' as <-. split; [lia | done].
Qed.

Lemma hex_digit_value_range c d : hex_digit_value c = Some d -> 0 <= d < 16.
Proof.
  unfold hex_digit_value. generalize (code c). cbv zeta. intros n E.
  repeat match type of E with (if ?b then _ else _) = _ => destruct b eqn:? end;
    try done; injection E as <-; lia.
Qed.
Lemma inet_pton4_length s l :
  inet_pton4 s = Some l -> length l = 4%nat /\ Forall (fun b => is_byte b = true) l.
Proof. intros (a & b & c & d & H & -> & _)%inet_pton4_Some. done. Qed.

Lemma pton6_loop_addr s curtok tp colonp xdigits val l :
  pton6_at tp colonp xdigits val -> inet_pton6_loop s curtok tp colonp xdigits val = Some l -> is_addr l.
Proof.
  revert curtok tp colonp xdigits val. induction s as [|ch s IH]; intros curtok tp colonp xdigits val Hat E;
    cbn [inet_pton6_loop] in E; [exact (pton6_finish_addr _ _ _ _ _ Hat E)|].
  destruct Hat as [Hb Hr Hc Hx Hv]. destruct (hex_digit_value ch) as [d|] eqn:Ed.
  - apply hex_digit_value_range in Ed. destruct (xdigits =? 4) eqn:E4; [done|].
    apply (IH _ _ _ _ _) in E; [done|]. split; try done; [lia|].
    rewrite Z.pow_add_r by lia. lia.
  - destruct (group_bytes val xdigits Hx Hv) as [H1 H2].
    case_bool_decide; [destruct (xdigits =? 0) eqn:E0|].
    + destruct colonp; [done|]. apply IH in E; [done|]. split; try done.
      * by intros n [= <-].
      * by replace xdigits with 0 in Hv by lia.
    + case_bool_decide; [done|]. destruct (16 <? _) eqn:E16; [done|].
      apply IH in E; [done|]. split; cbn [length]; try done; try lia.
      * by repeat constructor.
      * intros n Hn. specialize (Hc n Hn). lia.
    + destruct (_ && _) eqn:Edot; [|done]. destruct (inet_pton4 curtok) as [q|] eqn:Eq; [|done].
      apply inet_pton4_length in Eq as [Hq Hqb].
      change (inet_pton6_finish (rev q ++ tp) colonp 0 0 = Some l) in E.
      apply pton6_finish_addr in E; [done|]. split; rewrite ?length_app, ?length_rev; try done; try lia.
      * apply Forall_app. split; [by apply Forall_rev | done].
      * intros n Hn. specialize (Hc n Hn). lia.
Qed.

(** The addresses [inet_pton] returns are sixteen bytes. *)
Lemma inet_pton6_is_addr s l : inet_pton6 s = Some l -> is_addr l.
Proof.
  assert (pton6_at [] None 0 0) as H0 by (split; cbn; try done; lia).
  destruct s as [|c s]; [done|]. unfold inet_pton6.
  case_bool_decide; [|apply (pton6_loop_addr _ _ _ _ _ _ _ H0)].
  destruct s as [|c2 s]; [done|]. case_bool_decide; [|done]. apply (pton6_loop_addr _ _ _ _ _ _ _ H0).
Qed.

(** * The subnet mask *)

(** The loop over a mask of [n] bits ends within [n] rounds. *)
Lemma subnet_count_ends (n : nat) mask count :
  0 <= mask < 2 ^ Z.of_nat n -> 0 <= count -> count + Z.of_nat n < 2 ^ 32 ->
  exists c, subnet_count n mask count = Some c /\ count <= c <= count + Z.of_nat n.
Proof.
  revert mask count. induction n as [|n IH]; intros mask count Hm Hc Hn; cbn [subnet_count].
  - change (2 ^ Z.of_nat 0) with 1 in Hm. replace (mask =? 0) with true by lia. exists count. split; [done | lia].
  - destruct (mask =? 0); [exists count; split; [done | lia]|].
    rewrite Nat2Z.inj_succ, Z.pow_succ_r in Hm by lia.
    rewrite Z.shiftr_div_pow2 by lia. change (2 ^ 1) with 2.
    assert (0 <= Z.land mask 1 <= 1) as Hl
      by (change 1 with (Z.ones 1); rewrite Z.land_ones by lia; change (2 ^ 1) with 2;
          pose proof (Z.mod_pos_bound mask 2); change (Z.ones 1) with 1; lia).
    rewrite u32_small by lia.
    destruct (IH (mask / 2) (count + Z.land mask 1)) as (c & -> & Hb);
      [Z.div_mod_to_equations; lia | lia | lia|].
    exists c. split; [done | lia].
Qed.

(** * Addresses *)

Lemma inet_pton4_ip_text v :
  0 <= v < 2 ^ 32 ->
  exists l, inet_pton4 (ip_text v) = Some l /\ host_order l = v /\
    l = [Z.land (Z.shiftr v 24) 255; Z.land (Z.shiftr v 16) 255; Z.land (Z.shiftr v 8) 255;
         Z.land (Z.shiftr v 0) 255].
Proof.
  intros Hv. eexists. split; [|split; [|reflexivity]].
  - apply inet_pton4_dotted; apply Is_true_true, is_byte_spec; change 255 with (Z.ones 8);
      rewrite Z.land_ones by lia; apply Z.mod_pos_bound; lia.
  - change 255 with (Z.ones 8). rewrite !Z.land_ones, !Z.shiftr_div_pow2 by lia.
    unfold host_order. cbn [foldl]. change (2 ^ 8) with 256. change (2 ^ 16) with (256 * 256).
    change (2 ^ 24) with (256 * 256 * 256). change (2 ^ 0) with 1. change (2 ^ 32) with 4294967296 in Hv.
    Z.div_mod_to_equations; lia.
Qed.
Lemma land_byte x : is_byte (Z.land x 255) = true.
Proof.
  apply is_byte_spec. change 255 with (Z.ones 8). rewrite Z.land_ones by lia. by apply Z.mod_pos_bound.
Qed.

Lemma ConfigureIpv6Sysevents_parse old s a v psid :
  inet_pton6 s = Some a -> 0 <= v < 2 ^ 32 ->
  exists text l, WanManager_ConfigureIpv6Sysevents old s (ip_text v) psid = Some text /\
    inet_pton4 (ip_text v) = Some l /\ host_order l = v /\
    inet_pton6 text = Some (take 8 a ++ [0; 0] ++ l ++ [Z.land (Z.shiftr psid 8) 255; Z.land psid 255]).
Proof.
  intros Hs Hv. destruct (inet_pton4_ip_text v Hv) as (l & El & Hh & Hl).
  destruct (inet_pton6_is_addr s a Hs) as [Ha Hb].
  unfold WanManager_ConfigureIpv6Sysevents. rewrite El, Hs, Hh, u32_small by done. cbn [mbind option_bind].
  eexists _, l. split; [reflexivity|]. split; [done|]. split; [done|]. rewrite inet_pton6_groups.
  - by rewrite Hl.
  - rewrite length_app, length_take, Ha. done.
  - apply Forall_app. split; [by apply Forall_take|]. repeat constructor; apply land_byte.
Qed.

Section Runs.
Context `{Platform} `{Build} {C : Type}.

Lemma wp_GetLANIPAddress (s : St C) :
  wp WanManager_GetLANIPAddress (fun _ s' => db s' = db s) s.
Proof.
  unfold WanManager_GetLANIPAddress, syscfg_get. apply wp_bind, wp_bind, wp_call_s. intros r. apply wp_ret.
  destruct (fst r =? 0); [|by apply wp_ret].
  apply wp_bind, wp_bind, wp_call_s. intros r2. apply wp_ret.
  destruct (fst r2 =? 0); [|by apply wp_ret].
  apply wp_bind, wp_call. intros n.
  destruct (subnet_count_ends 32 (u32 n) 0) as (c & Ec & _); [apply u32_range | lia | lia|].
  apply wp_bind. eapply wp_deref; [done|]. by apply wp_ret.
Qed.
End Runs.

(** * The text of the port ranges *)

Lemma port_range_text_fits offset psidLen psid :
  0 <= offset <= 6 -> 0 <= psidLen -> psidLen + psid_offset offset <= 16 -> 0 <= psid < 2 ^ psidLen ->
  exists text, WanManager_CalculateMAPTPortRange offset psidLen psid = Some text /\
    strlen text + 1 < BUFLEN_1024.
Proof.
  intros Ho Hl Hk Hp. unfold WanManager_CalculateMAPTPortRange.
  rewrite mapt_port_ranges_eq by (done || lia). eexists. split; [reflexivity|].
  set (k := psid_offset offset) in *. set (m := 16 - psidLen - k).
  assert (1 <= k <= 6) as Hk1 by (unfold k, psid_offset; destruct (offset =? 0) eqn:E; lia).
  pose proof (Z.pow_pos_nonneg 2 m). pose proof (Z.pow_pos_nonneg 2 (16 - k)).
  assert (2 ^ psidLen * 2 ^ m = 2 ^ (16 - k)) as E1 by (rewrite <- Z.pow_add_r by lia; f_equal; lia).
  assert (2 ^ k * 2 ^ (16 - k) = 65536) as E2
    by (rewrite <- Z.pow_add_r by lia; replace (k + (16 - k)) with 16 by lia; done).
  assert (2 ^ 1 <= 2 ^ k) by (apply Z.pow_le_mono_r; lia).
  assert (2 ^ k <= 2 ^ 6) by (apply Z.pow_le_mono_r; lia).
  change (2 ^ 1) with 2 in *. change (2 ^ 6) with 64 in *.
  eapply Z.le_lt_trans; [apply Z.add_le_mono_r, strlen_port_ranges|].
  - apply Forall_fmap, Forall_forall. intros j Hj%elem_of_range_from; [|lia]. cbn.
    assert (psid * 2 ^ m + 2 ^ m <= 2 ^ (16 - k)) by nia.
    assert (0 <= j * 2 ^ (16 - k) /\ j * 2 ^ (16 - k) + 2 ^ (16 - k) <= 65536) by nia. nia.
  - unfold range_from. replace (Z.to_nat (2 ^ k) - Z.to_nat 1)%nat with (S (Z.to_nat (2 ^ k) - 2)) by lia.
    done.
  - unfold range_from. rewrite !length_fmap, length_seq. unfold BUFLEN_1024. lia.
Qed.
