(* ===== verification/MaptRuns.v ===== *)
(** Runs of the MAP-T procedures: what they publish and what they keep. *)

From S2P Require Export MaptFacts.

(** * Runs of the procedures *)

(** What the procedures leave alone until they are done: the sysevents and the
    MAP IPv6 address. *)
Definition mapt_view {C} (s : St C) : gmap string string * string := (sys s, w_ipv6AddressString (db s)).

Section MaptRuns.
Context `{Platform} `{Build} `{MaptBuild} {C : Type}.
#[local] Abbreviation view := (@mapt_view C).

#[local] Hint Unfold WanManager_DoSystemAction WanManager_DoSystemActionWithStatus syscfg_get v_secure_system : monad.

Lemma keeps_UPnP b : Keeps view (WanMgr_RdkBus_ConfigureUPnPIGDService b).
Proof.
  unfold WanMgr_RdkBus_ConfigureUPnPIGDService, WanMgr_RdkBus_SetParamValues. keeps_tac.
Qed.
Lemma total_UPnP b : Total (S := St C) (WanMgr_RdkBus_ConfigureUPnPIGDService b).
Proof.
  unfold WanMgr_RdkBus_ConfigureUPnPIGDService, WanMgr_RdkBus_SetParamValues. total_tac.
Qed.
Lemma keeps_defgateway : Keeps view mapt_wait_defgateway.
Proof. unfold mapt_wait_defgateway, get_V6_defgateway_wan_interface. keeps_tac. Qed.
Lemma total_defgateway : Total (S := St C) mapt_wait_defgateway.
Proof. unfold mapt_wait_defgateway, get_V6_defgateway_wan_interface. total_tac. Qed.
Lemma keeps_Display : Keeps view WanManager_DisplayMAPTFeatureStatus.
Proof. unfold WanManager_DisplayMAPTFeatureStatus. keeps_tac. Qed.
Lemma total_Display : Total (S := St C) WanManager_DisplayMAPTFeatureStatus.
Proof. unfold WanManager_DisplayMAPTFeatureStatus. total_tac. Qed.

(** The port ranges the options ask for can be computed and fit. *)
Definition ports_ok (msg : ipc_mapt_data_t) (cfg : WANMGR_MAPT_CONFIG_DATA) : Prop :=
  0 <= mt_psidOffset msg <= 6 /\ 0 <= mc_psidLen cfg /\
  mc_psidLen cfg + psid_offset (mt_psidOffset msg) <= 16 /\
  0 <= mc_psidValue cfg < 2 ^ mc_psidLen cfg.

Lemma keeps_ftp_module msg cfg : Keeps view (mapt_ftp_module msg cfg).
Proof. unfold mapt_ftp_module, isModuleLoaded. keeps_tac. Qed.
Lemma total_ftp_module msg cfg : ports_ok msg cfg -> Total (S := St C) (mapt_ftp_module msg cfg).
Proof.
  intros (Ho & Hl & Hs & Hp). unfold mapt_ftp_module, isModuleLoaded.
  destruct (port_range_text_fits (mt_psidOffset msg) (mc_psidLen cfg) (mc_psidValue cfg))
    as (text & E & Ht); [done..|].
  rewrite E. change (deref (Some text)) with (ret (S := St C) text).
  match goal with |- context [bind (ret text) ?k] => change (bind (ret text) k) with (k text) end.
  cbv beta. replace (BUFLEN_1024 <=? strlen text + 1) with false by lia. total_tac.
Qed.

(** A step the view survives. *)
Lemma wp_mapt_quiet {A} (m : Prelude.M (St C) A) Q v s :
  Total m -> Keeps view m -> view s = v -> (forall a s', view s' = v -> Q a s') -> wp m Q s.
Proof.
  intros Ht Hk Hv HQ. eapply wp_mono; [by apply (wp_total view)|]. intros a s' Hs. apply HQ. by rewrite Hs.
Qed.

(** A command that may end the procedure. *)
Lemma wp_run_or_return cmd next (Q : Z -> St C -> Prop) v s :
  view s = v -> (forall s', view s' = v -> wp next Q s') ->
  (forall r s', r < 0 -> view s' = v -> Q r s') -> wp (run_or_return cmd next) Q s.
Proof.
  intros Hv Hn Hr. unfold run_or_return, WanManager_DoSystemActionWithStatus.
  apply wp_bind, wp_call. intros r. apply wp_if; intros Er; [apply wp_ret, Hr; [lia | done] | by apply Hn].
Qed.
Lemma wp_run_all_or_return cmds next (Q : Z -> St C -> Prop) v s :
  view s = v -> (forall s', view s' = v -> wp next Q s') ->
  (forall r s', r < 0 -> view s' = v -> Q r s') -> wp (run_all_or_return cmds next) Q s.
Proof.
  intros Hv Hn Hr. revert s Hv. induction cmds as [|c cmds IH]; intros s Hv; [by apply Hn|].
  by apply (wp_run_or_return _ _ _ v).
Qed.

(** The sysevents [maptInfo_set] publishes, last first. *)
Definition mapt_sysevents (m : MaptData_t) : gmap string string := list_to_map [
  ("map_ea_length", dec (s32 (md_eaLen m)));
  ("map_is_fmr", if md_isFMR m then "TRUE" else "FALSE");
  ("map_transport_mode",
     if md_maptAssigned m then "MAPT" else if md_mapeAssigned m then "MAPE" else "NON-MAP");
  ("mapt_psid_length", dec (s32 (md_psidLen m)));
  ("mapt_psid_value", dec (s32 (md_psidValue m)));
  ("mapt_psid_offset", dec (s32 (md_psidOffset m)));
  ("map_rule_ipv6_address", md_ruleIpv6AddressString m);
  ("mapt_ipv6_address", md_ipv6AddressString m);
  ("map_rule_ip_address", md_ruleIpAddressString m);
  ("map_br_ipv6_prefix", md_brIpv6PrefixString m);
  ("mapt_ip_address", md_ipAddressString m);
  ("mapt_ratio", dec (s32 (md_ratio m)));
  ("mapt_config_flag", md_maptConfigFlag m)]%string.
(** The sysevents [maptInfo_reset] publishes. *)
Definition mapt_reset_sysevents : gmap string string := list_to_map [
  ("map_ea_length", ""); ("map_is_fmr", ""); ("map_transport_mode", "NONE");
  ("mapt_psid_length", ""); ("mapt_psid_value", ""); ("mapt_psid_offset", "");
  ("mapt_ipv6_address", ""); ("mapt_ip_address", ""); ("mapt_ratio", "");
  ("mapt_config_flag", "reset")]%string.

Lemma list_to_map_insert (l : list (string * string)) (m : gmap string string) :
  list_to_map l ∪ m = foldr (fun kv m => <[kv.1 := kv.2]> m) m l.
Proof.
  induction l as [|[k v] l IH]; cbn [foldr list_to_map]; [apply (left_id_L ∅ (∪))|].
  by rewrite <- insert_union_l, IH.
Qed.

(** A sequence of [sysevent_set]. *)
Lemma wp_sysevent_set name value (Q : unit -> St C -> Prop) (s s0 : St C) m :
  sys s = m -> db s = db s0 ->
  (forall s', sys s' = <[name := value]> m -> db s' = db s0 -> Q tt s') ->
  wp (sysevent_set name value) Q s.
Proof. intros Hm Hd HQ. apply wp_modify, HQ; [by rewrite <- Hm | done]. Qed.
Ltac sysevents_tac :=
  match goal with |- wp _ _ ?s => 
    repeat (first [apply wp_bind; eapply (wp_sysevent_set _ _ _ _ s) | eapply (wp_sysevent_set _ _ _ _ s)];
      [eassumption || reflexivity | assumption || reflexivity |]; intros ? ? ?);
    (split; assumption)
  end.

Lemma wp_maptInfo_set m (s : St C) :
  wp (maptInfo_set m) (fun _ s' => sys s' = mapt_sysevents m ∪ sys s /\ db s' = db s) s.
Proof. unfold mapt_sysevents. rewrite list_to_map_insert. unfold maptInfo_set. sysevents_tac. Qed.
Lemma wp_maptInfo_reset (s : St C) :
  wp maptInfo_reset (fun _ s' => sys s' = mapt_reset_sysevents ∪ sys s /\ db s' = db s) s.
Proof. unfold mapt_reset_sysevents. rewrite list_to_map_insert. unfold maptInfo_reset. sysevents_tac. Qed.

(** ** The outcome of a procedure *)

(** On an error nothing was published; on success [pub] was, and the firewall
    restarted. *)
Definition published (pub : gmap string string) (s : St C) (r : Z) (s' : St C) : Prop :=
  w_ipv6AddressString (db s') = w_ipv6AddressString (db s) /\
  (r < 0 /\ sys s' = sys s \/
   r = 0 /\ sys s' = <[SYSEVENT_FIREWALL_RESTART := ""]> (pub ∪ sys s)).

Lemma published_error pub s r s' : r < 0 -> view s' = view s -> published pub s r s'.
Proof. intros Hr [= Ha Hb]. split; [done | by left]. Qed.

Lemma wp_ResetMAPTConfiguration baseIf vlanIf (s : St C) :
  wp (WanManager_ResetMAPTConfiguration baseIf vlanIf) (published mapt_reset_sysevents s) s.
Proof.
  unfold WanManager_ResetMAPTConfiguration.
  apply (wp_run_or_return _ _ _ (view s)); [done| |intros; by apply published_error]. intros s1 Hs1.
  apply (wp_run_or_return _ _ _ (view s)); [done| |intros; by apply published_error]. intros s2 [= Ha Hb].
  apply wp_bind. eapply wp_mono; [apply wp_maptInfo_reset|]. intros _ s3 [H3 H4].
  apply wp_bind. apply (wp_mapt_quiet _ _ (view s3)); [apply total_UPnP | apply keeps_UPnP | done|].
  intros _ s4 [= H5 H6]. split.
  - rewrite <- Hb, <- H4. exact H6.
  - right. split; [done|]. by rewrite <- Ha, <- H3, <- H5.
Qed.

Lemma wp_ProcessMAPTConfiguration msg cfg baseIf ipv6Data (s : St C) :
  ports_ok msg cfg ->
  wp (WanManager_ProcessMAPTConfiguration msg cfg baseIf ipv6Data)
    (published (mapt_sysevents (mapt_info msg cfg (w_ipv6AddressString (db s)))) s) s.
Proof.
  intros Hok. unfold WanManager_ProcessMAPTConfiguration.
  assert (forall r s', r < 0 -> view s' = view s ->
    published (mapt_sysevents (mapt_info msg cfg (w_ipv6AddressString (db s)))) s r s') as Herr
    by (intros; by apply published_error).
  apply wp_bind, wp_call_s. intros partner. cbv zeta.
  apply wp_bind. apply (wp_mapt_quiet _ _ (view s)); [| | done|].
  { destruct (1 <? mt_ratio msg); [apply total_UPnP | apply total_ret]. }
  { apply keeps_when, keeps_UPnP. }
  intros _ s1 Hs1.
  apply (wp_run_or_return _ _ _ (view s)); [done| |done]. intros s2 H2.
  apply (wp_run_or_return _ _ _ (view s)); [done| |done]. intros s3 H3.
  apply wp_bind. apply (wp_mapt_quiet _ _ (view s)); [by apply total_ftp_module | apply keeps_ftp_module | done|].
  intros _ s4 H4. apply wp_bind, wp_call. intros r. apply wp_if; intros _; [apply wp_ret, Herr; [lia | done]|].
  do 3 (apply (wp_run_or_return _ _ _ (view s)); [done| |done]; let s1 := fresh "s" in let Hs1 := fresh "Hs" in intros s1 Hs1).
  apply wp_bind. apply (wp_mapt_quiet _ _ (view s)); [apply total_defgateway | apply keeps_defgateway | done|].
  intros [gw|] s10 H10; [|apply wp_ret, Herr; [lia | done]].
  apply wp_bind, wp_gets. apply (wp_run_all_or_return _ _ _ (view s)); [done| |done]. intros s11 H11.
  apply wp_bind. apply (wp_mapt_quiet _ _ (view s)); [unfold when; total_tac | unfold v_secure_system; keeps_tac | done|].
  intros _ s12 [= H7 H7']. injection H10 as _ Hip.
  apply wp_bind. eapply wp_mono; [apply wp_maptInfo_set|]. intros _ s13 [H8 H8'].
  apply wp_bind. unfold sysevent_set. apply wp_modify.
  apply wp_bind. apply (wp_mapt_quiet _ _ (<[SYSEVENT_FIREWALL_RESTART := ""%string]> (sys s13), w_ipv6AddressString (db s13)));
    [apply total_Display | apply keeps_Display | done|].
  intros _ s14 [= H9 H9']. apply wp_ret. split.
  - rewrite <- H7', <- H8'. exact H9'.
  - right. split; [done|]. by rewrite H9, H8, H7, Hip.
Qed.

Lemma wp_VerifyMAPTConfiguration old msg cfg (s : St C) rule a psid idx len :
  inet_pton4 (mt_ruleIPv4Prefix msg) = Some rule -> inet_pton6 (mt_pdIPv6Prefix msg) = Some a ->
  (if (0 <? mt_psidLen msg) && (mt_eaLen msg =? 0)
   then Some (MAPT_RETURN_OK (mt_psid msg) 0 (mt_psidLen msg))
   else WanManager_CalculatePsidAndV4Index (mt_pdIPv6Prefix msg) (mt_v6Len msg)
          (mt_iapdPrefixLen msg) (mt_v4Len msg)) = Some (MAPT_RETURN_OK psid idx len) ->
  wp (WanManager_VerifyMAPTConfiguration old msg cfg) (fun '(st, msg', cfg') s' =>
    mt_ratio msg' <> 0 /\ mc_psidValue cfg' = psid /\ mc_psidLen cfg' = len /\
    exists ip, inet_pton4 (mc_ipAddressString cfg') = Some ip /\
      host_order ip = u32 (host_order rule + idx) /\
      match st with
      | ANSC_STATUS_SUCCESS =>
          inet_pton6 (w_ipv6AddressString (db s')) =
            Some (take 8 a ++ [0; 0] ++ ip ++ [Z.land (Z.shiftr psid 8) 255; Z.land psid 255])
      | _ => st = ANSC_STATUS_FAILURE /\ db s' = db s
      end) s.
Proof.
  intros Er Ea Ec. unfold WanManager_VerifyMAPTConfiguration. cbv zeta.
  set (msg' := if mt_ratio msg =? 0 then _ else msg).
  assert (mt_ratio msg' <> 0) as Hr by (unfold msg'; destruct (mt_ratio msg =? 0) eqn:E; [done | lia]).
  assert (mt_psidLen msg' = mt_psidLen msg /\ mt_eaLen msg' = mt_eaLen msg /\ mt_psid msg' = mt_psid msg /\
    mt_pdIPv6Prefix msg' = mt_pdIPv6Prefix msg /\ mt_v6Len msg' = mt_v6Len msg /\
    mt_iapdPrefixLen msg' = mt_iapdPrefixLen msg /\ mt_v4Len msg' = mt_v4Len msg /\
    mt_ruleIPv4Prefix msg' = mt_ruleIPv4Prefix msg) as (-> & -> & -> & -> & -> & -> & -> & ->)
    by (unfold msg'; by destruct (mt_ratio msg =? 0)).
  clearbody msg'. apply wp_bind.
  eapply wp_mono with (P := fun r s1 => r = MAPT_RETURN_OK psid idx len /\ s1 = s).
  { destruct (_ && _); [injection Ec as -> -> ->; by apply wp_ret | by eapply wp_deref]. }
  intros r s1 [-> ->]. unfold mapt_ipv4_address. rewrite Er.
  destruct (ConfigureIpv6Sysevents_parse old (mt_pdIPv6Prefix msg) a (u32 (host_order rule + idx)) psid)
    as (text & ip & Et & Eip & Hip & Hp6); [done | apply u32_range|].
  apply wp_bind. eapply wp_mono; [apply wp_GetLANIPAddress|]. intros [lan|] s1 Hs1.
  - cbv zeta. match goal with |- context [WanManager_ConfigureIpv6Sysevents ?o ?p ?i ?q] =>
      change (WanManager_ConfigureIpv6Sysevents o p i q) with
        (WanManager_ConfigureIpv6Sysevents o p (ip_text (u32 (host_order rule + idx))) psid) end.
    rewrite Et. apply wp_bind. unfold set_db. apply wp_modify, wp_ret.
    do 3 (split; [done|]). exists ip. done.
  - apply wp_ret. do 3 (split; [done|]). exists ip. done.
Qed.
End MaptRuns.
