(* ===== verification/MaptProps.v ===== *)
(** The properties of the MAP-T configuration. *)

From S2P Require Export MaptRuns Sample.

Lemma addr_slice_range a start n : 0 <= n -> 0 <= addr_slice a start n < 2 ^ n.
Proof. intros Hn. apply Z.mod_pos_bound. lia. Qed.
Lemma s32_slice a start n : 0 <= n < 32 -> s32 (addr_slice a start n) = addr_slice a start n.
Proof.
  intros Hn. apply s32_small. pose proof (addr_slice_range a start n).
  assert (2 ^ n <= 2 ^ 31) by (apply Z.pow_le_mono_r; lia). lia.
Qed.
(** C34: the byte-wise extraction of the EA bits is the bit slice of the
    delegated prefix: when the EA bits fit in the 32-bit parameter of
    [GetMAPTbits], the IPv4 index is the [32 - v4Len] bits of the address after
    the rule prefix and the PSID the remaining EA bits; the PSID length is
    their number. *)
Theorem CalculatePsidAndV4Index_exact s a v6 iapd v4 :
  inet_pton6 s = Some a ->
  0 <= v6 < iapd -> iapd <= 120 -> iapd - v6 <= 48 -> 1 <= v4 <= 32 ->
  32 - v4 <= iapd - v6 < 32 + (32 - v4) -> EA_start_pos v6 (iapd - v6) - (32 - v4) <= 30 ->
  EA_start_pos v6 (iapd - v6) <= 31 ->
  WanManager_CalculatePsidAndV4Index s v6 iapd v4 =
    Some (MAPT_RETURN_OK (addr_slice a (v6 + (32 - v4)) (iapd - v6 - (32 - v4)))
                         (addr_slice a v6 (32 - v4)) (iapd - v6 - (32 - v4))).
Proof.
  intros Ep H6 H120 HE H4 Hq Hpos Hfit.
  rewrite (CalculatePsidAndV4Index_slices s a) by (done || lia || by apply (inet_pton6_is_addr s)). cbv zeta.
  replace (Z.max 0 (EA_start_pos v6 (iapd - v6) - 31)) with 0 by lia.
  rewrite Z.add_0_r, Z.sub_0_r. by rewrite !s32_slice by lia.
Qed.
Lemma CalculatePsidAndV4Index_exact_witness :
  WanManager_CalculatePsidAndV4Index "2001:db8:12ab:cdef::" 32 56 20
    = Some (MAPT_RETURN_OK 3021 298 12).
Proof.
  refine (eq_trans (CalculatePsidAndV4Index_exact "2001:db8:12ab:cdef::"
    [32; 1; 13; 184; 18; 171; 205; 239; 0; 0; 0; 0; 0; 0; 0; 0] 32 56 20
    eq_refl ltac:(lia) ltac:(lia) ltac:(lia) ltac:(lia) ltac:(lia) _ _) _).
  - vm_compute; discriminate.
  - vm_compute; discriminate.
  - vm_compute; reflexivity.
Defined.

(** C38: when the EA bits do not fit, because the bytes gathered for an
    unaligned rule prefix or for more than 32 EA bits are passed through a
    32-bit parameter, the index is returned without its most significant
    bits: as many as the EA start lies above bit 31.  The PSID is unaffected. *)
Theorem CalculatePsidAndV4Index_lost_bits s a v6 iapd v4 :
  inet_pton6 s = Some a ->
  0 <= v6 < iapd -> iapd <= 120 -> iapd - v6 <= 48 -> 1 <= v4 <= 32 ->
  32 - v4 <= iapd - v6 < 32 + (32 - v4) -> EA_start_pos v6 (iapd - v6) - (32 - v4) <= 30 ->
  31 < EA_start_pos v6 (iapd - v6) ->
  let lost := EA_start_pos v6 (iapd - v6) - 31 in
  0 < lost /\
  WanManager_CalculatePsidAndV4Index s v6 iapd v4 =
    Some (MAPT_RETURN_OK (addr_slice a (v6 + (32 - v4)) (iapd - v6 - (32 - v4)))
                         (addr_slice a v6 (32 - v4) mod 2 ^ (32 - v4 - lost))
                         (iapd - v6 - (32 - v4))).
Proof.
  intros Ep H6 H120 HE H4 Hq Hpos Hfit lost. split; [lia|].
  rewrite (CalculatePsidAndV4Index_slices s a) by (done || lia || by apply (inet_pton6_is_addr s)). cbv zeta.
  replace (Z.max 0 (EA_start_pos v6 (iapd - v6) - 31)) with lost by lia.
  rewrite !s32_slice by lia. do 2 f_equal. unfold addr_slice.
  replace (128 - (v6 + lost) - (32 - v4 - lost)) with (128 - v6 - (32 - v4)) by lia.
  replace (2 ^ (32 - v4)) with (2 ^ (32 - v4 - lost) * 2 ^ lost)
    by (rewrite <- Z.pow_add_r by lia; f_equal; lia).
  rewrite Z.rem_mul_r by lia. by rewrite Z.mul_comm, Z_mod_plus_full, Z.mod_mod by lia.
Qed.
(** A [/38] rule and a [/64] prefix: the twelve index bits are 2735, and the
    two most significant are lost. *)
Lemma CalculatePsidAndV4Index_lost_bits_witness :
  addr_slice [32; 1; 13; 184; 18; 171; 205; 239; 0; 0; 0; 0; 0; 0; 0; 0] 38 12 = 2735 /\
  WanManager_CalculatePsidAndV4Index "2001:db8:12ab:cdef::" 38 64 20
    = Some (MAPT_RETURN_OK 3567 687 14).
Proof.
  split; [vm_compute; reflexivity|].
  refine (eq_trans (proj2 (CalculatePsidAndV4Index_lost_bits "2001:db8:12ab:cdef::"
    [32; 1; 13; 184; 18; 171; 205; 239; 0; 0; 0; 0; 0; 0; 0; 0] 38 64 20
    eq_refl ltac:(lia) ltac:(lia) ltac:(lia) ltac:(lia) ltac:(lia) _ _)) _).
  - vm_compute; discriminate.
  - vm_compute; reflexivity.
  - vm_compute; reflexivity.
Defined.

(** C35: the ranges of a PSID are exactly its ports: a port is in one of the
    printed ranges when its [offset] leading bits are not all zero and the
    [psidLen] bits after them are the PSID (the port mapping algorithm of the
    MAP standard), an offset of 0 standing for 6. *)
Theorem mapt_port_ranges_spec offset psidLen psid port :
  0 <= offset -> 0 <= psidLen -> psidLen + psid_offset offset <= 16 -> 0 <= psid < 2 ^ psidLen ->
  0 <= port < 65536 ->
  let k := psid_offset offset in
  exists l, mapt_port_ranges offset psidLen psid = Some l /\
    ((exists r, r ∈ l /\ fst r <= port <= snd r) <->
     Z.shiftr port (16 - k) <> 0 /\ Z.shiftr port (16 - psidLen - k) mod 2 ^ psidLen = psid).
Proof.
  intros Ho Hl Hk Hp Hport k. eexists. split; [by apply mapt_port_ranges_eq|]. cbv zeta. fold k.
  assert (1 <= k) as Hk1 by (unfold k, psid_offset; destruct (offset =? 0) eqn:E; lia). fold k in Hk.
  set (m := 16 - psidLen - k). rewrite !Z.shiftr_div_pow2 by lia.
  replace (16 - k) with (m + psidLen) by lia. rewrite Z.pow_add_r by lia.
  pose proof (Z.pow_pos_nonneg 2 m). pose proof (Z.pow_pos_nonneg 2 psidLen).
  assert (2 ^ k * 2 ^ (m + psidLen) = 65536) as Ek
    by (rewrite <- Z.pow_add_r by lia; replace (k + (m + psidLen)) with 16 by lia; done).
  rewrite Z.pow_add_r in Ek by lia. rewrite <- Z.div_div by lia.
  set (q := port / 2 ^ m).
  assert (2 ^ m * q <= port < 2 ^ m * q + 2 ^ m) as Hq by (unfold q; Z.div_mod_to_equations; lia).
  split.
  - intros (r & Hr & Hin). apply list_elem_of_fmap in Hr as (j & -> & Hj%elem_of_range_from); [|lia].
    cbn [fst snd] in Hin.
    assert (q = j * 2 ^ psidLen + psid) as -> by nia.
    rewrite Z.div_add_l, Z.div_small by lia. split; [lia|].
    by rewrite Z.add_comm, Z_mod_plus_full, Z.mod_small.
  - intros [Hj Hm]. set (j := q / 2 ^ psidLen) in *.
    assert (q = 2 ^ psidLen * j + psid) as Eq by (unfold j; rewrite <- Hm; apply Z.div_mod; lia).
    assert (0 <= q) by (apply Z.div_pos; lia). assert (0 <= j) by (apply Z.div_pos; lia).
    eexists. split.
    + apply list_elem_of_fmap. exists j. split; [reflexivity|]. apply elem_of_range_from; [lia|].
      assert (2 ^ m * (2 ^ psidLen * j) < 65536) by nia. nia.
    + cbn [fst snd]. nia.
Qed.
Lemma mapt_port_ranges_spec_witness :
  exists l, mapt_port_ranges 6 8 52 = Some l /\
    ((exists r, r ∈ l /\ fst r <= 1233 <= snd r) <->
     Z.shiftr 1233 (16 - 6) <> 0 /\ Z.shiftr 1233 (16 - 8 - 6) mod 2 ^ 8 = 52).
Proof. exact (mapt_port_ranges_spec 6 8 52 1233 ltac:(lia) ltac:(lia) ltac:(done) ltac:(lia) ltac:(lia)). Defined.

(** For offsets up to 6, the text of the ranges and its last comma fit in
    the 1024 bytes the caller passes, and each range fits in the 32 bytes it is
    formatted into. *)
Theorem CalculateMAPTPortRange_fits offset psidLen psid :
  0 <= offset <= 6 -> 0 <= psidLen -> psidLen + psid_offset offset <= 16 -> 0 <= psid < 2 ^ psidLen ->
  exists text, WanManager_CalculateMAPTPortRange offset psidLen psid = Some text /\
    strlen text + 1 < BUFLEN_1024.
Proof. apply port_range_text_fits. Qed.
Lemma CalculateMAPTPortRange_fits_witness :
  exists text, WanManager_CalculateMAPTPortRange 6 8 52 = Some text /\ strlen text + 1 < BUFLEN_1024.
Proof. exact (CalculateMAPTPortRange_fits 6 8 52 ltac:(lia) ltac:(lia) ltac:(done) ltac:(lia)). Defined.

(** An offset of 8 overflows the buffer: the options of the server are not
    checked. *)
Lemma CalculateMAPTPortRange_overflow :
  match WanManager_CalculateMAPTPortRange 8 4 15 with
  | Some text => BUFLEN_1024 < strlen text
  | None => False
  end.
Proof. by vm_compute. Qed.

(** * Runs *)

(** C36: for options whose prefixes parse and whose PSID is computed, checking them
    writes the ratio, the PSID and the MAP IPv4 address, which is the rule prefix
    plus the index, modulo 2^32, and either succeeds with the MAP IPv6 address in the
    data base - the first half of the delegated prefix, two zero bytes, that IPv4
    address and the PSID - or fails with the data base as it was. *)
Theorem VerifyMAPTConfiguration_addresses `{Platform} `{Build} {C : Type} old msg cfg (s : St C)
    rule a psid idx len :
  inet_pton4 (mt_ruleIPv4Prefix msg) = Some rule -> inet_pton6 (mt_pdIPv6Prefix msg) = Some a ->
  (if (0 <? mt_psidLen msg) && (mt_eaLen msg =? 0)
   then Some (MAPT_RETURN_OK (mt_psid msg) 0 (mt_psidLen msg))
   else WanManager_CalculatePsidAndV4Index (mt_pdIPv6Prefix msg) (mt_v6Len msg)
          (mt_iapdPrefixLen msg) (mt_v4Len msg)) = Some (MAPT_RETURN_OK psid idx len) ->
  exists st msg' cfg' s', WanManager_VerifyMAPTConfiguration old msg cfg s = Some (st, msg', cfg', s') /\
    mt_ratio msg' <> 0 /\ mc_psidValue cfg' = psid /\ mc_psidLen cfg' = len /\
    exists ip, inet_pton4 (mc_ipAddressString cfg') = Some ip /\
      host_order ip = u32 (host_order rule + idx) /\
      match st with
      | ANSC_STATUS_SUCCESS =>
          inet_pton6 (w_ipv6AddressString (db s')) =
            Some (take 8 a ++ [0; 0] ++ ip ++ [Z.land (Z.shiftr psid 8) 255; Z.land psid 255])
      | _ => st = ANSC_STATUS_FAILURE /\ db s' = db s
      end.
Proof.
  intros Er Ea Ec. destruct (proj1 (wp_run _ _ _) (wp_VerifyMAPTConfiguration old msg cfg s _ _ _ _ _ Er Ea Ec))
    as ([[st msg'] cfg'] & s' & E & HQ). by exists st, msg', cfg', s'.
Qed.

Definition sample_mapt : ipc_mapt_data_t :=
  {| mt_pdIPv6Prefix := "2001:db8:12ab:cdef::"; mt_ruleIPv4Prefix := "192.0.0.0";
     mt_ruleIPv6Prefix := "2001:db8::/32"; mt_brIPv6Prefix := "2001:db8:ffff::/64";
     mt_iapdPrefixLen := 56; mt_v6Len := 32; mt_v4Len := 20; mt_eaLen := 24; mt_psidOffset := 4;
     mt_psidLen := 12; mt_psid := 0; mt_ratio := 0; mt_isFMR := false |}.
Definition sample_mapt_config : WANMGR_MAPT_CONFIG_DATA := mk_WANMGR_MAPT_CONFIG_DATA 3021 "" "" 12.

Lemma VerifyMAPTConfiguration_addresses_witness :
  exists st msg' cfg' s',
    WanManager_VerifyMAPTConfiguration (H := sample_platform 0) 0 sample_mapt sample_mapt_config
      (sample_state tt (sample_db [] [])) = Some (st, msg', cfg', s') /\
    mt_ratio msg' <> 0 /\ mc_psidValue cfg' = 3021 /\ mc_psidLen cfg' = 12 /\
    exists ip, inet_pton4 (mc_ipAddressString cfg') = Some ip /\
      host_order ip = u32 (host_order [192; 0; 0; 0] + 298) /\
      match st with
      | ANSC_STATUS_SUCCESS =>
          inet_pton6 (w_ipv6AddressString (db s')) =
            Some (take 8 [32; 1; 13; 184; 18; 171; 205; 239; 0; 0; 0; 0; 0; 0; 0; 0] ++ [0; 0] ++ ip
                  ++ [Z.land (Z.shiftr 3021 8) 255; Z.land 3021 255])
      | _ => st = ANSC_STATUS_FAILURE /\ db s' = db (sample_state tt (sample_db [] []))
      end.
Proof.
  refine (VerifyMAPTConfiguration_addresses (H := sample_platform 0) (H0 := sample_build) 0 sample_mapt
    sample_mapt_config (sample_state tt (sample_db [] [])) [192; 0; 0; 0]
    [32; 1; 13; 184; 18; 171; 205; 239; 0; 0; 0; 0; 0; 0; 0; 0] 3021 298 12 _ _ _);
  vm_compute; reflexivity.
Defined.

(** C37: in the builds without the IVI kernel modules and for an offset of the PSID
    whose port ranges fit the buffer of the caller ([ports_ok]), configuring MAP-T
    is all or nothing for the firewall: it ends, and either returns an error with the
    sysevents as they were, or returns 0 with every MAP sysevent set to the computed
    configuration and the firewall restarted; the MAP IPv6 address is never
    changed. *)
Theorem ProcessMAPTConfiguration_publishes `{Platform} `{Build} `{MaptBuild} {C : Type}
    msg cfg baseIf ipv6Data (s : St C) :
  ports_ok msg cfg ->
  exists r s', WanManager_ProcessMAPTConfiguration msg cfg baseIf ipv6Data s = Some (r, s') /\
    w_ipv6AddressString (db s') = w_ipv6AddressString (db s) /\
    (r < 0 /\ sys s' = sys s \/
     r = 0 /\ sys s' = <[SYSEVENT_FIREWALL_RESTART := ""%string]>
       (mapt_sysevents (mapt_info msg cfg (w_ipv6AddressString (db s))) ∪ sys s)).
Proof.
  intros Hok. destruct (proj1 (wp_run _ _ _) (wp_ProcessMAPTConfiguration msg cfg baseIf ipv6Data s Hok))
    as (r & s' & E & HQ). by exists r, s'.
Qed.
Lemma ProcessMAPTConfiguration_publishes_witness :
  ports_ok sample_mapt sample_mapt_config /\
  exists r s', WanManager_ProcessMAPTConfiguration (H := sample_platform 0) (H0 := sample_build)
      (H1 := {| MAPT_NAT46_FTP_ACTIVE_MODE := true; COSA_BCM_ARM_XB6 := false |})
      sample_mapt sample_mapt_config "erouter0" zero_WANMGR_IPV6_DATA
      (sample_state tt (sample_db [] [])) = Some (r, s') /\
    w_ipv6AddressString (db s') = ""%string /\
    (r < 0 /\ sys s' = ∅ \/
     r = 0 /\ sys s' = <[SYSEVENT_FIREWALL_RESTART := ""%string]>
       (mapt_sysevents (mapt_info sample_mapt sample_mapt_config "") ∪ ∅)).
Proof.
  assert (ports_ok sample_mapt sample_mapt_config) as Hok by (unfold ports_ok; cbn; lia).
  exact (conj Hok (ProcessMAPTConfiguration_publishes _ _ _ _ _ Hok)).
Defined.

(** Taking the configuration back is all or nothing too, and always ends:
    on success the flag reads [reset] and every key of a running configuration
    is cleared except the three rule keys, which keep their values. *)
Theorem ResetMAPTConfiguration_publishes `{Platform} `{Build} {C : Type} baseIf vlanIf (s : St C) :
  exists r s', WanManager_ResetMAPTConfiguration baseIf vlanIf s = Some (r, s') /\
    (r < 0 /\ sys s' = sys s \/
     r = 0 /\ sys s' !! "mapt_config_flag" = Some "reset" /\
     (forall k, k ∈ ["map_br_ipv6_prefix"; "map_rule_ip_address"; "map_rule_ipv6_address"] ->
        sys s' !! k = sys s !! k) /\
     forall k, k ∈ ["mapt_ratio"; "mapt_ip_address"; "mapt_ipv6_address"; "mapt_psid_offset";
                    "mapt_psid_value"; "mapt_psid_length"; "map_is_fmr"; "map_ea_length"] ->
        sys s' !! k = Some "")%string.
Proof.
  destruct (proj1 (wp_run _ _ _) (wp_ResetMAPTConfiguration baseIf vlanIf s)) as (r & s' & E & _ & HQ).
  exists r, s'. split; [exact E|]. destruct HQ as [[Hr Hs]|[-> Hs]]; [by left|]. right. split; [done|].
  rewrite Hs. split_and!.
  - by rewrite lookup_insert_ne, (lookup_union_Some_l _ _ _ "reset"%string).
  - intros k Hk. repeat (apply elem_of_cons in Hk as [->|Hk];
      [by rewrite lookup_insert_ne, lookup_union_r by done|]). by apply elem_of_nil in Hk.
  - intros k Hk. repeat (apply elem_of_cons in Hk as [->|Hk];
      [by rewrite lookup_insert_ne, (lookup_union_Some_l _ _ _ ""%string)|]). by apply elem_of_nil in Hk.
Qed.

(** The rule prefixes of a configuration stay published after a reset. *)
Lemma ResetMAPTConfiguration_stale :
  (mapt_reset_sysevents ∪ mapt_sysevents (mapt_info sample_mapt sample_mapt_config ""))
    !! "map_br_ipv6_prefix"%string = Some "2001:db8:ffff::/64"%string.
Proof. by vm_compute. Qed.

(** Counting the bits of the LAN mask ends within 32 rounds for every
    32-bit mask, and a mask of [n] leading ones counts [n]. *)
Theorem subnet_count_terminates :
  (forall mask, exists c, subnet_count 32 (u32 mask) 0 = Some c /\ 0 <= c <= 32) /\
  (forall n, 0 <= n <= 32 -> subnet_count 32 (2 ^ 32 - 2 ^ (32 - n)) 0 = Some n).
Proof.
  split.
  - intros mask. apply (subnet_count_ends 32); [apply u32_range | lia | lia].
  - intros n Hn. assert (0 <= n < 33) as Hn' by lia.
    apply (test_range (fun n => subnet_count 32 (2 ^ 32 - 2 ^ (32 - n)) 0 ≟ Some n) 33) in Hn'; [|by vm_compute].
    by apply bool_decide_eq_true in Hn'.
Qed.
