(* ===== verification/AutoPolicy.v ===== *)
(** [source/WanManager/wanmgr_policy_auto_impl.c]: the selection policy of a
    group that tries its interfaces one at a time, the best one first, and
    [WanMgr_Get_ISM_RunningStatus] of [wanmgr_interface_sm.c].

    One thread runs per group; [aw_start] and [aw_iteration] are the parts of
    [WanMgr_AutoWanSelectionProcess] before and inside its loop, and its end is
    that of the parallel-scan policy, [ps_finish].  Each pass locks the active
    interface before the state and releases it after. *)

From S2P Require Export Addresses MaptSetup ParallelScan.

(** The compile-time switches of this file alone. *)
Class AutoBuild := {
  (** [_PLATFORM_RASPBERRYPI_] *)
  PLATFORM_RASPBERRYPI : bool;
  AUTOWAN_ENABLE : bool;
  WAN_MANAGER_SELECTION_SCAN_TIMEOUT_DISABLE : bool
}.

Inductive WcAwPolicyState_t :=
| STATE_AUTO_WAN_INTERFACE_SELECTING
| STATE_AUTO_WAN_INTERFACE_WAITING
| STATE_AUTO_WAN_INTERFACE_SCANNING
| STATE_AUTO_WAN_INTERFACE_TEARDOWN
| STATE_AUTO_WAN_INTERFACE_RECONFIGURATION
| STATE_AUTO_WAN_REBOOT_PLATFORM
| STATE_AUTO_WAN_INTERFACE_ACTIVE
| STATE_AUTO_WAN_INTERFACE_DOWN
| STATE_AUTO_WAN_ERROR
| STATE_AUTO_WAN_TEARING_DOWN
| STATE_AUTO_WAN_SM_EXIT.
#[export] Instance WcAwPolicyState_t_eq_dec : EqDecision WcAwPolicyState_t.
Proof. solve_decision. Defined.

Definition DML_WAN_IFACE_PRIORITY_MAX : Z := 255.
Definition MAX_WanModeToIfaceMap : Z := 2.
Definition WAN_INDEX_DOCSIS : Z := 2.
Definition WAN_INDEX_ETHWAN : Z := 1.
Definition SELECTED_OPERATIONAL_MODE : string := "Device.X_RDKCENTRAL-COM_EthernetWAN.SelectedOperationalMode".

(** [strncasecmp(s, p, strlen(p)) == 0], [p] in lower case. *)
Definition starts_nocase (p s : string) : bool :=
  (lower <$> firstn (String.length p) (String.list_ascii_of_string s)) ≟ String.list_ascii_of_string p.

(** The last-WAN-mode of the base interface. *)
Definition wan_mode_index (I : DML_WAN_IFACE) : Z :=
  if strstr (if_BaseInterface I) "CableModem" then WAN_INDEX_DOCSIS
  else if strstr (if_BaseInterface I) "Ethernet" then WAN_INDEX_ETHWAN
  else WAN_INDEX_DOCSIS.

(** An interface the policy may try next. *)
Definition selectable (I : DML_WAN_IFACE) : bool :=
  sel_Enable (if_Selection I) && (0 <=? sel_Priority (if_Selection I)).

Section AutoPolicy.
Context `{Platform} `{Build} `{AutoBuild}.
#[local] Abbreviation M := (Prelude.M (St WanMgr_Policy_Controller_t)).

Definition syscfg_set_commit (name value : string) : M unit :=
  call_ (ExtCall "syscfg_set_commit" [name; value]).

(** [false] for the index of no interface. *)
Definition WanMgr_Get_ISM_RunningStatus (ifaceIdx : Z) : M bool :=
  with_iface false ifaceIdx (fun p =>
    I <- get_iface p ;;
    r <- for_break (range (if_NoOfVirtIfs I)) (fun virIf_id =>
      k <- deref (WanMgr_getVirtualIfaceById (if_VirtIfList I) virIf_id) ;;
      v <- deref (if_VirtIfList I !! k) ;;
      ret (if v_Interface_SM_Running v then Some tt else None)) ;;
    ret (match r with Some _ => true | None => false end)).

Definition WanMgr_RdkBus_AddAllIntfsToLanBridge (AddToBridge : bool) : M ANSC_STATUS :=
  c <- get_controller ;;
  if negb (pc_WanEnable c) || (pc_TotalIfaces c =? 0) then ret ANSC_STATUS_FAILURE
  else
    for_each (range (pc_TotalIfaces c)) (fun uiLoopCount =>
      PhyPath <- with_iface None uiLoopCount (fun p =>
        I <- get_iface p ;;
        ret (if in_group c I then Some (if_BaseInterface I) else None)) ;;
      match PhyPath with
      | Some PhyPath => when (PhyPath ≠? EmptyString) (WanMgr_RdkBus_AddIntfToLanBridge PhyPath AddToBridge ;; ret tt)
      | None => ret tt
      end) ;;
    ret ANSC_STATUS_SUCCESS.

Definition isLastActiveLinkFromSysCfg (I : DML_WAN_IFACE) : M bool :=
  buf <- syscfg_get "last_wan_mode" ;;
  ret (match buf with
       | Some buf => (if_uiIfaceIdx I <? MAX_WanModeToIfaceMap) && (atoi buf =? wan_mode_index I)
       | None => false
       end).

Definition setActiveLinkToSysCfg : M unit :=
  c <- get_controller ;;
  a <- deref (pc_pWanActiveIfaceData c) ;;
  A <- get_iface a ;;
  syscfg_set_commit "last_wan_mode" (dec (wan_mode_index A)) ;;
  syscfg_set_commit "curr_wan_mode" (dec (wan_mode_index A)).

Definition WanMgr_SetActiveLink (storeValue : bool) : M ANSC_STATUS :=
  c <- get_controller ;;
  if pc_activeInterfaceIdx c =? -1 then ret ANSC_STATUS_FAILURE
  else
    match pc_pWanActiveIfaceData c with
    | None => ret ANSC_STATUS_FAILURE
    | Some a =>
        A <- get_iface a ;;
        when (negb (Bool.eqb (sel_ActiveLink (if_Selection A)) storeValue)) (
          upd_iface a (fun I => I <| if_Selection; sel_ActiveLink := storeValue |>) ;;
          DmlSetWanActiveLinkInPSMDB (u32 (pc_activeInterfaceIdx c)) storeValue ;; ret tt) ;;
        ret ANSC_STATUS_SUCCESS
    end.

Definition WanMgr_GetPrevSelectedInterface : M Z :=
  c <- get_controller ;;
  if pc_TotalIfaces c =? 0 then ret (-1)
  else
    r <- for_break (range (pc_TotalIfaces c)) (fun uiLoopCount =>
      with_iface None uiLoopCount (fun p =>
        I <- get_iface p ;;
        if in_group c I && sel_ActiveLink (if_Selection I) then
          if sel_Enable (if_Selection I) then ret (Some (s32 uiLoopCount))
          else
            DmlSetWanActiveLinkInPSMDB uiLoopCount false ;;
            upd_iface p (fun I => I <| if_Selection; sel_ActiveLink := false |>) ;;
            ret (Some (-1))
        else ret None)) ;;
    ret (default (-1) r).

(** One interface of the loop: [acc] is the index chosen so far and its
    priority. *)
Definition high_priority_iface (c : WanMgr_Policy_Controller_t) (uiLoopCount : Z) (acc : Z * Z)
    : M (Z * Z * option unit) :=
  with_iface (acc, None) uiLoopCount (fun p =>
    I <- get_iface p ;;
    if in_group c I && selectable I then
      v <- deref (head (if_VirtIfList I)) ;;
      if (v_Status v ≠? WAN_IFACE_STATUS_DISABLED)
         || (negb (pc_AllowRemoteInterfaces c) && (if_IfaceType I ≟ REMOTE_IFACE))
      then ret (acc, None)
      else
        better <- (if sel_Priority (if_Selection I) <? snd acc then ret true
                   else if XB6_CBR2_PRODUCT_REQ then isLastActiveLinkFromSysCfg I else ret false) ;;
        ret (if (better : bool) then (s32 uiLoopCount, sel_Priority (if_Selection I)) else acc, None)
    else ret (acc, None)).
Definition WanMgr_Policy_Auto_GetHighPriorityIface : M unit :=
  c <- get_controller ;;
  if negb (pc_WanEnable c) || (pc_TotalIfaces c =? 0) then ret tt
  else
    r <- for_acc (range (pc_TotalIfaces c)) (-1, DML_WAN_IFACE_PRIORITY_MAX) (high_priority_iface c) ;;
    let iSelInterface := fst (fst r) in
    when (negb (iSelInterface =? -1))
      (set_ctl (fun c => c <| pc_activeInterfaceIdx := iSelInterface |>)).

(** A copy of the parallel-scan policy's function in the source. *)
Definition WanMgr_UpdateControllerData : M unit :=
  with_config (
    cfg <- get_db w_Config ;;
    set_ctl (fun c => c <| pc_WanEnable := cfg_Enable cfg |>
                        <| pc_AllowRemoteInterfaces := cfg_AllowRemoteInterfaces cfg |>)) ;;
  n <- WanMgr_IfaceData_GetTotalWanIface ;;
  set_ctl (fun c => c <| pc_TotalIfaces := n |>) ;;
  c <- get_controller ;;
  with_group tt (u32 (pc_GroupInst c - 1)) (fun g =>
    G <- get_group g ;;
    set_ctl (fun c => c <| pc_GroupCfgChanged := g_ConfigChanged G |>
                        <| pc_GroupPersistSelectedIface := g_PersistSelectedIface G |>
                        <| pc_ResetSelectedInterface := g_ResetSelectedInterface G |>)).

Definition WanMgr_ResetActiveLinkOnAllIface : M ANSC_STATUS :=
  c <- get_controller ;;
  if pc_TotalIfaces c =? 0 then ret ANSC_STATUS_FAILURE
  else
    r <- for_break (range (pc_TotalIfaces c)) (fun uiLoopCount =>
      with_iface None uiLoopCount (fun p =>
        I <- get_iface p ;;
        if in_group c I then
          upd_iface p (fun I => I <| if_Selection; sel_ActiveLink := false |>) ;;
          r <- DmlSetWanActiveLinkInPSMDB uiLoopCount false ;;
          ret (if r ≠? ANSC_STATUS_SUCCESS then Some tt else None)
        else ret None)) ;;
    ret (match r with Some _ => ANSC_STATUS_FAILURE | None => ANSC_STATUS_SUCCESS end).

Definition WanMgr_ResetGroupSelectedIface : M ANSC_STATUS :=
  c <- get_controller ;;
  if pc_TotalIfaces c =? 0 then ret ANSC_STATUS_FAILURE
  else WanMgr_SetGroupSelectedIface (pc_GroupInst c) 0 ;; ret ANSC_STATUS_SUCCESS.

Definition reset_iface (c : WanMgr_Policy_Controller_t) (p : iface_ptr) : M unit :=
  I <- get_iface p ;;
  when (in_group c I) (
    v <- deref (head (if_VirtIfList I)) ;;
    when (v_Status v ≟ WAN_IFACE_STATUS_INVALID)
      (upd_iface p (upd_first_vif (fun v => v <| v_Status := WAN_IFACE_STATUS_DISABLED |>)))).
Definition WanMgr_ResetIfaceTable : M unit :=
  c <- get_controller ;;
  if pc_TotalIfaces c =? 0 then ret tt
  else for_each (range (pc_TotalIfaces c)) (fun uiLoopCount => with_iface tt uiLoopCount (reset_iface c)).

(** Another enabled interface of the group. *)
Definition other_enabled (c : WanMgr_Policy_Controller_t) (uiLoopCount : Z) : M (option unit) :=
  if is_active c uiLoopCount then ret None
  else
    with_iface None uiLoopCount (fun p =>
      I <- get_iface p ;;
      ret (if in_group c I && sel_Enable (if_Selection I) then Some tt else None)).
Definition WanMgr_CheckIfSelectedIfaceOnlyPossibleWanLink : M bool :=
  c <- get_controller ;;
  if (pc_activeInterfaceIdx c =? -1) || (pc_TotalIfaces c =? 0) then ret false
  else
    a <- deref (pc_pWanActiveIfaceData c) ;;
    A <- get_iface a ;;
    if pc_GroupPersistSelectedIface c && sel_ActiveLink (if_Selection A) then ret true
    else
      r <- for_break (range (pc_TotalIfaces c)) (other_enabled c) ;;
      ret (match r with Some _ => false | None => true end).

Definition WanMgr_StartIfaceStateMachine : M ANSC_STATUS :=
  c <- get_controller ;;
  match pc_pWanActiveIfaceData c with
  | None => ret ANSC_STATUS_FAILURE
  | Some a =>
      A <- get_iface a ;;
      failed <- for_break (range (if_NoOfVirtIfs A)) (start_virtual (u32 (pc_activeInterfaceIdx c))) ;;
      match failed with
      | Some _ => ret ANSC_STATUS_FAILURE
      | None => upd_iface a (fun I => I <| if_VirtIfChanged := false |>) ;; ret ANSC_STATUS_SUCCESS
      end
  end.

(** ** Transitions *)

Definition Transition_Start : M WcAwPolicyState_t :=
  c <- get_controller ;;
  when (pc_WanEnable c) (
    idx <- WanMgr_GetPrevSelectedInterface ;;
    set_ctl (fun c => c <| pc_activeInterfaceIdx := idx |>) ;;
    if negb (idx =? -1) then
      phyPath <- with_iface None (u32 idx) (fun p => I <- get_iface p ;; ret (Some (if_BaseInterface I))) ;;
      match phyPath with
      | Some phyPath =>
          (if strstr phyPath "Ethernet" then WanMgr_RdkBus_AddIntfToLanBridge phyPath false
           else WanMgr_RdkBus_AddAllIntfsToLanBridge false) ;; ret tt
      | None => ret tt
      end
    else
      WanMgr_RdkBus_AddAllIntfsToLanBridge false ;;
      WanMgr_Policy_Auto_GetHighPriorityIface) ;;
  ret STATE_AUTO_WAN_INTERFACE_SELECTING.

(** [SelectionTimeOutStart] is the time at which the selection is over. *)
Definition start_selection_timer (A : DML_WAN_IFACE) : M unit :=
  set_ctl (fun c => c <| pc_InterfaceSelectionTimeOut := sel_Timeout (if_Selection A) |>) ;;
  now <- clock_gettime ;;
  set_ctl (fun c => c <| pc_SelectionTimeOutStart := now + sel_Timeout (if_Selection A) |>).

(** The operational mode of the XB platforms; [false] is the early return. *)
Definition set_operational_mode (A : DML_WAN_IFACE) : M bool :=
  if strstr (if_BaseInterface A) "CableModem" || is_ethernet A then
    setActiveLinkToSysCfg ;;
    if AUTOWAN_ENABLE then
      r <- WanMgr_RdkBus_SetParamValues ETH_COMPONENT_NAME ETH_COMPONENT_PATH SELECTED_OPERATIONAL_MODE
             (if strstr (if_BaseInterface A) "CableModem" then "DOCSIS" else "Ethernet") ;;
      ret (r ≟ ANSC_STATUS_SUCCESS)
    else ret true
  else ret true.
Definition Transition_InterfaceSelected : M WcAwPolicyState_t :=
  c <- get_controller ;;
  match pc_pWanActiveIfaceData c with
  | None => ret STATE_AUTO_WAN_ERROR
  | Some a =>
      A <- get_iface a ;;
      start_selection_timer A ;;
      ok <- (if XB6_CBR2_PRODUCT_REQ then set_operational_mode A else ret true) ;;
      ret (if (ok : bool) then STATE_AUTO_WAN_INTERFACE_WAITING else STATE_AUTO_WAN_INTERFACE_SELECTING)
  end.

Definition Transition_ScanningInterfaceDown : M WcAwPolicyState_t :=
  c <- get_controller ;;
  ret (match pc_pWanActiveIfaceData c with
       | None => STATE_AUTO_WAN_ERROR | Some _ => STATE_AUTO_WAN_INTERFACE_WAITING end).

Definition Transition_InterfaceInvalid : M WcAwPolicyState_t :=
  c <- get_controller ;;
  match pc_pWanActiveIfaceData c with
  | None => ret STATE_AUTO_WAN_ERROR
  | Some a =>
      if pc_activeInterfaceIdx c =? -1 then ret STATE_AUTO_WAN_ERROR
      else
        A <- get_iface a ;;
        deref (head (if_VirtIfList A)) ;;
        upd_iface a (upd_first_vif (fun v => v <| v_Status := WAN_IFACE_STATUS_INVALID |>)) ;;
        WanMgr_SetActiveLink false ;;
        set_ctl (fun c => c <| pc_activeInterfaceIdx := -1 |>) ;;
        ret STATE_AUTO_WAN_INTERFACE_SELECTING
  end.

(** The XB platforms forget the last WAN mode, for the primary group only. *)
Definition reset_wan_mode : M unit :=
  c <- get_controller ;;
  when (XB6_CBR2_PRODUCT_REQ && (pc_GroupInst c =? 1)) (
    syscfg_set_commit "last_wan_mode" "0" ;; syscfg_set_commit "curr_wan_mode" "0").

Definition Transition_TryingNextInterface : M WcAwPolicyState_t :=
  WanMgr_Policy_Auto_GetHighPriorityIface ;;
  c <- get_controller ;;
  when (pc_activeInterfaceIdx c =? -1) (
    with_group tt (u32 (pc_GroupInst c - 1)) (fun g =>
      upd_group g (fun G => G <| g_InitialScanComplete := true |>)) ;;
    WanMgr_ResetIfaceTable ;;
    reset_wan_mode) ;;
  ret STATE_AUTO_WAN_INTERFACE_SELECTING.

Definition Transition_InterfaceFound : M WcAwPolicyState_t :=
  c <- get_controller ;;
  match pc_pWanActiveIfaceData c with
  | None => ret STATE_AUTO_WAN_ERROR
  | Some a =>
      upd_iface a (fun I => I <| if_Selection; sel_Status := WAN_IFACE_SELECTED |>) ;;
      WanMgr_StartIfaceStateMachine ;;
      when WAN_MANAGER_SELECTION_SCAN_TIMEOUT_DISABLE (A <- get_iface a ;; start_selection_timer A) ;;
      ret STATE_AUTO_WAN_INTERFACE_SCANNING
  end.

Definition Transition_InterfaceDeselect : M WcAwPolicyState_t :=
  c <- get_controller ;;
  match pc_pWanActiveIfaceData c with
  | None => ret STATE_AUTO_WAN_ERROR
  | Some a =>
      upd_iface a (fun I => I <| if_Selection; sel_Status := WAN_IFACE_NOT_SELECTED |>) ;;
      ret STATE_AUTO_WAN_INTERFACE_TEARDOWN
  end.

Definition Transition_InterfaceValidated : M WcAwPolicyState_t :=
  c <- get_controller ;;
  match pc_pWanActiveIfaceData c with
  | None => ret STATE_AUTO_WAN_ERROR
  | Some _ =>
      WanMgr_SetActiveLink true ;;
      WanMgr_SetGroupSelectedIface (pc_GroupInst c) (u32 (pc_activeInterfaceIdx c + 1)) ;;
      set_ctl (fun c => c <| pc_SelectionTimeOutStart := 0 |>) ;;
      ret STATE_AUTO_WAN_INTERFACE_RECONFIGURATION
  end.

Definition Transition_RestartSelectionInterface : M WcAwPolicyState_t :=
  c <- get_controller ;;
  match pc_pWanActiveIfaceData c with
  | None => ret STATE_AUTO_WAN_ERROR
  | Some _ =>
      r <- WanMgr_ResetActiveLinkOnAllIface ;;
      if r ≠? ANSC_STATUS_SUCCESS then ret STATE_AUTO_WAN_ERROR
      else
        with_group tt (u32 (pc_GroupInst c - 1)) (fun g =>
          upd_group g (fun G => G <| g_ResetSelectedInterface := false |>) ;;
          set_ctl (fun c => c <| pc_ResetSelectedInterface := false |>)) ;;
        with_config (set_db (fun d => d <| w_Config; cfg_ResetFailOverScan := true |>)) ;;
        set_ctl (fun c => c <| pc_activeInterfaceIdx := -1 |>) ;;
        WanMgr_ResetIfaceTable ;;
        reset_wan_mode ;;
        WanMgr_RdkBus_AddAllIntfsToLanBridge false ;;
        r <- WanMgr_ResetGroupSelectedIface ;;
        ret (if r ≠? ANSC_STATUS_SUCCESS then STATE_AUTO_WAN_ERROR else STATE_AUTO_WAN_INTERFACE_SELECTING)
  end.

Definition Transition_ReconfigurePlatform : M WcAwPolicyState_t :=
  c <- get_controller ;;
  match pc_pWanActiveIfaceData c with
  | None => ret STATE_AUTO_WAN_ERROR
  | Some a =>
      upd_iface a (fun I => I <| if_Selection; sel_Status := WAN_IFACE_NOT_SELECTED |>
                              <| if_Selection; sel_RebootTriggerStatus := true |>) ;;
      ret STATE_AUTO_WAN_REBOOT_PLATFORM
  end.

Definition Transition_ActivatingInterface : M WcAwPolicyState_t := ret STATE_AUTO_WAN_INTERFACE_ACTIVE.
Definition Transistion_WanInterfaceDown : M WcAwPolicyState_t := ret STATE_AUTO_WAN_INTERFACE_DOWN.

Definition Transistion_WanInterfaceUp : M WcAwPolicyState_t :=
  c <- get_controller ;;
  match pc_pWanActiveIfaceData c with
  | None => ret STATE_AUTO_WAN_ERROR
  | Some _ =>
      if pc_activeInterfaceIdx c =? -1 then ret STATE_AUTO_WAN_ERROR
      else
        running <- WanMgr_Get_ISM_RunningStatus (u32 (pc_activeInterfaceIdx c)) ;;
        if (running : bool) then ret STATE_AUTO_WAN_INTERFACE_DOWN
        else WanMgr_StartIfaceStateMachine ;; ret STATE_AUTO_WAN_INTERFACE_ACTIVE
  end.

Definition Transition_ResetSelectedInterface : M WcAwPolicyState_t :=
  c <- get_controller ;;
  match pc_pWanActiveIfaceData c with
  | None => ret STATE_AUTO_WAN_ERROR
  | Some a =>
      upd_iface a (fun I => I <| if_Selection; sel_Status := WAN_IFACE_NOT_SELECTED |>) ;;
      ret STATE_AUTO_WAN_INTERFACE_TEARDOWN
  end.

Definition Transition_RebootDevice : M WcAwPolicyState_t :=
  Wanmgr_TriggerReboot ;; ret STATE_AUTO_WAN_SM_EXIT.

(** ** States *)

Definition State_SelectingInterface : M WcAwPolicyState_t :=
  c <- get_controller ;;
  if tear_down_requested c then ret STATE_AUTO_WAN_SM_EXIT
  else if negb (pc_activeInterfaceIdx c =? -1) then Transition_InterfaceSelected
  else Transition_TryingNextInterface.

Definition State_WaitForInterface : M WcAwPolicyState_t :=
  c <- get_controller ;;
  match pc_pWanActiveIfaceData c with
  | None => ret STATE_AUTO_WAN_ERROR
  | Some a =>
      if tear_down_requested c then ret STATE_AUTO_WAN_SM_EXIT
      else
        A <- get_iface a ;;
        if negb (sel_Enable (if_Selection A)) then Transition_InterfaceInvalid
        else if if_BaseInterfaceStatus A ≟ WAN_IFACE_PHY_STATUS_UP then
          when WAN_MANAGER_SELECTION_SCAN_TIMEOUT_DISABLE
            (set_ctl (fun c => c <| pc_SelectionTimeOutStart := 0 |>)) ;;
          Transition_InterfaceFound
        else
          only <- WanMgr_CheckIfSelectedIfaceOnlyPossibleWanLink ;;
          now <- clock_gettime ;;
          set_ctl (fun c => c <| pc_SelectionTimeOutEnd := now |>) ;;
          if (0 <? now - pc_SelectionTimeOutStart c) && negb only then Transition_InterfaceInvalid
          else
            when only (
              with_group tt (u32 (pc_GroupInst c - 1)) (fun g =>
                upd_group g (fun G => G <| g_InitialScanComplete := true |>))) ;;
            ret STATE_AUTO_WAN_INTERFACE_WAITING
  end.

(** The scan timer has run out; it is read only while it is set. *)
Definition selection_expired : M bool :=
  c <- get_controller ;;
  if 0 <? pc_SelectionTimeOutStart c then
    now <- clock_gettime ;;
    set_ctl (fun c => c <| pc_SelectionTimeOutEnd := now |>) ;;
    ret (0 <? now - pc_SelectionTimeOutStart c)
  else ret false.
Definition State_ScanningInterface : M WcAwPolicyState_t :=
  c <- get_controller ;;
  match pc_pWanActiveIfaceData c with
  | None => ret STATE_AUTO_WAN_ERROR
  | Some a =>
      if tear_down_requested c then Transition_InterfaceDeselect
      else
        only <- WanMgr_CheckIfSelectedIfaceOnlyPossibleWanLink ;;
        if (only : bool) then Transition_InterfaceValidated
        else
          A <- get_iface a ;;
          if negb (sel_Enable (if_Selection A)) then Transition_InterfaceDeselect
          else
            running <- WanMgr_Get_ISM_RunningStatus (u32 (pc_activeInterfaceIdx c)) ;;
            if negb running then Transition_ScanningInterfaceDown
            else
              v <- deref (head (if_VirtIfList A)) ;;
              if link_usable v then Transition_InterfaceValidated
              else
                expired <- selection_expired ;;
                if (expired : bool) then Transition_InterfaceDeselect else ret STATE_AUTO_WAN_INTERFACE_SCANNING
  end.

Definition State_WaitingForIfaceTearDown : M WcAwPolicyState_t :=
  c <- get_controller ;;
  match pc_pWanActiveIfaceData c with
  | None => ret STATE_AUTO_WAN_ERROR
  | Some _ =>
      running <- WanMgr_Get_ISM_RunningStatus (u32 (pc_activeInterfaceIdx c)) ;;
      if (running : bool) then ret STATE_AUTO_WAN_INTERFACE_TEARDOWN
      else if tear_down_requested c then ret STATE_AUTO_WAN_TEARING_DOWN
      else if pc_ResetSelectedInterface c then Transition_RestartSelectionInterface
      else Transition_InterfaceInvalid
  end.

(** The interfaces of the group that are not selected go to the LAN bridge. *)
Definition bridge_unselected (c : WanMgr_Policy_Controller_t) (uiLoopCount : Z) : M unit :=
  when (negb (is_active c uiLoopCount)) (
    PhyPath <- with_iface None uiLoopCount (fun p =>
      I <- get_iface p ;;
      ret (if in_group c I then Some (if_BaseInterface I) else None)) ;;
    match PhyPath with
    | Some PhyPath => when (strstr PhyPath "Ethernet") (WanMgr_RdkBus_AddIntfToLanBridge PhyPath true ;; ret tt)
    | None => ret tt
    end).

(** The hardware configuration of one interface; [true] when it was changed and
    the change needs a reboot. *)
Definition configure_upstream (c : WanMgr_Policy_Controller_t) (uiLoopCount : Z) : M bool :=
  o <- with_iface None uiLoopCount (fun p =>
    I <- get_iface p ;;
    ret (if is_ethernet I && in_group c I
         then Some (sel_RequiresReboot (if_Selection I), if_BaseInterface I) else None)) ;;
  match o with
  | None => ret false
  | Some (CurrIntfHwRebootConfig, PhyPath) =>
      let dmQuery := ETH_HW_CONFIGURATION_DM (default 0 (u32 <$> sscanf_skip_d PhyPath)) in
      dmValue <- WanMgr_RdkBus_GetParamValues ETH_COMPONENT_NAME ETH_COMPONENT_PATH dmQuery ;;
      match dmValue with
      | None => ret false
      | Some dmValue =>
          let want := bool_text (is_active c uiLoopCount) in
          if starts_nocase want dmValue then ret false
          else
            r <- WanMgr_RdkBus_SetParamValues ETH_COMPONENT_NAME ETH_COMPONENT_PATH dmQuery want ;;
            ret ((r ≟ ANSC_STATUS_SUCCESS) && CurrIntfHwRebootConfig)
      end
  end.

Definition State_InterfaceReconfiguration : M WcAwPolicyState_t :=
  c <- get_controller ;;
  match pc_pWanActiveIfaceData c with
  | None => ret STATE_AUTO_WAN_ERROR
  | Some _ =>
      for_each (range (pc_TotalIfaces c)) (bridge_unselected c) ;;
      if XB6_CBR2_PRODUCT_REQ || PLATFORM_RASPBERRYPI then Transition_ActivatingInterface
      else
        r <- for_acc (R := unit) (range (pc_TotalIfaces c)) false (fun uiLoopCount RebootRequired =>
          b <- configure_upstream c uiLoopCount ;; ret (RebootRequired || b, None)) ;;
        if fst r then Transition_ReconfigurePlatform
        else
          running <- WanMgr_Get_ISM_RunningStatus (u32 (pc_activeInterfaceIdx c)) ;;
          if negb running then Transistion_WanInterfaceDown else Transition_ActivatingInterface
  end.

Definition State_RebootingPlatform : M WcAwPolicyState_t :=
  c <- get_controller ;;
  running <- WanMgr_Get_ISM_RunningStatus (u32 (pc_activeInterfaceIdx c)) ;;
  if (running : bool) then ret STATE_AUTO_WAN_REBOOT_PLATFORM else Transition_RebootDevice.

Definition reset_requested (c : WanMgr_Policy_Controller_t) : bool :=
  tear_down_requested c || pc_ResetSelectedInterface c.

(** [start_changed] is that of the parallel-scan policy, line by line. *)
Definition State_WanInterfaceActive : M WcAwPolicyState_t :=
  c <- get_controller ;;
  match pc_pWanActiveIfaceData c with
  | None => ret STATE_AUTO_WAN_ERROR
  | Some a =>
      if reset_requested c then Transition_ResetSelectedInterface
      else
        A <- get_iface a ;;
        down <- (if (if_BaseInterfaceStatus A ≠? WAN_IFACE_PHY_STATUS_UP) || negb (sel_Enable (if_Selection A))
                 then ret true
                 else running <- WanMgr_Get_ISM_RunningStatus (u32 (pc_activeInterfaceIdx c)) ;; ret (negb running)) ;;
        if (down : bool) then
          WanMgr_SetGroupSelectedIface (pc_GroupInst c) (u32 (pc_activeInterfaceIdx c + 1)) ;;
          Transistion_WanInterfaceDown
        else
          start_changed a A ;;
          ret STATE_AUTO_WAN_INTERFACE_ACTIVE
  end.

Definition State_WanInterfaceDown : M WcAwPolicyState_t :=
  c <- get_controller ;;
  match pc_pWanActiveIfaceData c with
  | None => ret STATE_AUTO_WAN_ERROR
  | Some a =>
      if reset_requested c then Transition_ResetSelectedInterface
      else
        A <- get_iface a ;;
        if (if_BaseInterfaceStatus A ≟ WAN_IFACE_PHY_STATUS_UP) && sel_Enable (if_Selection A) then
          WanMgr_SetGroupSelectedIface (pc_GroupInst c) (u32 (pc_activeInterfaceIdx c + 1)) ;;
          Transistion_WanInterfaceUp
        else ret STATE_AUTO_WAN_INTERFACE_DOWN
  end.

Definition State_WaitingForInterfaceSMExit : M WcAwPolicyState_t :=
  c <- get_controller ;;
  match pc_pWanActiveIfaceData c with
  | None => ret STATE_AUTO_WAN_TEARING_DOWN
  | Some a =>
      upd_iface a (fun I => I <| if_Selection; sel_Status := WAN_IFACE_NOT_SELECTED |>) ;;
      running <- WanMgr_Get_ISM_RunningStatus (u32 (pc_activeInterfaceIdx c)) ;;
      if (running : bool) then ret STATE_AUTO_WAN_TEARING_DOWN
      else
        WanMgr_ResetIfaceTable ;;
        WanMgr_ResetGroupSelectedIface ;;
        when (pc_GroupCfgChanged c) (WanMgr_ResetActiveLinkOnAllIface ;; ret tt) ;;
        ret STATE_AUTO_WAN_SM_EXIT
  end.

(** ** The thread *)

(** [None] is [bRunning = false]. *)
Definition aw_dispatch (aw_sm_state : WcAwPolicyState_t) : M (option WcAwPolicyState_t) :=
  match aw_sm_state with
  | STATE_AUTO_WAN_INTERFACE_SELECTING => s <- State_SelectingInterface ;; ret (Some s)
  | STATE_AUTO_WAN_INTERFACE_WAITING => s <- State_WaitForInterface ;; ret (Some s)
  | STATE_AUTO_WAN_INTERFACE_SCANNING => s <- State_ScanningInterface ;; ret (Some s)
  | STATE_AUTO_WAN_INTERFACE_TEARDOWN => s <- State_WaitingForIfaceTearDown ;; ret (Some s)
  | STATE_AUTO_WAN_INTERFACE_RECONFIGURATION => s <- State_InterfaceReconfiguration ;; ret (Some s)
  | STATE_AUTO_WAN_REBOOT_PLATFORM => s <- State_RebootingPlatform ;; ret (Some s)
  | STATE_AUTO_WAN_INTERFACE_ACTIVE => s <- State_WanInterfaceActive ;; ret (Some s)
  | STATE_AUTO_WAN_INTERFACE_DOWN => s <- State_WanInterfaceDown ;; ret (Some s)
  | STATE_AUTO_WAN_TEARING_DOWN => s <- State_WaitingForInterfaceSMExit ;; ret (Some s)
  | STATE_AUTO_WAN_SM_EXIT | STATE_AUTO_WAN_ERROR => ret None
  end.

Definition aw_lock_active : M unit :=
  c <- get_controller ;;
  p <- WanMgr_GetIfaceData_locked (u32 (pc_activeInterfaceIdx c)) ;;
  set_ctl (fun c => c <| pc_pWanActiveIfaceData := p |>) ;;
  match p with
  | None => ret tt
  | Some a =>
      A <- get_iface a ;;
      set_ctl (fun c => c <| pc_InterfaceSelectionTimeOut := sel_Timeout (if_Selection A) |>) ;;
      when (pc_GroupInst c =? 0) (set_ctl (fun c => c <| pc_GroupInst := sel_Group (if_Selection A) |>))
  end.
(** The released pointer stays in the controller until the next pass. *)
Definition aw_release_active : M unit :=
  c <- get_controller ;;
  match pc_pWanActiveIfaceData c with
  | Some _ => WanMgrDml_GetIfaceData_release
  | None => ret tt
  end.

(** One pass of the loop. *)
Definition aw_iteration (aw_sm_state : WcAwPolicyState_t) : M (option WcAwPolicyState_t) :=
  n <- call (ExtCall "select" ["250000"]) ;;
  if n <? 0 then ret (Some aw_sm_state)
  else
    WanMgr_UpdateControllerData ;;
    aw_lock_active ;;
    o <- aw_dispatch aw_sm_state ;;
    aw_release_active ;;
    ret o.

(** What runs before the loop; [arg] is the group of the thread. *)
Definition aw_start (arg : Z) : M (option WcAwPolicyState_t) :=
  c <- get_controller ;;
  let r := WanMgr_Controller_PolicyCtrlInit c in
  if fst r ≠? ANSC_STATUS_SUCCESS then ret None
  else
    set_ctl (fun _ => snd r) ;;
    set_ctl (fun c => c <| pc_GroupInst := u32 arg |>) ;;
    WanMgr_UpdateControllerData ;;
    st <- Transition_Start ;;
    ret (Some st).
End AutoPolicy.
