(* ===== verification/AutoFacts.v ===== *)
(** The auto policy never dereferences [NULL] and gives back every lock. *)

From S2P Require Export ParallelFacts AutoPolicy.

#[local] Abbreviation PC := WanMgr_Policy_Controller_t.

(** * The transitions and the states *)

Section AutoSafe.
Context `{Platform} `{Build} `{AutoBuild} (sh : Shape) (Hwf : wf_shape sh) (an : option iface_ptr).
Context (Hsmall : sh.1.1.1 < 2 ^ 32 - 1) (Han : forall a, an = Some a -> valid_iface sh a).
#[local] Instance aw_anchor : Anchor PC := caches an.
#[local] Abbreviation safe m := (Safe (C := PC) sh (fun _ => True) m).

#[local] Hint Unfold syscfg_get syscfg_set_commit clock_gettime Transition_ActivatingInterface Transistion_WanInterfaceDown : monad.

Lemma safe_aw_update : safe WanMgr_UpdateControllerData.
Proof. unfold WanMgr_UpdateControllerData. safe_tac. Qed.

(** The virtual interface of a number below [NoOfVirtIfs]. *)
Lemma safe_find_vif i I k : iface_in sh i I -> 0 <= k < if_NoOfVirtIfs I ->
  safe (k <- deref (WanMgr_getVirtualIfaceById (if_VirtIfList I) k) ;; deref (if_VirtIfList I !! k)).
Proof.
  intros [_ [_ Hk]] Hr. apply Hk in Hr. unfold vifs_of in Hr. simpl in Hr.
  apply list_elem_of_fmap in Hr as (v & -> & Hv). unfold WanMgr_getVirtualIfaceById.
  destruct (list_search _ _) as [j|] eqn:E.
  - apply list_search_Some in E as ((w & Hw & _) & _). unfold deref, bind, ret. rewrite Hw. by apply safe_ret.
  - rewrite list_search_None in E. specialize (E v Hv). by rewrite Z.eqb_refl in E.
Qed.
Lemma safe_ism_running i : 0 <= i -> safe (WanMgr_Get_ISM_RunningStatus i).
Proof.
  intros Hi. unfold WanMgr_Get_ISM_RunningStatus. apply safe_with_iface; [done | done | done |]. intros p Hp.
  eapply safe_bind; [by apply safe_get_iface | intros I HI].
  apply safe_bind_any; [|intros r; by apply safe_ret].
  apply safe_for_break. intros k Hk%elem_of_range.
  pose proof (safe_find_vif _ _ _ HI Hk) as Hf. intros s Hs. specialize (Hf s Hs).
  unfold wp, bind, ret in *. repeat case_match; simplify_eq; try done.
Qed.
#[local] Hint Resolve safe_ism_running : safe.
Lemma safe_add_all b : safe (WanMgr_RdkBus_AddAllIntfsToLanBridge b).
Proof. unfold WanMgr_RdkBus_AddAllIntfsToLanBridge. safe_tac. Qed.
Lemma safe_prev_selected : safe WanMgr_GetPrevSelectedInterface.
Proof. unfold WanMgr_GetPrevSelectedInterface. safe_tac. Qed.
Lemma safe_is_last I : safe (isLastActiveLinkFromSysCfg I).
Proof. unfold isLastActiveLinkFromSysCfg. safe_tac. Qed.
#[local] Hint Resolve safe_add_all safe_prev_selected safe_is_last : safe.
Lemma safe_high_priority_iface c k acc : 0 <= k -> safe (high_priority_iface c k acc).
Proof. intros Hk. unfold high_priority_iface. safe_tac. Qed.
Lemma safe_reset_active_links : safe WanMgr_ResetActiveLinkOnAllIface.
Proof. unfold WanMgr_ResetActiveLinkOnAllIface. safe_tac. Qed.
Lemma safe_reset_group : safe WanMgr_ResetGroupSelectedIface.
Proof. unfold WanMgr_ResetGroupSelectedIface. safe_tac. Qed.
Lemma safe_reset_table : safe WanMgr_ResetIfaceTable.
Proof. unfold WanMgr_ResetIfaceTable, reset_iface. safe_tac. Qed.
Lemma safe_reset_wan_mode : safe reset_wan_mode.
Proof. unfold reset_wan_mode. safe_tac. Qed.
#[local] Hint Resolve safe_reset_active_links safe_reset_group safe_reset_table safe_reset_wan_mode : safe.
(** A state that works on the cached interface. *)
Lemma safe_on_active (k : PC -> iface_ptr -> M (St PC) WcAwPolicyState_t) other :
  (forall c a, anchored c -> pc_pWanActiveIfaceData c = Some a -> an = Some a -> valid_iface sh a -> safe (k c a)) ->
  safe (c <- get_controller ;;
        match pc_pWanActiveIfaceData c with Some a => k c a | None => ret other end).
Proof.
  intros Hk. eapply safe_bind; [apply safe_get_controller | intros c Hc].
  destruct (pc_pWanActiveIfaceData c) as [a|] eqn:Ha; [|by apply safe_ret].
  apply Hk; [done | done | by rewrite <- Ha, (proj1 Hc) | by eapply cached_valid].
Qed.
Ltac active_tac := apply safe_on_active; intros c a Hc Ha Hana Hv.
Lemma safe_set_active_link_here b : safe (WanMgr_SetActiveLink b).
Proof.
  unfold WanMgr_SetActiveLink. eapply safe_bind; [apply safe_get_controller | intros c Hc].
  destruct (_ =? _); [by apply safe_ret|].
  destruct (pc_pWanActiveIfaceData c) as [a|] eqn:Ha; [|by apply safe_ret].
  assert (valid_iface sh a) as Hv by (by eapply cached_valid). safe_tac.
Qed.
Lemma safe_only_link : an <> None -> safe WanMgr_CheckIfSelectedIfaceOnlyPossibleWanLink.
Proof.
  intros Hne. unfold WanMgr_CheckIfSelectedIfaceOnlyPossibleWanLink, other_enabled.
  eapply safe_bind; [apply safe_get_controller | intros c Hc].
  destruct (_ || _); [by apply safe_ret|]. apply safe_cached; [exact Han | done | done | intros a Hv _]. safe_tac.
Qed.
Lemma safe_start_isms : safe WanMgr_StartIfaceStateMachine.
Proof.
  unfold WanMgr_StartIfaceStateMachine. eapply safe_bind; [apply safe_get_controller | intros c Hc].
  destruct (pc_pWanActiveIfaceData c) as [a|] eqn:Ha; [|by apply safe_ret].
  assert (an = Some a) as Hana by (by rewrite <- Ha, (proj1 Hc)).
  assert (valid_iface sh a) as Hv by (by eapply cached_valid).
  eapply safe_bind; [by apply safe_get_iface | intros I HI].
  eapply safe_bind.
  { eapply (safe_start_all sh Hwf an _ a); [apply u32_range | done |]. by eapply cached_index. }
  intros ? _. safe_tac.
Qed.
Lemma safe_timer A : safe (start_selection_timer A).
Proof. unfold start_selection_timer. safe_tac. Qed.
#[local] Hint Resolve safe_set_active_link_here safe_only_link safe_start_isms safe_timer : safe.
Lemma safe_set_syscfg : an <> None -> safe setActiveLinkToSysCfg.
Proof.
  intros Hne. unfold setActiveLinkToSysCfg. eapply safe_bind; [apply safe_get_controller | intros c Hc].
  apply safe_cached; [exact Han | done | done | intros a Hv _]. safe_tac.
Qed.
Lemma safe_Transition_InterfaceSelected : safe Transition_InterfaceSelected.
Proof.
  unfold Transition_InterfaceSelected. active_tac. assert (safe setActiveLinkToSysCfg) by (apply safe_set_syscfg; congruence).
  unfold set_operational_mode. safe_tac.
Qed.
Lemma safe_forget_choice : safe (set_ctl (fun c => c <| pc_activeInterfaceIdx := -1 |>)).
Proof. apply safe_modify; [done..|]. intros s [Hc _]. split; [exact Hc|]. right. by left. Qed.
#[local] Hint Resolve safe_forget_choice : safe.
Lemma safe_Transition_InterfaceInvalid : safe Transition_InterfaceInvalid.
Proof. unfold Transition_InterfaceInvalid. active_tac. safe_tac. Qed.
Lemma safe_Transition_InterfaceFound : safe Transition_InterfaceFound.
Proof. unfold Transition_InterfaceFound. active_tac. safe_tac. Qed.
Lemma safe_Transition_InterfaceDeselect : safe Transition_InterfaceDeselect.
Proof. unfold Transition_InterfaceDeselect. active_tac. safe_tac. Qed.
Lemma safe_Transition_InterfaceValidated : safe Transition_InterfaceValidated.
Proof. unfold Transition_InterfaceValidated. active_tac. safe_tac. Qed.
Lemma safe_Transition_RestartSelectionInterface : safe Transition_RestartSelectionInterface.
Proof. unfold Transition_RestartSelectionInterface. active_tac. safe_tac. Qed.
Lemma safe_Transition_ReconfigurePlatform : safe Transition_ReconfigurePlatform.
Proof. unfold Transition_ReconfigurePlatform. active_tac. safe_tac. Qed.
Lemma safe_Transistion_WanInterfaceUp : safe Transistion_WanInterfaceUp.
Proof. unfold Transistion_WanInterfaceUp. active_tac. safe_tac. Qed.
Lemma safe_Transition_ResetSelectedInterface : safe Transition_ResetSelectedInterface.
Proof. unfold Transition_ResetSelectedInterface. active_tac. safe_tac. Qed.
#[local] Hint Resolve safe_Transition_InterfaceSelected safe_Transition_InterfaceInvalid safe_Transition_InterfaceFound
  safe_Transition_InterfaceDeselect safe_Transition_InterfaceValidated safe_Transition_RestartSelectionInterface
  safe_Transition_ReconfigurePlatform safe_Transistion_WanInterfaceUp safe_Transition_ResetSelectedInterface : safe.
Lemma safe_State_WaitForInterface : safe State_WaitForInterface.
Proof.
  unfold State_WaitForInterface. active_tac.
  assert (safe WanMgr_CheckIfSelectedIfaceOnlyPossibleWanLink) by (apply safe_only_link; congruence). safe_tac.
Qed.
Lemma safe_aw_ScanningInterface : safe State_ScanningInterface.
Proof.
  unfold State_ScanningInterface, Transition_ScanningInterfaceDown, selection_expired. active_tac.
  assert (safe WanMgr_CheckIfSelectedIfaceOnlyPossibleWanLink) by (apply safe_only_link; congruence). safe_tac.
Qed.
Lemma safe_State_WaitingForIfaceTearDown : safe State_WaitingForIfaceTearDown.
Proof. unfold State_WaitingForIfaceTearDown. active_tac. safe_tac. Qed.
Lemma safe_State_InterfaceReconfiguration : safe State_InterfaceReconfiguration.
Proof. unfold State_InterfaceReconfiguration, bridge_unselected, configure_upstream. active_tac. safe_tac. Qed.
Lemma safe_State_RebootingPlatform : safe State_RebootingPlatform.
Proof. unfold State_RebootingPlatform, Transition_RebootDevice. safe_tac. Qed.
Lemma safe_State_WanInterfaceActive : safe State_WanInterfaceActive.
Proof.
  unfold State_WanInterfaceActive. active_tac. destruct (reset_requested c); [safe_tac|].
  eapply safe_bind; [by apply safe_get_iface | intros I HI].
  apply safe_bind_any; [safe_tac | intros [|]]; [safe_tac|].
  apply safe_bind_any; [by eapply safe_start_changed | intros _; by apply safe_ret].
Qed.
Lemma safe_State_WanInterfaceDown : safe State_WanInterfaceDown.
Proof. unfold State_WanInterfaceDown. active_tac. safe_tac. Qed.
Lemma safe_State_WaitingForInterfaceSMExit : safe State_WaitingForInterfaceSMExit.
Proof. unfold State_WaitingForInterfaceSMExit. active_tac. safe_tac. Qed.
End AutoSafe.
Section SelectingSafe.
Context `{Platform} `{Build} `{AutoBuild} (sh : Shape) (Hwf : wf_shape sh) (Hsmall : sh.1.1.1 < 2 ^ 32 - 1).
#[local] Instance selecting_anchor : Anchor PC := caches None.
#[local] Abbreviation safe m := (Safe (C := PC) sh (fun _ => True) m).

Lemma safe_choose k : safe (set_ctl (fun c => c <| pc_activeInterfaceIdx := k |>)).
Proof. apply safe_modify; [done..|]. intros s [Hc _]. split; [exact Hc | by left]. Qed.
#[local] Hint Resolve safe_choose : safe.
Lemma safe_high_priority : safe WanMgr_Policy_Auto_GetHighPriorityIface.
Proof.
  unfold WanMgr_Policy_Auto_GetHighPriorityIface. eapply safe_bind; [apply safe_get_controller | intros c Hc].
  destruct (_ || _); [by apply safe_ret|]. apply safe_bind_any; [|intros r; safe_tac].
  apply safe_for_acc. intros k acc Hk%elem_of_range. apply safe_high_priority_iface; [done..|]. lia.
Qed.
#[local] Hint Resolve safe_high_priority : safe.
Lemma safe_Transition_TryingNextInterface : safe Transition_TryingNextInterface.
Proof.
  unfold Transition_TryingNextInterface. pose proof (safe_reset_table sh Hwf None). pose proof (safe_reset_wan_mode sh None).
  safe_tac.
Qed.
Lemma safe_aw_Transition_Start : safe Transition_Start.
Proof.
  unfold Transition_Start. pose proof (safe_prev_selected sh Hwf None). pose proof (safe_add_all sh Hwf None).
  safe_tac.
Qed.
End SelectingSafe.
