(* ===== verification/AutoEffect.v ===== *)
(** What a pass of the auto policy does: the edges of its machine, and what it
    may change of the selections. *)

From S2P Require Export ParallelPass AutoFacts.

#[local] Abbreviation PC := WanMgr_Policy_Controller_t.

Section Views.
Context `{Platform} `{Build} `{AutoBuild}.
Implicit Type s : St PC.

(** The controller but for its timers and requests, with the selections. *)
Definition aw_ctl s := (grp s, active_idx s, pc_pWanActiveIfaceData (ctl s)).
Definition aw_view s := (sel_view s, aw_ctl s).

Lemma aw_view_upd_iface i f :
  (forall I, sel_Group (if_Selection (f I)) = sel_Group (if_Selection I)
     /\ sel_Status (if_Selection (f I)) = sel_Status (if_Selection I)) ->
  Keeps aw_view (upd_iface i f).
Proof.
  intros Hf. apply keeps_bind; [apply keeps_get_iface | intros _]. apply keeps_modify. intros s.
  unfold aw_view. refine (f_equal (fun x => (x, aw_ctl s)) _). unfold sel_view.
  refine (f_equal2 (fun x y => (selected s, x, (y, counts s))) _ _).
  - unfold statuses, ifaces. rsimpl. apply list_eq. intros j. rewrite !list_lookup_fmap, list_lookup_alter.
    destruct (decide _) as [->|]; [|done]. destruct (w_pIface (db s) !! j) as [I|]; simpl; [|done]. by rewrite (proj2 (Hf I)).
  - unfold ifgroups, ifaces. rsimpl. apply list_eq. intros j. rewrite !list_lookup_fmap, list_lookup_alter.
    destruct (decide _) as [->|]; [|done]. destruct (w_pIface (db s) !! j) as [I|]; simpl; [|done]. by rewrite (proj1 (Hf I)).
Qed.
Lemma aw_view_upd_group g f :
  (forall G, g_SelectedInterface (f G) = g_SelectedInterface G) -> Keeps aw_view (upd_group g f).
Proof.
  intros Hf. apply keeps_upd_group_view. intros s. unfold aw_view. refine (f_equal (fun x => (x, aw_ctl s)) _).
  refine (f_equal (fun x => (x, statuses s, (ifgroups s, counts s))) _).
  exact (selected_alter_same s g f Hf).
Qed.
End Views.
#[export] Hint Extern 2 (Keeps aw_view (upd_iface _ _)) =>
  (apply aw_view_upd_iface; intros ?; split; reflexivity) : keeps.
#[export] Hint Extern 2 (Keeps aw_view (upd_group _ _)) =>
  (apply aw_view_upd_group; reflexivity) : keeps.

(** ** What leaves the selections and the choice alone *)

Section Quiet.
Context `{Platform} `{Build} `{AutoBuild}.
#[local] Hint Unfold syscfg_get syscfg_set_commit clock_gettime WanMgr_RdkBus_SetParamValues WanMgr_RdkBus_GetParamValues
  WanMgr_RdkBus_AddIntfToLanBridge DmlSetWanActiveLinkInPSMDB WanMgr_StartInterfaceStateMachine : monad.
#[local] Abbreviation keeps m := (Keeps aw_view m).
Lemma aw_update : keeps WanMgr_UpdateControllerData.
Proof. unfold WanMgr_UpdateControllerData. keeps_tac. Qed.
Lemma aw_ism_running i : keeps (WanMgr_Get_ISM_RunningStatus i).
Proof. unfold WanMgr_Get_ISM_RunningStatus. keeps_tac. Qed.
Lemma aw_add_all b : keeps (WanMgr_RdkBus_AddAllIntfsToLanBridge b).
Proof. unfold WanMgr_RdkBus_AddAllIntfsToLanBridge. keeps_tac. Qed.
Lemma aw_set_active_link b : keeps (WanMgr_SetActiveLink b).
Proof. unfold WanMgr_SetActiveLink. keeps_tac. Qed.
Lemma aw_prev_selected : keeps WanMgr_GetPrevSelectedInterface.
Proof. unfold WanMgr_GetPrevSelectedInterface. keeps_tac. Qed.
Lemma aw_high_priority_iface c k acc : keeps (high_priority_iface c k acc).
Proof. unfold high_priority_iface, isLastActiveLinkFromSysCfg. keeps_tac. Qed.
Lemma aw_reset_active_links : keeps WanMgr_ResetActiveLinkOnAllIface.
Proof. unfold WanMgr_ResetActiveLinkOnAllIface. keeps_tac. Qed.
Lemma aw_reset_table : keeps WanMgr_ResetIfaceTable.
Proof. unfold WanMgr_ResetIfaceTable, reset_iface. keeps_tac. Qed.
Lemma aw_reset_wan_mode : keeps reset_wan_mode.
Proof. unfold reset_wan_mode. keeps_tac. Qed.
Lemma aw_only_link : keeps WanMgr_CheckIfSelectedIfaceOnlyPossibleWanLink.
Proof. unfold WanMgr_CheckIfSelectedIfaceOnlyPossibleWanLink, other_enabled. keeps_tac. Qed.
Lemma aw_start_virtual i k : keeps (start_virtual i k).
Proof. unfold start_virtual. keeps_tac. Qed.
#[local] Hint Resolve aw_start_virtual : keeps.
Lemma aw_start_isms : keeps WanMgr_StartIfaceStateMachine.
Proof. unfold WanMgr_StartIfaceStateMachine. keeps_tac. Qed.
Lemma aw_timer A : keeps (start_selection_timer A).
Proof. unfold start_selection_timer. keeps_tac. Qed.
Lemma aw_operational_mode A : keeps (set_operational_mode A).
Proof. unfold set_operational_mode, setActiveLinkToSysCfg. keeps_tac. Qed.
Lemma aw_selection_expired : keeps selection_expired.
Proof. unfold selection_expired. keeps_tac. Qed.
Lemma aw_bridge c k : keeps (bridge_unselected c k).
Proof. unfold bridge_unselected. keeps_tac. Qed.
Lemma aw_upstream c k : keeps (configure_upstream c k).
Proof. unfold configure_upstream. keeps_tac. Qed.
Lemma aw_start_changed a A : keeps (start_changed a A).
Proof. unfold start_changed, start_changed_virtual. keeps_tac. Qed.
Lemma aw_trigger_reboot : keeps Wanmgr_TriggerReboot.
Proof. unfold Wanmgr_TriggerReboot, syscfg_set_string, wanmgr_sysevent_hw_reconfig_reboot. keeps_tac. Qed.
End Quiet.
#[export] Hint Resolve aw_update aw_ism_running aw_add_all aw_set_active_link aw_prev_selected aw_high_priority_iface
  aw_reset_active_links aw_reset_table aw_reset_wan_mode aw_only_link aw_start_isms aw_timer aw_operational_mode
  aw_selection_expired aw_bridge aw_upstream aw_start_changed aw_trigger_reboot : keeps.

(** * The edges of the machine *)

Definition aw_succ (st : WcAwPolicyState_t) : list WcAwPolicyState_t :=
  match st with
  | STATE_AUTO_WAN_INTERFACE_SELECTING =>
      [STATE_AUTO_WAN_INTERFACE_SELECTING; STATE_AUTO_WAN_INTERFACE_WAITING; STATE_AUTO_WAN_SM_EXIT]
  | STATE_AUTO_WAN_INTERFACE_WAITING =>
      [STATE_AUTO_WAN_INTERFACE_WAITING; STATE_AUTO_WAN_INTERFACE_SCANNING; STATE_AUTO_WAN_INTERFACE_SELECTING; STATE_AUTO_WAN_SM_EXIT]
  | STATE_AUTO_WAN_INTERFACE_SCANNING =>
      [STATE_AUTO_WAN_INTERFACE_SCANNING; STATE_AUTO_WAN_INTERFACE_WAITING; STATE_AUTO_WAN_INTERFACE_RECONFIGURATION;
       STATE_AUTO_WAN_INTERFACE_TEARDOWN]
  | STATE_AUTO_WAN_INTERFACE_TEARDOWN =>
      [STATE_AUTO_WAN_INTERFACE_TEARDOWN; STATE_AUTO_WAN_INTERFACE_SELECTING; STATE_AUTO_WAN_TEARING_DOWN]
  | STATE_AUTO_WAN_INTERFACE_RECONFIGURATION =>
      [STATE_AUTO_WAN_INTERFACE_ACTIVE; STATE_AUTO_WAN_INTERFACE_DOWN; STATE_AUTO_WAN_REBOOT_PLATFORM]
  | STATE_AUTO_WAN_REBOOT_PLATFORM => [STATE_AUTO_WAN_REBOOT_PLATFORM; STATE_AUTO_WAN_SM_EXIT]
  | STATE_AUTO_WAN_INTERFACE_ACTIVE | STATE_AUTO_WAN_INTERFACE_DOWN =>
      [STATE_AUTO_WAN_INTERFACE_ACTIVE; STATE_AUTO_WAN_INTERFACE_DOWN; STATE_AUTO_WAN_INTERFACE_TEARDOWN]
  | STATE_AUTO_WAN_TEARING_DOWN => [STATE_AUTO_WAN_TEARING_DOWN; STATE_AUTO_WAN_SM_EXIT]
  | STATE_AUTO_WAN_SM_EXIT | STATE_AUTO_WAN_ERROR => []
  end.
(** Without an interface to work on, a state that needs one is an error. *)
Definition aw_edge (st st' : WcAwPolicyState_t) : bool :=
  bool_decide (st' ∈ aw_succ st) || (st' ≟ STATE_AUTO_WAN_ERROR).

Lemma aw_edge_error st : aw_edge st STATE_AUTO_WAN_ERROR = true.
Proof. unfold aw_edge. by rewrite orb_true_r. Qed.
Lemma aw_edge_in st st' : st' ∈ aw_succ st -> aw_edge st st' = true.
Proof. intros Hs. unfold aw_edge. by rewrite bool_decide_eq_true_2. Qed.
Ltac aw_edge_tac :=
  repeat match goal with
    | |- context [if ?b then _ else _] => destruct b
    | |- context [match ?o with Some _ => _ | None => _ end] => destruct o
    end; first [done | reflexivity | apply aw_edge_error | by apply aw_edge_in].

(** * What a pass does to the selections *)

Section Effect.
Context `{Platform} `{Build} `{AutoBuild} (g a : Z) (an : option iface_ptr).
Implicit Type s : St PC.

(** The policy of group [g] works on interface [a], at [an], or gave it up. *)
Definition acting s : Prop :=
  grp s = g /\ (active_idx s = a \/ active_idx s = -1) /\ pc_pWanActiveIfaceData (ctl s) = an.
(** The selection of the group stays, is cleared, or becomes [a]. *)
Definition own_change (l l' : list Z) : Prop :=
  same_but g l l' /\ (l' !! Z.to_nat (g - 1) = l !! Z.to_nat (g - 1)
    \/ l' !! Z.to_nat (g - 1) = Some 0 \/ l' !! Z.to_nat (g - 1) = Some (u32 (a + 1))).
#[export] Instance own_change_preorder : PreOrder own_change.
Proof.
  split; [intros l; split; [done | by left]|]. intros l1 l2 l3 [H12 O12] [H23 O23].
  split; [by etransitivity|]. destruct O23 as [->|?]; [done | by right].
Qed.
(** Nothing but the interface the policy works on changes its selection status. *)
Definition others_keep s s' : Prop := forall i, an <> Some i -> statuses s' !! i = statuses s !! i.
Definition effect s s' : Prop := selections own_change s s' /\ others_keep s s'.
#[export] Instance effect_preorder : PreOrder effect.
Proof.
  split; [intros s; split; [reflexivity | by intros i _]|].
  intros s1 s2 s3 [H12 O12] [H23 O23]. split; [by etransitivity|]. intros i Hi. by rewrite O23, O12.
Qed.

Definition Acts {A} (P : A -> Prop) (m : M (St PC) A) : Prop := forall s x s',
  acting s -> m s = Some (x, s') -> acting s' /\ effect s s' /\ P x.

Lemma acts_ret {A} (P : A -> Prop) (x : A) : P x -> Acts P (ret x).
Proof. intros HP s y s' Hs [= <- <-]. split; [done|]. by split; [reflexivity|]. Qed.
Lemma acts_bind {A B} (P : B -> Prop) (m : M (St PC) A) (k : A -> M (St PC) B) :
  Acts (fun _ => True) m -> (forall x, Acts P (k x)) -> Acts P (bind m k).
Proof.
  intros Hm Hk s y s' Hs E. unfold bind in E. destruct (m s) as [[x s1]|] eqn:E1; [|done].
  destruct (Hm _ _ _ Hs E1) as (Hs1 & He1 & _). destruct (Hk _ _ _ _ Hs1 E) as (Hs2 & He2 & HP).
  split; [done|]. split; [by etransitivity | done].
Qed.
Lemma acts_controller {A} (P : A -> Prop) k :
  (forall c, pc_GroupInst c = g -> (pc_activeInterfaceIdx c = a \/ pc_activeInterfaceIdx c = -1) ->
     pc_pWanActiveIfaceData c = an -> Acts P (k c)) -> Acts P (bind get_controller k).
Proof. intros Hk s y s' Hs E. destruct (Hs) as (E1 & E2 & E3). by apply (Hk (ctl s) E1 E2 E3 s). Qed.
Lemma acts_keep {A} (m : M (St PC) A) : Keeps aw_view m -> Acts (fun _ => True) m.
Proof.
  intros Hk s x s' (Hg & Ha & Hp) E. apply Hk in E.
  pose proof (f_equal (fun x => x.1) E) as Hv. pose proof (f_equal (fun x => x.2) E) as Hc. simpl in Hv, Hc.
  assert (grp s' = grp s) as H1' by exact (f_equal (fun x => x.1.1) Hc).
  assert (active_idx s' = active_idx s) as H2' by exact (f_equal (fun x => x.1.2) Hc).
  assert (pc_pWanActiveIfaceData (ctl s') = pc_pWanActiveIfaceData (ctl s)) as H3' by exact (f_equal (fun x => x.2) Hc).
  split; [unfold acting; by rewrite H1', H2', H3'|]. split; [|done]. split; [by apply selections_view; [apply _|]|].
  intros i _. by rewrite (f_equal (fun x => x.1.2) Hv : statuses s' = statuses s).
Qed.
Lemma acts_when (b : bool) (m : M (St PC) unit) :
  (b = true -> Acts (fun _ => True) m) -> Acts (fun _ => True) (when b m).
Proof. destruct b; intros Hm; [by apply Hm | by apply acts_ret]. Qed.
Lemma acts_if {A} (P : A -> Prop) (b : bool) (m1 m2 : M (St PC) A) :
  (b = true -> Acts P m1) -> (b = false -> Acts P m2) -> Acts P (if b then m1 else m2).
Proof. destruct b; auto. Qed.

(** Writing the selection status of the interface the policy works on. *)
Lemma acts_upd_active (i : nat) f :
  an = Some i -> (forall I, sel_Group (if_Selection (f I)) = sel_Group (if_Selection I)) ->
  (forall I, sel_Status (if_Selection (f I)) = WAN_IFACE_ACTIVE -> sel_Status (if_Selection I) = WAN_IFACE_ACTIVE) ->
  Acts (fun _ => True) (upd_iface i f).
Proof.
  intros Hi Hg Hs s x s' Hac E. pose proof (moves_upd_iface own_change i f Hg Hs _ _ _ E) as Hm.
  rewrite upd_iface_run in E. destruct (ifaces s !! i); [|done]. injection E as _ <-.
  split; [done|]. split; [split; [exact Hm|] | done]. intros j Hj. rewrite statuses_alter.
  destruct (decide _) as [<-|]; [by destruct Hj | done].
Qed.
Lemma upd_group_run {C} (i : nat) f (s : St C) :
  upd_group i f s = (fun _ => (tt, s <| db ::= fun d => d <| w_Group := alter f i (w_Group d) |> |>)) <$> groups s !! i.
Proof. unfold upd_group, get_group, get_db, bind, gets, groups. by destruct (w_Group (db s) !! i). Qed.
Lemma acts_set_selected v :
  v = 0 \/ v = u32 (a + 1) -> g <> 0 -> 0 <= g < 2 ^ 32 -> Acts (fun _ => True) (WanMgr_SetGroupSelectedIface g v).
Proof.
  intros Hv Hne Hg s x s' Hac E. unfold WanMgr_SetGroupSelectedIface in E. mrun E.
  rewrite with_group_eq in E0. unfold guarded in E0. injection E as <- <-.
  destruct (group_ok _ _); [|by injection E0 as _ <-; split; [done|]; split; [reflexivity|]].
  rewrite upd_group_run, u32_small in E0 by lia. change (groups (locked s)) with (groups s) in E0.
  destruct (groups s !! Z.to_nat (g - 1)) as [G|] eqn:EG; [|done]. injection E0 as _ <-.
  split; [done|]. split; [|done]. split; [|by intros i _]. split; [done|]. split; [done|]. split.
  - intros j Hj. unfold selected, unlocked, locked, groups in *. rsimpl. by rewrite !list_lookup_fmap, list_lookup_alter_ne.
  - right. unfold selected, unlocked, locked, groups in *. rsimpl. rewrite list_lookup_fmap, list_lookup_alter_eq, EG. simpl.
    destruct Hv as [->| ->]; auto.
Qed.
Lemma acts_forget : Acts (fun _ => True) (set_ctl (fun c => c <| pc_activeInterfaceIdx := -1 |>)).
Proof.
  intros s x s' (Hg & _ & Hp) [= _ <-]. split; [split; [done|]; split; [by right | done]|].
  split; [split; [split; [done|]; split; [done | reflexivity] | by intros i _] | done].
Qed.

(** ** The transitions and the states *)


Context (Hne : g <> 0) (Hr : 0 <= g < 2 ^ 32).
#[local] Hint Unfold syscfg_get syscfg_set_commit clock_gettime WanMgr_RdkBus_SetParamValues : monad.
Lemma acts_set_group c v :
  pc_GroupInst c = g -> (v = 0 \/ v = u32 (a + 1)) -> Acts (fun _ => True) (WanMgr_SetGroupSelectedIface (pc_GroupInst c) v).
Proof. intros -> Hv. by apply acts_set_selected. Qed.
Lemma acts_set_group_own c :
  pc_GroupInst c = g -> (pc_activeInterfaceIdx c = a \/ pc_activeInterfaceIdx c = -1) ->
  Acts (fun _ => True) (WanMgr_SetGroupSelectedIface (pc_GroupInst c) (u32 (pc_activeInterfaceIdx c + 1))).
Proof. intros Hc [-> | ->]; (apply acts_set_group; [done|]); [by right | by left]. Qed.
Ltac acts_step :=
  first
  [ assumption
  | apply acts_ret; solve [aw_edge_tac]
  | apply acts_keep; solve [keeps_tac]
  | lazymatch goal with
    | |- Acts _ (bind get_controller _) => apply acts_controller; intros ? ? ? ?
    | |- Acts _ (bind _ _) => apply acts_bind; [|intros ?]
    | |- Acts _ (when _ _) => apply acts_when; intros ?
    | |- Acts _ (WanMgr_SetGroupSelectedIface _ 0) => apply acts_set_group; [done.. | by left]
    | |- Acts _ (WanMgr_SetGroupSelectedIface _ _) => by apply acts_set_group_own
    | |- Acts _ (upd_iface _ _) => eapply acts_upd_active; [first [eassumption | symmetry; eassumption] | reflexivity | intros ?; rsimpl; done]
    | |- Acts _ (set_ctl (fun c => c <| pc_activeInterfaceIdx := -1 |>)) => apply acts_forget
    | |- Acts _ (match ?x with _ => _ end) => destruct x eqn:?
    end
  | progress cbv beta zeta
  | progress autounfold with monad ].
Ltac acts_tac := repeat acts_step.

#[local] Abbreviation goes st m := (Acts (fun st' => aw_edge st st' = true) m).
Lemma acts_reset_group : Acts (fun _ => True) WanMgr_ResetGroupSelectedIface.
Proof. unfold WanMgr_ResetGroupSelectedIface. acts_tac. Qed.
Lemma acts_InterfaceInvalid st :
  STATE_AUTO_WAN_INTERFACE_SELECTING ∈ aw_succ st -> goes st Transition_InterfaceInvalid.
Proof. intros Hs. unfold Transition_InterfaceInvalid. acts_tac. Qed.
Lemma acts_InterfaceFound : goes STATE_AUTO_WAN_INTERFACE_WAITING Transition_InterfaceFound.
Proof. unfold Transition_InterfaceFound. acts_tac. Qed.
Lemma acts_InterfaceDeselect : goes STATE_AUTO_WAN_INTERFACE_SCANNING Transition_InterfaceDeselect.
Proof. unfold Transition_InterfaceDeselect. acts_tac. Qed.
Lemma acts_InterfaceValidated : goes STATE_AUTO_WAN_INTERFACE_SCANNING Transition_InterfaceValidated.
Proof. unfold Transition_InterfaceValidated. acts_tac. Qed.
Lemma acts_RestartSelectionInterface : goes STATE_AUTO_WAN_INTERFACE_TEARDOWN Transition_RestartSelectionInterface.
Proof. pose proof acts_reset_group. unfold Transition_RestartSelectionInterface. acts_tac. Qed.
Lemma acts_ReconfigurePlatform : goes STATE_AUTO_WAN_INTERFACE_RECONFIGURATION Transition_ReconfigurePlatform.
Proof. unfold Transition_ReconfigurePlatform. acts_tac. Qed.
Lemma acts_ResetSelectedInterface st :
  STATE_AUTO_WAN_INTERFACE_TEARDOWN ∈ aw_succ st -> goes st Transition_ResetSelectedInterface.
Proof. intros Hs. unfold Transition_ResetSelectedInterface. acts_tac. Qed.
Lemma acts_State_WaitForInterface : goes STATE_AUTO_WAN_INTERFACE_WAITING State_WaitForInterface.
Proof.
  pose proof acts_InterfaceFound. pose proof (acts_InterfaceInvalid STATE_AUTO_WAN_INTERFACE_WAITING ltac:(set_solver)).
  unfold State_WaitForInterface. acts_tac.
Qed.
Lemma acts_State_ScanningInterface : goes STATE_AUTO_WAN_INTERFACE_SCANNING State_ScanningInterface.
Proof.
  pose proof acts_InterfaceDeselect. pose proof acts_InterfaceValidated.
  unfold State_ScanningInterface, Transition_ScanningInterfaceDown. acts_tac.
Qed.
Lemma acts_State_WaitingForIfaceTearDown : goes STATE_AUTO_WAN_INTERFACE_TEARDOWN State_WaitingForIfaceTearDown.
Proof.
  pose proof acts_RestartSelectionInterface. pose proof (acts_InterfaceInvalid STATE_AUTO_WAN_INTERFACE_TEARDOWN ltac:(set_solver)).
  unfold State_WaitingForIfaceTearDown. acts_tac.
Qed.
Lemma acts_State_InterfaceReconfiguration : goes STATE_AUTO_WAN_INTERFACE_RECONFIGURATION State_InterfaceReconfiguration.
Proof.
  pose proof acts_ReconfigurePlatform.
  unfold State_InterfaceReconfiguration, Transistion_WanInterfaceDown, Transition_ActivatingInterface. acts_tac.
Qed.
Lemma acts_State_RebootingPlatform : goes STATE_AUTO_WAN_REBOOT_PLATFORM State_RebootingPlatform.
Proof. unfold State_RebootingPlatform, Transition_RebootDevice. acts_tac. Qed.
Lemma acts_State_WanInterfaceActive : goes STATE_AUTO_WAN_INTERFACE_ACTIVE State_WanInterfaceActive.
Proof.
  pose proof (acts_ResetSelectedInterface STATE_AUTO_WAN_INTERFACE_ACTIVE ltac:(set_solver)).
  unfold State_WanInterfaceActive, Transistion_WanInterfaceDown. acts_tac.
Qed.
Lemma acts_State_WanInterfaceDown : goes STATE_AUTO_WAN_INTERFACE_DOWN State_WanInterfaceDown.
Proof.
  pose proof (acts_ResetSelectedInterface STATE_AUTO_WAN_INTERFACE_DOWN ltac:(set_solver)).
  unfold State_WanInterfaceDown, Transistion_WanInterfaceUp. acts_tac.
Qed.
Lemma acts_State_WaitingForInterfaceSMExit : goes STATE_AUTO_WAN_TEARING_DOWN State_WaitingForInterfaceSMExit.
Proof. pose proof acts_reset_group. unfold State_WaitingForInterfaceSMExit. acts_tac. Qed.
End Effect.

(** * A pass *)

Section AutoPass.
Context `{Platform} `{Build} `{AutoBuild}.
Implicit Type s : St PC.
#[local] Hint Unfold syscfg_get syscfg_set_commit clock_gettime : monad.

(** Selecting an interface only changes the choice of the policy. *)
Definition grp_view s := (sel_view s, grp s).
Lemma grp_of_aw {A} (m : M (St PC) A) : Keeps aw_view m -> Keeps grp_view m.
Proof. apply (keeps_coarser aw_view (fun x => (x.1, x.2.1.1))). Qed.
#[local] Hint Extern 4 (Keeps grp_view _) => (apply grp_of_aw; solve [auto 2 with keeps nocore]) : keeps.
Lemma grp_SelectingInterface : Keeps grp_view State_SelectingInterface.
Proof.
  unfold State_SelectingInterface, Transition_InterfaceSelected, Transition_TryingNextInterface,
    WanMgr_Policy_Auto_GetHighPriorityIface. keeps_tac.
Qed.
Lemma edge_SelectingInterface :
  Returns (fun st' => aw_edge STATE_AUTO_WAN_INTERFACE_SELECTING st' = true) State_SelectingInterface.
Proof.
  unfold State_SelectingInterface, Transition_InterfaceSelected, Transition_TryingNextInterface. returns_tac.
Qed.

(** The end of a pass in state [st]: the next state, or the end of the thread. *)
Definition aw_next (st : WcAwPolicyState_t) (o : option WcAwPolicyState_t) : Prop :=
  match o with
  | Some st' => st' = st \/ aw_edge st st' = true
  | None => st = STATE_AUTO_WAN_SM_EXIT \/ st = STATE_AUTO_WAN_ERROR
  end.
Lemma effect_view g a an s s' : sel_view s' = sel_view s -> effect g a an s s'.
Proof.
  intros Hv. split; [by apply selections_view; [apply _|]|].
  intros i _. by rewrite (f_equal (fun x => x.1.2) Hv : statuses s' = statuses s).
Qed.
Lemma aw_dispatch_effect st s o s' :
  grp s <> 0 -> 0 <= grp s < 2 ^ 32 -> aw_dispatch st s = Some (o, s') ->
  effect (grp s) (active_idx s) (pc_pWanActiveIfaceData (ctl s)) s s' /\ grp s' = grp s /\ aw_next st o.
Proof.
  intros Hne Hr E. set (g := grp s) in *. set (a := active_idx s). set (an := pc_pWanActiveIfaceData (ctl s)).
  assert (acting g a an s) as Hs by (split; [done|]; split; [by left | done]).
  assert (Hdo : forall m, Acts g a an (fun st' => aw_edge st st' = true) m ->
    (r <- m ;; ret (Some r)) s = Some (o, s') -> effect g a an s s' /\ grp s' = g /\ aw_next st o).
  { intros m Hm Er. mrun Er. injection Er as <- <-. destruct (Hm _ _ _ Hs E0) as ((Hg' & _) & He & Hst).
    split; [done|]. split; [done | by right]. }
  destruct st; simpl in E; [| eapply Hdo; [|exact E] ..| |eapply Hdo; [|exact E] |].
  - mrun E. injection E as <- <-. pose proof (grp_SelectingInterface _ _ _ E0) as Hv.
    split; [apply effect_view; exact (f_equal fst Hv)|]. split; [exact (f_equal snd Hv)|]. right.
    by eapply edge_SelectingInterface.
  - by apply acts_State_WaitForInterface.
  - by apply acts_State_ScanningInterface.
  - by apply acts_State_WaitingForIfaceTearDown.
  - by apply acts_State_InterfaceReconfiguration.
  - by apply acts_State_RebootingPlatform.
  - by apply acts_State_WanInterfaceActive.
  - by apply acts_State_WanInterfaceDown.
  - injection E as <- <-. split; [reflexivity|]. split; [done | by right].
  - by apply acts_State_WaitingForInterfaceSMExit.
  - injection E as <- <-. split; [reflexivity|]. split; [done | by left].
Qed.

(** The head of a pass: the lock on the interface of the choice. *)
Lemma get_locked_run idx s :
  WanMgr_GetIfaceData_locked idx s = Some (if iface_ok s idx then (Some (Z.to_nat idx), locked s) else (None, s)).
Proof.
  destruct (proj1 (wp_run _ _ _) (wp_get_locked idx (fun o s' => (o, s') = if iface_ok s idx then (Some (Z.to_nat idx), locked s) else (None, s)) s
    ltac:(by intros ->) ltac:(by intros ->))) as (o & s' & -> & Es). exact (f_equal Some Es).
Qed.
Lemma aw_lock_run s u s' :
  grp s <> 0 -> aw_lock_active s = Some (u, s') ->
  sel_view s' = sel_view s /\ grp s' = grp s /\ active_idx s' = active_idx s
  /\ forall i, pc_pWanActiveIfaceData (ctl s') = Some i -> Z.of_nat i = u32 (active_idx s).
Proof.
  intros Hne E. unfold aw_lock_active in E. mrun E. injection E0 as <- <-. mrun E. rewrite get_locked_run in E0.
  mrun E. injection E1 as _ <-. pose proof (u32_range (active_idx s)) as Hr.
  destruct (iface_ok s _) eqn:Hok; injection E0 as <- <-.
  - mrun E. rewrite get_iface_run in E0. destruct (ifaces _ !! _) as [A|]; [|done]. injection E0 as <- <-.
    mrun E. injection E0 as _ <-. rewrite (proj2 (Z.eqb_neq (grp s) 0) Hne : (pc_GroupInst (ctl s) =? 0) = false) in E. injection E as _ <-.
    split; [done|]. split; [done|]. split; [done|]. intros i [= <-]. change (pc_activeInterfaceIdx (ctl s)) with (active_idx s). lia.
  - injection E as _ <-. split; [done|]. split; [done|]. split; [done|]. intros i [=].
Qed.
Lemma aw_release_view : Keeps aw_view aw_release_active.
Proof. unfold aw_release_active. keeps_tac. Qed.

(** A pass from [s] to [s'] in state [st]. *)
Lemma aw_pass st s o s' :
  1 <= grp s < 2 ^ 32 -> aw_iteration st s = Some (o, s') ->
  exists an, (forall i, an = Some i -> Z.of_nat i = u32 (active_idx s))
    /\ effect (grp s) (active_idx s) an s s' /\ grp s' = grp s /\ aw_next st o.
Proof.
  intros Hr E. unfold aw_iteration in E. mrun E. injection E0 as <- <-.
  destruct (_ <? 0); [injection E as <- <-; exists None; split; [done|]; split; [by apply effect_view|]; split; [done | by left]|].
  mrun E. apply aw_update in E0. change (aw_view s0 = aw_view s) in E0.
  pose proof (f_equal fst E0) as Hv. pose proof (f_equal (fun x => x.2.1.1) E0 : grp s0 = grp s) as Hg0.
  pose proof (f_equal (fun x => x.2.1.2) E0 : active_idx s0 = active_idx s) as Ha0.
  mrun E. apply aw_lock_run in E1 as (Hv1 & Hg1 & Ha1 & Hi); [|lia].
  mrun E. apply aw_dispatch_effect in E1 as (He & Hg2 & Hn); [|lia|lia].
  mrun E. apply aw_release_view in E1. injection E as <- <-.
  exists (pc_pWanActiveIfaceData (ctl s1)). rewrite Ha0 in Hi. split; [exact Hi|].
  rewrite Hg1, Hg0, Ha1, Ha0 in He.
  split; [|split; [|done]].
  - transitivity s1; [apply effect_view; rewrite Hv1; exact Hv|]. etransitivity; [exact He|]. apply effect_view. exact (f_equal fst E1).
  - transitivity (grp s2); [exact (f_equal (fun x => x.2.1.1) E1) | congruence].
Qed.
End AutoPass.
