(* ===== verification/AutoPass.v ===== *)
(** A pass of the auto policy runs to its end and gives back the lock. *)

From S2P Require Export AutoEffect.
#[local] Abbreviation PC := WanMgr_Policy_Controller_t.
Section Progress.
Context `{Platform} `{Build} `{AutoBuild}.
Implicit Type s : St PC.

Lemma safe_aw_dispatch sh an st :
  wf_shape sh -> sh.1.1.1 < 2 ^ 32 - 1 -> (forall a, an = Some a -> valid_iface sh a) ->
  (st = STATE_AUTO_WAN_INTERFACE_SELECTING -> False) ->
  Safe (H := caches an) sh (fun _ => True) (aw_dispatch st).
Proof.
  intros Hwf Hsm Han Hsel. destruct st; simpl; try (by apply safe_ret); (apply safe_bind_any; [|intros r; by apply safe_ret]).
  - by destruct Hsel.
  - by apply safe_State_WaitForInterface.
  - by apply safe_aw_ScanningInterface.
  - by apply safe_State_WaitingForIfaceTearDown.
  - by apply safe_State_InterfaceReconfiguration.
  - by apply safe_State_RebootingPlatform.
  - by apply safe_State_WanInterfaceActive.
  - by apply safe_State_WanInterfaceDown.
  - by apply safe_State_WaitingForInterfaceSMExit.
Qed.
Lemma wp_aw_dispatch sh an st s :
  wf_shape sh -> sh.1.1.1 < 2 ^ 32 - 1 -> (forall a, an = Some a -> valid_iface sh a) ->
  framed (H := caches an) sh s -> (active_idx s = -1 -> an = None) ->
  wp (aw_dispatch st) (fun _ s' => framed (H := caches an) sh s' /\ depth s' = depth s) s.
Proof.
  intros Hwf Hsm Han Hf Hno.
  destruct (decide (st = STATE_AUTO_WAN_INTERFACE_SELECTING)) as [->|Hne].
  2: { eapply wp_mono; [by apply (safe_aw_dispatch sh an st)|]. by intros ? ? [? _]. }
  simpl. unfold State_SelectingInterface. apply wp_bind, wp_bind, wp_gets, wp_if; intros Htd; [by apply wp_ret, wp_ret|].
  change (pc_activeInterfaceIdx (ctl s)) with (active_idx s). apply wp_if; intros Hi.
  - eapply wp_mono; [by apply (safe_Transition_InterfaceSelected sh an Han)|]. intros r s' [? _]. by apply wp_ret.
  - assert (active_idx s = -1) as Hm by (destruct (Z.eqb_spec (active_idx s) (-1)); done). rewrite (Hno Hm) in *.
    eapply wp_mono; [by apply (safe_Transition_TryingNextInterface sh Hwf)|]. intros r s' [? _]. by apply wp_ret.
Qed.

(** The interface locked at the head of a pass. *)
Lemma wp_aw_lock s (Q : unit -> St PC -> Prop) :
  db_wf (db s) -> nifaces s < 2 ^ 32 - 1 ->
  (forall s1 an, framed (H := caches an) (shape_of (db s)) s1 -> (active_idx s1 = -1 -> an = None) ->
     (forall a, an = Some a -> valid_iface (shape_of (db s)) a) ->
     depth s1 = ((if an then 1 else 0) + depth s)%nat -> Q tt s1) ->
  wp aw_lock_active Q s.
Proof.
  intros Hwf Hsm HQ. unfold aw_lock_active. apply wp_bind, wp_gets, wp_bind, wp_get_locked; intros Hok; apply wp_bind, wp_modify.
  2: { apply wp_ret, (HQ _ None); [split; [done|]; split; [done | by left] | done | done | unfold depth; simpl; lia]. }
  destruct (iface_ok_lookup s (u32 (active_idx s))) as (I & v & l & HI & Hv); [done | apply u32_range | exact Hok|].
  apply wp_bind. eapply wp_get_iface; [exact HI|]. apply wp_bind, wp_modify.
  assert (valid_iface (shape_of (db s)) (Z.to_nat (u32 (active_idx s)))) as Hva
    by (apply (iface_ok_valid _ s); [done | done | apply u32_range | exact Hok]).
  assert (Hm : active_idx s <> -1).
  { intros E. change (pc_activeInterfaceIdx (ctl s)) with (active_idx s) in Hok. rewrite E in Hok. unfold iface_ok in Hok. apply andb_prop in Hok as [Hok _]. rewrite u32_neg in Hok by lia.
    unfold nifaces in Hsm. lia. }
  apply wp_when; intros _; [apply wp_modify|]; (apply (HQ _ (Some (Z.to_nat (u32 (active_idx s)))));
    [split; [done|]; split; [done | by right; right] | by intros E | by intros ? [= <-] | done]).
Qed.

Lemma wp_aw_iteration st s :
  db_wf (db s) -> nifaces s < 2 ^ 32 - 1 ->
  wp (aw_iteration st) (fun _ s' => shape_of (db s') = shape_of (db s) /\ depth s' = depth s) s.
Proof.
  intros Hwf Hsm. unfold aw_iteration. apply wp_bind. eapply wp_intro; [reflexivity|].
  apply wp_if; intros _; [by apply wp_ret|].
  apply wp_bind, (wp_UpdateControllerData _ (fun _ s1 => wp _ _ s1)); [done|]. intros s1 Hd _ _ _ _.
  apply wp_bind, wp_aw_lock; [by rewrite Hd | unfold nifaces in *; by rewrite Hd |]. intros s2 an Hf Hno Han Hdep.
  rewrite Hd in *. apply wp_bind. eapply wp_mono; [by eapply (wp_aw_dispatch _ an)|].
  intros o s3 [[Hsh [Hp _]] Hd3]. unfold aw_release_active. apply wp_bind, wp_bind, wp_gets. rewrite Hp.
  assert (depth s1 = depth s) as Hd1 by (unfold depth; by rewrite Hd).
  destruct an; [eapply wp_intro; [reflexivity|]|]; apply wp_ret, wp_ret || apply wp_ret; (split; [exact Hsh|]).
  - change (pred (depth s3) = depth s). simpl in Hdep. lia.
  - simpl in Hdep. lia.
Qed.
End Progress.
