(* ===== verification/AutoScan.v ===== *)
(** The order in which the auto policy tries the interfaces of its group. *)

From Stdlib Require Import Sorting.Sorted.
From S2P Require Export AutoPass.
#[local] Abbreviation PC := WanMgr_Policy_Controller_t.

(** * The best interface *)

(** What the choice reads of an interface. *)
Definition first_status (I : DML_WAN_IFACE) : option DML_WAN_IFACE_STATUS := v_Status <$> head (if_VirtIfList I).
Definition scan_field : Type := Z * bool * Z * IFACE_TYPE * option DML_WAN_IFACE_STATUS.
Definition scan_fields (I : DML_WAN_IFACE) : scan_field :=
  (sel_Group (if_Selection I), sel_Enable (if_Selection I), sel_Priority (if_Selection I), if_IfaceType I, first_status I).
Definition f_priority (x : scan_field) : Z := x.1.1.2.
(** An interface of group [g] the policy may try. *)
Definition eligible (g : Z) (remote : bool) (x : scan_field) : bool :=
  let '(grp, en, prio, type, st) := x in
  (g =? grp) && (en && (0 <=? prio)) && bool_decide (st = Some WAN_IFACE_STATUS_DISABLED)
  && negb (negb remote && (type ≟ REMOTE_IFACE)) && (prio <? DML_WAN_IFACE_PRIORITY_MAX).

Section Best.
Context (L : list scan_field) (g : Z) (remote : bool).
Definition may_try (j : nat) : Prop := exists x, L !! j = Some x /\ eligible g remote x = true.
Definition prio_at (j : nat) : Z := default 0 (f_priority <$> L !! j).
(** [i] is tried before [j]: a smaller priority value, or the same and a
    smaller index. *)
Definition tried_before (i j : nat) : Prop := prio_at i < prio_at j \/ prio_at i = prio_at j /\ (i < j)%nat.

(** Of the first [k] interfaces. *)
Definition first_best (k : nat) (acc : Z * Z) : Prop :=
  acc = (-1, DML_WAN_IFACE_PRIORITY_MAX) /\ (forall j, (j < k)%nat -> ~ may_try j)
  \/ exists i, acc = (Z.of_nat i, prio_at i) /\ (i < k)%nat /\ may_try i
     /\ forall j, (j < k)%nat -> may_try j -> j = i \/ tried_before i j.

Lemma first_best_skip k acc : first_best k acc -> ~ may_try k -> first_best (S k) acc.
Proof.
  intros Hb Hk. destruct Hb as [[-> Hn]|(i & -> & Hi & Hm & Hb)].
  - left. split; [done|]. intros j Hj. destruct (decide (j = k)) as [->|]; [done | apply Hn; lia].
  - right. exists i. split; [done|]. split; [lia|]. split; [done|]. intros j Hj.
    destruct (decide (j = k)) as [->|]; [done | apply Hb; lia].
Qed.
Lemma first_best_take k acc :
  first_best k acc -> may_try k ->
  first_best (S k) (if prio_at k <? snd acc then (Z.of_nat k, prio_at k) else acc).
Proof.
  intros Hb Hk. destruct Hb as [[-> Hn]|(i & -> & Hi & Hm & Hb)]; simpl.
  - destruct (Hk) as (x & Hx & He). assert (prio_at k < DML_WAN_IFACE_PRIORITY_MAX) as Hlt.
    { unfold prio_at, f_priority. rewrite Hx. destruct x as [[[[? ?] ?] ?] ?]. unfold eligible in He. simpl in *.
      apply andb_prop in He as [_ He]. lia. }
    rewrite (proj2 (Z.ltb_lt _ _) Hlt). right. exists k. split; [done|]. split; [lia|]. split; [done|].
    intros j Hj Hj'. destruct (decide (j = k)); [by left | destruct (Hn j); [lia | done]].
  - destruct (Z.ltb_spec (prio_at k) (prio_at i)) as [Hlt|Hge]; right.
    + exists k. split; [done|]. split; [lia|]. split; [done|]. intros j Hj Hj'. destruct (decide (j = k)); [by left | right].
      destruct (Hb j) as [->|[?|[? ?]]]; [lia | done | left; lia | left; lia | left; lia].
    + exists i. split; [done|]. split; [lia|]. split; [done|]. intros j Hj Hj'.
      destruct (decide (j = k)) as [->|]; [|apply Hb; [lia | done]]. right. unfold tried_before. lia.
Qed.
End Best.

(** * The choice of the policy *)

Section Choice.
Context `{Platform} `{Build} `{AutoBuild} (Hxb : XB6_CBR2_PRODUCT_REQ = false).
Implicit Type s : St PC.

Definition scan_view s : list scan_field := take (Z.to_nat (nifaces s)) (scan_fields <$> ifaces s).
Definition remote_allowed s : bool := pc_AllowRemoteInterfaces (ctl s).

Lemma scan_view_lookup s k I :
  (k < Z.to_nat (nifaces s))%nat -> ifaces s !! k = Some I -> scan_view s !! k = Some (scan_fields I).
Proof. intros Hk HI. unfold scan_view. rewrite lookup_take_lt by done. by rewrite list_lookup_fmap, HI. Qed.

Lemma wp_high_priority_iface s (k : nat) acc (Q : Z * Z * option unit -> St PC -> Prop) :
  db_wf (db s) -> nifaces s < 2 ^ 31 -> (k < Z.to_nat (nifaces s))%nat ->
  first_best (scan_view s) (grp s) (remote_allowed s) k acc ->
  (forall acc', first_best (scan_view s) (grp s) (remote_allowed s) (S k) acc' -> Q (acc', None) s) ->
  wp (high_priority_iface (ctl s) (Z.of_nat k) acc) Q s.
Proof.
  intros Hwf Hsm Hk Hb HQ. unfold high_priority_iface. apply wp_with_iface; intros Hok.
  2: { rewrite iface_ok_in in Hok; [done | done | unfold nifaces in *; lia]. }
  destruct (iface_ok_lookup s (Z.of_nat k)) as (I & v & l & HI & Hv); [done | lia | done |]. rewrite Nat2Z.id in *.
  apply wp_bind. eapply wp_get_iface; [exact HI|].
  pose proof (scan_view_lookup s k I Hk HI) as Hx.
  assert (eligible (grp s) (remote_allowed s) (scan_fields I)
    = in_group (ctl s) I && selectable I && (v_Status v ≟ WAN_IFACE_STATUS_DISABLED)
      && negb (negb (pc_AllowRemoteInterfaces (ctl s)) && (if_IfaceType I ≟ REMOTE_IFACE))
      && (sel_Priority (if_Selection I) <? DML_WAN_IFACE_PRIORITY_MAX)) as He.
  { unfold eligible, scan_fields, first_status. rewrite Hv. simpl. do 3 f_equal. apply bool_decide_ext. split; [by intros [= ->] | by intros ->]. }
  assert (Hskip : eligible (grp s) (remote_allowed s) (scan_fields I) = false -> Q (acc, None) s).
  { intros Hn. apply HQ. apply first_best_skip; [done|]. intros (x & Hx' & Hx2). pose proof (eq_trans (eq_sym Hx) Hx') as E. injection E as <-. by rewrite Hn in Hx2. }
  apply wp_if; intros Hs; [|apply wp_ret; rewrite unlocked_locked; apply Hskip; rewrite He; by rewrite Hs].
  rewrite Hv. apply wp_bind, (wp_deref _ v); [done|]. apply wp_if; intros Hd.
  - apply wp_ret. rewrite unlocked_locked. apply Hskip. rewrite He, Hs. simpl.
    apply orb_prop in Hd as [Hd|Hd]; [|by rewrite Hd, andb_false_r]. by destruct (v_Status v ≟ _).
  - apply orb_false_iff in Hd as [Hd1 Hd2].
    assert (prio_at (scan_view s) k = sel_Priority (if_Selection I)) as Hp by (unfold prio_at; by rewrite Hx).
    apply wp_bind. rewrite Hxb.
    assert (forall b, b = (sel_Priority (if_Selection I) <? snd acc) -> 
      Q ((if b then (s32 (Z.of_nat k), sel_Priority (if_Selection I)) else acc), None) s) as Hgo;
      [|destruct (_ <? snd acc) eqn:Ec; apply wp_ret, wp_ret; rewrite unlocked_locked; first [exact (Hgo true eq_refl) | exact (Hgo false eq_refl)]].
    intros b ->. rewrite s32_small by (split; lia). apply HQ.
    destruct (Z.ltb_spec (sel_Priority (if_Selection I)) DML_WAN_IFACE_PRIORITY_MAX) as [Hlt|Hge].
    + rewrite <- Hp. apply first_best_take; [done|]. exists (scan_fields I). split; [done|].
      rewrite He, Hs, Hd2. simpl. destruct (v_Status v ≟ _); [|done]. simpl. lia.
    + destruct (Z.ltb_spec (sel_Priority (if_Selection I)) (snd acc)) as [Hlt|_].
      * exfalso. destruct Hb as [[-> _]|(i & -> & _ & (x & Hxi & Hxe) & _)]; simpl in Hlt; [lia|].
        unfold prio_at, f_priority in Hlt. rewrite Hxi in Hlt. destruct x as [[[[? ?] ?] ?] ?]. unfold eligible in Hxe.
        simpl in *. apply andb_prop in Hxe as [_ Hxe]. lia.
      * apply first_best_skip; [done|]. intros (x & Hx' & Hx2). pose proof (eq_trans (eq_sym Hx) Hx') as E. injection E as <-.
        rewrite He in Hx2. apply andb_prop in Hx2 as [_ Hx2]. lia.
Qed.

(** The whole choice: the interface the policy turns to, if there is one. *)
Definition chosen s (o : option nat) : Prop :=
  match o with
  | None => forall j, ~ may_try (scan_view s) (grp s) (remote_allowed s) j
  | Some i => may_try (scan_view s) (grp s) (remote_allowed s) i
      /\ forall j, may_try (scan_view s) (grp s) (remote_allowed s) j -> j = i \/ tried_before (scan_view s) i j
  end.
(** The controller knows the configuration, as after [WanMgr_UpdateControllerData]. *)
Definition informed s : Prop := pc_WanEnable (ctl s) = true /\ pc_TotalIfaces (ctl s) = nifaces s.

Lemma may_try_lt s j : may_try (scan_view s) (grp s) (remote_allowed s) j -> (j < Z.to_nat (nifaces s))%nat.
Proof. intros (x & Hx & _). apply lookup_lt_Some in Hx. unfold scan_view in Hx. rewrite length_take in Hx. lia. Qed.

Lemma wp_GetHighPriorityIface s (Q : unit -> St PC -> Prop) :
  db_wf (db s) -> nifaces s < 2 ^ 31 -> informed s ->
  (chosen s None -> Q tt s) ->
  (forall i, chosen s (Some i) -> Q tt (with_active (Z.of_nat i) s)) ->
  wp WanMgr_Policy_Auto_GetHighPriorityIface Q s.
Proof.
  intros Hwf Hsm [He Ht] HN HS. unfold WanMgr_Policy_Auto_GetHighPriorityIface. apply wp_bind, wp_gets.
  rewrite He, Ht. cbn [negb orb]. apply wp_if; intros Hz.
  { apply wp_ret, HN. intros j Hj%may_try_lt. lia. }
  assert (0 <= nifaces s) as Hpos by (destruct Hwf as (Hl & _); unfold nifaces; lia).
  apply wp_bind, (wp_for_acc_range (fun k acc s' => s' = s
    /\ first_best (scan_view s) (grp s) (remote_allowed s) (Z.to_nat k) acc)).
  - split; [done|]. left. split; [done | intros j Hj; lia].
  - intros k acc s1 Hk [-> Hb]. rewrite <- (Z2Nat.id k) at 1 by lia.
    apply wp_high_priority_iface; [done | done | lia | done |]. intros acc' Hb'. simpl. split; [done|].
    by replace (Z.to_nat (k + 1)) with (S (Z.to_nat k)) by lia.
  - intros acc s1 [-> Hb]. rewrite Z.max_r in Hb by done. destruct Hb as [[-> Hn]|(i & -> & Hi & Hm & Hb)]; cbn [fst snd]; cbv zeta.
    + apply HN. intros j Hj. by apply (Hn j); [apply may_try_lt|].
    + apply wp_when; [|lia]. intros _. apply wp_modify, HS. split; [done|]. intros j Hj. by apply Hb; [apply may_try_lt|].
Qed.

(** ** A choice that finds nothing *)

Definition f_group (x : scan_field) : Z := x.1.1.1.1.
Definition f_status (x : scan_field) : option DML_WAN_IFACE_STATUS := x.2.
(** What [WanMgr_ResetIfaceTable] makes of an interface. *)
Definition revive (g : Z) (x : scan_field) : scan_field :=
  if (g =? f_group x) && bool_decide (f_status x = Some WAN_IFACE_STATUS_INVALID)
  then (x.1, Some WAN_IFACE_STATUS_DISABLED) else x.
Definition revive_iface (g : Z) (I : DML_WAN_IFACE) : DML_WAN_IFACE :=
  if (g =? sel_Group (if_Selection I)) && bool_decide (first_status I = Some WAN_IFACE_STATUS_INVALID)
  then upd_first_vif (fun v => v <| v_Status := WAN_IFACE_STATUS_DISABLED |>) I else I.
Lemma revive_fields g I : scan_fields (revive_iface g I) = revive g (scan_fields I).
Proof.
  unfold revive_iface, revive. change (f_group (scan_fields I)) with (sel_Group (if_Selection I)).
  change (f_status (scan_fields I)) with (first_status I). destruct (_ && _) eqn:E; [|done].
  apply andb_prop in E as [_ E]. apply bool_decide_eq_true_1 in E. unfold scan_fields, first_status in *.
  unfold upd_first_vif. rsimpl. by destruct (if_VirtIfList I).
Qed.
Lemma revive_vifs g I : vifs_of (revive_iface g I) = vifs_of I.
Proof.
  unfold revive_iface. destruct (_ && _); [|done]. unfold vifs_of, upd_first_vif. rsimpl.
  by destruct (if_VirtIfList I).
Qed.
Definition scan_complete s : option bool := g_InitialScanComplete <$> groups s !! Z.to_nat (grp s - 1).
Definition quiet_view s := (groups s, ctl s).
Lemma wp_ResetIfaceTable s (Q : unit -> St PC -> Prop) :
  db_wf (db s) -> pc_TotalIfaces (ctl s) = nifaces s ->
  (forall s', counts s' = counts s -> quiet_view s' = quiet_view s -> scan_view s' = revive (grp s) <$> scan_view s ->
     shape_of (db s') = shape_of (db s) -> Q tt s') ->
  wp WanMgr_ResetIfaceTable Q s.
Proof.
  intros Hwf Ht HQ. unfold WanMgr_ResetIfaceTable. apply wp_bind, wp_gets. rewrite Ht.
  assert (forall s' n, n = nifaces s -> counts s' = counts s -> quiet_view s' = quiet_view s ->
    ifaces s' = update_ifaces n (fun _ => revive_iface (grp s)) (ifaces s) -> Q tt s') as Hend.
  { intros s' n -> Hc HV HI. injection HV as HG Hctl.
    apply HQ; [done | unfold quiet_view; congruence | |].
    - unfold scan_view. injection Hc as Hc _. unfold nifaces at 1. rewrite Hc, HI. apply list_eq. intros j.
      rewrite list_lookup_fmap. destruct (decide (j < Z.to_nat (nifaces s))%nat) as [Hj|Hj].
      + rewrite !lookup_take_lt by exact Hj. rewrite !list_lookup_fmap, update_ifaces_lookup.
        destruct (ifaces s !! j); simpl; [|done]. rewrite (proj2 (Z.ltb_lt _ _)) by lia. by rewrite revive_fields.
      + rewrite !lookup_take_ge; [done | lia | exact (proj1 (Nat.nlt_ge _ _) Hj)].
    - eapply shape_update_ifaces; [done | done | exact HI | intros; apply revive_vifs]. }
  apply wp_if; intros Hz.
  { apply wp_ret, (Hend s (nifaces s)); [done..|]. apply list_eq. intros j. rewrite update_ifaces_lookup.
    destruct (ifaces s !! j); simpl; [|done]. by rewrite (proj2 (Z.ltb_ge _ _)) by lia. }
  apply (wp_update_ifaces quiet_view (nifaces s) (fun _ => revive_iface (grp s))); [done | done | | intros s'; by apply Hend].
  intros k I s1 Hk HI HI1 Hc HV. unfold reset_iface. apply wp_bind. eapply wp_get_iface; [exact HI1|].
  destruct (iface_ok_lookup s k) as (I' & v & l & HI' & Hv); [done | lia | by apply iface_ok_in|].
  pose proof (eq_trans (eq_sym HI) HI') as E. injection E as <-.
  assert (Hsame : revive_iface (grp s) I = I -> counts s1 = counts s1 /\ quiet_view s1 = quiet_view s1
    /\ ifaces s1 = <[Z.to_nat k := revive_iface (grp s) I]> (ifaces s1)).
  { intros ->. do 2 (split; [done|]). by rewrite list_insert_id. }
  apply wp_when; intros Hg; change (in_group (ctl s) I) with (grp s =? sel_Group (if_Selection I)) in Hg.
  2: { apply Hsame. unfold revive_iface. by rewrite Hg. }
  rewrite Hv. apply wp_bind, (wp_deref _ v); [done|]. apply wp_when; intros Hs.
  - apply bool_decide_eq_true_1 in Hs. eapply wp_upd_iface; [exact HI1|]. split; [done|]. split; [done|].
    unfold ifaces. rsimpl. erewrite list_alter_at by exact HI1. f_equal. unfold revive_iface, first_status.
    by rewrite Hg, Hv, bool_decide_eq_true_2 by (simpl; by rewrite Hs).
  - apply bool_decide_eq_false_1 in Hs. apply Hsame. unfold revive_iface, first_status.
    by rewrite Hg, Hv, bool_decide_eq_false_2 by (simpl; congruence).
Qed.

(** Choosing the next interface to try. *)
Lemma wp_TryingNextInterface s (Q : WcAwPolicyState_t -> St PC -> Prop) :
  db_wf (db s) -> nifaces s < 2 ^ 31 -> informed s -> active_idx s = -1 ->
  (forall i, chosen s (Some i) -> Q STATE_AUTO_WAN_INTERFACE_SELECTING (with_active (Z.of_nat i) s)) ->
  (forall s', chosen s None -> ctl s' = ctl s -> counts s' = counts s -> shape_of (db s') = shape_of (db s) ->
     scan_view s' = revive (grp s) <$> scan_view s ->
     (group_ok s (u32 (grp s - 1)) = true -> g_InitialScanComplete <$> groups s' !! Z.to_nat (u32 (grp s - 1)) = Some true) ->
     Q STATE_AUTO_WAN_INTERFACE_SELECTING s') ->
  wp Transition_TryingNextInterface Q s.
Proof.
  intros Hwf Hsm Hin Ha HS HN. unfold Transition_TryingNextInterface.
  apply wp_bind, wp_GetHighPriorityIface; [done..| |].
  2: { intros i Hc. apply wp_bind, wp_gets, wp_bind, wp_when; intros Hm; [|by apply wp_ret, HS].
       exfalso. apply Z.eqb_eq in Hm. change (Z.of_nat i = -1) in Hm. lia. }
  intros Hc. apply wp_bind, wp_gets, wp_bind. change (pc_activeInterfaceIdx (ctl s)) with (active_idx s). rewrite Ha.
  change (pc_GroupInst (ctl s)) with (grp s). cbn [when Z.eqb].
  assert (Hgo : forall s1, db_wf (db s1) -> counts s1 = counts s -> ctl s1 = ctl s -> ifaces s1 = ifaces s ->
    shape_of (db s1) = shape_of (db s) ->
    (group_ok s (u32 (grp s - 1)) = true -> g_InitialScanComplete <$> groups s1 !! Z.to_nat (u32 (grp s - 1)) = Some true) ->
    wp (WanMgr_ResetIfaceTable ;; reset_wan_mode)
      (fun _ s' => wp (ret STATE_AUTO_WAN_INTERFACE_SELECTING) Q s') s1).
  { intros s1 Hwf1 Hc1 Hctl1 HI1 Hsh1 Hg1.
    assert (nifaces s1 = nifaces s) as Hn1 by (injection Hc1; done).
    apply wp_bind, wp_ResetIfaceTable; [done | rewrite Hctl1, Hn1; apply Hin |].
    intros s2 Hc2 HV2 Hv2 Hsh2. injection HV2 as HG2 Hctl2.
    unfold reset_wan_mode. apply wp_bind, wp_gets. rewrite Hxb. apply wp_ret, HN; [done | congruence | congruence | congruence | |].
    - rewrite Hv2. change (grp s1) with (pc_GroupInst (ctl s1)). rewrite Hctl1. unfold scan_view. by rewrite Hn1, HI1.
    - intros Hok. rewrite HG2. by apply Hg1. }
  apply wp_bind, wp_with_group; intros Hok; [|apply Hgo; (done || by rewrite Hok)].
  destruct (group_ok_lookup s (u32 (grp s - 1))) as (G & HG); [done | apply u32_range | done|].
  eapply wp_upd_group; [exact HG|]. apply Hgo; try done.
  - unfold db_wf. change (wf_shape (shape_of (db (s <| db ::= fun d => d <| w_Group := alter (fun G => G <| g_InitialScanComplete := true |>) (Z.to_nat (u32 (grp s - 1))) (w_Group d) |> |>)))).
    by rewrite shape_alter_group.
  - apply (shape_alter_group s).
  - intros _. etransitivity; [apply (f_equal _ (groups_alter_eq s _ _ _ HG))|]. done.
Qed.

(** Giving up the interface of the choice. *)
Definition invalid (x : scan_field) : scan_field := (x.1, Some WAN_IFACE_STATUS_INVALID).

(** What the order of the tries depends on. *)
Definition scan_state s := (scan_view s, grp s, remote_allowed s, nifaces s).
Lemma scan_view_alter s i f :
  (forall I, ifaces s !! i = Some I -> scan_fields (f I) = scan_fields I) ->
  scan_state (s <| db ::= fun d => d <| w_pIface := alter f i (w_pIface d) |> |>) = scan_state s.
Proof.
  intros Hf. unfold scan_state. refine (f_equal (fun x => (x, grp s, remote_allowed s, nifaces s)) _).
  unfold scan_view. f_equal. apply list_eq. intros j. rewrite !list_lookup_fmap.
  unfold ifaces in *. rsimpl. rewrite list_lookup_alter. destruct (decide _) as [<-|]; [|done].
  destruct (w_pIface (db s) !! i) as [I|]; simpl; [|done]. by rewrite Hf.
Qed.
Lemma scan_upd_iface i f : (forall I, scan_fields (f I) = scan_fields I) -> Keeps scan_state (upd_iface i f).
Proof.
  intros Hf. apply keeps_bind; [apply keeps_get_iface | intros _]. apply keeps_modify. intros s.
  by apply scan_view_alter.
Qed.
#[local] Hint Extern 2 (Keeps scan_state (upd_iface _ _)) => (apply scan_upd_iface; reflexivity) : keeps.
#[local] Hint Unfold DmlSetWanActiveLinkInPSMDB : monad.
Lemma scan_SetActiveLink b : Keeps scan_state (WanMgr_SetActiveLink b).
Proof. unfold WanMgr_SetActiveLink. keeps_tac. Qed.

Lemma InterfaceInvalid_run s r s' (i : nat) :
  pc_pWanActiveIfaceData (ctl s) = Some i -> active_idx s = Z.of_nat i ->
  Transition_InterfaceInvalid s = Some (r, s') ->
  scan_state s' = (alter invalid i (scan_view s), grp s, remote_allowed s, nifaces s)
  /\ active_idx s' = -1 /\ r = STATE_AUTO_WAN_INTERFACE_SELECTING.
Proof.
  clear Hxb. intros Hp Ha E. unfold Transition_InterfaceInvalid in E. mrun E. injection E0 as <- <-. rewrite Hp in E.
  change (pc_activeInterfaceIdx (ctl s)) with (active_idx s) in E. rewrite Ha, (proj2 (Z.eqb_neq _ _)) in E by lia.
  mrun E. rewrite get_iface_run in E0. destruct (ifaces s !! i) as [A|] eqn:EA; [|done]. injection E0 as <- <-.
  mrun E. unfold deref in E0. destruct (head (if_VirtIfList A)) as [v|] eqn:Ev; [|done]. injection E0 as _ <-.
  mrun E. rewrite upd_iface_run, EA in E0. injection E0 as _ <-.
  mrun E. apply scan_SetActiveLink in E0. mrun E. injection E1 as _ <-. injection E as <- <-.
  split; [|done]. etransitivity; [exact E0|]. unfold scan_state.
  refine (f_equal (fun x => (x, grp s, remote_allowed s, nifaces s)) _).
  apply list_eq. intros j. rewrite list_lookup_alter. unfold scan_view.
  destruct (decide (j < Z.to_nat (nifaces s))%nat) as [Hj|Hj].
  2: { rewrite lookup_take_ge by exact (proj1 (Nat.nlt_ge _ _) Hj). destruct (decide (i = j)) as [<-|]; by rewrite lookup_take_ge by exact (proj1 (Nat.nlt_ge _ _) Hj). }
  rewrite lookup_take_lt by exact Hj. unfold ifaces in *. rsimpl. rewrite list_lookup_fmap, list_lookup_alter.
  destruct (decide (i = j)) as [<-|]; rewrite lookup_take_lt by exact Hj; rewrite list_lookup_fmap; [|done].
  rewrite EA. simpl. unfold scan_fields, first_status, invalid, upd_first_vif. rsimpl. by destruct (if_VirtIfList A).
Qed.

(** * The scan of a group *)

(** The policy is about to choose. *)
Definition choosing s : Prop :=
  db_wf (db s) /\ nifaces s < 2 ^ 31 /\ informed s /\ active_idx s = -1.
(** What the rest of the system may do while the policy is at interface [i]:
    change the status of [i]. *)
Definition elsewhere (i : nat) s s' : Prop :=
  grp s' = grp s /\ remote_allowed s' = remote_allowed s
  /\ (forall j, fst <$> scan_view s' !! j = fst <$> scan_view s !! j)
  /\ forall j, j <> i -> scan_view s' !! j = scan_view s !! j.
(** The interfaces tried from [s] to [s'], each of them given up. *)
Inductive Tries : list nat -> St PC -> St PC -> Prop :=
| tries_none s : choosing s -> Tries [] s s
| tries_fail (i : nat) l s r s1 s2 r' s3 s4 s' :
    choosing s -> Transition_TryingNextInterface s = Some (r, s1) -> active_idx s1 = Z.of_nat i ->
    elsewhere i s1 s2 -> active_idx s2 = Z.of_nat i -> pc_pWanActiveIfaceData (ctl s2) = Some i ->
    Transition_InterfaceInvalid s2 = Some (r', s3) ->
    scan_view s4 = scan_view s3 -> grp s4 = grp s3 -> remote_allowed s4 = remote_allowed s3 ->
    Tries l s4 s' -> Tries (i :: l) s s'.

Lemma eligible_invalid g b x : eligible g b (invalid x) = false.
Proof. destruct x as [[[[? ?] ?] ?] ?]. unfold eligible, invalid. simpl. by rewrite andb_false_r. Qed.
(** A failed try takes one interface off the list and leaves the rest. *)
Lemma failed_try (i : nat) s s1 s2 s3 r r' :
  choosing s -> Transition_TryingNextInterface s = Some (r, s1) -> active_idx s1 = Z.of_nat i ->
  elsewhere i s1 s2 -> active_idx s2 = Z.of_nat i -> pc_pWanActiveIfaceData (ctl s2) = Some i ->
  Transition_InterfaceInvalid s2 = Some (r', s3) ->
  chosen s (Some i) /\ grp s3 = grp s /\ remote_allowed s3 = remote_allowed s
  /\ (forall j, prio_at (scan_view s3) j = prio_at (scan_view s) j)
  /\ forall j, may_try (scan_view s3) (grp s) (remote_allowed s) j
       <-> may_try (scan_view s) (grp s) (remote_allowed s) j /\ j <> i.
Proof.
  intros (Hwf & Hsm & Hin & Ha) E1 Hi (Hg & Hr & Hfst & Hoth) Ha2 Hp E2.
  assert (chosen s (Some i) /\ s1 = with_active (Z.of_nat i) s) as [Hc ->].
  { refine (wp_use _ (fun _ s1 => active_idx s1 = Z.of_nat i -> _) _ _ _ E1 _ Hi).
    apply wp_TryingNextInterface; [done..| |].
    - intros k Hc Hk. assert (k = i) as -> by (change (Z.of_nat k = Z.of_nat i) in Hk; lia). done.
    - intros s1' _ Hctl. change (active_idx s1') with (pc_activeInterfaceIdx (ctl s1')). rewrite Hctl.
      change (pc_activeInterfaceIdx (ctl s)) with (active_idx s). lia. }
  destruct (InterfaceInvalid_run _ _ _ _ Hp Ha2 E2) as (Hs3 & _). injection Hs3 as Hv3 Hg3 Hr3 _.
  change (grp (with_active (Z.of_nat i) s)) with (grp s) in Hg.
  change (remote_allowed (with_active (Z.of_nat i) s)) with (remote_allowed s) in Hr.
  change (scan_view (with_active (Z.of_nat i) s)) with (scan_view s) in Hfst, Hoth.
  split; [done|]. split; [congruence|]. split; [congruence|].
  assert (forall j, fst <$> scan_view s3 !! j = fst <$> scan_view s !! j) as Hfst3.
  { intros j. rewrite <- Hfst, Hv3, list_lookup_alter. destruct (decide _) as [<-|]; [|done].
    symmetry. exact (option_fmap_compose invalid fst (scan_view s2 !! i)). }
  split.
  - intros j. unfold prio_at. specialize (Hfst3 j).
    destruct (scan_view s3 !! j), (scan_view s !! j); simpl in *; [|done..]. injection Hfst3 as Hf. unfold f_priority. by rewrite Hf.
  - intros j. destruct (decide (j = i)) as [->|Hne].
    + split; [|by intros [_ []]]. intros (x & Hx & He). rewrite Hv3, list_lookup_alter, decide_True in Hx by done.
      destruct (scan_view s2 !! i); [|done]. injection Hx as <-. by rewrite eligible_invalid in He.
    + unfold may_try. rewrite Hv3, list_lookup_alter, decide_False by done. rewrite Hoth by done. naive_solver.
Qed.

Lemma tries_order l s s' :
  Tries l s s' ->
  StronglySorted (tried_before (scan_view s)) l /\ choosing s'
  /\ grp s' = grp s /\ remote_allowed s' = remote_allowed s
  /\ Forall (may_try (scan_view s) (grp s) (remote_allowed s)) l
  /\ forall j, may_try (scan_view s') (grp s) (remote_allowed s) j
       <-> may_try (scan_view s) (grp s) (remote_allowed s) j /\ j ∉ l.
Proof.
  induction 1 as [s Hch | i l s r s1 s2 r' s3 s4 s' Hch E1 Hi Hel Ha2 Hp E2 Hv Hg Hr _ IH].
  { split; [constructor|]. split; [done|]. do 2 (split; [done|]). split; [constructor|]. intros j. set_solver. }
  destruct (failed_try _ _ _ _ _ _ _ Hch E1 Hi Hel Ha2 Hp E2) as ([Hm Hb] & Hg3 & Hr3 & Hpr & Hmt).
  destruct IH as (Hs & Hch' & Hg' & Hr' & Hf & Hleft). rewrite Hv, Hg, Hr, Hg3, Hr3 in *.
  assert (Forall (fun j => may_try (scan_view s) (grp s) (remote_allowed s) j /\ j <> i) l) as Hf'
    by (eapply Forall_impl; [exact Hf | intros j; apply Hmt]).
  assert (forall j k, tried_before (scan_view s3) j k -> tried_before (scan_view s) j k) as Htb
    by (intros j k; unfold tried_before; by rewrite !Hpr).
  split; [|split; [done|split; [done|split; [done|split]]]].
  - constructor; [clear - Hs Htb; induction Hs; constructor; [done | eapply Forall_impl; eauto]|].
    eapply Forall_impl; [exact Hf'|]. intros j [Hj Hne]. by destruct (Hb j Hj).
  - constructor; [done|]. eapply Forall_impl; [exact Hf'|]. by intros j [? _].
  - intros j. rewrite Hleft, Hmt. set_solver.
Qed.
End Choice.
