(* ===== verification/AutoProps.v ===== *)
(** The properties of the auto policy. *)

From Stdlib Require Import Sorting.Sorted.
From S2P Require Export ParallelProps AutoScan.
#[local] Abbreviation PC := WanMgr_Policy_Controller_t.

Section AutoProperties.
Context `{Platform} `{Build} `{AutoBuild}.
Implicit Type s : St PC.

(** C23: a pass of the auto policy of a group follows an edge of its machine, or
    ends it in the exit or the error state.  It moves no interface, writes no other
    group's selection, sets its own group's only to none or to the interface it
    works on, makes no interface active, and changes the selection status of no
    interface but that one: the promise the failover thread relies on. *)
Theorem auto_pass_effect st s o s' :
  1 <= grp s < 2 ^ 32 -> aw_iteration st s = Some (o, s') ->
  aw_next st o /\ grp s' = grp s /\ ifgroups s' = ifgroups s
  /\ (forall j, j <> Z.to_nat (grp s - 1) -> selected s' !! j = selected s !! j)
  /\ (own_selection s' = own_selection s \/ own_selection s' = Some 0
      \/ own_selection s' = Some (u32 (active_idx s + 1)))
  /\ forall i, (statuses s' !! i = Some WAN_IFACE_ACTIVE -> statuses s !! i = Some WAN_IFACE_ACTIVE)
       /\ (Z.of_nat i <> u32 (active_idx s) -> statuses s' !! i = statuses s !! i).
Proof.
  intros Hg E. destruct (aw_pass _ _ _ _ Hg E) as (an & Han & (([Hgr _] & Hact & Hsb & Hown) & Hoth) & Hg' & Hn).
  split; [done|]. split; [done|]. split; [done|]. split; [exact Hsb|]. split.
  - unfold own_selection. rewrite Hg'. destruct Hown as [Ho|[Ho|Ho]]; rewrite Ho; auto.
  - intros i. split; [by apply Hact|]. intros Hi. apply Hoth. intros Ei. by apply Hi, Han.
Qed.

(** C24: in every state of its machine, on every well-formed data base, a pass of the
    auto policy runs to its end: it dereferences no [NULL], leaves the tables well
    formed, and gives back the lock on the interface it works on and every other lock
    it takes, whether or not the state machines it asks for can be started. *)
Theorem auto_progress st s :
  db_wf (db s) -> nifaces s < 2 ^ 32 - 1 ->
  exists o s', aw_iteration st s = Some (o, s') /\ depth s' = depth s /\ db_wf (db s').
Proof.
  intros Hwf Hn. destruct (proj1 (wp_run _ _ _) (wp_aw_iteration st s Hwf Hn)) as (o & s' & E & Hsh & Hd).
  exists o, s'. split; [done|]. split; [done|]. unfold db_wf. by rewrite Hsh.
Qed.


(** ** Giving up an interface whose selection was withdrawn *)

Definition tear_view s := (scan_state s, selected s, statuses s, ctl s).
Lemma tear_ism_running i : Keeps tear_view (WanMgr_Get_ISM_RunningStatus i).
Proof. unfold WanMgr_Get_ISM_RunningStatus. keeps_tac. Qed.
#[local] Hint Unfold DmlSetWanActiveLinkInPSMDB : monad.
#[local] Hint Extern 4 (Keeps grp_view _) => (apply grp_of_aw; solve [auto 2 with keeps nocore]) : keeps.
Lemma select_InterfaceInvalid : Keeps (fun s => (selected s, statuses s)) Transition_InterfaceInvalid.
Proof.
  apply (keeps_coarser grp_view (fun x => x.1.1)). unfold Transition_InterfaceInvalid. keeps_tac.
Qed.
(** An interface torn down because of a request that has been withdrawn since
    (the WAN enabled again, the reset of the selection cleared): once its state
    machine is gone the policy gives it up and scans again, while the selection of
    the group still names it. *)
Theorem auto_stale_selection s (i : nat) :
  db_wf (db s) -> nifaces s < 2 ^ 32 - 1 -> Z.of_nat i < nifaces s ->
  active_idx s = Z.of_nat i -> pc_pWanActiveIfaceData (ctl s) = Some i ->
  tear_down_requested (ctl s) = false -> pc_ResetSelectedInterface (ctl s) = false ->
  exists st s', aw_dispatch STATE_AUTO_WAN_INTERFACE_TEARDOWN s = Some (Some st, s')
    /\ selected s' = selected s /\ statuses s' = statuses s
    /\ (st = STATE_AUTO_WAN_INTERFACE_TEARDOWN /\ active_idx s' = active_idx s
        \/ st = STATE_AUTO_WAN_INTERFACE_SELECTING /\ active_idx s' = -1
           /\ scan_view s' = alter invalid i (scan_view s)).
Proof.
  intros Hwf Hn Hi Ha Hp Htd Hrs.
  assert (wp State_WaitingForIfaceTearDown (fun _ _ => True) s) as Hw.
  { eapply wp_mono; [apply (safe_State_WaitingForIfaceTearDown (shape_of (db s)) Hwf (Some i))|done].
    - intros a [= <-]. rewrite <- (Nat2Z.id i). apply (iface_ok_valid _ s (Z.of_nat i)); [done | done | lia |].
      apply iface_ok_in; [done | unfold nifaces in *; lia].
    - split; [done|]. split; [done|]. right. right. change (pc_activeInterfaceIdx (ctl s)) with (active_idx s).
      rewrite Ha, u32_small by lia. by rewrite Nat2Z.id. }
  apply wp_run in Hw as (st & s' & E & _). exists st, s'. simpl. split; [unfold bind; by rewrite E|].
  unfold State_WaitingForIfaceTearDown in E. mrun E. injection E0 as <- <-. rewrite Hp in E. mrun E.
  apply tear_ism_running in E0. injection E0 as Ev Eg Er En Es Est Ec. match type of E with context [if ?b then _ else _] => destruct b end.
  { injection E as <- <-. split; [done|]. split; [done|]. left. split; [done|]. unfold active_idx. by rewrite Ec. }
  rewrite Htd, Hrs in E. pose proof (select_InterfaceInvalid _ _ _ E) as Hsel. injection Hsel as Hsel Hst.
  split; [congruence|]. split; [congruence|]. right.
  apply (InterfaceInvalid_run _ _ _ i) in E as (Hss & Ha' & ->); [|by rewrite Ec | unfold active_idx; by rewrite Ec].
  split; [done|]. split; [done|]. injection Hss as Hv _ _ _. by rewrite Hv, Ev.
Qed.
End AutoProperties.

(** * Witnesses *)

#[local] Instance the_build : Build := sample_build.
#[local] Instance the_platform : Platform := sample_platform 100.
#[local] Instance the_auto_build : AutoBuild :=
  {| PLATFORM_RASPBERRYPI := false; AUTOWAN_ENABLE := false; WAN_MANAGER_SELECTION_SCAN_TIMEOUT_DISABLE := false |}.

(** The policy of group 1, about to choose among two disabled interfaces. *)
Definition aw_pc : PC :=
  sample_pc <| pc_WanEnable := true |> <| pc_GroupInst := 1 |> <| pc_TotalIfaces := 2 |>
    <| pc_activeInterfaceIdx := -1 |>.
Definition aw_first : St PC :=
  sample_state aw_pc (sample_db (sample_pair WAN_IFACE_STATUS_DISABLED WAN_IFACE_STATUS_DISABLED) [sample_group 0]).
Definition after {A} (m : M (St PC) A) (s : St PC) : St PC := match m s with Some (_, s') => s' | None => s end.
(** The policy locks the interface it works on. *)
Definition aw_at (i : nat) (s : St PC) : St PC := s <| ctl ::= fun c => c <| pc_pWanActiveIfaceData := Some i |> |>.
(** The first interface is tried and given up, then the second. *)
Definition aw_second : St PC := after Transition_InterfaceInvalid (aw_at 0 (after Transition_TryingNextInterface aw_first)).
Definition aw_third : St PC := after Transition_InterfaceInvalid (aw_at 1 (after Transition_TryingNextInterface aw_second)).
Definition aw_reset : St PC := after Transition_TryingNextInterface aw_third.
Lemma aw_choosing s :
  db_wfb (db s) = true -> (nifaces s <? 2 ^ 31) && pc_WanEnable (ctl s) && (pc_TotalIfaces (ctl s) =? nifaces s)
    && (active_idx s =? -1) = true -> choosing s.
Proof.
  intros Hwf [[[Hn He]%andb_prop Ht]%andb_prop Ha]%andb_prop. split; [by apply db_wfb_wf|]. split; [lia|].
  split; [split; [done | lia] | lia].
Qed.
Lemma aw_at_elsewhere i s : elsewhere i s (aw_at i s).
Proof. by split. Qed.
Lemma aw_at_locked i s : pc_pWanActiveIfaceData (ctl (aw_at i s)) = Some i.
Proof. done. Qed.
Ltac run_it := vm_compute; exact eq_refl.
Lemma aw_try1 : Transition_TryingNextInterface aw_first
  = Some (STATE_AUTO_WAN_INTERFACE_SELECTING, after Transition_TryingNextInterface aw_first).
Proof. run_it. Qed.
Lemma aw_fail1 : Transition_InterfaceInvalid (aw_at 0 (after Transition_TryingNextInterface aw_first))
  = Some (STATE_AUTO_WAN_INTERFACE_SELECTING, aw_second).
Proof. run_it. Qed.
Lemma aw_try2 : Transition_TryingNextInterface aw_second
  = Some (STATE_AUTO_WAN_INTERFACE_SELECTING, after Transition_TryingNextInterface aw_second).
Proof. run_it. Qed.
Lemma aw_fail2 : Transition_InterfaceInvalid (aw_at 1 (after Transition_TryingNextInterface aw_second))
  = Some (STATE_AUTO_WAN_INTERFACE_SELECTING, aw_third).
Proof. run_it. Qed.
Lemma aw_tries : Tries [0; 1]%nat aw_first aw_third.
Proof.
  refine (tries_fail 0 [1%nat] _ _ _ _ _ _ aw_second _ _ aw_try1 _ (aw_at_elsewhere 0 _) _ (aw_at_locked 0 _) aw_fail1
    eq_refl eq_refl eq_refl _); [apply aw_choosing; run_it | run_it | run_it |].
  refine (tries_fail 1 [] _ _ _ _ _ _ aw_third _ _ aw_try2 _ (aw_at_elsewhere 1 _) _ (aw_at_locked 1 _) aw_fail2
    eq_refl eq_refl eq_refl _); [apply aw_choosing; run_it | run_it | run_it |].
  apply tries_none, aw_choosing; run_it.
Qed.

(** The first interface is selected; a scan is under way and its link is up. *)
Definition aw_selected : St PC :=
  sample_state (aw_pc <| pc_activeInterfaceIdx := 0 |> <| pc_pWanActiveIfaceData := Some 0%nat |>)
    (sample_db [sample_iface 0 1 WAN_IFACE_SELECTED WAN_IFACE_STATUS_STANDBY;
                sample_iface 1 1 WAN_IFACE_NOT_SELECTED WAN_IFACE_STATUS_DISABLED] [sample_group 1]).
Definition aw_torn : option WcAwPolicyState_t * St PC :=
  match aw_iteration STATE_AUTO_WAN_INTERFACE_TEARDOWN aw_selected with Some r => r | None => (None, aw_selected) end.
Lemma auto_pass_effect_witness :
  aw_next STATE_AUTO_WAN_INTERFACE_TEARDOWN (fst aw_torn)
  /\ forall i, statuses (snd aw_torn) !! i = Some WAN_IFACE_ACTIVE -> statuses aw_selected !! i = Some WAN_IFACE_ACTIVE.
Proof.
  destruct (auto_pass_effect STATE_AUTO_WAN_INTERFACE_TEARDOWN aw_selected (fst aw_torn) (snd aw_torn))
    as (Hn & _ & _ & _ & _ & Hi); [by vm_compute | by vm_compute |].
  split; [exact Hn | intros i; apply Hi].
Defined.
Lemma auto_progress_witness : exists o s',
  aw_iteration STATE_AUTO_WAN_INTERFACE_SCANNING aw_selected = Some (o, s') /\ depth s' = 0%nat /\ db_wf (db s').
Proof.
  apply (auto_progress STATE_AUTO_WAN_INTERFACE_SCANNING aw_selected);
    [apply db_wfb_wf; by vm_compute | by vm_compute].
Defined.
Lemma auto_stale_selection_witness : exists st s',
  aw_dispatch STATE_AUTO_WAN_INTERFACE_TEARDOWN aw_selected = Some (Some st, s')
  /\ selected s' = [1] /\ (st = STATE_AUTO_WAN_INTERFACE_TEARDOWN \/ active_idx s' = -1).
Proof.
  destruct (auto_stale_selection aw_selected 0) as (st & s' & E & Hsel & _ & Hst);
    [apply db_wfb_wf; by vm_compute | by vm_compute | by vm_compute | done | done | done | done |].
  exists st, s'. split; [exact E|]. split; [rewrite Hsel; run_it|].
  destruct Hst as [[? _]|(_ & ? & _)]; auto.
Defined.
