(* ===== verification/PsmConfig.v ===== *)
(** The configuration in PSM, the persistent store: what the manager reads of it
    when it starts and what it writes back ([TR-181/middle_layer_src/
    wanmgr_rdkbus_apis.c]), the tables it builds from it ([wanmgr_data.c]) and the
    repair of the store ([wanmgr_dhcp_legacy_apis.c]).  The keys are those of the
    builds with WAN unification. *)

From S2P Require Export AutoPolicy.

(** * Keys and values *)

Definition psm_if (instancenum : Z) (key : string) : string :=
  "dmsb.wanmanager.if." +:+ dec (s32 instancenum) +:+ "." +:+ key.
(** The keys count the virtual interfaces from 1. *)
Definition psm_vif (instancenum virtInsNum : Z) (key : string) : string :=
  psm_if instancenum ("VirtualInterface." +:+ dec (s32 (virtInsNum + 1)) +:+ "." +:+ key).
(** A row of a table of a virtual interface. *)
Definition row_key (table : string) (i : Z) (field : string) : string :=
  table +:+ "." +:+ dec (s32 (i + 1)) +:+ "." +:+ field.

Definition true_text (b : bool) : string := if b then "TRUE" else "FALSE".
Definition SELECTION_TIMEOUT_DEFAULT_MIN : Z := 20.
Definition PPP_INTERFACE_TABLE : string := "Device.PPP.Interface.".
Definition VLAN_TERMINATION_TABLE : string := "Device.X_RDK_Ethernet.VLANTermination.".
Definition DEFAULT_PSM_FILE : string := "/usr/ccsp/config/bbhm_def_cfg.xml".

(** Enumerators and their codes.  An integer that is no enumerator is read as one
    the code treats the same way. *)
Definition iface_type_val (t : DML_WAN_IFACE_TYPE) : Z :=
  match t with WAN_IFACE_TYPE_UNCONFIGURED => 1 | WAN_IFACE_TYPE_PRIMARY => 2 | WAN_IFACE_TYPE_SECONDARY => 3 end.
Definition DML_WAN_IFACE_TYPE_of (n : Z) : DML_WAN_IFACE_TYPE :=
  if n =? 2 then WAN_IFACE_TYPE_PRIMARY else if n =? 3 then WAN_IFACE_TYPE_SECONDARY else WAN_IFACE_TYPE_UNCONFIGURED.
Definition ip_source_val (x : DML_WAN_IP_SOURCE) : Z :=
  match x with DML_WAN_IP_SOURCE_STATIC => 1 | DML_WAN_IP_SOURCE_DHCP => 2 | DML_WAN_IP_SOURCE_PPP => 3 end.
Definition DML_WAN_IP_SOURCE_of (n : Z) : DML_WAN_IP_SOURCE :=
  if n =? 2 then DML_WAN_IP_SOURCE_DHCP else if n =? 3 then DML_WAN_IP_SOURCE_PPP else DML_WAN_IP_SOURCE_STATIC.
Definition ip_mode_val (x : DML_WAN_IP_MODE) : Z :=
  match x with DML_WAN_IP_MODE_IPV4_ONLY => 1 | DML_WAN_IP_MODE_IPV6_ONLY => 2 | DML_WAN_IP_MODE_DUAL_STACK => 3
  | DML_WAN_IP_MODE_NO_IP => 4 end.
Definition DML_WAN_IP_MODE_of (n : Z) : DML_WAN_IP_MODE :=
  if n =? 1 then DML_WAN_IP_MODE_IPV4_ONLY else if n =? 2 then DML_WAN_IP_MODE_IPV6_ONLY
  else if n =? 3 then DML_WAN_IP_MODE_DUAL_STACK else DML_WAN_IP_MODE_NO_IP.
Definition preferred_mode_val (x : DML_WAN_IP_PREFERRED_MODE) : Z :=
  match x with DUAL_STACK_MODE => 1 | MAPT_MODE => 2 | MAPE_MODE => 3 | DSLITE_MODE => 4 end.
Definition DML_WAN_IP_PREFERRED_MODE_of (n : Z) : DML_WAN_IP_PREFERRED_MODE :=
  if n =? 2 then MAPT_MODE else if n =? 3 then MAPE_MODE else if n =? 4 then DSLITE_MODE else DUAL_STACK_MODE.

Section PsmConfig.
Context `{Platform} `{Build} `{AutoBuild} {C : Type}.
#[local] Abbreviation M := (Prelude.M (St C)).

(** [WanMgr_RdkBus_GetParamValuesFromDB] with a cleared buffer. *)
Definition psm_get (name : string) : M (option string) :=
  r <- call_s (PsmGet name) ;; ret (if fst r =? CCSP_SUCCESS then Some (snd r) else None).
(** Its buffer, whether the read succeeded or not. *)
Definition psm_text (name : string) : M string := o <- psm_get name ;; ret (default EmptyString o).
Definition psm_true (name : string) : M bool := v <- psm_text name ;; ret (v ≟ "TRUE").
Definition psm_set (name value : string) : M unit := call_ (PsmSet name value).

(** * Reading *)

Definition get_Wan_Interface_ParametersFromPSM (instancenum : Z) (I : DML_WAN_IFACE) : M DML_WAN_IFACE :=
  let key k := psm_if instancenum k in
  Enable <- psm_true (key "Selection.Enable") ;;
  ActiveLink <- psm_true (key "Selection.ActiveLink") ;;
  Name <- psm_get (key "Name") ;;
  DisplayName <- psm_get (key "DisplayName") ;;
  AliasName <- psm_get (key "AliasName") ;;
  BaseInterface <- psm_get (key "BaseInterface") ;;
  Type_ <- psm_get_int (key "Type") ;;
  Priority <- psm_get_int (key "Selection.Priority") ;;
  Timeout_ <- psm_get_int (key "Selection.Timeout") ;;
  Group <- psm_get_int (key "Selection.Group") ;;
  RequiresReboot <- psm_true (key "Selection.RequiresReboot") ;;
  NoOfVirtIfs <- psm_get_int (key "VirtualInterfaceifcount") ;;
  let timeout := default (sel_Timeout (if_Selection I)) (u32 <$> Timeout_) in
  ret (I <| if_uiInstanceNumber := u32 instancenum |>
         <| if_Selection; sel_Enable := Enable |>
         <| if_Selection; sel_ActiveLink := ActiveLink |>
         <| if_Name := default (if_Name I) Name |>
         <| if_DisplayName := default (if_DisplayName I) DisplayName |>
         <| if_AliasName := default (if_AliasName I) AliasName |>
         <| if_BaseInterface := default (if_BaseInterface I) BaseInterface |>
         <| if_Type := default (if_Type I) (DML_WAN_IFACE_TYPE_of <$> Type_) |>
         <| if_Selection; sel_Priority := default (sel_Priority (if_Selection I)) Priority |>
         <| if_Selection; sel_Timeout :=
              if timeout <? SELECTION_TIMEOUT_DEFAULT_MIN then SELECTION_TIMEOUT_DEFAULT_MIN else timeout |>
         <| if_Selection; sel_Group := default (sel_Group (if_Selection I)) (u32 <$> Group) |>
         <| if_Selection; sel_RequiresReboot := RequiresReboot |>
         <| if_NoOfVirtIfs := default (if_NoOfVirtIfs I) (u32 <$> NoOfVirtIfs) |>).

(** The numbers of the VLAN and the IP mode are scanned from the buffer whether
    the read succeeded or not. *)
Definition psm_scan (name : string) : M (option Z) := v <- psm_text name ;; ret (sscanf_d v).

Definition get_Virtual_Interface_FromPSM (instancenum virtInsNum : Z) (v : DML_VIRTUAL_IFACE)
    : M DML_VIRTUAL_IFACE :=
  let key k := psm_vif instancenum virtInsNum k in
  EnableMAPT <- psm_true (key "EnableMAPT") ;;
  maptRfc <- syscfg_get "MAPT_Enable" ;;
  EnableDSLite <- psm_true (key "EnableDSLite") ;;
  Enable <- psm_true (key "Enable") ;;
  Name <- psm_text (key "Name") ;;
  Alias <- psm_text (key "Alias") ;;
  PPPInterface <- psm_text (key "PPPInterface") ;;
  VlanCount <- psm_scan (key "VlanCount") ;;
  Timeout_ <- psm_scan (key "Timeout") ;;
  VlanInUse <- psm_text (key "VlanInUse") ;;
  MarkingCount <- psm_scan (key "MarkingCount") ;;
  IPInterface <- psm_text (key "IPInterface") ;;
  Mode <- psm_get_int (key "IP.Mode") ;;
  IPv4Source <- psm_get_int (key "IP.IPv4Source") ;;
  DHCPv4Iface <- psm_text (key "IP.DHCPV4Interface") ;;
  IPv6Source <- psm_get_int (key "IP.IPv6Source") ;;
  DHCPv6Iface <- psm_text (key "IP.DHCPV6Interface") ;;
  PreferredMode <- psm_get_int (key "IP.PreferredMode") ;;
  ModeForceEnable <- psm_true (key "IP.ModeForceEnable") ;;
  ConnectivityCheckType <- psm_get_int (key "IP.ConnectivityCheckType") ;;
  let entries := default (vlan_NoOfInterfaceEntries (v_VLAN v)) (u32 <$> VlanCount) in
  ret (v
    <| v_EnableMAPT := EnableMAPT || (maptRfc ≟ Some "true") || v_EnableMAPT v |>
    <| v_EnableDSLite := EnableDSLite || v_EnableDSLite v |>
    <| v_Enable := Enable || v_Enable v |>
    <| v_Name := Name |> <| v_Alias := Alias |>
    <| v_PPP; ppp_Interface := PPPInterface |>
    <| v_PPP; ppp_Enable := starts_with PPP_INTERFACE_TABLE PPPInterface || ppp_Enable (v_PPP v) |>
    <| v_VLAN; vlan_NoOfInterfaceEntries := entries |>
    <| v_VLAN; vlan_Timeout := default (vlan_Timeout (v_VLAN v)) (u32 <$> Timeout_) |>
    <| v_VLAN; vlan_VLANInUse := VlanInUse |>
    <| v_VLAN; vlan_Enable := starts_with VLAN_TERMINATION_TABLE VlanInUse || (0 <? entries) || vlan_Enable (v_VLAN v) |>
    <| v_VLAN; vlan_NoOfMarkingEntries := default (vlan_NoOfMarkingEntries (v_VLAN v)) (u32 <$> MarkingCount) |>
    <| v_IP ::= fun p => p
         <| ip_Interface := IPInterface |>
         <| ip_Mode := default (ip_Mode p) (DML_WAN_IP_MODE_of <$> Mode) |>
         <| ip_IPv4Source := default (ip_IPv4Source p) (DML_WAN_IP_SOURCE_of <$> IPv4Source) |>
         <| ip_DHCPv4Iface := DHCPv4Iface |>
         <| ip_IPv6Source := default (ip_IPv6Source p) (DML_WAN_IP_SOURCE_of <$> IPv6Source) |>
         <| ip_DHCPv6Iface := DHCPv6Iface |>
         <| ip_PreferredMode := default (ip_PreferredMode p) (DML_WAN_IP_PREFERRED_MODE_of <$> PreferredMode) |>
         <| ip_ModeForceEnable := ModeForceEnable || ip_ModeForceEnable p |>
         <| ip_ConnectivityCheckType :=
              default (ip_ConnectivityCheckType p) (CONNECTIVITY_CHECK_TYPE_of <$> ConnectivityCheckType) |> |>).

(** * Writing *)

Definition write_Wan_Interface_ParametersFromPSM (instancenum : Z) (I : DML_WAN_IFACE) : M ANSC_STATUS :=
  let key k := psm_if instancenum k in
  psm_set (key "Selection.Enable") (true_text (sel_Enable (if_Selection I))) ;;
  psm_set (key "Type") (dec (iface_type_val (if_Type I))) ;;
  psm_set (key "Selection.Timeout") (dec (s32 (sel_Timeout (if_Selection I)))) ;;
  psm_set (key "Selection.Group") (dec (s32 (sel_Group (if_Selection I)))) ;;
  psm_set (key "Selection.RequiresReboot") (true_text (sel_RequiresReboot (if_Selection I))) ;;
  psm_set (key "Selection.Priority") (dec (sel_Priority (if_Selection I))) ;;
  psm_set (key "BaseInterface") (if_BaseInterface I) ;;
  ret ANSC_STATUS_SUCCESS.

Definition write_Virtual_Interface_ToPSM (instancenum virtInsNum : Z) (v : DML_VIRTUAL_IFACE) : M unit :=
  let key k := psm_vif instancenum virtInsNum k in
  psm_set (key "EnableDSLite") (true_text (v_EnableDSLite v)) ;;
  psm_set (key "EnableMAPT") (true_text (v_EnableMAPT v)) ;;
  psm_set (key "Enable") (true_text (v_Enable v)) ;;
  psm_set (key "Name") (v_Name v) ;;
  psm_set (key "Alias") (v_Alias v) ;;
  psm_set (key "PPPInterface") (ppp_Interface (v_PPP v)) ;;
  psm_set (key "Timeout") (dec (s32 (vlan_Timeout (v_VLAN v)))) ;;
  psm_set (key "VlanCount") (dec (s32 (vlan_NoOfInterfaceEntries (v_VLAN v)))) ;;
  psm_set (key "MarkingCount") (dec (s32 (vlan_NoOfMarkingEntries (v_VLAN v)))) ;;
  psm_set (key "IPInterface") (ip_Interface (v_IP v)) ;;
  psm_set (key "IP.Mode") (dec (ip_mode_val (ip_Mode (v_IP v)))) ;;
  psm_set (key "IP.IPv4Source") (dec (ip_source_val (ip_IPv4Source (v_IP v)))) ;;
  psm_set (key "IP.DHCPV4Interface") (ip_DHCPv4Iface (v_IP v)) ;;
  psm_set (key "IP.IPv6Source") (dec (ip_source_val (ip_IPv6Source (v_IP v)))) ;;
  psm_set (key "IP.DHCPV6Interface") (ip_DHCPv6Iface (v_IP v)) ;;
  psm_set (key "IP.PreferredMode") (dec (preferred_mode_val (ip_PreferredMode (v_IP v)))) ;;
  psm_set (key "IP.ModeForceEnable") (true_text (ip_ModeForceEnable (v_IP v))).

Definition write_VirtMarking_ParametersToPSM (m : DML_VIRTIF_MARKING) : M Z :=
  psm_set (psm_vif (mk_baseIfIdx m + 1) (mk_VirIfIdx m) (row_key "Marking" (mk_VirtMarkingInstanceNumber m) "Entry"))
    (dec (s32 (mk_Entry m))) ;;
  ret 0.
(** The key is that of the marking table. *)
Definition write_VlanInterface_ParametersToPSM (t : DML_VLAN_IFACE_TABLE) : M Z :=
  psm_set (psm_vif (vt_baseIfIdx t + 1) (vt_VirIfIdx t) (row_key "Marking" (vt_Index t) "Entry")) (vt_Interface t) ;;
  ret 0.

(** A virtual interface that is not in the list is dereferenced. *)
Definition DmlSetWanIfCfg (LineIndex : Z) (I : DML_WAN_IFACE) : M ANSC_STATUS :=
  r <- write_Wan_Interface_ParametersFromPSM LineIndex I ;;
  for_each (range (if_NoOfVirtIfs I)) (fun i =>
    k <- deref (WanMgr_getVirtualIfaceById (if_VirtIfList I) i) ;;
    v <- deref (if_VirtIfList I !! k) ;;
    write_Virtual_Interface_ToPSM LineIndex i v) ;;
  ret r.

Definition WanMgr_RdkBus_setWanPolicy (wan_policy : Z) (groupId : Z) : M ANSC_STATUS :=
  r <- call (PsmSet ("dmsb.wanmanager.group." +:+ dec (s32 (groupId + 1)) +:+ ".policy") (dec wan_policy)) ;;
  ret (if r =? CCSP_SUCCESS then ANSC_STATUS_SUCCESS else ANSC_STATUS_FAILURE).

(** The count that was read, [None] when the target keeps its value. *)
Definition DmlGetTotalNoOfWanInterfaces : M (ANSC_STATUS * option Z) :=
  o <- psm_get "dmsb.wanmanager.wan.interfacecount" ;;
  ret (match o with
       | None => (ANSC_STATUS_FAILURE, None)
       | Some v => (ANSC_STATUS_SUCCESS, u32 <$> sscanf_d v)
       end).
(** What a local variable of that name holds before it is written. *)
Definition uninitialised_local (name : string) : M Z := call (ExtCall "uninitialised" [name]).

Definition WanController_ClearWanConfigurationsInPSM : M ANSC_STATUS :=
  r <- DmlGetTotalNoOfWanInterfaces ;;
  if fst r ≠? ANSC_STATUS_SUCCESS then ret ANSC_STATUS_FAILURE
  else
    n <- (match snd r with Some n => ret n | None => uninitialised_local "uiTotalIfaces" end) ;;
    for_each (range n) (fun i => psm_set (psm_if (i + 1) "Selection.ActiveLink") "FALSE") ;;
    ret ANSC_STATUS_SUCCESS.

(** * The tables *)

Definition WanMgr_VirtIfConfVLAN (v : DML_VIRTUAL_IFACE) (Ifid : Z) : M (ANSC_STATUS * DML_VIRTUAL_IFACE) :=
  r <- for_acc (range (vlan_NoOfInterfaceEntries (v_VLAN v))) v (fun i v =>
    ok <- AnscAllocateMemory "DML_VLAN_IFACE_TABLE" ;;
    if negb ok then ret (v, Some tt)
    else
      Interface <- psm_text (psm_vif (Ifid + 1) (v_VirIfIdx v) (row_key "VLAN" i "Interface")) ;;
      let p_VlanIf := mk_DML_VLAN_IFACE_TABLE i (v_VirIfIdx v) (v_baseIfIdx v) Interface in
      ret (v <| v_VLAN ::= fun w => w <| vlan_InterfaceList ::= fun l =>
              snd (WanMgr_AddVirtVlanIfToList l (Some p_VlanIf)) |> |>, None)) ;;
  match snd r with
  | Some _ => ret (ANSC_STATUS_FAILURE, fst r)
  | None =>
      r <- for_acc (range (vlan_NoOfMarkingEntries (v_VLAN v))) (fst r) (fun i v =>
        ok <- AnscAllocateMemory "DML_VIRTIF_MARKING" ;;
        if negb ok then ret (v, Some tt)
        else
          Entry <- psm_get_int (psm_vif (Ifid + 1) (v_VirIfIdx v) (row_key "Marking" i "Entry")) ;;
          let p_Marking := mk_DML_VIRTIF_MARKING i (v_VirIfIdx v) (v_baseIfIdx v) (default 0 (u32 <$> Entry)) in
          ret (v <| v_VLAN ::= fun w => w <| vlan_VirtMarking ::= fun l =>
                  snd (WanMgr_AddVirtMarkingToList l (Some p_Marking)) |> |>, None)) ;;
      ret (if snd r then ANSC_STATUS_FAILURE else ANSC_STATUS_SUCCESS, fst r)
  end.

(** The repair of the store.  [strcmp] overwrites the verdict of the interfaces
    before: the last enabled one decides. *)
Definition psm_corrupted (IfaceCount : Z) : M bool :=
  r <- for_acc (range IfaceCount) false (fun i bad =>
    BaseInterface <- psm_get (psm_if (i + 1) "BaseInterface") ;;
    if BaseInterface ≟ Some EmptyString then ret (true, Some tt)
    else
      Enable <- psm_true (psm_if (i + 1) "Selection.Enable") ;;
      if (Enable : bool) then
        first <- psm_true (psm_vif (i + 1) 0 "Enable") ;; ret (negb first, None)
      else ret (bad, None)) ;;
  ret (fst r).

(** The lines [getline] gives of a text. *)
Fixpoint lines_of (l acc : list ascii) : list (list ascii) :=
  match l with
  | [] => match acc with [] => [] | _ => [reverse acc] end
  | c :: l' => if c ≟ "010"%char then reverse acc :: lines_of l' [] else lines_of l' (c :: acc)
  end.
Fixpoint span (p : ascii -> bool) (l : list ascii) : list ascii * list ascii :=
  match l with
  | [] => ([], [])
  | c :: l' => if p c then let r := span p l' in (c :: fst r, snd r) else ([], l)
  end.
Fixpoint strip (p l : list ascii) : option (list ascii) :=
  match p, l with
  | [], _ => Some l
  | a :: p', b :: l' => if a ≟ b then strip p' l' else None
  | _ :: _, [] => None
  end.
Definition chars (s : string) : list ascii := String.list_ascii_of_string s.
Definition quote : ascii := "034"%char.
Definition is_space (c : ascii) : bool :=
  let n := Z.of_nat (Ascii.nat_of_ascii c) in (n =? 32) || ((9 <=? n) && (n <=? 13)).
(** The two strings the line's record is scanned into; a scan that fails leaves
    the rest empty. *)
Definition scan_record (line : list ascii) : string * string :=
  let text l := String.string_of_list_ascii l in
  let none := (EmptyString, EmptyString) in
  match span (fun c => c ≠? "<"%char) line with
  | ([], _) => none
  | (_, rest) =>
      match strip (chars "<Record") rest with
      | None => none
      | Some rest =>
          match strip (chars "name=" ++ [quote]) (snd (span is_space rest)) with
          | None => none
          | Some rest =>
              match span (fun c => c ≠? quote) rest with
              | ([], _) => none
              | (name, rest) =>
                  match span (fun c => c ≠? ">"%char) rest with
                  | (_ :: _, _ :: rest) => (text name, text (fst (span (fun c => c ≠? "<"%char) rest)))
                  | _ => (text name, EmptyString)
                  end
              end
          end
      end
  end.
(** The text of the defaults is what opening its file gives. *)
Definition WanMgr_CheckAndResetV2PSMEntries (IfaceCount : Z) : M ANSC_STATUS :=
  bad <- psm_corrupted IfaceCount ;;
  if negb bad then ret ANSC_STATUS_SUCCESS
  else
    r <- call_s (ExtCall "fopen" [DEFAULT_PSM_FILE; "r"]) ;;
    if fst r =? 0 then ret ANSC_STATUS_FAILURE
    else
      for_each (lines_of (chars (snd r)) []) (fun line =>
        let l := String.string_of_list_ascii line in
        when (strstr l "dmsb.wanmanager.if." && (strstr l ".BaseInterface" || strstr l ".VirtualInterface"))
          (psm_set (fst (scan_record line)) (snd (scan_record line)))) ;;
      ret ANSC_STATUS_SUCCESS.

Section Tables.
(** The contents [AnscAllocateMemory] hands out. *)
Context (fresh_iface : DML_WAN_IFACE) (fresh_vif : DML_VIRTUAL_IFACE).

(** One virtual interface of the loop; [Some] is the failed allocation. *)
Definition load_virtual (idx i : Z) : M (option unit) :=
  ok <- AnscAllocateMemory "DML_VIRTUAL_IFACE" ;;
  if negb ok then ret (Some tt)
  else
    v <- get_Virtual_Interface_FromPSM (idx + 1) i ((WanMgr_VirtIface_Init fresh_vif i) <| v_baseIfIdx := idx |>) ;;
    r <- WanMgr_VirtIfConfVLAN v idx ;;
    upd_iface (Z.to_nat idx) (fun I => I <| if_VirtIfList ::= fun l => snd (WanMgr_AddVirtualToList l (Some (snd r))) |>) ;;
    ret None.
Definition load_iface (idx : Z) : M (option unit) :=
  upd_iface (Z.to_nat idx) (fun I => WanMgr_IfaceData_Init I idx) ;;
  I <- get_iface (Z.to_nat idx) ;;
  I <- get_Wan_Interface_ParametersFromPSM (idx + 1) I ;;
  upd_iface (Z.to_nat idx) (fun _ => I) ;;
  for_break (range (if_NoOfVirtIfs I)) (load_virtual idx).

(** The cleared table: its lists are empty, and [WanMgr_IfaceData_Init] sets
    every other field before it is read. *)
Definition WanMgr_WanIfaceConfInit : M ANSC_STATUS :=
  r <- DmlGetTotalNoOfWanInterfaces ;;
  if fst r ≟ ANSC_STATUS_FAILURE then ret ANSC_STATUS_FAILURE
  else
    uiTotalIfaces <- (match snd r with Some n => ret n | None => uninitialised_local "uiTotalIfaces" end) ;;
    ok <- AnscAllocateMemory "WanMgr_Iface_Data_t" ;;
    if negb ok then set_db (fun d => d <| w_pIface := [] |>) ;; ret ANSC_STATUS_FAILURE
    else
      set_db (fun d => d <| w_ulTotalNumbWanInterfaces := uiTotalIfaces |>) ;;
      when (XB6_CBR2_PRODUCT_REQ || PLATFORM_RASPBERRYPI) (WanMgr_CheckAndResetV2PSMEntries uiTotalIfaces ;; ret tt) ;;
      set_db (fun d => d <| w_pIface :=
        replicate (Z.to_nat MAX_WAN_INTERFACE_ENTRY) (fresh_iface <| if_VirtIfList := [] |>) |>) ;;
      failed <- for_break (range uiTotalIfaces) load_iface ;;
      match failed with
      | Some _ => ret ANSC_STATUS_FAILURE
      | None => set_db (fun d => d <| w_update := 0 |>) ;; ret ANSC_STATUS_SUCCESS
      end.
Definition WanMgr_WanDataInit : M ANSC_STATUS :=
  pthread_mutex_lock ;;
  r <- WanMgr_WanIfaceConfInit ;;
  WanMgrDml_GetIfaceData_release ;;
  ret r.

(** ** The configuration *)

(** A value that was read and is not empty. *)
Definition psm_value (name : string) : M (option string) :=
  o <- psm_get name ;; ret (match o with Some EmptyString => None | _ => o end).
Definition psm_starts (prefix name : string) : M bool :=
  o <- psm_value name ;; ret (match o with Some v => starts_with prefix v | None => false end).

(** A failed read of [wanenable] stores an uninitialised variable. *)
Definition WanMgr_WanConfInit : M ANSC_STATUS :=
  let key k := "dmsb.wanmanager." +:+ k in
  o <- psm_value (key "wanenable") ;;
  wan_enable <- (match o with Some v => ret (atoi v) | None => uninitialised_local "wan_enable" end) ;;
  let set_config f := set_db (fun d => d <| w_Config ::= f |>) in
  set_config (fun c => c <| cfg_Enable := negb (wan_enable =? 0) |>) ;;
  remote <- psm_value (key "allowremoteinterfaces") ;;
  set_config (fun c => c <| cfg_AllowRemoteInterfaces := negb (default 0 (atoi <$> remote) =? 0) |>) ;;
  delay <- psm_value (key "RestorationDelay") ;;
  set_config (fun c => c <| cfg_RestorationDelay := u32 (default 0 (atoi <$> delay)) |>) ;;
  b <- psm_starts "FALSE" (key "BackupWanDnsSupport") ;;
  when b (set_config (fun c => c <| cfg_BackupWanDnsSupport := false |>)) ;;
  b <- psm_starts "FALSE" (key "IPv6EUI64FormatSupport") ;;
  when b (set_config (fun c => c <| cfg_IPv6EUI64FormatSupport := false |>)) ;;
  b <- psm_starts "TRUE" (key "ConfigureWANIPv6OnLANBridgeSupport") ;;
  when b (set_config (fun c => c <| cfg_ConfigureWANIPv6OnLANBridgeSupport := true |>)) ;;
  b <- psm_starts "TRUE" (key "UseWANMACForManagementServices") ;;
  when b (set_config (fun c => c <| cfg_UseWANMACForManagementServices := true |>)) ;;
  b <- psm_starts "TRUE" (key "InterfaceVLANMarkingSupport") ;;
  when b (set_config (fun c => c <| cfg_InterfaceVLANMarkingSupport := true |>)) ;;
  ret (match o with Some _ => ANSC_STATUS_SUCCESS | None => ANSC_STATUS_FAILURE end).

Definition WanMgr_WanConfigInit (fresh_group : WANMGR_IFACE_GROUP) : M ANSC_STATUS :=
  r <- with_config WanMgr_WanConfInit ;;
  if r ≠? ANSC_STATUS_SUCCESS then ret r
  else
    WanMgr_Group_Configure fresh_group ;;
    WanMgr_WanDataInit.
End Tables.
End PsmConfig.
