(* ===== verification/PsmFacts.v ===== *)
(** The store behind PSM: what reading it gives, and what writing leaves in it. *)

From S2P Require Export PsmConfig.

(** * Texts *)

(** [%d] of an [int] is read back, the negative ones too. *)
Lemma sscanf_dec_s32 n : sscanf_d (dec (s32 n)) = Some (s32 n).
Proof.
  assert (- 2 ^ 31 <= s32 n < 2 ^ 31) as Hr by (unfold s32; pose proof (Z.mod_pos_bound (n + 2 ^ 31) (2 ^ 32) ltac:(lia)); lia).
  destruct (Z.le_gt_cases 0 (s32 n)) as [Hpos|Hn]; [apply sscanf_dec; lia|].
  destruct (s32 n) as [|p|p] eqn:E; [lia | lia |].
  change (dec (Z.neg p)) with (String "-" (dec (Z.pos p))).
  pose proof (read_dec (Z.pos p) ltac:(lia)) as Hd. destruct (dec_head (Z.pos p) ltac:(lia)) as (c & t & Et & Hc).
  rewrite Et in *. unfold sscanf_d. cbn [String.list_ascii_of_string] in *. 
  replace (is_digit "-") with false by done. rewrite bool_decide_eq_true_2, Hc, Hd by done.
  f_equal. apply s32_small. lia.
Qed.
Lemma u32_s32_range n : 0 <= n < 2 ^ 32 -> u32 (s32 n) = n.
Proof.
  intros Hn. unfold u32, s32.
  assert ((n + 2 ^ 31) mod 2 ^ 32 = n + 2 ^ 31 \/ (n + 2 ^ 31) mod 2 ^ 32 = n + 2 ^ 31 - 2 ^ 32) as [->| ->].
  { destruct (Z.lt_ge_cases n (2 ^ 31)); [left; apply Z.mod_small; lia | right].
    rewrite <- (Z.mod_small (n + 2 ^ 31 - 2 ^ 32) (2 ^ 32)) by lia. by rewrite Zminus_mod, Z_mod_same_full, Z.sub_0_r, Zmod_mod. }
  - replace (n + 2 ^ 31 - 2 ^ 31) with n by lia. by apply Z.mod_small.
  - replace (n + 2 ^ 31 - 2 ^ 32 - 2 ^ 31) with (n + (-1) * 2 ^ 32) by lia. rewrite Z_mod_plus_full. by apply Z.mod_small.
Qed.

(** Decimal text up to a dot is determined. *)
Definition not_dot (c : ascii) : bool := c ≠? "."%char.
Lemma before_dot a b x y :
  forallb not_dot (chars a) = true -> forallb not_dot (chars b) = true ->
  a +:+ String "." x = b +:+ String "." y -> a = b /\ x = y.
Proof.
  revert b. induction a as [|c a IH]; intros [|d b] Ha Hb E; simpl in *.
  - by injection E.
  - injection E as <- _. done.
  - injection E as -> _. done.
  - injection E as -> E. apply andb_prop in Ha as [_ Ha], Hb as [_ Hb]. by destruct (IH b Ha Hb E) as [-> ->].
Qed.
Lemma pretty_go_no_dot x s : forallb not_dot (chars s) = true -> forallb not_dot (chars (pretty_N_go x s)) = true.
Proof.
  revert s. induction (N.lt_wf_0 x) as [x _ IH]; intros s Hs.
  destruct (decide (x = 0%N)) as [->|Hx]; [by rewrite pretty_N_go_0|].
  rewrite pretty_N_go_step by lia. apply IH; [apply N.div_lt; lia|]. simpl. rewrite Hs, andb_true_r.
  assert (x mod 10 < 10)%N as Hm by (apply N.mod_lt; lia).
  destruct (pretty_char_digit _ Hm) as [Hd _]. unfold not_dot. apply negb_true_iff, bool_decide_eq_false_2. intros E. by rewrite E in Hd.
Qed.
Lemma dec_no_dot n : forallb not_dot (chars (dec n)) = true.
Proof.
  destruct n as [|p|p]; [done | by apply pretty_go_no_dot|].
  change (dec (Z.neg p)) with (String "-" (dec (Z.pos p))). simpl. by apply pretty_go_no_dot.
Qed.
Lemma app_cancel_s (p x y : string) : p +:+ x = p +:+ y -> x = y.
Proof. induction p as [|c p IH]; simpl; [done|]. intros [= E]. auto. Qed.
Lemma dec_dot a b x y : dec a +:+ "." +:+ x = dec b +:+ "." +:+ y -> a = b /\ x = y.
Proof.
  intros E. destruct (before_dot _ _ _ _ (dec_no_dot a) (dec_no_dot b) E) as [Ed ->]. split; [|done]. by apply (inj pretty) in Ed.
Qed.

(** Different parameters have different keys. *)
Lemma psm_if_inj i k1 k2 : psm_if i k1 = psm_if i k2 -> k1 = k2.
Proof. unfold psm_if. intros E%app_cancel_s. by apply dec_dot in E as [_ ->]. Qed.
Lemma psm_vif_inj i v1 v2 k1 k2 :
  psm_vif i v1 k1 = psm_vif i v2 k2 -> s32 (v1 + 1) = s32 (v2 + 1) /\ k1 = k2.
Proof. unfold psm_vif. intros E%psm_if_inj%app_cancel_s. by apply dec_dot in E. Qed.

(** * The store *)

(** The value of a name after the calls [h]: the last one written, or the one
    the store held before. *)
Fixpoint psm_lookup (base : string -> option string) (h : list Ext) : string -> option string :=
  match h with
  | [] => base
  | PsmSet n v :: h => fun name => if n ≟ name then Some v else psm_lookup base h name
  | _ :: h => psm_lookup base h
  end.
(** PSM gives back what was written to it. *)
Definition persistent `{Platform} (base : string -> option string) : Prop := forall h name,
  match psm_lookup base h name with
  | Some v => answer h (PsmGet name) = CCSP_SUCCESS /\ answer_s h (PsmGet name) = v
  | None => answer h (PsmGet name) <> CCSP_SUCCESS
  end.
(** The RFC switch of MAP-T, which no call of the model changes. *)
Definition mapt_rfc `{Platform} (rfc : option string) : Prop := forall h,
  let e := ExtCall "syscfg_get" ["MAPT_Enable"] in
  (if answer h e =? 0 then Some (answer_s h e) else None) = rfc.

Section Store.
Context `{Platform} {C : Type} (base : string -> option string) (Hp : persistent base).
Implicit Type s : St C.
Definition store s : string -> option string := psm_lookup base (trace s).
Definition at_trace s (t : list Ext) : St C := s <| trace := t |>.

(** A computation that only reads the store: its result is a function of it. *)
Definition Reads {A} (m : M (St C) A) (f : (string -> option string) -> A) : Prop :=
  forall s, exists t, m s = Some (f (store s), at_trace s t) /\ psm_lookup base t = store s.
Lemma reads_ret {A} (x : A) : Reads (ret x) (fun _ => x).
Proof. intros s. exists (trace s). split; [|done]. by destruct s. Qed.
Lemma reads_bind {A B} (m : M (St C) A) (k : A -> M (St C) B) f g :
  Reads m f -> (forall x, Reads (k x) (g x)) -> Reads (bind m k) (fun σ => g (f σ) σ).
Proof.
  intros Hm Hk s. destruct (Hm s) as (t & E & Ht). destruct (Hk (f (store s)) (at_trace s t)) as (t' & E' & Ht').
  exists t'. unfold bind. rewrite E, E'. unfold store in *. destruct s. simpl in *. by rewrite Ht, Ht'.
Qed.
Lemma reads_get name : Reads (psm_get name) (fun σ => σ name).
Proof.
  intros s. pose proof (Hp (trace s) name) as Hn. exists (PsmGet name :: trace s). split; [|done].
  unfold psm_get, bind, call_s, ret, store in *. destruct (psm_lookup base (trace s) name) as [v|].
  - destruct Hn as [Ha Hs]. cbn [fst snd]. rewrite Ha, Hs. by rewrite Z.eqb_refl.
  - cbn [fst snd]. by rewrite (proj2 (Z.eqb_neq _ _) Hn).
Qed.
Lemma reads_text name : Reads (psm_text name) (fun σ => default EmptyString (σ name)).
Proof. exact (reads_bind _ _ _ (fun x _ => default EmptyString x) (reads_get name) (fun x => reads_ret _)). Qed.
Lemma reads_true name : Reads (psm_true name) (fun σ => default EmptyString (σ name) ≟ "TRUE").
Proof. exact (reads_bind _ _ _ (fun x _ => x ≟ "TRUE") (reads_text name) (fun x => reads_ret _)). Qed.
Lemma reads_scan name : Reads (psm_scan name) (fun σ => sscanf_d (default EmptyString (σ name))).
Proof. exact (reads_bind _ _ _ (fun x _ => sscanf_d x) (reads_text name) (fun x => reads_ret _)). Qed.
Lemma reads_int name : Reads (psm_get_int name) (fun σ => σ name ≫= sscanf_d).
Proof.
  intros s. pose proof (Hp (trace s) name) as Hn. exists (PsmGet name :: trace s). split; [|done].
  unfold psm_get_int, bind, call_s, ret, store in *. destruct (psm_lookup base (trace s) name) as [v|].
  - destruct Hn as [Ha Hs]. cbn [fst snd]. rewrite Ha, Hs. by rewrite Z.eqb_refl.
  - cbn [fst snd]. by rewrite (proj2 (Z.eqb_neq _ _) Hn).
Qed.
Lemma reads_rfc rfc : mapt_rfc rfc -> Reads (syscfg_get "MAPT_Enable") (fun _ => rfc).
Proof.
  intros Hr s. exists (ExtCall "syscfg_get" ["MAPT_Enable"] :: trace s). split; [|done].
  unfold syscfg_get, bind, call_s, ret. cbn [fst snd]. by rewrite (Hr (trace s)).
Qed.

(** ** Writing *)

Definition put (l : list (string * string)) (h : list Ext) : list Ext :=
  foldl (fun h kv => PsmSet kv.1 kv.2 :: h) h l.
Lemma put_app l1 l2 h : put (l1 ++ l2) h = put l2 (put l1 h).
Proof. apply foldl_app. Qed.
(** What is in the store after [l]: no name is written twice. *)
Lemma put_out l h name : name ∉ l.*1 -> psm_lookup base (put l h) name = psm_lookup base h name.
Proof.
  revert h. induction l as [|[n v] l IH]; intros h Hn; [done|]. simpl in *. apply not_elem_of_cons in Hn as [Hne Hn].
  rewrite IH by done. simpl. by rewrite bool_decide_eq_false_2.
Qed.
Lemma put_in l h name v : NoDup l.*1 -> (name, v) ∈ l -> psm_lookup base (put l h) name = Some v.
Proof.
  revert h. induction l as [|[n w] l IH]; intros h Hd Hin; [by apply not_elem_of_nil in Hin|].
  simpl in *. apply NoDup_cons in Hd as [Hn Hd]. apply elem_of_cons in Hin as [[= -> ->]|Hin]; [|by apply IH].
  rewrite put_out by done. simpl. by rewrite bool_decide_eq_true_2.
Qed.
(** A computation that writes the records [l]. *)
Definition Writes {A} (m : M (St C) A) (x : A) (l : list (string * string)) : Prop :=
  forall s, m s = Some (x, at_trace s (put l (trace s))).
Lemma writes_ret {A} (x : A) : Writes (ret x) x [].
Proof. intros s. by destruct s. Qed.
Lemma writes_set n v : Writes (psm_set n v) tt [(n, v)].
Proof. intros s. by destruct s. Qed.
Lemma writes_bind {A B} (m : M (St C) A) (k : A -> M (St C) B) x y l1 l2 :
  Writes m x l1 -> Writes (k x) y l2 -> Writes (bind m k) y (l1 ++ l2).
Proof. intros Hm Hk s. unfold bind. rewrite Hm, Hk. rewrite put_app. by destruct s. Qed.
Lemma writes_for_each {X} (body : X -> M (St C) unit) (f : X -> list (string * string)) l :
  (forall x, x ∈ l -> Writes (body x) tt (f x)) -> Writes (for_each l body) tt (mjoin (f <$> l)).
Proof.
  induction l as [|x l IH]; intros Hb; simpl; [apply writes_ret|].
  eapply writes_bind; [apply Hb; left | apply IH; intros y Hy; apply Hb; by right].
Qed.
End Store.
