(* ===== verification/PsmProps.v ===== *)
(** The properties of the configuration in PSM. *)

From S2P Require Export PsmFacts Sample.

(** * What is kept of an interface *)

(** The records of an interface and of a virtual interface. *)
Definition wan_records (I : DML_WAN_IFACE) : list (string * string) :=
  let S := if_Selection I in
  [("Selection.Enable", true_text (sel_Enable S)); ("Type", dec (iface_type_val (if_Type I)));
   ("Selection.Timeout", dec (s32 (sel_Timeout S))); ("Selection.Group", dec (s32 (sel_Group S)));
   ("Selection.RequiresReboot", true_text (sel_RequiresReboot S)); ("Selection.Priority", dec (sel_Priority S));
   ("BaseInterface", if_BaseInterface I)]%string.
Definition vif_records (v : DML_VIRTUAL_IFACE) : list (string * string) :=
  [("EnableDSLite", true_text (v_EnableDSLite v)); ("EnableMAPT", true_text (v_EnableMAPT v));
   ("Enable", true_text (v_Enable v)); ("Name", v_Name v); ("Alias", v_Alias v);
   ("PPPInterface", ppp_Interface (v_PPP v)); ("Timeout", dec (s32 (vlan_Timeout (v_VLAN v))));
   ("VlanCount", dec (s32 (vlan_NoOfInterfaceEntries (v_VLAN v))));
   ("MarkingCount", dec (s32 (vlan_NoOfMarkingEntries (v_VLAN v)))); ("IPInterface", ip_Interface (v_IP v));
   ("IP.Mode", dec (ip_mode_val (ip_Mode (v_IP v)))); ("IP.IPv4Source", dec (ip_source_val (ip_IPv4Source (v_IP v))));
   ("IP.DHCPV4Interface", ip_DHCPv4Iface (v_IP v)); ("IP.IPv6Source", dec (ip_source_val (ip_IPv6Source (v_IP v))));
   ("IP.DHCPV6Interface", ip_DHCPv6Iface (v_IP v));
   ("IP.PreferredMode", dec (preferred_mode_val (ip_PreferredMode (v_IP v))));
   ("IP.ModeForceEnable", true_text (ip_ModeForceEnable (v_IP v)))]%string.

(** What the manager keeps over a restart.  A timeout below the minimum is raised. *)
Definition wan_config (I : DML_WAN_IFACE) :=
  let S := if_Selection I in
  (sel_Enable S, if_Type I, Z.max SELECTION_TIMEOUT_DEFAULT_MIN (sel_Timeout S), sel_Group S, sel_RequiresReboot S,
   sel_Priority S, if_BaseInterface I).
Definition ip_config (p : DML_WANIFACE_IP) :=
  (ip_Interface p, ip_Mode p, ip_IPv4Source p, ip_DHCPv4Iface p, ip_IPv6Source p, ip_DHCPv6Iface p, ip_PreferredMode p,
   ip_ModeForceEnable p).
Definition vif_config (v : DML_VIRTUAL_IFACE) :=
  (v_EnableDSLite v, v_EnableMAPT v, v_Enable v, v_Name v, v_Alias v, ppp_Interface (v_PPP v),
   vlan_Timeout (v_VLAN v), vlan_NoOfInterfaceEntries (v_VLAN v), vlan_NoOfMarkingEntries (v_VLAN v), ip_config (v_IP v)).

(** The numbers have their C width. *)
Definition wan_widths (I : DML_WAN_IFACE) : Prop :=
  0 <= sel_Timeout (if_Selection I) < 2 ^ 32 /\ 0 <= sel_Group (if_Selection I) < 2 ^ 32
  /\ - 2 ^ 31 <= sel_Priority (if_Selection I) < 2 ^ 31.
Definition vif_widths (v : DML_VIRTUAL_IFACE) : Prop :=
  0 <= vlan_Timeout (v_VLAN v) < 2 ^ 32 /\ 0 <= vlan_NoOfInterfaceEntries (v_VLAN v) < 2 ^ 32
  /\ 0 <= vlan_NoOfMarkingEntries (v_VLAN v) < 2 ^ 32.

Lemma iface_type_of_val t : DML_WAN_IFACE_TYPE_of (iface_type_val t) = t.
Proof. by destruct t. Qed.
Lemma ip_source_of_val x : DML_WAN_IP_SOURCE_of (ip_source_val x) = x.
Proof. by destruct x. Qed.
Lemma ip_mode_of_val x : DML_WAN_IP_MODE_of (ip_mode_val x) = x.
Proof. by destruct x. Qed.
Lemma preferred_mode_of_val x : DML_WAN_IP_PREFERRED_MODE_of (preferred_mode_val x) = x.
Proof. by destruct x. Qed.
Lemma true_text_true b : (true_text b ≟ "TRUE") = b.
Proof. by destruct b. Qed.
Lemma sscanf_val n : - 2 ^ 31 <= n < 2 ^ 31 -> sscanf_d (dec n) = Some n.
Proof. intros Hn. rewrite <- (s32_small n) by done. apply sscanf_dec_s32. Qed.
Lemma sscanf_enum n : 1 <= n <= 4 -> sscanf_d (dec n) = Some n.
Proof. intros Hn. apply sscanf_val. lia. Qed.

Section Roundtrip.
Context `{Platform} {C : Type} (base : string -> option string) (Hp : persistent base).
Context (rfc : option string) (Hrfc : mapt_rfc rfc).
Implicit Type s : St C.

(** ** Writing *)

Lemma writes_wan i I :
  Writes (C := C) (write_Wan_Interface_ParametersFromPSM i I) ANSC_STATUS_SUCCESS
    ((fun kv => (psm_if i kv.1, kv.2)) <$> wan_records I).
Proof. intros s. by destruct s. Qed.
Lemma writes_vif i k v :
  Writes (C := C) (write_Virtual_Interface_ToPSM i k v) tt ((fun kv => (psm_vif i k kv.1, kv.2)) <$> vif_records v).
Proof. intros s. by destruct s. Qed.

(** The virtual interface of each number. *)
Definition listed (I : DML_WAN_IFACE) (k : Z) (v : DML_VIRTUAL_IFACE) : Prop :=
  exists j, WanMgr_getVirtualIfaceById (if_VirtIfList I) k = Some j /\ if_VirtIfList I !! j = Some v.
Definition vif_of (I : DML_WAN_IFACE) (k : Z) : list (string * string) :=
  match (WanMgr_getVirtualIfaceById (if_VirtIfList I) k ≫= fun j => if_VirtIfList I !! j) with
  | Some v => vif_records v
  | None => []
  end.
Definition all_records (i : Z) (I : DML_WAN_IFACE) : list (string * string) :=
  ((fun kv => (psm_if i kv.1, kv.2)) <$> wan_records I)
  ++ mjoin ((fun k => (fun kv => (psm_vif i k kv.1, kv.2)) <$> vif_of I k) <$> range (if_NoOfVirtIfs I)) ++ [].
Lemma writes_all i I :
  (forall k, 0 <= k < if_NoOfVirtIfs I -> exists v, listed I k v) ->
  Writes (C := C) (DmlSetWanIfCfg i I) ANSC_STATUS_SUCCESS (all_records i I).
Proof.
  intros Hl. unfold DmlSetWanIfCfg, all_records. eapply writes_bind; [apply writes_wan|].
  eapply writes_bind; [|apply writes_ret]. apply writes_for_each. intros k Hk%elem_of_range.
  destruct (Hl k Hk) as (v & j & Hj & Hv).
  assert (vif_of I k = vif_records v) as -> by (unfold vif_of; rewrite Hj; simpl; by rewrite Hv).
  apply (writes_bind _ _ j tt [] _); [intros s; rewrite Hj; by destruct s|].
  apply (writes_bind _ _ v tt [] _); [intros s; rewrite Hv; by destruct s | apply writes_vif].
Qed.

(** No key is written twice. *)
Lemma wan_keys i I : (((fun kv => (psm_if i kv.1, kv.2)) <$> wan_records I).*1) = psm_if i <$> (wan_records I).*1.
Proof. done. Qed.
Lemma vif_keys i k l : (((fun kv : string * string => (psm_vif i k kv.1, kv.2)) <$> l).*1) = psm_vif i k <$> l.*1.
Proof. induction l; simpl; [done | by f_equal]. Qed.

Lemma NoDup_keys (f : Z -> string -> string) (ks : Z -> list string) l :
  NoDup l -> (forall k, NoDup (ks k)) ->
  (forall k1 k2 a b, k1 ∈ l -> k2 ∈ l -> f k1 a = f k2 b -> k1 = k2 /\ a = b) ->
  NoDup (mjoin ((fun k => f k <$> ks k) <$> l)).
Proof.
  intros Hl Hks. induction Hl as [|k l Hk Hl IH]; intros Hf; simpl; [constructor|].
  apply NoDup_app. split; [|split].
  - apply NoDup_fmap_2_strong; [|apply Hks]. intros a b _ _ E. by apply (Hf k k) in E as [_ ->]; [|left|left].
  - intros x (a & -> & _)%list_elem_of_fmap (l' & Hx & (k' & -> & Hk')%list_elem_of_fmap)%list_elem_of_join.
    apply list_elem_of_fmap in Hx as (b & E & _). apply Hf in E as [-> _]; [done | left | by right].
  - apply IH. intros k1 k2 a b H1' H2'. apply Hf; by right.
Qed.
Lemma all_keys i I :
  (all_records i I).*1 = (psm_if i <$> (wan_records I).*1)
    ++ mjoin ((fun k => psm_vif i k <$> (vif_of I k).*1) <$> range (if_NoOfVirtIfs I)).
Proof.
  unfold all_records. rewrite app_nil_r, fmap_app. f_equal. induction (range _) as [|k l IH]; simpl; [done|].
  etransitivity; [apply fmap_app|]. f_equal; [apply vif_keys | exact IH].
Qed.
Lemma all_keys_NoDup i I : if_NoOfVirtIfs I < 2 ^ 31 -> NoDup (all_records i I).*1.
Proof.
  intros Hn. rewrite all_keys. apply NoDup_app. split; [|split].
  - apply NoDup_fmap_2_strong; [intros x y _ _; apply psm_if_inj|]. by apply (bool_decide_unpack _); vm_compute.
  - intros x (k1 & -> & Hk1)%list_elem_of_fmap (l & Hx & (k & -> & _)%list_elem_of_fmap)%list_elem_of_join.
    apply list_elem_of_fmap in Hx as (k2 & E & _). unfold psm_vif in E. apply psm_if_inj in E. rewrite E in Hk1. clear E.
    repeat (apply elem_of_cons in Hk1 as [Hk1|Hk1]; [done|]). by apply not_elem_of_nil in Hk1.
  - apply NoDup_keys; [apply range_NoDup | |].
    + intros k. unfold vif_of. destruct (_ ≫= _); [|constructor]. by apply (bool_decide_unpack _); vm_compute.
    + intros k1 k2 a b H1'%elem_of_range H2'%elem_of_range [E ->]%psm_vif_inj. rewrite !s32_small in E by lia. split; [lia | done].
Qed.

(** ** Reading *)

Lemma reads_bind_eq {A B} (m : M (St C) A) (k : A -> M (St C) B) f g h :
  Reads base m f -> (forall x, Reads base (k x) (g x)) -> h = (fun σ => g (f σ) σ) -> Reads base (bind m k) h.
Proof. intros Hm Hk ->. by apply reads_bind. Qed.
Lemma reads_ret_eq {A} (x : A) h : h = (fun _ => x) -> Reads (C := C) base (ret x) h.
Proof. intros ->. apply reads_ret. Qed.
Ltac reads_tac :=
  lazymatch goal with
  | |- Reads _ (bind _ _) _ => eapply reads_bind_eq; [reads_tac | intros ?; reads_tac | reflexivity]
  | |- Reads _ (ret _) _ => eapply reads_ret_eq; reflexivity
  | |- Reads _ (psm_get _) _ => apply reads_get, Hp
  | |- Reads _ (psm_text _) _ => apply reads_text, Hp
  | |- Reads _ (psm_true _) _ => apply reads_true, Hp
  | |- Reads _ (psm_scan _) _ => apply reads_scan, Hp
  | |- Reads _ (psm_get_int _) _ => apply reads_int, Hp
  | |- Reads _ (syscfg_get _) _ => apply reads_rfc, Hrfc
  end.
Definition holds (σ : string -> option string) (l : list (string * string)) : Prop := Forall (fun kv => σ kv.1 = Some kv.2) l.

Lemma reads_wan i J I :
  wan_widths I ->
  exists f, Reads (C := C) base (get_Wan_Interface_ParametersFromPSM i J) f
    /\ forall σ, holds σ ((fun kv => (psm_if i kv.1, kv.2)) <$> wan_records I) -> wan_config (f σ) = wan_config I.
Proof.
  intros (Ht & Hg & Hpr). eexists. split; [unfold get_Wan_Interface_ParametersFromPSM; cbv zeta; reads_tac|].
  intros σ Hσ. unfold wan_records in Hσ. cbn [fmap list_fmap fst snd] in Hσ. unfold holds in Hσ.
  rewrite !Forall_cons in Hσ. cbn [fst snd] in Hσ. destruct Hσ as (E1 & E2 & E3 & E4 & E5 & E6 & E7 & _).
  unfold wan_config. cbv beta. rewrite E1, E2, E3, E4, E5, E6, E7. cbn [mbind option_bind default fmap option_fmap option_map].
  rewrite !sscanf_dec_s32, (sscanf_enum (iface_type_val _)), (sscanf_val (sel_Priority _)) by (done || by destruct (if_Type I)).
  set (S := if_Selection I). transitivity (true_text (sel_Enable S) ≟ "TRUE", DML_WAN_IFACE_TYPE_of (iface_type_val (if_Type I)),
    Z.max SELECTION_TIMEOUT_DEFAULT_MIN (if u32 (s32 (sel_Timeout S)) <? SELECTION_TIMEOUT_DEFAULT_MIN
      then SELECTION_TIMEOUT_DEFAULT_MIN else u32 (s32 (sel_Timeout S))),
    u32 (s32 (sel_Group S)), true_text (sel_RequiresReboot S) ≟ "TRUE", sel_Priority S, if_BaseInterface I).
  { destruct J as [? ? ? ? ? ? ? ? ? ? ? ? ? ? ? [] ? ? ? ? ? ?]. reflexivity. }
  rewrite !true_text_true, iface_type_of_val, !u32_s32_range by done. unfold wan_config. fold S. do 5 f_equal.
  destruct (Z.ltb_spec (sel_Timeout S) SELECTION_TIMEOUT_DEFAULT_MIN); lia.
Qed.

(** A virtual interface as [WanMgr_VirtIface_Init] leaves it: nothing enabled. *)
Definition blank (w : DML_VIRTUAL_IFACE) : Prop :=
  v_EnableMAPT w = false /\ v_EnableDSLite w = false /\ v_Enable w = false /\ ip_ModeForceEnable (v_IP w) = false.
Lemma ip_source_range x : 1 <= ip_source_val x <= 4.
Proof. destruct x; simpl; lia. Qed.
Lemma ip_mode_range x : 1 <= ip_mode_val x <= 4.
Proof. destruct x; simpl; lia. Qed.
Lemma preferred_mode_range x : 1 <= preferred_mode_val x <= 4.
Proof. destruct x; simpl; lia. Qed.
Lemma reads_vif i k w v :
  rfc <> Some "true" -> blank w -> vif_widths v ->
  exists f, Reads (C := C) base (get_Virtual_Interface_FromPSM i k w) f
    /\ forall σ, holds σ ((fun kv => (psm_vif i k kv.1, kv.2)) <$> vif_records v) -> vif_config (f σ) = vif_config v.
Proof.
  intros Hr (Hb1 & Hb2 & Hb3 & Hb4) (Ht & Hn & Hm). eexists.
  split; [unfold get_Virtual_Interface_FromPSM; cbv zeta; reads_tac|].
  intros σ Hσ. unfold vif_records in Hσ. cbn [fmap list_fmap fst snd] in Hσ. unfold holds in Hσ.
  rewrite !Forall_cons in Hσ. cbn [fst snd] in Hσ.
  destruct Hσ as (E1 & E2 & E3 & E4 & E5 & E6 & E7 & E8 & E9 & E10 & E11 & E12 & E13 & E14 & E15 & E16 & E17 & _).
  unfold vif_config. cbv beta.
  rewrite E1, E2, E3, E4, E5, E6, E7, E8, E9, E10, E11, E12, E13, E14, E15, E16, E17.
  cbn [mbind option_bind default fmap option_fmap option_map]. unfold id.
  rewrite !sscanf_dec_s32, !sscanf_enum by (apply ip_source_range || apply ip_mode_range || apply preferred_mode_range).
  rewrite (bool_decide_eq_false_2 (rfc = Some "true")) by done.
  set (P := v_IP v). set (L := v_VLAN v).
  transitivity ((true_text (v_EnableDSLite v) ≟ "TRUE") || v_EnableDSLite w,
    (true_text (v_EnableMAPT v) ≟ "TRUE") || false || v_EnableMAPT w, (true_text (v_Enable v) ≟ "TRUE") || v_Enable w,
    v_Name v, v_Alias v, ppp_Interface (v_PPP v), u32 (s32 (vlan_Timeout L)),
    u32 (s32 (vlan_NoOfInterfaceEntries L)), u32 (s32 (vlan_NoOfMarkingEntries L)),
    (ip_Interface P, DML_WAN_IP_MODE_of (ip_mode_val (ip_Mode P)), DML_WAN_IP_SOURCE_of (ip_source_val (ip_IPv4Source P)),
     ip_DHCPv4Iface P, DML_WAN_IP_SOURCE_of (ip_source_val (ip_IPv6Source P)), ip_DHCPv6Iface P,
     DML_WAN_IP_PREFERRED_MODE_of (preferred_mode_val (ip_PreferredMode P)),
     (true_text (ip_ModeForceEnable P) ≟ "TRUE") || ip_ModeForceEnable (v_IP w))).
  { clear. destruct w as [? ? ? ? ? ? ? ? ? [] ? ? [] [] ? ? ? ?]. reflexivity. }
  rewrite !true_text_true, Hb1, Hb2, Hb3, Hb4, !orb_false_r, ip_mode_of_val, !ip_source_of_val, preferred_mode_of_val, !u32_s32_range by done.
  done.
Qed.

Lemma holds_after i I l h :
  if_NoOfVirtIfs I < 2 ^ 31 -> l ⊆ all_records i I -> holds (psm_lookup base (put (all_records i I) h)) l.
Proof.
  intros Hn Hl. apply Forall_forall. intros [n v] Hin. apply put_in; [by apply all_keys_NoDup | by apply Hl].
Qed.
Lemma wan_written i I : (fun kv => (psm_if i kv.1, kv.2)) <$> wan_records I ⊆ all_records i I.
Proof. intros x Hx. unfold all_records. apply elem_of_app. by left. Qed.
Lemma vif_written i I k v :
  0 <= k < if_NoOfVirtIfs I -> listed I k v -> (fun kv => (psm_vif i k kv.1, kv.2)) <$> vif_records v ⊆ all_records i I.
Proof.
  intros Hk (j & Hj & Hv) x Hx. unfold all_records. apply elem_of_app. right. apply elem_of_app. left.
  apply list_elem_of_join. exists ((fun kv => (psm_vif i k kv.1, kv.2)) <$> vif_of I k). split.
  - assert (vif_of I k = vif_records v) as -> by (unfold vif_of; rewrite Hj; cbn; by rewrite Hv). done.
  - apply list_elem_of_fmap. exists k. split; [done|]. by apply elem_of_range.
Qed.
Lemma listed_unique I k v v' : listed I k v -> listed I k v' -> v = v'.
Proof. intros (j & Hj & Hv) (j' & Hj' & Hv'). rewrite Hj in Hj'. injection Hj' as <-. rewrite Hv in Hv'. by injection Hv'. Qed.
End Roundtrip.

Section Properties.
Context `{Platform} {C : Type} (fresh_vif : DML_VIRTUAL_IFACE).
Implicit Type s : St C.

(** C30: the configuration survives a restart.  When PSM gives back what was
    written to it, an interface that is stored and read again, by a manager whose
    allocator gives cleared memory and where the RFC does not force MAP-T on, has its configuration back: enabling, type,
    group, priority, reboot flag, base interface and time-out (raised to the
    minimum), and of every virtual interface its enabling, names, PPP, VLAN and IP
    settings. *)
Theorem psm_roundtrip base rfc i I s :
  persistent base -> mapt_rfc rfc -> rfc <> Some "true" -> v_Enable fresh_vif = false -> wan_widths I -> if_NoOfVirtIfs I < 2 ^ 31 ->
  (forall k, 0 <= k < if_NoOfVirtIfs I -> exists v, listed I k v /\ vif_widths v) ->
  exists s', DmlSetWanIfCfg i I s = Some (ANSC_STATUS_SUCCESS, s')
    /\ (forall J, exists J' s2, get_Wan_Interface_ParametersFromPSM i J s' = Some (J', s2)
          /\ wan_config J' = wan_config I)
    /\ forall k v, 0 <= k < if_NoOfVirtIfs I -> listed I k v ->
         exists v' s2, get_Virtual_Interface_FromPSM i k (WanMgr_VirtIface_Init fresh_vif k) s' = Some (v', s2)
           /\ vif_config v' = vif_config v.
Proof.
  intros Hp Hrfc Hr Hf0 Hw Hn Hl.
  assert (forall k, 0 <= k < if_NoOfVirtIfs I -> exists v, listed I k v) as Hl1 by (intros k Hk; destruct (Hl k Hk) as (v & ? & _); by exists v).
  eexists. split; [apply writes_all; exact Hl1|]. split.
  - intros J. destruct (reads_wan (C := C) base Hp i J I Hw) as (f & Hf & Hcfg).
    edestruct Hf as (t & E & _). do 2 eexists. split; [exact E|]. apply Hcfg.
    apply (holds_after base i I); [done | apply wan_written].
  - intros k v Hk Hv. destruct (Hl k Hk) as (v' & Hv' & Hvw).
    pose proof (listed_unique I k v v' Hv Hv') as <-.
    destruct (reads_vif (C := C) base Hp rfc Hrfc i k (WanMgr_VirtIface_Init fresh_vif k) v Hr) as (f & Hf & Hcfg);
      [by repeat split; destruct fresh_vif as [? ? ? ? ? ? ? ? ? [] ? ? [] [] ? ? ? ?]; first [exact Hf0 | reflexivity] | done |].
    edestruct Hf as (t & E & _). do 2 eexists. split; [exact E|]. apply Hcfg.
    apply (holds_after base i I); [done | by apply vif_written].
Qed.

(** C39: the VLAN names are stored under the marking's key.  After the row of a
    VLAN table is written, the row's own key holds what it held, and the entry of
    the marking of the same number holds the name of the interface: the marking
    stored there before is lost. *)
Theorem psm_vlan_names_lost base m t s :
  vt_baseIfIdx t = mk_baseIfIdx m -> vt_VirIfIdx t = mk_VirIfIdx m -> vt_Index t = mk_VirtMarkingInstanceNumber m ->
  let row := psm_vif (vt_baseIfIdx t + 1) (vt_VirIfIdx t) in
  exists s', (write_VirtMarking_ParametersToPSM m ;; write_VlanInterface_ParametersToPSM t) s = Some (0, s')
    /\ store base s' (row (row_key "VLAN" (vt_Index t) "Interface")) = store base s (row (row_key "VLAN" (vt_Index t) "Interface"))
    /\ store base s' (row (row_key "Marking" (vt_Index t) "Entry")) = Some (vt_Interface t).
Proof.
  intros Eb Ev Ei row. set (key := psm_vif (mk_baseIfIdx m + 1) (mk_VirIfIdx m)).
  assert (row = key) as -> by (subst row key; by rewrite Eb, Ev).
  exists (at_trace s (put [(key (row_key "Marking" (vt_Index t) "Entry"), dec (s32 (mk_Entry m)));
                           (key (row_key "Marking" (vt_Index t) "Entry"), vt_Interface t)] (trace s))).
  split.
  { unfold write_VirtMarking_ParametersToPSM, write_VlanInterface_ParametersToPSM. rewrite Eb, Ev, <- Ei. by destruct s. }
  assert (forall h, store base (at_trace s h) = psm_lookup base h) as -> by done.
  unfold store. cbn [put foldl fst snd psm_lookup].
  split; [|by rewrite bool_decide_eq_true_2].
  rewrite !bool_decide_eq_false_2; [done|..]; intros [_ [=]]%psm_vif_inj.
Qed.
End Properties.

(** * A store that answers from what was written *)

#[local] Instance stored_platform : Platform :=
  {| answer := fun h e => match e with
                          | PsmGet name => if psm_lookup (fun _ => None) h name then CCSP_SUCCESS else 1
                          | ExtCall f _ => if f ≟ "syscfg_get" then 1 else 0
                          | _ => 0
                          end;
     answer_s := fun h e => match e with PsmGet name => default EmptyString (psm_lookup (fun _ => None) h name) | _ => EmptyString end;
     sysevent_fd := 3 |}.
Definition stored_iface : DML_WAN_IFACE :=
  (sample_iface 0 1 WAN_IFACE_NOT_SELECTED WAN_IFACE_STATUS_DISABLED) <| if_NoOfVirtIfs := 1 |>.

Lemma stored_persistent : persistent (fun _ => None).
Proof. intros h name. simpl. by destruct (psm_lookup _ h name). Qed.
Lemma stored_rfc : mapt_rfc None.
Proof. by intros h. Qed.
Lemma stored_listed k : 0 <= k < if_NoOfVirtIfs stored_iface ->
  exists v, listed stored_iface k v /\ vif_widths v.
Proof.
  intros Hk. change (0 <= k < 1) in Hk. assert (k = 0) as -> by lia. exists (sample_vif WAN_IFACE_STATUS_DISABLED).
  split; [exists 0%nat; by vm_compute | by vm_compute].
Qed.

Lemma psm_roundtrip_witness :
  exists s', DmlSetWanIfCfg 1 stored_iface (mk_St tt (sample_db [stored_iface] [sample_group 0]) ∅ []) = Some (ANSC_STATUS_SUCCESS, s')
    /\ (forall J, exists J' s2, get_Wan_Interface_ParametersFromPSM 1 J s' = Some (J', s2)
          /\ wan_config J' = wan_config stored_iface)
    /\ forall k v, 0 <= k < if_NoOfVirtIfs stored_iface -> listed stored_iface k v ->
         exists v' s2, get_Virtual_Interface_FromPSM 1 k (WanMgr_VirtIface_Init zero_vif k) s' = Some (v', s2)
           /\ vif_config v' = vif_config v.
Proof.
  apply (psm_roundtrip zero_vif (fun _ => None) None 1 stored_iface);
    [exact stored_persistent | exact stored_rfc | discriminate | reflexivity | by vm_compute | by vm_compute | exact stored_listed].
Defined.

Lemma psm_vlan_names_lost_witness :
  let t := mk_DML_VLAN_IFACE_TABLE 0 0 0 "eth0.10" in
  exists s', (write_VirtMarking_ParametersToPSM (mk_DML_VIRTIF_MARKING 0 0 0 7) ;; write_VlanInterface_ParametersToPSM t)
      (mk_St tt (sample_db [stored_iface] [sample_group 0]) ∅ []) = Some (0, s')
    /\ store (fun _ => None) s' (psm_vif (0 + 1) 0 (row_key "VLAN" 0 "Interface"))
       = store (fun _ => None) (mk_St tt (sample_db [stored_iface] [sample_group 0]) ∅ []) (psm_vif (0 + 1) 0 (row_key "VLAN" 0 "Interface"))
    /\ store (fun _ => None) s' (psm_vif (0 + 1) 0 (row_key "Marking" 0 "Entry")) = Some "eth0.10"%string.
Proof.
  exact (psm_vlan_names_lost (fun _ => None) (mk_DML_VIRTIF_MARKING 0 0 0 7) (mk_DML_VLAN_IFACE_TABLE 0 0 0 "eth0.10")
    (mk_St tt (sample_db [stored_iface] [sample_group 0]) ∅ []) eq_refl eq_refl eq_refl).
Defined.
