(* ===== verification/Dhcp.v ===== *)
(** The DHCP clients of an interface and the leases they report:
    [source/WanManager/wanmgr_net_utils.c] (starting and stopping the clients,
    router solicitation), [WanManager_UpdateInterfaceStatus] of
    [wanmgr_interface_sm.c], [WanMgr_CheckDefaultRA] of [wanmgr_sysevents.c] and
    the subscriptions to the events of the DHCP manager.

    A [DML_VIRTUAL_IFACE *] is a [vif_ptr]; none of the callers passes [NULL].
    The output of a command read through a pipe is one text, the answer to
    opening the pipe. *)

From S2P Require Export MaptSetup.

(** Compile-time switches of the interface state machine, its helpers and the
    lease handlers.  [_DT_WAN_Manager_Enable_], [FEATURE_464XLAT],
    [FEATURE_SUPPORT_MAPT_NAT46], [IVI_KERNEL_SUPPORT], [LTE_USB_FEATURE_ENABLED]
    and [IPOE_HEALTH_CHECK_LAN_SYNC_SUPPORT] are not defined. *)
Class IfaceBuild := {
  PLATFORM_RASPBERRYPI : bool;
  (** [_HUB4_PRODUCT_REQ_] or [_SR213_PRODUCT_REQ_]. *)
  HUB4_SR213_PRODUCT_REQ : bool;
  CBR2_PRODUCT_REQ : bool;
  RBUS_WAN_IP : bool;
  RBUS_BUILD_FLAG_ENABLE : bool;
  WAN_MANAGER_UNIFICATION_ENABLED : bool;
  DYNAMIC_CONFIGURE_PPP_LOWERLAYER : bool;
  LAN_MGR_SUPPORT : bool;
  (** [CISCO_CONFIG_DHCPV6_PREFIX_DELEGATION] without [DHCPV6_PREFIX_FIX]. *)
  DHCPV6_PREFIX_DELEGATION : bool;
  SNMPV3_ENABLED : bool;
  ENABLE_FEATURE_TELEMETRY2_0 : bool;
  (** [CFG_TR181_DHCPv6_SERVER_IfName], a macro of the platform, and the name
      built from it. *)
  COSA_DML_DHCPV6_SERVER_IFNAME : string;
  COSA_DML_DHCPV6S_ADDR_SYSEVENT_NAME : string;
  (** The sysevents of the health check and its failure, from its own header. *)
  IPOE_HEALTH_CHECK_V4_STATUS : string;
  IPOE_HEALTH_CHECK_V6_STATUS : string;
  IPOE_STATUS_FAILED : string
}.

Inductive wanmgr_iface_status_t :=
| WANMGR_IFACE_LINK_UP
| WANMGR_IFACE_LINK_DOWN
| WANMGR_IFACE_CONNECTION_UP
| WANMGR_IFACE_CONNECTION_DOWN
| WANMGR_IFACE_CONNECTION_IPV6_UP
| WANMGR_IFACE_CONNECTION_IPV6_DOWN
| WANMGR_IFACE_MAPT_START
| WANMGR_IFACE_MAPT_STOP
| WANMGR_IFACE_STATUS_ERROR.

Inductive DHCP_RELEASE_BEHAVIOUR := STOP_DHCP_WITHOUT_RELEASE | STOP_DHCP_WITH_RELEASE.
#[export] Instance DHCP_RELEASE_BEHAVIOUR_eq_dec : EqDecision DHCP_RELEASE_BEHAVIOUR.
Proof. solve_decision. Defined.

Inductive Ipv6OperType := DEL_ADDR | SET_LFT.

Definition DHCPMGR_COMPONENT_NAME : string := "eRT.com.cisco.spvtg.ccsp.dhcpmgr".
Definition DHCPMGR_DBUS_PATH : string := "/com/cisco/spvtg/ccsp/dhcpmgr".
Definition PPPMGR_COMPONENT_NAME : string := "eRT.com.cisco.spvtg.ccsp.pppmanager".
Definition PPPMGR_DBUS_PATH : string := "/com/cisco/spvtg/ccsp/pppmanager".
Definition CELLULARMGR_COMPONENT_NAME : string := "eRT.com.cisco.spvtg.ccsp.cellularmanager".
Definition CELLULARMGR_DBUS_PATH : string := "/com/cisco/spvtg/ccsp/cellularmanager".
Definition LAN_BRIDGE_NAME : string := "brlan0".
Definition P2P_SUB_NET_MASK : string := "255.255.255.255".
Definition IFADDRCONF_ADD : Z := 0.

(** * Reading the output of a command *)

(** What [fgets(buf, n, fp)] reads in turn until the end of the text: up to a
    newline, or [n - 1] characters; [room] is what is left in the buffer and
    [buf] what it holds. *)
Fixpoint fgets_loop (n room : nat) (buf text : string) : list string :=
  match text with
  | EmptyString => if buf ≟ EmptyString then [] else [buf]
  | String c text =>
      let buf := buf +:+ String c EmptyString in
      if (c ≟ Ascii.ascii_of_nat 10) || (room <=? 1)%nat
      then buf :: fgets_loop n (n - 1) EmptyString text
      else fgets_loop n (room - 1) buf text
  end.
Definition fgets_lines (n : nat) (text : string) : list string := fgets_loop n (n - 1) EmptyString text.

(** [sscanf] of a format without conversions: the rest of the text after it;
    white space of the format matches any white space, even none. *)
Fixpoint scan_literal (fmt s : string) : option string :=
  match fmt with
  | EmptyString => Some s
  | String c fmt =>
      if isspace c then scan_literal fmt (skip_spaces s)
      else match s with
           | String d s => if c ≟ d then scan_literal fmt s else None
           | EmptyString => None
           end
  end.
(** The word [%s] stores; it is not empty. *)
Fixpoint scan_word (s : string) : string :=
  match s with
  | String c s' => if isspace c then EmptyString else String c (scan_word s')
  | EmptyString => EmptyString
  end.
Definition sscanf_s (fmt s : string) : option string :=
  rest ← scan_literal fmt s;
  let w := scan_word (skip_spaces rest) in
  if w ≟ EmptyString then None else Some w.

(** [strtok(s, sep)] for a one-character separator: the token and what follows
    it. *)
Fixpoint skip_char (c : ascii) (s : string) : string :=
  match s with
  | String d s' => if c ≟ d then skip_char c s' else s
  | EmptyString => EmptyString
  end.
Definition strtok (c : ascii) (s : string) : option (string * string) :=
  let s := skip_char c s in
  if s ≟ EmptyString then None
  else match strchr c s with
       | Some r => Some r
       | None => Some (s, EmptyString)
       end.

(** One line of the answer to a router solicitation; the second component tells
    whether the loop stops with a valid default route. *)
Definition rs_line (line : string) (r : WANMGR_IPV6_RA_DATA) : WANMGR_IPV6_RA_DATA * bool :=
  let r := if strstr line "Route lifetime" then
             match scan_literal " Route lifetime : " line with
             | Some rest => match sscanf_d rest with
                            | Some n => r <| ra_defRouteLifeTime := n |>
                            | None => r
                            end
             | None => r
             end
           else r in
  if strstr line "from" then
    let r := match sscanf_s " from " line with
             | Some w => r <| ra_defaultRoute := w |>
             | None => r
             end in
    (r, negb (inet_pton6 (ra_defaultRoute r) ≟ None))
  else (r, false).
Fixpoint rs_lines (l : list string) (r : WANMGR_IPV6_RA_DATA) : WANMGR_IPV6_RA_DATA * Z :=
  match l with
  | [] => (r, -1)
  | line :: l =>
      let '(r, found) := rs_line line r in
      if found : bool then (r, 0) else rs_lines l r
  end.

Section Clients.
Context `{Platform} `{Build} `{MaptBuild} `{IfaceBuild} {C : Type}.
#[local] Abbreviation M := (Prelude.M (St C)).

Definition set_ip (p : vif_ptr) (f : DML_WANIFACE_IP -> DML_WANIFACE_IP) : M unit :=
  upd_vif p (fun v => v <| v_IP ::= f |>).

(** ** Router solicitation *)

Definition WanManager_send_and_receive_rs (p : vif_ptr) : M Z :=
  v <- get_vif p ;;
  r <- call_s (ExtCall "popen" ["rdisc6 " +:+ v_Name v]) ;;
  if fst r =? 0 then ret (-1)
  else
    let '(route, status) := rs_lines (fgets_lines 512 (snd r)) (ip_Ipv6Route (v_IP v)) in
    set_ip p (fun x => x <| ip_Ipv6Route := route |>) ;;
    call_ (ExtCall "pclose" []) ;;
    ret status.

Definition CheckV6DefaultRule (wanInterface : string) : M bool :=
  r <- call_s (ExtCall "v_secure_popen" ["ip -6 ro"]) ;;
  if fst r =? 0 then ret false
  else
    call_ (ExtCall "v_secure_pclose" []) ;;
    ret (existsb (fun output => starts_with "default via " output && strstr output wanInterface)
                 (fgets_lines 256 (snd r))).

(** The short-circuit [||]: the router solicitation is sent only without a
    default rule. *)
Definition WanMgr_CheckDefaultRA (p : vif_ptr) : M unit :=
  added <- get_db w_isDefaultGatewayAdded ;;
  when (negb added) (
    v <- get_vif p ;;
    rule <- CheckV6DefaultRule (v_Name v) ;;
    ok <- (if rule : bool then ret true
           else r <- WanManager_send_and_receive_rs p ;; ret (r =? 0)) ;;
    when ok (set_isDefaultGatewayAdded true)).

(** ** Starting and stopping the clients *)

Definition iface_type_text (t : IFACE_TYPE) : string :=
  match t with LOCAL_IFACE => "LOCAL_IFACE" | REMOTE_IFACE => "REMOTE_IFACE" end.
Definition WanMgr_SubscribeDhcpClientEvents (DhcpInterface : string) : M unit :=
  call_ (ExtCall "rbusEvent_Subscribe" [DhcpInterface +:+ ".Events"]).
Definition WanMgr_UnSubscribeDhcpClientEvents (DhcpInterface : string) : M unit :=
  call_ (ExtCall "rbusEvent_Unsubscribe" [DhcpInterface +:+ ".Events"]).
Definition dhcpmgr_set (name value : string) : M ANSC_STATUS :=
  WanMgr_RdkBus_SetParamValues DHCPMGR_COMPONENT_NAME DHCPMGR_DBUS_PATH name value.

Definition WanManager_StartDhcpv6Client (p : vif_ptr) (IfaceType : IFACE_TYPE) : M Z :=
  v <- get_vif p ;;
  if FEATURE_RDKB_DHCP_MANAGER then
    let dhcp := ip_DHCPv6Iface (v_IP v) in
    WanMgr_SubscribeDhcpClientEvents dhcp ;;
    dhcpmgr_set (dhcp +:+ ".Interface") (v_Name v) ;;
    r <- dhcpmgr_set (dhcp +:+ ".Enable") "true" ;;
    set_ip p (fun x => x <| ip_Dhcp6cStatus := if r ≟ ANSC_STATUS_SUCCESS then DHCPC_STARTED else DHCPC_FAILED |>
                         <| ip_Dhcp6cPid := 1 |>) ;;
    ret 0
  else
    WanManager_send_and_receive_rs p ;;
    pid <- call (ExtCall "start_dhcpv6_client" [v_Name v; iface_type_text IfaceType]) ;;
    if pid =? 0 then
      set_ip p (fun x => x <| ip_Dhcp6cStatus := DHCPC_FAILED |> <| ip_Dhcp6cPid := -1 |>) ;;
      ret (-1)
    else
      set_ip p (fun x => x <| ip_Dhcp6cPid := pid |> <| ip_Dhcp6cStatus := DHCPC_STARTED |>) ;;
      ret 0.

Definition WanManager_StopDhcpv6Client (p : vif_ptr) (is_release_required : DHCP_RELEASE_BEHAVIOUR)
    : M ANSC_STATUS :=
  v <- get_vif p ;;
  if FEATURE_RDKB_DHCP_MANAGER then
    let dhcp := ip_DHCPv6Iface (v_IP v) in
    r <- dhcpmgr_set (dhcp +:+ ".Enable") "false" ;;
    when (r ≟ ANSC_STATUS_SUCCESS)
      (set_ip p (fun x => x <| ip_Dhcp6cStatus := DHCPC_STOPPED |> <| ip_Dhcp6cPid := 0 |>)) ;;
    WanMgr_UnSubscribeDhcpClientEvents dhcp ;;
    ret ANSC_STATUS_SUCCESS
  else
    when (is_release_required ≟ STOP_DHCP_WITH_RELEASE) (
      fd <- call (ExtCall "creat" ["/tmp/dhcpv6_release"]) ;;
      when (negb (fd =? -1)) (call_ (ExtCall "close" []))) ;;
    r <- call (ExtCall "stop_dhcpv6_client" [v_Name v]) ;;
    set_ip p (fun x => x <| ip_Dhcp6cStatus := DHCPC_STOPPED |> <| ip_Dhcp6cPid := 0 |>) ;;
    ret (if r =? 0 then ANSC_STATUS_SUCCESS else ANSC_STATUS_FAILURE).

(** With the DHCP manager the identifier of the IPv4 client is set. *)
Definition WanManager_RestartDhcpv6Client (p : vif_ptr) (IfaceType : IFACE_TYPE) : M Z :=
  v <- get_vif p ;;
  if FEATURE_RDKB_DHCP_MANAGER then
    r <- dhcpmgr_set (ip_DHCPv6Iface (v_IP v) +:+ ".X_RDK_Restart") "true" ;;
    when (r ≟ ANSC_STATUS_SUCCESS) (set_ip p (fun x => x <| ip_Dhcp6cStatus := DHCPC_STARTED |>)) ;;
    set_ip p (fun x => x <| ip_Dhcp4cPid := 1 |>) ;;
    ret 0
  else
    r <- WanManager_StopDhcpv6Client p STOP_DHCP_WITH_RELEASE ;;
    if r ≠? ANSC_STATUS_SUCCESS then ret (-1)
    else
      r <- WanManager_StartDhcpv6Client p IfaceType ;;
      if negb (r =? 0) then ret (-1) else ret 0.

Definition WanManager_StartDhcpv4Client (p : vif_ptr) (baseInterface : string) (IfaceType : IFACE_TYPE)
    : M Z :=
  v <- get_vif p ;;
  if FEATURE_RDKB_DHCP_MANAGER then
    let dhcp := ip_DHCPv4Iface (v_IP v) in
    WanMgr_SubscribeDhcpClientEvents dhcp ;;
    dhcpmgr_set (dhcp +:+ ".Interface") (v_Name v) ;;
    r <- dhcpmgr_set (dhcp +:+ ".Enable") "true" ;;
    set_ip p (fun x => x <| ip_Dhcp4cStatus := if r ≟ ANSC_STATUS_SUCCESS then DHCPC_STARTED else DHCPC_FAILED |>
                         <| ip_Dhcp4cPid := 1 |>) ;;
    ret 0
  else
    pid <- call (ExtCall "start_dhcpv4_client" [v_Name v; baseInterface; iface_type_text IfaceType]) ;;
    if pid =? 0 then
      set_ip p (fun x => x <| ip_Dhcp4cPid := -1 |> <| ip_Dhcp4cStatus := DHCPC_FAILED |>) ;;
      ret (-1)
    else
      set_ip p (fun x => x <| ip_Dhcp4cStatus := DHCPC_STARTED |> <| ip_Dhcp4cPid := pid |>) ;;
      ret 0.

Definition WanManager_StopDhcpv4Client (p : vif_ptr) (IsReleaseNeeded : DHCP_RELEASE_BEHAVIOUR)
    : M ANSC_STATUS :=
  v <- get_vif p ;;
  let release := IsReleaseNeeded ≟ STOP_DHCP_WITH_RELEASE in
  if FEATURE_RDKB_DHCP_MANAGER then
    let dhcp := ip_DHCPv4Iface (v_IP v) in
    r <- dhcpmgr_set (dhcp +:+ ".Enable") "false" ;;
    when (r ≟ ANSC_STATUS_SUCCESS)
      (set_ip p (fun x => x <| ip_Dhcp4cStatus := DHCPC_STOPPED |> <| ip_Dhcp4cPid := 0 |>)) ;;
    WanMgr_UnSubscribeDhcpClientEvents dhcp ;;
    when release (call_ (ExtCall "sleep" ["3"])) ;;
    ret ANSC_STATUS_SUCCESS
  else
    r <- call (ExtCall "stop_dhcpv4_client" [v_Name v; bool_text release]) ;;
    when release (call_ (ExtCall "sleep" ["2"])) ;;
    set_ip p (fun x => x <| ip_Dhcp4cStatus := DHCPC_STOPPED |> <| ip_Dhcp4cPid := 0 |>) ;;
    ret (if r =? 0 then ANSC_STATUS_SUCCESS else ANSC_STATUS_FAILURE).

(** ** The status of the connections *)

Definition WanManager_UpdateInterfaceStatus (p : vif_ptr) (iface_status : wanmgr_iface_status_t) : M unit :=
  match iface_status with
  | WANMGR_IFACE_CONNECTION_UP =>
      v <- get_vif p ;;
      let d := ip_Ipv4Data (v_IP v) in
      when (FEATURE_RDKB_CONFIGURABLE_WAN_INTERFACE && (v_Status v ≟ WAN_IFACE_STATUS_UP)) (
        when (v4_isTimeOffsetAssigned d) (
          sysevent_set "ipv4-timeoffset" ("@" +:+ dec (v4_timeOffset d)) ;;
          sysevent_set "dhcpv4_time_offset" "set") ;;
        sysevent_set "ipv4_timezone" (v4_timeZone d)) ;;
      set_ip p (fun x => x <| ip_Ipv4Status := WAN_IFACE_IPV4_STATE_UP |>)
  | WANMGR_IFACE_CONNECTION_DOWN =>
      set_ip p (fun x => x <| ip_Ipv4Status := WAN_IFACE_IPV4_STATE_DOWN |>
                           <| ip_Ipv4Changed := false |> <| ip_Ipv4Renewed := false |>
                           <| ip_Ipv4Data; v4_ip := EmptyString |>)
  | WANMGR_IFACE_CONNECTION_IPV6_UP =>
      set_ip p (fun x => x <| ip_Ipv6Status := WAN_IFACE_IPV6_STATE_UP |>)
  | WANMGR_IFACE_CONNECTION_IPV6_DOWN =>
      upd_vif p (fun v => v
        <| v_IP ::= fun x => x
             <| ip_Ipv6Status := WAN_IFACE_IPV6_STATE_DOWN |>
             <| ip_Ipv6Changed := false |> <| ip_Ipv6Renewed := false |>
             <| ip_Ipv6Data ::= fun d => d
                  <| v6_address := EmptyString |> <| v6_pdIfAddress := EmptyString |>
                  <| v6_sitePrefix := EmptyString |> <| v6_nameserver := EmptyString |>
                  <| v6_nameserver1 := EmptyString |> |> |>
        <| v_MAP ::= fun x => x <| map_MaptStatus := WAN_IFACE_MAPT_STATE_DOWN |>
                                <| map_MaptChanged := false |> |>) ;;
      wanmgr_sysevents_ipv6Info_init
  | WANMGR_IFACE_MAPT_START =>
      when FEATURE_MAPT
        (upd_vif p (fun v => v <| v_MAP; map_MaptStatus := WAN_IFACE_MAPT_STATE_UP |>))
  | WANMGR_IFACE_MAPT_STOP =>
      when FEATURE_MAPT
        (upd_vif p (fun v => v <| v_MAP ::= fun x => x <| map_MaptStatus := WAN_IFACE_MAPT_STATE_DOWN |>
                                                       <| map_MaptChanged := false |> |>))
  | _ => ret tt
  end.

(** [WanMgr_Rbus_EventPublishHandler] of a string parameter of the virtual
    interface. *)
Definition vif_param (v : DML_VIRTUAL_IFACE) (field : string) : string :=
  "Device.X_RDK_WanManager.Interface." +:+ dec (s32 (v_baseIfIdx v + 1)) +:+ ".VirtualInterface."
    +:+ dec (s32 (v_VirIfIdx v + 1)) +:+ ".IP." +:+ field.
Definition WanMgr_Rbus_EventPublishHandler (dm_event dm_value : string) : M unit :=
  call_ (ExtCall "rbusEvent_Publish" [dm_event; dm_value]).
End Clients.
#[export] Hint Unfold set_ip : monad.
