(* ===== verification/Leases.v ===== *)
(** The leases of an interface: the handlers of the DHCP events of
    [source/WanManager/wanmgr_dhcpv4_apis.c] and [wanmgr_dhcpv6_apis.c], the
    queries of the cellular and PPP managers that stand for a lease, and the
    LAN prefix.

    A pending message is the [pIpcIpv4Data]/[pIpcIpv6Data] of the virtual
    interface; [free] and the [NULL] stored after it are one step.  The reading
    of the interface table of the kernel ([WanManager_getGloballyUniqueIfAddr6])
    and the EUI-64 address on the LAN bridge ([dhcpv6_assign_global_ip]) are
    calls out of the model.  [inet_addr] is asked of the C library, in host
    order: the bit operations commute with the byte order. *)

From S2P Require Export Dhcp.

Definition zero_address : string := "0.0.0.0".

(** [strcmp(a, b)] as a test. *)
Definition differ (a b : string) : bool := a ≠? b.
(** [strlen(new) > 0 && strcmp(new, cur)] *)
Definition renewed_text (new cur : string) : bool := (0 <? strlen new) && differ new cur.

(** The address prefix of [addr/len]: [strcspn(s, "/")] below the length. *)
Definition before_slash (s : string) : option string := fst <$> strchr "/" s.

(** [sscanf(s, "%*[^/]/%s", buf)] into an empty [buf]. *)
Definition prefix_length_text (s : string) : string :=
  match strchr "/" s with
  | Some (EmptyString, _) | None => EmptyString
  | Some (_, rest) => scan_word (skip_spaces rest)
  end.

Section Leases.
Context `{Platform} `{Build} `{MaptBuild} `{IfaceBuild} {C : Type}.
#[local] Abbreviation M := (Prelude.M (St C)).

(** The Comcast platforms keep the prefix off the LAN bridge. *)
Definition COMCAST_PLATFORM : bool := XB6_CBR2_PRODUCT_REQ || PLATFORM_RASPBERRYPI.

Definition WanManager_getUpTime : M Z := t <- call (ExtCall "sysinfo" []) ;; ret (u32 t).
Definition inet_addr (s : string) : M Z := n <- call (ExtCall "inet_addr" [s]) ;; ret (u32 n).

Definition WanManager_GetBCastFromIpSubnetMask (ip mask : string) : M string :=
  ip <- inet_addr ip ;;
  mask <- inet_addr mask ;;
  ret (ip_text (Z.lor ip (u32 (Z.lnot mask)))).

Definition WanManager_AddGatewayRoute (d : WANMGR_IPV4_DATA) : M unit :=
  WanManager_DoSystemAction ("route del " +:+ v4_gateway d +:+ " dev " +:+ v4_ifname d) ;;
  when (IsValidIpv4Address (v4_gateway d) && negb (IsZeroIpvxAddress AF_SELECT_IPV4 (Some (v4_gateway d))))
    (WanManager_DoSystemAction ("ip route add " +:+ v4_gateway d +:+ " dev " +:+ v4_ifname d)).

Definition publish_vif (p : vif_ptr) (field value : string) : M unit :=
  v <- get_vif p ;; WanMgr_Rbus_EventPublishHandler (vif_param v field) value.

(** ** IPv4 *)

Definition wanmgr_dchpv4_get_ipc_msg_info (d : WANMGR_IPV4_DATA) (m : ipc_dhcpv4_data_t)
    : WANMGR_IPV4_DATA :=
  let d := d <| v4_ifname := i4_dhcpcInterface m |> <| v4_ip := i4_ip m |>
             <| v4_mask := i4_mask m |> <| v4_gateway := i4_gateway m |>
             <| v4_dnsServer := i4_dnsServer m |> <| v4_dnsServer1 := i4_dnsServer1 m |> in
  let d := if FEATURE_RDKB_CONFIGURABLE_WAN_INTERFACE
           then d <| v4_timeZone := i4_timeZone m |>
                  <| v4_isTimeOffsetAssigned := i4_isTimeOffsetAssigned m |>
                  <| v4_timeOffset := i4_timeOffset m |> <| v4_leaseTime := i4_leaseTime m |>
                  <| v4_upstreamCurrRate := i4_upstreamCurrRate m |>
                  <| v4_downstreamCurrRate := i4_downstreamCurrRate m |>
                  <| v4_dhcpServerId := i4_dhcpServerId m |> <| v4_dhcpState := i4_dhcpState m |>
           else d in
  d <| v4_mtuSize := if i4_mtuAssigned m && negb (i4_mtuSize m =? 0) then i4_mtuSize m
                     else WANMNGR_INTERFACE_DEFAULT_MTU_SIZE |>.

(** The message changes what the interface has. *)
Definition ipv4_config_changed (d : WANMGR_IPV4_DATA) (m : ipc_dhcpv4_data_t) : bool :=
  differ (v4_ip d) (i4_ip m) || differ (v4_mask d) (i4_mask m)
  || differ (v4_gateway d) (i4_gateway m) || differ (v4_dnsServer d) (i4_dnsServer m)
  || differ (v4_dnsServer1 d) (i4_dnsServer1 m).

Definition dhcpv4_renewed (p : vif_ptr) (m : ipc_dhcpv4_data_t) : M unit :=
  let iface := i4_dhcpcInterface m in
  sysevent_set (SYSEVENT_IPV4 iface "ds_current_rate_0") (dec (i4_downstreamCurrRate m)) ;;
  sysevent_set (SYSEVENT_IPV4 iface "us_current_rate_0") (dec (i4_upstreamCurrRate m)) ;;
  sysevent_set (SYSEVENT_IPV4 iface "lease_time") (dec (i4_leaseTime m)) ;;
  when (negb FEATURE_RDKB_CONFIGURABLE_WAN_INTERFACE) (
    when (i4_isTimeOffsetAssigned m) (
      sysevent_set "ipv4-timeoffset" ("@" +:+ dec (i4_timeOffset m)) ;;
      sysevent_set "dhcpv4_time_offset" "set") ;;
    sysevent_set "ipv4_timezone" (i4_timeZone m)) ;;
  set_ip p (fun x => x <| ip_Ipv4Renewed := true |>).

(** Computing the broadcast address only fails on a [NULL] argument, which
    never reaches it. *)
Definition dhcpv4_assigned (p : vif_ptr) (m : ipc_dhcpv4_data_t) (changed : bool) (up_time : Z) : M unit :=
  (if changed then
     when (negb FEATURE_RDKB_CONFIGURABLE_WAN_INTERFACE)
       (wanmgr_sysevents_ipv4Info_set m (i4_dhcpcInterface m)) ;;
     set_ip p (fun x => x <| ip_Ipv4Changed := true |>)
   else dhcpv4_renewed p m) ;;
  set_ip p (fun x => x <| ip_Ipv4Data ::= fun d =>
    (wanmgr_dchpv4_get_ipc_msg_info d m) <| v4_leaseReceivedTime := up_time |> |>) ;;
  v <- get_vif p ;;
  let d := ip_Ipv4Data (v_IP v) in
  bCastStr <- WanManager_GetBCastFromIpSubnetMask (v4_ip d) (v4_mask d) ;;
  WanManager_DoSystemAction ("ifconfig " +:+ v4_ifname d +:+ " " +:+ v4_ip d +:+ " netmask " +:+ v4_mask d
    +:+ " broadcast " +:+ bCastStr +:+ " mtu " +:+ dec (u32 (v4_mtuSize d))) ;;
  when (ppp_Enable (v_PPP v)) (WanManager_AddGatewayRoute d) ;;
  WanManager_UpdateInterfaceStatus p WANMGR_IFACE_CONNECTION_UP.

Definition dhcpv4_free (p : vif_ptr) : M unit := set_ip p (fun x => x <| ip_pIpcIpv4Data := None |>).

Definition wanmgr_handle_dhcpv4_event_data (p : vif_ptr) : M ANSC_STATUS :=
  v <- get_vif p ;;
  match ip_pIpcIpv4Data (v_IP v) with
  | None => ret ANSC_STATUS_BAD_PARAMETER
  | Some m =>
      if i4_gateway m ≟ zero_address then
        dhcpv4_free p ;;
        when ((v_Status v ≠? WAN_IFACE_STATUS_STANDBY) && (v_Status v ≠? WAN_IFACE_STATUS_UP))
          (upd_vif p (fun v => v <| v_Status := WAN_IFACE_STATUS_VALID |>)) ;;
        ret ANSC_STATUS_SUCCESS
      else
        let changed := ipv4_config_changed (ip_Ipv4Data (v_IP v)) m in
        when changed (set_ip p (fun x => x <| ip_RestartConnectivityCheck := true |>)) ;;
        up_time <- WanManager_getUpTime ;;
        sysevent_set (SYSEVENT_IPV4 (i4_dhcpcInterface m) "start_time") (dec up_time) ;;
        (if i4_addressAssigned m then dhcpv4_assigned p m changed up_time
         else when (i4_isExpired m) (
           set_ip p (fun x => x <| ip_Ipv4Data ::= fun d => wanmgr_dchpv4_get_ipc_msg_info d m |>) ;;
           WanManager_UpdateInterfaceStatus p WANMGR_IFACE_CONNECTION_DOWN)) ;;
        when changed (
          v <- get_vif p ;;
          publish_vif p "IPv4Address" (v4_ip (ip_Ipv4Data (v_IP v)))) ;;
        dhcpv4_free p ;;
        ret ANSC_STATUS_SUCCESS
  end.

(** ** The cellular manager *)

(** A change of the pending message. *)
Definition upd_ipc4 (p : vif_ptr) (f : ipc_dhcpv4_data_t -> ipc_dhcpv4_data_t) : M unit :=
  set_ip p (fun x => x <| ip_pIpcIpv4Data ::= fmap f |>).

(** A query of the cellular manager; [next] runs unless it failed. *)
Definition cellular_query (base suffix : string) (next : string -> M bool) : M bool :=
  r <- WanMgr_RdkBus_GetParamValues CELLULARMGR_COMPONENT_NAME CELLULARMGR_DBUS_PATH (base +:+ suffix) ;;
  match r with None => ret false | Some value => next value end.

(** An address that must be there: without it the lease is down. *)
Definition cellular_address (p : vif_ptr) (value : string) (f : string -> ipc_dhcpv4_data_t -> ipc_dhcpv4_data_t)
    : M unit :=
  upd_ipc4 p (fun m => if value ≠? EmptyString then f value m
                       else m <| i4_dhcpState := "Down" |> <| i4_addressAssigned := false |>).

(** The message is filled in place; a failed query leaves it as far as it got
    and returns from [WanMgr_UpdateIpFromCellularMgr]. *)
Definition cellular_ipv4 (p : vif_ptr) (base : string) : M bool :=
  ok <- call (ExtCall "malloc" ["ipc_dhcpv4_data_t"]) ;;
  if ok =? 0 then set_ip p (fun x => x <| ip_pIpcIpv4Data := None |>) ;; ret true
  else
    set_ip p (fun x => x <| ip_pIpcIpv4Data :=
      Some (zero_ipc_dhcpv4_data <| i4_isExpired := false |> <| i4_addressAssigned := true |>
              <| i4_isTimeOffsetAssigned := false |>) |>) ;;
    cellular_query base ".X_RDK_ContextProfile.1.Ipv4Adress" (fun value =>
    cellular_address p value (fun a m => m <| i4_ip := a |>) ;;
    cellular_query base ".X_RDK_ContextProfile.1.Ipv4Gateway" (fun value =>
    cellular_address p value (fun a m => m <| i4_gateway := a |>) ;;
    cellular_query base ".X_RDK_ContextProfile.1.Ipv4PrimaryDns" (fun value =>
    cellular_address p value (fun a m => m <| i4_dnsServer := a |>) ;;
    cellular_query base ".X_RDK_ContextProfile.1.Ipv4SecondaryDns" (fun value =>
    when (value ≠? EmptyString) (upd_ipc4 p (fun m => m <| i4_dnsServer1 := value |>)) ;;
    v <- get_vif p ;;
    upd_ipc4 p (fun m => m <| i4_dhcpcInterface := v_Name v |>) ;;
    cellular_query base ".X_RDK_ContextProfile.1.Ipv4SubnetMask" (fun value =>
    cellular_address p value (fun a m => m <| i4_mask := a |>) ;;
    cellular_query base ".X_RDK_ContextProfile.1.MtuSize" (fun value =>
    cellular_address p value (fun a m => m <| i4_mtuSize := atoi a |> <| i4_mtuAssigned := true |>) ;;
    wanmgr_handle_dhcpv4_event_data p ;;
    ret true)))))).

(** The IPv6 address is sent on as a command of the DHCPv6 client. *)
Definition cellular_ipv6 (base : string) : M unit :=
  r <- WanMgr_RdkBus_GetParamValues CELLULARMGR_COMPONENT_NAME CELLULARMGR_DBUS_PATH
         (base +:+ ".X_RDK_ContextProfile.1.Ipv6Address") ;;
  match r with
  | None => ret tt
  | Some value =>
      when (value ≠? EmptyString) (
        sock <- call (ExtCall "open" ["/tmp/ccsp_common_fifo"]) ;;
        when (negb (sock <? 0)) (
          call_ (ExtCall "write" ["dibbler-client add '" +:+ value
            +:+ "' '1' '\0' '\0' '\0' '\0' '\0' 0 '1' '\0' '\0' '3600' '7200' ''"]) ;;
          call_ (ExtCall "close" [])))
  end.

Definition WanMgr_UpdateIpFromCellularMgr (i : iface_ptr) (p : vif_ptr) : M unit :=
  I <- get_iface i ;;
  v <- get_vif p ;;
  go_on <- (if (bool_decide (ip_pIpcIpv4Data (v_IP v) = None)) && (ip_Ipv4Status (v_IP v) ≟ WAN_IFACE_IPV4_STATE_DOWN)
            then cellular_ipv4 p (if_BaseInterface I) else ret true) ;;
  when go_on (cellular_ipv6 (if_BaseInterface I)).

(** ** The PPP manager *)

Definition ppp_ipcp (index : Z) (field : string) : string :=
  "Device.PPP.Interface." +:+ dec index +:+ ".IPCP." +:+ field.
Definition ppp_get (index : Z) (field : string) : M (option string) :=
  WanMgr_RdkBus_GetParamValues PPPMGR_COMPONENT_NAME PPPMGR_DBUS_PATH (ppp_ipcp index field).

(** The two name servers of the list. *)
Definition ppp_dns (list : string) (m : ipc_dhcpv4_data_t) : ipc_dhcpv4_data_t :=
  match strtok "," list with
  | None => m
  | Some (first, rest) =>
      let m := m <| i4_dnsServer := first |> in
      match strtok "," rest with
      | Some (second, _) =>
          if IsValidIpAddress true AF_INET (Some second) then m <| i4_dnsServer1 := second |> else m
      | None => m
      end
  end.

(** The message is stored before its last fields are asked for: a failed query
    of the name servers leaves it without interface name and mask. *)
Definition IPCPStateChangeHandler (p : vif_ptr) : M ANSC_STATUS :=
  v <- get_vif p ;;
  if negb (bool_decide (ip_pIpcIpv4Data (v_IP v) = None)) then ret ANSC_STATUS_FAILURE
  else
    let index := default (-1) (sscanf_skip_d (ppp_Interface (v_PPP v))) in
    local <- ppp_get index "LocalIPAddress" ;;
    match local with
    | None => ret ANSC_STATUS_FAILURE
    | Some localIPAddr =>
        remote <- ppp_get index "RemoteIPAddress" ;;
        match remote with
        | None => ret ANSC_STATUS_FAILURE
        | Some remoteIPAddr =>
            if negb (IsValidIpAddress true AF_INET (Some localIPAddr))
               || negb (IsValidIpAddress true AF_INET (Some remoteIPAddr)) then
              upd_vif p (fun v => v <| v_PPP ::= fun x => x
                <| ppp_IPCPStatus := WAN_IFACE_IPCP_STATUS_DOWN |>
                <| ppp_IPV6CPStatus := WAN_IFACE_IPV6CP_STATUS_DOWN |> |>) ;;
              ret ANSC_STATUS_SUCCESS
            else
              ok <- call (ExtCall "malloc" ["ipc_dhcpv4_data_t"]) ;;
              if ok =? 0 then crash
              else
                set_ip p (fun x => x <| ip_pIpcIpv4Data :=
                  Some (zero_ipc_dhcpv4_data <| i4_addressAssigned := true |> <| i4_dhcpState := "Up" |>
                          <| i4_ip := localIPAddr |> <| i4_gateway := remoteIPAddr |>) |>) ;;
                upd_vif p (fun v => v <| v_PPP ::= fun x => x
                  <| ppp_IPCPStatus := WAN_IFACE_IPCP_STATUS_UP |>
                  <| ppp_IPV6CPStatus := WAN_IFACE_IPV6CP_STATUS_UP |> |>) ;;
                dns <- ppp_get index "DNSServers" ;;
                match dns with
                | None => ret ANSC_STATUS_FAILURE
                | Some list =>
                    when (list ≠? EmptyString) (upd_ipc4 p (ppp_dns list)) ;;
                    v <- get_vif p ;;
                    upd_ipc4 p (fun m => m <| i4_dhcpcInterface := v_Name v |>
                                           <| i4_mask := P2P_SUB_NET_MASK |>) ;;
                    ret ANSC_STATUS_SUCCESS
                end
        end
    end.
End Leases.
