(* ===== verification/LeasesV6.v ===== *)
(** The IPv6 leases: the DHCPv6 event handler and the LAN prefix of
    [source/WanManager/wanmgr_dhcpv6_apis.c], [WanManager_Ipv6PrefixUtil] of
    [wanmgr_net_utils.c] and the bridge-mode query of [wanmgr_rdkbus_utils.c]. *)

From S2P Require Export Leases.

Definition wanmgr_dchpv6_get_ipc_msg_info `{Build} (d : WANMGR_IPV6_DATA) (m : ipc_dhcpv6_data_t)
    : WANMGR_IPV6_DATA :=
  let d := d <| v6_ifname := i6_ifname m |> <| v6_address := i6_address m |>
             <| v6_pdIfAddress := i6_pdIfAddress m |>
             <| v6_nameserver := i6_nameserver m |> <| v6_nameserver1 := i6_nameserver1 m |>
             <| v6_domainName := i6_domainName m |> <| v6_sitePrefix := i6_sitePrefix m |>
             <| v6_prefixPltime := i6_prefixPltime m |> <| v6_prefixVltime := i6_prefixVltime m |>
             <| v6_sitePrefixOld := i6_sitePrefixOld m |> in
  if FEATURE_RDKB_CONFIGURABLE_WAN_INTERFACE
  then d <| v6_addrAssigned := i6_addrAssigned m |> <| v6_addrCmd := i6_addrCmd m |>
         <| v6_prefixAssigned := i6_prefixAssigned m |> <| v6_prefixCmd := i6_prefixCmd m |>
         <| v6_domainNameAssigned := i6_domainNameAssigned m |>
  else d.

Definition WanMgr_CopyPreviousPrefix (pOld pNew : WANMGR_IPV6_DATA) : WANMGR_IPV6_DATA :=
  pNew <| v6_sitePrefix := v6_sitePrefix pOld |> <| v6_pdIfAddress := v6_pdIfAddress pOld |>
       <| v6_sitePrefixOld := v6_sitePrefixOld pOld |> <| v6_prefixAssigned := true |>
       <| v6_prefixCmd := v6_prefixCmd pOld |> <| v6_prefixPltime := v6_prefixPltime pOld |>
       <| v6_prefixVltime := v6_prefixVltime pOld |>.

(** The message brings a prefix to use. *)
Definition prefix_added (m : ipc_dhcpv6_data_t) : bool :=
  (i6_prefixCmd m =? IFADDRCONF_ADD) && negb (i6_prefixPltime m =? 0) && negb (i6_prefixVltime m =? 0).
Definition prefix_present (m : ipc_dhcpv6_data_t) : bool :=
  i6_prefixAssigned m && (i6_sitePrefix m ≠? EmptyString).

(** The new lease differs from the current one. *)
Definition ipv6_config_changed (new cur : WANMGR_IPV6_DATA) : bool :=
  renewed_text (v6_address new) (v6_address cur) || renewed_text (v6_pdIfAddress new) (v6_pdIfAddress cur)
  || renewed_text (v6_sitePrefix new) (v6_sitePrefix cur)
  || differ (v6_nameserver new) (v6_nameserver cur) || differ (v6_nameserver1 new) (v6_nameserver1 cur).

Section LeasesV6.
Context `{Platform} `{Build} `{MaptBuild} `{IfaceBuild} {C : Type}.
#[local] Abbreviation M := (Prelude.M (St C)).

Definition WanMgr_isBridgeModeEnabled : M bool :=
  r <- WanMgr_RdkBus_GetParamValues PAM_COMPONENT_NAME PAM_DBUS_PATH
         "Device.X_CISCO_COM_DeviceControl.LanManagementEntry.1.LanMode" ;;
  ret (match r with
       | None => false
       | Some v => (v ≟ "bridge-dhcp") || (v ≟ "bridge-static") || (v ≟ "full-bridge-static")
       end).

(** The prefix is put on the LAN bridge. *)
Definition prefix_on_lan_bridge : M bool :=
  if negb COMCAST_PLATFORM || RDKB_GLOBAL_PRODUCT_REQ then
    if RDKB_GLOBAL_PRODUCT_REQ
    then with_config (get_db (fun d => cfg_ConfigureWANIPv6OnLANBridgeSupport (w_Config d)))
    else ret true
  else ret false.

Definition WanManager_Ipv6PrefixUtil (ifname : string) (opr : Ipv6OperType) (preflft vallft : Z) : M Z :=
  prefix <- sysevent_get "ipv6_prefix" ;;
  prefixAddr <- sysevent_get "lan_prefix_set" ;;
  bridge <- WanMgr_isBridgeModeEnabled ;;
  let IfaceName := if bridge : bool then ifname else LAN_BRIDGE_NAME in
  match opr with
  | DEL_ADDR =>
      when (prefix ≠? EmptyString) (
        on_bridge <- prefix_on_lan_bridge ;;
        when on_bridge
          (WanManager_DoSystemAction ("ip -6 addr del " +:+ prefixAddr +:+ "/64 dev " +:+ IfaceName)) ;;
        WanManager_DoSystemAction
          ((if FEATURE_RDKB_CONFIGURABLE_WAN_INTERFACE then "ip -6 route flush match " else "ip -6 route flush ")
             +:+ prefix +:+ " ") ;;
        WanManager_DoSystemAction "ip -6 route delete default")
  | SET_LFT =>
      when (prefixAddr ≠? EmptyString)
        (WanManager_DoSystemAction ("ip -6 addr change " +:+ prefixAddr +:+ " dev " +:+ IfaceName
           +:+ " valid_lft " +:+ dec vallft +:+ " preferred_lft " +:+ dec preflft +:+ " "))
  end ;;
  ret 0.

Definition get_v6 (p : vif_ptr) : M WANMGR_IPV6_DATA :=
  v <- get_vif p ;; ret (ip_Ipv6Data (v_IP v)).

(** The address and the prefix of the message, in the two builds: the message
    as they leave it, the new lease, and whether there is a connection. *)
Definition lease6 : Type := ipc_dhcpv6_data_t * WANMGR_IPV6_DATA * bool.

Definition dhcpv6_address (m : ipc_dhcpv6_data_t) (cur new : WANMGR_IPV6_DATA) : lease6 :=
  if i6_addrAssigned m then (m, new, i6_addrCmd m =? IFADDRCONF_ADD)
  else if v6_addrAssigned cur && v6_prefixAssigned new then
    (m <| i6_addrAssigned := true |>,
     new <| v6_address := v6_address cur |> <| v6_addrAssigned := true |> <| v6_addrCmd := v6_addrCmd cur |>,
     false)
  else (m, new, false).
Definition dhcpv6_lease_configurable (p : vif_ptr) (m : ipc_dhcpv6_data_t) (new : WANMGR_IPV6_DATA)
    : M lease6 :=
  cur <- get_v6 p ;;
  let '(m, new, connected) := dhcpv6_address m cur new in
  if prefix_present m then
    if prefix_added m then ret (m, new, true)
    else
      when (v6_sitePrefix cur ≟ i6_sitePrefix m)
        (WanManager_UpdateInterfaceStatus p WANMGR_IFACE_CONNECTION_IPV6_DOWN) ;;
      ret (m, new, connected)
  else if v6_prefixAssigned cur && v6_addrAssigned new
  then ret (m, WanMgr_CopyPreviousPrefix cur new, connected)
  else ret (m, new, connected).

(** The prefix of a build whose sysevents are set on reception; the address on
    the LAN side is written into the message only. *)
Definition dhcpv6_publish_prefix (m : ipc_dhcpv6_data_t) (cur : WANMGR_IPV6_DATA) : M ipc_dhcpv6_data_t :=
  when (negb (v6_prefixVltime cur =? i6_prefixVltime m))
    (sysevent_set "ipv6_prefix_vldtime" (dec (s32 (i6_prefixVltime m)))) ;;
  when (negb (v6_prefixPltime cur =? i6_prefixPltime m))
    (sysevent_set "ipv6_prefix_prdtime" (dec (s32 (i6_prefixPltime m)))) ;;
  when (differ (v6_sitePrefixOld cur) (i6_sitePrefixOld m))
    (syscfg_set_string "previousipv6_prefix" (i6_sitePrefixOld m)) ;;
  when (differ (v6_sitePrefix cur) (i6_sitePrefix m)) (syscfg_set_string "ipv6_prefix" (i6_sitePrefix m)) ;;
  match before_slash (i6_sitePrefix m) with
  | None => ret m
  | Some prefix =>
      let m := m <| i6_pdIfAddress := prefix +:+ "1/64" |> in
      when (differ (v6_pdIfAddress cur) (i6_pdIfAddress m)) (
        syscfg_set_string "ipv6_prefix_address" (i6_pdIfAddress m) ;;
        sysevent_set "tr_brlan0_dhcpv6_server_v6addr" (prefix +:+ "1")) ;;
      when (differ (v6_sitePrefix cur) (i6_sitePrefix m)) (sysevent_set "ipv6_prefix" (prefix +:+ "/64")) ;;
      ret m
  end.

(** The settings a removed prefix clears. *)
Definition syscfg_prefix_clear : M unit :=
  call_ (ExtCall "syscfg_set" ["ipv6_prefix"; EmptyString]) ;;
  call_ (ExtCall "syscfg_set" ["previousipv6_prefix"; EmptyString]) ;;
  syscfg_set_string "ipv6_prefix_address" EmptyString.

Definition dhcpv6_lease_published (p : vif_ptr) (m : ipc_dhcpv6_data_t) (new : WANMGR_IPV6_DATA) : M lease6 :=
  cur <- get_v6 p ;;
  connected <- (if i6_addrAssigned m then
      if i6_addrCmd m =? IFADDRCONF_ADD then
        when (differ (v6_address cur) (i6_address m)) (syscfg_set_string "wan_ipv6addr" (i6_address m)) ;;
        ret true
      else syscfg_set_string "wan_ipv6addr" EmptyString ;; ret false
    else ret false) ;;
  r <- (if prefix_present m then
      if prefix_added m then
        m <- dhcpv6_publish_prefix m cur ;; ret (m, true)
      else
        when (v6_sitePrefix cur ≟ i6_sitePrefix m) (
          syscfg_prefix_clear ;;
          WanManager_UpdateInterfaceStatus p WANMGR_IFACE_CONNECTION_IPV6_DOWN) ;;
        ret (m, connected)
    else ret (m, connected)) ;;
  let '(m, connected) := r in
  cur <- get_v6 p ;;
  when (i6_domainNameAssigned m && (i6_domainName m ≠? EmptyString)
        && differ (v6_domainName cur) (i6_domainName m))
    (sysevent_set "ipv6_domain" (i6_domainName m)) ;;
  ret (m, new, connected).

(** An address of the interface that did not come from the DHCP server: the
    answers are the address and the length of its prefix. *)
Definition dhcpv6_slaac (p : vif_ptr) (l : lease6) : M lease6 :=
  let '(m, new, connected) := l in
  if i6_addrAssigned m then ret l
  else
    v <- get_vif p ;;
    r <- call_s (ExtCall "WanManager_getGloballyUniqueIfAddr6" [v_Name v]) ;;
    if negb (fst r =? 0) then ret l
    else
      len <- call (ExtCall "WanManager_getGloballyUniqueIfAddr6.prefixLen" [v_Name v]) ;;
      let guAddr := snd r in
      let guAddrPrefix := guAddr +:+ "/" +:+ dec (s32 len) in
      if differ (v6_address (ip_Ipv6Data (v_IP v))) guAddrPrefix then
        when (negb FEATURE_RDKB_CONFIGURABLE_WAN_INTERFACE) (syscfg_set_string "wan_ipv6addr" guAddrPrefix) ;;
        ret (m <| i6_addrAssigned := true |>, new <| v6_address := guAddr |>, true)
      else ret (m, new, true).

(** A connected lease becomes the current one. *)
Definition dhcpv6_connected (p : vif_ptr) (m : ipc_dhcpv6_data_t) (new : WANMGR_IPV6_DATA) : M unit :=
  v <- get_vif p ;;
  (if ipv6_config_changed new (ip_Ipv6Data (v_IP v)) then
     set_ip p (fun x => x <| ip_Ipv6Changed := true |>) ;;
     publish_vif p "IPv6Address" (v6_address new) ;;
     publish_vif p "IPv6Prefix" (v6_sitePrefix new) ;;
     set_ip p (fun x => x <| ip_RestartConnectivityCheck := true |>)
   else
     when ((v_Status v ≟ WAN_IFACE_STATUS_UP) && (0 <? i6_prefixPltime m) && (0 <? i6_prefixVltime m)) (
       on_bridge <- prefix_on_lan_bridge ;;
       when on_bridge (
         WanManager_Ipv6PrefixUtil (v_Name v) SET_LFT (i6_prefixPltime m) (i6_prefixVltime m) ;;
         sysevent_set "radvd_restart" EmptyString)) ;;
     set_ip p (fun x => x <| ip_Ipv6Renewed := true |>)) ;;
  set_ip p (fun x => x <| ip_Ipv6Data := new |> <| ip_Ipv6Status := WAN_IFACE_IPV6_STATE_UP |>).

Definition dhcpv6_mapt (p : vif_ptr) (m : ipc_dhcpv6_data_t) : M unit :=
  if i6_maptAssigned m then
    v <- get_vif p ;;
    when (i6_mapt m ≠? map_dhcp6cMAPTparameters (v_MAP v))
      (upd_vif p (fun v => v <| v_MAP; map_MaptChanged := true |>)) ;;
    upd_vif p (fun v => v <| v_MAP; map_dhcp6cMAPTparameters := i6_mapt m |>) ;;
    WanManager_UpdateInterfaceStatus p WANMGR_IFACE_MAPT_START
  else
    when (prefix_present m && negb (i6_prefixPltime m =? 0) && negb (i6_prefixVltime m =? 0)) (
      upd_vif p (fun v => v <| v_MAP; map_dhcp6cMAPTparameters := zero_ipc_mapt_data_t |>) ;;
      WanManager_UpdateInterfaceStatus p WANMGR_IFACE_MAPT_STOP).

Definition dhcpv6_free (p : vif_ptr) : M unit := set_ip p (fun x => x <| ip_pIpcIpv6Data := None |>).

Definition wanmgr_handle_dhcpv6_event_data (p : vif_ptr) : M ANSC_STATUS :=
  v <- get_vif p ;;
  match ip_pIpcIpv6Data (v_IP v) with
  | None => ret ANSC_STATUS_BAD_PARAMETER
  | Some m =>
      let new := wanmgr_dchpv6_get_ipc_msg_info zero_WANMGR_IPV6_DATA m in
      if i6_isExpired m then
        WanManager_UpdateInterfaceStatus p WANMGR_IFACE_CONNECTION_IPV6_DOWN ;;
        dhcpv6_free p ;; ret ANSC_STATUS_SUCCESS
      else
        l <- (if FEATURE_RDKB_CONFIGURABLE_WAN_INTERFACE
              then dhcpv6_lease_configurable p m new else dhcpv6_lease_published p m new) ;;
        l <- dhcpv6_slaac p l ;;
        let '(m, new, connected) := l in
        when connected (dhcpv6_connected p m new) ;;
        when FEATURE_MAPT (dhcpv6_mapt p m) ;;
        dhcpv6_free p ;;
        ret ANSC_STATUS_SUCCESS
  end.
End LeasesV6.
