(* ===== verification/Handlers.v ===== *)
(** The handlers of the data model that read and write the interfaces, their
    selection and their virtual interfaces:
    [TR-181/middle_layer_src/wanmgr_dml_iface_v2_apis.c], the builds with WAN
    unification, and the object [X_RDK_WanManager] with its groups,
    [wanmgr_dml_apis.c].

    A handle is the index of what it points to.  Reading a parameter gives the
    value that was stored for the caller, [None] when nothing was stored; a text
    comes with the return code and the size left in [*pUlSize].  The data model
    maps the text of an enumerator to its number before it calls a handler; the
    texts it passes are not [NULL]. *)

From S2P Require Export PsmConfig Dhcp.

Class DmBuild := { WAN_FAILOVER_SUPPORTED : bool }.

(** * Codes of enumerators *)

(** An enumeration as the data model sees it.  A number that is no enumerator is
    one the code treats the same way. *)
Class Coded (A : Type) := { code : A -> Z; decode : Z -> A; decode_code x : decode (code x) = x }.

#[export] Instance iface_status_coded : Coded DML_WAN_IFACE_STATUS := {|
  code := fun x => match x with
    | WAN_IFACE_STATUS_DISABLED => 1 | WAN_IFACE_STATUS_INITIALISING => 2 | WAN_IFACE_STATUS_VALIDATING => 3
    | WAN_IFACE_STATUS_VALID => 4 | WAN_IFACE_STATUS_UP => 5 | WAN_IFACE_STATUS_INVALID => 6
    | WAN_IFACE_STATUS_STANDBY => 7 end;
  decode := fun n => match n with
    | 2 => WAN_IFACE_STATUS_INITIALISING | 3 => WAN_IFACE_STATUS_VALIDATING | 4 => WAN_IFACE_STATUS_VALID
    | 5 => WAN_IFACE_STATUS_UP | 6 => WAN_IFACE_STATUS_INVALID | 7 => WAN_IFACE_STATUS_STANDBY
    | _ => WAN_IFACE_STATUS_DISABLED end;
  decode_code := ltac:(by intros []) |}.
#[export] Instance oper_status_coded : Coded DML_WAN_IFACE_OPER_STATUS := {|
  code := fun x => match x with
    | WAN_OPERSTATUS_UNKNOWN => 1 | WAN_OPERSTATUS_OPERATIONAL => 2 | WAN_OPERSTATUS_NOT_OPERATIONAL => 3 end;
  decode := fun n => match n with
    | 2 => WAN_OPERSTATUS_OPERATIONAL | 3 => WAN_OPERSTATUS_NOT_OPERATIONAL | _ => WAN_OPERSTATUS_UNKNOWN end;
  decode_code := ltac:(by intros []) |}.
#[export] Instance selection_coded : Coded WANMGR_IFACE_SELECTION := {|
  code := fun x => match x with
    | WAN_IFACE_UNKNOWN => 0 | WAN_IFACE_NOT_SELECTED => 1 | WAN_IFACE_VALIDATING => 2 | WAN_IFACE_SELECTED => 3
    | WAN_IFACE_ACTIVE => 4 end;
  decode := fun n => match n with
    | 1 => WAN_IFACE_NOT_SELECTED | 2 => WAN_IFACE_VALIDATING | 3 => WAN_IFACE_SELECTED | 4 => WAN_IFACE_ACTIVE
    | _ => WAN_IFACE_UNKNOWN end;
  decode_code := ltac:(by intros []) |}.
#[export] Instance phy_status_coded : Coded DML_WAN_IFACE_PHY_STATUS := {|
  code := phy_status_val;
  decode := fun n => match n with
    | 2 => WAN_IFACE_PHY_STATUS_INITIALIZING | 3 => WAN_IFACE_PHY_STATUS_UP | 4 => WAN_IFACE_PHY_STATUS_UNKNOWN
    | _ => WAN_IFACE_PHY_STATUS_DOWN end;
  decode_code := ltac:(by intros []) |}.
#[export] Instance link_status_coded : Coded DML_WAN_IFACE_LINKSTATUS := {|
  code := fun x => match x with
    | WAN_IFACE_LINKSTATUS_DOWN => 1 | WAN_IFACE_LINKSTATUS_CONFIGURING => 2 | WAN_IFACE_LINKSTATUS_UP => 3 end;
  decode := fun n => match n with
    | 2 => WAN_IFACE_LINKSTATUS_CONFIGURING | 3 => WAN_IFACE_LINKSTATUS_UP | _ => WAN_IFACE_LINKSTATUS_DOWN end;
  decode_code := ltac:(by intros []) |}.
#[export] Instance ipv4_status_coded : Coded DML_WAN_IFACE_IPV4_STATUS := {|
  code := fun x => match x with
    | WAN_IFACE_IPV4_STATE_UP => 1 | WAN_IFACE_IPV4_STATE_DOWN => 2 | WAN_IFACE_IPV4_STATE_UNKNOWN => 3 end;
  decode := fun n => match n with
    | 1 => WAN_IFACE_IPV4_STATE_UP | 2 => WAN_IFACE_IPV4_STATE_DOWN | _ => WAN_IFACE_IPV4_STATE_UNKNOWN end;
  decode_code := ltac:(by intros []) |}.
#[export] Instance ipv6_status_coded : Coded DML_WAN_IFACE_IPV6_STATUS := {|
  code := fun x => match x with
    | WAN_IFACE_IPV6_STATE_UP => 1 | WAN_IFACE_IPV6_STATE_DOWN => 2 | WAN_IFACE_IPV6_STATE_UNKNOWN => 3 end;
  decode := fun n => match n with
    | 1 => WAN_IFACE_IPV6_STATE_UP | 2 => WAN_IFACE_IPV6_STATE_DOWN | _ => WAN_IFACE_IPV6_STATE_UNKNOWN end;
  decode_code := ltac:(by intros []) |}.
#[export] Instance mapt_status_coded : Coded DML_WAN_IFACE_MAPT_STATUS := {|
  code := fun x => match x with WAN_IFACE_MAPT_STATE_UP => 1 | WAN_IFACE_MAPT_STATE_DOWN => 2 end;
  decode := fun n => match n with 1 => WAN_IFACE_MAPT_STATE_UP | _ => WAN_IFACE_MAPT_STATE_DOWN end;
  decode_code := ltac:(by intros []) |}.
#[export] Instance dslite_status_coded : Coded DML_WAN_IFACE_DSLITE_STATUS := {|
  code := fun x => match x with WAN_IFACE_DSLITE_STATE_UP => 1 | WAN_IFACE_DSLITE_STATE_DOWN => 2 end;
  decode := fun n => match n with 1 => WAN_IFACE_DSLITE_STATE_UP | _ => WAN_IFACE_DSLITE_STATE_DOWN end;
  decode_code := ltac:(by intros []) |}.
#[export] Instance ipcp_status_coded : Coded DML_WAN_IFACE_IPCP_STATUS := {|
  code := fun x => match x with WAN_IFACE_IPCP_STATUS_DOWN => 1 | WAN_IFACE_IPCP_STATUS_UP => 2 end;
  decode := fun n => match n with 2 => WAN_IFACE_IPCP_STATUS_UP | _ => WAN_IFACE_IPCP_STATUS_DOWN end;
  decode_code := ltac:(by intros []) |}.
#[export] Instance ipv6cp_status_coded : Coded DML_WAN_IFACE_IPV6CP_STATUS := {|
  code := fun x => match x with WAN_IFACE_IPV6CP_STATUS_DOWN => 1 | WAN_IFACE_IPV6CP_STATUS_UP => 2 end;
  decode := fun n => match n with 2 => WAN_IFACE_IPV6CP_STATUS_UP | _ => WAN_IFACE_IPV6CP_STATUS_DOWN end;
  decode_code := ltac:(by intros []) |}.
#[export] Instance ppp_link_status_coded : Coded DML_WAN_IFACE_PPP_LINK_STATUS := {|
  code := fun x => match x with
    | WAN_IFACE_PPP_LINK_STATUS_DOWN => 1 | WAN_IFACE_PPP_LINK_STATUS_CONFIGURING => 2
    | WAN_IFACE_PPP_LINK_STATUS_UP => 3 end;
  decode := fun n => match n with
    | 2 => WAN_IFACE_PPP_LINK_STATUS_CONFIGURING | 3 => WAN_IFACE_PPP_LINK_STATUS_UP
    | _ => WAN_IFACE_PPP_LINK_STATUS_DOWN end;
  decode_code := ltac:(by intros []) |}.
#[export] Instance ip_mode_coded : Coded DML_WAN_IP_MODE := {|
  code := ip_mode_val;
  decode := DML_WAN_IP_MODE_of;
  decode_code := ltac:(by intros []) |}.
#[export] Instance ip_source_coded : Coded DML_WAN_IP_SOURCE := {|
  code := ip_source_val;
  decode := DML_WAN_IP_SOURCE_of;
  decode_code := ltac:(by intros []) |}.
#[export] Instance preferred_mode_coded : Coded DML_WAN_IP_PREFERRED_MODE := {|
  code := preferred_mode_val;
  decode := DML_WAN_IP_PREFERRED_MODE_of;
  decode_code := ltac:(by intros []) |}.
#[export] Instance policy_coded : Coded DML_WAN_POLICY := {|
  code := fun x => match x with
    | FIXED_MODE_ON_BOOTUP => 1 | FIXED_MODE => 2 | PRIMARY_PRIORITY_ON_BOOTUP => 3 | PRIMARY_PRIORITY => 4
    | MULTIWAN_MODE => 5 | AUTOWAN_MODE => 6 | PARALLEL_SCAN => 7 end;
  decode := DML_WAN_POLICY_of;
  decode_code := ltac:(by intros []) |}.
#[export] Instance check_type_coded : Coded CONNECTIVITY_CHECK_TYPE := {|
  code := fun x => match x with
    | WAN_CONNECTIVITY_TYPE_NO_CHECK => 0 | WAN_CONNECTIVITY_TYPE_IHC => 1 | WAN_CONNECTIVITY_TYPE_TAD => 2 end;
  decode := CONNECTIVITY_CHECK_TYPE_of;
  decode_code := ltac:(by intros []) |}.

(** * Texts *)

(** [(ULONG) -1] *)
Definition NOT_SUPPORTED : Z := 2 ^ 64 - 1.
(** A text from a buffer of [size] bytes: the return code, what is copied, the
    size left. *)
Definition collect (size : Z) (text : string) (pUlSize : Z) : Z * option string * Z :=
  if size - 1 <? pUlSize then (0, Some text, pUlSize) else (1, None, size).

Definition WANMGR_RESTART_INFO_FILE : string := "/tmp/rdkwanmanager.db".
Definition WANMGR_RESTART_INFO_TMP_FILE : string := "/tmp/rdkwanmanager_tmp.db".
(** The name of a parameter, in which [snprintf] replaces [%d] by the index. *)
Definition restart_key (field : string) (idx : Z) : string :=
  "Device.X_RDK_WanManager.Interface." +:+ (if -1 <? idx then dec idx else "%d") +:+ "." +:+ field.
(** The lines [getline] gives of a text, with their newlines. *)
Fixpoint raw_lines (l acc : list ascii) : list string :=
  match l with
  | [] => match acc with [] => [] | _ => [String.string_of_list_ascii (reverse acc)] end
  | c :: l' => if c ≟ "010"%char then String.string_of_list_ascii (reverse (c :: acc)) :: raw_lines l' []
               else raw_lines l' (c :: acc)
  end.

Section Handlers.
Context `{Platform} `{Build} `{HA : AutoBuild} `{HI : IfaceBuild} `{DmBuild} {C : Type}.
#[local] Abbreviation M := (Prelude.M (St C)).

(** * Stored settings *)

(** The file of the settings that survive a restart: the lines of other keys are
    copied. *)
Definition WanMgr_SetRestartWanInfo (param : string) (idx : Z) (value : string) : M ANSC_STATUS :=
  orig <- call_s (ExtCall "fopen" [WANMGR_RESTART_INFO_FILE; "r"]) ;;
  tmp <- call (ExtCall "fopen" [WANMGR_RESTART_INFO_TMP_FILE; "w"]) ;;
  if tmp =? 0 then ret ANSC_STATUS_FAILURE
  else
    let key := restart_key param idx in
    when (negb (fst orig =? 0)) (for_each (raw_lines (chars (snd orig)) []) (fun line =>
      when (negb (strstr line key)) (call_ (ExtCall "fwrite" [line; WANMGR_RESTART_INFO_TMP_FILE])))) ;;
    call_ (ExtCall "fwrite" [key +:+ "=" +:+ value +:+ String "010" ""; WANMGR_RESTART_INFO_TMP_FILE]) ;;
    call_ (ExtCall "rename" [WANMGR_RESTART_INFO_TMP_FILE; WANMGR_RESTART_INFO_FILE]) ;;
    ret ANSC_STATUS_SUCCESS.
Definition restart_build : bool := XB6_CBR2_PRODUCT_REQ || Dhcp.PLATFORM_RASPBERRYPI.
Definition set_restart_info (param : string) (idx : Z) (value : string) : M unit :=
  when restart_build (WanMgr_SetRestartWanInfo param (s32 idx) value ;; ret tt).
Definition bool_text_lower (b : bool) : string := if b then "true" else "false".

Definition WanMgr_SetConnectivityCheckTypeToPSM (v : DML_VIRTUAL_IFACE) (type : CONNECTIVITY_CHECK_TYPE) : M ANSC_STATUS :=
  r <- call (PsmSet (psm_vif (v_baseIfIdx v + 1) (v_VirIfIdx v) "IP.ConnectivityCheckType") (dec (code type))) ;;
  ret (if r =? CCSP_SUCCESS then ANSC_STATUS_SUCCESS else ANSC_STATUS_FAILURE).
Definition psm_set_status (key value : string) : M ANSC_STATUS :=
  r <- call (PsmSet ("dmsb.wanmanager." +:+ key) value) ;;
  ret (if r =? CCSP_SUCCESS then ANSC_STATUS_SUCCESS else ANSC_STATUS_FAILURE).
Definition WanMgr_RdkBus_setRestorationDelay (delay : Z) : M ANSC_STATUS :=
  psm_set_status "RestorationDelay" (dec (s32 delay)).
Definition WanMgr_RdkBus_setWanEnableToPsm (WanEnable : bool) : M ANSC_STATUS :=
  psm_set_status "wanenable" (if WanEnable then "1" else "0").
Definition WanMgr_RdkBus_setAllowRemoteIfaceToPsm (Enable : bool) : M ANSC_STATUS :=
  psm_set_status "allowremoteinterfaces" (if Enable then "1" else "0").

(** * Handles *)

(** [pIfaceDmlEntry != NULL] and the interface of its index, locked. *)
Definition with_entry {A} (none : A) (hInsContext : option iface_ptr) (body : iface_ptr -> M A) : M A :=
  match hInsContext with
  | None => ret none
  | Some p => I <- get_iface p ;; with_iface none (if_uiIfaceIdx I) body
  end.
(** The handle is dereferenced; a virtual interface that is not found leaves the
    mutex locked. *)
Definition with_vif {A} (none : A) (hInsContext : vif_ptr) (body : vif_ptr -> M A) : M A :=
  v <- get_vif hInsContext ;;
  p <- WanMgr_getVirtualIface_locked (v_baseIfIdx v) (v_VirIfIdx v) ;;
  match p with
  | Some p => a <- body p ;; WanMgr_VirtualIfaceData_release ;; ret a
  | None => ret none
  end.
(** Rows of the tables of a virtual interface. *)
Definition get_vlan (p : vif_ptr * nat) : M DML_VLAN_IFACE_TABLE :=
  v <- get_vif p.1 ;; deref (vlan_InterfaceList (v_VLAN v) !! p.2).
Definition upd_vlan (p : vif_ptr * nat) (f : DML_VLAN_IFACE_TABLE -> DML_VLAN_IFACE_TABLE) : M unit :=
  get_vlan p ;; upd_vif p.1 (fun v => v <| v_VLAN ::= fun w => w <| vlan_InterfaceList ::= alter f p.2 |> |>).
Definition get_marking (p : vif_ptr * nat) : M DML_VIRTIF_MARKING :=
  v <- get_vif p.1 ;; deref (vlan_VirtMarking (v_VLAN v) !! p.2).
Definition upd_marking (p : vif_ptr * nat) (f : DML_VIRTIF_MARKING -> DML_VIRTIF_MARKING) : M unit :=
  get_marking p ;; upd_vif p.1 (fun v => v <| v_VLAN ::= fun w => w <| vlan_VirtMarking ::= alter f p.2 |> |>).
Definition with_vlan {A} (none : A) (hInsContext : vif_ptr * nat) (body : vif_ptr * nat -> M A) : M A :=
  t <- get_vlan hInsContext ;;
  p <- WanMgr_getVlanIface_locked (vt_baseIfIdx t) (vt_VirIfIdx t) (vt_Index t) ;;
  match p with
  | Some p => a <- body p ;; WanMgr_VlanIfaceMutex_release ;; ret a
  | None => ret none
  end.
Definition with_marking {A} (none : A) (hInsContext : vif_ptr * nat) (body : vif_ptr * nat -> M A) : M A :=
  m <- get_marking hInsContext ;;
  p <- WanMgr_getVirtualMarking_locked (mk_baseIfIdx m) (mk_VirIfIdx m) (mk_VirtMarkingInstanceNumber m) ;;
  match p with
  | Some p => a <- body p ;; WanMgr_VirtMarkingMutex_release ;; ret a
  | None => ret none
  end.
Definition set_true (m : M unit) : M bool := m ;; ret true.
Definition value {A} (x : A) : bool * option A := (true, Some x).
Definition no_value {A} : bool * option A := (false, None).
Definition no_text (pUlSize : Z) : Z * option string * Z := (NOT_SUPPORTED, None, pUlSize).

(** * X_RDK_WanManager.CPEInterface.{i}. *)

Definition WanIf_GetEntryCount : M Z := WanMgr_IfaceData_GetTotalWanIface.
Definition WanIf_GetEntry (nIndex : Z) : M (option (iface_ptr * Z)) :=
  with_iface None (u32 nIndex) (fun i => ret (Some (i, nIndex + 1))).
(** The check of [update] and its setting are not under the mutex. *)
Definition WanIf_IsUpdated : M bool :=
  update <- get_db w_update ;;
  if update =? 1 then ret false else set_db (fun d => d <| w_update := 1 |>) ;; ret true.

Definition WanIf_GetParamStringValue (h : option iface_ptr) (ParamName : string) (pUlSize : Z) : M (Z * option string * Z) :=
  with_entry (no_text pUlSize) h (fun i =>
    I <- get_iface i ;;
    ret (if ParamName ≟ "Name" then collect 64 (if_Name I) pUlSize
         else if negb RBUS_BUILD_FLAG_ENABLE && (ParamName ≟ "Alias") then collect 64 (if_AliasName I) pUlSize
         else if ParamName ≟ "AliasName" then collect 64 (if_AliasName I) pUlSize
         else if ParamName ≟ "DisplayName" then collect 64 (if_DisplayName I) pUlSize
         else if ParamName ≟ "CustomConfigPath" then collect 128 (if_CustomConfigPath I) pUlSize
         else if ParamName ≟ "BaseInterface" then collect 128 (if_BaseInterface I) pUlSize
         else no_text pUlSize)).
Definition WanIf_SetParamStringValue (h : option iface_ptr) (ParamName pString : string) : M bool :=
  with_entry false h (fun i =>
    if ParamName ≟ "Name" then set_true (upd_iface i (fun I => I <| if_Name := pString |>))
    else if negb RBUS_BUILD_FLAG_ENABLE && (ParamName ≟ "Alias")
    then set_true (upd_iface i (fun I => I <| if_AliasName := pString |>))
    else if ParamName ≟ "CustomConfigPath" then
      upd_iface i (fun I => I <| if_CustomConfigPath := pString |>) ;;
      I <- get_iface i ;;
      set_restart_info "CustomConfigPath" (if_uiIfaceIdx I) pString ;; ret true
    else if ParamName ≟ "BaseInterface" then
      if (0 <? String.length pString)%nat
      then set_true (upd_iface i (fun I => I <| if_BaseInterface := pString |>)) else ret false
    else ret false).

(** The first virtual interface, by number, whose reset is requested. *)
Definition reset_of_any (i : iface_ptr) (I : DML_WAN_IFACE) : M bool :=
  r <- for_break (range (if_NoOfVirtIfs I)) (fun virIf_id =>
    k <- deref (WanMgr_getVirtualIfaceById (if_VirtIfList I) virIf_id) ;;
    v <- get_vif (i, k) ;;
    ret (if v_Reset v then Some tt else None)) ;;
  ret (match r with Some _ => true | None => false end).
Definition WanIf_GetParamBoolValue (h : option iface_ptr) (ParamName : string) : M (bool * option bool) :=
  with_entry no_value h (fun i =>
    I <- get_iface i ;;
    if ParamName ≟ "EnableOperStatusMonitor" then ret (value (if_MonitorOperStatus I))
    else if ParamName ≟ "EnableCustomConfig" then ret (value (if_CustomConfigEnable I))
    else if ParamName ≟ "ConfigureWanEnable" then ret (value (if_WanConfigEnabled I))
    else if ParamName ≟ "Reset" then b <- reset_of_any i I ;; ret (value b)
    else if ParamName ≟ "ActiveLink" then ret (value (sel_Status (if_Selection I) ≟ WAN_IFACE_ACTIVE))
    else ret no_value).
Definition reset_all (i : iface_ptr) (bValue : bool) : M unit :=
  I <- get_iface i ;;
  for_each (range (if_NoOfVirtIfs I)) (fun virIf_id =>
    J <- get_iface i ;;
    k <- deref (WanMgr_getVirtualIfaceById (if_VirtIfList J) virIf_id) ;;
    upd_vif (i, k) (fun v => v <| v_Reset := bValue |>)).
Definition WanIf_SetParamBoolValue (h : option iface_ptr) (ParamName : string) (bValue : bool) : M bool :=
  with_entry false h (fun i =>
    I <- get_iface i ;;
    if ParamName ≟ "ConfigureWanEnable" then
      upd_iface i (fun I => I <| if_WanConfigEnabled := bValue |>) ;;
      set_restart_info "ConfigureWanEnable" (if_uiIfaceIdx I) (bool_text_lower bValue) ;; ret true
    else if ParamName ≟ "EnableCustomConfig" then
      upd_iface i (fun I => I <| if_CustomConfigEnable := bValue |>) ;;
      set_restart_info "EnableCustomConfig" (if_uiIfaceIdx I) (bool_text_lower bValue) ;; ret true
    else if ParamName ≟ "EnableOperStatusMonitor" then
      upd_iface i (fun I => I <| if_MonitorOperStatus := bValue |>) ;;
      set_restart_info "EnableOperStatusMonitor" (if_uiIfaceIdx I) (bool_text_lower bValue) ;; ret true
    else if ParamName ≟ "Reset" then set_true (reset_all i bValue)
    else ret false).

Definition WanIf_GetParamUlongValue (h : option iface_ptr) (ParamName : string) : M (bool * option Z) :=
  with_entry no_value h (fun i =>
    I <- get_iface i ;;
    if ParamName ≟ "OperationalStatus" then
      v <- deref (head (if_VirtIfList I)) ;; ret (value (code (v_OperationalStatus v)))
    else if ParamName ≟ "Status" then ret (value (code (sel_Status (if_Selection I))))
    else if negb RBUS_BUILD_FLAG_ENABLE && (ParamName ≟ "BaseInterfaceStatus")
    then ret (value (code (if_BaseInterfaceStatus I)))
    else ret no_value).
Definition WanIf_SetParamUlongValue (h : option iface_ptr) (ParamName : string) (uValue : Z) : M bool :=
  with_entry false h (fun i =>
    if ParamName ≟ "OperationalStatus"
    then set_true (upd_vif (i, 0%nat) (fun v => v <| v_OperationalStatus := decode uValue |>))
    else if negb RBUS_BUILD_FLAG_ENABLE && (ParamName ≟ "BaseInterfaceStatus")
    then set_true (upd_iface i (fun I => I <| if_BaseInterfaceStatus := decode uValue |>))
    else ret false).
(** The result of the write is only logged. *)
Definition WanIf_Commit (h : option iface_ptr) : M Z :=
  with_entry tt h (fun i => I <- get_iface i ;; DmlSetWanIfCfg (if_uiInstanceNumber I) I ;; ret tt) ;;
  ret 0.

(** ** Selection *)

(** A priority any other interface has is refused, whatever the groups. *)
Definition WanManager_CheckGivenPriorityExists (IfIndex uiTotalIfaces priority : Z) : M (ANSC_STATUS * bool) :=
  if uiTotalIfaces <=? 0 then ret (ANSC_STATUS_FAILURE, false)
  else
    r <- for_break (range uiTotalIfaces) (fun uiLoopCount =>
      with_iface None uiLoopCount (fun i =>
        I <- get_iface i ;;
        ret (if uiLoopCount =? IfIndex then None
             else if sel_Priority (if_Selection I) =? priority then Some tt else None))) ;;
    ret (ANSC_STATUS_SUCCESS, if r then true else false).

Definition WanIfSelectionCfg_GetParamIntValue (h : option iface_ptr) (ParamName : string) : M (bool * option Z) :=
  with_entry no_value h (fun i =>
    I <- get_iface i ;;
    ret (if ParamName ≟ "Priority" then value (sel_Priority (if_Selection I)) else no_value)).
(** The interface is released while the priority is checked. *)
Definition WanIfSelectionCfg_SetParamIntValue (h : option iface_ptr) (ParamName : string) (iValue : Z) : M bool :=
  p <- with_entry None h (fun i => I <- get_iface i ;; ret (Some (i, if_uiIfaceIdx I))) ;;
  match p with
  | None => ret false
  | Some (i, IfIndex) =>
      if ParamName ≟ "Priority" then
        uiTotalIfaces <- WanIf_GetEntryCount ;;
        r <- WanManager_CheckGivenPriorityExists (s32 IfIndex) uiTotalIfaces iValue ;;
        if fst r ≟ ANSC_STATUS_SUCCESS then
          if snd r then ret false
          else
            with_entry false h (fun _ =>
              set_true (upd_iface i (fun I => I <| if_Selection; sel_Priority := iValue |>)))
        else ret false
      else ret false
  end.
Definition shown_selection (x : WANMGR_IFACE_SELECTION) : WANMGR_IFACE_SELECTION :=
  match x with
  | WAN_IFACE_SELECTED | WAN_IFACE_ACTIVE => WAN_IFACE_SELECTED
  | WAN_IFACE_UNKNOWN | WAN_IFACE_NOT_SELECTED => WAN_IFACE_NOT_SELECTED
  | WAN_IFACE_VALIDATING => WAN_IFACE_VALIDATING
  end.
(** A negative priority is sign-extended to an [unsigned long]. *)
Definition WanIfSelectionCfg_GetParamUlongValue (h : option iface_ptr) (ParamName : string) : M (bool * option Z) :=
  with_entry no_value h (fun i =>
    I <- get_iface i ;;
    ret (if ParamName ≟ "Timeout" then value (sel_Timeout (if_Selection I))
         else if ParamName ≟ "Status" then value (code (shown_selection (sel_Status (if_Selection I))))
         else if ParamName ≟ "Priority" then value (sel_Priority (if_Selection I) mod 2 ^ 64)
         else if ParamName ≟ "Group" then value (sel_Group (if_Selection I))
         else no_value)).
(** An interface that moves to another group: both groups are told, and their
    sets of available interfaces change. *)
Definition set_group (h i : iface_ptr) (uValue : Z) : M unit :=
  E <- get_iface h ;;
  with_group tt (u32 (uValue - 1)) (fun g => upd_group g (fun G => G
    <| g_ConfigChanged := true |>
    <| g_InterfaceAvailable := u32 (Z.lor (g_InterfaceAvailable G) (Z.shiftl 1 (if_uiIfaceIdx E))) |>)) ;;
  I <- get_iface i ;;
  with_group tt (u32 (sel_Group (if_Selection I) - 1)) (fun g => upd_group g (fun G => G
    <| g_ConfigChanged := true |>
    <| g_InterfaceAvailable := u32 (Z.land (g_InterfaceAvailable G) (Z.lnot (Z.shiftl 1 (if_uiIfaceIdx E)))) |>)) ;;
  upd_iface i (fun I => I <| if_Selection; sel_Group := u32 uValue |>).
Definition WanIfSelectionCfg_SetParamUlongValue (h : option iface_ptr) (ParamName : string) (uValue : Z) : M bool :=
  with_entry false h (fun i =>
    if ParamName ≟ "Timeout" then set_true (upd_iface i (fun I => I <| if_Selection; sel_Timeout := u32 uValue |>))
    else if ParamName ≟ "Group" then
      I <- get_iface i ;;
      (if MAX_INTERFACE_GROUP <? uValue then ret tt
       else if sel_Group (if_Selection I) =? uValue then ret tt
       else p <- deref h ;; set_group p i uValue) ;;
      ret true
    else ret false).
Definition WanIfSelectionCfg_GetParamBoolValue (h : option iface_ptr) (ParamName : string) : M (bool * option bool) :=
  with_entry no_value h (fun i =>
    I <- get_iface i ;;
    ret (if negb RBUS_BUILD_FLAG_ENABLE && (ParamName ≟ "Enable") then value (sel_Enable (if_Selection I))
         else if ParamName ≟ "RequiresReboot" then value (sel_RequiresReboot (if_Selection I))
         else no_value)).
Definition WanIfSelectionCfg_SetParamBoolValue (h : option iface_ptr) (ParamName : string) (bValue : bool) : M bool :=
  with_entry false h (fun i =>
    if negb RBUS_BUILD_FLAG_ENABLE && (ParamName ≟ "Enable")
    then set_true (upd_iface i (fun I => I <| if_Selection; sel_Enable := bValue |>))
    else if ParamName ≟ "RequiresReboot"
    then set_true (upd_iface i (fun I => I <| if_Selection; sel_RequiresReboot := bValue |>))
    else ret false).
Definition WanIfSelectionCfg_Commit (h : option iface_ptr) : M Z :=
  with_entry NOT_SUPPORTED h (fun i =>
    I <- get_iface i ;;
    result <- DmlSetWanIfCfg (if_uiInstanceNumber I) I ;;
    ret (if result ≟ ANSC_STATUS_SUCCESS then 0 else NOT_SUPPORTED)).

(** * X_RDK_WanManager.Interface.{i}.VirtualInterface.{i}. *)

Definition WanVirtualIf_GetEntryCount (h : option iface_ptr) : M Z :=
  with_entry 0 h (fun i => I <- get_iface i ;; ret (if_NoOfVirtIfs I)).
(** The mutex is released whether it was taken or not. *)
Definition WanVirtualIf_GetEntry (h : option iface_ptr) (nIndex : Z) : M (option vif_ptr * option Z) :=
  match h with
  | None => ret (None, None)
  | Some p =>
      I <- get_iface p ;;
      pDmlEntry <- WanMgr_getVirtualIface_locked (if_uiIfaceIdx I) (u32 nIndex) ;;
      WanMgr_VirtualIfaceData_release ;;
      ret (pDmlEntry, Some (nIndex + 1))
  end.

Definition WanVirtualIf_GetParamBoolValue (h : vif_ptr) (ParamName : string) : M (bool * option bool) :=
  with_vif no_value h (fun p =>
    v <- get_vif p ;;
    ret (if ParamName ≟ "Enable" then value (v_Enable v)
         else if ParamName ≟ "EnableDSLite" then value (v_EnableDSLite v)
         else if ParamName ≟ "EnableIPoEHealthCheck"
         then value (ip_ConnectivityCheckType (v_IP v) ≟ WAN_CONNECTIVITY_TYPE_IHC)
         else if ParamName ≟ "EnableMAPT" then value (v_EnableMAPT v)
         else if ParamName ≟ "Reset" then value (vlan_Reset (v_VLAN v))
         else no_value)).
(** A check of another kind is not switched off by this parameter; a value that
    changes nothing is refused. *)
Definition set_health_check (p : vif_ptr) (bValue : bool) : M bool :=
  v <- get_vif p ;;
  let type := if bValue then WAN_CONNECTIVITY_TYPE_IHC else WAN_CONNECTIVITY_TYPE_NO_CHECK in
  let now := ip_ConnectivityCheckType (v_IP v) in
  if (type ≠? now) && ((type ≠? WAN_CONNECTIVITY_TYPE_NO_CHECK) || (now ≟ WAN_CONNECTIVITY_TYPE_IHC)) then
    WanMgr_SetConnectivityCheckTypeToPSM v type ;;
    upd_vif p (fun v => v <| v_IP ::= fun x => x
      <| ip_WCC_TypeChanged := true |> <| ip_ConnectivityCheckType := type |> |>) ;;
    ret true
  else ret false.
Definition WanVirtualIf_SetParamBoolValue (h : vif_ptr) (ParamName : string) (bValue : bool) : M bool :=
  with_vif false h (fun p =>
    if ParamName ≟ "Enable" then
      v <- get_vif p ;;
      when (negb (Bool.eqb (v_Enable v) bValue))
        (with_iface tt (v_baseIfIdx v) (fun i => upd_iface i (fun I => I <| if_VirtIfChanged := true |>)) ;;
         upd_vif p (fun v => v <| v_Enable := bValue |>)) ;;
      ret true
    else if ParamName ≟ "EnableDSLite" then set_true (upd_vif p (fun v => v <| v_EnableDSLite := bValue |>))
    else if ParamName ≟ "EnableIPoEHealthCheck" then set_health_check p bValue
    else if ParamName ≟ "EnableMAPT" then set_true (upd_vif p (fun v => v <| v_EnableMAPT := bValue |>))
    else if ParamName ≟ "Reset" then set_true (upd_vif p (fun v => v <| v_VLAN; vlan_Reset := bValue |>))
    else ret false).
(** The code for a short buffer is overwritten for the alias. *)
Definition WanVirtualIf_GetParamStringValue (h : vif_ptr) (ParamName : string) (pUlSize : Z) : M (Z * option string * Z) :=
  with_vif (no_text pUlSize) h (fun p =>
    v <- get_vif p ;;
    ret (if ParamName ≟ "Name" then collect 64 (v_Name v) pUlSize
         else if ParamName ≟ "Alias" then (0, (collect 64 (v_Alias v) pUlSize).1.2, (collect 64 (v_Alias v) pUlSize).2)
         else no_text pUlSize)).
(** The stored name is filed under the number of the virtual interface. *)
Definition WanVirtualIf_SetParamStringValue (h : vif_ptr) (ParamName pString : string) : M bool :=
  with_vif false h (fun p =>
    if ParamName ≟ "Alias" then set_true (upd_vif p (fun v => v <| v_Alias := pString |>))
    else if ParamName ≟ "Name" then
      upd_vif p (fun v => v <| v_Name := pString |>) ;;
      v <- get_vif p ;;
      set_restart_info "VirtualInterface.1.Name" (v_VirIfIdx v) pString ;; ret true
    else ret false).
Definition WanVirtualIf_GetParamUlongValue (h : vif_ptr) (ParamName : string) : M (bool * option Z) :=
  with_vif no_value h (fun p =>
    v <- get_vif p ;;
    ret (if negb RBUS_BUILD_FLAG_ENABLE && (ParamName ≟ "Status") then value (code (v_Status v))
         else if negb RBUS_BUILD_FLAG_ENABLE && (ParamName ≟ "VlanStatus") then value (code (vlan_Status (v_VLAN v)))
         else if ParamName ≟ "Timeout" then value (vlan_Timeout (v_VLAN v))
         else no_value)).
Definition WanVirtualIf_SetParamUlongValue (h : vif_ptr) (ParamName : string) (uValue : Z) : M bool :=
  with_vif false h (fun p =>
    if negb RBUS_BUILD_FLAG_ENABLE && (ParamName ≟ "Status")
    then set_true (upd_vif p (fun v => v <| v_Status := decode uValue |>))
    else if negb RBUS_BUILD_FLAG_ENABLE && (ParamName ≟ "VlanStatus")
    then set_true (upd_vif p (fun v => v <| v_VLAN; vlan_Status := decode uValue |>))
    else if ParamName ≟ "Timeout" then set_true (upd_vif p (fun v => v <| v_VLAN; vlan_Timeout := u32 uValue |>))
    else ret false).
Definition commit_virtual (h : vif_ptr) : M Z :=
  with_vif NOT_SUPPORTED h (fun p =>
    v <- get_vif p ;;
    write_Virtual_Interface_ToPSM (u32 (v_baseIfIdx v + 1)) (v_VirIfIdx v) v ;;
    ret 0).
Definition WanVirtualIf_Commit : vif_ptr -> M Z := commit_virtual.

(** ** IP *)

Definition WanIfIpCfg_GetParamUlongValue (h : vif_ptr) (ParamName : string) : M (bool * option Z) :=
  with_vif no_value h (fun p =>
    v <- get_vif p ;;
    ret (if ParamName ≟ "IPv4Status" then value (code (ip_Ipv4Status (v_IP v)))
         else if ParamName ≟ "IPv6Status" then value (code (ip_Ipv6Status (v_IP v)))
         else if ParamName ≟ "Mode" then value (code (ip_Mode (v_IP v)))
         else if ParamName ≟ "IPv4Source" then value (code (ip_IPv4Source (v_IP v)))
         else if ParamName ≟ "IPv6Source" then value (code (ip_IPv6Source (v_IP v)))
         else if ParamName ≟ "PreferredMode" then value (code (ip_PreferredMode (v_IP v)))
         else no_value)).
(** A change of the mode or of a source asks for a refresh of the DHCP clients. *)
Definition WanIfIpCfg_SetParamUlongValue (h : vif_ptr) (ParamName : string) (uValue : Z) : M bool :=
  with_vif false h (fun p =>
    v <- get_vif p ;;
    let set_ip f := upd_vif p (fun v => v <| v_IP ::= f |>) in
    if ParamName ≟ "IPv4Status" then set_true (set_ip (fun x => x <| ip_Ipv4Status := decode uValue |>))
    else if ParamName ≟ "IPv6Status" then set_true (set_ip (fun x => x <| ip_Ipv6Status := decode uValue |>))
    else if ParamName ≟ "Mode" then
      when (negb (code (ip_Mode (v_IP v)) =? uValue))
        (set_ip (fun x => x <| ip_Mode := decode uValue |> <| ip_RefreshDHCP := true |> <| ip_ModeForceEnable := true |>)) ;;
      ret true
    else if ParamName ≟ "IPv4Source" then
      when (negb (code (ip_IPv4Source (v_IP v)) =? uValue))
        (set_ip (fun x => x <| ip_IPv4Source := decode uValue |> <| ip_RefreshDHCP := true |>)) ;;
      ret true
    else if ParamName ≟ "IPv6Source" then
      when (negb (code (ip_IPv6Source (v_IP v)) =? uValue))
        (set_ip (fun x => x <| ip_IPv6Source := decode uValue |> <| ip_RefreshDHCP := true |>)) ;;
      ret true
    else if ParamName ≟ "PreferredMode" then
      when (negb (code (ip_PreferredMode (v_IP v)) =? uValue))
        (set_ip (fun x => x <| ip_PreferredMode := decode uValue |>)) ;;
      ret true
    else ret false).
Definition WanIfIpCfg_GetParamStringValue (h : vif_ptr) (ParamName : string) (pUlSize : Z) : M (Z * option string * Z) :=
  with_vif (no_text pUlSize) h (fun p =>
    v <- get_vif p ;;
    ret (if ParamName ≟ "Interface" then collect 64 (ip_Interface (v_IP v)) pUlSize
         else if ParamName ≟ "DHCPv4Interface" then collect 128 (ip_DHCPv4Iface (v_IP v)) pUlSize
         else if ParamName ≟ "DHCPv6Interface" then collect 128 (ip_DHCPv6Iface (v_IP v)) pUlSize
         else no_text pUlSize)).
Definition WanIfIpCfg_SetParamStringValue (h : vif_ptr) (ParamName pString : string) : M bool :=
  with_vif false h (fun p =>
    if ParamName ≟ "Interface" then set_true (upd_vif p (fun v => v <| v_IP; ip_Interface := pString |>))
    else if ParamName ≟ "DHCPv4Interface" then set_true (upd_vif p (fun v => v <| v_IP; ip_DHCPv4Iface := pString |>))
    else if ParamName ≟ "DHCPv6Interface" then set_true (upd_vif p (fun v => v <| v_IP; ip_DHCPv6Iface := pString |>))
    else ret false).
Definition WanIfIpCfg_Commit : vif_ptr -> M Z := commit_virtual.

(** ** MAP-T, DS-Lite, PPP *)

Definition WanIfMapt_GetParamUlongValue (h : vif_ptr) (ParamName : string) : M (bool * option Z) :=
  with_vif no_value h (fun p =>
    v <- get_vif p ;;
    ret (if ParamName ≟ "MAPTStatus" then value (code (map_MaptStatus (v_MAP v))) else no_value)).
Definition WanIfMapt_SetParamUlongValue (h : vif_ptr) (ParamName : string) (uValue : Z) : M bool :=
  with_vif false h (fun p =>
    if (ParamName ≟ "MAPTStatus") && FEATURE_MAPT
    then set_true (upd_vif p (fun v => v <| v_MAP; map_MaptStatus := decode uValue |>)) else ret false).
Definition WanIfMapt_GetParamStringValue (h : vif_ptr) (ParamName : string) (pUlSize : Z) : M (Z * option string * Z) :=
  with_vif (no_text pUlSize) h (fun p =>
    v <- get_vif p ;;
    ret (if ParamName ≟ "Path" then collect 64 (map_Path (v_MAP v)) pUlSize else no_text pUlSize)).
Definition WanIfMapt_SetParamStringValue (h : vif_ptr) (ParamName pString : string) : M bool :=
  with_vif false h (fun p =>
    if (ParamName ≟ "Path") && FEATURE_MAPT
    then set_true (upd_vif p (fun v => v <| v_MAP; map_Path := pString |>)) else ret false).

Definition WanIfDSLite_GetParamUlongValue (h : vif_ptr) (ParamName : string) : M (bool * option Z) :=
  with_vif no_value h (fun p =>
    v <- get_vif p ;;
    ret (if ParamName ≟ "Status" then value (code (dsl_Status (v_DSLite v))) else no_value)).
Definition WanIfDSLite_SetParamUlongValue (h : vif_ptr) (ParamName : string) (uValue : Z) : M bool :=
  with_vif false h (fun p =>
    if ParamName ≟ "Status" then set_true (upd_vif p (fun v => v <| v_DSLite; dsl_Status := decode uValue |>))
    else ret false).
Definition WanIfDSLite_GetParamStringValue (h : vif_ptr) (ParamName : string) (pUlSize : Z) : M (Z * option string * Z) :=
  with_vif (no_text pUlSize) h (fun p =>
    v <- get_vif p ;;
    ret (if ParamName ≟ "Path" then collect 64 (dsl_Path (v_DSLite v)) pUlSize else no_text pUlSize)).
Definition WanIfDSLite_SetParamStringValue (h : vif_ptr) (ParamName pString : string) : M bool :=
  with_vif false h (fun p =>
    if ParamName ≟ "Path" then set_true (upd_vif p (fun v => v <| v_DSLite; dsl_Path := pString |>)) else ret false).

Definition WanIfPPPCfg_GetParamUlongValue (h : vif_ptr) (ParamName : string) : M (bool * option Z) :=
  with_vif no_value h (fun p =>
    v <- get_vif p ;;
    ret (if ParamName ≟ "IPCPStatus" then value (code (ppp_IPCPStatus (v_PPP v)))
         else if ParamName ≟ "IPv6CPStatus" then value (code (ppp_IPV6CPStatus (v_PPP v)))
         else if ParamName ≟ "Status" then value (code (ppp_LinkStatus (v_PPP v)))
         else no_value)).
Definition WanIfPPPCfg_SetParamUlongValue (h : vif_ptr) (ParamName : string) (uValue : Z) : M bool :=
  with_vif false h (fun p =>
    if ParamName ≟ "IPCPStatus" then
      set_true (upd_vif p (fun v => v <| v_PPP ::= fun x => x
        <| ppp_IPCPStatus := decode uValue |> <| ppp_IPCPStatusChanged := true |> |>))
    else if ParamName ≟ "IPv6CPStatus" then
      set_true (upd_vif p (fun v => v <| v_PPP ::= fun x => x
        <| ppp_IPV6CPStatus := decode uValue |> <| ppp_IPV6CPStatusChanged := true |> |>))
    else if ParamName ≟ "Status" then set_true (upd_vif p (fun v => v <| v_PPP; ppp_LinkStatus := decode uValue |>))
    else ret false).
Definition WanIfPPPCfg_GetParamStringValue (h : vif_ptr) (ParamName : string) (pUlSize : Z) : M (Z * option string * Z) :=
  with_vif (no_text pUlSize) h (fun p =>
    v <- get_vif p ;;
    ret (if ParamName ≟ "Interface" then collect 64 (ppp_Interface (v_PPP v)) pUlSize else no_text pUlSize)).
Definition WanIfPPPCfg_SetParamStringValue (h : vif_ptr) (ParamName pString : string) : M bool :=
  with_vif false h (fun p =>
    if ParamName ≟ "Interface" then set_true (upd_vif p (fun v => v <| v_PPP; ppp_Interface := pString |>))
    else ret false).
Definition WanIfPPPCfg_Commit : vif_ptr -> M Z := commit_virtual.

(** ** VLAN and its markings *)

Definition WanIfVlanCfg_GetEntryCount (h : vif_ptr) : M Z :=
  with_vif 0 h (fun p => v <- get_vif p ;; ret (vlan_NoOfInterfaceEntries (v_VLAN v))).
Definition WanIfVlanCfg_GetEntry (h : vif_ptr) (nIndex : Z) : M (option (vif_ptr * nat * Z)) :=
  v <- get_vif h ;;
  p <- WanMgr_getVlanIface_locked (v_baseIfIdx v) (v_VirIfIdx v) (u32 nIndex) ;;
  match p with
  | Some p => WanMgr_VlanIfaceMutex_release ;; ret (Some (p, nIndex + 1))
  | None => ret None
  end.
Definition WanIfVlanCfg_GetParamStringValue (h : vif_ptr * nat) (ParamName : string) (pUlSize : Z) : M (Z * option string * Z) :=
  with_vlan (no_text pUlSize) h (fun p =>
    t <- get_vlan p ;;
    ret (if ParamName ≟ "Interface" then (0, Some (vt_Interface t), pUlSize) else no_text pUlSize)).
Definition WanIfVlanCfg_SetParamStringValue (h : vif_ptr * nat) (ParamName pString : string) : M bool :=
  with_vlan false h (fun p =>
    if ParamName ≟ "Interface" then set_true (upd_vlan p (fun t => t <| vt_Interface := pString |>)) else ret false).
Definition WanIfVlanCfg_Commit (h : vif_ptr * nat) : M Z :=
  with_vlan NOT_SUPPORTED h (fun p => t <- get_vlan p ;; write_VlanInterface_ParametersToPSM t ;; ret 0).

Definition WanIfVlanMarking_GetEntryCount (h : vif_ptr) : M Z :=
  with_vif 0 h (fun p => v <- get_vif p ;; ret (vlan_NoOfMarkingEntries (v_VLAN v))).
Definition WanIfVlanMarking_GetEntry (h : vif_ptr) (nIndex : Z) : M (option (vif_ptr * nat * Z)) :=
  v <- get_vif h ;;
  p <- WanMgr_getVirtualMarking_locked (v_baseIfIdx v) (v_VirIfIdx v) (u32 nIndex) ;;
  match p with
  | Some p => WanMgr_VirtMarkingMutex_release ;; ret (Some (p, nIndex + 1))
  | None => ret None
  end.
Definition WanIfVlanMarking_GetParamIntValue (h : vif_ptr * nat) (ParamName : string) : M (bool * option Z) :=
  with_marking no_value h (fun p =>
    m <- get_marking p ;; ret (if ParamName ≟ "Entry" then value (s32 (mk_Entry m)) else no_value)).
Definition WanIfVlanMarking_SetParamIntValue (h : vif_ptr * nat) (ParamName : string) (iValue : Z) : M bool :=
  with_marking false h (fun p =>
    if ParamName ≟ "Entry" then set_true (upd_marking p (fun m => m <| mk_Entry := u32 iValue |>)) else ret false).
Definition WanIfVlanMarking_Commit (h : vif_ptr * nat) : M Z :=
  with_marking tt h (fun p => m <- get_marking p ;; write_VirtMarking_ParametersToPSM m ;; ret tt) ;; ret 0.

(** * X_RDK_WanManager. *)

(** A group that is not there leaves the target of the read untouched. *)
Definition WanManager_GetParamUlongValue (ParamName : string) : M (bool * option Z) :=
  with_config (
    if ParamName ≟ "Policy" then
      o <- with_group None 0 (fun g => G <- get_group g ;; ret (Some (code (g_Policy G)))) ;; ret (true, o)
    else if ParamName ≟ "RestorationDelay" then
      d <- get_db (fun d => cfg_RestorationDelay (w_Config d)) ;; ret (value d)
    else ret no_value).
Definition set_policy (g : nat) (uValue : Z) : M unit :=
  G <- get_group g ;;
  when (negb (code (g_Policy G) =? uValue))
    (upd_group g (fun G => G <| g_Policy := decode uValue |> <| g_ConfigChanged := true |>)).
Definition WanManager_SetParamUlongValue (ParamName : string) (uValue : Z) : M bool :=
  with_config (
    if ParamName ≟ "Policy" then
      if negb FEATURE_RDKB_CONFIGURABLE_WAN_INTERFACE && (uValue =? code PARALLEL_SCAN) then ret false
      else
        retStatus <- WanMgr_RdkBus_setWanPolicy (s32 uValue) 0 ;;
        if retStatus ≟ ANSC_STATUS_SUCCESS then with_group tt 0 (fun g => set_policy g uValue) ;; ret true
        else ret false
    else if ParamName ≟ "RestorationDelay" then
      retStatus <- WanMgr_RdkBus_setRestorationDelay (u32 uValue) ;;
      if retStatus ≟ ANSC_STATUS_SUCCESS
      then set_true (set_db (fun d => d <| w_Config; cfg_RestorationDelay := u32 uValue |>)) else ret false
    else ret false).
Definition WanManager_GetParamBoolValue (ParamName : string) : M (bool * option bool) :=
  with_config (
    c <- get_db w_Config ;;
    if ParamName ≟ "Enable" then ret (value (cfg_Enable c))
    else if ParamName ≟ "ResetActiveInterface" then
      o <- with_group None 0 (fun g => G <- get_group g ;; ret (Some (g_ResetSelectedInterface G))) ;; ret (true, o)
    else if ParamName ≟ "AllowRemoteInterfaces" then ret (value (cfg_AllowRemoteInterfaces c))
    else if ParamName ≟ "ResetDefaultConfig" then ret (value false)
    else ret no_value).
Definition WanManager_SetParamBoolValue (ParamName : string) (bValue : bool) : M bool :=
  with_config (
    if ParamName ≟ "Enable" then
      WanMgr_RdkBus_setWanEnableToPsm bValue ;;
      set_true (set_db (fun d => d <| w_Config; cfg_Enable := bValue |>))
    else if ParamName ≟ "ResetActiveInterface" then
      with_group tt 0 (fun g => upd_group g (fun G => G <| g_ResetSelectedInterface := bValue |>)) ;; ret true
    else if ParamName ≟ "AllowRemoteInterfaces" then
      if WAN_FAILOVER_SUPPORTED then
        set_db (fun d => d <| w_Config; cfg_AllowRemoteInterfaces := bValue |>) ;;
        WanMgr_RdkBus_setAllowRemoteIfaceToPsm bValue ;; ret true
      else ret false
    else if ParamName ≟ "ResetDefaultConfig" then
      when bValue (call_ (ExtCall "unlink" ["/nvram/.wanmanager_upgrade"]) ;;
                   call_ (ExtCall "v_secure_system" ["sed -i '/dmsb.wanmanager./d' /nvram/bbhm_bak_cfg.xml"])) ;;
      ret true
    else ret false).

Definition WanManagerGroup_GetEntryCount : M Z := WanMgr_GetTotalNoOfGroups.
Definition WanManagerGroup_GetEntry (nIndex : Z) : M (option (nat * Z)) :=
  with_group None (u32 nIndex) (fun g => ret (Some (g, nIndex + 1))).
(** The group of a handle, which is dereferenced. *)
Definition with_group_entry {A} (none : A) (h : nat) (body : nat -> M A) : M A :=
  G <- get_group h ;; with_group none (g_groupIdx G) body.
Definition WanManagerGroup_GetParamBoolValue (h : nat) (ParamName : string) : M (bool * option bool) :=
  with_group_entry no_value h (fun g =>
    G <- get_group g ;;
    ret (if ParamName ≟ "ResetSelectedInterface" then value (g_ResetSelectedInterface G) else no_value)).
(** Nothing to reset is no error. *)
Definition WanManagerGroup_SetParamBoolValue (h : nat) (ParamName : string) (bValue : bool) : M bool :=
  with_group_entry false h (fun g =>
    if ParamName ≟ "ResetSelectedInterface" then
      G <- get_group g ;;
      when (negb (bValue && (g_SelectedInterface G =? 0)))
        (upd_group g (fun G => G <| g_ResetSelectedInterface := bValue |>)) ;;
      ret true
    else ret false).
Definition WanManagerGroup_GetParamUlongValue (h : nat) (ParamName : string) : M (bool * option Z) :=
  with_group_entry no_value h (fun g =>
    G <- get_group g ;; ret (if ParamName ≟ "Policy" then value (code (g_Policy G)) else no_value)).
Definition WanManagerGroup_SetParamUlongValue (h : nat) (ParamName : string) (uValue : Z) : M bool :=
  with_group_entry false h (fun g =>
    if ParamName ≟ "Policy" then
      G <- get_group g ;;
      retStatus <- WanMgr_RdkBus_setWanPolicy (s32 uValue) (g_groupIdx G) ;;
      if retStatus ≟ ANSC_STATUS_SUCCESS then set_true (set_policy g uValue) else ret false
    else ret false).

(** ** The check of the connectivity by DNS *)

(** The first virtual interface of the first interface that has one decides. *)
Definition WanMgr_GetDnsConnectivityCheck : M bool :=
  TotalIfaces <- WanMgr_IfaceData_GetTotalWanIface ;;
  r <- for_break (range (s32 TotalIfaces)) (fun uiLoopCount =>
    with_iface None uiLoopCount (fun i =>
      I <- get_iface i ;;
      if 0 <? if_NoOfVirtIfs I then
        match WanMgr_getVirtualIfaceById (if_VirtIfList I) 0 with
        | Some k => v <- get_vif (i, k) ;; ret (Some (ip_ConnectivityCheckType (v_IP v) ≟ WAN_CONNECTIVITY_TYPE_TAD))
        | None => ret None
        end
      else ret None)) ;;
  ret (default false r).
Definition set_dns_check (i : iface_ptr) (type : CONNECTIVITY_CHECK_TYPE) (virIf_id : Z) : M bool :=
  I <- get_iface i ;;
  k <- deref (WanMgr_getVirtualIfaceById (if_VirtIfList I) virIf_id) ;;
  v <- get_vif (i, k) ;;
  let now := ip_ConnectivityCheckType (v_IP v) in
  if (type ≠? now) && ((type ≠? WAN_CONNECTIVITY_TYPE_NO_CHECK) || (now ≟ WAN_CONNECTIVITY_TYPE_TAD)) then
    r <- WanMgr_SetConnectivityCheckTypeToPSM v type ;;
    if r ≟ ANSC_STATUS_SUCCESS then
      upd_vif (i, k) (fun v => v <| v_IP ::= fun x => x
        <| ip_ConnectivityCheckType := type |> <| ip_WCC_TypeChanged := true |> |>) ;;
      ret true
    else ret false
  else ret false.
(** Every virtual interface that changes; it fails when none does. *)
Definition WanMgr_SetDnsConnectivityCheck (Enable : bool) : M ANSC_STATUS :=
  TotalIfaces <- WanMgr_IfaceData_GetTotalWanIface ;;
  let type := if Enable then WAN_CONNECTIVITY_TYPE_TAD else WAN_CONNECTIVITY_TYPE_NO_CHECK in
  r <- for_acc (R := unit) (range (s32 TotalIfaces)) false (fun uiLoopCount any =>
    any <- with_iface any uiLoopCount (fun i =>
      I <- get_iface i ;;
      r <- for_acc (R := unit) (range (if_NoOfVirtIfs I)) any (fun virIf_id any =>
        b <- set_dns_check i type virIf_id ;; ret (any || b, None)) ;;
      ret (fst r)) ;;
    ret (any, None)) ;;
  ret (if fst r then ANSC_STATUS_SUCCESS else ANSC_STATUS_FAILURE).
Definition WanMgr_DnsConnectivityCheck_GetParamBoolValue (ParamName : string) : M (bool * option bool) :=
  if ParamName ≟ "Enable" then b <- WanMgr_GetDnsConnectivityCheck ;; ret (value b) else ret no_value.
Definition WanMgr_DnsConnectivityCheck_SetParamBoolValue (ParamName : string) (bValue : bool) : M bool :=
  if ParamName ≟ "Enable" then
    r <- WanMgr_SetDnsConnectivityCheck bValue ;; ret (r ≟ ANSC_STATUS_SUCCESS)
  else ret false.
End Handlers.
