(* ===== verification/HandlerFacts.v ===== *)
(** What every handler of the data model leaves as it was: the numbers of the
    rows of its tables, the selection of the interfaces and groups, and the mutex.
    A request on a row that exists runs to its end. *)

From S2P Require Export Handlers DataFacts.

(** * The rows *)

(** The numbers a row is found by, and the selection. *)
Definition vlan_keys (t : DML_VLAN_IFACE_TABLE) := (vt_Index t, vt_VirIfIdx t, vt_baseIfIdx t).
Definition marking_keys (m : DML_VIRTIF_MARKING) := (mk_VirtMarkingInstanceNumber m, mk_VirIfIdx m, mk_baseIfIdx m).
Definition vif_keys (v : DML_VIRTUAL_IFACE) :=
  (v_VirIfIdx v, v_baseIfIdx v,
   vlan_keys <$> vlan_InterfaceList (v_VLAN v), marking_keys <$> vlan_VirtMarking (v_VLAN v)).
Definition iface_keys (I : DML_WAN_IFACE) :=
  (if_uiIfaceIdx I, if_NoOfVirtIfs I, vif_keys <$> if_VirtIfList I,
   (sel_Status (if_Selection I), sel_Group (if_Selection I))).
Definition group_keys (G : WANMGR_IFACE_GROUP) := (g_groupIdx G, g_SelectedInterface G).
Definition dm_view {C} (s : St C) := (iface_keys <$> ifaces s, group_keys <$> groups s, counts s).

(** The rows carry their own numbers: an interface and a group its index, a
    virtual interface the index of its interface, a row of one of its tables both
    and a number the table has. *)
Definition row_keyed (i : nat) (n : Z) (k : Z * Z * Z) : Prop := k.2 = Z.of_nat i /\ k.1.2 = n.
Definition vif_keyed (i : nat) (v : DML_VIRTUAL_IFACE) : Prop :=
  v_baseIfIdx v = Z.of_nat i
  /\ (NoDup (vt_Index <$> vlan_InterfaceList (v_VLAN v))
       /\ Forall (row_keyed i (v_VirIfIdx v)) (vlan_keys <$> vlan_InterfaceList (v_VLAN v)))
  /\ NoDup (mk_VirtMarkingInstanceNumber <$> vlan_VirtMarking (v_VLAN v))
       /\ Forall (row_keyed i (v_VirIfIdx v)) (marking_keys <$> vlan_VirtMarking (v_VLAN v)).
Definition iface_keyed (i : nat) (I : DML_WAN_IFACE) : Prop :=
  if_uiIfaceIdx I = Z.of_nat i /\ NoDup (v_VirIfIdx <$> if_VirtIfList I)
  /\ Forall (vif_keyed i) (if_VirtIfList I).
Definition keyed {C} (s : St C) : Prop :=
  (forall i I, Z.of_nat i < nifaces s -> ifaces s !! i = Some I -> iface_keyed i I)
  /\ forall g G, Z.of_nat g < ngroups s -> groups s !! g = Some G -> g_groupIdx G = Z.of_nat g.

(** The same as a test, for concrete data bases. *)
Definition row_keyedb (i : nat) (n : Z) (k : Z * Z * Z) : bool := (k.2 =? Z.of_nat i) && (k.1.2 =? n).
Definition vif_keyedb (i : nat) (v : DML_VIRTUAL_IFACE) : bool :=
  let rows l := forallb (row_keyedb i (v_VirIfIdx v)) l in
  (v_baseIfIdx v =? Z.of_nat i)
  && (bool_decide (NoDup (vt_Index <$> vlan_InterfaceList (v_VLAN v))) && rows (vlan_keys <$> vlan_InterfaceList (v_VLAN v)))
  && (bool_decide (NoDup (mk_VirtMarkingInstanceNumber <$> vlan_VirtMarking (v_VLAN v)))
      && rows (marking_keys <$> vlan_VirtMarking (v_VLAN v))).
Definition iface_keyedb (i : nat) (I : DML_WAN_IFACE) : bool :=
  (if_uiIfaceIdx I =? Z.of_nat i) && (bool_decide (NoDup (v_VirIfIdx <$> if_VirtIfList I))
  && forallb (vif_keyedb i) (if_VirtIfList I)).
Definition keyedb {C} (s : St C) : bool :=
  forallb (fun x => iface_keyedb x.1 x.2) (imap pair (take (Z.to_nat (nifaces s)) (ifaces s)))
  && forallb (fun x => g_groupIdx x.2 =? Z.of_nat x.1) (imap pair (groups s)).

Lemma forallb_Forall {A} (p : A -> bool) (P : A -> Prop) l :
  (forall x, p x = true -> P x) -> forallb p l = true -> Forall P l.
Proof. intros HP. rewrite forallb_forall, Forall_forall. intros Hl x Hx. by apply HP, Hl, list_elem_of_In. Qed.
Lemma row_keyedb_keyed i n k : row_keyedb i n k = true -> row_keyed i n k.
Proof. unfold row_keyedb, row_keyed. rewrite andb_true_iff, !Z.eqb_eq. done. Qed.
Lemma vif_keyedb_keyed i v : vif_keyedb i v = true -> vif_keyed i v.
Proof.
  unfold vif_keyedb, vif_keyed. rewrite !andb_true_iff, Z.eqb_eq, !bool_decide_eq_true.
  intros ((E & Hn & Hr) & Hm & Hs). split; [exact E|].
  split; (split; [assumption | eapply forallb_Forall; [apply row_keyedb_keyed | assumption]]).
Qed.
Lemma iface_keyedb_keyed i I : iface_keyedb i I = true -> iface_keyed i I.
Proof.
  unfold iface_keyedb, iface_keyed. rewrite !andb_true_iff, Z.eqb_eq, bool_decide_eq_true. intros (E & Hn & Hv).
  split; [exact E|]. split; [exact Hn|]. eapply forallb_Forall; [apply vif_keyedb_keyed | exact Hv].
Qed.
Lemma keyedb_keyed {C} (s : St C) : keyedb s = true -> keyed s.
Proof.
  unfold keyedb. rewrite andb_true_iff, !forallb_forall. intros [HI HG]. split.
  - intros i I Hlt Hi. apply iface_keyedb_keyed, (HI (i, I)). apply list_elem_of_In, (list_elem_of_lookup_2 _ i).
    rewrite list_lookup_imap, lookup_take_lt by lia. by rewrite Hi.
  - intros g G _ Hg. apply Z.eqb_eq, (HG (g, G)). apply list_elem_of_In, (list_elem_of_lookup_2 _ g).
    by rewrite list_lookup_imap, Hg.
Qed.

(** The same, of the keys. *)
Definition keys_ok (i : nat) (k : Z * Z * list (Z * Z * Z) * list (Z * Z * Z)) : Prop :=
  k.1.1.2 = Z.of_nat i
  /\ (NoDup ((fun r => r.1.1) <$> k.1.2) /\ Forall (row_keyed i k.1.1.1) k.1.2)
  /\ NoDup ((fun r => r.1.1) <$> k.2) /\ Forall (row_keyed i k.1.1.1) k.2.
Lemma vif_keyed_keys i v : vif_keyed i v <-> keys_ok i (vif_keys v).
Proof. unfold vif_keyed, keys_ok, vif_keys. simpl. by rewrite <- !list_fmap_compose. Qed.
Lemma vifs_keyed_keys i l : Forall (vif_keyed i) l <-> Forall (keys_ok i) (vif_keys <$> l).
Proof. rewrite Forall_fmap. apply Forall_iff. intros v. apply vif_keyed_keys. Qed.
Lemma vif_numbers (l : list DML_VIRTUAL_IFACE) : v_VirIfIdx <$> l = (fun k => k.1.1.1) <$> (vif_keys <$> l).
Proof. rewrite <- list_fmap_compose. done. Qed.

Lemma iface_keyed_view i I J : iface_keys I = iface_keys J -> iface_keyed i J -> iface_keyed i I.
Proof.
  intros E (H1 & H2 & H3). split; [|split].
  - transitivity (if_uiIfaceIdx J); [exact (f_equal (fun x => x.1.1.1) E) | exact H1].
  - rewrite vif_numbers in *. assert (vif_keys <$> if_VirtIfList I = vif_keys <$> if_VirtIfList J) as ->
      by exact (f_equal (fun x => x.1.2) E). exact H2.
  - rewrite vifs_keyed_keys in *. assert (vif_keys <$> if_VirtIfList I = vif_keys <$> if_VirtIfList J) as ->
      by exact (f_equal (fun x => x.1.2) E). exact H3.
Qed.
Lemma keyed_view {C D} (s : St C) (s' : St D) : dm_view s' = dm_view s -> keyed s -> keyed s'.
Proof.
  intros E [HI HG].
  assert (iface_keys <$> ifaces s' = iface_keys <$> ifaces s) as Ei by exact (f_equal (fun x => x.1.1) E).
  assert (group_keys <$> groups s' = group_keys <$> groups s) as Eg by exact (f_equal (fun x => x.1.2) E).
  assert (nifaces s' = nifaces s) as En by exact (f_equal (fun x => x.2.1) E).
  assert (ngroups s' = ngroups s) as Em by exact (f_equal (fun x => x.2.2) E).
  split.
  - intros i I Hlt Hi. rewrite En in Hlt. apply (f_equal (fun l => l !! i)) in Ei. rewrite !list_lookup_fmap, Hi in Ei.
    destruct (ifaces s !! i) as [J|] eqn:EJ; [|done]. injection Ei as E1 E2 E3 E4 E5.
    apply (iface_keyed_view i I J); [unfold iface_keys; congruence | by apply HI].
  - intros g G Hlt Hg. rewrite Em in Hlt. apply (f_equal (fun l => l !! g)) in Eg. rewrite !list_lookup_fmap, Hg in Eg.
    destruct (groups s !! g) as [G'|] eqn:EG; [|done]. injection Eg as E1 E2. rewrite E1. by apply HG.
Qed.
Lemma shape_view {C D} (s : St C) (s' : St D) : dm_view s' = dm_view s -> shape_of (db s') = shape_of (db s).
Proof.
  intros E.
  assert (iface_keys <$> ifaces s' = iface_keys <$> ifaces s) as Ei by exact (f_equal (fun x => x.1.1) E).
  assert (group_keys <$> groups s' = group_keys <$> groups s) as Eg by exact (f_equal (fun x => x.1.2) E).
  assert (counts s' = counts s) as Ec by exact (f_equal snd E).
  assert (vifs_of <$> ifaces s' = vifs_of <$> ifaces s) as Ev.
  { assert (forall l : list DML_WAN_IFACE, vifs_of <$> l = (fun k => (k.1.1.2, (fun x => x.1.1.1) <$> k.1.2)) <$> (iface_keys <$> l)) as Hl.
    { intros l. rewrite <- list_fmap_compose. apply list_fmap_ext. intros _ I _. unfold vifs_of, iface_keys. simpl.
      by rewrite vif_numbers. }
    by rewrite !Hl, Ei. }
  assert (length (groups s') = length (groups s)) as El
    by (rewrite <- (length_fmap group_keys (groups s')), Eg; apply length_fmap).
  exact (f_equal4 (fun a b c d => (a, b, c, d)) (f_equal fst Ec) (f_equal snd Ec) Ev El).
Qed.

(** * What a write leaves *)

Section Writes.
Context {C : Type}.

Lemma view_alter {A B} (f : A -> B) g i (l : list A) : (forall x, f (g x) = f x) -> f <$> alter g i l = f <$> l.
Proof.
  intros Hf. apply list_eq. intros j. rewrite !list_lookup_fmap, list_lookup_alter.
  destruct (decide _) as [->|]; [|done]. destruct (l !! j); simpl; [by rewrite Hf | done].
Qed.
Lemma keeps_dm_iface i f : (forall I, iface_keys (f I) = iface_keys I) -> Keeps (dm_view (C := C)) (upd_iface i f).
Proof.
  intros Hf. apply keeps_bind; [apply keeps_get_iface | intros _]. apply keeps_modify. intros s.
  exact (f_equal (fun x => (x, group_keys <$> groups s, counts s)) (view_alter iface_keys f i (ifaces s) Hf)).
Qed.
Lemma keeps_dm_group g f : (forall G, group_keys (f G) = group_keys G) -> Keeps (dm_view (C := C)) (upd_group g f).
Proof.
  intros Hf. apply keeps_bind; [apply keeps_get_group | intros _]. apply keeps_modify. intros s.
  exact (f_equal (fun x => (iface_keys <$> ifaces s, x, counts s)) (view_alter group_keys f g (groups s) Hf)).
Qed.
Lemma keeps_dm_vif p f : (forall v, vif_keys (f v) = vif_keys v) -> Keeps (dm_view (C := C)) (upd_vif p f).
Proof.
  intros Hf. apply keeps_bind; [apply keeps_get_vif | intros _]. apply keeps_dm_iface. intros I.
  exact (f_equal (fun x => (if_uiIfaceIdx I, if_NoOfVirtIfs I, x, (sel_Status (if_Selection I), sel_Group (if_Selection I))))
    (view_alter vif_keys f p.2 (if_VirtIfList I) Hf)).
Qed.
Lemma keeps_dm_vlan p f :
  (forall t, vlan_keys (f t) = vlan_keys t) ->
  Keeps (dm_view (C := C)) (upd_vlan p f).
Proof.
  intros Hf. apply keeps_bind.
  - apply keeps_bind; [apply keeps_get_vif | intros v; apply keeps_deref].
  - intros _. apply keeps_dm_vif. intros v. unfold vif_keys. rsimpl.
    by rewrite (view_alter vlan_keys f p.2 _ Hf).
Qed.
Lemma keeps_dm_marking p f :
  (forall m, marking_keys (f m) = marking_keys m) ->
  Keeps (dm_view (C := C)) (upd_marking p f).
Proof.
  intros Hf. apply keeps_bind.
  - apply keeps_bind; [apply keeps_get_vif | intros v; apply keeps_deref].
  - intros _. apply keeps_dm_vif. intros v. unfold vif_keys. rsimpl.
    by rewrite (view_alter marking_keys f p.2 _ Hf).
Qed.
End Writes.
#[export] Hint Extern 1 (Keeps dm_view (upd_iface _ _)) => (apply keeps_dm_iface; intros; reflexivity) : keeps.
#[export] Hint Extern 1 (Keeps dm_view (upd_group _ _)) => (apply keeps_dm_group; intros; reflexivity) : keeps.
#[export] Hint Extern 1 (Keeps dm_view (upd_vif _ _)) => (apply keeps_dm_vif; intros; reflexivity) : keeps.
#[export] Hint Extern 1 (Keeps dm_view (upd_vlan _ _)) => (apply keeps_dm_vlan; intros; reflexivity) : keeps.
#[export] Hint Extern 1 (Keeps dm_view (upd_marking _ _)) => (apply keeps_dm_marking; intros; reflexivity) : keeps.

(** * The rows of a request *)

Section Rows.
Context {C : Type}.
Implicit Type s : St C.

(** A row of the tables: its handle is the index of something that is there. *)
Definition entry_in s (i : nat) : Prop := Z.of_nat i < nifaces s.
Definition vif_in s (p : vif_ptr) : Prop :=
  entry_in s p.1 /\ exists I, ifaces s !! (p.1 : nat) = Some I /\ (p.2 < length (if_VirtIfList I))%nat.
Definition vlan_in s (p : vif_ptr * nat) : Prop :=
  entry_in s p.1.1 /\ exists I v t, ifaces s !! p.1.1 = Some I /\ if_VirtIfList I !! p.1.2 = Some v
    /\ vlan_InterfaceList (v_VLAN v) !! p.2 = Some t.
Definition marking_in s (p : vif_ptr * nat) : Prop :=
  entry_in s p.1.1 /\ exists I v m, ifaces s !! p.1.1 = Some I /\ if_VirtIfList I !! p.1.2 = Some v
    /\ vlan_VirtMarking (v_VLAN v) !! p.2 = Some m.
Definition group_in s (g : nat) : Prop := Z.of_nat g < ngroups s.

(** The search by the number an element has finds it, when the numbers differ. *)
Lemma search_number {A} (f : A -> Z) (l : list A) k x :
  NoDup (f <$> l) -> l !! k = Some x -> list_search (fun y => f y =? f x) l = Some k.
Proof.
  intros Hnd Hx. apply list_search_Some. split; [exists x; split; [done | apply Z.eqb_refl]|].
  intros j y Hj Hy. apply Z.eqb_neq. intros E. enough (j = k) by lia.
  eapply (NoDup_lookup _ j k (f x) Hnd); rewrite list_lookup_fmap; [by rewrite Hy; simpl; rewrite E | by rewrite Hx].
Qed.

Lemma entry_lookup s i : db_wf (db s) -> entry_in s i -> exists I, ifaces s !! i = Some I.
Proof.
  intros (Hn & _) Hi. rewrite length_fmap in Hn. unfold entry_in, nifaces in Hi.
  apply (lookup_lt_is_Some_2 (ifaces s)). unfold ifaces. lia.
Qed.
Lemma entry_ok s i : db_wf (db s) -> entry_in s i -> iface_ok s (Z.of_nat i) = true.
Proof. intros Hwf Hi. apply iface_ok_in; [done|]. unfold entry_in, nifaces in Hi. lia. Qed.
Lemma vif_lookup s p : vif_in s p -> exists I v, ifaces s !! (p.1 : nat) = Some I /\ if_VirtIfList I !! p.2 = Some v.
Proof. intros (_ & I & HI & [v Hv]%lookup_lt_is_Some_2). by exists I, v. Qed.
Lemma get_vif_at s p I v :
  ifaces s !! p.1 = Some I -> if_VirtIfList I !! p.2 = Some v -> get_vif p s = Some (v, s).
Proof. intros HI Hv. unfold get_vif, bind. rewrite get_iface_run, HI. simpl. unfold deref. by rewrite Hv. Qed.

(** The interface of a handle is that of the handle. *)
Lemma with_entry_eq {A} (none : A) (i : nat) (body : iface_ptr -> M (St C) A) s :
  db_wf (db s) -> keyed s -> entry_in s i -> with_entry none (Some i) body s = guarded true none (body i) s.
Proof.
  intros Hwf [HK _] Hi. destruct (entry_lookup s i Hwf Hi) as [I HI].
  unfold with_entry, bind at 1. rewrite get_iface_run, HI. simpl.
  destruct (HK i I Hi HI) as [-> _]. by rewrite with_iface_eq, entry_ok, Nat2Z.id.
Qed.
Lemma entry_locked_run s i :
  db_wf (db s) -> entry_in s i -> WanMgr_GetIfaceData_locked (Z.of_nat i) s = Some (Some i, locked s).
Proof.
  intros Hwf Hi. unfold WanMgr_GetIfaceData_locked.
  set (L := pthread_mutex_lock). unfold pIface_set, bind, get_db, gets, ret. cbn iota beta.
  change (L s) with (Some (tt, locked s)). cbn iota beta.
  change (w_ulTotalNumbWanInterfaces (db (locked s))) with (w_ulTotalNumbWanInterfaces (db s)).
  change (w_pIface (db (locked s))) with (ifaces s).
  assert ((Z.of_nat i <? w_ulTotalNumbWanInterfaces (db s)) && match ifaces s with [] => false | _ => true end = true)
    as -> by exact (entry_ok s i Hwf Hi). by rewrite Nat2Z.id.
Qed.
(** What the searches find, the mutex taken. *)
Lemma find_vif_run s p I v :
  db_wf (db s) -> entry_in s p.1 -> iface_keyed p.1 I -> ifaces s !! (p.1 : nat) = Some I ->
  if_VirtIfList I !! p.2 = Some v ->
  WanMgr_getVirtualIface_locked (Z.of_nat p.1) (v_VirIfIdx v) s = Some (Some p, locked s).
Proof.
  intros Hwf Hi (_ & Hnd & _) HI Hv. unfold WanMgr_getVirtualIface_locked, bind. rewrite (entry_locked_run s _ Hwf Hi).
  rewrite get_iface_run. change (ifaces (locked s)) with (ifaces s). rewrite HI. cbn [fmap option_fmap option_map].
  assert (WanMgr_getVirtualIfaceById (if_VirtIfList I) (v_VirIfIdx v) = Some p.2) as ->
    by exact (search_number v_VirIfIdx _ _ v Hnd Hv).
  cbn [fmap option_fmap option_map]. by rewrite <- surjective_pairing.
Qed.
Lemma find_vlan_run s (p : vif_ptr * nat) I v t :
  db_wf (db s) -> entry_in s p.1.1 -> iface_keyed p.1.1 I -> ifaces s !! (p.1.1 : nat) = Some I ->
  if_VirtIfList I !! p.1.2 = Some v -> vlan_InterfaceList (v_VLAN v) !! p.2 = Some t ->
  WanMgr_getVlanIface_locked (Z.of_nat p.1.1) (v_VirIfIdx v) (vt_Index t) s = Some (Some p, locked s).
Proof.
  intros Hwf Hi (_ & Hnd & Hvs) HI Hv Ht. destruct (Forall_lookup_1 _ _ _ _ Hvs Hv) as (_ & (Hnt & _) & _).
  unfold WanMgr_getVlanIface_locked, bind. rewrite (entry_locked_run s _ Hwf Hi).
  rewrite get_iface_run. change (ifaces (locked s)) with (ifaces s). rewrite HI. cbn [fmap option_fmap option_map].
  assert (WanMgr_getVirtualIfaceById (if_VirtIfList I) (v_VirIfIdx v) = Some p.1.2) as ->
    by exact (search_number v_VirIfIdx _ _ v Hnd Hv).
  unfold deref, ret. cbn iota beta. erewrite get_vif_at; [|exact HI | exact Hv].
  assert (WanMgr_getVirtVlanIfById (vlan_InterfaceList (v_VLAN v)) (vt_Index t) = Some p.2) as ->
    by exact (search_number vt_Index _ _ t Hnt Ht).
  cbn [fmap option_fmap option_map]. by rewrite <- !surjective_pairing.
Qed.
Lemma find_marking_run s (p : vif_ptr * nat) I v m :
  db_wf (db s) -> entry_in s p.1.1 -> iface_keyed p.1.1 I -> ifaces s !! (p.1.1 : nat) = Some I ->
  if_VirtIfList I !! p.1.2 = Some v -> vlan_VirtMarking (v_VLAN v) !! p.2 = Some m ->
  WanMgr_getVirtualMarking_locked (Z.of_nat p.1.1) (v_VirIfIdx v) (mk_VirtMarkingInstanceNumber m) s
    = Some (Some p, locked s).
Proof.
  intros Hwf Hi (_ & Hnd & Hvs) HI Hv Hm. destruct (Forall_lookup_1 _ _ _ _ Hvs Hv) as (_ & _ & Hnm & _).
  unfold WanMgr_getVirtualMarking_locked, bind. rewrite (entry_locked_run s _ Hwf Hi).
  rewrite get_iface_run. change (ifaces (locked s)) with (ifaces s). rewrite HI. cbn [fmap option_fmap option_map].
  assert (WanMgr_getVirtualIfaceById (if_VirtIfList I) (v_VirIfIdx v) = Some p.1.2) as ->
    by exact (search_number v_VirIfIdx _ _ v Hnd Hv).
  unfold deref, ret. cbn iota beta. erewrite get_vif_at; [|exact HI | exact Hv].
  assert (WanMgr_getVirtMakingById (vlan_VirtMarking (v_VLAN v)) (mk_VirtMarkingInstanceNumber m) = Some p.2) as ->
    by exact (search_number mk_VirtMarkingInstanceNumber _ _ m Hnm Hm).
  cbn [fmap option_fmap option_map]. by rewrite <- !surjective_pairing.
Qed.
(** The section of a row that was found. *)
Lemma section_found {A B} (find : M (St C) (option B)) (none : A) (body : B -> M (St C) A) p s :
  find s = Some (Some p, locked s) ->
  bind find (fun o => match o with
    | Some p => bind (body p) (fun a => bind pthread_mutex_unlock (fun _ => ret a))
    | None => ret none end) s = guarded true none (body p) s.
Proof. intros E. unfold bind, guarded. rewrite E. by destruct (body p (locked s)) as [[a s1]|]. Qed.

Lemma with_vif_eq {A} (none : A) p (body : vif_ptr -> M (St C) A) s :
  db_wf (db s) -> keyed s -> vif_in s p -> with_vif none p body s = guarded true none (body p) s.
Proof.
  intros Hwf [HK _] Hp. destruct (vif_lookup s p Hp) as (I & v & HI & Hv). destruct Hp as [Hi _].
  pose proof (HK _ I Hi HI) as Hk. destruct (Forall_lookup_1 _ _ _ _ (proj2 (proj2 Hk)) Hv) as [Eb _].
  unfold with_vif, bind at 1. rewrite (get_vif_at s p I v HI Hv), Eb. by apply section_found, (find_vif_run s p I).
Qed.
(** The rows of a virtual interface, by their table. *)
Lemma get_vlan_at s (p : vif_ptr * nat) I v t :
  ifaces s !! (p.1.1 : nat) = Some I -> if_VirtIfList I !! p.1.2 = Some v ->
  vlan_InterfaceList (v_VLAN v) !! p.2 = Some t -> get_vlan p s = Some (t, s).
Proof. intros HI Hv Ht. unfold get_vlan, bind. erewrite get_vif_at; [|exact HI | exact Hv]. unfold deref. cbn iota beta. by rewrite Ht. Qed.
Lemma get_marking_at s (p : vif_ptr * nat) I v m :
  ifaces s !! (p.1.1 : nat) = Some I -> if_VirtIfList I !! p.1.2 = Some v ->
  vlan_VirtMarking (v_VLAN v) !! p.2 = Some m -> get_marking p s = Some (m, s).
Proof. intros HI Hv Hm. unfold get_marking, bind. erewrite get_vif_at; [|exact HI | exact Hv]. unfold deref. cbn iota beta. by rewrite Hm. Qed.
Lemma with_vlan_eq {A} (none : A) (p : vif_ptr * nat) (body : vif_ptr * nat -> M (St C) A) s :
  db_wf (db s) -> keyed s -> vlan_in s p -> with_vlan none p body s = guarded true none (body p) s.
Proof.
  intros Hwf [HK _] (Hi & I & v & t & HI & Hv & Ht). pose proof (HK _ I Hi HI) as Hk.
  destruct (Forall_lookup_1 _ _ _ _ (proj2 (proj2 Hk)) Hv) as (_ & (_ & Hrows) & _).
  assert (row_keyed p.1.1 (v_VirIfIdx v) (vlan_keys t)) as [Eb Ev]
    by (eapply (Forall_lookup_1 _ _ p.2); [exact Hrows | by rewrite list_lookup_fmap, Ht]).
  simpl in Eb, Ev. unfold with_vlan, bind at 1. rewrite (get_vlan_at s p I v t HI Hv Ht), Eb, Ev.
  by apply section_found, (find_vlan_run s p I).
Qed.
Lemma with_marking_eq {A} (none : A) (p : vif_ptr * nat) (body : vif_ptr * nat -> M (St C) A) s :
  db_wf (db s) -> keyed s -> marking_in s p -> with_marking none p body s = guarded true none (body p) s.
Proof.
  intros Hwf [HK _] (Hi & I & v & m & HI & Hv & Hm). pose proof (HK _ I Hi HI) as Hk.
  destruct (Forall_lookup_1 _ _ _ _ (proj2 (proj2 Hk)) Hv) as (_ & _ & _ & Hrows).
  assert (row_keyed p.1.1 (v_VirIfIdx v) (marking_keys m)) as [Eb Ev]
    by (eapply (Forall_lookup_1 _ _ p.2); [exact Hrows | by rewrite list_lookup_fmap, Hm]).
  simpl in Eb, Ev. unfold with_marking, bind at 1. rewrite (get_marking_at s p I v m HI Hv Hm), Eb, Ev.
  by apply section_found, (find_marking_run s p I).
Qed.
Lemma with_group_entry_eq {A} (none : A) g (body : nat -> M (St C) A) s :
  db_wf (db s) -> keyed s -> group_in s g -> with_group_entry none g body s = guarded true none (body g) s.
Proof.
  intros Hwf [_ HK] Hg. assert (group_ok s (Z.of_nat g) = true) as Hok.
  { apply group_ok_in; [done|]. unfold group_in, ngroups in Hg. lia. }
  destruct (group_ok_lookup s (Z.of_nat g) Hwf ltac:(lia) Hok) as [G HG]. rewrite Nat2Z.id in HG.
  unfold with_group_entry, get_group, get_db, gets. unfold bind. change (w_Group (db s) !! g) with (groups s !! g).
  rewrite HG. cbn [deref ret]. unfold ret. rewrite (HK g G Hg HG). fold (@ret (St C)). by rewrite with_group_eq, Hok, Nat2Z.id.
Qed.
(** The sections as rules. *)
Lemma wp_guarded {A} (m : M (St C) A) none (body : M (St C) A) Q s :
  m s = guarded true none body s -> wp body (fun a s' => Q a (unlocked s')) (locked s) -> wp m Q s.
Proof. intros E HW. unfold wp. rewrite E. unfold guarded. by apply wp_run in HW as (a & s' & -> & HQ). Qed.
Lemma wp_with_entry {A} (none : A) (i : nat) (body : iface_ptr -> M (St C) A) Q s :
  db_wf (db s) -> keyed s -> entry_in s i ->
  wp (body i) (fun a s' => Q a (unlocked s')) (locked s) -> wp (with_entry none (Some i) body) Q s.
Proof. intros. eapply wp_guarded; [by apply with_entry_eq | done]. Qed.
Lemma wp_with_vif {A} (none : A) p (body : vif_ptr -> M (St C) A) Q s :
  db_wf (db s) -> keyed s -> vif_in s p ->
  wp (body p) (fun a s' => Q a (unlocked s')) (locked s) -> wp (with_vif none p body) Q s.
Proof. intros. eapply wp_guarded; [by apply with_vif_eq | done]. Qed.
End Rows.

(** * Requests that run *)

(** A request on a row ends, moves no row, selects nothing, and gives the mutex
    back. *)
Definition Handled {C A} (s : St C) (m : M (St C) A) : Prop :=
  wp m (fun _ s' => dm_view s' = dm_view s /\ depth s' = depth s) s.

#[export] Hint Unfold set_true psm_set_status : monad.

Section Requests.
Context `{Platform} {C : Type}.
Implicit Type s : St C.
#[local] Instance no_anchor : Anchor C := fun _ => True.
#[local] Abbreviation safe sh m := (Safe (C := C) sh (fun _ => True) m).

Lemma handled_ret {A} (a : A) s : Handled s (ret a).
Proof. by apply wp_ret. Qed.
Lemma handled_safe {A} (m : M (St C) A) s :
  safe (shape_of (db s)) m -> Keeps dm_view m -> Handled s m.
Proof. intros Hm Hk. eapply safe_keeps; [exact Hm | exact Hk | by split|]. by intros a s' _ Hd Hv _. Qed.
Lemma handled_bind {A B} (m : M (St C) A) (k : A -> M (St C) B) s :
  Handled s m -> (forall a s', m s = Some (a, s') -> dm_view s' = dm_view s -> Handled s' (k a)) -> Handled s (bind m k).
Proof.
  intros Hm Hk. apply wp_bind. apply wp_run in Hm as (a & s1 & E & Hv & Hd).
  eapply wp_intro; [exact E|]. eapply wp_mono; [by apply Hk|]. intros b s2 [Hv' Hd']. by rewrite Hv', Hd'.
Qed.
Lemma handled_section {A} (m : M (St C) A) none (body : M (St C) A) s :
  m s = guarded true none body s -> safe (shape_of (db s)) body -> Keeps dm_view body -> Handled s m.
Proof.
  intros E Hb Hk. unfold Handled, wp. rewrite E.
  assert (Handled s (fun s => guarded true none body s)) as HW; [|exact HW].
  apply handled_safe; [apply (safe_guarded (shape_of (db s)) _ (fun _ => true)); [done | by intros _]|].
  apply (keeps_guarded dm_view (fun _ => true)); [typeclasses eauto | exact Hk].
Qed.

Lemma handled_locked {A} (m : M (St C) A) none (body : M (St C) A) s :
  m s = guarded true none body s -> Handled (locked s) body -> Handled s m.
Proof.
  intros E Hb. unfold Handled, wp. rewrite E. unfold guarded. apply wp_run in Hb as (a & s1 & -> & Hv & Hd).
  split; [exact Hv|]. unfold depth, locked, unlocked in *. revert Hd. rsimpl. lia.
Qed.

Section At.
Context (s : St C) (Hwf : db_wf (db s)) (Hkey : keyed s).

Lemma entry_valid i : entry_in s i -> valid_iface (shape_of (db s)) i.
Proof.
  intros Hi. destruct (entry_lookup s i Hwf Hi) as [I HI]. pose proof Hwf as (_ & Hv & _).
  assert ((vifs_of <$> w_pIface (db s)) !! i = Some (vifs_of I)) as E
    by (rewrite list_lookup_fmap; unfold ifaces in HI; by rewrite HI).
  exists (vifs_of I). split; [exact E|]. by apply (Hv i).
Qed.
Lemma vif_valid p : vif_in s p -> valid_vif (shape_of (db s)) p.
Proof.
  intros [Hi (I & HI & Hk)]. destruct (entry_valid _ Hi) as (n & Hn & Hw). exists n. split; [exact Hn|]. split; [exact Hw|].
  rewrite list_lookup_fmap in Hn. unfold ifaces in HI. rewrite HI in Hn. injection Hn as <-.
  unfold vifs_of. simpl. by rewrite length_fmap.
Qed.
Lemma handled_entry {A} (none : A) i (body : iface_ptr -> M (St C) A) :
  entry_in s i ->
  (forall sh, wf_shape sh -> valid_iface sh i -> safe sh (body i)) -> Keeps dm_view (body i) ->
  Handled s (with_entry none (Some i) body).
Proof.
  intros Hi Hb Hk. eapply handled_section; [by apply with_entry_eq | | exact Hk]. apply Hb; [exact Hwf | by apply entry_valid].
Qed.
Lemma handled_vif {A} (none : A) p (body : vif_ptr -> M (St C) A) :
  vif_in s p ->
  (forall sh, wf_shape sh -> valid_vif sh p -> safe sh (body p)) -> Keeps dm_view (body p) ->
  Handled s (with_vif none p body).
Proof.
  intros Hp Hb Hk. eapply handled_section; [by apply with_vif_eq | | exact Hk]. apply Hb; [exact Hwf | by apply vif_valid].
Qed.
Lemma handled_group {A} (none : A) g (body : nat -> M (St C) A) :
  group_in s g ->
  (forall sh, wf_shape sh -> valid_group sh g -> safe sh (body g)) -> Keeps dm_view (body g) ->
  Handled s (with_group_entry none g body).
Proof.
  intros Hg Hb Hk. eapply handled_section; [by apply with_group_entry_eq | | exact Hk]. apply Hb; [exact Hwf|].
  pose proof Hwf as (_ & _ & Hn). unfold group_in, ngroups in Hg. unfold valid_group, shape_of. simpl. lia.
Qed.
End At.
End Requests.
