(* ===== verification/HandlerSafe.v ===== *)
(** Every request of the data model runs to its end on the rows it names: the
    requests as data, the rows each needs, and the proof. *)

From S2P Require Export HandlerFacts.

(** * The requests *)

(** A handler with its arguments; a handle is given by the index of its row. *)
Inductive DmRequest :=
(* CPEInterface *)
| if_count | if_get (nIndex : Z) | if_updated
| if_get_text (h : iface_ptr) (name : string) (size : Z) | if_set_text (h : iface_ptr) (name x : string)
| if_get_bool (h : iface_ptr) (name : string) | if_set_bool (h : iface_ptr) (name : string) (x : bool)
| if_get_num (h : iface_ptr) (name : string) | if_set_num (h : iface_ptr) (name : string) (x : Z)
| if_commit (h : iface_ptr)
(* Selection *)
| sel_get_int (h : iface_ptr) (name : string) | sel_set_int (h : iface_ptr) (name : string) (x : Z)
| sel_get_num (h : iface_ptr) (name : string) | sel_set_num (h : iface_ptr) (name : string) (x : Z)
| sel_get_bool (h : iface_ptr) (name : string) | sel_set_bool (h : iface_ptr) (name : string) (x : bool)
| sel_commit (h : iface_ptr)
(* VirtualInterface *)
| vi_count (h : iface_ptr) | vi_get (h : iface_ptr) (nIndex : Z)
| vi_get_bool (p : vif_ptr) (name : string) | vi_set_bool (p : vif_ptr) (name : string) (x : bool)
| vi_get_text (p : vif_ptr) (name : string) (size : Z) | vi_set_text (p : vif_ptr) (name x : string)
| vi_get_num (p : vif_ptr) (name : string) | vi_set_num (p : vif_ptr) (name : string) (x : Z)
| vi_commit (p : vif_ptr)
| ip_get_num (p : vif_ptr) (name : string) | ip_set_num (p : vif_ptr) (name : string) (x : Z)
| ip_get_text (p : vif_ptr) (name : string) (size : Z) | ip_set_text (p : vif_ptr) (name x : string)
| map_get_num (p : vif_ptr) (name : string) | map_set_num (p : vif_ptr) (name : string) (x : Z)
| map_get_text (p : vif_ptr) (name : string) (size : Z) | map_set_text (p : vif_ptr) (name x : string)
| dsl_get_num (p : vif_ptr) (name : string) | dsl_set_num (p : vif_ptr) (name : string) (x : Z)
| dsl_get_text (p : vif_ptr) (name : string) (size : Z) | dsl_set_text (p : vif_ptr) (name x : string)
| ppp_get_num (p : vif_ptr) (name : string) | ppp_set_num (p : vif_ptr) (name : string) (x : Z)
| ppp_get_text (p : vif_ptr) (name : string) (size : Z) | ppp_set_text (p : vif_ptr) (name x : string)
(* VLAN and markings *)
| vlan_count (p : vif_ptr) | vlan_get (p : vif_ptr) (nIndex : Z)
| vlan_get_text (p : vif_ptr * nat) (name : string) (size : Z) | vlan_set_text (p : vif_ptr * nat) (name x : string)
| vlan_commit (p : vif_ptr * nat)
| mark_count (p : vif_ptr) | mark_get (p : vif_ptr) (nIndex : Z)
| mark_get_int (p : vif_ptr * nat) (name : string) | mark_set_int (p : vif_ptr * nat) (name : string) (x : Z)
| mark_commit (p : vif_ptr * nat)
(* X_RDK_WanManager *)
| wm_get_num (name : string) | wm_set_num (name : string) (x : Z)
| wm_get_bool (name : string) | wm_set_bool (name : string) (x : bool)
| gr_count | gr_get (nIndex : Z)
| gr_get_bool (g : nat) (name : string) | gr_set_bool (g : nat) (name : string) (x : bool)
| gr_get_num (g : nat) (name : string) | gr_set_num (g : nat) (name : string) (x : Z)
| dns_get (name : string) | dns_set (name : string) (x : bool).

Section Run.
Context `{Platform} `{Build} `{HA : AutoBuild} `{HI : IfaceBuild} `{DmBuild} {C : Type}.
#[local] Abbreviation M := (Prelude.M (St C)).

Definition no_result {A} (m : M A) : M unit := m ;; ret tt.
Definition dm_run (r : DmRequest) : M unit :=
  match r with
  | if_count => no_result WanIf_GetEntryCount
  | if_get n => no_result (WanIf_GetEntry n)
  | if_updated => no_result WanIf_IsUpdated
  | if_get_text h name z => no_result (WanIf_GetParamStringValue (Some h) name z)
  | if_set_text h name x => no_result (WanIf_SetParamStringValue (Some h) name x)
  | if_get_bool h name => no_result (WanIf_GetParamBoolValue (Some h) name)
  | if_set_bool h name x => no_result (WanIf_SetParamBoolValue (Some h) name x)
  | if_get_num h name => no_result (WanIf_GetParamUlongValue (Some h) name)
  | if_set_num h name x => no_result (WanIf_SetParamUlongValue (Some h) name x)
  | if_commit h => no_result (WanIf_Commit (Some h))
  | sel_get_int h name => no_result (WanIfSelectionCfg_GetParamIntValue (Some h) name)
  | sel_set_int h name x => no_result (WanIfSelectionCfg_SetParamIntValue (Some h) name x)
  | sel_get_num h name => no_result (WanIfSelectionCfg_GetParamUlongValue (Some h) name)
  | sel_set_num h name x => no_result (WanIfSelectionCfg_SetParamUlongValue (Some h) name x)
  | sel_get_bool h name => no_result (WanIfSelectionCfg_GetParamBoolValue (Some h) name)
  | sel_set_bool h name x => no_result (WanIfSelectionCfg_SetParamBoolValue (Some h) name x)
  | sel_commit h => no_result (WanIfSelectionCfg_Commit (Some h))
  | vi_count h => no_result (WanVirtualIf_GetEntryCount (Some h))
  | vi_get h n => no_result (WanVirtualIf_GetEntry (Some h) n)
  | vi_get_bool p name => no_result (WanVirtualIf_GetParamBoolValue p name)
  | vi_set_bool p name x => no_result (WanVirtualIf_SetParamBoolValue p name x)
  | vi_get_text p name z => no_result (WanVirtualIf_GetParamStringValue p name z)
  | vi_set_text p name x => no_result (WanVirtualIf_SetParamStringValue p name x)
  | vi_get_num p name => no_result (WanVirtualIf_GetParamUlongValue p name)
  | vi_set_num p name x => no_result (WanVirtualIf_SetParamUlongValue p name x)
  | vi_commit p => no_result (commit_virtual p)
  | ip_get_num p name => no_result (WanIfIpCfg_GetParamUlongValue p name)
  | ip_set_num p name x => no_result (WanIfIpCfg_SetParamUlongValue p name x)
  | ip_get_text p name z => no_result (WanIfIpCfg_GetParamStringValue p name z)
  | ip_set_text p name x => no_result (WanIfIpCfg_SetParamStringValue p name x)
  | map_get_num p name => no_result (WanIfMapt_GetParamUlongValue p name)
  | map_set_num p name x => no_result (WanIfMapt_SetParamUlongValue p name x)
  | map_get_text p name z => no_result (WanIfMapt_GetParamStringValue p name z)
  | map_set_text p name x => no_result (WanIfMapt_SetParamStringValue p name x)
  | dsl_get_num p name => no_result (WanIfDSLite_GetParamUlongValue p name)
  | dsl_set_num p name x => no_result (WanIfDSLite_SetParamUlongValue p name x)
  | dsl_get_text p name z => no_result (WanIfDSLite_GetParamStringValue p name z)
  | dsl_set_text p name x => no_result (WanIfDSLite_SetParamStringValue p name x)
  | ppp_get_num p name => no_result (WanIfPPPCfg_GetParamUlongValue p name)
  | ppp_set_num p name x => no_result (WanIfPPPCfg_SetParamUlongValue p name x)
  | ppp_get_text p name z => no_result (WanIfPPPCfg_GetParamStringValue p name z)
  | ppp_set_text p name x => no_result (WanIfPPPCfg_SetParamStringValue p name x)
  | vlan_count p => no_result (WanIfVlanCfg_GetEntryCount p)
  | vlan_get p n => no_result (WanIfVlanCfg_GetEntry p n)
  | vlan_get_text p name z => no_result (WanIfVlanCfg_GetParamStringValue p name z)
  | vlan_set_text p name x => no_result (WanIfVlanCfg_SetParamStringValue p name x)
  | vlan_commit p => no_result (WanIfVlanCfg_Commit p)
  | mark_count p => no_result (WanIfVlanMarking_GetEntryCount p)
  | mark_get p n => no_result (WanIfVlanMarking_GetEntry p n)
  | mark_get_int p name => no_result (WanIfVlanMarking_GetParamIntValue p name)
  | mark_set_int p name x => no_result (WanIfVlanMarking_SetParamIntValue p name x)
  | mark_commit p => no_result (WanIfVlanMarking_Commit p)
  | wm_get_num name => no_result (WanManager_GetParamUlongValue name)
  | wm_set_num name x => no_result (WanManager_SetParamUlongValue name x)
  | wm_get_bool name => no_result (WanManager_GetParamBoolValue name)
  | wm_set_bool name x => no_result (WanManager_SetParamBoolValue name x)
  | gr_count => no_result WanManagerGroup_GetEntryCount
  | gr_get n => no_result (WanManagerGroup_GetEntry n)
  | gr_get_bool g name => no_result (WanManagerGroup_GetParamBoolValue g name)
  | gr_set_bool g name x => no_result (WanManagerGroup_SetParamBoolValue g name x)
  | gr_get_num g name => no_result (WanManagerGroup_GetParamUlongValue g name)
  | gr_set_num g name x => no_result (WanManagerGroup_SetParamUlongValue g name x)
  | dns_get name => no_result (WanMgr_DnsConnectivityCheck_GetParamBoolValue name)
  | dns_set name x => no_result (WanMgr_DnsConnectivityCheck_SetParamBoolValue name x)
  end.

(** The rows a request needs.  [GetEntry] of a virtual interface or of its tables
    needs the row to be there; an interface changes its group only when the group
    is not one of the configured ones, in which case nothing is done. *)
Definition dm_sound (s : St C) (r : DmRequest) : Prop :=
  match r with
  | if_count | if_get _ | if_updated | wm_get_num _ | wm_set_num _ _ | wm_get_bool _ | wm_set_bool _ _
  | gr_count | gr_get _ | dns_get _ | dns_set _ _ => True
  | if_get_text h _ _ | if_set_text h _ _ | if_get_bool h _ | if_set_bool h _ _ | if_get_num h _ | if_set_num h _ _
  | if_commit h | sel_get_int h _ | sel_set_int h _ _ | sel_get_num h _ | sel_get_bool h _ | sel_set_bool h _ _
  | sel_commit h | vi_count h => entry_in s h
  | sel_set_num h name x => entry_in s h /\ (name = "Group" -> MAX_INTERFACE_GROUP < x)
  | vi_get h n => entry_in s h /\ exists k I v, ifaces s !! (h : nat) = Some I
      /\ if_VirtIfList I !! k = Some v /\ v_VirIfIdx v = u32 n
  | vi_get_bool p _ | vi_set_bool p _ _ | vi_get_text p _ _ | vi_set_text p _ _ | vi_get_num p _ | vi_set_num p _ _
  | vi_commit p | ip_get_num p _ | ip_set_num p _ _ | ip_get_text p _ _ | ip_set_text p _ _ | map_get_num p _
  | map_set_num p _ _ | map_get_text p _ _ | map_set_text p _ _ | dsl_get_num p _ | dsl_set_num p _ _
  | dsl_get_text p _ _ | dsl_set_text p _ _ | ppp_get_num p _ | ppp_set_num p _ _ | ppp_get_text p _ _
  | ppp_set_text p _ _ | vlan_count p | mark_count p => vif_in s p
  | vlan_get p n => exists k I v t, vlan_in s (p, k) /\ ifaces s !! (p.1 : nat) = Some I
      /\ if_VirtIfList I !! p.2 = Some v /\ vlan_InterfaceList (v_VLAN v) !! k = Some t /\ vt_Index t = u32 n
  | vlan_get_text p _ _ | vlan_set_text p _ _ | vlan_commit p => vlan_in s p
  | mark_get p n => exists k I v m, marking_in s (p, k) /\ ifaces s !! (p.1 : nat) = Some I
      /\ if_VirtIfList I !! p.2 = Some v /\ vlan_VirtMarking (v_VLAN v) !! k = Some m
      /\ mk_VirtMarkingInstanceNumber m = u32 n
  | mark_get_int p _ | mark_set_int p _ _ | mark_commit p => marking_in s p
  | gr_get_bool g _ | gr_set_bool g _ _ | gr_get_num g _ | gr_set_num g _ _ => group_in s g
  end.
End Run.

(** * Each object *)

#[local] Hint Extern 1 (Safe _ _ (upd_vif (_, 0%nat) _)) =>
  (apply safe_upd_vif; [by apply valid_first_vif | intros; reflexivity]) : safe.

Section Objects.
Context `{Platform} `{Build} `{HA : AutoBuild} `{HI : IfaceBuild} `{DmBuild} {C : Type}.
Context (s : St C) (Hwf : db_wf (db s)) (Hkey : keyed s).
#[local] Instance dm_anchor : Anchor C := fun _ => True.

Lemma handled_done {A} (m : M (St C) A) : Handled s m -> Handled s (no_result m).
Proof. intros Hm. apply handled_bind; [exact Hm | intros a s' _ _; apply handled_ret]. Qed.

(** ** What the bodies call *)

Lemma safe_set_restart_info sh f i x : Safe (C := C) sh (fun _ => True) (set_restart_info f i x).
Proof. unfold set_restart_info, WanMgr_SetRestartWanInfo. safe_tac. Qed.
Lemma keeps_set_restart_info f i x : Keeps (dm_view (C := C)) (set_restart_info f i x).
Proof. unfold set_restart_info, WanMgr_SetRestartWanInfo. keeps_tac. Qed.
Lemma safe_set_check_psm sh v t : Safe (C := C) sh (fun _ => True) (WanMgr_SetConnectivityCheckTypeToPSM v t).
Proof. unfold WanMgr_SetConnectivityCheckTypeToPSM. safe_tac. Qed.
Lemma keeps_set_check_psm v t : Keeps (dm_view (C := C)) (WanMgr_SetConnectivityCheckTypeToPSM v t).
Proof. unfold WanMgr_SetConnectivityCheckTypeToPSM. keeps_tac. Qed.
Lemma safe_write_vif sh a b v : Safe (C := C) sh (fun _ => True) (write_Virtual_Interface_ToPSM a b v).
Proof. unfold write_Virtual_Interface_ToPSM, psm_set. safe_tac. Qed.
Lemma keeps_write_vif a b v : Keeps (dm_view (C := C)) (write_Virtual_Interface_ToPSM a b v).
Proof. unfold write_Virtual_Interface_ToPSM, psm_set. keeps_tac. Qed.
#[local] Hint Resolve safe_set_restart_info keeps_set_restart_info safe_set_check_psm keeps_set_check_psm
  safe_write_vif keeps_write_vif : safe keeps.
Lemma safe_commit_iface sh i n I : iface_in sh i I -> Safe (C := C) sh (fun _ => True) (DmlSetWanIfCfg n I).
Proof.
  intros HI0. unfold DmlSetWanIfCfg.
  apply safe_bind_any; [unfold write_Wan_Interface_ParametersFromPSM, psm_set; safe_tac | intros r].
  apply safe_bind_any; [|intros _; safe_tac]. apply safe_for_each. intros k Hk.
  eapply safe_deref_vif; [exact HI0 | by eapply iface_in_range|]. intros j (l & Hl & _ & Hj).
  destruct HI0 as [HI0 _]. simpl in *. rewrite HI0 in Hl. injection Hl as <-.
  unfold vifs_of in Hj. simpl in Hj. rewrite length_fmap in Hj. apply lookup_lt_is_Some_2 in Hj as [v ->].
  apply safe_bind_any; [by apply safe_ret | intros w; apply safe_write_vif].
Qed.
Lemma keeps_commit_iface n I : Keeps (dm_view (C := C)) (DmlSetWanIfCfg n I).
Proof. unfold DmlSetWanIfCfg, write_Wan_Interface_ParametersFromPSM, psm_set. keeps_tac. Qed.
#[local] Hint Resolve keeps_commit_iface : keeps.
#[local] Hint Extern 1 (Safe _ _ (DmlSetWanIfCfg _ _)) => (eapply safe_commit_iface; eassumption) : safe.
Lemma safe_reset_of_any sh i I :
  valid_iface sh i -> iface_in sh i I -> Safe (C := C) sh (fun _ => True) (reset_of_any i I).
Proof.
  intros Hv HI0. unfold reset_of_any. apply safe_bind_any; [|intros r; destruct r; by apply safe_ret].
  apply safe_for_break. intros k Hk. eapply safe_deref_vif; [exact HI0 | by eapply iface_in_range|]. intros j Hj. safe_tac.
Qed.
Lemma keeps_reset_of_any i I : Keeps (dm_view (C := C)) (reset_of_any i I).
Proof. unfold reset_of_any. keeps_tac. Qed.
Lemma safe_reset_all sh i b : valid_iface sh i -> Safe (C := C) sh (fun _ => True) (reset_all i b).
Proof.
  intros Hv. unfold reset_all. eapply safe_bind; [by apply safe_get_iface | intros I HI0].
  apply safe_for_each. intros k Hk. eapply safe_bind; [by apply safe_get_iface | intros J HJ].
  eapply safe_deref_vif; [exact HJ | exact (iface_in_range _ i I J k HI0 HJ Hk)|]. intros j Hj. safe_tac.
Qed.
Lemma keeps_reset_all i b : Keeps (dm_view (C := C)) (reset_all i b).
Proof. unfold reset_all. keeps_tac. Qed.
#[local] Hint Resolve safe_reset_of_any keeps_reset_of_any safe_reset_all keeps_reset_all : safe keeps.
#[local] Hint Unfold set_health_check commit_virtual value no_value : monad.

Ltac entry_tac := apply handled_entry; [assumption.. | intros sh Hsh Hv; safe_tac | keeps_tac].
Ltac vif_tac := apply handled_vif; [assumption.. | intros sh Hsh Hv; safe_tac | keeps_tac].

(** ** The interfaces *)

Lemma handled_iface_reads h :
  entry_in s h ->
  (forall name z, Handled s (WanIf_GetParamStringValue (Some h) name z))
  /\ (forall name, Handled s (WanIf_GetParamBoolValue (Some h) name))
  /\ (forall name, Handled s (WanIf_GetParamUlongValue (Some h) name))
  /\ (forall name, Handled s (WanIfSelectionCfg_GetParamIntValue (Some h) name))
  /\ (forall name, Handled s (WanIfSelectionCfg_GetParamUlongValue (Some h) name))
  /\ (forall name, Handled s (WanIfSelectionCfg_GetParamBoolValue (Some h) name))
  /\ Handled s (WanVirtualIf_GetEntryCount (Some h)).
Proof.
  intros Hh. unfold WanIf_GetParamStringValue, WanIf_GetParamBoolValue, WanIf_GetParamUlongValue,
    WanIfSelectionCfg_GetParamIntValue, WanIfSelectionCfg_GetParamUlongValue, WanIfSelectionCfg_GetParamBoolValue,
    WanVirtualIf_GetEntryCount. split_and!; intros; entry_tac.
Qed.
Lemma handled_iface_writes h :
  entry_in s h ->
  (forall name x, Handled s (WanIf_SetParamStringValue (Some h) name x))
  /\ (forall name x, Handled s (WanIf_SetParamBoolValue (Some h) name x))
  /\ (forall name x, Handled s (WanIf_SetParamUlongValue (Some h) name x))
  /\ (forall name x, Handled s (WanIfSelectionCfg_SetParamBoolValue (Some h) name x))
  /\ Handled s (WanIfSelectionCfg_Commit (Some h)).
Proof.
  intros Hh. unfold WanIf_SetParamStringValue, WanIf_SetParamBoolValue, WanIf_SetParamUlongValue,
    WanIfSelectionCfg_SetParamBoolValue, WanIfSelectionCfg_Commit. split_and!; intros; entry_tac.
Qed.
Lemma handled_if_commit h : entry_in s h -> Handled s (WanIf_Commit (Some h)).
Proof. intros Hh. unfold WanIf_Commit. apply handled_bind; [entry_tac | intros a s' _ _; apply handled_ret]. Qed.
(** A group that is not one of the configured ones is not written. *)
Lemma handled_sel_set_num h name x :
  entry_in s h -> (name = "Group" -> MAX_INTERFACE_GROUP < x) ->
  Handled s (WanIfSelectionCfg_SetParamUlongValue (Some h) name x).
Proof.
  intros Hh Hx. unfold WanIfSelectionCfg_SetParamUlongValue. apply handled_entry; [assumption.. | |].
  - intros sh Hsh Hv. destruct (name ≟ "Group") eqn:E; [|safe_tac].
    apply bool_decide_eq_true_1, Hx, Z.ltb_lt in E. rewrite E. safe_tac.
  - destruct (name ≟ "Group") eqn:E; [|keeps_tac].
    apply bool_decide_eq_true_1, Hx, Z.ltb_lt in E. rewrite E. keeps_tac.
Qed.
Lemma handled_check_priority i n x : Handled s (WanManager_CheckGivenPriorityExists i n x).
Proof.
  apply handled_safe; unfold WanManager_CheckGivenPriorityExists; [|keeps_tac]. pose proof Hwf. unfold db_wf in *. safe_tac.
Qed.
Lemma handled_vif_find h n k I v :
  entry_in s h -> ifaces s !! (h : nat) = Some I -> if_VirtIfList I !! k = Some v -> v_VirIfIdx v = u32 n ->
  Handled s (WanVirtualIf_GetEntry (Some h) n).
Proof.
  intros Hh HI0 Hv En. destruct Hkey as [HK _]. pose proof (HK _ I Hh HI0) as Hk.
  unfold WanVirtualIf_GetEntry, Handled. apply wp_bind. eapply wp_get_iface; [exact HI0|].
  apply wp_bind. eapply wp_intro.
  - rewrite (proj1 Hk), <- En. apply (find_vif_run s (h, k) I v Hwf Hh Hk HI0 Hv).
  - apply wp_bind. eapply (wp_intro _ _ _ tt (unlocked (locked s))); [done|]. rewrite unlocked_locked. by apply wp_ret.
Qed.

(** ** The virtual interfaces *)

Lemma handled_vif_reads p :
  vif_in s p ->
  (forall name, Handled s (WanVirtualIf_GetParamBoolValue p name))
  /\ (forall name z, Handled s (WanVirtualIf_GetParamStringValue p name z))
  /\ (forall name, Handled s (WanVirtualIf_GetParamUlongValue p name))
  /\ Handled s (WanIfVlanCfg_GetEntryCount p) /\ Handled s (WanIfVlanMarking_GetEntryCount p).
Proof.
  intros Hp. unfold WanVirtualIf_GetParamBoolValue, WanVirtualIf_GetParamStringValue, WanVirtualIf_GetParamUlongValue,
    WanIfVlanCfg_GetEntryCount, WanIfVlanMarking_GetEntryCount. split_and!; intros; vif_tac.
Qed.
Lemma handled_object_reads p :
  vif_in s p ->
  (forall name, Handled s (WanIfIpCfg_GetParamUlongValue p name))
  /\ (forall name z, Handled s (WanIfIpCfg_GetParamStringValue p name z))
  /\ (forall name, Handled s (WanIfMapt_GetParamUlongValue p name))
  /\ (forall name z, Handled s (WanIfMapt_GetParamStringValue p name z))
  /\ (forall name, Handled s (WanIfDSLite_GetParamUlongValue p name))
  /\ (forall name z, Handled s (WanIfDSLite_GetParamStringValue p name z))
  /\ (forall name, Handled s (WanIfPPPCfg_GetParamUlongValue p name))
  /\ (forall name z, Handled s (WanIfPPPCfg_GetParamStringValue p name z)).
Proof.
  intros Hp. unfold WanIfIpCfg_GetParamUlongValue, WanIfIpCfg_GetParamStringValue, WanIfMapt_GetParamUlongValue,
    WanIfMapt_GetParamStringValue, WanIfDSLite_GetParamUlongValue, WanIfDSLite_GetParamStringValue,
    WanIfPPPCfg_GetParamUlongValue, WanIfPPPCfg_GetParamStringValue. split_and!; intros; vif_tac.
Qed.
Lemma handled_vif_enable p b (x := "Enable") : vif_in s p -> Handled s (WanVirtualIf_SetParamBoolValue p x b).
Proof.
  intros Hp. destruct (vif_lookup s p Hp) as (I & v & HI0 & Hv).
  assert (v_baseIfIdx v = Z.of_nat p.1) as Eb.
  { destruct Hkey as [HK _]. destruct (HK _ I (proj1 Hp) HI0) as (_ & _ & Hvs). by destruct (Forall_lookup_1 _ _ _ _ Hvs Hv). }
  unfold WanVirtualIf_SetParamBoolValue. eapply handled_locked; [by apply with_vif_eq|]. subst x. cbn [bool_decide].
  apply wp_bind. eapply wp_intro; [exact (get_vif_at (locked s) p I v HI0 Hv)|].
  pose proof (vif_valid s Hwf p Hp) as Hvv.
  apply (handled_safe (C := C)); [|rewrite Eb; keeps_tac]. rewrite Eb. unfold db_wf in Hwf.
  change (shape_of (db (locked s))) with (shape_of (db s)). safe_tac.
Qed.
Lemma handled_vif_writes p :
  vif_in s p ->
  (forall name b, Handled s (WanVirtualIf_SetParamBoolValue p name b))
  /\ (forall name x, Handled s (WanVirtualIf_SetParamStringValue p name x))
  /\ (forall name x, Handled s (WanVirtualIf_SetParamUlongValue p name x))
  /\ Handled s (commit_virtual p).
Proof.
  intros Hp. split_and!.
  - intros name b. destruct (decide (name = "Enable")) as [->|Hne]; [by apply handled_vif_enable|].
    unfold WanVirtualIf_SetParamBoolValue. rewrite (bool_decide_eq_false_2 _ Hne). vif_tac.
  - intros name x. unfold WanVirtualIf_SetParamStringValue. vif_tac.
  - intros name x. unfold WanVirtualIf_SetParamUlongValue. vif_tac.
  - unfold commit_virtual. vif_tac.
Qed.
Lemma handled_object_writes p :
  vif_in s p ->
  (forall name x, Handled s (WanIfIpCfg_SetParamUlongValue p name x))
  /\ (forall name x, Handled s (WanIfIpCfg_SetParamStringValue p name x))
  /\ (forall name x, Handled s (WanIfMapt_SetParamUlongValue p name x))
  /\ (forall name x, Handled s (WanIfMapt_SetParamStringValue p name x))
  /\ (forall name x, Handled s (WanIfDSLite_SetParamUlongValue p name x))
  /\ (forall name x, Handled s (WanIfDSLite_SetParamStringValue p name x))
  /\ (forall name x, Handled s (WanIfPPPCfg_SetParamUlongValue p name x))
  /\ (forall name x, Handled s (WanIfPPPCfg_SetParamStringValue p name x)).
Proof.
  intros Hp. unfold WanIfIpCfg_SetParamUlongValue, WanIfIpCfg_SetParamStringValue, WanIfMapt_SetParamUlongValue,
    WanIfMapt_SetParamStringValue, WanIfDSLite_SetParamUlongValue, WanIfDSLite_SetParamStringValue,
    WanIfPPPCfg_SetParamUlongValue, WanIfPPPCfg_SetParamStringValue. split_and!; intros; vif_tac.
Qed.

(** ** The rows of a virtual interface *)

(** What runs and keeps what is seen is handled. *)
Lemma handled_runs {A} (m : M (St C) A) t a t' :
  m t = Some (a, t') -> Keeps dm_view m -> Keeps depth m -> Handled t m.
Proof. intros E Hv Hd. eapply wp_intro; [exact E|]. by split; [apply (Hv t a t') | apply (Hd t a t')]. Qed.
Lemma depth_upd_iface i f : Keeps (depth (C := C)) (upd_iface i f).
Proof. apply keeps_upd_iface. intros. reflexivity. Qed.
Lemma dm_depth_upd_vif p f : Keeps (depth (C := C)) (upd_vif p f).
Proof. apply keeps_bind; [apply keeps_get_vif | intros v; apply depth_upd_iface]. Qed.
Lemma keeps_get_vlan {B} (f : St C -> B) p : Keeps f (get_vlan p).
Proof. apply keeps_bind; [apply keeps_get_vif | intros v; apply keeps_deref]. Qed.
Lemma keeps_get_marking {B} (f : St C -> B) p : Keeps f (get_marking p).
Proof. apply keeps_bind; [apply keeps_get_vif | intros v; apply keeps_deref]. Qed.
Lemma upd_vif_runs p f (t : St C) I v :
  ifaces t !! (p.1 : nat) = Some I -> if_VirtIfList I !! p.2 = Some v -> exists t', upd_vif p f t = Some (tt, t').
Proof.
  intros HI0 Hv. unfold upd_vif, bind. rewrite (get_vif_at t p I v HI0 Hv), upd_iface_run, HI0. by eexists.
Qed.
Lemma handled_upd_vlan (p : vif_ptr * nat) f (t : St C) :
  vlan_in t p -> (forall r, vlan_keys (f r) = vlan_keys r) -> Handled t (upd_vlan p f).
Proof.
  intros (_ & I & v & r & HI0 & Hv & Hr) Hf.
  edestruct (upd_vif_runs p.1 (fun v => v <| v_VLAN ::= fun w => w <| vlan_InterfaceList ::= alter f p.2 |> |>) t I v HI0 Hv)
    as [t' E].
  apply (handled_runs _ t tt t'); [|by apply keeps_dm_vlan | apply keeps_bind; [apply keeps_get_vlan | intros x; apply dm_depth_upd_vif]].
  unfold upd_vlan, bind. rewrite (get_vlan_at t p I v r HI0 Hv Hr). exact E.
Qed.
Lemma handled_upd_marking (p : vif_ptr * nat) f (t : St C) :
  marking_in t p -> (forall r, marking_keys (f r) = marking_keys r) -> Handled t (upd_marking p f).
Proof.
  intros (_ & I & v & r & HI0 & Hv & Hr) Hf.
  edestruct (upd_vif_runs p.1 (fun v => v <| v_VLAN ::= fun w => w <| vlan_VirtMarking ::= alter f p.2 |> |>) t I v HI0 Hv)
    as [t' E].
  apply (handled_runs _ t tt t'); [|by apply keeps_dm_marking | apply keeps_bind; [apply keeps_get_marking | intros x; apply dm_depth_upd_vif]].
  unfold upd_marking, bind. rewrite (get_marking_at t p I v r HI0 Hv Hr). exact E.
Qed.
Lemma handled_get_vlan (p : vif_ptr * nat) (t : St C) : vlan_in t p -> Handled t (get_vlan p).
Proof.
  intros (_ & I & v & r & HI0 & Hv & Hr). eapply handled_runs; [exact (get_vlan_at t p I v r HI0 Hv Hr) | apply keeps_get_vlan..].
Qed.
Lemma handled_get_marking (p : vif_ptr * nat) (t : St C) : marking_in t p -> Handled t (get_marking p).
Proof.
  intros (_ & I & v & r & HI0 & Hv & Hr).
  eapply handled_runs; [exact (get_marking_at t p I v r HI0 Hv Hr) | apply keeps_get_marking..].
Qed.
Lemma handled_psm_set k x (t : St C) : Handled t (psm_set k x).
Proof. unfold psm_set. by eapply wp_intro. Qed.

Lemma handled_vlan_rows p :
  vlan_in s p ->
  (forall name z, Handled s (WanIfVlanCfg_GetParamStringValue p name z))
  /\ (forall name x, Handled s (WanIfVlanCfg_SetParamStringValue p name x)) /\ Handled s (WanIfVlanCfg_Commit p).
Proof.
  intros Hp. unfold WanIfVlanCfg_GetParamStringValue, WanIfVlanCfg_SetParamStringValue, WanIfVlanCfg_Commit.
  split_and!; intros; (eapply handled_locked; [by apply with_vlan_eq|]).
  - apply handled_bind; [by apply handled_get_vlan | intros; apply handled_ret].
  - destruct (name ≟ _); [|apply handled_ret]. apply handled_bind; [by apply handled_upd_vlan | intros; apply handled_ret].
  - apply handled_bind; [by apply handled_get_vlan | intros]. apply handled_bind; [|intros; apply handled_ret].
    apply handled_bind; [apply handled_psm_set | intros; apply handled_ret].
Qed.
Lemma handled_marking_rows p :
  marking_in s p ->
  (forall name, Handled s (WanIfVlanMarking_GetParamIntValue p name))
  /\ (forall name x, Handled s (WanIfVlanMarking_SetParamIntValue p name x)) /\ Handled s (WanIfVlanMarking_Commit p).
Proof.
  intros Hp. unfold WanIfVlanMarking_GetParamIntValue, WanIfVlanMarking_SetParamIntValue, WanIfVlanMarking_Commit.
  split_and!; intros; [..| apply handled_bind; [|intros; apply handled_ret]];
    (eapply handled_locked; [by apply with_marking_eq|]).
  - apply handled_bind; [by apply handled_get_marking | intros; apply handled_ret].
  - destruct (name ≟ _); [|apply handled_ret]. apply handled_bind; [by apply handled_upd_marking | intros; apply handled_ret].
  - apply handled_bind; [by apply handled_get_marking | intros]. apply handled_bind; [|intros; apply handled_ret].
    apply handled_bind; [apply handled_psm_set | intros; apply handled_ret].
Qed.
Lemma handled_vlan_find p n k I v t :
  vlan_in s (p, k) -> ifaces s !! (p.1 : nat) = Some I -> if_VirtIfList I !! p.2 = Some v ->
  vlan_InterfaceList (v_VLAN v) !! k = Some t -> vt_Index t = u32 n -> Handled s (WanIfVlanCfg_GetEntry p n).
Proof.
  intros [Hi _] HI0 Hv Ht En. destruct Hkey as [HK _]. pose proof (HK _ I Hi HI0) as Hk.
  destruct (Forall_lookup_1 _ _ _ _ (proj2 (proj2 Hk)) Hv) as [Eb _].
  unfold WanIfVlanCfg_GetEntry, Handled. apply wp_bind. eapply wp_intro; [exact (get_vif_at s p I v HI0 Hv)|].
  apply wp_bind. eapply wp_intro.
  - rewrite Eb, <- En. exact (find_vlan_run s (p, k) I v t Hwf Hi Hk HI0 Hv Ht).
  - apply wp_bind. eapply (wp_intro _ _ _ tt (unlocked (locked s))); [done|]. rewrite unlocked_locked. by apply wp_ret.
Qed.
Lemma handled_marking_find p n k I v m :
  marking_in s (p, k) -> ifaces s !! (p.1 : nat) = Some I -> if_VirtIfList I !! p.2 = Some v ->
  vlan_VirtMarking (v_VLAN v) !! k = Some m -> mk_VirtMarkingInstanceNumber m = u32 n ->
  Handled s (WanIfVlanMarking_GetEntry p n).
Proof.
  intros [Hi _] HI0 Hv Hm En. destruct Hkey as [HK _]. pose proof (HK _ I Hi HI0) as Hk.
  destruct (Forall_lookup_1 _ _ _ _ (proj2 (proj2 Hk)) Hv) as [Eb _].
  unfold WanIfVlanMarking_GetEntry, Handled. apply wp_bind. eapply wp_intro; [exact (get_vif_at s p I v HI0 Hv)|].
  apply wp_bind. eapply wp_intro.
  - rewrite Eb, <- En. exact (find_marking_run s (p, k) I v m Hwf Hi Hk HI0 Hv Hm).
  - apply wp_bind. eapply (wp_intro _ _ _ tt (unlocked (locked s))); [done|]. rewrite unlocked_locked. by apply wp_ret.
Qed.

(** ** The manager *)

Lemma keeps_set_dns i t k : Keeps (dm_view (C := C)) (set_dns_check i t k).
Proof. unfold set_dns_check, WanMgr_SetConnectivityCheckTypeToPSM. keeps_tac. Qed.
Lemma safe_set_dns sh i t I k :
  valid_iface sh i -> iface_in sh i I -> k ∈ range (if_NoOfVirtIfs I) ->
  Safe (C := C) sh (fun _ => True) (set_dns_check i t k).
Proof.
  intros Hv HI0 Hk. unfold set_dns_check. eapply safe_bind; [by apply safe_get_iface | intros J HJ].
  eapply safe_deref_vif; [exact HJ | exact (iface_in_range _ i I J k HI0 HJ Hk)|]. intros j Hj. safe_tac.
Qed.
#[local] Hint Resolve keeps_set_dns : keeps.
Lemma valid_find sh i I k j :
  valid_iface sh i -> iface_in sh i I -> WanMgr_getVirtualIfaceById (if_VirtIfList I) k = Some j -> valid_vif sh (i, j).
Proof.
  intros Hv [HI0 Hw] E. exists (vifs_of I). split; [exact HI0|]. split; [exact Hw|].
  apply list_search_Some in E as [(v & Hj%lookup_lt_Some & _) _]. unfold vifs_of. simpl. by rewrite length_fmap.
Qed.
#[local] Hint Extern 2 (valid_vif _ (_, _)) => (eapply valid_find; eassumption) : safe.

Lemma handled_dns :
  (forall name, Handled s (WanMgr_DnsConnectivityCheck_GetParamBoolValue name))
  /\ forall name b, Handled s (WanMgr_DnsConnectivityCheck_SetParamBoolValue name b).
Proof.
  split; intros; (apply handled_safe; [unfold db_wf in Hwf|]).
  - unfold WanMgr_DnsConnectivityCheck_GetParamBoolValue, WanMgr_GetDnsConnectivityCheck. safe_tac.
    all: match goal with H : WanMgr_getVirtualIfaceById _ _ = Some _ |- _ => idtac end.
    all: apply safe_get_vif; by eapply valid_find.
  - unfold WanMgr_DnsConnectivityCheck_GetParamBoolValue, WanMgr_GetDnsConnectivityCheck. keeps_tac.
  - unfold WanMgr_DnsConnectivityCheck_SetParamBoolValue, WanMgr_SetDnsConnectivityCheck. safe_tac.
    all: by eapply safe_set_dns.
  - unfold WanMgr_DnsConnectivityCheck_SetParamBoolValue, WanMgr_SetDnsConnectivityCheck. keeps_tac.
Qed.
Lemma handled_manager :
  (forall name, Handled s (WanManager_GetParamUlongValue name))
  /\ (forall name x, Handled s (WanManager_SetParamUlongValue name x))
  /\ (forall name, Handled s (WanManager_GetParamBoolValue name))
  /\ (forall name b, Handled s (WanManager_SetParamBoolValue name b))
  /\ Handled s WanManagerGroup_GetEntryCount /\ forall n, Handled s (WanManagerGroup_GetEntry n).
Proof.
  unfold db_wf in Hwf. unfold WanManager_GetParamUlongValue, WanManager_SetParamUlongValue, WanManager_GetParamBoolValue,
    WanManager_SetParamBoolValue, WanManagerGroup_GetEntryCount, WanManagerGroup_GetEntry, set_policy,
    WanMgr_RdkBus_setWanPolicy, WanMgr_RdkBus_setRestorationDelay, WanMgr_RdkBus_setWanEnableToPsm,
    WanMgr_RdkBus_setAllowRemoteIfaceToPsm.
  split_and!; intros; (apply handled_safe; [safe_tac | keeps_tac]).
  eapply safe_weaken; [by apply safe_get_groups | done].
Qed.
Lemma handled_groups g :
  group_in s g ->
  (forall name, Handled s (WanManagerGroup_GetParamBoolValue g name))
  /\ (forall name b, Handled s (WanManagerGroup_SetParamBoolValue g name b))
  /\ (forall name, Handled s (WanManagerGroup_GetParamUlongValue g name))
  /\ forall name x, Handled s (WanManagerGroup_SetParamUlongValue g name x).
Proof.
  intros Hg. unfold WanManagerGroup_GetParamBoolValue, WanManagerGroup_SetParamBoolValue,
    WanManagerGroup_GetParamUlongValue, WanManagerGroup_SetParamUlongValue, set_policy, WanMgr_RdkBus_setWanPolicy.
  split_and!; intros; (apply handled_group; [assumption.. | intros sh Hsh Hv; safe_tac | keeps_tac]).
Qed.
Lemma handled_entries : Handled s WanIf_GetEntryCount /\ (forall n, Handled s (WanIf_GetEntry n)) /\ Handled s WanIf_IsUpdated.
Proof.
  unfold db_wf in Hwf. unfold WanIf_GetEntryCount, WanIf_GetEntry, WanIf_IsUpdated.
  split_and!; intros; (apply handled_safe; [safe_tac | keeps_tac]).
  eapply safe_weaken; [by apply safe_get_total | done].
Qed.
End Objects.

(** The conjunct of [H] about the handler of the goal. *)
Ltac head_of t := lazymatch t with ?f _ => head_of f | _ => t end.
Ltac picked H :=
  lazymatch type of H with
  | _ /\ _ => first [picked constr:(proj1 H) | picked constr:(proj2 H)]
  | Handled _ ?m =>
      lazymatch goal with |- Handled _ ?m' =>
        let a := head_of m in let b := head_of m' in constr_eq a b; exact H
      end
  | forall x : _, _ => let H' := open_constr:(H _) in picked H'
  end.

Section Requests.
Context `{Platform} `{Build} `{HA : AutoBuild} `{HI : IfaceBuild} `{DmBuild} {C : Type}.

Lemma entry_view (s s' : St C) i : dm_view s' = dm_view s -> entry_in s i -> entry_in s' i.
Proof. intros E. unfold entry_in, nifaces. by rewrite (f_equal (fun x => x.2.1) E : w_ulTotalNumbWanInterfaces (db s') = _). Qed.
Lemma wf_view (s s' : St C) : dm_view s' = dm_view s -> db_wf (db s) -> db_wf (db s').
Proof. intros E. unfold db_wf. by rewrite (shape_view s s' E). Qed.
(** The interface is left while its priority is compared. *)
Lemma handled_priority (s : St C) h name x :
  db_wf (db s) -> keyed s -> entry_in s h -> Handled s (WanIfSelectionCfg_SetParamIntValue (Some h) name x).
Proof.
  intros Hwf Hkey Hh. unfold WanIfSelectionCfg_SetParamIntValue. apply handled_bind.
  - apply handled_entry; [assumption.. | intros sh Hsh Hv; safe_tac | keeps_tac].
  - intros o s1 E Hv1. assert (o = None \/ exists n, o = Some (h, n)) as [->|[n ->]].
    { rewrite with_entry_eq in E by done. unfold guarded, bind in E. rewrite get_iface_run in E.
      destruct (ifaces (locked s) !! h); [injection E as <- <-; right; by eexists | done]. }
    { apply handled_ret. }
    destruct (name ≟ _); [|apply handled_ret]. pose proof (wf_view _ _ Hv1 Hwf) as Hwf1.
    apply handled_bind; [apply (proj1 (handled_entries s1 Hwf1)) | intros k s2 _ Hv2].
    pose proof (wf_view _ _ Hv2 Hwf1) as Hwf2.
    apply handled_bind; [by apply handled_check_priority | intros r s3 _ Hv3].
    pose proof (wf_view _ _ Hv3 Hwf2) as Hwf3. assert (dm_view s3 = dm_view s) as Hv by (by rewrite Hv3, Hv2).
    destruct (r.1 ≟ _); [|apply handled_ret]. destruct r.2; [apply handled_ret|].
    apply handled_entry; [exact Hwf3 | by eapply keyed_view | by eapply entry_view | intros sh Hsh Hvi; safe_tac | keeps_tac].
Qed.

Lemma dm_handled (s : St C) r : db_wf (db s) -> keyed s -> dm_sound s r -> Handled s (dm_run r).
Proof.
  intros Hwf Hkey Hs. destruct r; apply handled_done; simpl in Hs.
  all: first
    [ picked (handled_entries s Hwf) | picked (handled_manager s Hwf) | picked (handled_dns s Hwf)
    | picked (handled_groups s Hwf Hkey _ Hs) | picked (handled_iface_reads s Hwf Hkey _ Hs)
    | picked (handled_iface_writes s Hwf Hkey _ Hs) | picked (handled_if_commit s Hwf Hkey _ Hs)
    | picked (handled_vif_reads s Hwf Hkey _ Hs) | picked (handled_vif_writes s Hwf Hkey _ Hs)
    | picked (handled_object_reads s Hwf Hkey _ Hs) | picked (handled_object_writes s Hwf Hkey _ Hs)
    | picked (handled_vlan_rows s Hwf Hkey _ Hs) | picked (handled_marking_rows s Hwf Hkey _ Hs)
    | picked (fun name x => handled_priority s _ name x Hwf Hkey Hs) | idtac ].
  - destruct Hs. by apply handled_sel_set_num.
  - destruct Hs as (Hh & k & I & v & HI0 & Hv & En). exact (handled_vif_find s Hwf Hkey h nIndex k I v Hh HI0 Hv En).
  - destruct Hs as (k & I & v & t & Hp & HI0 & Hv & Ht & En).
    exact (handled_vlan_find s Hwf Hkey p nIndex k I v t Hp HI0 Hv Ht En).
  - destruct Hs as (k & I & v & t & Hp & HI0 & Hv & Ht & En).
    exact (handled_marking_find s Hwf Hkey p nIndex k I v t Hp HI0 Hv Ht En).
Qed.
End Requests.
