(* ===== verification/BootProps.v ===== *)
(** The data base the program starts on: the start-up loads the tables from PSM
    and leaves them as the policies and the state machines need them. *)

From S2P Require Export PsmFacts HandlerFacts System Sample.

(** * Computations that only make calls *)

Section Asks.
Context `{Platform} {C : Type}.
#[local] Abbreviation M := (Prelude.M (St C)).
Implicit Type s : St C.

(** The computation makes calls and nothing else; its result satisfies [P]. *)
Definition Asks {A} (P : A -> Prop) (m : M A) : Prop :=
  forall s, exists a t, m s = Some (a, at_trace s t) /\ P a.

Lemma asks_ret {A} (P : A -> Prop) a : P a -> Asks P (ret a).
Proof. intros HP s. exists a, (trace s). split; [by destruct s | done]. Qed.
Lemma asks_bind {A B} (P : A -> Prop) (R : B -> Prop) (m : M A) (k : A -> M B) :
  Asks P m -> (forall a, P a -> Asks R (k a)) -> Asks R (bind m k).
Proof.
  intros Hm Hk s. destruct (Hm s) as (a & t & E & HP). destruct (Hk a HP (at_trace s t)) as (b & t' & E' & HR).
  exists b, t'. split; [|done]. unfold bind. rewrite E, E'. by destruct s.
Qed.
Lemma asks_mono {A} (P R : A -> Prop) (m : M A) : Asks P m -> (forall a, P a -> R a) -> Asks R m.
Proof. intros Hm HPR s. destruct (Hm s) as (a & t & E & HP). eauto. Qed.
Lemma asks_call_s (P : Z * string -> Prop) e : (forall h, P (answer h e, answer_s h e)) -> Asks P (call_s e).
Proof. intros HP s. do 2 eexists. split; [reflexivity | apply HP]. Qed.
Lemma asks_call (P : Z -> Prop) e : (forall h, P (answer h e)) -> Asks P (call e).
Proof. intros HP s. do 2 eexists. split; [reflexivity | apply HP]. Qed.
Lemma asks_if {A} (P : A -> Prop) (b : bool) (m1 m2 : M A) : Asks P m1 -> Asks P m2 -> Asks P (if b then m1 else m2).
Proof. by destruct b. Qed.
Lemma asks_for_each {X} (l : list X) body :
  (forall x, Asks (fun _ => True) (body x)) -> Asks (fun _ => True) (for_each l body).
Proof. intros Hb. induction l; simpl; [by apply asks_ret | eapply asks_bind; [apply Hb | done]]. Qed.
Lemma asks_for_acc {X B R} (P : B -> Prop) (l : list X) b (body : X -> B -> M (B * option R)) :
  P b -> (forall x b, P b -> Asks (fun r => P (fst r)) (body x b)) -> Asks (fun r => P (fst r)) (for_acc l b body).
Proof.
  intros Hb Hbody. revert b Hb. induction l as [|x l IH]; intros b Hb; simpl; [by apply asks_ret|].
  eapply asks_bind; [by apply Hbody|]. intros [b' [r|]] Hb'; [by apply asks_ret | by apply IH].
Qed.
(** The rounds of a loop over an initial segment, counted. *)
Lemma asks_for_range {B R} (P : Z -> B -> Prop) (Q : B -> Prop) n k l b (body : Z -> B -> M (B * option R)) :
  l = range_from k n -> 0 <= k <= Z.max 0 n -> P k b -> (forall b, P (Z.max 0 n) b -> Q b) ->
  (forall i b, 0 <= i < n -> P i b -> Asks (fun r => match snd r with Some _ => Q (fst r) | None => P (i + 1) (fst r) end) (body i b)) ->
  Asks (fun r => Q (fst r)) (for_acc l b body).
Proof.
  intros El Hk Hb HQ Hbody. revert k b El Hk Hb. induction l as [|x l IH]; intros k b El Hk Hb; simpl.
  - apply range_from_nil in El; [|done]. subst k. by apply asks_ret, HQ.
  - apply range_from_cons in El as (-> & Hlt & El); [|lia].
    eapply asks_bind; [apply Hbody; [lia | exact Hb]|]. intros [b' [r|]] Hb'; [by apply asks_ret|].
    apply (IH (k + 1)); [exact El | lia | exact Hb'].
Qed.
Lemma wp_asks {A} (P : A -> Prop) (m : M A) Q s :
  Asks P m -> (forall a t, P a -> Q a (at_trace s t)) -> wp m Q s.
Proof. intros Hm HQ. destruct (Hm s) as (a & t & E & HP). eapply wp_intro; eauto. Qed.

End Asks.

Ltac asks_step :=
  match goal with
  | |- Asks _ (ret _) => apply asks_ret; done
  | |- Asks _ (bind _ _) => eapply (asks_bind (fun _ => True)); [|intros ? _]
  | |- Asks _ (call_s _) => by apply asks_call_s
  | |- Asks _ (call _) => by apply asks_call
  | |- Asks _ (if _ then _ else _) => apply asks_if
  | |- Asks _ (when _ _) => apply asks_if
  | |- Asks _ (for_each _ _) => apply asks_for_each; intros ?
  | |- Asks _ (match ?x with _ => _ end) => destruct x
  | |- Asks _ _ => progress unfold psm_true, psm_scan, psm_text, psm_get, psm_get_int, psm_set, call_, syscfg_get,
      AnscAllocateMemory, psm_value, psm_starts, uninitialised_local
  end.

Section Readers.
Context `{Platform} {C : Type}.
#[local] Abbreviation M := (Prelude.M (St C)).

Lemma asks_wan i I :
  (forall h, let e := PsmGet (psm_if i "VirtualInterfaceifcount") in answer h e = CCSP_SUCCESS ->
     forall n, sscanf_d (answer_s h e) = Some n -> 1 <= n < 2 ^ 31) ->
  1 <= if_NoOfVirtIfs I < 2 ^ 31 ->
  Asks (C := C) (fun J => (if_VirtIfList J = if_VirtIfList I /\ if_uiIfaceIdx J = if_uiIfaceIdx I)
                 /\ 1 <= if_NoOfVirtIfs J < 2 ^ 31 /\ sel_Status (if_Selection J) = sel_Status (if_Selection I))
    (get_Wan_Interface_ParametersFromPSM i I).
Proof.
  intros Hcount HI. unfold get_Wan_Interface_ParametersFromPSM. cbv zeta.
  do 11 (eapply (asks_bind (fun _ => True)); [repeat asks_step | intros ? _]).
  eapply (asks_bind (fun o => forall n, o = Some n -> 1 <= n < 2 ^ 31)).
  { unfold psm_get_int. apply (asks_bind (fun r => fst r = CCSP_SUCCESS -> forall n, sscanf_d (snd r) = Some n -> 1 <= n < 2 ^ 31)).
    - by apply asks_call_s.
    - intros r Hr. apply asks_ret. destruct (Z.eqb_spec (fst r) CCSP_SUCCESS); [by apply Hr | done]. }
  intros o Ho. apply asks_ret.
  assert (1 <= default (if_NoOfVirtIfs I) (u32 <$> o) < 2 ^ 31) as Hn.
  { destruct o as [n|]; [|exact HI]. specialize (Ho n eq_refl). simpl. unfold u32. rewrite Z.mod_small; lia. }
  match goal with |- (if_VirtIfList ?X = _ /\ _) /\ _ => set (J := X) end.
  assert (E : (if_NoOfVirtIfs J, if_VirtIfList J, sel_Status (if_Selection J), if_uiIfaceIdx J)
    = (default (if_NoOfVirtIfs I) (u32 <$> o), if_VirtIfList I, sel_Status (if_Selection I), if_uiIfaceIdx I))
    by (subst J; destruct I as [? ? ? ? ? ? ? ? ? ? ? ? ? ? ? [? ? ? x ? ? ? ?] ? ? ? ? m l]; reflexivity).
  clearbody J. injection E as E1 E2 E3 E4. rewrite E1, E2, E3, E4. done.
Qed.
Lemma range_snoc n : 0 <= n -> range n ++ [n] = range (n + 1).
Proof.
  intros Hn. unfold range. rewrite Z2Nat.inj_add, Nat.add_1_r, seq_S, fmap_app by lia. simpl.
  by rewrite Z2Nat.id.
Qed.
(** The numbers of a virtual interface and the rows of its tables. *)
Definition vif_rows (v : DML_VIRTUAL_IFACE) :=
  (v_VirIfIdx v, v_baseIfIdx v, vlan_InterfaceList (v_VLAN v), vlan_VirtMarking (v_VLAN v)).
Lemma asks_vif i k v : Asks (C := C) (fun v' => vif_rows v' = vif_rows v) (get_Virtual_Interface_FromPSM i k v).
Proof.
  unfold get_Virtual_Interface_FromPSM. cbv zeta.
  repeat (eapply (asks_bind (fun _ => True)); [solve [repeat asks_step] | intros ? _]). apply asks_ret.
  match goal with |- vif_rows ?X = _ => set (w := X) end.
  assert (E : (v_VirIfIdx w, v_baseIfIdx w, vlan_InterfaceList (v_VLAN w), vlan_VirtMarking (v_VLAN w))
    = (v_VirIfIdx v, v_baseIfIdx v, vlan_InterfaceList (v_VLAN v), vlan_VirtMarking (v_VLAN v)))
    by (subst w; destruct v as [? ? ? ? ? ? ? ? ? [] ? ? [] [] ? ? ? ?]; reflexivity).
  exact E.
Qed.
Lemma asks_row what : Asks (C := C) (fun _ => True) (AnscAllocateMemory what).
Proof. repeat asks_step. Qed.

(** A virtual interface whose tables hold the rows [0 .. k-1] and [0 .. m-1]. *)
Definition rows_to (u b k m : Z) (v : DML_VIRTUAL_IFACE) : Prop :=
  (v_VirIfIdx v, v_baseIfIdx v) = (u, b)
  /\ vlan_keys <$> vlan_InterfaceList (v_VLAN v) = (fun i => (i, u, b)) <$> range k
  /\ marking_keys <$> vlan_VirtMarking (v_VLAN v) = (fun i => (i, u, b)) <$> range m.
Lemma rows_keyed l u i n : l = (fun k => (k, u, Z.of_nat i)) <$> range n ->
  NoDup ((fun r : Z * Z * Z => r.1.1) <$> l) /\ Forall (row_keyed i u) l.
Proof.
  intros ->. rewrite <- list_fmap_compose. split; [|apply Forall_fmap, Forall_forall; by intros k _].
  apply NoDup_fmap_2; [by intros x y|]. apply range_NoDup.
Qed.
Lemma rows_vif_keyed u i k m v : rows_to u (Z.of_nat i) k m v -> vif_keyed i v.
Proof.
  intros ([= E1 E2] & Hk & Hm). apply vif_keyed_keys. unfold keys_ok, vif_keys. simpl. rewrite E1.
  split; [exact E2|]. split; eapply rows_keyed; eassumption.
Qed.
Lemma rows_snoc {X} (f : X -> Z * Z * Z) u b k l x :
  0 <= k -> f x = (k, u, b) -> f <$> l = (fun i => (i, u, b)) <$> range k ->
  f <$> append_last l x = (fun i => (i, u, b)) <$> range (k + 1).
Proof.
  intros Hk Hx Hl. rewrite append_last_app, fmap_app, Hl. simpl. rewrite Hx, <- range_snoc by done.
  by rewrite fmap_app.
Qed.
Lemma asks_vlan v idx u b : rows_to u b 0 0 v ->
  Asks (C := C) (fun r => exists k m, rows_to u b k m (snd r)) (WanMgr_VirtIfConfVLAN v idx).
Proof.
  intros Hv. unfold WanMgr_VirtIfConfVLAN.
  eapply asks_bind.
  { eapply (asks_for_range (fun k w => rows_to u b k 0 w) (fun w => exists k, rows_to u b k 0 w) _ 0);
      [apply range_from_0 | lia | exact Hv | by eexists|].
    intros i w Hi Hw. eapply asks_bind; [apply asks_row|]. intros ok _. destruct ok; simpl negb; cbv iota;
      [|apply asks_ret; by exists i].
    eapply (asks_bind (fun _ => True)); [repeat asks_step | intros Interface _]. apply asks_ret.
    destruct Hw as ([= E1 E2] & Hk & Hm). split; [exact (f_equal2 pair E1 E2)|]. rsimpl. split; [|exact Hm].
    apply rows_snoc; [lia | by unfold vlan_keys; simpl; rewrite E1, E2 | exact Hk]. }
  intros [w [[]|]] [k Hw]; [apply asks_ret; by exists k, 0|]. simpl in Hw.
  eapply asks_bind.
  { eapply (asks_for_range (fun m w => rows_to u b k m w) (fun w => exists m, rows_to u b k m w) _ 0);
      [apply range_from_0 | lia | exact Hw | by eexists|].
    intros i w' Hi Hw'. eapply asks_bind; [apply asks_row|]. intros ok _. destruct ok; simpl negb; cbv iota;
      [|apply asks_ret; by exists i].
    eapply (asks_bind (fun _ => True)); [repeat asks_step | intros Entry _]. apply asks_ret.
    destruct Hw' as ([= E1 E2] & Hk & Hm). split; [exact (f_equal2 pair E1 E2)|]. rsimpl. split; [exact Hk|].
    apply rows_snoc; [lia | by unfold marking_keys; simpl; rewrite E1, E2 | exact Hm]. }
  intros [w' o] [m Hw']. apply asks_ret. by exists k, m.
Qed.
Lemma asks_check n : Asks (C := C) (fun _ => True) (WanMgr_CheckAndResetV2PSMEntries n).
Proof.
  unfold WanMgr_CheckAndResetV2PSMEntries, psm_corrupted.
  eapply (asks_bind (fun _ => True)).
  { eapply (asks_bind (fun _ => True)); [|intros; by apply asks_ret].
    eapply asks_mono; [apply (asks_for_acc (fun _ => True)); [done|]; intros ? ? _; repeat asks_step | done]. }
  intros b _. repeat asks_step.
Qed.
End Readers.

(** * The tables *)

Section Tables.
Context `{HP0 : Platform, HB0 : Build, HA0 : AutoBuild} {C : Type} (fresh_iface : DML_WAN_IFACE) (fresh_vif : DML_VIRTUAL_IFACE).
Implicit Type s : St C.

(** Every interface of the array satisfies [P]. *)
Definition each_iface (P : nat -> DML_WAN_IFACE -> Prop) s : Prop := forall j I, ifaces s !! j = Some I -> P j I.
(** What loading the interfaces leaves alone. *)
Definition rest_of s := (depth s, nifaces s, ngroups s, groups s, length (ifaces s)).

Lemma wp_upd_each (P P' : nat -> DML_WAN_IFACE -> Prop) i f s (Q : unit -> St C -> Prop) :
  each_iface P s -> (i < length (ifaces s))%nat ->
  (forall I, P i I -> P' i (f I)) -> (forall j I, j <> i -> P j I -> P' j I) ->
  (forall s', each_iface P' s' -> rest_of s' = rest_of s -> Q tt s') -> wp (upd_iface i f) Q s.
Proof.
  intros HP [I HI]%lookup_lt_is_Some_2 Hi Hj HQ. eapply wp_upd_iface; [done|]. apply HQ.
  - intros j J. unfold ifaces. rsimpl. rewrite list_lookup_alter. destruct (decide (i = j)) as [<-|Hne].
    + intros (J' & HJ & ->)%fmap_Some. apply Hi. by apply HP.
    + intros HJ. apply Hj; [done | by apply HP].
  - unfold rest_of, ifaces. rsimpl. by rewrite length_alter.
Qed.

(** An interface as the start-up leaves it: [n] virtual interfaces are loaded,
    numbered from 0. *)
Definition loaded (i : nat) (n : Z) (I : DML_WAN_IFACE) : Prop :=
  (if_uiIfaceIdx I = Z.of_nat i /\ Forall (vif_keyed i) (if_VirtIfList I))
  /\ v_VirIfIdx <$> if_VirtIfList I = range n /\ 1 <= if_NoOfVirtIfs I < 2 ^ 31
  /\ sel_Status (if_Selection I) = WAN_IFACE_NOT_SELECTED.
Definition ready (i : nat) (I : DML_WAN_IFACE) : Prop := loaded i (if_NoOfVirtIfs I) I.
Definition partly (i : nat) (n k : Z) (I : DML_WAN_IFACE) : Prop := loaded i k I /\ if_NoOfVirtIfs I = n.
(** The array while interface [idx] is loaded: it satisfies [R]. *)
Definition loading (idx : Z) (R : DML_WAN_IFACE -> Prop) (j : nat) (I : DML_WAN_IFACE) : Prop :=
  if decide (Z.of_nat j = idx) then R I
  else if decide (Z.of_nat j < idx) then ready j I else if_VirtIfList I = [].

Lemma loading_at idx R I : 0 <= idx -> loading idx R (Z.to_nat idx) I <-> R I.
Proof. intros Hi. unfold loading. rewrite Z2Nat.id by lia. by rewrite decide_True. Qed.
Lemma loading_else idx R R' j I : j <> Z.to_nat idx -> loading idx R j I -> loading idx R' j I.
Proof. unfold loading. destruct (decide (Z.of_nat j = idx)); [lia | done]. Qed.
Lemma loading_next idx j I : loading idx (ready (Z.to_nat idx)) j I <-> loading (idx + 1) (fun I => if_VirtIfList I = []) j I.
Proof.
  unfold loading. destruct (decide (Z.of_nat j = idx)) as [<-|Hne].
  { rewrite decide_False, decide_True by lia. by rewrite Nat2Z.id. }
  destruct (decide (Z.of_nat j < idx)); [by rewrite decide_False, decide_True by lia|].
  destruct (decide (Z.of_nat j = idx + 1)); [done|]. by rewrite decide_False by lia.
Qed.

(** Allocation succeeds. *)
Definition allocates : Prop := forall h what, answer h (ExtCall "AnscAllocateMemory" [what]) <> 0.
(** A stored count of virtual interfaces is positive. *)
Definition counts_virtual : Prop := forall h i, let e := PsmGet (psm_if i "VirtualInterfaceifcount") in
  answer h e = CCSP_SUCCESS -> forall n, sscanf_d (answer_s h e) = Some n -> 1 <= n < 2 ^ 31.
(** The memory of a virtual interface is handed out cleared: its tables are empty. *)
Definition no_rows : Prop := vlan_InterfaceList (v_VLAN fresh_vif) = [] /\ vlan_VirtMarking (v_VLAN fresh_vif) = [].
Context (Halloc : allocates) (Hcounts : counts_virtual) (Hrows : no_rows).

Lemma asks_allocate what : Asks (C := C) (fun ok => ok = true) (AnscAllocateMemory what).
Proof.
  unfold AnscAllocateMemory. apply (asks_bind (fun p => p <> 0)); [apply asks_call; intros h; apply Halloc|].
  intros p Hp. apply asks_ret. destruct (Z.eqb_spec p 0); [done | reflexivity].
Qed.

Lemma each_same P s t : each_iface P s -> each_iface P (at_trace s t).
Proof. done. Qed.

(** One virtual interface. *)
Lemma wp_load_virtual idx n k s :
  0 <= idx < Z.of_nat (length (ifaces s)) -> 0 <= k -> each_iface (loading idx (partly (Z.to_nat idx) n k)) s ->
  wp (load_virtual fresh_vif idx k)
     (fun o s' => o = None /\ each_iface (loading idx (partly (Z.to_nat idx) n (k + 1))) s' /\ rest_of s' = rest_of s) s.
Proof.
  intros Hi Hk HP. unfold load_virtual.
  apply wp_bind, (wp_asks _ _ _ _ (asks_allocate _)). intros ok t ->. simpl negb. cbv iota.
  apply wp_bind, (wp_asks _ _ _ _ (asks_vif _ _ _)). intros v t1 Hv.
  assert (rows_to k idx 0 0 v) as Hr0.
  { assert (vif_rows v = (k, idx, vlan_InterfaceList (v_VLAN fresh_vif), vlan_VirtMarking (v_VLAN fresh_vif)))
      as [= E1 E2 Er Em] by exact Hv.
    destruct Hrows as [Ef Eg]. split; [by rewrite E1, E2|]. by rewrite Er, Em, Ef, Eg. }
  apply wp_bind, (wp_asks _ _ _ _ (asks_vlan _ _ _ _ Hr0)). intros r t2 (k1 & m1 & Hr).
  apply wp_bind. eapply (wp_upd_each _ (loading idx (partly (Z.to_nat idx) n (k + 1)))); [exact HP | change (Z.to_nat idx < length (ifaces s))%nat; lia | | | ].
  - intros I (((Hx & Hf) & Hl & Hn & Hs) & En)%loading_at; [|lia]. apply loading_at; [lia|]. split; [|done].
    assert (if_VirtIfList (I <| if_VirtIfList ::= fun l => snd (WanMgr_AddVirtualToList l (Some (snd r))) |>)
      = if_VirtIfList I ++ [snd r]) as El by exact (append_last_app _ _).
    split; [split; [exact Hx|]|split; [|done]]; rewrite El.
    + apply Forall_app. split; [exact Hf|]. apply Forall_singleton. apply (rows_vif_keyed k _ k1 m1).
      rewrite Z2Nat.id by lia. exact Hr.
    + rewrite fmap_app, Hl. simpl. rewrite <- range_snoc by done. destruct Hr as ([= -> _] & _). reflexivity.
  - intros j I Hj. by apply loading_else.
  - intros s' HP' E. apply wp_ret. done.
Qed.

(** One interface, with all its virtual interfaces. *)
Lemma wp_load_iface idx s :
  0 <= idx < Z.of_nat (length (ifaces s)) -> each_iface (loading idx (fun I => if_VirtIfList I = [])) s ->
  wp (load_iface fresh_vif idx) (fun o s' => o = None /\ each_iface (loading idx (ready (Z.to_nat idx))) s' /\ rest_of s' = rest_of s) s.
Proof.
  intros Hi HP. unfold load_iface. assert (Z.to_nat idx < length (ifaces s))%nat as Hlt by lia.
  apply wp_bind. eapply (wp_upd_each _ (loading idx (loaded (Z.to_nat idx) 0))); [exact HP | exact Hlt | | intros j I Hj; by apply loading_else |].
  { intros I HI%loading_at; [|lia]. apply loading_at; [lia|].
    destruct I as [? ? ? ? ? ? ? ? ? ? ? ? ? ? ? [] ? ? ? ? ? l]. simpl in HI. subst l. split; [split; [simpl; lia | by apply Forall_nil_2] | repeat split; simpl; lia]. }
  intros s1 H1 E1. assert (Z.to_nat idx < length (ifaces s1))%nat as Hlt1 by (by injection E1 as _ _ _ _ ->).
  destruct (lookup_lt_is_Some_2 _ _ Hlt1) as [I HI]. apply wp_bind. eapply wp_get_iface; [exact HI|].
  pose proof (proj1 (loading_at idx _ _ (proj1 Hi)) (H1 _ _ HI)) as ((Hx & Hf) & Hl & Hn & Hst).
  apply wp_bind, (wp_asks _ _ _ _ (asks_wan (idx + 1) I (fun h => Hcounts h (idx + 1)) Hn)). intros J t ((Hv & HxJ) & HnJ & HsJ).
  assert (loaded (Z.to_nat idx) 0 J) as HJ by (unfold loaded; by rewrite HxJ, Hv, HsJ).
  apply wp_bind. eapply (wp_upd_each _ (loading idx (partly (Z.to_nat idx) (if_NoOfVirtIfs J) 0)));
    [exact H1 | exact Hlt1 | intros ? _; apply loading_at; [lia | done] | intros j I' Hj; by apply loading_else |].
  intros s2 H2 E2.
  assert (rest_of s2 = rest_of s) as E by (by rewrite E2).
  clear E1 E2 H1 HP. set (n := if_NoOfVirtIfs J) in *.
  apply (wp_for_break_range (fun k s' => each_iface (loading idx (partly (Z.to_nat idx) n k)) s' /\ rest_of s' = rest_of s)).
  - done.
  - intros k s' Hk [HP' E'].
    eapply wp_mono; [apply (wp_load_virtual idx n k s'); [|lia|done]|].
    + change (length (ifaces s')) with (rest_of s').2. rewrite E'. done.
    + intros o s3 (-> & H3 & E3). split; [done | by rewrite E3].
  - intros s' [HP' E']. split; [done|]. split; [|done]. intros j K HK. specialize (HP' j K HK). revert HP'.
    unfold loading. destruct (decide _) as [<-|]; [|done]. rewrite Z.max_r by lia. intros [Hld En]. unfold ready. by rewrite En.
Qed.

Lemma wp_count_ifaces n Q s :
  (forall h, let e := PsmGet "dmsb.wanmanager.wan.interfacecount" in
     answer h e = CCSP_SUCCESS /\ sscanf_d (answer_s h e) = Some n) -> 0 <= n < 2 ^ 31 ->
  (forall t, Q (ANSC_STATUS_SUCCESS, Some n) (at_trace s t)) -> wp DmlGetTotalNoOfWanInterfaces Q s.
Proof.
  intros Hn Hr HQ. unfold DmlGetTotalNoOfWanInterfaces, psm_get. apply wp_bind, wp_bind.
  eapply wp_intro; [reflexivity|]. destruct (Hn (trace s)) as [E1 E2]. apply wp_ret. simpl fst. simpl snd. rewrite E1.
  simpl. apply wp_ret. rewrite E2. simpl. unfold u32. rewrite Z.mod_small by lia. apply HQ.
Qed.

(** All of them. *)
Lemma wp_load_tables n s :
  (forall h, let e := PsmGet "dmsb.wanmanager.wan.interfacecount" in
     answer h e = CCSP_SUCCESS /\ sscanf_d (answer_s h e) = Some n) -> 0 <= n <= MAX_WAN_INTERFACE_ENTRY ->
  wp (WanMgr_WanIfaceConfInit fresh_iface fresh_vif)
     (fun r s' => r = ANSC_STATUS_SUCCESS /\ nifaces s' = n /\ length (ifaces s') = Z.to_nat MAX_WAN_INTERFACE_ENTRY
        /\ each_iface (fun j I => Z.of_nat j < n -> ready j I) s'
        /\ depth s' = depth s /\ ngroups s' = ngroups s /\ groups s' = groups s) s.
Proof.
  intros Hn Hr. unfold MAX_WAN_INTERFACE_ENTRY in *. unfold WanMgr_WanIfaceConfInit.
  apply wp_bind, (wp_count_ifaces n); [exact Hn | lia | intros t]. simpl fst. simpl snd.
  rewrite bool_decide_eq_false_2 by done. apply wp_bind, wp_ret, wp_bind, (wp_asks _ _ _ _ (asks_allocate _)). intros ok t1 ->.
  simpl negb. cbv iota. apply wp_bind, wp_modify, wp_bind.
  eapply (wp_asks (fun _ => True)).
  { apply asks_if; [|by apply asks_ret]. eapply asks_bind; [apply asks_check | intros; by apply asks_ret]. }
  intros [] t2 _. apply wp_bind, wp_modify, wp_bind.
  match goal with |- wp _ _ ?X => set (s0 := X) end.
  set (keep := rest_of s0).
  apply (wp_for_break_range (fun k s' => each_iface (loading k (fun I => if_VirtIfList I = [])) s' /\ rest_of s' = keep)).
  - split; [|done]. intros j I [-> _]%lookup_replicate_1. unfold loading. destruct (decide _); [done|].
    by rewrite decide_False by lia.
  - intros k s' Hk [HP E]. eapply wp_mono; [apply (wp_load_iface k s')|].
    + change (length (ifaces s')) with (rest_of s').2. rewrite E. change (0 <= k < 32). lia.
    + exact HP.
    + intros o s3 (-> & H3 & E3). split; [|by rewrite E3]. intros j I HI. by apply loading_next, H3.
  - intros s' [HP E]. apply wp_bind, wp_modify, wp_ret.
    pose proof (f_equal snd E) as El. pose proof (f_equal (fun x => x.1.1.1.2) E) as En.
    pose proof (f_equal (fun x => x.1.1.1.1) E) as Ed. pose proof (f_equal (fun x => x.1.1.2) E) as Eg. pose proof (f_equal (fun x => x.1.2) E) as Egs.
    clear E. split; [done|]. split; [exact En|]. split; [exact El|]. split; [|split; [exact Ed | split; [exact Eg | exact Egs]]].
    intros j I HI Hj. specialize (HP j I HI). unfold loading in HP. rewrite Z.max_r in HP by lia.
    by rewrite decide_False, decide_True in HP by lia.
Qed.
End Tables.

(** * The start-up *)

Section Boot.
Context `{HP0 : Platform, HB0 : Build, HA0 : AutoBuild} {C : Type}.
Context (fresh_iface : DML_WAN_IFACE) (fresh_vif : DML_VIRTUAL_IFACE) (fresh_group : WANMGR_IFACE_GROUP).
Implicit Type s : St C.

(** What PSM has to hold: the switch of the manager and the count of interfaces. *)
Definition switch_stored : Prop := forall h, let e := PsmGet "dmsb.wanmanager.wanenable" in
  answer h e = CCSP_SUCCESS /\ answer_s h e <> EmptyString.
Definition count_stored (n : Z) : Prop := forall h, let e := PsmGet "dmsb.wanmanager.wan.interfacecount" in
  answer h e = CCSP_SUCCESS /\ sscanf_d (answer_s h e) = Some n.

(** All of the data base but the configuration. *)
Definition tables s := (depth s, nifaces s, ngroups s, groups s, ifaces s).

Lemma asks_value name : Asks (C := C) (fun _ => True) (psm_value name).
Proof. unfold psm_value. repeat asks_step. Qed.
Lemma asks_starts p name : Asks (C := C) (fun _ => True) (psm_starts p name).
Proof. unfold psm_starts. eapply asks_bind; [apply asks_value | intros [] _; by apply asks_ret]. Qed.
Lemma asks_switch : switch_stored -> Asks (C := C) (fun o => o <> None) (psm_value "dmsb.wanmanager.wanenable").
Proof.
  intros Hs. unfold psm_value, psm_get. eapply asks_bind; [eapply (asks_bind (fun r => fst r = CCSP_SUCCESS /\ snd r <> EmptyString))|].
  - apply asks_call_s. apply Hs.
  - intros r [E1 E2]. apply (asks_ret (fun o => exists v, o = Some v /\ v <> EmptyString)). rewrite E1. by exists (snd r).
  - intros o (v & -> & Hv). apply asks_ret. by destruct v.
Qed.

Lemma wp_set_config f Q s :
  (forall s', tables s' = tables s -> Q tt s') -> wp (set_db (fun d => d <| w_Config ::= f |>)) Q s.
Proof. intros HQ. apply wp_modify. by apply HQ. Qed.
Lemma wp_conf s : switch_stored ->
  wp WanMgr_WanConfInit (fun r s' => r = ANSC_STATUS_SUCCESS /\ tables s' = tables s) s.
Proof.
  intros Hs. unfold WanMgr_WanConfInit. cbv zeta.
  apply wp_bind, (wp_asks _ _ _ _ (asks_switch Hs)). intros [v|] t H; [clear H | done].
  apply wp_bind, wp_ret.
  apply wp_bind, wp_set_config; intros s1 E1.
  apply wp_bind, (wp_asks _ _ _ _ (asks_value _)). intros remote t1 _. apply wp_bind, wp_set_config; intros s2 E2.
  apply wp_bind, (wp_asks _ _ _ _ (asks_value _)). intros delay t2 _. apply wp_bind, wp_set_config; intros s3 E3.
  assert (tables s3 = tables s) as E by (rewrite E3; etransitivity; [exact E2|]; exact E1).
  clear - E. revert s3 E.
  assert (Hstep : forall p name f (k : M (St C) ANSC_STATUS) s3,
    (forall s4, tables s4 = tables s -> wp k (fun r s' => r = ANSC_STATUS_SUCCESS /\ tables s' = tables s) s4) ->
    tables s3 = tables s ->
    wp (b <- psm_starts p name ;; when b (set_db (fun d => d <| w_Config ::= f |>)) ;; k)
      (fun r s' => r = ANSC_STATUS_SUCCESS /\ tables s' = tables s) s3).
  { intros p name f k s3 Hk E. apply wp_bind, (wp_asks _ _ _ _ (asks_starts _ _)). intros b u _. apply wp_bind, wp_when; intros _.
    - apply wp_set_config. intros s4 E4. apply Hk. rewrite E4. exact E.
    - apply Hk. exact E. }
  intros s3. do 5 (revert s3; intros s3; apply Hstep; clear s3; intros s3). intros E. by apply wp_ret.
Qed.

(** The groups start stopped, with nothing selected. *)
Lemma wp_groups s : allocates -> 0 <= ngroups s < 2 ^ 32 ->
  wp (WanMgr_Group_Configure fresh_group)
     (fun _ s' => depth s' = depth s /\ nifaces s' = nifaces s /\ ifaces s' = ifaces s
        /\ 0 <= ngroups s' < 2 ^ 32 /\ length (groups s') = Z.to_nat (ngroups s')
        /\ forall j G, groups s' !! j = Some G -> g_SelectedInterface G = 0 /\ g_groupIdx G = Z.of_nat j) s.
Proof.
  intros Hal Hn. unfold WanMgr_Group_Configure, DmlGetTotalNoOfGroups.
  apply wp_bind, wp_modify, wp_bind. eapply (wp_asks (fun _ => True)); [repeat asks_step | intros n t _].
  apply wp_bind. apply (wp_mono _ (fun _ s1 => (depth s1, nifaces s1, ifaces s1) = (S (depth s), nifaces s, ifaces s) /\ 0 <= ngroups s1 < 2 ^ 32)).
  { destruct n as [n|]; [apply wp_modify; split; [done|]; apply Z.mod_pos_bound; lia | by apply wp_ret]. }
  intros [] s1 [E Hn1]. apply wp_bind, wp_gets, wp_bind, (wp_asks _ _ _ _ (asks_allocate Hal _)). intros ok t1 ->.
  simpl negb. cbv iota. apply wp_bind, wp_modify, wp_bind. change (w_ulTotalNumbWanIfaceGroup (db s1)) with (ngroups s1). set (g := ngroups s1) in *.
  apply (wp_for_each_range (fun k s' => (depth s', nifaces s', ifaces s') = (depth s1, nifaces s1, ifaces s1) /\ ngroups s' = g
    /\ length (groups s') = Z.to_nat g /\ forall j G, groups s' !! j = Some G -> Z.of_nat j < k -> g_SelectedInterface G = 0 /\ g_groupIdx G = Z.of_nat j)).
  - split; [done|]. split; [done|]. split; [apply length_replicate | intros; lia].
  - intros k s' Hk (E' & Eg & Hl & HG).
    assert (is_Some (groups s' !! Z.to_nat k)) as [G HGk] by (apply lookup_lt_is_Some_2; lia).
    apply wp_bind. eapply wp_get_group; [exact HGk|].
    apply wp_bind. apply (wp_asks (fun G' => g_SelectedInterface G' = 0 /\ g_groupIdx G' = k)); [|intros G' t2 HG'].
    { unfold WanMgr_Read_GroupConf_FromPSM. eapply (asks_bind (fun _ => True)); [repeat asks_step | intros r _].
      eapply asks_bind; [apply (asks_if (fun G' => g_SelectedInterface G' = 0 /\ g_groupIdx G' = k)); apply asks_ret; by split|].
      intros G' HG'. eapply (asks_bind (fun _ => True)); [repeat asks_step | intros _ _; by apply asks_ret]. }
    eapply wp_upd_group; [exact HGk|]. split; [exact E'|]. split; [exact Eg|]. split; [unfold groups; rsimpl; rewrite length_alter; exact Hl|].
    intros j J. rewrite groups_alter. destruct (decide (Z.to_nat k = j)) as [<-|Hne].
    + intros (? & _ & ->)%fmap_Some _. destruct HG' as [HG' ->]. split; [exact HG' | symmetry; apply Z2Nat.id; lia].
    + intros HJ Hj. apply (HG j J HJ). lia.
  - intros s' (E' & Eg & Hl & HG). apply wp_bind, wp_modify, wp_ret.
    injection E as E1 E2 E3. injection E' as E1' E2' E3'. split; [change (pred (depth s') = depth s); lia|].
    split; [exact (eq_trans E2' E2)|]. split; [exact (eq_trans E3' E3)|].
    change (0 <= ngroups s' < 2 ^ 32 /\ length (groups s') = Z.to_nat (ngroups s')
      /\ forall j G, groups s' !! j = Some G -> g_SelectedInterface G = 0 /\ g_groupIdx G = Z.of_nat j). rewrite Eg. split; [done|]. split; [done|].
    intros j G HGj. apply (HG j G HGj). apply lookup_lt_Some in HGj. lia.
Qed.

(** The tables are as the threads need them. *)
Lemma loaded_bootable n s :
  0 <= n < 2 ^ 31 -> nifaces s = n -> n <= Z.of_nat (length (ifaces s)) ->
  each_iface (fun j I => Z.of_nat j < n -> ready j I) s -> depth s = 0%nat ->
  0 <= ngroups s < 2 ^ 32 -> length (groups s) = Z.to_nat (ngroups s) ->
  (forall j G, groups s !! j = Some G -> g_SelectedInterface G = 0) -> bootable (db s).
Proof.
  intros Hr En Hlen HI Hd Hng Hlg HG. assert (Forall (fun m => m = 0) (g_SelectedInterface <$> groups s)) as Hz.
  { apply Forall_fmap, Forall_lookup. intros j G HGj. by apply (HG j). }
  split; [|split; [|split; [|split; [exact Hd|split]]]].
  - unfold db_wf, wf_shape, shape_of. change (w_ulTotalNumbWanInterfaces (db s)) with (nifaces s). rewrite En, length_fmap.
    split; [exact (conj (proj1 Hr) Hlen)|]. split.
    + intros i v Hi. rewrite list_lookup_fmap. intros (I & HIi & ->)%fmap_Some. destruct (HI i I HIi Hi) as (_ & Hv & Hn & _).
      unfold wf_vifs, vifs_of. simpl. rewrite Hv. split.
      * intros Hnil. assert (0 ∈ range (if_NoOfVirtIfs I)) as Hin by (apply elem_of_range; lia). by rewrite Hnil in Hin; apply not_elem_of_nil in Hin.
      * intros k Hk. by apply elem_of_range.
    + change (0 <= ngroups s <= Z.of_nat (length (groups s))). lia.
  - split; [apply Hng|]. eapply Forall_impl; [exact Hz|]. simpl. lia.
  - change (nifaces s < 2 ^ 31). lia.
  - intros i Hi. unfold statuses. rewrite list_lookup_fmap. intros (I & HIi & E)%fmap_Some.
    change (Z.of_nat i < nifaces s) in Hi. rewrite En in Hi. destruct (HI i I HIi Hi) as (_ & _ & _ & Hs). rewrite Hs in E. discriminate.
  - exact Hz.
Qed.

Lemma loaded_keyed n s :
  nifaces s = n -> each_iface (fun j I => Z.of_nat j < n -> ready j I) s ->
  (forall j G, groups s !! j = Some G -> g_groupIdx G = Z.of_nat j) -> keyed s.
Proof.
  intros En HI HG. split; [|intros g G _; apply HG]. intros i I Hlt HIi. rewrite En in Hlt.
  destruct (HI i I HIi Hlt) as ((Hx & Hf) & Hv & _). split; [exact Hx|]. split; [|exact Hf]. rewrite Hv. apply range_NoDup.
Qed.

(** C29: the program starts on a good data base.  When PSM holds the switch and a
    count of at most 32 interfaces, every stored count of virtual interfaces is
    positive and memory is available, the start-up succeeds, whatever the other
    values in PSM are: the tables hold the interfaces counted, each with its
    virtual interfaces numbered from 0 and not selected, nothing is selected in the
    groups and the mutex is free, which is what the theorems about the threads
    start from; and every row carries the numbers the handlers of the data model
    find it by. *)
Theorem boot_bootable (d : WANMGR_DATA_ST) n (c : C) y t :
  allocates -> counts_virtual -> no_rows fresh_vif -> switch_stored -> count_stored n -> 0 <= n <= MAX_WAN_INTERFACE_ENTRY ->
  exists s', WanMgr_WanConfigInit fresh_iface fresh_vif fresh_group (mk_St c (WanMgr_Data_Init d) y t)
             = Some (ANSC_STATUS_SUCCESS, s')
    /\ bootable (db s') /\ nifaces s' = n /\ each_iface (fun j I => Z.of_nat j < n -> ready j I) s' /\ keyed s'.
Proof.
  intros Hal Hcv Hrows Hsw Hct Hn. apply wp_result. set (s := mk_St c _ y t). unfold WanMgr_WanConfigInit.
  apply wp_bind, wp_with_config. eapply wp_mono; [apply wp_conf; exact Hsw|]. intros r s1 [-> E1].
  rewrite bool_decide_eq_true_2 by done. simpl negb. cbv iota.
  assert (E2 : tables (unlocked s1) = tables s).
  { injection E1 as Ed En Eng Eg Ei. unfold tables. change (depth (unlocked s1)) with (pred (depth s1)). rewrite Ed.
    change (depth (locked s)) with (S (depth s)). replace (pred (S (depth s))) with (depth s) by lia.
    change (nifaces (unlocked s1)) with (nifaces s1). change (ngroups (unlocked s1)) with (ngroups s1).
    change (groups (unlocked s1)) with (groups s1). change (ifaces (unlocked s1)) with (ifaces s1).
    rewrite En, Eng, Eg, Ei. reflexivity. }
  apply wp_bind. eapply wp_mono; [apply (wp_groups _ Hal)|].
  { pose proof (f_equal (fun x => x.1.1.2) E2) as E. simpl in E. rewrite E. unfold s, ngroups. simpl. unfold MAX_INTERFACE_GROUP. lia. }
  intros r s2 (Ed & _ & _ & Hng & Hlg & HG).
  unfold WanMgr_WanDataInit. apply wp_bind, wp_modify, wp_bind.
  eapply wp_mono; [apply (wp_load_tables fresh_iface fresh_vif Hal Hcv Hrows n); [exact Hct | exact Hn]|].
  intros r' s3 (-> & Hni & Hl & HI & Ed3 & Eng & Eg). apply wp_bind, wp_modify, wp_ret. split; [done|].
  match goal with |- bootable (db ?X) /\ _ => set (s4 := X) end.
  split; [|split; [exact Hni | split; [exact HI | apply (loaded_keyed n); [exact Hni | exact HI|]]]].
  2: { intros j G. change (groups s4) with (groups s3). rewrite Eg. intros E. by apply (HG j). }
  apply (loaded_bootable n); [unfold MAX_WAN_INTERFACE_ENTRY in Hn; lia | exact Hni | | exact HI | | | | ].
  - change (n <= Z.of_nat (length (ifaces s3))). rewrite Hl. lia.
  - change (pred (depth s3) = 0%nat). rewrite Ed3. change (pred (S (depth s2)) = 0%nat). rewrite Ed.
    pose proof (f_equal (fun x => x.1.1.1.1) E2) as E. simpl in E. rewrite E. reflexivity.
  - change (0 <= ngroups s3 < 2 ^ 32). rewrite Eng. exact Hng.
  - change (length (groups s3) = Z.to_nat (ngroups s3)). rewrite Eg, Eng. exact Hlg.
  - intros j G. change (groups s4) with (groups s3). rewrite Eg. intros E. by apply (HG j).
Qed.
End Boot.

(** * A first boot *)

(** A store that answers every read with the number 1. *)
#[local] Instance ones_platform : Platform :=
  {| answer := fun _ _ => CCSP_SUCCESS; answer_s := fun _ _ => "1"%string; sysevent_fd := 3 |}.
#[local] Instance the_build : Build := sample_build.
#[local] Instance boot_build : AutoBuild :=
  {| AutoPolicy.PLATFORM_RASPBERRYPI := false; AUTOWAN_ENABLE := false; WAN_MANAGER_SELECTION_SCAN_TIMEOUT_DISABLE := false |}.

Lemma boot_bootable_witness :
  exists s', WanMgr_WanConfigInit zero_iface zero_vif zero_group
               (mk_St tt (WanMgr_Data_Init (sample_db [] [])) ∅ []) = Some (ANSC_STATUS_SUCCESS, s')
    /\ bootable (db s') /\ nifaces s' = 1 /\ each_iface (fun j I => Z.of_nat j < 1 -> ready j I) s' /\ keyed s'.
Proof.
  apply (boot_bootable zero_iface zero_vif zero_group (sample_db [] []) 1 tt ∅ []).
  - by intros h what.
  - intros h i e _ n E. vm_compute in E. injection E as <-. by vm_compute.
  - by split.
  - by intros h.
  - by intros h.
  - by vm_compute.
Defined.
