(* ===== verification/IfaceHelpers.v ===== *)
(** What the interface state machine calls outside [wanmgr_interface_sm.c]: the
    VLAN, PPP and IP-mode requests of [TR-181/middle_layer_src/wanmgr_rdkbus_utils.c],
    the default routes and boot events of [WanManager/wanmgr_net_utils.c], the
    service restarts of [wanmgr_sysevents.c], the connectivity check of
    [wanmgr_rbus_handler_apis.c] and [wanmgr_utils.c], and the LAN prefix of
    [wanmgr_dhcpv6_apis.c]. *)

From S2P Require Export LeasesV6.

Inductive WanBootEventState := WAN_INIT_START | WAN_INIT_COMPLETE.
#[export] Instance WanBootEventState_eq_dec : EqDecision WanBootEventState.
Proof. solve_decision. Defined.

Definition VLAN_COMPONENT_NAME : string := "eRT.com.cisco.spvtg.ccsp.vlanmanager".
Definition VLAN_DBUS_PATH : string := "/com/cisco/spvtg/ccsp/vlanmanager".

(** A command with one quoted argument. *)
Definition print_uptime (event : string) : string :=
  let quote := String (Ascii.ascii_of_nat 34) EmptyString in
  "print_uptime " +:+ quote +:+ event +:+ quote.

Section IfaceHelpers.
Context `{Platform} `{Build} `{MaptBuild} `{IfaceBuild} {C : Type}.
#[local] Abbreviation M := (Prelude.M (St C)).

Definition set_vlan (p : vif_ptr) (f : DML_VIRTUALIF_VLAN -> DML_VIRTUALIF_VLAN) : M unit :=
  upd_vif p (fun v => v <| v_VLAN ::= f |>).
Definition set_ppp (p : vif_ptr) (f : DATAMODEL_PPP -> DATAMODEL_PPP) : M unit :=
  upd_vif p (fun v => v <| v_PPP ::= f |>).

Definition telemetry (event : string) : M unit :=
  when ENABLE_FEATURE_TELEMETRY2_0 (call_ (ExtCall "t2_event_d" [event; "1"])).

(** ** Requests to the other components *)

Definition WanMgr_RdkBus_setWanIpInterfaceData (p : vif_ptr) : M unit :=
  v <- get_vif p ;;
  let dmQuery := ip_Interface (v_IP v) +:+ ".LowerLayers" in
  if ppp_Enable (v_PPP v) then
    WanMgr_RdkBus_SetParamValues PAM_COMPONENT_NAME PAM_DBUS_PATH dmQuery (ppp_Interface (v_PPP v)) ;; ret tt
  else when (vlan_Enable (v_VLAN v))
    (WanMgr_RdkBus_SetParamValues PAM_COMPONENT_NAME PAM_DBUS_PATH dmQuery (vlan_VLANInUse (v_VLAN v)) ;; ret tt).

(** The discovery timer is started when there is more than one VLAN to try. *)
Definition WanMgr_RdkBus_ConfigureVlan (p : vif_ptr) (VlanEnable : bool) : M ANSC_STATUS :=
  v <- get_vif p ;;
  when (VlanEnable && (1 <? vlan_NoOfInterfaceEntries (v_VLAN v))) (
    t <- clock_gettime ;;
    set_vlan p (fun x => x <| vlan_TimerStart := t |>)) ;;
  WanMgr_RdkBus_SetParamValues VLAN_COMPONENT_NAME VLAN_DBUS_PATH
    (vlan_VLANInUse (v_VLAN v) +:+ ".Enable") (bool_text VlanEnable).

(** With [DYNAMIC_CONFIGURE_PPP_LOWERLAYER] the interface takes the name of its
    VLAN and becomes the lower layer of the PPP interface. *)
Definition ppp_lower_layer (p : vif_ptr) : M ANSC_STATUS :=
  v <- get_vif p ;;
  name <- WanMgr_RdkBus_GetParamValues VLAN_COMPONENT_NAME VLAN_DBUS_PATH
            (vlan_VLANInUse (v_VLAN v) +:+ ".Name") ;;
  match name with
  | None => ret ANSC_STATUS_FAILURE
  | Some name =>
      upd_vif p (fun v => v <| v_Name := name |>) ;;
      WanMgr_RdkBus_SetParamValues PPPMGR_COMPONENT_NAME PPPMGR_DBUS_PATH
        (ppp_Interface (v_PPP v) +:+ ".LowerLayers")
        ("Device.X_RDK_WanManager.Interface." +:+ dec (s32 (v_baseIfIdx v + 1))
           +:+ ".VirtualInterface." +:+ dec (s32 (v_VirIfIdx v + 1)))
  end.
Definition WanManager_ConfigurePPPSession (p : vif_ptr) (PPPEnable : bool) : M ANSC_STATUS :=
  v <- get_vif p ;;
  syscfg_set_string "wan_physical_ifname" (v_Name v) ;;
  r <- (if DYNAMIC_CONFIGURE_PPP_LOWERLAYER then ppp_lower_layer p else ret ANSC_STATUS_SUCCESS) ;;
  if r ≠? ANSC_STATUS_SUCCESS then ret ANSC_STATUS_FAILURE
  else
    WanMgr_RdkBus_SetParamValues PPPMGR_COMPONENT_NAME PPPMGR_DBUS_PATH
      (ppp_Interface (v_PPP v) +:+ ".Enable") (bool_text PPPEnable).

Definition WanMgr_GetSelectedIPMode (p : vif_ptr) : M ANSC_STATUS :=
  set_ip p (fun x => x <| ip_SelectedMode := DUAL_STACK_MODE |>) ;;
  v <- get_vif p ;;
  if ip_ModeForceEnable (v_IP v) then ret ANSC_STATUS_SUCCESS
  else
    r <- call_s (PsmGet "Device.DeviceInfo.X_RDKCENTRAL-COM_RFC.Feature.IPModeEnable") ;;
    if fst r =? CCSP_SUCCESS then
      when (snd r ≟ "1") (set_ip p (fun x => x <| ip_SelectedMode := ip_PreferredMode x |>)) ;;
      ret ANSC_STATUS_SUCCESS
    else ret ANSC_STATUS_FAILURE.

Definition DmlSetVLANInUseToPSMDB (p : vif_ptr) : M unit :=
  v <- get_vif p ;;
  call_ (PsmSet ("dmsb.wanmanager.if." +:+ dec (s32 (v_baseIfIdx v + 1)) +:+ ".VirtualInterface."
                   +:+ dec (s32 (v_VirIfIdx v + 1)) +:+ ".VlanInUse") (vlan_VLANInUse (v_VLAN v))).

(** ** Routes, boot events, services *)

(** The mode changed: the routes of the other mode are removed. *)
Definition WanManager_DelDefaultGatewayRoute (DeviceNwMode : DEVICE_NETWORKING_MODE)
    (DeviceNwModeChange : bool) : M unit :=
  let ModeConfigToDelete :=
    if DeviceNwModeChange then (if DeviceNwMode ≟ GATEWAY_MODE then MODEM_MODE else GATEWAY_MODE)
    else DeviceNwMode in
  if ModeConfigToDelete ≟ GATEWAY_MODE then WanManager_DoSystemAction "route del default 2>/dev/null"
  else
    WanManager_DoSystemAction "ip rule flush table MODEM" ;;
    WanManager_DoSystemAction "ip ro flush table MODEM" ;;
    WanManager_DoSystemAction "ip route flush cache".

Definition WanManager_AddDefaultGatewayRoute (DeviceNwMode : DEVICE_NETWORKING_MODE) (d : WANMGR_IPV4_DATA)
    : M unit :=
  match DeviceNwMode with
  | GATEWAY_MODE =>
      when (IsValidIpv4Address (v4_gateway d) && negb (IsZeroIpvxAddress AF_SELECT_IPV4 (Some (v4_gateway d))))
        (WanManager_DoSystemAction ("route add default gw " +:+ v4_gateway d +:+ " dev " +:+ v4_ifname d))
  | MODEM_MODE =>
      WanManager_DoSystemAction "ip rule add iif brWAN table MODEM" ;;
      WanManager_DoSystemAction
        ("ip route add default via " +:+ v4_gateway d +:+ " dev " +:+ v4_ifname d +:+ " table MODEM") ;;
      WanManager_DoSystemAction "ip route flush cache"
  end.

Definition WanManager_PrintBootEvents (state : WanBootEventState) : M unit :=
  up <- with_config (
    up <- get_db (fun d => cfg_BootToWanUp (w_Config d)) ;;
    when (negb up && (state ≟ WAN_INIT_COMPLETE))
      (set_db (fun d => d <| w_Config; cfg_BootToWanUp := true |>)) ;;
    ret up) ;;
  when (negb up)
    match state with
    | WAN_INIT_START => v_secure_system (print_uptime "Waninit_start")
    | WAN_INIT_COMPLETE =>
        v_secure_system (print_uptime "Waninit_complete") ;;
        v_secure_system (print_uptime "boot_to_wan_uptime")
    end.

Definition wanmanager_mapt_feature : M bool :=
  r <- syscfg_get "MAPT_Enable" ;;
  ret (match r with Some v => v ≟ "true" | None => false end).

Definition wanmgr_sshd_restart : M unit := sysevent_set "sshd-restart" EmptyString.
Definition wanmgr_snmpv3_restart : M unit :=
  r <- call (ExtCall "access" ["/lib/rdk/handlesnmpv3.sh"]) ;;
  when (r =? 0) (v_secure_system "sh /lib/rdk/handlesnmpv3.sh &").
Definition wanmgr_services_restart : M unit :=
  wanmgr_sshd_restart ;;
  when SNMPV3_ENABLED wanmgr_snmpv3_restart ;;
  when CBR2_PRODUCT_REQ (v_secure_system "sh /etc/network_response.sh &").

Definition wanmgr_firewall_restart : M unit := sysevent_set SYSEVENT_FIREWALL_RESTART EmptyString.

(** ** Connectivity check *)

(** The event is handed to a new thread; the arguments of the thread are not
    numbers: the call records the event by its value. *)
Definition wcc_event_val (e : WCC_EVENT) : Z :=
  match e with WCC_STOP => 0 | WCC_START => 1 | WCC_RESTART => 2 end.
Definition WanMgr_Configure_TAD_WCC (p : vif_ptr) (Event : WCC_EVENT) : M ANSC_STATUS :=
  v <- get_vif p ;;
  let d4 := ip_Ipv4Data (v_IP v) in
  let d6 := ip_Ipv6Data (v_IP v) in
  if (Event ≠? WCC_STOP) && (v4_dnsServer d4 ≟ EmptyString) && (v4_dnsServer1 d4 ≟ EmptyString)
     && (v6_nameserver d6 ≟ EmptyString) && (v6_nameserver1 d6 ≟ EmptyString)
  then ret ANSC_STATUS_FAILURE
  else
    ok <- call (ExtCall "malloc" ["TAD_WCC_Event"]) ;;
    if ok =? 0 then crash
    else
      r <- call (PthreadCreate "WanMgr_Configure_WCC_Thread" [wcc_event_val Event]) ;;
      if negb (r =? 0) then ret ANSC_STATUS_FAILURE
      else
        set_ip p (fun x => x <| ip_RestartConnectivityCheck := false |>) ;;
        ret ANSC_STATUS_SUCCESS.

Definition WanManager_StartIpoeHealthCheckService (ifName : string) : M Z :=
  pid <- call (ExtCall "LaunchApp" ["ipoe_health_check"; "-i " +:+ ifName]) ;;
  ret (if pid <? 0 then 0 else pid).
Definition WanManager_StopIpoeHealthCheckService (IhcPid : Z) : M ANSC_STATUS :=
  if IhcPid =? 0 then ret ANSC_STATUS_FAILURE
  else
    call_ (ExtCall "util_signalProcess" [dec IhcPid]) ;;
    call_ (ExtCall "CollectApp" [dec IhcPid]) ;;
    ret ANSC_STATUS_SUCCESS.

(** ** The LAN prefix *)

(** The [/64] of the site prefix replaces the previous prefix of the LAN,
    which is kept under its own names when it is another one. *)
Definition lan_prefix_publish (lanPrefix sitePrefix : string) : M unit :=
  previousPrefix <- sysevent_get "ipv6_prefix" ;;
  previousPrefix_vldtime <- sysevent_get "ipv6_prefix_vldtime" ;;
  previousPrefix_prdtime <- sysevent_get "ipv6_prefix_prdtime" ;;
  (if previousPrefix ≟ lanPrefix then
     sysevent_set "previous_ipv6_prefix" EmptyString ;;
     sysevent_set "previous_ipv6_prefix_vldtime" "0" ;;
     sysevent_set "previous_ipv6_prefix_prdtime" "0"
   else when (previousPrefix ≠? EmptyString) (
     sysevent_set "previous_ipv6_prefix" previousPrefix ;;
     sysevent_set "previous_ipv6_prefix_vldtime" previousPrefix_vldtime ;;
     sysevent_set "previous_ipv6_prefix_prdtime" previousPrefix_prdtime)) ;;
  sysevent_set "ipv6_prefix" lanPrefix ;;
  sysevent_set "tr_erouter0_dhcpv6_client_v6pref" sitePrefix.

(** An address on the LAN bridge; the result is the global address. *)
Definition lan_global_ip (d : WANMGR_IPV6_DATA) : M string :=
  r <- call_s (ExtCall "dhcpv6_assign_global_ip" [v6_sitePrefix d; COSA_DML_DHCPV6_SERVER_IFNAME]) ;;
  when (fst r =? 0) (
    when (negb COMCAST_PLATFORM)
      (WanManager_DoSystemAction ("ip -6 addr add " +:+ snd r +:+ "/64 dev " +:+ COSA_DML_DHCPV6_SERVER_IFNAME
         +:+ " valid_lft " +:+ dec (s32 (v6_prefixVltime d))
         +:+ " preferred_lft " +:+ dec (s32 (v6_prefixPltime d)))) ;;
    sysevent_set "lan_prefix_v6" (prefix_length_text (v6_sitePrefix d)) ;;
    sysevent_set "lan_ipaddr_v6" (snd r) ;;
    sysevent_set "lan_prefix_set" (snd r)) ;;
  WanManager_DoSystemAction
    ("ip -6 route add " +:+ v6_sitePrefix d +:+ " dev " +:+ COSA_DML_DHCPV6_SERVER_IFNAME) ;;
  ret (if fst r =? 0 then snd r else EmptyString).

Definition lan_publish_prefix (p : vif_ptr) (d : WANMGR_IPV6_DATA) : M unit :=
  if (v6_prefixCmd d =? IFADDRCONF_ADD) && negb (v6_prefixPltime d =? 0) && negb (v6_prefixVltime d =? 0) then
    sysevent_set "ipv6_prefix_vldtime" (dec (s32 (v6_prefixVltime d))) ;;
    sysevent_set "ipv6_prefix_prdtime" (dec (s32 (v6_prefixPltime d))) ;;
    syscfg_set_string "previousipv6_prefix" (v6_sitePrefixOld d) ;;
    syscfg_set_string "ipv6_prefix" (v6_sitePrefix d) ;;
    match before_slash (v6_sitePrefix d) with
    | None => ret tt
    | Some prefix =>
        set_ip p (fun x => x <| ip_Ipv6Data; v6_pdIfAddress := prefix +:+ "1/64" |>) ;;
        syscfg_set_string "ipv6_prefix_address" (prefix +:+ "1/64") ;;
        sysevent_set "tr_brlan0_dhcpv6_server_v6addr" (prefix +:+ "1") ;;
        sysevent_set "ipv6_prefix" (prefix +:+ "/64") ;;
        sysevent_set "lan_prefix" (prefix +:+ "/64")
    end
  else syscfg_prefix_clear.

(** The servers of the LAN are restarted. *)
Definition lan_restart (globalIP : string) : M Z :=
  if LAN_MGR_SUPPORT then
    sysevent_set "dhcpv6_raserver-restart" EmptyString ;;
    sysevent_set "redirect_URL" EmptyString ;;
    sysevent_set "dhcpv6-restart" EmptyString ;;
    ret 0
  else
    sysevent_set "zebra-restart" EmptyString ;;
    sysevent_set COSA_DML_DHCPV6S_ADDR_SYSEVENT_NAME globalIP ;;
    sysevent_set "lan-restart" "1" ;;
    if DHCPV6_PREFIX_DELEGATION then sysevent_set "dhcpv6_server-restart" EmptyString ;; ret 0
    else
      fd <- call (ExtCall "open" ["/tmp/ccsp-dhcpv6-server-restart-fifo.txt"]) ;;
      if fd <? 0 then ret 1
      else
        call_ (ExtCall "write" ["restart"]) ;;
        call_ (ExtCall "close" []) ;;
        ret 0.

Definition setUpLanPrefixIPv6 (p : vif_ptr) : M Z :=
  v <- get_vif p ;;
  let d := ip_Ipv6Data (v_IP v) in
  sysevent_set "current_wan_ifname" (v6_ifname d) ;;
  WanMgr_Configure_accept_ra v true ;;
  match before_slash (v6_sitePrefix d) with
  | Some prefix => when (3 <? 48 - strlen prefix) (lan_prefix_publish (prefix +:+ "/64") (v6_sitePrefix d))
  | None => ret tt
  end ;;
  if negb FEATURE_RDKB_CONFIGURABLE_WAN_INTERFACE then ret 0
  else
    WanMgr_RdkBus_setWanIpInterfaceData p ;;
    globalIP <- (if negb (v6_prefixPltime d =? 0) && negb (v6_prefixVltime d =? 0)
                 then lan_global_ip d else ret EmptyString) ;;
    when (v6_addrAssigned d) (
      if v6_addrCmd d =? IFADDRCONF_ADD then
        syscfg_set_string "wan_ipv6addr" (v6_address d) ;;
        sysevent_set ("tr_" +:+ v_Name v +:+ "_dhcpv6_client_v6addr") (v6_address d)
      else syscfg_set_string "wan_ipv6addr" EmptyString) ;;
    when (v6_prefixAssigned d && (v6_sitePrefix d ≠? EmptyString)) (lan_publish_prefix p d) ;;
    when (v6_domainNameAssigned d && (v6_domainName d ≠? EmptyString))
      (sysevent_set "ipv6_domain" (v6_domainName d)) ;;
    lan_restart globalIP.
End IfaceHelpers.
#[export] Hint Unfold set_vlan set_ppp : monad.
