(* ===== verification/Status.v ===== *)
(** The status the manager reports: the sorted interface lists, the active name
    servers and the virtual interface status of
    [source/TR-181/middle_layer_src/wanmgr_rdkbus_apis.c]. *)

From S2P Require Export IfaceHelpers.

(** * The list sorted by priority *)

(** The texts are what [calloc] and [snprintf] leave in the node. *)
Record IFACE_INFO := mk_IFACE_INFO {
  ii_Priority : Z;
  ii_AvailableStatus : string;
  ii_ActiveStatus : string;
  ii_CurrentActive : string;
  ii_CurrentStandby : string
}.

(** The walk past the nodes of a smaller priority value. *)
Fixpoint insert_after (l : list IFACE_INFO) (new_node : IFACE_INFO) : list IFACE_INFO :=
  match l with
  | current :: next =>
      if ii_Priority current <? ii_Priority new_node then current :: insert_after next new_node
      else new_node :: l
  | [] => [new_node]
  end.
Definition SortedInsert (head_ref : list IFACE_INFO) (new_node : IFACE_INFO) : list IFACE_INFO :=
  match head_ref with
  | [] => [new_node]
  | head :: next =>
      if ii_Priority new_node <=? ii_Priority head then new_node :: head_ref
      else head :: insert_after next new_node
  end.

(** One [strcat] of the loops: the separator goes between two texts that are
    not empty. *)
Definition join (sep acc x : string) : string :=
  (if (0 <? strlen acc) && (0 <? strlen x) then acc +:+ sep else acc) +:+ x.
Definition join_all (sep : string) (l : list string) : string := foldl (join sep) EmptyString l.

(** * The active name servers *)

(** A line of [resolv.conf]; [None] where [strtok] returned [NULL] and the
    result is used. *)
Definition active_dns_line (dns line : string) : option string :=
  '(token, rest) ← strtok " " line;
  if token ≟ "nameserver" then
    '(token, _) ← strtok " " rest;
    let token := match strchr (Ascii.ascii_of_nat 10) token with Some (t, _) => t | None => token end in
    Some ((if 0 <? strlen dns then dns +:+ "," else dns) +:+ token)
  else Some dns.
Fixpoint active_dns_lines (lines : list string) (dns : string) : option string :=
  match lines with
  | [] => Some dns
  | line :: lines => dns ← active_dns_line dns line; active_dns_lines lines dns
  end.

Definition RESOLV_CONF_FILE : string := "/etc/resolv.conf".

(** * Texts of the status *)

(** The numeric value of the enumerator. *)
Definition wan_status_val (s : DML_WAN_IFACE_STATUS) : Z :=
  match s with
  | WAN_IFACE_STATUS_DISABLED => 1
  | WAN_IFACE_STATUS_INITIALISING => 2
  | WAN_IFACE_STATUS_VALIDATING => 3
  | WAN_IFACE_STATUS_VALID => 4
  | WAN_IFACE_STATUS_UP => 5
  | WAN_IFACE_STATUS_INVALID => 6
  | WAN_IFACE_STATUS_STANDBY => 7
  end.
Definition wan_status_text `{IfaceBuild} (s : DML_WAN_IFACE_STATUS) : string :=
  match s with
  | WAN_IFACE_STATUS_INITIALISING => "Initialising"
  | WAN_IFACE_STATUS_VALIDATING => "Validating"
  | WAN_IFACE_STATUS_UP => "Up"
  | WAN_IFACE_STATUS_STANDBY => if WAN_MANAGER_UNIFICATION_ENABLED then "Up" else "Standby"
  | WAN_IFACE_STATUS_VALID => "Standby"
  | WAN_IFACE_STATUS_INVALID => "Invalid"
  | WAN_IFACE_STATUS_DISABLED => "Disabled"
  end.

Section Status.
Context `{Platform} `{Build} `{MaptBuild} `{IfaceBuild} {C : Type}.
#[local] Abbreviation M := (Prelude.M (St C)).

Definition Update_Current_ActiveDNS : M (option string) :=
  r <- call_s (ExtCall "fopen" [RESOLV_CONF_FILE]) ;;
  if fst r =? 0 then ret None
  else
    dns <- deref (active_dns_lines (fgets_lines 64 (snd r)) EmptyString) ;;
    call_ (ExtCall "fclose" []) ;;
    ret (Some dns).

(** The interface carries the traffic: it is selected, up, and up at its other
    end when it is remote. *)
Definition iface_in_use (I : DML_WAN_IFACE) (v : DML_VIRTUAL_IFACE) : bool :=
  (sel_Status (if_Selection I) ≟ WAN_IFACE_ACTIVE)
  && (((if_IfaceType I ≟ REMOTE_IFACE) && (v_Status v ≟ WAN_IFACE_STATUS_UP)
       && (v_RemoteStatus v ≟ WAN_IFACE_STATUS_UP))
      || ((if_IfaceType I ≟ LOCAL_IFACE) && (v_Status v ≟ WAN_IFACE_STATUS_UP))).

Definition iface_info (devMode : DEVICE_NETWORKING_MODE) (I : DML_WAN_IFACE) (v : DML_VIRTUAL_IFACE)
    : IFACE_INFO :=
  let sel := sel_Status (if_Selection I) in
  {| ii_Priority := sel_Priority (if_Selection I);
     ii_AvailableStatus := if_DisplayName I +:+
       (if if_BaseInterfaceStatus I ≟ WAN_IFACE_PHY_STATUS_UP then ",1" else ",0");
     ii_ActiveStatus := if_DisplayName I +:+ (if iface_in_use I v then ",1" else ",0");
     ii_CurrentActive :=
       if sel ≟ WAN_IFACE_ACTIVE
       then (if devMode ≟ GATEWAY_MODE then v_Name v else MESH_IFNAME) else EmptyString;
     ii_CurrentStandby := if sel ≟ WAN_IFACE_SELECTED then v_Name v else EmptyString |}.

(** The list and the text of [CurrentWanStatus] so far. *)
Definition status_acc : Type := list IFACE_INFO * string.
Definition status_vif (devMode : DEVICE_NETWORKING_MODE) (i : iface_ptr) (virIf_id : Z) (acc : status_acc)
    : M (status_acc * option unit) :=
  I <- get_iface i ;;
  k <- deref (WanMgr_getVirtualIfaceById (if_VirtIfList I) virIf_id) ;;
  v <- get_vif (i, k) ;;
  p <- call (ExtCall "calloc" ["IFACE_INFO"]) ;;
  if p =? 0 then crash
  else
    let active := sel_Status (if_Selection I) ≟ WAN_IFACE_ACTIVE in
    when (active && FEATURE_RDKB_CONFIGURABLE_WAN_INTERFACE && (devMode ≟ GATEWAY_MODE))
      (WanMgr_RdkBus_setWanIpInterfaceData (i, k)) ;;
    ret (SortedInsert (fst acc) (iface_info devMode I v),
         if active then (if v_Status v ≟ WAN_IFACE_STATUS_UP then "Up" else "Down") else snd acc, None).
Definition status_iface (devMode : DEVICE_NETWORKING_MODE) (k : Z) (acc : status_acc)
    : M (status_acc * option unit) :=
  acc <- with_iface acc k (fun i =>
    I <- get_iface i ;;
    if sel_Enable (if_Selection I) then
      r <- for_acc (range (if_NoOfVirtIfs I)) acc (status_vif devMode i) ;; ret (fst r)
    else ret acc) ;;
  ret (acc, None).

Definition publish_change (name prev value : string) : M unit :=
  when RBUS_BUILD_FLAG_ENABLE (call_ (ExtCall "rbusEvent_Publish" [name; prev; value])).

(** A text of the configuration that changed is stored; the result is whether
    it did, with the previous one. *)
Definition config_text (get : DML_WANMGR_CONFIG -> string)
    (put : DML_WANMGR_CONFIG -> DML_WANMGR_CONFIG) (value : string) : M (option string) :=
  prev <- get_db (fun d => get (w_Config d)) ;;
  if differ prev value then set_db (fun d => d <| w_Config ::= put |>) ;; ret (Some prev)
  else ret None.

Definition publish_if (name value : string) (prev : option string) : M unit :=
  match prev with
  | Some prev => publish_change name prev value
  | None => ret tt
  end.

Definition config_dns : M (option string * string) :=
  dns <- Update_Current_ActiveDNS ;;
  match dns with
  | None => ret (None, EmptyString)
  | Some dns =>
      prev <- config_text cfg_CurrentActiveDNS (fun c => c <| cfg_CurrentActiveDNS := dns |>) dns ;;
      when (negb (bool_decide (prev = None))) (telemetry "SYS_INFO_DNS_updated") ;;
      ret (prev, dns)
  end.

(** The buffers of the four lists hold 64 bytes; [strcat] does not check. *)
Definition Update_Interface_Status : M unit :=
  devMode <- with_config (get_db (fun d => cfg_DeviceNwMode (w_Config d))) ;;
  TotalIfaces <- WanMgr_IfaceData_GetTotalWanIface ;;
  r <- for_acc (range TotalIfaces) ([], "Down") (status_iface devMode) ;;
  let '(head, CurrentWanStatus) := fst r in
  let CurrentActive := join_all "," (ii_CurrentActive <$> head) in
  let CurrentStandby := join_all "," (ii_CurrentStandby <$> head) in
  let Available := join_all "|" (ii_AvailableStatus <$> head) in
  let Active := join_all "|" (ii_ActiveStatus <$> head) in
  changes <- with_config (
    av <- config_text cfg_InterfaceAvailableStatus (fun c => c <| cfg_InterfaceAvailableStatus := Available |>) Available ;;
    ac <- config_text cfg_InterfaceActiveStatus (fun c => c <| cfg_InterfaceActiveStatus := Active |>) Active ;;
    dns <- config_dns ;;
    cur <- (if 0 <? strlen CurrentActive
            then config_text cfg_CurrentActiveInterface (fun c => c <| cfg_CurrentActiveInterface := CurrentActive |>) CurrentActive
            else ret None) ;;
    when RBUS_BUILD_FLAG_ENABLE (
      old <- get_db (fun d => cfg_CurrentStatus (w_Config d)) ;;
      when (differ old CurrentWanStatus) (
        publish_change "Device.X_RDK_WanManager.CurrentStatus" old CurrentWanStatus ;;
        set_db (fun d => d <| w_Config; cfg_CurrentStatus := CurrentWanStatus |>))) ;;
    sb <- config_text cfg_CurrentStandbyInterface (fun c => c <| cfg_CurrentStandbyInterface := CurrentStandby |>) CurrentStandby ;;
    ret (av, ac, dns, cur, sb)) ;;
  let '(av, ac, dns, cur, sb) := changes in
  publish_if "Device.X_RDK_WanManager.CurrentActiveInterface" CurrentActive cur ;;
  publish_if "Device.X_RDK_WanManager.CurrentStandbyInterface" CurrentStandby sb ;;
  publish_if "Device.X_RDK_WanManager.InterfaceAvailableStatus" Available av ;;
  publish_if "Device.X_RDK_WanManager.InterfaceActiveStatus" Active ac ;;
  publish_if "Device.X_RDK_WanManager.CurrentActiveDNS" (snd dns) (fst dns).

(** The previous status is one static variable for all interfaces. *)
Definition WanMgr_Publish_WanStatus (IfaceIndex VirId : Z) : M unit :=
  r <- with_iface None IfaceIndex (fun i =>
    I <- get_iface i ;;
    k <- deref (WanMgr_getVirtualIfaceById (if_VirtIfList I) VirId) ;;
    v <- get_vif (i, k) ;;
    ret (Some (v_Status v, if_WanStatusSub I))) ;;
  match r with
  | None => ret tt
  | Some (status, sub) =>
      prev <- get_db w_PrevWanStatus ;;
      when (negb (wan_status_val status =? prev)) (
        set_db (fun d => d <| w_PrevWanStatus := wan_status_val status |>) ;;
        when (negb (sub =? 0) && RBUS_BUILD_FLAG_ENABLE) (
          let cpe := "Device.X_RDK_WanManager.CPEInterface." +:+ dec (u32 (IfaceIndex + 1)) +:+ ".Wan.Status" in
          WanMgr_Rbus_EventPublishHandler
            (if WAN_MANAGER_UNIFICATION_ENABLED
             then "Device.X_RDK_WanManager.Interface." +:+ dec (u32 (IfaceIndex + 1))
                    +:+ ".VirtualInterface." +:+ dec (u32 (VirId + 1)) +:+ ".Status"
             else cpe) (wan_status_text status) ;;
          when WAN_MANAGER_UNIFICATION_ENABLED
            (WanMgr_Rbus_EventPublishHandler cpe (wan_status_text status))))
  end.
End Status.
