(* ===== verification/IfaceActions.v ===== *)
(** The procedures of [source/WanManager/wanmgr_interface_sm.c] that are no
    states: MAP-T on the kernel, the links found after a restart, the
    supervision of the DHCP clients, the markings, and the connectivity check.

    [pWanIfaceCtrl->pIfaceData] is [i] and the virtual interface of number
    [VirIfIdx] in it is [p]: every pass of the thread resolves them once, with
    the lock held until its end, and would stop there on [NULL]; the [NULL]
    tests of the procedures themselves are unreachable. *)

From S2P Require Export Status.

Inductive wanmgr_ihc_status_t := IHC_STOPPED | IHC_STARTED.
#[export] Instance wanmgr_ihc_status_t_eq_dec : EqDecision wanmgr_ihc_status_t.
Proof. solve_decision. Defined.

Record WanMgr_IfaceSM_Controller_t := mk_IfaceSM_Controller {
  ic_WanEnable : bool;
  ic_interfaceIdx : Z;
  ic_VirIfIdx : Z;
  ic_IhcPid : Z;
  ic_IhcV4Status : wanmgr_ihc_status_t;
  ic_IhcV6Status : wanmgr_ihc_status_t;
  ic_pIfaceData : option iface_ptr;
  ic_eCurrentState : eWanState_t;
  ic_DeviceNwMode : DEVICE_NETWORKING_MODE;
  ic_DeviceNwModeChanged : bool
}.
#[export] Instance IfaceSM_Controller_settable : Settable WanMgr_IfaceSM_Controller_t :=
  settable! mk_IfaceSM_Controller
  <ic_WanEnable; ic_interfaceIdx; ic_VirIfIdx; ic_IhcPid; ic_IhcV4Status; ic_IhcV6Status;
   ic_pIfaceData; ic_eCurrentState; ic_DeviceNwMode; ic_DeviceNwModeChanged>.

#[local] Abbreviation IC := WanMgr_IfaceSM_Controller_t.

Section IfaceActions.
Context `{Platform} `{Build} `{MaptBuild} `{IfaceBuild}.
#[local] Abbreviation M := (Prelude.M (St IC)).

(** ** MAP-T on the kernel *)

(** The packet acceleration of the platforms that have it. *)
Definition mapt_acceleration (value : string) : M unit :=
  r <- call (ExtCall "access" ["/proc/sys/net/flowmgr/disable_mapt_accel"]) ;;
  when (r =? 0)
    (call_ (ExtCall "sysctl_iface_set" ["/proc/sys/net/flowmgr/disable_mapt_accel"; value])).
Definition wan_setUpMapt : M Z :=
  mapt_acceleration "0" ;;
  loaded <- isModuleLoaded "nat46" ;;
  if loaded : bool then ret 0
  else
    r <- WanManager_DoSystemActionWithStatus "insmod /lib/modules/`uname -r`/extra/nat46.ko zero_csum_pass=1" ;;
    ret (if r =? 0 then 0 else -1).
Definition wan_tearDownMapt : M Z :=
  loaded <- isModuleLoaded "nat46" ;;
  when loaded (WanManager_DoSystemAction ("echo del " +:+ MAP_INTERFACE +:+ " > /proc/net/nat46/control")) ;;
  mapt_acceleration "3" ;;
  ret 0.

(** ** The links after a restart *)

Definition WanMgr_RdkBus_GetParamValueFromAnyComp (dmQuery : string) : M (option string) :=
  r <- call_s (ExtCall "GetParamValueFromAnyComp" [dmQuery]) ;;
  ret (if fst r =? CCSP_SUCCESS then Some (snd r) else None).

(** The value of a failed query is the one the buffer had. *)
Definition WanMgr_RestartFindExistingLink (i : iface_ptr) (p : vif_ptr) : M bool :=
  I <- get_iface i ;;
  r <- (if strstr (if_BaseInterface I) "Cellular" then
      value <- WanMgr_RdkBus_GetParamValueFromAnyComp (if_BaseInterface I +:+ ".X_RDK_LinkAvailableStatus") ;;
      let dmValue := default EmptyString value in
      when (dmValue ≟ "true") (
        set_vlan p (fun x => x <| vlan_Status := WAN_IFACE_LINKSTATUS_UP |>) ;;
        upd_vif p (fun v => v <| v_Name := "wwan0" |>)) ;;
      ret (dmValue, dmValue ≟ "true")
    else ret (EmptyString, false)) ;;
  let '(dmValue, found) := r in
  v <- get_vif p ;;
  found <- (if ppp_Enable (v_PPP v) && (0 <? strlen (ppp_Interface (v_PPP v))) then
      value <- WanMgr_RdkBus_GetParamValueFromAnyComp (ppp_Interface (v_PPP v) +:+ ".Status") ;;
      if default EmptyString value ≟ "Up" then
        set_ppp p (fun x => x <| ppp_LinkStatus := WAN_IFACE_PPP_LINK_STATUS_UP |>
                              <| ppp_IPV6CPStatus := WAN_IFACE_IPV6CP_STATUS_UP |>) ;;
        ret true
      else ret (match value with None => false | Some _ => found end)
    else ret found) ;;
  v <- get_vif p ;;
  if vlan_Enable (v_VLAN v) && (0 <? strlen (vlan_VLANInUse (v_VLAN v))) then
    value <- WanMgr_RdkBus_GetParamValueFromAnyComp (vlan_VLANInUse (v_VLAN v) +:+ ".Status") ;;
    if default dmValue value ≟ "Up" then
      set_vlan p (fun x => x <| vlan_Status := WAN_IFACE_LINKSTATUS_UP |>) ;;
      Force_IPv6_toggle (v_Name v) ;;
      ret true
    else ret (match value with None => false | Some _ => found end)
  else ret found.

(** ** QoS markings *)

(** The marking table of the interface is a list of the C library: the answers
    are whether it has the entry and the mark and priority in it. *)
Definition WanManager_ConfigureMarking (p : vif_ptr) : M unit :=
  v <- get_vif p ;;
  for_each (range (vlan_NoOfMarkingEntries (v_VLAN v))) (fun Markingid =>
    v <- get_vif p ;;
    k <- deref (WanMgr_getVirtMakingById (vlan_VirtMarking (v_VLAN v)) Markingid) ;;
    marking <- deref (vlan_VirtMarking (v_VLAN v) !! k) ;;
    r <- call_s (ExtCall "AnscSListGetEntryByIndex" ["Marking"; dec (mk_Entry marking)]) ;;
    when (negb (fst r =? 0))
      (WanManager_DoSystemAction ("ip link set " +:+ v_Name v +:+ " type vlan egress-qos-map " +:+ snd r))).

(** ** Connectivity check *)

Definition WanMgr_IfaceSM_IHC_Init : M unit :=
  set_ctl (fun c => c <| ic_IhcPid := 0 |> <| ic_IhcV4Status := IHC_STOPPED |>
                      <| ic_IhcV6Status := IHC_STOPPED |>).
Definition WanManager_StopIHC : M ANSC_STATUS :=
  pid <- get_ctl ic_IhcPid ;;
  r <- WanManager_StopIpoeHealthCheckService pid ;;
  if r ≟ ANSC_STATUS_FAILURE then ret ANSC_STATUS_FAILURE
  else WanMgr_IfaceSM_IHC_Init ;; ret ANSC_STATUS_SUCCESS.

Definition WanMgr_StartConnectivityCheck (p : vif_ptr) : M unit :=
  v <- get_vif p ;;
  let x := v_IP v in
  if ip_ConnectivityCheckRunning x && negb (ip_RestartConnectivityCheck x) then ret tt
  else
    match ip_ConnectivityCheckType x with
    | WAN_CONNECTIVITY_TYPE_TAD =>
        WanMgr_Configure_TAD_WCC p
          (if ip_ConnectivityCheckRunning x && ip_RestartConnectivityCheck x then WCC_RESTART else WCC_START) ;;
        set_ip p (fun x => x <| ip_ConnectivityCheckRunning := true |>)
    | WAN_CONNECTIVITY_TYPE_IHC =>
        IhcPid <- get_ctl ic_IhcPid ;;
        when (FEATURE_IPOE_HEALTH_CHECK && (v_Status v ≟ WAN_IFACE_STATUS_UP) && (IhcPid <=? 0)) (
          pid <- WanManager_StartIpoeHealthCheckService (v_Name v) ;;
          when (0 <? pid) (set_ctl (fun c => c <| ic_IhcPid := pid |>)) ;;
          set_ip p (fun x => x <| ip_ConnectivityCheckRunning := true |>))
    | WAN_CONNECTIVITY_TYPE_NO_CHECK => ret tt
    end.

Definition WanMgr_StopConnectivityCheck (p : vif_ptr) : M unit :=
  v <- get_vif p ;;
  if negb (ip_ConnectivityCheckRunning (v_IP v)) then ret tt
  else
    match ip_ConnectivityCheckType (v_IP v) with
    | WAN_CONNECTIVITY_TYPE_TAD => WanMgr_Configure_TAD_WCC p WCC_STOP ;; ret tt
    | WAN_CONNECTIVITY_TYPE_IHC =>
        IhcPid <- get_ctl ic_IhcPid ;;
        when (FEATURE_IPOE_HEALTH_CHECK && (0 <? IhcPid)) (WanManager_StopIHC ;; ret tt)
    | WAN_CONNECTIVITY_TYPE_NO_CHECK => ret tt
    end ;;
    set_ip p (fun x => x <| ip_ConnectivityCheckRunning := false |>).

(** A message to the health check; the socket is not modelled. *)
Definition WanMgr_SendMsgToIHC (msgType ifName : string) : M unit :=
  call_ (ExtCall "WanMgr_SendMsgToIHC" [msgType; ifName]).

(** The connection came up: the check is told when it does not know yet, when
    the address changed, or when it had failed and the lease was renewed. *)
Definition ihc_up (status : wanmgr_ihc_status_t) (sysevent msg : string) (changed renewed : bool)
    (name : string) (started : IC -> IC) : M unit :=
  IHC_status <- sysevent_get sysevent ;;
  let refreshed := renewed && (IHC_status ≟ IPOE_STATUS_FAILED) in
  when ((status ≟ IHC_STOPPED) || changed || refreshed) (
    when refreshed (sysevent_set SYSEVENT_FIREWALL_RESTART EmptyString) ;;
    WanMgr_SendMsgToIHC msg name ;;
    set_ctl started).
Definition WanMgr_SendMsgTo_ConnectivityCheck (p : vif_ptr) (type : CONNECTION_TYPE) (ConnStatus : bool)
    : M unit :=
  v <- get_vif p ;;
  when (negb (ip_ConnectivityCheckRunning (v_IP v))) (WanMgr_StartConnectivityCheck p) ;;
  v <- get_vif p ;;
  c <- get_controller ;;
  when ((ip_ConnectivityCheckType (v_IP v) ≟ WAN_CONNECTIVITY_TYPE_IHC) && FEATURE_IPOE_HEALTH_CHECK)
    match type, ConnStatus with
    | CONNECTION_MSG_IPV4, true =>
        ihc_up (ic_IhcV4Status c) IPOE_HEALTH_CHECK_V4_STATUS "IPOE_MSG_WAN_CONNECTION_UP"
          (ip_Ipv4Changed (v_IP v)) (ip_Ipv4Renewed (v_IP v)) (v_Name v)
          (fun c => c <| ic_IhcV4Status := IHC_STARTED |>)
    | CONNECTION_MSG_IPV4, false =>
        WanMgr_SendMsgToIHC "IPOE_MSG_WAN_CONNECTION_DOWN" (v_Name v) ;;
        set_ctl (fun c => c <| ic_IhcV4Status := IHC_STOPPED |>)
    | CONNECTION_MSG_IPV6, true =>
        ihc_up (ic_IhcV6Status c) IPOE_HEALTH_CHECK_V6_STATUS "IPOE_MSG_WAN_CONNECTION_IPV6_UP"
          (ip_Ipv6Changed (v_IP v)) (ip_Ipv6Renewed (v_IP v)) (v_Name v)
          (fun c => c <| ic_IhcV6Status := IHC_STARTED |>)
    | CONNECTION_MSG_IPV6, false =>
        WanMgr_SendMsgToIHC "IPOE_MSG_WAN_CONNECTION_IPV6_DOWN" (v_Name v) ;;
        set_ctl (fun c => c <| ic_IhcV6Status := IHC_STOPPED |>)
    end.

(** ** Supervision *)

Definition WanMgr_IsPIDRunning (pid : Z) : M bool :=
  r <- call (ExtCall "kill" [dec pid; "0"]) ;; ret (negb (r =? -1)).
(** A client that could not be started, or that the machine started and that
    is gone. *)
Definition client_gone (pid : Z) : M bool :=
  if pid =? -1 then ret true
  else if 0 <? pid then r <- WanMgr_IsPIDRunning pid ;; ret (negb r)
  else ret false.

(** The clients agree with the mode and source of the addresses. *)
Definition mode_change_processed (x : DML_WANIFACE_IP) : bool :=
  let v4 := ip_Dhcp4cStatus x ≟ DHCPC_STARTED in
  let v6 := ip_Dhcp6cStatus x ≟ DHCPC_STARTED in
  (((ip_IPv6Source x ≠? DML_WAN_IP_SOURCE_DHCP) || (ip_Mode x ≟ DML_WAN_IP_MODE_NO_IP)) && negb v4 && negb v6)
  || ((ip_Mode x ≟ DML_WAN_IP_MODE_IPV6_ONLY) && negb v4 && v6)
  || ((ip_Mode x ≟ DML_WAN_IP_MODE_IPV4_ONLY) && v4 && negb v6)
  || ((ip_Mode x ≟ DML_WAN_IP_MODE_DUAL_STACK) && v4 && v6).

Definition has_ipv4 (m : DML_WAN_IP_MODE) : bool :=
  (m ≟ DML_WAN_IP_MODE_IPV4_ONLY) || (m ≟ DML_WAN_IP_MODE_DUAL_STACK).
Definition has_ipv6 (m : DML_WAN_IP_MODE) : bool :=
  (m ≟ DML_WAN_IP_MODE_IPV6_ONLY) || (m ≟ DML_WAN_IP_MODE_DUAL_STACK).

Definition monitor_dhcpv4 (i : iface_ptr) (p : vif_ptr) : M unit :=
  I <- get_iface i ;;
  v <- get_vif p ;;
  let x := v_IP v in
  when (has_ipv4 (ip_Mode x) && (ip_IPv4Source x ≟ DML_WAN_IP_SOURCE_DHCP) && negb (ppp_Enable (v_PPP v))
        && (map_MaptStatus (v_MAP v) ≟ WAN_IFACE_MAPT_STATE_DOWN)
        && (ip_SelectedModeTimerStatus x ≠? RUNNING)) (
    gone <- client_gone (ip_Dhcp4cPid x) ;;
    when gone (
      WanManager_StartDhcpv4Client p (if_Name I) (if_IfaceType I) ;;
      telemetry "SYS_ERROR_DHCPV4Client_notrunning")).
Definition monitor_dhcpv6 (i : iface_ptr) (p : vif_ptr) : M unit :=
  I <- get_iface i ;;
  v <- get_vif p ;;
  let x := v_IP v in
  when (has_ipv6 (ip_Mode x) && (ip_IPv6Source x ≟ DML_WAN_IP_SOURCE_DHCP)) (
    gone <- client_gone (ip_Dhcp6cPid x) ;;
    when gone (
      when (ip_Dhcp6cPid x =? -1) (Force_IPv6_toggle (v_Name v)) ;;
      WanManager_StartDhcpv6Client p (if_IfaceType I) ;;
      telemetry "SYS_ERROR_DHCPV6Client_notrunning")).

(** The kind of connectivity check changed at run time. *)
Definition monitor_wcc_type (p : vif_ptr) : M unit :=
  v <- get_vif p ;;
  when (ip_ConnectivityCheckRunning (v_IP v)) (
    IhcPid <- get_ctl ic_IhcPid ;;
    (if FEATURE_IPOE_HEALTH_CHECK && (0 <? IhcPid) then WanManager_StopIHC ;; ret tt
     else WanMgr_Configure_TAD_WCC p WCC_STOP ;; ret tt) ;;
    set_ip p (fun x => x <| ip_ConnectivityCheckRunning := false |>
                         <| ip_Ipv4ConnectivityStatus := WAN_CONNECTIVITY_UP |>
                         <| ip_Ipv6ConnectivityStatus := WAN_CONNECTIVITY_UP |>)) ;;
  WanMgr_StartConnectivityCheck p ;;
  set_ip p (fun x => x <| ip_WCC_TypeChanged := false |>) ;;
  v <- get_vif p ;;
  IhcPid <- get_ctl ic_IhcPid ;;
  when (FEATURE_IPOE_HEALTH_CHECK && (v_Status v ≟ WAN_IFACE_STATUS_UP) && (0 <? IhcPid)) (
    when (ip_Ipv4Status (v_IP v) ≟ WAN_IFACE_IPV4_STATE_UP)
      (WanMgr_SendMsgTo_ConnectivityCheck p CONNECTION_MSG_IPV4 true) ;;
    v <- get_vif p ;;
    when (ip_Ipv6Status (v_IP v) ≟ WAN_IFACE_IPV6_STATE_UP)
      (WanMgr_SendMsgTo_ConnectivityCheck p CONNECTION_MSG_IPV6 true)).

(** The health check died. *)
Definition monitor_ihc (p : vif_ptr) : M unit :=
  v <- get_vif p ;;
  IhcPid <- get_ctl ic_IhcPid ;;
  when ((ip_ConnectivityCheckType (v_IP v) ≟ WAN_CONNECTIVITY_TYPE_IHC)
        && ip_ConnectivityCheckRunning (v_IP v) && (0 <? IhcPid)) (
    running <- WanMgr_IsPIDRunning IhcPid ;;
    when (negb running) (
      WanMgr_StartConnectivityCheck p ;;
      v4 <- get_ctl ic_IhcV4Status ;;
      when (v4 ≟ IHC_STARTED) (
        set_ctl (fun c => c <| ic_IhcV4Status := IHC_STOPPED |>) ;;
        WanMgr_SendMsgTo_ConnectivityCheck p CONNECTION_MSG_IPV4 true) ;;
      v6 <- get_ctl ic_IhcV6Status ;;
      when (v6 ≟ IHC_STARTED) (
        set_ctl (fun c => c <| ic_IhcV6Status := IHC_STOPPED |>) ;;
        WanMgr_SendMsgTo_ConnectivityCheck p CONNECTION_MSG_IPV6 true))).

Definition WanMgr_MonitorDhcpApps (i : iface_ptr) (p : vif_ptr) : M unit :=
  enabled <- get_ctl ic_WanEnable ;;
  I <- get_iface i ;;
  if negb enabled || (sel_Status (if_Selection I) ≟ WAN_IFACE_NOT_SELECTED) || negb (sel_Enable (if_Selection I))
  then ret tt
  else
    v <- get_vif p ;;
    if ip_RefreshDHCP (v_IP v) then
      when (mode_change_processed (v_IP v)) (set_ip p (fun x => x <| ip_RefreshDHCP := false |>))
    else
      when (negb FEATURE_RDKB_DHCP_MANAGER) (monitor_dhcpv4 i p ;; monitor_dhcpv6 i p) ;;
      v <- get_vif p ;;
      when (ip_WCC_TypeChanged (v_IP v)) (monitor_wcc_type p) ;;
      when FEATURE_IPOE_HEALTH_CHECK (monitor_ihc p).
End IfaceActions.
