(* ===== verification/IfaceAddresses.v ===== *)
(** Setting up and taking down the addresses of an interface, of
    [source/WanManager/wanmgr_interface_sm.c]: the name servers, the IPv4 and
    IPv6 procedures, the wait for the LAN address, and the voice manager.

    A file that is written is its open, its lines and its close.  The time
    stamps written to the console are not modelled. *)

From S2P Require Export IfaceActions.

#[local] Abbreviation IC := WanMgr_IfaceSM_Controller_t.

Definition WAN_STATUS_UP : string := "up".
Definition WAN_STATUS_DOWN : string := "down".
Definition WAN_STATUS_STARTED : string := "started".
Definition WAN_STATUS_STOPPED : string := "stopped".
Definition SYSEVENT_DHCP_SERVER_RESTART : string := "dhcp_server-restart".
Definition LOOPBACK : string := "127.0.0.1".
Definition newline : string := String (Ascii.ascii_of_nat 10) EmptyString.

Section IfaceAddresses.
Context `{Platform} `{Build} `{MaptBuild} `{IfaceBuild}.
#[local] Abbreviation M := (Prelude.M (St IC)).

(** ** Name servers *)

Definition fprintf (fp : bool) (text : string) : M unit := when fp (call_ (ExtCall "fprintf" [text])).
(** The copy of the text [IsValidDnsServer] may make is only needed for IPv6. *)
Definition valid_dns_server (af : Z) (server : string) : M bool :=
  ok <- (if af =? AF_INET6 then AnscAllocateMemory "strdup" else ret true) ;;
  ret (IsValidDnsServer ok af (Some server) ≟ ANSC_STATUS_SUCCESS).

(** One server: published under [names] when it is valid. *)
Definition dns_publish (names : list string) (server : string) : M unit :=
  for_each names (fun name => sysevent_set name server).
Definition dns_server (fp : bool) (af : Z) (names : list string) (server : string) : M bool :=
  valid <- valid_dns_server af server ;;
  (if valid : bool then
     fprintf fp ("nameserver " +:+ server +:+ newline) ;;
     dns_publish names server
   else dns_publish names EmptyString) ;;
  ret valid.

Definition dns_names4 (ifname : string) : list (list string) :=
  [[SYSEVENT_IPV4 ifname "dns_0"; "ipv4_dns_0"]; [SYSEVENT_IPV4 ifname "dns_1"; "ipv4_dns_1"]].
Definition dns_clear (names : list string) : M unit := dns_publish names EmptyString.

Definition dns_add4 (fp : bool) (v : DML_VIRTUAL_IFACE) : M bool :=
  let d := ip_Ipv4Data (v_IP v) in
  valid <- dns_server fp AF_INET [SYSEVENT_IPV4 (v_Name v) "dns_0"; "ipv4_dns_0"] (v4_dnsServer d) ;;
  valid1 <- dns_server fp AF_INET [SYSEVENT_IPV4 (v_Name v) "dns_1"; "ipv4_dns_1"] (v4_dnsServer1 d) ;;
  when (valid && valid1) (sysevent_set (SYSEVENT_IPV4 (v_Name v) "dns_number") "2") ;;
  ret (valid || valid1).
Definition dns_add6 (fp : bool) (v : DML_VIRTUAL_IFACE) : M bool :=
  let d := ip_Ipv6Data (v_IP v) in
  valid <- dns_server fp AF_INET6 ["ipv6_dns_0"] (v6_nameserver d) ;;
  valid1 <- dns_server fp AF_INET6 ["ipv6_dns_1"] (v6_nameserver1 d) ;;
  ret (valid || valid1).

(** Every branch writes [resolv.conf] when it is open, so that it changed
    exactly then; the result is whether the function returned [RETURN_OK]. *)
Definition wan_updateDNS (i : iface_ptr) (p : vif_ptr) (addIPv4 addIPv6 : bool) : M bool :=
  deviceMode <- get_ctl ic_DeviceNwMode ;;
  I <- get_iface i ;;
  v <- get_vif p ;;
  if XB6_CBR2_PRODUCT_REQ && strstr (if_AliasName I) "REMOTE" then ret true
  else
    opened <- (if deviceMode ≟ GATEWAY_MODE
               then fp <- call (ExtCall "fopen" [RESOLV_CONF_FILE; "w+"]) ;; ret (Some (negb (fp =? 0)))
               else ret None) ;;
    if opened ≟ Some false then ret false
    else
      let fp := opened ≟ Some true in
      v4nameserver1 <- sysevent_get "ipv4_dns_0" ;;
      v4nameserver2 <- sysevent_get "ipv4_dns_1" ;;
      v6nameserver1 <- sysevent_get "ipv6_dns_0" ;;
      v6nameserver2 <- sysevent_get "ipv6_dns_1" ;;
      if negb addIPv4 && negb addIPv6 then
        for_each (dns_names4 (v_Name v)) dns_clear ;;
        dns_clear ["ipv6_dns_0"; "ipv6_dns_1"] ;;
        when fp (
          fprintf fp ("nameserver " +:+ LOOPBACK +:+ " " +:+ newline) ;;
          call_ (ExtCall "fclose" []) ;;
          Update_Interface_Status) ;;
        sysevent_set SYSEVENT_DHCP_SERVER_RESTART EmptyString ;;
        ret true
      else
        valid4 <- (if addIPv4 then dns_add4 fp v
                   else for_each (dns_names4 (v_Name v)) dns_clear ;; ret false) ;;
        valid6 <- (if addIPv6 then dns_add6 fp v
                   else dns_clear ["ipv6_dns_0"; "ipv6_dns_1"] ;; ret false) ;;
        let d4 := ip_Ipv4Data (v_IP v) in
        let d6 := ip_Ipv6Data (v_IP v) in
        when (differ (v4_dnsServer d4) v4nameserver1 || differ (v4_dnsServer1 d4) v4nameserver2
              || differ (v6_nameserver d6) v6nameserver1 || differ (v6_nameserver1 d6) v6nameserver2)
          (sysevent_set SYSEVENT_DHCP_SERVER_RESTART EmptyString) ;;
        when (negb (valid4 || valid6)) (fprintf fp ("nameserver " +:+ LOOPBACK +:+ " " +:+ newline)) ;;
        when fp (
          call_ (ExtCall "fclose" []) ;;
          when XB6_CBR2_PRODUCT_REQ
            (with_config (set_db (fun d => d <| w_Config; cfg_CurrentActiveDNS := EmptyString |>))) ;;
          Update_Interface_Status) ;;
        ret true.

(** ** The LAN address *)

(** Fifteen attempts, a second apart, for the address to leave the tentative
    state; then only the default route decides. *)
Definition lan_dad_wait (IfaceName : string) : M unit :=
  for_break (range 15) (fun _ =>
    r <- call_s (ExtCall "v_secure_popen" ["ip address show dev " +:+ IfaceName +:+ " tentative"]) ;;
    when (negb (fst r =? 0)) (call_ (ExtCall "v_secure_pclose" [])) ;;
    if negb (fst r =? 0) && (snd r ≟ EmptyString) then ret (Some tt)
    else call_ (ExtCall "sleep" ["1"]) ;; ret None) ;;
  ret tt.
Definition checkIpv6LanAddressIsReadyToUse (p : vif_ptr) : M Z :=
  bridge <- WanMgr_isBridgeModeEnabled ;;
  v <- get_vif p ;;
  lan_dad_wait (if bridge : bool then v_Name v else LAN_BRIDGE_NAME) ;;
  r <- call_s (ExtCall "popen" ["ip -6 ro | grep default"]) ;;
  when (negb (fst r =? 0)) (call_ (ExtCall "pclose" [])) ;;
  if negb (fst r =? 0) && (snd r ≠? EmptyString) then ret 0
  else WanManager_send_and_receive_rs p ;; ret (-1).

(** ** Voice *)

Definition voip_bound (value : string) : M unit :=
  WanMgr_RdkBus_SetParamValues "eRT.com.cisco.spvtg.ccsp.telcovoicemanager"
    "/com/cisco/spvtg/ccsp/telcovoicemanager" "Device.Services.VoiceService.1.X_RDK_BoundIfName" value ;;
  ret tt.
Definition updateInterfaceToVoiceManager (i : iface_ptr) (p : vif_ptr) (voip_started : bool) : M unit :=
  v <- get_vif p ;;
  let voipIfName := if voip_started then v_Name v else EmptyString in
  if v_Alias v ≟ "VOIP" then voip_bound voipIfName
  else when (v_Alias v ≟ "DATA") (
    I <- get_iface i ;;
    voip <- for_break (range (if_NoOfVirtIfs I)) (fun virIf_id =>
      I <- get_iface i ;;
      k <- deref (WanMgr_getVirtualIfaceById (if_VirtIfList I) virIf_id) ;;
      w <- get_vif (i, k) ;;
      ret (if v_Alias w ≟ "VOIP" then Some tt else None)) ;;
    when (bool_decide (voip = None)) (voip_bound voipIfName)).

(** ** IPv4 *)

Definition wan_deconfigIPv4onInterface (p : vif_ptr) : M Z :=
  v <- get_vif p ;;
  r <- WanManager_DoSystemActionWithStatus ("ifconfig " +:+ v_Name v +:+ " 0.0.0.0") ;;
  ret (if r =? 0 then 0 else -1).

(** The services of the first WAN start. *)
Definition post_d_start : M unit :=
  v_secure_system "touch /var/wan_started" ;;
  r <- call (ExtCall "access" ["/tmp/.postd_started"]) ;;
  when (negb (r =? 0)) (v_secure_system "touch /tmp/.postd_started; execute_dir /etc/utopia/post.d/").
Definition set_wan_status (status : string) : M unit :=
  sysevent_set "wan-status" status ;; sysevent_set "wan_service-status" status.

Definition wan_setUpIPv4 (i : iface_ptr) (p : vif_ptr) : M Z :=
  DeviceNwMode <- get_ctl ic_DeviceNwMode ;;
  I <- get_iface i ;;
  v <- get_vif p ;;
  let d := ip_Ipv4Data (v_IP v) in
  wanmgr_set_Ipv4Sysevent d DeviceNwMode ;;
  ok <- wan_updateDNS i p true (ip_Ipv6Status (v_IP v) ≟ WAN_IFACE_IPV6_STATE_UP) ;;
  WanManager_AddDefaultGatewayRoute DeviceNwMode d ;;
  sysevent_set "ipv4_connection_state" WAN_STATUS_UP ;;
  sysevent_set "current_ipv4_link_state" WAN_STATUS_UP ;;
  sysevent_set "current_wan_ipaddr" (v4_ip d) ;;
  sysevent_set "current_wan_subnet" (v4_mask d) ;;
  sysevent_set "current_wan_state" WAN_STATUS_UP ;;
  uptime <- WanManager_getUpTime ;;
  sysevent_set "wan_start_time" (dec uptime) ;;
  v_secure_system "sysctl -w net.ipv4.ip_forward=1" ;;
  when (strstr (if_BaseInterface I) "Ethernet") (sysevent_set "ethwan-initialized" "1") ;;
  buf <- sysevent_get "wan-status" ;;
  when (differ buf WAN_STATUS_STARTED && (if_IfaceType I ≠? REMOTE_IFACE)) (
    post_d_start ;;
    sysevent_set "wan_service-status" WAN_STATUS_STARTED ;;
    sysevent_set "wan-status" WAN_STATUS_STARTED ;;
    when (v4_ifname d ≠? EmptyString) (syscfg_set_string "wan_physical_ifname" (v4_ifname d)) ;;
    wanmgr_services_restart ;;
    WanManager_PrintBootEvents WAN_INIT_COMPLETE) ;;
  sysevent_set SYSEVENT_FIREWALL_RESTART EmptyString ;;
  WanMgr_StartConnectivityCheck p ;;
  ret (if ok : bool then 0 else -1).

(** Where the name servers of the primary interface serve the backup, they are
    cleared only with MAP-T up on a link that is not Ethernet. *)
Definition clear_ipv4_dns (I : DML_WAN_IFACE) (v : DML_VIRTUAL_IFACE) : M bool :=
  let mapt := (map_MaptStatus (v_MAP v) ≟ WAN_IFACE_MAPT_STATE_UP) && negb (strstr (if_BaseInterface I) "Ethernet") in
  if RDKB_GLOBAL_PRODUCT_REQ then
    BackupWanDnsSupport <- with_config (get_db (fun d => cfg_BackupWanDnsSupport (w_Config d))) ;;
    ret (negb BackupWanDnsSupport && mapt)
  else ret (negb COMCAST_PLATFORM || mapt).

Definition wan_tearDownIPv4 (i : iface_ptr) (p : vif_ptr) : M Z :=
  c <- get_controller ;;
  I <- get_iface i ;;
  v <- get_vif p ;;
  dns <- clear_ipv4_dns I v ;;
  ok <- (if dns : bool then wan_updateDNS i p false (ip_Ipv6Status (v_IP v) ≟ WAN_IFACE_IPV6_STATE_UP)
         else ret true) ;;
  WanManager_DelDefaultGatewayRoute (ic_DeviceNwMode c) (ic_DeviceNwModeChanged c) ;;
  sysevent_set "ipv4_connection_state" WAN_STATUS_DOWN ;;
  sysevent_set "current_ipv4_link_state" WAN_STATUS_DOWN ;;
  sysevent_set "current_wan_state" WAN_STATUS_DOWN ;;
  sysevent_set "wan_start_time" "0" ;;
  sysevent_set "current_wan_ipaddr" "0.0.0.0" ;;
  sysevent_set "current_wan_subnet" "255.255.255.0" ;;
  sysevent_set SYSEVENT_FIREWALL_RESTART EmptyString ;;
  when (strstr (if_BaseInterface I) "Ethernet") (sysevent_set "ethwan-initialized" "0") ;;
  buf <- sysevent_get "wan-status" ;;
  when (differ buf WAN_STATUS_STOPPED && (ip_Ipv6Status (v_IP v) ≟ WAN_IFACE_IPV6_STATE_DOWN))
    (set_wan_status WAN_STATUS_STOPPED) ;;
  ret (if ok : bool then 0 else -1).

(** ** IPv6 *)

Definition publish_wan_mac6 (ifname : string) : M unit :=
  use <- (if RDKB_GLOBAL_PRODUCT_REQ
          then with_config (get_db (fun d => cfg_UseWANMACForManagementServices (w_Config d)))
          else ret (negb COMCAST_PLATFORM)) ;;
  when use (
    r <- call_s (ExtCall "WanManager_get_interface_mac" [ifname]) ;;
    when (fst r =? 0) (sysevent_set "eth_wan_mac" (snd r))).

Definition wan_setUpIPv6 (i : iface_ptr) (p : vif_ptr) : M Z :=
  I <- get_iface i ;;
  v <- get_vif p ;;
  ok <- wan_updateDNS i p (ip_Ipv4Status (v_IP v) ≟ WAN_IFACE_IPV4_STATE_UP) true ;;
  sysevent_set "ipv6_connection_state" WAN_STATUS_UP ;;
  sysevent_set "radvd_restart" EmptyString ;;
  sysevent_set SYSEVENT_DHCP_SERVER_RESTART EmptyString ;;
  sysevent_set SYSEVENT_FIREWALL_RESTART EmptyString ;;
  buf <- sysevent_get "wan-status" ;;
  when (differ buf WAN_STATUS_STARTED && (if_IfaceType I ≠? REMOTE_IFACE)) (
    post_d_start ;;
    WanManager_PrintBootEvents WAN_INIT_COMPLETE ;;
    sysevent_set "wan_service-status" WAN_STATUS_STARTED ;;
    sysevent_set "wan-status" WAN_STATUS_STARTED ;;
    v <- get_vif p ;;
    let d := ip_Ipv6Data (v_IP v) in
    sysevent_set "ipv6-status" WAN_STATUS_UP ;;
    sysevent_set "wan6_ipaddr" (v6_address d) ;;
    sysevent_set "ipv6_nameserver" (v6_nameserver d +:+ " " +:+ v6_nameserver1 d) ;;
    when (negb (v6_ipv6_TimeOffset d =? 0)) (sysevent_set "ipv6-timeoffset" (dec (v6_ipv6_TimeOffset d))) ;;
    sysevent_set "current_wan_ifname" (v6_ifname d) ;;
    when (v6_ifname d ≠? EmptyString) (syscfg_set_string "wan_physical_ifname" (v6_ifname d)) ;;
    wanmgr_services_restart ;;
    publish_wan_mac6 (v6_ifname d)) ;;
  WanMgr_StartConnectivityCheck p ;;
  ret (if ok : bool then 0 else -1).

(** The previous prefix of the LAN is remembered, the current one cleared. *)
Definition ipv6_prefix_retire : M unit :=
  previousPrefix <- sysevent_get "ipv6_prefix" ;;
  previousPrefix_vldtime <- sysevent_get "ipv6_prefix_vldtime" ;;
  previousPrefix_prdtime <- sysevent_get "ipv6_prefix_prdtime" ;;
  when (previousPrefix ≠? EmptyString) (
    sysevent_set "previous_ipv6_prefix" previousPrefix ;;
    sysevent_set "previous_ipv6_prefix_vldtime" previousPrefix_vldtime ;;
    sysevent_set "previous_ipv6_prefix_prdtime" previousPrefix_prdtime) ;;
  sysevent_set "ipv6_prefix" EmptyString ;;
  sysevent_set "tr_erouter0_dhcpv6_client_v6pref" EmptyString ;;
  sysevent_set "ipv6_connection_state" WAN_STATUS_DOWN ;;
  sysevent_set "lan_prefix_set" EmptyString ;;
  sysevent_set SYSEVENT_FIREWALL_RESTART EmptyString.

Definition clear_wan_ipv6_address : M unit :=
  when RBUS_WAN_IP (
    lan <- (if RDKB_GLOBAL_PRODUCT_REQ
            then with_config (get_db (fun d => cfg_ConfigureWANIPv6OnLANBridgeSupport (w_Config d)))
            else ret HUB4_SR213_PRODUCT_REQ) ;;
    sysevent_set (if lan : bool then "lan_ipaddr_v6" else "tr_erouter0_dhcpv6_client_v6addr") "::").

Definition wan_tearDownIPv6 (i : iface_ptr) (p : vif_ptr) : M Z :=
  v <- get_vif p ;;
  dns <- (if RDKB_GLOBAL_PRODUCT_REQ then
            BackupWanDnsSupport <- with_config (get_db (fun d => cfg_BackupWanDnsSupport (w_Config d))) ;;
            ret (negb BackupWanDnsSupport)
          else ret (negb COMCAST_PLATFORM)) ;;
  ok <- (if dns : bool then wan_updateDNS i p (ip_Ipv4Status (v_IP v) ≟ WAN_IFACE_IPV4_STATE_UP) false
         else ret true) ;;
  WanManager_Ipv6PrefixUtil (v_Name v) DEL_ADDR 0 0 ;;
  ipv6_prefix_retire ;;
  clear_wan_ipv6_address ;;
  buf <- sysevent_get "wan-status" ;;
  when (differ buf WAN_STATUS_STOPPED && (ip_Ipv4Status (v_IP v) ≟ WAN_IFACE_IPV4_STATE_DOWN)
        && (map_MaptStatus (v_MAP v) ≟ WAN_IFACE_MAPT_STATE_DOWN))
    (set_wan_status WAN_STATUS_STOPPED) ;;
  ret (if ok : bool then 0 else -1).

(** ** Clearing the leases *)

Definition WanManager_ClearDHCPData (p : vif_ptr) : M unit :=
  set_ip p (fun x => x
    <| ip_Ipv4Status := WAN_IFACE_IPV4_STATE_DOWN |> <| ip_Ipv4Changed := false |>
    <| ip_Ipv4Renewed := false |> <| ip_Ipv4Data := zero_WANMGR_IPV4_DATA |>
    <| ip_Dhcp4cPid := 0 |> <| ip_Dhcp4cStatus := DHCPC_STOPPED |> <| ip_pIpcIpv4Data := None |>
    <| ip_Ipv6Status := WAN_IFACE_IPV6_STATE_DOWN |> <| ip_Ipv6Changed := false |>
    <| ip_Ipv6Renewed := false |> <| ip_Ipv6Data := zero_WANMGR_IPV6_DATA |>
    <| ip_Ipv6Route := mk_WANMGR_IPV6_RA_DATA EmptyString 0 |>
    <| ip_Dhcp6cPid := 0 |> <| ip_Dhcp6cStatus := DHCPC_STOPPED |> <| ip_pIpcIpv6Data := None |>).
End IfaceAddresses.
