(* ===== verification/IfaceTransitions.v ===== *)
(** The transitions of [source/WanManager/wanmgr_interface_sm.c]: the
    [wan_transition_*] functions, each with the state it returns.  Traces are
    not modelled; [_DT_WAN_Manager_Enable_], 464XLAT and IVI are not built. *)

From S2P Require Export IfaceAddresses.

#[local] Abbreviation IC := WanMgr_IfaceSM_Controller_t.

Definition SYSEVENT_WAN_SERVICE_STATUS : string := "wan_service-status".
Definition SYSEVENT_IPV4_CONNECTION_STATE : string := "ipv4_connection_state".
Definition SYSEVENT_IPV6_CONNECTION_STATE : string := "ipv6_connection_state".
Definition zero_MAPT_CONFIG : WANMGR_MAPT_CONFIG_DATA := mk_WANMGR_MAPT_CONFIG_DATA 0 EmptyString EmptyString 0.

(** ** Tests the transitions and the states share *)

(** The interface is not to run: the device or the interface is disabled, the
    interface is not selected, or its physical link is not up. *)
Definition iface_off (c : IC) (I : DML_WAN_IFACE) (v : DML_VIRTUAL_IFACE) : bool :=
  negb (ic_WanEnable c) || negb (sel_Enable (if_Selection I)) || negb (v_Enable v)
  || (sel_Status (if_Selection I) ≟ WAN_IFACE_NOT_SELECTED)
  || (if_BaseInterfaceStatus I ≠? WAN_IFACE_PHY_STATUS_UP).
Definition vlan_down (v : DML_VIRTUAL_IFACE) : bool :=
  vlan_Enable (v_VLAN v) && (vlan_Status (v_VLAN v) ≟ WAN_IFACE_LINKSTATUS_DOWN).
Definition ppp_not_up (v : DML_VIRTUAL_IFACE) : bool :=
  ppp_Enable (v_PPP v) && (ppp_LinkStatus (v_PPP v) ≠? WAN_IFACE_PPP_LINK_STATUS_UP).
(** The DHCP clients the source and the mode of the addresses ask for. *)
Definition wants_dhcpv4 (x : DML_WANIFACE_IP) : bool :=
  (ip_IPv4Source x ≟ DML_WAN_IP_SOURCE_DHCP) && has_ipv4 (ip_Mode x).
Definition wants_dhcpv6 (x : DML_WANIFACE_IP) : bool :=
  (ip_IPv6Source x ≟ DML_WAN_IP_SOURCE_DHCP) && has_ipv6 (ip_Mode x).
Definition active (I : DML_WAN_IFACE) : bool := sel_Status (if_Selection I) ≟ WAN_IFACE_ACTIVE.

(** The lease is not needed any more ... *)
Definition lease_unwanted (c : IC) (I : DML_WAN_IFACE) (v : DML_VIRTUAL_IFACE) : bool :=
  iface_off c I v || v_Reset v || vlan_Reset (v_VLAN v) || vlan_down v.
(** ... and is released, unless the link is gone or comes back. *)
Definition release_action (I : DML_WAN_IFACE) (v : DML_VIRTUAL_IFACE) : DHCP_RELEASE_BEHAVIOUR :=
  if (if_BaseInterfaceStatus I ≠? WAN_IFACE_PHY_STATUS_UP) || v_Reset v || vlan_down v
     || sel_RebootTriggerStatus (if_Selection I)
  then STOP_DHCP_WITHOUT_RELEASE else STOP_DHCP_WITH_RELEASE.

(** The VLAN discovery tries after the one of number [ActiveIndex]: the next of
    the list, or its head. *)
Definition next_vlan (x : DML_VIRTUALIF_VLAN) : option DML_VLAN_IFACE_TABLE :=
  let l := vlan_InterfaceList x in
  if vlan_Reset x || (vlan_ActiveIndex x =? u32 (-1)) then head l
  else
    match WanMgr_getVirtVlanIfById l (vlan_ActiveIndex x) with
    | Some k => match l !! S k with Some t => Some t | None => head l end
    | None => head l
    end.

Section IfaceTransitions.
Context `{Platform} `{Build} `{MaptBuild} `{IfaceBuild}.
#[local] Abbreviation M := (Prelude.M (St IC)).

(** The number the callers compare with -1 is an [INT]; the status is published
    for the [UINT]. *)
Definition publish_status : M unit :=
  c <- get_controller ;;
  when (negb (ic_interfaceIdx c =? -1))
    (WanMgr_Publish_WanStatus (u32 (ic_interfaceIdx c)) (u32 (ic_VirIfIdx c))).
Definition set_status (p : vif_ptr) (st : DML_WAN_IFACE_STATUS) : M unit :=
  upd_vif p (fun v => v <| v_Status := st |>).

(** ** Start, links *)

Definition wan_transition_start (i : iface_ptr) (p : vif_ptr) : M eWanState_t :=
  upd_vif p (fun v => v
    <| v_IP ::= fun x => x <| ip_Ipv4Status := WAN_IFACE_IPV4_STATE_DOWN |>
                           <| ip_Ipv6Status := WAN_IFACE_IPV6_STATE_DOWN |> |>
    <| v_MAP; map_MaptStatus := WAN_IFACE_MAPT_STATE_DOWN |>
    <| v_DSLite; dsl_Status := WAN_IFACE_DSLITE_STATE_DOWN |>
    <| v_Status := WAN_IFACE_STATUS_INITIALISING |>) ;;
  publish_status ;;
  WanMgr_RestartFindExistingLink i p ;;
  I <- get_iface i ;;
  v <- get_vif p ;;
  when (vlan_down v && (if_IfaceType I ≠? REMOTE_IFACE)) (
    when (vlan_VLANInUse (v_VLAN v) ≟ EmptyString) (
      set_vlan p (fun x => x <| vlan_ActiveIndex := 0 |>) ;;
      k <- deref (WanMgr_getVirtVlanIfById (vlan_InterfaceList (v_VLAN v)) 0) ;;
      t <- deref (vlan_InterfaceList (v_VLAN v) !! k) ;;
      set_vlan p (fun x => x <| vlan_VLANInUse := vt_Interface t |>)) ;;
    set_vlan p (fun x => x <| vlan_Status := WAN_IFACE_LINKSTATUS_CONFIGURING |>) ;;
    WanMgr_RdkBus_ConfigureVlan p true ;; ret tt) ;;
  Update_Interface_Status ;;
  upd_vif p (fun v => v <| v_Interface_SM_Running := true |>) ;;
  WanMgr_GetSelectedIPMode p ;;
  WanManager_PrintBootEvents WAN_INIT_START ;;
  ret WAN_STATE_VLAN_CONFIGURING.

Definition wan_transition_ppp_configure (p : vif_ptr) : M eWanState_t :=
  v <- get_vif p ;;
  when (ppp_Enable (v_PPP v) && (ppp_LinkStatus (v_PPP v) ≟ WAN_IFACE_PPP_LINK_STATUS_DOWN)) (
    set_ppp p (fun x => x <| ppp_LinkStatus := WAN_IFACE_PPP_LINK_STATUS_CONFIGURING |>) ;;
    WanManager_ConfigurePPPSession p true ;; ret tt) ;;
  ret WAN_STATE_PPP_CONFIGURING.

Definition wan_transition_wan_up (p : vif_ptr) : M eWanState_t :=
  set_status p WAN_IFACE_STATUS_VALIDATING ;;
  publish_status ;;
  ret WAN_STATE_VALIDATING_WAN.

(** ** Validated *)

(** MAP-T is preferred and its time has not run out: only the DHCPv6 client is
    started, against the clock. *)
Definition start_clients (i : iface_ptr) (p : vif_ptr) : M unit :=
  I <- get_iface i ;;
  v <- get_vif p ;;
  if (ip_SelectedMode (v_IP v) ≟ MAPT_MODE) && (ip_SelectedModeTimerStatus (v_IP v) ≠? EXPIRED) then
    WanMgr_Configure_accept_ra v false ;;
    WanManager_StartDhcpv6Client p (if_IfaceType I) ;;
    t <- clock_gettime ;;
    set_ip p (fun x => x <| ip_SelectedModeTimerStatus := RUNNING |> <| ip_SelectedModeTimerStart := t |>)
  else
    when (wants_dhcpv4 (v_IP v)) (WanManager_StartDhcpv4Client p (if_Name I) (if_IfaceType I) ;; ret tt) ;;
    v <- get_vif p ;;
    when (wants_dhcpv6 (v_IP v) && (ip_Dhcp6cStatus (v_IP v) ≠? DHCPC_STARTED)) (
      WanMgr_Configure_accept_ra v false ;;
      WanManager_StartDhcpv6Client p (if_IfaceType I) ;; ret tt).

(** The lease of a remote interface is a static address of the mesh. *)
Definition remote_ula_address (p : vif_ptr) : M unit :=
  ula <- sysevent_get "MeshRemoteWANInterface_UlaAddr" ;;
  set_ip p (fun x => x <| ip_Ipv6Data; v6_address := default ula (before_slash ula) |>).

(** A failed query of the PPP session returns before the remote address is
    read. *)
Definition wan_transition_wan_validated (i : iface_ptr) (p : vif_ptr) : M eWanState_t :=
  I <- get_iface i ;;
  v <- get_vif p ;;
  when (((ip_IPv4Source (v_IP v) ≟ DML_WAN_IP_SOURCE_DHCP) || (ip_IPv6Source (v_IP v) ≟ DML_WAN_IP_SOURCE_DHCP))
        && (ip_SelectedModeTimerStatus (v_IP v) ≠? EXPIRED))
    (WanManager_ClearDHCPData p) ;;
  set_ip p (fun x => x <| ip_Ipv4ConnectivityStatus := WAN_CONNECTIVITY_UP |>
                       <| ip_Ipv6ConnectivityStatus := WAN_CONNECTIVITY_UP |>) ;;
  start_clients i p ;;
  when (strstr (if_BaseInterface I) "Cellular") (WanMgr_UpdateIpFromCellularMgr i p) ;;
  v <- get_vif p ;;
  ok <- (if ppp_Enable (v_PPP v) && (0 <? strlen (ppp_Interface (v_PPP v))) then
      value <- WanMgr_RdkBus_GetParamValueFromAnyComp (ppp_Interface (v_PPP v) +:+ ".ConnectionStatus") ;;
      match value with
      | None => ret false
      | Some value =>
          (if value ≟ "Connected"
           then set_ppp p (fun x => x <| ppp_IPCPStatusChanged := true |> <| ppp_IPV6CPStatusChanged := true |>)
           else set_ppp p (fun x => x <| ppp_IPCPStatus := WAN_IFACE_IPCP_STATUS_DOWN |>
                                      <| ppp_IPV6CPStatus := WAN_IFACE_IPV6CP_STATUS_DOWN |>)) ;;
          ret true
      end
    else ret true) ;;
  when (ok && (if_IfaceType I ≟ REMOTE_IFACE)) (remote_ula_address p) ;;
  ret WAN_STATE_OBTAINING_IP_ADDRESSES.

Definition wan_transition_wan_refreshed (i : iface_ptr) (p : vif_ptr) : M eWanState_t :=
  I <- get_iface i ;;
  v <- get_vif p ;;
  when (vlan_down v && (if_IfaceType I ≠? REMOTE_IFACE)) (
    when (vlan_Expired (v_VLAN v) || vlan_Reset (v_VLAN v)) (
      t <- deref (next_vlan (v_VLAN v)) ;;
      set_vlan p (fun x => x <| vlan_ActiveIndex := vt_Index t |> <| vlan_VLANInUse := vt_Interface t |>)) ;;
    set_vlan p (fun x => x <| vlan_Status := WAN_IFACE_LINKSTATUS_CONFIGURING |>) ;;
    WanMgr_RdkBus_ConfigureVlan p true ;; ret tt) ;;
  when (v_Reset v)
    (with_config (set_db (fun d => d <| w_Config; cfg_ResetFailOverScan := true |>))) ;;
  upd_vif p (fun v => v <| v_Reset := false |>
    <| v_VLAN ::= fun x => x <| vlan_Reset := false |> <| vlan_Expired := false |> |>) ;;
  ret WAN_STATE_VLAN_CONFIGURING.

(** ** Addresses up and down *)

Definition wan_service_started (I : DML_WAN_IFACE) : M unit :=
  buf <- sysevent_get SYSEVENT_WAN_SERVICE_STATUS ;;
  when (differ buf WAN_STATUS_STARTED && (if_IfaceType I ≠? REMOTE_IFACE)) (
    sysevent_set SYSEVENT_WAN_SERVICE_STATUS WAN_STATUS_STARTED ;;
    sysevent_set SYSEVENT_FIREWALL_RESTART EmptyString).

Definition wan_transition_ipv4_up (i : iface_ptr) (p : vif_ptr) : M eWanState_t :=
  set_status p WAN_IFACE_STATUS_UP ;;
  publish_status ;;
  wan_setUpIPv4 i p ;;
  WanMgr_SendMsgTo_ConnectivityCheck p CONNECTION_MSG_IPV4 true ;;
  set_ip p (fun x => x <| ip_Ipv4Changed := false |> <| ip_Ipv4Renewed := false |>) ;;
  Update_Interface_Status ;;
  I <- get_iface i ;;
  wan_service_started I ;;
  buf <- sysevent_get SYSEVENT_IPV6_CONNECTION_STATE ;;
  v <- get_vif p ;;
  if (ip_Ipv6Status (v_IP v) ≟ WAN_IFACE_IPV6_STATE_UP) && (buf ≟ WAN_STATUS_UP)
  then ret WAN_STATE_DUAL_STACK_ACTIVE
  else DmlSetVLANInUseToPSMDB p ;; ret WAN_STATE_IPV4_LEASED.

(** The DHCPv4 client when the addresses go down: stopped when the lease is not
    wanted, otherwise started again when nothing else provides IPv4. *)
Definition dhcpv4_on_down (i : iface_ptr) (p : vif_ptr) : M unit :=
  c <- get_controller ;;
  I <- get_iface i ;;
  v <- get_vif p ;;
  let started := ip_Dhcp4cStatus (v_IP v) ≟ DHCPC_STARTED in
  if lease_unwanted c I v || (ip_RefreshDHCP (v_IP v) && negb (wants_dhcpv4 (v_IP v))) then
    when started (WanManager_StopDhcpv4Client p (release_action I v) ;; ret tt)
  else
    when (negb started && negb (ppp_Enable (v_PPP v))
          && negb (v_EnableMAPT v && active I && (map_MaptStatus (v_MAP v) ≟ WAN_IFACE_MAPT_STATE_UP)))
      (WanManager_StartDhcpv4Client p (if_Name I) (if_IfaceType I) ;; ret tt).

Definition wan_transition_ipv4_down (i : iface_ptr) (p : vif_ptr) : M eWanState_t :=
  dhcpv4_on_down i p ;;
  WanManager_UpdateInterfaceStatus p WANMGR_IFACE_CONNECTION_DOWN ;;
  wan_deconfigIPv4onInterface p ;;
  v <- get_vif p ;;
  when (v_Status v ≟ WAN_IFACE_STATUS_UP) (
    wan_tearDownIPv4 i p ;;
    DeviceNwMode <- get_ctl ic_DeviceNwMode ;;
    wanmgr_sysevents_ipv4Info_init (v_Name v) DeviceNwMode) ;;
  WanMgr_SendMsgTo_ConnectivityCheck p CONNECTION_MSG_IPV4 false ;;
  v <- get_vif p ;;
  WanMgr_Rbus_EventPublishHandler (vif_param v "IPv4Address") EmptyString ;;
  Update_Interface_Status ;;
  buf <- sysevent_get SYSEVENT_IPV6_CONNECTION_STATE ;;
  v <- get_vif p ;;
  if (ip_Ipv6Status (v_IP v) ≟ WAN_IFACE_IPV6_STATE_UP) && (buf ≟ WAN_STATUS_UP)
  then ret WAN_STATE_IPV6_LEASED
  else
    when (ip_Ipv6Status (v_IP v) ≟ WAN_IFACE_IPV6_STATE_DOWN) (WanMgr_Configure_accept_ra v false) ;;
    set_status p WAN_IFACE_STATUS_VALIDATING ;;
    publish_status ;;
    ret WAN_STATE_OBTAINING_IP_ADDRESSES.

Definition wan_transition_ipv6_up (i : iface_ptr) (p : vif_ptr) : M eWanState_t :=
  set_status p WAN_IFACE_STATUS_UP ;;
  publish_status ;;
  wan_setUpIPv6 i p ;;
  WanMgr_SendMsgTo_ConnectivityCheck p CONNECTION_MSG_IPV6 true ;;
  Update_Interface_Status ;;
  I <- get_iface i ;;
  wan_service_started I ;;
  buf <- sysevent_get SYSEVENT_IPV4_CONNECTION_STATE ;;
  v <- get_vif p ;;
  if (ip_Ipv4Status (v_IP v) ≟ WAN_IFACE_IPV4_STATE_UP) && (buf ≟ WAN_STATUS_UP)
  then ret WAN_STATE_DUAL_STACK_ACTIVE
  else DmlSetVLANInUseToPSMDB p ;; ret WAN_STATE_IPV6_LEASED.

(** Unlike the DHCPv4 client, this one is stopped whatever its status. *)
Definition dhcpv6_on_down (i : iface_ptr) (p : vif_ptr) : M unit :=
  c <- get_controller ;;
  I <- get_iface i ;;
  v <- get_vif p ;;
  if lease_unwanted c I v || ppp_not_up v || (ip_RefreshDHCP (v_IP v) && negb (wants_dhcpv6 (v_IP v))) then
    WanManager_StopDhcpv6Client p (release_action I v) ;; ret tt
  else when (ip_Dhcp6cStatus (v_IP v) ≠? DHCPC_STARTED)
    (WanManager_StartDhcpv6Client p (if_IfaceType I) ;; ret tt).

Definition wan_transition_ipv6_down (i : iface_ptr) (p : vif_ptr) : M eWanState_t :=
  dhcpv6_on_down i p ;;
  v <- get_vif p ;;
  WanMgr_Rbus_EventPublishHandler (vif_param v "IPv6Address") EmptyString ;;
  WanMgr_Rbus_EventPublishHandler (vif_param v "IPv6Prefix") EmptyString ;;
  WanManager_UpdateInterfaceStatus p WANMGR_IFACE_CONNECTION_IPV6_DOWN ;;
  when (v_Status v ≟ WAN_IFACE_STATUS_UP) (wan_tearDownIPv6 i p ;; ret tt) ;;
  WanMgr_SendMsgTo_ConnectivityCheck p CONNECTION_MSG_IPV6 false ;;
  Update_Interface_Status ;;
  buf <- sysevent_get SYSEVENT_IPV4_CONNECTION_STATE ;;
  v <- get_vif p ;;
  WanMgr_Configure_accept_ra v false ;;
  if (ip_Ipv4Status (v_IP v) ≟ WAN_IFACE_IPV4_STATE_UP) && (buf ≟ WAN_STATUS_UP)
  then ret WAN_STATE_IPV4_LEASED
  else
    set_status p WAN_IFACE_STATUS_VALIDATING ;;
    publish_status ;;
    ret WAN_STATE_OBTAINING_IP_ADDRESSES.

Definition wan_transition_dual_stack_down (i : iface_ptr) (p : vif_ptr) : M eWanState_t :=
  set_status p WAN_IFACE_STATUS_VALIDATING ;;
  publish_status ;;
  wan_transition_ipv4_down i p ;;
  wan_transition_ipv6_down i p ;;
  ret WAN_STATE_OBTAINING_IP_ADDRESSES.

(** ** MAP-T *)

Definition wan_transition_mapt_feature_refresh (i : iface_ptr) (p : vif_ptr) : M eWanState_t :=
  wan_transition_ipv6_down i p ;;
  set_ip p (fun x => x
    <| ip_Ipv6Status := WAN_IFACE_IPV6_STATE_DOWN |> <| ip_Ipv6Changed := false |>
    <| ip_Ipv6Renewed := false |> <| ip_Ipv6Data := zero_WANMGR_IPV6_DATA |>
    <| ip_pIpcIpv6Data := None |>) ;;
  I <- get_iface i ;;
  v <- get_vif p ;;
  when (ppp_Enable (v_PPP v)) (
    WanManager_ConfigurePPPSession p false ;;
    WanManager_ConfigurePPPSession p true ;; ret tt) ;;
  v <- get_vif p ;;
  when (wants_dhcpv6 (v_IP v)) (WanManager_RestartDhcpv6Client p (if_IfaceType I) ;; ret tt) ;;
  ret WAN_STATE_OBTAINING_IP_ADDRESSES.

(** What an uninitialised [struct in_addr] holds. *)
Definition uninitialised : M Z := gets (fun s => answer (trace s) (ExtCall "struct in_addr" [])).

(** The configuration is cleared, then checked and computed from the options in
    place. *)
Definition verify_mapt (p : vif_ptr) : M ANSC_STATUS :=
  v <- get_vif p ;;
  old <- uninitialised ;;
  r <- WanManager_VerifyMAPTConfiguration old (map_dhcp6cMAPTparameters (v_MAP v)) zero_MAPT_CONFIG ;;
  let '(status, msg, cfg) := r in
  upd_vif p (fun v => v <| v_MAP ::= fun x => x <| map_dhcp6cMAPTparameters := msg |>
                                               <| map_MaptConfig := cfg |> |>) ;;
  ret status.
Definition process_mapt (i : iface_ptr) (p : vif_ptr) : M Z :=
  I <- get_iface i ;;
  v <- get_vif p ;;
  WanManager_ProcessMAPTConfiguration (map_dhcp6cMAPTparameters (v_MAP v)) (map_MaptConfig (v_MAP v))
    (if_Name I) (ip_Ipv6Data (v_IP v)).

(** IPv4 gives way to MAP-T. *)
Definition mapt_replaces_ipv4 (i : iface_ptr) (p : vif_ptr) : M unit :=
  v <- get_vif p ;;
  when (ip_Dhcp4cStatus (v_IP v) ≟ DHCPC_STARTED)
    (WanManager_StopDhcpv4Client p STOP_DHCP_WITH_RELEASE ;; ret tt) ;;
  v <- get_vif p ;;
  when (ip_Ipv4Status (v_IP v) ≟ WAN_IFACE_IPV4_STATE_UP) (
    wan_transition_ipv4_down i p ;;
    WanManager_DoSystemAction
      ("ip ro rep default dev " +:+ MAP_INTERFACE +:+ " mtu " +:+ dec MTU_DEFAULT_SIZE)) ;;
  v <- get_vif p ;;
  when (ppp_Enable (v_PPP v)) (WanManager_ConfigurePPPSession p false ;; ret tt).

(** On failure the machine stays in the state the virtual interface records. *)
Definition wan_transition_mapt_up (i : iface_ptr) (p : vif_ptr) : M eWanState_t :=
  status <- verify_mapt p ;;
  if status ≟ ANSC_STATUS_FAILURE then v <- get_vif p ;; ret (v_eCurrentState v)
  else
    upd_vif p (fun v => v <| v_MAP; map_MaptChanged := false |>) ;;
    v <- get_vif p ;;
    when (ip_Ipv4Changed (v_IP v) && (ip_Ipv4Status (v_IP v) ≟ WAN_IFACE_IPV4_STATE_UP))
      (wan_transition_ipv4_up i p ;; ret tt) ;;
    wan_setUpMapt ;;
    mapt_replaces_ipv4 i p ;;
    v_secure_system "sysctl -w net.ipv4.ip_forward=1" ;;
    r <- process_mapt i p ;;
    if negb (r =? 0) then v <- get_vif p ;; ret (v_eCurrentState v)
    else
      sysevent_set SYSEVENT_FIREWALL_RESTART EmptyString ;;
      wanmgr_services_restart ;;
      ret WAN_STATE_MAPT_ACTIVE.

Definition wan_transition_mapt_down (i : iface_ptr) (p : vif_ptr) : M eWanState_t :=
  WanManager_UpdateInterfaceStatus p WANMGR_IFACE_MAPT_STOP ;;
  v <- get_vif p ;;
  when (v_Status v ≟ WAN_IFACE_STATUS_UP) (wan_tearDownMapt ;; ret tt) ;;
  I <- get_iface i ;;
  WanManager_ResetMAPTConfiguration (if_Name I) (v_Name v) ;;
  WanManager_UpdateInterfaceStatus p WANMGR_IFACE_CONNECTION_DOWN ;;
  set_ip p (fun x => x <| ip_Ipv4Data := zero_WANMGR_IPV4_DATA |> <| ip_pIpcIpv4Data := None |>) ;;
  c <- get_controller ;;
  v <- get_vif p ;;
  when (ic_WanEnable c && sel_Enable (if_Selection I) && active I && v_Enable v && negb (v_Reset v)
        && negb (vlan_Reset (v_VLAN v)) && (if_BaseInterfaceStatus I ≟ WAN_IFACE_PHY_STATUS_UP))
    (if ppp_Enable (v_PPP v) then WanManager_ConfigurePPPSession p true ;; ret tt
     else WanManager_StartDhcpv4Client p (if_Name I) (if_IfaceType I) ;; ret tt) ;;
  sysevent_set SYSEVENT_FIREWALL_RESTART EmptyString ;;
  ret WAN_STATE_IPV6_LEASED.

(** ** Down, exit, standby *)

(** The links of the interface: a link that was still being configured is down
    at once. *)
Definition links_down (i : iface_ptr) (p : vif_ptr) : M unit :=
  v <- get_vif p ;;
  when (ppp_Enable (v_PPP v)) (
    WanManager_ConfigurePPPSession p false ;;
    set_ppp p (fun x => if ppp_LinkStatus x ≟ WAN_IFACE_PPP_LINK_STATUS_CONFIGURING
                        then x <| ppp_LinkStatus := WAN_IFACE_PPP_LINK_STATUS_DOWN |> else x)) ;;
  I <- get_iface i ;;
  v <- get_vif p ;;
  when (vlan_Enable (v_VLAN v) && (if_IfaceType I ≠? REMOTE_IFACE)) (
    WanMgr_RdkBus_ConfigureVlan p false ;;
    set_vlan p (fun x => if vlan_Status x ≟ WAN_IFACE_LINKSTATUS_CONFIGURING
                         then x <| vlan_Status := WAN_IFACE_LINKSTATUS_DOWN |> else x)).

(** MAP-T, the addresses and the clients, in this order. *)
Definition addresses_down (i : iface_ptr) (p : vif_ptr) : M unit :=
  v <- get_vif p ;;
  when (FEATURE_MAPT && (map_MaptStatus (v_MAP v) ≟ WAN_IFACE_MAPT_STATE_UP))
    (wan_transition_mapt_down i p ;; ret tt) ;;
  v <- get_vif p ;;
  when (ip_Ipv4Status (v_IP v) ≟ WAN_IFACE_IPV4_STATE_UP) (wan_transition_ipv4_down i p ;; ret tt) ;;
  v <- get_vif p ;;
  when (ip_Ipv6Status (v_IP v) ≟ WAN_IFACE_IPV6_STATE_UP) (wan_transition_ipv6_down i p ;; ret tt) ;;
  v <- get_vif p ;;
  when (ip_Dhcp4cStatus (v_IP v) ≟ DHCPC_STARTED)
    (WanManager_StopDhcpv4Client p STOP_DHCP_WITHOUT_RELEASE ;; ret tt) ;;
  v <- get_vif p ;;
  when (ip_Dhcp6cStatus (v_IP v) ≟ DHCPC_STARTED)
    (WanManager_StopDhcpv6Client p STOP_DHCP_WITHOUT_RELEASE ;; ret tt).

Definition refresh_pending (v : DML_VIRTUAL_IFACE) : bool :=
  v_Reset v || vlan_Reset (v_VLAN v) || vlan_Expired (v_VLAN v).
Definition wan_transition_physical_interface_down (i : iface_ptr) (p : vif_ptr) : M eWanState_t :=
  addresses_down i p ;;
  set_ip p (fun x => x <| ip_SelectedModeTimerStatus := NOTSTARTED |>) ;;
  WanMgr_StopConnectivityCheck p ;;
  links_down i p ;;
  Update_Interface_Status ;;
  v <- get_vif p ;;
  ret (if refresh_pending v then WAN_STATE_REFRESHING_WAN else WAN_STATE_DECONFIGURING_WAN).

Definition wan_transition_exit (p : vif_ptr) : M eWanState_t :=
  upd_vif p (fun v => v <| v_Status := WAN_IFACE_STATUS_DISABLED |> <| v_Reset := false |>) ;;
  publish_status ;;
  Update_Interface_Status ;;
  upd_vif p (fun v => v <| v_Interface_SM_Running := false |>) ;;
  ret WAN_STATE_EXIT.

Definition wan_transition_standby (p : vif_ptr) : M eWanState_t :=
  set_status p WAN_IFACE_STATUS_STANDBY ;;
  publish_status ;;
  WanMgr_StartConnectivityCheck p ;;
  Update_Interface_Status ;;
  DmlSetVLANInUseToPSMDB p ;;
  ret WAN_STATE_STANDBY.

(** The leases stay; only their configuration is taken from the device. *)
Definition wan_transition_standby_deconfig_ips (i : iface_ptr) (p : vif_ptr) : M eWanState_t :=
  I <- get_iface i ;;
  v <- get_vif p ;;
  when (FEATURE_MAPT && (map_MaptStatus (v_MAP v) ≟ WAN_IFACE_MAPT_STATE_UP)) (
    wan_tearDownMapt ;;
    WanManager_ResetMAPTConfiguration (if_Name I) (v_Name v) ;; ret tt) ;;
  when (ip_ConnectivityCheckType (v_IP v) ≟ WAN_CONNECTIVITY_TYPE_IHC) (WanMgr_StopConnectivityCheck p) ;;
  when (ip_Ipv4Status (v_IP v) ≟ WAN_IFACE_IPV4_STATE_UP) (wan_tearDownIPv4 i p ;; ret tt) ;;
  when (ip_Ipv6Status (v_IP v) ≟ WAN_IFACE_IPV6_STATE_UP) (
    wan_tearDownIPv6 i p ;;
    set_ip p (fun x => x <| ip_Ipv6Changed := true |>)) ;;
  v <- get_vif p ;;
  WanMgr_Configure_accept_ra v false ;;
  set_status p WAN_IFACE_STATUS_STANDBY ;;
  publish_status ;;
  Update_Interface_Status ;;
  ret WAN_STATE_STANDBY.
End IfaceTransitions.
#[export] Hint Unfold set_status publish_status uninitialised : monad.
