(* ===== verification/IfaceSM.v ===== *)
(** The states of the interface state machine and its thread, of
    [source/WanManager/wanmgr_interface_sm.c].

    One pass of [WanMgr_InterfaceSMThread] is [ism_iteration]: it holds the lock
    of the data base from the reading of the interface to its end.  The pass
    stops on [NULL] when the interface or its virtual interface is gone, as the
    thread does. *)

From S2P Require Export IfaceTransitions.

#[local] Abbreviation IC := WanMgr_IfaceSM_Controller_t.

Definition SELECTED_MODE_TIMEOUT_SECONDS : Z := 10.

(** ** The tests of the states *)

(** The lease of one family is gone, or its link is. *)
Definition ipv4_lost (v : DML_VIRTUAL_IFACE) : bool :=
  (ip_Ipv4Status (v_IP v) ≟ WAN_IFACE_IPV4_STATE_DOWN)
  || (ip_RefreshDHCP (v_IP v) && negb (wants_dhcpv4 (v_IP v))).
Definition ipv6_lost (v : DML_VIRTUAL_IFACE) : bool :=
  (ip_Ipv6Status (v_IP v) ≟ WAN_IFACE_IPV6_STATE_DOWN)
  || (ip_RefreshDHCP (v_IP v) && negb (wants_dhcpv6 (v_IP v))).
(** An interface that runs must stop. *)
Definition must_stop (c : IC) (I : DML_WAN_IFACE) (v : DML_VIRTUAL_IFACE) : bool :=
  iface_off c I v || v_Reset v || vlan_Reset (v_VLAN v).
(** ... must leave the device to another, or be configured again. *)
Definition must_stand_by (c : IC) (I : DML_WAN_IFACE) : bool := negb (active I) || ic_DeviceNwModeChanged c.

(** The controller of a new machine; its mode, zero at first, is set by a pass
    before it is read. *)
Definition WanMgr_IfaceSM_Init (iface_idx VirIfIdx : Z) : IC :=
  {| ic_WanEnable := false; ic_interfaceIdx := iface_idx; ic_VirIfIdx := VirIfIdx; ic_IhcPid := 0;
     ic_IhcV4Status := IHC_STOPPED; ic_IhcV6Status := IHC_STOPPED; ic_pIfaceData := None;
     ic_eCurrentState := WAN_STATE_EXIT; ic_DeviceNwMode := GATEWAY_MODE; ic_DeviceNwModeChanged := false |}.

Section IfaceSM.
Context `{Platform} `{Build} `{MaptBuild} `{IfaceBuild}.
#[local] Abbreviation M := (Prelude.M (St IC)).

(** The discovery timer of a virtual interface with several VLANs; the clock is
    read only for those. *)
Definition vlan_timeout (v : DML_VIRTUAL_IFACE) (now : Z) : bool :=
  vlan_Reset (v_VLAN v) || (vlan_Timeout (v_VLAN v) <? now - vlan_TimerStart (v_VLAN v)).
Definition vlan_discovery_expired (p : vif_ptr) : M bool :=
  v <- get_vif p ;;
  if 1 <? vlan_NoOfInterfaceEntries (v_VLAN v) then
    now <- clock_gettime ;;
    if vlan_timeout v now then
      set_vlan p (fun x => x <| vlan_Expired := true |>) ;; ret true
    else ret false
  else ret false.

Definition off_or_expired (i : iface_ptr) (p : vif_ptr) (next : M eWanState_t) : M eWanState_t :=
  c <- get_controller ;;
  I <- get_iface i ;;
  v <- get_vif p ;;
  if iface_off c I v then wan_transition_physical_interface_down i p
  else
    expired <- vlan_discovery_expired p ;;
    if expired : bool then wan_transition_physical_interface_down i p else next.

Definition wan_state_vlan_configuring (i : iface_ptr) (p : vif_ptr) : M eWanState_t :=
  off_or_expired i p (
    v <- get_vif p ;;
    if vlan_Enable (v_VLAN v) && (vlan_Status (v_VLAN v) ≠? WAN_IFACE_LINKSTATUS_UP)
    then ret WAN_STATE_VLAN_CONFIGURING
    else wan_transition_ppp_configure p).

(** With DHCPv6 over PPP the link is up only with IPv6CP. *)
Definition ppp_link_ready (v : DML_VIRTUAL_IFACE) : bool :=
  (ppp_LinkStatus (v_PPP v) ≟ WAN_IFACE_PPP_LINK_STATUS_UP)
  && negb (wants_dhcpv6 (v_IP v) && (ppp_IPV6CPStatus (v_PPP v) ≠? WAN_IFACE_IPV6CP_STATUS_UP)).
Definition wan_state_ppp_configuring (i : iface_ptr) (p : vif_ptr) : M eWanState_t :=
  off_or_expired i p (
    v <- get_vif p ;;
    if negb (ppp_Enable (v_PPP v)) || ppp_link_ready v then wan_transition_wan_up p
    else ret WAN_STATE_PPP_CONFIGURING).

Definition wan_state_validating_wan (i : iface_ptr) (p : vif_ptr) : M eWanState_t :=
  off_or_expired i p (wan_transition_wan_validated i p).

(** ** Obtaining the addresses *)

Definition voice_stopped (i : iface_ptr) (p : vif_ptr) : M unit :=
  v <- get_vif p ;;
  when ((v_Alias v ≟ "DATA") || (v_Alias v ≟ "VOIP")) (updateInterfaceToVoiceManager i p false).

(** The source or the mode changed: the clients follow. *)
Definition refresh_dhcp (i : iface_ptr) (p : vif_ptr) : M eWanState_t :=
  I <- get_iface i ;;
  v <- get_vif p ;;
  (if wants_dhcpv4 (v_IP v) then
     when (ip_Dhcp4cStatus (v_IP v) ≠? DHCPC_STARTED)
       (WanManager_StartDhcpv4Client p (if_Name I) (if_IfaceType I) ;; ret tt)
   else when (ip_Dhcp4cStatus (v_IP v) ≟ DHCPC_STARTED)
     (WanManager_StopDhcpv4Client p STOP_DHCP_WITH_RELEASE ;; ret tt)) ;;
  v <- get_vif p ;;
  (if wants_dhcpv6 (v_IP v) then
     when (ip_Dhcp6cStatus (v_IP v) ≠? DHCPC_STARTED)
       (WanManager_StartDhcpv6Client p (if_IfaceType I) ;; ret tt)
   else when (ip_Dhcp6cStatus (v_IP v) ≟ DHCPC_STARTED)
     (WanManager_StopDhcpv6Client p STOP_DHCP_WITH_RELEASE ;; ret tt)) ;;
  v <- get_vif p ;;
  when ((ip_Dhcp4cStatus (v_IP v) ≠? DHCPC_STARTED) && (ip_Dhcp6cStatus (v_IP v) ≠? DHCPC_STARTED)) (
    set_status p WAN_IFACE_STATUS_VALIDATING ;;
    publish_status) ;;
  set_ip p (fun x => x <| ip_RefreshDHCP := false |>) ;;
  ret WAN_STATE_OBTAINING_IP_ADDRESSES.

(** The LAN prefix is set up once, by the pass before the address comes up. *)
Definition set_up_lan_prefix (p : vif_ptr) : M unit :=
  setUpLanPrefixIPv6 p ;;
  set_ip p (fun x => x <| ip_Ipv6Changed := false |>).

(** The change of the MAP-T switch is consumed by a state that finds it on. *)
Definition mapt_switched (p : vif_ptr) (next : M eWanState_t) (otherwise : M eWanState_t) : M eWanState_t :=
  enabled <- wanmanager_mapt_feature ;;
  if enabled : bool then
    set_db (fun d => d <| w_mapt_feature_enable_changed := false |>) ;; next
  else otherwise.
Definition mapt_switch_pending (I : DML_WAN_IFACE) (v : DML_VIRTUAL_IFACE) (changed : bool) : bool :=
  FEATURE_MAPT && v_EnableMAPT v && active I && changed
  && (map_MaptStatus (v_MAP v) ≟ WAN_IFACE_MAPT_STATE_DOWN).

(** What a lease leads to, once the clients are supervised. *)
Definition obtained (i : iface_ptr) (p : vif_ptr) : M eWanState_t :=
  WanMgr_MonitorDhcpApps i p ;;
  I <- get_iface i ;;
  v <- get_vif p ;;
  if ip_Ipv4Status (v_IP v) ≟ WAN_IFACE_IPV4_STATE_UP then
    if active I then wan_transition_ipv4_up i p else wan_transition_standby p
  else if ip_Ipv6Status (v_IP v) ≟ WAN_IFACE_IPV6_STATE_UP then
    if active I then
      if ip_Ipv6Changed (v_IP v) then set_up_lan_prefix p ;; ret WAN_STATE_OBTAINING_IP_ADDRESSES
      else
        ready <- checkIpv6LanAddressIsReadyToUse p ;;
        if ready =? 0 then wan_transition_ipv6_up i p else ret WAN_STATE_OBTAINING_IP_ADDRESSES
    else wan_transition_standby p
  else
    changed <- get_db w_mapt_feature_enable_changed ;;
    if mapt_switch_pending I v changed then
      mapt_switched p (wan_transition_mapt_feature_refresh i p) (ret WAN_STATE_OBTAINING_IP_ADDRESSES)
    else ret WAN_STATE_OBTAINING_IP_ADDRESSES.

(** The preferred MAP-T mode: [Some] is the state to return. *)
Definition selected_mode (i : iface_ptr) (p : vif_ptr) (now : Z) : M (option eWanState_t) :=
  v <- get_vif p ;;
  if ip_SelectedMode (v_IP v) ≠? MAPT_MODE then ret None
  else if map_MaptStatus (v_MAP v) ≟ WAN_IFACE_MAPT_STATE_UP then
    set_ip p (fun x => x <| ip_SelectedModeTimerStatus := COMPLETE |>) ;; ret None
  else if ip_SelectedModeTimerStatus (v_IP v) ≟ RUNNING then
    if (SELECTED_MODE_TIMEOUT_SECONDS <? now - ip_SelectedModeTimerStart (v_IP v))
       || (ip_Ipv6Status (v_IP v) ≟ WAN_IFACE_IPV6_STATE_UP)
    then
      set_ip p (fun x => x <| ip_SelectedModeTimerStatus := EXPIRED |>) ;;
      st <- wan_transition_wan_validated i p ;;
      ret (Some st)
    else ret (Some WAN_STATE_OBTAINING_IP_ADDRESSES)
  else ret None.

(** A link is not what it was when the addresses were asked for. *)
Definition link_changing (v : DML_VIRTUAL_IFACE) : bool :=
  (vlan_Status (v_VLAN v) ≟ WAN_IFACE_LINKSTATUS_CONFIGURING)
  || (ppp_LinkStatus (v_PPP v) ≟ WAN_IFACE_PPP_LINK_STATUS_CONFIGURING).
Definition discovery_failed (v : DML_VIRTUAL_IFACE) (now : Z) : bool :=
  ((1 <? vlan_NoOfInterfaceEntries (v_VLAN v)) && vlan_timeout v now)
  || vlan_down v
  || (ppp_Enable (v_PPP v) && (ppp_LinkStatus (v_PPP v) ≟ WAN_IFACE_PPP_LINK_STATUS_DOWN)).
Definition wan_state_obtaining_ip_addresses (i : iface_ptr) (p : vif_ptr) : M eWanState_t :=
  c <- get_controller ;;
  I <- get_iface i ;;
  v <- get_vif p ;;
  if iface_off c I v || link_changing v || v_Reset v then
    voice_stopped i p ;; wan_transition_physical_interface_down i p
  else
    now <- clock_gettime ;;
    if discovery_failed v now then
      set_vlan p (fun x => x <| vlan_Expired := true |>) ;;
      voice_stopped i p ;;
      wan_transition_physical_interface_down i p
    else
      r <- selected_mode i p now ;;
      match r with
      | Some st => ret st
      | None =>
          v <- get_vif p ;;
          if ip_RefreshDHCP (v_IP v) then refresh_dhcp i p else obtained i p
      end.

(** ** Standby *)

(** A standby interface that becomes active: IPv6 first, then IPv4 decides. *)
Definition standby_to_active (i : iface_ptr) (p : vif_ptr) : M eWanState_t :=
  v <- get_vif p ;;
  st <- (if ip_Ipv6Status (v_IP v) ≟ WAN_IFACE_IPV6_STATE_UP then
      when (ip_Ipv6Changed (v_IP v)) (set_up_lan_prefix p) ;;
      ready <- checkIpv6LanAddressIsReadyToUse p ;;
      if ready =? 0 then wan_transition_ipv6_up i p else ret WAN_STATE_STANDBY
    else ret WAN_STATE_STANDBY) ;;
  v <- get_vif p ;;
  if ip_Ipv4Status (v_IP v) ≟ WAN_IFACE_IPV4_STATE_UP then wan_transition_ipv4_up i p else ret st.

Definition standby_lost (v : DML_VIRTUAL_IFACE) : bool :=
  vlan_down v || ppp_not_up v
  || ((ip_Ipv4Status (v_IP v) ≟ WAN_IFACE_IPV4_STATE_DOWN) && (ip_Ipv6Status (v_IP v) ≟ WAN_IFACE_IPV6_STATE_DOWN))
  || ip_RefreshDHCP (v_IP v).
Definition wan_state_standby (i : iface_ptr) (p : vif_ptr) : M eWanState_t :=
  c <- get_controller ;;
  I <- get_iface i ;;
  v <- get_vif p ;;
  if iface_off c I v then wan_transition_physical_interface_down i p
  else
    WanMgr_MonitorDhcpApps i p ;;
    v <- get_vif p ;;
    if standby_lost v then ret WAN_STATE_OBTAINING_IP_ADDRESSES
    else if active I then standby_to_active i p
    else
      when (ip_RestartConnectivityCheck (v_IP v)
            && (ip_ConnectivityCheckType (v_IP v) ≟ WAN_CONNECTIVITY_TYPE_TAD))
        (WanMgr_StartConnectivityCheck p) ;;
      ret WAN_STATE_STANDBY.

(** ** Leased *)

(** The lease changed: taken down and set up again; a failure leaves the change
    for the next pass.  The result tells whether the change was applied. *)
Definition reconfigure_ipv4 (i : iface_ptr) (p : vif_ptr) : M unit :=
  down <- wan_tearDownIPv4 i p ;;
  when (down =? 0) (
    up <- wan_setUpIPv4 i p ;;
    when (up =? 0) (
      WanMgr_SendMsgTo_ConnectivityCheck p CONNECTION_MSG_IPV4 true ;;
      set_ip p (fun x => x <| ip_Ipv4Changed := false |>))).
Definition reconfigure_ipv6 (i : iface_ptr) (p : vif_ptr) : M bool :=
  down <- wan_tearDownIPv6 i p ;;
  if negb (down =? 0) then ret false
  else
    lan <- setUpLanPrefixIPv6 p ;;
    if negb (lan =? 0) then ret false
    else
      up <- wan_setUpIPv6 i p ;;
      if negb (up =? 0) then ret false
      else
        WanMgr_SendMsgTo_ConnectivityCheck p CONNECTION_MSG_IPV6 true ;;
        set_ip p (fun x => x <| ip_Ipv6Changed := false |>) ;;
        ret true.

(** A renewed lease is only reported to the connectivity check. *)
Definition renewed_ipv4 (p : vif_ptr) : M unit :=
  WanMgr_SendMsgTo_ConnectivityCheck p CONNECTION_MSG_IPV4 true ;;
  set_ip p (fun x => x <| ip_Ipv4Renewed := false |>).
Definition renewed_ipv6 (p : vif_ptr) : M unit :=
  WanMgr_SendMsgTo_ConnectivityCheck p CONNECTION_MSG_IPV6 true ;;
  set_ip p (fun x => x <| ip_Ipv6Renewed := false |>).

Definition wan_state_ipv4_leased (i : iface_ptr) (p : vif_ptr) : M eWanState_t :=
  I <- get_iface i ;;
  v <- get_vif p ;;
  when (ip_RefreshDHCP (v_IP v) && (ip_IPv6Source (v_IP v) ≟ DML_WAN_IP_SOURCE_DHCP)
        && (ip_Mode (v_IP v) ≟ DML_WAN_IP_MODE_DUAL_STACK) && (ip_Dhcp6cStatus (v_IP v) ≠? DHCPC_STARTED))
    (WanManager_StartDhcpv6Client p (if_IfaceType I) ;; ret tt) ;;
  WanMgr_MonitorDhcpApps i p ;;
  c <- get_controller ;;
  v <- get_vif p ;;
  changed <- get_db w_mapt_feature_enable_changed ;;
  if must_stop c I v then wan_transition_physical_interface_down i p
  else if ipv4_lost v || vlan_down v || ppp_not_up v then wan_transition_ipv4_down i p
  else if must_stand_by c I then wan_transition_standby_deconfig_ips i p
  else if ip_Ipv4Changed (v_IP v) then reconfigure_ipv4 i p ;; ret WAN_STATE_IPV4_LEASED
  else if ip_Ipv6Status (v_IP v) ≟ WAN_IFACE_IPV6_STATE_UP then
    if ip_Ipv6Changed (v_IP v) then set_up_lan_prefix p ;; ret WAN_STATE_IPV4_LEASED
    else
      ready <- checkIpv6LanAddressIsReadyToUse p ;;
      if ready =? 0 then wan_transition_ipv6_up i p else ret WAN_STATE_IPV4_LEASED
  else if ip_Ipv4Renewed (v_IP v) then renewed_ipv4 p ;; ret WAN_STATE_IPV4_LEASED
  else if mapt_switch_pending I v changed then
    mapt_switched p (wan_transition_mapt_feature_refresh i p) (ret WAN_STATE_IPV4_LEASED)
  else ret WAN_STATE_IPV4_LEASED.

(** The branches of IPv6 and dual stack on MAP-T: its options arrived, or it
    was switched on; [None] when neither applies. *)
Definition mapt_branch (i : iface_ptr) (p : vif_ptr) (I : DML_WAN_IFACE) (v : DML_VIRTUAL_IFACE)
    (changed : bool) (stay : M eWanState_t) : option (M eWanState_t) :=
  if FEATURE_MAPT && v_EnableMAPT v && active I && (map_MaptStatus (v_MAP v) ≟ WAN_IFACE_MAPT_STATE_UP) then
    Some (ready <- checkIpv6LanAddressIsReadyToUse p ;;
          if ready =? 0 then wan_transition_mapt_up i p else stay)
  else if mapt_switch_pending I v changed then
    Some (mapt_switched p (wan_transition_mapt_feature_refresh i p) stay)
  else None.

Definition wan_state_ipv6_leased (i : iface_ptr) (p : vif_ptr) : M eWanState_t :=
  I <- get_iface i ;;
  v <- get_vif p ;;
  when (ip_RefreshDHCP (v_IP v) && (ip_IPv4Source (v_IP v) ≟ DML_WAN_IP_SOURCE_DHCP)
        && (ip_Mode (v_IP v) ≟ DML_WAN_IP_MODE_DUAL_STACK)
        && (ip_SelectedModeTimerStatus (v_IP v) ≠? COMPLETE) && (ip_Dhcp4cStatus (v_IP v) ≠? DHCPC_STARTED))
    (WanManager_StartDhcpv4Client p (if_Name I) (if_IfaceType I) ;; ret tt) ;;
  WanMgr_MonitorDhcpApps i p ;;
  c <- get_controller ;;
  v <- get_vif p ;;
  changed <- get_db w_mapt_feature_enable_changed ;;
  let stay := WanMgr_CheckDefaultRA p ;; ret WAN_STATE_IPV6_LEASED in
  if must_stop c I v then wan_transition_physical_interface_down i p
  else if ipv6_lost v || vlan_down v || ppp_not_up v then wan_transition_ipv6_down i p
  else if must_stand_by c I then wan_transition_standby_deconfig_ips i p
  else if ip_Ipv6Changed (v_IP v) then reconfigure_ipv6 i p ;; stay
  else if ip_Ipv4Status (v_IP v) ≟ WAN_IFACE_IPV4_STATE_UP then wan_transition_ipv4_up i p
  else
    match mapt_branch i p I v changed stay with
    | Some m => m
    | None => when (ip_Ipv6Renewed (v_IP v)) (renewed_ipv6 p) ;; stay
    end.

Definition wan_state_dual_stack_active (i : iface_ptr) (p : vif_ptr) : M eWanState_t :=
  c <- get_controller ;;
  I <- get_iface i ;;
  v <- get_vif p ;;
  changed <- get_db w_mapt_feature_enable_changed ;;
  let stay := WanMgr_MonitorDhcpApps i p ;; WanMgr_CheckDefaultRA p ;; ret WAN_STATE_DUAL_STACK_ACTIVE in
  if must_stop c I v then wan_transition_physical_interface_down i p
  else if vlan_down v || ppp_not_up v then wan_transition_dual_stack_down i p
  else if ipv4_lost v then wan_transition_ipv4_down i p
  else if must_stand_by c I then wan_transition_standby_deconfig_ips i p
  else if ip_Ipv4Changed (v_IP v) then reconfigure_ipv4 i p ;; stay
  else if ipv6_lost v then wan_transition_ipv6_down i p
  else if ip_Ipv6Changed (v_IP v) then reconfigure_ipv6 i p ;; stay
  else
    match mapt_branch i p I v changed stay with
    | Some m => m
    | None =>
        (if ip_Ipv4Renewed (v_IP v) then renewed_ipv4 p
         else when (ip_Ipv6Renewed (v_IP v)) (renewed_ipv6 p)) ;;
        stay
    end.

(** ** MAP-T active *)

Definition mapt_lost (v : DML_VIRTUAL_IFACE) : bool :=
  negb (v_EnableMAPT v) || (ip_Ipv6Status (v_IP v) ≟ WAN_IFACE_IPV6_STATE_DOWN)
  || (map_MaptStatus (v_MAP v) ≟ WAN_IFACE_MAPT_STATE_DOWN)
  || (ip_RefreshDHCP (v_IP v) && negb (has_ipv6 (ip_Mode (v_IP v))))
  || vlan_down v.
(** IPv6 was configured again: MAP-T follows at the next pass. *)
Definition reconfigure_ipv6_of_mapt (i : iface_ptr) (p : vif_ptr) (I : DML_WAN_IFACE) : M unit :=
  done <- reconfigure_ipv6 i p ;;
  v <- get_vif p ;;
  when (done && v_EnableMAPT v && active I && (map_MaptStatus (v_MAP v) ≟ WAN_IFACE_MAPT_STATE_UP))
    (upd_vif p (fun v => v <| v_MAP; map_MaptChanged := true |>)).
Definition reconfigure_mapt (i : iface_ptr) (p : vif_ptr) : M unit :=
  down <- wan_tearDownMapt ;;
  when (down =? 0) (
    I <- get_iface i ;;
    v <- get_vif p ;;
    WanManager_ResetMAPTConfiguration (if_Name I) (v_Name v) ;;
    up <- wan_setUpMapt ;;
    when (up =? 0) (
      status <- verify_mapt p ;;
      when (status ≟ ANSC_STATUS_SUCCESS) (
        r <- process_mapt i p ;;
        when (r =? 0) (upd_vif p (fun v => v <| v_MAP; map_MaptChanged := false |>))))).

Definition wan_state_mapt_active (i : iface_ptr) (p : vif_ptr) : M eWanState_t :=
  c <- get_controller ;;
  I <- get_iface i ;;
  v <- get_vif p ;;
  changed <- get_db w_mapt_feature_enable_changed ;;
  let stay := WanMgr_MonitorDhcpApps i p ;; WanMgr_CheckDefaultRA p ;; ret WAN_STATE_MAPT_ACTIVE in
  if must_stop c I v then wan_transition_physical_interface_down i p
  else if must_stand_by c I then wan_transition_standby_deconfig_ips i p
  else if mapt_lost v then wan_transition_mapt_down i p
  else if changed then
    enabled <- wanmanager_mapt_feature ;;
    if enabled : bool then stay
    else
      set_db (fun d => d <| w_mapt_feature_enable_changed := false |>) ;;
      wan_transition_mapt_down i p ;;
      wan_transition_mapt_feature_refresh i p
  else
    (if ip_Ipv6Changed (v_IP v) then reconfigure_ipv6_of_mapt i p I
     else if map_MaptChanged (v_MAP v) then reconfigure_mapt i p
     else when (ip_Ipv6Renewed (v_IP v)) (renewed_ipv6 p)) ;;
    stay.

(** ** Refreshing, deconfiguring, exit *)

Definition links_not_down (v : DML_VIRTUAL_IFACE) : bool :=
  (ppp_Enable (v_PPP v) && (ppp_LinkStatus (v_PPP v) ≠? WAN_IFACE_PPP_LINK_STATUS_DOWN))
  || (vlan_Enable (v_VLAN v) && (vlan_Status (v_VLAN v) ≠? WAN_IFACE_LINKSTATUS_DOWN)).
Definition wan_state_refreshing_wan (i : iface_ptr) (p : vif_ptr) : M eWanState_t :=
  c <- get_controller ;;
  I <- get_iface i ;;
  v <- get_vif p ;;
  if iface_off c I v then
    upd_vif p (fun v => v <| v_Reset := false |>
      <| v_VLAN ::= fun x => x <| vlan_Reset := false |> <| vlan_Expired := false |> |>) ;;
    wan_transition_physical_interface_down i p
  else if links_not_down v then ret WAN_STATE_REFRESHING_WAN
  else wan_transition_wan_refreshed i p.

Definition wan_state_deconfiguring_wan (p : vif_ptr) : M eWanState_t :=
  v <- get_vif p ;;
  if links_not_down v then ret WAN_STATE_DECONFIGURING_WAN else wan_transition_exit p.

Definition wan_state_exit (p : vif_ptr) : M eWanState_t := WanManager_ClearDHCPData p ;; ret WAN_STATE_EXIT.

(** ** The thread *)

(** The messages of the DHCP clients and of PPP. *)
Definition WanMgr_IfaceIpcMsg_handle (p : vif_ptr) : M unit :=
  v <- get_vif p ;;
  when (ppp_Enable (v_PPP v)) (
    when (ppp_IPCPStatusChanged (v_PPP v)) (
      when ((ip_IPv4Source (v_IP v) ≟ DML_WAN_IP_SOURCE_PPP) && has_ipv4 (ip_Mode (v_IP v)))
        (IPCPStateChangeHandler p ;; ret tt) ;;
      set_ppp p (fun x => x <| ppp_IPCPStatusChanged := false |>)) ;;
    v <- get_vif p ;;
    when (ppp_IPV6CPStatusChanged (v_PPP v)) (set_ppp p (fun x => x <| ppp_IPV6CPStatusChanged := false |>))) ;;
  v <- get_vif p ;;
  when (match ip_pIpcIpv4Data (v_IP v) with Some _ => true | None => false end)
    (wanmgr_handle_dhcpv4_event_data p ;; ret tt) ;;
  v <- get_vif p ;;
  when (match ip_pIpcIpv6Data (v_IP v) with Some _ => true | None => false end)
    (wanmgr_handle_dhcpv6_event_data p ;; ret tt).

(** The states of the [switch]; [None] when the thread leaves its loop. *)
Definition ism_state (i : iface_ptr) (p : vif_ptr) (st : eWanState_t) : M (option eWanState_t) :=
  let run m := st' <- m ;; ret (Some st') in
  match st with
  | WAN_STATE_VLAN_CONFIGURING => run (wan_state_vlan_configuring i p)
  | WAN_STATE_PPP_CONFIGURING => run (wan_state_ppp_configuring i p)
  | WAN_STATE_VALIDATING_WAN => run (wan_state_validating_wan i p)
  | WAN_STATE_OBTAINING_IP_ADDRESSES => run (wan_state_obtaining_ip_addresses i p)
  | WAN_STATE_IPV4_LEASED => run (wan_state_ipv4_leased i p)
  | WAN_STATE_IPV6_LEASED => run (wan_state_ipv6_leased i p)
  | WAN_STATE_DUAL_STACK_ACTIVE => run (wan_state_dual_stack_active i p)
  | WAN_STATE_MAPT_ACTIVE =>
      if FEATURE_MAPT then run (wan_state_mapt_active i p)
      else wan_state_exit p ;; ret None
  | WAN_STATE_REFRESHING_WAN => run (wan_state_refreshing_wan i p)
  | WAN_STATE_DECONFIGURING_WAN => run (wan_state_deconfiguring_wan p)
  | WAN_STATE_STANDBY => run (wan_state_standby i p)
  | WAN_STATE_EXIT => wan_state_exit p ;; ret None
  end.

(** The virtual interface of the controller. *)
Definition ism_vif (i : iface_ptr) : M vif_ptr :=
  VirIfIdx <- get_ctl ic_VirIfIdx ;;
  I <- get_iface i ;;
  k <- deref (WanMgr_getVirtualIfaceById (if_VirtIfList I) (u32 VirIfIdx)) ;;
  ret (i, k).
Definition ism_resolve : M (iface_ptr * vif_ptr) :=
  idx <- get_ctl ic_interfaceIdx ;;
  o <- WanMgr_GetIfaceData_locked (u32 idx) ;;
  i <- deref o ;;
  set_ctl (fun c => c <| ic_pIfaceData := Some i |>) ;;
  p <- ism_vif i ;;
  ret (i, p).

(** The configuration a pass works with; the change of mode is consumed by the
    machine that sees it first. *)
Definition ism_config : M unit :=
  with_config (
    cfg <- get_db w_Config ;;
    set_ctl (fun c => c <| ic_WanEnable := cfg_Enable cfg |> <| ic_DeviceNwMode := cfg_DeviceNwMode cfg |>
                        <| ic_DeviceNwModeChanged := cfg_DeviceNwModeChanged cfg |>) ;;
    set_db (fun d => d <| w_Config; cfg_DeviceNwModeChanged := false |>)).

(** The part of a pass under the lock of the interface. *)
Definition ism_process (i : iface_ptr) (p : vif_ptr) (st : eWanState_t) : M (option eWanState_t) :=
  WanMgr_IfaceIpcMsg_handle p ;;
  set_ctl (fun c => c <| ic_eCurrentState := st |>) ;;
  upd_vif p (fun v => v <| v_eCurrentState := st |>) ;;
  ism_state i p st.
Definition ism_iteration (st : eWanState_t) : M (option eWanState_t) :=
  set_ctl (fun c => c <| ic_pIfaceData := None |>) ;;
  n <- call (ExtCall "select" ["50000"]) ;;
  if n <? 0 then ret (Some st)
  else
    ism_config ;;
    ip <- ism_resolve ;;
    next <- ism_process (fst ip) (snd ip) st ;;
    WanMgrDml_GetIfaceData_release ;;
    ret next.

(** Before the loop: the start transition, or no loop at all without the
    interface. *)
Definition ism_start : M (option eWanState_t) :=
  idx <- get_ctl ic_interfaceIdx ;;
  o <- WanMgr_GetIfaceData_locked (u32 idx) ;;
  match o with
  | None => ret None
  | Some i =>
      set_ctl (fun c => c <| ic_pIfaceData := Some i |>) ;;
      p <- ism_vif i ;;
      st <- wan_transition_start i p ;;
      WanMgrDml_GetIfaceData_release ;;
      ret (Some st)
  end.
End IfaceSM.
