(* ===== verification/IfaceFacts.v ===== *)
(** What the operations of an interface state machine leave alone: the
    interfaces but for the run-time fields of their virtual interfaces, the
    groups, the counters, its own controller but for the connectivity check, and
    the lock.  The status of a virtual interface is seen through a function [g]:
    the operations of this file keep it for every [g]. *)

From S2P Require Export IfaceSM DataFacts.

#[local] Abbreviation IC := WanMgr_IfaceSM_Controller_t.

(** * The view *)

Section View.
Context {D : Type} (g : DML_WAN_IFACE_STATUS -> D).

(** The fields of a virtual interface the operations do not write. *)
Definition vif_kept (v : DML_VIRTUAL_IFACE) :=
  (v_VirIfIdx v,
   (v_baseIfIdx v, v_Alias v, v_Enable v, v_EnableMAPT v, v_RemoteStatus v),
   (vlan_Enable (v_VLAN v), vlan_Timeout (v_VLAN v), vlan_NoOfInterfaceEntries (v_VLAN v),
    vlan_InterfaceList (v_VLAN v), vlan_VirtMarking (v_VLAN v)),
   (ip_IPv4Source (v_IP v), ip_IPv6Source (v_IP v), ip_Mode (v_IP v), ip_PreferredMode (v_IP v),
    ip_ConnectivityCheckType (v_IP v)),
   (ppp_Enable (v_PPP v), ppp_Interface (v_PPP v)), v_eCurrentState v, g (v_Status v)).
Definition iface_kept (I : DML_WAN_IFACE) := (I <| if_VirtIfList := [] |>, vif_kept <$> if_VirtIfList I).
Definition ic_kept (c : IC) :=
  (ic_WanEnable c, ic_interfaceIdx c, ic_VirIfIdx c, ic_pIfaceData c, ic_eCurrentState c,
   ic_DeviceNwMode c, ic_DeviceNwModeChanged c).
Definition ism_view (s : St IC) := (iface_kept <$> ifaces s, groups s, counts s, ic_kept (ctl s), depth s).

Lemma iface_kept_alter f k I :
  (forall v, vif_kept (f v) = vif_kept v) -> iface_kept (I <| if_VirtIfList ::= alter f k |>) = iface_kept I.
Proof.
  intros Hf. unfold iface_kept. rsimpl. f_equal. apply list_eq. intros j.
  rewrite !list_lookup_fmap, list_lookup_alter. destruct (decide _) as [->|]; [|done].
  destruct (if_VirtIfList I !! j); simpl; [by rewrite Hf | done].
Qed.
Lemma ifaces_kept_alter f (i : nat) k (l : list DML_WAN_IFACE) :
  (forall v, vif_kept (f v) = vif_kept v) ->
  iface_kept <$> alter (fun I => I <| if_VirtIfList ::= alter f k |>) i l = iface_kept <$> l.
Proof.
  intros Hf. apply list_eq. intros j. rewrite !list_lookup_fmap, list_lookup_alter.
  destruct (decide _) as [->|]; [|done].
  destruct (l !! j); simpl; [by rewrite iface_kept_alter | done].
Qed.
Lemma kv_upd_vif p f : (forall v, vif_kept (f v) = vif_kept v) -> Keeps ism_view (upd_vif p f).
Proof.
  intros Hf. apply keeps_bind; [apply keeps_get_vif | intros _].
  apply keeps_bind; [apply keeps_get_iface | intros _]. apply keeps_modify. intros s.
  exact (f_equal (fun x => (x, groups s, counts s, ic_kept (ctl s), depth s))
           (ifaces_kept_alter f p.1 p.2 (ifaces s) Hf)).
Qed.

(** A critical section keeps the view its body keeps. *)
Lemma ism_view_locked s s1 : ism_view s1 = ism_view (locked s) -> ism_view (unlocked s1) = ism_view s.
Proof.
  intros Hv. change ((fun x : (_ * nat) => (x.1, pred x.2)) (ism_view s1) = ism_view s). by rewrite Hv.
Qed.
Lemma kv_guarded {A} (ok : St IC -> bool) (none : A) body :
  Keeps ism_view body -> Keeps ism_view (fun s => guarded (ok s) none body s).
Proof.
  intros Hb s a s'. unfold guarded. destruct (ok s); [|by intros [= _ <-]].
  destruct (body (locked s)) as [[b s1]|] eqn:E; [|done]. intros [= _ <-].
  apply ism_view_locked, (Hb _ _ _ E).
Qed.
Lemma kv_with_iface {A} none idx (body : iface_ptr -> M (St IC) A) :
  (forall i, Keeps ism_view (body i)) -> Keeps ism_view (with_iface none idx body).
Proof. intros. eapply keeps_ext; [apply with_iface_eq|]. by apply kv_guarded. Qed.
Lemma kv_with_config {A} (body : M (St IC) A) : Keeps ism_view body -> Keeps ism_view (with_config body).
Proof.
  intros Hb s a s' E. rewrite (with_config_eq a) in E.
  exact (kv_guarded (fun _ => true) a body Hb s a s' E).
Qed.

End View.

Ltac kv_step :=
  lazymatch goal with
  | |- Keeps (ism_view _) (with_iface _ _ _) => apply kv_with_iface; intros ?
  | |- Keeps (ism_view _) (with_config _) => apply kv_with_config
  | |- Keeps (ism_view _) (upd_vif _ _) =>
      apply kv_upd_vif; intros ?;
      first [reflexivity | unfold vif_kept, set; cbn; destruct (_ ≟ _); reflexivity]
  | |- _ => keeps_step
  end.
Ltac kv_tac := repeat kv_step.


(** * Every operation keeps it *)

Section IfaceKeeps.
Context `{Platform} `{Build} `{MaptBuild} `{IfaceBuild} {D : Type} (sv : DML_WAN_IFACE_STATUS -> D).
#[local] Abbreviation kv m := (Keeps (ism_view sv) m).

(** ** The helpers *)

Lemma kv_syscfg_set_string n x : kv (syscfg_set_string n x).
Proof. unfold syscfg_set_string. kv_tac. Qed.
#[local] Hint Resolve kv_syscfg_set_string : keeps.
Lemma kv_v_secure_system c : kv (v_secure_system c).
Proof. unfold v_secure_system. kv_tac. Qed.
#[local] Hint Resolve kv_v_secure_system : keeps.
Lemma kv_WanManager_DoSystemActionWithStatus c : kv (WanManager_DoSystemActionWithStatus c).
Proof. unfold WanManager_DoSystemActionWithStatus. kv_tac. Qed.
#[local] Hint Resolve kv_WanManager_DoSystemActionWithStatus : keeps.
Lemma kv_WanManager_DoSystemAction c : kv (WanManager_DoSystemAction c).
Proof. unfold WanManager_DoSystemAction. kv_tac. Qed.
#[local] Hint Resolve kv_WanManager_DoSystemAction : keeps.
Lemma kv_WanMgr_RdkBus_SetParamValues a b c d : kv (WanMgr_RdkBus_SetParamValues a b c d).
Proof. unfold WanMgr_RdkBus_SetParamValues. kv_tac. Qed.
#[local] Hint Resolve kv_WanMgr_RdkBus_SetParamValues : keeps.
Lemma kv_WanMgr_RdkBus_GetParamValues a b c : kv (WanMgr_RdkBus_GetParamValues a b c).
Proof. unfold WanMgr_RdkBus_GetParamValues. kv_tac. Qed.
#[local] Hint Resolve kv_WanMgr_RdkBus_GetParamValues : keeps.
Lemma kv_syscfg_get n : kv (syscfg_get n).
Proof. unfold syscfg_get. kv_tac. Qed.
#[local] Hint Resolve kv_syscfg_get : keeps.
Lemma kv_AnscAllocateMemory t : kv (AnscAllocateMemory t).
Proof. unfold AnscAllocateMemory. kv_tac. Qed.
#[local] Hint Resolve kv_AnscAllocateMemory : keeps.
Lemma kv_wanmgr_sysevents_ipv6Info_init : kv wanmgr_sysevents_ipv6Info_init.
Proof. unfold wanmgr_sysevents_ipv6Info_init, syscfg_set_string. kv_tac. Qed.
#[local] Hint Resolve kv_wanmgr_sysevents_ipv6Info_init : keeps.
Lemma kv_wanmgr_sysevents_ipv4Info_set d n : kv (wanmgr_sysevents_ipv4Info_set d n).
Proof. unfold wanmgr_sysevents_ipv4Info_set. kv_tac. Qed.
#[local] Hint Resolve kv_wanmgr_sysevents_ipv4Info_set : keeps.
Lemma kv_publish_wan_mac n : kv (publish_wan_mac n).
Proof. unfold publish_wan_mac. kv_tac. Qed.
#[local] Hint Resolve kv_publish_wan_mac : keeps.
Lemma kv_wanmgr_set_Ipv4Sysevent d m : kv (wanmgr_set_Ipv4Sysevent d m).
Proof. unfold wanmgr_set_Ipv4Sysevent. kv_tac. Qed.
#[local] Hint Resolve kv_wanmgr_set_Ipv4Sysevent : keeps.
Lemma kv_wanmgr_sysevents_ipv4Info_init n m : kv (wanmgr_sysevents_ipv4Info_init n m).
Proof. unfold wanmgr_sysevents_ipv4Info_init. kv_tac. Qed.
#[local] Hint Resolve kv_wanmgr_sysevents_ipv4Info_init : keeps.
Lemma kv_Force_IPv6_toggle n : kv (Force_IPv6_toggle n).
Proof. unfold Force_IPv6_toggle, set_isDefaultGatewayAdded. kv_tac. Qed.
#[local] Hint Resolve kv_Force_IPv6_toggle : keeps.
Lemma kv_WanMgr_Configure_accept_ra v b : kv (WanMgr_Configure_accept_ra v b).
Proof. unfold WanMgr_Configure_accept_ra, v_secure_system. kv_tac. Qed.
#[local] Hint Resolve kv_WanMgr_Configure_accept_ra : keeps.

(** ** MAP-T *)

Lemma kv_WanManager_GetLANIPAddress : kv WanManager_GetLANIPAddress.
Proof. unfold WanManager_GetLANIPAddress. kv_tac. Qed.
#[local] Hint Resolve kv_WanManager_GetLANIPAddress : keeps.
Lemma kv_WanMgr_RdkBus_ConfigureUPnPIGDService b : kv (WanMgr_RdkBus_ConfigureUPnPIGDService b).
Proof. unfold WanMgr_RdkBus_ConfigureUPnPIGDService. kv_tac. Qed.
#[local] Hint Resolve kv_WanMgr_RdkBus_ConfigureUPnPIGDService : keeps.
Lemma kv_WanManager_VerifyMAPTConfiguration o m c : kv (WanManager_VerifyMAPTConfiguration o m c).
Proof. unfold WanManager_VerifyMAPTConfiguration. kv_tac. Qed.
#[local] Hint Resolve kv_WanManager_VerifyMAPTConfiguration : keeps.
Lemma kv_isModuleLoaded n : kv (isModuleLoaded n).
Proof. unfold isModuleLoaded. kv_tac. Qed.
#[local] Hint Resolve kv_isModuleLoaded : keeps.
Lemma kv_get_V6_defgateway_wan_interface : kv get_V6_defgateway_wan_interface.
Proof. unfold get_V6_defgateway_wan_interface. kv_tac. Qed.
#[local] Hint Resolve kv_get_V6_defgateway_wan_interface : keeps.
Lemma kv_mapt_wait_defgateway : kv mapt_wait_defgateway.
Proof. unfold mapt_wait_defgateway. kv_tac. Qed.
#[local] Hint Resolve kv_mapt_wait_defgateway : keeps.
Lemma kv_mapt_ftp_module m c : kv (mapt_ftp_module m c).
Proof. unfold mapt_ftp_module. kv_tac. Qed.
#[local] Hint Resolve kv_mapt_ftp_module : keeps.
Lemma kv_WanManager_DisplayMAPTFeatureStatus : kv WanManager_DisplayMAPTFeatureStatus.
Proof. unfold WanManager_DisplayMAPTFeatureStatus. kv_tac. Qed.
#[local] Hint Resolve kv_WanManager_DisplayMAPTFeatureStatus : keeps.
Lemma kv_maptInfo_set m : kv (maptInfo_set m).
Proof. unfold maptInfo_set. kv_tac. Qed.
#[local] Hint Resolve kv_maptInfo_set : keeps.
Lemma kv_maptInfo_reset : kv maptInfo_reset.
Proof. unfold maptInfo_reset. kv_tac. Qed.
#[local] Hint Resolve kv_maptInfo_reset : keeps.
Lemma kv_run_or_return c m : kv m -> kv (run_or_return c m).
Proof. intros Hm. unfold run_or_return. kv_tac. Qed.
Lemma kv_run_all cmds m : kv m -> kv (run_all_or_return cmds m).
Proof. intros Hm. induction cmds; [done | by apply kv_run_or_return]. Qed.
Lemma kv_WanManager_ProcessMAPTConfiguration m c b d : kv (WanManager_ProcessMAPTConfiguration m c b d).
Proof.
  unfold WanManager_ProcessMAPTConfiguration.
  repeat first [ apply kv_run_or_return | apply kv_run_all | kv_step ].
Qed.
Lemma kv_WanManager_ResetMAPTConfiguration b v : kv (WanManager_ResetMAPTConfiguration b v).
Proof. unfold WanManager_ResetMAPTConfiguration. repeat first [ apply kv_run_or_return | kv_step ]. Qed.
#[local] Hint Resolve kv_WanManager_ProcessMAPTConfiguration kv_WanManager_ResetMAPTConfiguration : keeps.

(** ** The clients *)

Lemma kv_WanManager_send_and_receive_rs p : kv (WanManager_send_and_receive_rs p).
Proof. unfold WanManager_send_and_receive_rs. kv_tac. Qed.
#[local] Hint Resolve kv_WanManager_send_and_receive_rs : keeps.
Lemma kv_CheckV6DefaultRule n : kv (CheckV6DefaultRule n).
Proof. unfold CheckV6DefaultRule. kv_tac. Qed.
#[local] Hint Resolve kv_CheckV6DefaultRule : keeps.
Lemma kv_WanMgr_CheckDefaultRA p : kv (WanMgr_CheckDefaultRA p).
Proof. unfold WanMgr_CheckDefaultRA, set_isDefaultGatewayAdded. kv_tac. Qed.
#[local] Hint Resolve kv_WanMgr_CheckDefaultRA : keeps.
Lemma kv_WanManager_StartDhcpv6Client p t : kv (WanManager_StartDhcpv6Client p t).
Proof. unfold WanManager_StartDhcpv6Client, WanMgr_SubscribeDhcpClientEvents, dhcpmgr_set. kv_tac. Qed.
#[local] Hint Resolve kv_WanManager_StartDhcpv6Client : keeps.
Lemma kv_WanManager_StopDhcpv6Client p r : kv (WanManager_StopDhcpv6Client p r).
Proof. unfold WanManager_StopDhcpv6Client, WanMgr_UnSubscribeDhcpClientEvents, dhcpmgr_set. kv_tac. Qed.
#[local] Hint Resolve kv_WanManager_StopDhcpv6Client : keeps.
Lemma kv_WanManager_RestartDhcpv6Client p t : kv (WanManager_RestartDhcpv6Client p t).
Proof. unfold WanManager_RestartDhcpv6Client, dhcpmgr_set. kv_tac. Qed.
#[local] Hint Resolve kv_WanManager_RestartDhcpv6Client : keeps.
Lemma kv_WanManager_StartDhcpv4Client p n t : kv (WanManager_StartDhcpv4Client p n t).
Proof. unfold WanManager_StartDhcpv4Client, WanMgr_SubscribeDhcpClientEvents, dhcpmgr_set. kv_tac. Qed.
#[local] Hint Resolve kv_WanManager_StartDhcpv4Client : keeps.
Lemma kv_WanManager_StopDhcpv4Client p r : kv (WanManager_StopDhcpv4Client p r).
Proof. unfold WanManager_StopDhcpv4Client, WanMgr_UnSubscribeDhcpClientEvents, dhcpmgr_set. kv_tac. Qed.
#[local] Hint Resolve kv_WanManager_StopDhcpv4Client : keeps.
Lemma kv_WanManager_UpdateInterfaceStatus p st : kv (WanManager_UpdateInterfaceStatus p st).
Proof. unfold WanManager_UpdateInterfaceStatus. kv_tac. Qed.
#[local] Hint Resolve kv_WanManager_UpdateInterfaceStatus : keeps.
Lemma kv_WanMgr_Rbus_EventPublishHandler e x : kv (WanMgr_Rbus_EventPublishHandler e x).
Proof. unfold WanMgr_Rbus_EventPublishHandler. kv_tac. Qed.
#[local] Hint Resolve kv_WanMgr_Rbus_EventPublishHandler : keeps.

(** ** The leases *)

Lemma kv_WanManager_getUpTime : kv WanManager_getUpTime.
Proof. unfold WanManager_getUpTime. kv_tac. Qed.
#[local] Hint Resolve kv_WanManager_getUpTime : keeps.
Lemma kv_WanManager_GetBCastFromIpSubnetMask i m : kv (WanManager_GetBCastFromIpSubnetMask i m).
Proof. unfold WanManager_GetBCastFromIpSubnetMask, inet_addr. kv_tac. Qed.
#[local] Hint Resolve kv_WanManager_GetBCastFromIpSubnetMask : keeps.
Lemma kv_WanManager_AddGatewayRoute d : kv (WanManager_AddGatewayRoute d).
Proof. unfold WanManager_AddGatewayRoute. kv_tac. Qed.
#[local] Hint Resolve kv_WanManager_AddGatewayRoute : keeps.
Lemma kv_publish_vif p f x : kv (publish_vif p f x).
Proof. unfold publish_vif. kv_tac. Qed.
#[local] Hint Resolve kv_publish_vif : keeps.
Lemma kv_dhcpv4_renewed p m : kv (dhcpv4_renewed p m).
Proof. unfold dhcpv4_renewed. kv_tac. Qed.
#[local] Hint Resolve kv_dhcpv4_renewed : keeps.
Lemma kv_dhcpv4_assigned p m c t : kv (dhcpv4_assigned p m c t).
Proof. unfold dhcpv4_assigned. kv_tac. Qed.
#[local] Hint Resolve kv_dhcpv4_assigned : keeps.
Lemma kv_cellular_address p x f : kv (cellular_address p x f).
Proof. unfold cellular_address, upd_ipc4. kv_tac. Qed.
#[local] Hint Resolve kv_cellular_address : keeps.
Lemma kv_cellular_ipv6 b : kv (cellular_ipv6 b).
Proof. unfold cellular_ipv6, cellular_query. kv_tac. Qed.
#[local] Hint Resolve kv_cellular_ipv6 : keeps.
Lemma kv_ppp_get n f : kv (ppp_get n f).
Proof. unfold ppp_get. kv_tac. Qed.
#[local] Hint Resolve kv_ppp_get : keeps.
Lemma kv_IPCPStateChangeHandler p : kv (IPCPStateChangeHandler p).
Proof. unfold IPCPStateChangeHandler, dhcpv4_free, upd_ipc4. kv_tac. Qed.
#[local] Hint Resolve kv_IPCPStateChangeHandler : keeps.
Lemma kv_WanMgr_isBridgeModeEnabled : kv WanMgr_isBridgeModeEnabled.
Proof. unfold WanMgr_isBridgeModeEnabled. kv_tac. Qed.
#[local] Hint Resolve kv_WanMgr_isBridgeModeEnabled : keeps.
Lemma kv_prefix_on_lan_bridge : kv prefix_on_lan_bridge.
Proof. unfold prefix_on_lan_bridge. kv_tac. Qed.
#[local] Hint Resolve kv_prefix_on_lan_bridge : keeps.
Lemma kv_WanManager_Ipv6PrefixUtil n o a b : kv (WanManager_Ipv6PrefixUtil n o a b).
Proof. unfold WanManager_Ipv6PrefixUtil. kv_tac. Qed.
#[local] Hint Resolve kv_WanManager_Ipv6PrefixUtil : keeps.
Lemma kv_get_v6 p : kv (get_v6 p).
Proof. unfold get_v6. kv_tac. Qed.
#[local] Hint Resolve kv_get_v6 : keeps.
Lemma kv_dhcpv6_lease_configurable p m d : kv (dhcpv6_lease_configurable p m d).
Proof. unfold dhcpv6_lease_configurable. kv_tac. Qed.
#[local] Hint Resolve kv_dhcpv6_lease_configurable : keeps.
Lemma kv_dhcpv6_publish_prefix m d : kv (dhcpv6_publish_prefix m d).
Proof. unfold dhcpv6_publish_prefix. kv_tac. Qed.
#[local] Hint Resolve kv_dhcpv6_publish_prefix : keeps.
Lemma kv_syscfg_prefix_clear : kv syscfg_prefix_clear.
Proof. unfold syscfg_prefix_clear. kv_tac. Qed.
#[local] Hint Resolve kv_syscfg_prefix_clear : keeps.
Lemma kv_dhcpv6_lease_published p m d : kv (dhcpv6_lease_published p m d).
Proof. unfold dhcpv6_lease_published. kv_tac. Qed.
#[local] Hint Resolve kv_dhcpv6_lease_published : keeps.
Lemma kv_dhcpv6_slaac p l : kv (dhcpv6_slaac p l).
Proof. unfold dhcpv6_slaac. kv_tac. Qed.
#[local] Hint Resolve kv_dhcpv6_slaac : keeps.
Lemma kv_dhcpv6_connected p m d : kv (dhcpv6_connected p m d).
Proof. unfold dhcpv6_connected. kv_tac. Qed.
#[local] Hint Resolve kv_dhcpv6_connected : keeps.
Lemma kv_dhcpv6_mapt p m : kv (dhcpv6_mapt p m).
Proof. unfold dhcpv6_mapt. kv_tac. Qed.
#[local] Hint Resolve kv_dhcpv6_mapt : keeps.
Lemma kv_wanmgr_handle_dhcpv6_event_data p : kv (wanmgr_handle_dhcpv6_event_data p).
Proof. unfold wanmgr_handle_dhcpv6_event_data, dhcpv6_free, get_v6. kv_tac. Qed.
#[local] Hint Resolve kv_wanmgr_handle_dhcpv6_event_data : keeps.

(** ** The links, the routes and the services *)

Lemma kv_telemetry e : kv (telemetry e).
Proof. unfold telemetry. kv_tac. Qed.
#[local] Hint Resolve kv_telemetry : keeps.
Lemma kv_WanMgr_RdkBus_setWanIpInterfaceData p : kv (WanMgr_RdkBus_setWanIpInterfaceData p).
Proof. unfold WanMgr_RdkBus_setWanIpInterfaceData. kv_tac. Qed.
#[local] Hint Resolve kv_WanMgr_RdkBus_setWanIpInterfaceData : keeps.
Lemma kv_WanMgr_RdkBus_ConfigureVlan p b : kv (WanMgr_RdkBus_ConfigureVlan p b).
Proof. unfold WanMgr_RdkBus_ConfigureVlan, set_vlan. kv_tac. Qed.
#[local] Hint Resolve kv_WanMgr_RdkBus_ConfigureVlan : keeps.
Lemma kv_ppp_lower_layer p : kv (ppp_lower_layer p).
Proof. unfold ppp_lower_layer. kv_tac. Qed.
#[local] Hint Resolve kv_ppp_lower_layer : keeps.
Lemma kv_WanManager_ConfigurePPPSession p b : kv (WanManager_ConfigurePPPSession p b).
Proof. unfold WanManager_ConfigurePPPSession. kv_tac. Qed.
#[local] Hint Resolve kv_WanManager_ConfigurePPPSession : keeps.
Lemma kv_WanMgr_GetSelectedIPMode p : kv (WanMgr_GetSelectedIPMode p).
Proof. unfold WanMgr_GetSelectedIPMode. kv_tac. Qed.
#[local] Hint Resolve kv_WanMgr_GetSelectedIPMode : keeps.
Lemma kv_DmlSetVLANInUseToPSMDB p : kv (DmlSetVLANInUseToPSMDB p).
Proof. unfold DmlSetVLANInUseToPSMDB. kv_tac. Qed.
#[local] Hint Resolve kv_DmlSetVLANInUseToPSMDB : keeps.
Lemma kv_WanManager_DelDefaultGatewayRoute m c : kv (WanManager_DelDefaultGatewayRoute m c).
Proof. unfold WanManager_DelDefaultGatewayRoute. kv_tac. Qed.
#[local] Hint Resolve kv_WanManager_DelDefaultGatewayRoute : keeps.
Lemma kv_WanManager_AddDefaultGatewayRoute m d : kv (WanManager_AddDefaultGatewayRoute m d).
Proof. unfold WanManager_AddDefaultGatewayRoute. kv_tac. Qed.
#[local] Hint Resolve kv_WanManager_AddDefaultGatewayRoute : keeps.
Lemma kv_WanManager_PrintBootEvents st : kv (WanManager_PrintBootEvents st).
Proof. unfold WanManager_PrintBootEvents. kv_tac. Qed.
#[local] Hint Resolve kv_WanManager_PrintBootEvents : keeps.
Lemma kv_wanmanager_mapt_feature : kv wanmanager_mapt_feature.
Proof. unfold wanmanager_mapt_feature. kv_tac. Qed.
#[local] Hint Resolve kv_wanmanager_mapt_feature : keeps.
Lemma kv_wanmgr_services_restart : kv wanmgr_services_restart.
Proof. unfold wanmgr_services_restart, wanmgr_sshd_restart, wanmgr_snmpv3_restart. kv_tac. Qed.
#[local] Hint Resolve kv_wanmgr_services_restart : keeps.
Lemma kv_WanMgr_Configure_TAD_WCC p e : kv (WanMgr_Configure_TAD_WCC p e).
Proof. unfold WanMgr_Configure_TAD_WCC. kv_tac. Qed.
#[local] Hint Resolve kv_WanMgr_Configure_TAD_WCC : keeps.
Lemma kv_WanManager_StartIpoeHealthCheckService n : kv (WanManager_StartIpoeHealthCheckService n).
Proof. unfold WanManager_StartIpoeHealthCheckService. kv_tac. Qed.
#[local] Hint Resolve kv_WanManager_StartIpoeHealthCheckService : keeps.
Lemma kv_WanManager_StopIpoeHealthCheckService n : kv (WanManager_StopIpoeHealthCheckService n).
Proof. unfold WanManager_StopIpoeHealthCheckService. kv_tac. Qed.
#[local] Hint Resolve kv_WanManager_StopIpoeHealthCheckService : keeps.
Lemma kv_lan_prefix_publish a b : kv (lan_prefix_publish a b).
Proof. unfold lan_prefix_publish. kv_tac. Qed.
#[local] Hint Resolve kv_lan_prefix_publish : keeps.
Lemma kv_lan_global_ip d : kv (lan_global_ip d).
Proof. unfold lan_global_ip. kv_tac. Qed.
#[local] Hint Resolve kv_lan_global_ip : keeps.
Lemma kv_lan_publish_prefix p d : kv (lan_publish_prefix p d).
Proof. unfold lan_publish_prefix. kv_tac. Qed.
#[local] Hint Resolve kv_lan_publish_prefix : keeps.
Lemma kv_lan_restart g : kv (lan_restart g).
Proof. unfold lan_restart. kv_tac. Qed.
#[local] Hint Resolve kv_lan_restart : keeps.
Lemma kv_setUpLanPrefixIPv6 p : kv (setUpLanPrefixIPv6 p).
Proof. unfold setUpLanPrefixIPv6. kv_tac. Qed.
#[local] Hint Resolve kv_setUpLanPrefixIPv6 : keeps.

(** ** The status *)

Lemma kv_Update_Current_ActiveDNS : kv Update_Current_ActiveDNS.
Proof. unfold Update_Current_ActiveDNS. kv_tac. Qed.
#[local] Hint Resolve kv_Update_Current_ActiveDNS : keeps.
Lemma kv_status_vif m i k a : kv (status_vif m i k a).
Proof. unfold status_vif. kv_tac. Qed.
#[local] Hint Resolve kv_status_vif : keeps.
Lemma kv_status_iface m k a : kv (status_iface m k a).
Proof. unfold status_iface. kv_tac. Qed.
#[local] Hint Resolve kv_status_iface : keeps.
Lemma kv_config_text g f x : kv (config_text g f x).
Proof. unfold config_text. kv_tac. Qed.
#[local] Hint Resolve kv_config_text : keeps.
Lemma kv_publish_if n x o : kv (publish_if n x o).
Proof. unfold publish_if, publish_change. kv_tac. Qed.
#[local] Hint Resolve kv_publish_if : keeps.
Lemma kv_config_dns : kv config_dns.
Proof. unfold config_dns. kv_tac. Qed.
#[local] Hint Resolve kv_config_dns : keeps.
Lemma kv_Update_Interface_Status : kv Update_Interface_Status.
Proof. unfold Update_Interface_Status, publish_change. kv_tac. Qed.
#[local] Hint Resolve kv_Update_Interface_Status : keeps.
Lemma kv_WanMgr_Publish_WanStatus i k : kv (WanMgr_Publish_WanStatus i k).
Proof. unfold WanMgr_Publish_WanStatus. kv_tac. Qed.
#[local] Hint Resolve kv_WanMgr_Publish_WanStatus : keeps.

(** ** The actions of the machine *)

Lemma kv_mapt_acceleration x : kv (mapt_acceleration x).
Proof. unfold mapt_acceleration. kv_tac. Qed.
#[local] Hint Resolve kv_mapt_acceleration : keeps.
Lemma kv_wan_setUpMapt : kv wan_setUpMapt.
Proof. unfold wan_setUpMapt. kv_tac. Qed.
#[local] Hint Resolve kv_wan_setUpMapt : keeps.
Lemma kv_wan_tearDownMapt : kv wan_tearDownMapt.
Proof. unfold wan_tearDownMapt. kv_tac. Qed.
#[local] Hint Resolve kv_wan_tearDownMapt : keeps.
Lemma kv_WanMgr_RdkBus_GetParamValueFromAnyComp q : kv (WanMgr_RdkBus_GetParamValueFromAnyComp q).
Proof. unfold WanMgr_RdkBus_GetParamValueFromAnyComp. kv_tac. Qed.
#[local] Hint Resolve kv_WanMgr_RdkBus_GetParamValueFromAnyComp : keeps.
Lemma kv_WanMgr_RestartFindExistingLink i p : kv (WanMgr_RestartFindExistingLink i p).
Proof. unfold WanMgr_RestartFindExistingLink, set_vlan, set_ppp. kv_tac. Qed.
#[local] Hint Resolve kv_WanMgr_RestartFindExistingLink : keeps.
Lemma kv_WanManager_StopIHC : kv WanManager_StopIHC.
Proof. unfold WanManager_StopIHC, WanMgr_IfaceSM_IHC_Init. kv_tac. Qed.
#[local] Hint Resolve kv_WanManager_StopIHC : keeps.
Lemma kv_WanMgr_StartConnectivityCheck p : kv (WanMgr_StartConnectivityCheck p).
Proof. unfold WanMgr_StartConnectivityCheck. kv_tac. Qed.
#[local] Hint Resolve kv_WanMgr_StartConnectivityCheck : keeps.
Lemma kv_WanMgr_StopConnectivityCheck p : kv (WanMgr_StopConnectivityCheck p).
Proof. unfold WanMgr_StopConnectivityCheck. kv_tac. Qed.
#[local] Hint Resolve kv_WanMgr_StopConnectivityCheck : keeps.
Lemma kv_WanMgr_SendMsgToIHC m n : kv (WanMgr_SendMsgToIHC m n).
Proof. unfold WanMgr_SendMsgToIHC. kv_tac. Qed.
#[local] Hint Resolve kv_WanMgr_SendMsgToIHC : keeps.
Lemma kv_WanMgr_SendMsgTo_ConnectivityCheck p t b : kv (WanMgr_SendMsgTo_ConnectivityCheck p t b).
Proof. unfold WanMgr_SendMsgTo_ConnectivityCheck, ihc_up. kv_tac. Qed.
#[local] Hint Resolve kv_WanMgr_SendMsgTo_ConnectivityCheck : keeps.
Lemma kv_client_gone n : kv (client_gone n).
Proof. unfold client_gone, WanMgr_IsPIDRunning. kv_tac. Qed.
#[local] Hint Resolve kv_client_gone : keeps.
Lemma kv_monitor_dhcpv4 i p : kv (monitor_dhcpv4 i p).
Proof. unfold monitor_dhcpv4. kv_tac. Qed.
#[local] Hint Resolve kv_monitor_dhcpv4 : keeps.
Lemma kv_monitor_dhcpv6 i p : kv (monitor_dhcpv6 i p).
Proof. unfold monitor_dhcpv6. kv_tac. Qed.
#[local] Hint Resolve kv_monitor_dhcpv6 : keeps.
Lemma kv_monitor_wcc_type p : kv (monitor_wcc_type p).
Proof. unfold monitor_wcc_type. kv_tac. Qed.
#[local] Hint Resolve kv_monitor_wcc_type : keeps.
Lemma kv_monitor_ihc p : kv (monitor_ihc p).
Proof. unfold monitor_ihc, WanMgr_IsPIDRunning. kv_tac. Qed.
#[local] Hint Resolve kv_monitor_ihc : keeps.
Lemma kv_WanMgr_MonitorDhcpApps i p : kv (WanMgr_MonitorDhcpApps i p).
Proof. unfold WanMgr_MonitorDhcpApps. kv_tac. Qed.
#[local] Hint Resolve kv_WanMgr_MonitorDhcpApps : keeps.

(** ** The addresses *)

Lemma kv_dns_publish l x : kv (dns_publish l x).
Proof. unfold dns_publish. kv_tac. Qed.
#[local] Hint Resolve kv_dns_publish : keeps.
Lemma kv_dns_server fp af l x : kv (dns_server fp af l x).
Proof. unfold dns_server, valid_dns_server, fprintf. kv_tac. Qed.
#[local] Hint Resolve kv_dns_server : keeps.
Lemma kv_dns_add4 fp v : kv (dns_add4 fp v).
Proof. unfold dns_add4. kv_tac. Qed.
#[local] Hint Resolve kv_dns_add4 : keeps.
Lemma kv_dns_add6 fp v : kv (dns_add6 fp v).
Proof. unfold dns_add6. kv_tac. Qed.
#[local] Hint Resolve kv_dns_add6 : keeps.
Lemma kv_wan_updateDNS i p a b : kv (wan_updateDNS i p a b).
Proof. unfold wan_updateDNS, dns_clear, fprintf. kv_tac. Qed.
#[local] Hint Resolve kv_wan_updateDNS : keeps.
Lemma kv_lan_dad_wait n : kv (lan_dad_wait n).
Proof. unfold lan_dad_wait. kv_tac. Qed.
#[local] Hint Resolve kv_lan_dad_wait : keeps.
Lemma kv_checkIpv6LanAddressIsReadyToUse p : kv (checkIpv6LanAddressIsReadyToUse p).
Proof. unfold checkIpv6LanAddressIsReadyToUse. kv_tac. Qed.
#[local] Hint Resolve kv_checkIpv6LanAddressIsReadyToUse : keeps.
Lemma kv_updateInterfaceToVoiceManager i p b : kv (updateInterfaceToVoiceManager i p b).
Proof. unfold updateInterfaceToVoiceManager, voip_bound. kv_tac. Qed.
#[local] Hint Resolve kv_updateInterfaceToVoiceManager : keeps.
Lemma kv_wan_deconfigIPv4onInterface p : kv (wan_deconfigIPv4onInterface p).
Proof. unfold wan_deconfigIPv4onInterface. kv_tac. Qed.
#[local] Hint Resolve kv_wan_deconfigIPv4onInterface : keeps.
Lemma kv_post_d_start : kv post_d_start.
Proof. unfold post_d_start. kv_tac. Qed.
#[local] Hint Resolve kv_post_d_start : keeps.
Lemma kv_wan_setUpIPv4 i p : kv (wan_setUpIPv4 i p).
Proof. unfold wan_setUpIPv4. kv_tac. Qed.
#[local] Hint Resolve kv_wan_setUpIPv4 : keeps.
Lemma kv_clear_ipv4_dns I v : kv (clear_ipv4_dns I v).
Proof. unfold clear_ipv4_dns. kv_tac. Qed.
#[local] Hint Resolve kv_clear_ipv4_dns : keeps.
Lemma kv_wan_tearDownIPv4 i p : kv (wan_tearDownIPv4 i p).
Proof. unfold wan_tearDownIPv4, set_wan_status. kv_tac. Qed.
#[local] Hint Resolve kv_wan_tearDownIPv4 : keeps.
Lemma kv_publish_wan_mac6 n : kv (publish_wan_mac6 n).
Proof. unfold publish_wan_mac6. kv_tac. Qed.
#[local] Hint Resolve kv_publish_wan_mac6 : keeps.
Lemma kv_wan_setUpIPv6 i p : kv (wan_setUpIPv6 i p).
Proof. unfold wan_setUpIPv6. kv_tac. Qed.
#[local] Hint Resolve kv_wan_setUpIPv6 : keeps.
Lemma kv_ipv6_prefix_retire : kv ipv6_prefix_retire.
Proof. unfold ipv6_prefix_retire. kv_tac. Qed.
#[local] Hint Resolve kv_ipv6_prefix_retire : keeps.
Lemma kv_clear_wan_ipv6_address : kv clear_wan_ipv6_address.
Proof. unfold clear_wan_ipv6_address. kv_tac. Qed.
#[local] Hint Resolve kv_clear_wan_ipv6_address : keeps.
Lemma kv_wan_tearDownIPv6 i p : kv (wan_tearDownIPv6 i p).
Proof. unfold wan_tearDownIPv6, set_wan_status. kv_tac. Qed.
#[local] Hint Resolve kv_wan_tearDownIPv6 : keeps.
Lemma kv_WanManager_ClearDHCPData p : kv (WanManager_ClearDHCPData p).
Proof. unfold WanManager_ClearDHCPData. kv_tac. Qed.
#[local] Hint Resolve kv_WanManager_ClearDHCPData : keeps.

(** ** The transitions *)

Lemma kv_wan_transition_ppp_configure p : kv (wan_transition_ppp_configure p).
Proof. unfold wan_transition_ppp_configure, set_ppp. kv_tac. Qed.
#[local] Hint Resolve kv_wan_transition_ppp_configure : keeps.
Lemma kv_start_clients i p : kv (start_clients i p).
Proof. unfold start_clients. kv_tac. Qed.
#[local] Hint Resolve kv_start_clients : keeps.
Lemma kv_wan_transition_wan_refreshed i p : kv (wan_transition_wan_refreshed i p).
Proof. unfold wan_transition_wan_refreshed, set_vlan. kv_tac. Qed.
#[local] Hint Resolve kv_wan_transition_wan_refreshed : keeps.
Lemma kv_wan_service_started I : kv (wan_service_started I).
Proof. unfold wan_service_started. kv_tac. Qed.
#[local] Hint Resolve kv_wan_service_started : keeps.
Lemma kv_dhcpv4_on_down i p : kv (dhcpv4_on_down i p).
Proof. unfold dhcpv4_on_down. kv_tac. Qed.
#[local] Hint Resolve kv_dhcpv4_on_down : keeps.
Lemma kv_dhcpv6_on_down i p : kv (dhcpv6_on_down i p).
Proof. unfold dhcpv6_on_down. kv_tac. Qed.
#[local] Hint Resolve kv_dhcpv6_on_down : keeps.
Lemma kv_verify_mapt p : kv (verify_mapt p).
Proof. unfold verify_mapt. kv_tac. Qed.
#[local] Hint Resolve kv_verify_mapt : keeps.
Lemma kv_process_mapt i p : kv (process_mapt i p).
Proof. unfold process_mapt. kv_tac. Qed.
#[local] Hint Resolve kv_process_mapt : keeps.
Lemma kv_wan_transition_mapt_down i p : kv (wan_transition_mapt_down i p).
Proof. unfold wan_transition_mapt_down. kv_tac. Qed.
#[local] Hint Resolve kv_wan_transition_mapt_down : keeps.
Lemma kv_links_down i p : kv (links_down i p).
Proof. unfold links_down, set_ppp, set_vlan. kv_tac. Qed.
#[local] Hint Resolve kv_links_down : keeps.

(** ** The states *)

Lemma kv_vlan_discovery_expired p : kv (vlan_discovery_expired p).
Proof. unfold vlan_discovery_expired, set_vlan. kv_tac. Qed.
#[local] Hint Resolve kv_vlan_discovery_expired : keeps.
Lemma kv_set_up_lan_prefix p : kv (set_up_lan_prefix p).
Proof. unfold set_up_lan_prefix. kv_tac. Qed.
#[local] Hint Resolve kv_set_up_lan_prefix : keeps.
Lemma kv_reconfigure_ipv4 i p : kv (reconfigure_ipv4 i p).
Proof. unfold reconfigure_ipv4. kv_tac. Qed.
#[local] Hint Resolve kv_reconfigure_ipv4 : keeps.
Lemma kv_reconfigure_ipv6 i p : kv (reconfigure_ipv6 i p).
Proof. unfold reconfigure_ipv6. kv_tac. Qed.
#[local] Hint Resolve kv_reconfigure_ipv6 : keeps.
Lemma kv_renewed_ipv4 p : kv (renewed_ipv4 p).
Proof. unfold renewed_ipv4. kv_tac. Qed.
#[local] Hint Resolve kv_renewed_ipv4 : keeps.
Lemma kv_renewed_ipv6 p : kv (renewed_ipv6 p).
Proof. unfold renewed_ipv6. kv_tac. Qed.
#[local] Hint Resolve kv_renewed_ipv6 : keeps.
Lemma kv_reconfigure_ipv6_of_mapt i p I : kv (reconfigure_ipv6_of_mapt i p I).
Proof. unfold reconfigure_ipv6_of_mapt. kv_tac. Qed.
#[local] Hint Resolve kv_reconfigure_ipv6_of_mapt : keeps.
Lemma kv_reconfigure_mapt i p : kv (reconfigure_mapt i p).
Proof. unfold reconfigure_mapt. kv_tac. Qed.
#[local] Hint Resolve kv_reconfigure_mapt : keeps.
End IfaceKeeps.
#[export] Hint Resolve kv_syscfg_set_string kv_v_secure_system
  kv_WanManager_DoSystemActionWithStatus kv_WanManager_DoSystemAction
  kv_WanMgr_RdkBus_SetParamValues kv_WanMgr_RdkBus_GetParamValues kv_syscfg_get
  kv_AnscAllocateMemory kv_wanmgr_sysevents_ipv6Info_init kv_wanmgr_sysevents_ipv4Info_set
  kv_publish_wan_mac kv_wanmgr_set_Ipv4Sysevent kv_wanmgr_sysevents_ipv4Info_init
  kv_Force_IPv6_toggle kv_WanMgr_Configure_accept_ra kv_WanManager_GetLANIPAddress
  kv_WanMgr_RdkBus_ConfigureUPnPIGDService kv_WanManager_VerifyMAPTConfiguration kv_isModuleLoaded
  kv_get_V6_defgateway_wan_interface kv_mapt_wait_defgateway kv_mapt_ftp_module
  kv_WanManager_DisplayMAPTFeatureStatus kv_maptInfo_set kv_maptInfo_reset
  kv_WanManager_ProcessMAPTConfiguration kv_WanManager_ResetMAPTConfiguration
  kv_WanManager_send_and_receive_rs kv_CheckV6DefaultRule kv_WanMgr_CheckDefaultRA
  kv_WanManager_StartDhcpv6Client kv_WanManager_StopDhcpv6Client kv_WanManager_RestartDhcpv6Client
  kv_WanManager_StartDhcpv4Client kv_WanManager_StopDhcpv4Client kv_WanManager_UpdateInterfaceStatus
  kv_WanMgr_Rbus_EventPublishHandler kv_WanManager_getUpTime kv_WanManager_GetBCastFromIpSubnetMask
  kv_WanManager_AddGatewayRoute kv_publish_vif kv_dhcpv4_renewed kv_dhcpv4_assigned
  kv_cellular_address kv_cellular_ipv6 kv_ppp_get kv_IPCPStateChangeHandler
  kv_WanMgr_isBridgeModeEnabled kv_prefix_on_lan_bridge kv_WanManager_Ipv6PrefixUtil kv_get_v6
  kv_dhcpv6_lease_configurable kv_dhcpv6_publish_prefix kv_syscfg_prefix_clear
  kv_dhcpv6_lease_published kv_dhcpv6_slaac kv_dhcpv6_connected kv_dhcpv6_mapt
  kv_wanmgr_handle_dhcpv6_event_data kv_telemetry kv_WanMgr_RdkBus_setWanIpInterfaceData
  kv_WanMgr_RdkBus_ConfigureVlan kv_ppp_lower_layer kv_WanManager_ConfigurePPPSession
  kv_WanMgr_GetSelectedIPMode kv_DmlSetVLANInUseToPSMDB kv_WanManager_DelDefaultGatewayRoute
  kv_WanManager_AddDefaultGatewayRoute kv_WanManager_PrintBootEvents kv_wanmanager_mapt_feature
  kv_wanmgr_services_restart kv_WanMgr_Configure_TAD_WCC kv_WanManager_StartIpoeHealthCheckService
  kv_WanManager_StopIpoeHealthCheckService kv_lan_prefix_publish kv_lan_global_ip
  kv_lan_publish_prefix kv_lan_restart kv_setUpLanPrefixIPv6 kv_Update_Current_ActiveDNS
  kv_status_vif kv_status_iface kv_config_text kv_publish_if kv_config_dns
  kv_Update_Interface_Status kv_WanMgr_Publish_WanStatus kv_mapt_acceleration kv_wan_setUpMapt
  kv_wan_tearDownMapt kv_WanMgr_RdkBus_GetParamValueFromAnyComp kv_WanMgr_RestartFindExistingLink
  kv_WanManager_StopIHC kv_WanMgr_StartConnectivityCheck kv_WanMgr_StopConnectivityCheck
  kv_WanMgr_SendMsgToIHC kv_WanMgr_SendMsgTo_ConnectivityCheck kv_client_gone kv_monitor_dhcpv4
  kv_monitor_dhcpv6 kv_monitor_wcc_type kv_monitor_ihc kv_WanMgr_MonitorDhcpApps kv_dns_publish
  kv_dns_server kv_dns_add4 kv_dns_add6 kv_wan_updateDNS kv_lan_dad_wait
  kv_checkIpv6LanAddressIsReadyToUse kv_updateInterfaceToVoiceManager kv_wan_deconfigIPv4onInterface
  kv_post_d_start kv_wan_setUpIPv4 kv_clear_ipv4_dns kv_wan_tearDownIPv4 kv_publish_wan_mac6
  kv_wan_setUpIPv6 kv_ipv6_prefix_retire kv_clear_wan_ipv6_address kv_wan_tearDownIPv6
  kv_WanManager_ClearDHCPData kv_wan_transition_ppp_configure kv_start_clients
  kv_wan_transition_wan_refreshed kv_wan_service_started kv_dhcpv4_on_down kv_dhcpv6_on_down
  kv_verify_mapt kv_process_mapt kv_wan_transition_mapt_down kv_links_down kv_vlan_discovery_expired
  kv_set_up_lan_prefix kv_reconfigure_ipv4 kv_reconfigure_ipv6 kv_renewed_ipv4 kv_renewed_ipv6
  kv_reconfigure_ipv6_of_mapt kv_reconfigure_mapt : keeps.
