(* ===== verification/IfaceKeeps.v ===== *)
(** The same for the transitions and the states of the machine, which write the
    status of the virtual interface: they keep the view without it.  What a pass
    keeps of the data base. *)

From S2P Require Export IfaceFacts.

#[local] Abbreviation IC := WanMgr_IfaceSM_Controller_t.

Section IfaceMachine.
Context `{Platform} `{Build} `{MaptBuild} `{IfaceBuild}.
#[local] Abbreviation kv m := (Keeps (ism_view (fun _ => tt)) m).

(** ** The leases *)

Lemma kv_wanmgr_handle_dhcpv4_event_data p : kv (wanmgr_handle_dhcpv4_event_data p).
Proof. unfold wanmgr_handle_dhcpv4_event_data, dhcpv4_free. kv_tac. Qed.
#[local] Hint Resolve kv_wanmgr_handle_dhcpv4_event_data : keeps.
Lemma kv_cellular_ipv4 p b : kv (cellular_ipv4 p b).
Proof. unfold cellular_ipv4, cellular_query, upd_ipc4. kv_tac. Qed.
#[local] Hint Resolve kv_cellular_ipv4 : keeps.
Lemma kv_WanMgr_UpdateIpFromCellularMgr i p : kv (WanMgr_UpdateIpFromCellularMgr i p).
Proof. unfold WanMgr_UpdateIpFromCellularMgr. kv_tac. Qed.
#[local] Hint Resolve kv_WanMgr_UpdateIpFromCellularMgr : keeps.

(** ** The transitions *)

Lemma kv_wan_transition_start i p : kv (wan_transition_start i p).
Proof. unfold wan_transition_start, set_vlan. kv_tac. Qed.
#[local] Hint Resolve kv_wan_transition_start : keeps.
Lemma kv_wan_transition_wan_up p : kv (wan_transition_wan_up p).
Proof. unfold wan_transition_wan_up. kv_tac. Qed.
#[local] Hint Resolve kv_wan_transition_wan_up : keeps.
Lemma kv_wan_transition_wan_validated i p : kv (wan_transition_wan_validated i p).
Proof. unfold wan_transition_wan_validated, set_ppp, remote_ula_address. kv_tac. Qed.
#[local] Hint Resolve kv_wan_transition_wan_validated : keeps.
Lemma kv_wan_transition_ipv4_up i p : kv (wan_transition_ipv4_up i p).
Proof. unfold wan_transition_ipv4_up. kv_tac. Qed.
#[local] Hint Resolve kv_wan_transition_ipv4_up : keeps.
Lemma kv_wan_transition_ipv4_down i p : kv (wan_transition_ipv4_down i p).
Proof. unfold wan_transition_ipv4_down. kv_tac. Qed.
#[local] Hint Resolve kv_wan_transition_ipv4_down : keeps.
Lemma kv_wan_transition_ipv6_up i p : kv (wan_transition_ipv6_up i p).
Proof. unfold wan_transition_ipv6_up. kv_tac. Qed.
#[local] Hint Resolve kv_wan_transition_ipv6_up : keeps.
Lemma kv_wan_transition_ipv6_down i p : kv (wan_transition_ipv6_down i p).
Proof. unfold wan_transition_ipv6_down. kv_tac. Qed.
#[local] Hint Resolve kv_wan_transition_ipv6_down : keeps.
Lemma kv_wan_transition_dual_stack_down i p : kv (wan_transition_dual_stack_down i p).
Proof. unfold wan_transition_dual_stack_down. kv_tac. Qed.
#[local] Hint Resolve kv_wan_transition_dual_stack_down : keeps.
Lemma kv_wan_transition_mapt_feature_refresh i p : kv (wan_transition_mapt_feature_refresh i p).
Proof. unfold wan_transition_mapt_feature_refresh. kv_tac. Qed.
#[local] Hint Resolve kv_wan_transition_mapt_feature_refresh : keeps.
Lemma kv_mapt_replaces_ipv4 i p : kv (mapt_replaces_ipv4 i p).
Proof. unfold mapt_replaces_ipv4. kv_tac. Qed.
#[local] Hint Resolve kv_mapt_replaces_ipv4 : keeps.
Lemma kv_wan_transition_mapt_up i p : kv (wan_transition_mapt_up i p).
Proof. unfold wan_transition_mapt_up. kv_tac. Qed.
#[local] Hint Resolve kv_wan_transition_mapt_up : keeps.
Lemma kv_addresses_down i p : kv (addresses_down i p).
Proof. unfold addresses_down. kv_tac. Qed.
#[local] Hint Resolve kv_addresses_down : keeps.
Lemma kv_wan_transition_physical_interface_down i p : kv (wan_transition_physical_interface_down i p).
Proof. unfold wan_transition_physical_interface_down. kv_tac. Qed.
#[local] Hint Resolve kv_wan_transition_physical_interface_down : keeps.
Lemma kv_wan_transition_exit p : kv (wan_transition_exit p).
Proof. unfold wan_transition_exit. kv_tac. Qed.
#[local] Hint Resolve kv_wan_transition_exit : keeps.
Lemma kv_wan_transition_standby p : kv (wan_transition_standby p).
Proof. unfold wan_transition_standby. kv_tac. Qed.
#[local] Hint Resolve kv_wan_transition_standby : keeps.
Lemma kv_wan_transition_standby_deconfig_ips i p : kv (wan_transition_standby_deconfig_ips i p).
Proof. unfold wan_transition_standby_deconfig_ips. kv_tac. Qed.
#[local] Hint Resolve kv_wan_transition_standby_deconfig_ips : keeps.

(** ** The states *)

Lemma kv_refresh_dhcp i p : kv (refresh_dhcp i p).
Proof. unfold refresh_dhcp. kv_tac. Qed.
#[local] Hint Resolve kv_refresh_dhcp : keeps.
Lemma kv_obtained i p : kv (obtained i p).
Proof. unfold obtained, mapt_switched. kv_tac. Qed.
#[local] Hint Resolve kv_obtained : keeps.
Lemma kv_selected_mode i p now : kv (selected_mode i p now).
Proof. unfold selected_mode. kv_tac. Qed.
#[local] Hint Resolve kv_selected_mode : keeps.
Lemma kv_wan_state_obtaining_ip_addresses i p : kv (wan_state_obtaining_ip_addresses i p).
Proof. unfold wan_state_obtaining_ip_addresses, voice_stopped, set_vlan. kv_tac. Qed.
#[local] Hint Resolve kv_wan_state_obtaining_ip_addresses : keeps.
Lemma kv_standby_to_active i p : kv (standby_to_active i p).
Proof. unfold standby_to_active. kv_tac. Qed.
#[local] Hint Resolve kv_standby_to_active : keeps.
Lemma kv_WanMgr_IfaceIpcMsg_handle p : kv (WanMgr_IfaceIpcMsg_handle p).
Proof. unfold WanMgr_IfaceIpcMsg_handle, set_ppp. kv_tac. Qed.
#[local] Hint Resolve kv_WanMgr_IfaceIpcMsg_handle : keeps.

(** *** The states *)

Lemma kv_off_or_expired i p m : kv m -> kv (off_or_expired i p m).
Proof. intros Hm. unfold off_or_expired. kv_tac. Qed.
Lemma kv_state_links i p :
  kv (wan_state_vlan_configuring i p) /\ kv (wan_state_ppp_configuring i p) /\ kv (wan_state_validating_wan i p).
Proof. split_and!; apply kv_off_or_expired; kv_tac. Qed.
Lemma kv_wan_state_standby i p : kv (wan_state_standby i p).
Proof. unfold wan_state_standby. kv_tac. Qed.
Lemma kv_wan_state_ipv4_leased i p : kv (wan_state_ipv4_leased i p).
Proof. unfold wan_state_ipv4_leased, mapt_switched. kv_tac. Qed.
Lemma kv_wan_state_ipv6_leased i p : kv (wan_state_ipv6_leased i p).
Proof. unfold wan_state_ipv6_leased, mapt_branch, mapt_switched. kv_tac. Qed.
Lemma kv_wan_state_dual_stack_active i p : kv (wan_state_dual_stack_active i p).
Proof. unfold wan_state_dual_stack_active, mapt_branch, mapt_switched. kv_tac. Qed.
Lemma kv_wan_state_mapt_active i p : kv (wan_state_mapt_active i p).
Proof. unfold wan_state_mapt_active. kv_tac. Qed.
Lemma kv_wan_state_refreshing_wan i p : kv (wan_state_refreshing_wan i p).
Proof. unfold wan_state_refreshing_wan. kv_tac. Qed.
Lemma kv_wan_state_deconfiguring_wan p : kv (wan_state_deconfiguring_wan p).
Proof. unfold wan_state_deconfiguring_wan. kv_tac. Qed.
Lemma kv_wan_state_exit p : kv (wan_state_exit p).
Proof. unfold wan_state_exit. kv_tac. Qed.
#[local] Hint Resolve kv_wan_state_standby kv_wan_state_ipv4_leased kv_wan_state_ipv6_leased
  kv_wan_state_dual_stack_active kv_wan_state_mapt_active kv_wan_state_refreshing_wan
  kv_wan_state_deconfiguring_wan kv_wan_state_exit : keeps.
Lemma kv_ism_state i p st : kv (ism_state i p st).
Proof. pose proof (kv_state_links i p) as (? & ? & ?). destruct st; simpl; kv_tac. Qed.
End IfaceMachine.
#[export] Hint Resolve kv_wanmgr_handle_dhcpv4_event_data kv_cellular_ipv4
  kv_WanMgr_UpdateIpFromCellularMgr kv_wan_transition_start kv_wan_transition_wan_up
  kv_wan_transition_wan_validated kv_wan_transition_ipv4_up kv_wan_transition_ipv4_down
  kv_wan_transition_ipv6_up kv_wan_transition_ipv6_down kv_wan_transition_dual_stack_down
  kv_wan_transition_mapt_feature_refresh kv_mapt_replaces_ipv4 kv_wan_transition_mapt_up
  kv_addresses_down kv_wan_transition_physical_interface_down kv_wan_transition_exit
  kv_wan_transition_standby kv_wan_transition_standby_deconfig_ips kv_refresh_dhcp kv_obtained
  kv_selected_mode kv_wan_state_obtaining_ip_addresses kv_standby_to_active
  kv_WanMgr_IfaceIpcMsg_handle kv_ism_state : keeps.

(** * A pass *)

(** What a pass keeps of the data base: the interfaces but for the contents of
    their virtual interfaces, the groups and the counters. *)
Definition iface_outer (I : DML_WAN_IFACE) := (I <| if_VirtIfList := [] |>, v_VirIfIdx <$> if_VirtIfList I).
Definition ism_outer {C} (s : St C) := (iface_outer <$> ifaces s, groups s, counts s).

Lemma ism_view_outer {D} (g : DML_WAN_IFACE_STATUS -> D) (s s' : St IC) :
  ism_view g s' = ism_view g s -> ism_outer s' = ism_outer s /\ depth s' = depth s.
Proof.
  intros Hv. split; [|exact (f_equal snd Hv)].
  assert (iface_outer <$> ifaces s' = iface_outer <$> ifaces s) as E.
  { assert (exists h, forall l : list DML_WAN_IFACE, iface_outer <$> l = h <$> (iface_kept g <$> l)) as [h Eh].
    { exists (fun x => (x.1, @fmap list _ _ _ (fun y => y.1.1.1.1.1.1) x.2)). intros l. rewrite <- list_fmap_compose. apply list_fmap_ext. intros _ I _.
      unfold iface_outer, iface_kept. simpl. by rewrite <- list_fmap_compose. }
    rewrite !Eh. f_equal. exact (f_equal (fun x => x.1.1.1.1) Hv). }
  exact (f_equal3 (fun a b c => (a, b, c)) E (f_equal (fun x => x.1.1.1.2) Hv) (f_equal (fun x => x.1.1.2) Hv)).
Qed.

Section Pass.
Context `{Platform} `{Build} `{MaptBuild} `{IfaceBuild}.

Lemma ism_outer_alter i k f (l : list DML_WAN_IFACE) :
  (forall v, v_VirIfIdx (f v) = v_VirIfIdx v) ->
  iface_outer <$> alter (fun I => I <| if_VirtIfList ::= alter f k |>) i l = iface_outer <$> l.
Proof.
  intros Hf. apply list_eq. intros j. rewrite !list_lookup_fmap, list_lookup_alter.
  destruct (decide _) as [->|]; [|done]. destruct (l !! j) as [I|]; simpl; [|done]. f_equal.
  unfold iface_outer. rsimpl. f_equal. exact (f_equal snd (vifs_of_alter f k I Hf)).
Qed.
Lemma ism_outer_upd_vif p f : (forall v, v_VirIfIdx (f v) = v_VirIfIdx v) -> Keeps (ism_outer (C := IC)) (upd_vif p f).
Proof.
  intros Hf. apply keeps_bind; [apply keeps_get_vif | intros _].
  apply keeps_bind; [apply keeps_get_iface | intros _]. apply keeps_modify. intros s.
  exact (f_equal (fun x => (x, groups s, counts s)) (ism_outer_alter p.1 p.2 f (ifaces s) Hf)).
Qed.
Lemma depth_upd_vif p f : Keeps (depth (C := IC)) (upd_vif p f).
Proof. unfold upd_vif. keeps_tac. Qed.

(** The resolution of the interface leaves its lock held. *)
Lemma resolve_locked s ip s1 :
  ism_resolve s = Some (ip, s1) -> ism_outer s1 = ism_outer s /\ depth s1 = S (depth s).
Proof.
  unfold ism_resolve. intros E. mrun E. injection E0 as <- <-. mrun E.
  assert (wp (WanMgr_GetIfaceData_locked (u32 (ic_interfaceIdx (ctl s)))) (fun o s1 =>
    o <> None -> ism_outer s1 = ism_outer s /\ depth s1 = S (depth s)) s) as HW.
  { apply wp_get_locked; done. }
  pose proof (wp_use _ _ _ _ _ E0 HW) as Hl. mrun E. destruct a as [i|]; [|done].
  injection E1 as <- <-. destruct Hl as [Ho Hd]; [done|]. mrun E. injection E1 as <-.
  mrun E. injection E as _ <-.
  assert (Keeps (fun s : St IC => (ism_outer s, depth s)) (ism_vif i)) as Hk by (unfold ism_vif; keeps_tac).
  apply Hk in E1. subst s2. rewrite <- Ho, <- Hd. split; [exact (f_equal fst E1) | exact (f_equal snd E1)].
Qed.

Lemma process_keeps i p st s o s' :
  ism_process i p st s = Some (o, s') -> ism_outer s' = ism_outer s /\ depth s' = depth s.
Proof.
  unfold ism_process. intros E.
  mrun E. apply kv_WanMgr_IfaceIpcMsg_handle, ism_view_outer in E0 as [Ho2 Hd2].
  mrun E. injection E0 as _ <-.
  mrun E. apply (ism_outer_upd_vif p) in E0 as Ho3; [|done]. apply (depth_upd_vif p) in E0 as Hd3.
  apply kv_ism_state, ism_view_outer in E as [-> ->]. rewrite Ho3, Hd3. split; [exact Ho2 | exact Hd2].
Qed.

(** Starting the machine keeps it too. *)
Lemma start_keeps s o s' : ism_start s = Some (o, s') -> ism_outer s' = ism_outer s /\ depth s' = depth s.
Proof.
  unfold ism_start. intros E. mrun E. injection E0 as <- <-. mrun E.
  assert (wp (WanMgr_GetIfaceData_locked (u32 (ic_interfaceIdx (ctl s)))) (fun o s1 =>
    ism_outer s1 = ism_outer s /\ depth s1 = ((match o with Some _ => 1 | None => 0 end) + depth s)%nat) s) as HW.
  { by apply wp_get_locked; intros _. }
  destruct (wp_use _ _ _ _ _ E0 HW) as [Ho Hd]. clear HW E0. destruct a as [i|].
  2: { by injection E as _ <-. }
  mrun E. injection E0 as _ <-. mrun E.
  assert (Keeps (fun s : St IC => (ism_outer s, depth s)) (ism_vif i)) as Hk by (unfold ism_vif; keeps_tac).
  apply Hk in E0. assert (ism_outer s1 = ism_outer s) as Ho1 by (rewrite <- Ho; exact (f_equal fst E0)).
  assert (depth s1 = S (depth s)) as Hd1 by exact (eq_trans (f_equal snd E0) Hd).
  mrun E. apply kv_wan_transition_start, ism_view_outer in E1 as [Ho2 Hd2].
  mrun E. injection E1 as _ <-. injection E as _ <-.
  change (ism_outer s2 = ism_outer s /\ depth (unlocked s2) = depth s).
  assert (depth (unlocked s2) = pred (depth s2)) as Hd3 by done. rewrite Hd3, Ho2, Hd2, Ho1, Hd1.
  split; [done | lia].
Qed.

(** A pass that completes keeps the outer view and gives back the lock. *)
Lemma pass_keeps st s o s' :
  ism_iteration st s = Some (o, s') -> ism_outer s' = ism_outer s /\ depth s' = depth s.
Proof.
  unfold ism_iteration. intros E. mrun E. injection E0 as _ <-. mrun E. injection E0 as _ <-.
  destruct (a0 <? 0); [by injection E as _ <-|].
  mrun E.
  assert (Keeps ism_outer ism_config) as Hc by (unfold ism_config; keeps_tac).
  assert (Keeps depth ism_config) as Hcd by (unfold ism_config; keeps_tac).
  apply Hc in E0 as Ho0. apply Hcd in E0 as Hd0. clear E0.
  mrun E. apply resolve_locked in E0 as [Ho1 Hd1].
  mrun E. apply process_keeps in E0 as [Ho2 Hd2].
  mrun E. injection E0 as _ <-. injection E as _ <-.
  change (ism_outer s2 = ism_outer s /\ depth (unlocked s2) = depth s).
  assert (depth (unlocked s2) = pred (depth s2)) as Hd3 by done. rewrite Hd3, Ho2, Hd2, Ho1, Hd1, Ho0, Hd0.
  split; [done|]. change (pred (S (depth s)) = depth s). lia.
Qed.
End Pass.
