(* ===== verification/StatusSafe.v ===== *)
(** What the threads share never dereferences [NULL], whatever their controller:
    the commands, the settings, the health check and the report of the status of
    the interfaces, on a well-formed data base and with what they allocate. *)

From S2P Require Export IfaceHelpers Status IfaceActions ParallelFacts.

(** The three allocations whose result the code does not check give memory: that
    of an entry of the report ([Update_Interface_Status]), of the event of the
    health check ([WanMgr_Configure_TAD_WCC]) and of the lease of a PPP session
    ([IPCPStateChangeHandler]). *)
Definition memory_available `{Platform} : Prop := forall h,
  answer h (ExtCall "calloc" ["IFACE_INFO"]) <> 0 /\ answer h (ExtCall "malloc" ["TAD_WCC_Event"]) <> 0
  /\ answer h (ExtCall "malloc" ["ipc_dhcpv4_data_t"]) <> 0.

(** [resolv.conf] has the format that is documented for it, read as the code reads
    it, at most 63 characters of a line at a time: a line is not made of blanks
    alone, and the keyword [nameserver] is followed by its value on the line. *)
Definition resolv_line (line : string) : Prop :=
  match strtok " " line with
  | Some (keyword, rest) => keyword = "nameserver"%string -> is_Some (strtok " " rest)
  | None => False
  end.
Definition resolv_conf_readable `{Platform} : Prop := forall h,
  Forall resolv_line (fgets_lines 64 (answer_s h (ExtCall "fopen" [RESOLV_CONF_FILE]))).
Lemma active_dns_lines_read lines dns : Forall resolv_line lines -> is_Some (active_dns_lines lines dns).
Proof.
  intros Hl. revert dns. induction Hl as [|line lines Hline _ IH]; intros dns; [by eexists|]. simpl.
  unfold active_dns_line, resolv_line in *. destruct (strtok " " line) as [[keyword rest]|]; [|done]. simpl.
  destruct (bool_decide_reflect (keyword = "nameserver"%string)) as [Hk|]; [|apply IH].
  destruct (Hline Hk) as [[value ?] ->]. simpl. apply IH.
Qed.

Section StatusSafe.
Context `{Platform} `{Build} `{MaptBuild} `{IfaceBuild} {C : Type} `{Anchor C}.
Context (sh : Shape) (Hwf : wf_shape sh) (Hmem : memory_available) (Hdns : resolv_conf_readable).
#[local] Abbreviation safe m := (Safe (C := C) sh (fun _ => True) m).

Lemma safe_alloc {A} f what (m : M (St C) A) :
  (forall h, answer h (ExtCall f [what]) <> 0) -> safe m ->
  safe (bind (call (ExtCall f [what])) (fun ok => if ok =? 0 then crash else m)).
Proof.
  intros Ha Hm s Hs. apply wp_bind. eapply wp_intro; [reflexivity|].
  rewrite (proj2 (Z.eqb_neq _ _) (Ha _)). eapply wp_mono; [apply Hm; exact Hs | by intros a s' HW].
Qed.
End StatusSafe.

Ltac isafe_step Hmem :=
  lazymatch goal with
  | |- Safe _ _ (bind (deref (WanMgr_getVirtualIfaceById _ _)) _) =>
      eapply safe_deref_vif; [eassumption | eapply iface_in_range; [ | | eassumption]; eassumption | intros ? ?]
  | |- _ => first [ apply safe_alloc; [intros ?; apply Hmem|] | safe_step ]
  end.

Section StatusSafeFacts.
Context `{Platform} `{Build} `{MaptBuild} `{IfaceBuild} {C : Type} `{Anchor C}.
Context (sh : Shape) (Hwf : wf_shape sh) (Hmem : memory_available) (Hdns : resolv_conf_readable).
#[local] Abbreviation safe m := (Safe (C := C) sh (fun _ => True) m).

Lemma safe_syscfg_set_string n x : safe (syscfg_set_string n x).
Proof. unfold syscfg_set_string. safe_tac. Qed.
#[local] Hint Resolve safe_syscfg_set_string : safe.
Lemma safe_v_secure_system c : safe (v_secure_system c).
Proof. unfold v_secure_system. safe_tac. Qed.
#[local] Hint Resolve safe_v_secure_system : safe.
Lemma safe_WanManager_DoSystemActionWithStatus c : safe (WanManager_DoSystemActionWithStatus c).
Proof. unfold WanManager_DoSystemActionWithStatus. safe_tac. Qed.
#[local] Hint Resolve safe_WanManager_DoSystemActionWithStatus : safe.
Lemma safe_WanManager_DoSystemAction c : safe (WanManager_DoSystemAction c).
Proof. unfold WanManager_DoSystemAction. safe_tac. Qed.
#[local] Hint Resolve safe_WanManager_DoSystemAction : safe.
Lemma safe_syscfg_get n : safe (syscfg_get n).
Proof. unfold syscfg_get. safe_tac. Qed.
#[local] Hint Resolve safe_syscfg_get : safe.
Lemma safe_iface_telemetry e : safe (telemetry e).
Proof. unfold telemetry. safe_tac. Qed.
#[local] Hint Resolve safe_iface_telemetry : safe.
Lemma safe_WanMgr_Configure_TAD_WCC p e : valid_vif sh p -> safe (WanMgr_Configure_TAD_WCC p e).
Proof.
  intros. unfold WanMgr_Configure_TAD_WCC. repeat isafe_step Hmem.
Qed.
#[local] Hint Resolve safe_WanMgr_Configure_TAD_WCC : safe.
Lemma safe_Update_Current_ActiveDNS : safe Update_Current_ActiveDNS.
Proof.
  unfold Update_Current_ActiveDNS. intros s Hs. apply wp_bind. eapply wp_intro; [reflexivity|]. simpl.
  destruct (_ =? 0); [by apply wp_ret|]. apply wp_bind.
  destruct (active_dns_lines_read _ EmptyString (Hdns (trace s))) as [dns ->].
  apply wp_ret, wp_bind. eapply wp_intro; [reflexivity|]. by apply wp_ret.
Qed.
#[local] Hint Resolve safe_Update_Current_ActiveDNS : safe.
Lemma safe_WanMgr_RdkBus_setWanIpInterfaceData p : valid_vif sh p -> safe (WanMgr_RdkBus_setWanIpInterfaceData p).
Proof. intros. unfold WanMgr_RdkBus_setWanIpInterfaceData. safe_tac. Qed.
#[local] Hint Resolve safe_WanMgr_RdkBus_setWanIpInterfaceData : safe.
Lemma safe_status_vif m i I n a :
  iface_in sh i I -> valid_iface sh i -> n ∈ range (if_NoOfVirtIfs I) -> safe (status_vif m i n a).
Proof.
  intros HI Hv Hn. unfold status_vif. repeat isafe_step Hmem.
Qed.
#[local] Hint Resolve safe_status_vif : safe.
Lemma safe_status_iface m n a : 0 <= n -> safe (status_iface m n a).
Proof.
  intros Hn. unfold status_iface. repeat safe_step. by eapply safe_status_vif.
Qed.
#[local] Hint Resolve safe_status_iface : safe.
Lemma safe_config_text g f x : safe (config_text g f x).
Proof. unfold config_text. safe_tac. Qed.
#[local] Hint Resolve safe_config_text : safe.
Lemma safe_publish_if n x o : safe (publish_if n x o).
Proof. unfold publish_if, publish_change. safe_tac. Qed.
#[local] Hint Resolve safe_publish_if : safe.
Lemma safe_config_dns : safe config_dns.
Proof. unfold config_dns. safe_tac. Qed.
#[local] Hint Resolve safe_config_dns : safe.
Lemma safe_Update_Interface_Status : safe Update_Interface_Status.
Proof.
  unfold Update_Interface_Status, publish_change. repeat safe_step. apply safe_status_iface.
  match goal with Hx : _ ∈ range _ |- _ => apply elem_of_range in Hx end. lia.
Qed.
#[local] Hint Resolve safe_Update_Interface_Status : safe.
End StatusSafeFacts.
#[export] Hint Resolve safe_WanMgr_RdkBus_setWanIpInterfaceData safe_syscfg_set_string safe_v_secure_system
  safe_WanManager_DoSystemActionWithStatus safe_WanManager_DoSystemAction safe_syscfg_get
  safe_iface_telemetry safe_WanMgr_Configure_TAD_WCC safe_Update_Current_ActiveDNS
  safe_status_vif safe_status_iface safe_config_text safe_publish_if safe_config_dns
  safe_Update_Interface_Status : safe.
