(* ===== verification/IfaceSafe.v ===== *)
(** An interface state machine never dereferences [NULL]: the accesses of its
    operations are valid on a well-formed data base, and what they allocate is
    there. *)

From S2P Require Export IfaceKeeps StatusSafe.

#[local] Abbreviation IC := WanMgr_IfaceSM_Controller_t.

(** The controller of the virtual interface of number [k] of interface [idx]. *)
Definition machine_of (idx k : Z) : Anchor IC := fun c => ic_interfaceIdx c = idx /\ ic_VirIfIdx c = k.

Section IfaceSafe.
Context `{Platform} `{Build} `{MaptBuild} `{IfaceBuild} (sh : Shape) (Hwf : wf_shape sh) (bidx vidx : Z).
Context (Hmem : memory_available) (Hdns : resolv_conf_readable).
Context (Hnum : u32 bidx < sh.1.1.1 -> exists l, sh.1.2 !! Z.to_nat (u32 bidx) = Some l /\ u32 vidx ∈ l.2).
Context (Hmapt : FEATURE_MAPT = false).
#[local] Instance ism_anchor : Anchor IC := machine_of bidx vidx.
#[local] Abbreviation safe m := (Safe (C := IC) sh (fun _ => True) m).

(** ** The helpers *)

Lemma safe_AnscAllocateMemory t : safe (AnscAllocateMemory t).
Proof. unfold AnscAllocateMemory. safe_tac. Qed.
#[local] Hint Resolve safe_AnscAllocateMemory : safe.
Lemma safe_wanmgr_sysevents_ipv6Info_init : safe wanmgr_sysevents_ipv6Info_init.
Proof. unfold wanmgr_sysevents_ipv6Info_init, syscfg_set_string. safe_tac. Qed.
#[local] Hint Resolve safe_wanmgr_sysevents_ipv6Info_init : safe.
Lemma safe_wanmgr_sysevents_ipv4Info_set d n : safe (wanmgr_sysevents_ipv4Info_set d n).
Proof. unfold wanmgr_sysevents_ipv4Info_set. safe_tac. Qed.
#[local] Hint Resolve safe_wanmgr_sysevents_ipv4Info_set : safe.
Lemma safe_publish_wan_mac n : safe (publish_wan_mac n).
Proof. unfold publish_wan_mac. safe_tac. Qed.
#[local] Hint Resolve safe_publish_wan_mac : safe.
Lemma safe_wanmgr_set_Ipv4Sysevent d m : safe (wanmgr_set_Ipv4Sysevent d m).
Proof. unfold wanmgr_set_Ipv4Sysevent. safe_tac. Qed.
#[local] Hint Resolve safe_wanmgr_set_Ipv4Sysevent : safe.
Lemma safe_wanmgr_sysevents_ipv4Info_init n m : safe (wanmgr_sysevents_ipv4Info_init n m).
Proof. unfold wanmgr_sysevents_ipv4Info_init. safe_tac. Qed.
#[local] Hint Resolve safe_wanmgr_sysevents_ipv4Info_init : safe.
Lemma safe_Force_IPv6_toggle n : safe (Force_IPv6_toggle n).
Proof. unfold Force_IPv6_toggle, set_isDefaultGatewayAdded. safe_tac. Qed.
#[local] Hint Resolve safe_Force_IPv6_toggle : safe.
Lemma safe_WanMgr_Configure_accept_ra v b : safe (WanMgr_Configure_accept_ra v b).
Proof. unfold WanMgr_Configure_accept_ra, v_secure_system. safe_tac. Qed.
#[local] Hint Resolve safe_WanMgr_Configure_accept_ra : safe.

(** ** MAP-T *)

Lemma safe_isModuleLoaded n : safe (isModuleLoaded n).
Proof. unfold isModuleLoaded. safe_tac. Qed.
#[local] Hint Resolve safe_isModuleLoaded : safe.

(** ** The clients *)

Lemma safe_WanManager_send_and_receive_rs p : valid_vif sh p -> safe (WanManager_send_and_receive_rs p).
Proof. intros. unfold WanManager_send_and_receive_rs. safe_tac. Qed.
#[local] Hint Resolve safe_WanManager_send_and_receive_rs : safe.
Lemma safe_CheckV6DefaultRule n : safe (CheckV6DefaultRule n).
Proof. unfold CheckV6DefaultRule. safe_tac. Qed.
#[local] Hint Resolve safe_CheckV6DefaultRule : safe.
Lemma safe_WanMgr_CheckDefaultRA p : valid_vif sh p -> safe (WanMgr_CheckDefaultRA p).
Proof. intros. unfold WanMgr_CheckDefaultRA, set_isDefaultGatewayAdded. safe_tac. Qed.
#[local] Hint Resolve safe_WanMgr_CheckDefaultRA : safe.
Lemma safe_WanManager_StartDhcpv6Client p t : valid_vif sh p -> safe (WanManager_StartDhcpv6Client p t).
Proof. intros. unfold WanManager_StartDhcpv6Client, WanMgr_SubscribeDhcpClientEvents, dhcpmgr_set. safe_tac. Qed.
#[local] Hint Resolve safe_WanManager_StartDhcpv6Client : safe.
Lemma safe_WanManager_StopDhcpv6Client p r : valid_vif sh p -> safe (WanManager_StopDhcpv6Client p r).
Proof. intros. unfold WanManager_StopDhcpv6Client, WanMgr_UnSubscribeDhcpClientEvents, dhcpmgr_set. safe_tac. Qed.
#[local] Hint Resolve safe_WanManager_StopDhcpv6Client : safe.
Lemma safe_WanManager_RestartDhcpv6Client p t : valid_vif sh p -> safe (WanManager_RestartDhcpv6Client p t).
Proof. intros. unfold WanManager_RestartDhcpv6Client, dhcpmgr_set. safe_tac. Qed.
#[local] Hint Resolve safe_WanManager_RestartDhcpv6Client : safe.
Lemma safe_WanManager_StartDhcpv4Client p n t : valid_vif sh p -> safe (WanManager_StartDhcpv4Client p n t).
Proof. intros. unfold WanManager_StartDhcpv4Client, WanMgr_SubscribeDhcpClientEvents, dhcpmgr_set. safe_tac. Qed.
#[local] Hint Resolve safe_WanManager_StartDhcpv4Client : safe.
Lemma safe_WanManager_StopDhcpv4Client p r : valid_vif sh p -> safe (WanManager_StopDhcpv4Client p r).
Proof. intros. unfold WanManager_StopDhcpv4Client, WanMgr_UnSubscribeDhcpClientEvents, dhcpmgr_set. safe_tac. Qed.
#[local] Hint Resolve safe_WanManager_StopDhcpv4Client : safe.
Lemma safe_WanManager_UpdateInterfaceStatus p st : valid_vif sh p -> safe (WanManager_UpdateInterfaceStatus p st).
Proof. intros. unfold WanManager_UpdateInterfaceStatus. safe_tac. Qed.
#[local] Hint Resolve safe_WanManager_UpdateInterfaceStatus : safe.
Lemma safe_WanMgr_Rbus_EventPublishHandler e x : safe (WanMgr_Rbus_EventPublishHandler e x).
Proof. unfold WanMgr_Rbus_EventPublishHandler. safe_tac. Qed.
#[local] Hint Resolve safe_WanMgr_Rbus_EventPublishHandler : safe.

(** ** The leases *)

Lemma safe_WanManager_getUpTime : safe WanManager_getUpTime.
Proof. unfold WanManager_getUpTime. safe_tac. Qed.
#[local] Hint Resolve safe_WanManager_getUpTime : safe.
Lemma safe_WanManager_GetBCastFromIpSubnetMask a m : safe (WanManager_GetBCastFromIpSubnetMask a m).
Proof. unfold WanManager_GetBCastFromIpSubnetMask, inet_addr. safe_tac. Qed.
#[local] Hint Resolve safe_WanManager_GetBCastFromIpSubnetMask : safe.
Lemma safe_WanManager_AddGatewayRoute d : safe (WanManager_AddGatewayRoute d).
Proof. unfold WanManager_AddGatewayRoute. safe_tac. Qed.
#[local] Hint Resolve safe_WanManager_AddGatewayRoute : safe.
Lemma safe_publish_vif p f x : valid_vif sh p -> safe (publish_vif p f x).
Proof. intros. unfold publish_vif. safe_tac. Qed.
#[local] Hint Resolve safe_publish_vif : safe.
Lemma safe_dhcpv4_renewed p m : valid_vif sh p -> safe (dhcpv4_renewed p m).
Proof. intros. unfold dhcpv4_renewed. safe_tac. Qed.
#[local] Hint Resolve safe_dhcpv4_renewed : safe.
Lemma safe_dhcpv4_assigned p m c t : valid_vif sh p -> safe (dhcpv4_assigned p m c t).
Proof. intros. unfold dhcpv4_assigned. safe_tac. Qed.
#[local] Hint Resolve safe_dhcpv4_assigned : safe.
Lemma safe_wanmgr_handle_dhcpv4_event_data p : valid_vif sh p -> safe (wanmgr_handle_dhcpv4_event_data p).
Proof. intros. unfold wanmgr_handle_dhcpv4_event_data, dhcpv4_free. safe_tac. Qed.
#[local] Hint Resolve safe_wanmgr_handle_dhcpv4_event_data : safe.
Lemma safe_cellular_address p x f : valid_vif sh p -> safe (cellular_address p x f).
Proof. intros. unfold cellular_address, upd_ipc4. safe_tac. Qed.
#[local] Hint Resolve safe_cellular_address : safe.
Lemma safe_cellular_ipv4 p b : valid_vif sh p -> safe (cellular_ipv4 p b).
Proof. intros. unfold cellular_ipv4, cellular_query, upd_ipc4. safe_tac. Qed.
#[local] Hint Resolve safe_cellular_ipv4 : safe.
Lemma safe_cellular_ipv6 b : safe (cellular_ipv6 b).
Proof. unfold cellular_ipv6, cellular_query. safe_tac. Qed.
#[local] Hint Resolve safe_cellular_ipv6 : safe.
Lemma safe_WanMgr_UpdateIpFromCellularMgr i p : valid_iface sh i -> valid_vif sh p -> safe (WanMgr_UpdateIpFromCellularMgr i p).
Proof. intros. unfold WanMgr_UpdateIpFromCellularMgr. safe_tac. Qed.
#[local] Hint Resolve safe_WanMgr_UpdateIpFromCellularMgr : safe.
Lemma safe_ppp_get n f : safe (ppp_get n f).
Proof. unfold ppp_get. safe_tac. Qed.
#[local] Hint Resolve safe_ppp_get : safe.
Lemma safe_IPCPStateChangeHandler p : valid_vif sh p -> safe (IPCPStateChangeHandler p).
Proof.
  intros. unfold IPCPStateChangeHandler, dhcpv4_free, upd_ipc4. repeat isafe_step Hmem.
Qed.
#[local] Hint Resolve safe_IPCPStateChangeHandler : safe.
Lemma safe_WanMgr_isBridgeModeEnabled : safe WanMgr_isBridgeModeEnabled.
Proof. unfold WanMgr_isBridgeModeEnabled. safe_tac. Qed.
#[local] Hint Resolve safe_WanMgr_isBridgeModeEnabled : safe.
Lemma safe_prefix_on_lan_bridge : safe prefix_on_lan_bridge.
Proof. unfold prefix_on_lan_bridge. safe_tac. Qed.
#[local] Hint Resolve safe_prefix_on_lan_bridge : safe.
Lemma safe_WanManager_Ipv6PrefixUtil n o a b : safe (WanManager_Ipv6PrefixUtil n o a b).
Proof. unfold WanManager_Ipv6PrefixUtil. safe_tac. Qed.
#[local] Hint Resolve safe_WanManager_Ipv6PrefixUtil : safe.
Lemma safe_get_v6 p : valid_vif sh p -> safe (get_v6 p).
Proof. intros. unfold get_v6. safe_tac. Qed.
#[local] Hint Resolve safe_get_v6 : safe.
Lemma safe_dhcpv6_lease_configurable p m d : valid_vif sh p -> safe (dhcpv6_lease_configurable p m d).
Proof. intros. unfold dhcpv6_lease_configurable. safe_tac. Qed.
#[local] Hint Resolve safe_dhcpv6_lease_configurable : safe.
Lemma safe_dhcpv6_publish_prefix m d : safe (dhcpv6_publish_prefix m d).
Proof. unfold dhcpv6_publish_prefix. safe_tac. Qed.
#[local] Hint Resolve safe_dhcpv6_publish_prefix : safe.
Lemma safe_syscfg_prefix_clear : safe syscfg_prefix_clear.
Proof. unfold syscfg_prefix_clear. safe_tac. Qed.
#[local] Hint Resolve safe_syscfg_prefix_clear : safe.
Lemma safe_dhcpv6_lease_published p m d : valid_vif sh p -> safe (dhcpv6_lease_published p m d).
Proof. intros. unfold dhcpv6_lease_published. safe_tac. Qed.
#[local] Hint Resolve safe_dhcpv6_lease_published : safe.
Lemma safe_dhcpv6_slaac p l : valid_vif sh p -> safe (dhcpv6_slaac p l).
Proof. intros. unfold dhcpv6_slaac. safe_tac. Qed.
#[local] Hint Resolve safe_dhcpv6_slaac : safe.
Lemma safe_dhcpv6_connected p m d : valid_vif sh p -> safe (dhcpv6_connected p m d).
Proof. intros. unfold dhcpv6_connected. safe_tac. Qed.
#[local] Hint Resolve safe_dhcpv6_connected : safe.
Lemma safe_dhcpv6_mapt p m : valid_vif sh p -> safe (dhcpv6_mapt p m).
Proof. intros. unfold dhcpv6_mapt. safe_tac. Qed.
#[local] Hint Resolve safe_dhcpv6_mapt : safe.
Lemma safe_wanmgr_handle_dhcpv6_event_data p : valid_vif sh p -> safe (wanmgr_handle_dhcpv6_event_data p).
Proof. intros. unfold wanmgr_handle_dhcpv6_event_data, dhcpv6_free, get_v6. safe_tac. Qed.
#[local] Hint Resolve safe_wanmgr_handle_dhcpv6_event_data : safe.

(** ** The links, the routes and the services *)

Lemma safe_WanMgr_RdkBus_ConfigureVlan p b : valid_vif sh p -> safe (WanMgr_RdkBus_ConfigureVlan p b).
Proof. intros. unfold WanMgr_RdkBus_ConfigureVlan, set_vlan. safe_tac. Qed.
#[local] Hint Resolve safe_WanMgr_RdkBus_ConfigureVlan : safe.
Lemma safe_ppp_lower_layer p : valid_vif sh p -> safe (ppp_lower_layer p).
Proof. intros. unfold ppp_lower_layer. safe_tac. Qed.
#[local] Hint Resolve safe_ppp_lower_layer : safe.
Lemma safe_WanManager_ConfigurePPPSession p b : valid_vif sh p -> safe (WanManager_ConfigurePPPSession p b).
Proof. intros. unfold WanManager_ConfigurePPPSession. safe_tac. Qed.
#[local] Hint Resolve safe_WanManager_ConfigurePPPSession : safe.
Lemma safe_WanMgr_GetSelectedIPMode p : valid_vif sh p -> safe (WanMgr_GetSelectedIPMode p).
Proof. intros. unfold WanMgr_GetSelectedIPMode. safe_tac. Qed.
#[local] Hint Resolve safe_WanMgr_GetSelectedIPMode : safe.
Lemma safe_DmlSetVLANInUseToPSMDB p : valid_vif sh p -> safe (DmlSetVLANInUseToPSMDB p).
Proof. intros. unfold DmlSetVLANInUseToPSMDB. safe_tac. Qed.
#[local] Hint Resolve safe_DmlSetVLANInUseToPSMDB : safe.
Lemma safe_WanManager_DelDefaultGatewayRoute m c : safe (WanManager_DelDefaultGatewayRoute m c).
Proof. unfold WanManager_DelDefaultGatewayRoute. safe_tac. Qed.
#[local] Hint Resolve safe_WanManager_DelDefaultGatewayRoute : safe.
Lemma safe_WanManager_AddDefaultGatewayRoute m d : safe (WanManager_AddDefaultGatewayRoute m d).
Proof. unfold WanManager_AddDefaultGatewayRoute. safe_tac. Qed.
#[local] Hint Resolve safe_WanManager_AddDefaultGatewayRoute : safe.
Lemma safe_WanManager_PrintBootEvents st : safe (WanManager_PrintBootEvents st).
Proof. unfold WanManager_PrintBootEvents. safe_tac. Qed.
#[local] Hint Resolve safe_WanManager_PrintBootEvents : safe.
Lemma safe_wanmanager_mapt_feature : safe wanmanager_mapt_feature.
Proof. unfold wanmanager_mapt_feature. safe_tac. Qed.
#[local] Hint Resolve safe_wanmanager_mapt_feature : safe.
Lemma safe_wanmgr_services_restart : safe wanmgr_services_restart.
Proof. unfold wanmgr_services_restart, wanmgr_sshd_restart, wanmgr_snmpv3_restart. safe_tac. Qed.
#[local] Hint Resolve safe_wanmgr_services_restart : safe.
Lemma safe_WanManager_StartIpoeHealthCheckService n : safe (WanManager_StartIpoeHealthCheckService n).
Proof. unfold WanManager_StartIpoeHealthCheckService. safe_tac. Qed.
#[local] Hint Resolve safe_WanManager_StartIpoeHealthCheckService : safe.
Lemma safe_WanManager_StopIpoeHealthCheckService n : safe (WanManager_StopIpoeHealthCheckService n).
Proof. unfold WanManager_StopIpoeHealthCheckService. safe_tac. Qed.
#[local] Hint Resolve safe_WanManager_StopIpoeHealthCheckService : safe.
Lemma safe_lan_prefix_publish a b : safe (lan_prefix_publish a b).
Proof. unfold lan_prefix_publish. safe_tac. Qed.
#[local] Hint Resolve safe_lan_prefix_publish : safe.
Lemma safe_lan_global_ip d : safe (lan_global_ip d).
Proof. unfold lan_global_ip. safe_tac. Qed.
#[local] Hint Resolve safe_lan_global_ip : safe.
Lemma safe_lan_publish_prefix p d : valid_vif sh p -> safe (lan_publish_prefix p d).
Proof. intros. unfold lan_publish_prefix. safe_tac. Qed.
#[local] Hint Resolve safe_lan_publish_prefix : safe.
Lemma safe_lan_restart g : safe (lan_restart g).
Proof. unfold lan_restart. safe_tac. Qed.
#[local] Hint Resolve safe_lan_restart : safe.
Lemma safe_setUpLanPrefixIPv6 p : valid_vif sh p -> safe (setUpLanPrefixIPv6 p).
Proof. intros. unfold setUpLanPrefixIPv6. safe_tac. Qed.
#[local] Hint Resolve safe_setUpLanPrefixIPv6 : safe.

Lemma safe_with_iface_at {A} none n (body : iface_ptr -> M (St IC) A) :
  0 <= n -> (n < sh.1.1.1 -> valid_iface sh (Z.to_nat n) -> safe (body (Z.to_nat n))) -> safe (with_iface none n body).
Proof.
  intros Hn Hb. eapply safe_ext; [apply with_iface_eq|].
  apply (safe_guarded sh (fun _ => True) (fun s => iface_ok s n)); [done|].
  intros (s & [Hs Ha] & Hok). apply Hb; [|by eapply iface_ok_valid].
  rewrite <- Hs. by apply iface_ok_lt.
Qed.
Lemma safe_WanMgr_Publish_WanStatus i n :
  0 <= i -> (i < sh.1.1.1 -> exists l, sh.1.2 !! Z.to_nat i = Some l /\ n ∈ l.2) -> safe (WanMgr_Publish_WanStatus i n).
Proof.
  intros Hi Hn. unfold WanMgr_Publish_WanStatus. apply safe_bind_any; [|intros ?; safe_tac].
  apply safe_with_iface_at; [done|]. intros Hlt Hv. destruct (Hn Hlt) as (l & Hl & Hin).
  eapply safe_bind; [by apply safe_get_iface | intros I HI].
  eapply safe_deref_vif; [exact HI | | intros j Hj; safe_tac].
  destruct HI as [HI _]. rewrite HI in Hl. by injection Hl as <-.
Qed.
#[local] Hint Resolve safe_WanMgr_Publish_WanStatus : safe.

(** ** The actions of the machine *)

Lemma safe_mapt_acceleration x : safe (mapt_acceleration x).
Proof. unfold mapt_acceleration. safe_tac. Qed.
#[local] Hint Resolve safe_mapt_acceleration : safe.
Lemma safe_wan_setUpMapt : safe wan_setUpMapt.
Proof. unfold wan_setUpMapt. safe_tac. Qed.
#[local] Hint Resolve safe_wan_setUpMapt : safe.
Lemma safe_wan_tearDownMapt : safe wan_tearDownMapt.
Proof. unfold wan_tearDownMapt. safe_tac. Qed.
#[local] Hint Resolve safe_wan_tearDownMapt : safe.
Lemma safe_WanMgr_RdkBus_GetParamValueFromAnyComp q : safe (WanMgr_RdkBus_GetParamValueFromAnyComp q).
Proof. unfold WanMgr_RdkBus_GetParamValueFromAnyComp. safe_tac. Qed.
#[local] Hint Resolve safe_WanMgr_RdkBus_GetParamValueFromAnyComp : safe.
Lemma safe_WanMgr_RestartFindExistingLink i p : valid_iface sh i -> valid_vif sh p -> safe (WanMgr_RestartFindExistingLink i p).
Proof. intros. unfold WanMgr_RestartFindExistingLink, set_vlan, set_ppp. safe_tac. Qed.
#[local] Hint Resolve safe_WanMgr_RestartFindExistingLink : safe.
Lemma safe_WanManager_StopIHC : safe WanManager_StopIHC.
Proof. unfold WanManager_StopIHC, WanMgr_IfaceSM_IHC_Init. safe_tac. Qed.
#[local] Hint Resolve safe_WanManager_StopIHC : safe.
Lemma safe_WanMgr_StartConnectivityCheck p : valid_vif sh p -> safe (WanMgr_StartConnectivityCheck p).
Proof. intros. unfold WanMgr_StartConnectivityCheck. safe_tac. Qed.
#[local] Hint Resolve safe_WanMgr_StartConnectivityCheck : safe.
Lemma safe_WanMgr_StopConnectivityCheck p : valid_vif sh p -> safe (WanMgr_StopConnectivityCheck p).
Proof. intros. unfold WanMgr_StopConnectivityCheck. safe_tac. Qed.
#[local] Hint Resolve safe_WanMgr_StopConnectivityCheck : safe.
Lemma safe_WanMgr_SendMsgToIHC m n : safe (WanMgr_SendMsgToIHC m n).
Proof. unfold WanMgr_SendMsgToIHC. safe_tac. Qed.
#[local] Hint Resolve safe_WanMgr_SendMsgToIHC : safe.
Lemma safe_WanMgr_SendMsgTo_ConnectivityCheck p t b : valid_vif sh p -> safe (WanMgr_SendMsgTo_ConnectivityCheck p t b).
Proof. intros. unfold WanMgr_SendMsgTo_ConnectivityCheck, ihc_up. safe_tac. Qed.
#[local] Hint Resolve safe_WanMgr_SendMsgTo_ConnectivityCheck : safe.
Lemma safe_client_gone n : safe (client_gone n).
Proof. unfold client_gone, WanMgr_IsPIDRunning. safe_tac. Qed.
#[local] Hint Resolve safe_client_gone : safe.
Lemma safe_monitor_dhcpv4 i p : valid_iface sh i -> valid_vif sh p -> safe (monitor_dhcpv4 i p).
Proof. intros. unfold monitor_dhcpv4. safe_tac. Qed.
#[local] Hint Resolve safe_monitor_dhcpv4 : safe.
Lemma safe_monitor_dhcpv6 i p : valid_iface sh i -> valid_vif sh p -> safe (monitor_dhcpv6 i p).
Proof. intros. unfold monitor_dhcpv6. safe_tac. Qed.
#[local] Hint Resolve safe_monitor_dhcpv6 : safe.
Lemma safe_monitor_wcc_type p : valid_vif sh p -> safe (monitor_wcc_type p).
Proof. intros. unfold monitor_wcc_type. safe_tac. Qed.
#[local] Hint Resolve safe_monitor_wcc_type : safe.
Lemma safe_monitor_ihc p : valid_vif sh p -> safe (monitor_ihc p).
Proof. intros. unfold monitor_ihc, WanMgr_IsPIDRunning. safe_tac. Qed.
#[local] Hint Resolve safe_monitor_ihc : safe.
Lemma safe_WanMgr_MonitorDhcpApps i p : valid_iface sh i -> valid_vif sh p -> safe (WanMgr_MonitorDhcpApps i p).
Proof. intros. unfold WanMgr_MonitorDhcpApps. safe_tac. Qed.
#[local] Hint Resolve safe_WanMgr_MonitorDhcpApps : safe.

(** ** The addresses *)

Lemma safe_dns_publish l x : safe (dns_publish l x).
Proof. unfold dns_publish. safe_tac. Qed.
#[local] Hint Resolve safe_dns_publish : safe.
Lemma safe_dns_server fp af l x : safe (dns_server fp af l x).
Proof. unfold dns_server, valid_dns_server, fprintf. safe_tac. Qed.
#[local] Hint Resolve safe_dns_server : safe.
Lemma safe_dns_add4 fp v : safe (dns_add4 fp v).
Proof. unfold dns_add4. safe_tac. Qed.
#[local] Hint Resolve safe_dns_add4 : safe.
Lemma safe_dns_add6 fp v : safe (dns_add6 fp v).
Proof. unfold dns_add6. safe_tac. Qed.
#[local] Hint Resolve safe_dns_add6 : safe.
Lemma safe_wan_updateDNS i p a b : valid_iface sh i -> valid_vif sh p -> safe (wan_updateDNS i p a b).
Proof. intros. unfold wan_updateDNS, dns_clear, fprintf. safe_tac. Qed.
#[local] Hint Resolve safe_wan_updateDNS : safe.
Lemma safe_lan_dad_wait n : safe (lan_dad_wait n).
Proof. unfold lan_dad_wait. safe_tac. Qed.
#[local] Hint Resolve safe_lan_dad_wait : safe.
Lemma safe_checkIpv6LanAddressIsReadyToUse p : valid_vif sh p -> safe (checkIpv6LanAddressIsReadyToUse p).
Proof. intros. unfold checkIpv6LanAddressIsReadyToUse. safe_tac. Qed.
#[local] Hint Resolve safe_checkIpv6LanAddressIsReadyToUse : safe.
Lemma safe_updateInterfaceToVoiceManager i p b :
  valid_iface sh i -> valid_vif sh p -> safe (updateInterfaceToVoiceManager i p b).
Proof.
  intros Hi Hp. unfold updateInterfaceToVoiceManager, voip_bound. repeat isafe_step Hmem.
Qed.
#[local] Hint Resolve safe_updateInterfaceToVoiceManager : safe.
Lemma safe_wan_deconfigIPv4onInterface p : valid_vif sh p -> safe (wan_deconfigIPv4onInterface p).
Proof. intros. unfold wan_deconfigIPv4onInterface. safe_tac. Qed.
#[local] Hint Resolve safe_wan_deconfigIPv4onInterface : safe.
Lemma safe_post_d_start : safe post_d_start.
Proof. unfold post_d_start. safe_tac. Qed.
#[local] Hint Resolve safe_post_d_start : safe.
Lemma safe_wan_setUpIPv4 i p : valid_iface sh i -> valid_vif sh p -> safe (wan_setUpIPv4 i p).
Proof. intros. unfold wan_setUpIPv4. safe_tac. Qed.
#[local] Hint Resolve safe_wan_setUpIPv4 : safe.
Lemma safe_clear_ipv4_dns I v : safe (clear_ipv4_dns I v).
Proof. unfold clear_ipv4_dns. safe_tac. Qed.
#[local] Hint Resolve safe_clear_ipv4_dns : safe.
Lemma safe_wan_tearDownIPv4 i p : valid_iface sh i -> valid_vif sh p -> safe (wan_tearDownIPv4 i p).
Proof. intros. unfold wan_tearDownIPv4, set_wan_status. safe_tac. Qed.
#[local] Hint Resolve safe_wan_tearDownIPv4 : safe.
Lemma safe_publish_wan_mac6 n : safe (publish_wan_mac6 n).
Proof. unfold publish_wan_mac6. safe_tac. Qed.
#[local] Hint Resolve safe_publish_wan_mac6 : safe.
Lemma safe_wan_setUpIPv6 i p : valid_iface sh i -> valid_vif sh p -> safe (wan_setUpIPv6 i p).
Proof. intros. unfold wan_setUpIPv6. safe_tac. Qed.
#[local] Hint Resolve safe_wan_setUpIPv6 : safe.
Lemma safe_ipv6_prefix_retire : safe ipv6_prefix_retire.
Proof. unfold ipv6_prefix_retire. safe_tac. Qed.
#[local] Hint Resolve safe_ipv6_prefix_retire : safe.
Lemma safe_clear_wan_ipv6_address : safe clear_wan_ipv6_address.
Proof. unfold clear_wan_ipv6_address. safe_tac. Qed.
#[local] Hint Resolve safe_clear_wan_ipv6_address : safe.
Lemma safe_wan_tearDownIPv6 i p : valid_iface sh i -> valid_vif sh p -> safe (wan_tearDownIPv6 i p).
Proof. intros. unfold wan_tearDownIPv6, set_wan_status. safe_tac. Qed.
#[local] Hint Resolve safe_wan_tearDownIPv6 : safe.
Lemma safe_WanManager_ClearDHCPData p : valid_vif sh p -> safe (WanManager_ClearDHCPData p).
Proof. intros. unfold WanManager_ClearDHCPData. safe_tac. Qed.
#[local] Hint Resolve safe_WanManager_ClearDHCPData : safe.

(** ** The transitions *)

Lemma safe_publish_status : safe publish_status.
Proof.
  unfold publish_status. eapply safe_bind; [apply safe_get_controller | intros c Hc].
  destruct (Hc) as [E1 E2]. apply safe_when. intros _. rewrite E1, E2.
  apply safe_WanMgr_Publish_WanStatus; [apply u32_range | exact Hnum].
Qed.
#[local] Hint Resolve safe_publish_status : safe.
Lemma safe_wan_transition_ppp_configure p : valid_vif sh p -> safe (wan_transition_ppp_configure p).
Proof. intros. unfold wan_transition_ppp_configure, set_ppp. safe_tac. Qed.
#[local] Hint Resolve safe_wan_transition_ppp_configure : safe.
Lemma safe_wan_transition_wan_up p : valid_vif sh p -> safe (wan_transition_wan_up p).
Proof. intros. unfold wan_transition_wan_up. safe_tac. Qed.
#[local] Hint Resolve safe_wan_transition_wan_up : safe.
Lemma safe_start_clients i p : valid_iface sh i -> valid_vif sh p -> safe (start_clients i p).
Proof. intros. unfold start_clients. safe_tac. Qed.
#[local] Hint Resolve safe_start_clients : safe.
Lemma safe_wan_transition_wan_validated i p : valid_iface sh i -> valid_vif sh p -> safe (wan_transition_wan_validated i p).
Proof. intros. unfold wan_transition_wan_validated, set_ppp, remote_ula_address. safe_tac. Qed.
#[local] Hint Resolve safe_wan_transition_wan_validated : safe.
Lemma safe_wan_service_started I : safe (wan_service_started I).
Proof. unfold wan_service_started. safe_tac. Qed.
#[local] Hint Resolve safe_wan_service_started : safe.
Lemma safe_wan_transition_ipv4_up i p : valid_iface sh i -> valid_vif sh p -> safe (wan_transition_ipv4_up i p).
Proof. intros. unfold wan_transition_ipv4_up. safe_tac. Qed.
#[local] Hint Resolve safe_wan_transition_ipv4_up : safe.
Lemma safe_dhcpv4_on_down i p : valid_iface sh i -> valid_vif sh p -> safe (dhcpv4_on_down i p).
Proof. intros. unfold dhcpv4_on_down. safe_tac. Qed.
#[local] Hint Resolve safe_dhcpv4_on_down : safe.
Lemma safe_wan_transition_ipv4_down i p : valid_iface sh i -> valid_vif sh p -> safe (wan_transition_ipv4_down i p).
Proof. intros. unfold wan_transition_ipv4_down. safe_tac. Qed.
#[local] Hint Resolve safe_wan_transition_ipv4_down : safe.
Lemma safe_wan_transition_ipv6_up i p : valid_iface sh i -> valid_vif sh p -> safe (wan_transition_ipv6_up i p).
Proof. intros. unfold wan_transition_ipv6_up. safe_tac. Qed.
#[local] Hint Resolve safe_wan_transition_ipv6_up : safe.
Lemma safe_dhcpv6_on_down i p : valid_iface sh i -> valid_vif sh p -> safe (dhcpv6_on_down i p).
Proof. intros. unfold dhcpv6_on_down. safe_tac. Qed.
#[local] Hint Resolve safe_dhcpv6_on_down : safe.
Lemma safe_wan_transition_ipv6_down i p : valid_iface sh i -> valid_vif sh p -> safe (wan_transition_ipv6_down i p).
Proof. intros. unfold wan_transition_ipv6_down. safe_tac. Qed.
#[local] Hint Resolve safe_wan_transition_ipv6_down : safe.
Lemma safe_wan_transition_dual_stack_down i p : valid_iface sh i -> valid_vif sh p -> safe (wan_transition_dual_stack_down i p).
Proof. intros. unfold wan_transition_dual_stack_down. safe_tac. Qed.
#[local] Hint Resolve safe_wan_transition_dual_stack_down : safe.
Lemma safe_wan_transition_mapt_feature_refresh i p : valid_iface sh i -> valid_vif sh p -> safe (wan_transition_mapt_feature_refresh i p).
Proof. intros. unfold wan_transition_mapt_feature_refresh. safe_tac. Qed.
#[local] Hint Resolve safe_wan_transition_mapt_feature_refresh : safe.
Lemma safe_links_down i p : valid_iface sh i -> valid_vif sh p -> safe (links_down i p).
Proof. intros. unfold links_down, set_ppp, set_vlan. safe_tac. Qed.
#[local] Hint Resolve safe_links_down : safe.
Lemma safe_addresses_down i p : valid_iface sh i -> valid_vif sh p -> safe (addresses_down i p).
Proof. intros. unfold addresses_down. rewrite ?Hmapt. cbn [andb when]. safe_tac. Qed.
#[local] Hint Resolve safe_addresses_down : safe.
Lemma safe_wan_transition_physical_interface_down i p : valid_iface sh i -> valid_vif sh p -> safe (wan_transition_physical_interface_down i p).
Proof. intros. unfold wan_transition_physical_interface_down. safe_tac. Qed.
#[local] Hint Resolve safe_wan_transition_physical_interface_down : safe.
Lemma safe_wan_transition_exit p : valid_vif sh p -> safe (wan_transition_exit p).
Proof. intros. unfold wan_transition_exit. safe_tac. Qed.
#[local] Hint Resolve safe_wan_transition_exit : safe.
Lemma safe_wan_transition_standby p : valid_vif sh p -> safe (wan_transition_standby p).
Proof. intros. unfold wan_transition_standby. safe_tac. Qed.
#[local] Hint Resolve safe_wan_transition_standby : safe.
Lemma safe_wan_transition_standby_deconfig_ips i p : valid_iface sh i -> valid_vif sh p -> safe (wan_transition_standby_deconfig_ips i p).
Proof. intros. unfold wan_transition_standby_deconfig_ips. rewrite ?Hmapt. cbn [andb when]. safe_tac. Qed.
#[local] Hint Resolve safe_wan_transition_standby_deconfig_ips : safe.

(** ** The states *)

Lemma safe_vlan_discovery_expired p : valid_vif sh p -> safe (vlan_discovery_expired p).
Proof. intros. unfold vlan_discovery_expired, set_vlan. safe_tac. Qed.
#[local] Hint Resolve safe_vlan_discovery_expired : safe.
Lemma safe_refresh_dhcp i p : valid_iface sh i -> valid_vif sh p -> safe (refresh_dhcp i p).
Proof. intros. unfold refresh_dhcp. safe_tac. Qed.
#[local] Hint Resolve safe_refresh_dhcp : safe.
Lemma safe_set_up_lan_prefix p : valid_vif sh p -> safe (set_up_lan_prefix p).
Proof. intros. unfold set_up_lan_prefix. safe_tac. Qed.
#[local] Hint Resolve safe_set_up_lan_prefix : safe.
Lemma safe_obtained i p : valid_iface sh i -> valid_vif sh p -> safe (obtained i p).
Proof. intros. unfold obtained, mapt_switched. safe_tac. Qed.
#[local] Hint Resolve safe_obtained : safe.
Lemma safe_selected_mode i p now : valid_iface sh i -> valid_vif sh p -> safe (selected_mode i p now).
Proof. intros. unfold selected_mode. safe_tac. Qed.
#[local] Hint Resolve safe_selected_mode : safe.
Lemma safe_wan_state_obtaining_ip_addresses i p : valid_iface sh i -> valid_vif sh p -> safe (wan_state_obtaining_ip_addresses i p).
Proof. intros. unfold wan_state_obtaining_ip_addresses, voice_stopped, set_vlan. safe_tac. Qed.
#[local] Hint Resolve safe_wan_state_obtaining_ip_addresses : safe.
Lemma safe_standby_to_active i p : valid_iface sh i -> valid_vif sh p -> safe (standby_to_active i p).
Proof. intros. unfold standby_to_active. safe_tac. Qed.
#[local] Hint Resolve safe_standby_to_active : safe.
Lemma safe_reconfigure_ipv4 i p : valid_iface sh i -> valid_vif sh p -> safe (reconfigure_ipv4 i p).
Proof. intros. unfold reconfigure_ipv4. safe_tac. Qed.
#[local] Hint Resolve safe_reconfigure_ipv4 : safe.
Lemma safe_reconfigure_ipv6 i p : valid_iface sh i -> valid_vif sh p -> safe (reconfigure_ipv6 i p).
Proof. intros. unfold reconfigure_ipv6. safe_tac. Qed.
#[local] Hint Resolve safe_reconfigure_ipv6 : safe.
Lemma safe_renewed_ipv4 p : valid_vif sh p -> safe (renewed_ipv4 p).
Proof. intros. unfold renewed_ipv4. safe_tac. Qed.
#[local] Hint Resolve safe_renewed_ipv4 : safe.
Lemma safe_renewed_ipv6 p : valid_vif sh p -> safe (renewed_ipv6 p).
Proof. intros. unfold renewed_ipv6. safe_tac. Qed.
#[local] Hint Resolve safe_renewed_ipv6 : safe.
Lemma safe_WanMgr_IfaceIpcMsg_handle p : valid_vif sh p -> safe (WanMgr_IfaceIpcMsg_handle p).
Proof. intros. unfold WanMgr_IfaceIpcMsg_handle, set_ppp. safe_tac. Qed.
#[local] Hint Resolve safe_WanMgr_IfaceIpcMsg_handle : safe.

(** *** The states *)

Lemma safe_off_or_expired i p m : valid_iface sh i -> valid_vif sh p -> safe m -> safe (off_or_expired i p m).
Proof. intros Hi Hp Hm. unfold off_or_expired. safe_tac. Qed.
Lemma safe_state_links i p : valid_iface sh i -> valid_vif sh p ->
  safe (wan_state_vlan_configuring i p) /\ safe (wan_state_ppp_configuring i p) /\ safe (wan_state_validating_wan i p).
Proof. intros Hi Hp. split_and!; (apply safe_off_or_expired; [done..|]); safe_tac. Qed.
Lemma safe_wan_state_standby i p : valid_iface sh i -> valid_vif sh p -> safe (wan_state_standby i p).
Proof. intros. unfold wan_state_standby. safe_tac. Qed.
Lemma no_mapt_switch I v b : mapt_switch_pending I v b = false.
Proof. unfold mapt_switch_pending. by rewrite Hmapt. Qed.
Lemma no_mapt_branch i p I v b m : mapt_branch i p I v b m = None.
Proof. unfold mapt_branch. by rewrite Hmapt, no_mapt_switch. Qed.
Lemma safe_wan_state_ipv4_leased i p : valid_iface sh i -> valid_vif sh p -> safe (wan_state_ipv4_leased i p).
Proof. intros. unfold wan_state_ipv4_leased, mapt_switched. safe_tac. Qed.
Lemma safe_wan_state_ipv6_leased i p : valid_iface sh i -> valid_vif sh p -> safe (wan_state_ipv6_leased i p).
Proof.
  intros. unfold wan_state_ipv6_leased. repeat (rewrite ?no_mapt_branch; safe_step).
Qed.
Lemma safe_wan_state_dual_stack_active i p :
  valid_iface sh i -> valid_vif sh p -> safe (wan_state_dual_stack_active i p).
Proof.
  intros. unfold wan_state_dual_stack_active. repeat (rewrite ?no_mapt_branch; safe_step).
Qed.
Lemma safe_wan_state_deconfiguring_wan p : valid_vif sh p -> safe (wan_state_deconfiguring_wan p).
Proof. intros. unfold wan_state_deconfiguring_wan. safe_tac. Qed.
Lemma safe_wan_state_exit p : valid_vif sh p -> safe (wan_state_exit p).
Proof. intros. unfold wan_state_exit. safe_tac. Qed.
#[local] Hint Resolve safe_wan_state_standby safe_wan_state_ipv4_leased safe_wan_state_ipv6_leased
  safe_wan_state_dual_stack_active safe_wan_state_deconfiguring_wan safe_wan_state_exit : safe.
Lemma safe_ism_state i p st : st <> WAN_STATE_REFRESHING_WAN ->
  valid_iface sh i -> valid_vif sh p -> safe (ism_state i p st).
Proof.
  intros Hst Hi Hp. destruct (safe_state_links i p Hi Hp) as (? & ? & ?).
  destruct st; simpl; rewrite ?Hmapt; [safe_tac..| |safe_tac|safe_tac]; done.
Qed.

(** The VLAN discovery takes its next VLAN from a list that is not empty. *)
Definition vlan_listed (v : DML_VIRTUAL_IFACE) : Prop :=
  vlan_Enable (v_VLAN v) = true -> vlan_InterfaceList (v_VLAN v) <> [].
Lemma next_vlan_listed x : vlan_InterfaceList x <> [] -> exists t, next_vlan x = Some t.
Proof.
  intros Hl. assert (exists t, head (vlan_InterfaceList x) = Some t) as [t Ht].
  { destruct (vlan_InterfaceList x); [done | by eexists]. }
  unfold next_vlan. cbv zeta. destruct (_ || _); [by exists t|].
  destruct (WanMgr_getVirtVlanIfById _ _) as [j|]; [|by exists t].
  destruct (_ !! S j); [by eexists | by exists t].
Qed.
Lemma wp_read {A B} (m : M (St IC) A) (k : A -> M (St IC) B) Q s a :
  m s = Some (a, s) -> wp (k a) Q s -> wp (bind m k) Q s.
Proof. intros E HW. apply wp_bind. by eapply wp_intro. Qed.
Lemma get_iface_read i I (s : St IC) : ifaces s !! i = Some I -> get_iface i s = Some (I, s).
Proof. intros HI. unfold get_iface, get_db, bind, gets, ifaces in *. by rewrite HI. Qed.
Lemma get_vif_read p I v (s : St IC) :
  ifaces s !! p.1 = Some I -> if_VirtIfList I !! p.2 = Some v -> get_vif p s = Some (v, s).
Proof. intros HI Hv. unfold get_vif, bind. rewrite (get_iface_read p.1 I s HI). by rewrite Hv. Qed.

Lemma wp_refreshing i j s I v :
  framed sh s -> valid_iface sh i -> valid_vif sh (i, j) ->
  ifaces s !! i = Some I -> if_VirtIfList I !! j = Some v -> vlan_listed v ->
  wp (wan_state_refreshing_wan i (i, j)) (fun _ s' => framed sh s' /\ depth s' = depth s) s.
Proof.
  intros Hs Hi Hp HI Hv Hl. unfold wan_state_refreshing_wan.
  eapply wp_read; [reflexivity|]. eapply wp_read; [by apply get_iface_read|].
  eapply wp_read; [by eapply get_vif_read|].
  assert (forall m : M (St IC) eWanState_t, safe m -> wp m (fun _ s' => framed sh s' /\ depth s' = depth s) s) as Hsafe.
  { intros m Hm. eapply safe_wp; [exact Hm | exact Hs | done]. }
  destruct (iface_off _ _ _); [apply Hsafe; safe_tac|].
  destruct (links_not_down v); [apply Hsafe; safe_tac|].
  unfold wan_transition_wan_refreshed.
  eapply wp_read; [by apply get_iface_read|]. eapply wp_read; [by eapply get_vif_read|].
  apply Hsafe. apply safe_bind_any; [|intros _; safe_tac].
  apply safe_when. intros [Hd _]%andb_prop. apply andb_prop in Hd as [He _].
  destruct (next_vlan_listed (v_VLAN v) (Hl He)) as [t Ht]. rewrite Ht. unfold set_vlan.
  apply safe_bind_any; [|intros _; safe_tac]. apply safe_when. intros _. 
  apply safe_bind_any; [apply safe_ret; done | intros ?; safe_tac].
Qed.
End IfaceSafe.

(** * A pass *)

(** What the machine relies on: its interface is configured, has the virtual
    interface of its number, and that one has a VLAN to configure if it is to
    configure any. *)
Definition vlan_entry (v : DML_VIRTUAL_IFACE) : Z * bool * list DML_VLAN_IFACE_TABLE :=
  (v_VirIfIdx v, vlan_Enable (v_VLAN v), vlan_InterfaceList (v_VLAN v)).
Definition vlan_view {C} (s : St C) := (fun I => vlan_entry <$> if_VirtIfList I) <$> ifaces s.
Definition has_vlan (vid : Z) (l : list (Z * bool * list DML_VLAN_IFACE_TABLE)) : bool :=
  match find (fun e => e.1.1 =? vid) l with
  | Some (_, enabled, vlans) => negb enabled || match vlans with [] => false | _ => true end
  | None => false
  end.
Definition machine_ok (s : St IC) : bool :=
  let idx := u32 (ic_interfaceIdx (ctl s)) in
  (idx <? nifaces s)
  && match vlan_view s !! Z.to_nat idx with
     | Some l => has_vlan (u32 (ic_VirIfIdx (ctl s))) l
     | None => false
     end.

Lemma vlan_view_alter f i k (l : list DML_WAN_IFACE) :
  (forall v, vlan_entry (f v) = vlan_entry v) ->
  (fun I => vlan_entry <$> if_VirtIfList I) <$> alter (fun I => I <| if_VirtIfList ::= alter f k |>) i l
    = (fun I => vlan_entry <$> if_VirtIfList I) <$> l.
Proof.
  intros Hf. apply list_eq. intros j. rewrite !list_lookup_fmap, list_lookup_alter.
  destruct (decide _) as [->|]; [|done]. destruct (l !! j) as [I|]; simpl; [|done]. f_equal. rsimpl.
  apply list_eq. intros m. rewrite !list_lookup_fmap, list_lookup_alter.
  destruct (decide _) as [->|]; [|done]. destruct (if_VirtIfList I !! m); simpl; [by rewrite Hf | done].
Qed.
Lemma vlan_view_upd_vif p f :
  (forall v, vlan_entry (f v) = vlan_entry v) -> Keeps (vlan_view (C := IC)) (upd_vif p f).
Proof.
  intros Hf. apply keeps_bind; [apply keeps_get_vif | intros _].
  apply keeps_bind; [apply keeps_get_iface | intros _]. apply keeps_modify. intros s.
  exact (vlan_view_alter f p.1 p.2 (ifaces s) Hf).
Qed.
Lemma ism_view_vlan {D} (g : DML_WAN_IFACE_STATUS -> D) (s s' : St IC) :
  ism_view g s' = ism_view g s -> vlan_view s' = vlan_view s.
Proof.
  intros Hv. assert (exists h, forall l : list DML_WAN_IFACE,
    (fun I => vlan_entry <$> if_VirtIfList I) <$> l = h <$> (iface_kept g <$> l)) as [h Eh].
  { exists (fun x => @fmap list _ _ _ (fun y => (y.1.1.1.1.1.1, y.1.1.1.1.2.1.1.1.1, y.1.1.1.1.2.1.2)) x.2). intros l.
    rewrite <- list_fmap_compose. apply list_fmap_ext. intros _ I _. simpl. by rewrite <- list_fmap_compose. }
  unfold vlan_view. rewrite !Eh. f_equal. exact (f_equal (fun x => x.1.1.1.1) Hv).
Qed.
