(* ===== verification/IfaceMoves.v ===== *)
(** Where the machine of an interface goes, and when it makes its interface up:
    the edges of [ism_edge], and the triples [Calm] of the operations that write
    the status of a virtual interface. *)

From S2P Require Export IfaceSafe.

#[local] Abbreviation IC := WanMgr_IfaceSM_Controller_t.

(** * The edges *)

(** The states that follow, of the comments and returns of the code. *)
Definition ism_succ (st : eWanState_t) : list eWanState_t :=
  let down := [WAN_STATE_REFRESHING_WAN; WAN_STATE_DECONFIGURING_WAN] in
  match st with
  | WAN_STATE_EXIT => []
  | WAN_STATE_VLAN_CONFIGURING => WAN_STATE_PPP_CONFIGURING :: down
  | WAN_STATE_PPP_CONFIGURING => WAN_STATE_VALIDATING_WAN :: down
  | WAN_STATE_VALIDATING_WAN => WAN_STATE_OBTAINING_IP_ADDRESSES :: down
  | WAN_STATE_OBTAINING_IP_ADDRESSES =>
      [WAN_STATE_IPV4_LEASED; WAN_STATE_IPV6_LEASED; WAN_STATE_DUAL_STACK_ACTIVE; WAN_STATE_STANDBY] ++ down
  | WAN_STATE_STANDBY =>
      [WAN_STATE_OBTAINING_IP_ADDRESSES; WAN_STATE_IPV4_LEASED; WAN_STATE_IPV6_LEASED;
       WAN_STATE_DUAL_STACK_ACTIVE] ++ down
  | WAN_STATE_IPV4_LEASED =>
      [WAN_STATE_OBTAINING_IP_ADDRESSES; WAN_STATE_STANDBY; WAN_STATE_IPV6_LEASED;
       WAN_STATE_DUAL_STACK_ACTIVE] ++ down
  | WAN_STATE_IPV6_LEASED =>
      [WAN_STATE_OBTAINING_IP_ADDRESSES; WAN_STATE_STANDBY; WAN_STATE_IPV4_LEASED;
       WAN_STATE_DUAL_STACK_ACTIVE; WAN_STATE_MAPT_ACTIVE] ++ down
  | WAN_STATE_DUAL_STACK_ACTIVE =>
      [WAN_STATE_OBTAINING_IP_ADDRESSES; WAN_STATE_STANDBY; WAN_STATE_IPV4_LEASED;
       WAN_STATE_IPV6_LEASED; WAN_STATE_MAPT_ACTIVE] ++ down
  | WAN_STATE_MAPT_ACTIVE =>
      [WAN_STATE_OBTAINING_IP_ADDRESSES; WAN_STATE_STANDBY; WAN_STATE_IPV6_LEASED] ++ down
  | WAN_STATE_REFRESHING_WAN => WAN_STATE_VLAN_CONFIGURING :: down
  | WAN_STATE_DECONFIGURING_WAN => [WAN_STATE_EXIT]
  end.
(** The machine stays where it is, or moves along an edge. *)
Definition ism_edge (st st' : eWanState_t) : Prop := st' = st \/ st' ∈ ism_succ st.
#[export] Instance ism_edge_dec st st' : Decision (ism_edge st st').
Proof. unfold ism_edge. apply _. Defined.

Lemma edge_in st st' : bool_decide (ism_edge st st') = true -> ism_edge st st'.
Proof. by intros E%bool_decide_eq_true. Qed.
Lemma edge_all st l :
  forallb (fun st' => bool_decide (ism_edge st st')) l = true -> forall st', st' ∈ l -> ism_edge st st'.
Proof. intros Hl st' Hin. rewrite forallb_forall in Hl. by apply edge_in, Hl, list_elem_of_In. Qed.

(** * What a pass does to the status of the virtual interfaces *)

Definition vif_at (q : vif_ptr) (s : St IC) : option DML_VIRTUAL_IFACE :=
  ifaces s !! q.1 ≫= fun I => if_VirtIfList I !! q.2.
Definition status_at (q : vif_ptr) (s : St IC) : option DML_WAN_IFACE_STATUS := v_Status <$> vif_at q s.
Definition active_at (i : nat) (s : St IC) : option bool := active <$> ifaces s !! i.
Definition current_at (q : vif_ptr) (s : St IC) : option eWanState_t := v_eCurrentState <$> vif_at q s.

Lemma get_vif_run q (s : St IC) : get_vif q s = (fun v => (v, s)) <$> vif_at q s.
Proof.
  unfold get_vif, bind, vif_at. rewrite get_iface_run. destruct (ifaces s !! q.1) as [I|]; [|done]. simpl.
  by destruct (if_VirtIfList I !! q.2).
Qed.
(** The state after the field [f] of [q] is written. *)
Definition vif_set (q : vif_ptr) f (s : St IC) : St IC :=
  s <| db ::= fun d => d <| w_pIface := alter (fun I => I <| if_VirtIfList ::= alter f q.2 |>) q.1 (w_pIface d) |> |>.
Lemma upd_vif_run q f (s : St IC) : upd_vif q f s = (fun _ => (tt, vif_set q f s)) <$> vif_at q s.
Proof.
  unfold upd_vif, bind. rewrite get_vif_run. destruct (vif_at q s) as [v|] eqn:Ev; [|done]. simpl.
  unfold upd_iface, bind. rewrite get_iface_run. unfold vif_at in Ev. by destruct (ifaces s !! q.1).
Qed.
Lemma vif_at_set q f s q' : vif_at q' (vif_set q f s) = if decide (q' = q) then f <$> vif_at q' s else vif_at q' s.
Proof.
  destruct q as [i j], q' as [k l]. unfold vif_at, ifaces, vif_set. simpl. rewrite list_lookup_alter.
  destruct (decide (i = k)) as [<-|Hne]; [|by rewrite decide_False by congruence].
  destruct (w_pIface (db s) !! i) as [I|]; simpl; [|by destruct (decide _)].
  rewrite list_lookup_alter. destruct (decide (j = l)) as [<-|]; [by rewrite decide_True | by rewrite decide_False by congruence].
Qed.

(** Only the status of [p] may change, and it becomes up only with [b]. *)
Definition status_step (p : vif_ptr) (b : bool) (s s' : St IC) : Prop :=
  (forall q, q <> p -> status_at q s' = status_at q s)
  /\ (status_at p s' = Some WAN_IFACE_STATUS_UP -> status_at p s = Some WAN_IFACE_STATUS_UP \/ b = true).
Lemma status_step_refl p b s : status_step p b s s.
Proof. split; auto. Qed.
Lemma status_step_trans p b s1 s2 s3 : status_step p b s1 s2 -> status_step p b s2 s3 -> status_step p b s1 s3.
Proof. intros [A1 B1] [A2 B2]. split; [intros q Hq; by rewrite A2, A1|]. intros E. destruct (B2 E); auto. Qed.

Lemma view_vif_at {B} (f : DML_VIRTUAL_IFACE -> B) s s' :
  (exists h, forall v, f v = h (vif_kept (fun x => x) v)) -> ism_view (fun x => x) s' = ism_view (fun x => x) s ->
  forall q, f <$> vif_at q s' = f <$> vif_at q s.
Proof.
  intros [h Hh] Hv q. assert (iface_kept (fun x => x) <$> ifaces s' = iface_kept (fun x => x) <$> ifaces s) as E
    by exact (f_equal (fun x => x.1.1.1.1) Hv).
  apply (f_equal (fun x => x !! q.1)) in E. rewrite !list_lookup_fmap in E. unfold vif_at.
  destruct (ifaces s' !! q.1) as [I'|], (ifaces s !! q.1) as [I|]; try done. simpl in *.
  apply (inj Some) in E. apply (f_equal snd) in E. simpl in E. apply (f_equal (fun x => x !! q.2)) in E.
  rewrite !list_lookup_fmap in E. destruct (_ !! q.2) as [v'|], (if_VirtIfList I !! q.2) as [v|]; try done.
  apply (inj Some) in E. simpl. by rewrite !Hh, E.
Qed.
Lemma view_active_at {D} (g : DML_WAN_IFACE_STATUS -> D) s s' (i : nat) :
  ism_view g s' = ism_view g s -> active_at i s' = active_at i s.
Proof.
  intros Hv. assert (iface_kept g <$> ifaces s' = iface_kept g <$> ifaces s) as E
    by exact (f_equal (fun x => x.1.1.1.1) Hv).
  apply (f_equal (fun x => x !! i)) in E. rewrite !list_lookup_fmap in E. unfold active_at.
  destruct (ifaces s' !! i) as [I'|], (ifaces s !! i) as [I|]; try done.
  simpl in E. apply (inj Some), (f_equal fst), (f_equal if_Selection) in E. unfold active. simpl in *. by rewrite E.
Qed.

Section Calm.
Context `{Platform} `{Build} `{MaptBuild} `{IfaceBuild}.
Context (i j : nat) (b : bool) (st : eWanState_t).
#[local] Abbreviation M := (Prelude.M (St IC)).
#[local] Abbreviation p := (i, j).

(** Where the interface is active iff [b] and the virtual interface records the
    state [st], [m] leaves that so, changes the status of no other virtual
    interface, makes this one up only if the interface is active, and returns a
    value in [P]. *)
Definition Calm {A} (P : A -> Prop) (m : M A) : Prop := forall s a s',
  active_at i s = Some b -> current_at p s = Some st -> m s = Some (a, s') ->
  active_at i s' = Some b /\ current_at p s' = Some st /\ status_step p b s s' /\ P a.

Lemma calm_mono {A} (P Q : A -> Prop) (m : M A) : Calm P m -> (forall a, P a -> Q a) -> Calm Q m.
Proof. intros Hm HPQ s a s' Ha Hc E. destruct (Hm s a s' Ha Hc E) as (? & ? & ? & ?). auto. Qed.
Lemma calm_ret {A} (P : A -> Prop) (a : A) : P a -> Calm P (ret a).
Proof. intros HP s a' s' Ha Hc [= <- <-]. split_and!; try done. apply status_step_refl. Qed.
Lemma calm_bind {A B} (Q : A -> Prop) (P : B -> Prop) (m : M A) (k : A -> M B) :
  Calm Q m -> (forall a, Q a -> Calm P (k a)) -> Calm P (bind m k).
Proof.
  intros Hm Hk s a s' Ha Hc E. unfold bind in E. destruct (m s) as [[x s1]|] eqn:E1; [|done].
  destruct (Hm s x s1 Ha Hc E1) as (Ha1 & Hc1 & Hs1 & HQ).
  destruct (Hk x HQ s1 a s' Ha1 Hc1 E) as (? & ? & ? & ?). split_and!; try done. by eapply status_step_trans.
Qed.
Lemma calm_when (c : bool) (m : M unit) : (c = true -> Calm (fun _ => True) m) -> Calm (fun _ => True) (when c m).
Proof. intros Hm. destruct c; [by apply Hm | by apply calm_ret]. Qed.
Lemma calm_keep {A} (m : M A) : Keeps (ism_view (fun x => x)) m -> Calm (fun _ => True) m.
Proof.
  intros Hk s a s' Ha Hc E. pose proof (Hk _ _ _ E) as Hv. split_and!; try done.
  - by rewrite (view_active_at _ _ _ _ Hv).
  - rewrite <- Hc. apply (view_vif_at v_eCurrentState); [|done]. by exists (fun x => x.1.2).
  - assert (forall q, status_at q s' = status_at q s) as Hq.
    { apply (view_vif_at v_Status); [|done]. by exists snd. }
    split; [auto|]. rewrite Hq. auto.
Qed.
Lemma calm_get_iface {A} (P : A -> Prop) (k : DML_WAN_IFACE -> M A) :
  (forall I, active I = b -> Calm P (k I)) -> Calm P (bind (get_iface i) k).
Proof.
  intros Hk s a s' Ha Hc E. unfold bind in E. rewrite get_iface_run in E.
  destruct (ifaces s !! i) as [I|] eqn:EI; [|done]. refine (Hk I _ s a s' Ha Hc E).
  unfold active_at in Ha. rewrite EI in Ha. by injection Ha.
Qed.
Lemma calm_get_vif {A} (P : A -> Prop) (k : DML_VIRTUAL_IFACE -> M A) :
  (forall v, v_eCurrentState v = st -> Calm P (k v)) -> Calm P (bind (get_vif p) k).
Proof.
  intros Hk s a s' Ha Hc E. unfold bind in E. rewrite get_vif_run in E.
  destruct (vif_at p s) as [v|] eqn:Ev; [|done]. refine (Hk v _ s a s' Ha Hc E).
  unfold current_at in Hc. rewrite Ev in Hc. by injection Hc.
Qed.
Lemma calm_upd_vif f :
  (forall v, v_eCurrentState (f v) = v_eCurrentState v) ->
  (forall v, v_Status (f v) = WAN_IFACE_STATUS_UP -> v_Status v = WAN_IFACE_STATUS_UP \/ b = true) ->
  Calm (fun _ => True) (upd_vif p f).
Proof.
  intros Hf Hs s [] s' Ha Hc E. rewrite upd_vif_run in E. destruct (vif_at p s) as [v|] eqn:Ev; [|done].
  injection E as <-. split_and!; [| | split |done].
  - rewrite <- Ha. unfold active_at, ifaces. simpl. rewrite list_lookup_alter, decide_True by done.
    by destruct (w_pIface (db s) !! i).
  - rewrite <- Hc. unfold current_at. rewrite vif_at_set, decide_True, Ev by done. simpl. by rewrite Hf.
  - intros q Hne. unfold status_at. by rewrite vif_at_set, decide_False.
  - unfold status_at. rewrite vif_at_set, decide_True, Ev by done. simpl. intros [= Hu].
    destruct (Hs v Hu) as [->|]; auto.
Qed.

(** ** The transitions *)

(** The states that follow are among those of the list. *)
#[local] Abbreviation goes l m := (Calm (fun st' : eWanState_t => st' ∈ l) m).

(** What a test says of the interface being active. *)
Ltac calm_active :=
  try (match goal with
  | H : b = true |- _ => idtac
  | HI : true = b |- _ => assert (b = true) by (by symmetry)
  | HI : active ?I = b, E : _ = _ |- _ =>
      assert (b = true) by (rewrite <- HI; unfold must_stand_by in E; clear - E; lia)
  end).
Ltac edge_tac := match goal with E : st = _ |- _ => rewrite E; reflexivity end.
Ltac calm_val := apply calm_ret; repeat match goal with |- context [if ?c then _ else _] => destruct c end;
  first [ exact I | apply list_elem_of_In; simpl; intuition auto | apply edge_in; edge_tac | done ].
Ltac calm_tac := repeat calm_step
with calm_step := first
  [ solve [auto 2 with calm nocore]
  | solve [apply calm_keep; auto 3 with keeps nocore]
  | lazymatch goal with
    | |- Calm _ (ret _) => calm_val
    | |- Calm _ (bind (get_iface _) _) => apply calm_get_iface; intros ? ?
    | |- Calm _ (bind (get_vif _) _) => apply calm_get_vif; intros ? ?
    | |- Calm _ (bind _ _) => eapply calm_bind; [calm_first | intros ? ?]
    | |- Calm _ (when _ _) => apply calm_when; intros ?
    | |- Calm _ (upd_vif _ _) => apply calm_upd_vif; intros ?; first [reflexivity | by left | by right | done]
    | |- Calm (ism_edge _) _ => eapply calm_mono; [solve [auto 2 with calm nocore] | apply edge_all; edge_tac]
    end
  | match goal with
    | |- Calm _ (if ?c then _ else _) => let E := fresh in destruct c eqn:E; calm_active
    | |- Calm _ (match ?c with _ => _ end) => let E := fresh in destruct c eqn:E
    end
  | progress cbv beta zeta
  | progress autounfold with monad ]
with calm_first := first
  [ solve [auto 2 with calm nocore]
  | solve [apply calm_keep; auto 3 with keeps nocore]
  | solve [apply calm_keep; kv_tac ]
  | instantiate (1 := fun _ => True); solve [calm_tac] ].

#[local] Hint Extern 1 (Calm _ _) => eassumption : calm.
#[local] Abbreviation obtaining := WAN_STATE_OBTAINING_IP_ADDRESSES.
Lemma calm_wanmgr_handle_dhcpv4_event_data : Calm (fun _ => True) (wanmgr_handle_dhcpv4_event_data p).
Proof. unfold wanmgr_handle_dhcpv4_event_data, dhcpv4_free. calm_tac. Qed.
#[local] Hint Resolve calm_wanmgr_handle_dhcpv4_event_data : calm.
Lemma calm_cellular_query base suffix next :
  (forall x, Calm (fun _ => True) (next x)) -> Calm (fun _ => True) (cellular_query base suffix next).
Proof. intros Hn. unfold cellular_query. calm_tac. Qed.
Lemma calm_cellular_ipv4 base : Calm (fun _ => True) (cellular_ipv4 p base).
Proof.
  unfold cellular_ipv4, upd_ipc4. calm_tac;
    repeat (apply calm_cellular_query; intros ?; calm_tac).
Qed.
#[local] Hint Resolve calm_cellular_ipv4 : calm.
Lemma calm_WanMgr_UpdateIpFromCellularMgr : Calm (fun _ => True) (WanMgr_UpdateIpFromCellularMgr i p).
Proof. unfold WanMgr_UpdateIpFromCellularMgr. calm_tac. Qed.
#[local] Hint Resolve calm_WanMgr_UpdateIpFromCellularMgr : calm.
Lemma calm_WanMgr_IfaceIpcMsg_handle : Calm (fun _ => True) (WanMgr_IfaceIpcMsg_handle p).
Proof. unfold WanMgr_IfaceIpcMsg_handle, set_ppp. calm_tac. Qed.

Lemma calm_wan_transition_wan_up : goes [WAN_STATE_VALIDATING_WAN] (wan_transition_wan_up p).
Proof. unfold wan_transition_wan_up. calm_tac. Qed.
Lemma calm_wan_transition_ppp_configure : goes [WAN_STATE_PPP_CONFIGURING] (wan_transition_ppp_configure p).
Proof. unfold wan_transition_ppp_configure, set_ppp. calm_tac. Qed.
Lemma calm_wan_transition_wan_validated : goes [obtaining] (wan_transition_wan_validated i p).
Proof. unfold wan_transition_wan_validated, set_ppp, remote_ula_address. calm_tac. Qed.
Lemma calm_wan_transition_wan_refreshed : goes [WAN_STATE_VLAN_CONFIGURING] (wan_transition_wan_refreshed i p).
Proof. unfold wan_transition_wan_refreshed, set_vlan. calm_tac. Qed.
Lemma calm_wan_transition_ipv4_up :
  b = true -> goes [WAN_STATE_DUAL_STACK_ACTIVE; WAN_STATE_IPV4_LEASED] (wan_transition_ipv4_up i p).
Proof. intros Hb. unfold wan_transition_ipv4_up. calm_tac. Qed.
Lemma calm_wan_transition_ipv6_up :
  b = true -> goes [WAN_STATE_DUAL_STACK_ACTIVE; WAN_STATE_IPV6_LEASED] (wan_transition_ipv6_up i p).
Proof. intros Hb. unfold wan_transition_ipv6_up. calm_tac. Qed.
Lemma calm_wan_transition_ipv4_down : goes [WAN_STATE_IPV6_LEASED; obtaining] (wan_transition_ipv4_down i p).
Proof. unfold wan_transition_ipv4_down. calm_tac. Qed.
Lemma calm_wan_transition_ipv6_down : goes [WAN_STATE_IPV4_LEASED; obtaining] (wan_transition_ipv6_down i p).
Proof. unfold wan_transition_ipv6_down. calm_tac. Qed.
#[local] Hint Resolve calm_wan_transition_wan_up calm_wan_transition_ppp_configure calm_wan_transition_wan_validated
  calm_wan_transition_wan_refreshed calm_wan_transition_ipv4_up calm_wan_transition_ipv6_up
  calm_wan_transition_ipv4_down calm_wan_transition_ipv6_down : calm.
Lemma calm_wan_transition_dual_stack_down : goes [obtaining] (wan_transition_dual_stack_down i p).
Proof. unfold wan_transition_dual_stack_down. calm_tac. Qed.
Lemma calm_wan_transition_mapt_feature_refresh : goes [obtaining] (wan_transition_mapt_feature_refresh i p).
Proof. unfold wan_transition_mapt_feature_refresh. calm_tac. Qed.
Lemma calm_mapt_replaces_ipv4 : Calm (fun _ => True) (mapt_replaces_ipv4 i p).
Proof. unfold mapt_replaces_ipv4. calm_tac. Qed.
#[local] Hint Resolve calm_mapt_replaces_ipv4 : calm.
Lemma calm_wan_transition_mapt_up :
  b = true -> goes [WAN_STATE_MAPT_ACTIVE; st] (wan_transition_mapt_up i p).
Proof. intros Hb. unfold wan_transition_mapt_up. calm_tac. Qed.
Lemma calm_wan_transition_mapt_down : goes [WAN_STATE_IPV6_LEASED] (wan_transition_mapt_down i p).
Proof. unfold wan_transition_mapt_down. calm_tac. Qed.
#[local] Hint Resolve calm_wan_transition_mapt_down : calm.
Lemma calm_addresses_down : Calm (fun _ => True) (addresses_down i p).
Proof. unfold addresses_down. calm_tac. Qed.
#[local] Hint Resolve calm_addresses_down : calm.
Lemma calm_wan_transition_physical_interface_down :
  goes [WAN_STATE_REFRESHING_WAN; WAN_STATE_DECONFIGURING_WAN] (wan_transition_physical_interface_down i p).
Proof. unfold wan_transition_physical_interface_down. calm_tac. Qed.
Lemma calm_wan_transition_exit : goes [WAN_STATE_EXIT] (wan_transition_exit p).
Proof. unfold wan_transition_exit. calm_tac. Qed.
Lemma calm_wan_transition_standby : goes [WAN_STATE_STANDBY] (wan_transition_standby p).
Proof. unfold wan_transition_standby. calm_tac. Qed.
Lemma calm_wan_transition_standby_deconfig_ips : goes [WAN_STATE_STANDBY] (wan_transition_standby_deconfig_ips i p).
Proof. unfold wan_transition_standby_deconfig_ips. calm_tac. Qed.
#[local] Hint Resolve calm_wan_transition_dual_stack_down calm_wan_transition_mapt_feature_refresh
  calm_wan_transition_mapt_up calm_wan_transition_physical_interface_down calm_wan_transition_exit
  calm_wan_transition_standby calm_wan_transition_standby_deconfig_ips : calm.

(** ** The states *)

Lemma calm_vlan_discovery_expired : Calm (fun _ => True) (vlan_discovery_expired p).
Proof. apply calm_keep. kv_tac. Qed.
#[local] Hint Resolve calm_vlan_discovery_expired : calm.
Lemma calm_off_or_expired m :
  ism_edge st WAN_STATE_REFRESHING_WAN -> ism_edge st WAN_STATE_DECONFIGURING_WAN ->
  Calm (ism_edge st) m -> Calm (ism_edge st) (off_or_expired i p m).
Proof.
  intros Hr Hd Hm. unfold off_or_expired.
  assert (Calm (ism_edge st) (wan_transition_physical_interface_down i p)) as Hp.
  { eapply calm_mono; [auto with calm nocore|]. intros st' Hin%list_elem_of_In. by destruct Hin as [<-|[<-|[]]]. }
  calm_tac.
Qed.
Lemma calm_states_of_links :
  (st = WAN_STATE_VLAN_CONFIGURING -> Calm (ism_edge st) (wan_state_vlan_configuring i p))
  /\ (st = WAN_STATE_PPP_CONFIGURING -> Calm (ism_edge st) (wan_state_ppp_configuring i p))
  /\ (st = WAN_STATE_VALIDATING_WAN -> Calm (ism_edge st) (wan_state_validating_wan i p)).
Proof. split_and!; intros Hst; apply calm_off_or_expired; try (apply edge_in; edge_tac); calm_tac. Qed.
Lemma calm_refresh_dhcp : goes [obtaining] (refresh_dhcp i p).
Proof. unfold refresh_dhcp. calm_tac. Qed.
#[local] Hint Resolve calm_refresh_dhcp : calm.
Lemma calm_mapt_switched P next otherwise :
  Calm P next -> Calm P otherwise -> Calm P (mapt_switched p next otherwise).
Proof. intros Hn Ho. unfold mapt_switched. calm_tac. Qed.
Lemma calm_obtained : st = obtaining -> Calm (ism_edge st) (obtained i p).
Proof. intros Hst. unfold obtained. calm_tac. all: apply calm_mapt_switched; calm_tac. Qed.
Lemma calm_selected_mode now : Calm (fun o => default obtaining o = obtaining) (selected_mode i p now).
Proof.
  unfold selected_mode. calm_tac.
  match goal with Hin : _ |- Calm _ (ret (Some ?a)) => by apply calm_ret, list_elem_of_singleton end.
Qed.
#[local] Hint Resolve calm_obtained calm_selected_mode : calm.
Lemma calm_wan_state_obtaining_ip_addresses :
  st = obtaining -> Calm (ism_edge st) (wan_state_obtaining_ip_addresses i p).
Proof.
  intros Hst. unfold wan_state_obtaining_ip_addresses, voice_stopped, set_vlan. calm_tac.
  match goal with E : default _ (Some ?e) = _ |- Calm _ (ret ?e) => simpl in E; rewrite E; calm_tac end.
Qed.
Lemma calm_standby_to_active :
  st = WAN_STATE_STANDBY -> b = true -> Calm (ism_edge st) (standby_to_active i p).
Proof.
  intros Hst Hb. unfold standby_to_active. apply calm_get_vif. intros v Hv.
  apply (calm_bind (ism_edge st)); [calm_tac|]. intros st' Hst'. apply calm_get_vif. intros v' Hv'.
  destruct (_ ≟ _); [calm_tac | by apply calm_ret].
Qed.
#[local] Hint Resolve calm_standby_to_active : calm.
Lemma calm_wan_state_standby : st = WAN_STATE_STANDBY -> Calm (ism_edge st) (wan_state_standby i p).
Proof. intros Hst. unfold wan_state_standby. calm_tac. Qed.
Lemma calm_wan_state_ipv4_leased : st = WAN_STATE_IPV4_LEASED -> Calm (ism_edge st) (wan_state_ipv4_leased i p).
Proof. intros Hst. unfold wan_state_ipv4_leased. calm_tac. all: apply calm_mapt_switched; calm_tac. Qed.
(** The MAP-T branch of a state that stays when there is nothing to do. *)
Lemma calm_mapt_branch I v changed stay m :
  st = WAN_STATE_IPV6_LEASED \/ st = WAN_STATE_DUAL_STACK_ACTIVE -> active I = b ->
  Calm (ism_edge st) stay -> mapt_branch i p I v changed stay = Some m -> Calm (ism_edge st) m.
Proof.
  intros Hst HI Hs. unfold mapt_branch.
  assert (forall l n, goes l n -> forallb (fun st' => bool_decide (ism_edge st st')) l = true -> Calm (ism_edge st) n) as Hg.
  { intros l n Hn Hl. eapply calm_mono; [exact Hn | by apply edge_all]. }
  destruct (_ && _) eqn:E.
  - calm_active. intros [= <-]. apply (calm_bind (fun _ => True)); [calm_tac|]. intros r _.
    destruct (r =? 0); [|exact Hs]. eapply Hg; [auto with calm nocore|]. by destruct Hst as [-> | ->].
  - destruct (mapt_switch_pending _ _ _); [|done]. intros [= <-]. apply calm_mapt_switched; [|exact Hs].
    eapply Hg; [auto with calm nocore|]. by destruct Hst as [-> | ->].
Qed.
Lemma calm_wan_state_ipv6_leased : st = WAN_STATE_IPV6_LEASED -> Calm (ism_edge st) (wan_state_ipv6_leased i p).
Proof.
  intros Hst. unfold wan_state_ipv6_leased. calm_tac.
  eapply (calm_mapt_branch _ _ _ (WanMgr_CheckDefaultRA p ;; ret WAN_STATE_IPV6_LEASED)); [by left | done | calm_tac | eassumption].
Qed.
Lemma calm_wan_state_dual_stack_active :
  st = WAN_STATE_DUAL_STACK_ACTIVE -> Calm (ism_edge st) (wan_state_dual_stack_active i p).
Proof.
  intros Hst. unfold wan_state_dual_stack_active. calm_tac.
  eapply calm_mapt_branch; [by right | done | | eassumption]. calm_tac.
Qed.
Lemma calm_wan_state_mapt_active : st = WAN_STATE_MAPT_ACTIVE -> Calm (ism_edge st) (wan_state_mapt_active i p).
Proof. intros Hst. unfold wan_state_mapt_active. calm_tac. Qed.
Lemma calm_wan_state_refreshing_wan : st = WAN_STATE_REFRESHING_WAN -> Calm (ism_edge st) (wan_state_refreshing_wan i p).
Proof. intros Hst. unfold wan_state_refreshing_wan. calm_tac. Qed.
Lemma calm_wan_state_deconfiguring_wan :
  st = WAN_STATE_DECONFIGURING_WAN -> Calm (ism_edge st) (wan_state_deconfiguring_wan p).
Proof. intros Hst. unfold wan_state_deconfiguring_wan. calm_tac. Qed.
End Calm.

Section Pass.
Context `{Platform} `{Build} `{MaptBuild} `{IfaceBuild}.

(** What a pass in state [st] leads to. *)
Definition ism_next (st : eWanState_t) (o : option eWanState_t) : Prop :=
  match o with
  | Some st' => ism_edge st st'
  | None => st = WAN_STATE_EXIT \/ st = WAN_STATE_MAPT_ACTIVE /\ FEATURE_MAPT = false
  end.
Lemma calm_ism_state i j b st : Calm i j b st (ism_next st) (ism_state i (i, j) st).
Proof.
  assert (forall m, Calm i j b st (ism_edge st) m -> Calm i j b st (ism_next st) (bind m (fun st' => ret (Some st')))) as Hrun.
  { intros m Hm. eapply calm_bind; [exact Hm|]. intros st' Hst'. by apply calm_ret. }
  pose proof (calm_states_of_links i j b st) as (Hv & Hp & Hw).
  destruct st; unfold ism_state; cbv zeta; try (apply Hrun; auto using calm_wan_state_obtaining_ip_addresses,
    calm_wan_state_standby, calm_wan_state_ipv4_leased, calm_wan_state_ipv6_leased, calm_wan_state_dual_stack_active,
    calm_wan_state_refreshing_wan, calm_wan_state_deconfiguring_wan; done).
  - apply (calm_bind _ _ _ _ (fun _ => True)); [apply calm_keep; unfold wan_state_exit; kv_tac|]. intros ? ?. apply calm_ret. by left.
  - destruct FEATURE_MAPT eqn:E; [by apply Hrun, calm_wan_state_mapt_active|].
    apply (calm_bind _ _ _ _ (fun _ => True)); [apply calm_keep; unfold wan_state_exit; kv_tac|]. intros ? ?. apply calm_ret. by right.
Qed.

(** The body of a pass: the state it is in is recorded first. *)
Lemma pass_body i j b st s o s' :
  active_at i s = Some b -> ism_process i (i, j) st s = Some (o, s') ->
  active_at i s' = Some b /\ status_step (i, j) b s s' /\ ism_next st o.
Proof.
  intros Ha E. unfold ism_process in E. mrun E.
  assert (exists st0, current_at (i, j) s = Some st0) as [st0 Hc].
  { unfold WanMgr_IfaceIpcMsg_handle, bind in E0. rewrite get_vif_run in E0. unfold current_at.
    destruct (vif_at (i, j) s) as [v|]; [by exists (v_eCurrentState v) | done]. }
  destruct (calm_WanMgr_IfaceIpcMsg_handle i j b st0 _ _ _ Ha Hc E0) as (Ha1 & _ & Hs1 & _).
  mrun E. injection E1 as _ <-. mrun E. rewrite upd_vif_run in E1.
  set (s2 := s0 <| ctl := _ |>) in E1. destruct (vif_at (i, j) s2) as [v|] eqn:Ev; [|done]. injection E1 as _ <-.
  assert (active_at i (vif_set (i, j) (fun v => v <| v_eCurrentState := st |>) s2) = Some b) as Ha2.
  { rewrite <- Ha1. unfold active_at, ifaces, vif_set. simpl. rewrite list_lookup_alter, decide_True by done.
    by destruct (w_pIface (db s0) !! i). }
  assert (current_at (i, j) (vif_set (i, j) (fun v => v <| v_eCurrentState := st |>) s2) = Some st) as Hc2
    by (unfold current_at; by rewrite vif_at_set, decide_True, Ev by done).
  destruct (calm_ism_state i j b st _ _ _ Ha2 Hc2 E) as (Ha3 & _ & Hs3 & Ho).
  split; [done|]. split; [|done]. eapply status_step_trans; [exact Hs1|]. eapply status_step_trans; [|exact Hs3].
  assert (forall q, status_at q (vif_set (i, j) (fun v => v <| v_eCurrentState := st |>) s2) = status_at q s0) as Hq.
  { intros q. unfold status_at. rewrite vif_at_set. change (vif_at q s2) with (vif_at q s0).
    destruct (decide _); [by destruct (vif_at q s0) | done]. }
  split; [auto|]. rewrite Hq. auto.
Qed.

Lemma keeps_ifaces_resolve : Keeps (fun s : St IC => ifaces s) ism_resolve.
Proof.
  unfold ism_resolve, ism_vif, WanMgr_GetIfaceData_locked, pthread_mutex_lock, pIface_set, WanMgrDml_GetIfaceData_release,
    pthread_mutex_unlock. keeps_tac.
Qed.
Lemma resolve_own : Returns (fun ip => ip.2 = (ip.1, ip.2.2)) ism_resolve.
Proof.
  unfold ism_resolve, ism_vif. do 4 (apply returns_bind; intros ?).
  apply (returns_bind_val (fun q => q = (a1, q.2))).
  - do 3 (apply returns_bind; intros ?). by apply returns_ret.
  - intros q Hq. apply returns_ret. by rewrite Hq.
Qed.

(** A pass: nothing, or the body of the one virtual interface of the machine. *)
Lemma pass_run st s o s' :
  ism_iteration st s = Some (o, s') ->
  (o = Some st /\ ifaces s' = ifaces s)
  \/ exists i j b, active_at i s = Some b /\ active_at i s' = Some b /\ status_step (i, j) b s s' /\ ism_next st o.
Proof.
  unfold ism_iteration. intros E. mrun E. injection E0 as _ <-. mrun E. injection E0 as _ <-.
  destruct (_ <? 0); [left; by injection E as <- <-|]. right.
  mrun E. assert (Keeps (fun s : St IC => ifaces s) ism_config) as Hc by (unfold ism_config; keeps_tac).
  apply Hc in E0 as Hi0. clear E0. mrun E. apply resolve_own in E0 as Hip. apply keeps_ifaces_resolve in E0 as Hi1.
  destruct a2 as [i [i' j]]. simpl in Hip. injection Hip as ->. mrun E. simpl in E1.
  mrun E. injection E2 as _ <-. injection E as <- <-.
  assert (exists b, active_at i s1 = Some b) as [b Ha].
  { unfold active_at. destruct (ifaces s1 !! (i : nat)) as [I|] eqn:EI; [by exists (active I)|].
    unfold ism_process, WanMgr_IfaceIpcMsg_handle, bind in E1. rewrite get_vif_run in E1. unfold vif_at in E1.
    cbn [fst] in E1. unfold iface_ptr in E1. by rewrite EI in E1. }
  destruct (pass_body i j b st s1 a2 s2 Ha E1) as (Ha' & Hs & Hn). exists i, j, b.
  assert (forall q, status_at q s1 = status_at q s) as Hq by (intros q; unfold status_at, vif_at; by rewrite Hi1, Hi0).
  split; [|split; [exact Ha'|split; [|exact Hn]]].
  - unfold active_at in *. by rewrite Hi1, Hi0 in Ha.
  - destruct Hs as [Hs1 Hs2]. split.
    + intros q Hne. transitivity (status_at q s1); [by apply Hs1 | apply Hq].
    + intros Hu. destruct (Hs2 Hu) as [Hx|]; [left; exact (eq_trans (eq_sym (Hq (i, j))) Hx) | by right].
Qed.
End Pass.
