(* ===== verification/IfaceDown.v ===== *)
(** What an operation of the interface state machine makes of its virtual
    interface, and the way down of an interface that is switched off. *)

From S2P Require Export IfaceMoves.

#[local] Abbreviation IC := WanMgr_IfaceSM_Controller_t.

(** * Fields of the virtual interfaces an operation keeps *)

Section Fields.
Context {D : Type} (h : DML_VIRTUAL_IFACE -> D).

Definition vif_view (s : St IC) := (fun I => h <$> if_VirtIfList I) <$> ifaces s.
#[export] Instance vif_view_lock_free : LockFree vif_view.
Proof. by constructor. Qed.
Lemma vif_view_upd_vif p f : (forall v, h (f v) = h v) -> Keeps vif_view (upd_vif p f).
Proof.
  intros Hf s a s' E. rewrite upd_vif_run in E. destruct (vif_at p s); [|done]. injection E as _ <-.
  unfold vif_view, vif_set, ifaces. simpl. apply list_eq. intros k. rewrite !list_lookup_fmap, list_lookup_alter.
  destruct (decide _) as [<-|]; [|done]. destruct (w_pIface (db s) !! _) as [I|]; simpl; [|done]. f_equal.
  apply list_eq. intros l. rewrite !list_lookup_fmap, list_lookup_alter.
  destruct (decide _) as [<-|]; [|done]. by destruct (if_VirtIfList I !! _); simpl; rewrite ?Hf.
Qed.
Lemma vif_view_at s s' q : vif_view s' = vif_view s -> h <$> vif_at q s' = h <$> vif_at q s.
Proof.
  intros Hv. apply (f_equal (fun x => x !! q.1)) in Hv. unfold vif_view in Hv. rewrite !list_lookup_fmap in Hv.
  unfold vif_at. destruct (ifaces s' !! q.1) as [I'|], (ifaces s !! q.1) as [I|]; try done. simpl in *.
  apply (inj Some), (f_equal (fun x => x !! q.2)) in Hv. by rewrite !list_lookup_fmap in Hv.
Qed.
End Fields.

Ltac field_step :=
  lazymatch goal with
  | |- Keeps (vif_view _) (upd_vif _ _) => apply vif_view_upd_vif; intros ?; first [reflexivity | cbn; by repeat destruct (_ ≟ _)]
  | |- _ => keeps_step
  end.
Ltac field_tac := repeat field_step.

Lemma fields_of_ifaces {D A} (h : DML_VIRTUAL_IFACE -> D) (m : M (St IC) A) : Keeps (fun s : St IC => ifaces s) m -> Keeps (vif_view h) m.
Proof. apply (keeps_coarser (fun s : St IC => ifaces s) (fun l => (fun I => h <$> if_VirtIfList I) <$> l)). Qed.


(** ** What an operation makes of one virtual interface *)

Section Fact.
Context (p : vif_ptr).
Definition fact (P : DML_VIRTUAL_IFACE -> Prop) (s : St IC) : Prop := exists v, vif_at p s = Some v /\ P v.
(** From [P] to [Q], whatever [m] returns. *)
Definition Leads {A} (P : DML_VIRTUAL_IFACE -> Prop) (m : M (St IC) A) (Q : DML_VIRTUAL_IFACE -> Prop) : Prop :=
  forall s a s', fact P s -> m s = Some (a, s') -> fact Q s'.
Definition Ends {A} (m : M (St IC) A) (Q : DML_VIRTUAL_IFACE -> Prop) : Prop :=
  forall s a s', m s = Some (a, s') -> fact Q s'.

Lemma leads_bind {A B} P R Q (m : M (St IC) A) (k : A -> M (St IC) B) :
  Leads P m R -> (forall a, Leads R (k a) Q) -> Leads P (bind m k) Q.
Proof.
  intros Hm Hk s a s' HP E. unfold bind in E. destruct (m s) as [[x s1]|] eqn:E1; [|done].
  eapply Hk; [by eapply Hm | done].
Qed.
Lemma leads_weaken {A} P P' Q Q' (m : M (St IC) A) :
  Leads P m Q -> (forall v, P' v -> P v) -> (forall v, Q v -> Q' v) -> Leads P' m Q'.
Proof. intros Hm HP HQ s a s' (v & Hv & Hp) E. destruct (Hm s a s') as (w & ? & ?); [by exists v; auto | done | exists w; auto]. Qed.
Lemma leads_ret {A} P (a : A) : Leads P (ret a) P.
Proof. intros s a' s' HP [= <- <-]. done. Qed.
Lemma leads_ends {A} P Q (m : M (St IC) A) : Ends m Q -> Leads P m Q.
Proof. intros Hm s a s' _ E. by eapply Hm. Qed.
Lemma leads_when P Q c (m : M (St IC) unit) :
  (c = true -> Leads P m Q) -> (c = false -> forall v, P v -> Q v) -> Leads P (when c m) Q.
Proof.
  intros Hm Hn. destruct c; [by apply Hm|]. intros s a s' (v & Hv & HP) [= <- <-]. exists v. auto.
Qed.
Lemma leads_upd (P Q : DML_VIRTUAL_IFACE -> Prop) f : (forall v, P v -> Q (f v)) -> Leads P (upd_vif p f) Q.
Proof.
  intros Hf s a s' (v & Hv & HP) E. rewrite upd_vif_run, Hv in E. injection E as _ <-.
  exists (f v). rewrite vif_at_set, decide_True, Hv by done. auto.
Qed.
Lemma leads_keep {D A} (h : DML_VIRTUAL_IFACE -> D) (P : D -> Prop) (m : M (St IC) A) :
  Keeps (vif_view h) m -> Leads (fun v => P (h v)) m (fun v => P (h v)).
Proof.
  intros Hk s a s' (v & Hv & HP) E. apply Hk in E. apply (vif_view_at _ _ _ p) in E. rewrite Hv in E.
  destruct (vif_at p s') as [v'|] eqn:Ev; [|done]. exists v'. split; [done|]. apply (inj Some) in E. by rewrite E.
Qed.
Lemma leads_ifaces {A} P (m : M (St IC) A) : Keeps (fun s => ifaces s) m -> Leads P m P.
Proof. intros Hk. apply (leads_keep (fun v => v) P m). by apply fields_of_ifaces. Qed.
Lemma ends_bind {A B} Q (m : M (St IC) A) (k : A -> M (St IC) B) : (forall a, Ends (k a) Q) -> Ends (bind m k) Q.
Proof.
  intros Hk s a s' E. unfold bind in E. destruct (m s) as [[x s1]|]; [|done]. by eapply Hk.
Qed.
Lemma ends_then {A B} R Q (m : M (St IC) A) (k : A -> M (St IC) B) :
  Ends m R -> (forall a, Leads R (k a) Q) -> Ends (bind m k) Q.
Proof.
  intros Hm Hk s a s' E. unfold bind in E. destruct (m s) as [[x s1]|] eqn:E1; [|done].
  eapply Hk; [by eapply Hm | done].
Qed.
Lemma ends_get_vif {A} Q (k : DML_VIRTUAL_IFACE -> M (St IC) A) :
  (forall v, Leads (eq v) (k v) Q) -> Ends (bind (get_vif p) k) Q.
Proof.
  intros Hk s a s' E. unfold bind in E. rewrite get_vif_run in E. destruct (vif_at p s) as [v|] eqn:Ev; [|done].
  eapply (Hk v); [by exists v | exact E].
Qed.
Lemma leads_get_vif {A} P Q (k : DML_VIRTUAL_IFACE -> M (St IC) A) :
  (forall v, P v -> Leads (eq v) (k v) Q) -> Leads P (bind (get_vif p) k) Q.
Proof.
  intros Hk s a s' (v & Hv & HP) E. unfold bind in E. rewrite get_vif_run, Hv in E.
  eapply (Hk v); [done | by exists v | exact E].
Qed.
End Fact.

Section Down.
Context `{Platform} `{Build} `{MaptBuild} `{IfaceBuild}.

#[local] Hint Unfold WanMgr_Rbus_EventPublishHandler publish_change publish_if config_text telemetry config_dns
  Update_Current_ActiveDNS status_iface status_vif WanMgr_RdkBus_setWanIpInterfaceData WanMgr_RdkBus_SetParamValues
  WanMgr_RdkBus_GetParamValues WanManager_DoSystemAction WanManager_DoSystemActionWithStatus v_secure_system
  dhcpmgr_set WanMgr_UnSubscribeDhcpClientEvents syscfg_set_string : monad.
#[local] Abbreviation keeps_ifaces m := (Keeps (fun s : St IC => ifaces s) m).

(** What is published changes no interface. *)
Lemma ifaces_publish_status : keeps_ifaces publish_status.
Proof. unfold publish_status, WanMgr_Publish_WanStatus. keeps_tac. Qed.
Lemma ifaces_Update_Interface_Status : keeps_ifaces Update_Interface_Status.
Proof. unfold Update_Interface_Status. keeps_tac. Qed.
#[local] Hint Resolve ifaces_publish_status ifaces_Update_Interface_Status : keeps.
Lemma ifaces_vif_at (s s' : St IC) q : ifaces s' = ifaces s -> vif_at q s' = vif_at q s.
Proof. intros E. unfold vif_at. by rewrite E. Qed.
(** ** The clients of an interface that goes down *)

Definition clients (v : DML_VIRTUAL_IFACE) :=
  (ip_Dhcp4cStatus (v_IP v), ip_Dhcp6cStatus (v_IP v), ip_SelectedModeTimerStatus (v_IP v)).
Lemma clients_Update_Interface_Status : Keeps (vif_view clients) Update_Interface_Status.
Proof. apply fields_of_ifaces. auto with keeps. Qed.
Lemma clients_StopConnectivityCheck p : Keeps (vif_view clients) (WanMgr_StopConnectivityCheck p).
Proof.
  unfold WanMgr_StopConnectivityCheck, WanMgr_Configure_TAD_WCC, WanManager_StopIHC, WanMgr_IfaceSM_IHC_Init,
    WanManager_StopIpoeHealthCheckService.
  field_tac.
Qed.
Lemma clients_links_down i p : Keeps (vif_view clients) (links_down i p).
Proof.
  unfold links_down, WanManager_ConfigurePPPSession, ppp_lower_layer, WanMgr_RdkBus_ConfigureVlan, set_ppp, set_vlan.
  field_tac.
Qed.

Definition no_dhcp4 (v : DML_VIRTUAL_IFACE) : Prop := ip_Dhcp4cStatus (v_IP v) <> DHCPC_STARTED.
Definition no_dhcp6 (v : DML_VIRTUAL_IFACE) : Prop := ip_Dhcp6cStatus (v_IP v) <> DHCPC_STARTED.
(** Without the DHCP manager a client that is stopped is recorded as stopped,
    whatever the call answered. *)
Context (Hmgr : FEATURE_RDKB_DHCP_MANAGER = false).
Lemma stop_dhcp4 p r P : Leads p P (WanManager_StopDhcpv4Client p r) no_dhcp4.
Proof.
  apply leads_ends. unfold WanManager_StopDhcpv4Client. rewrite Hmgr. apply ends_get_vif. intros v.
  eapply leads_bind; [apply leads_ifaces; keeps_tac | intros ?]. eapply leads_bind; [apply leads_ifaces; keeps_tac | intros ?].
  eapply leads_bind; [apply (leads_upd _ _ no_dhcp4); intros ? _; done | intros ?]. apply leads_ret.
Qed.
Lemma stop_dhcp6 p r P : Leads p P (WanManager_StopDhcpv6Client p r) no_dhcp6.
Proof.
  apply leads_ends. unfold WanManager_StopDhcpv6Client. rewrite Hmgr. apply ends_get_vif. intros v.
  eapply leads_bind; [apply leads_ifaces; keeps_tac | intros ?]. eapply leads_bind; [apply leads_ifaces; keeps_tac | intros ?].
  eapply leads_bind; [apply (leads_upd _ _ no_dhcp6); intros ? _; done | intros ?]. apply leads_ret.
Qed.
Lemma stop_dhcp6_keeps_dhcp4 p r : Keeps (vif_view (fun v => ip_Dhcp4cStatus (v_IP v))) (WanManager_StopDhcpv6Client p r).
Proof. unfold WanManager_StopDhcpv6Client. rewrite Hmgr. field_tac. Qed.

(** The clients of both families are stopped when the addresses are down. *)
Definition stopped (v : DML_VIRTUAL_IFACE) : Prop := no_dhcp4 v /\ no_dhcp6 v.
Lemma leads_both {A} p P Q R (m : M (St IC) A) : Leads p P m Q -> Leads p P m R -> Leads p P m (fun v => Q v /\ R v).
Proof.
  intros HQ HR s a s' HP E. destruct (HQ s a s' HP E) as (v & Hv & Hq), (HR s a s' HP E) as (w & Hw & Hr).
  exists v. split; [done|]. split; [done|]. congruence.
Qed.
Lemma addresses_down_stopped i p : Ends p (addresses_down i p) stopped.
Proof.
  unfold addresses_down. do 6 (apply ends_bind; intros ?). apply ends_get_vif. intros v.
  eapply (leads_bind _ _ no_dhcp4).
  - apply leads_when; [intros _|intros Hc ? <-].
    + eapply leads_bind; [apply stop_dhcp4 | intros ?; apply leads_ret].
    + by apply bool_decide_eq_false in Hc.
  - intros _. apply leads_get_vif. intros w Hw. apply leads_when; [intros _|intros Hc ? <-].
    + eapply leads_bind; [|intros ?; apply leads_ret]. apply leads_both; [|apply stop_dhcp6].
      eapply leads_weaken; [eapply (leads_keep _ (fun v => ip_Dhcp4cStatus (v_IP v)) (fun x => x <> DHCPC_STARTED)), stop_dhcp6_keeps_dhcp4
        | by intros ? <- | done].
    + split; [exact Hw | by apply bool_decide_eq_false in Hc].
Qed.

(** The end of an interface: its clients stopped, its timer reset, and the links
    configured again if that was asked for. *)
Definition down_at (p : vif_ptr) (st' : eWanState_t) (s' : St IC) : Prop :=
  exists v, vif_at p s' = Some v /\ ip_Dhcp4cStatus (v_IP v) <> DHCPC_STARTED /\ ip_Dhcp6cStatus (v_IP v) <> DHCPC_STARTED
    /\ ip_SelectedModeTimerStatus (v_IP v) = NOTSTARTED
    /\ st' = (if refresh_pending v then WAN_STATE_REFRESHING_WAN else WAN_STATE_DECONFIGURING_WAN).
Lemma physical_interface_down_at i p s st' s' :
  wan_transition_physical_interface_down i p s = Some (st', s') -> down_at p st' s'.
Proof.
  unfold wan_transition_physical_interface_down. intros E. mrun E. apply addresses_down_stopped in E0 as Hf.
  set (Q := fun x : WANMGR_DHCPC_STATUS * WANMGR_DHCPC_STATUS * TIMER_STATUS =>
    (x.1.1 <> DHCPC_STARTED /\ x.1.2 <> DHCPC_STARTED) /\ x.2 = NOTSTARTED).
  mrun E. assert (fact p (fun v => Q (clients v)) s1) as Hf1.
  { eapply (leads_upd p stopped); [|exact Hf | exact E1]. intros v [Ha Hb]. split; [split; [exact Ha | exact Hb] | done]. }
  mrun E. apply (leads_keep p clients Q _ (clients_StopConnectivityCheck p) _ _ _ Hf1) in E2 as Hf2.
  mrun E. apply (leads_keep p clients Q _ (clients_links_down i p) _ _ _ Hf2) in E3 as Hf3.
  mrun E. apply (leads_keep p clients Q _ clients_Update_Interface_Status _ _ _ Hf3) in E4 as (v & Hv & [[Ha Hb] Ht]).
  unfold bind in E. rewrite get_vif_run, Hv in E. injection E as <- <-. exists v. done.
Qed.
End Down.

(** ** An interface that is switched off *)

Section Off.
Context `{Platform} `{Build} `{MaptBuild} `{IfaceBuild}.
Context (Hmgr : FEATURE_RDKB_DHCP_MANAGER = false).
Context (i j : nat) (en ven : bool) (sel : DML_IFACE_SELECTION) (base : DML_WAN_IFACE_PHY_STATUS).
#[local] Abbreviation M := (Prelude.M (St IC)).
#[local] Abbreviation p := (i, j).
(** The test [iface_off], of what it reads. *)
Definition off_of (en ven : bool) (sel : DML_IFACE_SELECTION) (base : DML_WAN_IFACE_PHY_STATUS) : bool :=
  negb en || negb (sel_Enable sel) || negb ven || (sel_Status sel ≟ WAN_IFACE_NOT_SELECTED)
  || (base ≠? WAN_IFACE_PHY_STATUS_UP).
Context (Hoff : off_of en ven sel base = true).
Definition off_at (s : St IC) : Prop :=
  ic_WanEnable (ctl s) = en
  /\ (exists I, ifaces s !! i = Some I /\ if_Selection I = sel /\ if_BaseInterfaceStatus I = base)
  /\ (exists v, vif_at p s = Some v /\ v_Enable v = ven).
(** From there [m] takes the interface down. *)
Definition Off (m : M eWanState_t) : Prop := forall s st' s', off_at s -> m s = Some (st', s') -> down_at p st' s'.

Lemma off_keep s s' : ism_view (fun x => x) s' = ism_view (fun x => x) s -> off_at s -> off_at s'.
Proof.
  intros Hv (Hc & (I & HI & Hs & Hb) & v & Hvif & Hen). split; [|split].
  - rewrite <- Hc. exact (f_equal (fun x => x.1.2.1.1.1.1.1.1) Hv).
  - assert (iface_kept (fun x => x) <$> ifaces s' = iface_kept (fun x => x) <$> ifaces s) as E
      by exact (f_equal (fun x => x.1.1.1.1) Hv).
    apply (f_equal (fun x => x !! i)) in E. rewrite !list_lookup_fmap, HI in E.
    destruct (ifaces s' !! i) as [I'|]; [|done]. exists I'. split; [done|]. simpl in E. apply (inj Some) in E.
    split; [rewrite <- Hs; exact (f_equal (fun x => if_Selection x.1) E) | rewrite <- Hb; exact (f_equal (fun x => if_BaseInterfaceStatus x.1) E)].
  - assert (v_Enable <$> vif_at p s' = v_Enable <$> vif_at p s) as E.
    { apply view_vif_at; [|done]. by exists (fun x => x.1.1.1.1.1.2.1.1.2). }
    rewrite Hvif in E. destruct (vif_at p s') as [v'|]; [|done]. exists v'. split; [done|].
    apply (inj Some) in E. congruence.
Qed.
Lemma off_bind {A} (m : M A) (k : A -> M eWanState_t) :
  Keeps (ism_view (fun x => x)) m -> (forall a, Off (k a)) -> Off (bind m k).
Proof.
  intros Hm Hk s st' s' Hs E. mrun E. eapply Hk; [|exact E]. eapply off_keep; [by eapply Hm | done].
Qed.
Lemma off_get_controller k : (forall c, ic_WanEnable c = en -> Off (k c)) -> Off (bind get_controller k).
Proof. intros Hk s st' s' Hs E. mrun E. injection E0 as <- <-. eapply Hk; [apply Hs | exact Hs | exact E]. Qed.
Lemma off_get_iface k :
  (forall I, if_Selection I = sel -> if_BaseInterfaceStatus I = base -> Off (k I)) -> Off (bind (get_iface i) k).
Proof.
  intros Hk s st' s' Hs E. pose proof Hs as (_ & (I & HI & Hsel & Hb) & _). unfold bind in E.
  rewrite get_iface_run, HI in E. by eapply (Hk I).
Qed.
Lemma off_get_vif k : (forall v, v_Enable v = ven -> Off (k v)) -> Off (bind (get_vif p) k).
Proof.
  intros Hk s st' s' Hs E. pose proof Hs as (_ & _ & v & Hv & Hen). unfold bind in E.
  rewrite get_vif_run, Hv in E. by eapply (Hk v).
Qed.
Lemma off_down : Off (wan_transition_physical_interface_down i p).
Proof. intros s st' s' _ E. by eapply physical_interface_down_at. Qed.
Lemma iface_off_of c I v :
  ic_WanEnable c = en -> if_Selection I = sel -> if_BaseInterfaceStatus I = base -> v_Enable v = ven -> iface_off c I v = true.
Proof. intros <- <- <- <-. exact Hoff. Qed.

Ltac off_tac := repeat first
  [ apply off_down
  | apply off_get_controller; intros ? ?
  | apply off_get_iface; intros ? ? ?
  | apply off_get_vif; intros ? ?
  | progress cbv beta zeta
  | rewrite (iface_off_of _ _ _ ltac:(eassumption) ltac:(eassumption) ltac:(eassumption) ltac:(eassumption)); cbn [orb]
  | apply off_bind; [solve [kv_tac] | intros ?] ].
Lemma off_wan_state_vlan_configuring : Off (wan_state_vlan_configuring i p).
Proof. unfold wan_state_vlan_configuring, off_or_expired. off_tac. Qed.
Lemma off_wan_state_ppp_configuring : Off (wan_state_ppp_configuring i p).
Proof. unfold wan_state_ppp_configuring, off_or_expired. off_tac. Qed.
Lemma off_wan_state_validating_wan : Off (wan_state_validating_wan i p).
Proof. unfold wan_state_validating_wan, off_or_expired. off_tac. Qed.
Lemma off_wan_state_obtaining_ip_addresses : Off (wan_state_obtaining_ip_addresses i p).
Proof. unfold wan_state_obtaining_ip_addresses, voice_stopped. off_tac. Qed.
Lemma off_wan_state_standby : Off (wan_state_standby i p).
Proof. unfold wan_state_standby. off_tac. Qed.
Lemma off_wan_state_ipv4_leased : Off (wan_state_ipv4_leased i p).
Proof. unfold wan_state_ipv4_leased, must_stop. off_tac. Qed.
Lemma off_wan_state_ipv6_leased : Off (wan_state_ipv6_leased i p).
Proof. unfold wan_state_ipv6_leased, must_stop. off_tac. Qed.
Lemma off_wan_state_dual_stack_active : Off (wan_state_dual_stack_active i p).
Proof. unfold wan_state_dual_stack_active, must_stop. off_tac. Qed.
Lemma off_wan_state_mapt_active : Off (wan_state_mapt_active i p).
Proof. unfold wan_state_mapt_active, must_stop. off_tac. Qed.
Lemma off_wan_state_refreshing_wan : Off (wan_state_refreshing_wan i p).
Proof. unfold wan_state_refreshing_wan. off_tac. Qed.

(** Every state but the last two. *)
Lemma off_ism_state st s o s' :
  st <> WAN_STATE_EXIT -> st <> WAN_STATE_DECONFIGURING_WAN -> (st = WAN_STATE_MAPT_ACTIVE -> FEATURE_MAPT = true) ->
  off_at s -> ism_state i p st s = Some (o, s') -> exists st', o = Some st' /\ down_at p st' s'.
Proof.
  intros Hx Hd Hm Hs.
  assert (forall m, Off m -> bind m (fun st' => ret (Some st')) s = Some (o, s') -> exists st', o = Some st' /\ down_at p st' s') as Hrun.
  { intros m Hm' E. mrun E. injection E as <- <-. eexists. split; [done | by eapply Hm']. }
  destruct st; try done; unfold ism_state; cbv zeta; try (apply Hrun).
  all: auto using off_wan_state_vlan_configuring, off_wan_state_ppp_configuring, off_wan_state_validating_wan,
    off_wan_state_obtaining_ip_addresses, off_wan_state_standby, off_wan_state_ipv4_leased, off_wan_state_ipv6_leased,
    off_wan_state_dual_stack_active, off_wan_state_refreshing_wan.
  rewrite Hm by done. apply Hrun, off_wan_state_mapt_active.
Qed.
End Off.
