(* ===== verification/IfacePass.v ===== *)
(** A pass of an interface state machine runs to its end, gives back the lock,
    and leaves what the next pass needs. *)

From S2P Require Export IfaceSafe.

#[local] Abbreviation IC := WanMgr_IfaceSM_Controller_t.
Section Pass.
Context `{Platform} `{Build} `{MaptBuild} `{IfaceBuild}.
Context (Hmem : memory_available) (Hdns : resolv_conf_readable) (Hmapt : FEATURE_MAPT = false).

(** The machine's interface, its virtual interface and its VLANs. *)
Lemma machine_ok_found s :
  machine_ok s = true -> exists I j v,
    u32 (ic_interfaceIdx (ctl s)) < nifaces s
    /\ ifaces s !! Z.to_nat (u32 (ic_interfaceIdx (ctl s))) = Some I
    /\ WanMgr_getVirtualIfaceById (if_VirtIfList I) (u32 (ic_VirIfIdx (ctl s))) = Some j
    /\ if_VirtIfList I !! j = Some v /\ vlan_listed v.
Proof.
  unfold machine_ok. cbv zeta. intros [Hlt Hl]%andb_prop.
  destruct (vlan_view s !! _) as [l|] eqn:El; [|done].
  unfold vlan_view in El. rewrite list_lookup_fmap in El.
  destruct (ifaces s !! _) as [I|] eqn:EI; [|done]. injection El as <-. simpl in Hl.
  exists I. assert (forall l, has_vlan (u32 (ic_VirIfIdx (ctl s))) (vlan_entry <$> l) = true ->
    exists j v, WanMgr_getVirtualIfaceById l (u32 (ic_VirIfIdx (ctl s))) = Some j /\ l !! j = Some v /\ vlan_listed v) as Hf.
  { clear. induction l as [|v l IH]; [done|]. unfold has_vlan. cbn [fmap list_fmap find]. simpl.
    destruct (v_VirIfIdx v =? _) eqn:E.
    - intros Hb. exists 0%nat, v. unfold WanMgr_getVirtualIfaceById. simpl. rewrite E. split_and!; [done..|].
      unfold vlan_listed. intros He. unfold vlan_entry in Hb. rewrite He in Hb.
      simpl in Hb. by destruct (vlan_InterfaceList _).
    - intros Hb. destruct (IH Hb) as (j & w & Hj & Hw & Hlst). exists (S j), w.
      unfold WanMgr_getVirtualIfaceById in *. simpl. rewrite E, Hj. done. }
  destruct (Hf _ Hl) as (j & v & Hj & Hv & Hlst). exists j, v. split_and!; [lia|done..].
Qed.

Section At.
Context (sh : Shape) (Hwf : wf_shape sh) (idx vid : Z).
#[local] Instance at_anchor : Anchor IC := machine_of idx vid.
#[local] Abbreviation safe m := (Safe (C := IC) sh (fun _ => True) m).

Lemma safe_ism_config : safe ism_config.
Proof.
  unfold ism_config. apply safe_with_config. safe_tac.
Qed.
Lemma keeps_vlan_config : Keeps (vlan_view (C := IC)) ism_config.
Proof. unfold ism_config. keeps_tac. Qed.

(** The resolution finds the interface and the virtual interface, and leaves
    the lock held. *)
Lemma vlan_view_listed (s s1 : St IC) i j I v J w :
  vlan_view s1 = vlan_view s -> ifaces s !! i = Some I -> if_VirtIfList I !! j = Some v -> vlan_listed v ->
  ifaces s1 !! i = Some J -> if_VirtIfList J !! j = Some w -> vlan_listed w.
Proof.
  intros Hvw HI Hv Hl HJ Hw. assert (vlan_entry <$> if_VirtIfList J = vlan_entry <$> if_VirtIfList I) as E.
  { apply (f_equal (fun x => x !! i)) in Hvw. unfold vlan_view in Hvw. rewrite !list_lookup_fmap, HI, HJ in Hvw.
    by injection Hvw. }
  apply (f_equal (fun x => x !! j)) in E. rewrite !list_lookup_fmap, Hv, Hw in E. injection E as E1 E2 E3.
  unfold vlan_listed in *. by rewrite E2, E3.
Qed.
(** The accesses of a pass are valid. *)
Lemma valid_lookup (s : St IC) i j :
  framed sh s -> valid_vif sh (i, j) -> exists I v, ifaces s !! i = Some I /\ if_VirtIfList I !! j = Some v.
Proof.
  intros [Hs _] (n & Hn & _ & Hk). rewrite <- Hs in Hn. simpl in *. rewrite list_lookup_fmap in Hn.
  unfold ifaces. destruct (w_pIface (db s) !! i) as [I|]; [|done]. injection Hn as <-.
  unfold vifs_of in Hk. simpl in Hk. rewrite length_fmap in Hk.
  destruct (lookup_lt_is_Some_2 _ _ Hk) as [v Hv]. by exists I, v.
Qed.

Lemma wp_ism_resolve Q s :
  framed sh s -> machine_ok s = true ->
  (forall j I v s', framed sh s' -> vlan_view s' = vlan_view s -> depth s' = S (depth s) ->
    machine_ok s' = true ->
    valid_iface sh (Z.to_nat (u32 idx)) -> valid_vif sh (Z.to_nat (u32 idx), j) ->
    ifaces s !! Z.to_nat (u32 idx) = Some I -> if_VirtIfList I !! j = Some v -> vlan_listed v ->
    Q (Z.to_nat (u32 idx), (Z.to_nat (u32 idx), j)) s') ->
  wp ism_resolve Q s.
Proof.
  intros [Hs [Ei Ek]] Hok HQ. destruct (machine_ok_found s Hok) as (I & j & v & Hlt & HI & Hj & Hv & Hl).
  rewrite Ei, Ek in *.
  assert (db_wf (db s)) as Hwfs by (unfold db_wf; by rewrite Hs).
  assert (iface_ok s (u32 idx) = true) as Hio by (apply iface_ok_in; [done | split; [apply u32_range | exact Hlt]]).
  assert (valid_iface sh (Z.to_nat (u32 idx))) as Hvi by (eapply iface_ok_valid; [done | done | apply u32_range | done]).
  unfold ism_resolve. apply wp_bind, wp_gets. rewrite Ei. apply wp_bind, wp_get_locked; [intros _|by rewrite Hio].
  apply wp_bind, wp_ret, wp_bind, wp_modify. unfold ism_vif.
  apply wp_bind, wp_bind, wp_gets. cbv beta.
  set (s2 := (locked s) <| ctl := _ |>). assert (ic_VirIfIdx (ctl s2) = vid) as -> by exact Ek.
  eapply wp_read; [by apply get_iface_read|].
  eapply wp_read; [by rewrite Hj|]. apply wp_ret, wp_ret.
  eapply HQ; try done.
  exists (vifs_of I). simpl. rewrite <- Hs. simpl. rewrite list_lookup_fmap. unfold ifaces in HI. rewrite HI.
  split; [done|]. split; [|unfold vifs_of; simpl; rewrite length_fmap; by eapply lookup_lt_Some].
  unfold valid_iface in Hvi. rewrite <- Hs in Hvi. simpl in Hvi. destruct Hvi as (n & Hn & Hw).
  rewrite list_lookup_fmap, HI in Hn. by injection Hn as <-.
Qed.

Context (Hnum : u32 idx < sh.1.1.1 -> exists l, sh.1.2 !! Z.to_nat (u32 idx) = Some l /\ u32 vid ∈ l.2).

Lemma ism_state_ends i p st : Returns (fun o : option eWanState_t => o = None -> st = WAN_STATE_EXIT \/ st = WAN_STATE_MAPT_ACTIVE)
  (ism_state i p st).
Proof.
  destruct st; simpl; rewrite ?Hmapt; apply returns_bind; intros ?; apply returns_ret; auto; done.
Qed.

(** The pass after the resolution, for the interface it found. *)
Lemma wp_ism_body st i j s :
  framed sh s -> valid_iface sh i -> valid_vif sh (i, j) ->
  (forall (s1 : St IC) I v, vlan_view s1 = vlan_view s -> ifaces s1 !! i = Some I -> if_VirtIfList I !! j = Some v ->
    vlan_listed v) ->
  wp (ism_process i (i, j) st)
    (fun o s' => framed sh s' /\ vlan_view s' = vlan_view s /\ depth s' = depth s
       /\ (o = None -> st = WAN_STATE_EXIT \/ st = WAN_STATE_MAPT_ACTIVE)) s.
Proof.
  intros Hs Hi Hp Hlst. unfold ism_process.
  apply wp_bind. eapply (safe_keeps sh _ vlan_view); [eapply safe_WanMgr_IfaceIpcMsg_handle; eassumption | | exact Hs |].
  { intros s1 a s2 E. eapply ism_view_vlan. exact (kv_WanMgr_IfaceIpcMsg_handle _ _ _ _ E). }
  intros _ s1 Hs1 Hd1 Hv1 _. apply wp_bind, wp_modify.
  apply wp_bind. eapply (safe_keeps sh (fun _ => True) vlan_view); [by apply safe_upd_vif | by apply vlan_view_upd_vif | exact Hs1 |].
  intros _ s2 Hs2 Hd2 Hv2 _. rewrite <- Hv1, <- Hd1.
  change (vlan_view s2 = vlan_view s1) in Hv2. change (depth s2 = depth s1) in Hd2. rewrite <- Hv2, <- Hd2.
  assert (Keeps vlan_view (ism_state i (i, j) st)) as Hk.
  { intros s3 a s4 E. eapply ism_view_vlan. exact (kv_ism_state _ _ _ _ _ _ E). }
  assert (wp (ism_state i (i, j) st) (fun _ s' => framed sh s' /\ depth s' = depth s2) s2) as HW.
  { destruct (decide (st = WAN_STATE_REFRESHING_WAN)) as [->|Hne].
    - destruct (valid_lookup s2 i j Hs2 Hp) as (I & v & HI & Hv). apply wp_bind.
      eapply wp_mono; [eapply wp_refreshing; try eassumption; eapply Hlst; [|exact HI|exact Hv]; congruence|].
      intros a s3 HQ. apply wp_ret. exact HQ.
    - eapply safe_wp; [eapply safe_ism_state; eassumption | exact Hs2 | done]. }
  apply (wp_keep _ _ _ _ Hk), (wp_returns _ _ _ _ (ism_state_ends i (i, j) st)) in HW.
  eapply wp_mono; [exact HW|]. intros o s3 (? & ? & ? & ?). done.
Qed.

Lemma wp_ism_iteration_at st s :
  framed sh s -> machine_ok s = true ->
  wp (ism_iteration st) (fun o s' => framed sh s' /\ vlan_view s' = vlan_view s /\ depth s' = depth s
    /\ (o = None -> st = WAN_STATE_EXIT \/ st = WAN_STATE_MAPT_ACTIVE)) s.
Proof.
  intros Hs Hok. unfold ism_iteration. apply wp_bind, wp_modify, wp_bind, wp_call. intros n.
  destruct (n <? 0); [by apply wp_ret|]. apply wp_bind.
  eapply (safe_keeps sh _ vlan_view); [apply safe_ism_config | apply keeps_vlan_config | exact Hs |].
  intros _ s1 Hs1 Hd1 Hv1 _. apply wp_bind.
  assert (machine_ok s1 = true) as Hok1.
  { rewrite <- Hok. unfold machine_ok, nifaces. destruct Hs as [<- [-> ->]], Hs1 as [Hsh1 [-> ->]].
    rewrite Hv1. cbv zeta. f_equal. f_equal. exact (f_equal (fun x => x.1.1.1) Hsh1). }
  apply wp_ism_resolve; [exact Hs1 | exact Hok1|].
  intros j I v s2 Hs2 Hv2 Hd2 _ Hi Hp HI Hv Hl. apply wp_bind.
  eapply wp_mono; [apply (wp_ism_body st); [exact Hs2 | exact Hi | exact Hp |]|].
  - intros s3 J w Hv3 HJ Hw. rewrite Hv2 in Hv3. by eapply (vlan_view_listed s1 s3).
  - intros o s3 (Hs3 & Hv3 & Hd3 & Ho). apply wp_bind. eapply wp_intro; [reflexivity|]. apply wp_ret.
    split; [exact Hs3|]. split; [change (vlan_view s3 = vlan_view s); rewrite Hv3, Hv2; exact Hv1|].
    split; [|done]. change (depth (unlocked s3) = depth s).
    assert (depth (unlocked s3) = pred (depth s3)) as -> by done. rewrite Hd3, Hd2, Hd1.
    change (pred (S (depth s)) = depth s). lia.
Qed.
End At.

(** A pass of the machine runs to its end, and leaves what the next one needs. *)
Lemma wp_ism_iteration st s :
  db_wf (db s) -> machine_ok s = true ->
  wp (ism_iteration st) (fun o s' => shape_of (db s') = shape_of (db s) /\ depth s' = depth s
    /\ machine_ok s' = true /\ (o = None -> st = WAN_STATE_EXIT \/ st = WAN_STATE_MAPT_ACTIVE)) s.
Proof.
  intros Hwf Hok.
  eapply wp_mono; [apply (wp_ism_iteration_at _ Hwf (ic_interfaceIdx (ctl s)) (ic_VirIfIdx (ctl s))); [|by split | done]|].
  - intros _. destruct (machine_ok_found s Hok) as (I & j & v & _ & HI & Hj & Hv & _).
    exists (vifs_of I). simpl. rewrite list_lookup_fmap. unfold ifaces in HI. rewrite HI. split; [done|].
    apply list_search_Some in Hj as [(w & Hw & Hn) _]. apply Z.eqb_eq in Hn. rewrite <- Hn.
    simpl. apply list_elem_of_fmap. exists w. split; [done | by eapply list_elem_of_lookup_2].
  - intros o s' ([Hsh [Ei Ek]] & Hv & Hd & Ho). split_and!; [done..| |done]. rewrite <- Hok.
    unfold machine_ok, nifaces. rewrite Ei, Ek, Hv. cbv zeta. f_equal. f_equal.
    exact (f_equal (fun x => x.1.1.1) Hsh).
Qed.
End Pass.
