(* ===== verification/MachineSystem.v ===== *)
(** The interface state machines among the other threads: the runs in which
    they are threads of their own are runs of the world of [System], and what
    holds there of every interleaving holds with them. *)

From S2P Require Export SystemProps IfacePass.

#[local] Abbreviation IC := WanMgr_IfaceSM_Controller_t.

(** * A pass is a step of another writer *)

Definition anon {C} (s : St C) : St unit := mk_St tt (db s) (sys s) (trace s).

Lemma outer_vifs I J : iface_outer I = iface_outer J -> vifs_of I = vifs_of J.
Proof.
  intros E. unfold vifs_of. f_equal; [|exact (f_equal snd E)].
  exact (f_equal (fun x => if_NoOfVirtIfs x.1) E).
Qed.
(** What only depends on the outer view of the interfaces. *)
Lemma outer_fmap {B} (f : DML_WAN_IFACE -> B) (l l' : list DML_WAN_IFACE) :
  (forall I J, iface_outer I = iface_outer J -> f I = f J) ->
  iface_outer <$> l = iface_outer <$> l' -> f <$> l = f <$> l'.
Proof.
  intros Hf E. apply list_eq. intros j. apply (f_equal (fun x => x !! j)) in E. revert E.
  rewrite !list_lookup_fmap. destruct (l !! j), (l' !! j); simpl; try done. intros E%(inj Some). f_equal.
  by apply Hf.
Qed.

Lemma outer_others {C} (s s' : St C) :
  ism_outer s' = ism_outer s -> depth s' = depth s -> bounded s -> others (anon s) (anon s').
Proof.
  intros Ho Hd Hb. pose proof (f_equal (fun x => x.1.1) Ho) as HI. pose proof (f_equal (fun x => x.1.2) Ho) as HG.
  pose proof (f_equal snd Ho) as HC. simpl in HI, HG, HC.
  assert (selected (anon s') = selected (anon s)) as Es.
  { unfold selected. change (groups (anon s')) with (groups s'). by rewrite HG. }
  assert (statuses (anon s') = statuses (anon s)) as Et.
  { apply outer_fmap; [|exact HI]. intros I J E. exact (f_equal (fun x => sel_Status (if_Selection x.1)) E). }
  split; [|split; [|split; [exact Hd|split]]].
  - exact (f_equal4 (fun a b c d => (a, b, c, d)) (f_equal fst HC) (f_equal snd HC)
      (outer_fmap vifs_of _ _ outer_vifs HI) (f_equal length HG)).
  - destruct Hb as [Hn Hb]. split; [|rewrite Es; exact Hb].
    unfold ngroups in *. assert (w_ulTotalNumbWanIfaceGroup (db s') = w_ulTotalNumbWanIfaceGroup (db s)) as Eg
      by exact (f_equal snd HC). simpl. by rewrite Eg.
  - unfold group_view. rewrite Es. f_equal. apply outer_fmap; [|exact HI].
    intros I J E. exact (f_equal (fun x => sel_Group (if_Selection x.1)) E).
  - intros i. by rewrite Et.
Qed.

(** * The world with the machines *)

Section Machines.
Context `{Platform} `{Build} `{MaptBuild} `{IfaceBuild}.

(** The machines that run, by interface and virtual interface: their state and
    their controller. *)
Definition Machines : Type := gmap (Z * Z) (eWanState_t * IC).
Definition machine_next (key : Z * Z) (o : option eWanState_t) (c : IC) (ms : Machines) : Machines :=
  match o with Some st => <[key := (st, c)]> ms | None => delete key ms end.

(** A step: of the other threads, the start of a machine, or a pass of one. *)
#[local] Unset Elimination Schemes.
Inductive machine_step : World * Machines -> World * Machines -> Prop :=
| step_world w w' ms : world_step w w' -> machine_step (w, ms) (w', ms)
| step_start w ms idx vid o s :
    ms !! (idx, vid) = None -> ism_start (seen_by (WanMgr_IfaceSM_Init idx vid) w) = Some (o, s) ->
    machine_step (w, ms) (after_env (anon s) w, machine_next (idx, vid) o (ctl s) ms)
| step_pass w ms key st c o s :
    ms !! key = Some (st, c) -> ism_iteration st (seen_by c w) = Some (o, s) ->
    machine_step (w, ms) (after_env (anon s) w, machine_next key o (ctl s) ms).
#[local] Set Elimination Schemes.

(** The worlds reached once the failover thread entered its loop, no machine
    running. *)
Definition machine_reach (d : WANMGR_DATA_ST) (w : World) (ms : Machines) : Prop :=
  exists (c0 : WanMgr_FailOver_Controller_t) y t st s,
    fo_start (mk_St c0 d y t) = Some (Some st, s) /\ rtc machine_step (booted st s, ∅) (w, ms).

(** Runs, computed. *)
Inductive move := move_world (f : World -> option World) | move_start (idx vid : Z) | move_pass (idx vid : Z).
Definition do_move (x : World * Machines) (m : move) : option (World * Machines) :=
  match m with
  | move_world f => f x.1 ≫= fun w => Some (w, x.2)
  | move_start idx vid =>
      match x.2 !! (idx, vid) with
      | Some _ => None
      | None => ism_start (seen_by (WanMgr_IfaceSM_Init idx vid) x.1) ≫= fun r =>
          Some (after_env (anon r.2) x.1, machine_next (idx, vid) r.1 (ctl r.2) x.2)
      end
  | move_pass idx vid =>
      x.2 !! (idx, vid) ≫= fun r =>
      ism_iteration r.1 (seen_by r.2 x.1) ≫= fun r' =>
      Some (after_env (anon r'.2) x.1, machine_next (idx, vid) r'.1 (ctl r'.2) x.2)
  end.
Definition run_moves (d : WANMGR_DATA_ST) (l : list move) : option (World * Machines) :=
  foldl (fun o m => o ≫= fun x => do_move x m) (boot d ≫= fun w => Some (w, ∅)) l.
Definition sound_move (m : move) : Prop :=
  match m with move_world f => forall w w', f w = Some w' -> world_step w w' | _ => True end.
Lemma run_moves_none l : foldl (fun (o : option (World * Machines)) m => o ≫= fun x => do_move x m) None l = None.
Proof. by induction l. Qed.
Lemma do_move_step x m x' : sound_move m -> do_move x m = Some x' -> machine_step x x'.
Proof.
  destruct x as [w ms], m as [f|idx vid|idx vid]; simpl; intros Hm E.
  - destruct (f w) as [w'|] eqn:Ef; [|done]. injection E as <-. by apply step_world, Hm.
  - destruct (ms !! _) eqn:El; [done|]. destruct (ism_start _) as [[o s]|] eqn:Es; [|done].
    injection E as <-. by eapply step_start.
  - destruct (ms !! _) as [[st c]|] eqn:El; [|done]. simpl in E.
    destruct (ism_iteration _ _) as [[o s]|] eqn:Es; [|done]. injection E as <-. by eapply step_pass.
Qed.
Lemma run_moves_reach d l w ms :
  Forall sound_move l -> run_moves d l = Some (w, ms) -> machine_reach d w ms.
Proof.
  unfold run_moves. destruct (boot d) as [w0|] eqn:Eb; simpl.
  - intros Hl. assert (forall x, rtc machine_step (w0, ∅) x -> foldl (fun o m => o ≫= fun x => do_move x m) (Some x) l = Some (w, ms) ->
      machine_reach d w ms) as Hsim.
    { induction Hl as [|m l Hm _ IH]; intros x Hx E; simpl in E.
      - injection E as ->. unfold boot in Eb. destruct (fo_start _) as [[[st|] s]|] eqn:E0; [|done..].
        injection Eb as <-. by exists sample_fo, ∅, [], st, s.
      - destruct (do_move x m) as [x'|] eqn:Em; [|by rewrite run_moves_none in E].
        apply (IH x'); [|exact E]. eapply rtc_r; [exact Hx | by eapply do_move_step]. }
    by apply Hsim.
  - intros _ E. by rewrite run_moves_none in E.
Qed.

Lemma others_step {C} (c : C) (s : St C) w :
  world_inv w -> ism_outer s = ism_outer (seen_by c w) -> depth s = depth (seen_by c w) ->
  world_step w (after_env (anon s) w).
Proof.
  intros Hw Ho Hd. apply step_other. apply (outer_others (seen_by c w) s Ho Hd).
  exact (proj1 (proj2 (wi_fo _ Hw))).
Qed.
Lemma machine_step_world w ms w' ms' :
  world_inv w -> machine_step (w, ms) (w', ms') -> world_step w w'.
Proof.
  intros Hw Hst. inversion Hst as [? ? ? Hs | ? ? ? ? ? s _ E | ? ? ? ? ? ? s _ E]; subst; [exact Hs | |].
  - apply start_keeps in E as [Ho Hd]. by eapply others_step.
  - apply pass_keeps in E as [Ho Hd]. by eapply others_step.
Qed.

Lemma machine_reach_world d w ms :
  bootable d -> machine_reach d w ms -> world_reach d w.
Proof.
  intros Hd (c0 & y & t & st & s & E & Hr). exists c0, y, t, st, s. split; [exact E|].
  assert (forall x y : World * Machines, rtc machine_step x y -> world_reach d x.1 -> rtc world_step x.1 y.1) as Hsim.
  { clear Hr. intros x z Hr. induction Hr as [x|[w1 m1] [w2 m2] [w3 m3] Hst _ IH]; [done|]. intros Hx. simpl in *.
    assert (world_step w1 w2) as Hs by (eapply machine_step_world; [by eapply world_reach_inv | exact Hst]).
    econstructor; [exact Hs|]. apply IH. destruct Hx as (c1 & y1 & t1 & st1 & s1 & E1 & Hr1).
    exists c1, y1, t1, st1, s1. split; [exact E1 | by eapply rtc_r]. }
  apply (Hsim _ _ Hr). by exists c0, y, t, st, s.
Qed.

(** C4: every run of the failover thread, the threads of the parallel-scan policies
    (not of the auto policy), the machines of the interfaces and the other writers
    within their contract, started on a bootable data base and interleaved pass by
    pass, is a run of the world in which the machines are only known to keep the
    selections and the locks; so at most one interface is active in it, and every
    further step gives back the mutex it took, unless its last call is the start of a
    state machine that fails. *)
Theorem machines_refine_world d w ms :
  bootable d -> machine_reach d w ms ->
  world_reach d w
  /\ (forall w' ms', machine_step (w, ms) (w', ms') -> gives_back (seen_by tt w) (seen_by tt w'))
  /\ forall i j, Z.of_nat i < nifaces (seen_by tt w) -> Z.of_nat j < nifaces (seen_by tt w) ->
       statuses (seen_by tt w) !! i = Some WAN_IFACE_ACTIVE ->
       statuses (seen_by tt w) !! j = Some WAN_IFACE_ACTIVE -> i = j.
Proof.
  intros Hd Hr. pose proof (machine_reach_world _ _ _ Hd Hr) as Hw. split; [exact Hw|].
  pose proof (world_reach_inv _ _ Hd Hw) as Hi. split.
  { intros w' ms' Hst. eapply world_step_lock; [exact Hi | by eapply machine_step_world]. }
  intros i j Hin Hjn Ha Hb. destruct (active_owner w i Hi Hin Ha) as (_ & Hsi & _).
  destruct (active_owner w j Hi Hjn Hb) as (_ & Hsj & _).
  assert (Z.of_nat i + 1 = Z.of_nat j + 1) by congruence. lia.
Qed.

(** C5: in every such run each machine whose interface is configured
    ([machine_ok]) can make its pass: it ends without dereferencing [NULL], leaves
    the mutex as it found it, leaves the next pass possible, and ends the thread only
    from the exit state or from a state of another build.  This is for the builds
    without MAP-T, where the three allocations whose result the code does not check
    succeed and [resolv.conf] has its documented format. *)
Theorem machines_progress d w ms key st c :
  memory_available -> resolv_conf_readable -> FEATURE_MAPT = false -> bootable d ->
  machine_reach d w ms -> ms !! key = Some (st, c) -> machine_ok (seen_by c w) = true ->
  exists o s, ism_iteration st (seen_by c w) = Some (o, s) /\ w_gDataMutex (db s) = w_gDataMutex (wd_db w)
    /\ machine_ok s = true
    /\ machine_reach d (after_env (anon s) w) (machine_next key o (ctl s) ms)
    /\ (o = None -> st = WAN_STATE_EXIT \/ st = WAN_STATE_MAPT_ACTIVE).
Proof.
  intros Hmem Hdns Hmapt Hd Hr Hk Hok. pose proof (machine_reach_world _ _ _ Hd Hr) as Hw.
  pose proof (world_reach_inv _ _ Hd Hw) as Hi.
  assert (db_wf (wd_db w)) as Hwf by exact (proj1 (wi_fo _ Hi)).
  pose proof (wp_ism_iteration Hmem Hdns Hmapt st (seen_by c w) Hwf Hok) as HW.
  apply wp_run in HW as (o & s & E & Hsh & Hdep & Hok' & Ho). exists o, s. split; [exact E|].
  split; [exact Hdep|]. split; [exact Hok'|].
  split; [|exact Ho]. destruct Hr as (c0 & y & t & st0 & s0 & E0 & Hr). exists c0, y, t, st0, s0. split; [exact E0|].
  eapply rtc_r; [exact Hr | by eapply step_pass].
Qed.
End Machines.

(** * Witnesses *)

(** A build without MAP-T, on which a platform where every call succeeds runs
    the threads. *)
#[local] Instance the_build : Build :=
  {| FEATURE_RDKB_CONFIGURABLE_WAN_INTERFACE := true; FEATURE_RDKB_DHCP_MANAGER := false; FEATURE_MAPT := false;
     FEATURE_IPOE_HEALTH_CHECK := false; FEATURE_RDKB_LED_MANAGER := true; XB6_CBR2_PRODUCT_REQ := false;
     RDKB_GLOBAL_PRODUCT_REQ := false; MESH_IFNAME := "br403" |}.
#[local] Instance the_mapt : MaptBuild := {| MAPT_NAT46_FTP_ACTIVE_MODE := false; COSA_BCM_ARM_XB6 := false |}.
#[local] Instance the_iface : IfaceBuild :=
  {| PLATFORM_RASPBERRYPI := false; HUB4_SR213_PRODUCT_REQ := false; CBR2_PRODUCT_REQ := false; RBUS_WAN_IP := false;
     RBUS_BUILD_FLAG_ENABLE := true; WAN_MANAGER_UNIFICATION_ENABLED := true; DYNAMIC_CONFIGURE_PPP_LOWERLAYER := false;
     LAN_MGR_SUPPORT := false; DHCPV6_PREFIX_DELEGATION := false; SNMPV3_ENABLED := false;
     ENABLE_FEATURE_TELEMETRY2_0 := false; COSA_DML_DHCPV6_SERVER_IFNAME := "brlan0";
     COSA_DML_DHCPV6S_ADDR_SYSEVENT_NAME := "tr_brlan0_dhcpv6_server"; IPOE_HEALTH_CHECK_V4_STATUS := "ipoe_v4";
     IPOE_HEALTH_CHECK_V6_STATUS := "ipoe_v6"; IPOE_STATUS_FAILED := "failed" |}.
#[local] Instance the_platform : Platform := sample_platform 100.

Lemma sample_memory : memory_available.
Proof. intros h. done. Qed.
Lemma sample_resolv : resolv_conf_readable.
Proof. intros h. vm_compute. constructor. Qed.

(** The policy of group 1 selects its first interface, the failover thread
    activates it, and its machine starts and makes a pass. *)
Definition sample_moves : list move :=
  [move_world (do_start 1); move_world (do_pass 1); move_world (do_pass 1); move_world do_fo; move_start 0 0;
   move_pass 0 0].
Lemma sample_moves_sound : Forall sound_move sample_moves.
Proof.
  unfold sample_moves. repeat apply Forall_cons_2; [.. | exact I | exact I | apply Forall_nil_2]; intros w w';
    [apply do_start_step | apply do_pass_step | apply do_pass_step | apply do_fo_step].
Qed.

Lemma machines_refine_world_witness :
  exists w ms, run_moves sample_world_db sample_moves = Some (w, ms)
    /\ statuses (seen_by tt w) !! 0%nat = Some WAN_IFACE_ACTIVE
    /\ fst <$> (ms !! (0, 0)) = Some WAN_STATE_PPP_CONFIGURING
    /\ world_reach sample_world_db w
    /\ (forall w' ms', machine_step (w, ms) (w', ms') -> gives_back (seen_by tt w) (seen_by tt w')).
Proof.
  assert ((fun x => (statuses (seen_by tt x.1) !! 0%nat, fst <$> (x.2 !! (0, 0)))) <$> run_moves sample_world_db sample_moves
    = Some (Some WAN_IFACE_ACTIVE, Some WAN_STATE_PPP_CONFIGURING)) as Ev by by vm_compute.
  destruct (run_moves sample_world_db sample_moves) as [[w ms]|] eqn:E; [|done]. injection Ev as Ha Hm.
  exists w, ms. split; [done|]. split; [exact Ha|]. split; [exact Hm|].
  destruct (machines_refine_world sample_world_db w ms) as (Hr & Hl & _);
    [apply sample_world_bootable | exact (run_moves_reach _ _ _ _ sample_moves_sound E) |].
  exact (conj Hr Hl).
Defined.

Lemma machines_progress_witness :
  exists w ms c, run_moves sample_world_db sample_moves = Some (w, ms)
    /\ ms !! (0, 0) = Some (WAN_STATE_PPP_CONFIGURING, c)
    /\ exists o s, ism_iteration WAN_STATE_PPP_CONFIGURING (seen_by c w) = Some (o, s) /\ w_gDataMutex (db s) = w_gDataMutex (wd_db w)
      /\ machine_ok s = true
      /\ machine_reach sample_world_db (after_env (anon s) w) (machine_next (0, 0) o (ctl s) ms)
      /\ (o = None -> WAN_STATE_PPP_CONFIGURING = WAN_STATE_EXIT \/ WAN_STATE_PPP_CONFIGURING = WAN_STATE_MAPT_ACTIVE).
Proof.
  assert ((fun x => (fun y => (y.1, machine_ok (seen_by y.2 x.1))) <$> (x.2 !! (0, 0))) <$> run_moves sample_world_db sample_moves
    = Some (Some (WAN_STATE_PPP_CONFIGURING, true))) as Ev by by vm_compute.
  destruct (run_moves sample_world_db sample_moves) as [[w ms]|] eqn:E; [|done].
  apply (inj Some) in Ev. cbv beta in Ev. change ((w, ms).1) with w in Ev. change ((w, ms).2) with ms in Ev.
  destruct (ms !! (0, 0)) as [[st c]|] eqn:El; [|done]. injection Ev as -> Hok.
  exists w, ms, c. split; [done|]. split; [done|].
  apply (machines_progress sample_world_db w ms (0, 0) WAN_STATE_PPP_CONFIGURING c);
    [exact sample_memory | exact sample_resolv | done | apply sample_world_bootable
    | exact (run_moves_reach _ _ _ _ sample_moves_sound E) | exact El | exact Hok].
Defined.
