(* ===== verification/HandlerProps.v ===== *)
(** The data model among the other threads, and what its settings do. *)

From S2P Require Export HandlerSafe BootProps MachineSystem.

(** * Requests as steps of the program *)

Section System.
Context `{Platform} `{Build} `{MaptBuild} `{HA : AutoBuild} `{HI : IfaceBuild} `{DmBuild}.

Lemma view_selected {C D} (s : St C) (s' : St D) : dm_view s' = dm_view s -> selected s' = selected s.
Proof.
  intros E. assert (group_keys <$> groups s' = group_keys <$> groups s) as Eg by exact (f_equal (fun x => x.1.2) E).
  assert (forall l : list WANMGR_IFACE_GROUP, g_SelectedInterface <$> l = snd <$> (group_keys <$> l)) as Hl
    by (intros l; by rewrite <- list_fmap_compose).
  unfold selected. by rewrite !Hl, Eg.
Qed.
Lemma view_ifaces {C D B} (f : DML_WAN_IFACE -> B) g (s : St C) (s' : St D) :
  (forall I, f I = g (iface_keys I)) -> dm_view s' = dm_view s -> f <$> ifaces s' = f <$> ifaces s.
Proof.
  intros Hf E. assert (iface_keys <$> ifaces s' = iface_keys <$> ifaces s) as Ei by exact (f_equal (fun x => x.1.1) E).
  assert (forall l : list DML_WAN_IFACE, f <$> l = g <$> (iface_keys <$> l)) as Hl
    by (intros l; rewrite <- list_fmap_compose; by apply list_fmap_ext).
  by rewrite !Hl, Ei.
Qed.
Lemma view_others (s s' : St unit) : dm_view s' = dm_view s -> depth s' = depth s -> bounded s -> others s s'.
Proof.
  intros Hv Hd [Hn Hb]. pose proof (view_selected s s' Hv) as Es.
  assert (ifgroups s' = ifgroups s) as Eg by (apply (view_ifaces _ (fun k => k.2.2)); [done | exact Hv]).
  assert (statuses s' = statuses s) as Et by (apply (view_ifaces _ (fun k => k.2.1)); [done | exact Hv]).
  split; [by apply shape_view|]. split; [|split; [exact Hd|split]].
  - split; [|rewrite Es; exact Hb]. assert (ngroups s' = ngroups s) as En by exact (f_equal (fun x => x.2.2) Hv).
    by rewrite En.
  - unfold group_view. by rewrite Es, Eg.
  - intros i. by rewrite Et.
Qed.

(** C6: in every run of the threads of C4 a request of the data model that is sound
    ([dm_sound]: its rows are there, and it is not a new value of Selection.Group,
    which moves an interface to another group and is the one request that is not a
    step of these runs, see [group_setter]) runs to its end, and is a step of the
    run: the mutex is as it was, the rows can still be found by their numbers,
    nothing is selected or made active, and what is proved of the runs goes on to
    hold.  So such requests may come between any two passes. *)
Theorem request_is_step d w ms r :
  bootable d -> machine_reach d w ms -> keyed (seen_by tt w) -> dm_sound (seen_by tt w) r ->
  exists s, dm_run r (seen_by tt w) = Some (tt, s)
    /\ machine_reach d (after_env s w) ms /\ w_gDataMutex (db s) = w_gDataMutex (wd_db w) /\ keyed s
    /\ selected s = selected (seen_by tt w) /\ statuses s = statuses (seen_by tt w).
Proof.
  intros Hd Hr Hk Hs. pose proof (machine_reach_world _ _ _ Hd Hr) as Hw.
  pose proof (world_reach_inv _ _ Hd Hw) as Hi.
  assert (db_wf (wd_db w)) as Hwf by exact (proj1 (wi_fo _ Hi)).
  assert (bounded (seen_by tt w)) as Hb by exact (proj1 (proj2 (wi_fo _ Hi))).
  pose proof (dm_handled (seen_by tt w) r Hwf Hk Hs) as HW. apply wp_run in HW as ([] & s & E & Hv & Hdep).
  exists s. split; [exact E|]. split; [|split; [|split; [|split]]].
  - destruct Hr as (c0 & y & t & st0 & s0 & E0 & Hr). exists c0, y, t, st0, s0. split; [exact E0|].
    eapply rtc_r; [exact Hr|]. apply step_world, step_other. by apply view_others.
  - exact Hdep.
  - by eapply keyed_view.
  - by apply view_selected.
  - by apply (view_ifaces _ (fun k => k.2.1)).
Qed.
End System.

(** * What the settings do *)

Section Settings.
Context `{Platform} `{Build} `{HA : AutoBuild} `{HI : IfaceBuild} `{DmBuild} {C : Type}.
Implicit Type s : St C.

(** ** Priorities *)

(** The priorities of the configured interfaces. *)
Definition priorities s : list Z := (fun I => sel_Priority (if_Selection I)) <$> take (Z.to_nat (nifaces s)) (ifaces s).
Definition has_priority s (i : nat) (x : Z) : Prop := exists j, j <> i /\ priorities s !! j = Some x.

Lemma priorities_lookup s j I : Z.of_nat j < nifaces s -> ifaces s !! j = Some I ->
  priorities s !! j = Some (sel_Priority (if_Selection I)).
Proof. intros Hj HI0. unfold priorities. rewrite list_lookup_fmap, lookup_take_lt, HI0 by lia. done. Qed.
Lemma priorities_bound s j x : priorities s !! j = Some x -> Z.of_nat j < nifaces s.
Proof. unfold priorities. intros Hj%lookup_lt_Some. rewrite length_fmap, length_take in Hj. lia. Qed.

Lemma wp_check_priority s i x :
  db_wf (db s) -> entry_in s i -> nifaces s < 2 ^ 31 ->
  wp (WanManager_CheckGivenPriorityExists (s32 (Z.of_nat i)) (nifaces s) x)
    (fun r s' => s' = s /\ r.1 = ANSC_STATUS_SUCCESS /\ (r.2 = true <-> has_priority s i x)) s.
Proof.
  intros Hwf Hi Hn. unfold entry_in in Hi. unfold WanManager_CheckGivenPriorityExists. rewrite s32_small by lia.
  apply wp_if; intros Hle; [lia|]. apply wp_bind.
  apply (wp_for_break_range (fun k s' => s' = s /\ forall j, Z.of_nat j < k -> j <> i -> priorities s !! j <> Some x)).
  - split; [done|]. lia.
  - intros k s' Hk [-> Hbefore]. assert (iface_ok s k = true) as Hok by (by apply iface_ok_in).
    destruct (iface_ok_lookup s k Hwf (proj1 Hk) Hok) as (I & _ & _ & HI0 & _).
    apply wp_with_iface; [intros _ | by rewrite Hok]. apply wp_bind. eapply wp_get_iface; [exact HI0|]. apply wp_ret.
    rewrite unlocked_locked. pose proof (priorities_lookup s (Z.to_nat k) I ltac:(lia) HI0) as Hp.
    destruct (Z.eqb_spec k (Z.of_nat i)) as [->|Hne]; [|destruct (Z.eqb_spec (sel_Priority (if_Selection I)) x) as [<-|Hx]].
    + split; [done|]. intros j Hj Hji. apply Hbefore; lia.
    + apply wp_ret. split; [done|]. split; [done|]. split; [intros _|done]. exists (Z.to_nat k). split; [lia | exact Hp].
    + split; [done|]. intros j Hj Hji. destruct (decide (Z.of_nat j = k)) as [<-|]; [|apply Hbefore; lia].
      rewrite Nat2Z.id in Hp. rewrite Hp. congruence.
  - intros s' [-> Hall]. apply wp_ret. split; [done|]. split; [done|]. split; [done|]. intros (j & Hj & Hjx). exfalso.
    apply (Hall j); [apply priorities_bound in Hjx; lia | done | done].
Qed.

(** The interface with another priority. *)
Definition set_priority (x : Z) (I : DML_WAN_IFACE) : DML_WAN_IFACE := I <| if_Selection; sel_Priority := x |>.
Definition with_priority s (i : nat) (x : Z) : St C :=
  s <| db ::= fun d => d <| w_pIface := alter (set_priority x) i (w_pIface d) |> |>.
Lemma with_priority_priorities s i x :
  entry_in s i -> priorities (with_priority s i x) = <[i := x]> (priorities s).
Proof.
  intros Hi. unfold entry_in in Hi. unfold priorities, with_priority. change (nifaces (s <| db ::= _ |>)) with (nifaces s).
  unfold ifaces. rsimpl. apply list_eq. intros j. destruct (decide (j = i)) as [->|Hne].
  - destruct (decide (i < length (w_pIface (db s)))%nat) as [Hlt|Hge].
    + rewrite list_lookup_insert_eq by (rewrite length_fmap, length_take; lia).
      rewrite list_lookup_fmap, lookup_take_lt, list_lookup_alter_eq by lia.
      apply lookup_lt_is_Some_2 in Hlt as [I ->]. done.
    + rewrite !lookup_ge_None_2; [done | rewrite length_insert | ]; rewrite length_fmap, length_take, ?length_alter; lia.
  - rewrite list_lookup_insert_ne by done. rewrite !list_lookup_fmap, !lookup_take.
    by rewrite list_lookup_alter_ne by done.
Qed.
Lemma insert_NoDup (l : list Z) i x : NoDup l -> (forall j, j <> i -> l !! j <> Some x) -> NoDup (<[i := x]> l).
Proof.
  intros Hl Hx. apply NoDup_alt. intros j k y Hj Hk.
  apply list_lookup_insert_Some in Hj as [(-> & <- & _)|[Hj Ej]];
    apply list_lookup_insert_Some in Hk as [(<- & E & _)|[Hk Ek]]; try done.
  - exfalso. apply (Hx k); [by intros ->|]. by rewrite Ek.
  - exfalso. subst y. by apply (Hx j).
  - by eapply (NoDup_lookup l).
Qed.

(** C31: the priorities of the interfaces stay distinct.  A request to set the
    priority of an interface is granted exactly when no other interface, of any
    group, has that priority; granted, it changes that priority and nothing else,
    refused, it changes nothing. *)
Theorem priority_setter s i x :
  db_wf (db s) -> keyed s -> entry_in s i -> nifaces s < 2 ^ 31 ->
  exists b s', WanIfSelectionCfg_SetParamIntValue (Some i) "Priority" x s = Some (b, s')
    /\ (b = true <-> ~ has_priority s i x) /\ s' = (if b then with_priority s i x else s)
    /\ priorities s' = (if b then <[i := x]> (priorities s) else priorities s)
    /\ (NoDup (priorities s) -> NoDup (priorities s')).
Proof.
  intros Hwf Hk Hi Hn. destruct (entry_lookup s i Hwf Hi) as [I HI0]. pose proof (proj1 Hk i I Hi HI0) as [Ex _].
  assert (wp (WanIfSelectionCfg_SetParamIntValue (Some i) "Priority" x)
    (fun b s' => (b = true <-> ~ has_priority s i x) /\ s' = (if b then with_priority s i x else s)) s) as HW.
  { unfold WanIfSelectionCfg_SetParamIntValue. apply wp_bind. eapply wp_intro.
    { rewrite with_entry_eq by done. unfold guarded, bind. rewrite get_iface_run. change (ifaces (locked s)) with (ifaces s).
      rewrite HI0. reflexivity. }
    rewrite unlocked_locked, Ex. apply wp_if; [intros _ | done]. apply wp_bind, wp_get_total, wp_bind.
    eapply wp_mono; [by apply wp_check_priority|]. intros [st b] s1 (-> & Est & Hb). simpl in Est, Hb |- *. subst st.
    destruct b; [apply wp_ret; split; [|done]; split; [done | intros Hno; exfalso; by apply Hno, Hb]|].
    match goal with |- wp _ ?Q s => change (wp (with_entry false (Some i) (fun _ => set_true (upd_iface i (set_priority x)))) Q s) end.
    unfold wp at 1. rewrite with_entry_eq by done.
    assert (guarded true false (set_true (upd_iface i (set_priority x))) s
      = Some (true, with_priority s i x)) as ->.
    { unfold guarded, set_true, bind. rewrite upd_iface_run. change (ifaces (locked s)) with (ifaces s). rewrite HI0.
      cbn [fmap option_fmap option_map ret]. change (Some (true, unlocked (locked (with_priority s i x))) = Some (true, with_priority s i x)).
      by rewrite unlocked_locked. }
    split; [|done]. split; [intros _ Hh; by apply Hb in Hh | done]. }
  apply wp_run in HW as (b & s' & E & Hb & Es). exists b, s'. split; [exact E|]. split; [exact Hb|]. split; [exact Es|].
  subst s'. destruct b; [|done]. rewrite with_priority_priorities by done. split; [done|]. intros Hd. apply insert_NoDup; [done|].
  intros j Hj Hjx. apply (proj1 Hb eq_refl). by exists j.
Qed.

(** ** Groups *)

(** The group of interface [i] in its data. *)
Definition regrouped (x : Z) (I : DML_WAN_IFACE) : DML_WAN_IFACE := I <| if_Selection; sel_Group := x |>.
Definition joined (i : Z) (G : WANMGR_IFACE_GROUP) : WANMGR_IFACE_GROUP :=
  G <| g_ConfigChanged := true |> <| g_InterfaceAvailable := u32 (Z.lor (g_InterfaceAvailable G) (Z.shiftl 1 i)) |>.
Definition left_by (i : Z) (G : WANMGR_IFACE_GROUP) : WANMGR_IFACE_GROUP :=
  G <| g_ConfigChanged := true |>
    <| g_InterfaceAvailable := u32 (Z.land (g_InterfaceAvailable G) (Z.lnot (Z.shiftl 1 i))) |>.
Definition at_group s (n : Z) f : St C :=
  if (0 <? n) && (n <=? ngroups s) then s <| db ::= fun d => d <| w_Group := alter f (Z.to_nat (n - 1)) (w_Group d) |> |> else s.

Definition regroup s (i : nat) (old x : Z) : St C :=
  (at_group (at_group s x (joined (Z.of_nat i))) old (left_by (Z.of_nat i)))
    <| db ::= fun d => d <| w_pIface := alter (regrouped x) i (w_pIface d) |> |>.

(** The set of available interfaces of every group is that of the interfaces
    configured for it. *)
Definition availability s : Prop := forall i I g G,
  entry_in s i -> ifaces s !! (i : nat) = Some I -> group_in s g -> groups s !! g = Some G ->
  Z.testbit (g_InterfaceAvailable G) (Z.of_nat i) = (sel_Group (if_Selection I) =? Z.of_nat g + 1).

Lemma wp_with_group_number s n f (Q : unit -> St C -> Prop) :
  db_wf (db s) -> bounded s -> 0 <= n < 2 ^ 32 ->
  Q tt (at_group s n f) -> wp (with_group tt (u32 (n - 1)) (fun g => upd_group g f)) Q s.
Proof.
  intros Hwf Hb Hn HQ. unfold at_group in HQ. apply wp_with_group.
  - intros Hok. destruct (Z.eq_dec n 0) as [->|Hne].
    { exfalso. apply andb_prop in Hok as [Hlt _]. change (u32 (0 - 1)) with (2 ^ 32 - 1) in Hlt. destruct Hb as [Hb _]. unfold ngroups in Hb. lia. }
    rewrite u32_small in * by lia. destruct (group_ok_lookup s (n - 1) Hwf ltac:(lia) Hok) as [G HG].
    apply andb_prop in Hok as [Hlt _]. eapply wp_upd_group; [exact HG|].
    assert ((0 <? n) && (n <=? ngroups s) = true) as E by (apply andb_true_intro; unfold ngroups; lia).
    rewrite E in HQ. cbv beta iota in HQ. rewrite <- unlocked_locked in HQ. exact HQ.
  - intros Hok. assert ((0 <? n) && (n <=? ngroups s) = false) as E; [|by rewrite E in HQ].
    apply andb_false_iff. destruct (Z.eq_dec n 0) as [->|Hne]; [by left|]. right. rewrite u32_small in Hok by lia.
    apply Z.leb_gt. destruct (Z.ltb_spec (ngroups s) n); [done|].
    rewrite (group_ok_in s (n - 1) Hwf) in Hok; [done | unfold ngroups in *; lia].
Qed.
Lemma set_group_runs s (i : nat) x I :
  db_wf (db s) -> keyed s -> bounded s -> entry_in s i -> ifaces s !! i = Some I ->
  0 <= x < 2 ^ 32 -> 0 <= sel_Group (if_Selection I) < 2 ^ 32 ->
  wp (set_group i i x) (fun _ s' => s' = regroup s i (sel_Group (if_Selection I)) x) s.
Proof.
  intros Hwf [HK _] Hb Hi HI0 Hx Ho. destruct (HK i I Hi HI0) as [Ei _].
  assert (forall n f, ifaces (at_group s n f) = ifaces s) as Ea by (intros n f; unfold at_group; by destruct (_ && _)).
  assert (forall n f, shape_of (db (at_group s n f)) = shape_of (db s)) as Esh
    by (intros n f; unfold at_group; destruct (_ && _); [apply shape_alter_group | done]).
  unfold set_group. apply wp_bind. eapply wp_get_iface; [exact HI0|]. rewrite Ei.
  apply wp_bind, (wp_with_group_number _ _ (joined (Z.of_nat i))); [done..|]. apply wp_bind. eapply wp_get_iface; [rewrite Ea; exact HI0|].
  apply wp_bind, (wp_with_group_number _ _ (left_by (Z.of_nat i))); [unfold db_wf; by rewrite Esh | | done |].
  { assert (selected (at_group s x (joined (Z.of_nat i))) = selected s) as Es
      by (unfold at_group; destruct (_ && _); [by apply selected_alter_same | done]).
    destruct Hb as [Hb1 Hb2]. split; [|by rewrite Es].
    assert (ngroups (at_group s x (joined (Z.of_nat i))) = ngroups s) as En by exact (f_equal (fun y => y.1.1.2) (Esh _ _)). by rewrite En. }
  rewrite (u32_small x) by lia. eapply wp_upd_iface; [|reflexivity].
  assert (forall t n f, ifaces (at_group t n f) = ifaces t) as Ea' by (intros t n f; unfold at_group; by destruct (_ && _)).
  rewrite !Ea'. exact HI0.
Qed.

Lemma joined_bit i j G : 0 <= i -> 0 <= j < 32 ->
  Z.testbit (g_InterfaceAvailable (joined i G)) j = Z.testbit (g_InterfaceAvailable G) j || (i =? j).
Proof.
  intros Hi Hj. change (g_InterfaceAvailable (joined i G)) with (u32 (Z.lor (g_InterfaceAvailable G) (Z.shiftl 1 i))).
  unfold u32. rewrite Z.mod_pow2_bits_low by lia. by rewrite Z.lor_spec, Z.shiftl_1_l, Z.pow2_bits_eqb by lia.
Qed.
Lemma left_bit i j G : 0 <= i -> 0 <= j < 32 ->
  Z.testbit (g_InterfaceAvailable (left_by i G)) j = Z.testbit (g_InterfaceAvailable G) j && negb (i =? j).
Proof.
  intros Hi Hj. change (g_InterfaceAvailable (left_by i G)) with (u32 (Z.land (g_InterfaceAvailable G) (Z.lnot (Z.shiftl 1 i)))).
  unfold u32. rewrite Z.mod_pow2_bits_low, Z.land_spec, Z.lnot_spec by lia. by rewrite Z.shiftl_1_l, Z.pow2_bits_eqb by lia.
Qed.
(** The groups after an interface moved. *)
Lemma at_group_lookup s n f (g : nat) : group_in s g ->
  groups (at_group s n f) !! g = (if n =? Z.of_nat g + 1 then f else id) <$> groups s !! g.
Proof.
  intros Hg. unfold group_in in Hg. assert (forall o : option WANMGR_IFACE_GROUP, id <$> o = o) as Hid by (by intros []).
  unfold at_group. destruct (Z.eqb_spec n (Z.of_nat g + 1)) as [->|Hne].
  - assert ((0 <? Z.of_nat g + 1) && (Z.of_nat g + 1 <=? ngroups s) = true) as -> by (apply andb_true_intro; lia).
    rewrite groups_alter, decide_True by lia. done.
  - rewrite Hid. destruct (_ && _) eqn:E; [|done]. apply andb_prop in E as [E _].
    rewrite groups_alter, decide_False by lia. done.
Qed.
Lemma regroup_group s (i : nat) old x (g : nat) : group_in s g -> x <> old ->
  groups (regroup s i old x) !! g =
    (if x =? Z.of_nat g + 1 then joined (Z.of_nat i) else if old =? Z.of_nat g + 1 then left_by (Z.of_nat i) else id) <$> groups s !! g.
Proof.
  intros Hg Hne. change (groups (regroup s i old x)) with
    (groups (at_group (at_group s x (joined (Z.of_nat i))) old (left_by (Z.of_nat i)))).
  assert (group_in (at_group s x (joined (Z.of_nat i))) g) as Hg' by (unfold at_group; destruct (_ && _); exact Hg).
  rewrite at_group_lookup by done. rewrite at_group_lookup by done. destruct (groups s !! g); [|by destruct (_ =? _)]. simpl.
  destruct (Z.eqb_spec x (Z.of_nat g + 1)), (Z.eqb_spec old (Z.of_nat g + 1)); try done. lia.
Qed.
Lemma regroup_iface s (i : nat) old x (j : nat) :
  ifaces (regroup s i old x) !! j = (if decide (i = j) then regrouped x else id) <$> ifaces s !! j.
Proof.
  assert (w_pIface (db (at_group (at_group s x (joined (Z.of_nat i))) old (left_by (Z.of_nat i)))) = ifaces s) as E
    by (unfold at_group; repeat destruct (_ && _); done).
  unfold regroup, ifaces. rsimpl. rewrite E, list_lookup_alter. destruct (decide _) as [->|]; [done|]. by destruct (_ !! j).
Qed.
Lemma at_group_locked s n f : at_group (locked s) n f = locked (at_group s n f).
Proof. unfold at_group. change (ngroups (locked s)) with (ngroups s). by destruct (_ && _). Qed.
Lemma regroup_locked s (i : nat) old x : regroup (locked s) i old x = locked (regroup s i old x).
Proof. unfold regroup. by rewrite !at_group_locked. Qed.

Lemma group_setter_runs s (i : nat) x I :
  db_wf (db s) -> keyed s -> bounded s -> entry_in s i -> ifaces s !! i = Some I ->
  0 <= x -> 0 <= sel_Group (if_Selection I) < 2 ^ 32 ->
  wp (WanIfSelectionCfg_SetParamUlongValue (Some i) "Group" x) (fun b s' => b = true
    /\ s' = if (2 <? x) || (sel_Group (if_Selection I) =? x) then s else regroup s i (sel_Group (if_Selection I)) x) s.
Proof.
  intros Hwf Hk Hb Hi HI0 Hx Ho. set (old := sel_Group (if_Selection I)) in *.
  unfold WanIfSelectionCfg_SetParamUlongValue. apply wp_with_entry; [done..|].
  change (wp (J <- get_iface i ;;
      (if MAX_INTERFACE_GROUP <? x then ret tt else if sel_Group (if_Selection J) =? x then ret tt
       else p <- deref (Some i) ;; set_group p i x) ;; ret true)
    (fun b s' => b = true /\ unlocked s' = if (2 <? x) || (old =? x) then s else regroup s i old x) (locked s)).
  apply wp_bind. eapply wp_get_iface; [exact HI0|]. apply wp_bind. unfold MAX_INTERFACE_GROUP.
  destruct (2 <? x) eqn:E2; [apply wp_ret, wp_ret; split; [done | apply unlocked_locked]|].
  change (sel_Group (if_Selection I)) with old.
  destruct (old =? x) eqn:Eo; [apply wp_ret, wp_ret; split; [done | apply unlocked_locked]|]. apply wp_bind.
  eapply wp_deref; [done|]. eapply wp_mono; [apply (set_group_runs (locked s) i x I); try done; lia|].
  intros [] s' ->. apply wp_ret. split; [done|]. cbv beta iota. simpl orb. fold old.
  rewrite regroup_locked. apply unlocked_locked.
Qed.
Lemma regroup_counts s (i : nat) old x : counts (regroup s i old x) = counts s.
Proof. unfold regroup, at_group. by repeat destruct (_ && _). Qed.
Lemma regroup_availability s (i : nat) x I :
  nifaces s <= 32 -> ifaces s !! i = Some I -> entry_in s i -> x <> sel_Group (if_Selection I) ->
  availability s -> availability (regroup s i (sel_Group (if_Selection I)) x).
Proof.
  intros Hn HI0 Hi Hne Hav j J g G Hj HJ Hg HG. unfold entry_in, group_in in Hj, Hg, Hi. set (old := sel_Group (if_Selection I)) in *.
  assert (nifaces (regroup s i old x) = nifaces s) as En by exact (f_equal fst (regroup_counts s i old x)).
  assert (ngroups (regroup s i old x) = ngroups s) as Em by exact (f_equal snd (regroup_counts s i old x)).
  rewrite En in Hj. rewrite Em in Hg. rewrite regroup_iface in HJ. rewrite regroup_group in HG by done.
  destruct (ifaces s !! j) as [J0|] eqn:EJ; [|done]. destruct (groups s !! g) as [G0|] eqn:EG; [|done].
  pose proof (Hav j J0 g G0 Hj EJ Hg EG) as Ha. simpl in HJ, HG. injection HJ as <-. injection HG as <-.
  assert (sel_Group (if_Selection ((if decide (i = j) then regrouped x else id) J0)) = if decide (i = j) then x else sel_Group (if_Selection J0)) as ->
    by (by destruct (decide _)).
  assert (i = j -> sel_Group (if_Selection J0) = old) as Hold by (intros <-; unfold old; congruence).
  destruct (Z.eqb_spec x (Z.of_nat g + 1)) as [->|Hxg]; [|destruct (Z.eqb_spec old (Z.of_nat g + 1)) as [Hog|Hog]].
  - rewrite joined_bit, Ha by lia. destruct (decide (i = j)) as [<-|Hij].
    + rewrite !Z.eqb_refl. by rewrite orb_true_r.
    + rewrite (proj2 (Z.eqb_neq (Z.of_nat i) _)) by lia. apply orb_false_r.
  - rewrite left_bit, Ha by lia. destruct (decide (i = j)) as [<-|Hij].
    + rewrite !Z.eqb_refl, andb_false_r. symmetry. by apply Z.eqb_neq.
    + rewrite (proj2 (Z.eqb_neq (Z.of_nat i) _)) by lia. apply andb_true_r.
  - change (Z.testbit (g_InterfaceAvailable G0) (Z.of_nat j) = ((if decide (i = j) then x else sel_Group (if_Selection J0)) =? Z.of_nat g + 1)).
    rewrite Ha. destruct (decide (i = j)) as [Hij|]; [|done]. rewrite (Hold Hij).
    by rewrite (proj2 (Z.eqb_neq _ _) Hog), (proj2 (Z.eqb_neq _ _) Hxg).
Qed.

(** C32: moving an interface to another group.  A group over the last one and the
    interface's own are accepted and change nothing; any other number, 0 for no
    group included, becomes the interface's group, both groups are told that their
    configuration changed, and the sets of available interfaces go on to be those
    of the interfaces configured for each group. *)
Theorem group_setter s (i : nat) x I :
  db_wf (db s) -> keyed s -> bounded s -> entry_in s i -> nifaces s <= 32 -> ifaces s !! i = Some I ->
  0 <= x -> 0 <= sel_Group (if_Selection I) < 2 ^ 32 ->
  exists s', WanIfSelectionCfg_SetParamUlongValue (Some i) "Group" x s = Some (true, s')
    /\ (MAX_INTERFACE_GROUP < x \/ x = sel_Group (if_Selection I) -> s' = s)
    /\ (x <= MAX_INTERFACE_GROUP -> ifaces s' !! i = Some (regrouped x I) /\ (forall j, j <> i -> ifaces s' !! j = ifaces s !! j))
    /\ (x <= MAX_INTERFACE_GROUP -> x <> sel_Group (if_Selection I) -> forall (g : nat) G,
          group_in s g -> groups s !! g = Some G -> Z.of_nat g + 1 = x \/ Z.of_nat g + 1 = sel_Group (if_Selection I) ->
          g_ConfigChanged <$> groups s' !! g = Some true)
    /\ (availability s -> availability s').
Proof.
  intros Hwf Hk Hb Hi Hn HI0 Hx Ho. pose proof (group_setter_runs s i x I Hwf Hk Hb Hi HI0 Hx Ho) as HW.
  apply wp_run in HW as (b & s' & E & -> & Es). exists s'. split; [exact E|]. unfold MAX_INTERFACE_GROUP.
  destruct (Z.ltb_spec 2 x) as [Hbig|Hsmall]; simpl in Es.
  { subst s'. split; [done|]. split; [lia|]. split; [lia | done]. }
  destruct (Z.eqb_spec (sel_Group (if_Selection I)) x) as [<-|Hne]; subst s'.
  { split; [done|]. split; [|done]. intros _. split; [|done]. rewrite HI0. f_equal.
    by destruct I as [? ? ? ? ? ? ? ? ? ? ? ? ? ? ? [] ? ? ? ? ? ?]. }
  split; [lia|]. split; [|split; [|by apply regroup_availability]].
  - intros _. split; [by rewrite regroup_iface, decide_True, HI0|].
    intros j Hj. rewrite regroup_iface, decide_False by done. by destruct (ifaces s !! j).
  - intros _ _ g G Hg HG Hor. rewrite regroup_group, HG by done. simpl.
    destruct (Z.eqb_spec x (Z.of_nat g + 1)); [done|]. destruct (Z.eqb_spec (sel_Group (if_Selection I)) (Z.of_nat g + 1)); [done | lia].
Qed.
End Settings.

(** ** Settings that are read back *)

(** The objects of a virtual interface. *)
Inductive vif_object := of_virtual | of_ip | of_mapt | of_dslite | of_ppp.

Section ReadBack.
Context `{Platform} `{Build} `{HA : AutoBuild} `{HI : IfaceBuild} `{DmBuild} {C : Type}.
Implicit Type s : St C.
#[local] Abbreviation code := Handlers.code.
#[local] Abbreviation decode := Handlers.decode.

Definition set_num (o : vif_object) : vif_ptr -> string -> Z -> M (St C) bool :=
  match o with
  | of_virtual => WanVirtualIf_SetParamUlongValue | of_ip => WanIfIpCfg_SetParamUlongValue
  | of_mapt => WanIfMapt_SetParamUlongValue | of_dslite => WanIfDSLite_SetParamUlongValue
  | of_ppp => WanIfPPPCfg_SetParamUlongValue end.
Definition get_num (o : vif_object) : vif_ptr -> string -> M (St C) (bool * option Z) :=
  match o with
  | of_virtual => WanVirtualIf_GetParamUlongValue | of_ip => WanIfIpCfg_GetParamUlongValue
  | of_mapt => WanIfMapt_GetParamUlongValue | of_dslite => WanIfDSLite_GetParamUlongValue
  | of_ppp => WanIfPPPCfg_GetParamUlongValue end.
Definition set_text (o : vif_object) : vif_ptr -> string -> string -> M (St C) bool :=
  match o with
  | of_virtual => WanVirtualIf_SetParamStringValue | of_ip => WanIfIpCfg_SetParamStringValue
  | of_mapt => WanIfMapt_SetParamStringValue | of_dslite => WanIfDSLite_SetParamStringValue
  | of_ppp => WanIfPPPCfg_SetParamStringValue end.
Definition get_text (o : vif_object) : vif_ptr -> string -> Z -> M (St C) (Z * option string * Z) :=
  match o with
  | of_virtual => WanVirtualIf_GetParamStringValue | of_ip => WanIfIpCfg_GetParamStringValue
  | of_mapt => WanIfMapt_GetParamStringValue | of_dslite => WanIfDSLite_GetParamStringValue
  | of_ppp => WanIfPPPCfg_GetParamStringValue end.

(** A number of the type of a parameter: the number of an enumerator, or one of
    32 bits. *)
Definition in_type (o : vif_object) (name : string) (x : Z) : Prop :=
  let enum A {E : Coded A} := code (decode x : A) = x in
  match o with
  | of_virtual => if name ≟ "Status" then enum DML_WAN_IFACE_STATUS else if name ≟ "VlanStatus" then enum DML_WAN_IFACE_LINKSTATUS
                  else u32 x = x
  | of_ip => if name ≟ "IPv4Status" then enum DML_WAN_IFACE_IPV4_STATUS
             else if name ≟ "IPv6Status" then enum DML_WAN_IFACE_IPV6_STATUS
             else if name ≟ "Mode" then enum DML_WAN_IP_MODE
             else if name ≟ "IPv4Source" then enum DML_WAN_IP_SOURCE
             else if name ≟ "IPv6Source" then enum DML_WAN_IP_SOURCE
             else enum DML_WAN_IP_PREFERRED_MODE
  | of_mapt => enum DML_WAN_IFACE_MAPT_STATUS
  | of_dslite => enum DML_WAN_IFACE_DSLITE_STATUS
  | of_ppp => if name ≟ "IPCPStatus" then enum DML_WAN_IFACE_IPCP_STATUS
              else if name ≟ "IPv6CPStatus" then enum DML_WAN_IFACE_IPV6CP_STATUS else enum DML_WAN_IFACE_PPP_LINK_STATUS
  end.
(** A text with its terminator fits the buffer of a parameter. *)
Definition fits (o : vif_object) (name x : string) : Prop :=
  strlen x < match o with
             | of_ip => if (name ≟ "DHCPv4Interface") || (name ≟ "DHCPv6Interface") then 128 else 64
             | of_ppp => 128
             | _ => 64
             end.
(** What a parameter shows of a virtual interface. *)
Definition show_num (o : vif_object) (name : string) (v : DML_VIRTUAL_IFACE) : bool * option Z :=
  match o with
  | of_virtual =>
      if negb RBUS_BUILD_FLAG_ENABLE && (name ≟ "Status") then value (code (v_Status v))
      else if negb RBUS_BUILD_FLAG_ENABLE && (name ≟ "VlanStatus") then value (code (vlan_Status (v_VLAN v)))
      else if name ≟ "Timeout" then value (vlan_Timeout (v_VLAN v)) else no_value
  | of_ip =>
      if name ≟ "IPv4Status" then value (code (ip_Ipv4Status (v_IP v)))
      else if name ≟ "IPv6Status" then value (code (ip_Ipv6Status (v_IP v)))
      else if name ≟ "Mode" then value (code (ip_Mode (v_IP v)))
      else if name ≟ "IPv4Source" then value (code (ip_IPv4Source (v_IP v)))
      else if name ≟ "IPv6Source" then value (code (ip_IPv6Source (v_IP v)))
      else if name ≟ "PreferredMode" then value (code (ip_PreferredMode (v_IP v))) else no_value
  | of_mapt => if name ≟ "MAPTStatus" then value (code (map_MaptStatus (v_MAP v))) else no_value
  | of_dslite => if name ≟ "Status" then value (code (dsl_Status (v_DSLite v))) else no_value
  | of_ppp =>
      if name ≟ "IPCPStatus" then value (code (ppp_IPCPStatus (v_PPP v)))
      else if name ≟ "IPv6CPStatus" then value (code (ppp_IPV6CPStatus (v_PPP v)))
      else if name ≟ "Status" then value (code (ppp_LinkStatus (v_PPP v))) else no_value
  end.
Definition show_text (o : vif_object) (name : string) (v : DML_VIRTUAL_IFACE) : option string :=
  match o with
  | of_virtual => if name ≟ "Name" then Some (v_Name v) else if name ≟ "Alias" then Some (v_Alias v) else None
  | of_ip => if name ≟ "Interface" then Some (ip_Interface (v_IP v))
             else if name ≟ "DHCPv4Interface" then Some (ip_DHCPv4Iface (v_IP v))
             else if name ≟ "DHCPv6Interface" then Some (ip_DHCPv6Iface (v_IP v)) else None
  | of_mapt => if name ≟ "Path" then Some (map_Path (v_MAP v)) else None
  | of_dslite => if name ≟ "Path" then Some (dsl_Path (v_DSLite v)) else None
  | of_ppp => if name ≟ "Interface" then Some (ppp_Interface (v_PPP v)) else None
  end.

(** The virtual interface of a handle. *)
Definition vif_of s (p : vif_ptr) : option DML_VIRTUAL_IFACE := ifaces s !! (p.1 : nat) ≫= fun I => if_VirtIfList I !! p.2.
Lemma vif_of_in s p : vif_in s p -> exists v, vif_of s p = Some v.
Proof. intros (I & v & HI0 & Hv)%vif_lookup. exists v. unfold vif_of. by rewrite HI0. Qed.
Lemma wp_get_vif s p v Q : vif_of s p = Some v -> Q v s -> wp (get_vif p) Q s.
Proof.
  unfold vif_of. destruct (ifaces s !! (p.1 : nat)) as [I|] eqn:HI0; [|done]. intros Hv HQ.
  eapply wp_intro; [exact (get_vif_at s p I v HI0 Hv) | exact HQ].
Qed.
Lemma wp_upd_vif s p f v (Q : unit -> St C -> Prop) :
  vif_of s p = Some v -> (forall s', vif_of s' p = Some (f v) -> Q tt s') -> wp (upd_vif p f) Q s.
Proof.
  intros Hv HQ. unfold upd_vif. apply wp_bind. eapply wp_get_vif; [exact Hv|]. unfold vif_of in Hv.
  destruct (ifaces s !! (p.1 : nat)) as [I|] eqn:HI0; [|done]. eapply wp_upd_iface; [exact HI0|]. apply HQ.
  unfold vif_of, ifaces. rsimpl. rewrite list_lookup_alter_eq. unfold ifaces in HI0. rewrite HI0. simpl.
  simpl in Hv. by rewrite list_lookup_alter_eq, Hv.
Qed.
Lemma reader_runs {A} (none : A) (F : DML_VIRTUAL_IFACE -> A) p s v :
  db_wf (db s) -> keyed s -> vif_in s p -> vif_of s p = Some v ->
  with_vif none p (fun p => v <- get_vif p ;; ret (F v)) s = Some (F v, s).
Proof.
  intros Hwf Hk Hp Hv. rewrite with_vif_eq by done. unfold vif_of in Hv.
  destruct (ifaces s !! (p.1 : nat)) as [I|] eqn:HI0; [|done]. unfold guarded, bind.
  rewrite (get_vif_at (locked s) p I v HI0 Hv). unfold ret. by rewrite unlocked_locked.
Qed.
Lemma get_num_runs o p name s v :
  db_wf (db s) -> keyed s -> vif_in s p -> vif_of s p = Some v -> get_num o p name s = Some (show_num o name v, s).
Proof.
  intros Hwf Hk Hp Hv. pose proof (reader_runs no_value (show_num o name) p s v Hwf Hk Hp Hv) as E.
  destruct o; exact E.
Qed.

(** Writing through the handle: granted, the virtual interface is as [P] tells;
    refused, the state is the one of before. *)
Definition written p (P : DML_VIRTUAL_IFACE -> Prop) s (b : bool) s' : Prop :=
  if b then exists v', vif_of s' p = Some v' /\ P v' else s' = s.
Lemma wp_writer s p (body : vif_ptr -> M (St C) bool) (P : DML_VIRTUAL_IFACE -> Prop) :
  db_wf (db s) -> keyed s -> vif_in s p ->
  (forall t v, vif_of t p = Some v -> wp (body p) (written p P t) t) ->
  wp (with_vif false p body) (written p P s) s.
Proof.
  intros Hwf Hk Hp Hb. destruct (vif_of_in s p Hp) as [v Hv]. apply wp_with_vif; [done..|].
  eapply wp_mono; [by apply (Hb (locked s) v)|]. intros [] s' HQ; [exact HQ|]. simpl in HQ |- *. by rewrite HQ, unlocked_locked.
Qed.
Lemma wp_set_true (m : M (St C) unit) Q s : wp m (fun _ s' => Q true s') s -> wp (set_true m) Q s.
Proof. intros HW. apply wp_bind. eapply wp_mono; [exact HW|]. intros [] s' HQ. by apply wp_ret. Qed.

Ltac split_name n x :=
  lazymatch n with
  | String _ _ => let r := eval vm_compute in (bool_decide (n = x)) in
      change (bool_decide (n = x)) with r in *; cbv iota in *
  | _ => let Hne := fresh in destruct (decide (n = x)) as [->|Hne];
      [|rewrite (bool_decide_eq_false_2 _ Hne) in *; cbv iota in *]
  end.
Ltac split_names :=
  repeat match goal with
  | |- context [negb RBUS_BUILD_FLAG_ENABLE] => destruct RBUS_BUILD_FLAG_ENABLE
  | |- context [?b && FEATURE_MAPT] => destruct FEATURE_MAPT
  | |- context [false && _] => rewrite !andb_false_l
  | |- context [true && _] => rewrite !andb_true_l
  | |- context [_ && false] => rewrite !andb_false_r
  | |- context [_ && true] => rewrite !andb_true_r
  | |- context [negb true] => change (negb true) with false
  | |- context [negb false] => change (negb false) with true
  | |- context [?n ≟ ?x] => split_name n x
  | H : context [?n ≟ ?x] |- _ => split_name n x
  end; cbv iota in *.
Ltac written Hv Hx :=
  first
  [ by apply wp_ret
  | apply wp_set_true; eapply wp_upd_vif; [exact Hv|]; intros s' Hs'; eexists; split; [exact Hs'|];
    exact (f_equal (fun y => (true, Some y)) Hx)
  | apply wp_bind, wp_when; intros Hc; [|apply wp_ret; eexists; split; [exact Hv|];
      apply negb_false_iff, Z.eqb_eq in Hc; exact (f_equal (fun y => (true, Some y)) Hc)];
    eapply wp_upd_vif; [exact Hv|]; intros s' Hs'; apply wp_ret; eexists; split; [exact Hs'|];
    exact (f_equal (fun y => (true, Some y)) Hx) ].
Lemma set_num_writes o p name x s :
  db_wf (db s) -> keyed s -> vif_in s p -> in_type o name x ->
  wp (set_num o p name x) (written p (fun v' => show_num o name v' = (true, Some x)) s) s.
Proof.
  intros Hwf Hk Hp Hx. destruct o; simpl in Hx |- *;
    unfold WanVirtualIf_SetParamUlongValue, WanIfIpCfg_SetParamUlongValue, WanIfMapt_SetParamUlongValue,
      WanIfDSLite_SetParamUlongValue, WanIfPPPCfg_SetParamUlongValue; (apply wp_writer; [done..|]); intros t v Hv.
  all: try (apply wp_bind; eapply wp_get_vif; [exact Hv|]; cbv zeta).
  all: split_names; try discriminate.
  all: written Hv Hx.
Qed.

(** Texts; the buffer of the caller has the size of the largest one here. *)
Lemma get_text_runs o p name z s v :
  db_wf (db s) -> keyed s -> vif_in s p -> vif_of s p = Some v -> 128 <= z ->
  get_text o p name z s = Some (match show_text o name v with Some x => (0, Some x, z) | None => no_text z end, s).
Proof.
  intros Hwf Hk Hp Hv Hz. assert (forall n x, n <= 128 -> collect n x z = (0, Some x, z)) as Hc.
  { intros n x Hn. unfold collect. by rewrite (proj2 (Z.ltb_lt (n - 1) z)) by lia. }
  destruct o; simpl; unfold WanVirtualIf_GetParamStringValue, WanIfIpCfg_GetParamStringValue, WanIfMapt_GetParamStringValue,
    WanIfDSLite_GetParamStringValue, WanIfPPPCfg_GetParamStringValue;
    (etransitivity; [by apply (reader_runs (no_text z) (fun v => _) p s v Hwf Hk Hp Hv)|]); rewrite !Hc by lia;
    repeat destruct (_ ≟ _); done.
Qed.
Lemma set_text_writes o p name x s :
  db_wf (db s) -> keyed s -> vif_in s p ->
  wp (set_text o p name x) (written p (fun v' => show_text o name v' = Some x) s) s.
Proof.
  intros Hwf Hk Hp. destruct o; simpl;
    unfold WanVirtualIf_SetParamStringValue, WanIfIpCfg_SetParamStringValue, WanIfMapt_SetParamStringValue,
      WanIfDSLite_SetParamStringValue, WanIfPPPCfg_SetParamStringValue; (apply wp_writer; [done..|]); intros t v Hv.
  all: split_names; try discriminate.
  all: try first [ by apply wp_ret | apply wp_set_true; eapply wp_upd_vif; [exact Hv|]; intros s' Hs'; eexists; split; [exact Hs' | done] ].
  apply wp_bind. eapply wp_upd_vif; [exact Hv|]. intros s1 Hs1. apply wp_bind. eapply wp_get_vif; [exact Hs1|]. apply wp_bind.
  eapply (safe_keeps (H := dm_anchor) (shape_of (db s1)) (fun _ => True) ifaces);
    [apply safe_set_restart_info | unfold set_restart_info, WanMgr_SetRestartWanInfo; keeps_tac | by split |].
  intros [] s2 _ _ Es _. apply wp_ret. eexists. split; [unfold vif_of; rewrite Es; exact Hs1 | done].
Qed.
Lemma handled_set_num o p name x s :
  db_wf (db s) -> keyed s -> vif_in s p -> Handled s (set_num o p name x).
Proof.
  intros Hwf Hk Hp. destruct o; simpl;
    first [picked (handled_vif_writes s Hwf Hk p Hp) | picked (handled_object_writes s Hwf Hk p Hp)].
Qed.
Lemma handled_set_text o p name x s :
  db_wf (db s) -> keyed s -> vif_in s p -> Handled s (set_text o p name x).
Proof.
  intros Hwf Hk Hp. destruct o; simpl;
    first [picked (handled_vif_writes s Hwf Hk p Hp) | picked (handled_object_writes s Hwf Hk p Hp)].
Qed.
Lemma vif_in_of s s' p v : dm_view s' = dm_view s -> vif_in s p -> vif_of s' p = Some v -> vif_in s' p.
Proof.
  intros Hv [Hi _] E. split; [by eapply entry_view|]. unfold vif_of in E.
  destruct (ifaces s' !! (p.1 : nat)) as [I|]; [|done]. exists I. split; [done|]. by eapply lookup_lt_Some.
Qed.

End ReadBack.

(** ** A row that is not there *)

Section Missing.
Context `{Platform} `{Build} `{HA : AutoBuild} `{HI : IfaceBuild} `{DmBuild} {C : Type}.
Implicit Type s : St C.

(** [GetEntry] of the VLAN table of a virtual interface returns with the mutex
    locked when no row has the number, and that of the markings does the same. *)
Theorem missing_row_keeps_lock p n s I v :
  db_wf (db s) -> keyed s -> vif_in s p -> ifaces s !! (p.1 : nat) = Some I -> if_VirtIfList I !! p.2 = Some v ->
  (u32 n ∉ vt_Index <$> vlan_InterfaceList (v_VLAN v) -> WanIfVlanCfg_GetEntry p n s = Some (None, locked s))
  /\ (u32 n ∉ mk_VirtMarkingInstanceNumber <$> vlan_VirtMarking (v_VLAN v) ->
      WanIfVlanMarking_GetEntry p n s = Some (None, locked s)).
Proof.
  intros Hwf [HK _] [Hi _] HI0 Hv. pose proof (HK _ I Hi HI0) as (_ & Hnd & Hvs).
  destruct (Forall_lookup_1 _ _ _ _ Hvs Hv) as [Eb _].
  assert (WanMgr_getVirtualIfaceById (if_VirtIfList I) (v_VirIfIdx v) = Some p.2) as Ef
    by exact (search_number v_VirIfIdx _ _ v Hnd Hv).
  assert (forall {A} (f : A -> Z) l, u32 n ∉ f <$> l -> list_search (fun x => f x =? u32 n) l = None) as Hnone.
  { intros A f l Hnot. apply list_search_None. intros x Hx. apply Z.eqb_neq. intros E. apply Hnot. rewrite <- E.
    by apply list_elem_of_fmap_2. }
  split; intros Hn; [unfold WanIfVlanCfg_GetEntry | unfold WanIfVlanMarking_GetEntry];
    unfold bind; rewrite (get_vif_at s p I v HI0 Hv), Eb;
    [unfold WanMgr_getVlanIface_locked | unfold WanMgr_getVirtualMarking_locked]; unfold bind;
    rewrite (entry_locked_run s p.1 Hwf Hi), get_iface_run; change (ifaces (locked s)) with (ifaces s); rewrite HI0;
    cbn [fmap option_fmap option_map]; rewrite Ef; unfold deref, ret; cbn iota beta;
    (erewrite get_vif_at; [|exact HI0 | exact Hv]).
  - unfold WanMgr_getVirtVlanIfById. by rewrite (Hnone _ vt_Index).
  - unfold WanMgr_getVirtMakingById. by rewrite (Hnone _ mk_VirtMarkingInstanceNumber).
Qed.
End Missing.

(** * Witnesses *)

#[local] Instance the_build : Build :=
  {| FEATURE_RDKB_CONFIGURABLE_WAN_INTERFACE := true; FEATURE_RDKB_DHCP_MANAGER := false; FEATURE_MAPT := false;
     FEATURE_IPOE_HEALTH_CHECK := false; FEATURE_RDKB_LED_MANAGER := true; XB6_CBR2_PRODUCT_REQ := false;
     RDKB_GLOBAL_PRODUCT_REQ := false; MESH_IFNAME := "br403" |}.
#[local] Instance the_mapt : MaptBuild := {| MAPT_NAT46_FTP_ACTIVE_MODE := false; COSA_BCM_ARM_XB6 := false |}.
#[local] Instance the_auto : AutoBuild :=
  {| AutoPolicy.PLATFORM_RASPBERRYPI := false; AUTOWAN_ENABLE := false; WAN_MANAGER_SELECTION_SCAN_TIMEOUT_DISABLE := false |}.
#[local] Instance the_iface : IfaceBuild :=
  {| Dhcp.PLATFORM_RASPBERRYPI := false; HUB4_SR213_PRODUCT_REQ := false; CBR2_PRODUCT_REQ := false; RBUS_WAN_IP := false;
     RBUS_BUILD_FLAG_ENABLE := true; WAN_MANAGER_UNIFICATION_ENABLED := true; DYNAMIC_CONFIGURE_PPP_LOWERLAYER := false;
     LAN_MGR_SUPPORT := false; DHCPV6_PREFIX_DELEGATION := false; SNMPV3_ENABLED := false;
     ENABLE_FEATURE_TELEMETRY2_0 := false; COSA_DML_DHCPV6_SERVER_IFNAME := "brlan0";
     COSA_DML_DHCPV6S_ADDR_SYSEVENT_NAME := "tr_brlan0_dhcpv6_server"; IPOE_HEALTH_CHECK_V4_STATUS := "ipoe_v4";
     IPOE_HEALTH_CHECK_V6_STATUS := "ipoe_v6"; IPOE_STATUS_FAILED := "failed" |}.
#[local] Instance the_dm : DmBuild := {| WAN_FAILOVER_SUPPORTED := true |}.
#[local] Instance the_platform : Platform := sample_platform 100.

(** The sample with the virtual interfaces filed under their interface. *)
Definition numbered_db : WANMGR_DATA_ST :=
  sample_world_db <| w_pIface ::= imap (fun i I =>
    I <| if_VirtIfList ::= fmap (fun v => v <| v_baseIfIdx := Z.of_nat i |>) |>) |>.
Lemma numbered_bootable : bootable numbered_db.
Proof.
  split; [by apply db_wfb_wf|]. split; [by apply boundedb_bounded|]. split; [by vm_compute|].
  split; [done|]. split; [by apply none_activeb_only|]. by repeat constructor.
Qed.

(** While interface 1 is active its mode is set to IPv4 only. *)
Lemma request_is_step_witness :
  exists w ms s, run_moves numbered_db sample_moves = Some (w, ms)
    /\ statuses (seen_by tt w) !! 0%nat = Some WAN_IFACE_ACTIVE
    /\ dm_run (ip_set_num (0, 0)%nat "Mode" 1) (seen_by tt w) = Some (tt, s)
    /\ machine_reach numbered_db (after_env s w) ms /\ keyed s.
Proof.
  assert ((fun x => (statuses (seen_by tt x.1) !! 0%nat, keyedb (seen_by tt x.1), 0 <? nifaces (seen_by tt x.1),
      (fun I => match if_VirtIfList I with [] => false | _ => true end) <$> ifaces (seen_by tt x.1) !! 0%nat))
    <$> run_moves numbered_db sample_moves = Some (Some WAN_IFACE_ACTIVE, true, true, Some true)) as Ev by by vm_compute.
  destruct (run_moves numbered_db sample_moves) as [[w ms]|] eqn:E; [|done]. apply (inj Some) in Ev. cbv beta in Ev.
  change ((w, ms).1) with w in Ev. pose proof (f_equal (fun x => x.1.1.1) Ev) as Ha.
  pose proof (f_equal (fun x => x.1.1.2) Ev) as Hk. pose proof (f_equal (fun x => x.1.2) Ev) as Hn.
  pose proof (f_equal snd Ev) as HI. cbv beta iota in Ha, Hk, Hn, HI. simpl in Ha, Hk, Hn, HI. clear Ev.
  destruct (request_is_step numbered_db w ms (ip_set_num (0, 0)%nat "Mode" 1)) as (s & Es & Hr & _ & Hks & _).
  - apply numbered_bootable.
  - exact (run_moves_reach _ _ _ _ sample_moves_sound E).
  - by apply keyedb_keyed.
  - split; [exact (proj1 (Z.ltb_lt _ _) Hn)|]. destruct (ifaces (seen_by tt w) !! 0%nat) as [I|] eqn:EI; [|discriminate HI].
    exists I. split; [exact EI|]. injection HI as HI. destruct (if_VirtIfList I) as [|v l]; [discriminate HI | apply Nat.lt_0_succ].
  - exists w, ms, s. exact (conj eq_refl (conj Ha (conj Es (conj Hr Hks)))).
Defined.

(** The sample between two passes. *)
Definition numbered : St unit := mk_St tt numbered_db ∅ [].
Lemma numbered_wf : db_wf (db numbered).
Proof. by apply db_wfb_wf. Qed.
Lemma numbered_keyed : keyed numbered.
Proof. by apply keyedb_keyed. Qed.
Lemma numbered_vif : vif_in numbered (0, 0)%nat.
Proof. split; [by vm_compute|]. eexists. split; [by vm_compute | by vm_compute; lia]. Qed.

(** The priorities are 0 and 1: 1 is refused to the first interface, 7 is not. *)
Lemma priority_setter_witness :
  priorities numbered = [0; 1] /\ NoDup (priorities numbered)
  /\ exists b s', WanIfSelectionCfg_SetParamIntValue (Some 0%nat) "Priority" 7 numbered = Some (b, s')
       /\ (b = true <-> ~ has_priority numbered 0 7) /\ priorities s' = (if b then [7; 1] else [0; 1]).
Proof.
  assert (priorities numbered = [0; 1]) as Ep by by vm_compute. split; [exact Ep|].
  split; [rewrite Ep; apply (bool_decide_eq_true_1 _); by vm_compute|].
  destruct (priority_setter numbered 0 7) as (b & s' & E & Hb & _ & Hp & _);
    [apply numbered_wf | apply numbered_keyed | by vm_compute | by vm_compute |].
  exists b, s'. split; [exact E|]. split; [exact Hb|]. rewrite Hp, Ep. by destruct b.
Defined.

(** The first interface moves from group 1 to no group. *)
Lemma group_setter_witness :
  availability (numbered <| db ::= fun d => d <| w_Group ::= fmap (fun G => G <| g_InterfaceAvailable := 3 |>) |> |>)
  /\ exists s', WanIfSelectionCfg_SetParamUlongValue (Some 0%nat) "Group" 0
       (numbered <| db ::= fun d => d <| w_Group ::= fmap (fun G => G <| g_InterfaceAvailable := 3 |>) |> |>) = Some (true, s')
       /\ (fun I => sel_Group (if_Selection I)) <$> ifaces s' !! 0%nat = Some 0 /\ availability s'.
Proof.
  set (s := numbered <| db ::= fun d => d <| w_Group ::= fmap (fun G => G <| g_InterfaceAvailable := 3 |>) |> |>).
  assert (availability s) as Hav.
  { intros i I g G Hi HI0 Hg HG. unfold entry_in, group_in in Hi, Hg. change (nifaces s) with 2 in Hi. change (ngroups s) with 1 in Hg.
    assert (g = 0%nat) as -> by lia. injection HG as <-. assert (i = 0%nat \/ i = 1%nat) as [->| ->] by lia; by injection HI0 as <-. }
  split; [exact Hav|]. assert (is_Some (ifaces s !! 0%nat)) as [I HI0] by (by eexists).
  assert (sel_Group (if_Selection I) = 1) as Eg by (injection HI0 as <-; by vm_compute).
  destruct (group_setter s 0 0 I) as (s' & E & _ & Hmove & _ & Hav');
    [by apply db_wfb_wf | by apply keyedb_keyed | by apply boundedb_bounded | by vm_compute | by vm_compute | exact HI0 | lia
    | rewrite Eg; lia |].
  exists s'. split; [exact E|]. split; [|by apply Hav'].
  destruct Hmove as [-> _]; [by vm_compute | reflexivity].
Defined.

