(* ===== verification/IfaceProps.v ===== *)
(** Properties of the interface state machine, of its leases and of what it
    publishes, with their witnesses. *)

From Stdlib Require Import Sorting.Sorted.
From S2P Require Export MachineSystem IfaceDown.

#[local] Abbreviation IC := WanMgr_IfaceSM_Controller_t.

Section Machine.
Context `{Platform} `{Build} `{MaptBuild} `{IfaceBuild}.

(** C13: a pass of the machine stays in its state or moves along an edge of the
    state diagram [ism_succ]; it ends the thread only from the exit state, or
    from the MAP-T state of a build without MAP-T. *)
Theorem ism_edges st s o s' :
  ism_iteration st s = Some (o, s') ->
  match o with
  | Some st' => st' = st \/ st' ∈ ism_succ st
  | None => st = WAN_STATE_EXIT \/ st = WAN_STATE_MAPT_ACTIVE /\ FEATURE_MAPT = false
  end.
Proof.
  intros E. destruct (pass_run _ _ _ _ E) as [[-> _]|(i & j & b & _ & _ & _ & Hn)]; [by left | exact Hn].
Qed.

(** C12: a pass changes the status of at most one virtual interface, and makes it up
    only while its interface is the active one. *)
Theorem ism_up_only_active st s o s' :
  ism_iteration st s = Some (o, s') ->
  exists q, (forall q', q' <> q -> status_at q' s' = status_at q' s)
    /\ (status_at q s' = Some WAN_IFACE_STATUS_UP ->
        status_at q s = Some WAN_IFACE_STATUS_UP \/ active_at q.1 s = Some true /\ active_at q.1 s' = Some true).
Proof.
  intros E. destruct (pass_run _ _ _ _ E) as [[_ Hi]|(i & j & b & Ha & Ha' & [Ho Hp] & _)].
  - assert (forall q, status_at q s' = status_at q s) as Hq by (intros q; unfold status_at, vif_at; by rewrite Hi).
    exists (0, 0)%nat. split; [by intros q' _|]. intros Hu. left. by rewrite <- Hq.
  - exists (i, j). split; [exact Ho|]. intros Hu. destruct (Hp Hu) as [?| ->]; [by left | by right].
Qed.

(** C14: in the builds without the DHCP manager, an interface that is switched off -
    disabled, not selected, or without its physical link - is taken down by the pass
    of any state but the last two (the active MAP-T state only where the build has
    MAP-T): both DHCP clients are stopped, the timer of the selected mode is reset,
    and the machine refreshes its links when that was asked for, else leaves.  (With
    the DHCP manager the stop of a client is a request on the bus, whose failure
    leaves the client marked as started.) *)
Theorem ism_off_goes_down (i j : nat) st s I v o s' :
  FEATURE_RDKB_DHCP_MANAGER = false ->
  st <> WAN_STATE_EXIT -> st <> WAN_STATE_DECONFIGURING_WAN -> (st = WAN_STATE_MAPT_ACTIVE -> FEATURE_MAPT = true) ->
  ifaces s !! i = Some I -> if_VirtIfList I !! j = Some v -> iface_off (ctl s) I v = true ->
  ism_state i (i, j) st s = Some (o, s') ->
  exists v', vif_at (i, j) s' = Some v' /\ ip_Dhcp4cStatus (v_IP v') <> DHCPC_STARTED
    /\ ip_Dhcp6cStatus (v_IP v') <> DHCPC_STARTED /\ ip_SelectedModeTimerStatus (v_IP v') = NOTSTARTED
    /\ o = Some (if refresh_pending v' then WAN_STATE_REFRESHING_WAN else WAN_STATE_DECONFIGURING_WAN).
Proof.
  intros Hmgr Hx Hd Hm HI Hv Hoff E.
  destruct (off_ism_state Hmgr i j _ _ _ _ Hoff st s o s' Hx Hd Hm) as (st' & -> & v' & Hv' & H4 & H6 & Ht & ->); [|exact E|].
  - split; [done|]. split; [by exists I|]. exists v. split; [|done]. unfold vif_at. simpl. rewrite HI. exact Hv.
  - by exists v'.
Qed.

(** An interface being deconfigured waits for its links to go down, touching
    nothing; then its machine leaves: the interface is disabled, its reset
    request is dropped, and it is marked as without a machine. *)
Theorem ism_deconfigured_exits q s v st' s' :
  vif_at q s = Some v -> wan_state_deconfiguring_wan q s = Some (st', s') ->
  if links_not_down v then st' = WAN_STATE_DECONFIGURING_WAN /\ s' = s
  else st' = WAN_STATE_EXIT
    /\ vif_at q s' = Some (v <| v_Status := WAN_IFACE_STATUS_DISABLED |> <| v_Reset := false |>
                             <| v_Interface_SM_Running := false |>)
    /\ forall q', q' <> q -> vif_at q' s' = vif_at q' s.
Proof.
  intros Hv. unfold wan_state_deconfiguring_wan, bind. rewrite get_vif_run, Hv. simpl.
  destruct (links_not_down v); [by intros [= <- <-]|]. unfold wan_transition_exit. intros E.
  mrun E. rewrite upd_vif_run, Hv in E0. injection E0 as _ <-.
  mrun E. apply ifaces_publish_status in E0 as H1'.
  mrun E. apply ifaces_Update_Interface_Status in E1 as H2'. rewrite H1' in H2'.
  mrun E. rewrite upd_vif_run, (ifaces_vif_at _ _ _ H2'), vif_at_set, decide_True, Hv in E2 by done.
  injection E2 as _ <-. injection E as <- <-. split; [done|].
  assert (forall q' : vif_ptr, vif_at q' s1 = if decide (q' = q)
    then (fun v => v <| v_Status := WAN_IFACE_STATUS_DISABLED |> <| v_Reset := false |>) <$> vif_at q' s else vif_at q' s) as Hq
    by (intros q'; rewrite (ifaces_vif_at _ _ _ H2'); apply vif_at_set).
  split; [|intros q' Hne].
  - rewrite vif_at_set, decide_True, Hq, decide_True, Hv by done. done.
  - by rewrite vif_at_set, decide_False, Hq, decide_False by done.
Qed.

(** ** A DHCPv4 message *)

(** What a message does to the lease of a virtual interface. *)
Definition dhcpv4_effect (v : DML_VIRTUAL_IFACE) (m : ipc_dhcpv4_data_t) (v' : DML_VIRTUAL_IFACE) : Prop :=
  let x := v_IP v in
  let x' := v_IP v' in
  let changed := ipv4_config_changed (ip_Ipv4Data x) m in
  ip_pIpcIpv4Data x' = None /\
  if i4_gateway m ≟ zero_address then
    x' = x <| ip_pIpcIpv4Data := None |>
    /\ v_Status v' = (if (v_Status v ≟ WAN_IFACE_STATUS_STANDBY) || (v_Status v ≟ WAN_IFACE_STATUS_UP)
                      then v_Status v else WAN_IFACE_STATUS_VALID)
  else
    v_Status v' = v_Status v
    /\ ip_RestartConnectivityCheck x' = (changed || ip_RestartConnectivityCheck x)
    /\ if i4_addressAssigned m then
         ip_Ipv4Status x' = WAN_IFACE_IPV4_STATE_UP
         /\ ip_Ipv4Changed x' = (changed || ip_Ipv4Changed x)
         /\ ip_Ipv4Renewed x' = (negb changed || ip_Ipv4Renewed x)
         /\ exists up_time, ip_Ipv4Data x' =
              (wanmgr_dchpv4_get_ipc_msg_info (ip_Ipv4Data x) m) <| v4_leaseReceivedTime := up_time |>
       else if i4_isExpired m then
         ip_Ipv4Status x' = WAN_IFACE_IPV4_STATE_DOWN /\ ip_Ipv4Changed x' = false /\ ip_Ipv4Renewed x' = false
         /\ v4_ip (ip_Ipv4Data x') = EmptyString
       else ip_Ipv4Status x' = ip_Ipv4Status x /\ ip_Ipv4Data x' = ip_Ipv4Data x.

#[local] Hint Unfold WanManager_getUpTime WanManager_GetBCastFromIpSubnetMask inet_addr WanManager_DoSystemAction
  WanManager_DoSystemActionWithStatus v_secure_system WanManager_AddGatewayRoute publish_vif
  WanMgr_Rbus_EventPublishHandler wanmgr_sysevents_ipv4Info_set : monad.
Ltac exact_step :=
  lazymatch goal with
  | |- Leads _ _ (ret _) _ => apply leads_ret
  | |- Leads _ _ (bind (get_vif _) _) _ => apply leads_get_vif; intros ? <-
  | |- Leads _ _ (bind (upd_vif _ _) _) _ =>
      eapply leads_bind; [eapply (leads_upd _ _ (eq _)); intros ? <-; reflexivity | intros ?]
  | |- Leads _ _ (bind (when _ (upd_vif _ _)) _) _ =>
      eapply leads_bind; [eapply (leads_when _ _ (eq _)); intros ?; [eapply leads_upd; intros ? <-; reflexivity|] | intros ?]
  | |- Leads _ _ (bind _ _) _ => eapply leads_bind; [apply leads_ifaces; solve [keeps_tac] | intros ?]
  | |- Leads _ _ (upd_vif _ _) _ => apply leads_upd; intros ? <-
  | |- Leads _ _ (when _ _) _ => apply leads_ifaces; solve [keeps_tac]
  end.
Ltac exact_tac := repeat exact_step.
Lemma dhcpv4_renewed_leads q v m :
  Leads q (eq v) (dhcpv4_renewed q m) (eq (v <| v_IP; ip_Ipv4Renewed := true |>)).
Proof. unfold dhcpv4_renewed, set_ip. exact_tac. reflexivity. Qed.
Lemma update_status_up_leads q v :
  Leads q (eq v) (WanManager_UpdateInterfaceStatus q WANMGR_IFACE_CONNECTION_UP)
    (eq (v <| v_IP; ip_Ipv4Status := WAN_IFACE_IPV4_STATE_UP |>)).
Proof. unfold WanManager_UpdateInterfaceStatus, set_ip. exact_tac. reflexivity. Qed.
Lemma dhcpv4_assigned_leads q v m changed up_time :
  Leads q (eq v) (dhcpv4_assigned q m changed up_time)
    (eq (v <| v_IP ::= fun x =>
      (if changed then x <| ip_Ipv4Changed := true |> else x <| ip_Ipv4Renewed := true |>)
        <| ip_Ipv4Data ::= fun d => (wanmgr_dchpv4_get_ipc_msg_info d m) <| v4_leaseReceivedTime := up_time |> |>
        <| ip_Ipv4Status := WAN_IFACE_IPV4_STATE_UP |> |>)).
Proof.
  unfold dhcpv4_assigned, set_ip. eapply leads_bind.
  { instantiate (1 := eq (v <| v_IP ::= fun x => if changed then x <| ip_Ipv4Changed := true |> else x <| ip_Ipv4Renewed := true |> |>)).
    destruct changed; [exact_tac; reflexivity | apply dhcpv4_renewed_leads]. }
  intros _. exact_tac. eapply leads_weaken; [apply update_status_up_leads | intros ? <-; reflexivity|].
  intros ? <-. by destruct changed.
Qed.

Lemma update_status_down_leads q v :
  Leads q (eq v) (WanManager_UpdateInterfaceStatus q WANMGR_IFACE_CONNECTION_DOWN)
    (eq (v <| v_IP ::= fun x => x <| ip_Ipv4Status := WAN_IFACE_IPV4_STATE_DOWN |>
          <| ip_Ipv4Changed := false |> <| ip_Ipv4Renewed := false |> <| ip_Ipv4Data; v4_ip := EmptyString |> |>)).
Proof. unfold WanManager_UpdateInterfaceStatus, set_ip. exact_tac. reflexivity. Qed.
Lemma free_leads q v P (r : ANSC_STATUS) :
  P (v <| v_IP; ip_pIpcIpv4Data := None |>) -> Leads q (eq v) (dhcpv4_free q ;; ret r) P.
Proof.
  intros HP. unfold dhcpv4_free, set_ip. exact_tac. eapply leads_weaken; [apply leads_ret | intros ? H'; exact H' | by intros ? <-].
Qed.

(** C15: a DHCPv4 message is handled once: it is consumed, and - unless its
    gateway is zero, when the interface only becomes valid - it gives the lease of
    the message and its time, reports a change of the configuration or a renewal,
    and asks for the connectivity check again on a change; an expired lease is
    down, without address. *)
Theorem dhcpv4_event q s v m r s' :
  vif_at q s = Some v -> ip_pIpcIpv4Data (v_IP v) = Some m ->
  wanmgr_handle_dhcpv4_event_data q s = Some (r, s') ->
  r = ANSC_STATUS_SUCCESS /\ exists v', vif_at q s' = Some v' /\ dhcpv4_effect v m v'.
Proof.
  intros Hv Hm. unfold wanmgr_handle_dhcpv4_event_data. 
  assert (forall k : M (St IC) ANSC_STATUS, Returns (fun r => r = ANSC_STATUS_SUCCESS) k ->
    Leads q (eq v) k (dhcpv4_effect v m) -> k s = Some (r, s') ->
    r = ANSC_STATUS_SUCCESS /\ exists v', vif_at q s' = Some v' /\ dhcpv4_effect v m v') as Hrun.
  { intros k Hr Hk E. split; [by eapply Hr|]. eapply (Hk s); [by exists v | exact E]. }
  unfold bind at 1. rewrite get_vif_run, Hv. simpl. rewrite Hm. apply Hrun.
  { destruct (_ ≟ _); repeat (apply returns_bind; intros ?); by apply returns_ret. }
  clear Hrun. destruct (i4_gateway m ≟ zero_address) eqn:Eg.
  - unfold dhcpv4_free, set_ip. eapply leads_bind; [eapply (leads_upd _ _ (eq _)); intros ? <-; reflexivity | intros _].
    eapply leads_bind; [eapply (leads_when _ _ (dhcpv4_effect v m)) | intros _; apply leads_ret].
    + intros Ec. apply leads_upd. intros ? <-. unfold dhcpv4_effect. rewrite Eg. split_and!; [done..|].
      simpl. apply andb_true_iff in Ec as [->%negb_true_iff ->%negb_true_iff]. done.
    + intros Ec ? <-. unfold dhcpv4_effect. rewrite Eg. split_and!; [done..|]. simpl.
      by destruct (v_Status v ≟ WAN_IFACE_STATUS_STANDBY), (v_Status v ≟ WAN_IFACE_STATUS_UP).
  - cbv zeta. set (changed := ipv4_config_changed _ _).
    eapply (leads_bind _ _ (eq (v <| v_IP ::= fun x => x <| ip_RestartConnectivityCheck := changed || ip_RestartConnectivityCheck x |> |>))).
    { apply leads_when; [intros ->; unfold set_ip; apply leads_upd; by intros ? <- | intros -> ? <-; by destruct v as [? ? ? ? ? ? ? ? ? ? ? ? []]]. }
    intros _. set (v1 := v <| v_IP ::= _ |>). exact_step. exact_step.
    apply (leads_bind _ _ (fun v2 => dhcpv4_effect v m (v2 <| v_IP; ip_pIpcIpv4Data := None |>))).
    + unfold dhcpv4_effect. rewrite Eg. destruct (i4_addressAssigned m) eqn:Ea; [|destruct (i4_isExpired m) eqn:Ee; simpl].
      * eapply leads_weaken; [apply dhcpv4_assigned_leads | by intros ? | intros ? <-]. subst v1. cbv zeta. fold changed. clearbody changed.
        split_and!; try done; simpl; try (by destruct changed). eexists. by destruct changed.
      * unfold set_ip. eapply leads_bind; [eapply (leads_upd _ _ (eq _)); intros ? <-; reflexivity | intros _].
        eapply leads_weaken; [apply update_status_down_leads | intros ? <-; reflexivity | intros ? <-]. done.
      * intros s1 u s1' (? & ? & <-) [= <- <-]. by exists v1.
    + intros _. eapply leads_bind; [apply leads_ifaces; keeps_tac | intros _].
      eapply leads_bind; [|intros _; apply leads_ret]. unfold dhcpv4_free, set_ip. by apply leads_upd.
Qed.

(** ** The discovery of the VLAN *)

(** The step of the discovery: the VLAN after the one in use. *)
Definition discover (x : DML_VIRTUALIF_VLAN) : DML_VIRTUALIF_VLAN :=
  match next_vlan x with
  | Some t => x <| vlan_ActiveIndex := vt_Index t |> <| vlan_VLANInUse := vt_Interface t |>
  | None => x
  end.
End Machine.

Section Discovery.
Context (l : list DML_VLAN_IFACE_TABLE) (Hnd : NoDup (vt_Index <$> l)) (Hid : Forall (fun t => vt_Index t <> u32 (-1)) l).

(** The VLAN in use is number [k] of the list. *)
Definition discovering (k : nat) (x : DML_VIRTUALIF_VLAN) : Prop :=
  vlan_InterfaceList x = l /\ vlan_Reset x = false
  /\ exists t, l !! k = Some t /\ vlan_ActiveIndex x = vt_Index t.
Lemma vlan_by_index k t : l !! k = Some t -> WanMgr_getVirtVlanIfById l (vt_Index t) = Some k.
Proof.
  intros Hk. apply list_search_Some. split; [exists t; split; [done | apply Z.eqb_refl]|].
  intros j u Hj Hu. apply Z.eqb_neq. intros E. assert (j = k); [|lia].
  apply (NoDup_lookup (vt_Index <$> l) j k (vt_Index t)); [done | |]; rewrite list_lookup_fmap.
  - by rewrite Hu, <- E.
  - by rewrite Hk.
Qed.
Lemma discover_next k x :
  discovering k x -> exists t, l !! (S k mod length l)%nat = Some t /\ discovering (S k mod length l) (discover x)
    /\ vlan_VLANInUse (discover x) = vt_Interface t /\ vlan_ActiveIndex (discover x) = vt_Index t.
Proof.
  intros (Hl & Hr & t & Hk & Ha). pose proof (lookup_lt_Some _ _ _ Hk) as Hlt.
  assert (next_vlan x = l !! (S k mod length l)%nat) as En.
  { unfold next_vlan. rewrite Hl, Hr, Ha. cbn [orb]. rewrite Forall_lookup in Hid.
    assert ((vt_Index t =? u32 (-1)) = false) as -> by (apply Z.eqb_neq; by eapply Hid).
    rewrite (vlan_by_index _ _ Hk). destruct (decide (S k = length l)) as [E|Hne].
    - rewrite E, Nat.Div0.mod_same, (lookup_ge_None_2 l (length l)) by lia. by destruct l.
    - rewrite Nat.mod_small by lia. destruct (lookup_lt_is_Some_2 l (S k)) as [u Hu]; [lia|]. by rewrite Hu. }
  destruct (lookup_lt_is_Some_2 l (S k mod length l)) as [u Hu]; [apply Nat.mod_upper_bound; lia|].
  exists u. unfold discover, discovering. rewrite En, Hu. split; [done|]. split_and!; try done. by exists u.
Qed.
Lemma discover_iter m : forall k x, discovering k x ->
  discovering ((k + m) mod length l) (Nat.iter m discover x)
  /\ ((0 < m)%nat -> forall t, l !! ((k + m) mod length l)%nat = Some t ->
       vlan_VLANInUse (Nat.iter m discover x) = vt_Interface t /\ vlan_ActiveIndex (Nat.iter m discover x) = vt_Index t).
Proof.
  induction m as [|m IH]; intros k x Hk.
  - split; [|lia]. destruct (Hk) as (? & ? & t & Ht & ?). rewrite Nat.add_0_r, Nat.mod_small; [done | by eapply lookup_lt_Some].
  - destruct (IH k x Hk) as [Hd _]. change (Nat.iter (S m) discover x) with (discover (Nat.iter m discover x)).
    apply discover_next in Hd as (t & Ht & Hd & Hi & Hx).
    assert ((S ((k + m) mod length l) mod length l = (k + S m) mod length l)%nat) as E.
    { rewrite <- Nat.add_1_r, Nat.Div0.add_mod_idemp_l. f_equal. lia. }
    rewrite E in Ht, Hd. split; [done|]. intros _ u Hu. rewrite Ht in Hu. injection Hu as <-. done.
Qed.
End Discovery.

(** What the discovery works on. *)
Definition vlan_choice (x : DML_VIRTUALIF_VLAN) := (vlan_InterfaceList x, vlan_ActiveIndex x, vlan_VLANInUse x).
Lemma discover_choice x y :
  vlan_choice x = vlan_choice y -> vlan_Reset x = vlan_Reset y ->
  vlan_choice (discover x) = vlan_choice (discover y) /\ vlan_Reset (discover x) = vlan_Reset (discover y).
Proof.
  unfold vlan_choice. intros [= Hl Ha Hi] Hr.
  assert (next_vlan x = next_vlan y) as Hn by (unfold next_vlan; by rewrite Hl, Ha, Hr).
  unfold discover. rewrite Hn. destruct (next_vlan y); destruct x, y; cbn in *; by subst.
Qed.

Lemma discover_Reset x : vlan_Reset (discover x) = vlan_Reset x.
Proof. unfold discover. by destruct (next_vlan x). Qed.

Section Failures.
Context `{Platform} `{Build} `{MaptBuild} `{IfaceBuild} (p : vif_ptr).

(** One failure of the VLAN in use: in some state whose choice of a VLAN is that
    of [s], the VLAN is down and its time-out has expired, and the machine of
    the interface restarts the link. *)
Definition vlan_failure (s s' : St IC) : Prop := exists s1 v v1 I st,
  vif_at p s = Some v /\ vif_at p s1 = Some v1 /\ ifaces s1 !! p.1 = Some I
  /\ vlan_choice (v_VLAN v1) = vlan_choice (v_VLAN v) /\ vlan_down v1 = true
  /\ vlan_Expired (v_VLAN v1) = true /\ vlan_Reset (v_VLAN v1) = false /\ if_IfaceType I <> REMOTE_IFACE
  /\ wan_transition_wan_refreshed p.1 p s1 = Some (st, s').
Lemma vlan_failure_discovers s s' v x :
  vlan_failure s s' -> vif_at p s = Some v -> vlan_choice (v_VLAN v) = vlan_choice x -> vlan_Reset x = false ->
  exists v', vif_at p s' = Some v' /\ vlan_choice (v_VLAN v') = vlan_choice (discover x).
Proof.
  intros (s1 & v0 & v1 & I & st & Hv0 & Hv1 & HI & Hc & Hd & Hx & Hr & Ht & E) Hv Hcx Hrx.
  rewrite Hv in Hv0. injection Hv0 as <-. rewrite Hcx in Hc.
  destruct (discover_choice _ _ Hc ltac:(congruence)) as [<- _]. clear x Hc Hcx Hrx.
  unfold wan_transition_wan_refreshed in E. mrun E. rewrite get_iface_run, HI in E0. injection E0 as <- <-.
  mrun E. rewrite get_vif_run, Hv1 in E0. injection E0 as <- <-. rewrite Hd, Hx, (bool_decide_eq_false_2 _ Ht) in E.
  refine ((_ : Leads p (eq v1) _ (fun v' => vlan_choice (v_VLAN v') = vlan_choice (discover (v_VLAN v1)))) _ _ _ _ E);
    [|by exists v1].
  eapply leads_bind; [|intros ?; apply (leads_keep _ (fun v => vlan_choice (v_VLAN v)) (fun c => c = _)); field_tac].
  eapply leads_bind; [|intros ?; apply (leads_keep _ (fun v => vlan_choice (v_VLAN v)) (fun c => c = _));
    unfold WanMgr_RdkBus_ConfigureVlan, WanMgr_RdkBus_SetParamValues, set_vlan; field_tac].
  cbn [orb when]. unfold discover. destruct (next_vlan (v_VLAN v1)) as [t|]; [|by intros ? ? ? _ [=]].
  apply leads_upd. by intros v' <-.
Qed.
End Failures.

Lemma failures_discover `{Platform} `{Build} `{MaptBuild} `{IfaceBuild} p m s s' :
  nsteps (vlan_failure p) m s s' -> forall v x,
  vif_at p s = Some v -> vlan_choice (v_VLAN v) = vlan_choice x -> vlan_Reset x = false ->
  exists v', vif_at p s' = Some v' /\ vlan_choice (v_VLAN v') = vlan_choice (Nat.iter m discover x).
Proof.
  induction 1 as [s|m s1 s2 s3 Hf _ IH]; intros v x Hv Hc Hr; [by exists v|].
  destruct (vlan_failure_discovers _ _ _ _ _ Hf Hv Hc Hr) as (v2 & Hv2 & Hc2).
  rewrite Nat.iter_succ_r. apply (IH v2); [done | done|]. by rewrite discover_Reset.
Qed.

(** C16: the discovery of the VLAN goes round its list: after [m] failures in a
    row the machine tries the VLAN [m] places behind the first, cyclically, so
    that every VLAN of the list is tried within as many failures as it is long. *)
Theorem vlan_discovery_tries_all `{Platform} `{Build} `{MaptBuild} `{IfaceBuild} p s v l k t :
  vif_at p s = Some v -> vlan_InterfaceList (v_VLAN v) = l ->
  NoDup (vt_Index <$> l) -> Forall (fun t => vt_Index t <> u32 (-1)) l ->
  l !! k = Some t -> vlan_ActiveIndex (v_VLAN v) = vt_Index t ->
  (forall m s', (0 < m)%nat -> nsteps (vlan_failure p) m s s' ->
     exists v' u, vif_at p s' = Some v' /\ l !! ((k + m) mod length l)%nat = Some u
       /\ vlan_VLANInUse (v_VLAN v') = vt_Interface u /\ vlan_ActiveIndex (v_VLAN v') = vt_Index u)
  /\ forall j, (j < length l)%nat -> exists m, (1 <= m <= length l)%nat /\ ((k + m) mod length l)%nat = j.
Proof.
  intros Hv Hl Hnd Hid Hk Ha. pose proof (lookup_lt_Some _ _ _ Hk) as Hlt. split.
  - intros m s' Hm Hs. set (x := (v_VLAN v) <| vlan_Reset := false |>).
    destruct (failures_discover p m s s' Hs v x Hv eq_refl eq_refl) as (v' & Hv' & [= _ Hi Hu]).
    destruct (discover_iter l Hnd Hid m k x) as [_ Hw]; [by repeat split; [..| exists t]|].
    destruct (lookup_lt_is_Some_2 l ((k + m) mod length l)) as [u Hj]; [apply Nat.mod_upper_bound; lia|].
    destruct (Hw Hm u Hj) as [H1' H2']. exists v', u. split_and!; [done | done | |]; congruence.
  - intros j Hj. exists (if decide (k < j)%nat then j - k else length l + j - k)%nat.
    destruct (decide _); (split; [lia|]).
    + rewrite Nat.mod_small; lia.
    + replace (k + (length l + j - k))%nat with (j + 1 * length l)%nat by lia. rewrite Nat.Div0.mod_add. by apply Nat.mod_small.
Qed.

(** ** The published lists *)

Definition by_priority (k : Z) (l : list IFACE_INFO) : list IFACE_INFO := filter (fun x => ii_Priority x = k) l.
Definition prio_le (a b : IFACE_INFO) : Prop := ii_Priority a <= ii_Priority b.

Lemma insert_after_sorted l x : Sorted prio_le l -> Sorted prio_le (insert_after l x).
Proof.
  induction l as [|y l IH]; intros Hs; simpl; [by repeat constructor|].
  destruct (Z.ltb_spec (ii_Priority y) (ii_Priority x)) as [Hlt|Hge].
  - apply Sorted_inv in Hs as [Hs Hd]. constructor; [by apply IH|].
    destruct l as [|z l]; simpl; [constructor; unfold prio_le; lia|].
    destruct (_ <? _); [by inversion Hd; constructor | constructor; unfold prio_le; lia].
  - constructor; [done | constructor; unfold prio_le; lia].
Qed.
Lemma insert_after_by k l x :
  Sorted prio_le l -> by_priority k (insert_after l x) = by_priority k [x] ++ by_priority k l.
Proof.
  unfold by_priority. induction l as [|y l IH]; intros Hs; [by rewrite app_nil_r|]. simpl.
  apply Sorted_inv in Hs as [Hs Hd].
  destruct (Z.ltb_spec (ii_Priority y) (ii_Priority x)) as [Hlt|Hge]; [|by rewrite !filter_cons; repeat case_decide].
  rewrite !filter_cons, IH by done. rewrite !filter_cons. repeat case_decide; try done. lia.
Qed.
Lemma insert_after_perm l x : insert_after l x ≡ₚ x :: l.
Proof.
  induction l as [|y l IH]; simpl; [done|]. destruct (_ <? _); [|done]. rewrite IH. apply Permutation_swap.
Qed.
Lemma SortedInsert_eq l x : SortedInsert l x = insert_after l x.
Proof.
  destruct l as [|y l]; [done|]. simpl. destruct (Z.leb_spec (ii_Priority x) (ii_Priority y)), (Z.ltb_spec (ii_Priority y) (ii_Priority x)); done || lia.
Qed.

(** C17: the lists of the published status are in the order of the priorities,
    hold what was inserted, and show the interfaces of one priority with the last
    inserted first: inserting is a stable sort of the reversed list. *)
Theorem SortedInsert_sorts l :
  let sorted := foldl SortedInsert [] l in
  Sorted prio_le sorted /\ sorted ≡ₚ l /\ forall k, by_priority k sorted = reverse (by_priority k l).
Proof.
  cbv zeta. induction l as [|x l IH] using rev_ind; [by repeat constructor|].
  rewrite foldl_app. simpl. rewrite SortedInsert_eq. destruct IH as (Hs & Hp & Hk). split; [by apply insert_after_sorted|]. split.
  - rewrite insert_after_perm, Hp. apply Permutation_cons_append.
  - intros k. rewrite insert_after_by, Hk by done. unfold by_priority. rewrite filter_app, reverse_app.
    f_equal. rewrite filter_cons. by case_decide.
Qed.

(** * Witnesses *)

#[local] Existing Instances MachineSystem.the_build MachineSystem.the_mapt MachineSystem.the_iface
  MachineSystem.the_platform.

(** One interface with one virtual interface [v], and its machine. *)
Definition sample_machine (sel : WANMGR_IFACE_SELECTION) (v : DML_VIRTUAL_IFACE) : St IC :=
  sample_state (WanMgr_IfaceSM_Init 0 0)
    (sample_db [(sample_iface 0 1 sel (v_Status v)) <| if_VirtIfList := [v] |>] [sample_group 1]).
(** It has an IPv4 lease it does not use yet. *)
Definition sample_leased : DML_VIRTUAL_IFACE :=
  (sample_vif WAN_IFACE_STATUS_VALIDATING) <| v_IP; ip_Ipv4Status := WAN_IFACE_IPV4_STATE_UP |>.
#[local] Abbreviation vif0 := (0%nat, 0%nat).

Lemma ism_edges_witness :
  exists s', ism_iteration WAN_STATE_OBTAINING_IP_ADDRESSES (sample_machine WAN_IFACE_ACTIVE sample_leased)
      = Some (Some WAN_STATE_IPV4_LEASED, s')
    /\ (WAN_STATE_IPV4_LEASED = WAN_STATE_OBTAINING_IP_ADDRESSES
        \/ WAN_STATE_IPV4_LEASED ∈ ism_succ WAN_STATE_OBTAINING_IP_ADDRESSES).
Proof.
  assert (fst <$> ism_iteration WAN_STATE_OBTAINING_IP_ADDRESSES (sample_machine WAN_IFACE_ACTIVE sample_leased)
    = Some (Some WAN_STATE_IPV4_LEASED)) as Ev by by vm_compute.
  destruct (ism_iteration _ _) as [[o s']|] eqn:E; [|done]. injection Ev as ->.
  exists s'. exact (conj eq_refl (ism_edges _ _ _ _ E)).
Defined.

Lemma ism_up_only_active_witness :
  exists o s' q, ism_iteration WAN_STATE_OBTAINING_IP_ADDRESSES (sample_machine WAN_IFACE_ACTIVE sample_leased) = Some (o, s')
    /\ status_at vif0 (sample_machine WAN_IFACE_ACTIVE sample_leased) <> Some WAN_IFACE_STATUS_UP
    /\ status_at vif0 s' = Some WAN_IFACE_STATUS_UP
    /\ (forall q', q' <> q -> status_at q' s' = status_at q' (sample_machine WAN_IFACE_ACTIVE sample_leased)).
Proof.
  assert ((fun x => status_at vif0 x.2) <$> ism_iteration WAN_STATE_OBTAINING_IP_ADDRESSES (sample_machine WAN_IFACE_ACTIVE sample_leased)
    = Some (Some WAN_IFACE_STATUS_UP)) as Ev by by vm_compute.
  destruct (ism_iteration _ _) as [[o s']|] eqn:E; [|done]. apply (inj Some) in Ev.
  destruct (ism_up_only_active _ _ _ _ E) as (q & Hq & _). exists o, s', q.
  split; [done|]. split; [by vm_compute|]. split; [exact Ev | exact Hq].
Defined.

Lemma ism_off_goes_down_witness :
  exists o s', ism_state 0%nat vif0 WAN_STATE_IPV4_LEASED (sample_machine WAN_IFACE_NOT_SELECTED sample_leased) = Some (o, s')
    /\ exists v', vif_at vif0 s' = Some v' /\ ip_Dhcp4cStatus (v_IP v') <> DHCPC_STARTED
      /\ ip_Dhcp6cStatus (v_IP v') <> DHCPC_STARTED /\ ip_SelectedModeTimerStatus (v_IP v') = NOTSTARTED
      /\ o = Some (if refresh_pending v' then WAN_STATE_REFRESHING_WAN else WAN_STATE_DECONFIGURING_WAN).
Proof.
  assert ((fun _ => tt) <$> ism_state 0%nat vif0 WAN_STATE_IPV4_LEASED (sample_machine WAN_IFACE_NOT_SELECTED sample_leased)
    = Some tt) as Ev by by vm_compute.
  destruct (ism_state _ _ _ _) as [[o s']|] eqn:E; [|done]. clear Ev. exists o, s'. split; [done|].
  apply (ism_off_goes_down 0 0 WAN_STATE_IPV4_LEASED (sample_machine WAN_IFACE_NOT_SELECTED sample_leased)
    ((sample_iface 0 1 WAN_IFACE_NOT_SELECTED (v_Status sample_leased)) <| if_VirtIfList := [sample_leased] |>) sample_leased o s');
    [done | done | done | done | by vm_compute | by vm_compute | by vm_compute | exact E].
Defined.

Lemma ism_deconfigured_exits_witness :
  exists s', wan_state_deconfiguring_wan vif0 (sample_machine WAN_IFACE_NOT_SELECTED sample_leased) = Some (WAN_STATE_EXIT, s')
    /\ vif_at vif0 s' = Some (sample_leased <| v_Status := WAN_IFACE_STATUS_DISABLED |> <| v_Reset := false |>
                             <| v_Interface_SM_Running := false |>).
Proof.
  assert ((fun _ => tt) <$> wan_state_deconfiguring_wan vif0 (sample_machine WAN_IFACE_NOT_SELECTED sample_leased)
    = Some tt) as Ev by by vm_compute.
  destruct (wan_state_deconfiguring_wan _ _) as [[st' s']|] eqn:E; [|done]. clear Ev.
  destruct (ism_deconfigured_exits vif0 (sample_machine WAN_IFACE_NOT_SELECTED sample_leased) sample_leased st' s' ltac:(by vm_compute) E) as (-> & Hv & _).
  exists s'. exact (conj eq_refl Hv).
Defined.

Definition sample_message : ipc_dhcpv4_data_t :=
  mk_ipc_dhcpv4_data_t "erouter0" true false "10.0.0.2" "255.255.255.0" "10.0.0.1" "10.0.0.3" "10.0.0.4"
    false 0 "" 3600 0 0 "" "Up" false 0.
Definition sample_offered : DML_VIRTUAL_IFACE :=
  (sample_vif WAN_IFACE_STATUS_VALIDATING) <| v_IP; ip_pIpcIpv4Data := Some sample_message |>.
Lemma dhcpv4_event_witness :
  exists r s', wanmgr_handle_dhcpv4_event_data vif0 (sample_machine WAN_IFACE_ACTIVE sample_offered) = Some (r, s')
    /\ r = ANSC_STATUS_SUCCESS /\ exists v', vif_at vif0 s' = Some v' /\ dhcpv4_effect sample_offered sample_message v'.
Proof.
  assert ((fun _ => tt) <$> wanmgr_handle_dhcpv4_event_data vif0 (sample_machine WAN_IFACE_ACTIVE sample_offered)
    = Some tt) as Ev by by vm_compute.
  destruct (wanmgr_handle_dhcpv4_event_data _ _) as [[r s']|] eqn:E; [|done]. clear Ev. exists r, s'. split; [done|].
  apply (dhcpv4_event vif0 (sample_machine WAN_IFACE_ACTIVE sample_offered) sample_offered sample_message r s' ltac:(by vm_compute) ltac:(by vm_compute) E).
Defined.

Definition sample_vlans : list DML_VLAN_IFACE_TABLE :=
  [mk_DML_VLAN_IFACE_TABLE 0 0 0 "Device.VLAN.1"; mk_DML_VLAN_IFACE_TABLE 1 0 0 "Device.VLAN.2";
   mk_DML_VLAN_IFACE_TABLE 2 0 0 "Device.VLAN.3"].
Definition sample_discovering : DML_VIRTUAL_IFACE :=
  (sample_vif WAN_IFACE_STATUS_INITIALISING) <| v_VLAN := zero_vlan <| vlan_Enable := true |>
    <| vlan_InterfaceList := sample_vlans |> <| vlan_ActiveIndex := 2 |> |>.
(** The VLAN in use goes down and its time expires. *)
Definition sample_failed (s : St IC) : St IC :=
  vif_set vif0 (fun v => v <| v_VLAN ::= fun x => x <| vlan_Status := WAN_IFACE_LINKSTATUS_DOWN |> <| vlan_Expired := true |> |>) s.
Definition sample_next_vlan (s : St IC) : St IC :=
  match wan_transition_wan_refreshed 0%nat vif0 (sample_failed s) with Some (_, s') => s' | None => s end.
Lemma sample_failure s :
  match vif_at vif0 s, vif_at vif0 (sample_failed s), (ifaces (sample_failed s) : list DML_WAN_IFACE) !! 0%nat,
        wan_transition_wan_refreshed 0%nat vif0 (sample_failed s) with
  | Some v, Some v1, Some J, Some _ =>
      vlan_choice (v_VLAN v1) = vlan_choice (v_VLAN v) /\ vlan_down v1 = true /\ vlan_Expired (v_VLAN v1) = true
      /\ vlan_Reset (v_VLAN v1) = false /\ if_IfaceType J <> REMOTE_IFACE
  | _, _, _, _ => False
  end -> vlan_failure vif0 s (sample_next_vlan s).
Proof.
  intros Hf. destruct (vif_at vif0 s) as [v|] eqn:Ev; [|done].
  destruct (vif_at vif0 (sample_failed s)) as [v1|] eqn:Ev1; [|done].
  destruct (ifaces (sample_failed s) !! 0%nat) as [J|] eqn:EJ; [|done].
  destruct (wan_transition_wan_refreshed 0%nat vif0 (sample_failed s)) as [[st s']|] eqn:E; [|done].
  exists (sample_failed s), v, v1, J, st. unfold sample_next_vlan. rewrite E. tauto.
Qed.
(** From the last VLAN, the second is the second that is tried. *)
Lemma vlan_discovery_tries_all_witness :
  let s0 := sample_machine WAN_IFACE_ACTIVE sample_discovering in
  nsteps (vlan_failure vif0) 2 s0 (sample_next_vlan (sample_next_vlan s0)) /\
  exists v' u, vif_at vif0 (sample_next_vlan (sample_next_vlan s0)) = Some v' /\ sample_vlans !! 1%nat = Some u
    /\ vlan_VLANInUse (v_VLAN v') = vt_Interface u /\ vlan_ActiveIndex (v_VLAN v') = vt_Index u.
Proof.
  cbv zeta. assert (nsteps (vlan_failure vif0) 2 (sample_machine WAN_IFACE_ACTIVE sample_discovering)
    (sample_next_vlan (sample_next_vlan (sample_machine WAN_IFACE_ACTIVE sample_discovering)))) as Hs.
  { eapply nsteps_l; [|apply nsteps_once]; apply sample_failure; by vm_compute. }
  split; [exact Hs|].
  refine (proj1 (vlan_discovery_tries_all vif0 (sample_machine WAN_IFACE_ACTIVE sample_discovering) sample_discovering
    sample_vlans 2 (mk_DML_VLAN_IFACE_TABLE 2 0 0 "Device.VLAN.3") _ _ _ _ _ _) 2%nat _ _ Hs);
    [by vm_compute | done | cbn; repeat constructor; set_solver | by repeat constructor | done | done | lia].
Defined.
