(* ===== verification/WanService.v ===== *)
(** What the selection policies of the builds without [WAN_MANAGER_UNIFICATION]
    call outside [wanmgr_policy_autowan_impl.c]: the state of the WAN service in
    [wanmgr_sysevents.c], the default route, the network interface and the
    IP monitor of [wanmgr_net_utils.c], and the requests to the component that
    owns an interface in [TR-181/middle_layer_src/wanmgr_rdkbus_utils.c].

    The WAN service writes its state into sysevents; a policy only reads them.
    What a command prints is the text its pipe answers. *)

From S2P Require Export Status.

Definition SYSEVENT_WAN_STATUS : string := "wan-status".
Definition SYSEVENT_WAN_SERVICE_STATUS : string := "wan_service-status".
Definition SYSEVENT_WAN_ROUTED_STATUS : string := "routed-status".
Definition SYSEVENT_WAN_START : string := "wan-start".
Definition SYSEVENT_WAN_STOP : string := "wan-stop".
Definition CMAGENT_COMPONENT_NAME : string := "eRT.com.cisco.spvtg.ccsp.cm".
Definition CMAGENT_COMP_NAME_WITHOUTSUBSYSTEM : string := "com.cisco.spvtg.ccsp.cm".
Definition CMAGENT_COMPONENT_PATH : string := "/com/cisco/spvtg/ccsp/cm".
Definition ETH_COMP_NAME_WITHOUTSUBSYSTEM : string := "com.cisco.spvtg.ccsp.ethagent".
Definition CELLULAR_COMP_NAME_WITHOUTSUBSYSTEM : string := "com.cisco.spvtg.ccsp.cellularmanager".
Definition IPMONITOR_WAIT_MAX_TIMEOUT : Z := 240.
Definition IPMONITOR_QUERY_INTERVAL : Z := 1.
Definition ENODEV : Z := 19.

(** A state sysevent of the WAN service: 1 started, 0 stopped, -1 neither. *)
Definition service_state (wan_st : string) : Z :=
  if wan_st ≟ "started" then 1 else if wan_st ≟ "stopped" then 0 else -1.
Definition bit (b : bool) : Z := if b then 1 else 0.

(** The component an interface path belongs to, without its subsystem, and its
    path; other paths leave the names empty. *)
Definition owner (path : string) : string * string :=
  if strstr path "CableModem" then (CMAGENT_COMP_NAME_WITHOUTSUBSYSTEM, CMAGENT_COMPONENT_PATH)
  else if strstr path "Ethernet" then (ETH_COMP_NAME_WITHOUTSUBSYSTEM, ETH_COMPONENT_PATH)
  else if strstr path "Cellular" then (CELLULAR_COMP_NAME_WITHOUTSUBSYSTEM, CELLULARMGR_DBUS_PATH)
  else (EmptyString, EmptyString).
Definition owner_full (path : string) : string * string :=
  if strstr path "CableModem" then (CMAGENT_COMPONENT_NAME, CMAGENT_COMPONENT_PATH)
  else if strstr path "Ethernet" then (ETH_COMPONENT_NAME, ETH_COMPONENT_PATH)
  else if strstr path "Cellular" then (CELLULARMGR_COMPONENT_NAME, CELLULARMGR_DBUS_PATH)
  else (EmptyString, EmptyString).

(** The first line of a pipe, as [fgets(buf, n, fp)] leaves it. *)
Definition first_line (n : nat) (text : string) : option string := head (fgets_lines n text).

Section WanService.
Context `{Platform} `{Build} `{MaptBuild} `{IfaceBuild} {C : Type}.
#[local] Abbreviation M := (Prelude.M (St C)).

(** ** The state of the WAN service *)

Definition wanmgr_isWanStandby : M Z :=
  wan_st <- sysevent_get SYSEVENT_WAN_STATUS ;; ret (bit (wan_st ≟ "standby")).
Definition wanmgr_isWanStarted : M Z :=
  wan_st <- sysevent_get SYSEVENT_WAN_STATUS ;; ret (bit (wan_st ≟ "started")).
Definition WanMgr_GetWanServiceStatus : M Z :=
  wan_st <- sysevent_get SYSEVENT_WAN_SERVICE_STATUS ;; ret (service_state wan_st).
Definition WanMgr_GetWanStatus : M Z :=
  wan_st <- sysevent_get SYSEVENT_WAN_STATUS ;; ret (service_state wan_st).
Definition WanMgr_GetWanRoutedStatus : M Z :=
  wan_st <- sysevent_get SYSEVENT_WAN_ROUTED_STATUS ;; ret (service_state wan_st).
Definition WanMgr_IsWanStopped : M Z :=
  service <- WanMgr_GetWanServiceStatus ;;
  wan <- WanMgr_GetWanStatus ;;
  routed <- WanMgr_GetWanRoutedStatus ;;
  ret (bit ((service =? 0) && (wan =? 0) && (routed =? 0))).
Definition wanmgr_setwanstart : M unit := sysevent_set SYSEVENT_WAN_START EmptyString.
Definition wanmgr_setwanstop : M unit := sysevent_set SYSEVENT_WAN_STOP EmptyString.

(** ** The network *)

Definition default_route_cmd (IsV4 : bool) : string :=
  (if IsV4 then "ip -4" else "ip -6") +:+ " route show default | grep default | awk '{print $5}'".
Definition IsDefaultRoutePresent (IfaceName : string) (IsV4 : bool) : M bool :=
  if IfaceName ≟ EmptyString then ret false
  else
    fp <- call_s (ExtCall "v_secure_popen" [default_route_cmd IsV4]) ;;
    if fst fp =? 0 then ret false
    else
      call_ (ExtCall "v_secure_pclose" []) ;;
      ret (match first_line 1024 (snd fp) with
           | Some line => match strtok_line line with Some token => IfaceName ≟ token | None => false end
           | None => false
           end).

Definition WanManager_IsNetworkInterfaceAvailable (IfaceName : string) : M bool :=
  skfd <- call (ExtCall "socket" ["AF_INET"; "SOCK_DGRAM"; "0"]) ;;
  if skfd =? -1 then ret false
  else
    r <- call (ExtCall "ioctl" ["SIOCGIFFLAGS"; IfaceName]) ;;
    gone <- (if r <? 0 then errno <- call (ExtCall "errno" []) ;; ret (errno =? ENODEV) else ret false) ;;
    call_ (ExtCall "close" []) ;;
    ret (negb gone).

(** An address is found when the pipe prints anything. *)
Definition prints (cmd : string) : M bool :=
  fp <- call_s (ExtCall "v_secure_popen" [cmd]) ;;
  if fst fp =? 0 then ret false
  else
    call_ (ExtCall "v_secure_pclose" []) ;;
    ret (match first_line 50 (snd fp) with Some _ => true | None => false end).
Definition IsIPObtained (pInterfaceName : string) : M Z :=
  v4 <- prints ("ip addr show " +:+ pInterfaceName +:+ " |grep -i 'inet ' |awk '{print $2}' |cut -f2 -d:") ;;
  if v4 : bool then ret 1
  else
    v6 <- prints ("ip addr show " +:+ pInterfaceName +:+ " |grep -i 'inet6 ' |grep -i 'Global' |awk '{print $2}'") ;;
    ret (if v6 : bool then 2 else 0).

(** One round of the loop of [ThreadWanMgr_MonitorAndUpdateIpStatus]; [None]
    leaves it, and the lock is not held while it sleeps. *)
Definition monitor_round (index counter : Z) : M (option Z) :=
  p <- WanMgr_GetIfaceData_locked index ;;
  match p with
  | None => ret None
  | Some i =>
      v <- get_vif (i, 0%nat) ;;
      ipstatus <- IsIPObtained (v_Name v) ;;
      if negb (ipstatus =? 0) then
        when (ipstatus =? 1) (set_ip (i, 0%nat) (fun x => x <| ip_Ipv4Status := WAN_IFACE_IPV4_STATE_UP |>)) ;;
        when (ipstatus =? 2) (set_ip (i, 0%nat) (fun x => x <| ip_Ipv6Status := WAN_IFACE_IPV6_STATE_UP |>)) ;;
        WanMgrDml_GetIfaceData_release ;;
        ret None
      else if IPMONITOR_WAIT_MAX_TIMEOUT <=? counter then
        set_ip (i, 0%nat) (fun x => x <| ip_Ipv4Status := WAN_IFACE_IPV4_STATE_DOWN |>
                                      <| ip_Ipv6Status := WAN_IFACE_IPV6_STATE_DOWN |>) ;;
        WanMgrDml_GetIfaceData_release ;;
        ret None
      else
        WanMgrDml_GetIfaceData_release ;;
        call_ (ExtCall "sleep" [dec IPMONITOR_QUERY_INTERVAL]) ;;
        ret (Some (u32 (counter + IPMONITOR_QUERY_INTERVAL)))
  end.
(** The loop, for at most [fuel] rounds: whether it ended. *)
Fixpoint ThreadWanMgr_MonitorAndUpdateIpStatus (fuel : nat) (index counter : Z) : M bool :=
  match fuel with
  | O => ret false
  | S fuel =>
      o <- monitor_round index counter ;;
      match o with
      | None => ret true
      | Some counter => ThreadWanMgr_MonitorAndUpdateIpStatus fuel index counter
      end
  end.

Definition WanMgr_StartIpMonitor (iface_index : Z) : M Z :=
  pIndex <- call (ExtCall "malloc" ["UINT"]) ;;
  if pIndex =? 0 then ret 0
  else call (PthreadCreate "ThreadWanMgr_MonitorAndUpdateIpStatus" [iface_index]).

(** ** The component of an interface *)

(** One round of the wait: the component is ready. *)
Definition component_ready (pPhyPath : string) : M bool :=
  let '(pCompName, pCompPath) := owner pPhyPath in
  r <- call_s (ExtCall "CcspBaseIf_getParameterValues"
         ["eRT." +:+ pCompName; pCompPath; pCompName +:+ ".Health"]) ;;
  ret ((fst r =? CCSP_SUCCESS) && (snd r ≟ "Green")).

(** The string of the answer is the parameter at fault, if there is one. *)
Definition WanMgr_RdkBus_SetRequestIfComponent (pPhyPath pInputparamName pInputParamValue : string)
    : M ANSC_STATUS :=
  let param_name := pPhyPath +:+ pInputparamName in
  let '(pCompName, pCompPath) := owner_full param_name in
  r <- call_s (ExtCall "CcspBaseIf_setParameterValues" [pCompName; pCompPath; param_name; pInputParamValue]) ;;
  ret (if negb (fst r =? CCSP_SUCCESS) && (snd r ≠? EmptyString) then ANSC_STATUS_FAILURE else ANSC_STATUS_SUCCESS).
End WanService.
