(* ===== verification/AutoWan.v ===== *)
(** [source/WanManager/wanmgr_policy_autowan_impl.c], the policy of the builds
    without [WAN_MANAGER_UNIFICATION]: its data, the WAN modes, and the actions
    of its state machines, the health check of the primary WAN and the DHCP
    client of a validation among them.

    One thread runs the policy for the local interfaces, in a fixed mode
    (primary or secondary only) or in the automatic mode ([AutoWanStates]),
    another one the backup policy for the remote interface ([BackupWan]).  [AutoWan_t] holds what the two threads
    keep: the controller of the mode that runs, that of the backup policy, and
    the static variables of the file.  A pointer to the active interface is its
    index, and its [VirtIfList->] the virtual interface of position 0. *)

From S2P Require Export WanService.

(** The compile-time switches of this file.  [FEATURE_TAD_HEALTH_CHECK] needs
    [WAN_FAILOVER_SUPPORTED] to compile. *)
Class AutoWanBuild := {
  WAN_FAILOVER_SUPPORTED : bool;
  FEATURE_TAD_HEALTH_CHECK : bool;
  INTEL_PUMA7 : bool;
  ENABLE_WANMODECHANGE_NOREBOOT : bool;
  (** [_SCER11BEL_PRODUCT_REQ_] *)
  SCER11BEL_PRODUCT_REQ : bool
}.

(** * Data *)

Inductive WcFmobPolicyState_t :=
| STATE_WAN_SELECTING_INTERFACE
| STATE_WAN_INTERFACE_DOWN
| STATE_WAN_INTERFACE_UP
| STATE_WAN_WAITING_FOR_INTERFACE
| STATE_AUTOWAN_VALIDATED_INTERFACE
| STATE_WAN_VALIDATED_INTERFACE
| STATE_WAN_CONFIGURING_INTERFACE
| STATE_WAN_DECONFIGURING_INTERFACE
| STATE_WAN_SCANNING_INTERFACE
| STATE_WAN_INTERFACE_ACTIVE
| STATE_WAN_INTERFACE_TEARDOWN
| STATE_WAN_EXIT.
#[export] Instance WcFmobPolicyState_t_eq_dec : EqDecision WcFmobPolicyState_t.
Proof. solve_decision. Defined.

Definition WAN_MODE_AUTO : Z := 0.
Definition WAN_MODE_SECONDARY : Z := 1.
Definition WAN_MODE_PRIMARY : Z := 2.
Definition WAN_MODE_UNKNOWN : Z := 3.
Definition ERT_MODE_IPV4 : Z := 1.
Definition ERT_MODE_IPV6 : Z := 2.
Definition ERT_MODE_DUAL : Z := 3.
Definition STATUS_DOWN : Z := 1.

Inductive SwitchOver_t :=
| STATUS_SWITCHOVER_UNKNOWN
| STATUS_SWITCHOVER_STOPED
| STATUS_SWITCHOVER_STARTED
| STATUS_SWITCHOVER_FAILED
| STATUS_SWITCHOVER_SUCCESS.
#[export] Instance SwitchOver_t_eq_dec : EqDecision SwitchOver_t.
Proof. solve_decision. Defined.

Inductive NetworkConnectivityCheck_t :=
| NET_CONNNECTIVITY_CHECK_DISABLED
| NET_CONNNECTIVITY_CHECK_ENABLED
| NET_CONNNECTIVITY_CHECK_STARTING
| NET_CONNNECTIVITY_CHECK_STOPPED
| NET_CONNNECTIVITY_CHECK_STARTED.
Definition check_val (state : NetworkConnectivityCheck_t) : Z :=
  match state with
  | NET_CONNNECTIVITY_CHECK_DISABLED => 0
  | NET_CONNNECTIVITY_CHECK_ENABLED => 1
  | NET_CONNNECTIVITY_CHECK_STARTING => 2
  | NET_CONNNECTIVITY_CHECK_STOPPED => 3
  | NET_CONNNECTIVITY_CHECK_STARTED => 4
  end.

Inductive WanStarCallSource_t := WAN_START_FOR_VALIDATION | WAN_START_FOR_BACKUP_WAN.
#[export] Instance WanStarCallSource_t_eq_dec : EqDecision WanStarCallSource_t.
Proof. solve_decision. Defined.

(** [aw_wanPolicyCtrl] and [aw_previousActiveInterfaceIndex] are
    [WanMgr_AutoWan_SMInfo_t]; the fixed modes have a controller alone.
    [RestorationDelayTimer] is its seconds; [v4Gateway],
    [is_v6_ip_configured] and [is_v6_ip_configured_fixed] are statics of
    functions. *)
Record AutoWan_t := mk_AutoWan {
  aw_wanPolicyCtrl : WanMgr_Policy_Controller_t;
  aw_previousActiveInterfaceIndex : Z;
  bw_wanPolicyCtrl : WanMgr_Policy_Controller_t;
  g_CurrentWanMode : Z;
  g_LastKnowWanMode : Z;
  g_SelectedWanMode : Z;
  v4Gateway : string;
  is_v6_ip_configured : bool;
  is_v6_ip_configured_fixed : bool;
  TelemetryRestoreStatus : SwitchOver_t;
  TelemetryBackUpStatus : SwitchOver_t;
  RestorationDelayTimer : Z;
  bRestorationDelayTimerStart : bool;
  RestorationDelayTimeout : Z
}.
#[export] Instance AutoWan_settable : Settable AutoWan_t :=
  settable! mk_AutoWan
  <aw_wanPolicyCtrl; aw_previousActiveInterfaceIndex; bw_wanPolicyCtrl; g_CurrentWanMode; g_LastKnowWanMode;
   g_SelectedWanMode; v4Gateway; is_v6_ip_configured; is_v6_ip_configured_fixed; TelemetryRestoreStatus;
   TelemetryBackUpStatus; RestorationDelayTimer; bRestorationDelayTimerStart; RestorationDelayTimeout>.

Definition WAN_PHY_NAME : string := "erouter0".
Definition SYSEVENT_NET_CONNECTIVITY_CHECK : string := "network_connectivity_check".
Definition PRIMARY_WAN_DHCPC_SOURCE_FILE : string := "/etc/udhcpc.script".
Definition BACKUP_WAN_DHCPC_PID_FILE : string := "/var/run/bkupwan_dhcpc.pid".
Definition BACKUP_WAN_DHCPC_SOURCE_FILE : string := "/etc/udhcpc_backupwan.script".
Definition BACKUP_WAN_DHCPC_SRC_RAMDOM_FILE : string := "/etc/udhcpc_backupwan_random.script".
Definition PRIMARY_WAN_DHCPC_PID_FILE : string := "/tmp/udhcpc_erouter0_random.pid".
Definition PARAM_NAME_REQUEST_PHY_STATUS : string := "RequestPhyStatus".
Definition PARAM_NAME_REQUEST_OPERATIONAL_STATUS : string := "RequestOperationalStatus".
Definition PARAM_NAME_CONFIGURE_WAN : string := "ConfigureWan".
Definition PARAM_NAME_CUSTOM_CONFIG_WAN : string := "CustomWanConfigUpdate".
Definition PARAM_NAME_POST_CFG_WAN_FINALIZE : string := "PostCfgWanFinalize".
Definition DMSB_TR181_PSM_EthLink_Root : string := "dmsb.EthLink.".
Definition DMSB_TR181_PSM_l3net_EthLink : string := "dmsb.l3net.1.EthLink".

(** The enumerator of a selection status, which the policies compare by order. *)
Definition selection_val (s : WANMGR_IFACE_SELECTION) : Z :=
  match s with
  | WAN_IFACE_UNKNOWN => 0 | WAN_IFACE_NOT_SELECTED => 1 | WAN_IFACE_VALIDATING => 2
  | WAN_IFACE_SELECTED => 3 | WAN_IFACE_ACTIVE => 4
  end.

Definition is_tad (v : DML_VIRTUAL_IFACE) : bool :=
  ip_ConnectivityCheckType (v_IP v) ≟ WAN_CONNECTIVITY_TYPE_TAD.
(** The two tests of the connectivity status of an interface. *)
Definition check_up (v : DML_VIRTUAL_IFACE) : bool :=
  (ip_Ipv4ConnectivityStatus (v_IP v) ≟ WAN_CONNECTIVITY_UP)
  || (ip_Ipv6ConnectivityStatus (v_IP v) ≟ WAN_CONNECTIVITY_UP).
Definition check_down (v : DML_VIRTUAL_IFACE) : bool :=
  (ip_Ipv4ConnectivityStatus (v_IP v) ≟ WAN_CONNECTIVITY_DOWN)
  && (ip_Ipv6ConnectivityStatus (v_IP v) ≟ WAN_CONNECTIVITY_DOWN).
Definition connectivity (st : CONNECTIVITY_STATUS) (x : DML_WANIFACE_IP) : DML_WANIFACE_IP :=
  x <| ip_Ipv4ConnectivityStatus := st |> <| ip_Ipv6ConnectivityStatus := st |>.
Definition check_settled (x : DML_WANIFACE_IP) : DML_WANIFACE_IP :=
  x <| ip_WCC_TypeChanged := false |> <| ip_RestartConnectivityCheck := false |>.

Fixpoint remove_colons (s : string) : string :=
  match s with
  | String c s => if c ≟ ":"%char then remove_colons s else String c (remove_colons s)
  | EmptyString => EmptyString
  end.

Section AutoWan.
Context `{Platform} `{Build} `{MaptBuild} `{IfaceBuild} `{AutoWanBuild}.
#[local] Abbreviation M := (Prelude.M (St AutoWan_t)).

(** * The WAN modes *)

Definition syscfg_set_commit (name value : string) : M bool :=
  r <- call (ExtCall "syscfg_set_commit" [name; value]) ;; ret (r =? 0).

(** [PSM_Get_Record_Value2] of a string record. *)
Definition psm_string (name : string) : M (option string) :=
  r <- call_s (PsmGet name) ;;
  if fst r =? CCSP_SUCCESS then
    ulRecordType <- call_s (ExtCall "ulRecordType" [name]) ;;
    call_ (ExtCall "freefunc" [name]) ;;
    ret (if snd ulRecordType ≟ "ccsp_string" then Some (snd r) else None)
  else ret None.
Definition eth_link_matches (name : string) (mode instance : Z) : M (option Z) :=
  linkName <- psm_string (DMSB_TR181_PSM_EthLink_Root +:+ dec (s32 instance) +:+ ".Name") ;;
  if bool_decide (linkName = Some name) then
    lower <- psm_string (DMSB_TR181_PSM_EthLink_Root +:+ dec (s32 instance) +:+ ".LowerLayerType") ;;
    ret (match lower with
         | Some lower =>
             if ((mode =? WAN_MODE_PRIMARY) && (lower ≟ "DOCSIS"))
                || ((mode =? WAN_MODE_SECONDARY) && (lower ≟ "Ethernet"))
             then Some instance else None
         | None => None
         end)
  else ret None.
(** The length and the elements of the array of instances are read apart. *)
Definition GetEthLink (name : string) (mode : Z) : M (option Z) :=
  r <- call (ExtCall "PsmGetNextLevelInstances" [DMSB_TR181_PSM_EthLink_Root]) ;;
  if negb (r =? CCSP_SUCCESS) then ret None
  else
    ulNumInstance <- call (ExtCall "ulNumInstance" []) ;;
    inst <- for_break (range (u32 ulNumInstance)) (fun i =>
      instance <- call (ExtCall "pInstanceArray" [dec i]) ;;
      eth_link_matches name mode (u32 instance)) ;;
    call_ (ExtCall "AnscFreeMemory" ["pInstanceArray"]) ;;
    ret inst.

Definition GetCurrentWanMode : M Z := get_ctl g_CurrentWanMode.
Definition SetCurrentWanMode (mode : Z) : M unit :=
  set_ctl (fun x => x <| g_CurrentWanMode := mode |>) ;;
  ok <- syscfg_set_commit "curr_wan_mode" (dec mode) ;;
  when ok (sysevent_set "current_wan_mode_update" (dec mode)) ;;
  when ((mode =? WAN_MODE_PRIMARY) || (mode =? WAN_MODE_SECONDARY)) (
    link <- GetEthLink "erouter0" mode ;;
    match link with
    | Some ethLinkInst =>
        WanMgr_RdkBus_SetParamValues PAM_COMPONENT_NAME PAM_DBUS_PATH "Device.IP.Interface.1.LowerLayers"
          ("Device.Ethernet.Link." +:+ dec ethLinkInst) ;;
        call_ (PsmSet DMSB_TR181_PSM_l3net_EthLink (dec ethLinkInst))
    | None => ret tt
    end).
Definition GetSelectedWanMode : M Z := get_ctl g_SelectedWanMode.
Definition SelectedWanMode (mode : Z) : M unit :=
  set_ctl (fun x => x <| g_SelectedWanMode := mode |>) ;;
  syscfg_set_commit "selected_wan_mode" (dec mode) ;; ret tt.
Definition mode_from_db (name : string) : M Z :=
  buf <- syscfg_get name ;; ret (match buf with Some buf => atoi buf | None => WAN_MODE_UNKNOWN end).
Definition GetSelectedWanModeFromDb : M Z := mode_from_db "selected_wan_mode".
Definition GetLastKnownWanModeFromDb : M Z := mode_from_db "last_wan_mode".
Definition GetLastKnownWanMode : M Z := get_ctl g_LastKnowWanMode.
Definition SetLastKnownWanMode (mode : Z) : M unit :=
  set_ctl (fun x => x <| g_LastKnowWanMode := mode |>) ;;
  syscfg_set_commit "last_wan_mode" (dec mode) ;; ret tt.

(** Without a selected mode the primary one is chosen. *)
Definition IntializeAutoWanConfig : M unit :=
  set_ctl (fun x => x <| g_CurrentWanMode := WAN_MODE_UNKNOWN |>) ;;
  last <- GetLastKnownWanModeFromDb ;;
  set_ctl (fun x => x <| g_LastKnowWanMode := last |> <| g_SelectedWanMode := WAN_MODE_AUTO |>) ;;
  out_value <- syscfg_get "selected_wan_mode" ;;
  match out_value with
  | Some out_value => set_ctl (fun x => x <| g_SelectedWanMode := atoi out_value |>)
  | None => SelectedWanMode WAN_MODE_PRIMARY
  end ;;
  when (last =? WAN_MODE_UNKNOWN) (set_ctl (fun x => x <| g_LastKnowWanMode := WAN_MODE_PRIMARY |>)) ;;
  SetCurrentWanMode WAN_MODE_UNKNOWN.

Definition AutoWan_BkupAndReboot : M unit :=
  call_ (ExtCall "syscfg_set" ["X_RDKCENTRAL-COM_LastRebootReason"; "WAN_Mode_Change"]) ;;
  syscfg_set_commit "X_RDKCENTRAL-COM_LastRebootCounter" "1" ;;
  WanMgr_RdkBus_SetParamValues PAM_COMPONENT_NAME PAM_DBUS_PATH
    "Device.X_CISCO_COM_DeviceControl.RebootDevice" "Device" ;;
  ret tt.

(** * Actions *)

Definition WanMgr_SetInterface (IfaceName state : string) : M unit :=
  if IfaceName ≟ EmptyString then ret tt
  else WanManager_DoSystemAction ("ip -4 link set " +:+ IfaceName +:+ " " +:+ state).
Definition set_accept_ra (IfaceName value : string) : M unit :=
  call_ (ExtCall "sysctl_iface_set" ["/proc/sys/net/ipv6/conf/%s/accept_ra"; IfaceName; value]).
Definition WanMgr_enable_ra (IfaceName : string) : M unit :=
  if IfaceName ≟ EmptyString then ret tt else set_accept_ra IfaceName "2".
Definition WanMgr_disable_ra (IfaceName : string) : M unit :=
  if IfaceName ≟ EmptyString then ret tt else set_accept_ra IfaceName "0".

Definition WanMgr_GetWanInterfaceType (iWanInterfaceIndex : Z) : M DML_WAN_IFACE_TYPE :=
  with_iface WAN_IFACE_TYPE_PRIMARY (u32 iWanInterfaceIndex) (fun i => I <- get_iface i ;; ret (if_Type I)).

(** Only the local interfaces count where there are remote ones. *)
Definition local_only (I : DML_WAN_IFACE) : bool :=
  negb WAN_FAILOVER_SUPPORTED || (if_IfaceType I ≟ LOCAL_IFACE).

Definition WanMgr_Policy_AutoWan_CfgPostWanSelection : M Z :=
  n <- WanMgr_IfaceData_GetTotalWanIface ;;
  for_each (range n) (fun uiWanIdx =>
    with_iface tt uiWanIdx (fun i =>
      I <- get_iface i ;;
      when (local_only I) (
        WanMgr_RdkBus_SetRequestIfComponent (if_BaseInterface I) PARAM_NAME_POST_CFG_WAN_FINALIZE
          (dec (s32 (if_uiInstanceNumber I))) ;; ret tt))) ;;
  ret 0.

(** The interface whose type is the last known mode. *)
Definition mode_matches (lastKnownMode : Z) (type : DML_WAN_IFACE_TYPE) : bool :=
  if lastKnownMode =? WAN_MODE_PRIMARY then type ≟ WAN_IFACE_TYPE_PRIMARY
  else if lastKnownMode =? WAN_MODE_SECONDARY then SCER11BEL_PRODUCT_REQ || (type ≟ WAN_IFACE_TYPE_SECONDARY)
  else false.
Definition WanMgr_Policy_AutoWan_GetLastKnownModeInterfaceIndex : M Z :=
  lastKnownMode <- GetLastKnownWanMode ;;
  n <- WanMgr_IfaceData_GetTotalWanIface ;;
  r <- for_break (range n) (fun iActiveWanIdx =>
    with_iface None iActiveWanIdx (fun i =>
      I <- get_iface i ;;
      ret (if local_only I && mode_matches lastKnownMode (if_Type I) then Some (s32 iActiveWanIdx) else None))) ;;
  ret (default (-1) r).

(** The selection status of the first remote interface that may be used. *)
Definition isAnyRemoteInterfaceActive : M Z :=
  n <- WanMgr_IfaceData_GetTotalWanIface ;;
  r <- for_acc (range n) (-1) (fun uiWanIdx acc =>
    o <- with_iface (acc, None) uiWanIdx (fun i =>
      I <- get_iface i ;;
      ret (if (if_IfaceType I ≟ REMOTE_IFACE) && sel_Enable (if_Selection I)
           then (selection_val (sel_Status (if_Selection I)), Some tt)
           else (selection_val WAN_IFACE_UNKNOWN, None))) ;;
    ret o) ;;
  ret (fst r).

(** A remote (or local) interface that may be used and whose check is good. *)
Definition any_check_good (type : IFACE_TYPE) : M bool :=
  n <- WanMgr_IfaceData_GetTotalWanIface ;;
  r <- for_acc (R := unit) (range n) false (fun uiWanIdx good =>
    good <- with_iface good uiWanIdx (fun i =>
      I <- get_iface i ;;
      ret (match head (if_VirtIfList I) with
           | Some v => good || (is_tad v && (if_IfaceType I ≟ type) && sel_Enable (if_Selection I) && check_up v)
           | None => good
           end)) ;;
    ret (good, None)) ;;
  ret (fst r).
Definition WanMgr_Policy_BackupWan_IsConnectivityCheckGood : M bool := any_check_good REMOTE_IFACE.

(** The interface is released twice when its check is restarted. *)
Definition restart_check (type : IFACE_TYPE) : M Z :=
  n <- WanMgr_IfaceData_GetTotalWanIface ;;
  r <- for_acc (R := unit) (range n) (-1) (fun uiWanIdx ret_ =>
    ret_ <- with_iface ret_ uiWanIdx (fun i =>
      I <- get_iface i ;;
      if sel_Enable (if_Selection I) && (if_IfaceType I ≟ type)
         && (if_BaseInterfaceStatus I ≟ WAN_IFACE_PHY_STATUS_UP) then
        v <- get_vif (i, 0%nat) ;;
        if is_tad v then
          set_ip (i, 0%nat) (fun x => x <| ip_RestartConnectivityCheck := true |>) ;;
          WanMgrDml_GetIfaceData_release ;;
          ret 0
        else ret ret_
      else ret ret_) ;;
    ret (ret_, None)) ;;
  ret (fst r).
Definition WanMgr_TriggerPrimaryDnsConnectivityRestart : M Z := restart_check LOCAL_IFACE.
Definition WanMgr_TriggerBackupDnsConnectivityRestart : M Z := restart_check REMOTE_IFACE.

(** ** The health check of the primary WAN ([FEATURE_TAD_HEALTH_CHECK]) *)

Definition vif0 (a : iface_ptr) : vif_ptr := (a, 0%nat).

Definition WanMgr_Ipv6Config (IfName : string) : M unit :=
  output <- sysevent_get "wan6_ipaddr" ;;
  ipv6_status <- sysevent_get "ipv6-status" ;;
  when ((output ≠? EmptyString) && (ipv6_status ≟ "up"))
    (WanManager_DoSystemAction ("ip -6 addr add " +:+ output +:+ "/128 dev " +:+ IfName)).

(** The route table of the Puma 7 platforms, or the script of the client. *)
Definition WanMgr_ConfigReset (Action IfName : string) : M unit :=
  if INTEL_PUMA7 then
    output <- sysevent_get "ipv4_router" ;;
    WanManager_DoSystemAction
      (if (output ≠? EmptyString) && (Action ≟ "configure")
       then "ip -4 route add table erouter default dev " +:+ IfName +:+ " via " +:+ output
       else if Action ≟ "deconfigure" then "ip -4 route del table erouter default dev " +:+ IfName
       else EmptyString)
  else WanManager_DoSystemAction ("sh " +:+ PRIMARY_WAN_DHCPC_SOURCE_FILE +:+ " " +:+ Action).

(** The first two words of a list of servers. *)
Definition WanMgr_BreakString (output : string) : string * string :=
  if strlen output <? 7 then (EmptyString, EmptyString)
  else match strtok " " output with
       | None => (EmptyString, EmptyString)
       | Some (primary, rest) =>
           (primary, match strtok " " rest with Some (secondary, _) => secondary | None => EmptyString end)
       end.

(** The servers go to the interface and its check is started, restarted or
    stopped, if there is a server to check.  [&&] binds tighter than [||]: the
    gateway only matters for the IPv6 servers. *)
Definition configure_check (p : vif_ptr) (v4 v6 : string * string) (gateway : string) (event : WCC_EVENT)
    : M ANSC_STATUS :=
  if (fst v4 ≠? EmptyString) || (snd v4 ≠? EmptyString)
     || (((fst v6 ≠? EmptyString) || (snd v6 ≠? EmptyString)) && (gateway ≠? EmptyString)) then
    set_ip p (fun x => x <| ip_Ipv4Data; v4_dnsServer := fst v4 |> <| ip_Ipv4Data; v4_dnsServer1 := snd v4 |>
                         <| ip_Ipv6Data; v6_nameserver := fst v6 |> <| ip_Ipv6Data; v6_nameserver1 := snd v6 |>
                         <| ip_Ipv4Data; v4_gateway := gateway |>) ;;
    WanMgr_Configure_TAD_WCC p event
  else ret ANSC_STATUS_SUCCESS.

(** The static gateway tells whether the gateway changed since the last call. *)
Definition WanMgr_Trigger_TAD (p : vif_ptr) (event : WCC_EVENT) : M ANSC_STATUS :=
  ipv4_dns <- sysevent_get "ipv4_dns" ;;
  wan6_ns <- sysevent_get "wan6_ns" ;;
  output <- sysevent_get "ipv4_router" ;;
  old <- get_ctl v4Gateway ;;
  let v4GatewayChanged := old ≠? output in
  when v4GatewayChanged (set_ctl (fun x => x <| v4Gateway := output |>)) ;;
  (if event ≟ WCC_STOP then set_ctl (fun x => x <| v4Gateway := EmptyString |>)
   else
     v <- get_vif p ;;
     WanMgr_Ipv6Config (v_Name v) ;;
     remote <- (if v4GatewayChanged then isAnyRemoteInterfaceActive else ret (selection_val WAN_IFACE_ACTIVE)) ;;
     when (negb (remote =? selection_val WAN_IFACE_ACTIVE)) (WanMgr_ConfigReset "configure" (v_Name v))) ;;
  gateway <- get_ctl v4Gateway ;;
  configure_check p (WanMgr_BreakString ipv4_dns) (WanMgr_BreakString wan6_ns) gateway event.
Definition WanMgr_Trigger_Backup_TAD (p : vif_ptr) (event : WCC_EVENT) : M ANSC_STATUS :=
  router <- sysevent_get "backupwan_router_addr" ;;
  ula <- sysevent_get "MeshWANInterface_UlaAddr" ;;
  configure_check p (WanMgr_BreakString router) (WanMgr_BreakString ula) router event.

Definition WanMgr_Sysevent_SetConnectivityCheckState (enable : bool) (state : NetworkConnectivityCheck_t)
    : M unit :=
  let val := if 0 <? check_val state then Z.shiftl 1 (check_val state - 1) else 0 in
  sysevent_set SYSEVENT_NET_CONNECTIVITY_CHECK (dec (if enable then Z.lor val 1 else val)).

Definition WanMgr_DnsCheckWaitForRemoteInActive (p : vif_ptr) : M unit :=
  buf <- sysevent_get SYSEVENT_NET_CONNECTIVITY_CHECK ;;
  standby <- wanmgr_isWanStandby ;;
  when (negb (Z.land (atoi buf) (Z.shiftl 1 (check_val NET_CONNNECTIVITY_CHECK_STARTING - 1)) =? 0)
        && (standby =? 1)) (
    remote <- isAnyRemoteInterfaceActive ;;
    when (negb (remote =? selection_val WAN_IFACE_ACTIVE)) (
      when WAN_FAILOVER_SUPPORTED (set_ctl (fun x => x <| TelemetryBackUpStatus := STATUS_SWITCHOVER_STOPED |>)) ;;
      v <- get_vif p ;;
      WanMgr_enable_ra (v_Name v) ;;
      WanMgr_ConfigReset "configure" (v_Name v) ;;
      (if is_tad v then WanMgr_Sysevent_SetConnectivityCheckState true NET_CONNNECTIVITY_CHECK_STARTED
       else WanMgr_Sysevent_SetConnectivityCheckState false NET_CONNNECTIVITY_CHECK_DISABLED) ;;
      wanmgr_setwanstart)).

(** ** The DHCP client of a validation ([WAN_FAILOVER_SUPPORTED]) *)

(** A process identifier file is its first line, without the newline. *)
Definition read_pid_file (pidfile : string) : M string :=
  fp <- call_s (ExtCall "fopen" [pidfile; "r"]) ;;
  if fst fp =? 0 then ret EmptyString
  else
    call_ (ExtCall "fclose" [pidfile]) ;;
    let output := default EmptyString (first_line 16 (snd fp)) in
    ret (match strchr (Ascii.ascii_of_nat 10) output with Some (t, _) => t | None => output end).
Definition WanMgr_Policy_CheckAndStopUDHCPClientOverWanInterface (ifname pidfile : string) : M unit :=
  output <- read_pid_file pidfile ;;
  when ((output ≠? EmptyString) && (0 <? atoi output)) (call_ (ExtCall "kill" [dec (atoi output); "SIGKILL"])) ;;
  call_ (ExtCall "unlink" [pidfile]).

Definition WanMgr_getUdhcpcClientID : M (option string) :=
  r <- call_s (ExtCall "platform_hal_GetBaseMacAddress" []) ;;
  let mac := remove_colons (snd r) in
  ret (if negb (fst r =? 0) || (mac ≟ EmptyString) then None else Some ("0x3D:" +:+ mac)).

(** 0 when the interface got a lease; the identifier is empty without a MAC. *)
Definition WanMgr_Policy_CheckAndStartUDHCPClientOverWanInterface (IfaceName : string)
    (enCallSource : WanStarCallSource_t) (pidfile script : string) : M Z :=
  available <- (if IfaceName ≟ EmptyString then ret false else WanManager_IsNetworkInterfaceAvailable IfaceName) ;;
  if negb available then ret (-1)
  else
    WanMgr_Policy_CheckAndStopUDHCPClientOverWanInterface IfaceName pidfile ;;
    clientId <- WanMgr_getUdhcpcClientID ;;
    r <- call (ExtCall "v_secure_system"
      ["/sbin/udhcpc -t 5 -n " +:+ (if enCallSource ≟ WAN_START_FOR_VALIDATION then "-q" else EmptyString)
         +:+ " -O 125 -i " +:+ IfaceName +:+ " -p " +:+ pidfile +:+ " -s " +:+ script
         +:+ " -x " +:+ default EmptyString clientId]) ;;
    ret (if negb (r =? 0) then -1 else 0).

(** ** The clients of the last known mode *)

(** The settings of the Puma 7 platforms: whether [udhcpc] and the dibbler
    client are used; without them the other clients are. *)
Definition puma7_clients : M (bool * bool) :=
  if INTEL_PUMA7 then
    udhcpc <- syscfg_get "UDHCPEnable_v2" ;;
    dibbler <- syscfg_get "dibbler_client_enable_v2" ;;
    ret (starts_with "true" (default EmptyString udhcpc), default EmptyString dibbler ≟ "yes")
  else ret (true, true).

(** The WAN starts in the mode of the interface: the clients of the other mode
    are stopped when the last active interface was of the other type. *)
Definition start_in_mode (type : DML_WAN_IFACE_TYPE) (stop_clients : M unit) : M unit :=
  previous <- get_ctl aw_previousActiveInterfaceIndex ;;
  previousType <- WanMgr_GetWanInterfaceType previous ;;
  when (previousType ≠? type) (
    wanmgr_setwanstop ;;
    v_secure_system "killall udhcpc" ;;
    stop_clients) ;;
  wanmgr_setwanstart ;;
  wanmgr_sshd_restart.

Definition stop_secondary_clients (udhcpc dibbler : bool) : M unit :=
  v_secure_system (if dibbler then "killall dibbler-client" else "killall ti_dhcpv6c") ;;
  v_secure_system (if udhcpc then "killall udhcpc" else "killall ti_udhcpc").
Definition stop_primary_clients (udhcpc dibbler : bool) : M unit :=
  if INTEL_PUMA7 then
    when udhcpc (v_secure_system "killall udhcpc") ;;
    when dibbler (v_secure_system "killall dibbler-client") ;;
    v_secure_system "killall ti_udhcpc" ;;
    v_secure_system "killall ti_dhcpv6c"
  else
    v_secure_system "killall udhcpc" ;;
    v_secure_system "killall dibbler-client".

(** The secondary interface is tried while the primary mode is the last one. *)
Definition try_secondary (name : string) (eRouterMode : Z) (dibbler : bool) : M unit :=
  if eRouterMode =? ERT_MODE_IPV6 then
    if dibbler then
      v_secure_system "killall dibbler-client" ;;
      v_secure_system "/etc/dibbler/dibbler-init.sh" ;;
      v_secure_system "/usr/sbin/dibbler-client start"
    else
      v_secure_system "killall ti_dhcpv6c" ;;
      v_secure_system ("ti_dhcp6c -plugin /lib/libgw_dhcp6plg.so -i " +:+ name +:+ " -p /var/run/erouter_dhcp6c.pid &")
  else when ((eRouterMode =? ERT_MODE_IPV4) || (eRouterMode =? ERT_MODE_DUAL)) (
    set_accept_ra name "2" ;;
    v_secure_system "killall udhcpc" ;;
    v_secure_system ("udhcpc -i " +:+ name +:+ " &")).
(** And the primary one while the secondary mode is. *)
Definition try_primary (name : string) (udhcpc : bool) : M unit :=
  v_secure_system "killall udhcpc" ;;
  set_accept_ra name "2" ;;
  if INTEL_PUMA7 then
    if udhcpc then
      v_secure_system "killall udhcpc" ;;
      v_secure_system ("/sbin/udhcpc -i " +:+ name +:+ " -p /tmp/udhcpc.erouter0.pid -s /etc/udhcpc.script &")
    else
      v_secure_system "killall ti_udhcpc" ;;
      v_secure_system ("ti_udhcpc -plugin /lib/libert_dhcpv4_plugin.so -i " +:+ name
        +:+ " -H DocsisGateway -p /var/run/eRT_ti_udhcpc.pid -B -b 4 &")
  else v_secure_system ("udhcpc -i " +:+ name +:+ " &").

Definition StartWanClients : M Z :=
  lastKnownMode <- GetLastKnownWanMode ;;
  c <- get_ctl aw_wanPolicyCtrl ;;
  match pc_pWanActiveIfaceData c with
  | None => ret STATUS_DOWN
  | Some a =>
      syscfg_get "wan_physical_ifname" ;;
      mode <- syscfg_get "last_erouter_mode" ;;
      let eRouterMode := match mode with Some mode => atoi mode | None => ERT_MODE_IPV4 end in
      clients <- puma7_clients ;;
      let '(udhcpc, dibbler) := clients in
      A <- get_iface a ;;
      v <- get_vif (vif0 a) ;;
      (if lastKnownMode =? WAN_MODE_PRIMARY then
         if if_Type A ≟ WAN_IFACE_TYPE_PRIMARY
         then start_in_mode WAN_IFACE_TYPE_PRIMARY (stop_secondary_clients udhcpc dibbler)
         else try_secondary (v_Name v) eRouterMode dibbler
       else when (lastKnownMode =? WAN_MODE_SECONDARY) (
         if if_Type A ≟ WAN_IFACE_TYPE_SECONDARY
         then start_in_mode WAN_IFACE_TYPE_SECONDARY (stop_primary_clients udhcpc dibbler)
         else try_primary (v_Name v) udhcpc)) ;;
      ret STATUS_DOWN
  end.
End AutoWan.
#[export] Hint Unfold vif0 syscfg_set_commit : monad.
