(* ===== verification/AutoWanStates.v ===== *)
(** [source/WanManager/wanmgr_policy_autowan_impl.c]: the transitions and states of
    the fixed modes and of the automatic mode, and the thread that runs them,
    [policy_step] being one round of it. *)

From S2P Require Export AutoWan.

Section AutoWanStates.
Context `{Platform} `{Build} `{MaptBuild} `{IfaceBuild} `{AutoWanBuild}.
#[local] Abbreviation M := (Prelude.M (St AutoWan_t)).

(** * Transitions *)

(** [pFixedInterface = &pWanController->pWanActiveIfaceData->data] *)
Definition with_active (none : WcFmobPolicyState_t) (body : iface_ptr -> M WcFmobPolicyState_t)
    : M WcFmobPolicyState_t :=
  c <- get_ctl aw_wanPolicyCtrl ;;
  match pc_pWanActiveIfaceData c with
  | None => ret none
  | Some a => body a
  end.
Definition set_wanPolicyCtrl (f : WanMgr_Policy_Controller_t -> WanMgr_Policy_Controller_t) : M unit :=
  set_ctl (fun x => x <| aw_wanPolicyCtrl ::= f |>).
Definition set_restore (st : SwitchOver_t) : M unit := set_ctl (fun x => x <| TelemetryRestoreStatus := st |>).
Definition set_backup (st : SwitchOver_t) : M unit := set_ctl (fun x => x <| TelemetryBackUpStatus := st |>).
Definition set_selection (a : iface_ptr) (st : WANMGR_IFACE_SELECTION) : M unit :=
  upd_iface a (fun I => I <| if_Selection; sel_Status := st |>).
Definition set_vif_status (a : iface_ptr) (st : DML_WAN_IFACE_STATUS) : M unit :=
  upd_vif (vif0 a) (fun v => v <| v_Status := st |>).
(** [if(TelemetryRestoreStatus == ...STARTED) { ...FAILED; }] and
    [if(... == STARTED || ... == FAILED) { ...SUCCESS; }], with their events. *)
Definition restore_failed : M unit :=
  st <- get_ctl TelemetryRestoreStatus ;;
  when (WAN_FAILOVER_SUPPORTED && (st ≟ STATUS_SWITCHOVER_STARTED))
    (set_restore STATUS_SWITCHOVER_FAILED ;; telemetry "WAN_RESTORE_FAIL_COUNT").
Definition restore_succeeded : M unit :=
  st <- get_ctl TelemetryRestoreStatus ;;
  when (WAN_FAILOVER_SUPPORTED && ((st ≟ STATUS_SWITCHOVER_STARTED) || (st ≟ STATUS_SWITCHOVER_FAILED)))
    (set_restore STATUS_SWITCHOVER_SUCCESS ;; telemetry "WAN_RESTORE_SUCCESS_COUNT").
(** A request to the component of the interface; its result is only logged. *)
Definition request (A : DML_WAN_IFACE) (name value : string) : M unit :=
  WanMgr_RdkBus_SetRequestIfComponent (if_BaseInterface A) name value ;; ret tt.
Definition request_instance (A : DML_WAN_IFACE) (name : string) : M unit :=
  request A name (dec (s32 (if_uiInstanceNumber A))).

(** The first setting of the health check; the lock is kept. *)
Definition Transition_Start : M WcFmobPolicyState_t :=
  sysevent_set SYSEVENT_NET_CONNECTIVITY_CHECK "0" ;;
  when FEATURE_TAD_HEALTH_CHECK (
    c <- get_ctl aw_wanPolicyCtrl ;;
    p <- WanMgr_GetIfaceData_locked (u32 (pc_activeInterfaceIdx c)) ;;
    match p with
    | Some a =>
        A <- get_iface a ;;
        match head (if_VirtIfList A) with
        | Some v => sysevent_set SYSEVENT_NET_CONNECTIVITY_CHECK (if is_tad v then "1" else "0")
        | None => ret tt
        end
    | None => ret tt
    end) ;;
  ret STATE_WAN_SELECTING_INTERFACE.

Definition Transition_WanInterfaceSelected : M WcFmobPolicyState_t :=
  with_active STATE_WAN_SELECTING_INTERFACE (fun a =>
    upd_iface a (fun I => I <| if_Selection; sel_ActiveLink := false |>) ;;
    upd_vif (vif0 a) (fun v => v <| v_VLAN; vlan_Status := WAN_IFACE_LINKSTATUS_DOWN |>) ;;
    set_selection a WAN_IFACE_NOT_SELECTED ;;
    upd_iface a (fun I => I <| if_InterfaceScanStatus := WAN_IFACE_STATUS_SCANNED |>) ;;
    set_ip (vif0 a) (fun x => x <| ip_Ipv4Status := WAN_IFACE_IPV4_STATE_UNKNOWN |>
                                <| ip_Ipv6Status := WAN_IFACE_IPV6_STATE_UNKNOWN |>) ;;
    set_vif_status a WAN_IFACE_STATUS_DISABLED ;;
    Update_Interface_Status ;;
    v <- get_vif (vif0 a) ;;
    WanMgr_disable_ra (v_Name v) ;;
    ret STATE_WAN_INTERFACE_DOWN).

Definition Transition_FixedWanInterfaceDown : M WcFmobPolicyState_t :=
  with_active STATE_WAN_SELECTING_INTERFACE (fun a =>
    set_selection a WAN_IFACE_NOT_SELECTED ;;
    set_vif_status a WAN_IFACE_STATUS_DISABLED ;;
    Update_Interface_Status ;;
    v <- get_vif (vif0 a) ;;
    when (FEATURE_TAD_HEALTH_CHECK && is_tad v) (
      WanMgr_ConfigReset "deconfigure" (v_Name v) ;;
      WanMgr_Trigger_TAD (vif0 a) WCC_STOP ;;
      set_ip (vif0 a) (connectivity WAN_CONNECTIVITY_DOWN) ;;
      WanMgr_Sysevent_SetConnectivityCheckState true NET_CONNNECTIVITY_CHECK_STOPPED) ;;
    wanmgr_setwanstop ;;
    when WAN_FAILOVER_SUPPORTED (set_backup STATUS_SWITCHOVER_STARTED) ;;
    WanMgr_disable_ra (v_Name v) ;;
    ret STATE_WAN_INTERFACE_DOWN).

(** The health check is starting with the WAN. *)
Definition check_starting (a : iface_ptr) : M unit :=
  v <- get_vif (vif0 a) ;;
  when (FEATURE_TAD_HEALTH_CHECK && is_tad v) (
    WanMgr_disable_ra (v_Name v) ;;
    set_ip (vif0 a) (connectivity WAN_CONNECTIVITY_UP) ;;
    WanMgr_Sysevent_SetConnectivityCheckState true NET_CONNNECTIVITY_CHECK_STARTING).

Definition Transition_FixedWanInterfaceUp : M WcFmobPolicyState_t :=
  with_active STATE_WAN_SELECTING_INTERFACE (fun a =>
    upd_iface a (fun I => I <| if_Selection; sel_ActiveLink := true |>) ;;
    set_vif_status a WAN_IFACE_STATUS_UP ;;
    when (negb WAN_FAILOVER_SUPPORTED) (set_selection a WAN_IFACE_ACTIVE ;; Update_Interface_Status) ;;
    check_starting a ;;
    wanmgr_setwanstart ;;
    ret STATE_WAN_INTERFACE_UP).

(** The WAN starts again with its check ([FEATURE_TAD_HEALTH_CHECK]). *)
Definition restart_with_check (a : iface_ptr) : M unit :=
  v <- get_vif (vif0 a) ;;
  when (is_tad v) (
    WanMgr_disable_ra (v_Name v) ;;
    WanMgr_Sysevent_SetConnectivityCheckState true NET_CONNNECTIVITY_CHECK_STARTING ;;
    wanmgr_setwanstart).
Definition Transition_FixedDnsConnectivityCheckUp : M WcFmobPolicyState_t :=
  with_active STATE_WAN_SELECTING_INTERFACE (fun a =>
    set_selection a WAN_IFACE_SELECTED ;;
    Update_Interface_Status ;;
    restart_with_check a ;;
    ret STATE_WAN_INTERFACE_UP).
Definition Transition_DnsConnectivityCheckUp : M WcFmobPolicyState_t :=
  with_active STATE_WAN_INTERFACE_ACTIVE (fun a =>
    set_selection a WAN_IFACE_SELECTED ;;
    Update_Interface_Status ;;
    restart_with_check a ;;
    ret STATE_WAN_INTERFACE_UP).

(** The body the three validations share.  The early return is 0, the number
    of [STATE_WAN_SELECTING_INTERFACE]. *)
Definition validating : M WcFmobPolicyState_t :=
  with_active STATE_WAN_SELECTING_INTERFACE (fun a =>
    c <- get_ctl aw_wanPolicyCtrl ;;
    A <- get_iface a ;;
    if negb (pc_WanEnable c) || negb (sel_Enable (if_Selection A))
       || (if_BaseInterfaceStatus A ≟ WAN_IFACE_PHY_STATUS_DOWN)
    then ret STATE_WAN_SELECTING_INTERFACE
    else
      v <- get_vif (vif0 a) ;;
      when (pc_activeInterfaceIdx c =? 0) (WanMgr_SetInterface (v_Name v) "up") ;;
      r <- WanMgr_Policy_CheckAndStartUDHCPClientOverWanInterface (v_Name v) WAN_START_FOR_VALIDATION
             PRIMARY_WAN_DHCPC_PID_FILE BACKUP_WAN_DHCPC_SRC_RAMDOM_FILE ;;
      if r =? 0 then
        set_selection a WAN_IFACE_SELECTED ;;
        Update_Interface_Status ;;
        ret STATE_WAN_VALIDATED_INTERFACE
      else ret STATE_WAN_SELECTING_INTERFACE).
Definition Transition_FixedWanInterfaceValidating : M WcFmobPolicyState_t := validating.
Definition Transition_AutoWanInterfaceValidating : M WcFmobPolicyState_t := validating.
Definition Transition_WanInterfaceValidating : M WcFmobPolicyState_t := validating.
(** [ret = validating(); if(ret) return ret;] *)
Definition validated_or (st : WcFmobPolicyState_t) (m : M WcFmobPolicyState_t) : M WcFmobPolicyState_t :=
  r <- m ;; ret (if r ≟ STATE_WAN_SELECTING_INTERFACE then st else r).

Definition Transition_FixedWanInterfaceActive : M WcFmobPolicyState_t := ret STATE_WAN_INTERFACE_ACTIVE.

Definition Transition_WanInterfaceTearDown : M WcFmobPolicyState_t :=
  with_active STATE_WAN_INTERFACE_TEARDOWN (fun a =>
    upd_iface a (fun I => I <| if_BaseInterfaceStatus := WAN_IFACE_PHY_STATUS_UNKNOWN |>) ;;
    set_selection a WAN_IFACE_NOT_SELECTED ;;
    set_vif_status a WAN_IFACE_STATUS_DISABLED ;;
    Update_Interface_Status ;;
    wanmgr_setwanstop ;;
    v <- get_vif (vif0 a) ;;
    WanMgr_disable_ra (v_Name v) ;;
    v_secure_system "killall dibbler-client" ;;
    v_secure_system "killall udhcpc" ;;
    ret STATE_WAN_INTERFACE_TEARDOWN).

(** The interface is asked for its operational status, or its addresses are
    looked for by the IP monitor. *)
Definition scan_interface (a : iface_ptr) : M WcFmobPolicyState_t :=
  StartWanClients ;;
  A <- get_iface a ;;
  (if if_MonitorOperStatus A then request_instance A PARAM_NAME_REQUEST_OPERATIONAL_STATUS
   else WanMgr_StartIpMonitor (if_uiIfaceIdx A) ;; ret tt) ;;
  ret STATE_WAN_SCANNING_INTERFACE.
Definition scan_reset (a : iface_ptr) : M unit :=
  upd_vif (vif0 a) (fun v => v <| v_OperationalStatus := WAN_OPERSTATUS_UNKNOWN |>) ;;
  set_ip (vif0 a) (fun x => x <| ip_Ipv4Status := WAN_IFACE_IPV4_STATE_UNKNOWN |>
                              <| ip_Ipv6Status := WAN_IFACE_IPV6_STATE_UNKNOWN |>) ;;
  set_selection a WAN_IFACE_SELECTED.
Definition Transition_WanInterfacePhyUp : M WcFmobPolicyState_t :=
  with_active STATE_WAN_SELECTING_INTERFACE (fun a =>
    scan_reset a ;;
    Update_Interface_Status ;;
    scan_interface a).
Definition Transition_WanInterfaceConfigured : M WcFmobPolicyState_t :=
  with_active STATE_WAN_SELECTING_INTERFACE (fun a =>
    scan_reset a ;;
    set_vif_status a WAN_IFACE_STATUS_DISABLED ;;
    Update_Interface_Status ;;
    scan_interface a).

(** The argument is the interface itself, locked by the caller. *)
Definition Transition_WaitingForInterface (a : iface_ptr) : M WcFmobPolicyState_t :=
  upd_iface a (fun I => I <| if_Selection; sel_ActiveLink := true |>
                          <| if_Selection; sel_Status := WAN_IFACE_NOT_SELECTED |>) ;;
  set_vif_status a WAN_IFACE_STATUS_DISABLED ;;
  Update_Interface_Status ;;
  upd_iface a (fun I => I <| if_BaseInterfaceStatus := WAN_IFACE_PHY_STATUS_UNKNOWN |>) ;;
  A <- get_iface a ;;
  when (if_BaseInterface A ≠? EmptyString) (request_instance A PARAM_NAME_REQUEST_PHY_STATUS) ;;
  ret STATE_WAN_WAITING_FOR_INTERFACE.

(** The mode of the interface becomes the current and the last known one; a
    change of mode reboots the device unless it may be made without. *)
Definition lock_mode (mode : Z) : M unit := SetLastKnownWanMode mode ;; SetCurrentWanMode mode.
Definition mode_detected (A : DML_WAN_IFACE) (mode : Z) : M unit :=
  lock_mode mode ;;
  if sel_RequiresReboot (if_Selection A) then AutoWan_BkupAndReboot else StartWanClients ;; ret tt.
Definition Transition_WanInterfaceUp : M WcFmobPolicyState_t :=
  lastKnownMode <- GetLastKnownWanMode ;;
  with_active STATE_WAN_INTERFACE_ACTIVE (fun a =>
    set_selection a WAN_IFACE_SELECTED ;;
    Update_Interface_Status ;;
    when (negb ENABLE_WANMODECHANGE_NOREBOOT)
      (upd_iface a (fun I => I <| if_Selection; sel_RequiresReboot := true |>)) ;;
    check_starting a ;;
    A <- get_iface a ;;
    (if lastKnownMode =? WAN_MODE_PRIMARY then
       if if_Type A ≟ WAN_IFACE_TYPE_SECONDARY then mode_detected A WAN_MODE_SECONDARY
       else lock_mode WAN_MODE_PRIMARY
     else when (lastKnownMode =? WAN_MODE_SECONDARY) (
       if if_Type A ≟ WAN_IFACE_TYPE_PRIMARY then mode_detected A WAN_MODE_PRIMARY
       else lock_mode WAN_MODE_SECONDARY)) ;;
    v <- get_vif (vif0 a) ;;
    when (FEATURE_TAD_HEALTH_CHECK && is_tad v) (
      WanMgr_Sysevent_SetConnectivityCheckState true NET_CONNNECTIVITY_CHECK_STARTING ;;
      wanmgr_setwanstart) ;;
    ret STATE_WAN_INTERFACE_UP).

Definition Transition_WanInterfaceActive : M WcFmobPolicyState_t :=
  with_active STATE_WAN_INTERFACE_ACTIVE (fun a =>
    set_selection a WAN_IFACE_ACTIVE ;;
    set_vif_status a WAN_IFACE_STATUS_UP ;;
    Update_Interface_Status ;;
    ret STATE_WAN_INTERFACE_ACTIVE).

(** The first local interface other than the active one becomes active. *)
Definition WanMgr_Policy_AutoWan_SelectAlternateInterface : M WcFmobPolicyState_t :=
  c <- get_ctl aw_wanPolicyCtrl ;;
  n <- WanMgr_IfaceData_GetTotalWanIface ;;
  r <- for_break (range n) (fun uiWanIdx =>
    with_iface None uiWanIdx (fun i =>
      I <- get_iface i ;;
      active <- (match pc_pWanActiveIfaceData c with
                 | Some a => A <- get_iface a ;; ret (Some (if_uiIfaceIdx A))
                 | None => ret None
                 end) ;;
      match active with
      | Some active =>
          if local_only I && negb (active =? uiWanIdx) then
            set_ctl (fun x => x <| aw_previousActiveInterfaceIndex := pc_activeInterfaceIdx (aw_wanPolicyCtrl x) |>) ;;
            set_wanPolicyCtrl (fun c => c <| pc_activeInterfaceIdx := s32 uiWanIdx |>) ;;
            st <- Transition_WaitingForInterface i ;;
            ret (Some st)
          else ret None
      | None => ret None
      end)) ;;
  ret (default STATE_WAN_WAITING_FOR_INTERFACE r).

(** * States *)

(** [#ifdef FEATURE_TAD_HEALTH_CHECK]: the interface is not checked, or the
    service has the state. *)
Definition unchecked_or (v : DML_VIRTUAL_IFACE) (status : M Z) (value : Z) : M bool :=
  if FEATURE_TAD_HEALTH_CHECK && is_tad v then st <- status ;; ret (st =? value) else ret true.
(** The remote interface carries the traffic and this one is not checked. *)
Definition wait_for_remote (v : DML_VIRTUAL_IFACE) : M bool :=
  if WAN_FAILOVER_SUPPORTED then
    remote <- isAnyRemoteInterfaceActive ;;
    ret ((remote =? selection_val WAN_IFACE_ACTIVE) && negb (FEATURE_TAD_HEALTH_CHECK && is_tad v))
  else ret false.
(** The remote interface is there and does not carry the traffic any more. *)
Definition remote_released : M bool :=
  remote <- isAnyRemoteInterfaceActive ;;
  ret ((0 <? remote) && negb (remote =? selection_val WAN_IFACE_ACTIVE)).
Definition phy_down (a : iface_ptr) : M bool :=
  A <- get_iface a ;;
  if if_BaseInterfaceStatus A ≟ WAN_IFACE_PHY_STATUS_DOWN then
    v <- get_vif (vif0 a) ;; unchecked_or v WanMgr_GetWanServiceStatus 1
  else ret false.

(** [State_SelectingWanInterface] of the fixed modes. *)
Definition State_SelectingWanInterface : M WcFmobPolicyState_t :=
  idx <- WanMgr_Policy_AutoWan_GetLastKnownModeInterfaceIndex ;;
  set_wanPolicyCtrl (fun c => c <| pc_activeInterfaceIdx := idx |>) ;;
  if negb (idx =? -1) then Transition_WanInterfaceSelected else ret STATE_WAN_SELECTING_INTERFACE.

Definition State_FixedWanInterfaceDown : M WcFmobPolicyState_t :=
  with_active STATE_WAN_SELECTING_INTERFACE (fun a =>
    c <- get_ctl aw_wanPolicyCtrl ;;
    if negb (pc_WanEnable c) then Transition_WanInterfaceTearDown
    else
      A <- get_iface a ;;
      v <- get_vif (vif0 a) ;;
      if ((if_BaseInterfaceStatus A ≟ WAN_IFACE_PHY_STATUS_UP)
          || (if_BaseInterfaceStatus A ≟ WAN_IFACE_PHY_STATUS_INITIALIZING))
         && (v_Status v ≟ WAN_IFACE_STATUS_DISABLED)
      then
        when WAN_FAILOVER_SUPPORTED (set_backup STATUS_SWITCHOVER_STOPED) ;;
        wait <- wait_for_remote v ;;
        if wait : bool then validated_or STATE_WAN_INTERFACE_DOWN Transition_FixedWanInterfaceValidating
        else
          go <- unchecked_or v WanMgr_GetWanStatus 0 ;;
          if go : bool then
            set_selection a WAN_IFACE_SELECTED ;;
            Update_Interface_Status ;;
            Transition_FixedWanInterfaceUp
          else ret STATE_WAN_INTERFACE_DOWN
      else ret STATE_WAN_INTERFACE_DOWN).

(** [if(WanMgr_Trigger_TAD(...) == ANSC_STATUS_SUCCESS) { body }] *)
Definition on_success (m : M ANSC_STATUS) (body : M unit) : M unit :=
  r <- m ;; when (r ≟ ANSC_STATUS_SUCCESS) body.
Definition trigger (a : iface_ptr) (event : WCC_EVENT) (body : M unit) : M unit :=
  on_success (WanMgr_Trigger_TAD (vif0 a) event) body.

(** The health check while the WAN starts; the automatic mode waits for the
    remote interface whether the type of the check changed or not. *)
Definition check_while_up (automatic : bool) (a : iface_ptr) : M unit :=
  v <- get_vif (vif0 a) ;;
  if is_tad v then
    if check_down v && ip_WCC_TypeChanged (v_IP v) then trigger a WCC_START (set_ip (vif0 a) check_settled)
    else when (check_up v) (
      standby <- wanmgr_isWanStandby ;;
      when (ip_RestartConnectivityCheck (v_IP v) && (standby =? 1))
        (trigger a WCC_START (set_ip (vif0 a) (fun x => x <| ip_RestartConnectivityCheck := false |>))) ;;
      WanMgr_DnsCheckWaitForRemoteInActive (vif0 a))
  else
    when (automatic || ip_WCC_TypeChanged (v_IP v)) (WanMgr_DnsCheckWaitForRemoteInActive (vif0 a)) ;;
    when (ip_WCC_TypeChanged (v_IP v)) (
      trigger a WCC_STOP (set_ip (vif0 a) (fun x => check_settled (connectivity WAN_CONNECTIVITY_DOWN x)))).
(** The IPv6 address is configured once per start of the WAN. *)
Definition configure_v6_once (a : iface_ptr) (configured : AutoWan_t -> bool) (put : bool -> AutoWan_t -> AutoWan_t)
    : M unit :=
  started <- wanmgr_isWanStarted ;;
  done_ <- get_ctl configured ;;
  when ((started =? 1) && negb done_) (
    set_ctl (put true) ;;
    v <- get_vif (vif0 a) ;;
    WanMgr_Ipv6Config (v_Name v)).
Definition put_fixed (b : bool) (x : AutoWan_t) : AutoWan_t := x <| is_v6_ip_configured_fixed := b |>.
Definition put_auto (b : bool) (x : AutoWan_t) : AutoWan_t := x <| is_v6_ip_configured := b |>.
Definition wan_running : M bool :=
  started <- wanmgr_isWanStarted ;;
  service <- WanMgr_GetWanServiceStatus ;;
  ret ((started =? 1) && (service =? 1)).
Definition default_route (a : iface_ptr) : M bool :=
  v <- get_vif (vif0 a) ;;
  v4 <- IsDefaultRoutePresent (v_Name v) true ;;
  if v4 : bool then ret true else IsDefaultRoutePresent (v_Name v) false.

(** The static variable of the fixed mode is only reset with the backup WAN. *)
Definition State_FixedWanInterfaceUp : M WcFmobPolicyState_t :=
  with_active STATE_WAN_INTERFACE_DOWN (fun a =>
    c <- get_ctl aw_wanPolicyCtrl ;;
    if negb (pc_WanEnable c) then Transition_WanInterfaceTearDown
    else
      down <- phy_down a ;;
      if down : bool then Transition_FixedWanInterfaceDown
      else
        when FEATURE_TAD_HEALTH_CHECK (
          check_while_up false a ;;
          configure_v6_once a is_v6_ip_configured_fixed put_fixed) ;;
        if WAN_FAILOVER_SUPPORTED then
          running <- wan_running ;;
          if running : bool then
            restore_succeeded ;;
            route <- default_route a ;;
            if route : bool then
              set_ctl (put_fixed false) ;;
              set_selection a WAN_IFACE_ACTIVE ;;
              Update_Interface_Status ;;
              Transition_FixedWanInterfaceActive
            else ret STATE_WAN_INTERFACE_UP
          else ret STATE_WAN_INTERFACE_UP
        else ret STATE_WAN_INTERFACE_UP).

Definition State_FixedWanInterfaceValidated : M WcFmobPolicyState_t :=
  with_active STATE_WAN_VALIDATED_INTERFACE (fun a =>
    c <- get_ctl aw_wanPolicyCtrl ;;
    if negb (pc_WanEnable c) then Transition_WanInterfaceTearDown
    else
      A <- get_iface a ;;
      if (if_BaseInterfaceStatus A ≟ WAN_IFACE_PHY_STATUS_DOWN)
         || (sel_Status (if_Selection A) ≟ WAN_IFACE_NOT_SELECTED)
      then Transition_FixedWanInterfaceDown
      else
        released <- remote_released ;;
        if released : bool then set_restore STATUS_SWITCHOVER_STARTED ;; Transition_FixedWanInterfaceUp
        else ret STATE_WAN_VALIDATED_INTERFACE).

(** The health check while the WAN carries the traffic: [true] when the remote
    WAN is to take it over. *)
Definition check_while_active (a : iface_ptr) : M bool :=
  v <- get_vif (vif0 a) ;;
  if is_tad v then
    when (check_down v && ip_WCC_TypeChanged (v_IP v)) (
      trigger a WCC_START (
        WanMgr_Sysevent_SetConnectivityCheckState false NET_CONNNECTIVITY_CHECK_STARTED ;;
        set_ip (vif0 a) check_settled)) ;;
    remote <- isAnyRemoteInterfaceActive ;;
    good <- WanMgr_Policy_BackupWan_IsConnectivityCheckGood ;;
    v <- get_vif (vif0 a) ;;
    if (selection_val WAN_IFACE_SELECTED <=? remote) && good && check_down v then
      WanMgr_Sysevent_SetConnectivityCheckState true NET_CONNNECTIVITY_CHECK_STARTING ;;
      wanmgr_setwanstop ;;
      WanMgr_disable_ra (v_Name v) ;;
      WanMgr_ConfigReset "deconfigure" (v_Name v) ;;
      when WAN_FAILOVER_SUPPORTED (set_backup STATUS_SWITCHOVER_STARTED) ;;
      ret true
    else ret false
  else
    when (ip_WCC_TypeChanged (v_IP v)) (
      trigger a WCC_STOP (
        WanMgr_Sysevent_SetConnectivityCheckState false NET_CONNNECTIVITY_CHECK_DISABLED ;;
        set_ip (vif0 a) (fun x => check_settled (connectivity WAN_CONNECTIVITY_DOWN x)))) ;;
    ret false.
Definition restart_check_if_asked (a : iface_ptr) : M unit :=
  v <- get_vif (vif0 a) ;;
  when (ip_RestartConnectivityCheck (v_IP v))
    (trigger a WCC_RESTART (set_ip (vif0 a) (fun x => x <| ip_RestartConnectivityCheck := false |>))).

Definition State_FixedWanInterfaceActive : M WcFmobPolicyState_t :=
  with_active STATE_WAN_INTERFACE_DOWN (fun a =>
    c <- get_ctl aw_wanPolicyCtrl ;;
    if negb (pc_WanEnable c) then Transition_WanInterfaceTearDown
    else
      down <- phy_down a ;;
      if down : bool then Transition_FixedWanInterfaceDown
      else if FEATURE_TAD_HEALTH_CHECK then
        switch <- check_while_active a ;;
        if switch : bool then Transition_FixedDnsConnectivityCheckUp
        else
          restart_check_if_asked a ;;
          ret STATE_WAN_INTERFACE_ACTIVE
      else ret STATE_WAN_INTERFACE_ACTIVE).

Definition State_WanInterfaceTearDown : M WcFmobPolicyState_t :=
  with_active STATE_WAN_INTERFACE_TEARDOWN (fun _ =>
    c <- get_ctl aw_wanPolicyCtrl ;;
    if pc_WanEnable c then
      stored <- GetSelectedWanModeFromDb ;;
      if negb (pc_WanOperationalMode c =? stored) then ret STATE_WAN_EXIT
      else
        selected <- GetSelectedWanMode ;;
        current <- GetCurrentWanMode ;;
        ret (if (selected =? WAN_MODE_AUTO) && (current =? WAN_MODE_UNKNOWN)
             then STATE_WAN_SELECTING_INTERFACE else STATE_WAN_INTERFACE_DOWN)
    else ret STATE_WAN_INTERFACE_TEARDOWN).

(** ** The states of the automatic mode *)

(** [State_AutoWanInterfaceValidated] and [State_WanInterfaceValidated] go down
    without stopping the WAN. *)
Definition validated_down (a : iface_ptr) : M WcFmobPolicyState_t :=
  set_vif_status a WAN_IFACE_STATUS_DISABLED ;;
  set_selection a WAN_IFACE_NOT_SELECTED ;;
  Update_Interface_Status ;;
  ret STATE_WAN_INTERFACE_DOWN.
Definition validated_state (st : WcFmobPolicyState_t) (remote_gone : M WcFmobPolicyState_t)
    : M WcFmobPolicyState_t :=
  with_active st (fun a =>
    c <- get_ctl aw_wanPolicyCtrl ;;
    if negb (pc_WanEnable c) then Transition_WanInterfaceTearDown
    else
      A <- get_iface a ;;
      if (if_BaseInterfaceStatus A ≟ WAN_IFACE_PHY_STATUS_DOWN)
         || (sel_Status (if_Selection A) ≟ WAN_IFACE_NOT_SELECTED)
      then validated_down a
      else
        released <- remote_released ;;
        if released : bool then remote_gone else ret st).
Definition State_AutoWanInterfaceValidated : M WcFmobPolicyState_t :=
  validated_state STATE_AUTOWAN_VALIDATED_INTERFACE (
    set_restore STATUS_SWITCHOVER_STARTED ;; Transition_WanInterfacePhyUp).
Definition State_WanInterfaceValidated : M WcFmobPolicyState_t :=
  validated_state STATE_WAN_VALIDATED_INTERFACE (
    wanmgr_setwanstart ;;
    wan_st <- sysevent_get SYSEVENT_WAN_SERVICE_STATUS ;;
    if (wan_st ≟ "starting") || (wan_st ≟ "started") then
      wanmgr_sshd_restart ;;
      set_restore STATUS_SWITCHOVER_STARTED ;;
      Transition_WanInterfaceUp
    else ret STATE_WAN_VALIDATED_INTERFACE).

Definition State_WanConfiguringInterface : M WcFmobPolicyState_t :=
  with_active STATE_WAN_WAITING_FOR_INTERFACE (fun a =>
    c <- get_ctl aw_wanPolicyCtrl ;;
    if negb (pc_WanEnable c) then Transition_WanInterfaceTearDown
    else
      A <- get_iface a ;;
      base <- (if if_WanConfigEnabled A
               then WanMgr_RdkBus_SetRequestIfComponent (if_BaseInterface A) PARAM_NAME_CONFIGURE_WAN "true"
               else ret ANSC_STATUS_SUCCESS) ;;
      custom <- (if (base ≟ ANSC_STATUS_SUCCESS) && if_CustomConfigEnable A
                 then WanMgr_RdkBus_SetRequestIfComponent (if_CustomConfigPath A) PARAM_NAME_CUSTOM_CONFIG_WAN "true"
                 else ret base) ;;
      if custom ≟ ANSC_STATUS_FAILURE then ret STATE_WAN_DECONFIGURING_INTERFACE
      else
        remote <- (if WAN_FAILOVER_SUPPORTED then isAnyRemoteInterfaceActive else ret (-1)) ;;
        if remote =? selection_val WAN_IFACE_ACTIVE then
          v <- get_vif (vif0 a) ;;
          WanMgr_disable_ra (v_Name v) ;;
          validated_or STATE_WAN_CONFIGURING_INTERFACE Transition_AutoWanInterfaceValidating
        else Transition_WanInterfaceConfigured).

(** The results of the requests are not read. *)
Definition State_WanDeConfiguringInterface : M WcFmobPolicyState_t :=
  with_active STATE_WAN_SELECTING_INTERFACE (fun a =>
    c <- get_ctl aw_wanPolicyCtrl ;;
    if negb (pc_WanEnable c) then Transition_WanInterfaceTearDown
    else
      upd_iface a (fun I => I <| if_Selection; sel_ActiveLink := false |>) ;;
      A <- get_iface a ;;
      when (if_CustomConfigEnable A)
        (WanMgr_RdkBus_SetRequestIfComponent (if_CustomConfigPath A) PARAM_NAME_CUSTOM_CONFIG_WAN "false" ;; ret tt) ;;
      when (if_WanConfigEnabled A) (request A PARAM_NAME_CONFIGURE_WAN "false") ;;
      ret STATE_WAN_SELECTING_INTERFACE).

(** What the scan found: the WAN works, it does not, or nothing yet. *)
Definition scan_result (A : DML_WAN_IFACE) (v : DML_VIRTUAL_IFACE) : option bool :=
  if if_MonitorOperStatus A then
    match v_OperationalStatus v with
    | WAN_OPERSTATUS_OPERATIONAL => Some true
    | WAN_OPERSTATUS_NOT_OPERATIONAL => Some false
    | WAN_OPERSTATUS_UNKNOWN => None
    end
  else if (ip_Ipv4Status (v_IP v) ≟ WAN_IFACE_IPV4_STATE_UP) || (ip_Ipv6Status (v_IP v) ≟ WAN_IFACE_IPV6_STATE_UP)
  then Some true
  else if (ip_Ipv4Status (v_IP v) ≟ WAN_IFACE_IPV4_STATE_DOWN) && (ip_Ipv6Status (v_IP v) ≟ WAN_IFACE_IPV6_STATE_DOWN)
  then Some false else None.
Definition State_WanScanningInterface : M WcFmobPolicyState_t :=
  with_active STATE_WAN_SCANNING_INTERFACE (fun a =>
    c <- get_ctl aw_wanPolicyCtrl ;;
    if negb (pc_WanEnable c) then Transition_WanInterfaceTearDown
    else
      A <- get_iface a ;;
      v <- get_vif (vif0 a) ;;
      match scan_result A v with
      | Some true =>
          restore_succeeded ;;
          WanMgr_Policy_AutoWan_CfgPostWanSelection ;;
          Transition_WanInterfaceUp
      | Some false => restore_failed ;; ret STATE_WAN_DECONFIGURING_INTERFACE
      | None => ret STATE_WAN_SCANNING_INTERFACE
      end).

(** The WAN went down: [State_WanInterfaceActive] and [State_WanInterfaceUp]. *)
Definition auto_going_down (a : iface_ptr) : M WcFmobPolicyState_t :=
  v <- get_vif (vif0 a) ;;
  when (FEATURE_TAD_HEALTH_CHECK && is_tad v) (
    WanMgr_ConfigReset "deconfigure" (v_Name v) ;;
    set_ip (vif0 a) (connectivity WAN_CONNECTIVITY_DOWN) ;;
    WanMgr_Trigger_TAD (vif0 a) WCC_STOP ;;
    WanMgr_Sysevent_SetConnectivityCheckState true NET_CONNNECTIVITY_CHECK_STOPPED) ;;
  wanmgr_setwanstop ;;
  WanMgr_disable_ra (v_Name v) ;;
  when WAN_FAILOVER_SUPPORTED (set_backup STATUS_SWITCHOVER_STARTED) ;;
  ret STATE_WAN_INTERFACE_DOWN.
Definition auto_status_down (a : iface_ptr) : M unit :=
  set_vif_status a WAN_IFACE_STATUS_DISABLED ;;
  set_selection a WAN_IFACE_NOT_SELECTED ;;
  Update_Interface_Status.
Definition State_WanInterfaceActive : M WcFmobPolicyState_t :=
  with_active STATE_WAN_INTERFACE_ACTIVE (fun a =>
    c <- get_ctl aw_wanPolicyCtrl ;;
    if negb (pc_WanEnable c) then Transition_WanInterfaceTearDown
    else
      down <- phy_down a ;;
      if down : bool then auto_status_down a ;; auto_going_down a
      else if FEATURE_TAD_HEALTH_CHECK then
        switch <- check_while_active a ;;
        st <- (if switch : bool then Transition_DnsConnectivityCheckUp else ret STATE_WAN_INTERFACE_ACTIVE) ;;
        restart_check_if_asked a ;;
        ret st
      else ret STATE_WAN_INTERFACE_ACTIVE).
Definition State_WanInterfaceUp : M WcFmobPolicyState_t :=
  with_active STATE_WAN_INTERFACE_UP (fun a =>
    c <- get_ctl aw_wanPolicyCtrl ;;
    if negb (pc_WanEnable c) then Transition_WanInterfaceTearDown
    else
      down <- phy_down a ;;
      if down : bool then
        auto_status_down a ;;
        v <- get_vif (vif0 a) ;;
        WanMgr_disable_ra (v_Name v) ;;
        auto_going_down a
      else
        when FEATURE_TAD_HEALTH_CHECK (
          check_while_up true a ;;
          configure_v6_once a is_v6_ip_configured put_auto) ;;
        running <- wan_running ;;
        if running : bool then
          restore_succeeded ;;
          route <- default_route a ;;
          if route : bool then set_ctl (put_auto false) ;; Transition_WanInterfaceActive
          else ret STATE_WAN_INTERFACE_UP
        else ret STATE_WAN_INTERFACE_UP).
Definition State_WanInterfaceDown : M WcFmobPolicyState_t :=
  with_active STATE_WAN_INTERFACE_DOWN (fun a =>
    c <- get_ctl aw_wanPolicyCtrl ;;
    if negb (pc_WanEnable c) then Transition_WanInterfaceTearDown
    else
      A <- get_iface a ;;
      if if_BaseInterfaceStatus A ≟ WAN_IFACE_PHY_STATUS_UP then
        when WAN_FAILOVER_SUPPORTED (set_backup STATUS_SWITCHOVER_STOPED) ;;
        v <- get_vif (vif0 a) ;;
        wait <- wait_for_remote v ;;
        if wait : bool then validated_or STATE_WAN_INTERFACE_DOWN Transition_WanInterfaceValidating
        else
          go <- unchecked_or v WanMgr_GetWanStatus 0 ;;
          if go : bool then
            wanmgr_setwanstart ;;
            wanmgr_sshd_restart ;;
            Transition_WanInterfaceUp
          else ret STATE_WAN_INTERFACE_DOWN
      else ret STATE_WAN_INTERFACE_DOWN).
Definition State_WaitingForInterface : M WcFmobPolicyState_t :=
  with_active STATE_WAN_WAITING_FOR_INTERFACE (fun a =>
    x <- get_controller ;;
    let c := aw_wanPolicyCtrl x in
    if negb (pc_WanEnable c) then Transition_WanInterfaceTearDown
    else
      A <- get_iface a ;;
      match if_BaseInterfaceStatus A with
      | WAN_IFACE_PHY_STATUS_UP =>
          when WAN_FAILOVER_SUPPORTED (set_backup STATUS_SWITCHOVER_STOPED) ;;
          upd_iface a (fun I => I <| if_InterfaceScanStatus := WAN_IFACE_STATUS_SCANNED |>) ;;
          if negb (pc_activeInterfaceIdx c =? aw_previousActiveInterfaceIndex x) then ret STATE_WAN_CONFIGURING_INTERFACE
          else
            v <- get_vif (vif0 a) ;;
            wait <- wait_for_remote v ;;
            if wait : bool then
              WanMgr_disable_ra (v_Name v) ;;
              validated_or STATE_WAN_WAITING_FOR_INTERFACE Transition_AutoWanInterfaceValidating
            else
              go <- unchecked_or v WanMgr_GetWanStatus 0 ;;
              if go : bool then
                set_selection a WAN_IFACE_SELECTED ;;
                Update_Interface_Status ;;
                Transition_WanInterfacePhyUp
              else ret STATE_WAN_WAITING_FOR_INTERFACE
      | WAN_IFACE_PHY_STATUS_DOWN =>
          upd_iface a (fun I => I <| if_InterfaceScanStatus := WAN_IFACE_STATUS_SCANNED |>) ;;
          ret STATE_WAN_DECONFIGURING_INTERFACE
      | WAN_IFACE_PHY_STATUS_UNKNOWN | WAN_IFACE_PHY_STATUS_INITIALIZING => ret STATE_WAN_WAITING_FOR_INTERFACE
      end).

(** * The threads of the policy *)

(** [None] is [bRunning = false]. *)
Definition fixed_dispatch (st : WcFmobPolicyState_t) : M (option WcFmobPolicyState_t) :=
  match st with
  | STATE_WAN_SELECTING_INTERFACE => s <- State_SelectingWanInterface ;; ret (Some s)
  | STATE_WAN_INTERFACE_DOWN => s <- State_FixedWanInterfaceDown ;; ret (Some s)
  | STATE_WAN_INTERFACE_UP => s <- State_FixedWanInterfaceUp ;; ret (Some s)
  | STATE_WAN_INTERFACE_TEARDOWN => s <- State_WanInterfaceTearDown ;; ret (Some s)
  | STATE_WAN_VALIDATED_INTERFACE =>
      if WAN_FAILOVER_SUPPORTED then s <- State_FixedWanInterfaceValidated ;; ret (Some s) else ret None
  | STATE_WAN_INTERFACE_ACTIVE =>
      if WAN_FAILOVER_SUPPORTED then s <- State_FixedWanInterfaceActive ;; ret (Some s) else ret None
  | _ => ret None
  end.
Definition auto_dispatch (st : WcFmobPolicyState_t) : M (option WcFmobPolicyState_t) :=
  match st with
  | STATE_WAN_SELECTING_INTERFACE => s <- WanMgr_Policy_AutoWan_SelectAlternateInterface ;; ret (Some s)
  | STATE_WAN_WAITING_FOR_INTERFACE => s <- State_WaitingForInterface ;; ret (Some s)
  | STATE_WAN_CONFIGURING_INTERFACE => s <- State_WanConfiguringInterface ;; ret (Some s)
  | STATE_WAN_SCANNING_INTERFACE => s <- State_WanScanningInterface ;; ret (Some s)
  | STATE_WAN_DECONFIGURING_INTERFACE => s <- State_WanDeConfiguringInterface ;; ret (Some s)
  | STATE_WAN_INTERFACE_ACTIVE => s <- State_WanInterfaceActive ;; ret (Some s)
  | STATE_WAN_INTERFACE_UP => s <- State_WanInterfaceUp ;; ret (Some s)
  | STATE_WAN_INTERFACE_DOWN => s <- State_WanInterfaceDown ;; ret (Some s)
  | STATE_WAN_INTERFACE_TEARDOWN => s <- State_WanInterfaceTearDown ;; ret (Some s)
  | STATE_AUTOWAN_VALIDATED_INTERFACE =>
      if WAN_FAILOVER_SUPPORTED then s <- State_AutoWanInterfaceValidated ;; ret (Some s) else ret None
  | STATE_WAN_VALIDATED_INTERFACE =>
      if WAN_FAILOVER_SUPPORTED then s <- State_WanInterfaceValidated ;; ret (Some s) else ret None
  | STATE_WAN_EXIT => ret None
  end.

Definition update_WanEnable : M unit :=
  with_config (
    cfg <- get_db w_Config ;;
    set_wanPolicyCtrl (fun c => c <| pc_WanEnable := cfg_Enable cfg |>)).
Definition lock_active : M unit :=
  c <- get_ctl aw_wanPolicyCtrl ;;
  p <- WanMgr_GetIfaceData_locked (u32 (pc_activeInterfaceIdx c)) ;;
  set_wanPolicyCtrl (fun c => c <| pc_pWanActiveIfaceData := p |>).
(** The released pointer stays in the controller until the next pass. *)
Definition release_active : M unit :=
  c <- get_ctl aw_wanPolicyCtrl ;;
  match pc_pWanActiveIfaceData c with
  | Some _ => WanMgrDml_GetIfaceData_release
  | None => ret tt
  end.

(** One pass of the loops of [Wanmgr_WanFixedMode_StartStateMachine] and of
    [Wanmgr_WanAutoMode_StartStateMachine]; an interrupted [select] does nothing. *)
Definition pass_in (dispatch : WcFmobPolicyState_t -> M (option WcFmobPolicyState_t)) (timeout : string)
    (st : WcFmobPolicyState_t) : M (option WcFmobPolicyState_t) :=
  n <- call (ExtCall "select" [timeout]) ;;
  if n <? 0 then ret (Some st)
  else
    update_WanEnable ;;
    lock_active ;;
    o <- dispatch st ;;
    release_active ;;
    ret o.
Definition fixed_iteration (st : WcFmobPolicyState_t) : M (option WcFmobPolicyState_t) :=
  pass_in fixed_dispatch "500000" st.
Definition auto_iteration (st : WcFmobPolicyState_t) : M (option WcFmobPolicyState_t) :=
  r <- call (ExtCall "access" ["/tmp/timeout"]) ;;
  pass_in auto_dispatch (if r =? 0 then "1000000" else "500000") st.

(** Where the thread of the policy is: choosing the mode; in the two endless
    loops of the start of the automatic mode, waiting for its interface, then
    for the component of that interface; or in the loop of a mode. *)
Inductive AutoWanPhase :=
| CHOOSING_MODE
| STARTING_AUTO
| WAITING_COMPONENT (a : iface_ptr) (buf path : string)
| FIXED_MODE_RUNNING (st : WcFmobPolicyState_t)
| AUTO_MODE_RUNNING (st : WcFmobPolicyState_t).

Definition init_controller (mode : Z) (k : M AutoWanPhase) : M AutoWanPhase :=
  c <- get_ctl aw_wanPolicyCtrl ;;
  let r := WanMgr_Controller_PolicyCtrlInit c in
  if fst r ≠? ANSC_STATUS_SUCCESS then ret CHOOSING_MODE
  else
    set_wanPolicyCtrl (fun _ => (snd r) <| pc_WanOperationalMode := mode |>) ;;
    k.
(** [Wanmgr_StartPrimaryWan] and [Wanmgr_StartSecondaryWan], up to the loop. *)
Definition Wanmgr_StartFixedWan (mode : Z) : M AutoWanPhase :=
  lock_mode mode ;;
  selected <- GetSelectedWanMode ;;
  init_controller selected (st <- Transition_Start ;; ret (FIXED_MODE_RUNNING st)).
Definition zero_controller : WanMgr_Policy_Controller_t :=
  mk_Policy_Controller false 0 0 None 0 0 0 0 0 false false false false 0 0.
Definition Wanmgr_StartAutoMode : M AutoWanPhase :=
  set_wanPolicyCtrl (fun _ => zero_controller) ;;
  set_ctl (fun x => x <| aw_previousActiveInterfaceIndex := -1 |>) ;;
  selected <- GetSelectedWanMode ;;
  init_controller selected (
    idx <- WanMgr_Policy_AutoWan_GetLastKnownModeInterfaceIndex ;;
    set_wanPolicyCtrl (fun c => c <| pc_activeInterfaceIdx := idx |>) ;;
    set_ctl (fun x => x <| aw_previousActiveInterfaceIndex := idx |>) ;;
    Update_Interface_Status ;;
    ret STARTING_AUTO).
Definition choose_mode : M AutoWanPhase :=
  IntializeAutoWanConfig ;;
  wanMode <- GetSelectedWanMode ;;
  if wanMode =? WAN_MODE_PRIMARY then Wanmgr_StartFixedWan WAN_MODE_PRIMARY
  else if wanMode =? WAN_MODE_SECONDARY then Wanmgr_StartFixedWan WAN_MODE_SECONDARY
  else
    when (negb (wanMode =? WAN_MODE_AUTO)) (SelectedWanMode WAN_MODE_AUTO) ;;
    Wanmgr_StartAutoMode.

(** One round of the loop of [Transition_StartAuto]. *)
Definition Transition_StartAuto : M AutoWanPhase :=
  c <- get_ctl aw_wanPolicyCtrl ;;
  p <- WanMgr_GetIfaceData_locked (u32 (pc_activeInterfaceIdx c)) ;;
  match p with
  | None => call_ (ExtCall "sleep" ["1"]) ;; ret STARTING_AUTO
  | Some a =>
      upd_iface a (fun I => I <| if_Selection; sel_ActiveLink := true |>) ;;
      sysevent_set SYSEVENT_NET_CONNECTIVITY_CHECK "0" ;;
      A <- get_iface a ;;
      when FEATURE_TAD_HEALTH_CHECK
        match head (if_VirtIfList A) with
        | Some v => sysevent_set SYSEVENT_NET_CONNECTIVITY_CHECK (if is_tad v then "1" else "0")
        | None => ret tt
        end ;;
      if if_BaseInterface A ≠? EmptyString then
        upd_iface a (fun I => I <| if_BaseInterfaceStatus := WAN_IFACE_PHY_STATUS_UNKNOWN |>) ;;
        WanMgrDml_GetIfaceData_release ;;
        ret (WAITING_COMPONENT a (snprintf 8 (dec (s32 (if_uiInstanceNumber A)))) (if_BaseInterface A))
      else
        WanMgrDml_GetIfaceData_release ;;
        call_ (ExtCall "sleep" ["1"]) ;;
        ret STARTING_AUTO
  end.
(** One round of [WaitForInterfaceComponentReady] and the request after it; the
    interface is read without its lock. *)
Definition wait_component (a : iface_ptr) (buf path : string) : M AutoWanPhase :=
  ready <- component_ready path ;;
  if ready : bool then
    get_vif (vif0 a) ;;
    WanMgr_RdkBus_SetRequestIfComponent path PARAM_NAME_REQUEST_PHY_STATUS buf ;;
    ret (AUTO_MODE_RUNNING STATE_WAN_WAITING_FOR_INTERFACE)
  else
    call_ (ExtCall "sleep" ["5"]) ;;
    ret (WAITING_COMPONENT a buf path).

(** One round of the thread, whose outer loop chooses a mode again when the
    loop of a mode ends. *)
Definition policy_step (ph : AutoWanPhase) : M AutoWanPhase :=
  match ph with
  | CHOOSING_MODE => choose_mode
  | STARTING_AUTO => Transition_StartAuto
  | WAITING_COMPONENT a buf path => wait_component a buf path
  | FIXED_MODE_RUNNING st =>
      o <- fixed_iteration st ;;
      ret (match o with Some st => FIXED_MODE_RUNNING st | None => CHOOSING_MODE end)
  | AUTO_MODE_RUNNING st =>
      o <- auto_iteration st ;;
      ret (match o with Some st => AUTO_MODE_RUNNING st | None => CHOOSING_MODE end)
  end.
(** The thread starts that of the backup policy first. *)
Definition WanMgr_Policy_AutoWan : M AutoWanPhase :=
  when WAN_FAILOVER_SUPPORTED (call_ (PthreadCreate "Wanmgr_BackupWan_StateMachineThread" [])) ;;
  ret CHOOSING_MODE.
End AutoWanStates.
#[export] Hint Unfold set_wanPolicyCtrl set_restore set_backup set_selection set_vif_status : monad.
