(* ===== verification/BackupWan.v ===== *)
(** [source/WanManager/wanmgr_policy_autowan_impl.c], the backup policy
    ([WAN_FAILOVER_SUPPORTED]): the thread that keeps the remote interface ready
    and lets it carry the traffic while the primary WAN is down.

    [bw_iteration] is one pass of the loop of
    [Wanmgr_BackupWan_StateMachineThread], [bw_start] what precedes it. *)

From S2P Require Export AutoWanStates.

Inductive WcBWanPolicyState_t :=
| STATE_BACKUP_WAN_SELECTING_INTERFACE
| STATE_BACKUP_WAN_INTERFACE_DOWN
| STATE_BACKUP_WAN_VALIDATING_INTERFACE
| STATE_BACKUP_WAN_AVAILABLE
| STATE_BACKUP_WAN_INTERFACE_UP
| STATE_BACKUP_WAN_INTERFACE_ACTIVE
| STATE_BACKUP_WAN_INTERFACE_INACTIVE
| STATE_BACKUP_WAN_WAITING
| STATE_BACKUP_WAN_EXIT.
#[export] Instance WcBWanPolicyState_t_eq_dec : EqDecision WcBWanPolicyState_t.
Proof. solve_decision. Defined.

(** The buffers that hold a path are not bounded here; a null string prints as
    the C library prints it. *)
Definition null_text : string := "(null)".

Section BackupWan.
Context `{Platform} `{Build} `{MaptBuild} `{IfaceBuild} `{AutoWanBuild}.
#[local] Abbreviation M := (Prelude.M (St AutoWan_t)).

(** * Actions *)

Definition Get_Device_Mode : M Z :=
  buf <- syscfg_get "Device_Mode" ;;
  ret (match buf with Some buf => if buf ≟ EmptyString then 0 else atoi buf | None => 0 end).
Definition UnSetV6Route (ifname route_addr : string) (metric_val : Z) : M unit :=
  let cmd := "ip -6 route del default via " +:+ route_addr +:+ " dev " +:+ ifname in
  v_secure_system (if metric_val =? 0 then cmd else cmd +:+ " metric " +:+ dec metric_val).
Definition WanMgr_delBackUpIpv6Route (IfaceName : string) : M bool :=
  deviceMode <- Get_Device_Mode ;;
  if (deviceMode =? 0) && (IfaceName ≠? EmptyString) then
    ipv6_address <- sysevent_get "MeshWANInterface_UlaAddr" ;;
    if ipv6_address ≠? EmptyString then
      UnSetV6Route IfaceName (match strtok "/" ipv6_address with Some (t, _) => t | None => null_text end) 0 ;;
      sysevent_set "remotewan_routeset" "false" ;;
      ret true
    else ret false
  else ret false.

(** A command that fails does not change the result. *)
Definition WanMgr_FirewallRuleConfig (Action IfaceName : string) : M bool :=
  name <- sysevent_get "current_wan_ifname" ;;
  let setRules := (Action ≟ "configure")
                  || ((Action ≟ "deconfigure") && (name ≠? EmptyString) && (name ≟ IfaceName)) in
  when setRules (
    WanManager_DoSystemAction ("sh " +:+ BACKUP_WAN_DHCPC_SOURCE_FILE +:+ " " +:+ Action) ;;
    wanmgr_firewall_restart) ;;
  ret true.

(** The index of the first interface with a property, or [-1]. *)
Definition find_iface (test : DML_WAN_IFACE -> bool) : M Z :=
  n <- WanMgr_IfaceData_GetTotalWanIface ;;
  r <- for_break (range n) (fun uiWanIdx =>
    with_iface None uiWanIdx (fun i =>
      I <- get_iface i ;;
      ret (if test I then Some (s32 uiWanIdx) else None))) ;;
  ret (default (-1) r).
Definition remote_usable (I : DML_WAN_IFACE) : bool :=
  sel_Enable (if_Selection I) && (if_IfaceType I ≟ REMOTE_IFACE).
Definition local_phy_up (I : DML_WAN_IFACE) : bool :=
  (if_IfaceType I ≟ LOCAL_IFACE) && sel_Enable (if_Selection I)
  && (if_BaseInterfaceStatus I ≟ WAN_IFACE_PHY_STATUS_UP).
Definition local_selected (I : DML_WAN_IFACE) : bool :=
  (if_IfaceType I ≟ LOCAL_IFACE) && sel_Enable (if_Selection I)
  && (selection_val WAN_IFACE_SELECTED <=? selection_val (sel_Status (if_Selection I))).
Definition WanMgr_Policy_BackupWan_GetCurrentBackupWanInterfaceIndex : M Z := find_iface remote_usable.
Definition WanMgr_Policy_BackupWan_CheckAnyLocalWANIsPhysicallyActive : M Z := find_iface local_phy_up.
Definition WanMgr_Policy_PrimaryWan_CheckAnyLocalWANIsSelected : M bool :=
  idx <- find_iface local_selected ;; ret (negb (idx =? -1)).
Definition WanMgr_Policy_PrimaryWan_IsConnectivityCheckGood : M bool := any_check_good LOCAL_IFACE.

(** The first local interface whose link is up gets a lease again, or is not
    selected any more. *)
Definition WanMgr_Policy_PrimaryWan_ReTriggerValidation : M Z :=
  n <- WanMgr_IfaceData_GetTotalWanIface ;;
  r <- for_break (range n) (fun uiWanIdx =>
    with_iface None uiWanIdx (fun i =>
      I <- get_iface i ;;
      if local_phy_up I then
        v <- get_vif (vif0 i) ;;
        r <- WanMgr_Policy_CheckAndStartUDHCPClientOverWanInterface (v_Name v) WAN_START_FOR_VALIDATION
               PRIMARY_WAN_DHCPC_PID_FILE BACKUP_WAN_DHCPC_SRC_RAMDOM_FILE ;;
        if r =? -1 then set_selection i WAN_IFACE_NOT_SELECTED ;; ret (Some (-1))
        else ret (Some 0)
      else ret None)) ;;
  ret (default (-1) r).

(** A scanned local interface of the selected mode ends the loop; [acc] counts
    the local interfaces and the scanned ones. *)
Definition scanned_of_mode (selectedMode : Z) (I : DML_WAN_IFACE) : bool :=
  ((selectedMode =? WAN_MODE_PRIMARY) && (if_Type I ≟ WAN_IFACE_TYPE_PRIMARY))
  || ((selectedMode =? WAN_MODE_SECONDARY) && (if_Type I ≟ WAN_IFACE_TYPE_SECONDARY)).
Definition WanMgr_Policy_BackupWan_CheckLocalWANsScannedOnce : M bool :=
  selectedMode <- GetSelectedWanMode ;;
  currentWANMode <- GetCurrentWanMode ;;
  n <- WanMgr_IfaceData_GetTotalWanIface ;;
  if n <=? 0 then ret false
  else
    r <- for_acc (range n) (0, 0) (fun uiWanIdx acc =>
      with_iface (acc, None) uiWanIdx (fun i =>
        I <- get_iface i ;;
        ret (if if_IfaceType I ≟ LOCAL_IFACE then
               let acc := (u32 (fst acc + 1), snd acc) in
               if if_InterfaceScanStatus I ≟ WAN_IFACE_STATUS_SCANNED then
                 ((fst acc, u32 (snd acc + 1)), if scanned_of_mode selectedMode I then Some tt else None)
               else (acc, None)
             else (acc, None)))) ;;
    ret (match snd r with
         | Some _ => true
         | None =>
             (selectedMode =? WAN_MODE_AUTO)
             && (negb (currentWANMode =? WAN_MODE_UNKNOWN) || (snd (fst r) =? fst (fst r)))
         end).

(** * Transitions *)

Definition with_backup (none : M WcBWanPolicyState_t) (body : iface_ptr -> M WcBWanPolicyState_t)
    : M WcBWanPolicyState_t :=
  c <- get_ctl bw_wanPolicyCtrl ;;
  match pc_pWanActiveIfaceData c with
  | None => none
  | Some a => body a
  end.
Definition set_bw (f : WanMgr_Policy_Controller_t -> WanMgr_Policy_Controller_t) : M unit :=
  set_ctl (fun x => x <| bw_wanPolicyCtrl ::= f |>).
Definition failover_failed : M unit :=
  st <- get_ctl TelemetryBackUpStatus ;;
  when (st ≟ STATUS_SWITCHOVER_STARTED) (set_backup STATUS_SWITCHOVER_FAILED ;; telemetry "WAN_FAILOVER_FAIL_COUNT").
Definition failover_succeeded : M unit :=
  st <- get_ctl TelemetryBackUpStatus ;;
  when ((st ≟ STATUS_SWITCHOVER_STARTED) || (st ≟ STATUS_SWITCHOVER_FAILED))
    (set_backup STATUS_SWITCHOVER_SUCCESS ;; telemetry "WAN_FAILOVER_SUCCESS_COUNT").
(** The failover failed when there is no local link either. *)
Definition failover_failed_without_local : M unit :=
  idx <- WanMgr_Policy_BackupWan_CheckAnyLocalWANIsPhysicallyActive ;;
  when (idx =? -1) failover_failed.
(** The default IPv6 route of the remote interface, if it was set. *)
Definition delete_v6_route (name : string) : M unit :=
  set_ <- sysevent_get "remotewan_routeset" ;;
  when (set_ ≟ "true") (WanMgr_delBackUpIpv6Route name ;; ret tt).

Definition Transition_BackupWanSelectingInterface : M WcBWanPolicyState_t :=
  set_bw (fun c => c <| pc_activeInterfaceIdx := -1 |>) ;;
  ret STATE_BACKUP_WAN_SELECTING_INTERFACE.
Definition Transition_StartBakupWan : M WcBWanPolicyState_t := Transition_BackupWanSelectingInterface.

Definition Transition_BackupWanInterfaceSelected : M WcBWanPolicyState_t :=
  with_backup (ret STATE_BACKUP_WAN_SELECTING_INTERFACE) (fun a =>
    upd_iface a (fun I => I <| if_Selection; sel_ActiveLink := false |>) ;;
    upd_vif (vif0 a) (fun v => v <| v_VLAN; vlan_Status := WAN_IFACE_LINKSTATUS_DOWN |>) ;;
    set_selection a WAN_IFACE_NOT_SELECTED ;;
    set_ip (vif0 a) (fun x => x <| ip_Ipv4Status := WAN_IFACE_IPV4_STATE_UNKNOWN |>
                                <| ip_Ipv6Status := WAN_IFACE_IPV6_STATE_UNKNOWN |>) ;;
    set_vif_status a WAN_IFACE_STATUS_DISABLED ;;
    A <- get_iface a ;;
    when (if_IfaceType A ≟ REMOTE_IFACE) (upd_vif (vif0 a) (fun v => v <| v_Name := REMOTE_INTERFACE_NAME |>)) ;;
    Update_Interface_Status ;;
    ret STATE_BACKUP_WAN_INTERFACE_DOWN).

(** 0, the number of the selecting state, when the client does not start. *)
Definition Transition_ValidatingBackupWanInterface : M WcBWanPolicyState_t :=
  with_backup Transition_BackupWanSelectingInterface (fun a =>
    v <- get_vif (vif0 a) ;;
    if FEATURE_TAD_HEALTH_CHECK && is_tad v then
      r <- WanMgr_Policy_CheckAndStartUDHCPClientOverWanInterface (v_Name v) WAN_START_FOR_BACKUP_WAN
             BACKUP_WAN_DHCPC_PID_FILE BACKUP_WAN_DHCPC_SOURCE_FILE ;;
      if r =? -1 then ret STATE_BACKUP_WAN_SELECTING_INTERFACE
      else
        A <- get_iface a ;;
        WanMgr_StartIpMonitor (if_uiIfaceIdx A) ;;
        ret STATE_BACKUP_WAN_VALIDATING_INTERFACE
    else ret STATE_BACKUP_WAN_VALIDATING_INTERFACE).

Definition backup_trigger (a : iface_ptr) (event : WCC_EVENT) (body : M unit) : M unit :=
  on_success (WanMgr_Trigger_Backup_TAD (vif0 a) event) body.
Definition check_restarted (x : DML_WANIFACE_IP) : DML_WANIFACE_IP := x <| ip_RestartConnectivityCheck := false |>.
Definition Transition_BackupWanAvailable : M WcBWanPolicyState_t :=
  with_backup Transition_BackupWanSelectingInterface (fun a =>
    upd_iface a (fun I => I <| if_Selection; sel_ActiveLink := true |>
                            <| if_Selection; sel_Status := WAN_IFACE_SELECTED |>) ;;
    set_vif_status a WAN_IFACE_STATUS_DISABLED ;;
    v <- get_vif (vif0 a) ;;
    when (FEATURE_TAD_HEALTH_CHECK && is_tad v) (
      set_ip (vif0 a) (fun x => connectivity WAN_CONNECTIVITY_UP x <| ip_RestartConnectivityCheck := true |>) ;;
      backup_trigger a WCC_START (set_ip (vif0 a) check_restarted)) ;;
    Update_Interface_Status ;;
    ret STATE_BACKUP_WAN_AVAILABLE).

Definition Transition_BackupWanInterfaceUp : M WcBWanPolicyState_t :=
  with_backup Transition_BackupWanSelectingInterface (fun a =>
    v <- get_vif (vif0 a) ;;
    r <- (if FEATURE_TAD_HEALTH_CHECK && is_tad v then ret 0
          else WanMgr_Policy_CheckAndStartUDHCPClientOverWanInterface (v_Name v) WAN_START_FOR_BACKUP_WAN
                 BACKUP_WAN_DHCPC_PID_FILE BACKUP_WAN_DHCPC_SOURCE_FILE) ;;
    if r =? -1 then ret STATE_BACKUP_WAN_INTERFACE_DOWN
    else
      upd_vif (vif0 a) (fun v => v <| v_VLAN; vlan_Status := WAN_IFACE_LINKSTATUS_UP |>
                                   <| v_Status := WAN_IFACE_STATUS_UP |>) ;;
      Update_Interface_Status ;;
      ret STATE_BACKUP_WAN_INTERFACE_UP).

(** The remote interface was carrying the traffic, and there is no local one to
    take it back. *)
Definition no_primary (v : DML_VIRTUAL_IFACE) : M bool :=
  idx <- WanMgr_Policy_BackupWan_CheckAnyLocalWANIsPhysicallyActive ;;
  if idx =? -1 then ret true
  else if FEATURE_TAD_HEALTH_CHECK && is_tad v then
    good <- WanMgr_Policy_PrimaryWan_IsConnectivityCheckGood ;; ret (negb good)
  else ret false.
Definition backup_reset (a : iface_ptr) : M WcBWanPolicyState_t :=
  v <- get_vif (vif0 a) ;;
  when (FEATURE_TAD_HEALTH_CHECK && is_tad v) (
    set_ip (vif0 a) (connectivity WAN_CONNECTIVITY_DOWN) ;;
    WanMgr_Trigger_Backup_TAD (vif0 a) WCC_STOP ;; ret tt) ;;
  upd_iface a (fun I => I <| if_Selection; sel_ActiveLink := false |>) ;;
  upd_vif (vif0 a) (fun v => v <| v_VLAN; vlan_Status := WAN_IFACE_LINKSTATUS_DOWN |>) ;;
  set_selection a WAN_IFACE_NOT_SELECTED ;;
  set_vif_status a WAN_IFACE_STATUS_DISABLED ;;
  set_ip (vif0 a) (fun x => x <| ip_Ipv4Status := WAN_IFACE_IPV4_STATE_UNKNOWN |>
                              <| ip_Ipv6Status := WAN_IFACE_IPV6_STATE_UNKNOWN |>) ;;
  Update_Interface_Status ;;
  v <- get_vif (vif0 a) ;;
  WanMgr_Policy_CheckAndStopUDHCPClientOverWanInterface (v_Name v) BACKUP_WAN_DHCPC_PID_FILE ;;
  ret STATE_BACKUP_WAN_INTERFACE_DOWN.
Definition Transition_BackupWanInterfaceDown : M WcBWanPolicyState_t :=
  with_backup Transition_BackupWanSelectingInterface (fun a =>
    Update_Interface_Status ;;
    v <- get_vif (vif0 a) ;;
    if (v_Status v ≟ WAN_IFACE_STATUS_UP) && (v_RemoteStatus v ≟ WAN_IFACE_STATUS_UP) then
      wait <- no_primary v ;;
      if wait : bool then
        set_selection a WAN_IFACE_NOT_SELECTED ;;
        ret STATE_BACKUP_WAN_WAITING
      else
        WanMgr_FirewallRuleConfig "deconfigure" (v_Name v) ;;
        delete_v6_route (v_Name v) ;;
        set_selection a WAN_IFACE_NOT_SELECTED ;;
        backup_reset a
    else backup_reset a).

(** The do-while loop of the default route, [RetryDelay] being [k] at its
    start; the result is [RetryDelay] after it. *)
Fixpoint route_retries (fuel : nat) (a : iface_ptr) (RetryDelay : Z) : M Z :=
  route <- default_route a ;;
  if route : bool then ret RetryDelay
  else
    call_ (ExtCall "usleep" ["500000"]) ;;
    match fuel with
    | O => ret (RetryDelay + 1)
    | S fuel => route_retries fuel a (RetryDelay + 1)
    end.
Definition Transition_BackupWanInterfaceActive : M WcBWanPolicyState_t :=
  with_backup Transition_BackupWanSelectingInterface (fun a =>
    A <- get_iface a ;;
    v <- get_vif (vif0 a) ;;
    if (if_BaseInterfaceStatus A ≟ WAN_IFACE_PHY_STATUS_DOWN)
       || (vlan_Status (v_VLAN v) ≠? WAN_IFACE_LINKSTATUS_UP)
       || (v_RemoteStatus v ≠? WAN_IFACE_STATUS_UP)
    then failover_failed ;; Transition_BackupWanInterfaceDown
    else
      set_selection a WAN_IFACE_ACTIVE ;;
      set_vif_status a WAN_IFACE_STATUS_UP ;;
      ok <- WanMgr_FirewallRuleConfig "configure" (v_Name v) ;;
      if negb ok then failover_failed ;; Transition_BackupWanInterfaceDown
      else
        RetryDelay <- route_retries 9 a 1 ;;
        if 10 <=? RetryDelay then Transition_BackupWanInterfaceDown
        else
          failover_succeeded ;;
          Update_Interface_Status ;;
          ret STATE_BACKUP_WAN_INTERFACE_ACTIVE).

Definition Transition_BackupWanInterfaceInActive : M WcBWanPolicyState_t :=
  with_backup Transition_BackupWanSelectingInterface (fun a =>
    v <- get_vif (vif0 a) ;;
    WanMgr_FirewallRuleConfig "deconfigure" (v_Name v) ;;
    delete_v6_route (v_Name v) ;;
    set_selection a WAN_IFACE_SELECTED ;;
    Update_Interface_Status ;;
    ret STATE_BACKUP_WAN_INTERFACE_INACTIVE).
Definition Transition_BackupWanInterfaceWaitingPrimaryUp : M WcBWanPolicyState_t :=
  with_backup Transition_BackupWanSelectingInterface (fun _ => Transition_BackupWanInterfaceDown).

(** * States *)

Definition State_SelectingBackupWanInterface : M WcBWanPolicyState_t :=
  c <- get_ctl bw_wanPolicyCtrl ;;
  if negb (pc_WanEnable c) || negb (pc_AllowRemoteInterfaces c) then ret STATE_BACKUP_WAN_SELECTING_INTERFACE
  else
    idx <- WanMgr_Policy_BackupWan_GetCurrentBackupWanInterfaceIndex ;;
    set_bw (fun c => c <| pc_activeInterfaceIdx := idx |>) ;;
    if negb (idx =? -1) then Transition_BackupWanInterfaceSelected
    else failover_failed_without_local ;; ret STATE_BACKUP_WAN_SELECTING_INTERFACE.

Definition State_BackupWanInterfaceDown : M WcBWanPolicyState_t :=
  with_backup Transition_BackupWanSelectingInterface (fun a =>
    c <- get_ctl bw_wanPolicyCtrl ;;
    A <- get_iface a ;;
    if negb (sel_Enable (if_Selection A)) || negb (pc_WanEnable c) || negb (pc_AllowRemoteInterfaces c)
    then Transition_BackupWanSelectingInterface
    else
      v <- get_vif (vif0 a) ;;
      r <- (if (if_BaseInterfaceStatus A ≟ WAN_IFACE_PHY_STATUS_UP) && (v_RemoteStatus v ≟ WAN_IFACE_STATUS_UP)
               && (v_Status v ≟ WAN_IFACE_STATUS_DISABLED)
            then Transition_ValidatingBackupWanInterface
            else ret STATE_BACKUP_WAN_SELECTING_INTERFACE) ;;
      if r ≠? STATE_BACKUP_WAN_SELECTING_INTERFACE then ret r
      else
        failover_failed_without_local ;;
        ret STATE_BACKUP_WAN_INTERFACE_DOWN).

(** The remote interface may not be used any more. *)
Definition backup_off (c : WanMgr_Policy_Controller_t) (A : DML_WAN_IFACE) (v : DML_VIRTUAL_IFACE) : bool :=
  negb (pc_WanEnable c) || negb (sel_Enable (if_Selection A))
  || (if_BaseInterfaceStatus A ≟ WAN_IFACE_PHY_STATUS_DOWN) || (v_RemoteStatus v ≠? WAN_IFACE_STATUS_UP).
(** Or its link is not what a standby needs. *)
Definition standby_off (c : WanMgr_Policy_Controller_t) (A : DML_WAN_IFACE) (v : DML_VIRTUAL_IFACE) : bool :=
  negb (pc_AllowRemoteInterfaces c) || backup_off c A v
  || (vlan_Status (v_VLAN v) ≠? WAN_IFACE_LINKSTATUS_UP) || (v_Status v ≠? WAN_IFACE_STATUS_UP).

Definition State_ValidatingBackupWanInterface : M WcBWanPolicyState_t :=
  with_backup Transition_BackupWanSelectingInterface (fun a =>
    c <- get_ctl bw_wanPolicyCtrl ;;
    if negb (pc_AllowRemoteInterfaces c) then Transition_BackupWanSelectingInterface
    else
      A <- get_iface a ;;
      v <- get_vif (vif0 a) ;;
      if backup_off c A v then Transition_BackupWanInterfaceDown
      else
        ok <- (if FEATURE_TAD_HEALTH_CHECK && is_tad v
               then ret ((ip_Ipv4Status (v_IP v) ≟ WAN_IFACE_IPV4_STATE_UP)
                         || (ip_Ipv6Status (v_IP v) ≟ WAN_IFACE_IPV6_STATE_UP))
               else
                 r <- WanMgr_Policy_CheckAndStartUDHCPClientOverWanInterface (v_Name v) WAN_START_FOR_VALIDATION
                        BACKUP_WAN_DHCPC_PID_FILE BACKUP_WAN_DHCPC_SRC_RAMDOM_FILE ;;
                 ret (r =? 0)) ;;
        if ok : bool then Transition_BackupWanAvailable
        else
          failover_failed_without_local ;;
          ret STATE_BACKUP_WAN_VALIDATING_INTERFACE).

(** The health check of the remote interface, the same in most states. *)
Definition backup_check (a : iface_ptr) : M unit :=
  v <- get_vif (vif0 a) ;;
  if negb (is_tad v) then
    when (ip_WCC_TypeChanged (v_IP v))
      (backup_trigger a WCC_STOP (set_ip (vif0 a) (fun x => check_settled (connectivity WAN_CONNECTIVITY_DOWN x))))
  else if check_down v && ip_WCC_TypeChanged (v_IP v) then backup_trigger a WCC_START (set_ip (vif0 a) check_settled)
  else when (ip_RestartConnectivityCheck (v_IP v)) (backup_trigger a WCC_RESTART (set_ip (vif0 a) check_restarted)).
(** The remote interface is not checked, or its check is good. *)
Definition backup_good (v : DML_VIRTUAL_IFACE) : bool := negb (FEATURE_TAD_HEALTH_CHECK && is_tad v) || check_up v.

Definition State_BackupWanAvailable : M WcBWanPolicyState_t :=
  with_backup Transition_BackupWanSelectingInterface (fun a =>
    c <- get_ctl bw_wanPolicyCtrl ;;
    A <- get_iface a ;;
    v <- get_vif (vif0 a) ;;
    if negb (pc_AllowRemoteInterfaces c) || backup_off c A v then Transition_BackupWanInterfaceDown
    else
      when FEATURE_TAD_HEALTH_CHECK (backup_check a) ;;
      v <- get_vif (vif0 a) ;;
      if backup_good v && (if_BaseInterfaceStatus A ≟ WAN_IFACE_PHY_STATUS_UP) then Transition_BackupWanInterfaceUp
      else ret STATE_BACKUP_WAN_AVAILABLE).

(** The primary WAN is gone: its service stopped, or its routes with the health
    check and, where this interface is checked, its check. *)
Definition primary_gone (v : DML_VIRTUAL_IFACE) : M bool :=
  if FEATURE_TAD_HEALTH_CHECK then
    good <- (if is_tad v then WanMgr_Policy_PrimaryWan_IsConnectivityCheckGood else ret false) ;;
    routed <- WanMgr_GetWanRoutedStatus ;;
    ret (negb good && (routed =? 0))
  else stopped <- WanMgr_IsWanStopped ;; ret (stopped =? 1).
(** [scanned] is the test of the scan, for the first activation only. *)
Definition may_activate (a : iface_ptr) (scanned : M bool) : M bool :=
  v <- get_vif (vif0 a) ;;
  status <- get_ctl TelemetryBackUpStatus ;;
  scanned <- scanned ;;
  gone <- primary_gone v ;;
  ret ((v_RemoteStatus v ≟ WAN_IFACE_STATUS_UP) && (status ≠? STATUS_SWITCHOVER_STOPED)
       && scanned && backup_good v && gone).
Definition State_BackupWanInterfaceUp : M WcBWanPolicyState_t :=
  with_backup Transition_BackupWanSelectingInterface (fun a =>
    c <- get_ctl bw_wanPolicyCtrl ;;
    A <- get_iface a ;;
    v <- get_vif (vif0 a) ;;
    if standby_off c A v then Transition_BackupWanInterfaceDown
    else
      when FEATURE_TAD_HEALTH_CHECK (backup_check a) ;;
      go <- may_activate a WanMgr_Policy_BackupWan_CheckLocalWANsScannedOnce ;;
      if go : bool then Transition_BackupWanInterfaceActive else ret STATE_BACKUP_WAN_INTERFACE_UP).
Definition State_BackupWanInterfaceInActive : M WcBWanPolicyState_t :=
  with_backup Transition_BackupWanSelectingInterface (fun a =>
    c <- get_ctl bw_wanPolicyCtrl ;;
    A <- get_iface a ;;
    v <- get_vif (vif0 a) ;;
    if standby_off c A v then Transition_BackupWanInterfaceDown
    else
      when FEATURE_TAD_HEALTH_CHECK (backup_check a) ;;
      go <- may_activate a (ret true) ;;
      if go : bool then Transition_BackupWanInterfaceActive else ret STATE_BACKUP_WAN_INTERFACE_INACTIVE).

Definition restoration_timer (started : bool) (expires : Z) : M unit :=
  set_ctl (fun x => x <| bRestorationDelayTimerStart := started |> <| RestorationDelayTimer := expires |>).
(** The health check of the active remote interface: [true] when the primary
    one has the only good check. *)
Definition backup_check_active (a : iface_ptr) : M bool :=
  v <- get_vif (vif0 a) ;;
  if negb (is_tad v) then
    when (ip_WCC_TypeChanged (v_IP v))
      (backup_trigger a WCC_STOP (set_ip (vif0 a) (fun x => check_settled (connectivity WAN_CONNECTIVITY_DOWN x)))) ;;
    ret false
  else
    primary <- WanMgr_Policy_PrimaryWan_IsConnectivityCheckGood ;;
    if check_down v && negb (ip_WCC_TypeChanged (v_IP v)) && primary then ret true
    else
      when (check_down v && ip_WCC_TypeChanged (v_IP v)) (backup_trigger a WCC_START (set_ip (vif0 a) check_settled)) ;;
      v <- get_vif (vif0 a) ;;
      when (ip_RestartConnectivityCheck (v_IP v)) (backup_trigger a WCC_RESTART (set_ip (vif0 a) check_restarted)) ;;
      ret false.
(** A local interface is up, selected, and its check good where this one is
    checked. *)
Definition primary_back (v : DML_VIRTUAL_IFACE) : M bool :=
  idx <- WanMgr_Policy_BackupWan_CheckAnyLocalWANIsPhysicallyActive ;;
  good <- (if FEATURE_TAD_HEALTH_CHECK && is_tad v then WanMgr_Policy_PrimaryWan_IsConnectivityCheckGood else ret true) ;;
  selected <- WanMgr_Policy_PrimaryWan_CheckAnyLocalWANIsSelected ;;
  ret (negb (idx =? -1) && good && selected).
(** The traffic goes back once the timer, started on the first pass the primary
    WAN is back, has run out. *)
Definition restore_primary (v : DML_VIRTUAL_IFACE) : M WcBWanPolicyState_t :=
  x <- get_controller ;;
  now <- clock_gettime ;;
  if negb (bRestorationDelayTimerStart x) then
    restoration_timer true (now + RestorationDelayTimeout x) ;;
    ret STATE_BACKUP_WAN_INTERFACE_ACTIVE
  else if 0 <? now - RestorationDelayTimer x then
    restoration_timer false 0 ;;
    ok <- (if FEATURE_TAD_HEALTH_CHECK && is_tad v then ret true
           else r <- WanMgr_Policy_PrimaryWan_ReTriggerValidation ;; ret (r =? 0)) ;;
    if ok : bool then Transition_BackupWanInterfaceInActive else ret STATE_BACKUP_WAN_INTERFACE_ACTIVE
  else ret STATE_BACKUP_WAN_INTERFACE_ACTIVE.
Definition State_BackupWanInterfaceActive : M WcBWanPolicyState_t :=
  with_backup Transition_BackupWanSelectingInterface (fun a =>
    c <- get_ctl bw_wanPolicyCtrl ;;
    A <- get_iface a ;;
    v <- get_vif (vif0 a) ;;
    if standby_off c A v then Transition_BackupWanInterfaceDown
    else
      switch <- (if FEATURE_TAD_HEALTH_CHECK then backup_check_active a else ret false) ;;
      if switch : bool then restoration_timer false 0 ;; Transition_BackupWanInterfaceInActive
      else
        v <- get_vif (vif0 a) ;;
        back <- primary_back v ;;
        if back : bool then restore_primary v
        else
          x <- get_controller ;;
          when (bRestorationDelayTimerStart x) (restoration_timer false 0) ;;
          ret STATE_BACKUP_WAN_INTERFACE_ACTIVE).

Definition State_BackupWanInterfaceWaitingPrimaryUp : M WcBWanPolicyState_t :=
  with_backup (ret STATE_BACKUP_WAN_WAITING) (fun a =>
    c <- get_ctl bw_wanPolicyCtrl ;;
    if negb (pc_WanEnable c) || negb (pc_AllowRemoteInterfaces c) then Transition_BackupWanSelectingInterface
    else
      v <- get_vif (vif0 a) ;;
      none <- no_primary v ;;
      if negb none then Transition_BackupWanInterfaceWaitingPrimaryUp
      else
        when FEATURE_TAD_HEALTH_CHECK (backup_check a) ;;
        A <- get_iface a ;;
        v <- get_vif (vif0 a) ;;
        if sel_Enable (if_Selection A) && (if_BaseInterfaceStatus A ≟ WAN_IFACE_PHY_STATUS_UP)
           && backup_good v && (v_RemoteStatus v ≟ WAN_IFACE_STATUS_UP)
        then Transition_BackupWanInterfaceActive
        else ret STATE_BACKUP_WAN_WAITING).

(** * The thread *)

Definition bw_dispatch (st : WcBWanPolicyState_t) : M (option WcBWanPolicyState_t) :=
  match st with
  | STATE_BACKUP_WAN_SELECTING_INTERFACE => s <- State_SelectingBackupWanInterface ;; ret (Some s)
  | STATE_BACKUP_WAN_INTERFACE_DOWN => s <- State_BackupWanInterfaceDown ;; ret (Some s)
  | STATE_BACKUP_WAN_VALIDATING_INTERFACE => s <- State_ValidatingBackupWanInterface ;; ret (Some s)
  | STATE_BACKUP_WAN_AVAILABLE => s <- State_BackupWanAvailable ;; ret (Some s)
  | STATE_BACKUP_WAN_INTERFACE_UP => s <- State_BackupWanInterfaceUp ;; ret (Some s)
  | STATE_BACKUP_WAN_INTERFACE_ACTIVE => s <- State_BackupWanInterfaceActive ;; ret (Some s)
  | STATE_BACKUP_WAN_INTERFACE_INACTIVE => s <- State_BackupWanInterfaceInActive ;; ret (Some s)
  | STATE_BACKUP_WAN_WAITING => s <- State_BackupWanInterfaceWaitingPrimaryUp ;; ret (Some s)
  | STATE_BACKUP_WAN_EXIT => ret None
  end.
(** The delay is only read while the timer is not running. *)
Definition bw_update : M unit :=
  with_config (
    cfg <- get_db w_Config ;;
    set_bw (fun c => c <| pc_WanEnable := cfg_Enable cfg |>
                       <| pc_AllowRemoteInterfaces := cfg_AllowRemoteInterfaces cfg |>) ;;
    x <- get_controller ;;
    when (negb (bRestorationDelayTimerStart x))
      (set_ctl (fun x => x <| RestorationDelayTimeout := cfg_RestorationDelay cfg |>))).
Definition bw_lock : M unit :=
  c <- get_ctl bw_wanPolicyCtrl ;;
  p <- WanMgr_GetIfaceData_locked (u32 (pc_activeInterfaceIdx c)) ;;
  set_bw (fun c => c <| pc_pWanActiveIfaceData := p |>).
Definition bw_release : M unit :=
  c <- get_ctl bw_wanPolicyCtrl ;;
  match pc_pWanActiveIfaceData c with
  | Some _ => WanMgrDml_GetIfaceData_release
  | None => ret tt
  end.
Definition bw_iteration (st : WcBWanPolicyState_t) : M (option WcBWanPolicyState_t) :=
  n <- call (ExtCall "select" ["500000"]) ;;
  if n <? 0 then ret (Some st)
  else
    bw_update ;;
    bw_lock ;;
    o <- bw_dispatch st ;;
    bw_release ;;
    ret o.
Definition bw_start : M (option WcBWanPolicyState_t) :=
  let r := WanMgr_Controller_PolicyCtrlInit zero_controller in
  set_bw (fun _ => snd r) ;;
  if fst r ≠? ANSC_STATUS_SUCCESS then ret None
  else st <- Transition_StartBakupWan ;; ret (Some st).
End BackupWan.
#[export] Hint Unfold set_bw : monad.
