(* ===== verification/AutoWanFacts.v ===== *)
(** The threads of [wanmgr_policy_autowan_impl.c] never dereference [NULL] and give
    back every lock: what their operations call, their actions, their transitions
    and states, and their passes. *)

From S2P Require Export StatusSafe BackupWan.

(** * The service, the network and the components *)

Section WanServiceSafe.
Context `{Platform} `{Build} `{MaptBuild} `{IfaceBuild} {C : Type} `{Anchor C}.
Context (sh : Shape) (Hwf : wf_shape sh).
#[local] Abbreviation safe m := (Safe (C := C) sh (fun _ => True) m).

Lemma safe_wanmgr_isWanStandby : safe wanmgr_isWanStandby.
Proof. unfold wanmgr_isWanStandby. safe_tac. Qed.
Lemma safe_wanmgr_isWanStarted : safe wanmgr_isWanStarted.
Proof. unfold wanmgr_isWanStarted. safe_tac. Qed.
Lemma safe_WanMgr_GetWanServiceStatus : safe WanMgr_GetWanServiceStatus.
Proof. unfold WanMgr_GetWanServiceStatus. safe_tac. Qed.
Lemma safe_WanMgr_GetWanStatus : safe WanMgr_GetWanStatus.
Proof. unfold WanMgr_GetWanStatus. safe_tac. Qed.
Lemma safe_WanMgr_GetWanRoutedStatus : safe WanMgr_GetWanRoutedStatus.
Proof. unfold WanMgr_GetWanRoutedStatus. safe_tac. Qed.
#[local] Hint Resolve safe_WanMgr_GetWanServiceStatus safe_WanMgr_GetWanStatus safe_WanMgr_GetWanRoutedStatus : safe.
Lemma safe_WanMgr_IsWanStopped : safe WanMgr_IsWanStopped.
Proof. unfold WanMgr_IsWanStopped. safe_tac. Qed.
Lemma safe_wanmgr_setwanstart : safe wanmgr_setwanstart.
Proof. unfold wanmgr_setwanstart. safe_tac. Qed.
Lemma safe_wanmgr_setwanstop : safe wanmgr_setwanstop.
Proof. unfold wanmgr_setwanstop. safe_tac. Qed.
Lemma safe_wanmgr_sshd_restart : safe wanmgr_sshd_restart.
Proof. unfold wanmgr_sshd_restart. safe_tac. Qed.
Lemma safe_wanmgr_firewall_restart : safe wanmgr_firewall_restart.
Proof. unfold wanmgr_firewall_restart. safe_tac. Qed.
Lemma safe_IsDefaultRoutePresent n b : safe (IsDefaultRoutePresent n b).
Proof. unfold IsDefaultRoutePresent. safe_tac. Qed.
Lemma safe_WanManager_IsNetworkInterfaceAvailable n : safe (WanManager_IsNetworkInterfaceAvailable n).
Proof. unfold WanManager_IsNetworkInterfaceAvailable. safe_tac. Qed.
Lemma safe_prints c : safe (prints c).
Proof. unfold prints. safe_tac. Qed.
#[local] Hint Resolve safe_prints : safe.
Lemma safe_IsIPObtained n : safe (IsIPObtained n).
Proof. unfold IsIPObtained. safe_tac. Qed.
Lemma safe_WanMgr_StartIpMonitor i : safe (WanMgr_StartIpMonitor i).
Proof. unfold WanMgr_StartIpMonitor. safe_tac. Qed.
Lemma safe_component_ready p : safe (component_ready p).
Proof. unfold component_ready. safe_tac. Qed.
Lemma safe_WanMgr_RdkBus_SetRequestIfComponent p n v : safe (WanMgr_RdkBus_SetRequestIfComponent p n v).
Proof. unfold WanMgr_RdkBus_SetRequestIfComponent. safe_tac. Qed.
End WanServiceSafe.
#[export] Hint Resolve safe_wanmgr_isWanStandby safe_wanmgr_isWanStarted safe_WanMgr_GetWanServiceStatus
  safe_WanMgr_GetWanStatus safe_WanMgr_GetWanRoutedStatus safe_WanMgr_IsWanStopped safe_wanmgr_setwanstart
  safe_wanmgr_setwanstop safe_wanmgr_sshd_restart safe_wanmgr_firewall_restart safe_IsDefaultRoutePresent
  safe_WanManager_IsNetworkInterfaceAvailable safe_IsIPObtained safe_WanMgr_StartIpMonitor safe_component_ready
  safe_WanMgr_RdkBus_SetRequestIfComponent : safe.

(** * The actions of the policies *)

(** The interfaces the two threads have locked. *)
Definition holding (an bn : option iface_ptr) : Anchor AutoWan_t := fun x =>
  pc_pWanActiveIfaceData (aw_wanPolicyCtrl x) = an /\ pc_pWanActiveIfaceData (bw_wanPolicyCtrl x) = bn.

Section AutoWanSafe.
Context `{Platform} `{Build} `{MaptBuild} `{IfaceBuild} `{AutoWanBuild}.
Context (sh : Shape) (Hwf : wf_shape sh) (Hmem : memory_available) (Hdns : resolv_conf_readable).
Context (an bn : option iface_ptr).
Context (Han : forall a, an = Some a -> valid_iface sh a) (Hbn : forall b, bn = Some b -> valid_iface sh b).
#[local] Abbreviation Safe P m := (DataFacts.Safe (C := AutoWan_t) (H := holding an bn) sh P m).
#[local] Abbreviation safe m := (Safe (fun _ => True) m).
#[local] Hint Resolve valid_first_vif : safe.

Lemma safe_set_ctl f : (forall x, holding an bn x -> holding an bn (f x)) -> safe (set_ctl f).
Proof. intros Hf. apply safe_modify; [done..|]. intros s. apply Hf. Qed.
Lemma safe_psm_string n : safe (psm_string n).
Proof. unfold psm_string. safe_tac. Qed.
#[local] Hint Resolve safe_psm_string : safe.
Lemma safe_eth_link_matches n m i : safe (eth_link_matches n m i).
Proof. unfold eth_link_matches. safe_tac. Qed.
#[local] Hint Resolve safe_eth_link_matches : safe.
Lemma safe_GetEthLink n m : safe (GetEthLink n m).
Proof. unfold GetEthLink. safe_tac. Qed.
#[local] Hint Resolve safe_GetEthLink : safe.
Lemma safe_SetCurrentWanMode m : safe (SetCurrentWanMode m).
Proof. unfold SetCurrentWanMode. safe_tac. Qed.
#[local] Hint Resolve safe_SetCurrentWanMode : safe.
Lemma safe_mode_from_db n : safe (mode_from_db n).
Proof. unfold mode_from_db. safe_tac. Qed.
#[local] Hint Resolve safe_mode_from_db : safe.
Lemma safe_SelectedWanMode m : safe (SelectedWanMode m).
Proof. unfold SelectedWanMode. safe_tac. Qed.
#[local] Hint Resolve safe_SelectedWanMode : safe.
Lemma safe_SetLastKnownWanMode m : safe (SetLastKnownWanMode m).
Proof. unfold SetLastKnownWanMode. safe_tac. Qed.
#[local] Hint Resolve safe_SetLastKnownWanMode : safe.
Lemma safe_GetSelectedWanMode : safe GetSelectedWanMode.
Proof. unfold GetSelectedWanMode. safe_tac. Qed.
#[local] Hint Resolve safe_GetSelectedWanMode : safe.
Lemma safe_GetCurrentWanMode : safe GetCurrentWanMode.
Proof. unfold GetCurrentWanMode. safe_tac. Qed.
#[local] Hint Resolve safe_GetCurrentWanMode : safe.
Lemma safe_GetLastKnownWanMode : safe GetLastKnownWanMode.
Proof. unfold GetLastKnownWanMode. safe_tac. Qed.
#[local] Hint Resolve safe_GetLastKnownWanMode : safe.
Lemma safe_IntializeAutoWanConfig : safe IntializeAutoWanConfig.
Proof. unfold IntializeAutoWanConfig, GetLastKnownWanModeFromDb. safe_tac. Qed.
#[local] Hint Resolve safe_IntializeAutoWanConfig : safe.
Lemma safe_AutoWan_BkupAndReboot : safe AutoWan_BkupAndReboot.
Proof. unfold AutoWan_BkupAndReboot. safe_tac. Qed.
#[local] Hint Resolve safe_AutoWan_BkupAndReboot : safe.
Lemma safe_WanMgr_SetInterface n st : safe (WanMgr_SetInterface n st).
Proof. unfold WanMgr_SetInterface. safe_tac. Qed.
#[local] Hint Resolve safe_WanMgr_SetInterface : safe.
Lemma safe_set_accept_ra n v : safe (set_accept_ra n v).
Proof. unfold set_accept_ra. safe_tac. Qed.
#[local] Hint Resolve safe_set_accept_ra : safe.
Lemma safe_WanMgr_enable_ra n : safe (WanMgr_enable_ra n).
Proof. unfold WanMgr_enable_ra. safe_tac. Qed.
#[local] Hint Resolve safe_WanMgr_enable_ra : safe.
Lemma safe_WanMgr_disable_ra n : safe (WanMgr_disable_ra n).
Proof. unfold WanMgr_disable_ra. safe_tac. Qed.
#[local] Hint Resolve safe_WanMgr_disable_ra : safe.
Lemma safe_WanMgr_GetWanInterfaceType i : safe (WanMgr_GetWanInterfaceType i).
Proof. unfold WanMgr_GetWanInterfaceType. safe_tac. Qed.
#[local] Hint Resolve safe_WanMgr_GetWanInterfaceType : safe.
Lemma safe_WanMgr_Policy_AutoWan_CfgPostWanSelection : safe WanMgr_Policy_AutoWan_CfgPostWanSelection.
Proof. unfold WanMgr_Policy_AutoWan_CfgPostWanSelection. safe_tac. Qed.
#[local] Hint Resolve safe_WanMgr_Policy_AutoWan_CfgPostWanSelection : safe.
Lemma safe_WanMgr_Policy_AutoWan_GetLastKnownModeInterfaceIndex : safe WanMgr_Policy_AutoWan_GetLastKnownModeInterfaceIndex.
Proof. unfold WanMgr_Policy_AutoWan_GetLastKnownModeInterfaceIndex. safe_tac. Qed.
#[local] Hint Resolve safe_WanMgr_Policy_AutoWan_GetLastKnownModeInterfaceIndex : safe.
Lemma safe_isAnyRemoteInterfaceActive : safe isAnyRemoteInterfaceActive.
Proof. unfold isAnyRemoteInterfaceActive. safe_tac. Qed.
#[local] Hint Resolve safe_isAnyRemoteInterfaceActive : safe.
Lemma safe_any_check_good ty : safe (any_check_good ty).
Proof. unfold any_check_good. safe_tac. Qed.
#[local] Hint Resolve safe_any_check_good : safe.

(** ** The health check *)

Lemma safe_WanMgr_Ipv6Config n : safe (WanMgr_Ipv6Config n).
Proof. unfold WanMgr_Ipv6Config. safe_tac. Qed.
#[local] Hint Resolve safe_WanMgr_Ipv6Config : safe.
Lemma safe_WanMgr_ConfigReset x n : safe (WanMgr_ConfigReset x n).
Proof. unfold WanMgr_ConfigReset. safe_tac. Qed.
#[local] Hint Resolve safe_WanMgr_ConfigReset : safe.
Lemma safe_configure_check p v4 v6 g e : valid_vif sh p -> safe (configure_check p v4 v6 g e).
Proof. intros. unfold configure_check. safe_tac. Qed.
#[local] Hint Resolve safe_configure_check : safe.
Lemma safe_WanMgr_Trigger_TAD p e : valid_vif sh p -> safe (WanMgr_Trigger_TAD p e).
Proof. intros. unfold WanMgr_Trigger_TAD. safe_tac. Qed.
#[local] Hint Resolve safe_WanMgr_Trigger_TAD : safe.
Lemma safe_WanMgr_Trigger_Backup_TAD p e : valid_vif sh p -> safe (WanMgr_Trigger_Backup_TAD p e).
Proof. intros. unfold WanMgr_Trigger_Backup_TAD. safe_tac. Qed.
#[local] Hint Resolve safe_WanMgr_Trigger_Backup_TAD : safe.
Lemma safe_WanMgr_Sysevent_SetConnectivityCheckState b st : safe (WanMgr_Sysevent_SetConnectivityCheckState b st).
Proof. unfold WanMgr_Sysevent_SetConnectivityCheckState. safe_tac. Qed.
#[local] Hint Resolve safe_WanMgr_Sysevent_SetConnectivityCheckState : safe.
Lemma safe_WanMgr_DnsCheckWaitForRemoteInActive p : valid_vif sh p -> safe (WanMgr_DnsCheckWaitForRemoteInActive p).
Proof. intros. unfold WanMgr_DnsCheckWaitForRemoteInActive. safe_tac. Qed.
#[local] Hint Resolve safe_WanMgr_DnsCheckWaitForRemoteInActive : safe.

(** ** The DHCP clients *)

Lemma safe_read_pid_file f : safe (read_pid_file f).
Proof. unfold read_pid_file. safe_tac. Qed.
#[local] Hint Resolve safe_read_pid_file : safe.
Lemma safe_WanMgr_Policy_CheckAndStopUDHCPClientOverWanInterface n f : safe (WanMgr_Policy_CheckAndStopUDHCPClientOverWanInterface n f).
Proof. unfold WanMgr_Policy_CheckAndStopUDHCPClientOverWanInterface. safe_tac. Qed.
#[local] Hint Resolve safe_WanMgr_Policy_CheckAndStopUDHCPClientOverWanInterface : safe.
Lemma safe_WanMgr_getUdhcpcClientID : safe WanMgr_getUdhcpcClientID.
Proof. unfold WanMgr_getUdhcpcClientID. safe_tac. Qed.
#[local] Hint Resolve safe_WanMgr_getUdhcpcClientID : safe.
Lemma safe_WanMgr_Policy_CheckAndStartUDHCPClientOverWanInterface n c f x : safe (WanMgr_Policy_CheckAndStartUDHCPClientOverWanInterface n c f x).
Proof. unfold WanMgr_Policy_CheckAndStartUDHCPClientOverWanInterface. safe_tac. Qed.
#[local] Hint Resolve safe_WanMgr_Policy_CheckAndStartUDHCPClientOverWanInterface : safe.
Lemma safe_puma7_clients : safe puma7_clients.
Proof. unfold puma7_clients. safe_tac. Qed.
#[local] Hint Resolve safe_puma7_clients : safe.
Lemma safe_start_in_mode ty m : safe m -> safe (start_in_mode ty m).
Proof. intros. unfold start_in_mode. safe_tac. Qed.
#[local] Hint Resolve safe_start_in_mode : safe.
Lemma safe_stop_secondary_clients u d : safe (stop_secondary_clients u d).
Proof. unfold stop_secondary_clients. safe_tac. Qed.
#[local] Hint Resolve safe_stop_secondary_clients : safe.
Lemma safe_stop_primary_clients u d : safe (stop_primary_clients u d).
Proof. unfold stop_primary_clients. safe_tac. Qed.
#[local] Hint Resolve safe_stop_primary_clients : safe.
Lemma safe_try_secondary n m d : safe (try_secondary n m d).
Proof. unfold try_secondary. safe_tac. Qed.
#[local] Hint Resolve safe_try_secondary : safe.
Lemma safe_try_primary n u : safe (try_primary n u).
Proof. unfold try_primary. safe_tac. Qed.
#[local] Hint Resolve safe_try_primary : safe.

(** ** The interfaces of the threads *)

Lemma safe_get_aw : Safe (fun c => pc_pWanActiveIfaceData c = an) (get_ctl aw_wanPolicyCtrl).
Proof. intros s Hs. apply wp_gets. split; [done | by destruct Hs as [_ []]]. Qed.
Lemma safe_get_bw : Safe (fun c => pc_pWanActiveIfaceData c = bn) (get_ctl bw_wanPolicyCtrl).
Proof. intros s Hs. apply wp_gets. split; [done | by destruct Hs as [_ []]]. Qed.
Lemma held_aw c a : pc_pWanActiveIfaceData c = an -> pc_pWanActiveIfaceData c = Some a -> valid_iface sh a.
Proof. intros E Ha. apply Han. congruence. Qed.
Lemma held_bw c b : pc_pWanActiveIfaceData c = bn -> pc_pWanActiveIfaceData c = Some b -> valid_iface sh b.
Proof. intros E Hb. apply Hbn. congruence. Qed.
Lemma safe_with_active none body :
  (forall a, valid_iface sh a -> safe (body a)) -> safe (with_active none body).
Proof.
  intros Hb. eapply safe_bind; [apply safe_get_aw | intros c Hc].
  destruct (pc_pWanActiveIfaceData c) eqn:E; [by apply Hb, (held_aw _ _ Hc E) | by apply safe_ret].
Qed.
Lemma safe_with_backup none body :
  safe none -> (forall b, valid_iface sh b -> safe (body b)) -> safe (with_backup none body).
Proof.
  intros Hn Hb. eapply safe_bind; [apply safe_get_bw | intros c Hc].
  destruct (pc_pWanActiveIfaceData c) eqn:E; [by apply Hb, (held_bw _ _ Hc E) | done].
Qed.
Lemma safe_set_aw f :
  (forall c, pc_pWanActiveIfaceData (f c) = pc_pWanActiveIfaceData c) -> safe (set_wanPolicyCtrl f).
Proof. intros Hf. apply safe_modify; [done..|]. intros s [Ha Hb]. split; [by rewrite <- Ha; apply Hf | done]. Qed.
Lemma safe_set_bw f :
  (forall c, pc_pWanActiveIfaceData (f c) = pc_pWanActiveIfaceData c) -> safe (set_bw f).
Proof. intros Hf. apply safe_modify; [done..|]. intros s [Ha Hb]. split; [done | by rewrite <- Hb; apply Hf]. Qed.
Lemma safe_trigger a e m : valid_iface sh a -> safe m -> safe (trigger a e m).
Proof. intros. unfold trigger, on_success. safe_tac. Qed.
Lemma safe_backup_trigger a e m : valid_iface sh a -> safe m -> safe (backup_trigger a e m).
Proof. intros. unfold backup_trigger, on_success. safe_tac. Qed.
End AutoWanSafe.
#[export] Hint Resolve safe_psm_string safe_eth_link_matches safe_GetEthLink safe_SetCurrentWanMode safe_mode_from_db
  safe_SelectedWanMode safe_SetLastKnownWanMode safe_GetSelectedWanMode safe_GetCurrentWanMode
  safe_GetLastKnownWanMode safe_IntializeAutoWanConfig safe_AutoWan_BkupAndReboot
  safe_WanMgr_SetInterface safe_set_accept_ra safe_WanMgr_enable_ra safe_WanMgr_disable_ra
  safe_WanMgr_GetWanInterfaceType safe_WanMgr_Policy_AutoWan_CfgPostWanSelection
  safe_WanMgr_Policy_AutoWan_GetLastKnownModeInterfaceIndex safe_isAnyRemoteInterfaceActive
  safe_any_check_good safe_WanMgr_Ipv6Config safe_WanMgr_ConfigReset safe_configure_check
  safe_WanMgr_Trigger_TAD safe_WanMgr_Trigger_Backup_TAD
  safe_WanMgr_Sysevent_SetConnectivityCheckState safe_WanMgr_DnsCheckWaitForRemoteInActive
  safe_read_pid_file safe_WanMgr_Policy_CheckAndStopUDHCPClientOverWanInterface
  safe_WanMgr_getUdhcpcClientID safe_WanMgr_Policy_CheckAndStartUDHCPClientOverWanInterface
  safe_puma7_clients safe_start_in_mode safe_stop_secondary_clients safe_stop_primary_clients
  safe_try_secondary safe_try_primary : safe.

Ltac first_vif :=
  match goal with
  | Ha : valid_iface ?sh ?a |- _ =>
      lazymatch goal with
      | _ : valid_vif sh (a, 0%nat) |- _ => fail
      | _ => pose proof (valid_first_vif sh a Ha)
      end
  end.
Ltac aw_safe_step :=
  first
  [ progress repeat first_vif
  | lazymatch goal with
    | |- DataFacts.Safe _ _ (with_active _ _) => apply safe_with_active; [assumption | intros ? ?]
    | |- DataFacts.Safe _ _ (with_backup _ _) => apply safe_with_backup; [assumption | | intros ? ?]
    | |- DataFacts.Safe _ _ (trigger _ _ _) => apply safe_trigger; [assumption.. |]
    | |- DataFacts.Safe _ _ (backup_trigger _ _ _) => apply safe_backup_trigger; [assumption.. |]
    | |- DataFacts.Safe _ _ (set_wanPolicyCtrl _) => apply safe_set_aw; reflexivity
    | |- DataFacts.Safe _ _ (set_bw _) => apply safe_set_bw; reflexivity
    end
  | safe_step ].
Ltac aw_safe := repeat aw_safe_step.

(** * The transitions, the states and the passes *)

Section AutoWanStatesSafe.
Context `{Platform} `{Build} `{MaptBuild} `{IfaceBuild} `{AutoWanBuild}.
Context (sh : Shape) (Hwf : wf_shape sh) (Hmem : memory_available) (Hdns : resolv_conf_readable).
Context (an bn : option iface_ptr).
Context (Han : forall a, an = Some a -> valid_iface sh a) (Hbn : forall b, bn = Some b -> valid_iface sh b).
#[local] Abbreviation Safe P m := (DataFacts.Safe (C := AutoWan_t) (H := holding an bn) sh P m).
#[local] Abbreviation safe m := (Safe (fun _ => True) m).
#[local] Hint Resolve valid_first_vif safe_get_iface : safe.

Lemma safe_StartWanClients : safe StartWanClients.
Proof.
  unfold StartWanClients. apply safe_bind_any; [safe_tac | intros m].
  eapply safe_bind; [apply safe_get_aw | intros c Hc].
  destruct (pc_pWanActiveIfaceData c) eqn:E; [pose proof (held_aw _ _ Han _ _ Hc E) | by apply safe_ret].
  aw_safe.
Qed.
#[local] Hint Resolve safe_StartWanClients : safe.

(** ** The transitions of the modes *)

Lemma safe_restore_failed : safe restore_failed.
Proof. unfold restore_failed. aw_safe. Qed.
#[local] Hint Resolve safe_restore_failed : safe.
Lemma safe_restore_succeeded : safe restore_succeeded.
Proof. unfold restore_succeeded. aw_safe. Qed.
#[local] Hint Resolve safe_restore_succeeded : safe.
Lemma safe_request A n v : safe (request A n v).
Proof. unfold request. aw_safe. Qed.
#[local] Hint Resolve safe_request : safe.
Lemma safe_request_instance A n : safe (request_instance A n).
Proof. unfold request_instance. aw_safe. Qed.
#[local] Hint Resolve safe_request_instance : safe.
Lemma safe_Transition_WanInterfaceSelected : safe Transition_WanInterfaceSelected.
Proof. unfold Transition_WanInterfaceSelected. aw_safe. Qed.
#[local] Hint Resolve safe_Transition_WanInterfaceSelected : safe.
Lemma safe_Transition_FixedWanInterfaceDown : safe Transition_FixedWanInterfaceDown.
Proof. unfold Transition_FixedWanInterfaceDown. aw_safe. Qed.
#[local] Hint Resolve safe_Transition_FixedWanInterfaceDown : safe.
Lemma safe_check_starting a : valid_iface sh a -> safe (check_starting a).
Proof. intros. unfold check_starting. aw_safe. Qed.
#[local] Hint Resolve safe_check_starting : safe.
Lemma safe_Transition_FixedWanInterfaceUp : safe Transition_FixedWanInterfaceUp.
Proof. unfold Transition_FixedWanInterfaceUp. aw_safe. Qed.
#[local] Hint Resolve safe_Transition_FixedWanInterfaceUp : safe.
Lemma safe_restart_with_check a : valid_iface sh a -> safe (restart_with_check a).
Proof. intros. unfold restart_with_check. aw_safe. Qed.
#[local] Hint Resolve safe_restart_with_check : safe.
Lemma safe_Transition_FixedDnsConnectivityCheckUp : safe Transition_FixedDnsConnectivityCheckUp.
Proof. unfold Transition_FixedDnsConnectivityCheckUp. aw_safe. Qed.
#[local] Hint Resolve safe_Transition_FixedDnsConnectivityCheckUp : safe.
Lemma safe_Transition_DnsConnectivityCheckUp : safe Transition_DnsConnectivityCheckUp.
Proof. unfold Transition_DnsConnectivityCheckUp. aw_safe. Qed.
#[local] Hint Resolve safe_Transition_DnsConnectivityCheckUp : safe.
Lemma safe_validating : safe validating.
Proof. unfold validating. aw_safe. Qed.
#[local] Hint Resolve safe_validating : safe.
Lemma safe_validated_or st m : safe m -> safe (validated_or st m).
Proof. intros. unfold validated_or. safe_tac. Qed.
#[local] Hint Resolve safe_validated_or : safe.
Lemma safe_Transition_WanInterfaceTearDown : safe Transition_WanInterfaceTearDown.
Proof. unfold Transition_WanInterfaceTearDown. aw_safe. Qed.
#[local] Hint Resolve safe_Transition_WanInterfaceTearDown : safe.
Lemma safe_scan_interface a : valid_iface sh a -> safe (scan_interface a).
Proof. intros. unfold scan_interface. aw_safe. Qed.
#[local] Hint Resolve safe_scan_interface : safe.
Lemma safe_scan_reset a : valid_iface sh a -> safe (scan_reset a).
Proof. intros. unfold scan_reset. aw_safe. Qed.
#[local] Hint Resolve safe_scan_reset : safe.
Lemma safe_Transition_WanInterfacePhyUp : safe Transition_WanInterfacePhyUp.
Proof. unfold Transition_WanInterfacePhyUp. aw_safe. Qed.
#[local] Hint Resolve safe_Transition_WanInterfacePhyUp : safe.
Lemma safe_Transition_WanInterfaceConfigured : safe Transition_WanInterfaceConfigured.
Proof. unfold Transition_WanInterfaceConfigured. aw_safe. Qed.
#[local] Hint Resolve safe_Transition_WanInterfaceConfigured : safe.
Lemma safe_Transition_WaitingForInterface a : valid_iface sh a -> safe (Transition_WaitingForInterface a).
Proof. intros. unfold Transition_WaitingForInterface. aw_safe. Qed.
#[local] Hint Resolve safe_Transition_WaitingForInterface : safe.
Lemma safe_lock_mode m : safe (lock_mode m).
Proof. unfold lock_mode. aw_safe. Qed.
#[local] Hint Resolve safe_lock_mode : safe.
Lemma safe_mode_detected A m : safe (mode_detected A m).
Proof. unfold mode_detected. aw_safe. Qed.
#[local] Hint Resolve safe_mode_detected : safe.
Lemma safe_Transition_WanInterfaceUp : safe Transition_WanInterfaceUp.
Proof. unfold Transition_WanInterfaceUp. aw_safe. Qed.
#[local] Hint Resolve safe_Transition_WanInterfaceUp : safe.
Lemma safe_Transition_WanInterfaceActive : safe Transition_WanInterfaceActive.
Proof. unfold Transition_WanInterfaceActive. aw_safe. Qed.
#[local] Hint Resolve safe_Transition_WanInterfaceActive : safe.
Lemma safe_WanMgr_Policy_AutoWan_SelectAlternateInterface : safe WanMgr_Policy_AutoWan_SelectAlternateInterface.
Proof.
  unfold WanMgr_Policy_AutoWan_SelectAlternateInterface. eapply safe_bind; [apply safe_get_aw | intros c Hc].
  destruct (pc_pWanActiveIfaceData c) eqn:E; [pose proof (held_aw _ _ Han _ _ Hc E)|]; aw_safe.
Qed.
#[local] Hint Resolve safe_WanMgr_Policy_AutoWan_SelectAlternateInterface : safe.

(** ** The states of the modes *)

Lemma safe_unchecked_or v m x : safe m -> safe (unchecked_or v m x).
Proof. intros. unfold unchecked_or. safe_tac. Qed.
#[local] Hint Resolve safe_unchecked_or : safe.
Lemma safe_wait_for_remote v : safe (wait_for_remote v).
Proof. unfold wait_for_remote. aw_safe. Qed.
#[local] Hint Resolve safe_wait_for_remote : safe.
Lemma safe_remote_released : safe remote_released.
Proof. unfold remote_released. aw_safe. Qed.
#[local] Hint Resolve safe_remote_released : safe.
Lemma safe_phy_down a : valid_iface sh a -> safe (phy_down a).
Proof. intros. unfold phy_down. aw_safe. Qed.
#[local] Hint Resolve safe_phy_down : safe.
Lemma safe_State_SelectingWanInterface : safe State_SelectingWanInterface.
Proof. unfold State_SelectingWanInterface. aw_safe. Qed.
#[local] Hint Resolve safe_State_SelectingWanInterface : safe.
Lemma safe_State_FixedWanInterfaceDown : safe State_FixedWanInterfaceDown.
Proof. unfold State_FixedWanInterfaceDown, Transition_FixedWanInterfaceValidating. aw_safe. Qed.
#[local] Hint Resolve safe_State_FixedWanInterfaceDown : safe.
Lemma safe_check_while_up x a : valid_iface sh a -> safe (check_while_up x a).
Proof. intros. unfold check_while_up. aw_safe. Qed.
#[local] Hint Resolve safe_check_while_up : safe.
Lemma safe_configure_v6_once a f g :
  valid_iface sh a -> (forall x, holding an bn x -> holding an bn (g true x)) -> safe (configure_v6_once a f g).
Proof.
  intros Ha Hg. unfold configure_v6_once. do 2 (apply safe_bind_any; [safe_tac | intros ?]).
  apply safe_when. intros _. apply safe_bind_any; [by apply safe_set_ctl | intros _; aw_safe].
Qed.
#[local] Hint Resolve safe_configure_v6_once : safe.
Lemma safe_wan_running : safe wan_running.
Proof. unfold wan_running. aw_safe. Qed.
#[local] Hint Resolve safe_wan_running : safe.
Lemma safe_default_route a : valid_iface sh a -> safe (default_route a).
Proof. intros. unfold default_route. aw_safe. Qed.
#[local] Hint Resolve safe_default_route : safe.
Lemma safe_State_FixedWanInterfaceUp : safe State_FixedWanInterfaceUp.
Proof. unfold State_FixedWanInterfaceUp, Transition_FixedWanInterfaceActive, put_fixed. aw_safe. Qed.
#[local] Hint Resolve safe_State_FixedWanInterfaceUp : safe.
Lemma safe_State_FixedWanInterfaceValidated : safe State_FixedWanInterfaceValidated.
Proof. unfold State_FixedWanInterfaceValidated. aw_safe. Qed.
#[local] Hint Resolve safe_State_FixedWanInterfaceValidated : safe.
Lemma safe_check_while_active a : valid_iface sh a -> safe (check_while_active a).
Proof. intros. unfold check_while_active, WanMgr_Policy_BackupWan_IsConnectivityCheckGood. aw_safe. Qed.
#[local] Hint Resolve safe_check_while_active : safe.
Lemma safe_restart_check_if_asked a : valid_iface sh a -> safe (restart_check_if_asked a).
Proof. intros. unfold restart_check_if_asked. aw_safe. Qed.
#[local] Hint Resolve safe_restart_check_if_asked : safe.
Lemma safe_State_FixedWanInterfaceActive : safe State_FixedWanInterfaceActive.
Proof. unfold State_FixedWanInterfaceActive. aw_safe. Qed.
#[local] Hint Resolve safe_State_FixedWanInterfaceActive : safe.
Lemma safe_State_WanInterfaceTearDown : safe State_WanInterfaceTearDown.
Proof. unfold State_WanInterfaceTearDown, GetSelectedWanModeFromDb. aw_safe. Qed.
#[local] Hint Resolve safe_State_WanInterfaceTearDown : safe.
Lemma safe_validated_down a : valid_iface sh a -> safe (validated_down a).
Proof. intros. unfold validated_down. aw_safe. Qed.
#[local] Hint Resolve safe_validated_down : safe.
Lemma safe_validated_state st m : safe m -> safe (validated_state st m).
Proof. intros. unfold validated_state. aw_safe. Qed.
#[local] Hint Resolve safe_validated_state : safe.
Lemma safe_State_AutoWanInterfaceValidated : safe State_AutoWanInterfaceValidated.
Proof. unfold State_AutoWanInterfaceValidated. apply safe_validated_state. aw_safe. Qed.
#[local] Hint Resolve safe_State_AutoWanInterfaceValidated : safe.
Lemma safe_State_WanInterfaceValidated : safe State_WanInterfaceValidated.
Proof. unfold State_WanInterfaceValidated. apply safe_validated_state. aw_safe. Qed.
#[local] Hint Resolve safe_State_WanInterfaceValidated : safe.
Lemma safe_State_WanConfiguringInterface : safe State_WanConfiguringInterface.
Proof. unfold State_WanConfiguringInterface, Transition_AutoWanInterfaceValidating. aw_safe. Qed.
#[local] Hint Resolve safe_State_WanConfiguringInterface : safe.
Lemma safe_State_WanDeConfiguringInterface : safe State_WanDeConfiguringInterface.
Proof. unfold State_WanDeConfiguringInterface. aw_safe. Qed.
#[local] Hint Resolve safe_State_WanDeConfiguringInterface : safe.
Lemma safe_State_WanScanningInterface : safe State_WanScanningInterface.
Proof. unfold State_WanScanningInterface. aw_safe. Qed.
#[local] Hint Resolve safe_State_WanScanningInterface : safe.
Lemma safe_auto_going_down a : valid_iface sh a -> safe (auto_going_down a).
Proof. intros. unfold auto_going_down. aw_safe. Qed.
#[local] Hint Resolve safe_auto_going_down : safe.
Lemma safe_auto_status_down a : valid_iface sh a -> safe (auto_status_down a).
Proof. intros. unfold auto_status_down. aw_safe. Qed.
#[local] Hint Resolve safe_auto_status_down : safe.
Lemma safe_auto_State_WanInterfaceActive : safe State_WanInterfaceActive.
Proof. unfold State_WanInterfaceActive. aw_safe. Qed.
#[local] Hint Resolve safe_auto_State_WanInterfaceActive : safe.
Lemma safe_State_WanInterfaceUp : safe State_WanInterfaceUp.
Proof. unfold State_WanInterfaceUp, put_auto. aw_safe. Qed.
#[local] Hint Resolve safe_State_WanInterfaceUp : safe.
Lemma safe_auto_State_WanInterfaceDown : safe State_WanInterfaceDown.
Proof. unfold State_WanInterfaceDown, Transition_WanInterfaceValidating. aw_safe. Qed.
#[local] Hint Resolve safe_auto_State_WanInterfaceDown : safe.
Lemma safe_State_WaitingForInterface : safe State_WaitingForInterface.
Proof. unfold State_WaitingForInterface, Transition_AutoWanInterfaceValidating. aw_safe. Qed.
#[local] Hint Resolve safe_State_WaitingForInterface : safe.
Lemma safe_fixed_dispatch st : safe (fixed_dispatch st).
Proof. unfold fixed_dispatch. aw_safe. Qed.
#[local] Hint Resolve safe_fixed_dispatch : safe.
Lemma safe_auto_dispatch st : safe (auto_dispatch st).
Proof. unfold auto_dispatch. aw_safe. Qed.
#[local] Hint Resolve safe_auto_dispatch : safe.
Lemma safe_update_WanEnable : safe update_WanEnable.
Proof. unfold update_WanEnable. aw_safe. Qed.
#[local] Hint Resolve safe_update_WanEnable : safe.

(** ** The backup policy *)

Lemma safe_Get_Device_Mode : safe Get_Device_Mode.
Proof. unfold Get_Device_Mode. aw_safe. Qed.
#[local] Hint Resolve safe_Get_Device_Mode : safe.
Lemma safe_UnSetV6Route n r m : safe (UnSetV6Route n r m).
Proof. unfold UnSetV6Route. aw_safe. Qed.
#[local] Hint Resolve safe_UnSetV6Route : safe.
Lemma safe_WanMgr_delBackUpIpv6Route n : safe (WanMgr_delBackUpIpv6Route n).
Proof. unfold WanMgr_delBackUpIpv6Route. aw_safe. Qed.
#[local] Hint Resolve safe_WanMgr_delBackUpIpv6Route : safe.
Lemma safe_WanMgr_FirewallRuleConfig x n : safe (WanMgr_FirewallRuleConfig x n).
Proof. unfold WanMgr_FirewallRuleConfig. aw_safe. Qed.
#[local] Hint Resolve safe_WanMgr_FirewallRuleConfig : safe.
Lemma safe_find_iface f : safe (find_iface f).
Proof. unfold find_iface. aw_safe. Qed.
#[local] Hint Resolve safe_find_iface : safe.
Lemma safe_WanMgr_Policy_PrimaryWan_CheckAnyLocalWANIsSelected : safe WanMgr_Policy_PrimaryWan_CheckAnyLocalWANIsSelected.
Proof. unfold WanMgr_Policy_PrimaryWan_CheckAnyLocalWANIsSelected. aw_safe. Qed.
#[local] Hint Resolve safe_WanMgr_Policy_PrimaryWan_CheckAnyLocalWANIsSelected : safe.
Lemma safe_WanMgr_Policy_PrimaryWan_ReTriggerValidation : safe WanMgr_Policy_PrimaryWan_ReTriggerValidation.
Proof. unfold WanMgr_Policy_PrimaryWan_ReTriggerValidation. aw_safe. Qed.
#[local] Hint Resolve safe_WanMgr_Policy_PrimaryWan_ReTriggerValidation : safe.
Lemma safe_WanMgr_Policy_BackupWan_CheckLocalWANsScannedOnce : safe WanMgr_Policy_BackupWan_CheckLocalWANsScannedOnce.
Proof. unfold WanMgr_Policy_BackupWan_CheckLocalWANsScannedOnce. aw_safe. Qed.
#[local] Hint Resolve safe_WanMgr_Policy_BackupWan_CheckLocalWANsScannedOnce : safe.
Lemma safe_failover_failed : safe failover_failed.
Proof. unfold failover_failed. aw_safe. Qed.
#[local] Hint Resolve safe_failover_failed : safe.
Lemma safe_failover_succeeded : safe failover_succeeded.
Proof. unfold failover_succeeded. aw_safe. Qed.
#[local] Hint Resolve safe_failover_succeeded : safe.
Lemma safe_failover_failed_without_local : safe failover_failed_without_local.
Proof. unfold failover_failed_without_local, WanMgr_Policy_BackupWan_CheckAnyLocalWANIsPhysicallyActive. aw_safe. Qed.
#[local] Hint Resolve safe_failover_failed_without_local : safe.
Lemma safe_delete_v6_route n : safe (delete_v6_route n).
Proof. unfold delete_v6_route. aw_safe. Qed.
#[local] Hint Resolve safe_delete_v6_route : safe.
Lemma safe_Transition_BackupWanSelectingInterface : safe Transition_BackupWanSelectingInterface.
Proof. unfold Transition_BackupWanSelectingInterface. aw_safe. Qed.
#[local] Hint Resolve safe_Transition_BackupWanSelectingInterface : safe.
Lemma safe_Transition_BackupWanInterfaceSelected : safe Transition_BackupWanInterfaceSelected.
Proof. unfold Transition_BackupWanInterfaceSelected. aw_safe. Qed.
#[local] Hint Resolve safe_Transition_BackupWanInterfaceSelected : safe.
Lemma safe_Transition_ValidatingBackupWanInterface : safe Transition_ValidatingBackupWanInterface.
Proof. unfold Transition_ValidatingBackupWanInterface. aw_safe. Qed.
#[local] Hint Resolve safe_Transition_ValidatingBackupWanInterface : safe.
Lemma safe_Transition_BackupWanAvailable : safe Transition_BackupWanAvailable.
Proof. unfold Transition_BackupWanAvailable. aw_safe. Qed.
#[local] Hint Resolve safe_Transition_BackupWanAvailable : safe.
Lemma safe_Transition_BackupWanInterfaceUp : safe Transition_BackupWanInterfaceUp.
Proof. unfold Transition_BackupWanInterfaceUp. aw_safe. Qed.
#[local] Hint Resolve safe_Transition_BackupWanInterfaceUp : safe.
Lemma safe_no_primary v : safe (no_primary v).
Proof. unfold no_primary, WanMgr_Policy_BackupWan_CheckAnyLocalWANIsPhysicallyActive, WanMgr_Policy_PrimaryWan_IsConnectivityCheckGood. aw_safe. Qed.
#[local] Hint Resolve safe_no_primary : safe.
Lemma safe_backup_reset a : valid_iface sh a -> safe (backup_reset a).
Proof. intros. unfold backup_reset. aw_safe. Qed.
#[local] Hint Resolve safe_backup_reset : safe.
Lemma safe_Transition_BackupWanInterfaceDown : safe Transition_BackupWanInterfaceDown.
Proof. unfold Transition_BackupWanInterfaceDown. aw_safe. Qed.
#[local] Hint Resolve safe_Transition_BackupWanInterfaceDown : safe.
Lemma safe_route_retries n a k : valid_iface sh a -> safe (route_retries n a k).
Proof. intros Ha. revert k. induction n as [|n IH]; intros k; simpl; aw_safe. Qed.
#[local] Hint Resolve safe_route_retries : safe.
Lemma safe_Transition_BackupWanInterfaceActive : safe Transition_BackupWanInterfaceActive.
Proof. unfold Transition_BackupWanInterfaceActive. aw_safe. Qed.
#[local] Hint Resolve safe_Transition_BackupWanInterfaceActive : safe.
Lemma safe_Transition_BackupWanInterfaceInActive : safe Transition_BackupWanInterfaceInActive.
Proof. unfold Transition_BackupWanInterfaceInActive. aw_safe. Qed.
#[local] Hint Resolve safe_Transition_BackupWanInterfaceInActive : safe.
Lemma safe_State_SelectingBackupWanInterface : safe State_SelectingBackupWanInterface.
Proof. unfold State_SelectingBackupWanInterface, WanMgr_Policy_BackupWan_GetCurrentBackupWanInterfaceIndex. aw_safe. Qed.
#[local] Hint Resolve safe_State_SelectingBackupWanInterface : safe.
Lemma safe_State_BackupWanInterfaceDown : safe State_BackupWanInterfaceDown.
Proof. unfold State_BackupWanInterfaceDown. aw_safe. Qed.
#[local] Hint Resolve safe_State_BackupWanInterfaceDown : safe.
Lemma safe_State_ValidatingBackupWanInterface : safe State_ValidatingBackupWanInterface.
Proof. unfold State_ValidatingBackupWanInterface. aw_safe. Qed.
#[local] Hint Resolve safe_State_ValidatingBackupWanInterface : safe.
Lemma safe_backup_check a : valid_iface sh a -> safe (backup_check a).
Proof. intros. unfold backup_check. aw_safe. Qed.
#[local] Hint Resolve safe_backup_check : safe.
Lemma safe_State_BackupWanAvailable : safe State_BackupWanAvailable.
Proof. unfold State_BackupWanAvailable. aw_safe. Qed.
#[local] Hint Resolve safe_State_BackupWanAvailable : safe.
Lemma safe_primary_gone v : safe (primary_gone v).
Proof. unfold primary_gone, WanMgr_Policy_PrimaryWan_IsConnectivityCheckGood. aw_safe. Qed.
#[local] Hint Resolve safe_primary_gone : safe.
Lemma safe_may_activate a m : valid_iface sh a -> safe m -> safe (may_activate a m).
Proof. intros. unfold may_activate. aw_safe. Qed.
#[local] Hint Resolve safe_may_activate : safe.
Lemma safe_State_BackupWanInterfaceUp : safe State_BackupWanInterfaceUp.
Proof. unfold State_BackupWanInterfaceUp. aw_safe. Qed.
#[local] Hint Resolve safe_State_BackupWanInterfaceUp : safe.
Lemma safe_State_BackupWanInterfaceInActive : safe State_BackupWanInterfaceInActive.
Proof. unfold State_BackupWanInterfaceInActive. aw_safe. Qed.
#[local] Hint Resolve safe_State_BackupWanInterfaceInActive : safe.
Lemma safe_restoration_timer b n : safe (restoration_timer b n).
Proof. unfold restoration_timer. aw_safe. Qed.
#[local] Hint Resolve safe_restoration_timer : safe.
Lemma safe_backup_check_active a : valid_iface sh a -> safe (backup_check_active a).
Proof. intros. unfold backup_check_active, WanMgr_Policy_PrimaryWan_IsConnectivityCheckGood. aw_safe. Qed.
#[local] Hint Resolve safe_backup_check_active : safe.
Lemma safe_primary_back v : safe (primary_back v).
Proof. unfold primary_back, WanMgr_Policy_BackupWan_CheckAnyLocalWANIsPhysicallyActive, WanMgr_Policy_PrimaryWan_IsConnectivityCheckGood. aw_safe. Qed.
#[local] Hint Resolve safe_primary_back : safe.
Lemma safe_restore_primary v : safe (restore_primary v).
Proof. unfold restore_primary. aw_safe. Qed.
#[local] Hint Resolve safe_restore_primary : safe.
Lemma safe_State_BackupWanInterfaceActive : safe State_BackupWanInterfaceActive.
Proof. unfold State_BackupWanInterfaceActive. aw_safe. Qed.
#[local] Hint Resolve safe_State_BackupWanInterfaceActive : safe.
Lemma safe_State_BackupWanInterfaceWaitingPrimaryUp : safe State_BackupWanInterfaceWaitingPrimaryUp.
Proof. unfold State_BackupWanInterfaceWaitingPrimaryUp, Transition_BackupWanInterfaceWaitingPrimaryUp. aw_safe. Qed.
#[local] Hint Resolve safe_State_BackupWanInterfaceWaitingPrimaryUp : safe.
Lemma safe_bw_dispatch st : safe (bw_dispatch st).
Proof. unfold bw_dispatch. aw_safe. Qed.
#[local] Hint Resolve safe_bw_dispatch : safe.
Lemma safe_bw_update : safe bw_update.
Proof. unfold bw_update. aw_safe. Qed.
#[local] Hint Resolve safe_bw_update : safe.
End AutoWanStatesSafe.
#[export] Hint Resolve safe_StartWanClients safe_restore_failed safe_restore_succeeded safe_request
  safe_request_instance safe_Transition_WanInterfaceSelected safe_Transition_FixedWanInterfaceDown
  safe_check_starting safe_Transition_FixedWanInterfaceUp safe_restart_with_check
  safe_Transition_FixedDnsConnectivityCheckUp safe_Transition_DnsConnectivityCheckUp
  safe_validating safe_validated_or safe_Transition_WanInterfaceTearDown safe_scan_interface
  safe_scan_reset safe_Transition_WanInterfacePhyUp safe_Transition_WanInterfaceConfigured
  safe_Transition_WaitingForInterface safe_lock_mode safe_mode_detected
  safe_Transition_WanInterfaceUp safe_Transition_WanInterfaceActive
  safe_WanMgr_Policy_AutoWan_SelectAlternateInterface safe_unchecked_or safe_wait_for_remote
  safe_remote_released safe_phy_down safe_State_SelectingWanInterface
  safe_State_FixedWanInterfaceDown safe_check_while_up safe_configure_v6_once safe_wan_running
  safe_default_route safe_State_FixedWanInterfaceUp safe_State_FixedWanInterfaceValidated
  safe_check_while_active safe_restart_check_if_asked safe_State_FixedWanInterfaceActive
  safe_State_WanInterfaceTearDown safe_validated_down safe_validated_state
  safe_State_AutoWanInterfaceValidated safe_State_WanInterfaceValidated
  safe_State_WanConfiguringInterface safe_State_WanDeConfiguringInterface
  safe_State_WanScanningInterface safe_auto_going_down safe_auto_status_down
  safe_auto_State_WanInterfaceActive safe_State_WanInterfaceUp safe_auto_State_WanInterfaceDown
  safe_State_WaitingForInterface safe_fixed_dispatch safe_auto_dispatch safe_update_WanEnable
  safe_Get_Device_Mode safe_UnSetV6Route safe_WanMgr_delBackUpIpv6Route
  safe_WanMgr_FirewallRuleConfig safe_find_iface
  safe_WanMgr_Policy_PrimaryWan_CheckAnyLocalWANIsSelected
  safe_WanMgr_Policy_PrimaryWan_ReTriggerValidation
  safe_WanMgr_Policy_BackupWan_CheckLocalWANsScannedOnce safe_failover_failed
  safe_failover_succeeded safe_failover_failed_without_local safe_delete_v6_route
  safe_Transition_BackupWanSelectingInterface safe_Transition_BackupWanInterfaceSelected
  safe_Transition_ValidatingBackupWanInterface safe_Transition_BackupWanAvailable
  safe_Transition_BackupWanInterfaceUp safe_no_primary safe_backup_reset
  safe_Transition_BackupWanInterfaceDown safe_route_retries
  safe_Transition_BackupWanInterfaceActive safe_Transition_BackupWanInterfaceInActive
  safe_State_SelectingBackupWanInterface safe_State_BackupWanInterfaceDown
  safe_State_ValidatingBackupWanInterface safe_backup_check safe_State_BackupWanAvailable
  safe_primary_gone safe_may_activate safe_State_BackupWanInterfaceUp
  safe_State_BackupWanInterfaceInActive safe_restoration_timer safe_backup_check_active
  safe_primary_back safe_restore_primary safe_State_BackupWanInterfaceActive
  safe_State_BackupWanInterfaceWaitingPrimaryUp safe_bw_dispatch safe_bw_update : safe.
