(* ===== verification/AutoWanPass.v ===== *)
(** A round of either thread of [wanmgr_policy_autowan_impl.c] runs to its end,
    keeps the shape of the data base and gives back every lock. *)

From S2P Require Export AutoWanFacts.

Section AutoWanPass.
Context `{Platform} `{Build} `{MaptBuild} `{IfaceBuild} `{AutoWanBuild}.
Context (Hmem : memory_available) (Hdns : resolv_conf_readable).
#[local] Abbreviation M := (Prelude.M (St AutoWan_t)).
Implicit Type s : St AutoWan_t.

(** What a round leaves: the shape, the lock, and the controller of the other
    thread. *)
Definition settled (s s' : St AutoWan_t) : Prop := shape_of (db s') = shape_of (db s) /\ depth s' = depth s.
Definition aw_held (x : AutoWan_t) : option iface_ptr := pc_pWanActiveIfaceData (aw_wanPolicyCtrl x).
Definition bw_held (x : AutoWan_t) : option iface_ptr := pc_pWanActiveIfaceData (bw_wanPolicyCtrl x).

Lemma settled_refl s : settled s s.
Proof. done. Qed.
Lemma settled_trans s1 s2 s3 : settled s1 s2 -> settled s2 s3 -> settled s1 s3.
Proof. unfold settled. intros [-> ->] [-> ->]. done. Qed.

(** A computation that is safe whatever the threads hold. *)
Lemma wp_settled {A} (P : A -> Prop) (m : M A) s :
  (forall sh, wf_shape sh -> DataFacts.Safe (H := holding (aw_held (ctl s)) (bw_held (ctl s))) sh P m) ->
  db_wf (db s) -> wp m (fun a s' => settled s s' /\ P a) s.
Proof.
  intros Hm Hwf. eapply wp_mono; [apply (Hm (shape_of (db s)) Hwf); by split|].
  intros a s' [[[? _] ?] ?]. done.
Qed.

(** [m] always runs to its end and leaves a settled state. *)
Definition Settles {A} (m : M A) : Prop := forall s, db_wf (db s) -> wp m (fun _ s' => settled s s') s.
Lemma settles_safe {A} (P : A -> Prop) (m : M A) :
  (forall sh an bn, wf_shape sh -> DataFacts.Safe (H := holding an bn) sh P m) -> Settles m.
Proof.
  intros Hm s Hwf. eapply wp_mono; [apply (wp_settled P); [intros sh Hsh; by apply Hm | done] | by intros a s' []].
Qed.
Lemma settled_wf s s' : settled s s' -> db_wf (db s) -> db_wf (db s').
Proof. unfold db_wf. by intros [-> _]. Qed.
Lemma settles_bind {A B} (m : M A) (k : A -> M B) : Settles m -> (forall a, Settles (k a)) -> Settles (bind m k).
Proof.
  intros Hm Hk s Hwf. apply wp_bind. eapply wp_mono; [by apply Hm|]. intros a s1 Hs1.
  eapply wp_mono; [apply Hk, (settled_wf _ _ Hs1 Hwf)|]. intros b s2 Hs2. exact (settled_trans _ _ _ Hs1 Hs2).
Qed.
Lemma settles_ret {A} (a : A) : Settles (ret a).
Proof. intros s Hwf. by apply wp_ret. Qed.
Lemma settles_gets {A} (f : St AutoWan_t -> A) : Settles (gets f).
Proof. intros s Hwf. by apply wp_gets. Qed.
Lemma settles_set_ctl f : Settles (set_ctl f).
Proof. intros s Hwf. by apply wp_modify. Qed.

(** ** The passes *)

(** A pass locks the interface of its controller, [G], if there is one, and
    releases it at its end. *)
Definition lock_of (G : AutoWan_t -> WanMgr_Policy_Controller_t)
    (set_G : (WanMgr_Policy_Controller_t -> WanMgr_Policy_Controller_t) -> M unit) : M unit :=
  c <- get_ctl G ;;
  p <- WanMgr_GetIfaceData_locked (u32 (pc_activeInterfaceIdx c)) ;;
  set_G (fun c => c <| pc_pWanActiveIfaceData := p |>).
Definition release_of (G : AutoWan_t -> WanMgr_Policy_Controller_t) : M unit :=
  c <- get_ctl G ;;
  match pc_pWanActiveIfaceData c with
  | Some _ => WanMgrDml_GetIfaceData_release
  | None => ret tt
  end.

(** A pass finds an interface to lock; the controller has one. *)
Definition locks s (c : WanMgr_Policy_Controller_t) : bool := iface_ok s (u32 (pc_activeInterfaceIdx c)).
Definition holds (c : WanMgr_Policy_Controller_t) : bool :=
  match pc_pWanActiveIfaceData c with Some _ => true | None => false end.

Section Locked.
Context (G : AutoWan_t -> WanMgr_Policy_Controller_t)
  (F : (WanMgr_Policy_Controller_t -> WanMgr_Policy_Controller_t) -> AutoWan_t -> AutoWan_t).
Context (HG : forall f x, G (F f x) = f (G x)).
Context (Hheld : forall x y, holding (aw_held x) (bw_held x) y ->
  pc_pWanActiveIfaceData (G y) = pc_pWanActiveIfaceData (G x)).

Lemma wp_locked {A} (P : bool -> A -> Prop) (m : M A) s :
  (forall sh x, wf_shape sh -> (forall a, pc_pWanActiveIfaceData (G x) = Some a -> valid_iface sh a) ->
    DataFacts.Safe (H := holding (aw_held x) (bw_held x)) sh (P (holds (G x))) m) ->
  db_wf (db s) ->
  wp (lock_of G (fun f => set_ctl (F f)) ;; o <- m ;; release_of G ;; ret o)
    (fun o s' => settled s s' /\ P (locks s (G (ctl s))) o) s.
Proof.
  intros Hm Hwf. apply wp_bind, wp_bind, wp_gets, wp_bind.
  assert (forall p s1, shape_of (db s1) = shape_of (db s) ->
    (forall a, p = Some a -> valid_iface (shape_of (db s)) a) ->
    depth s1 = ((match p with Some _ => 1 | None => 0 end) + depth s)%nat ->
    locks s (G (ctl s)) = (match p with Some _ => true | None => false end) ->
    wp (set_ctl (F (fun c => c <| pc_pWanActiveIfaceData := p |>)))
      (fun _ s1 => wp (o <- m ;; release_of G ;; ret o) (fun o s' => settled s s' /\ P (locks s (G (ctl s))) o) s1) s1) as Hrun.
  { intros p s1 Hsh Hp Hd Hl. apply wp_modify. set (s2 := s1 <| ctl := _ |>).
    assert (pc_pWanActiveIfaceData (G (ctl s2)) = p) as Ep by (unfold s2; rsimpl; by rewrite HG).
    assert (holds (G (ctl s2)) = locks s (G (ctl s))) as Eh by (unfold holds; by rewrite Ep, Hl).
    apply wp_bind. eapply wp_mono; [apply (Hm (shape_of (db s)) (ctl s2) Hwf); [by rewrite Ep | by split]|].
    intros o s3 [[[Hsh3 Ha3] Hd3] HP]. rewrite Eh in HP. apply wp_bind, wp_bind, wp_gets.
    rewrite (Hheld _ _ Ha3), Ep. change (depth s2) with (depth s1) in Hd3.
    destruct p as [a|].
    - eapply wp_intro; [reflexivity|]. apply wp_ret. split; [split; [done|] | done].
      change (pred (depth s3) = depth s). lia.
    - apply wp_ret, wp_ret. split; [split; [done | lia] | done]. }
  apply wp_get_locked; intros Hok; (apply Hrun; [done | | unfold depth, locked; rsimpl; lia | exact Hok]).
  - intros a [= <-]. by eapply iface_ok_valid; [| | apply u32_range |].
  - done.
Qed.
End Locked.
End AutoWanPass.
