(* ===== verification/AutoWanEdges.v ===== *)
(** The state diagrams of the fixed modes and of the automatic mode, and the proof
    that their passes follow them. *)

From S2P Require Export AutoWanPass.

Definition if_failover `{AutoWanBuild} {A} (l : list A) : list A := if AutoWan.WAN_FAILOVER_SUPPORTED then l else [].
Definition if_checked `{AutoWanBuild} {A} (l : list A) : list A := if FEATURE_TAD_HEALTH_CHECK then l else [].

Section Diagrams.
Context `{AutoWanBuild}.

(** Where a pass of a fixed mode may lead, with its interface locked or without. *)
Definition fixed_next (locked : bool) (st : WcFmobPolicyState_t) : list WcFmobPolicyState_t :=
  match st, locked with
  | STATE_WAN_SELECTING_INTERFACE, true => [STATE_WAN_SELECTING_INTERFACE; STATE_WAN_INTERFACE_DOWN]
  | STATE_WAN_SELECTING_INTERFACE, false => [STATE_WAN_SELECTING_INTERFACE]
  | STATE_WAN_INTERFACE_DOWN, true =>
      [STATE_WAN_INTERFACE_DOWN; STATE_WAN_INTERFACE_UP; STATE_WAN_INTERFACE_TEARDOWN]
      ++ if_failover [STATE_WAN_VALIDATED_INTERFACE]
  | STATE_WAN_INTERFACE_DOWN, false => [STATE_WAN_SELECTING_INTERFACE]
  | STATE_WAN_INTERFACE_UP, true =>
      [STATE_WAN_INTERFACE_UP; STATE_WAN_INTERFACE_DOWN; STATE_WAN_INTERFACE_TEARDOWN]
      ++ if_failover [STATE_WAN_INTERFACE_ACTIVE]
  | STATE_WAN_INTERFACE_UP, false => [STATE_WAN_INTERFACE_DOWN]
  | STATE_WAN_VALIDATED_INTERFACE, true =>
      if_failover [STATE_WAN_VALIDATED_INTERFACE; STATE_WAN_INTERFACE_DOWN; STATE_WAN_INTERFACE_UP;
                   STATE_WAN_INTERFACE_TEARDOWN]
  | STATE_WAN_VALIDATED_INTERFACE, false => if_failover [STATE_WAN_VALIDATED_INTERFACE]
  | STATE_WAN_INTERFACE_ACTIVE, true =>
      if_failover ([STATE_WAN_INTERFACE_ACTIVE; STATE_WAN_INTERFACE_DOWN; STATE_WAN_INTERFACE_TEARDOWN]
                   ++ if_checked [STATE_WAN_INTERFACE_UP])
  | STATE_WAN_INTERFACE_ACTIVE, false => if_failover [STATE_WAN_INTERFACE_DOWN]
  | STATE_WAN_INTERFACE_TEARDOWN, true =>
      [STATE_WAN_INTERFACE_TEARDOWN; STATE_WAN_EXIT; STATE_WAN_SELECTING_INTERFACE; STATE_WAN_INTERFACE_DOWN]
  | STATE_WAN_INTERFACE_TEARDOWN, false => [STATE_WAN_INTERFACE_TEARDOWN]
  | _, _ => []
  end.

(** The same for the automatic mode; a pass without an interface waits. *)
Definition auto_next (locked : bool) (st : WcFmobPolicyState_t) : list WcFmobPolicyState_t :=
  match st, locked with
  | STATE_WAN_SELECTING_INTERFACE, _ => [STATE_WAN_WAITING_FOR_INTERFACE]
  | STATE_WAN_WAITING_FOR_INTERFACE, true =>
      [STATE_WAN_WAITING_FOR_INTERFACE; STATE_WAN_CONFIGURING_INTERFACE; STATE_WAN_DECONFIGURING_INTERFACE;
       STATE_WAN_SCANNING_INTERFACE; STATE_WAN_INTERFACE_TEARDOWN] ++ if_failover [STATE_WAN_VALIDATED_INTERFACE]
  | STATE_WAN_CONFIGURING_INTERFACE, true =>
      [STATE_WAN_DECONFIGURING_INTERFACE; STATE_WAN_SCANNING_INTERFACE; STATE_WAN_INTERFACE_TEARDOWN]
      ++ if_failover [STATE_WAN_CONFIGURING_INTERFACE; STATE_WAN_VALIDATED_INTERFACE]
  | STATE_WAN_CONFIGURING_INTERFACE, false => [STATE_WAN_WAITING_FOR_INTERFACE]
  | STATE_WAN_SCANNING_INTERFACE, true =>
      [STATE_WAN_SCANNING_INTERFACE; STATE_WAN_INTERFACE_UP; STATE_WAN_DECONFIGURING_INTERFACE;
       STATE_WAN_INTERFACE_TEARDOWN]
  | STATE_WAN_DECONFIGURING_INTERFACE, true => [STATE_WAN_SELECTING_INTERFACE; STATE_WAN_INTERFACE_TEARDOWN]
  | STATE_WAN_DECONFIGURING_INTERFACE, false => [STATE_WAN_SELECTING_INTERFACE]
  | STATE_WAN_VALIDATED_INTERFACE, true =>
      if_failover [STATE_WAN_VALIDATED_INTERFACE; STATE_WAN_INTERFACE_DOWN; STATE_WAN_INTERFACE_UP;
                   STATE_WAN_INTERFACE_TEARDOWN]
  | STATE_AUTOWAN_VALIDATED_INTERFACE, true =>
      if_failover [STATE_AUTOWAN_VALIDATED_INTERFACE; STATE_WAN_INTERFACE_DOWN; STATE_WAN_SCANNING_INTERFACE;
                   STATE_WAN_INTERFACE_TEARDOWN]
  | STATE_WAN_INTERFACE_UP, true =>
      [STATE_WAN_INTERFACE_UP; STATE_WAN_INTERFACE_DOWN; STATE_WAN_INTERFACE_ACTIVE; STATE_WAN_INTERFACE_TEARDOWN]
  | STATE_WAN_INTERFACE_ACTIVE, true =>
      [STATE_WAN_INTERFACE_ACTIVE; STATE_WAN_INTERFACE_DOWN; STATE_WAN_INTERFACE_TEARDOWN]
      ++ if_checked [STATE_WAN_INTERFACE_UP]
  | STATE_WAN_INTERFACE_DOWN, true =>
      [STATE_WAN_INTERFACE_DOWN; STATE_WAN_INTERFACE_UP; STATE_WAN_INTERFACE_TEARDOWN]
      ++ if_failover [STATE_WAN_VALIDATED_INTERFACE]
  | STATE_WAN_INTERFACE_TEARDOWN, true =>
      [STATE_WAN_INTERFACE_TEARDOWN; STATE_WAN_EXIT; STATE_WAN_SELECTING_INTERFACE; STATE_WAN_INTERFACE_DOWN]
  | STATE_WAN_VALIDATED_INTERFACE, false | STATE_AUTOWAN_VALIDATED_INTERFACE, false => if_failover [st]
  | STATE_WAN_EXIT, _ => []
  | _, false => [st]
  end.
(** A pass moves along the diagram, or its loop ends in a state of no edge. *)
Definition moves_along (next : list WcFmobPolicyState_t) (o : option WcFmobPolicyState_t) : Prop :=
  match o with Some st' => st' ∈ next | None => next = [] end.
End Diagrams.

Section ActiveInterface.
Context `{Platform} `{Build} `{MaptBuild} `{IfaceBuild} `{AutoWanBuild} (sh : Shape) (bn : option iface_ptr).

Lemma with_active_held a P none body :
  Safe (H := holding (Some a) bn) sh P (body a) -> Safe (H := holding (Some a) bn) sh P (with_active none body).
Proof. intros Hb. eapply safe_bind; [apply safe_get_aw | intros c Hc]. simpl in Hc. by rewrite Hc. Qed.
Lemma with_active_free (P : _ -> Prop) none body :
  P none -> Safe (H := holding None bn) sh P (with_active none body).
Proof. intros Hn. eapply safe_bind; [apply safe_get_aw | intros c Hc]. simpl in Hc. rewrite Hc. by apply safe_ret. Qed.
End ActiveInterface.

Ltac elem_tac :=
  first [ apply list_elem_of_here | apply list_elem_of_further; elem_tac ].
(** What is left at a return: the state is one of a list. *)
Ltac goes_leaf :=
  cbv beta in *; unfold moves_along, fixed_next, auto_next, if_failover, if_checked;
  repeat match goal with E : ?b = true -> _, Eb : ?b = true |- _ => specialize (E Eb) | E : true = true -> _ |- _ => specialize (E eq_refl) end;
  repeat match goal with E : _ = true |- _ => progress rewrite E end;
  cbn [app]; first [ done | assumption | by left | by right | elem_tac | match goal with
    |- context [if ?b then _ else _] => destruct b; goes_leaf
    end ].
Create HintDb goes discriminated.
Ltac goes_weaken :=
  eapply safe_weaken;
  [ solve [auto 3 with goes nocore]
  | let r := fresh "r" in let Hr := fresh "Hr" in
    intros r Hr; cbv beta in Hr; repeat destruct Hr as [Hr|Hr]; subst r; solve [goes_leaf] ].
Ltac goes_step :=
  first
  [ progress repeat first_vif
  | solve [auto 3 with goes nocore]
  | lazymatch goal with
    | |- Safe _ _ (ret _) => apply safe_ret; solve [assumption | goes_leaf]
    | |- Safe _ _ (with_active _ _) => apply with_active_held
    | |- Safe _ _ (bind (get_iface _) _) =>
        eapply safe_bind; [apply safe_get_iface; assumption | intros ? ?]
    | |- Safe _ _ (bind _ _) =>
        first [ eapply safe_bind; [solve [auto 3 with goes nocore] | intros ? ?]
              | apply safe_bind_any; [solve [aw_safe] | intros ?] ]
    | |- Safe _ _ (if ?b then _ else _) => destruct b eqn:?
    | |- Safe _ _ (match ?o with _ => _ end) => destruct o eqn:?
    end
  | goes_weaken
  | progress cbv beta zeta
  | progress autounfold with monad ].
Ltac goes_tac := repeat goes_step.

Section AutoWanMoves.
Context `{Platform} `{Build} `{MaptBuild} `{IfaceBuild} `{AutoWanBuild}.
Context (sh : Shape) (Hwf : wf_shape sh) (Hmem : memory_available) (Hdns : resolv_conf_readable).
Context (a : iface_ptr) (bn : option iface_ptr) (Ha : valid_iface sh a).
#[local] Abbreviation Safe P m := (DataFacts.Safe (C := AutoWan_t) (H := holding (Some a) bn) sh P m).
#[local] Abbreviation goes m st := (Safe (fun r => r = st) m).
#[local] Hint Resolve valid_first_vif safe_get_iface : safe.

Lemma held_valid b : Some a = Some b -> valid_iface sh b.
Proof. by intros [= <-]. Qed.
#[local] Hint Resolve held_valid : safe.

Lemma goes_Transition_WanInterfaceSelected : goes Transition_WanInterfaceSelected STATE_WAN_INTERFACE_DOWN.
Proof. unfold Transition_WanInterfaceSelected. goes_tac. Qed.
#[local] Hint Resolve goes_Transition_WanInterfaceSelected : goes.
Lemma goes_Transition_FixedWanInterfaceDown : goes Transition_FixedWanInterfaceDown STATE_WAN_INTERFACE_DOWN.
Proof. unfold Transition_FixedWanInterfaceDown. goes_tac. Qed.
#[local] Hint Resolve goes_Transition_FixedWanInterfaceDown : goes.
Lemma goes_Transition_FixedWanInterfaceUp : goes Transition_FixedWanInterfaceUp STATE_WAN_INTERFACE_UP.
Proof. unfold Transition_FixedWanInterfaceUp. goes_tac. Qed.
#[local] Hint Resolve goes_Transition_FixedWanInterfaceUp : goes.
Lemma goes_Transition_FixedDnsConnectivityCheckUp : goes Transition_FixedDnsConnectivityCheckUp STATE_WAN_INTERFACE_UP.
Proof. unfold Transition_FixedDnsConnectivityCheckUp. goes_tac. Qed.
#[local] Hint Resolve goes_Transition_FixedDnsConnectivityCheckUp : goes.
Lemma goes_Transition_DnsConnectivityCheckUp : goes Transition_DnsConnectivityCheckUp STATE_WAN_INTERFACE_UP.
Proof. unfold Transition_DnsConnectivityCheckUp. goes_tac. Qed.
#[local] Hint Resolve goes_Transition_DnsConnectivityCheckUp : goes.
Lemma goes_Transition_WanInterfaceTearDown : goes Transition_WanInterfaceTearDown STATE_WAN_INTERFACE_TEARDOWN.
Proof. unfold Transition_WanInterfaceTearDown. goes_tac. Qed.
#[local] Hint Resolve goes_Transition_WanInterfaceTearDown : goes.
Lemma goes_scan_interface b : valid_iface sh b -> goes (scan_interface b) STATE_WAN_SCANNING_INTERFACE.
Proof. intros Hb. unfold scan_interface. goes_tac. Qed.
#[local] Hint Resolve goes_scan_interface : goes.
Lemma goes_Transition_WanInterfacePhyUp : goes Transition_WanInterfacePhyUp STATE_WAN_SCANNING_INTERFACE.
Proof. unfold Transition_WanInterfacePhyUp. goes_tac. Qed.
#[local] Hint Resolve goes_Transition_WanInterfacePhyUp : goes.
Lemma goes_Transition_WanInterfaceConfigured : goes Transition_WanInterfaceConfigured STATE_WAN_SCANNING_INTERFACE.
Proof. unfold Transition_WanInterfaceConfigured. goes_tac. Qed.
#[local] Hint Resolve goes_Transition_WanInterfaceConfigured : goes.
Lemma goes_Transition_WaitingForInterface b :
  valid_iface sh b -> goes (Transition_WaitingForInterface b) STATE_WAN_WAITING_FOR_INTERFACE.
Proof. intros Hb. unfold Transition_WaitingForInterface. goes_tac. Qed.
#[local] Hint Resolve goes_Transition_WaitingForInterface : goes.
Lemma goes_Transition_WanInterfaceUp : goes Transition_WanInterfaceUp STATE_WAN_INTERFACE_UP.
Proof. unfold Transition_WanInterfaceUp. goes_tac. Qed.
#[local] Hint Resolve goes_Transition_WanInterfaceUp : goes.
Lemma goes_Transition_WanInterfaceActive : goes Transition_WanInterfaceActive STATE_WAN_INTERFACE_ACTIVE.
Proof. unfold Transition_WanInterfaceActive. goes_tac. Qed.
#[local] Hint Resolve goes_Transition_WanInterfaceActive : goes.
Lemma goes_validated_down b : valid_iface sh b -> goes (validated_down b) STATE_WAN_INTERFACE_DOWN.
Proof. intros Hb. unfold validated_down. goes_tac. Qed.
Lemma goes_auto_going_down b : valid_iface sh b -> goes (auto_going_down b) STATE_WAN_INTERFACE_DOWN.
Proof. intros Hb. unfold auto_going_down. goes_tac. Qed.
#[local] Hint Resolve goes_validated_down goes_auto_going_down : goes.

(** *** The states *)

Lemma goes_validating :
  Safe (fun r => r = STATE_WAN_SELECTING_INTERFACE \/ r = STATE_WAN_VALIDATED_INTERFACE) validating.
Proof. unfold validating. goes_tac. Qed.
#[local] Hint Resolve goes_validating : goes.
Lemma goes_validated_or st :
  Safe (fun r => r = st \/ r = STATE_WAN_VALIDATED_INTERFACE) (validated_or st validating).
Proof.
  unfold validated_or. eapply safe_bind; [apply goes_validating | intros r [-> | ->]]; apply safe_ret; auto.
Qed.
#[local] Hint Resolve goes_validated_or : goes.
Lemma goes_wait_for_remote v : Safe (fun b => b = true -> AutoWan.WAN_FAILOVER_SUPPORTED = true) (wait_for_remote v).
Proof.
  unfold wait_for_remote. destruct AutoWan.WAN_FAILOVER_SUPPORTED; [|by apply safe_ret].
  apply (safe_weaken sh (fun _ => True)); [aw_safe | done].
Qed.
Lemma goes_remote_if_any :
  Safe (fun r => (r =? selection_val WAN_IFACE_ACTIVE) = true -> AutoWan.WAN_FAILOVER_SUPPORTED = true)
    (if AutoWan.WAN_FAILOVER_SUPPORTED then isAnyRemoteInterfaceActive else ret (-1)).
Proof.
  destruct AutoWan.WAN_FAILOVER_SUPPORTED; [|by apply safe_ret].
  apply (safe_weaken sh (fun _ => True)); [aw_safe | done].
Qed.
#[local] Hint Resolve goes_wait_for_remote goes_remote_if_any : goes.
Lemma goes_State_SelectingWanInterface : Safe (fun r => r ∈ fixed_next true STATE_WAN_SELECTING_INTERFACE) State_SelectingWanInterface.
Proof. unfold State_SelectingWanInterface. goes_tac. Qed.
#[local] Hint Resolve goes_State_SelectingWanInterface : goes.
Lemma goes_State_FixedWanInterfaceDown : Safe (fun r => r ∈ fixed_next true STATE_WAN_INTERFACE_DOWN) State_FixedWanInterfaceDown.
Proof. unfold State_FixedWanInterfaceDown, Transition_FixedWanInterfaceValidating. goes_tac. Qed.
#[local] Hint Resolve goes_State_FixedWanInterfaceDown : goes.
Lemma goes_State_FixedWanInterfaceUp : Safe (fun r => r ∈ fixed_next true STATE_WAN_INTERFACE_UP) State_FixedWanInterfaceUp.
Proof. unfold State_FixedWanInterfaceUp, Transition_FixedWanInterfaceActive, put_fixed. goes_tac. Qed.
#[local] Hint Resolve goes_State_FixedWanInterfaceUp : goes.
Lemma goes_State_FixedWanInterfaceValidated : AutoWan.WAN_FAILOVER_SUPPORTED = true -> Safe (fun r => r ∈ fixed_next true STATE_WAN_VALIDATED_INTERFACE) State_FixedWanInterfaceValidated.
Proof. intros. unfold State_FixedWanInterfaceValidated. goes_tac. Qed.
#[local] Hint Resolve goes_State_FixedWanInterfaceValidated : goes.
Lemma goes_State_FixedWanInterfaceActive : AutoWan.WAN_FAILOVER_SUPPORTED = true -> Safe (fun r => r ∈ fixed_next true STATE_WAN_INTERFACE_ACTIVE) State_FixedWanInterfaceActive.
Proof. intros. unfold State_FixedWanInterfaceActive. goes_tac. Qed.
#[local] Hint Resolve goes_State_FixedWanInterfaceActive : goes.
Lemma goes_State_WanInterfaceTearDown : Safe (fun r => r ∈ fixed_next true STATE_WAN_INTERFACE_TEARDOWN) State_WanInterfaceTearDown.
Proof. unfold State_WanInterfaceTearDown, GetSelectedWanModeFromDb. goes_tac. Qed.
#[local] Hint Resolve goes_State_WanInterfaceTearDown : goes.
Ltac dispatch_tac st :=
  unfold moves_along, fixed_next, auto_next, if_failover;
  destruct st; unfold fixed_dispatch, auto_dispatch; destruct AutoWan.WAN_FAILOVER_SUPPORTED eqn:Ef;
  first
  [ by apply safe_ret
  | eapply safe_bind; [solve [auto with goes nocore] |];
    intros r Hr; apply safe_ret; cbv beta in Hr; revert Hr; unfold fixed_next, auto_next, if_failover; rewrite ?Ef; done ].
Lemma goes_fixed_dispatch st : Safe (moves_along (fixed_next true st)) (fixed_dispatch st).
Proof. dispatch_tac st. Qed.

(** *** The states of the automatic mode *)

Lemma goes_WanMgr_Policy_AutoWan_SelectAlternateInterface :
  Safe (fun r => r ∈ auto_next true STATE_WAN_SELECTING_INTERFACE) WanMgr_Policy_AutoWan_SelectAlternateInterface.
Proof.
  unfold WanMgr_Policy_AutoWan_SelectAlternateInterface.
  eapply safe_bind; [apply safe_get_aw | intros c Hc]. simpl in Hc. rewrite Hc.
  eapply safe_bind; [by apply safe_get_total | intros n Hn].
  eapply safe_bind; [apply (safe_for_break_post sh (fun o => from_option (fun r => r = STATE_WAN_WAITING_FOR_INTERFACE) True o))|].
  - done.
  - intros k Hk. apply safe_with_iface; [done | safe_side | done |]. intros i Hi.
    eapply safe_bind; [by apply safe_get_iface | intros I _]. apply safe_bind_any; [aw_safe | intros [active|]; [|by apply safe_ret]].
    destruct (_ && _); [|by apply safe_ret]. do 2 (apply safe_bind_any; [aw_safe | intros _]).
    eapply safe_bind; [by apply goes_Transition_WaitingForInterface | intros st ->]. by apply safe_ret.
  - intros [r|] Hr; apply safe_ret; [simpl in Hr; subst r|]; apply list_elem_of_here.
Qed.
Lemma goes_State_WaitingForInterface : Safe (fun r => r ∈ auto_next true STATE_WAN_WAITING_FOR_INTERFACE) State_WaitingForInterface.
Proof. unfold State_WaitingForInterface, Transition_AutoWanInterfaceValidating. goes_tac. Qed.
#[local] Hint Resolve goes_State_WaitingForInterface : goes.
Lemma goes_State_WanConfiguringInterface : Safe (fun r => r ∈ auto_next true STATE_WAN_CONFIGURING_INTERFACE) State_WanConfiguringInterface.
Proof. unfold State_WanConfiguringInterface, Transition_AutoWanInterfaceValidating. goes_tac. Qed.
#[local] Hint Resolve goes_State_WanConfiguringInterface : goes.
Lemma goes_State_WanScanningInterface : Safe (fun r => r ∈ auto_next true STATE_WAN_SCANNING_INTERFACE) State_WanScanningInterface.
Proof. unfold State_WanScanningInterface. goes_tac. Qed.
#[local] Hint Resolve goes_State_WanScanningInterface : goes.
Lemma goes_State_WanDeConfiguringInterface : Safe (fun r => r ∈ auto_next true STATE_WAN_DECONFIGURING_INTERFACE) State_WanDeConfiguringInterface.
Proof. unfold State_WanDeConfiguringInterface. goes_tac. Qed.
#[local] Hint Resolve goes_State_WanDeConfiguringInterface : goes.
Lemma goes_State_WanInterfaceUp : Safe (fun r => r ∈ auto_next true STATE_WAN_INTERFACE_UP) State_WanInterfaceUp.
Proof. unfold State_WanInterfaceUp, put_auto. goes_tac. Qed.
#[local] Hint Resolve goes_State_WanInterfaceUp : goes.
Lemma goes_switched (b : bool) : FEATURE_TAD_HEALTH_CHECK = true ->
  Safe (fun r => r ∈ auto_next true STATE_WAN_INTERFACE_ACTIVE)
    (if b then Transition_DnsConnectivityCheckUp else ret STATE_WAN_INTERFACE_ACTIVE).
Proof. intros. goes_tac. Qed.
#[local] Hint Resolve goes_switched : goes.
Lemma goes_State_WanInterfaceActive : Safe (fun r => r ∈ auto_next true STATE_WAN_INTERFACE_ACTIVE) State_WanInterfaceActive.
Proof. unfold State_WanInterfaceActive. goes_tac. Qed.
#[local] Hint Resolve goes_State_WanInterfaceActive : goes.
Lemma goes_State_WanInterfaceDown : Safe (fun r => r ∈ auto_next true STATE_WAN_INTERFACE_DOWN) State_WanInterfaceDown.
Proof. unfold State_WanInterfaceDown, Transition_WanInterfaceValidating. goes_tac. Qed.
#[local] Hint Resolve goes_State_WanInterfaceDown : goes.
Lemma goes_State_WanInterfaceValidated : AutoWan.WAN_FAILOVER_SUPPORTED = true -> Safe (fun r => r ∈ auto_next true STATE_WAN_VALIDATED_INTERFACE) State_WanInterfaceValidated.
Proof. intros. unfold State_WanInterfaceValidated, validated_state. goes_tac. Qed.
#[local] Hint Resolve goes_State_WanInterfaceValidated : goes.
Lemma goes_State_AutoWanInterfaceValidated : AutoWan.WAN_FAILOVER_SUPPORTED = true -> Safe (fun r => r ∈ auto_next true STATE_AUTOWAN_VALIDATED_INTERFACE) State_AutoWanInterfaceValidated.
Proof. intros. unfold State_AutoWanInterfaceValidated, validated_state. goes_tac. Qed.
#[local] Hint Resolve goes_State_AutoWanInterfaceValidated : goes.
Lemma goes_teardown_auto : Safe (fun r => r ∈ auto_next true STATE_WAN_INTERFACE_TEARDOWN) State_WanInterfaceTearDown.
Proof. apply goes_State_WanInterfaceTearDown. Qed.
#[local] Hint Resolve goes_teardown_auto goes_WanMgr_Policy_AutoWan_SelectAlternateInterface : goes.
Lemma goes_auto_dispatch st : Safe (moves_along (auto_next true st)) (auto_dispatch st).
Proof. dispatch_tac st. Qed.
End AutoWanMoves.

(** ** Without an interface *)

Section AutoWanWaits.
Context `{Platform} `{Build} `{MaptBuild} `{IfaceBuild} `{AutoWanBuild}.
Context (sh : Shape) (Hwf : wf_shape sh) (Hmem : memory_available) (Hdns : resolv_conf_readable).
Context (bn : option iface_ptr).
#[local] Abbreviation Safe P m := (DataFacts.Safe (C := AutoWan_t) (H := holding None bn) sh P m).

Lemma free_valid b : None = Some b -> valid_iface sh b.
Proof. done. Qed.
#[local] Hint Resolve free_valid : safe.
Lemma free_State_SelectingWanInterface :
  Safe (fun r => r ∈ fixed_next false STATE_WAN_SELECTING_INTERFACE) State_SelectingWanInterface.
Proof.
  unfold State_SelectingWanInterface. apply safe_bind_any; [aw_safe | intros idx].
  apply safe_bind_any; [aw_safe | intros _]. destruct (negb _); [apply with_active_free | apply safe_ret];
    apply list_elem_of_here.
Qed.
Lemma free_WanMgr_Policy_AutoWan_SelectAlternateInterface :
  Safe (fun r => r ∈ auto_next false STATE_WAN_SELECTING_INTERFACE) WanMgr_Policy_AutoWan_SelectAlternateInterface.
Proof.
  unfold WanMgr_Policy_AutoWan_SelectAlternateInterface.
  eapply safe_bind; [apply safe_get_aw | intros c Hc]. simpl in Hc. rewrite Hc.
  eapply safe_bind; [by apply safe_get_total | intros n Hn].
  eapply safe_bind; [apply (safe_for_break_through sh) | intros o ->; apply safe_ret, list_elem_of_here].
  intros k Hk. apply safe_with_iface; [done | safe_side | done |]. intros i Hi.
  eapply safe_bind; [by apply safe_get_iface | intros I _]. change (bind (ret None) ?k) with (k None). by apply safe_ret.
Qed.
Lemma free_with_active none body : Safe (fun r => r = none) (with_active none body).
Proof. by apply with_active_free. Qed.
Lemma free_dispatch (next : bool -> WcFmobPolicyState_t -> list WcFmobPolicyState_t) st none body :
  none ∈ next false st -> Safe (moves_along (next false st)) (s <- with_active none body ;; ret (Some s)).
Proof.
  intros Hn. eapply safe_bind; [by apply (with_active_free _ _ (fun r => r ∈ next false st)) | intros r Hr].
  by apply safe_ret.
Qed.
Ltac free_tac st :=
  destruct st; unfold fixed_dispatch, auto_dispatch;
  first
  [ by apply safe_ret
  | apply free_dispatch; apply list_elem_of_here
  | eapply safe_bind; [first [apply free_State_SelectingWanInterface | apply free_WanMgr_Policy_AutoWan_SelectAlternateInterface]
                      | intros r Hr; by apply safe_ret]
  | unfold moves_along, fixed_next, auto_next, if_failover; destruct AutoWan.WAN_FAILOVER_SUPPORTED; [|by apply safe_ret];
    eapply safe_bind; [apply free_with_active |];
    let r := fresh "r" in let Hr := fresh "Hr" in intros r Hr; apply safe_ret; rewrite Hr; apply list_elem_of_here ].
Lemma free_fixed_dispatch st : Safe (moves_along (fixed_next false st)) (fixed_dispatch st).
Proof. free_tac st. Qed.
Lemma free_auto_dispatch st : Safe (moves_along (auto_next false st)) (auto_dispatch st).
Proof. free_tac st. Qed.
End AutoWanWaits.
