(* ===== verification/BackupEdges.v ===== *)
(** The state diagram of the backup policy, and the proof that its passes follow it. *)

From S2P Require Export AutoWanEdges.

(** Where a pass may lead, with the remote interface locked or without. *)
Definition bw_next (locked : bool) (st : WcBWanPolicyState_t) : list WcBWanPolicyState_t :=
  match st, locked with
  | STATE_BACKUP_WAN_EXIT, _ => []
  | STATE_BACKUP_WAN_SELECTING_INTERFACE, true => [STATE_BACKUP_WAN_SELECTING_INTERFACE; STATE_BACKUP_WAN_INTERFACE_DOWN]
  | STATE_BACKUP_WAN_INTERFACE_DOWN, true =>
      [STATE_BACKUP_WAN_SELECTING_INTERFACE; STATE_BACKUP_WAN_INTERFACE_DOWN; STATE_BACKUP_WAN_VALIDATING_INTERFACE]
  | STATE_BACKUP_WAN_VALIDATING_INTERFACE, true =>
      [STATE_BACKUP_WAN_SELECTING_INTERFACE; STATE_BACKUP_WAN_INTERFACE_DOWN; STATE_BACKUP_WAN_WAITING;
       STATE_BACKUP_WAN_VALIDATING_INTERFACE; STATE_BACKUP_WAN_AVAILABLE]
  | STATE_BACKUP_WAN_AVAILABLE, true =>
      [STATE_BACKUP_WAN_INTERFACE_DOWN; STATE_BACKUP_WAN_WAITING; STATE_BACKUP_WAN_AVAILABLE; STATE_BACKUP_WAN_INTERFACE_UP]
  | STATE_BACKUP_WAN_INTERFACE_UP, true =>
      [STATE_BACKUP_WAN_INTERFACE_DOWN; STATE_BACKUP_WAN_WAITING; STATE_BACKUP_WAN_INTERFACE_UP; STATE_BACKUP_WAN_INTERFACE_ACTIVE]
  | STATE_BACKUP_WAN_INTERFACE_ACTIVE, true =>
      [STATE_BACKUP_WAN_INTERFACE_DOWN; STATE_BACKUP_WAN_WAITING; STATE_BACKUP_WAN_INTERFACE_ACTIVE;
       STATE_BACKUP_WAN_INTERFACE_INACTIVE]
  | STATE_BACKUP_WAN_INTERFACE_INACTIVE, true =>
      [STATE_BACKUP_WAN_INTERFACE_DOWN; STATE_BACKUP_WAN_WAITING; STATE_BACKUP_WAN_INTERFACE_INACTIVE;
       STATE_BACKUP_WAN_INTERFACE_ACTIVE]
  | STATE_BACKUP_WAN_WAITING, true =>
      [STATE_BACKUP_WAN_SELECTING_INTERFACE; STATE_BACKUP_WAN_INTERFACE_DOWN; STATE_BACKUP_WAN_WAITING;
       STATE_BACKUP_WAN_INTERFACE_ACTIVE]
  | STATE_BACKUP_WAN_WAITING, false => [STATE_BACKUP_WAN_WAITING]
  | _, false => [STATE_BACKUP_WAN_SELECTING_INTERFACE]
  end.
Definition bw_along (next : list WcBWanPolicyState_t) (o : option WcBWanPolicyState_t) : Prop :=
  match o with Some st' => st' ∈ next | None => next = [] end.

Section RemoteInterface.
Context `{Platform} `{Build} `{MaptBuild} `{IfaceBuild} `{AutoWanBuild} (sh : Shape) (an : option iface_ptr).

Lemma with_backup_held b P none body :
  Safe (H := holding an (Some b)) sh P (body b) -> Safe (H := holding an (Some b)) sh P (with_backup none body).
Proof. intros Hb. eapply safe_bind; [apply safe_get_bw | intros c Hc]. simpl in Hc. by rewrite Hc. Qed.
Lemma with_backup_free (P : _ -> Prop) none body :
  Safe (H := holding an None) sh P none -> Safe (H := holding an None) sh P (with_backup none body).
Proof. intros Hn. eapply safe_bind; [apply safe_get_bw | intros c Hc]. simpl in Hc. by rewrite Hc. Qed.
End RemoteInterface.

Ltac bw_leaf :=
  cbv beta in *;
  repeat match goal with Hr : _ \/ _ |- _ => destruct Hr end; subst;
  unfold bw_along, bw_next; first [ assumption | done | by left | by right | by (right; left) | by (right; right) | elem_tac ].
Ltac bw_weaken :=
  eapply safe_weaken;
  [ solve [auto 3 with goes nocore]
  | let r := fresh "r" in let Hr := fresh "Hr" in
    intros r Hr; cbv beta in Hr; repeat destruct Hr as [Hr|Hr]; subst r; solve [bw_leaf] ].
Ltac bw_step :=
  first
  [ progress repeat first_vif
  | solve [auto 3 with goes nocore]
  | lazymatch goal with
    | |- Safe _ _ (ret _) => apply safe_ret; solve [bw_leaf]
    | |- Safe _ _ (with_backup _ _) => apply with_backup_held
    | |- Safe _ _ (bind (get_iface _) _) =>
        eapply safe_bind; [apply safe_get_iface; assumption | intros ? ?]
    | |- Safe _ _ (bind _ _) =>
        first [ eapply safe_bind; [solve [auto 3 with goes nocore] | intros ? ?]
              | apply safe_bind_any; [solve [aw_safe] | intros ?] ]
    | |- Safe _ _ (if ?b then _ else _) => destruct b eqn:?
    | |- Safe _ _ (match ?o with _ => _ end) => destruct o eqn:?
    end
  | bw_weaken
  | progress cbv beta zeta
  | progress autounfold with monad ].
Ltac bw_tac := repeat bw_step.

Section BackupMoves.
Context `{Platform} `{Build} `{MaptBuild} `{IfaceBuild} `{AutoWanBuild}.
Context (sh : Shape) (Hwf : wf_shape sh) (Hmem : memory_available) (Hdns : resolv_conf_readable).
Context (an : option iface_ptr) (b : iface_ptr) (Hb : valid_iface sh b).
#[local] Abbreviation Safe P m := (DataFacts.Safe (C := AutoWan_t) (H := holding an (Some b)) sh P m).
#[local] Abbreviation goes m st := (Safe (fun r => r = st) m).
#[local] Hint Resolve valid_first_vif safe_get_iface : safe.

Lemma remote_valid c : Some b = Some c -> valid_iface sh c.
Proof. by intros [= <-]. Qed.
#[local] Hint Resolve remote_valid : safe.

Lemma goes_Transition_BackupWanSelectingInterface : Safe (fun r => r = STATE_BACKUP_WAN_SELECTING_INTERFACE) Transition_BackupWanSelectingInterface.
Proof. unfold Transition_BackupWanSelectingInterface. bw_tac. Qed.
#[local] Hint Resolve goes_Transition_BackupWanSelectingInterface : goes.
Lemma goes_Transition_BackupWanInterfaceSelected : Safe (fun r => r = STATE_BACKUP_WAN_INTERFACE_DOWN) Transition_BackupWanInterfaceSelected.
Proof. unfold Transition_BackupWanInterfaceSelected. bw_tac. Qed.
#[local] Hint Resolve goes_Transition_BackupWanInterfaceSelected : goes.
Lemma goes_Transition_ValidatingBackupWanInterface : Safe (fun r => r = STATE_BACKUP_WAN_SELECTING_INTERFACE \/ r = STATE_BACKUP_WAN_VALIDATING_INTERFACE) Transition_ValidatingBackupWanInterface.
Proof. unfold Transition_ValidatingBackupWanInterface. bw_tac. Qed.
#[local] Hint Resolve goes_Transition_ValidatingBackupWanInterface : goes.
Lemma goes_Transition_BackupWanAvailable : Safe (fun r => r = STATE_BACKUP_WAN_AVAILABLE) Transition_BackupWanAvailable.
Proof. unfold Transition_BackupWanAvailable. bw_tac. Qed.
#[local] Hint Resolve goes_Transition_BackupWanAvailable : goes.
Lemma goes_Transition_BackupWanInterfaceUp : Safe (fun r => r = STATE_BACKUP_WAN_INTERFACE_DOWN \/ r = STATE_BACKUP_WAN_INTERFACE_UP) Transition_BackupWanInterfaceUp.
Proof. unfold Transition_BackupWanInterfaceUp. bw_tac. Qed.
#[local] Hint Resolve goes_Transition_BackupWanInterfaceUp : goes.
Lemma goes_backup_reset a : valid_iface sh a -> Safe (fun r => r = STATE_BACKUP_WAN_INTERFACE_DOWN) (backup_reset a).
Proof. intros. unfold backup_reset. bw_tac. Qed.
#[local] Hint Resolve goes_backup_reset : goes.
Lemma goes_Transition_BackupWanInterfaceDown : Safe (fun r => r = STATE_BACKUP_WAN_INTERFACE_DOWN \/ r = STATE_BACKUP_WAN_WAITING) Transition_BackupWanInterfaceDown.
Proof. unfold Transition_BackupWanInterfaceDown. bw_tac. Qed.
#[local] Hint Resolve goes_Transition_BackupWanInterfaceDown : goes.
Lemma goes_Transition_BackupWanInterfaceActive : Safe (fun r => r = STATE_BACKUP_WAN_INTERFACE_DOWN \/ r = STATE_BACKUP_WAN_WAITING \/ r = STATE_BACKUP_WAN_INTERFACE_ACTIVE) Transition_BackupWanInterfaceActive.
Proof. unfold Transition_BackupWanInterfaceActive. bw_tac. Qed.
#[local] Hint Resolve goes_Transition_BackupWanInterfaceActive : goes.
Lemma goes_Transition_BackupWanInterfaceInActive : Safe (fun r => r = STATE_BACKUP_WAN_INTERFACE_INACTIVE) Transition_BackupWanInterfaceInActive.
Proof. unfold Transition_BackupWanInterfaceInActive. bw_tac. Qed.
#[local] Hint Resolve goes_Transition_BackupWanInterfaceInActive : goes.
Lemma goes_restore_primary v : Safe (fun r => r = STATE_BACKUP_WAN_INTERFACE_ACTIVE \/ r = STATE_BACKUP_WAN_INTERFACE_INACTIVE) (restore_primary v).
Proof. unfold restore_primary. bw_tac. Qed.
#[local] Hint Resolve goes_restore_primary : goes.

(** *** The states *)

Lemma goes_State_SelectingBackupWanInterface : Safe (fun r => r ∈ bw_next true STATE_BACKUP_WAN_SELECTING_INTERFACE) State_SelectingBackupWanInterface.
Proof. unfold State_SelectingBackupWanInterface, WanMgr_Policy_BackupWan_GetCurrentBackupWanInterfaceIndex. bw_tac. Qed.
#[local] Hint Resolve goes_State_SelectingBackupWanInterface : goes.
Lemma goes_tried (c : bool) :
  Safe (fun r => r = STATE_BACKUP_WAN_SELECTING_INTERFACE \/ r = STATE_BACKUP_WAN_VALIDATING_INTERFACE)
    (if c then Transition_ValidatingBackupWanInterface else ret STATE_BACKUP_WAN_SELECTING_INTERFACE).
Proof. bw_tac. Qed.
#[local] Hint Resolve goes_tried : goes.
Lemma goes_State_BackupWanInterfaceDown : Safe (fun r => r ∈ bw_next true STATE_BACKUP_WAN_INTERFACE_DOWN) State_BackupWanInterfaceDown.
Proof. unfold State_BackupWanInterfaceDown. bw_tac. Qed.
#[local] Hint Resolve goes_State_BackupWanInterfaceDown : goes.
Lemma goes_State_ValidatingBackupWanInterface : Safe (fun r => r ∈ bw_next true STATE_BACKUP_WAN_VALIDATING_INTERFACE) State_ValidatingBackupWanInterface.
Proof. unfold State_ValidatingBackupWanInterface. bw_tac. Qed.
#[local] Hint Resolve goes_State_ValidatingBackupWanInterface : goes.
Lemma goes_State_BackupWanAvailable : Safe (fun r => r ∈ bw_next true STATE_BACKUP_WAN_AVAILABLE) State_BackupWanAvailable.
Proof. unfold State_BackupWanAvailable. bw_tac. Qed.
#[local] Hint Resolve goes_State_BackupWanAvailable : goes.
Lemma goes_State_BackupWanInterfaceUp : Safe (fun r => r ∈ bw_next true STATE_BACKUP_WAN_INTERFACE_UP) State_BackupWanInterfaceUp.
Proof. unfold State_BackupWanInterfaceUp. bw_tac. Qed.
#[local] Hint Resolve goes_State_BackupWanInterfaceUp : goes.
Lemma goes_State_BackupWanInterfaceActive : Safe (fun r => r ∈ bw_next true STATE_BACKUP_WAN_INTERFACE_ACTIVE) State_BackupWanInterfaceActive.
Proof. unfold State_BackupWanInterfaceActive. bw_tac. Qed.
#[local] Hint Resolve goes_State_BackupWanInterfaceActive : goes.
Lemma safe_may_activate_again c : valid_iface sh c -> Safe (fun _ => True) (may_activate c (ret true)).
Proof. intros. apply safe_may_activate; [done.. | by apply safe_ret]. Qed.
#[local] Hint Resolve safe_may_activate_again : safe.
Lemma goes_State_BackupWanInterfaceInActive : Safe (fun r => r ∈ bw_next true STATE_BACKUP_WAN_INTERFACE_INACTIVE) State_BackupWanInterfaceInActive.
Proof. unfold State_BackupWanInterfaceInActive. bw_tac. Qed.
#[local] Hint Resolve goes_State_BackupWanInterfaceInActive : goes.
Lemma goes_waiting_up : Safe (fun r => r = STATE_BACKUP_WAN_INTERFACE_DOWN \/ r = STATE_BACKUP_WAN_WAITING)
  Transition_BackupWanInterfaceWaitingPrimaryUp.
Proof. unfold Transition_BackupWanInterfaceWaitingPrimaryUp. bw_tac. Qed.
#[local] Hint Resolve goes_waiting_up : goes.
Lemma goes_State_BackupWanInterfaceWaitingPrimaryUp : Safe (fun r => r ∈ bw_next true STATE_BACKUP_WAN_WAITING) State_BackupWanInterfaceWaitingPrimaryUp.
Proof. unfold State_BackupWanInterfaceWaitingPrimaryUp. bw_tac. Qed.
#[local] Hint Resolve goes_State_BackupWanInterfaceWaitingPrimaryUp : goes.
Lemma goes_bw_dispatch st : Safe (bw_along (bw_next true st)) (bw_dispatch st).
Proof.
  destruct st; unfold bw_dispatch; first
    [ by apply safe_ret
    | eapply safe_bind; [solve [auto with goes nocore] |]; intros r Hr; apply safe_ret; exact Hr ].
Qed.
End BackupMoves.

Section BackupWaits.
Context `{Platform} `{Build} `{MaptBuild} `{IfaceBuild} `{AutoWanBuild}.
Context (sh : Shape) (Hwf : wf_shape sh) (Hmem : memory_available) (Hdns : resolv_conf_readable).
Context (an : option iface_ptr).
#[local] Abbreviation Safe P m := (DataFacts.Safe (C := AutoWan_t) (H := holding an None) sh P m).
#[local] Hint Resolve free_valid : safe.

Lemma free_selecting :
  Safe (fun r => r = STATE_BACKUP_WAN_SELECTING_INTERFACE) Transition_BackupWanSelectingInterface.
Proof. unfold Transition_BackupWanSelectingInterface. apply safe_bind_any; [aw_safe | intros _; by apply safe_ret]. Qed.
Lemma free_State_SelectingBackupWanInterface :
  Safe (fun r => r = STATE_BACKUP_WAN_SELECTING_INTERFACE) State_SelectingBackupWanInterface.
Proof.
  unfold State_SelectingBackupWanInterface, WanMgr_Policy_BackupWan_GetCurrentBackupWanInterfaceIndex. apply safe_bind_any; [aw_safe | intros c].
  destruct (_ || _); [by apply safe_ret|]. do 2 (apply safe_bind_any; [aw_safe | intros ?]).
  destruct (negb _); [by apply with_backup_free, safe_ret|].
  apply safe_bind_any; [aw_safe | intros _; by apply safe_ret].
Qed.
Lemma free_bw_dispatch st : Safe (bw_along (bw_next false st)) (bw_dispatch st).
Proof.
  destruct st; unfold bw_dispatch; first
    [ by apply safe_ret
    | eapply safe_bind;
        [first [ apply free_State_SelectingBackupWanInterface | apply with_backup_free, free_selecting
               | by apply (with_backup_free _ _ (fun r => r = STATE_BACKUP_WAN_WAITING)), safe_ret ]
        | intros r ->; apply safe_ret, list_elem_of_here] ].
Qed.
End BackupWaits.
