(* ===== verification/AutoWanThreads.v ===== *)
(** The two threads of [wanmgr_policy_autowan_impl.c]: what a round of each does, and
    the worlds they reach. *)

From S2P Require Export AutoWanEdges BackupEdges.

Section AutoWanRounds.
Context `{Platform} `{Build} `{MaptBuild} `{IfaceBuild} `{AutoWanBuild}.
Context (Hmem : memory_available) (Hdns : resolv_conf_readable).
#[local] Abbreviation M := (Prelude.M (St AutoWan_t)).
Implicit Type s : St AutoWan_t.

(** ** The passes *)

Definition aw_locks s : bool := locks s (aw_wanPolicyCtrl (ctl s)).
Definition bw_locks s : bool := locks s (bw_wanPolicyCtrl (ctl s)).

Lemma update_WanEnable_run s :
  update_WanEnable s =
    Some (tt, s <| ctl ::= fun x => x <| aw_wanPolicyCtrl; pc_WanEnable := cfg_Enable (config s) |> |>).
Proof.
  change (Some (tt, unlocked (locked (s <| ctl ::= fun x => x <| aw_wanPolicyCtrl; pc_WanEnable := cfg_Enable (config s) |> |>)))
    = Some (tt, s <| ctl ::= fun x => x <| aw_wanPolicyCtrl; pc_WanEnable := cfg_Enable (config s) |> |>)).
  by rewrite unlocked_locked.
Qed.

(** A pass of a mode: it moves along the diagram of the mode, unless its wait was
    interrupted. *)
Lemma wp_pass_in next dispatch timeout st s :
  (forall sh a bn, wf_shape sh -> valid_iface sh a ->
    Safe (H := holding (Some a) bn) sh (moves_along (next true)) (dispatch st)) ->
  (forall sh bn, wf_shape sh -> Safe (H := holding None bn) sh (moves_along (next false)) (dispatch st)) ->
  db_wf (db s) ->
  wp (pass_in dispatch timeout st) (fun o s' => settled s s' /\ (o = Some st \/ moves_along (next (aw_locks s)) o)) s.
Proof.
  intros Ht Hf Hwf. unfold pass_in. apply wp_bind, wp_call. intros n. apply wp_if; intros _; [apply wp_ret; split; [done | by left]|].
  apply wp_bind. eapply wp_intro; [apply update_WanEnable_run|]. set (s1 := _ <| ctl ::= _ |>).
  eapply wp_mono; [apply (wp_locked aw_wanPolicyCtrl (fun f x => x <| aw_wanPolicyCtrl ::= f |>) ltac:(done)
    ltac:(by intros x y []) (fun b => moves_along (next b)) (dispatch st) s1)|].
  - intros sh x Hsh Hx. unfold aw_held, holds.
    destruct (pc_pWanActiveIfaceData (aw_wanPolicyCtrl x)) as [a|]; [apply Ht | apply Hf]; auto.
  - done.
  - intros o s' [Hs HP]. split; [exact Hs | by right].
Qed.
Lemma wp_fixed_iteration st s :
  db_wf (db s) ->
  wp (fixed_iteration st)
    (fun o s' => settled s s' /\ (o = Some st \/ moves_along (fixed_next (aw_locks s) st) o)) s.
Proof.
  apply (wp_pass_in (fun b => fixed_next b st)).
  - intros. by apply goes_fixed_dispatch.
  - intros. by apply free_fixed_dispatch.
Qed.
Lemma wp_auto_iteration st s :
  db_wf (db s) ->
  wp (auto_iteration st)
    (fun o s' => settled s s' /\ (o = Some st \/ moves_along (auto_next (aw_locks s) st) o)) s.
Proof.
  intros Hwf. unfold auto_iteration. apply wp_bind, wp_call. intros r.
  eapply wp_mono; [apply (wp_pass_in (fun b => auto_next b st))|].
  - intros. by apply goes_auto_dispatch.
  - intros. by apply free_auto_dispatch.
  - exact Hwf.
  - intros o s' Hs. exact Hs.
Qed.

Lemma wp_bw_update s :
  wp bw_update (fun _ s' => settled s s' /\ db s' = db s /\ bw_locks s' = bw_locks s) s.
Proof.
  unfold bw_update. apply wp_with_config. wp_tac;
    (split; [split; [done | change (pred (S (depth s)) = depth s); lia] |]; split; [|done];
     change (db (unlocked (locked s)) = db s); by rewrite unlocked_locked).
Qed.
Lemma wp_bw_iteration st s :
  db_wf (db s) ->
  wp (bw_iteration st) (fun o s' => settled s s' /\ (o = Some st \/ bw_along (bw_next (bw_locks s) st) o)) s.
Proof.
  intros Hwf. unfold bw_iteration. apply wp_bind, wp_call. intros n. apply wp_if; intros _; [apply wp_ret; split; [done | by left]|].
  apply wp_bind. eapply wp_mono; [apply wp_bw_update|]. intros _ s1 (Hs1 & Hd1 & Hl1).
  eapply wp_mono; [apply (wp_locked bw_wanPolicyCtrl (fun f x => x <| bw_wanPolicyCtrl ::= f |>) ltac:(done)
    ltac:(by intros x y []) (fun b => bw_along (bw_next b st)) (bw_dispatch st) s1)|].
  - intros sh x Hsh Hx. unfold bw_held, holds.
    destruct (pc_pWanActiveIfaceData (bw_wanPolicyCtrl x)) as [b|]; [apply goes_bw_dispatch | apply free_bw_dispatch]; auto.
  - rewrite Hd1. exact Hwf.
  - intros o s' [Hs HP]. split; [exact (settled_trans _ _ _ Hs1 Hs)|]. right.
    change (bw_locks s1 = bw_locks s) in Hl1. rewrite <- Hl1. exact HP.
Qed.

(** ** The thread of the policy *)

(** Where a round leads; the policy waits for the component of a configured
    interface. *)
Definition phase_edge s (ph ph' : AutoWanPhase) : Prop :=
  match ph, ph' with
  | CHOOSING_MODE, FIXED_MODE_RUNNING st => st = STATE_WAN_SELECTING_INTERFACE
  | CHOOSING_MODE, STARTING_AUTO => True
  | STARTING_AUTO, STARTING_AUTO => True
  | STARTING_AUTO, WAITING_COMPONENT a _ _ => valid_iface (shape_of (db s)) a
  | WAITING_COMPONENT _ _ _, WAITING_COMPONENT _ _ _ => ph' = ph
  | WAITING_COMPONENT _ _ _, AUTO_MODE_RUNNING st => st = STATE_WAN_WAITING_FOR_INTERFACE
  | FIXED_MODE_RUNNING st, FIXED_MODE_RUNNING st' => st' = st \/ st' ∈ fixed_next (aw_locks s) st
  | FIXED_MODE_RUNNING st, CHOOSING_MODE => fixed_next (aw_locks s) st = []
  | AUTO_MODE_RUNNING st, AUTO_MODE_RUNNING st' => st' = st \/ st' ∈ auto_next (aw_locks s) st
  | AUTO_MODE_RUNNING st, CHOOSING_MODE => auto_next (aw_locks s) st = []
  | _, _ => False
  end.
Definition phase_valid (sh : Shape) (ph : AutoWanPhase) : Prop :=
  match ph with WAITING_COMPONENT a _ _ => valid_iface sh a | _ => True end.

(** The first setting of the health check keeps no lock, since no interface has
    been chosen. *)
Lemma wp_Transition_Start s :
  nifaces s < 2 ^ 32 -> pc_activeInterfaceIdx (aw_wanPolicyCtrl (ctl s)) = -1 ->
  wp Transition_Start (fun st s' => settled s s' /\ st = STATE_WAN_SELECTING_INTERFACE) s.
Proof.
  intros Hn Hi. unfold Transition_Start. apply wp_bind, wp_modify, wp_bind, wp_when; intros _; [|by apply wp_ret].
  apply wp_bind, wp_gets. change (ctl (s <| sys := _ |> <| trace := _ |>)) with (ctl s). rewrite Hi.
  apply wp_bind, wp_get_locked; intros Hok; [exfalso | by apply wp_ret, wp_ret].
  apply iface_ok_lt in Hok. change (u32 (-1) < nifaces s) in Hok. rewrite u32_neg in Hok by lia. lia.
Qed.
Lemma wp_init_controller mode k Q s :
  (forall c, pc_activeInterfaceIdx c = -1 -> pc_pWanActiveIfaceData c = None ->
    wp k Q (s <| ctl ::= fun x => x <| aw_wanPolicyCtrl := c |> |>)) ->
  wp (init_controller mode k) Q s.
Proof. intros Hk. unfold init_controller. apply wp_bind, wp_gets. cbn. apply wp_bind, wp_modify. by apply Hk. Qed.

Lemma settles_lock_mode m : Settles (lock_mode m).
Proof. apply (settles_safe (fun _ => True)). intros. unfold lock_mode. safe_tac. Qed.
Lemma wp_Wanmgr_StartFixedWan m s :
  db_wf (db s) -> nifaces s < 2 ^ 32 ->
  wp (Wanmgr_StartFixedWan m)
    (fun ph s' => settled s s' /\ ph = FIXED_MODE_RUNNING STATE_WAN_SELECTING_INTERFACE) s.
Proof.
  intros Hwf Hn. unfold Wanmgr_StartFixedWan. apply wp_bind. eapply wp_mono; [by apply settles_lock_mode|].
  intros ? s1 Hs1. apply wp_bind, wp_gets, wp_init_controller. intros c Hi _. apply wp_bind.
  eapply wp_mono; [apply wp_Transition_Start|].
  - change (w_ulTotalNumbWanInterfaces (db s1) < 2 ^ 32). pose proof (f_equal fst (counts_shape _ _ (proj1 Hs1))) as Hc. simpl in Hc. rewrite Hc. exact Hn.
  - exact Hi.
  - intros st s2 [Hs2 ->]. apply wp_ret. split; [|done]. exact (settled_trans _ _ _ Hs1 Hs2).
Qed.
Lemma wp_Wanmgr_StartAutoMode s :
  db_wf (db s) -> wp Wanmgr_StartAutoMode (fun ph s' => settled s s' /\ ph = STARTING_AUTO) s.
Proof.
  intros Hwf. unfold Wanmgr_StartAutoMode. do 2 (apply wp_bind, wp_modify). apply wp_bind, wp_gets, wp_init_controller.
  intros c _ _. eapply wp_mono; [apply (wp_settled (fun ph => ph = STARTING_AUTO))|].
  - intros sh Hsh. do 4 (apply safe_bind_any; [aw_safe; auto with safe | intros ?]). by apply safe_ret.
  - exact Hwf.
  - intros ph s' Hs. exact Hs.
Qed.
Lemma settles_IntializeAutoWanConfig : Settles IntializeAutoWanConfig.
Proof. apply (settles_safe (fun _ => True)). intros. aw_safe. Qed.
Lemma settled_small s s' : settled s s' -> nifaces s' = nifaces s.
Proof. intros [Hsh _]. exact (f_equal fst (counts_shape _ _ Hsh)). Qed.
Lemma wp_choose_mode s :
  db_wf (db s) -> nifaces s < 2 ^ 32 ->
  wp choose_mode (fun ph s' => settled s s' /\ phase_edge s CHOOSING_MODE ph) s.
Proof.
  intros Hwf Hn. unfold choose_mode. apply wp_bind. eapply wp_mono; [by apply settles_IntializeAutoWanConfig|].
  intros ? s1 Hs1. pose proof (settled_wf _ _ Hs1 Hwf) as Hwf1. pose proof (settled_small _ _ Hs1) as Hn1.
  assert (forall m, wp (Wanmgr_StartFixedWan m) (fun ph s' => settled s s' /\ phase_edge s CHOOSING_MODE ph) s1) as Hfixed.
  { intros m. eapply wp_mono; [apply wp_Wanmgr_StartFixedWan; [done | by rewrite Hn1]|].
    intros ph s2 [Hs2 ->]. split; [exact (settled_trans _ _ _ Hs1 Hs2) | done]. }
  apply wp_bind, wp_gets, wp_if; intros _; [apply Hfixed|]. apply wp_if; intros _; [apply Hfixed|].
  apply wp_bind. eapply wp_mono; [apply (settles_safe (fun _ => True)); [intros; aw_safe | done]|].
  intros ? s2 Hs2. eapply wp_mono; [apply wp_Wanmgr_StartAutoMode; exact (settled_wf _ _ Hs2 Hwf1)|].
  intros ph s3 [Hs3 ->]. split; [|done]. exact (settled_trans _ _ _ Hs1 (settled_trans _ _ _ Hs2 Hs3)).
Qed.

Lemma wp_Transition_StartAuto s :
  db_wf (db s) -> wp Transition_StartAuto (fun ph s' => settled s s' /\ phase_edge s STARTING_AUTO ph) s.
Proof.
  intros Hwf. unfold Transition_StartAuto. apply wp_bind, wp_gets, wp_bind, wp_get_locked; intros Hok.
  2: by apply wp_bind, wp_bind, wp_call.
  set (a := Z.to_nat _). assert (valid_iface (shape_of (db s)) a) as Ha.
  { eapply iface_ok_valid; [exact Hwf | done | apply u32_range | exact Hok]. }
  set (X := holding (aw_held (ctl s)) (bw_held (ctl s))). set (sh := shape_of (db s)) in *.
  assert (framed (H := X) sh (locked s)) as F0 by (by split; [|split]).
  assert (depth (locked s) = S (depth s)) as D0 by done. revert F0 D0. generalize (locked s). intros s0 F0 D0.
  assert (forall A (m : M A) k s1, framed (H := X) sh s1 -> depth s1 = S (depth s) ->
    Safe (H := X) sh (fun _ => True) m ->
    (forall r s2, framed (H := X) sh s2 -> depth s2 = S (depth s) -> wp (k r) (fun ph s' => settled s s' /\ phase_edge s STARTING_AUTO ph) s2) ->
    wp (bind m k) (fun ph s' => settled s s' /\ phase_edge s STARTING_AUTO ph) s1) as Hrun.
  { intros A m k s1 F1 D1 Hm Hk. apply wp_bind. eapply (safe_wp (H := X)); [exact Hm | exact F1|].
    intros r s2 F2 D2 _. apply Hk; [exact F2 | lia]. }
  assert (Hout : forall k s1, framed (H := X) sh s1 -> depth s1 = S (depth s) ->
    (forall s2, settled s s2 -> wp k (fun ph s' => settled s s' /\ phase_edge s STARTING_AUTO ph) s2) ->
    wp (WanMgrDml_GetIfaceData_release ;; k) (fun ph s' => settled s s' /\ phase_edge s STARTING_AUTO ph) s1).
  { intros k s1 [F1 _] D1 Hk. apply wp_bind. eapply wp_intro; [reflexivity|]. apply Hk. split; [exact F1|].
    change (pred (depth s1) = depth s). lia. }
  apply Hrun; [done.. | aw_safe | intros ? s1 F1 D1]. apply Hrun; [done.. | aw_safe | intros ? s2 F2 D2].
  apply wp_bind. eapply (safe_wp (H := X)); [by apply safe_get_iface | exact F2 | intros A s3 F3 D3 _].
  apply Hrun; [exact F3 | lia | aw_safe | intros ? s4 F4 D4]. apply wp_if; intros _.
  - apply Hrun; [done.. | aw_safe | intros ? s5 F5 D5]. apply Hout; [done.. | intros s6 Hs6]. by apply wp_ret.
  - apply Hout; [done.. | intros s5 Hs5]. by apply wp_bind, wp_bind, wp_call.
Qed.

Lemma wp_wait_component a buf path s :
  db_wf (db s) -> valid_iface (shape_of (db s)) a ->
  wp (wait_component a buf path) (fun ph s' => settled s s' /\ phase_edge s (WAITING_COMPONENT a buf path) ph) s.
Proof.
  intros Hwf Ha. set (X := holding (aw_held (ctl s)) (bw_held (ctl s))).
  assert (Safe (H := X) (shape_of (db s)) (phase_edge s (WAITING_COMPONENT a buf path)) (wait_component a buf path)) as Hm.
  { unfold wait_component. apply safe_bind_any; [aw_safe | intros [|]].
    - do 2 (apply safe_bind_any; [aw_safe | intros ?]). by apply safe_ret.
    - apply safe_bind_any; [aw_safe | intros ?]. by apply safe_ret. }
  eapply wp_mono; [by apply Hm|]. by intros ph s' [[[? _] ?] ?].
Qed.

(** A round of the thread follows the diagram of its mode and settles. *)
Lemma wp_policy_step ph s :
  db_wf (db s) -> nifaces s < 2 ^ 32 -> phase_valid (shape_of (db s)) ph ->
  wp (policy_step ph) (fun ph' s' => settled s s' /\ phase_edge s ph ph') s.
Proof.
  intros Hwf Hn Hph. destruct ph as [| |a buf path|st|st]; simpl.
  - by apply wp_choose_mode.
  - by apply wp_Transition_StartAuto.
  - by apply wp_wait_component.
  - apply wp_bind. eapply wp_mono; [by apply wp_fixed_iteration|].
    intros [st'|] s' [Hs Ho]; apply wp_ret; (split; [exact Hs|]); simpl; destruct Ho as [Ho|Ho]; try done; [left; congruence | by right].
  - apply wp_bind. eapply wp_mono; [by apply wp_auto_iteration|].
    intros [st'|] s' [Hs Ho]; apply wp_ret; (split; [exact Hs|]); simpl; destruct Ho as [Ho|Ho]; try done; [left; congruence | by right].
Qed.
End AutoWanRounds.

(** * The threads together *)

(** The thread of the backup policy; it is not started without the backup WAN. *)
Inductive BackupThread :=
| BACKUP_STARTING
| BACKUP_RUNNING (st : WcBWanPolicyState_t)
| BACKUP_ENDED.
Definition backup_thread (o : option WcBWanPolicyState_t) : BackupThread :=
  match o with Some st => BACKUP_RUNNING st | None => BACKUP_ENDED end.

Section AutoWanWorlds.
Context `{Platform} `{Build} `{MaptBuild} `{IfaceBuild} `{AutoWanBuild}.

Definition AutoWanWorld : Type := AutoWanPhase * BackupThread * St AutoWan_t.
(** The rounds of the two threads interleave with one another and with the other
    threads, which give the mutex back, keep the tables and do not write the
    statics of the file. *)
Inductive autowan_step : AutoWanWorld -> AutoWanWorld -> Prop :=
| policy_round ph ph' b s s' :
    policy_step ph s = Some (ph', s') -> autowan_step (ph, b, s) (ph', b, s')
| backup_begins ph o s s' :
    bw_start s = Some (o, s') -> autowan_step (ph, BACKUP_STARTING, s) (ph, backup_thread o, s')
| backup_round ph st o s s' :
    bw_iteration st s = Some (o, s') -> autowan_step (ph, BACKUP_RUNNING st, s) (ph, backup_thread o, s')
| others_round ph b s s' :
    settled s s' -> ctl s' = ctl s -> autowan_step (ph, b, s) (ph, b, s').

Definition autowan_starts (s : St AutoWan_t) (w : AutoWanWorld) : Prop :=
  exists ph s', WanMgr_Policy_AutoWan s = Some (ph, s')
    /\ w = (ph, if AutoWan.WAN_FAILOVER_SUPPORTED then BACKUP_STARTING else BACKUP_ENDED, s').
Definition autowan_reach (s : St AutoWan_t) (w : AutoWanWorld) : Prop :=
  exists w0, autowan_starts s w0 /\ rtc autowan_step w0 w.

(** The states each loop visits. *)
Definition fixed_states : list WcFmobPolicyState_t :=
  [STATE_WAN_SELECTING_INTERFACE; STATE_WAN_INTERFACE_DOWN; STATE_WAN_INTERFACE_UP; STATE_WAN_INTERFACE_TEARDOWN;
   STATE_WAN_EXIT] ++ if_failover [STATE_WAN_VALIDATED_INTERFACE; STATE_WAN_INTERFACE_ACTIVE].
Definition auto_states : list WcFmobPolicyState_t :=
  [STATE_WAN_SELECTING_INTERFACE; STATE_WAN_WAITING_FOR_INTERFACE; STATE_WAN_CONFIGURING_INTERFACE;
   STATE_WAN_SCANNING_INTERFACE; STATE_WAN_DECONFIGURING_INTERFACE; STATE_WAN_INTERFACE_UP;
   STATE_WAN_INTERFACE_ACTIVE; STATE_WAN_INTERFACE_DOWN; STATE_WAN_INTERFACE_TEARDOWN; STATE_WAN_EXIT]
  ++ if_failover [STATE_WAN_VALIDATED_INTERFACE].
Definition phase_typed (sh : Shape) (ph : AutoWanPhase) : Prop :=
  match ph with
  | CHOOSING_MODE | STARTING_AUTO => True
  | WAITING_COMPONENT a _ _ => valid_iface sh a
  | FIXED_MODE_RUNNING st => st ∈ fixed_states
  | AUTO_MODE_RUNNING st => st ∈ auto_states
  end.
Definition backup_typed (b : BackupThread) : Prop :=
  match b with
  | BACKUP_STARTING => AutoWan.WAN_FAILOVER_SUPPORTED = true
  | BACKUP_RUNNING st => AutoWan.WAN_FAILOVER_SUPPORTED = true /\ st <> STATE_BACKUP_WAN_EXIT
  | BACKUP_ENDED => AutoWan.WAN_FAILOVER_SUPPORTED = false
  end.
Definition world_typed (s0 : St AutoWan_t) (w : AutoWanWorld) : Prop :=
  let '(ph, b, s) := w in
  settled s0 s /\ phase_typed (shape_of (db s)) ph /\ backup_typed b.

(** The diagrams stay within those states; only the exit state has no edge. *)
Lemma fixed_next_states l st st' : st ∈ fixed_states -> st' ∈ fixed_next l st -> st' ∈ fixed_states.
Proof.
  unfold fixed_states, fixed_next, if_failover, if_checked.
  destruct st, l, AutoWan.WAN_FAILOVER_SUPPORTED, FEATURE_TAD_HEALTH_CHECK; cbn [app]; set_solver.
Qed.
Lemma auto_next_states l st st' : st ∈ auto_states -> st' ∈ auto_next l st -> st' ∈ auto_states.
Proof.
  unfold auto_states, auto_next, if_failover, if_checked.
  destruct st, l, AutoWan.WAN_FAILOVER_SUPPORTED, FEATURE_TAD_HEALTH_CHECK; cbn [app]; set_solver.
Qed.
Lemma fixed_next_nil l st : st ∈ fixed_states -> fixed_next l st = [] -> st = STATE_WAN_EXIT.
Proof.
  unfold fixed_states, fixed_next, if_failover, if_checked.
  destruct st, l, AutoWan.WAN_FAILOVER_SUPPORTED; cbn [app]; first [done | set_solver].
Qed.
Lemma auto_next_nil l st : st ∈ auto_states -> auto_next l st = [] -> st = STATE_WAN_EXIT.
Proof.
  unfold auto_states, auto_next, if_failover, if_checked.
  destruct st, l, AutoWan.WAN_FAILOVER_SUPPORTED; cbn [app]; first [done | set_solver].
Qed.
Lemma bw_next_no_exit l st st' : st' ∈ bw_next l st -> st' <> STATE_BACKUP_WAN_EXIT.
Proof. intros Hin ->. revert Hin. destruct st, l; simpl; set_solver. Qed.
Lemma bw_next_nil l st : bw_next l st = [] -> st = STATE_BACKUP_WAN_EXIT.
Proof. by destruct st, l. Qed.
End AutoWanWorlds.
