(* ===== verification/AutoWanSample.v ===== *)
(** A build with a backup WAN, and a platform in the primary mode, on which the
    witnesses run the threads of [wanmgr_policy_autowan_impl.c]. *)

From S2P Require Export AutoWanThreads Sample.

#[export] Instance aw_build : Build :=
  {| FEATURE_RDKB_CONFIGURABLE_WAN_INTERFACE := false; FEATURE_RDKB_DHCP_MANAGER := false; FEATURE_MAPT := false;
     FEATURE_IPOE_HEALTH_CHECK := false; FEATURE_RDKB_LED_MANAGER := true; XB6_CBR2_PRODUCT_REQ := false;
     RDKB_GLOBAL_PRODUCT_REQ := false; MESH_IFNAME := "br403" |}.
#[export] Instance aw_mapt : MaptBuild := {| MAPT_NAT46_FTP_ACTIVE_MODE := false; COSA_BCM_ARM_XB6 := false |}.
#[export] Instance aw_iface_build : IfaceBuild :=
  {| PLATFORM_RASPBERRYPI := false; HUB4_SR213_PRODUCT_REQ := false; CBR2_PRODUCT_REQ := false; RBUS_WAN_IP := false;
     RBUS_BUILD_FLAG_ENABLE := true; WAN_MANAGER_UNIFICATION_ENABLED := false; DYNAMIC_CONFIGURE_PPP_LOWERLAYER := false;
     LAN_MGR_SUPPORT := false; DHCPV6_PREFIX_DELEGATION := false; SNMPV3_ENABLED := false;
     ENABLE_FEATURE_TELEMETRY2_0 := false; COSA_DML_DHCPV6_SERVER_IFNAME := "brlan0";
     COSA_DML_DHCPV6S_ADDR_SYSEVENT_NAME := "tr_brlan0_dhcpv6_server"; IPOE_HEALTH_CHECK_V4_STATUS := "ipoe_v4";
     IPOE_HEALTH_CHECK_V6_STATUS := "ipoe_v6"; IPOE_STATUS_FAILED := "failed" |}.
#[export] Instance aw_autowan : AutoWanBuild :=
  {| AutoWan.WAN_FAILOVER_SUPPORTED := true; FEATURE_TAD_HEALTH_CHECK := false; INTEL_PUMA7 := false;
     ENABLE_WANMODECHANGE_NOREBOOT := false; SCER11BEL_PRODUCT_REQ := false |}.

(** Every call succeeds, the stored modes are the primary one, the routes are those of
    [routed], and the clock reads [t]. *)
Definition aw_platform (routed : list Ext -> bool) (t : Z) : Platform :=
  {| answer := fun h c => match c with
       | ExtCall "v_secure_popen" _ => 1
       | _ => answer (Platform := sample_platform t) h c
       end;
     answer_s := fun h c => match c with
       | ExtCall "syscfg_get" ["selected_wan_mode"] | ExtCall "syscfg_get" ["last_wan_mode"] => "2"
       | ExtCall "fopen" ["/etc/resolv.conf"] => "nameserver 10.0.0.1"
       | ExtCall "v_secure_popen" _ => if routed h then "brRWAN" else EmptyString
       | _ => EmptyString
       end;
     sysevent_fd := 3 |}.

(** The primary interface, and the remote one behind it. *)
Definition sample_local : DML_WAN_IFACE :=
  (sample_iface 0 1 WAN_IFACE_NOT_SELECTED WAN_IFACE_STATUS_DISABLED) <| if_Type := WAN_IFACE_TYPE_PRIMARY |>.
Definition sample_remote : DML_WAN_IFACE :=
  (sample_iface 1 1 WAN_IFACE_NOT_SELECTED WAN_IFACE_STATUS_DISABLED)
    <| if_IfaceType := REMOTE_IFACE |>
    <| if_VirtIfList := [(sample_vif WAN_IFACE_STATUS_DISABLED) <| v_RemoteStatus := WAN_IFACE_STATUS_UP |>] |>.
Definition sample_autowan : AutoWan_t :=
  mk_AutoWan zero_controller (-1) zero_controller 0 0 0 EmptyString false false STATUS_SWITCHOVER_UNKNOWN
    STATUS_SWITCHOVER_UNKNOWN 0 false 0.
Definition sample_world_state (ifs : list DML_WAN_IFACE) (y : gmap string string) : St AutoWan_t :=
  mk_St sample_autowan
    ((sample_db ifs []) <| w_Config := sample_config <| cfg_Enable := true |> <| cfg_AllowRemoteInterfaces := true |> |>)
    y [].

(** Rounds of the policy ([true]) and of the backup policy ([false]). *)
Section Rounds.
Context `{Platform}.

Definition run_round (policy : bool) (w : AutoWanWorld) : option AutoWanWorld :=
  let '(ph, b, s) := w in
  if policy then match policy_step ph s with Some (ph', s') => Some (ph', b, s') | None => None end
  else match b with
       | BACKUP_STARTING => match bw_start s with Some (o, s') => Some (ph, backup_thread o, s') | None => None end
       | BACKUP_RUNNING st => match bw_iteration st s with Some (o, s') => Some (ph, backup_thread o, s') | None => None end
       | BACKUP_ENDED => None
       end.
Fixpoint run_rounds (l : list bool) (w : AutoWanWorld) : option AutoWanWorld :=
  match l with
  | [] => Some w
  | r :: l => match run_round r w with Some w' => run_rounds l w' | None => None end
  end.
Definition first_world (s : St AutoWan_t) : AutoWanWorld :=
  match WanMgr_Policy_AutoWan s with
  | Some (ph, s') => (ph, BACKUP_STARTING, s')
  | None => (CHOOSING_MODE, BACKUP_STARTING, s)
  end.

Lemma run_round_step r w w' : run_round r w = Some w' -> autowan_step w w'.
Proof.
  destruct w as [[ph b] s]. unfold run_round. destruct r.
  - destruct (policy_step ph s) as [[ph' s']|] eqn:E; [|done]. intros [= <-]. by constructor.
  - destruct b as [|st|]; [| |done].
    + destruct (bw_start s) as [[o s']|] eqn:E; [|done]. intros Hw. injection Hw as <-. by apply backup_begins.
    + destruct (bw_iteration st s) as [[o s']|] eqn:E; [|done]. intros Hw. injection Hw as <-. by eapply backup_round.
Qed.
Lemma run_rounds_reach l s w : run_rounds l (first_world s) = Some w -> autowan_reach s w.
Proof.
  intros Hr. exists (first_world s). split; [by do 2 eexists|].
  revert Hr. generalize (first_world s). induction l as [|r l IH]; simpl; intros w0.
  - by intros [= ->].
  - destruct (run_round r w0) as [w1|] eqn:E; [|done]. intros Hr. eapply rtc_l; [by eapply run_round_step | by apply IH].
Qed.
End Rounds.
