(* ===== verification/AutoWanProps.v ===== *)
(** The properties of the policy of the builds without [WAN_MANAGER_UNIFICATION]. *)

From S2P Require Export AutoWanSample.

Section AutoWanProperties.
Context `{Platform} `{Build} `{MaptBuild} `{IfaceBuild} `{AutoWanBuild}.
Implicit Type s : St AutoWan_t.

(** ** The worlds the threads reach *)

Lemma fixed_edge_typed sh s st ph' :
  st ∈ fixed_states -> phase_edge s (FIXED_MODE_RUNNING st) ph' -> phase_typed sh ph'.
Proof.
  intros Hst. destruct ph' as [| | |st'|]; simpl; try done. intros [->|Hn]; [done | by eapply fixed_next_states].
Qed.
Lemma auto_edge_typed sh s st ph' :
  st ∈ auto_states -> phase_edge s (AUTO_MODE_RUNNING st) ph' -> phase_typed sh ph'.
Proof.
  intros Hst. destruct ph' as [| | | |st']; simpl; try done. intros [->|Hn]; [done | by eapply auto_next_states].
Qed.
Lemma phase_edge_typed s s' ph ph' :
  shape_of (db s') = shape_of (db s) -> phase_typed (shape_of (db s)) ph -> phase_edge s ph ph' ->
  phase_typed (shape_of (db s')) ph'.
Proof.
  intros Hsh Hph He. rewrite Hsh. destruct ph as [| |a b p|st|st].
  - destruct ph' as [| | |st'|]; simpl in *; try done. subst st'. unfold fixed_states. set_solver.
  - by destruct ph'.
  - destruct ph' as [| |a' b' p'| |st']; simpl in *; try done; [by injection He as -> -> ->|].
    subst st'. unfold auto_states. set_solver.
  - by eapply fixed_edge_typed.
  - by eapply auto_edge_typed.
Qed.
Lemma phase_typed_valid sh ph : phase_typed sh ph -> phase_valid sh ph.
Proof. by destruct ph. Qed.

Context (Hmem : memory_available) (Hdns : resolv_conf_readable).
Context (s0 : St AutoWan_t) (Hwf : db_wf (db s0)) (Hsmall : nifaces s0 < 2 ^ 32).

Lemma typed_wf ph b s : world_typed s0 (ph, b, s) -> db_wf (db s) /\ nifaces s < 2 ^ 32.
Proof.
  intros (Hs & _ & _). split; [by eapply settled_wf|]. by rewrite (settled_small _ _ Hs).
Qed.
Lemma step_typed w w' : world_typed s0 w -> autowan_step w w' -> world_typed s0 w'.
Proof.
  intros Hw Hstep. destruct Hstep as [ph ph' b s s' E|ph o s s' E|ph st o s s' E|ph b s s' Hs Hc];
    destruct (typed_wf _ _ _ Hw) as [Hwf1 Hn1]; destruct Hw as (Hs0 & Hph & Hb).
  - destruct (wp_use _ _ _ _ _ E (wp_policy_step Hmem Hdns ph s Hwf1 Hn1 (phase_typed_valid _ _ Hph))) as [Hs He].
    split; [exact (settled_trans _ _ _ Hs0 Hs)|]. split; [|exact Hb]. exact (phase_edge_typed _ _ _ _ (proj1 Hs) Hph He).
  - unfold bw_start in E. cbn in E. injection E as <- <-. done.
  - destruct (wp_use _ _ _ _ _ E (wp_bw_iteration Hmem Hdns st s Hwf1)) as [Hs Ho]. destruct Hb as [Hf Hne].
    split; [exact (settled_trans _ _ _ Hs0 Hs)|]. split; [by rewrite (proj1 Hs)|].
    destruct Ho as [->|Ho]; [done|]. destruct o as [st'|]; simpl in Ho |- *.
    + split; [done|]. by eapply bw_next_no_exit.
    + by apply bw_next_nil in Ho.
  - split; [exact (settled_trans _ _ _ Hs0 Hs)|]. split; [by rewrite (proj1 Hs) | done].
Qed.
Lemma reach_typed w : autowan_reach s0 w -> world_typed s0 w.
Proof.
  intros (w0 & (ph & s' & E & ->) & Hr).
  assert (world_typed s0 (ph, if AutoWan.WAN_FAILOVER_SUPPORTED then BACKUP_STARTING else BACKUP_ENDED, s')) as Hw0.
  { unfold WanMgr_Policy_AutoWan in E. destruct AutoWan.WAN_FAILOVER_SUPPORTED eqn:Ef; injection E as <- <-; by repeat split. }
  revert Hw0 Hr. generalize (ph, if AutoWan.WAN_FAILOVER_SUPPORTED then BACKUP_STARTING else BACKUP_ENDED, s').
  intros w1 Ht Hr. induction Hr as [|w1 w2 w3 Hstep _ IH]; [done|]. apply IH. by eapply step_typed.
Qed.
End AutoWanProperties.

Section AutoWanClaims.
Context `{Platform} `{Build} `{MaptBuild} `{IfaceBuild} `{AutoWanBuild}.
Implicit Type s : St AutoWan_t.

(** C7: in every interleaving of the rounds of the two threads and of rounds of the
    other threads, which are taken to keep the shape of the tables and to give the
    mutex back ([settled]), the tables keep their shape and these two threads give
    the mutex back too; the policy waits only for the component of a configured
    interface; the loops of the fixed modes and of the automatic mode are in states
    of their own diagram, never in the validated state that only the automatic mode's
    dispatcher knows; and the thread of the backup policy exists exactly in the
    builds with a backup WAN and never ends.  The unchecked allocations succeed and
    [resolv.conf] has its documented format. *)
Theorem autowan_typed s0 ph b s :
  memory_available -> resolv_conf_readable -> db_wf (db s0) -> nifaces s0 < 2 ^ 32 ->
  autowan_reach s0 (ph, b, s) ->
  shape_of (db s) = shape_of (db s0) /\ depth s = depth s0
  /\ phase_typed (shape_of (db s)) ph /\ ph <> AUTO_MODE_RUNNING STATE_AUTOWAN_VALIDATED_INTERFACE
  /\ backup_typed b.
Proof.
  intros Hmem Hdns Hwf Hn Hr. destruct (reach_typed Hmem Hdns s0 Hwf Hn _ Hr) as ([Hsh Hd] & Hph & Hb).
  split; [done|]. split; [done|]. split; [done|]. split; [|done]. intros ->.
  revert Hph. simpl. unfold auto_states, if_failover. destruct AutoWan.WAN_FAILOVER_SUPPORTED; set_solver.
Qed.

(** C8: where the three allocations whose result the code does not check succeed and
    [resolv.conf] has its documented format, in every world that the rounds of C7
    reach the next round of the policy, and the next pass of the backup policy, run
    to their end without dereferencing [NULL], follow the diagram for an interface
    that is locked or missing, and reach a world again; a mode is only chosen anew
    after the exit state. *)
Theorem autowan_progress s0 ph b s :
  memory_available -> resolv_conf_readable -> db_wf (db s0) -> nifaces s0 < 2 ^ 32 ->
  autowan_reach s0 (ph, b, s) ->
  (exists ph' s', policy_step ph s = Some (ph', s') /\ autowan_reach s0 (ph', b, s') /\ phase_edge s ph ph'
    /\ (ph' = CHOOSING_MODE -> ph = FIXED_MODE_RUNNING STATE_WAN_EXIT \/ ph = AUTO_MODE_RUNNING STATE_WAN_EXIT))
  /\ forall st, b = BACKUP_RUNNING st ->
       exists st' s', bw_iteration st s = Some (Some st', s') /\ autowan_reach s0 (ph, BACKUP_RUNNING st', s')
         /\ (st' = st \/ st' ∈ bw_next (bw_locks s) st).
Proof.
  intros Hmem Hdns Hwf Hn Hr. pose proof (reach_typed Hmem Hdns s0 Hwf Hn _ Hr) as Hw.
  destruct (typed_wf s0 Hwf Hn _ _ _ Hw) as [Hwf1 Hn1]. destruct Hw as (Hs & Hph & Hb).
  assert (forall w, autowan_step (ph, b, s) w -> autowan_reach s0 w) as Hgo.
  { intros w Hst. destruct Hr as (w0 & Hst0 & Hr). exists w0. split; [done|]. by eapply rtc_r. }
  split.
  - destruct (proj1 (wp_run _ _ _) (wp_policy_step Hmem Hdns ph s Hwf1 Hn1 (phase_typed_valid _ _ Hph))) as (ph' & s' & E & _ & He).
    exists ph', s'. split; [done|]. split; [apply Hgo; by constructor|]. split; [done|]. intros ->.
    destruct ph as [| | |st|st]; simpl in He; try done; [left | right]; f_equal;
      [by eapply fixed_next_nil | by eapply auto_next_nil].
  - intros st ->. destruct (proj1 (wp_run _ _ _) (wp_bw_iteration Hmem Hdns st s Hwf1)) as (o & s' & E & _ & Ho).
    destruct o as [st'|].
    + exists st', s'. split; [done|]. split; [apply Hgo; by apply (backup_round ph st (Some st'))|].
      destruct Ho as [[= ->]|Ho]; auto.
    + exfalso. destruct Hb as [_ Hne]. destruct Ho as [Ho|Ho]; [done|]. by apply bw_next_nil in Ho.
Qed.
End AutoWanClaims.
