(* ===== verification/BackupProps.v ===== *)
(** When the backup policy lets the remote interface carry the traffic, and when the
    traffic goes back. *)

From S2P Require Export AutoWanProps.

Section BackupFacts.
Context `{Platform} `{Build} `{MaptBuild} `{IfaceBuild} `{AutoWanBuild}.
#[local] Abbreviation M := (Prelude.M (St AutoWan_t)).
Implicit Type s : St AutoWan_t.

(** ** What a pass reads and does not write *)

Lemma keeps_upd_vif {B} (f : St AutoWan_t -> B) p g :
  (forall s l, f (s <| db ::= fun d => d <| w_pIface := l |> |>) = f s) -> Keeps f (upd_vif p g).
Proof. intros Hf. apply keeps_bind; [apply keeps_get_vif | intros _]. by apply keeps_upd_iface. Qed.
#[local] Hint Extern 2 (Keeps _ (upd_vif _ _)) => (apply keeps_upd_vif; reflexivity) : keeps.

Definition primary_view s := (sys s, TelemetryBackUpStatus (ctl s), bw_wanPolicyCtrl (ctl s)).
Lemma primary_backup_check a : Keeps primary_view (backup_check a).
Proof.
  unfold backup_check, backup_trigger, on_success, WanMgr_Trigger_Backup_TAD, configure_check, WanMgr_Configure_TAD_WCC.
  keeps_tac.
Qed.
Lemma primary_scanned : Keeps primary_view WanMgr_Policy_BackupWan_CheckLocalWANsScannedOnce.
Proof.
  unfold WanMgr_Policy_BackupWan_CheckLocalWANsScannedOnce, GetSelectedWanMode, GetCurrentWanMode. keeps_tac.
Qed.
Lemma primary_check_good ty : Keeps primary_view (any_check_good ty).
Proof. unfold any_check_good. keeps_tac. Qed.

(** The interfaces other than [a], the shape of the tables, and which interfaces
    have the health check. *)
Definition without (a : nat) s : list (option DML_WAN_IFACE) :=
  imap (fun j I => if decide (j = a) then None else Some I) (ifaces s).
Definition looks (I : DML_WAN_IFACE) : Z * list Z * option bool := (vifs_of I, is_tad <$> head (if_VirtIfList I)).
Definition check_view (a : nat) s := (without a s, looks <$> ifaces s, counts s, length (groups s)).
Lemma check_view_upd_vif (a : nat) f :
  (forall v, v_VirIfIdx (f v) = v_VirIfIdx v /\ is_tad (f v) = is_tad v) -> Keeps (check_view a) (upd_vif (vif0 a) f).
Proof.
  intros Hf. apply keeps_bind; [apply keeps_get_vif | intros _].
  apply keeps_bind; [apply keeps_get_iface | intros _]. apply keeps_modify. intros s. unfold check_view.
  refine (f_equal2 (fun x y => (x, y, counts s, length (groups s))) _ _).
  - apply list_eq. intros j. unfold without. rewrite !list_lookup_imap. unfold ifaces. rsimpl. rewrite list_lookup_alter.
    simpl. destruct (decide (a = j)) as [->|]; [|done]. destruct (w_pIface (db s) !! j); [simpl; by case_decide | done].
  - apply list_eq. intros j. rewrite !list_lookup_fmap. unfold ifaces. rsimpl. rewrite list_lookup_alter.
    simpl. destruct (decide (a = j)) as [->|]; [|done]. destruct (w_pIface (db s) !! j) as [I|]; [|done]. simpl. f_equal.
    unfold looks, vifs_of. simpl. destruct (if_VirtIfList I) as [|v l]; [done|]. simpl. by rewrite (proj1 (Hf v)), (proj2 (Hf v)).
Qed.
Lemma check_view_set_ip (a : nat) f :
  (forall x, ip_ConnectivityCheckType (f x) = ip_ConnectivityCheckType x) -> Keeps (check_view a) (set_ip (vif0 a) f).
Proof. intros Hf. apply check_view_upd_vif. intros v. split; [done|]. unfold is_tad. simpl. by rewrite Hf. Qed.
#[local] Hint Extern 2 (Keeps (check_view _) (set_ip _ _)) => (apply check_view_set_ip; reflexivity) : keeps.
Lemma check_view_backup_check a : Keeps (check_view a) (backup_check a).
Proof.
  unfold backup_check, backup_trigger, on_success, WanMgr_Trigger_Backup_TAD, configure_check, WanMgr_Configure_TAD_WCC.
  keeps_tac.
Qed.
Lemma check_view_scanned a : Keeps (check_view a) WanMgr_Policy_BackupWan_CheckLocalWANsScannedOnce.
Proof.
  unfold WanMgr_Policy_BackupWan_CheckLocalWANsScannedOnce, GetSelectedWanMode, GetCurrentWanMode. keeps_tac.
Qed.

(** A local interface other than [a] has a good health check. *)
Definition good_check (I : DML_WAN_IFACE) : bool :=
  match head (if_VirtIfList I) with
  | Some v => is_tad v && (if_IfaceType I ≟ LOCAL_IFACE) && sel_Enable (if_Selection I) && check_up v
  | None => false
  end.
Definition local_check_good (a : nat) s : Prop :=
  exists i I, Z.of_nat i < nifaces s /\ i <> a /\ ifaces s !! i = Some I /\ good_check I = true.
Lemma local_check_good_view a s s' : check_view a s' = check_view a s -> local_check_good a s -> local_check_good a s'.
Proof.
  intros E (i & I & Hi & Hne & HI & Hg). exists i, I. pose proof (f_equal (fun x => x.1.2.1) E) as En.
  change (nifaces s' = nifaces s) in En. rewrite En. split; [done|]. split; [done|]. split; [|done].
  apply (f_equal (fun x => x.1.1.1 !! i)) in E. revert E. unfold check_view, without. cbn [fst snd].
  rewrite !list_lookup_imap, HI. destruct (ifaces s' !! i) as [J|]; simpl; [|done].
  rewrite !decide_False by done. intros Ex. injection Ex as Ex. by rewrite Ex.
Qed.
(** The test of the checks finds every good one. *)
Lemma wp_primary_check s :
  db_wf (db s) -> wp WanMgr_Policy_PrimaryWan_IsConnectivityCheckGood (fun good s' => s' = s /\
    (good = false -> forall i I, Z.of_nat i < nifaces s -> ifaces s !! i = Some I -> good_check I = false)) s.
Proof.
  intros Hwf. unfold WanMgr_Policy_PrimaryWan_IsConnectivityCheckGood, any_check_good. apply wp_bind, wp_get_total, wp_bind.
  apply (wp_for_acc_range (fun k good s1 => s1 = s /\
    (good = false -> forall i I, Z.of_nat i < k -> ifaces s !! i = Some I -> good_check I = false))).
  - split; [done | lia].
  - intros k good s1 Hk [-> Hg]. apply wp_bind, wp_with_iface; intros Hok.
    2: { exfalso. rewrite (iface_ok_in s k Hwf) in Hok; [done | exact Hk]. }
    destruct (iface_ok_lookup s k Hwf) as (J & v & l & HJ & Hv); [lia | done|].
    apply wp_bind. eapply wp_get_iface; [exact HJ|]. apply wp_ret, wp_ret. rewrite unlocked_locked. split; [done|]. cbn [fst snd].
    rewrite Hv. simpl. intros [-> Hf]%orb_false_iff i I Hi HI. destruct (decide (Z.of_nat i < k)) as [Hlt|]; [by apply (Hg eq_refl i)|].
    replace i with (Z.to_nat k) in HI by lia. assert (J = I) as <- by congruence. unfold good_check. by rewrite Hv.
  - intros good s1 [-> Hg]. apply wp_ret. split; [done|]. cbn [fst]. intros -> i I Hi. apply Hg; [done|]. unfold nifaces in Hi. lia.
Qed.
Lemma primary_check_bad a s s' :
  db_wf (db s) -> WanMgr_Policy_PrimaryWan_IsConnectivityCheckGood s = Some (false, s') -> ~ local_check_good a s.
Proof.
  intros Hwf E (i & I & Hi & _ & HI & Hg). destruct (wp_use _ _ _ _ _ E (wp_primary_check s Hwf)) as [_ Hf].
  rewrite (Hf eq_refl i I Hi HI) in Hg. done.
Qed.

(** The interface the cursor of the backup policy is on, and whether it has the
    health check. *)
Definition backup_iface s : nat := Z.to_nat (u32 (pc_activeInterfaceIdx (bw_wanPolicyCtrl (ctl s)))).
Definition checked (a : nat) s : Prop :=
  exists I v, ifaces s !! a = Some I /\ head (if_VirtIfList I) = Some v /\ is_tad v = true.
Lemma checked_view b a s s' : check_view b s' = check_view b s -> checked a s -> checked a s'.
Proof.
  intros E (I & v & HI & Hv & Ht). apply (f_equal (fun x => x.1.1.2 !! a)) in E. revert E. unfold check_view. cbn [fst snd].
  rewrite !list_lookup_fmap, HI. destruct (ifaces s' !! a) as [J|] eqn:EJ; [|done]. intros Eh%(inj Some).
  apply (f_equal snd) in Eh. change (is_tad <$> head (if_VirtIfList J) = is_tad <$> head (if_VirtIfList I)) in Eh. rewrite Hv in Eh. destruct (head (if_VirtIfList J)) as [w|] eqn:Ew; [|done]. injection Eh as Eh. exists J, w. by rewrite Eh.
Qed.
Lemma check_view_wf a s s' : check_view a s' = check_view a s -> db_wf (db s) -> db_wf (db s').
Proof.
  intros E. assert (shape_of (db s') = shape_of (db s)) as Esh; [|unfold db_wf; by rewrite Esh].
  assert (vifs_of <$> ifaces s' = vifs_of <$> ifaces s) as Ev.
  { apply (f_equal (fun x => fst <$> x.1.1.2)) in E. cbn [check_view fst snd] in E. by rewrite <- !list_fmap_compose in E. }
  exact (f_equal4 (fun a b c d => (a, b, c, d)) (f_equal (fun x => x.1.2.1) E) (f_equal (fun x => x.1.2.2) E) Ev (f_equal snd E)).
Qed.
Lemma get_vif_first (a : nat) s v s' :
  get_vif (vif0 a) s = Some (v, s') -> s' = s /\ exists I, ifaces s !! a = Some I /\ head (if_VirtIfList I) = Some v.
Proof.
  unfold get_vif. intros E. mrun E. change (vif0 a).1 with a in E0. rewrite get_iface_run in E0.
  destruct (ifaces s !! a) as [I|] eqn:HI; [|done]. injection E0 as <- <-. split; [|exists I];
    destruct (if_VirtIfList I) as [|w l] eqn:El; (done || by injection E as <- <-).
Qed.
Lemma get_vif_checked a s v s' : get_vif (vif0 a) s = Some (v, s') -> (checked a s <-> is_tad v = true).
Proof.
  intros (_ & I & HI & Hv)%get_vif_first. split.
  - intros (J & w & HJ & Hw & Ht). assert (J = I) as -> by congruence. congruence.
  - intros Ht. by exists I, v.
Qed.

(** The sysevents say that the primary WAN is gone, and no failover is held back. *)
Definition stopped s (name : string) : Prop := default EmptyString (sys s !! name) = "stopped"%string.
Definition primary_stopped s : Prop :=
  stopped s SYSEVENT_WAN_ROUTED_STATUS /\ TelemetryBackUpStatus (ctl s) <> STATUS_SWITCHOVER_STOPED
  /\ (FEATURE_TAD_HEALTH_CHECK = false -> stopped s SYSEVENT_WAN_SERVICE_STATUS /\ stopped s SYSEVENT_WAN_STATUS).
Lemma primary_stopped_view s s' : primary_view s' = primary_view s -> primary_stopped s' -> primary_stopped s.
Proof. intros [= Hs Ht _]. unfold primary_stopped, stopped. by rewrite Hs, Ht. Qed.
Lemma service_state_stopped x : service_state x = 0 -> x = "stopped"%string.
Proof.
  unfold service_state. destruct (x ≟ "started"); [done|].
  destruct (x ≟ "stopped") eqn:E; [|done]. intros _. by apply bool_decide_eq_true in E.
Qed.

Lemma primary_gone_stopped v s s' :
  primary_gone v s = Some (true, s') ->
  stopped s SYSEVENT_WAN_ROUTED_STATUS
  /\ (FEATURE_TAD_HEALTH_CHECK = false -> stopped s SYSEVENT_WAN_SERVICE_STATUS /\ stopped s SYSEVENT_WAN_STATUS).
Proof.
  unfold primary_gone. destruct FEATURE_TAD_HEALTH_CHECK; intros E.
  - mrun E. assert (Keeps primary_view (if is_tad v then WanMgr_Policy_PrimaryWan_IsConnectivityCheckGood else ret false)) as K.
    { destruct (is_tad v); [apply primary_check_good | apply keeps_ret]. }
    specialize (K _ _ _ E0). injection E as Eg _. apply andb_prop in Eg as [_ Eg]. split; [|done].
    unfold stopped. injection K as <- _ _. apply service_state_stopped. by apply Z.eqb_eq in Eg.
  - injection E as Eg _. apply Z.eqb_eq in Eg. unfold stopped.
    destruct (service_state (default EmptyString (sys s !! SYSEVENT_WAN_SERVICE_STATUS)) =? 0) eqn:E1; [|done].
    destruct (service_state (default EmptyString (sys s !! SYSEVENT_WAN_STATUS)) =? 0) eqn:E2; [|done].
    destruct (service_state (default EmptyString (sys s !! SYSEVENT_WAN_ROUTED_STATUS)) =? 0) eqn:E3; [|done].
    apply Z.eqb_eq in E1, E2, E3. split; [|intros _; split]; by apply service_state_stopped.
Qed.
Lemma may_activate_gone a m s s' :
  Keeps primary_view m -> may_activate a m s = Some (true, s') -> primary_stopped s.
Proof.
  intros Hm E. unfold may_activate in E. mrun E. mrun E. mrun E. mrun E.
  pose proof (keeps_get_vif primary_view _ _ _ _ E0) as K0. injection E1 as <- <-. pose proof (Hm _ _ _ E2) as K2.
  injection E as Ha _. rewrite !andb_true_iff in Ha. destruct Ha as [[[[_ Hst] _] _] ->].
  apply (primary_stopped_view _ s2); [congruence|]. injection K2 as _ Ht2 _. destruct (primary_gone_stopped _ _ _ E3) as [Hr Ht].
  split; [done|]. split; [|done]. apply negb_true_iff, bool_decide_eq_false in Hst.
  by rewrite Ht2.
Qed.

Lemma may_activate_checks a m s s' :
  Keeps (check_view a) m -> db_wf (db s) -> may_activate a m s = Some (true, s') ->
  FEATURE_TAD_HEALTH_CHECK = true -> checked a s -> ~ local_check_good a s.
Proof.
  intros Hm Hwf E Hf Hc. unfold may_activate in E. mrun E. mrun E. injection E1 as <- <-. mrun E. mrun E.
  destruct (get_vif_first _ _ _ _ E0) as [-> _]. pose proof (Hm _ _ _ E1) as K.
  apply (get_vif_checked _ _ _ _ E0) in Hc. injection E as Ha _. rewrite !andb_true_iff in Ha. destruct Ha as [_ ->].
  unfold primary_gone in E2. rewrite Hf, Hc in E2. mrun E2. mrun E2. injection E2 as Hg _.
  apply andb_prop in Hg as [Hg _]. apply negb_true_iff in Hg as ->. intros Hl.
  eapply (primary_check_bad a s1); [by eapply check_view_wf | exact E | by eapply local_check_good_view].
Qed.

(** ** The transitions that do not activate the remote interface *)

#[local] Abbreviation inactive m := (Returns (fun r => r <> STATE_BACKUP_WAN_INTERFACE_ACTIVE) m).
Lemma inactive_reset a : inactive (backup_reset a).
Proof. unfold backup_reset. returns_tac. Qed.
#[local] Hint Resolve inactive_reset : returns.
Lemma inactive_down : inactive Transition_BackupWanInterfaceDown.
Proof. unfold Transition_BackupWanInterfaceDown, with_backup, Transition_BackupWanSelectingInterface. returns_tac. Qed.
#[local] Hint Resolve inactive_down : returns.
Lemma inactive_waiting_up : inactive Transition_BackupWanInterfaceWaitingPrimaryUp.
Proof. unfold Transition_BackupWanInterfaceWaitingPrimaryUp, with_backup, Transition_BackupWanSelectingInterface. returns_tac. Qed.

(** ** The states that do *)

(** With the health check on both sides, no other local interface has a good one. *)
Definition checks_bad (a : nat) s : Prop := FEATURE_TAD_HEALTH_CHECK = true -> checked a s -> ~ local_check_good a s.
Lemma up_activates scanned s s' st :
  Keeps primary_view scanned -> (forall a, Keeps (check_view a) scanned) -> db_wf (db s) ->
  st <> STATE_BACKUP_WAN_INTERFACE_ACTIVE ->
  with_backup Transition_BackupWanSelectingInterface (fun a =>
    c <- get_ctl bw_wanPolicyCtrl ;;
    A <- get_iface a ;;
    v <- get_vif (vif0 a) ;;
    if standby_off c A v then Transition_BackupWanInterfaceDown
    else
      when FEATURE_TAD_HEALTH_CHECK (backup_check a) ;;
      go <- may_activate a scanned ;;
      if go : bool then Transition_BackupWanInterfaceActive else ret st) s
    = Some (STATE_BACKUP_WAN_INTERFACE_ACTIVE, s') ->
  primary_stopped s /\ (exists a, pc_pWanActiveIfaceData (bw_wanPolicyCtrl (ctl s)) = Some a /\ checks_bad a s)
  /\ pc_WanEnable (bw_wanPolicyCtrl (ctl s)) = true
  /\ pc_AllowRemoteInterfaces (bw_wanPolicyCtrl (ctl s)) = true.
Proof.
  intros Hk Hkc Hwf Hst E. unfold with_backup in E. mrun E. injection E0 as <- <-.
  destruct (pc_pWanActiveIfaceData (bw_wanPolicyCtrl (ctl s))) as [a|] eqn:Ea; [|by injection E].
  mrun E. injection E0 as <- <-. mrun E. mrun E.
  pose proof (keeps_get_iface primary_view _ _ _ _ E0) as K0. pose proof (keeps_get_vif primary_view _ _ _ _ E1) as K1.
  destruct (standby_off _ _ _) eqn:Eoff; [by apply inactive_down in E|].
  mrun E. mrun E. destruct a3; [|by injection E].
  assert (Keeps primary_view (when FEATURE_TAD_HEALTH_CHECK (backup_check a))) as K2.
  { apply keeps_when, primary_backup_check. }
  assert (Keeps (check_view a) (when FEATURE_TAD_HEALTH_CHECK (backup_check a))) as K3.
  { apply keeps_when, check_view_backup_check. }
  specialize (K2 _ _ _ E2). specialize (K3 _ _ _ E2). pose proof (keeps_get_iface (check_view a) _ _ _ _ E0) as K4.
  pose proof (keeps_get_vif (check_view a) _ _ _ _ E1) as K5.
  assert (check_view a s2 = check_view a s) as Kc by congruence.
  pose proof (may_activate_checks _ _ _ _ (Hkc a) (check_view_wf _ _ _ Kc Hwf) E3) as Hbad.
  apply may_activate_gone in E3; [|done]. split; [|split].
  - apply (primary_stopped_view s s2); [congruence | done].
  - exists a. split; [done|]. intros Hf Hc Hl. apply Hbad; [done | by eapply checked_view | by eapply local_check_good_view].
  - unfold standby_off, backup_off in Eoff. rewrite !orb_false_iff, !negb_false_iff in Eoff. tauto.
Qed.

Lemma s32_index k : 0 <= k < 2 ^ 32 - 1 -> s32 k <> -1.
Proof. intros Hk. unfold s32. pose proof (Z.div_mod (k + 2 ^ 31) (2 ^ 32)). lia. Qed.
Lemma wp_find_iface test s (Q : Z -> St AutoWan_t -> Prop) :
  db_wf (db s) -> nifaces s < 2 ^ 32 ->
  (forall k, (k = -1 -> forall i I, Z.of_nat i < nifaces s -> ifaces s !! i = Some I -> test I = false) -> Q k s) ->
  wp (find_iface test) Q s.
Proof.
  intros Hwf Hn HQ. unfold find_iface. apply wp_bind, wp_get_total, wp_bind.
  apply (wp_for_break_range (fun k s1 => s1 = s /\
    forall i I, Z.of_nat i < k -> ifaces s !! i = Some I -> test I = false)).
  - split; [done | lia].
  - intros k s1 Hk [-> HI]. apply wp_with_iface; intros Hok.
    + destruct (iface_ok_lookup s k Hwf) as (J & v & l & HJ & _); [lia | done|].
      apply wp_bind. eapply wp_get_iface; [exact HJ|]. apply wp_ret. rewrite unlocked_locked.
      destruct (test J) eqn:Et.
      * apply wp_ret, HQ. simpl. intros E. exfalso. revert E. apply s32_index. unfold nifaces in Hn. lia.
      * split; [done|]. intros i I Hi HiI. destruct (decide (Z.of_nat i < k)) as [Hlt|]; [by eapply HI|].
        replace i with (Z.to_nat k) in HiI by lia. congruence.
    + exfalso. rewrite (iface_ok_in s k Hwf) in Hok; [done | exact Hk].
  - intros s1 [-> HI]. apply wp_ret, HQ. intros _ i I Hi. apply HI. unfold nifaces in Hi. lia.
Qed.

(** Without a local interface that is up, or with a bad health check of them. *)
Definition no_local_up s : Prop :=
  forall i I, Z.of_nat i < nifaces s -> ifaces s !! i = Some I -> local_phy_up I = false.
Lemma no_primary_up v s s' :
  db_wf (db s) -> nifaces s < 2 ^ 32 -> no_primary v s = Some (true, s') ->
  no_local_up s \/ FEATURE_TAD_HEALTH_CHECK = true /\ is_tad v = true /\ forall a, ~ local_check_good a s.
Proof.
  intros Hwf Hn E. unfold no_primary in E. mrun E.
  assert (s0 = s /\ (a = -1 -> no_local_up s)) as [-> Hup].
  { refine (wp_use _ (fun k s1 => s1 = s /\ (k = -1 -> no_local_up s)) _ _ _ E0 _).
    apply wp_find_iface; [done..|]. intros k Hk. split; [done | exact Hk]. }
  destruct (Z.eqb_spec a (-1)) as [Ea|_]; [left; by apply Hup|].
  destruct (FEATURE_TAD_HEALTH_CHECK && is_tad v) eqn:Et; [|done]. apply andb_prop in Et as [Hf Ht].
  right. split; [done|]. split; [done|]. mrun E. injection E as E _. apply negb_true_iff in E as ->.
  intros b. by eapply primary_check_bad.
Qed.
Lemma inactive_state st :
  ~ (st = STATE_BACKUP_WAN_INTERFACE_UP \/ st = STATE_BACKUP_WAN_INTERFACE_INACTIVE \/ st = STATE_BACKUP_WAN_WAITING
     \/ st = STATE_BACKUP_WAN_INTERFACE_ACTIVE) ->
  Returns (fun o => o <> Some STATE_BACKUP_WAN_INTERFACE_ACTIVE) (bw_dispatch st).
Proof.
  intros Hst. assert (Hmap : forall m : M WcBWanPolicyState_t, inactive m ->
    Returns (fun o => o <> Some STATE_BACKUP_WAN_INTERFACE_ACTIVE) (r <- m ;; ret (Some r))).
  { intros m Hm s o s' E. mrun E. injection E as <- _. intros [= ->]. by apply Hm in E0. }
  assert (Hval : inactive Transition_ValidatingBackupWanInterface).
  { unfold Transition_ValidatingBackupWanInterface, with_backup, Transition_BackupWanSelectingInterface. returns_tac. }
  destruct st; try tauto; simpl; try apply Hmap.
  2: { unfold State_BackupWanInterfaceDown, with_backup, Transition_BackupWanSelectingInterface.
    apply returns_bind; intros c. destruct (pc_pWanActiveIfaceData c); [|returns_tac].
    do 2 (apply returns_bind; intros ?). destruct (_ || _); [returns_tac|]. apply returns_bind; intros v.
    apply (returns_bind_val (fun r => r <> STATE_BACKUP_WAN_INTERFACE_ACTIVE)); [by destruct (_ && _); [|apply returns_ret]|].
    intros r Hr. destruct (_ ≠? _); [by apply returns_ret | returns_tac]. }
  all: unfold State_SelectingBackupWanInterface, State_ValidatingBackupWanInterface,
    State_BackupWanAvailable, with_backup, Transition_BackupWanInterfaceSelected,
    Transition_ValidatingBackupWanInterface, Transition_BackupWanAvailable, Transition_BackupWanInterfaceUp,
    Transition_BackupWanSelectingInterface; returns_tac.
Qed.
Lemma waiting_activates s s' :
  db_wf (db s) -> nifaces s < 2 ^ 32 ->
  State_BackupWanInterfaceWaitingPrimaryUp s = Some (STATE_BACKUP_WAN_INTERFACE_ACTIVE, s') ->
  (exists a, pc_pWanActiveIfaceData (bw_wanPolicyCtrl (ctl s)) = Some a
     /\ (no_local_up s \/ FEATURE_TAD_HEALTH_CHECK = true /\ checked a s /\ ~ local_check_good a s))
  /\ pc_WanEnable (bw_wanPolicyCtrl (ctl s)) = true
  /\ pc_AllowRemoteInterfaces (bw_wanPolicyCtrl (ctl s)) = true.
Proof.
  intros Hwf Hn E. unfold State_BackupWanInterfaceWaitingPrimaryUp, with_backup in E. mrun E. injection E0 as <- <-.
  destruct (pc_pWanActiveIfaceData (bw_wanPolicyCtrl (ctl s))) as [a|] eqn:Ea; [|by injection E].
  mrun E. injection E0 as <- <-. destruct (_ || _) eqn:Eoff; [done|].
  rewrite orb_false_iff, !negb_false_iff in Eoff. mrun E. mrun E.
  destruct (get_vif_first _ _ _ _ E0) as [-> _]. destruct a1.
  - split; [|done]. exists a. split; [done|].
    destruct (no_primary_up a0 s s1) as [Hup|(Hf & Ht & Hl)]; [done.. | by left | right].
    split; [done|]. split; [by apply (get_vif_checked _ _ _ _ E0) | done].
  - exfalso. by apply inactive_waiting_up in E.
Qed.

(** The head of a pass keeps what the states read, and copies the settings of the
    configuration. *)
Definition headed s s1 : Prop :=
  sys s1 = sys s /\ TelemetryBackUpStatus (ctl s1) = TelemetryBackUpStatus (ctl s)
  /\ ifaces s1 = ifaces s /\ shape_of (db s1) = shape_of (db s)
  /\ (forall a, pc_pWanActiveIfaceData (bw_wanPolicyCtrl (ctl s1)) = Some a -> a = backup_iface s)
  /\ pc_WanEnable (bw_wanPolicyCtrl (ctl s1)) = cfg_Enable (config s)
  /\ pc_AllowRemoteInterfaces (bw_wanPolicyCtrl (ctl s1)) = cfg_AllowRemoteInterfaces (config s).
Lemma wp_bw_head s : wp (bw_update ;; bw_lock) (fun _ s1 => headed s s1) s.
Proof.
  apply wp_bind. unfold bw_update. apply wp_with_config.
  wp_tac; unfold bw_lock; apply wp_bind, wp_gets, wp_bind, wp_get_locked; intros _; apply wp_modify;
    (do 4 (split; [done|]); split; [by intros a [= <-] | done]).
Qed.
Lemma bw_iteration_inv st s o s' :
  bw_iteration st s = Some (o, s') ->
  o = Some st \/ exists s1 s2, headed s s1 /\ bw_dispatch st s1 = Some (o, s2).
Proof.
  intros E. unfold bw_iteration in E. mrun E. injection E0 as <- <-. destruct (_ <? 0); [left; by injection E|right].
  mrun E. mrun E. mrun E. mrun E. injection E as <- _.
  assert ((bw_update ;; bw_lock) (s <| trace := ExtCall "select" ["500000"] :: trace s |>) = Some (a0, s1)) as Eh.
  { unfold bind. by rewrite E0. }
  exists s1, s2. split; [exact (wp_use _ (fun _ s' => headed _ s') _ _ _ Eh (wp_bw_head _)) | exact E2].
Qed.
End BackupFacts.

(** ** The selection status of the remote interface *)

Section BackupSelection.
Context `{Platform} `{Build} `{MaptBuild} `{IfaceBuild} `{AutoWanBuild}.
#[local] Abbreviation M := (Prelude.M (St AutoWan_t)).
Implicit Type s : St AutoWan_t.

#[local] Hint Unfold WanMgr_Rbus_EventPublishHandler publish_change publish_if config_text telemetry config_dns
  Update_Current_ActiveDNS status_iface status_vif WanMgr_RdkBus_setWanIpInterfaceData WanMgr_RdkBus_SetParamValues
  WanManager_DoSystemAction WanManager_DoSystemActionWithStatus v_secure_system : monad.

(** What is published changes no interface and no controller. *)
Lemma keeps_Update_Interface_Status : Keeps (fun s => (ifaces s, ctl s)) Update_Interface_Status.
Proof. unfold Update_Interface_Status. keeps_tac. Qed.
Lemma statuses_Update_Interface_Status : Keeps (fun s => statuses s) Update_Interface_Status.
Proof.
  exact (keeps_coarser _ (fun x => (fun I => sel_Status (if_Selection I)) <$> fst x) _ keeps_Update_Interface_Status).
Qed.
Lemma statuses_upd_vif p f : Keeps (fun s => statuses s) (upd_vif p f).
Proof.
  apply keeps_bind; [apply keeps_get_vif | intros _]. apply keeps_bind; [apply keeps_get_iface | intros _].
  apply keeps_modify. intros s. apply list_eq. intros j. etransitivity; [apply statuses_alter|].
  destruct (decide _) as [->|]; [|done]. unfold statuses. rewrite list_lookup_fmap. by destruct (ifaces s !! j).
Qed.
#[local] Hint Resolve statuses_Update_Interface_Status statuses_upd_vif : keeps.
#[local] Abbreviation quiet m := (Keeps (fun s => statuses s) m).

(** The interface [a] has the selection status [x] when [m] has run. *)
Definition Selects {A} (a : iface_ptr) (x : WANMGR_IFACE_SELECTION) (m : M A) : Prop :=
  forall s r s', m s = Some (r, s') -> statuses s' !! (a : nat) = Some x.
Lemma selects_set a x : Selects a x (set_selection a x).
Proof.
  intros s r s' E. unfold set_selection in E. rewrite upd_iface_run in E.
  destruct (ifaces s !! (a : nat)) as [I|] eqn:HI; [|done]. injection E as _ <-.
  etransitivity; [apply statuses_alter|]. by rewrite decide_True, HI.
Qed.
Lemma selects_later {A B} a x (m : M A) (k : A -> M B) : (forall r, Selects a x (k r)) -> Selects a x (bind m k).
Proof. intros Hk s r s' E. mrun E. by eapply Hk. Qed.
Lemma selects_now {A B} a x (m : M A) (k : A -> M B) : Selects a x m -> (forall r, quiet (k r)) -> Selects a x (bind m k).
Proof. intros Hm Hk s r s' E. mrun E. pose proof (Hk _ _ _ _ E) as K. simpl in K. rewrite K. by eapply Hm. Qed.

Lemma quiet_stop_client n f : quiet (WanMgr_Policy_CheckAndStopUDHCPClientOverWanInterface n f).
Proof. unfold WanMgr_Policy_CheckAndStopUDHCPClientOverWanInterface, read_pid_file. keeps_tac. Qed.
Lemma quiet_route_retries n a k : quiet (route_retries n a k).
Proof.
  revert k. induction n as [|n IH]; intros k; simpl; unfold default_route, IsDefaultRoutePresent; keeps_tac; apply IH.
Qed.
Lemma quiet_succeeded : quiet failover_succeeded.
Proof. unfold failover_succeeded, set_backup. keeps_tac. Qed.
Lemma quiet_FirewallRuleConfig x n : quiet (WanMgr_FirewallRuleConfig x n).
Proof. unfold WanMgr_FirewallRuleConfig, wanmgr_firewall_restart. keeps_tac. Qed.
#[local] Hint Resolve quiet_stop_client quiet_route_retries quiet_succeeded quiet_FirewallRuleConfig : keeps.
Lemma selects_backup_reset a : Selects a WAN_IFACE_NOT_SELECTED (backup_reset a).
Proof.
  unfold backup_reset. do 4 (apply selects_later; intros ?). apply selects_now; [apply selects_set | intros ?].
  unfold set_vif_status. keeps_tac.
Qed.
Lemma selects_down a s r s' :
  pc_pWanActiveIfaceData (bw_wanPolicyCtrl (ctl s)) = Some a ->
  Transition_BackupWanInterfaceDown s = Some (r, s') -> statuses s' !! (a : nat) = Some WAN_IFACE_NOT_SELECTED.
Proof.
  intros Ha E. unfold Transition_BackupWanInterfaceDown, with_backup in E. mrun E. injection E0 as <- <-. rewrite Ha in E.
  revert E. apply selects_later. intros _. apply selects_later. intros v. destruct (_ && _); [|apply selects_backup_reset].
  apply selects_later. intros [|].
  - apply selects_now; [apply selects_set | intros; keeps_tac].
  - do 3 (apply selects_later; intros ?). apply selects_backup_reset.
Qed.

(** *** The pointer to the remote interface *)

#[local] Abbreviation held m := (Keeps (fun s => bw_held (ctl s)) m).
Lemma held_upd_vif p f : held (upd_vif p f).
Proof. by apply keeps_upd_vif. Qed.
#[local] Hint Resolve held_upd_vif : keeps.
Lemma held_route_retries n a k : held (route_retries n a k).
Proof.
  revert k. induction n as [|n IH]; intros k; simpl; unfold default_route, IsDefaultRoutePresent; keeps_tac; apply IH.
Qed.
Lemma held_failed : held failover_failed.
Proof. unfold failover_failed, set_backup. keeps_tac. Qed.
Lemma held_FirewallRuleConfig x n : held (WanMgr_FirewallRuleConfig x n).
Proof. unfold WanMgr_FirewallRuleConfig, wanmgr_firewall_restart. keeps_tac. Qed.
Lemma held_set_selection a x : held (set_selection a x).
Proof. unfold set_selection. keeps_tac. Qed.

(** *** The default route *)

(** A check that finds no default route, and the wait after it. *)
Definition route_missed (a : iface_ptr) s s1 : Prop :=
  exists s2, default_route a s = Some (false, s2) /\ call_ (ExtCall "usleep" ["500000"]) s2 = Some (tt, s1).
Lemma route_retries_spec n a k s r s' :
  route_retries n a k s = Some (r, s') ->
  (exists j s1, (j <= n)%nat /\ r = k + Z.of_nat j /\ nsteps (route_missed a) j s s1 /\ default_route a s1 = Some (true, s'))
  \/ (r = k + Z.of_nat (S n) /\ nsteps (route_missed a) (S n) s s').
Proof.
  revert k s. induction n as [|n IH]; intros k s E; cbn [route_retries] in E; mrun E.
  - destruct a0.
    + injection E as <- <-. left. exists 0%nat, s. split; [done|]. split; [lia|]. split; [constructor | done].
    + mrun E. injection E as <- <-. right. split; [done|]. eapply nsteps_l; [|constructor]. exists s0. by destruct a0.
  - destruct a0.
    + injection E as <- <-. left. exists 0%nat, s. split; [lia|]. split; [lia|]. split; [constructor | done].
    + mrun E. assert (route_missed a s s1) as Hm by (exists s0; by destruct a0).
      apply IH in E as [(j & s2 & Hj & -> & Hs & Hr)|[-> Hs]].
      * left. exists (S j), s2. split; [lia|]. split; [lia|]. split; [by eapply nsteps_l | done].
      * right. split; [lia|]. by eapply nsteps_l.
Qed.
Lemma route_retries_hit n a k j s s2 s3 :
  nsteps (route_missed a) j s s2 -> default_route a s2 = Some (true, s3) -> (j <= n)%nat ->
  route_retries n a k s = Some (k + Z.of_nat j, s3).
Proof.
  intros Hs Hr. revert n k. induction Hs as [s|j s s1 s2 (s0 & Hm & Hw) _ IH]; intros n k Hj.
  - destruct n; cbn [route_retries]; unfold bind at 1; rewrite Hr; by rewrite Z.add_0_r.
  - destruct n as [|n]; [lia|]. cbn [route_retries]. unfold bind at 1. rewrite Hm. unfold bind at 1. rewrite Hw.
    rewrite (IH Hr n (k + 1)) by lia. do 2 f_equal. lia.
Qed.

(** The link of the remote interface carries traffic. *)
Definition link_ready (I : DML_WAN_IFACE) (v : DML_VIRTUAL_IFACE) : Prop :=
  if_BaseInterfaceStatus I <> WAN_IFACE_PHY_STATUS_DOWN
  /\ vlan_Status (v_VLAN v) = WAN_IFACE_LINKSTATUS_UP /\ v_RemoteStatus v = WAN_IFACE_STATUS_UP.
(** What the activation does before it looks for the route. *)
Definition prepare_activation (a : iface_ptr) (v : DML_VIRTUAL_IFACE) : M bool :=
  set_selection a WAN_IFACE_ACTIVE ;; set_vif_status a WAN_IFACE_STATUS_UP ;; WanMgr_FirewallRuleConfig "configure" (v_Name v).
(** The default route is there at the check number [j] from 0, and at no check before
    it, half a second being waited after each of them. *)
Definition route_at (a : iface_ptr) (j : nat) s : Prop :=
  exists s2 s3, nsteps (route_missed a) j s s2 /\ default_route a s2 = Some (true, s3).
End BackupSelection.

Section BackupClaims.
Context `{Platform} `{Build} `{MaptBuild} `{IfaceBuild} `{AutoWanBuild}.
Implicit Type s : St AutoWan_t.

(** C9: the remote interface starts to carry the traffic only while the backup
    policy is enabled and allowed, and only when the primary WAN is gone: from its
    up and inactive states when the sysevents say that the WAN is stopped (with the
    health check compiled in, that its routes are) and no failover is held back by a
    local link that came up; from its waiting state when no enabled local interface
    has its link up.  With the health check of the remote interface, the check of
    every other local interface is bad: besides the sysevents in the up and inactive
    states, instead of the links in the waiting state. *)
Theorem backup_needs_primary_gone st s s' :
  db_wf (db s) -> nifaces s < 2 ^ 32 -> st <> STATE_BACKUP_WAN_INTERFACE_ACTIVE ->
  bw_iteration st s = Some (Some STATE_BACKUP_WAN_INTERFACE_ACTIVE, s') ->
  cfg_Enable (config s) = true /\ cfg_AllowRemoteInterfaces (config s) = true
  /\ ((st = STATE_BACKUP_WAN_INTERFACE_UP \/ st = STATE_BACKUP_WAN_INTERFACE_INACTIVE)
        /\ primary_stopped s /\ checks_bad (backup_iface s) s
      \/ st = STATE_BACKUP_WAN_WAITING
        /\ (no_local_up s \/ FEATURE_TAD_HEALTH_CHECK = true /\ checked (backup_iface s) s
             /\ ~ local_check_good (backup_iface s) s)).
Proof.
  intros Hwf Hn Hst E.
  apply bw_iteration_inv in E as [Eq|(s1 & s2 & (Hsys & Htel & Hifs & Hsh & Hptr & Hen & Hal) & E)]; [congruence|].
  rewrite <- Hen, <- Hal. assert (nifaces s1 = nifaces s) as Hni by exact (f_equal fst (counts_shape _ _ Hsh)).
  assert (db_wf (db s1)) as Hwf1 by (unfold db_wf; by rewrite Hsh).
  assert (primary_stopped s1 -> primary_stopped s) as Hps by (unfold primary_stopped, stopped; by rewrite Hsys, Htel).
  assert (forall a, checked a s1 <-> checked a s) as Hchk by (intros a; unfold checked; by rewrite Hifs).
  assert (forall a, local_check_good a s1 <-> local_check_good a s) as Hlc
    by (intros a; unfold local_check_good; by rewrite Hifs, Hni).
  destruct (decide (st = STATE_BACKUP_WAN_INTERFACE_UP \/ st = STATE_BACKUP_WAN_INTERFACE_INACTIVE
    \/ st = STATE_BACKUP_WAN_WAITING)) as [Hin|Hout].
  2: { exfalso. apply (inactive_state st) in E; tauto. }
  destruct Hin as [->|[->| ->]]; simpl in E; mrun E; injection E as -> ->.
  1: apply up_activates in E0 as (Hst1 & (a & Ha & Hb) & ? & ?);
    [| apply primary_scanned | apply check_view_scanned | done..].
  2: apply up_activates in E0 as (Hst1 & (a & Ha & Hb) & ? & ?); [| intros; apply keeps_ret | intros; apply keeps_ret | done..].
  1,2: do 2 (split; [done|]); left; split; [tauto|]; split; [by apply Hps|];
    unfold checks_bad in *; rewrite (Hptr a Ha), Hchk, Hlc in Hb; exact Hb.
  apply waiting_activates in E0 as ((a & Ha & Hup) & ? & ?); [| done | by rewrite Hni].
  do 2 (split; [done|]). right. split; [done|]. rewrite (Hptr a Ha), Hchk, Hlc in Hup.
  unfold no_local_up in *. by rewrite Hni, Hifs in Hup.
Qed.

(** C10: the remote interface is activated exactly when its link is ready, the
    firewall is configured for it, and its default route is there at one of nine
    checks half a second apart; a route found by the tenth check does not count.
    Otherwise the activation is undone: the interface is not selected. *)
Theorem backup_activation a I v s st s' :
  pc_pWanActiveIfaceData (bw_wanPolicyCtrl (ctl s)) = Some a ->
  ifaces s !! (a : nat) = Some I -> head (if_VirtIfList I) = Some v ->
  Transition_BackupWanInterfaceActive s = Some (st, s') ->
  (st = STATE_BACKUP_WAN_INTERFACE_ACTIVE <->
     link_ready I v /\ exists s1 j, prepare_activation a v s = Some (true, s1) /\ (j < 9)%nat /\ route_at a j s1)
  /\ statuses s' !! (a : nat)
     = Some (if st ≟ STATE_BACKUP_WAN_INTERFACE_ACTIVE then WAN_IFACE_ACTIVE else WAN_IFACE_NOT_SELECTED).
Proof.
  intros Ha HI Hv E. unfold Transition_BackupWanInterfaceActive, with_backup in E. mrun E. injection E0 as <- <-. rewrite Ha in E.
  mrun E. mrun E. rewrite get_iface_run, HI in E0. injection E0 as <- <-.
  destruct (get_vif_first _ _ _ _ E1) as [-> (I' & HI' & Hv')].
  assert (I' = I) as -> by congruence. match type of Hv' with _ = Some ?w => assert (w = v) as -> by congruence end. clear HI' Hv' E1.
  assert (forall s2, bw_held (ctl s2) = bw_held (ctl s) -> Transition_BackupWanInterfaceDown s2 = Some (st, s') ->
    st <> STATE_BACKUP_WAN_INTERFACE_ACTIVE /\ statuses s' !! (a : nat) = Some WAN_IFACE_NOT_SELECTED) as Hdown.
  { intros s2 Hh Ed. split; [by apply inactive_down in Ed|]. eapply selects_down; [|exact Ed]. unfold bw_held in Hh. by rewrite Hh. }
  assert (forall P : Prop, ~ P -> st <> STATE_BACKUP_WAN_INTERFACE_ACTIVE /\ statuses s' !! (a : nat) = Some WAN_IFACE_NOT_SELECTED ->
    (st = STATE_BACKUP_WAN_INTERFACE_ACTIVE <-> P) /\ statuses s' !! (a : nat)
     = Some (if st ≟ STATE_BACKUP_WAN_INTERFACE_ACTIVE then WAN_IFACE_ACTIVE else WAN_IFACE_NOT_SELECTED)) as Hno.
  { intros P HP [Hst Hsel]. split; [tauto|]. by rewrite bool_decide_eq_false_2. }
  destruct (_ || _) eqn:El.
  { apply Hno.
    - intros [(Hb & Hl & Hr) _]. rewrite Hl, Hr, bool_decide_eq_false_2 in El by done. done.
    - mrun E. apply (Hdown s0); [|done]. pose proof (held_failed _ _ _ E0) as K2. simpl in *. congruence. }
  assert (link_ready I v) as Hready.
  { rewrite !orb_false_iff, !negb_false_iff in El. destruct El as [[Hb Hl] Hr].
    apply bool_decide_eq_false in Hb. apply bool_decide_eq_true in Hl, Hr. done. }
  apply bind_Some in E as (u1 & s0 & E0 & E). apply bind_Some in E as (u2 & s1 & E1 & E).
  apply bind_Some in E as (ok & s2 & E2 & E).
  assert (prepare_activation a v s = Some (ok, s2)) as Hprep
    by (unfold prepare_activation, bind; by rewrite E0, E1).
  pose proof (held_set_selection _ _ _ _ _ E0) as K2. pose proof (held_upd_vif _ _ _ _ _ E1) as K3.
  pose proof (held_FirewallRuleConfig _ _ _ _ _ E2) as K4. simpl in K2, K3, K4.
  destruct ok; cbn [negb] in E; cbv iota in E.
  2: { apply Hno.
    - intros (_ & s3 & j & Hp & _). congruence.
    - apply bind_Some in E as (u3 & s3 & E3 & E). apply (Hdown s3); [|done]. pose proof (held_failed _ _ _ E3) as K5. simpl in *. congruence. }
  apply bind_Some in E as (n & s3 & E3 & E). pose proof (held_route_retries _ _ _ _ _ _ E3) as K5. simpl in K5.
  destruct (10 <=? n) eqn:Er.
  { apply Hno.
    - intros (_ & s4 & j & Hp & Hj & s5 & s6 & Hs & Hr). rewrite Hprep in Hp. injection Hp as <-.
      rewrite (route_retries_hit 9 a 1 j _ _ _ Hs Hr) in E3 by lia. injection E3 as <- _. lia.
    - apply (Hdown s3); [congruence | done]. }
  apply bind_Some in E as (u4 & s4 & E4 & E). apply bind_Some in E as (u5 & s5 & E5 & E). injection E as <- <-. split.
  - split; [intros _ | done]. split; [done|]. exists s2.
    apply route_retries_spec in E3 as [(j & sr & _ & Hr & Hs & Hf)|[Hr _]]; [|lia]. exists j.
    split; [done|]. split; [lia|]. by exists sr, s3.
  - pose proof (statuses_upd_vif _ _ _ _ _ E1) as S3. pose proof (quiet_FirewallRuleConfig _ _ _ _ _ E2) as S4.
    pose proof (quiet_route_retries _ _ _ _ _ _ E3) as S5. pose proof (quiet_succeeded _ _ _ E4) as S6.
    pose proof (statuses_Update_Interface_Status _ _ _ E5) as S7. simpl in S3, S4, S5, S6, S7. rewrite S7, S6, S5, S4, S3.
    exact (selects_set a WAN_IFACE_ACTIVE _ _ _ E0).
Qed.
End BackupClaims.
