(* ===== verification/BackupTimer.v ===== *)
(** The timer that delays the return of the traffic to the primary WAN. *)

From S2P Require Export BackupProps.

Section BackupTimer.
Context `{Platform} `{Build} `{MaptBuild} `{IfaceBuild} `{AutoWanBuild}.
#[local] Abbreviation M := (Prelude.M (St AutoWan_t)).
Implicit Type s : St AutoWan_t.

(** Whether the timer runs, and when it expires. *)
Definition timer s : bool * Z := (bRestorationDelayTimerStart (ctl s), RestorationDelayTimer (ctl s)).
#[local] Abbreviation still m := (Keeps timer m).
Lemma still_upd_vif p f : still (upd_vif p f).
Proof. by apply keeps_upd_vif. Qed.
#[local] Hint Resolve still_upd_vif : keeps.
Lemma still_Update_Interface_Status : still Update_Interface_Status.
Proof.
  exact (keeps_coarser _ (fun x => (bRestorationDelayTimerStart (snd x), RestorationDelayTimer (snd x))) _
    keeps_Update_Interface_Status).
Qed.
#[local] Hint Resolve still_Update_Interface_Status : keeps.
Lemma still_WanMgr_Policy_CheckAndStopUDHCPClientOverWanInterface n f : still (WanMgr_Policy_CheckAndStopUDHCPClientOverWanInterface n f).
Proof. unfold WanMgr_Policy_CheckAndStopUDHCPClientOverWanInterface, read_pid_file. keeps_tac. Qed.
#[local] Hint Resolve still_WanMgr_Policy_CheckAndStopUDHCPClientOverWanInterface : keeps.
Lemma still_WanMgr_Policy_CheckAndStartUDHCPClientOverWanInterface n c f x : still (WanMgr_Policy_CheckAndStartUDHCPClientOverWanInterface n c f x).
Proof. unfold WanMgr_Policy_CheckAndStartUDHCPClientOverWanInterface, WanMgr_getUdhcpcClientID, WanManager_IsNetworkInterfaceAvailable. keeps_tac. Qed.
#[local] Hint Resolve still_WanMgr_Policy_CheckAndStartUDHCPClientOverWanInterface : keeps.
Lemma still_WanMgr_StartIpMonitor i : still (WanMgr_StartIpMonitor i).
Proof. unfold WanMgr_StartIpMonitor. keeps_tac. Qed.
#[local] Hint Resolve still_WanMgr_StartIpMonitor : keeps.
Lemma still_WanMgr_Trigger_Backup_TAD p e : still (WanMgr_Trigger_Backup_TAD p e).
Proof. unfold WanMgr_Trigger_Backup_TAD, configure_check, WanMgr_Configure_TAD_WCC. keeps_tac. Qed.
#[local] Hint Resolve still_WanMgr_Trigger_Backup_TAD : keeps.
Lemma still_any_check_good ty : still (any_check_good ty).
Proof. unfold any_check_good. keeps_tac. Qed.
#[local] Hint Resolve still_any_check_good : keeps.
Lemma still_find_iface f : still (find_iface f).
Proof. unfold find_iface. keeps_tac. Qed.
#[local] Hint Resolve still_find_iface : keeps.
Lemma still_WanMgr_Policy_BackupWan_CheckLocalWANsScannedOnce : still WanMgr_Policy_BackupWan_CheckLocalWANsScannedOnce.
Proof. unfold WanMgr_Policy_BackupWan_CheckLocalWANsScannedOnce, GetSelectedWanMode, GetCurrentWanMode. keeps_tac. Qed.
#[local] Hint Resolve still_WanMgr_Policy_BackupWan_CheckLocalWANsScannedOnce : keeps.
Lemma still_WanMgr_Policy_PrimaryWan_ReTriggerValidation : still WanMgr_Policy_PrimaryWan_ReTriggerValidation.
Proof. unfold WanMgr_Policy_PrimaryWan_ReTriggerValidation, set_selection. keeps_tac. Qed.
#[local] Hint Resolve still_WanMgr_Policy_PrimaryWan_ReTriggerValidation : keeps.
Lemma still_WanMgr_FirewallRuleConfig x n : still (WanMgr_FirewallRuleConfig x n).
Proof. unfold WanMgr_FirewallRuleConfig, WanManager_DoSystemAction, WanManager_DoSystemActionWithStatus, wanmgr_firewall_restart. keeps_tac. Qed.
#[local] Hint Resolve still_WanMgr_FirewallRuleConfig : keeps.
Lemma still_delete_v6_route n : still (delete_v6_route n).
Proof. unfold delete_v6_route, WanMgr_delBackUpIpv6Route, Get_Device_Mode, syscfg_get, UnSetV6Route, v_secure_system. keeps_tac. Qed.
#[local] Hint Resolve still_delete_v6_route : keeps.
Lemma still_failover_failed : still failover_failed.
Proof. unfold failover_failed, set_backup, telemetry. keeps_tac. Qed.
#[local] Hint Resolve still_failover_failed : keeps.
Lemma still_failover_succeeded : still failover_succeeded.
Proof. unfold failover_succeeded, set_backup, telemetry. keeps_tac. Qed.
#[local] Hint Resolve still_failover_succeeded : keeps.
Lemma still_failover_failed_without_local : still failover_failed_without_local.
Proof. unfold failover_failed_without_local, WanMgr_Policy_BackupWan_CheckAnyLocalWANIsPhysicallyActive. keeps_tac. Qed.
#[local] Hint Resolve still_failover_failed_without_local : keeps.
Lemma still_no_primary v : still (no_primary v).
Proof. unfold no_primary, WanMgr_Policy_BackupWan_CheckAnyLocalWANIsPhysicallyActive, WanMgr_Policy_PrimaryWan_IsConnectivityCheckGood. keeps_tac. Qed.
#[local] Hint Resolve still_no_primary : keeps.
Lemma still_backup_check a : still (backup_check a).
Proof. unfold backup_check, backup_trigger, on_success. keeps_tac. Qed.
#[local] Hint Resolve still_backup_check : keeps.
Lemma still_primary_gone v : still (primary_gone v).
Proof. unfold primary_gone, WanMgr_Policy_PrimaryWan_IsConnectivityCheckGood, WanMgr_IsWanStopped,
  WanMgr_GetWanRoutedStatus, WanMgr_GetWanServiceStatus, WanMgr_GetWanStatus. keeps_tac. Qed.
#[local] Hint Resolve still_primary_gone : keeps.
Lemma still_may_activate a m : still m -> still (may_activate a m).
Proof. intros. unfold may_activate. keeps_tac. Qed.
#[local] Hint Resolve still_may_activate : keeps.
Lemma still_route_retries n a k : still (route_retries n a k).
Proof.
  revert k. induction n as [|n IH]; intros k; simpl; unfold default_route, IsDefaultRoutePresent; keeps_tac; apply IH.
Qed.
#[local] Hint Resolve still_route_retries : keeps.

(** ** The transitions and the other states *)

#[local] Hint Unfold set_selection set_vif_status set_bw with_backup : monad.
Lemma still_Transition_BackupWanSelectingInterface : still Transition_BackupWanSelectingInterface.
Proof. unfold Transition_BackupWanSelectingInterface. keeps_tac. Qed.
#[local] Hint Resolve still_Transition_BackupWanSelectingInterface : keeps.
Lemma still_Transition_BackupWanInterfaceSelected : still Transition_BackupWanInterfaceSelected.
Proof. unfold Transition_BackupWanInterfaceSelected. keeps_tac. Qed.
#[local] Hint Resolve still_Transition_BackupWanInterfaceSelected : keeps.
Lemma still_Transition_ValidatingBackupWanInterface : still Transition_ValidatingBackupWanInterface.
Proof. unfold Transition_ValidatingBackupWanInterface. keeps_tac. Qed.
#[local] Hint Resolve still_Transition_ValidatingBackupWanInterface : keeps.
Lemma still_Transition_BackupWanAvailable : still Transition_BackupWanAvailable.
Proof. unfold Transition_BackupWanAvailable, backup_trigger, on_success. keeps_tac. Qed.
#[local] Hint Resolve still_Transition_BackupWanAvailable : keeps.
Lemma still_Transition_BackupWanInterfaceUp : still Transition_BackupWanInterfaceUp.
Proof. unfold Transition_BackupWanInterfaceUp. keeps_tac. Qed.
#[local] Hint Resolve still_Transition_BackupWanInterfaceUp : keeps.
Lemma still_backup_reset a : still (backup_reset a).
Proof. unfold backup_reset. keeps_tac. Qed.
#[local] Hint Resolve still_backup_reset : keeps.
Lemma still_Transition_BackupWanInterfaceDown : still Transition_BackupWanInterfaceDown.
Proof. unfold Transition_BackupWanInterfaceDown. keeps_tac. Qed.
#[local] Hint Resolve still_Transition_BackupWanInterfaceDown : keeps.
Lemma still_Transition_BackupWanInterfaceActive : still Transition_BackupWanInterfaceActive.
Proof. unfold Transition_BackupWanInterfaceActive. keeps_tac. Qed.
#[local] Hint Resolve still_Transition_BackupWanInterfaceActive : keeps.
Lemma still_Transition_BackupWanInterfaceInActive : still Transition_BackupWanInterfaceInActive.
Proof. unfold Transition_BackupWanInterfaceInActive. keeps_tac. Qed.
#[local] Hint Resolve still_Transition_BackupWanInterfaceInActive : keeps.
Lemma still_Transition_BackupWanInterfaceWaitingPrimaryUp : still Transition_BackupWanInterfaceWaitingPrimaryUp.
Proof. unfold Transition_BackupWanInterfaceWaitingPrimaryUp. keeps_tac. Qed.
#[local] Hint Resolve still_Transition_BackupWanInterfaceWaitingPrimaryUp : keeps.
Lemma still_State_SelectingBackupWanInterface : still State_SelectingBackupWanInterface.
Proof. unfold State_SelectingBackupWanInterface, WanMgr_Policy_BackupWan_GetCurrentBackupWanInterfaceIndex. keeps_tac. Qed.
#[local] Hint Resolve still_State_SelectingBackupWanInterface : keeps.
Lemma still_State_BackupWanInterfaceDown : still State_BackupWanInterfaceDown.
Proof. unfold State_BackupWanInterfaceDown. keeps_tac. Qed.
#[local] Hint Resolve still_State_BackupWanInterfaceDown : keeps.
Lemma still_State_ValidatingBackupWanInterface : still State_ValidatingBackupWanInterface.
Proof. unfold State_ValidatingBackupWanInterface. keeps_tac. Qed.
#[local] Hint Resolve still_State_ValidatingBackupWanInterface : keeps.
Lemma still_State_BackupWanAvailable : still State_BackupWanAvailable.
Proof. unfold State_BackupWanAvailable. keeps_tac. Qed.
#[local] Hint Resolve still_State_BackupWanAvailable : keeps.
Lemma still_State_BackupWanInterfaceUp : still State_BackupWanInterfaceUp.
Proof. unfold State_BackupWanInterfaceUp. keeps_tac. Qed.
#[local] Hint Resolve still_State_BackupWanInterfaceUp : keeps.
Lemma still_State_BackupWanInterfaceInActive : still State_BackupWanInterfaceInActive.
Proof. unfold State_BackupWanInterfaceInActive. keeps_tac. Qed.
#[local] Hint Resolve still_State_BackupWanInterfaceInActive : keeps.
Lemma still_State_BackupWanInterfaceWaitingPrimaryUp : still State_BackupWanInterfaceWaitingPrimaryUp.
Proof. unfold State_BackupWanInterfaceWaitingPrimaryUp. keeps_tac. Qed.
#[local] Hint Resolve still_State_BackupWanInterfaceWaitingPrimaryUp : keeps.
Lemma still_other_states st : st <> STATE_BACKUP_WAN_INTERFACE_ACTIVE -> still (bw_dispatch st).
Proof. intros Hst. destruct st; try done; simpl; keeps_tac. Qed.

(** ** The pass of the active state *)

(** Some configured interface has the property. *)
Definition some_iface (test : DML_WAN_IFACE -> bool) s : bool := existsb test (take (Z.to_nat (nifaces s)) (ifaces s)).
Lemma wp_find_iface_exact test s :
  db_wf (db s) -> nifaces s < 2 ^ 32 -> wp (find_iface test) (fun k s' => s' = s /\ (k =? -1) = negb (some_iface test s)) s.
Proof.
  intros Hwf Hn. unfold find_iface. apply wp_bind, wp_get_total, wp_bind.
  assert (Hlk : forall k, 0 <= k < nifaces s -> exists J, ifaces s !! Z.to_nat k = Some J).
  { intros k Hk. destruct (iface_ok_lookup s k Hwf) as (J & v & l & HJ & _); [lia | by apply iface_ok_in | by exists J]. }
  apply (wp_for_break_range (fun k s1 => s1 = s /\ existsb test (take (Z.to_nat k) (ifaces s)) = false)).
  - by split.
  - intros k s1 Hk [-> HI]. apply wp_with_iface; intros Hok.
    2: { exfalso. rewrite (iface_ok_in s k Hwf) in Hok; [done | exact Hk]. }
    destruct (Hlk k Hk) as (J & HJ). apply wp_bind. eapply wp_get_iface; [exact HJ|]. apply wp_ret. rewrite unlocked_locked.
    destruct (test J) eqn:Et.
    + apply wp_ret. split; [done|]. simpl. rewrite (proj2 (Z.eqb_neq _ _)) by (apply s32_index; unfold nifaces in Hn; lia).
      symmetry. apply negb_false_iff, existsb_exists. exists J. split; [|done].
      apply list_elem_of_In, list_elem_of_lookup. exists (Z.to_nat k). rewrite lookup_take_lt; [done | unfold nifaces; lia].
    + split; [done|]. replace (Z.to_nat (k + 1)) with (S (Z.to_nat k)) by lia.
      by rewrite (take_S_r _ _ _ HJ), existsb_app, HI; simpl; rewrite Et.
  - intros s1 [-> HI]. apply wp_ret. split; [done|]. simpl. unfold some_iface.
    replace (Z.to_nat (Z.max 0 (w_ulTotalNumbWanInterfaces (db s)))) with (Z.to_nat (nifaces s)) in HI by (unfold nifaces; lia).
    by rewrite HI.
Qed.

(** A local interface has its link up, and one is selected. *)
Definition primary_is_back s : bool := some_iface local_phy_up s && some_iface local_selected s.
Lemma wp_primary_back v s :
  FEATURE_TAD_HEALTH_CHECK = false -> db_wf (db s) -> nifaces s < 2 ^ 32 ->
  wp (primary_back v) (fun back s' => s' = s /\ back = primary_is_back s) s.
Proof.
  intros Ht Hwf Hn. unfold primary_back, WanMgr_Policy_BackupWan_CheckAnyLocalWANIsPhysicallyActive,
    WanMgr_Policy_PrimaryWan_CheckAnyLocalWANIsSelected. rewrite Ht. simpl.
  apply wp_bind. eapply wp_mono; [by apply wp_find_iface_exact|]. intros k s1 [-> E1]. apply wp_bind, wp_ret, wp_bind, wp_bind.
  eapply wp_mono; [by apply wp_find_iface_exact|]. intros k2 s1 [-> E2]. apply wp_ret, wp_ret. split; [done|].
  by rewrite E1, E2, !negb_involutive, andb_true_r.
Qed.

(** What the active state does to the timer while the remote interface stands, [back]
    telling whether the primary WAN is back. *)
Definition timer_next (back : bool) (now delay : Z) (t : bool * Z) : bool * Z :=
  match back, t.1 with
  | true, false => (true, now + delay)
  | true, true => if t.2 <? now then (false, 0) else t
  | false, true => (false, 0)
  | false, false => t
  end.
Definition timer_expired (back : bool) (now : Z) (t : bool * Z) : bool := back && t.1 && (t.2 <? now).

#[local] Abbreviation held m := (Keeps (fun s => bw_held (ctl s)) m).
Lemma held_stop_client n f : held (WanMgr_Policy_CheckAndStopUDHCPClientOverWanInterface n f).
Proof. unfold WanMgr_Policy_CheckAndStopUDHCPClientOverWanInterface, read_pid_file. keeps_tac. Qed.
#[local] Hint Resolve held_upd_vif held_stop_client : keeps.
Lemma held_retrigger : held WanMgr_Policy_PrimaryWan_ReTriggerValidation.
Proof.
  unfold WanMgr_Policy_PrimaryWan_ReTriggerValidation, set_selection,
    WanMgr_Policy_CheckAndStartUDHCPClientOverWanInterface, WanMgr_getUdhcpcClientID, WanManager_IsNetworkInterfaceAvailable.
  keeps_tac.
Qed.
Lemma inactive_result a s r s' :
  bw_held (ctl s) = Some a -> Transition_BackupWanInterfaceInActive s = Some (r, s') -> r = STATE_BACKUP_WAN_INTERFACE_INACTIVE.
Proof.
  unfold Transition_BackupWanInterfaceInActive, with_backup. intros Ha E. mrun E. injection E0 as <- <-.
  unfold bw_held in Ha. rewrite Ha in E. do 5 mrun E. by injection E.
Qed.
(** The first local interface whose link is up is asked for a lease again, from the
    state [s] with the calls [t] made; [good] when it gets one. *)
Definition revalidated s (t : list Ext) (good : bool) : Prop :=
  exists s2 k s3, ifaces s2 = ifaces s /\ shape_of (db s2) = shape_of (db s) /\ sys s2 = sys s /\ trace s2 = t
    /\ WanMgr_Policy_PrimaryWan_ReTriggerValidation s2 = Some (k, s3) /\ good = (k =? 0).
Definition timer_result s t (expired : bool) (r : WcBWanPolicyState_t) : Prop :=
  exists good, (expired = true -> revalidated s t good)
    /\ r = (if expired && good then STATE_BACKUP_WAN_INTERFACE_INACTIVE else STATE_BACKUP_WAN_INTERFACE_ACTIVE).
Lemma restore_primary_timer a v s r s' :
  FEATURE_TAD_HEALTH_CHECK = false -> bw_held (ctl s) = Some a -> restore_primary v s = Some (r, s') ->
  let now := answer (trace s) ClockGettime in
  timer s' = timer_next true now (RestorationDelayTimeout (ctl s)) (timer s)
  /\ timer_result s (ClockGettime :: trace s) (timer_expired true now (timer s)) r.
Proof.
  intros Ht Ha E. unfold restore_primary in E. rewrite Ht in E. mrun E. injection E0 as <- <-. mrun E. injection E0 as <- <-.
  unfold timer_result, timer_next, timer_expired, timer. simpl.
  destruct (bRestorationDelayTimerStart (ctl s)) eqn:Eb; simpl in E.
  2: { injection E as <- <-. split; [done|]. by exists true. }
  destruct (Z.ltb_spec (RestorationDelayTimer (ctl s)) (answer (trace s) ClockGettime)) as [Hlt|Hge].
  2: { rewrite (proj2 (Z.ltb_ge _ _)) in E by lia. injection E as <- <-. simpl. rewrite Eb. split; [done|]. by exists true. }
  rewrite (proj2 (Z.ltb_lt _ _)) in E by lia. mrun E. injection E0 as _ <-. apply bind_Some in E as (ok & s1 & E1 & E).
  apply bind_Some in E1 as (k & s2 & E0 & E1). injection E1 as <- <-.
  pose proof (still_WanMgr_Policy_PrimaryWan_ReTriggerValidation _ _ _ E0) as K. pose proof (held_retrigger _ _ _ E0) as Kh.
  simpl in Kh. assert (timer s' = timer s2) as Kt.
  { destruct (k =? 0); [exact (still_Transition_BackupWanInterfaceInActive _ _ _ E) | by injection E as _ <-]. }
  split; [exact (eq_trans Kt K)|]. exists (k =? 0). split.
  - intros _. eexists _, k, s2. split; [|split; [|split; [|split; [|split; [exact E0|]]]]]; done.
  - destruct (k =? 0); [|by injection E]. simpl. eapply (inactive_result a); [|exact E]. by rewrite Kh.
Qed.

(** The remote interface the policy works on is there, enabled, allowed and up. *)
Definition remote_standing s : bool :=
  iface_ok s (u32 (pc_activeInterfaceIdx (bw_wanPolicyCtrl (ctl s))))
  && match ifaces s !! backup_iface s with
     | Some A =>
         match head (if_VirtIfList A) with
         | Some v =>
             cfg_Enable (config s) && cfg_AllowRemoteInterfaces (config s) && sel_Enable (if_Selection A)
             && (if_BaseInterfaceStatus A ≠? WAN_IFACE_PHY_STATUS_DOWN) && (v_RemoteStatus v ≟ WAN_IFACE_STATUS_UP)
             && (vlan_Status (v_VLAN v) ≟ WAN_IFACE_LINKSTATUS_UP) && (v_Status v ≟ WAN_IFACE_STATUS_UP)
         | None => false
         end
     | None => false
     end.
Lemma standby_off_spec c I v :
  standby_off c I v
  = negb (pc_WanEnable c && pc_AllowRemoteInterfaces c && sel_Enable (if_Selection I)
          && (if_BaseInterfaceStatus I ≠? WAN_IFACE_PHY_STATUS_DOWN) && (v_RemoteStatus v ≟ WAN_IFACE_STATUS_UP)
          && (vlan_Status (v_VLAN v) ≟ WAN_IFACE_LINKSTATUS_UP) && (v_Status v ≟ WAN_IFACE_STATUS_UP)).
Proof.
  unfold standby_off, backup_off.
  destruct (pc_WanEnable c), (pc_AllowRemoteInterfaces c), (sel_Enable _), (_ ≟ WAN_IFACE_PHY_STATUS_DOWN),
    (_ ≟ WAN_IFACE_LINKSTATUS_UP); simpl; try done.
  all: by destruct (v_RemoteStatus v ≟ _), (v_Status v ≟ _).
Qed.

(** The head of a pass, as the timer sees it. *)
Definition timer_headed s s1 : Prop :=
  timer s1 = timer s /\ trace s1 = trace s /\ sys s1 = sys s
  /\ (ifaces s1 = ifaces s /\ shape_of (db s1) = shape_of (db s))
  /\ (bRestorationDelayTimerStart (ctl s) = false -> RestorationDelayTimeout (ctl s1) = cfg_RestorationDelay (config s))
  /\ pc_WanEnable (bw_wanPolicyCtrl (ctl s1)) = cfg_Enable (config s)
  /\ pc_AllowRemoteInterfaces (bw_wanPolicyCtrl (ctl s1)) = cfg_AllowRemoteInterfaces (config s)
  /\ bw_held (ctl s1)
     = (if iface_ok s (u32 (pc_activeInterfaceIdx (bw_wanPolicyCtrl (ctl s)))) then Some (backup_iface s) else None).
Lemma wp_bw_head_timer s : wp (bw_update ;; bw_lock) (fun _ s1 => timer_headed s s1) s.
Proof.
  apply wp_bind. unfold bw_update. apply wp_with_config.
  wp_tac; unfold bw_lock; apply wp_bind, wp_gets, wp_bind, wp_get_locked; intros Hok; apply wp_modify;
    (do 4 (split; [done|]); split; [|split; [done|split; [done|]]]).
  all: try match goal with |- _ = (if iface_ok _ _ then _ else _) =>
    unfold backup_iface; match type of Hok with _ = ?b =>
      assert (iface_ok s (u32 (pc_activeInterfaceIdx (bw_wanPolicyCtrl (ctl s)))) = b) as -> by exact Hok end; done end.
  all: try done.
  all: match goal with Hb : negb _ = false |- _ =>
        change (negb (bRestorationDelayTimerStart (ctl s)) = false) in Hb; rewrite negb_false_iff in Hb; congruence end.
Qed.
Lemma still_bw_release : still bw_release.
Proof. unfold bw_release. keeps_tac. Qed.

Lemma down_not_inactive :
  Returns (fun r => r <> STATE_BACKUP_WAN_INTERFACE_INACTIVE) Transition_BackupWanInterfaceDown.
Proof.
  unfold Transition_BackupWanInterfaceDown, with_backup, Transition_BackupWanSelectingInterface, backup_reset. returns_tac.
Qed.

(** The pass of the active state. *)
Definition watched s s1 (r : WcBWanPolicyState_t) s' : Prop :=
  let back := primary_is_back s in
  let now := answer (trace s1) ClockGettime in
  timer s' = timer_next back now (RestorationDelayTimeout (ctl s1)) (timer s)
  /\ timer_result s (ClockGettime :: trace s1) (timer_expired back now (timer s)) r.
Lemma active_timer s s1 r s' :
  FEATURE_TAD_HEALTH_CHECK = false -> db_wf (db s) -> nifaces s < 2 ^ 32 -> timer_headed s s1 ->
  State_BackupWanInterfaceActive s1 = Some (r, s') ->
  if remote_standing s then watched s s1 r s' else timer s' = timer s /\ r <> STATE_BACKUP_WAN_INTERFACE_INACTIVE.
Proof.
  intros Ht Hwf Hn (Htm & Htr & Hsy & [HI Hsh] & _ & Hen & Hal & Hheld) E.
  unfold State_BackupWanInterfaceActive, with_backup in E. rewrite Ht in E. mrun E. injection E0 as <- <-.
  unfold bw_held in Hheld. unfold remote_standing.
  destruct (iface_ok s (u32 (pc_activeInterfaceIdx (bw_wanPolicyCtrl (ctl s))))); rewrite Hheld in E; simpl andb.
  2: { injection E as <- <-. by split. }
  mrun E. injection E0 as <- <-. apply bind_Some in E as (A & s2 & E0 & E). rewrite get_iface_run, HI in E0.
  destruct (ifaces s !! backup_iface s) as [A'|] eqn:HA; [|done]. injection E0 as -> <-.
  apply bind_Some in E as (v & s3 & E1 & E). destruct (get_vif_first _ _ _ _ E1) as [-> (A2 & HA2 & Hv)].
  assert (A2 = A) as -> by (rewrite HI in HA2; congruence). rewrite Hv. clear HA2 E1.
  rewrite standby_off_spec, Hen, Hal in E. destruct (_ && (v_Status v ≟ WAN_IFACE_STATUS_UP)); simpl negb in E; cbv iota in E.
  2: { split; [|by apply down_not_inactive in E]. rewrite <- Htm. exact (still_Transition_BackupWanInterfaceDown _ _ _ E). }
  mrun E. injection E0 as <- <-. cbv iota in E. mrun E. destruct (get_vif_first _ _ _ _ E0) as [-> _].
  apply bind_Some in E as (back & s4 & E1 & E). unfold watched.
  assert (nifaces s1 = nifaces s) as Hni by exact (f_equal fst (counts_shape _ _ Hsh)).
  assert (db_wf (db s1)) as Hwf1 by (unfold db_wf; by rewrite Hsh).
  destruct (wp_use _ _ _ _ _ E1 (wp_primary_back _ s1 Ht Hwf1 ltac:(by rewrite Hni))) as [-> Eb].
  assert (primary_is_back s1 = primary_is_back s) as Epb by (unfold primary_is_back, some_iface; by rewrite Hni, HI).
  rewrite Epb in Eb. rewrite <- Eb, <- Htm. destruct back.
  - apply (restore_primary_timer (backup_iface s)) in E as [E Er]; [|done|exact Hheld]. split; [exact E|].
    destruct Er as (good & Hg & Hr). exists good. split; [|exact Hr]. intros Hx.
    destruct (Hg Hx) as (s2 & k & s3 & H1' & H2' & H3' & H4' & H5').
    exists s2, k, s3. rewrite H1', H2', H3', HI, Hsh, Hsy. done.
  - mrun E. injection E2 as <- <-. apply bind_Some in E as (u & s5 & E3 & E). injection E as <- <-. split; [|by exists true].
    unfold timer_next, timer in *. simpl. destruct (bRestorationDelayTimerStart (ctl s1)) eqn:Es; injection E3 as _ <-; [done | by rewrite Es].
Qed.

(** C11: the delay before the traffic goes back, in the builds without the health
    check.  The timer moves only in a pass of the active state, whose [select]
    succeeds, while the remote interface is there, enabled, allowed and up.  When
    the primary WAN is back (an enabled local interface has its link up and one is
    selected), a timer that does not run is started with the delay of the
    configuration; one that runs is kept until it has expired, and the traffic goes
    back in the pass that finds it expired, which stops it, if the primary interface
    gets a lease again.  When the primary WAN is not back a running timer is stopped.
    In every other pass, also one that takes the remote interface down, the timer is
    as it was: it still runs when the interface becomes active again. *)
Theorem backup_restoration_timer st s r s' :
  FEATURE_TAD_HEALTH_CHECK = false -> db_wf (db s) -> nifaces s < 2 ^ 32 ->
  bw_iteration st s = Some (Some r, s') ->
  let select := ExtCall "select" ["500000"] in
  let now := answer (select :: trace s) ClockGettime in
  let back := primary_is_back s in
  if (st ≟ STATE_BACKUP_WAN_INTERFACE_ACTIVE) && (0 <=? answer (trace s) select) && remote_standing s
  then timer s' = timer_next back now (cfg_RestorationDelay (config s)) (timer s)
       /\ timer_result s (ClockGettime :: select :: trace s) (timer_expired back now (timer s)) r
  else timer s' = timer s /\ (st = STATE_BACKUP_WAN_INTERFACE_ACTIVE -> r <> STATE_BACKUP_WAN_INTERFACE_INACTIVE).
Proof.
  intros Ht Hwf Hn E. cbv zeta. unfold bw_iteration in E. mrun E. injection E0 as <- <-.
  destruct (Z.ltb_spec (answer (trace s) (ExtCall "select" ["500000"])) 0) as [Hneg|Hpos].
  { rewrite (proj2 (Z.leb_gt _ _)), andb_false_r by done. simpl. injection E as <- <-. split; [done|]. by intros ->. }
  rewrite (proj2 (Z.leb_le _ _)), andb_true_r by done.
  set (sA := s <| trace := ExtCall "select" ["500000"] :: trace s |>) in *.
  apply bind_Some in E as (u1 & s0 & E0 & E). apply bind_Some in E as (u2 & s1 & E1 & E).
  apply bind_Some in E as (o & s2 & E2 & E). apply bind_Some in E as (u3 & s3 & E3 & E). injection E as -> ->.
  assert ((bw_update ;; bw_lock) sA = Some (u2, s1)) as Eh by (unfold bind; by rewrite E0).
  pose proof (wp_use _ (fun _ s1 => timer_headed sA s1) _ _ _ Eh (wp_bw_head_timer _)) as Hh.
  pose proof (still_bw_release _ _ _ E3) as Kr. rewrite Kr.
  assert (timer s1 = timer s) as Htm by exact (proj1 Hh).
  destruct (decide (st = STATE_BACKUP_WAN_INTERFACE_ACTIVE)) as [->|Hne].
  2: { rewrite bool_decide_eq_false_2 by done. simpl. pose proof (still_other_states _ Hne _ _ _ E2) as K. split; [congruence|done]. }
  simpl in E2. apply bind_Some in E2 as (r' & s2' & E2 & E4). injection E4 as -> ->.
  apply (active_timer sA) in E2; [|done..]. change (remote_standing sA) with (remote_standing s) in E2.
  rewrite bool_decide_eq_true_2 by done. simpl andb. destruct (remote_standing s); [|by destruct E2; split].
  destruct E2 as [E2 Er], Hh as (_ & Htr & _ & _ & Hdl & _). rewrite Htr in E2, Er. split; [|exact Er].
  rewrite E2. change (timer sA) with (timer s). change (primary_is_back sA) with (primary_is_back s).
  change (trace sA) with (ExtCall "select" ["500000"] :: trace s). unfold timer_next. destruct (primary_is_back s); [|done].
  unfold timer in *. simpl. destruct (bRestorationDelayTimerStart (ctl s)) eqn:Es; [done|]. f_equal. f_equal. by apply Hdl.
Qed.
End BackupTimer.
