(* ===== verification/AutoWanChecks.v ===== *)
(** The actions of [wanmgr_policy_autowan_impl.c] outside the passes: restarting the
    health check of the interfaces, selecting the alternate interface, and the
    monitor of the addresses ([wanmgr_net_utils.c]). *)

From S2P Require Export BackupTimer.

Section Restart.
Context `{Platform} `{Build} `{MaptBuild} `{IfaceBuild} `{AutoWanBuild}.
Implicit Type s : St AutoWan_t.

(** The interfaces whose check [restart_check] restarts. *)
Definition restarts (ty : IFACE_TYPE) (I : DML_WAN_IFACE) : bool :=
  sel_Enable (if_Selection I) && (if_IfaceType I ≟ ty) && (if_BaseInterfaceStatus I ≟ WAN_IFACE_PHY_STATUS_UP)
  && match head (if_VirtIfList I) with Some v => is_tad v | None => false end.
Definition restarted (ty : IFACE_TYPE) (k : nat) (l : list DML_WAN_IFACE) : nat :=
  length (filter (fun I => restarts ty I = true) (take k l)).
Lemma restarted_S ty k l I :
  l !! k = Some I -> restarted ty (S k) l = (restarted ty k l + if restarts ty I then 1 else 0)%nat.
Proof.
  intros HI. unfold restarted. rewrite (take_S_r _ _ _ HI), filter_app, length_app. f_equal.
  rewrite filter_cons, filter_nil. by destruct (decide _), (restarts ty I).
Qed.

Lemma wp_get_first (i : nat) I v l Q s :
  ifaces s !! i = Some I -> if_VirtIfList I = v :: l -> Q v s -> wp (get_vif (i, 0%nat)) Q s.
Proof.
  intros HI Hv HQ. unfold get_vif. apply wp_bind. eapply wp_get_iface; [exact HI|].
  eapply wp_deref; [by rewrite Hv | exact HQ].
Qed.
(** The interface with the check of its first virtual interface to restart. *)
Definition ask_restart (I : DML_WAN_IFACE) : DML_WAN_IFACE :=
  I <| if_VirtIfList ::= alter (fun v => v <| v_IP; ip_RestartConnectivityCheck := true |>) 0%nat |>.
Lemma wp_ask_restart (i : nat) I v l (Q : unit -> St AutoWan_t -> Prop) s :
  ifaces s !! i = Some I -> if_VirtIfList I = v :: l ->
  (forall s', depth s' = depth s -> counts s' = counts s -> ifaces s' = <[i := ask_restart I]> (ifaces s) -> Q tt s') ->
  wp (set_ip (i, 0%nat) (fun x => x <| ip_RestartConnectivityCheck := true |>)) Q s.
Proof.
  intros HI Hv HQ. unfold set_ip, upd_vif. apply wp_bind. eapply wp_get_first; [exact HI | exact Hv|].
  eapply wp_upd_iface; [exact HI|]. apply HQ; [done..|]. exact (list_alter_at _ _ _ _ HI).
Qed.

(** What is written in the first [k] interfaces. *)
Definition restart_upto (ty : IFACE_TYPE) (k : Z) (l : list DML_WAN_IFACE) : list DML_WAN_IFACE :=
  imap (fun j I => if (Z.of_nat j <? k) && restarts ty I then ask_restart I else I) l.
Lemma restart_upto_0 ty l : restart_upto ty 0 l = l.
Proof.
  apply list_eq. intros j. unfold restart_upto. rewrite list_lookup_imap. destruct (l !! j); [|done]. simpl.
  by rewrite (proj2 (Z.ltb_ge _ _)) by lia.
Qed.
Lemma restart_upto_at ty k l I : 0 <= k -> l !! Z.to_nat k = Some I -> restart_upto ty k l !! Z.to_nat k = Some I.
Proof.
  intros Hk HI. unfold restart_upto. rewrite list_lookup_imap, HI. simpl. f_equal.
  by rewrite (proj2 (Z.ltb_ge _ _)) by lia.
Qed.
Lemma restart_upto_S ty k l I : 0 <= k -> l !! Z.to_nat k = Some I ->
  restart_upto ty (k + 1) l
  = (if restarts ty I then <[Z.to_nat k := ask_restart I]> (restart_upto ty k l) else restart_upto ty k l).
Proof.
  intros Hk HI. apply list_eq. intros j. unfold restart_upto. rewrite list_lookup_imap.
  destruct (decide (j = Z.to_nat k)) as [->|Hj].
  - rewrite HI. simpl. rewrite (proj2 (Z.ltb_lt (Z.of_nat (Z.to_nat k)) (k + 1))) by lia. simpl.
    destruct (restarts ty I).
    + rewrite list_lookup_insert_eq by (rewrite length_imap; by eapply lookup_lt_Some). done.
    + rewrite list_lookup_imap, HI. simpl. by rewrite (proj2 (Z.ltb_ge _ _)) by lia.
  - assert (forall J, (Z.of_nat j <? k + 1) && restarts ty J = (Z.of_nat j <? k) && restarts ty J) as E.
    { intros J. f_equal. destruct (Z.ltb_spec (Z.of_nat j) (k + 1)), (Z.ltb_spec (Z.of_nat j) k); lia. }
    destruct (restarts ty I); [rewrite list_lookup_insert_ne by done|];
      rewrite list_lookup_imap; (destruct (l !! j); [simpl; by rewrite E | done]).
Qed.

(** C40: restarting the health check asks for it on exactly the enabled interfaces of
    the kind whose link is up and whose check is the TAD one, and answers 0, or -1
    when there is none.  The mutex is released once too often for each of them: a
    caller that holds the mutex loses that many of its locks, one that holds none,
    as the callers of the program do, only gets an error from the surplus calls. *)
Theorem restart_check_restarts ty s :
  db_wf (db s) ->
  exists r s', restart_check ty s = Some (r, s')
    /\ ifaces s' = restart_upto ty (nifaces s) (ifaces s)
    /\ depth s' = (depth s - restarted ty (Z.to_nat (nifaces s)) (ifaces s))%nat
    /\ r = (if (restarted ty (Z.to_nat (nifaces s)) (ifaces s) =? 0)%nat then -1 else 0).
Proof.
  intros Hwf. apply wp_run. unfold restart_check. apply wp_bind, wp_get_total, wp_bind.
  set (c := fun k : Z => restarted ty (Z.to_nat k) (ifaces s)).
  apply (wp_for_acc_range (fun k r s1 => ifaces s1 = restart_upto ty k (ifaces s) /\ depth s1 = (depth s - c k)%nat
    /\ r = (if (c k =? 0)%nat then -1 else 0) /\ counts s1 = counts s)).
  - split; [by rewrite restart_upto_0|]. change (c 0) with 0%nat. by rewrite Nat.sub_0_r.
  - intros k r s1 Hk (HI & Hd & Hr & Hc). apply wp_bind.
    destruct (iface_ok_lookup s k Hwf) as (I & v & l & HIk & Hv); [lia | by apply iface_ok_in |].
    assert (c (k + 1) = (c k + if restarts ty I then 1 else 0)%nat) as Hck.
    { unfold c. replace (Z.to_nat (k + 1)) with (S (Z.to_nat k)) by lia. by apply restarted_S. }
    pose proof (restart_upto_S ty k _ I (proj1 Hk) HIk) as HSk.
    assert (ifaces s1 !! Z.to_nat k = Some I) as HI1 by (rewrite HI; apply restart_upto_at; [apply Hk | exact HIk]).
    apply wp_with_iface; intros Hok.
    2: { exfalso. revert Hok. unfold iface_ok. injection Hc as -> _. destruct (ifaces s1); [done|]. rewrite (proj2 (Z.ltb_lt _ _)) by lia. done. }
    change (ifaces (locked s1) !! Z.to_nat k = Some I) in HI1.
    apply wp_bind. eapply wp_get_iface; [exact HI1|].
    assert (Hsame : restarts ty I = false -> ifaces (unlocked (locked s1)) = restart_upto ty (k + 1) (ifaces s)
      /\ depth (unlocked (locked s1)) = (depth s - c (k + 1)%Z)%nat /\ r = (if (c (k + 1)%Z =? 0)%nat then -1 else 0)
      /\ counts (unlocked (locked s1)) = counts s).
    { intros E. rewrite unlocked_locked, HSk, Hck, E, Nat.add_0_r. done. }
    unfold restarts in HSk, Hck, Hsame. rewrite Hv in HSk, Hck, Hsame. simpl in HSk, Hck, Hsame.
    destruct (sel_Enable (if_Selection I) && (if_IfaceType I ≟ ty) && (if_BaseInterfaceStatus I ≟ WAN_IFACE_PHY_STATUS_UP));
      simpl in HSk, Hck, Hsame; [|do 2 apply wp_ret; by apply Hsame].
    apply wp_bind. eapply wp_get_first; [exact HI1 | exact Hv|].
    destruct (is_tad v); [|do 2 apply wp_ret; by apply Hsame].
    apply wp_bind. eapply wp_ask_restart; [exact HI1 | exact Hv|]. intros s2 Hd2 Hc2 HI2.
    apply wp_bind. eapply wp_intro; [reflexivity|]. do 2 apply wp_ret. cbn [fst snd].
    split; [|split; [|split]].
    + rewrite HSk, <- HI. exact HI2.
    + change (pred (pred (depth s2)) = (depth s - c (k + 1)%Z)%nat). rewrite Hd2, Hck.
      change (depth (locked s1)) with (S (depth s1)). rewrite Hd. simpl. lia.
    + by rewrite Hck, (proj2 (Nat.eqb_neq _ _)) by lia.
    + exact (eq_trans Hc2 Hc).
  - intros r s1 (HI & Hd & Hr & _). apply wp_ret. cbn [fst].
    assert (Z.max 0 (w_ulTotalNumbWanInterfaces (db s)) = nifaces s) as En.
    { destruct Hwf as [[Hn _] _]. unfold nifaces. simpl in Hn. lia. }
    rewrite En in *. done.
Qed.
End Restart.

Section Alternate.
Context `{Platform} `{Build} `{MaptBuild} `{IfaceBuild} `{AutoWanBuild}.
Implicit Type s : St AutoWan_t.
#[local] Hint Unfold request_instance request WanMgr_RdkBus_SetRequestIfComponent set_selection set_vif_status : monad.

(** An interface the automatic mode may switch to from [A]. *)
Definition alternate (A : DML_WAN_IFACE) (k : Z) (I : DML_WAN_IFACE) : bool :=
  local_only I && negb (if_uiIfaceIdx A =? k).
Lemma ctl_Transition_WaitingForInterface i : Keeps (fun s => ctl s) (Transition_WaitingForInterface i).
Proof.
  unfold Transition_WaitingForInterface.
  assert (Keeps (fun s => ctl s) Update_Interface_Status) as Hu by exact (keeps_coarser _ snd _ keeps_Update_Interface_Status).
  assert (forall p f, Keeps (fun s => ctl s) (upd_vif p f)) as Hv by (intros; by apply keeps_upd_vif).
  repeat first [apply Hu | apply Hv | keeps_step].
Qed.
Lemma upd_iface_statuses i f :
  (forall I, sel_Status (if_Selection (f I)) = sel_Status (if_Selection I)) -> Keeps (fun s => statuses s) (upd_iface i f).
Proof.
  intros Hf. apply keeps_bind; [apply keeps_get_iface | intros _]. apply keeps_modify. intros s. apply list_eq. intros j.
  etransitivity; [apply statuses_alter|]. destruct (decide _) as [->|]; [|done]. unfold statuses. rewrite list_lookup_fmap.
  destruct (ifaces s !! j); simpl; [by rewrite Hf | done].
Qed.
Lemma selects_Transition_WaitingForInterface i : Selects i WAN_IFACE_NOT_SELECTED (Transition_WaitingForInterface i).
Proof.
  unfold Transition_WaitingForInterface. apply selects_now.
  - intros s r s' E. rewrite upd_iface_run in E. destruct (ifaces s !! (i : nat)) as [I|] eqn:HI; [|done]. injection E as _ <-.
    etransitivity; [apply statuses_alter|]. by rewrite decide_True, HI.
  - intros _. repeat first [ apply statuses_Update_Interface_Status | apply statuses_upd_vif
      | apply upd_iface_statuses; reflexivity | keeps_step ].
Qed.

End Alternate.

(** ** The monitor of the addresses *)

Section Monitor.
Context `{Platform} `{Build} `{MaptBuild} `{IfaceBuild} {C : Type} `{Anchor C}.
Context (sh : Shape) (Hwf : wf_shape sh).
Implicit Type s : St C.
Lemma wp_monitor_round index counter s :
  0 <= index -> 0 <= counter <= IPMONITOR_WAIT_MAX_TIMEOUT -> framed sh s ->
  wp (monitor_round index counter) (fun o s' => framed sh s' /\ depth s' = depth s
    /\ (o = None \/ counter < IPMONITOR_WAIT_MAX_TIMEOUT /\ o = Some (counter + 1))) s.
Proof.
  intros Hi Hc Hs. unfold monitor_round. apply wp_bind, wp_get_locked; intros Hok.
  2: { apply wp_ret. auto. }
  assert (valid_iface sh (Z.to_nat index)) as Hv.
  { destruct Hs as [<- _]. by eapply iface_ok_valid. }
  assert (framed sh (locked s)) as Hs1 by done.
  apply wp_bind. eapply safe_wp; [by apply safe_get_vif, valid_first_vif | done |]. intros v s2 Hs2 Hd2 _.
  apply wp_bind. eapply safe_wp; [by apply safe_IsIPObtained | done |]. intros r s3 Hs3 Hd3 _.
  assert (forall s4, framed sh s4 -> depth s4 = depth s3 -> framed sh (unlocked s4) /\ depth (unlocked s4) = depth s) as Hend.
  { intros s4 Hs4 Hd4. split; [done|]. change (pred (depth s4) = depth s). change (depth (locked s)) with (S (depth s)) in Hd2. lia. }
  assert (forall s4 (Q : unit -> St C -> Prop), framed sh s4 -> depth s4 = depth s3 ->
    (forall s5, framed sh s5 -> depth s5 = depth s -> Q tt s5) -> wp WanMgrDml_GetIfaceData_release Q s4) as Hrel.
  { intros s4 Q Hs4 Hd4 HQ. destruct (Hend s4 Hs4 Hd4). eapply wp_intro; [reflexivity|]. by apply HQ. }
  destruct (negb _); [|destruct (Z.leb_spec IPMONITOR_WAIT_MAX_TIMEOUT counter)].
  - apply wp_bind. eapply safe_wp; [| exact Hs3 |].
    { apply safe_when. intros _. apply safe_upd_vif; [apply valid_first_vif, Hv | done]. }
    intros ? s4 Hs4 Hd4 _. apply wp_bind. eapply safe_wp; [| exact Hs4 |].
    { apply safe_when. intros _. apply safe_upd_vif; [apply valid_first_vif, Hv | done]. }
    intros ? s5 Hs5 Hd5 _. apply wp_bind, Hrel; [done | congruence |]. intros s6 Hs6 Hd6. apply wp_ret. auto.
  - apply wp_bind. eapply safe_wp; [| exact Hs3 |].
    { apply safe_upd_vif; [apply valid_first_vif, Hv | done]. }
    intros ? s4 Hs4 Hd4 _. apply wp_bind, Hrel; [done..|]. intros s6 Hs6 Hd6. apply wp_ret. auto.
  - apply wp_bind, Hrel; [done..|]. intros s4 Hs4 Hd4. apply wp_bind. eapply wp_intro; [reflexivity|]. apply wp_ret.
    split; [done|]. split; [done|]. right. split; [done|]. f_equal. unfold u32, IPMONITOR_QUERY_INTERVAL, IPMONITOR_WAIT_MAX_TIMEOUT in *.
    rewrite Z.mod_small; lia.
Qed.
(** The monitor ends, within the rounds its time-out allows. *)
Lemma wp_monitor fuel index counter s :
  0 <= index -> 0 <= counter <= IPMONITOR_WAIT_MAX_TIMEOUT -> IPMONITOR_WAIT_MAX_TIMEOUT - counter < Z.of_nat fuel ->
  framed sh s ->
  wp (ThreadWanMgr_MonitorAndUpdateIpStatus fuel index counter)
    (fun r s' => r = true /\ framed sh s' /\ depth s' = depth s) s.
Proof.
  intros Hi. revert counter s. induction fuel as [|fuel IH]; intros counter s Hc Hf Hs; [lia|]. simpl.
  apply wp_bind. eapply wp_mono; [by apply wp_monitor_round|]. intros o s1 (Hs1 & Hd1 & Ho).
  destruct Ho as [->|[Hlt ->]]; [by apply wp_ret|].
  eapply wp_mono; [apply IH; [lia | lia | done]|]. intros r s2 (-> & Hs2 & Hd2). split; [done|]. split; [done|]. congruence.
Qed.
End Monitor.

(** Started on an interface, the monitor ends after four minutes at the latest. *)
Lemma monitor_ends `{Platform} index (s : St AutoWan_t) :
  db_wf (db s) -> 0 <= index ->
  exists s', ThreadWanMgr_MonitorAndUpdateIpStatus 241 index 0 s = Some (true, s') /\ depth s' = depth s.
Proof.
  intros Hwf Hi.
  assert (wp (ThreadWanMgr_MonitorAndUpdateIpStatus 241 index 0) (fun r s' => r = true /\ depth s' = depth s) s) as Hw.
  { eapply wp_mono; [pose (X := holding (aw_held (ctl s)) (bw_held (ctl s))); apply (wp_monitor (shape_of (db s)) Hwf);
      [done | by split | done | by split; [|split]]|].
    intros r s' (-> & _ & Hd). done. }
  apply wp_run in Hw as (r & s' & E & -> & Hd). by exists s'.
Qed.
