(* ===== verification/AutoWanMode.v ===== *)
(** The mode the automatic mode records when the WAN of an interface works. *)

From S2P Require Export AutoWanChecks.

Section ModeRecorded.
Context `{Platform} `{Build} `{MaptBuild} `{IfaceBuild} `{AutoWanBuild}.
#[local] Abbreviation M := (Prelude.M (St AutoWan_t)).
Implicit Type s : St AutoWan_t.
#[local] Hint Unfold WanMgr_Rbus_EventPublishHandler publish_change publish_if config_text telemetry config_dns
  Update_Current_ActiveDNS status_iface status_vif WanMgr_RdkBus_setWanIpInterfaceData WanMgr_RdkBus_SetParamValues
  WanManager_DoSystemAction WanManager_DoSystemActionWithStatus v_secure_system set_accept_ra WanMgr_disable_ra
  wanmgr_setwanstart wanmgr_setwanstop wanmgr_sshd_restart syscfg_get WanMgr_GetWanInterfaceType
  WanMgr_Sysevent_SetConnectivityCheckState eth_link_matches psm_string set_selection : monad.

(** The device is told on the bus to reboot. *)
Definition is_mode_reboot (e : Ext) : bool :=
  match e with
  | ExtCall fn [component; path; name; value] =>
      (fn ≟ "CcspBaseIf_setParameterValues") && (component ≟ PAM_COMPONENT_NAME) && (path ≟ PAM_DBUS_PATH)
      && (name ≟ "Device.X_CISCO_COM_DeviceControl.RebootDevice") && (value ≟ "Device")
  | _ => false
  end.
Definition mode_reboots s : Z := Z.of_nat (length (filter (fun e => is_mode_reboot e = true) (trace s))).
Lemma mode_reboots_call e s : is_mode_reboot e = false -> mode_reboots (s <| trace := e :: trace s |>) = mode_reboots s.
Proof. intros He. unfold mode_reboots. rsimpl. rewrite filter_cons_False; [done | by rewrite He]. Qed.

Fixpoint last_char (x : string) : option Ascii.ascii :=
  match x with
  | EmptyString => None
  | String c EmptyString => Some c
  | String _ x => last_char x
  end.
Lemma last_char_app x c y : last_char (x +:+ String c y) = last_char (String c y).
Proof.
  induction x as [|d x IH]; [done|]. change (String d x +:+ String c y) with (String d (x +:+ String c y)).
  rewrite <- IH. by destruct x.
Qed.
Lemma lower_layers_no_reboot component path x value :
  is_mode_reboot (ExtCall "CcspBaseIf_setParameterValues" [component; path; x +:+ ".LowerLayers"; value]) = false.
Proof.
  simpl. rewrite (bool_decide_eq_false_2 (x +:+ ".LowerLayers" = _)); [by rewrite andb_false_r|].
  intros E. apply (f_equal last_char) in E. by rewrite last_char_app in E.
Qed.

(** What an interface says of its mode, and what the policy knows of it. *)
Definition mode_facts s :=
  (mode_reboots s, g_LastKnowWanMode (ctl s), g_CurrentWanMode (ctl s),
   (fun I => (if_Type I, sel_RequiresReboot (if_Selection I))) <$> ifaces s).
#[local] Abbreviation same m := (Keeps mode_facts m).

Lemma same_call e : is_mode_reboot e = false -> same (call e).
Proof. intros He s r s' [= _ <-]. unfold mode_facts. by rewrite mode_reboots_call. Qed.
Lemma same_call_s e : is_mode_reboot e = false -> same (call_s e).
Proof. intros He s r s' [= _ <-]. unfold mode_facts. by rewrite mode_reboots_call. Qed.
Lemma same_upd_iface i f :
  (forall I, (if_Type (f I), sel_RequiresReboot (if_Selection (f I))) = (if_Type I, sel_RequiresReboot (if_Selection I))) ->
  same (upd_iface i f).
Proof.
  intros Hf. apply keeps_bind; [apply keeps_get_iface | intros _]. apply keeps_modify. intros s. unfold mode_facts. f_equal.
  apply list_eq. intros j. unfold ifaces. rsimpl. rewrite !list_lookup_fmap, list_lookup_alter.
  destruct (decide _) as [->|]; [|done]. destruct (w_pIface (db s) !! j); simpl; [by rewrite Hf | done].
Qed.
Lemma same_upd_vif p f : same (upd_vif p f).
Proof. apply keeps_bind; [apply keeps_get_vif | intros _]. by apply same_upd_iface. Qed.
#[local] Hint Extern 1 (Keeps mode_facts (call _)) =>
  (apply same_call; (reflexivity || apply lower_layers_no_reboot)) : keeps.
#[local] Hint Extern 1 (Keeps mode_facts (call_s _)) => (apply same_call_s; reflexivity) : keeps.
#[local] Hint Extern 1 (Keeps mode_facts (upd_iface _ _)) => (apply same_upd_iface; reflexivity) : keeps.
#[local] Hint Resolve same_upd_vif : keeps.

Lemma same_Update_Interface_Status : same Update_Interface_Status.
Proof. unfold Update_Interface_Status. keeps_tac. Qed.
#[local] Hint Resolve same_Update_Interface_Status : keeps.
Lemma same_check_starting a : same (check_starting a).
Proof. unfold check_starting. keeps_tac. Qed.
Lemma same_StartWanClients : same StartWanClients.
Proof.
  unfold StartWanClients, GetLastKnownWanMode, puma7_clients, start_in_mode, try_secondary, try_primary, stop_secondary_clients,
    stop_primary_clients. keeps_tac.
Qed.
#[local] Hint Resolve same_check_starting same_StartWanClients : keeps.

(** ** The writes *)

#[local] Abbreviation facts := (Z * Z * Z * list (DML_WAN_IFACE_TYPE * bool))%type.
Definition recorded (m : Z) (x : facts) : facts := (x.1.1.1, m, m, x.2).
Definition rebooted (x : facts) : facts := (x.1.1.1 + 1, x.1.1.2, x.1.2, x.2).
(** The facts after [m] are those before it, changed by [f]. *)
Definition Turns {A} (f : facts -> facts) (m : M A) : Prop :=
  forall s r s', m s = Some (r, s') -> mode_facts s' = f (mode_facts s).
Lemma turns_before {A B} f (m : M A) (k : A -> M B) : same m -> (forall r, Turns f (k r)) -> Turns f (bind m k).
Proof. intros Hm Hk s r s' E. mrun E. rewrite (Hk _ _ _ _ E). f_equal. exact (Hm _ _ _ E0). Qed.
Lemma turns_after {A B} f (m : M A) (k : A -> M B) : Turns f m -> (forall r, same (k r)) -> Turns f (bind m k).
Proof. intros Hm Hk s r s' E. mrun E. etransitivity; [exact (Hk _ _ _ _ E) | exact (Hm _ _ _ E0)]. Qed.
Lemma turns_seq {A B} f g (m : M A) (k : A -> M B) :
  Turns f m -> (forall r, Turns g (k r)) -> Turns (fun x => g (f x)) (bind m k).
Proof. intros Hm Hk s r s' E. mrun E. rewrite (Hk _ _ _ _ E). f_equal. exact (Hm _ _ _ E0). Qed.
Lemma turns_lock_mode m : Turns (recorded m) (lock_mode m).
Proof.
  assert (Turns (fun x => (x.1.1.1, m, x.1.2, x.2)) (SetLastKnownWanMode m)) as Hl.
  { unfold SetLastKnownWanMode. apply turns_after; [by intros s r s' [= _ <-] | intros _; keeps_tac]. }
  assert (Turns (fun x => (x.1.1.1, x.1.1.2, m, x.2)) (SetCurrentWanMode m)) as Hc.
  { unfold SetCurrentWanMode. apply turns_after; [by intros s r s' [= _ <-] | intros _; unfold GetEthLink; keeps_tac]. }
  exact (turns_seq _ _ _ _ Hl (fun _ => Hc)).
Qed.
Lemma turns_reboot : Turns rebooted AutoWan_BkupAndReboot.
Proof.
  unfold AutoWan_BkupAndReboot. do 2 (apply turns_before; [keeps_tac | intros _]). apply turns_after; [|intros; keeps_tac].
  unfold WanMgr_RdkBus_SetParamValues. apply turns_after; [|intros; keeps_tac].
  intros s r s' [= _ <-]. unfold mode_facts, rebooted. simpl. f_equal. f_equal. f_equal.
  unfold mode_reboots. rsimpl. rewrite filter_cons_True by reflexivity. simpl. lia.
Qed.
Lemma same_restore a :
  same (v <- get_vif (vif0 a) ;;
        when (FEATURE_TAD_HEALTH_CHECK && is_tad v) (
          WanMgr_Sysevent_SetConnectivityCheckState true NET_CONNNECTIVITY_CHECK_STARTING ;;
          wanmgr_setwanstart) ;;
        ret STATE_WAN_INTERFACE_UP).
Proof. keeps_tac. Qed.

Lemma same_set_selection a st : same (set_selection a st).
Proof. keeps_tac. Qed.
Lemma turns_mode_detected A m :
  Turns (fun x => if sel_RequiresReboot (if_Selection A) then rebooted (recorded m x) else recorded m x) (mode_detected A m).
Proof.
  unfold mode_detected. destruct (sel_RequiresReboot _).
  - apply (turns_seq (recorded m) rebooted); [apply turns_lock_mode | intros _; apply turns_reboot].
  - apply turns_after; [apply turns_lock_mode | intros _; keeps_tac].
Qed.
(** Without permission to change the mode freely, the interface needs a reboot. *)
Lemma reboot_needed a A s r s' :
  ifaces s !! (a : nat) = Some A ->
  when (negb ENABLE_WANMODECHANGE_NOREBOOT) (upd_iface a (fun I => I <| if_Selection; sel_RequiresReboot := true |>)) s
    = Some (r, s') ->
  (mode_facts s').1 = (mode_facts s).1 /\
  (mode_facts s').2 !! (a : nat) =
    Some (if_Type A, negb ENABLE_WANMODECHANGE_NOREBOOT || sel_RequiresReboot (if_Selection A)).
Proof.
  intros HA E. destruct ENABLE_WANMODECHANGE_NOREBOOT; simpl in E.
  - injection E as <- <-. split; [done|]. unfold mode_facts. simpl. by rewrite list_lookup_fmap, HA.
  - rewrite upd_iface_run, HA in E. injection E as _ <-. split; [done|].
    unfold mode_facts. simpl. rewrite list_lookup_fmap. unfold ifaces in *. rsimpl. by rewrite list_lookup_alter_eq, HA.
Qed.
Lemma facts_at s1 s a (A A1 : DML_WAN_IFACE) :
  mode_facts s1 = mode_facts s -> ifaces s1 !! (a : nat) = Some A1 -> ifaces s !! (a : nat) = Some A ->
  if_Type A1 = if_Type A /\ sel_RequiresReboot (if_Selection A1) = sel_RequiresReboot (if_Selection A).
Proof.
  intros F H1' HA. pose proof (f_equal (fun x => x.2 !! (a : nat)) F) as F'. unfold mode_facts in F'. simpl in F'.
  rewrite !list_lookup_fmap, H1', HA in F'. by injection F' as -> ->.
Qed.
Lemma facts_some s1 s a (A : DML_WAN_IFACE) :
  mode_facts s1 = mode_facts s -> ifaces s !! (a : nat) = Some A -> is_Some (ifaces s1 !! (a : nat)).
Proof.
  intros F HA. pose proof (f_equal (fun x => x.2 !! (a : nat)) F) as F'. unfold mode_facts in F'. simpl in F'.
  rewrite !list_lookup_fmap, HA in F'. destruct (ifaces s1 !! (a : nat)) as [A1|]; [by exists A1 | done].
Qed.

(** The mode of an interface, as the automatic mode sees it from the last known mode;
    none when that is neither the primary nor the secondary one. *)
Definition detected_mode (last : Z) (ty : DML_WAN_IFACE_TYPE) : option Z :=
  if last =? WAN_MODE_PRIMARY then Some (if ty ≟ WAN_IFACE_TYPE_SECONDARY then WAN_MODE_SECONDARY else WAN_MODE_PRIMARY)
  else if last =? WAN_MODE_SECONDARY then Some (if ty ≟ WAN_IFACE_TYPE_PRIMARY then WAN_MODE_PRIMARY else WAN_MODE_SECONDARY)
  else None.
End ModeRecorded.

Section ModeClaim.
Context `{Platform} `{Build} `{MaptBuild} `{IfaceBuild} `{AutoWanBuild}.
Implicit Type s : St AutoWan_t.

(** C25: when the WAN of an interface works, its mode becomes both the current and
    the last known one, if the last known one is the primary or the secondary mode;
    else both stay.  The device is told to reboot exactly when that changes the last
    known mode and the change needs a reboot, and then once. *)
Theorem mode_recorded a A s st s' :
  pc_pWanActiveIfaceData (aw_wanPolicyCtrl (ctl s)) = Some a -> ifaces s !! (a : nat) = Some A ->
  Transition_WanInterfaceUp s = Some (st, s') ->
  let last := g_LastKnowWanMode (ctl s) in
  let mode := detected_mode last (if_Type A) in
  st = STATE_WAN_INTERFACE_UP /\ g_LastKnowWanMode (ctl s') = default last mode
  /\ g_CurrentWanMode (ctl s') = default (g_CurrentWanMode (ctl s)) mode
  /\ mode_reboots s' = mode_reboots s +
       (if negb (default last mode =? last)
           && (negb ENABLE_WANMODECHANGE_NOREBOOT || sel_RequiresReboot (if_Selection A)) then 1 else 0).
Proof.
  intros Ha HA E last mode. unfold Transition_WanInterfaceUp, with_active in E.
  mrun E. injection E0 as <- <-. mrun E. injection E0 as <- <-. rewrite Ha in E.
  do 6 mrun E. rewrite get_iface_run in E4. destruct (ifaces s3 !! (a : nat)) as [A'|] eqn:HA3; [|done].
  injection E4 as <- <-.
  assert (mode_facts s1 = mode_facts s) as F1.
  { etransitivity; [exact (same_Update_Interface_Status _ _ _ E1) | exact (same_set_selection _ _ _ _ _ E0)]. }
  pose proof (same_check_starting _ _ _ _ E3) as F3. pose proof (same_restore _ _ _ _ E) as F5.
  destruct (facts_some _ _ _ _ F1 HA) as [A1 HA1]. destruct (facts_at _ _ _ _ _ F1 HA1 HA) as [HT HR].
  destruct (reboot_needed a A1 _ _ _ HA1 E2) as [F2 HA2]. rewrite HT, HR in HA2.
  rewrite <- F3 in HA2. unfold mode_facts in HA2 at 1. simpl in HA2. rewrite list_lookup_fmap, HA3 in HA2.
  injection HA2 as HT' HR'. rewrite F1, <- F3 in F2.
  assert (st = STATE_WAN_INTERFACE_UP) as -> by (do 2 mrun E; by injection E as <- _).
  split; [done|]. rewrite <- HR' in *.
  assert ((mode_facts s5).1 =
    (mode_reboots s + (if negb (default last mode =? last) && sel_RequiresReboot (if_Selection A') then 1 else 0),
     default last mode, default (g_CurrentWanMode (ctl s)) mode)) as F.
  { subst mode. unfold detected_mode. rewrite <- HT'. subst last.
    destruct (Z.eqb_spec (g_LastKnowWanMode (ctl s)) WAN_MODE_PRIMARY) as [Hl|Hl];
      [|destruct (Z.eqb_spec (g_LastKnowWanMode (ctl s)) WAN_MODE_SECONDARY) as [Hl2|Hl2]]; cbn [when] in E5.
    3: { injection E5 as _ <-. rewrite F2. unfold mode_facts. simpl. by rewrite Z.eqb_refl, Z.add_0_r. }
    all: assert ((mode_facts s3).1.1.1 = mode_reboots s) as Fr by (by rewrite F2).
    1: rewrite ?Hl; destruct (if_Type A' ≟ WAN_IFACE_TYPE_SECONDARY).
    3: rewrite ?Hl2; destruct (if_Type A' ≟ WAN_IFACE_TYPE_PRIMARY).
    all: first [apply turns_mode_detected in E5 | apply turns_lock_mode in E5]; rewrite E5;
      destruct (sel_RequiresReboot (if_Selection A')); unfold rebooted, recorded; simpl; simpl in Fr; rewrite ?Fr, ?Z.add_0_r; done. }
  rewrite <- F5 in F. unfold mode_facts in F. simpl in F. injection F as -> -> ->. done.
Qed.
End ModeClaim.
