(* ===== verification/AutoWanWitnesses.v ===== *)
(** The properties of [wanmgr_policy_autowan_impl.c] on the sample of
    [AutoWanSample]: both threads run until the primary interface is up and the
    remote one stands by behind it, and the properties apply to what follows. *)

From S2P Require Export AutoWanMode.

(** The default route is there from the third check on. *)
Definition third_check (h : list Ext) : bool :=
  (2 <=? length (filter (fun e => (match e with ExtCall f args => (f ≟ "usleep") && (args ≟ ["500000"]) | _ => false end) = true) h))%nat.
#[local] Instance witness_platform : Platform := aw_platform third_check 100.
#[local] Abbreviation w_st0 := (sample_world_state [sample_local; sample_remote] ∅).
#[local] Abbreviation w_rounds := [false; true; true; true; true; true; true; true; false; false; false; false; false; false].
Definition state_of (w : option AutoWanWorld) : St AutoWan_t := match w with Some (_, _, s) => s | None => w_st0 end.
Definition result_of {A} (r : option (A * St AutoWan_t)) : St AutoWan_t := match r with Some (_, s) => s | None => w_st0 end.
#[local] Abbreviation w_standby := (state_of (run_rounds w_rounds (first_world w_st0))).
(** The standby after the primary WAN has stopped. *)
Definition stopped_events : gmap string string :=
  <[SYSEVENT_WAN_ROUTED_STATUS := "stopped"%string]>
  (<[SYSEVENT_WAN_SERVICE_STATUS := "stopped"%string]> (<[SYSEVENT_WAN_STATUS := "stopped"%string]> ∅)).
#[local] Abbreviation w_lost :=
  (w_standby <| sys := stopped_events |> <| trace := [] |> <| ctl; TelemetryBackUpStatus := STATUS_SWITCHOVER_STARTED |>).

Lemma w_memory : memory_available.
Proof. intros h. done. Qed.
Lemma w_resolv : resolv_conf_readable.
Proof. intros h. vm_compute. repeat constructor. by eexists. Qed.
Lemma w_wf0 : db_wf (db w_st0).
Proof. apply db_wfb_wf. by vm_compute. Qed.
Lemma w_small0 : nifaces w_st0 < 2 ^ 32.
Proof. by vm_compute. Qed.
Lemma w_reach :
  autowan_reach w_st0 (FIXED_MODE_RUNNING STATE_WAN_INTERFACE_UP, BACKUP_RUNNING STATE_BACKUP_WAN_INTERFACE_UP, w_standby).
Proof. apply (run_rounds_reach w_rounds). vm_compute. exact eq_refl. Qed.

Lemma autowan_typed_witness :
  shape_of (db w_standby) = shape_of (db w_st0) /\ depth w_standby = depth w_st0
  /\ phase_typed (shape_of (db w_standby)) (FIXED_MODE_RUNNING STATE_WAN_INTERFACE_UP)
  /\ FIXED_MODE_RUNNING STATE_WAN_INTERFACE_UP <> AUTO_MODE_RUNNING STATE_AUTOWAN_VALIDATED_INTERFACE
  /\ backup_typed (BACKUP_RUNNING STATE_BACKUP_WAN_INTERFACE_UP).
Proof. exact (autowan_typed _ _ _ _ w_memory w_resolv w_wf0 w_small0 w_reach). Defined.

Lemma autowan_progress_witness :
  exists st' s', bw_iteration STATE_BACKUP_WAN_INTERFACE_UP w_standby = Some (Some st', s')
    /\ autowan_reach w_st0 (FIXED_MODE_RUNNING STATE_WAN_INTERFACE_UP, BACKUP_RUNNING st', s')
    /\ (st' = STATE_BACKUP_WAN_INTERFACE_UP \/ st' ∈ bw_next (bw_locks w_standby) STATE_BACKUP_WAN_INTERFACE_UP).
Proof. exact (proj2 (autowan_progress _ _ _ _ w_memory w_resolv w_wf0 w_small0 w_reach) _ eq_refl). Defined.

Lemma w_lost_wf : db_wf (db w_lost).
Proof. apply db_wfb_wf. vm_compute. exact eq_refl. Qed.
#[local] Abbreviation w_active := (result_of (bw_iteration STATE_BACKUP_WAN_INTERFACE_UP w_lost)).
Lemma backup_needs_primary_gone_witness :
  cfg_Enable (config w_lost) = true /\ cfg_AllowRemoteInterfaces (config w_lost) = true
  /\ ((STATE_BACKUP_WAN_INTERFACE_UP = STATE_BACKUP_WAN_INTERFACE_UP
       \/ STATE_BACKUP_WAN_INTERFACE_UP = STATE_BACKUP_WAN_INTERFACE_INACTIVE)
         /\ primary_stopped w_lost /\ checks_bad (backup_iface w_lost) w_lost
      \/ STATE_BACKUP_WAN_INTERFACE_UP = STATE_BACKUP_WAN_WAITING
         /\ (no_local_up w_lost \/ FEATURE_TAD_HEALTH_CHECK = true /\ checked (backup_iface w_lost) w_lost
              /\ ~ local_check_good (backup_iface w_lost) w_lost)).
Proof.
  apply (backup_needs_primary_gone STATE_BACKUP_WAN_INTERFACE_UP w_lost w_active w_lost_wf).
  - vm_compute. exact eq_refl.
  - discriminate.
  - vm_compute. exact eq_refl.
Defined.

(** The route is found by the third check, within the nine that count. *)
#[local] Abbreviation w_remote := (nth 1 (ifaces w_lost) sample_remote).
#[local] Abbreviation w_remote_vif := (hd (sample_vif WAN_IFACE_STATUS_DISABLED) (if_VirtIfList w_remote)).
Lemma backup_activation_witness :
  link_ready w_remote w_remote_vif
  /\ (exists s1 j, prepare_activation 1%nat w_remote_vif w_lost = Some (true, s1) /\ (j < 9)%nat /\ route_at 1%nat j s1)
  /\ statuses (result_of (Transition_BackupWanInterfaceActive w_lost)) !! 1%nat = Some WAN_IFACE_ACTIVE.
Proof.
  destruct (backup_activation 1%nat w_remote w_remote_vif w_lost STATE_BACKUP_WAN_INTERFACE_ACTIVE
    (result_of (Transition_BackupWanInterfaceActive w_lost))) as [Ha Hs].
  - vm_compute. exact eq_refl.
  - vm_compute. exact eq_refl.
  - vm_compute. exact eq_refl.
  - vm_compute. exact eq_refl.
  - destruct (proj1 Ha eq_refl) as [Hl Hr]. exact (conj Hl (conj Hr Hs)).
Defined.

(** The primary link is back and the delay has passed. *)
#[local] Abbreviation w_expired :=
  (w_active <| ctl; bRestorationDelayTimerStart := true |> <| ctl; RestorationDelayTimer := 50 |>).
Lemma w_expired_wf : db_wf (db w_expired).
Proof. apply db_wfb_wf. vm_compute. exact eq_refl. Qed.
Lemma backup_restoration_timer_witness :
  let s' := result_of (bw_iteration STATE_BACKUP_WAN_INTERFACE_ACTIVE w_expired) in
  timer w_expired = (true, 50) /\ timer s' = (false, 0)
  /\ timer_result w_expired (ClockGettime :: ExtCall "select" ["500000"] :: trace w_expired) true
       STATE_BACKUP_WAN_INTERFACE_INACTIVE.
Proof.
  pose proof (backup_restoration_timer STATE_BACKUP_WAN_INTERFACE_ACTIVE w_expired STATE_BACKUP_WAN_INTERFACE_INACTIVE
    (result_of (bw_iteration STATE_BACKUP_WAN_INTERFACE_ACTIVE w_expired)) eq_refl w_expired_wf) as Hw.
  assert (bw_iteration STATE_BACKUP_WAN_INTERFACE_ACTIVE w_expired
    = Some (Some STATE_BACKUP_WAN_INTERFACE_INACTIVE, result_of (bw_iteration STATE_BACKUP_WAN_INTERFACE_ACTIVE w_expired))) as E
    by (vm_compute; exact eq_refl).
  assert (nifaces w_expired < 2 ^ 32) as Hn by (vm_compute; exact eq_refl).
  assert (timer w_expired = (true, 50)) as T1 by (vm_compute; exact eq_refl).
  assert ((STATE_BACKUP_WAN_INTERFACE_ACTIVE ≟ STATE_BACKUP_WAN_INTERFACE_ACTIVE)
    && (0 <=? answer (trace w_expired) (ExtCall "select" ["500000"])) && remote_standing w_expired = true) as C
    by (vm_compute; exact eq_refl).
  assert (primary_is_back w_expired = true) as B by (vm_compute; exact eq_refl).
  assert (answer (ExtCall "select" ["500000"] :: trace w_expired) ClockGettime = 100) as N by (vm_compute; exact eq_refl).
  specialize (Hw Hn E). cbv zeta in Hw. rewrite C, B, N, T1 in Hw. exact (conj T1 Hw).
Defined.

(** Two primary interfaces with the health check. *)
Definition sample_checked : DML_WAN_IFACE :=
  sample_local <| if_VirtIfList :=
    [(sample_vif WAN_IFACE_STATUS_DISABLED) <| v_IP; ip_ConnectivityCheckType := WAN_CONNECTIVITY_TYPE_TAD |>] |>.
#[local] Abbreviation w_checked := (sample_world_state [sample_checked; sample_checked] ∅).
Lemma restart_check_restarts_witness :
  exists r s', restart_check LOCAL_IFACE w_checked = Some (r, s')
    /\ ifaces s' = restart_upto LOCAL_IFACE (nifaces w_checked) (ifaces w_checked) /\ depth s' = 0%nat /\ r = 0.
Proof. apply (restart_check_restarts LOCAL_IFACE w_checked). apply db_wfb_wf. vm_compute. exact eq_refl. Defined.

#[local] Abbreviation w_local :=
  ((sample_world_state [sample_local; sample_local <| if_uiIfaceIdx := 1 |>] ∅)
     <| ctl := sample_autowan <| aw_wanPolicyCtrl; pc_pWanActiveIfaceData := Some 0%nat |> |>).

(** The last known mode was the secondary one, and the primary interface works. *)
#[local] Abbreviation w_switched := (w_standby <| ctl; g_LastKnowWanMode := WAN_MODE_SECONDARY |>).
Lemma mode_recorded_witness :
  STATE_WAN_INTERFACE_UP = STATE_WAN_INTERFACE_UP
  /\ g_LastKnowWanMode (ctl (result_of (Transition_WanInterfaceUp w_switched))) = WAN_MODE_PRIMARY
  /\ g_CurrentWanMode (ctl (result_of (Transition_WanInterfaceUp w_switched))) = WAN_MODE_PRIMARY
  /\ mode_reboots (result_of (Transition_WanInterfaceUp w_switched)) = mode_reboots w_switched + 1.
Proof.
  assert (exists A, ifaces w_switched !! 0%nat = Some A /\ if_Type A = WAN_IFACE_TYPE_PRIMARY) as (A & HA & HT).
  { vm_compute. eexists. split; exact eq_refl. }
  pose proof (mode_recorded 0%nat A w_switched STATE_WAN_INTERFACE_UP (result_of (Transition_WanInterfaceUp w_switched))) as Hw.
  assert (pc_pWanActiveIfaceData (aw_wanPolicyCtrl (ctl w_switched)) = Some 0%nat) as Ha by (vm_compute; exact eq_refl).
  assert (Transition_WanInterfaceUp w_switched
    = Some (STATE_WAN_INTERFACE_UP, result_of (Transition_WanInterfaceUp w_switched))) as E by (vm_compute; exact eq_refl).
  specialize (Hw Ha HA E). rewrite HT in Hw. exact Hw.
Defined.
